(* ===== verification/_CoqProject ===== *)
-Q . S2P
Prelude.v
GoStrings.v
GoValue.v
Confmap.v
Regexp.v
Filters.v
ConfigSource.v
ConfigSourceProofs.v
ConfigProvider.v
ConfigSources.v
Converters.v
DPFilters.v
ServiceConverters.v
Settings.v
Collector.v
DiscoveryReceiver.v
StatusSources.v
Correlations.v
DiscoveryEvaluator.v
EndpointTracker.v
DiscoveryProperties.v
ConfigD.v
Discoverer.v
DiscoveryService.v
Telemetry.v
TimestampProcessor.v
LightPrometheus.v
PrometheusRemoteWrite.v
SmartAgent.v
GoNumbers.v
StatsD.v
ScriptedInputs.v
HTTPSink.v
HostMonitors.v
HAProxy.v
Subproc.v
Telegraf.v
Leadership.v
K8sObjects.v
K8sDimensions.v
K8sCluster.v
Outcome.v
Collectd.v
SQLMonitor.v
ESQuery.v
Docker.v
DatabricksMetadata.v
Databricks.v
Cadvisor.v
VSphere.v
EsStats.v
GoText.v
Cgroups.v
K8sEvents.v
MigrateCheckpoint.v
Expvar.v
SQLQueries.v
Postgres.v
SmartAgentReceiver.v
DiscoveryBundle.v
DiscoveryStart.v
Nagios.v
HTTPCheck.v
JaegerGRPC.v
PrometheusExporter.v
ProcessList.v
Logstash.v
ECS.v
MongoAtlas.v
