(* ===== verification/Prelude.v ===== *)
(** * Verification library for the Splunk distribution of the OpenTelemetry Collector

    The collector reads its configuration from files, environment variables and
    command line options, expands the [$...] directives in it with the help of
    config sources, runs converters over it and starts the service; its
    SignalFx heritage brings datapoint filters, and its discovery receiver starts
    receivers for the endpoints that observers find and judges their metrics and
    log statements.  Its discovery provider turns bundled and user-given entries
    into such a configuration before the service starts; its own receivers,
    processors and exporters translate telemetry, and the smart agent receiver
    runs the monitors of the SignalFx agent.  This library models that core in
    Gallina, translated from the Go sources under [src/], and proves what makes
    it correct.  Pure Go functions are functions, fallible ones return [res]
    (a Go [(T, error)]; a panic or [log.Fatal] is an [Err] too), goroutines are
    functions of the events they receive or step relations, shared mutable state
    is passed explicitly.

    ** Parts of the program and the files that model them

    - [Prelude]: errors and results, the loops with an early return
      ([mapM_res], [foldM_res]), the iteration order of Go maps (class
      [MapRange]: any permutation of the entries), automation.
    - [GoStrings], [GoValue], [Regexp]: what the code uses of Go's [strings],
      [strconv], [fmt] and [regexp] packages: byte strings, the dynamic type
      [any] of configuration values, and a backtracking matcher with the
      leftmost-first semantics that [regexp] documents, proved sound and
      complete for a declarative matching relation.
    - [Confmap]: the interface of [confmap.Conf] (a third-party type) as the
      class [Confmap] with the laws [ConfmapLaws]; [flat_confmap] is an instance
      that satisfies them.  Clients are proved against the class.
    - [ConfigSource], [ConfigSourceProofs]: [src/internal/configsource/source.go],
      the scanner and the recursive expansion of [$name], [${name}],
      [$source:selector] and [${source:selector?params}] with the closing of
      what was retrieved.
    - [ConfigProvider]: [configsource/settings.go] and
      [confmapprovider/configsource/provider.go], from the [config_sources]
      section to the wrapped provider.
    - [ConfigSources]: the five config sources (environment variables, include,
      zookeeper, etcd2, vault), constructors, retrieval and watchers.
    - [Converters], [DPFilters], [ServiceConverters]: [internal/configconverter],
      all converters, its copy of the datapoint filters, the debug config server
      and dry run.
    - [Settings], [Collector]: [internal/settings/settings.go], flags,
      environment, memory settings, resolver URIs and the order of the
      converters.
    - [Filters]: the agent's string and datapoint filters
      ([signalfx-agent/pkg/utils/filter], [core/dpfilters],
      [core/config/filters.go]).
    - [DiscoveryReceiver], [StatusSources], [Correlations], [DiscoveryEvaluator],
      [EndpointTracker]: [internal/receiver/discoveryreceiver], in this order: the
      configuration and its validation; the identifiers recovered from logger
      names and resources; the store of correlations between endpoints,
      observers and receivers, with its concurrent use as the step relation
      [Correlations.step]; the evaluation of metrics and statements; the
      notifications of observers and the life cycle ([lstep]).  [DiscoveryStart]
      has the start and the shutdown of the receiver with all their error paths.
    - [DiscoveryProperties], [ConfigD], [Discoverer], [DiscoveryService]:
      [internal/confmapprovider/discovery]: the properties, the two grammars that
      read them and their encoding in environment variables, the config directory and its merging with the
      bundle, the statuses collected while discovery runs, and the provider with
      its four schemes.
    - [DiscoveryBundle]: the bundle's templates, their functions and generator;
      the factories of the distribution ([internal/components]) and the wiring of
      [cmd/otelcol].
    - [Telemetry]: the telemetry data of the collector (resources, metrics,
      points, logs, spans) that the components below share.
    - [TimestampProcessor]: [pkg/processor/timestampprocessor].
    - [LightPrometheus]: [internal/receiver/lightprometheusreceiver].
    - [PrometheusRemoteWrite]:
      [internal/receiver/signalfxgatewayprometheusremotewritereceiver], its
      goroutines as the step relation [PrometheusRemoteWrite.step].
    - [SmartAgent], [SmartAgentReceiver]: [pkg/receiver/smartagentreceiver]:
      conversion, filtering, outputs, configuration and life cycle; the loggers
      redirected to zap, the fields set by reflection, the receivers shared by
      pipelines and the creation of a monitor; [pkg/extension/smartagentextension].
    - [ScriptedInputs]: [internal/receiver/scriptedinputsreceiver]; the
      goroutines of a cycle are the relation [inner], the loop around them
      [ScriptedInputs.step].
    - [HTTPSink]: [internal/exporter/httpsinkexporter].
    - [GoNumbers], [GoText], [Outcome]: Go's number parsing, text scanning and
      decoding, and computations that return, fail or panic.
    - Monitors of the SignalFx agent, under [signalfx-agent/pkg/monitors] unless
      another directory is named.  [StatsD] ([statsd]), [HostMonitors] ([cpu],
      [netio], [filesystems]), [HAProxy] ([haproxy]), [Subproc] ([subproc], the
      frames exchanged with a Python process and the loop that reads them),
      [Telegraf] ([telegraf/common]), [Collectd] ([collectd], the life of the
      collectd process), [SQLMonitor] ([sql]), [ESQuery] and [EsStats]
      ([elasticsearch/query], [elasticsearch/stats]), [Docker] ([docker] and
      [pkg/core/common/docker]), [Cadvisor] ([cadvisor]), [VSphere] ([vsphere]),
      [Cgroups] ([cgroups]), [Expvar] ([expvar]), [SQLQueries] (the queries of
      [postgresql] and [hana]) and [Postgres] ([postgresql], [hana]), [Nagios]
      ([nagios]), [HTTPCheck] ([http]), [JaegerGRPC] ([jaegergrpc]),
      [PrometheusExporter] ([prometheusexporter]), [ProcessList] ([processlist]),
      [Logstash] ([logstash]), [ECS] ([ecs] and [pkg/core/common/ecs]),
      [MongoAtlas] ([mongodb/atlas]).
    - The Kubernetes monitors: [Leadership] ([kubernetes/leadership], the election),
      [K8sObjects], [K8sDimensions], [K8sCluster] ([kubernetes/cluster]: the objects
      of the API, the dimensions and properties made from them, the cache and the
      metrics), [K8sEvents] ([kubernetes/events], [kubernetes/volumes]).
    - [DatabricksMetadata], [Databricks]: [internal/receiver/databricksreceiver],
      the generated metric builder and the REST client, the run tracker and the
      scraper.
    - [MigrateCheckpoint]: [cmd/migratecheckpoint].

    Definitions keep the source's names; a loop body or the rest of a long
    function that has no name in the source gets one of its own next to it.

    ** What the theorems show

    - Expansion ([ConfigSourceProofs]): the index-based loop equals a reference
      semantics on segments; it terminates; escaping round-trips; the close
      function holds a close for every retrieval of the trace, in order; unknown
      sources fail; a directive gives what its source retrieves.
    - Providers and sources: the settings section is removed and nothing else;
      the built sources are the configured ones; a wrapped retrieval closes what
      its config sources retrieved and what it wraps, or nothing when it falls back
      to the raw value; vault accepts exactly one authentication method, finds dotted
      keys and notices a changed version; the include source watches a file
      once.
    - Converters: which leaves each converter moves, rewrites, drops and keeps,
      for every configuration that satisfies the stated no-clash condition;
      idempotence where the code means it; redaction and its limits; the
      debug server listens at most once in every interleaving; dry run keeps its
      lock after an error.
    - Settings: the priority of the configuration sources, the memory defaults
      within the 64-bit range, the default environment, URI parsing.
    - Filters: refinement of the string and datapoint filters to the
      declarative meaning of their item lists, and where the verdict depends on
      the order of the items or of map iteration.
    - Discovery receiver: validation accepts exactly the well-formed
      configurations; identifiers round-trip through generated names and
      through the receiver templates; in every interleaving [GetOrCreate] finds
      its sentinel and never replaces a correlation, sequentially it returns the
      last update, and one interleaving loses an update; the reaper drops
      exactly the stale endpoints; evaluation is sound and complete for the
      configured matches and first-only matches fire once; notifications touch
      the notified endpoints only; the consumer loop loses nothing, but shutdown
      can panic; whatever fails while it starts, a shutdown spawns the
      cancellation of exactly what the start subscribed.
    - Discovery provider: the encoding of names in environment variables
      round-trips, and so does the printing of properties through the two grammars;
      loading and merging a config directory give exactly the classified and
      the user's entries; statuses only get better; the default configuration
      shared between observers leaks from one to the other; the generated bundle
      is current, and the option and the variable that a template documents mean
      the same property.
    - Receivers, processor and exporter: offsets are exact modulo 2^64;
      histograms keep their counts; a write request becomes one metric per
      named series and what is accepted is delivered in order until the first
      error ends delivery; a monitor's output sends exactly what its filters
      include; a script's cycle completes within its interval, and no cycle
      starts again after a script that fails by itself; a sink's answer holds what matched.
    - Monitors: statsd patterns and lines round-trip through their prints, the
      first matching converter wins, counters are summed and gauges replaced;
      the network total is the sum of the counters; haproxy reports exactly the
      known statistics of the selected rows; the events of a nagios check are its
      changes; the identifiers of a Jaeger span are kept; the URLs of http checks
      have a stable form; the CPU times of listed processes are remembered; a
      logstash answer gives exactly the leaves that are metrics; the ECS monitor
      reports only the containers that are not excluded; the pages of an Atlas
      project are complete, but only one partition of a host is measured.
    - The smart agent receiver: an endpoint sets the host and the port fields that
      Go's selector rule promotes and leaves every other field alone; a
      configuration has one receiver, whatever pipelines share it; a monitor's
      message is written once, to its own logger, and not by the standard one.
    - Processes and clusters: frames written to a subprocess are read back and the
      reader ends with the stream; at most one collectd process lives in all runs
      together and the last shutdown leaves none, but a request can be lost to the run before; an informer of events
      runs only with the leader, until a third notice panics; the cluster's cache
      refines the set of objects, with the points of their last conversion, and the tags of services are complete.
    - Collections: what a query, an aggregation, an inventory, a container, a page of
      counters, a cgroup, a volume or a path of keys contributes is exactly what its
      configuration selects; collections end for enough fuel, do not panic where the
      configuration is validated, and clear what they report; the scrapes of
      databricks find every new run of a known job and none twice; elasticsearch
      points carry the cluster; a volume keeps the dimensions of the first answer; every postgresql database is watched by at most one running monitor,
      and by one exactly if it is listed and selected.
    - Migration: the databases hold the converted positions; a migration that was
      aborted after its database was created is not retried, one that stops at a
      line longer than the scanner's limit is.

    ** Fuel and bounds

    [resolveStringValue] takes fuel for the nesting of selectors and parameters;
    [None] means out of fuel and [resolveStringValue_terminates] shows that fuel
    above the number of graphic ASCII bytes of the string is enough, under the
    class [DecodingLaws] (decoding a parameter adds no such bytes).
    [endpointEnvToAttrs] recurses once, for the pod of a port, so fuel 1 is
    enough ([is_ok_endpointEnvToAttrs] holds for any larger one).
    [expandLoop], [segments], [countMatches] and [star_loop] count iterations with the length of
    the string, which each iteration shortens.  Integers are [Z]; [Settings]
    keeps the 64-bit wrap-around ([wrap64]) of its products.  Floats are IEEE
    binary64 ([spec_float]) and their text is a parameter.
    [unwordifyLoop] and the loop of [ParseDuration] count with the length of the
    text, which each round shortens.  Counters of the monitors and timestamps are
    reduced modulo 2^64 where Go reduces them.
    The readers of [Subproc] take fuel above the bytes of the stream, the pages of
    [Databricks] above the length of the list, [VSphere.fetchLoop] above the
    number of objects, [Cgroups.walkLoop] the number of directories and
    [Expvar.capWords] the length of the text, [MongoAtlas.listPages] the number of
    pages and [JaegerGRPC.hexDigits] the digits of 64 bits; the theorems state that
    these suffice.

    ** What is not modelled

    Log output; HTTP, YAML, template, fsnotify, gopsutil, Kubernetes, docker, cadvisor,
    vSphere, gRPC and SQL clients, URL parsing and the decoding of exposition formats
    (parameters); the text of [%T]; the service that the collector's library runs.
    Of the agent: the monitors that only configure a collectd or telegraf plugin or a
    third-party client ([kong], [snmp], [jmx] and the like, with their tables of
    beans), those that exist on Windows only, [conviva] and [cloudfoundry], and the
    generated metadata and JSON code of packages that are not modelled.  The installer, packaging, tests and tools. *)

From stdpp Require Export prelude gmap strings list fin_maps pretty sorting.
From Stdlib Require Export ZArith.
From Stdlib Require Import Ascii.

#[global] Open Scope stdpp_scope.

(** ** Go errors

    A Go [error] made by [errors.New]/[fmt.Errorf] is kept as its format
    string and the rendered arguments; [%w] keeps the wrapped cause. *)

Inductive error :=
| Errorf (format : string) (args : list string)
| Wrapf (format : string) (args : list string) (cause : error).

#[global] Instance error_eq_dec : EqDecision error.
Proof. solve_decision. Defined.

(** The root of a chain of wrapped errors ([errors.Unwrap] iterated). *)
Fixpoint root_cause (e : error) : error :=
  match e with
  | Errorf _ _ => e
  | Wrapf _ _ c => root_cause c
  end.

(** ** Fallible computations: a Go function returning [(T, error)] *)

Inductive res (A : Type) :=
| Ok (a : A)
| Err (e : error).
Arguments Ok {A} _.
Arguments Err {A} _.

#[global] Instance res_eq_dec `{EqDecision A} : EqDecision (res A).
Proof. solve_decision. Defined.

#[global] Instance res_ret : MRet res := λ A, Ok.
#[global] Instance res_bind : MBind res := λ A B f m,
  match m with Ok a => f a | Err e => Err e end.
#[global] Instance res_fmap : FMap res := λ A B f m,
  match m with Ok a => Ok (f a) | Err e => Err e end.

Definition is_ok {A} (m : res A) : bool :=
  match m with Ok _ => true | Err _ => false end.

(** [fmt.Errorf("...: %w", err)] around a failing call. *)
Definition wrap_err {A} (format : string) (args : list string) (m : res A) : res A :=
  match m with Ok a => Ok a | Err e => Err (Wrapf format args e) end.

(** [for _, x := range l { y, err := f(x); if err != nil { return err }; ... }]:
    the first error stops the loop. *)
Fixpoint mapM_res {A B} (f : A → res B) (l : list A) : res (list B) :=
  match l with
  | [] => Ok []
  | x :: l =>
      match f x with
      | Err e => Err e
      | Ok y => match mapM_res f l with Err e => Err e | Ok ys => Ok (y :: ys) end
      end
  end.

Fixpoint foldM_res {A B} (f : B → A → res B) (b : B) (l : list A) : res B :=
  match l with
  | [] => Ok b
  | x :: l => match f b x with Err e => Err e | Ok b' => foldM_res f b' l end
  end.

(** ** Automation *)

Create HintDb go discriminated.

(** Split every conjunction and disjunction, every decided test and every
    [res]/[option] scrutinee of the goal, keeping the equations. *)
Ltac destruct_scrut :=
  match goal with
  | |- context [match ?x with _ => _ end] =>
      lazymatch x with context [match _ with _ => _ end] => fail | _ => destruct x eqn:? end
  | H : context [match ?x with _ => _ end] |- _ =>
      lazymatch x with context [match _ with _ => _ end] => fail | _ => destruct x eqn:? end
  end.
Ltac go_cases := intros; simplify_eq/=; repeat (destruct_scrut; simplify_eq/=).
Ltac go_solve := go_cases; try done; eauto with go.

(** ** Results and monadic folds *)

Lemma bind_ok_inv {A B} (m : res A) (f : A → res B) b :
  m ≫= f = Ok b ↔ ∃ a, m = Ok a ∧ f a = Ok b.
Proof. destruct m; naive_solver. Qed.

Lemma wrap_err_ok {A} fmt args (m : res A) a : wrap_err fmt args m = Ok a ↔ m = Ok a.
Proof. by destruct m. Qed.

Lemma Forall2_nil_inv_l' {A B} (P : A → B → Prop) ys : Forall2 P [] ys ↔ ys = [].
Proof. split; [by inversion 1 | intros ->; constructor]. Qed.

Lemma Forall2_cons_iff' {A B} (P : A → B → Prop) x l ys :
  Forall2 P (x :: l) ys ↔ ∃ y ys', ys = y :: ys' ∧ P x y ∧ Forall2 P l ys'.
Proof. split; [inversion 1; eauto | intros (? & ? & -> & ? & ?); by constructor]. Qed.

Lemma mapM_res_ok {A B} (f : A → res B) l ys :
  mapM_res f l = Ok ys ↔ Forall2 (λ x y, f x = Ok y) l ys.
Proof.
  revert ys; induction l as [|x l IH]; intros ys; simpl.
  - rewrite Forall2_nil_inv_l'. naive_solver.
  - rewrite Forall2_cons_iff'. setoid_rewrite <-IH.
    destruct (f x), (mapM_res f l); naive_solver.
Qed.

(** A failing loop fails with the error of the first failing element. *)
Lemma mapM_res_err {A B} (f : A → res B) l e :
  mapM_res f l = Err e ↔
  ∃ l1 x l2, l = l1 ++ x :: l2 ∧ Forall (λ y, is_ok (f y)) l1 ∧ f x = Err e.
Proof.
  induction l as [|x l IH]; simpl.
  { split; [done | intros (l1 & x & l2 & H & _); by destruct l1]. }
  transitivity (f x = Err e ∨ is_ok (f x) ∧ mapM_res f l = Err e).
  { destruct (f x), (mapM_res f l); naive_solver. }
  rewrite IH; split.
  - intros [Hx | (Hx & l1 & z & l2 & -> & ? & ?)].
    + exists [], x, l. by repeat constructor.
    + exists (x :: l1), z, l2. by repeat constructor.
  - intros (l1 & z & l2 & Hz & Hok & He). destruct l1 as [|w l1]; simplify_eq/=; [by left|].
    apply Forall_cons in Hok as [? ?]. right. eauto 10.
Qed.

(** A loop whose body preserves [P] ends in a state satisfying [P]. *)
Lemma foldM_res_ind {A B} (P : B → Prop) (f : B → A → res B) l b b' :
  P b → (∀ b x b', x ∈ l → P b → f b x = Ok b' → P b') →
  foldM_res f b l = Ok b' → P b'.
Proof.
  revert b; induction l as [|x l IH]; intros b Hb Hstep; simpl; [by intros [= <-]|].
  destruct (f b x) as [b''|] eqn:Hx; [|done]. apply IH.
  - eapply Hstep; [left | done | done].
  - intros ????. apply Hstep. by right.
Qed.

#[export] Hint Resolve wrap_err_ok : go.

(** ** Lists *)

Lemma elem_of_flat_map {A B} (f : A → list B) l y : y ∈ flat_map f l ↔ ∃ x, x ∈ l ∧ y ∈ f x.
Proof.
  induction l as [|x l IH]; cbn [flat_map]; [set_solver|]. rewrite elem_of_app, IH. set_solver.
Qed.

Lemma existsb_elem {A} (f : A → bool) l : existsb f l = true ↔ ∃ x, x ∈ l ∧ f x = true.
Proof.
  rewrite existsb_exists. by setoid_rewrite list_elem_of_In.
Qed.

Lemma forallb_elem {A} (f : A → bool) l : forallb f l = true ↔ ∀ x, x ∈ l → f x = true.
Proof.
  rewrite forallb_forall. by setoid_rewrite list_elem_of_In.
Qed.

Lemma existsb_Permutation {A} (f : A → bool) l l' :
  l ≡ₚ l' → existsb f l = existsb f l'.
Proof.
  intros Hl. apply eq_bool_prop_intro. rewrite !Is_true_true, !existsb_elem.
  by setoid_rewrite Hl.
Qed.

(** ** Iteration over Go maps

    [range] over a map visits every entry once in an unspecified order.  Code
    that ranges over a map is parameterised by the order; [range_perm] is all
    that is known about it. *)

Class MapRange := {
  range : ∀ {V : Type}, gmap string V → list (string * V);
  range_perm : ∀ (V : Type) (m : gmap string V), range m ≡ₚ map_to_list m;
}.
Arguments range {_ V} _.
Arguments range_perm {_ V} _.

Definition forward_range : MapRange.
Proof. refine {| range V m := map_to_list m |}. done. Defined.

Definition backward_range : MapRange.
Proof. refine {| range V m := reverse (map_to_list m) |}. intros. apply reverse_Permutation. Defined.

Lemma elem_of_range `{MapRange} {V} (m : gmap string V) k v : (k, v) ∈ range m ↔ m !! k = Some v.
Proof. by rewrite (range_perm m), elem_of_map_to_list. Qed.

Lemma NoDup_range `{MapRange} {V} (m : gmap string V) : NoDup (range m).*1.
Proof. rewrite (range_perm m). apply NoDup_fst_map_to_list. Qed.

#[export] Hint Resolve elem_of_range NoDup_range : go.

(** A loop over the entries of a map that stores one computed value per key. *)
Lemma foldM_res_insert {V W} (g : string * V → res W) (f : gmap string W → string * V → res (gmap string W))
    (m0 m : gmap string W) l :
  (∀ m kv m', f m kv = Ok m' → ∃ w, g kv = Ok w ∧ m' = <[kv.1 := w]> m) →
  NoDup l.*1 → foldM_res f m0 l = Ok m →
  (∀ k v, (k, v) ∈ l → ∃ w, g (k, v) = Ok w ∧ m !! k = Some w) ∧
  (∀ k, k ∉ l.*1 → m !! k = m0 !! k).
Proof.
  intros Hf. revert m0; induction l as [|[k v] l IH]; intros m0 Hnd; simpl.
  { intros [= <-]. set_solver. }
  apply NoDup_cons in Hnd as [Hk Hnd]. destruct (f m0 (k, v)) as [m1|] eqn:H1; [|done].
  apply Hf in H1 as (w & Hw & ->). simpl. intros [Hin Hout]%IH; [|done]. split.
  - intros k' v' [[= -> ->]|Hl]%elem_of_cons; [|by apply Hin].
    exists w. split; [done|]. rewrite Hout by done. apply lookup_insert_eq.
  - intros k'. rewrite not_elem_of_cons. intros [? Hl]. rewrite Hout by done. by apply lookup_insert_ne.
Qed.

(** A loop that stores [g k] for the keys [k] of [l] that are not skipped. *)
Lemma foldl_keys_lookup {W} (p : string → bool) (g : string → W) (m0 : gmap string W) (l : list string) k :
  foldl (λ m k, if p k then m else <[k := g k]> m) m0 l !! k =
  if decide (k ∈ l ∧ p k = false) then Some (g k) else m0 !! k.
Proof.
  revert m0; induction l as [|x l IH]; intros m0; cbn [foldl].
  - case_decide as Hk; [|done]. by destruct Hk as [[]%not_elem_of_nil _].
  - rewrite IH. destruct (decide (k ∈ l ∧ p k = false)) as [[Hl Hp]|Hn].
    + by rewrite decide_True by (split; [by right | done]).
    + destruct (decide (k = x)) as [->|Hne].
      * destruct (p x) eqn:Hp; [rewrite decide_False by naive_solver; done|].
        rewrite decide_True by (split; [by left | done]). apply lookup_insert_eq.
      * rewrite decide_False by (rewrite elem_of_cons; naive_solver).
        destruct (p x); [done|]. by apply lookup_insert_ne.
Qed.
