(* ===== verification/GoStrings.v ===== *)
(** * Go strings

    Models of the functions of Go's [strings] package that the modelled code
    calls, on byte strings ([string] is a sequence of bytes, one [ascii] per
    byte, as Go's [string] is).  [strings.Index] returns [None] for [-1].
    [TrimSpace] and [ToLower] are exact on ASCII input; bytes above 127 are
    neither trimmed nor case-folded. *)

From S2P Require Import Prelude.
From Stdlib Require Import Ascii.

(** ** Definitions *)

Fixpoint stake (n : nat) (s : string) {struct n} : string :=
  match n, s with
  | S n, String c s => String c (stake n s)
  | _, _ => ""
  end.

Fixpoint sdrop (n : nat) (s : string) : string :=
  match n, s with
  | O, _ => s
  | S n, String _ s => sdrop n s
  | S _, EmptyString => ""
  end.

(** [s[i:j]] *)
Definition slice (s : string) (i j : nat) : string := stake (j - i) (sdrop i s).

(** [s[i]], [None] when out of range (a Go panic). *)
Fixpoint sget (s : string) (i : nat) : option ascii :=
  match s, i with
  | EmptyString, _ => None
  | String c _, O => Some c
  | String _ s, S i => sget s i
  end.

Notation slen := String.length.

Definition byte_is (o : option ascii) (c : ascii) : bool :=
  match o with Some d => Ascii.eqb d c | None => false end.

(** [strings.HasPrefix(s, p)] *)
Fixpoint HasPrefix (s p : string) {struct p} : bool :=
  match p, s with
  | EmptyString, _ => true
  | String a p, String b s => Ascii.eqb a b && HasPrefix s p
  | _, _ => false
  end.

(** [strings.HasSuffix(s, p)] *)
Definition HasSuffix (s p : string) : bool :=
  (slen p <=? slen s) && bool_decide (sdrop (slen s - slen p) s = p).

Definition TrimPrefix (s p : string) : string :=
  if HasPrefix s p then sdrop (slen p) s else s.

Definition TrimSuffix (s p : string) : string :=
  if HasSuffix s p then stake (slen s - slen p) s else s.

(** [strings.Index(s, sub)] *)
Fixpoint Index (s sub : string) : option nat :=
  if HasPrefix s sub then Some 0
  else match s with
       | EmptyString => None
       | String _ s => S <$> Index s sub
       end.

Definition Contains (s sub : string) : bool :=
  match Index s sub with Some _ => true | None => false end.

Fixpoint IndexByte (s : string) (c : ascii) : option nat :=
  match s with
  | EmptyString => None
  | String d s => if Ascii.eqb d c then Some 0 else S <$> IndexByte s c
  end.

Definition ContainsByte (s : string) (c : ascii) : bool :=
  match IndexByte s c with Some _ => true | None => false end.

(** [strings.ContainsAny(s, chars)] *)
Fixpoint ContainsAny (s chars : string) : bool :=
  match s with
  | EmptyString => false
  | String c s => ContainsByte chars c || ContainsAny s chars
  end.

(** [strings.SplitN(s, sep, 2)] with a non-empty separator. *)
Definition SplitN2 (s sep : string) : list string :=
  match Index s sep with
  | None => [s]
  | Some i => [stake i s; sdrop (i + slen sep) s]
  end.

(** [strings.Split(s, sep)] for a one-byte separator. *)
Fixpoint SplitByte (s : string) (c : ascii) : list string :=
  match s with
  | EmptyString => [""]
  | String d s =>
      match SplitByte s c with
      | [] => [] (* never: the result is non-empty *)
      | w :: ws => if Ascii.eqb d c then "" :: w :: ws else String d w :: ws
      end
  end.

(** [strings.TrimLeftFunc], [strings.TrimRightFunc] *)
Fixpoint TrimLeftFunc (f : ascii → bool) (s : string) : string :=
  match s with
  | EmptyString => ""
  | String c s' => if f c then TrimLeftFunc f s' else s
  end.

Fixpoint TrimRightFunc (f : ascii → bool) (s : string) : string :=
  match s with
  | EmptyString => ""
  | String c s =>
      match TrimRightFunc f s with
      | EmptyString => if f c then "" else String c ""
      | s' => String c s'
      end
  end.

(** [strings.Trim(s, cutset)] *)
Definition Trim (s cutset : string) : string :=
  TrimRightFunc (ContainsByte cutset) (TrimLeftFunc (ContainsByte cutset) s).

Definition is_space (c : ascii) : bool :=
  match c with
  | "009" | "010" | "011" | "012" | "013" | " " => true
  | _ => false
  end%char.

Definition TrimSpace (s : string) : string :=
  TrimRightFunc is_space (TrimLeftFunc is_space s).

Fixpoint smap (f : ascii → ascii) (s : string) : string :=
  match s with EmptyString => "" | String c s => String (f c) (smap f s) end.

Definition in_range (lo hi c : ascii) : bool :=
  (N.leb (N_of_ascii lo) (N_of_ascii c) && N.leb (N_of_ascii c) (N_of_ascii hi))%N.

Definition lower_byte (c : ascii) : ascii :=
  if in_range "A" "Z" c then ascii_of_N (N_of_ascii c + 32) else c.
Definition upper_byte (c : ascii) : ascii :=
  if in_range "a" "z" c then ascii_of_N (N_of_ascii c - 32) else c.

Definition ToLower : string → string := smap lower_byte.
Definition ToUpper : string → string := smap upper_byte.

(** [strings.Join(l, sep)] *)
Fixpoint Join (l : list string) (sep : string) : string :=
  match l with
  | [] => ""
  | [w] => w
  | w :: ws => w +:+ sep +:+ Join ws sep
  end.

(** [strings.ReplaceAll(s, old, new)] for a one-byte [old]. *)
Fixpoint ReplaceByte (s : string) (old : ascii) (new : string) : string :=
  match s with
  | EmptyString => ""
  | String c s =>
      if Ascii.eqb c old then new +:+ ReplaceByte s old new
      else String c (ReplaceByte s old new)
  end.

(** The value of a run of decimal digits; [None] on any other byte. *)
Fixpoint digits_value (acc : Z) (s : string) : option Z :=
  match s with
  | EmptyString => Some acc
  | String c s =>
      if in_range "0" "9" c then digits_value (10 * acc + Z.of_N (N_of_ascii c - 48)) s else None
  end.

(** [strconv.ParseInt(s, 10, 64)], [None] for a syntax or range error. *)
Definition ParseInt64 (s : string) : option Z :=
  let '(neg, ds) := match s with
                    | String "-" ds => (true, ds)
                    | String "+" ds => (false, ds)
                    | ds => (false, ds)
                    end%char in
  if decide (ds = "") then None
  else match digits_value 0 ds with
       | None => None
       | Some n =>
           let z := if neg then (- n)%Z else n in
           if bool_decide (- 2 ^ 63 ≤ z < 2 ^ 63)%Z then Some z else None
       end.

(** [strings.Replace(s, old, new, 1)] *)
Definition ReplaceOnce (s old new : string) : string :=
  match Index s old with
  | None => s
  | Some i => stake i s +:+ new +:+ sdrop (i + slen old) s
  end.

(** ** Lemmas *)

Lemma append_nil_r s : s +:+ "" = s.
Proof. induction s as [|c s IH]; [done|]. by change (String c (s +:+ "") = String c s); rewrite IH. Qed.

Lemma append_cons c s t : String c s +:+ t = String c (s +:+ t).
Proof. done. Qed.

Lemma append_assoc s t u : (s +:+ t) +:+ u = s +:+ t +:+ u.
Proof. induction s as [|c s IH]; [done|]. by rewrite !append_cons, IH. Qed.

Lemma append_nil_l s : "" +:+ s = s.
Proof. done. Qed.

Lemma slen_append s t : slen (s +:+ t) = slen s + slen t.
Proof. induction s as [|c s IH]; [done|]. rewrite append_cons. simpl. by rewrite IH. Qed.

Lemma stake_sdrop n s : stake n s +:+ sdrop n s = s.
Proof.
  revert s; induction n as [|n IH]; intros [|c s]; simpl; try done.
  by rewrite append_cons, IH.
Qed.

Lemma slen_stake n s : slen (stake n s) = n `min` slen s.
Proof. revert s; induction n as [|n IH]; intros [|c s]; simpl; try lia. by rewrite IH. Qed.

Lemma slen_sdrop n s : slen (sdrop n s) = slen s - n.
Proof. revert s; induction n as [|n IH]; intros [|c s]; simpl; try lia. by rewrite IH. Qed.

Lemma slen_slice s i j : j ≤ slen s → slen (slice s i j) = j - i.
Proof. intros. unfold slice. rewrite slen_stake, slen_sdrop. lia. Qed.

Lemma stake_app s t : stake (slen s) (s +:+ t) = s.
Proof. induction s as [|c s IH]; [by destruct t|]. rewrite append_cons; simpl. by rewrite IH. Qed.

Lemma sdrop_app s t : sdrop (slen s) (s +:+ t) = t.
Proof. induction s as [|c s IH]; [done|]. by rewrite append_cons. Qed.

Lemma sdrop_app_add n s t : sdrop (slen s + n) (s +:+ t) = sdrop n t.
Proof. induction s as [|c s IH]; [done|]. by rewrite append_cons. Qed.

Lemma stake_app_add n s t : stake (slen s + n) (s +:+ t) = s +:+ stake n t.
Proof. induction s as [|c s IH]; [done|]. rewrite !append_cons; simpl. by rewrite IH. Qed.

Lemma stake_app_le n s t : n ≤ slen s → stake n (s +:+ t) = stake n s.
Proof.
  revert s; induction n as [|n IH]; intros [|c s]; simpl; [by destruct t|done|lia|].
  intros ?. by rewrite IH by lia.
Qed.

Lemma sdrop_all n s : slen s ≤ n → sdrop n s = "".
Proof. revert s; induction n as [|n IH]; intros [|c s]; simpl; try done; [lia|]. intros; apply IH; lia. Qed.

Lemma stake_all n s : slen s ≤ n → stake n s = s.
Proof. revert s; induction n as [|n IH]; intros [|c s]; simpl; try done; [lia|]. intros; rewrite IH; [done|lia]. Qed.

Lemma sdrop_sdrop m n s : sdrop m (sdrop n s) = sdrop (n + m) s.
Proof. revert s; induction n as [|n IH]; intros [|c s]; simpl; try done. by destruct m. Qed.

Lemma sget_lt s i : i < slen s ↔ is_Some (sget s i).
Proof.
  revert i; induction s as [|c s IH]; intros [|i]; simpl.
  - split; [lia | by intros []].
  - split; [lia | by intros []].
  - split; [eauto | lia].
  - rewrite <-IH. lia.
Qed.

Lemma sget_append_r s t i : sget (s +:+ t) (slen s + i) = sget t i.
Proof. induction s as [|c s IH]; [done|]. by rewrite append_cons. Qed.

Lemma sget_append_l s t i : i < slen s → sget (s +:+ t) i = sget s i.
Proof.
  revert i; induction s as [|c s IH]; intros [|i]; simpl; try lia; [done|].
  intros. apply IH. lia.
Qed.

Lemma sget_sdrop s i n : sget (sdrop n s) i = sget s (n + i).
Proof. revert s; induction n as [|n IH]; intros [|c s]; simpl; try done. Qed.

Lemma sdrop_sget s i c : sget s i = Some c → sdrop i s = String c (sdrop (S i) s).
Proof.
  revert i; induction s as [|d s IH]; intros [|i]; simpl; try done.
  - by intros [= ->].
  - intros H. rewrite (IH _ H). done.
Qed.

Lemma byte_is_spec o c : byte_is o c = true ↔ o = Some c.
Proof. destruct o as [d|]; simpl; [|done]. rewrite Ascii.eqb_eq. naive_solver. Qed.

Lemma HasPrefix_spec s p : HasPrefix s p = true ↔ ∃ t, s = p +:+ t.
Proof.
  revert s; induction p as [|a p IH]; intros s; simpl.
  - split; [eauto | done].
  - destruct s as [|b s].
    + split; [done | intros [t Ht]; by rewrite append_cons in Ht].
    + rewrite andb_true_iff, Ascii.eqb_eq, IH. split.
      * intros [-> [t ->]]. exists t. by rewrite append_cons.
      * intros [t Ht]. rewrite append_cons in Ht. simplify_eq. eauto.
Qed.

Lemma HasPrefix_app p t : HasPrefix (p +:+ t) p = true.
Proof. apply HasPrefix_spec. eauto. Qed.

Lemma HasSuffix_spec s p : HasSuffix s p = true ↔ ∃ t, s = t +:+ p.
Proof.
  unfold HasSuffix. rewrite andb_true_iff, bool_decide_eq_true, Nat.leb_le. split.
  - intros [? Hd]. exists (stake (slen s - slen p) s).
    rewrite <-Hd at 2. by rewrite stake_sdrop.
  - intros [t ->]. rewrite slen_append. split; [lia|].
    replace (slen t + slen p - slen p) with (slen t) by lia. apply sdrop_app.
Qed.

(** A found index splits the string around the first occurrence. *)
Lemma Index_Some s sub i :
  Index s sub = Some i →
  s = stake i s +:+ sub +:+ sdrop (i + slen sub) s ∧ i + slen sub ≤ slen s.
Proof.
  revert i; induction s as [|c s IH]; intros i; simpl.
  - destruct (HasPrefix "" sub) eqn:Hp; [|done]. intros [= <-].
    destruct sub; [done | done].
  - destruct (HasPrefix (String c s) sub) eqn:Hp.
    + intros [= <-]. apply HasPrefix_spec in Hp as [t Ht]. simpl. rewrite Ht at 1.
      split; [|apply (f_equal slen) in Ht; rewrite slen_append in Ht; simpl in Ht; lia].
      rewrite Ht. by rewrite sdrop_app.
    + intros (j & Hj & ->)%fmap_Some. apply IH in Hj as [Hs ?]. simpl. split; [|lia].
      rewrite append_cons. by rewrite Hs at 1.
Qed.

Lemma IndexByte_Some s c i :
  IndexByte s c = Some i →
  s = stake i s +:+ String c (sdrop (S i) s) ∧ i < slen s ∧ IndexByte (stake i s) c = None.
Proof.
  revert i; induction s as [|d s IH]; intros i; simpl; [done|].
  destruct (Ascii.eqb d c) eqn:Hd.
  - intros [= <-]. apply Ascii.eqb_eq in Hd as ->. split_and!; [done | lia | done].
  - intros (j & Hj & ->)%fmap_Some. destruct (IH _ Hj) as (Hs & ? & Hn). split_and!.
    + simpl. rewrite append_cons. by rewrite Hs at 1.
    + lia.
    + simpl. by rewrite Hd, Hn.
Qed.

Lemma ContainsByte_append s t c : ContainsByte (s +:+ t) c = ContainsByte s c || ContainsByte t c.
Proof.
  unfold ContainsByte. induction s as [|d s IH]; [done|]. rewrite append_cons; simpl.
  destruct (Ascii.eqb d c); [done|].
  destruct (IndexByte (s +:+ t) c), (IndexByte s c), (IndexByte t c); simpl in *; done.
Qed.

Lemma ContainsByte_cons d s c : ContainsByte (String d s) c = Ascii.eqb d c || ContainsByte s c.
Proof.
  unfold ContainsByte; simpl. destruct (Ascii.eqb d c); [done|]. by destruct (IndexByte s c).
Qed.

Lemma ContainsByte_stake s n c : ContainsByte s c = false → ContainsByte (stake n s) c = false.
Proof.
  rewrite <-(stake_sdrop n s) at 1. rewrite ContainsByte_append. by destruct (ContainsByte (stake n s) c).
Qed.

Lemma ContainsByte_sdrop s n c : ContainsByte s c = false → ContainsByte (sdrop n s) c = false.
Proof.
  rewrite <-(stake_sdrop n s) at 1. rewrite ContainsByte_append.
  by destruct (ContainsByte (stake n s) c), (ContainsByte (sdrop n s) c).
Qed.

Lemma IndexByte_app_None s t c :
  IndexByte s c = None → IndexByte (s +:+ String c t) c = Some (slen s).
Proof.
  induction s as [|d s IH]; simpl.
  - intros _. simpl. by rewrite Ascii.eqb_refl.
  - destruct (Ascii.eqb d c); [done|].
    destruct (IndexByte s c); [done|]. intros _. by rewrite IH.
Qed.

Lemma Index_byte s c : Index s (String c "") = IndexByte s c.
Proof.
  induction s as [|d s IH]; simpl; [done|].
  rewrite IH, andb_true_r. rewrite Ascii.eqb_sym. done.
Qed.

Lemma SplitByte_nonempty s c : SplitByte s c ≠ [].
Proof. induction s as [|d s IH]; simpl; [done|]. destruct (SplitByte s c); [done|]. by destruct (Ascii.eqb d c). Qed.

(** [strings.Join(strings.Split(s, sep), sep) = s]. *)
Lemma Join_SplitByte s c : Join (SplitByte s c) (String c "") = s.
Proof.
  induction s as [|d s IH]; simpl; [done|].
  pose proof (SplitByte_nonempty s c). destruct (SplitByte s c) as [|w ws]; [done|].
  destruct (Ascii.eqb d c) eqn:Hd.
  - apply Ascii.eqb_eq in Hd as ->.
    change (Join ("" :: w :: ws) (String c "")) with ("" +:+ String c "" +:+ Join (w :: ws) (String c "")).
    by rewrite IH.
  - rewrite <-IH. by destruct ws.
Qed.

Lemma TrimLeftFunc_suffix f s : ∃ t, s = t +:+ TrimLeftFunc f s.
Proof.
  induction s as [|c s [t Ht]]; simpl; [by exists ""|].
  destruct (f c); [exists (String c t) | by exists ""]. by rewrite append_cons, <-Ht.
Qed.

Lemma TrimRightFunc_prefix f s : ∃ t, s = TrimRightFunc f s +:+ t.
Proof.
  induction s as [|c s [t Ht]]; simpl; [by exists ""|].
  destruct (TrimRightFunc f s) as [|d u] eqn:Hu.
  - destruct (f c); [by exists (String c s) | exists s]. done.
  - exists t. rewrite append_cons. by rewrite <-Ht.
Qed.

(** Trimming never makes a string longer and keeps its bytes. *)
Lemma Trim_infix s cs : ∃ t u, s = t +:+ Trim s cs +:+ u.
Proof.
  destruct (TrimLeftFunc_suffix (ContainsByte cs) s) as [t Ht].
  destruct (TrimRightFunc_prefix (ContainsByte cs) (TrimLeftFunc (ContainsByte cs) s)) as [u Hu].
  exists t, u. unfold Trim. by rewrite <-Hu, <-Ht.
Qed.

Lemma slen_Trim s cs : slen (Trim s cs) ≤ slen s.
Proof. destruct (Trim_infix s cs) as (t & u & Hs). rewrite Hs at 2. rewrite !slen_append. lia. Qed.

Create Rewrite HintDb gostr.
(** Nothing of the cutset in the string: nothing is trimmed. *)
Lemma TrimLeftFunc_id f s : (∀ i c, sget s i = Some c → f c = false) → TrimLeftFunc f s = s.
Proof. destruct s as [|c s]; [done|]. intros H. simpl. by rewrite (H 0 c). Qed.

Lemma TrimRightFunc_id f s : (∀ i c, sget s i = Some c → f c = false) → TrimRightFunc f s = s.
Proof.
  induction s as [|c s IH]; [done|]. intros H. simpl. rewrite IH by (intros i d Hd; by apply (H (S i))).
  destruct s; [|done]. by rewrite (H 0 c).
Qed.

Lemma ContainsByte_sget s c : ContainsByte s c = false ↔ ∀ i d, sget s i = Some d → d ≠ c.
Proof.
  induction s as [|e s IH]; simpl; [split; [by intros _ [] | done]|].
  rewrite ContainsByte_cons, orb_false_iff, IH. split.
  - intros [He%Ascii.eqb_neq Hs] [|i] d; simpl; [by intros [= <-] | apply Hs].
  - intros H. split; [apply Ascii.eqb_neq; by apply (H 0) | intros i d Hd; by apply (H (S i))].
Qed.

Lemma Trim_id s c : ContainsByte s c = false → Trim s (String c "") = s.
Proof.
  intros Hs. rewrite ContainsByte_sget in Hs.
  assert (Hf : ∀ i d, sget s i = Some d → ContainsByte (String c "") d = false).
  { intros i d Hd. rewrite ContainsByte_cons, orb_false_r. apply Ascii.eqb_neq. apply not_eq_sym. by eapply Hs. }
  unfold Trim. by rewrite TrimLeftFunc_id, TrimRightFunc_id.
Qed.

Lemma SplitByte_plain s c : ContainsByte s c = false → SplitByte s c = [s].
Proof.
  induction s as [|d s IH]; [done|]. rewrite ContainsByte_cons. intros [Hd Hs]%orb_false_iff.
  simpl. by rewrite IH, Hd.
Qed.

Lemma SplitByte_app s c t : ContainsByte s c = false → SplitByte (s +:+ String c t) c = s :: SplitByte t c.
Proof.
  induction s as [|d s IH].
  - intros _. rewrite append_nil_l. simpl. rewrite Ascii.eqb_refl.
    pose proof (SplitByte_nonempty t c). by destruct (SplitByte t c).
  - rewrite ContainsByte_cons. intros [Hd Hs]%orb_false_iff. rewrite append_cons. simpl.
    by rewrite (IH Hs), Hd.
Qed.

#[export] Hint Rewrite append_nil_r append_nil_l append_assoc append_cons slen_append
  slen_stake slen_sdrop stake_sdrop stake_app sdrop_app : gostr.
Ltac gostr := autorewrite with gostr; simpl; try lia.
