(* ===== verification/GoValue.v ===== *)
(** * Dynamic Go values

    [any] is the type of the values that configuration maps carry
    ([interface{}]): scalars, byte slices, [[]any], [[]string], [map[string]any] and the
    [map[any]any] that YAML decoding produces.  [Sprint] is
    [fmt.Sprintf("%v", x)].  Floats are IEEE binary64 ([spec_float]); the text
    of a float is a parameter ([FloatText]), everything else is computed. *)

From S2P Require Import Prelude GoStrings.
From Stdlib Require Import Ascii.
From Stdlib Require Export SpecFloat.

Abbreviation float64 := spec_float.

Inductive any :=
| ANil
| ABool (b : bool)
| AInt (z : Z)
| AFloat (f : float64)
| AString (s : string)
| ABytes (s : string)
| ASlice (l : list any)
| AStrings (l : list string)
| AMap (m : gmap string any)
| AIMap (m : list (any * any))
| ANumber (text : string) (* encoding/json.Number *).

(** [strconv.FormatFloat(f, 'g', -1, 64)] with the [%v] exponent threshold. *)
Class FloatText := float_text : float64 → string.

(** Type switches on [any]. *)
Definition as_string (v : any) : option string :=
  match v with AString s => Some s | _ => None end.
Definition as_slice (v : any) : option (list any) :=
  match v with ASlice l => Some l | _ => None end.
Definition as_map (v : any) : option (gmap string any) :=
  match v with AMap m => Some m | _ => None end.
Definition as_bool (v : any) : option bool :=
  match v with ABool b => Some b | _ => None end.
Definition is_nil (v : any) : bool :=
  match v with ANil => true | _ => false end.

(** Map keys in the order [fmt] prints them: sorted bytewise. *)
Definition sorted_keys {V} (m : gmap string V) : list string :=
  merge_sort String.le (elements (dom m)).

Fixpoint byte_texts (s : string) : list string :=
  match s with
  | EmptyString => []
  | String c s => pretty (N_of_ascii c) :: byte_texts s
  end.

(** [fmt.Sprintf("%v", x)]; an [AIMap] lists its entries in printing order. *)
Fixpoint Sprint `{FloatText} (v : any) : string :=
  match v with
  | ANil => "<nil>"
  | ABool b => if b then "true" else "false"
  | AInt z => pretty z
  | AFloat f => float_text f
  | AString s => s
  | ABytes s => "[" +:+ Join (byte_texts s) " " +:+ "]"
  | ASlice l => "[" +:+ Join (map Sprint l) " " +:+ "]"
  | AStrings l => "[" +:+ Join l " " +:+ "]"
  | AMap m =>
      let texts := map_imap (λ k x, Some (k +:+ ":" +:+ Sprint x)) m in
      "map[" +:+ Join (omap (λ k, texts !! k) (sorted_keys m)) " " +:+ "]"
  | AIMap m => "map[" +:+ Join (map (λ '(k, x), Sprint k +:+ ":" +:+ Sprint x) m) " " +:+ "]"
  | ANumber t => t
  end.

(** ** Size and induction *)

Fixpoint any_size (v : any) : nat :=
  match v with
  | ASlice l => S (sum_list_with any_size l)
  | AMap m => S (map_fold (λ _ x n, any_size x + n) 0 m)
  | AIMap m => S (sum_list_with (λ '(k, x), any_size k + any_size x) m)
  | _ => 1
  end.

Lemma sum_list_with_elem {A} (f : A → nat) x l : x ∈ l → f x ≤ sum_list_with f l.
Proof. induction 1; simpl; lia. Qed.

Lemma any_size_slice x l : x ∈ l → any_size x < any_size (ASlice l).
Proof. intros Hx. simpl. apply (sum_list_with_elem any_size) in Hx. lia. Qed.

Lemma any_size_map k x m : m !! k = Some x → any_size x < any_size (AMap m).
Proof.
  intros Hk. simpl. rewrite <-(insert_delete_id m k x Hk).
  rewrite map_fold_insert_L; [lia | | apply lookup_delete_eq].
  intros. lia.
Qed.

Lemma any_size_imap k x m :
  (k, x) ∈ m → any_size k < any_size (AIMap m) ∧ any_size x < any_size (AIMap m).
Proof.
  intros Hk. simpl.
  apply (sum_list_with_elem (λ '(k, x), any_size k + any_size x)) in Hk. simpl in Hk. lia.
Qed.

(** Induction that gives a hypothesis for every smaller value, in particular
    for every element of a container. *)
Lemma any_size_ind (P : any → Prop) :
  (∀ v, (∀ x, any_size x < any_size v → P x) → P v) → ∀ v, P v.
Proof.
  intros H v. remember (any_size v) as n eqn:Hn. revert v Hn.
  induction (lt_wf n) as [n _ IH]. intros v ->. apply H. intros x Hx. by eapply IH.
Qed.
