(* ===== verification/Confmap.v ===== *)
(** * The configuration map interface

    [go.opentelemetry.io/collector/confmap] is a third-party package: [Confmap]
    lists the operations of [*confmap.Conf] that the modelled code calls, and
    [ConfmapLaws] what the package documents about them.  A [Conf] is a tree of
    maps; a leaf is addressed by its path, the segments joined by ["::"].
    [flat_confmap] is an instance that satisfies the laws. *)

From S2P Require Import Prelude GoStrings GoValue.

Class Confmap := {
  conf : Type;
  NewFromStringMap : gmap string any → conf;
  AllKeys : conf → list string;
  Get : conf → string → any;
  IsSet : conf → string → bool;
  ToStringMap : conf → gmap string any;
  Sub : conf → string → res conf;
  (* in place: the receiver after the call, and the error *)
  Merge : conf → conf → conf * option error;
}.

(** A map whose keys are full leaf paths: no key is a path prefix of another,
    and no value is itself a map. *)
Definition flat (m : gmap string any) : Prop :=
  (∀ k k', k ∈ dom m → k' ∈ dom m → k ≠ k' → HasPrefix k' (k +:+ "::") = false) ∧
  (∀ k v, m !! k = Some v → as_map v = None).

(** The flat map of a configuration: every leaf path with its value. *)
Definition leaves `{Confmap} (c : conf) : gmap string any :=
  list_to_map (map (λ k, (k, Get c k)) (AllKeys c)).

Class ConfmapLaws (C : Confmap) := {
  AllKeys_New m : flat m → AllKeys (NewFromStringMap m) ≡ₚ elements (dom m);
  Get_New m k v : flat m → m !! k = Some v → Get (NewFromStringMap m) k = v;
  Get_New_absent m k :
    flat m → m !! k = None → (∀ k', k' ∈ dom m → HasPrefix k' (k +:+ "::") = false) →
    Get (NewFromStringMap m) k = ANil;
  AllKeys_NoDup c : NoDup (AllKeys c);
  (* merging leaves over existing leaves overwrites them and nothing else *)
  Merge_leaves c m : flat m → (∀ k, k ∈ dom m → k ∈ AllKeys c) →
    (Merge c (NewFromStringMap m)).2 = None ∧ leaves (Merge c (NewFromStringMap m)).1 = m ∪ leaves c;
}.

Definition flat_confmap : Confmap := {|
  conf := gmap string any;
  NewFromStringMap m := m;
  AllKeys m := merge_sort String.le (elements (dom m));
  Get m k := default ANil (m !! k);
  IsSet m k := bool_decide (is_Some (m !! k));
  ToStringMap m := m;
  Sub m k := Ok (list_to_map (omap (λ kv : string * any,
    if HasPrefix kv.1 (k +:+ "::") then Some (TrimPrefix kv.1 (k +:+ "::"), kv.2) else None) (map_to_list m)));
  Merge m1 m2 := (m2 ∪ m1, None);
|}.

Lemma leaves_flat_confmap (m : gmap string any) : @leaves flat_confmap m = m.
Proof.
  apply map_eq. intros k. apply option_eq. intros v. unfold leaves. rewrite <-elem_of_list_to_map.
  - rewrite list_elem_of_fmap. simpl. setoid_rewrite merge_sort_Permutation.
    setoid_rewrite elem_of_elements. setoid_rewrite elem_of_dom. split.
    + intros (k' & [= -> ->] & [w Hw]). by rewrite Hw.
    + intros Hv. exists k. rewrite Hv. split; [done | by eexists].
  - rewrite <-list_fmap_compose. rewrite (list_fmap_ext _ id) by done.
    rewrite list_fmap_id. simpl. rewrite merge_sort_Permutation. apply NoDup_elements.
Qed.

#[global] Instance flat_confmap_laws : ConfmapLaws flat_confmap.
Proof.
  split; simpl.
  - intros m _. apply merge_sort_Permutation.
  - by intros m k v _ ->.
  - by intros m k _ ->.
  - intros c. rewrite merge_sort_Permutation. apply NoDup_elements.
  - intros c m _ _. split; [done|]. by rewrite !leaves_flat_confmap.
Qed.

Section laws.
Context `{C : Confmap} {L : ConfmapLaws C}.

Lemma lookup_leaves c k v : leaves c !! k = Some v ↔ k ∈ AllKeys c ∧ Get c k = v.
Proof.
  unfold leaves. rewrite <-elem_of_list_to_map.
  - rewrite list_elem_of_fmap. naive_solver.
  - rewrite <-list_fmap_compose. rewrite (list_fmap_ext _ id) by done.
    rewrite list_fmap_id. apply AllKeys_NoDup.
Qed.

(** Rebuilding a configuration from a flat map gives back the map. *)
Lemma leaves_New m : flat m → leaves (NewFromStringMap m) = m.
Proof.
  intros Hf. apply map_eq. intros k. apply option_eq. intros v. rewrite lookup_leaves.
  rewrite (AllKeys_New m Hf), elem_of_elements, elem_of_dom. split.
  - intros [[w Hw] Hg]. rewrite (Get_New m k w) in Hg by done. congruence.
  - intros Hv. split; [by eexists|]. by apply Get_New.
Qed.
End laws.

(** [flat] decided on a concrete map. *)
Definition flatb (m : gmap string any) : bool :=
  let keys := (map_to_list m).*1 in
  forallb (λ k, forallb (λ k', bool_decide (k = k') || negb (HasPrefix k' (k +:+ "::"))) keys) keys &&
  forallb (λ kv : string * any, match as_map kv.2 with None => true | Some _ => false end) (map_to_list m).

Lemma flatb_flat m : flatb m = true → flat m.
Proof.
  unfold flatb. rewrite andb_true_iff, !forallb_elem. intros [Hk Hv]. split.
  - intros k k' [v Hkv]%elem_of_dom [v' Hkv']%elem_of_dom Hne.
    assert (Hin : ∀ k v, m !! k = Some v → k ∈ (map_to_list m).*1).
    { intros k0 v0 H0. apply list_elem_of_fmap. exists (k0, v0). by rewrite elem_of_map_to_list. }
    specialize (Hk k (Hin _ _ Hkv)). rewrite forallb_elem in Hk. specialize (Hk k' (Hin _ _ Hkv')).
    rewrite bool_decide_eq_false_2 in Hk by done. by destruct (HasPrefix k' (k +:+ "::")).
  - intros k v Hkv. specialize (Hv (k, v)). rewrite elem_of_map_to_list in Hv. specialize (Hv Hkv).
    simpl in Hv. by destruct (as_map v).
Qed.
