(* ===== verification/Regexp.v ===== *)
(** * Go regular expressions

    The part of Go's [regexp] package that the modelled code uses: a
    backtracking matcher with Perl's leftmost-first semantics (greedy
    repetition, ordered alternation, numbered groups), which is what
    [FindStringSubmatch] and [MatchString] document.  Matching is on bytes; the
    expressions of the modelled code have ASCII literals and byte classes
    closed under the bytes of multi-byte characters, so they match the same
    substrings.  [rmatch_sound] and [rmatch_complete] relate the matcher to the
    declarative relation [derives]. *)

From S2P Require Import Prelude GoStrings.
From Stdlib Require Import Ascii.

Inductive regexp :=
| REmpty
| RChar (p : ascii → bool)
| RCat (r1 r2 : regexp)
| RAlt (r1 r2 : regexp)
| RStar (r : regexp)
| RGroup (n : nat) (r : regexp).

(** The literal text [s]; [r?]; [r+]; [.]; [\w]; [[^c]]. *)
Fixpoint RLit (s : string) : regexp :=
  match s with
  | EmptyString => REmpty
  | String c s => RCat (RChar (Ascii.eqb c)) (RLit s)
  end.
Definition ROpt (r : regexp) : regexp := RAlt r REmpty.
Definition RPlus (r : regexp) : regexp := RCat r (RStar r).
Definition any_byte (c : ascii) : bool := negb (Ascii.eqb c "010").
Definition word_byte (c : ascii) : bool :=
  in_range "a" "z" c || in_range "A" "Z" c || in_range "0" "9" c || Ascii.eqb c "_".
Definition not_byte (d c : ascii) : bool := negb (Ascii.eqb c d).

(** Captured groups, the latest first; a group that did not take part in the
    match has the empty text. *)
Definition captures := list (nat * string).
Fixpoint group (c : captures) (n : nat) : string :=
  match c with
  | [] => ""
  | (m, w) :: c => if Nat.eqb m n then w else group c n
  end.

Definition answer := (string * captures)%type.
Definition matcher := string → captures → (string → captures → option answer) → option answer.

(** Greedy repetition: one more non-empty iteration is tried first. *)
Fixpoint star_loop (m : matcher) (fuel : nat) (s : string) (c : captures)
    (k : string → captures → option answer) : option answer :=
  match fuel with
  | O => k s c
  | S fuel =>
      match m s c (λ s' c', if slen s' <? slen s then star_loop m fuel s' c' k else None) with
      | Some x => Some x
      | None => k s c
      end
  end.

Fixpoint rmatch (r : regexp) : matcher := λ s c k,
  match r with
  | REmpty => k s c
  | RChar p =>
      match s with
      | String a s' => if p a then k s' c else None
      | EmptyString => None
      end
  | RCat r1 r2 => rmatch r1 s c (λ s' c', rmatch r2 s' c' k)
  | RAlt r1 r2 =>
      match rmatch r1 s c k with
      | Some x => Some x
      | None => rmatch r2 s c k
      end
  | RStar r => star_loop (rmatch r) (slen s) s c k
  | RGroup n r => rmatch r s c (λ s' c', k s' ((n, stake (slen s - slen s') s) :: c'))
  end.

(** A match that starts at the first byte of [s]. *)
Definition match_here (r : regexp) (s : string) : option answer :=
  rmatch r s [] (λ s' c, Some (stake (slen s - slen s') s, c)).

(** [re.FindStringSubmatch(s)]: the leftmost match, its text and its groups. *)
Fixpoint FindStringSubmatch (r : regexp) (s : string) : option answer :=
  match match_here r s with
  | Some x => Some x
  | None =>
      match s with
      | EmptyString => None
      | String _ s => FindStringSubmatch r s
      end
  end.

Definition MatchString (r : regexp) (s : string) : bool :=
  match FindStringSubmatch r s with Some _ => true | None => false end.

(** ** What an expression matches *)

(** [derives r c w c']: [r] matches exactly [w], turning the groups [c] into
    [c']. *)
Inductive derives : regexp → captures → string → captures → Prop :=
| derives_empty c : derives REmpty c "" c
| derives_char p a c : p a = true → derives (RChar p) c (String a "") c
| derives_cat r1 r2 c c1 c2 w1 w2 :
    derives r1 c w1 c1 → derives r2 c1 w2 c2 → derives (RCat r1 r2) c (w1 +:+ w2) c2
| derives_alt_l r1 r2 c c' w : derives r1 c w c' → derives (RAlt r1 r2) c w c'
| derives_alt_r r1 r2 c c' w : derives r2 c w c' → derives (RAlt r1 r2) c w c'
| derives_star_nil r c : derives (RStar r) c "" c
| derives_star_app r c c1 c2 w1 w2 :
    w1 ≠ "" → derives r c w1 c1 → derives (RStar r) c1 w2 c2 → derives (RStar r) c (w1 +:+ w2) c2
| derives_group n r c c' w : derives r c w c' → derives (RGroup n r) c w ((n, w) :: c').
#[export] Hint Constructors derives : go.

(** What a matcher guarantees, relative to a relation [D] on matched text. *)
Definition msound (D : captures → string → captures → Prop) (m : matcher) : Prop :=
  ∀ s c k x, m s c k = Some x → ∃ w s' c', s = w +:+ s' ∧ D c w c' ∧ k s' c' = Some x.

Lemma star_loop_sound r m fuel : msound (derives r) m → msound (derives (RStar r)) (λ s c k, star_loop m fuel s c k).
Proof.
  intros Hm. induction fuel as [|fuel IH]; intros s c k x; simpl.
  { intros Hk. exists "", s, c. eauto with go. }
  destruct (m s c _) as [y|] eqn:Hs.
  - intros [= ->]. apply Hm in Hs as (w1 & s1 & c1 & -> & Hd & Hk).
    destruct (slen s1 <? slen (w1 +:+ s1)) eqn:Hlt; [|done]. apply Nat.ltb_lt in Hlt.
    apply IH in Hk as (w2 & s2 & c2 & -> & Hd2 & Hk2). exists (w1 +:+ w2), s2, c2.
    rewrite append_assoc. split_and!; [done| |done]. eapply derives_star_app; eauto.
    intros ->. rewrite append_nil_l in Hlt. lia.
  - intros Hk. exists "", s, c. eauto with go.
Qed.

Lemma rmatch_sound r : msound (derives r) (rmatch r).
Proof.
  induction r as [|p|r1 IH1 r2 IH2|r1 IH1 r2 IH2|r IH|n r IH]; intros s c k x; cbn [rmatch].
  - intros Hk. exists "", s, c. eauto with go.
  - destruct s as [|a s]; [done|]. destruct (p a) eqn:Ha; [|done].
    intros Hk. exists (String a ""), s, c. eauto with go.
  - intros (w1 & s1 & c1 & -> & Hd1 & Hk1)%IH1. apply IH2 in Hk1 as (w2 & s2 & c2 & -> & Hd2 & Hk2).
    exists (w1 +:+ w2), s2, c2. rewrite append_assoc. eauto with go.
  - destruct (rmatch r1 s c k) as [y|] eqn:H1.
    + intros [= ->]. apply IH1 in H1 as (w & s' & c' & ? & ? & ?). exists w, s', c'. eauto with go.
    + intros (w & s' & c' & ? & ? & ?)%IH2. exists w, s', c'. eauto with go.
  - intros H. by apply (star_loop_sound _ _ _ IH) in H.
  - intros (w & s' & c' & -> & ? & Hk)%IH. exists w, s', ((n, w) :: c').
    rewrite slen_append in Hk. replace (slen w + slen s' - slen s') with (slen w) in Hk by lia.
    rewrite stake_app in Hk. eauto with go.
Qed.

(** ** Completeness: a derivation is found, if the rest of the match accepts it *)

Definition mcomplete (D : captures → string → captures → Prop) (m : matcher) : Prop :=
  ∀ w s c c' k, D c w c' → is_Some (k s c') → is_Some (m (w +:+ s) c k).

Lemma star_loop_complete r m :
  mcomplete (derives r) m →
  ∀ w s c c' k fuel, slen (w +:+ s) ≤ fuel → derives (RStar r) c w c' → is_Some (k s c') →
  is_Some (star_loop m fuel (w +:+ s) c k).
Proof.
  intros Hm w s c c' k fuel Hf Hd Hk. remember (RStar r) as rs eqn:Hrs. revert fuel Hf.
  induction Hd as [| | | | |r' c|r' c c1 c2 w1 w2 Hne Hd1 _ Hd2 IH|]; simplify_eq; intros fuel Hf.
  - destruct fuel as [|fuel]; [done|]. simpl.
    destruct (m _ _ _) as [y|]; [by eexists | done].
  - destruct fuel as [|fuel].
    { destruct w1; [done|]. rewrite append_assoc, append_cons in Hf. simpl in Hf. lia. }
    simpl. destruct (m _ _ _) as [y|] eqn:Hn; [by eexists|exfalso].
    rewrite append_assoc in Hn, Hf. rewrite slen_append in Hf.
    assert (0 < slen w1) by (destruct w1; [done | simpl; lia]).
    eapply not_eq_None_Some; [|exact Hn]. eapply Hm; [exact Hd1|]. simpl.
    rewrite (proj2 (Nat.ltb_lt _ _)) by (rewrite (slen_append w1); lia).
    apply IH; [done | done | lia].
Qed.

Lemma rmatch_complete r : mcomplete (derives r) (rmatch r).
Proof.
  induction r as [|p|r1 IH1 r2 IH2|r1 IH1 r2 IH2|r IH|n r IH]; intros w s c c' k Hd Hk; cbn [rmatch].
  - by inversion Hd; subst.
  - inversion Hd; subst. rewrite append_cons. by case_match; [|congruence].
  - inversion Hd; subst. rewrite append_assoc. eapply IH1; [done|]. by eapply IH2.
  - destruct (rmatch r1 (w +:+ s) c k) eqn:H1; [by eexists|].
    inversion Hd; subst; [|by eapply IH2]. exfalso.
    eapply not_eq_None_Some; [|exact H1]. by eapply IH1.
  - by eapply star_loop_complete.
  - inversion Hd; subst. eapply IH; [done|].
    rewrite slen_append. replace (slen w + slen s - slen s) with (slen w) by lia. by rewrite stake_app.
Qed.

(** ** Searching *)

Lemma match_here_sound r s m0 c :
  match_here r s = Some (m0, c) → ∃ post, s = m0 +:+ post ∧ derives r [] m0 c.
Proof.
  intros (w & s' & c' & -> & Hd & [= <- <-])%rmatch_sound. exists s'.
  rewrite slen_append. replace (slen w + slen s' - slen s') with (slen w) by lia. by rewrite stake_app.
Qed.

Lemma match_here_complete r w s c : derives r [] w c → is_Some (match_here r (w +:+ s)).
Proof. intros Hd. eapply rmatch_complete; [done | by eexists]. Qed.

(** The result is a match, and no match starts earlier. *)
Lemma FindStringSubmatch_sound r s m0 c :
  FindStringSubmatch r s = Some (m0, c) →
  ∃ pre post, s = pre +:+ m0 +:+ post ∧ derives r [] m0 c ∧
    (∀ pre' w c' post', s = pre' +:+ w +:+ post' → derives r [] w c' → slen pre ≤ slen pre').
Proof.
  induction s as [|a s IH]; cbn [FindStringSubmatch].
  - destruct (match_here r "") as [x|] eqn:Hh; [|done]. intros [= ->].
    apply match_here_sound in Hh as (post & ? & ?). exists "", post. split_and!; [done..|]. simpl; lia.
  - destruct (match_here r (String a s)) as [x|] eqn:Hh.
    + intros [= ->]. apply match_here_sound in Hh as (post & -> & ?). exists "", post.
      split_and!; [done..|]. simpl; lia.
    + intros (pre & post & -> & Hd & Hl)%IH. exists (String a pre), post. split_and!; [done..|].
      intros [|b pre'] w c' post' Heq Hd'.
      * rewrite append_nil_l in Heq. rewrite Heq in Hh.
        destruct (match_here_complete r w post' c' Hd'). congruence.
      * rewrite append_cons in Heq. simplify_eq. cbn [slen]; apply le_n_S; by eapply Hl.
Qed.

Lemma FindStringSubmatch_complete r pre w post c :
  derives r [] w c → is_Some (FindStringSubmatch r (pre +:+ w +:+ post)).
Proof.
  intros Hd. induction pre as [|a pre IH].
  - rewrite append_nil_l. destruct (match_here_complete r w post c Hd) as [x Hx].
    destruct (w +:+ post); cbn [FindStringSubmatch]; rewrite Hx; by eexists.
  - rewrite append_cons. cbn [FindStringSubmatch]. by case_match; [eexists|].
Qed.

(** [MatchString] decides whether some substring is matched. *)
Lemma MatchString_spec r s :
  MatchString r s = true ↔ ∃ pre w post c, s = pre +:+ w +:+ post ∧ derives r [] w c.
Proof.
  unfold MatchString. split.
  - destruct (FindStringSubmatch r s) as [[m0 c]|] eqn:H; [|done]. intros _.
    apply FindStringSubmatch_sound in H as (pre & post & ? & ? & _). eauto 10.
  - intros (pre & w & post & c & -> & Hd).
    by destruct (FindStringSubmatch_complete r pre w post c Hd) as [? ->].
Qed.

(** ** Inversion for literals and classes *)

Lemma derives_RLit s c : derives (RLit s) c s c.
Proof.
  induction s as [|a s IH]; simpl; [constructor|].
  change (String a s) with (String a "" +:+ s). econstructor; [|done]. constructor. apply Ascii.eqb_refl.
Qed.

Lemma derives_RLit_inv s c w c' : derives (RLit s) c w c' → w = s ∧ c' = c.
Proof.
  revert w; induction s as [|a s IH]; intros w; simpl; [by inversion 1|].
  inversion 1 as [| |r1 r2 ? c1 c2 w1 w2 H1 H2| | | | |]; subst.
  inversion H1 as [|? b ? Hb| | | | | |]; subst. apply Ascii.eqb_eq in Hb as ->.
  apply IH in H2 as [-> ->]. done.
Qed.

(** The bytes of a non-empty text all satisfy [p]. *)
Definition sall (p : ascii → bool) (s : string) : Prop := ∀ i a, sget s i = Some a → p a = true.

Lemma sall_cons p a s : sall p (String a s) ↔ p a = true ∧ sall p s.
Proof.
  split.
  - intros H. split; [by apply (H 0) | intros i b Hb; by apply (H (S i))].
  - intros [Ha Hs] [|i] b; simpl; [by intros [= <-] | apply Hs].
Qed.

Lemma derives_star_char_inv p c w c' : derives (RStar (RChar p)) c w c' → sall p w ∧ c' = c.
Proof.
  intros Hd. remember (RStar (RChar p)) as r eqn:Hr.
  induction Hd as [| | | | |r c|r c c1 c2 w1 w2 Hne Hd1 _ Hd2 IH|]; simplify_eq; [done|].
  destruct (IH eq_refl) as [Hs ->]. inversion Hd1; subst. split; [|done].
  rewrite append_cons, append_nil_l. by apply sall_cons.
Qed.

Lemma derives_star_char p c w : sall p w → derives (RStar (RChar p)) c w c.
Proof.
  induction w as [|a w IH]; intros Hs; [constructor|]. apply sall_cons in Hs as [Ha Hs].
  change (String a w) with (String a "" +:+ w). eapply derives_star_app; [done | by constructor | by apply IH].
Qed.

Lemma derives_plus_char p c w : w ≠ "" → sall p w → derives (RPlus (RChar p)) c w c.
Proof.
  destruct w as [|a w]; [done|]. intros _ [Ha Hs]%sall_cons.
  change (String a w) with (String a "" +:+ w). econstructor; [by constructor | by apply derives_star_char].
Qed.

Lemma derives_plus_char_inv p c w c' : derives (RPlus (RChar p)) c w c' → w ≠ "" ∧ sall p w ∧ c' = c.
Proof.
  inversion 1 as [| |r1 r2 ? c1 c2 w1 w2 H1 H2| | | | |]; subst. inversion H1; subst.
  apply derives_star_char_inv in H2 as [? ->]. rewrite append_cons, append_nil_l.
  split_and!; [done| |done]. by apply sall_cons.
Qed.

(** [(/\w+)?]: the optional instance name of a component identifier. *)
Definition RName (n : nat) : regexp := ROpt (RGroup n (RCat (RLit "/") (RPlus (RChar word_byte)))).
Definition instance_name (s : string) : Prop := s = "" ∨ ∃ w, s = "/" +:+ w ∧ w ≠ "" ∧ sall word_byte w.

Lemma derives_RName n c s : instance_name s → ∃ c', derives (RName n) c s c' ∧ (c' = c ∧ s = "" ∨ c' = (n, s) :: c).
Proof.
  intros [-> | (w & -> & Hw & Hs)].
  - exists c. split; [apply derives_alt_r; constructor | by left].
  - exists ((n, "/" +:+ w) :: c). split; [|by right]. apply derives_alt_l. constructor.
    econstructor; [apply derives_RLit | by apply derives_plus_char].
Qed.

Lemma derives_RName_inv n c s c' :
  derives (RName n) c s c' → instance_name s ∧ (c' = c ∧ s = "" ∨ c' = (n, s) :: c).
Proof.
  inversion 1 as [| | |? ? ? ? ? H1|? ? ? ? ? H1| | |]; subst.
  - inversion H1 as [| | | | | | |? ? ? ? ? H2]; subst.
    inversion H2 as [| |r1 r2 ? c1 c2 w1 w2 H3 H4| | | | |]; subst.
    apply (derives_RLit_inv "/") in H3 as [-> ->]. apply derives_plus_char_inv in H4 as (? & ? & ->).
    split; [right; eauto | by right].
  - inversion H1; subst. split; [by left | by left].
Qed.

(** A text without [d] before the first [d] is determined. *)
Lemma split_at_byte d x y u v :
  ContainsByte x d = false → ContainsByte u d = false →
  x +:+ String d y = u +:+ String d v → x = u ∧ y = v.
Proof.
  revert u; induction x as [|a x IH]; intros [|b u] Hx Hu; rewrite ?append_nil_l, ?append_cons; intros [=]; subst; try done.
  - rewrite ContainsByte_cons, Ascii.eqb_refl in Hu. done.
  - rewrite ContainsByte_cons, Ascii.eqb_refl in Hx. done.
  - rewrite ContainsByte_cons in Hx, Hu. apply orb_false_iff in Hx as [_ Hx], Hu as [_ Hu].
    by destruct (IH u Hx Hu) as [-> ->].
Qed.

Lemma sall_ContainsByte p d s : p d = false → sall p s → ContainsByte s d = false.
Proof. intros Hd Hs. apply ContainsByte_sget. intros i a Ha ->. apply Hs in Ha. congruence. Qed.

Lemma instance_name_colon s : instance_name s → ContainsByte s ":" = false.
Proof.
  intros [-> | (w & -> & _ & Hs)]; [done|]. rewrite ContainsByte_append.
  by rewrite (sall_ContainsByte word_byte ":" w).
Qed.

(** A match of a prefix of [s] is found at the start of [s]. *)
Lemma FindStringSubmatch_start r w post c :
  derives r [] w c →
  ∃ m0 c0 post', FindStringSubmatch r (w +:+ post) = Some (m0, c0) ∧
    w +:+ post = m0 +:+ post' ∧ derives r [] m0 c0.
Proof.
  intros Hd. destruct (FindStringSubmatch_complete r "" w post c Hd) as [[m0 c0] Hf].
  rewrite append_nil_l in Hf. destruct (FindStringSubmatch_sound _ _ _ _ Hf) as (pre & post' & Heq & Hd' & Hl).
  exists m0, c0, post'. split_and!; [done| |done].
  specialize (Hl "" w c post eq_refl Hd). destruct pre; [done | simpl in Hl; lia].
Qed.

Lemma rmatch_char p a s c k : rmatch (RChar p) (String a s) c k = if p a then k s c else None.
Proof. done. Qed.

(** Greedy repetition of a class takes everything when the rest accepts. *)
Lemma star_greedy p s c k x :
  sall p s → k "" c = Some x → star_loop (rmatch (RChar p)) (slen s) s c k = Some x.
Proof.
  intros Hs Hk. induction s as [|a s IH]; [done|]. apply sall_cons in Hs as [Ha Hs].
  cbn [slen star_loop]. rewrite rmatch_char, Ha.
  rewrite (proj2 (Nat.ltb_lt _ _)) by (simpl; lia). by rewrite IH.
Qed.

(** [( p+ )?] at the end of an expression captures the whole rest. *)
Lemma greedy_rest p n s c (k : string → captures → option answer) x :
  sall p s → s ≠ "" → k "" ((n, s) :: c) = Some x →
  rmatch (ROpt (RGroup n (RPlus (RChar p)))) s c k = Some x.
Proof.
  intros Hs Hne Hk. destruct s as [|a s]; [done|]. apply sall_cons in Hs as [Ha Hs].
  change (rmatch (ROpt (RGroup n (RPlus (RChar p)))) (String a s) c k) with
    (match (if p a then star_loop (rmatch (RChar p)) (slen s) s c
              (λ s' c', k s' ((n, stake (slen (String a s) - slen s') (String a s)) :: c')) else None) with
     | Some x => Some x | None => k (String a s) c end).
  rewrite Ha, (star_greedy p s c _ x Hs); [done|]. by rewrite Nat.sub_0_r, stake_all.
Qed.

(** Inversion as equivalences, for rewriting. *)
Lemma derives_RLit_iff s c w c' : derives (RLit s) c w c' ↔ w = s ∧ c' = c.
Proof. split; [apply derives_RLit_inv | intros [-> ->]; apply derives_RLit]. Qed.

Lemma derives_RAlt r1 r2 c w c' : derives (RAlt r1 r2) c w c' ↔ derives r1 c w c' ∨ derives r2 c w c'.
Proof. split; [inversion 1; eauto | intros []; eauto with go]. Qed.

Lemma derives_RCat r1 r2 c w c' :
  derives (RCat r1 r2) c w c' ↔ ∃ w1 w2 c1, w = w1 +:+ w2 ∧ derives r1 c w1 c1 ∧ derives r2 c1 w2 c'.
Proof. split; [inversion 1; subst; eauto 10 | intros (? & ? & ? & -> & ? & ?); eauto with go]. Qed.

Lemma derives_RGroup n r c w c' : derives (RGroup n r) c w c' ↔ ∃ c1, derives r c w c1 ∧ c' = (n, w) :: c1.
Proof. split; [inversion 1; eauto | intros (? & ? & ->); eauto with go]. Qed.

(** [a(/\w+)?::r]: a setting of a component with an optional instance name. *)
Definition RComponent (a : string) (r : regexp) : regexp :=
  RCat (RLit a) (RCat (RName 1) (RCat (RLit "::") r)).

Lemma append_inv_l a x y : a +:+ x = a +:+ y → x = y.
Proof. induction a as [|b a IH]; [done|]. rewrite !append_cons. intros [=]. by apply IH. Qed.

Lemma RComponent_find a r n w x :
  instance_name n → (∀ c, ∃ c', derives r c w c') →
  ∃ m0 c0 c1 w' y, FindStringSubmatch (RComponent a r) (a +:+ n +:+ "::" +:+ w +:+ x) = Some (m0, c0) ∧
    (c1 = [] ∧ n = "" ∨ c1 = [(1, n)]) ∧ derives r c1 w' c0 ∧ w +:+ x = w' +:+ y.
Proof.
  intros Hn Hr. destruct (derives_RName 1 [] n Hn) as (c1 & Hd1 & Hc1). destruct (Hr c1) as [c2 Hd2].
  assert (Hd : derives (RComponent a r) [] (a +:+ n +:+ "::" +:+ w) c2).
  { unfold RComponent. econstructor; [apply derives_RLit|]. econstructor; [done|].
    econstructor; [apply derives_RLit|done]. }
  destruct (FindStringSubmatch_start _ _ x _ Hd) as (m0 & c0 & post & Hf & Heq & Hd0).
  rewrite !append_assoc in Hf, Heq.
  apply derives_RCat in Hd0 as (? & w1 & ? & -> & [-> ->]%derives_RLit_iff & Hd0).
  apply derives_RCat in Hd0 as (n' & w2 & c1' & -> & [Hn' Hc1']%derives_RName_inv & Hd0).
  apply derives_RCat in Hd0 as (? & w' & ? & -> & [-> ->]%derives_RLit_iff & Hd0).
  rewrite !append_assoc in Heq. apply append_inv_l in Heq. rewrite !append_cons, !append_nil_l in Heq.
  apply split_at_byte in Heq as [<- Heq]; [|by apply instance_name_colon..]. injection Heq as Heq.
  eexists _, c0, c1', w', post. split_and!; [done| |done|done].
  destruct Hc1' as [[-> ->]| ->]; eauto.
Qed.

Lemma rmatch_RLit a s c k : rmatch (RLit a) (a +:+ s) c k = k s c.
Proof.
  induction a as [|b a IH]; [done|]. rewrite append_cons. cbn [RLit rmatch]. rewrite Ascii.eqb_refl. apply IH.
Qed.

Lemma FindStringSubmatch_here r s x : match_here r s = Some x → FindStringSubmatch r s = Some x.
Proof. intros H. destruct s; cbn [FindStringSubmatch]; by rewrite H. Qed.

(** An expression without groups leaves the captures alone. *)
Fixpoint groupless (r : regexp) : bool :=
  match r with
  | REmpty | RChar _ => true
  | RCat r1 r2 | RAlt r1 r2 => groupless r1 && groupless r2
  | RStar r => groupless r
  | RGroup _ _ => false
  end.

Lemma derives_groupless r c w c' : groupless r = true → derives r c w c' → c' = c.
Proof.
  intros Hg Hd. induction Hd; simpl in *; rewrite ?andb_true_iff in *; naive_solver.
Qed.

(** [^r$]: a match of the whole text. *)
Definition match_full (r : regexp) (s : string) : option captures :=
  match rmatch r s [] (λ s' c, match s' with EmptyString => Some (s, c) | _ => None end) with
  | Some (_, c) => Some c
  | None => None
  end.

Lemma match_full_sound r s c : match_full r s = Some c → derives r [] s c.
Proof.
  unfold match_full. destruct (rmatch r s [] _) as [[s0 c0]|] eqn:Hm; [|done]. intros [= ->].
  apply rmatch_sound in Hm as (w & s' & c' & Hs & Hd & Hk). destruct s'; [|done].
  injection Hk as <- ->. rewrite append_nil_r in Hs. by rewrite Hs.
Qed.

Lemma match_full_complete r s c : derives r [] s c → is_Some (match_full r s).
Proof.
  intros Hd. unfold match_full.
  destruct (rmatch_complete r s "" [] c (λ s' c, match s' with EmptyString => Some (s, c) | _ => None end) Hd) as [[s0 c0] Hm];
    [by eexists|]. rewrite append_nil_r in Hm. rewrite Hm. by eexists.
Qed.

(** [len(re.FindAllStringSubmatch(s, -1))] for an expression without empty matches. *)
Fixpoint countMatches (fuel : nat) (r : regexp) (s : string) : nat :=
  match fuel with
  | O => 0
  | S fuel =>
      match match_here r s with
      | Some (m0, _) =>
          match m0 with
          | EmptyString => match s with EmptyString => 0 | String _ s => countMatches fuel r s end
          | _ => S (countMatches fuel r (sdrop (slen m0) s))
          end
      | None => match s with EmptyString => 0 | String _ s => countMatches fuel r s end
      end
  end.
Definition FindAllCount (r : regexp) (s : string) : nat := countMatches (S (slen s)) r s.

Lemma match_here_RLit a s : match_here (RLit a) s = if HasPrefix s a then Some (a, []) else None.
Proof.
  destruct (HasPrefix s a) eqn:Hp.
  - apply HasPrefix_spec in Hp as [t ->]. unfold match_here. rewrite rmatch_RLit, slen_append.
    by rewrite Nat.add_sub, stake_app.
  - destruct (match_here (RLit a) s) as [[m0 c]|] eqn:Hm; [|done].
    apply match_here_sound in Hm as (t & -> & [-> _]%derives_RLit_iff). by rewrite HasPrefix_app in Hp.
Qed.

Lemma countMatches_RLit fuel a s :
  a ≠ "" →
  countMatches (S fuel) (RLit a) s =
  if HasPrefix s a then S (countMatches fuel (RLit a) (sdrop (slen a) s))
  else match s with EmptyString => 0 | String _ s => countMatches fuel (RLit a) s end.
Proof. intros Ha. cbn [countMatches]. rewrite match_here_RLit. destruct (HasPrefix s a); [|done]. by destruct a. Qed.

(** An occurrence is counted. *)
Lemma countMatches_pos fuel a x y :
  a ≠ "" → slen (x +:+ a +:+ y) < fuel → 0 < countMatches fuel (RLit a) (x +:+ a +:+ y).
Proof.
  intros Ha. revert x. induction fuel as [|fuel IH]; intros x Hf; [lia|]. rewrite countMatches_RLit by done.
  destruct (HasPrefix _ _) eqn:Hp; [lia|]. destruct x as [|b x].
  - by rewrite append_nil_l, HasPrefix_app in Hp.
  - rewrite append_cons in *. apply IH. simpl in Hf. lia.
Qed.

Lemma split_first_byte d s : ContainsByte s d = true → ∃ u v, s = u +:+ String d v ∧ ContainsByte u d = false.
Proof.
  induction s as [|b s IH]; [done|]. rewrite ContainsByte_cons. destruct (Ascii.eqb_spec b d) as [->|Hb].
  - intros _. by exists "", s.
  - intros (u & v & -> & Hu)%IH. exists (String b u), v. rewrite append_cons, ContainsByte_cons.
    split; [done|]. rewrite Hu, orb_false_r. by apply Ascii.eqb_neq.
Qed.

Lemma append_inv_r x y s : x +:+ s = y +:+ s → x = y.
Proof.
  intros He. assert (Hl : slen x = slen y) by (apply (f_equal slen) in He; rewrite !slen_append in He; lia).
  apply (f_equal (stake (slen x))) in He. by rewrite stake_app, Hl, stake_app in He.
Qed.

(** A text whose last byte occurs only there does not overlap itself. *)
Lemma no_overlap w d x y t :
  ContainsByte w d = false → x ≠ "" →
  x +:+ w +:+ String d y = w +:+ String d t → ∃ x', x = w +:+ String d x'.
Proof.
  intros Hw Hx He. destruct (ContainsByte x d) eqn:Hxd.
  - apply split_first_byte in Hxd as (u & v & -> & Hu). rewrite append_assoc, append_cons in He.
    apply split_at_byte in He as [-> _]; [by eexists|done|done].
  - rewrite <-append_assoc in He. apply split_at_byte in He as [He _]; [|by rewrite ContainsByte_append, Hxd, Hw|done].
    by apply (append_inv_r x "" w) in He.
Qed.

(** The single counted occurrence is the one [strings.Index] finds. *)
Lemma FindAllCount_one_Index w d x y :
  ContainsByte w d = false →
  FindAllCount (RLit (w +:+ String d "")) (x +:+ w +:+ String d y) = 1 →
  Index (x +:+ w +:+ String d y) (w +:+ String d "") = Some (slen x).
Proof.
  intros Hw. unfold FindAllCount.
  assert (Hne : w +:+ String d "" ≠ "") by (destruct w; done).
  assert (Ha : ∀ z, w +:+ String d z = (w +:+ String d "") +:+ z) by (intros; by rewrite append_assoc).
  enough (Hgen : ∀ fuel, slen (x +:+ w +:+ String d y) < fuel →
    countMatches fuel (RLit (w +:+ String d "")) (x +:+ w +:+ String d y) = 1 →
    Index (x +:+ w +:+ String d y) (w +:+ String d "") = Some (slen x)) by (apply Hgen; lia).
  intros fuel. revert x.
  induction fuel as [|fuel IH]; intros x Hf; [lia|]. rewrite countMatches_RLit by done.
  destruct (HasPrefix _ _) eqn:Hp.
  - intros [= Hc]. apply HasPrefix_spec in Hp as [t Ht]. destruct (decide (x = "")) as [->|Hx].
    { rewrite append_nil_l, (Ha y). destruct (w +:+ String d "") as [|b l] eqn:He; [done|].
      rewrite append_cons. cbn [Index]. by rewrite <-append_cons, HasPrefix_app. }
    destruct (no_overlap w d x y t Hw Hx) as [x' ->]; [by rewrite Ht, append_assoc|].
    rewrite (Ha x'), append_assoc, sdrop_app, (Ha y) in Hc.
    pose proof (countMatches_pos fuel (w +:+ String d "") x' y Hne) as Hpos. rewrite Hc in Hpos.
    rewrite !slen_append in Hf, Hpos. simpl in Hf, Hpos. lia.
  - destruct x as [|b x]; [by rewrite append_nil_l, (Ha y), HasPrefix_app in Hp|].
    rewrite append_cons in *. intros Hc. cbn [Index]. rewrite Hp, IH; [done| |done]. simpl in Hf. lia.
Qed.
