(* ===== verification/Filters.v ===== *)
(** * String and datapoint filters

    [signalfx-agent/pkg/utils/filter] (string filters with literals, [/regex/]
    and glob items, each possibly negated by a leading [!]),
    [signalfx-agent/pkg/core/dpfilters] (datapoint filters and filter sets) and
    [signalfx-agent/pkg/core/config/filters.go] (filters made from the
    configuration).  The pattern compilers [regexp.Compile] (on user text) and
    [glob.Compile] are the operations of the class [PatternEngine]. *)

From S2P Require Import Prelude GoStrings GoValue.
From Stdlib Require Import Ascii.

Class PatternEngine := {
  regexp_Compile : string → res (string → bool);
  glob_Compile : string → res (string → bool);
}.

(** [golib/datapoint.Datapoint], the fields filters read. *)
Record Datapoint := { dp_Metric : string; dp_Dimensions : gmap string string }.

(** ** utils/filter/matching.go *)

Definition isGlobbed (s : string) : bool := ContainsAny s "*?[]{}!".

Definition isRegex (s : string) : bool :=
  (2 <? slen s) && byte_is (sget s 0) "/" && byte_is (sget s (slen s - 1)) "/".

Definition stripSlashes (s : string) : string :=
  if slen s <? 2 then s else slice s 1 (slen s - 1).

Definition stripNegation (value : string) : string * bool :=
  if HasPrefix value "!" then (sdrop 1 value, true) else (value, false).

Record regexMatcher := { re : string → bool; re_negated : bool }.
Definition regexMatcher_Matches (m : regexMatcher) (s : string) : bool * bool :=
  (re m s, re_negated m).

Record globMatcher := { glob : string → bool; glob_negated : bool }.
Definition globMatcher_Matches (m : globMatcher) (s : string) : bool * bool :=
  (glob m s, glob_negated m).

(** ** utils/filter/filter.go *)

Record BasicStringFilter := {
  staticSet : gmap string bool;
  regexps : list regexMatcher;
  globs : list globMatcher;
  anyStaticNegated : bool;
}.

Definition BasicStringFilter_Matches (f : BasicStringFilter) (s : string) : bool :=
  match staticSet f !! s with
  | Some negated => negb negated
  | None =>
      if anyStaticNegated f then true
      else if existsb (λ m, negb (Bool.eqb (re m s) (re_negated m))) (regexps f) then true
      else existsb (λ m, negb (Bool.eqb (glob m s) (glob_negated m))) (globs f)
  end.

Definition emptyStringFilter : BasicStringFilter :=
  {| staticSet := ∅; regexps := []; globs := []; anyStaticNegated := false |}.

(** One turn of the loop of [NewBasicStringFilter]. *)
Definition addFilterItem `{PatternEngine} (f : BasicStringFilter) (i : string) : res BasicStringFilter :=
  let '(m, negated) := stripNegation i in
  if isRegex m then
    match regexp_Compile (stripSlashes m) with
    | Err e => Err e
    | Ok r => Ok {| staticSet := staticSet f;
                    regexps := regexps f ++ [{| re := r; re_negated := negated |}];
                    globs := globs f; anyStaticNegated := anyStaticNegated f |}
    end
  else if isGlobbed m then
    match glob_Compile m with
    | Err e => Err e
    | Ok g => Ok {| staticSet := staticSet f; regexps := regexps f;
                    globs := globs f ++ [{| glob := g; glob_negated := negated |}];
                    anyStaticNegated := anyStaticNegated f |}
    end
  else Ok {| staticSet := <[m := negated]> (staticSet f); regexps := regexps f;
             globs := globs f;
             anyStaticNegated := if negated then true else anyStaticNegated f |}.

Definition NewBasicStringFilter `{PatternEngine} (items : list string) : res BasicStringFilter :=
  foldM_res addFilterItem emptyStringFilter items.

(** ** utils/filter/overridable.go *)

(** The loops over [regexps] and [globs]: [None] is the early [return false]. *)
Fixpoint matchUnlessNegated {M} (matches : M → string → bool * bool) (ms : list M)
    (s : string) (matched : bool) : option bool :=
  match ms with
  | [] => Some matched
  | m :: ms =>
      let '(mMatched, negated) := matches m s in
      if mMatched && negated then None
      else matchUnlessNegated matches ms s (matched || mMatched)
  end.

Definition OverridableStringFilter_Matches (f : BasicStringFilter) (s : string) : bool :=
  let matched := match staticSet f !! s with Some _ => true | None => false end in
  let negated := match staticSet f !! s with Some n => n | None => false end in
  if matched && negated then false
  else match matchUnlessNegated regexMatcher_Matches (regexps f) s matched with
       | None => false
       | Some matched =>
           match matchUnlessNegated globMatcher_Matches (globs f) s matched with
           | None => false
           | Some matched => matched
           end
       end.

Definition NewOverridableStringFilter `{PatternEngine} (items : list string) : res BasicStringFilter :=
  NewBasicStringFilter items.

(** ** String map filters *)

Record fullStringMapFilter := {
  filterMap : gmap string BasicStringFilter;
  okMissing : gmap string bool;
}.

Definition addMapItem `{PatternEngine} (f : fullStringMapFilter) (kv : string * list string)
    : res fullStringMapFilter :=
  let '(k, v) := kv in
  if decide (v = []) then Err (Errorf "string map value in filter cannot be empty" [])
  else
    let realKey := TrimSuffix k "?" in
    match NewOverridableStringFilter v with
    | Err e => Err e
    | Ok flt =>
        Ok {| filterMap := <[realKey := flt]> (filterMap f);
              okMissing := if slen realKey =? slen k then okMissing f
                           else <[realKey := true]> (okMissing f) |}
    end.

Definition NewStringMapFilter `{PatternEngine, MapRange} (m : gmap string (list string))
    : res fullStringMapFilter :=
  foldM_res addMapItem {| filterMap := ∅; okMissing := ∅ |} (range m).

(** The loop of [fullStringMapFilter.Matches] over the entries of [filterMap],
    in the order [range] visits them. *)
Fixpoint matchMapEntries (ok : gmap string bool) (m : gmap string string)
    (order : list (string * BasicStringFilter)) : bool :=
  match order with
  | [] => true
  | (k, flt) :: order =>
      match m !! k with
      | Some v => if OverridableStringFilter_Matches flt v then matchMapEntries ok m order else false
      | None => default false (ok !! k)
      end
  end.

Definition fullStringMapFilter_Matches `{MapRange} (f : fullStringMapFilter)
    (m : gmap string string) : bool :=
  if (size m =? 0) && (size (okMissing f) =? 0) then false
  else matchMapEntries (okMissing f) m (range (filterMap f)).

(** ** core/dpfilters *)

(** The interface [DatapointFilter]: its [Matches] method. *)
Abbreviation DatapointFilter := (Datapoint → bool).

Definition NegatedDatapointFilter_Matches (n : DatapointFilter) (dp : Datapoint) : bool :=
  negb (n dp).

Definition Negate (f : DatapointFilter) : DatapointFilter := NegatedDatapointFilter_Matches f.

Record overridableDatapointFilter := {
  dimFilter : option fullStringMapFilter;
  metricFilter : option BasicStringFilter;
}.

Definition NewOverridable `{PatternEngine, MapRange} (metricNames : list string)
    (dimensions : gmap string (list string)) : res overridableDatapointFilter :=
  dimF ← (if 0 <? size dimensions then Some <$> NewStringMapFilter dimensions else Ok None);
  metF ← (if 0 <? length metricNames then Some <$> NewOverridableStringFilter metricNames else Ok None);
  match metF, dimF with
  | None, None =>
      Err (Errorf "metric filter must have at least one metric or dimension defined on it" [])
  | _, _ => Ok {| dimFilter := dimF; metricFilter := metF |}
  end.

Definition overridableDatapointFilter_Matches `{MapRange} (f : overridableDatapointFilter)
    (dp : Datapoint) : bool :=
  (match metricFilter f with
   | None => true
   | Some mf => OverridableStringFilter_Matches mf (dp_Metric dp)
   end) &&
  (match dimFilter f with
   | None => true
   | Some df => fullStringMapFilter_Matches df (dp_Dimensions dp)
   end).

Record FilterSet := {
  ExcludeFilters : list DatapointFilter;
  IncludeFilters : list DatapointFilter;
}.

Fixpoint FilterSet_scan (excludes includes : list DatapointFilter) (dp : Datapoint) : bool :=
  match excludes with
  | [] => false
  | ex :: excludes =>
      if ex dp then (if existsb (λ incl, incl dp) includes then false else true)
      else FilterSet_scan excludes includes dp
  end.

Definition FilterSet_Matches (fs : FilterSet) (dp : Datapoint) : bool :=
  FilterSet_scan (ExcludeFilters fs) (IncludeFilters fs) dp.

(** ** core/config/filters.go *)

Record MetricFilter := {
  mf_Dimensions : gmap string any;
  mf_MetricNames : list string;
  mf_MetricName : string;
  mf_MonitorType : string;
  mf_Negated : bool;
}.

Definition normalizeDimension `{FloatText} (dimSet : gmap string (list string)) (kv : string * any)
    : res (gmap string (list string)) :=
  let '(k, v) := kv in
  match v with
  | ASlice s => Ok (<[k := map Sprint s]> dimSet)
  | AString s => Ok (<[k := [s]]> dimSet)
  | _ => Err (Errorf "%v should be either a string or string list" [Sprint v])
  end.

(** [Normalize] updates its receiver's [MetricNames] and returns the dimensions. *)
Definition MetricFilter_Normalize `{FloatText, MapRange} (mf : MetricFilter)
    : MetricFilter * res (gmap string (list string)) :=
  let mf' :=
    if decide (mf_MetricName mf = "") then mf
    else {| mf_Dimensions := mf_Dimensions mf;
            mf_MetricNames := mf_MetricNames mf ++ [mf_MetricName mf];
            mf_MetricName := mf_MetricName mf; mf_MonitorType := mf_MonitorType mf;
            mf_Negated := mf_Negated mf |} in
  (mf', foldM_res normalizeDimension ∅ (range (mf_Dimensions mf'))).

Definition makeExclude `{PatternEngine, FloatText, MapRange} (f : MetricFilter)
    : res overridableDatapointFilter :=
  if mf_Negated f then Err (Errorf "new filters can't be negated" [])
  else
    let '(f, dims) := MetricFilter_Normalize f in
    dimSet ← dims;
    NewOverridable (mf_MetricNames f) dimSet.

Definition makeNewFilterSet `{PatternEngine, FloatText, MapRange} (excludes : list MetricFilter)
    : res FilterSet :=
  match mapM_res makeExclude excludes with
  | Err e => Err e
  | Ok excludeSet =>
      Ok {| ExcludeFilters := map overridableDatapointFilter_Matches excludeSet;
            IncludeFilters := [] |}
  end.

(** ** What a filter item means *)

(** The predicate an item compiles to, without its negation. *)
Definition item_pattern `{PatternEngine} (it : string) : res (string → bool) :=
  let m := (stripNegation it).1 in
  if isRegex m then regexp_Compile (stripSlashes m)
  else if isGlobbed m then glob_Compile m
  else Ok (λ s, bool_decide (s = m)).

Definition item_hits `{PatternEngine} (it s : string) : bool :=
  match item_pattern it with Ok p => p s | Err _ => false end.

Definition item_negated (it : string) : bool := (stripNegation it).2.

(** A literal item: neither a regex nor a glob. *)
Definition item_literal (it : string) : bool :=
  let m := (stripNegation it).1 in negb (isRegex m) && negb (isGlobbed m).

(** No literal is listed both plain and negated. *)
Definition literals_consistent (items : list string) : Prop :=
  ∀ i j, i ∈ items → j ∈ items → item_literal i → item_literal j →
         (stripNegation i).1 = (stripNegation j).1 → item_negated i = item_negated j.

(** The abstract contract of an overridable filter: some plain item hits and no
    negated item hits. *)
Definition overridable_spec `{PatternEngine} (items : list string) (s : string) : Prop :=
  (∃ it, it ∈ items ∧ item_negated it = false ∧ item_hits it s = true) ∧
  (∀ it, it ∈ items → item_negated it = true → item_hits it s = false).

Lemma matchUnlessNegated_Some {M} (ms : list M) (f : M → string → bool * bool) s b b' :
  matchUnlessNegated f ms s b = Some b' ↔
  Forall (λ m, (f m s).1 = true → (f m s).2 = false) ms ∧
  b' = b || existsb (λ m, (f m s).1) ms.
Proof.
  revert b; induction ms as [|m ms IH]; intros b; simpl.
  - rewrite orb_false_r. split; [intros [= <-]; by split | by intros [_ ->]].
  - rewrite Forall_cons, orb_assoc.
    destruct (f m s) as [[] []]; simpl; rewrite ?IH, ?orb_true_r, ?orb_false_r; tauto || naive_solver.
Qed.

(** What a built filter says, in terms of its own fields. *)
Lemma Overridable_fields f s :
  OverridableStringFilter_Matches f s = true ↔
  (staticSet f !! s = Some false ∨ (∃ m, m ∈ regexps f ∧ re m s = true) ∨
   (∃ m, m ∈ globs f ∧ glob m s = true)) ∧
  staticSet f !! s ≠ Some true ∧
  (∀ m, m ∈ regexps f → re m s = true → re_negated m = false) ∧
  (∀ m, m ∈ globs f → glob m s = true → glob_negated m = false).
Proof.
  unfold OverridableStringFilter_Matches.
  set (st := match staticSet f !! s with Some _ => true | None => false end).
  transitivity (staticSet f !! s ≠ Some true ∧ ∃ b,
    matchUnlessNegated regexMatcher_Matches (regexps f) s st = Some b ∧
    matchUnlessNegated globMatcher_Matches (globs f) s b = Some true).
  { subst st. destruct (staticSet f !! s) as [[]|]; simpl; [naive_solver|..].
    all: destruct (matchUnlessNegated regexMatcher_Matches _ _ _) as [b|]; [|naive_solver].
    all: destruct (matchUnlessNegated globMatcher_Matches _ _ _) as [[]|] eqn:?; naive_solver. }
  setoid_rewrite matchUnlessNegated_Some. setoid_rewrite Forall_forall. simpl.
  transitivity (staticSet f !! s ≠ Some true ∧
    (st || existsb (λ m, re m s) (regexps f) || existsb (λ m, glob m s) (globs f)) = true ∧
    (∀ m, m ∈ regexps f → re m s = true → re_negated m = false) ∧
    (∀ m, m ∈ globs f → glob m s = true → glob_negated m = false)); [naive_solver|].
  rewrite !orb_true_iff, !existsb_elem.
  subst st. destruct (staticSet f !! s) as [[]|]; naive_solver.
Qed.

(** ** From items to fields *)

Section items.
Context `{PatternEngine}.

Definition item_regex (it : string) : option regexMatcher :=
  let '(m, n) := stripNegation it in
  if isRegex m then
    match regexp_Compile (stripSlashes m) with
    | Ok r => Some {| re := r; re_negated := n |} | Err _ => None
    end
  else None.

Definition item_glob (it : string) : option globMatcher :=
  let '(m, n) := stripNegation it in
  if isRegex m then None else if isGlobbed m then
    match glob_Compile m with
    | Ok g => Some {| glob := g; glob_negated := n |} | Err _ => None
    end
  else None.

Definition item_static (s it : string) : option bool :=
  if item_literal it && bool_decide ((stripNegation it).1 = s)
  then Some (item_negated it) else None.

Lemma add_fields f0 it f :
  addFilterItem f0 it = Ok f →
  regexps f = regexps f0 ++ option_list (item_regex it) ∧
  globs f = globs f0 ++ option_list (item_glob it) ∧
  ∀ s, staticSet f !! s =
       match item_static s it with Some b => Some b | None => staticSet f0 !! s end.
Proof.
  unfold addFilterItem, item_regex, item_glob, item_static, item_literal, item_negated.
  destruct (stripNegation it) as [m n]; simpl.
  destruct (isRegex m); [|destruct (isGlobbed m)]; simpl.
  - destruct (regexp_Compile _); intros ?; simplify_eq/=. by rewrite app_nil_r.
  - destruct (glob_Compile _); intros ?; simplify_eq/=. by rewrite app_nil_r.
  - intros ?; simplify_eq/=. rewrite !app_nil_r. split_and!; [done..|]. intros s.
    case_bool_decide; subst; [by rewrite lookup_insert_eq | by rewrite lookup_insert_ne].
Qed.

Lemma build_fields items f0 f :
  foldM_res addFilterItem f0 items = Ok f →
  regexps f = regexps f0 ++ omap item_regex items ∧
  globs f = globs f0 ++ omap item_glob items ∧
  ∀ s, staticSet f !! s =
       match last (omap (item_static s) items) with Some b => Some b | None => staticSet f0 !! s end.
Proof.
  revert f0; induction items as [|it items IH]; intros f0; simpl.
  { intros [= <-]. by rewrite !app_nil_r. }
  destruct (addFilterItem f0 it) as [f1|] eqn:Hadd; [|done].
  apply add_fields in Hadd as (Hr1 & Hg1 & Hs1).
  intros (Hr & Hg & Hs)%IH. rewrite Hr, Hg, Hr1, Hg1, <-!app_assoc. split_and!.
  - by destruct (item_regex it).
  - by destruct (item_glob it).
  - intros s. rewrite Hs, Hs1. destruct (item_static s it); [rewrite last_cons|];
      by destruct (last _).
Qed.

(** Construction succeeds exactly when every item compiles. *)
Lemma NewBasic_is_ok items :
  is_ok (NewBasicStringFilter items) ↔ Forall (λ it, is_ok (item_pattern it)) items.
Proof.
  unfold NewBasicStringFilter. generalize emptyStringFilter.
  induction items as [|it items IH]; intros f0; simpl; [done|].
  rewrite Forall_cons. unfold addFilterItem at 1, item_pattern at 1.
  destruct (stripNegation it) as [m n]; simpl.
  destruct (isRegex m); [|destruct (isGlobbed m)]; simpl;
    [destruct (regexp_Compile _)|destruct (glob_Compile _)|]; simpl; rewrite ?IH; naive_solver.
Qed.

Lemma item_hits_cases it s :
  item_hits it s = true ↔
  (∃ m, item_regex it = Some m ∧ re m s = true) ∨
  (∃ m, item_glob it = Some m ∧ glob m s = true) ∨ is_Some (item_static s it).
Proof.
  unfold item_hits, item_pattern, item_regex, item_glob, item_static, item_literal.
  destruct (stripNegation it) as [x n]; simpl.
  destruct (isRegex x); [|destruct (isGlobbed x)]; simpl.
  - destruct (regexp_Compile _); naive_solver.
  - destruct (glob_Compile _); naive_solver.
  - rewrite bool_decide_eq_true. case_bool_decide; naive_solver.
Qed.

Lemma item_regex_negated it m : item_regex it = Some m → re_negated m = item_negated it.
Proof.
  unfold item_regex, item_negated. destruct (stripNegation it); simpl. go_solve.
Qed.

Lemma item_glob_negated it m : item_glob it = Some m → glob_negated m = item_negated it.
Proof.
  unfold item_glob, item_negated. destruct (stripNegation it); simpl. go_solve.
Qed.

Lemma item_static_negated s it b : item_static s it = Some b → b = item_negated it.
Proof. unfold item_static. destruct (_ && _); naive_solver. Qed.

(** With consistent literals, the last literal equal to [s] speaks for all. *)
Lemma static_lookup (items : list string) s b :
  literals_consistent items →
  last (omap (item_static s) items) = Some b ↔ ∃ it, it ∈ items ∧ item_static s it = Some b.
Proof.
  intros Hc. rewrite <-list_elem_of_omap. split; [apply last_Some_elem_of|].
  intros Hb. destruct (last (omap (item_static s) items)) as [c|] eqn:Hl; cycle 1.
  { apply last_None in Hl. rewrite Hl in Hb. by apply not_elem_of_nil in Hb. }
  apply last_Some_elem_of in Hl. f_equal.
  apply list_elem_of_omap in Hb as (i & Hi & Hbi), Hl as (j & Hj & Hcj).
  pose proof (item_static_negated _ _ _ Hbi) as ->. pose proof (item_static_negated _ _ _ Hcj) as ->.
  unfold item_static in *. apply Hc; [done..| | |];
    destruct (item_literal i), (item_literal j); simpl in *; try done;
    repeat case_bool_decide; congruence.
Qed.

(** Which polarity hits [s], read off the items and off the built fields. *)
Lemma hit_fields (items : list string) f s b :
  literals_consistent items →
  NewBasicStringFilter items = Ok f →
  (∃ it, it ∈ items ∧ item_negated it = b ∧ item_hits it s = true) ↔
  (∃ m, m ∈ regexps f ∧ re m s = true ∧ re_negated m = b) ∨
  (∃ m, m ∈ globs f ∧ glob m s = true ∧ glob_negated m = b) ∨ staticSet f !! s = Some b.
Proof.
  intros Hc (Hr & Hg & Hs)%build_fields. simpl in *. rewrite Hr, Hg, Hs. clear Hr Hg Hs.
  transitivity (last (omap (item_static s) items) = Some b ∨
    (∃ m, m ∈ omap item_regex items ∧ re m s = true ∧ re_negated m = b) ∨
    (∃ m, m ∈ omap item_glob items ∧ glob m s = true ∧ glob_negated m = b)); cycle 1.
  { rewrite lookup_empty. destruct (last _); naive_solver. }
  rewrite static_lookup by done. setoid_rewrite list_elem_of_omap.
  setoid_rewrite item_hits_cases. split.
  - intros (it & Hit & <- & [(m & Hm & ?)|[(m & Hm & ?)|[c Hst]]]).
    + right; left. exists m. split_and!; eauto using item_regex_negated.
    + right; right. exists m. split_and!; eauto using item_glob_negated.
    + left. exists it. split; [done|]. by rewrite Hst, (item_static_negated _ _ _ Hst).
  - intros [(it & Hit & Hst)|[(m & (it & Hit & Hm) & ? & <-)|(m & (it & Hit & Hm) & ? & <-)]];
      exists it; (split; [done|]).
    + split; [symmetry; by eapply item_static_negated | eauto].
    + split; [symmetry; by eapply item_regex_negated | eauto].
    + split; [symmetry; by eapply item_glob_negated | eauto].
Qed.

Lemma build_anyNegated items f0 f :
  foldM_res addFilterItem f0 items = Ok f →
  anyStaticNegated f =
  anyStaticNegated f0 || existsb (λ it, item_literal it && item_negated it) items.
Proof.
  revert f0; induction items as [|it items IH]; intros f0; simpl.
  { intros [= <-]. by rewrite orb_false_r. }
  destruct (addFilterItem f0 it) as [f1|] eqn:Hadd; [|done].
  intros ->%IH. rewrite orb_assoc. f_equal.
  unfold addFilterItem, item_literal, item_negated in *. destruct (stripNegation it) as [m n]; simpl in *.
  destruct (isRegex m), (isGlobbed m), n; go_cases; by rewrite ?orb_false_r, ?orb_true_r.
Qed.

(** An item that is not the literal [s]: its hit differs from its negation. *)
Lemma item_differs it s :
  is_ok (item_pattern it) → item_static s it = None →
  item_hits it s ≠ item_negated it ↔
  item_literal it && item_negated it = true ∨
  (∃ m, item_regex it = Some m ∧ re m s ≠ re_negated m) ∨
  (∃ m, item_glob it = Some m ∧ glob m s ≠ glob_negated m).
Proof.
  unfold item_hits, item_pattern, item_regex, item_glob, item_static, item_literal, item_negated.
  destruct (stripNegation it) as [x n]; simpl.
  destruct (isRegex x); [|destruct (isGlobbed x)]; simpl.
  - destruct (regexp_Compile _); naive_solver.
  - destruct (glob_Compile _); naive_solver.
  - case_bool_decide as Hx; [done|]. intros _ _. rewrite bool_decide_eq_false_2 by done.
    destruct n; naive_solver.
Qed.

Lemma differs_fields (items : list string) s :
  (∀ it, it ∈ items → is_ok (item_pattern it)) → (∀ it, it ∈ items → item_static s it = None) →
  (if existsb (λ it, item_literal it && item_negated it) items then true
   else if existsb (λ m, negb (Bool.eqb (re m s) (re_negated m))) (omap item_regex items) then true
   else existsb (λ m, negb (Bool.eqb (glob m s) (glob_negated m))) (omap item_glob items)) = true ↔
  ∃ it, it ∈ items ∧ item_hits it s ≠ item_negated it.
Proof.
  intros Hok Hnone.
  assert (Hif : ∀ a b c : bool, (if a then true else if b then true else c) = true ↔
    a = true ∨ b = true ∨ c = true) by (intros [] [] []; naive_solver).
  rewrite Hif, !existsb_elem. setoid_rewrite list_elem_of_omap.
  setoid_rewrite negb_true_iff. setoid_rewrite eqb_false_iff. split.
  - intros [(it & Hit & ?)|[(m & (it & Hit & ?) & ?)|(m & (it & Hit & ?) & ?)]];
      exists it; (split; [done|]); apply item_differs; eauto.
  - intros (it & Hit & Hd). apply item_differs in Hd as [?|[(m & ? & ?)|(m & ? & ?)]];
      eauto 10.
Qed.
End items.

(** ** Properties *)

(** The fields of a built filter decide the abstract contract. *)
Lemma overridable_refines `{PatternEngine} (items : list string) f s :
  literals_consistent items →
  NewOverridableStringFilter items = Ok f →
  OverridableStringFilter_Matches f s = true ↔ overridable_spec items s.
Proof.
  intros Hc Hf. unfold overridable_spec. rewrite Overridable_fields.
  rewrite (hit_fields _ _ s false Hc Hf).
  transitivity (((∃ m, m ∈ regexps f ∧ re m s = true ∧ re_negated m = false) ∨
    (∃ m, m ∈ globs f ∧ glob m s = true ∧ glob_negated m = false) ∨ staticSet f !! s = Some false) ∧
    ¬ (∃ it, it ∈ items ∧ item_negated it = true ∧ item_hits it s = true)); cycle 1.
  { f_equiv. setoid_rewrite <-not_true_iff_false. naive_solver. }
  rewrite (hit_fields _ _ s true Hc Hf). split.
  - intros (Hhit & Hst & Hre & Hgl). split; [|intros [(m & ? & ? & Hn)|[(m & ? & ? & Hn)|?]]];
      [naive_solver | by rewrite Hre in Hn | by rewrite Hgl in Hn | done].
  - intros [Hhit Hno]. split_and!.
    + naive_solver.
    + naive_solver.
    + intros m ??. apply not_true_iff_false. naive_solver.
    + intros m ??. apply not_true_iff_false. naive_solver.
Qed.

(** C7: an overridable string filter built from [items] matches [s] exactly when
    some plain item hits [s] and no negated item hits it, whatever the order of
    the items, provided no literal is listed both plain and negated.  The
    comments on the type and on [Matches] say more, that a string equal to a
    plain literal matches although a negated pattern excludes it; the code
    returns false on a negated hit before it uses the literal, and
    [negated_pattern_beats_literal] shows the difference. *)
Theorem OverridableStringFilter_correct `{PatternEngine} (items : list string) f s :
  literals_consistent items →
  NewOverridableStringFilter items = Ok f →
  OverridableStringFilter_Matches f s = true ↔ overridable_spec items s.
Proof. apply overridable_refines. Qed.

(** A small pattern engine for witnesses: a glob is a literal prefix followed
    by [*], a regex is a literal substring. *)
Definition prefix_engine : PatternEngine := {|
  regexp_Compile t := Ok (λ s, Contains s t);
  glob_Compile t := Ok (λ s, HasPrefix s (TrimSuffix t "*"));
|}.

Lemma OverridableStringFilter_correct_witness :
  literals_consistent ["process_*"; "!process_cpu"] ∧
  ∃ f, @NewOverridableStringFilter prefix_engine ["process_*"; "!process_cpu"] = Ok f ∧
       OverridableStringFilter_Matches f "process_mem" = true ∧
       @overridable_spec prefix_engine ["process_*"; "!process_cpu"] "process_mem".
Proof.
  assert (Hc : literals_consistent ["process_*"; "!process_cpu"]).
  { intros i j Hi Hj. set_unfold. destruct Hi as [->|[->|[]]], Hj as [->|[->|[]]]; done. }
  split; [done|]. eexists. split; [reflexivity|]. split; [reflexivity|].
  by eapply (@OverridableStringFilter_correct prefix_engine); [done | reflexivity | reflexivity].
Defined.

(** The literal that is listed last decides when a literal is listed both
    plain and negated, so the order of the items is observable. *)
Theorem literal_order_observable `{PatternEngine} :
  ∃ f g, NewOverridableStringFilter ["app"; "!app"] = Ok f ∧
         NewOverridableStringFilter ["!app"; "app"] = Ok g ∧
         OverridableStringFilter_Matches f "app" = false ∧
         OverridableStringFilter_Matches g "app" = true.
Proof. do 2 eexists. by repeat split. Qed.

(** A literal that a negated pattern excludes does not match, contrary to the
    comments of [overridable.go]. *)
Lemma negated_pattern_beats_literal :
  ∃ f, @NewOverridableStringFilter prefix_engine ["process_cpu"; "!process_*"] = Ok f ∧
       OverridableStringFilter_Matches f "process_cpu" = false.
Proof. eexists. split; reflexivity. Qed.

(** A basic string filter decides a listed literal by its own polarity; any
    other string matches when some item's hit differs from its negation. *)
Theorem BasicStringFilter_correct `{PatternEngine} (items : list string) f s :
  literals_consistent items →
  NewBasicStringFilter items = Ok f →
  BasicStringFilter_Matches f s = true ↔
  (∃ it, it ∈ items ∧ item_static s it = Some false) ∨
  (∀ it, it ∈ items → item_static s it = None) ∧
  ∃ it, it ∈ items ∧ item_hits it s ≠ item_negated it.
Proof.
  intros Hc Hf. assert (Hok : Forall (λ it, is_ok (item_pattern it)) items)
    by (apply NewBasic_is_ok; by rewrite Hf).
  pose proof (build_anyNegated _ _ _ Hf) as Ha. apply build_fields in Hf as (Hr & Hg & Hs).
  simpl in *. unfold BasicStringFilter_Matches. rewrite Hr, Hg, Hs, Ha, lookup_empty. clear Hr Hg Hs Ha f.
  destruct (last (omap (item_static s) items)) as [b|] eqn:Hl.
  { pose proof (proj1 (static_lookup _ _ _ Hc) Hl) as (it & Hit & Hb). split.
    - left. exists it. split; [done|]. by destruct b.
    - intros [Hx|[Hnone _]]; [|by rewrite Hnone in Hb].
      apply static_lookup in Hx; [|done]. by simplify_eq. }
  assert (Hnone : ∀ it, it ∈ items → item_static s it = None).
  { intros it Hit. apply last_None in Hl. destruct (item_static s it) as [c|] eqn:Hc'; [|done].
    exfalso. apply (not_elem_of_nil c). rewrite <-Hl. apply list_elem_of_omap. eauto. }
  transitivity (∃ it, it ∈ items ∧ item_hits it s ≠ item_negated it); cycle 1.
  { split; [by right | intros [(it & Hit & Hb)|[_ ?]]; [by rewrite Hnone in Hb | done]]. }
  rewrite Forall_forall in Hok. apply differs_fields; auto.
Qed.

Lemma BasicStringFilter_correct_witness :
  literals_consistent ["!app"] ∧
  ∃ f, @NewBasicStringFilter prefix_engine ["!app"] = Ok f ∧
       BasicStringFilter_Matches f "other" = true ∧
       ((∃ it, it ∈ ["!app"] ∧ item_static "other" it = Some false) ∨
        (∀ it, it ∈ ["!app"] → item_static "other" it = None) ∧
        ∃ it, it ∈ ["!app"] ∧ @item_hits prefix_engine it "other" ≠ item_negated it).
Proof.
  assert (Hc : literals_consistent ["!app"]).
  { intros i j Hi Hj. set_unfold. destruct Hi as [->|[]], Hj as [->|[]]; done. }
  split; [done|]. eexists. split; [reflexivity|]. split; [reflexivity|].
  by eapply (@BasicStringFilter_correct prefix_engine); [done | reflexivity | reflexivity].
Defined.

(** A filter set matches a datapoint exactly when some exclude filter matches
    it and no include filter does. *)
Theorem FilterSet_Matches_correct (fs : FilterSet) dp :
  FilterSet_Matches fs dp = true ↔
  (∃ ex, ex ∈ ExcludeFilters fs ∧ ex dp = true) ∧
  (∀ incl, incl ∈ IncludeFilters fs → incl dp = false).
Proof.
  assert (Hincl : existsb (λ incl : DatapointFilter, incl dp) (IncludeFilters fs) = false ↔
    ∀ incl, incl ∈ IncludeFilters fs → incl dp = false).
  { rewrite <-not_true_iff_false, existsb_elem. setoid_rewrite <-not_true_iff_false. naive_solver. }
  rewrite <-Hincl. unfold FilterSet_Matches. clear Hincl.
  induction (ExcludeFilters fs) as [|ex exs IH]; simpl; [set_solver|].
  setoid_rewrite elem_of_cons. destruct (ex dp) eqn:Hex.
  - destruct (existsb _ _); [naive_solver|]. split; [|done]. intros _. eauto.
  - rewrite IH. split; intros [(x & Hx & Hd) ?]; (split; [|done]).
    + eauto.
    + destruct Hx as [->|Hx]; [congruence | eauto].
Qed.

Lemma matchMapEntries_required m order :
  matchMapEntries ∅ m order = true ↔
  ∀ k flt, (k, flt) ∈ order → ∃ v, m !! k = Some v ∧ OverridableStringFilter_Matches flt v = true.
Proof.
  induction order as [|[k flt] order IH]; simpl; [set_solver|]. setoid_rewrite elem_of_cons.
  destruct (m !! k) as [v|] eqn:Hk.
  - destruct (OverridableStringFilter_Matches flt v) eqn:Hv; [rewrite IH|]; naive_solver.
  - rewrite lookup_empty. split; [done|]. naive_solver.
Qed.

(** A string map filter without optional ([key?]) keys matches a map exactly
    when the map is not empty and every filtered key is present with a matching
    value; the order in which the filters are visited does not matter. *)
Theorem fullStringMapFilter_required `{MapRange} (f : fullStringMapFilter) m :
  okMissing f = ∅ →
  fullStringMapFilter_Matches f m = true ↔
  m ≠ ∅ ∧ ∀ k flt, filterMap f !! k = Some flt →
    ∃ v, m !! k = Some v ∧ OverridableStringFilter_Matches flt v = true.
Proof.
  intros Hok. unfold fullStringMapFilter_Matches. rewrite Hok, map_size_empty, andb_true_r.
  destruct (size m =? 0) eqn:Hsz.
  - apply Nat.eqb_eq, map_size_empty_iff in Hsz as ->. naive_solver.
  - apply Nat.eqb_neq in Hsz. rewrite matchMapEntries_required. setoid_rewrite elem_of_range.
    split; [|naive_solver]. intros ?. split; [|done]. intros ->. by rewrite map_size_empty in Hsz.
Qed.

Definition literal_filter (s : string) : BasicStringFilter :=
  {| staticSet := {[s := false]}; regexps := []; globs := []; anyStaticNegated := false |}.

Lemma fullStringMapFilter_required_witness :
  let f := {| filterMap := {["app" := literal_filter "web"]}; okMissing := ∅ |} in
  okMissing f = ∅ ∧
  @fullStringMapFilter_Matches forward_range f {["app" := "web"]} = true ∧
  ({["app" := "web"]} : gmap string string) ≠ ∅.
Proof.
  split; [reflexivity|]. split; [reflexivity|].
  apply (@fullStringMapFilter_required forward_range
    {| filterMap := {["app" := literal_filter "web"]}; okMissing := ∅ |}); reflexivity.
Defined.

(** With an optional key the verdict depends on the order in which [range]
    visits the filters: on a map that lacks the optional key and has a wrong
    value for another one, one order accepts and the other rejects. *)
Theorem fullStringMapFilter_order_dependent :
  ∃ (f : fullStringMapFilter) (m : gmap string string),
    @NewStringMapFilter prefix_engine forward_range {["a?" := ["x"]; "b" := ["y"]]} = Ok f ∧
    @fullStringMapFilter_Matches forward_range f m ≠ @fullStringMapFilter_Matches backward_range f m.
Proof.
  eexists _, {["b" := "z"]}. split; [reflexivity|]. by vm_compute.
Qed.
