(* ===== verification/ConfigSource.v ===== *)
(** * Resolution of environment variables and config sources

    [internal/configsource/source.go]: the scanner that finds [$NAME],
    [${NAME}], [$source:selector] and [${source:selector?params}] in the strings
    of a configuration, the parser of one config source invocation and the
    recursive resolution of whole configuration values.

    What the code calls outside this repository is [Externals]: the process
    environment, the config sources and providers, YAML decoding and the two
    map conversions.  [ctx] and the watcher are passed through unchanged and are
    not represented.  A [CloseFunc] is the list of the handles it closes, in
    order; a nil [CloseFunc] is [None].  [None : fres A] means out of fuel: the
    fuel bounds the nesting of selectors and parameters, not the length of the
    scanned string. *)

From S2P Require Import Prelude GoStrings GoValue Confmap.
From Stdlib Require Import Ascii.

Abbreviation fres A := (option (res A)).

Definition expandPrefixChar : ascii := "$".
Definition configSourceNameDelimChar : ascii := ":".
Definition typeAndNameSeparator : ascii := "/".

(** ** Token scanning *)

Definition isShellSpecialVar (c : ascii) : bool :=
  match c with
  | "*" | "#" | "$" | "@" | "!" | "?" | "-"
  | "0" | "1" | "2" | "3" | "4" | "5" | "6" | "7" | "8" | "9" => true
  | _ => false
  end%char.

Definition isAlphaNum (c : ascii) : bool :=
  Ascii.eqb c "_" || in_range "0" "9" c || in_range "a" "z" c || in_range "A" "Z" c.

(** The scan of [getTokenName] over the bytes from index [i] on: the final [i]
    and [firstNameSepIdx] ([None] is [-1]). *)
Fixpoint scanToken (s : string) (i : nat) (sep : option nat) : nat * option nat :=
  match s with
  | EmptyString => (i, sep)
  | String c s =>
      if isAlphaNum c then scanToken s (S i) sep
      else if Ascii.eqb c typeAndNameSeparator && bool_decide (sep = None)
      then scanToken s (S i) (Some i)
      else (i, sep)
  end.

Definition getTokenName (s : string) : string * nat :=
  if match sget s 0 with Some c => isShellSpecialVar c | None => false end
  then (slice s 0 1, 1)
  else
    let '(i, firstNameSepIdx) := scanToken s 0 None in
    match firstNameSepIdx with
    | Some f =>
        if (slen s <=? i) || negb (byte_is (sget s i) configSourceNameDelimChar)
        then (stake f s, f)
        else (stake i s, i)
    | None => (stake i s, i)
    end.

(** The loop of [scanToClosingBracket] from index [i] of [s] on, [rest = s[i:]]. *)
Fixpoint scanBracket (s rest : string) (i : nat) : string * nat :=
  match rest with
  | EmptyString => ("", 1)
  | String c rest =>
      if Ascii.eqb c "}" then (if i =? 1 then ("", 2) else (slice s 1 i, i + 1))
      else scanBracket s rest (S i)
  end.

Definition scanToClosingBracket (s : string) : string * nat := scanBracket s (sdrop 1 s) 1.

(** Both return the expandable content, the bytes consumed and the config
    source name (empty for an environment variable). *)
Definition getBracketedExpandableContent (s : string) (i : nat) : string * nat * string :=
  let '(expandableContent, consumed) := scanToClosingBracket (sdrop i s) in
  let expandableContent := Trim expandableContent " " in
  let delimIndex := IndexByte expandableContent configSourceNameDelimChar in
  match delimIndex with
  | Some d =>
      if 1 <? slen expandableContent then (expandableContent, consumed, stake d expandableContent)
      else (expandableContent, consumed, "")
  | None => (expandableContent, consumed, "")
  end.

Definition getBareExpandableContent (s : string) (i : nat) : string * nat * string :=
  let '(name, consumed) := getTokenName (sdrop i s) in
  let possibleDelimCharIndex := i + consumed in
  if (possibleDelimCharIndex <? slen s) && byte_is (sget s possibleDelimCharIndex) configSourceNameDelimChar
  then (sdrop i s, slen (sdrop i s), name)
  else (name, consumed, "").

(** The [switch] that follows a prefix char at index [j] (with [j+1 < len(s)]):
    the expandable content, the bytes consumed and the config source name. *)
Definition expandableAt (ddBackwardCompatible : bool) (s : string) (j : nat) : string * nat * string :=
  if byte_is (sget s (j + 1)) expandPrefixChar then
    let found :=
      if ddBackwardCompatible && (2 <? slen (sdrop (j + 1) s)) then
        if byte_is (sget s (j + 2)) "{" then
          let '(expanded, ww, sourceName) := getBracketedExpandableContent s (j + 2) in
          if decide (sourceName = "") then None else Some (expanded, ww, sourceName)
        else
          let '(expanded, ww, sourceName) := getBareExpandableContent s (j + 2) in
          if decide (sourceName = "") then None
          else if (slen sourceName + 1 <? slen expanded) &&
                  negb (Contains (sdrop (slen sourceName + 1) expanded) "$")
          then Some (expanded, ww, sourceName)
          else None
      else None in
    match found with
    | Some (expanded, ww, sourceName) => (expanded, ww + 1, sourceName)
    | None => (String expandPrefixChar "", 1, "")
    end
  else if byte_is (sget s (j + 1)) "{" then getBracketedExpandableContent s (j + 1)
  else getBareExpandableContent s (j + 1).

Definition osExpandEnv (Getenv : string → string) (buf name : string) (w : nat) : string :=
  if decide (name = "") then
    if 0 <? w then buf else buf +:+ String expandPrefixChar ""
  else if decide (name = "$") then buf +:+ String expandPrefixChar ""
  else buf +:+ Getenv name.

(** ** Closing what was retrieved *)

Abbreviation handle := nat.
Abbreviation CloseFunc := (list handle).

Definition MergeCloseFuncs (closeFuncs : list (option CloseFunc)) : option CloseFunc :=
  match closeFuncs with
  | [] => None
  | [f] => f
  | fs => Some (concat (omap id fs))
  end.

(** ** Query parameters ([net/url.ParseQuery]) *)

Definition unhex (c : ascii) : option N :=
  if in_range "0" "9" c then Some (N_of_ascii c - 48)%N
  else if in_range "a" "f" c then Some (N_of_ascii c - 87)%N
  else if in_range "A" "F" c then Some (N_of_ascii c - 55)%N
  else None.

Definition badEscape (s : string) : error := Errorf "invalid URL escape" [s].

Fixpoint QueryUnescape (s : string) : res string :=
  match s with
  | EmptyString => Ok EmptyString
  | String "%" (String a (String b s)) =>
      match unhex a, unhex b with
      | Some x, Some y => String (ascii_of_N (16 * x + y)) <$> QueryUnescape s
      | _, _ => Err (badEscape (String "%" (String a (String b EmptyString))))
      end
  | String "%" s => Err (badEscape (String "%" s))
  | String "+" s => String " " <$> QueryUnescape s
  | String c s => String c <$> QueryUnescape s
  end%char.

(** One [&]-separated part of a query: skipped, or a key with its value. *)
Definition parseQueryPart (part : string) : res (option (string * string)) :=
  if ContainsByte part ";" then Err (Errorf "invalid semicolon separator in query" [])
  else if decide (part = "") then Ok None
  else
    let '(k, v) := match IndexByte part "=" with
                   | Some i => (stake i part, sdrop (S i) part)
                   | None => (part, "")
                   end in
    key ← QueryUnescape k;
    value ← QueryUnescape v;
    Ok (Some (key, value)).

(** The first error wins; the values of a key keep their order. *)
Definition ParseQuery (s : string) : res (gmap string (list string)) :=
  parts ← mapM_res parseQueryPart (SplitByte s "&");
  Ok (foldl (λ m p, match p with
                    | Some (k, v) => <[k := default [] (m !! k) ++ [v]]> m
                    | None => m
                    end) ∅ parts).

(** ** What resolution depends on *)

Record Retrieved := { AsRaw : res any; Close : handle }.

Class Externals := {
  Getenv : string → string;
  ddBackwardCompatible : bool;
  yaml_Unmarshal : string → res any;  (* into a nil interface *)
  yaml_empty : string → bool;         (* a document without a node: only blanks and comments *)
  yaml_Unmarshal_map : string → res (gmap string any);
  ToStringMap_cast : list (any * any) → gmap string any;
  IntfaceKeysToStrings : gmap string any → gmap string any;
}.

Section resolve.
Context `{Ext : Externals} `{C : Confmap} `{FloatText} `{MapRange}.

(** A config source: [Retrieve(selector, params)]; a provider: [Retrieve(uri)]. *)
Abbreviation ConfigSource := (string → option conf → res Retrieved).
Abbreviation Provider := (string → res Retrieved).

Context (configSources : gmap string ConfigSource) (confmapProviders : gmap string (option Provider)).

(** *** Parsing one invocation *)

Definition parseParam (params : gmap string any) (kv : string * list string) : res (gmap string any) :=
  let '(k, v) := kv in
  match v with
  | [] => Ok (<[k := ANil]> params)
  | [x] => iface ← yaml_Unmarshal x; Ok (<[k := iface]> params)
  | v => elemSlice ← mapM_res yaml_Unmarshal v; Ok (<[k := ASlice elemSlice]> params)
  end.

Definition parseParamsAsURLQuery (s : string) : res conf :=
  values ← ParseQuery s;
  params ← foldM_res parseParam ∅ (range values);
  Ok (NewFromStringMap params).

Definition parseCfgSrcInvocation (s : string) : res (string * string * option conf) :=
  match SplitN2 s (String configSourceNameDelimChar "") with
  | [p0; afterCfgSrcName] =>
      let cfgSrcName := Trim p0 " " in
      if Contains afterCfgSrcName (String "010" "") then
        match SplitN2 afterCfgSrcName (String "010" "") with
        | sel :: rest =>
            let selector := Trim sel " " in
            match rest with
            | yaml :: _ =>
                if 0 <? slen yaml then
                  data ← yaml_Unmarshal_map yaml;
                  Ok (cfgSrcName, selector, Some (NewFromStringMap data))
                else Ok (cfgSrcName, selector, None)
            | [] => Ok (cfgSrcName, selector, None)
            end
        | [] => Ok (cfgSrcName, "", None)
        end
      else
        match SplitN2 afterCfgSrcName "?" with
        | [sel; paramsPart] =>
            params ← wrap_err "invalid parameters syntax at %q: %w" [s] (parseParamsAsURLQuery paramsPart);
            Ok (cfgSrcName, Trim sel " ", Some params)
        | sel :: _ => Ok (cfgSrcName, Trim sel " ", None)
        | [] => Ok (cfgSrcName, "", None)
        end
  | _ =>
      Err (Errorf "invalid config source syntax at %q, it must have at least the config source name and a selector" [s])
  end.

(** *** Expanding one string *)

(** The value injected when a config source is the whole string.  The text is
    decoded into the variable that already holds it: a document without a node
    sets nothing and the text stays. *)
Definition wholeValue (retrieved : any) : any :=
  let retrieved :=
    match retrieved with
    | ABytes value | AString value =>
        if yaml_empty value then retrieved
        else match yaml_Unmarshal value with Ok v => v | Err _ => retrieved end
    | _ => retrieved
    end in
  match retrieved with
  | AIMap m => AMap (ToStringMap_cast m)
  | _ => retrieved
  end.

(** The text of a retrieved value inside a longer string. *)
Definition inlineValue (retrieved : any) : string :=
  match retrieved with ANil => "" | v => Sprint v end.

(** The loop of [resolveStringValue].  [n] bounds the remaining iterations and
    [retrieve] is [retrieveConfigSourceData]. *)
Fixpoint expandLoop (retrieve : string → string → fres (any * option CloseFunc))
    (n : nat) (s : string) (i j : nat) (buf : option string) (closeFuncs : list (option CloseFunc))
    : fres (any * option CloseFunc) :=
  match n with
  | O => None
  | S n =>
      if j <? slen s then
        if byte_is (sget s j) expandPrefixChar && (j + 1 <? slen s) then
          let buf := default "" buf +:+ slice s i j in
          let '(expandableContent, w, cfgSrcName) := expandableAt ddBackwardCompatible s j in
          if decide (cfgSrcName = "") then
            expandLoop retrieve n s (j + w + 1) (j + w + 1)
              (Some (osExpandEnv Getenv buf expandableContent w)) closeFuncs
          else
            match retrieve cfgSrcName expandableContent with
            | None => None
            | Some (Err e) => Some (Err e)
            | Some (Ok (retrieved, closeFunc)) =>
                let closeFuncs := match closeFunc with
                                  | Some _ => closeFuncs ++ [closeFunc]
                                  | None => closeFuncs
                                  end in
                if (j + w + 1 =? slen s) && (slen buf =? 0)
                then Some (Ok (wholeValue retrieved, MergeCloseFuncs closeFuncs))
                else expandLoop retrieve n s (j + w + 1) (j + w + 1)
                       (Some (buf +:+ inlineValue retrieved)) closeFuncs
            end
        else expandLoop retrieve n s i (j + 1) buf closeFuncs
      else
        match buf with
        | None => Some (Ok (AString s, MergeCloseFuncs closeFuncs))
        | Some b => Some (Ok (AString (b +:+ sdrop i s), MergeCloseFuncs closeFuncs))
        end
  end.

(** *** Whole values *)

(** The loop over the elements of a slice or the entries of a map: results in
    order, the close functions of the elements merged, the first error wins. *)
Fixpoint collect {A B} (f : A → fres (B * option CloseFunc)) (l : list A) : fres (list B * list (option CloseFunc)) :=
  match l with
  | [] => Some (Ok ([], []))
  | x :: l =>
      match f x with
      | None => None
      | Some (Err e) => Some (Err e)
      | Some (Ok (v, closeFunc)) =>
          match collect f l with
          | None => None
          | Some (Err e) => Some (Err e)
          | Some (Ok (vs, fs)) =>
              Some (Ok (v :: vs, match closeFunc with Some _ => closeFunc :: fs | None => fs end))
          end
      end
  end.

Definition finish {A} (k : A → any) (r : fres (A * list (option CloseFunc))) : fres (any * option CloseFunc) :=
  match r with
  | None => None
  | Some (Err e) => Some (Err e)
  | Some (Ok (vs, fs)) => Some (Ok (k vs, MergeCloseFuncs fs))
  end.

Fixpoint resolveValue (resolveString : string → fres (any * option CloseFunc)) (v : any)
    : fres (any * option CloseFunc) :=
  match v with
  | AString s => resolveString s
  | ASlice l => finish ASlice (collect (resolveValue resolveString) l)
  | AMap m =>
      let rs := map_imap (λ _ x, Some (resolveValue resolveString x)) m in
      finish AIMap
        (collect (λ kv : string * any,
                    match rs !! kv.1 with
                    | Some (Some (Ok (x, c))) => Some (Ok ((AString kv.1, x), c))
                    | Some (Some (Err e)) => Some (Err e)
                    | Some None | None => None
                    end) (range m))
  | _ => Some (Ok (v, None))
  end.

(** The loop of [ResolveWithConfigSources] over the keys of [c]. *)
Definition resolveConf (resolveString : string → fres (any * option CloseFunc)) (c : conf)
    : fres (conf * option CloseFunc) :=
  match collect (λ k, match resolveValue resolveString (Get c k) with
                      | Some (Ok (v, f)) => Some (Ok ((k, v), f))
                      | Some (Err e) => Some (Err e)
                      | None => None
                      end) (AllKeys c) with
  | None => None
  | Some (Err e) => Some (Err e)
  | Some (Ok (kvs, fs)) =>
      let resolved := foldl (λ m kv, <[kv.1 := kv.2]> m) ∅ kvs in
      Some (Ok (NewFromStringMap (IntfaceKeysToStrings resolved), MergeCloseFuncs fs))
  end.

(** *** Retrieving from a config source or a provider *)

Definition retrieveFromProvider (cfgSrcName selector : string) (provider : option Provider)
    : res (any * option CloseFunc) :=
  match provider with
  | None => Err (Errorf "resolving confmap.Provider %q with config sources failed" [cfgSrcName])
  | Some provider =>
      retrieved ← wrap_err "retrieve error from confmap provider %q: %w" [cfgSrcName]
                    (provider (cfgSrcName +:+ ":" +:+ selector));
      raw ← AsRaw retrieved;
      Ok (raw, Some [Close retrieved])
  end.

Definition newErrUnknownConfigSource (cfgSrcName : string) : error :=
  Errorf "config source %q not found" [cfgSrcName].

Definition retrieveFromSource (resolveString : string → fres (any * option CloseFunc))
    (cfgSrc : ConfigSource) (cfgSrcInvocation cfgSrcName selector : string) (paramsConfigMap : option conf)
    : fres (any * option CloseFunc) :=
  match resolveString selector with
  | None => None
  | Some (Err e) =>
      Some (Err (Wrapf "failed to process selector for config source %q selector %q: %w" [cfgSrcName; selector] e))
  | Some (Ok (AString selector, closeFunc)) =>
      let closeFuncs := match closeFunc with Some _ => [closeFunc] | None => [] end in
      let params :=
        match paramsConfigMap with
        | None => Some (Ok (None, closeFuncs))
        | Some c =>
            match resolveConf resolveString c with
            | None => None
            | Some (Err e) =>
                Some (Err (Wrapf "failed to process parameters for config source %q invocation %q: %w"
                                 [cfgSrcName; cfgSrcInvocation] e))
            | Some (Ok (c', closeFunc)) =>
                Some (Ok (Some (NewFromStringMap (ToStringMap c')),
                          match closeFunc with Some _ => closeFuncs ++ [closeFunc] | None => closeFuncs end))
            end
        end in
      match params with
      | None => None
      | Some (Err e) => Some (Err e)
      | Some (Ok (params, closeFuncs)) =>
          match cfgSrc selector params with
          | Err e => Some (Err (Wrapf "config source %q failed to retrieve value: %w" [cfgSrcName] e))
          | Ok retrieved =>
              let closeFuncs := closeFuncs ++ [Some [Close retrieved]] in
              match AsRaw retrieved with
              | Err e => Some (Err e)
              | Ok val => Some (Ok (val, MergeCloseFuncs closeFuncs))
              end
          end
      end
  | Some (Ok (expandedSelector, _)) =>
      Some (Err (Errorf "processed selector must be a string instead got a %T %v" [Sprint expandedSelector]))
  end.

Definition retrieveWith (resolveString : string → fres (any * option CloseFunc))
    (cfgSrcName cfgSrcInvocation : string) : fres (any * option CloseFunc) :=
  match configSources !! cfgSrcName with
  | Some cfgSrc =>
      match parseCfgSrcInvocation cfgSrcInvocation with
      | Err e => Some (Err e)
      | Ok (name, selector, params) => retrieveFromSource resolveString cfgSrc cfgSrcInvocation name selector params
      end
  | None =>
      match confmapProviders !! cfgSrcName with
      | None => Some (Err (newErrUnknownConfigSource cfgSrcName))
      | Some provider =>
          match parseCfgSrcInvocation cfgSrcInvocation with
          | Err e => Some (Err e)
          | Ok (name, selector, _) => Some (retrieveFromProvider name selector provider)
          end
      end
  end.

(** The recursive knot: a selector or a parameter is resolved with one unit of
    fuel less than the string it occurs in. *)
Fixpoint resolveStringValue (fuel : nat) (s : string) : fres (any * option CloseFunc) :=
  match fuel with
  | O => None
  | S fuel => expandLoop (retrieveWith (resolveStringValue fuel)) (S (slen s)) s 0 0 None []
  end.

Definition retrieveConfigSourceData (fuel : nat) : string → string → fres (any * option CloseFunc) :=
  retrieveWith (resolveStringValue fuel).

Definition resolveConfigValue (fuel : nat) : any → fres (any * option CloseFunc) :=
  resolveValue (resolveStringValue fuel).

Definition ResolveWithConfigSources (fuel : nat) : conf → fres (conf * option CloseFunc) :=
  resolveConf (resolveStringValue fuel).
End resolve.
