(* ===== verification/ConfigSourceProofs.v ===== *)
(** * Properties of config source resolution

    The index-based loop of [resolveStringValue] is shown equal to evaluating a
    stream of segments (literal text, environment variables, config source
    invocations); the other theorems are proved on the segments.  Resolution
    never slices out of range, terminates, keeps text without [$] and undoes the
    [$$] escape, and its close function closes every value that was retrieved. *)

From S2P Require Import Prelude GoStrings GoValue Confmap ConfigSource.
From Stdlib Require Import Ascii.

(** ** Bounds of the scanners *)

Lemma scanToken_bounds s i sep i' sep' :
  scanToken s i sep = (i', sep') → (∀ f, sep = Some f → f ≤ i) →
  i ≤ i' ≤ i + slen s ∧ (∀ f, sep' = Some f → f ≤ i').
Proof.
  revert i sep; induction s as [|c s IH]; intros i sep; simpl.
  { intros [= <- <-] ?. split; [lia|done]. }
  destruct (isAlphaNum c).
  { intros H Hf. apply IH in H as [? ?]; [split; [lia|done]|]. intros f Hf'. specialize (Hf f Hf'). lia. }
  destruct (_ && _).
  { intros H Hf. apply IH in H as [? ?]; [split; [lia|done]|]. intros f [= <-]. lia. }
  intros [= <- <-] ?. split; [lia|done].
Qed.

Lemma getTokenName_bound s name k : getTokenName s = (name, k) → k ≤ slen s ∧ name = stake k s.
Proof.
  unfold getTokenName. destruct s as [|c s]; [by intros [= <- <-]|].
  simpl sget. destruct (isShellSpecialVar c).
  { intros [= <- <-]. simpl. split; [lia|done]. }
  destruct (scanToken (String c s) 0 None) as [i sep] eqn:Hsc.
  apply scanToken_bounds in Hsc as [Hi Hsep]; [|done].
  destruct sep as [f|]; [specialize (Hsep f eq_refl); destruct (_ || _)|]; intros [= <- <-];
    (split; [lia | done]).
Qed.

Lemma scanBracket_bound s rest i x k :
  scanBracket s rest i = (x, k) → i + slen rest = slen s → 1 ≤ i →
  1 ≤ k ≤ slen s ∨ s = "".
Proof.
  revert i; induction rest as [|c rest IH]; intros i; simpl.
  { intros [= <- <-] ??. destruct s; [by right|left; simpl; lia]. }
  destruct (Ascii.eqb c "}").
  - destruct (i =? 1) eqn:Hi; intros [= <- <-] ??; apply Nat.eqb_eq in Hi || apply Nat.eqb_neq in Hi; left; lia.
  - intros H ??. apply IH in H; [done | lia | lia].
Qed.

Lemma scanToClosingBracket_bound s x k :
  scanToClosingBracket s = (x, k) → s ≠ "" → 1 ≤ k ≤ slen s.
Proof.
  intros H Hs. apply scanBracket_bound in H as [?| ->]; [done|done| |lia].
  rewrite slen_sdrop. destruct s; [done|]. simpl. lia.
Qed.

Lemma bracketed_bound s i ec k name :
  getBracketedExpandableContent s i = (ec, k, name) → i < slen s → i + k ≤ slen s ∧ 1 ≤ k.
Proof.
  unfold getBracketedExpandableContent. intros H Hi.
  destruct (scanToClosingBracket (sdrop i s)) as [x k'] eqn:Hsc.
  apply scanToClosingBracket_bound in Hsc.
  - rewrite slen_sdrop in Hsc. go_cases; lia.
  - intros E. apply (f_equal slen) in E. rewrite slen_sdrop in E. simpl in E. lia.
Qed.

Lemma bare_bound s i ec k name :
  getBareExpandableContent s i = (ec, k, name) → i ≤ slen s → i + k ≤ slen s.
Proof.
  unfold getBareExpandableContent. intros H Hi.
  destruct (getTokenName (sdrop i s)) as [x k'] eqn:Htok.
  apply getTokenName_bound in Htok as [Hk _]. rewrite slen_sdrop in Hk.
  destruct (_ && _); simplify_eq; rewrite ?slen_sdrop; lia.
Qed.

(** What is consumed after a prefix char stays within the string: no index of
    the loop runs past the end. *)
Lemma expandableAt_bound dd s j ec w name :
  expandableAt dd s j = (ec, w, name) → j + 1 < slen s → j + w + 1 ≤ slen s.
Proof.
  unfold expandableAt. intros H Hj.
  destruct (byte_is (sget s (j + 1)) expandPrefixChar).
  - destruct (dd && _) eqn:Hdd; [|simplify_eq; lia].
    apply andb_true_iff in Hdd as [_ Hlen]. apply Nat.ltb_lt in Hlen. rewrite slen_sdrop in Hlen.
    destruct (byte_is (sget s (j + 2)) "{").
    + destruct (getBracketedExpandableContent s (j + 2)) as [[ex ww] sn] eqn:Hb.
      apply bracketed_bound in Hb; [|lia]. case_decide; simplify_eq; lia.
    + destruct (getBareExpandableContent s (j + 2)) as [[ex ww] sn] eqn:Hb.
      apply bare_bound in Hb; [|lia]. case_decide; [|destruct (_ && _)]; simplify_eq; lia.
  - destruct (byte_is _ _).
    + apply bracketed_bound in H; lia.
    + apply bare_bound in H; lia.
Qed.

(** The scanners look only at the rest of the string. *)
Lemma bare_shift s j i :
  j + i ≤ slen s → getBareExpandableContent s (j + i) = getBareExpandableContent (sdrop j s) i.
Proof.
  intros Hj. unfold getBareExpandableContent. rewrite sdrop_sdrop.
  destruct (getTokenName (sdrop (j + i) s)) as [name k]. rewrite (slen_sdrop j), sget_sdrop.
  replace (j + (i + k)) with (j + i + k) by lia.
  replace (i + k <? slen s - j) with (j + i + k <? slen s); [done|].
  destruct (Nat.ltb_spec (j + i + k) (slen s)), (Nat.ltb_spec (i + k) (slen s - j)); lia || done.
Qed.

Lemma bracketed_shift s j i :
  getBracketedExpandableContent s (j + i) = getBracketedExpandableContent (sdrop j s) i.
Proof. unfold getBracketedExpandableContent. by rewrite sdrop_sdrop. Qed.

Lemma expandableAt_shift dd s j :
  j + 1 < slen s → expandableAt dd s j = expandableAt dd (sdrop j s) 0.
Proof.
  intros Hj. unfold expandableAt. rewrite !sget_sdrop, sdrop_sdrop. simpl.
  rewrite (bracketed_shift s j 1), (bare_shift s j 1), (bracketed_shift s j 2) by lia.
  destruct (byte_is (sget s (j + 1)) expandPrefixChar); [|done].
  destruct (dd && _) eqn:Hdd; [|done].
  apply andb_true_iff in Hdd as [_ Hlen]. apply Nat.ltb_lt in Hlen. rewrite slen_sdrop in Hlen.
  by rewrite (bare_shift s j 2) by lia.
Qed.

(** ** Segments: the reference semantics of one string *)

Inductive seg :=
| Lit (text : string)
| EnvVar (content : string) (w : nat)
| Source (name invocation : string).

Definition lit (text : string) : list seg := if decide (text = "") then [] else [Lit text].

Definition mk_seg (content : string) (w : nat) (name : string) : seg :=
  if decide (name = "") then EnvVar content w else Source name content.

(** Cut [rest] into segments, [pending] being the literal text before it. *)
Fixpoint segments (dd : bool) (n : nat) (pending rest : string) : list seg :=
  match n, rest with
  | S n, String c rest' =>
      if Ascii.eqb c expandPrefixChar && negb (bool_decide (rest' = "")) then
        let '(content, w, name) := expandableAt dd rest 0 in
        lit pending ++ mk_seg content w name :: segments dd n "" (sdrop (w + 1) rest)
      else segments dd n (pending +:+ String c "") rest'
  | _, _ => lit pending
  end.

Definition handles (c : option CloseFunc) : list handle := default [] c.

Section proofs.
Context `{Ext : Externals} `{C : Confmap} `{FloatText} `{MapRange}.
Implicit Types (retrieve : string → string → fres (any * option CloseFunc)).

Fixpoint evalSegs retrieve (acc : string) (cfs : list (option CloseFunc)) (segs : list seg)
    : fres (any * option CloseFunc) :=
  match segs with
  | [] => Some (Ok (AString acc, MergeCloseFuncs cfs))
  | Lit t :: segs => evalSegs retrieve (acc +:+ t) cfs segs
  | EnvVar c w :: segs => evalSegs retrieve (osExpandEnv Getenv acc c w) cfs segs
  | Source name inv :: segs =>
      match retrieve name inv with
      | None => None
      | Some (Err e) => Some (Err e)
      | Some (Ok (v, f)) =>
          let cfs := match f with Some _ => cfs ++ [f] | None => cfs end in
          if decide (segs = [] ∧ acc = "") then Some (Ok (wholeValue v, MergeCloseFuncs cfs))
          else evalSegs retrieve (acc +:+ inlineValue v) cfs segs
      end
  end.

Lemma evalSegs_lit retrieve acc cfs t segs :
  evalSegs retrieve acc cfs (lit t ++ segs) = evalSegs retrieve (acc +:+ t) cfs segs.
Proof. unfold lit. case_decide; subst; simpl; [by rewrite append_nil_r | done]. Qed.

Lemma segments_nil dd n pending : segments dd n pending "" = lit pending.
Proof. by destruct n. Qed.

Lemma segments_nonempty dd n rest : rest ≠ "" → slen rest < n → segments dd n "" rest ≠ [].
Proof.
  assert (Hg : ∀ m p r, slen r < m → (p ≠ "" ∨ r ≠ "") → segments dd m p r ≠ []).
  { intros m; induction m as [|m IH]; intros p r Hlen Hne; [lia|]. destruct r as [|c r]; simpl.
    - destruct Hne as [Hp|]; [|done]. unfold lit. by case_decide.
    - destruct (_ && _).
      + destruct (expandableAt dd (String c r) 0) as [[ec w] name].
        intros E%(f_equal length). rewrite length_app in E. simpl in E. lia.
      + apply IH; [simpl in Hlen; lia|]. left. by destruct p. }
  intros ??. apply Hg; auto.
Qed.

Lemma slice_step s i j c :
  i ≤ j → sget s j = Some c → slice s i (j + 1) = slice s i j +:+ String c "".
Proof.
  intros Hi Hc. unfold slice. replace (j + 1 - i) with (S (j - i)) by lia.
  assert (Hg : sget (sdrop i s) (j - i) = Some c) by (rewrite sget_sdrop; by replace (i + (j - i)) with j by lia).
  clear Hc. revert Hg. generalize (sdrop i s) (j - i). intros t k. revert t.
  induction k as [|k IH]; intros [|d t]; simpl; try done; [by intros [= ->]|].
  intros Hg. rewrite append_cons. f_equal. by apply IH.
Qed.

Lemma slice_sdrop s i j : i ≤ j → slice s i j +:+ sdrop j s = sdrop i s.
Proof.
  intros. unfold slice. replace j with (i + (j - i)) at 2 by lia.
  rewrite <-sdrop_sdrop. apply stake_sdrop.
Qed.

Lemma slice_empty s i : slice s i i = "".
Proof. unfold slice. by rewrite Nat.sub_diag. Qed.

Lemma prefix_test s j c :
  sget s j = Some c →
  byte_is (sget s j) expandPrefixChar && (j + 1 <? slen s) =
  Ascii.eqb c expandPrefixChar && negb (bool_decide (sdrop (S j) s = "")).
Proof.
  intros Hc. rewrite Hc. cbn [byte_is]. f_equal.
  destruct (Nat.ltb_spec (j + 1) (slen s)) as [Hlt|Hge].
  - rewrite bool_decide_eq_false_2; [done|]. intros E%(f_equal slen). rewrite slen_sdrop in E. cbn in E. lia.
  - rewrite bool_decide_eq_true_2; [done|]. apply sdrop_all. lia.
Qed.

Lemma whole_test dd m s k (b : string) :
  k ≤ slen s → slen s - k < m →
  (k =? slen s) && (slen b =? 0) = bool_decide (segments dd m "" (sdrop k s) = [] ∧ b = "").
Proof.
  intros Hk Hm. apply eq_bool_prop_intro. rewrite bool_decide_spec, Is_true_true, andb_true_iff, !Nat.eqb_eq.
  f_equiv; [split|split; [by destruct b | by intros ->]].
  - intros ->. by rewrite sdrop_all, segments_nil.
  - intros Hnil. destruct (decide (sdrop k s = "")) as [E|E].
    + apply (f_equal slen) in E. rewrite slen_sdrop in E. cbn in E. lia.
    + by apply (segments_nonempty dd m) in E; [|rewrite slen_sdrop; lia].
Qed.

(** The loop state [(i, j, buf)] is the accumulated text, the pending literal
    [s[i:j]] and the rest [s[j:]]. *)
Lemma expandLoop_segments retrieve n m s i j buf cfs :
  i ≤ j ≤ slen s → slen s - j < n → slen s - j < m → (buf = None → i = 0) →
  expandLoop retrieve n s i j buf cfs =
  evalSegs retrieve (default "" buf) cfs (segments ddBackwardCompatible m (slice s i j) (sdrop j s)).
Proof.
  revert m i j buf cfs; induction n as [|n IH]; intros m i j buf cfs Hij Hn Hm Hbuf; [lia|].
  destruct m as [|m]; [lia|]. cbn [expandLoop].
  destruct (Nat.ltb_spec j (slen s)) as [Hj|Hj]; cycle 1.
  { assert (j = slen s) as -> by lia. rewrite (sdrop_all (slen s)), segments_nil by lia.
    rewrite <-(app_nil_r (lit _)), evalSegs_lit. simpl.
    rewrite <-(slice_sdrop s i (slen s)), (sdrop_all (slen s)), append_nil_r by lia.
    destruct buf as [b|]; [done|]. rewrite (Hbuf eq_refl). unfold slice. simpl.
    by rewrite Nat.sub_0_r, stake_all. }
  apply sget_lt in Hj as Hc. destruct Hc as [c Hc].
  rewrite (sdrop_sget s j c Hc). cbn [segments].
  pose proof (prefix_test s j c Hc) as Hd.
  rewrite Hd. destruct (_ && negb _) eqn:Hb; cycle 1.
  { rewrite (IH m) by (lia || naive_solver lia). rewrite (slice_step s i j c) by (lia || done).
    by replace (S j) with (j + 1) by lia. }
  apply andb_true_iff in Hd as [_ Hlt%Nat.ltb_lt]. clear Hb Hj.
  rewrite <-(sdrop_sget s j c Hc), <-(expandableAt_shift _ s j) by lia.
  destruct (expandableAt ddBackwardCompatible s j) as [[ec w] name] eqn:Hex.
  apply expandableAt_bound in Hex; [|lia].
  rewrite evalSegs_lit. unfold mk_seg. rewrite sdrop_sdrop, Nat.add_assoc.
  assert (Hrec : ∀ b cfs, expandLoop retrieve n s (j + w + 1) (j + w + 1) (Some b) cfs =
    evalSegs retrieve b cfs (segments ddBackwardCompatible m "" (sdrop (j + w + 1) s))).
  { intros b cfs'. rewrite (IH m) by (lia || done). by rewrite slice_empty. }
  case_decide as Hname; simpl; [apply Hrec|].
  destruct (retrieve name ec) as [[[v f]|e]|]; [|done..].
  rewrite (whole_test ddBackwardCompatible m) by lia.
  case_bool_decide as Hw; case_decide; [done|naive_solver..|apply Hrec].
Qed.

Lemma handles_Merge l : handles (MergeCloseFuncs l) = concat (map handles l).
Proof.
  assert (Hl : concat (omap id l) = concat (map handles l)).
  { induction l as [|[h|] l IH]; [done|..]; csimpl; by rewrite IH. }
  rewrite <-Hl. destruct l as [|[h|] [|g l]]; simpl; by rewrite ?app_nil_r.
Qed.

Lemma handles_snoc cfs f :
  concat (map handles (match f with Some _ => cfs ++ [f] | None => cfs end)) =
  concat (map handles cfs) ++ handles f.
Proof. destruct f; [rewrite map_app, concat_app; simpl|]; by rewrite ?app_nil_r. Qed.

End proofs.

(** ** More fuel never changes a result *)

Definition extends {A B} (f g : A → fres B) : Prop := ∀ x r, f x = Some r → g x = Some r.

Section fuel.
Context `{Ext : Externals} `{C : Confmap} `{FloatText} `{MapRange}.
Context (configSources : gmap string (string → option conf → res Retrieved)).
Context (confmapProviders : gmap string (option (string → res Retrieved))).

Lemma collect_extends {A B} (f g : A → fres (B * option CloseFunc)) l r :
  extends f g → collect f l = Some r → collect g l = Some r.
Proof.
  intros Hfg. revert r; induction l as [|x l IH]; intros r; simpl; [done|].
  destruct (f x) as [[[v c]|e]|] eqn:Hx; [|by rewrite (Hfg _ _ Hx)|done].
  rewrite (Hfg _ _ Hx). destruct (collect f l) as [[[vs fs]|e]|]; [|by rewrite (IH _ eq_refl)|done].
  by rewrite (IH _ eq_refl).
Qed.

Lemma finish_extends {A} (k : A → any) r r' x :
  (∀ y, r = Some y → r' = Some y) → finish k r = Some x → finish k r' = Some x.
Proof. destruct r as [y|]; [|done]. intros Hr. by rewrite (Hr y eq_refl). Qed.

Lemma resolveValue_extends f g : extends f g → extends (resolveValue f) (resolveValue g).
Proof.
  intros Hfg v. induction v as [v IH] using any_size_ind. intros r.
  destruct v as [| | | |s| |l| |m| |]; simpl; try done; [apply Hfg|..]; apply finish_extends; intros y.
  - clear r. revert y; induction l as [|x l IHl]; intros y; simpl; [done|].
    assert (Hx : ∀ r, resolveValue f x = Some r → resolveValue g x = Some r).
    { intros r. apply IH. apply any_size_slice. by left. }
    assert (Hl : ∀ r, collect (resolveValue f) l = Some r → collect (resolveValue g) l = Some r).
    { apply IHl. intros z Hz. apply IH. simpl in *. lia. }
    destruct (resolveValue f x) as [[[w c]|e]|]; [|by rewrite (Hx _ eq_refl)|done].
    rewrite (Hx _ eq_refl). destruct (collect (resolveValue f) l) as [[[vs fs]|e]|];
      [|by rewrite (Hl _ eq_refl)|done]. by rewrite (Hl _ eq_refl).
  - apply collect_extends. intros [k x] z. rewrite !map_lookup_imap. simpl.
    destruct (m !! k) as [w|] eqn:Hk; simpl; [|done].
    assert (Hx : ∀ r, resolveValue f w = Some r → resolveValue g w = Some r).
    { intros ?. apply IH. by eapply any_size_map. }
    destruct (resolveValue f w) as [[[u c]|e]|]; [..|done]; by rewrite (Hx _ eq_refl).
Qed.

Lemma resolveConf_extends f g : extends f g → extends (resolveConf f) (resolveConf g).
Proof.
  intros Hfg c r. unfold resolveConf.
  set (F f k := match resolveValue f (Get c k) with
                | Some (Ok (v, h)) => Some (Ok ((k, v), h)) | Some (Err e) => Some (Err e) | None => None
                end).
  assert (HF : extends (F f) (F g)).
  { intros k y. unfold F. destruct (resolveValue f (Get c k)) as [x|] eqn:Hx; [|done].
    by rewrite (resolveValue_extends _ _ Hfg _ _ Hx). }
  fold (F f) (F g). destruct (collect (F f) (AllKeys c)) as [x|] eqn:Hx; [|done].
  by rewrite (collect_extends _ _ _ _ HF Hx).
Qed.

Lemma retrieveWith_extends f g name inv r :
  extends f g → retrieveWith configSources confmapProviders f name inv = Some r →
  retrieveWith configSources confmapProviders g name inv = Some r.
Proof.
  intros Hfg. unfold retrieveWith. destruct (configSources !! name) as [src|]; [|done].
  destruct (parseCfgSrcInvocation inv) as [[[n sel] params]|]; [|done].
  unfold retrieveFromSource. destruct (f sel) as [[[v c]|e]|] eqn:Hsel; [|by rewrite (Hfg _ _ Hsel)|done].
  rewrite (Hfg _ _ Hsel). destruct v; try done.
  destruct params as [pc|]; [|done].
  destruct (resolveConf f pc) as [x|] eqn:Hx; [|done].
  by rewrite (resolveConf_extends _ _ Hfg _ _ Hx).
Qed.

Lemma evalSegs_extends retr retr' acc cfs segs r :
  (∀ name inv x, retr name inv = Some x → retr' name inv = Some x) →
  evalSegs retr acc cfs segs = Some r → evalSegs retr' acc cfs segs = Some r.
Proof.
  intros Hr. revert acc cfs; induction segs as [|[t|c w|name inv] segs IH]; intros acc cfs; simpl; auto.
  destruct (retr name inv) as [[[x g]|e]|] eqn:Hx; [|by rewrite (Hr _ _ _ Hx)|done].
  rewrite (Hr _ _ _ Hx). case_decide; auto.
Qed.

Lemma resolveStringValue_S fuel s :
  resolveStringValue configSources confmapProviders (S fuel) s =
  evalSegs (retrieveConfigSourceData configSources confmapProviders fuel) "" []
    (segments ddBackwardCompatible (S (slen s)) "" s).
Proof. cbn [resolveStringValue]. by rewrite (expandLoop_segments _ _ (S (slen s))) by (lia || done). Qed.

Lemma resolveStringValue_extends fuel :
  extends (resolveStringValue configSources confmapProviders fuel)
          (resolveStringValue configSources confmapProviders (S fuel)).
Proof.
  induction fuel as [|fuel IH]; intros s r; [done|]. rewrite !resolveStringValue_S.
  apply evalSegs_extends. intros name inv x. by apply retrieveWith_extends.
Qed.
End fuel.

(** ** What is retrieved

    The retrievals that resolving a value makes, as a reading of the source text
    and not of the close functions: the segments of a string in order; for each
    config source the retrievals of its selector, those of its parameters and
    the value it returned itself; for a provider the value it returned. *)

Section trace.
Context `{Ext : Externals} `{C : Confmap} `{FloatText} `{MapRange}.
Context (configSources : gmap string (string → option conf → res Retrieved)).
Context (confmapProviders : gmap string (option (string → res Retrieved))).

Definition returned (r : res Retrieved) : list handle :=
  match r with Ok r => [Close r] | Err _ => [] end.

(** The strings of a value in the order in which they are resolved. *)
Fixpoint leafStrings (v : any) : list string :=
  match v with
  | AString s => [s]
  | ASlice l => concat (map leafStrings l)
  | AMap m =>
      let ls := map_imap (λ _ x, Some (leafStrings x)) m in
      concat (map (λ kv, default [] (ls !! kv.1)) (range m))
  | _ => []
  end.

Definition confStrings (c : conf) : list string := concat (map (λ k, leafStrings (Get c k)) (AllKeys c)).

(** The resolved text of a selector and the resolved parameters. *)
Definition selectorText (fuel : nat) (sel : string) : string :=
  match resolveStringValue configSources confmapProviders fuel sel with
  | Some (Ok (AString x, _)) => x
  | _ => ""
  end.

Definition paramsConf (fuel : nat) (params : option conf) : option conf :=
  c ← params;
  match ResolveWithConfigSources configSources confmapProviders fuel c with
  | Some (Ok (c', _)) => Some (NewFromStringMap (ToStringMap c'))
  | _ => None
  end.

Definition invocationStrings (sel : string) (params : option conf) : list string :=
  sel :: match params with Some c => confStrings c | None => [] end.

Definition retrievals (inner : string → list handle) (fuel : nat) (name inv : string) : list handle :=
  match parseCfgSrcInvocation inv with
  | Err _ => []
  | Ok (n, sel, params) =>
      match configSources !! name, confmapProviders !! name with
      | Some src, _ =>
          concat (map inner (invocationStrings sel params)) ++
          returned (src (selectorText fuel sel) (paramsConf fuel params))
      | None, Some (Some provider) => returned (provider (n +:+ ":" +:+ sel))
      | None, _ => []
      end
  end.

Fixpoint retrievedBy (fuel : nat) (s : string) : list handle :=
  match fuel with
  | O => []
  | S fuel =>
      concat (map (λ sg, match sg with
                         | Source name inv => retrievals (retrievedBy fuel) fuel name inv
                         | Lit _ | EnvVar _ _ => []
                         end) (segments ddBackwardCompatible (S (slen s)) "" s))
  end.

Definition confRetrievedBy (fuel : nat) (c : conf) : list handle :=
  concat (map (retrievedBy fuel) (confStrings c)).

(** [f] returns close functions for exactly what [tr] says. *)
Definition closes_trace {A B} (f : A → fres (B * option CloseFunc)) (tr : A → list handle) (x : A) : Prop :=
  ∀ v c, f x = Some (Ok (v, c)) → handles c = tr x.

Lemma collect_closes {A B} (f : A → fres (B * option CloseFunc)) tr l vs fs :
  (∀ x, x ∈ l → closes_trace f tr x) → collect f l = Some (Ok (vs, fs)) →
  concat (map handles fs) = concat (map tr l).
Proof.
  revert vs fs; induction l as [|x l IH]; intros vs fs Hf; simpl; [by intros [= <- <-]|].
  destruct (f x) as [[[v c]|]|] eqn:Hx; [|done..]. destruct (collect f l) as [[[vs' fs']|]|]; [|done..].
  intros [= <- <-]. specialize (IH vs' fs' (λ y Hy, Hf y (list_elem_of_further _ _ _ Hy)) eq_refl).
  rewrite <-(Hf x (list_elem_of_here _ _) _ _ Hx), <-IH. by destruct c.
Qed.

Lemma finish_closes {A} (k : A → any) r v c :
  finish k r = Some (Ok (v, c)) → ∃ vs fs, r = Some (Ok (vs, fs)) ∧ handles c = concat (map handles fs).
Proof.
  destruct r as [[[vs fs]|]|]; [|done..]. intros [= _ <-]. exists vs, fs. by rewrite handles_Merge.
Qed.

Lemma resolveValue_closes f tr v :
  (∀ s, closes_trace f tr s) → closes_trace (resolveValue f) (λ v, concat (map tr (leafStrings v))) v.
Proof.
  intros Hf. induction v as [v IH] using any_size_ind. intros w c.
  destruct v as [| | | |s| |l| |m| |]; simpl; try (by intros [= <- <-]).
  - intros ->%Hf. by rewrite app_nil_r.
  - intros (vs & fs & Hl & ->)%finish_closes.
    rewrite (collect_closes _ _ _ _ _ (λ x (Hx : x ∈ l), IH x (any_size_slice _ _ Hx)) Hl).
    clear. induction l as [|x l IHl]; simpl; [done|]. by rewrite map_app, concat_app, IHl.
  - intros (vs & fs & Hl & ->)%finish_closes.
    apply (collect_closes _ (λ kv, concat (map tr (default [] (leafStrings <$> m !! kv.1))))) in Hl as ->.
    + clear. generalize (range m). intros l. induction l as [|[k x] l IHl]; simpl; [done|].
      rewrite map_app, concat_app, IHl. do 3 f_equal. rewrite map_lookup_imap. by destruct (m !! k).
    + intros [k x] _ y d. rewrite map_lookup_imap. simpl. destruct (m !! k) as [u|] eqn:Hk; [|done]. simpl.
      destruct (resolveValue f u) as [[[z e]|]|] eqn:Hu; [|done..]. intros [= <- <-].
      eapply IH; [by eapply any_size_map | done].
Qed.

Lemma resolveConf_closes f tr c :
  (∀ s, closes_trace f tr s) → closes_trace (resolveConf f) (λ c, concat (map tr (confStrings c))) c.
Proof.
  intros Hf c' g. unfold resolveConf, confStrings.
  match goal with |- context [collect ?h ?l] => destruct (collect h l) as [[[kvs fs]|]|] eqn:Hl end; [|done..].
  intros [= _ <-]. rewrite handles_Merge.
  apply (collect_closes _ (λ k, concat (map tr (leafStrings (Get c k))))) in Hl as ->.
  - clear. induction (AllKeys c) as [|k l IH]; simpl; [done|]. by rewrite map_app, concat_app, IH.
  - intros k _ v d. destruct (resolveValue f (Get c k)) as [[[x e]|]|] eqn:Hx; [|done..].
    intros [= <- <-]. by eapply resolveValue_closes.
Qed.

Lemma retrieveWith_closes fuel name inv v c :
  (∀ s, closes_trace (resolveStringValue configSources confmapProviders fuel) (retrievedBy fuel) s) →
  retrieveConfigSourceData configSources confmapProviders fuel name inv = Some (Ok (v, c)) →
  handles c = retrievals (retrievedBy fuel) fuel name inv.
Proof.
  intros Hf. unfold retrieveConfigSourceData, retrieveWith, retrievals.
  destruct (configSources !! name) as [src|]; cycle 1.
  { destruct (confmapProviders !! name) as [p|]; [|done].
    destruct (parseCfgSrcInvocation inv) as [[[n sel] params]|]; [|done]. intros [= Hp].
    destruct p as [p|]; [|done]. unfold retrieveFromProvider in Hp.
    apply bind_ok_inv in Hp as (r & Hr%wrap_err_ok & (raw & _ & [= <- <-])%bind_ok_inv).
    by rewrite Hr. }
  destruct (parseCfgSrcInvocation inv) as [[[n sel] params]|]; [|done].
  unfold retrieveFromSource, selectorText. simpl map.
  destruct (resolveStringValue _ _ fuel sel) as [[[x g]|]|] eqn:Hsel; [|done..].
  rewrite <-(Hf _ _ _ Hsel). destruct x as [| | | |x| | | | | |]; try done.
  assert (Hret : ∀ cfs r, (match r with
      | Err e => Some (Err (Wrapf "config source %q failed to retrieve value: %w" [n] e))
      | Ok retrieved => match AsRaw retrieved with
                        | Err e => Some (Err e)
                        | Ok val => Some (Ok (val, MergeCloseFuncs (cfs ++ [Some [Close retrieved]]))) end
      end) = Some (Ok (v, c)) → handles c = concat (map handles cfs) ++ returned r).
  { intros cfs [r|]; [|done]. destruct (AsRaw r); [|done]. intros [= _ <-].
    rewrite handles_Merge, map_app, concat_app. done. }
  unfold paramsConf, ResolveWithConfigSources. destruct params as [pc|]; cbv zeta; simpl.
  - destruct (resolveConf _ pc) as [[[c' h]|]|] eqn:Hc; [|done..].
    apply (resolveConf_closes _ _ _ Hf) in Hc. intros ->%Hret. rewrite handles_snoc, Hc.
    f_equal. f_equal. destruct g; simpl; by rewrite ?app_nil_r.
  - intros ->%Hret. f_equal. destruct g; simpl; by rewrite ?app_nil_r.
Qed.

Lemma evalSegs_closes retr tr acc cfs segs v c :
  (∀ name inv v c, retr name inv = Some (Ok (v, c)) → handles c = tr name inv) →
  evalSegs retr acc cfs segs = Some (Ok (v, c)) →
  handles c = concat (map handles cfs) ++
    concat (map (λ sg, match sg with Source name inv => tr name inv | Lit _ | EnvVar _ _ => [] end) segs).
Proof.
  intros Hr. revert acc cfs; induction segs as [|[t|x w|name inv] segs IH]; intros acc cfs; simpl; [|apply IH..|].
  - intros [= _ <-]. by rewrite handles_Merge, app_nil_r.
  - destruct (retr name inv) as [[[y g]|]|] eqn:Hy; [|done..]. rewrite <-(Hr _ _ _ _ Hy).
    case_decide as Hw.
    + destruct Hw as [-> _]. intros [= _ <-]. by rewrite handles_Merge, handles_snoc, app_nil_r.
    + intros ->%IH. by rewrite handles_snoc, <-app_assoc.
Qed.

Lemma resolveStringValue_closes fuel s :
  closes_trace (resolveStringValue configSources confmapProviders fuel) (retrievedBy fuel) s.
Proof.
  revert s; induction fuel as [|fuel IH]; intros s v c; [done|]. rewrite resolveStringValue_S.
  intros Hv. apply (evalSegs_closes _ (retrievals (retrievedBy fuel) fuel)) in Hv; [done|].
  intros. by apply (retrieveWith_closes fuel _ _ v0).
Qed.

Lemma ResolveWithConfigSources_closes fuel c :
  closes_trace (ResolveWithConfigSources configSources confmapProviders fuel) (confRetrievedBy fuel) c.
Proof. apply resolveConf_closes, resolveStringValue_closes. Qed.
End trace.

(** ** Termination

    A selector or a parameter comes from the text after a [$], so it has fewer
    graphic ASCII bytes than the string.  [weight] counts these bytes, and not
    only [$]: decoding can give a [$] that its text does not have, from a URL or
    YAML escape or from the base64 of a [!!binary] scalar, but it spends more
    graphic bytes than it gives. *)

Definition infix (a b : string) : Prop := ∃ t u, b = t +:+ a +:+ u.

Lemma infix_refl a : infix a a.
Proof. exists "", "". by rewrite append_nil_r. Qed.

Lemma infix_trans a b c : infix a b → infix b c → infix a c.
Proof.
  intros (t & u & ->) (t' & u' & ->). exists (t' +:+ t), (u +:+ u'). by rewrite !append_assoc.
Qed.

Lemma infix_stake n s : infix (stake n s) s.
Proof. exists "", (sdrop n s). by rewrite append_nil_l, stake_sdrop. Qed.

Lemma infix_sdrop n s : infix (sdrop n s) s.
Proof. exists (stake n s), "". by rewrite append_nil_r, stake_sdrop. Qed.

Lemma infix_slice s i j : infix (slice s i j) s.
Proof. eapply infix_trans; [apply infix_stake | apply infix_sdrop]. Qed.

Lemma infix_Trim s cs : infix (Trim s cs) s.
Proof. apply Trim_infix. Qed.

Lemma infix_nil s : infix "" s.
Proof. exists "", s. done. Qed.

#[local] Hint Resolve infix_refl infix_stake infix_sdrop infix_slice infix_Trim infix_nil : go.

Definition heavy (c : ascii) : bool := in_range "!" "~" c.

Fixpoint weight (s : string) : nat :=
  match s with
  | EmptyString => 0
  | String c s => (if heavy c then 1 else 0) + weight s
  end.

Lemma weight_append s t : weight (s +:+ t) = weight s + weight t.
Proof. induction s as [|c s IH]; [done|]. rewrite append_cons. simpl. lia. Qed.

Lemma weight_infix a b : infix a b → weight a ≤ weight b.
Proof. intros (t & u & ->). rewrite !weight_append. lia. Qed.

Lemma scanBracket_infix s rest i : infix (scanBracket s rest i).1 s.
Proof.
  revert i; induction rest as [|c rest IH]; intros i; simpl; [auto with go|].
  destruct (Ascii.eqb c "}"); [destruct (i =? 1); simpl; auto with go|]. apply IH.
Qed.

Lemma bracketed_infix s i ec k name :
  getBracketedExpandableContent s i = (ec, k, name) → infix ec (sdrop i s).
Proof.
  unfold getBracketedExpandableContent, scanToClosingBracket.
  pose proof (scanBracket_infix (sdrop i s) (sdrop 1 (sdrop i s)) 1) as Hin.
  destruct (scanBracket _ _ _) as [x k']. simpl in Hin.
  assert (infix (Trim x " ") (sdrop i s)) by (eapply infix_trans; [apply infix_Trim | done]).
  go_solve.
Qed.

Lemma bare_infix s i ec k name :
  getBareExpandableContent s i = (ec, k, name) → infix ec (sdrop i s).
Proof.
  unfold getBareExpandableContent. destruct (getTokenName (sdrop i s)) as [x k'] eqn:Ht.
  apply getTokenName_bound in Ht as [_ ->]. destruct (_ && _); intros ?; simplify_eq; auto with go.
Qed.

Lemma expandableAt_infix dd s j ec w name :
  expandableAt dd s j = (ec, w, name) → name ≠ "" → infix ec (sdrop (j + 1) s).
Proof.
  unfold expandableAt. intros H Hn.
  assert (H2 : ∀ x, infix x (sdrop (j + 2) s) → infix x (sdrop (j + 1) s)).
  { intros x Hx. eapply infix_trans; [done|].
    replace (j + 2) with (j + 1 + 1) by lia. rewrite <-sdrop_sdrop. auto with go. }
  destruct (byte_is (sget s (j + 1)) expandPrefixChar).
  - destruct (dd && _); [|by simplify_eq].
    destruct (byte_is (sget s (j + 2)) "{").
    + destruct (getBracketedExpandableContent s (j + 2)) as [[ex ww] sn] eqn:Hb.
      apply bracketed_infix in Hb. case_decide; simplify_eq. auto.
    + destruct (getBareExpandableContent s (j + 2)) as [[ex ww] sn] eqn:Hb.
      apply bare_infix in Hb. case_decide; [|destruct (_ && _)]; simplify_eq. auto.
  - destruct (byte_is _ _); [by eapply bracketed_infix | by eapply bare_infix].
Qed.

Lemma segments_source_weight dd n pending rest name inv :
  Source name inv ∈ segments dd n pending rest → weight inv < weight rest.
Proof.
  assert (Hlit : ∀ t, Source name inv ∈ lit t → False).
  { intros t. unfold lit. case_decide; set_solver. }
  revert pending rest; induction n as [|n IH]; intros pending rest; [by intros ?%Hlit|].
  destruct rest as [|c rest]; [by intros ?%Hlit|]. cbn [segments].
  destruct (Ascii.eqb c expandPrefixChar && _) eqn:Hd; cycle 1.
  { intros Hin%IH. cbn [weight]. destruct (heavy c); lia. }
  apply andb_true_iff in Hd as [->%Ascii.eqb_eq _].
  destruct (expandableAt dd (String expandPrefixChar rest) 0) as [[ec w] nm] eqn:Hex.
  rewrite elem_of_app, elem_of_cons. intros [[]%Hlit|[Heq|Hin]].
  - unfold mk_seg in Heq. case_decide; simplify_eq.
    apply expandableAt_infix, weight_infix in Hex; [|done]. simpl in *. lia.
  - apply IH in Hin. eapply Nat.lt_le_trans; [done|]. apply weight_infix. auto with go.
Qed.

(** The strings of a value; those under a [map[any]any] too, which a
    configuration built from the value turns into a [map[string]any]. *)
Fixpoint strings_of (v : any) : list string :=
  match v with
  | AString s => [s]
  | ASlice l => flat_map strings_of l
  | AMap m => map_fold (λ _ x acc, strings_of x ++ acc) [] m
  | AIMap l => flat_map (λ kv, strings_of kv.2) l
  | _ => []
  end.

Lemma strings_of_slice l x : x ∈ strings_of (ASlice l) ↔ ∃ v, v ∈ l ∧ x ∈ strings_of v.
Proof. simpl. rewrite list_elem_of_In, in_flat_map. by setoid_rewrite <-list_elem_of_In. Qed.

Lemma strings_of_map m k v x : m !! k = Some v → x ∈ strings_of v → x ∈ strings_of (AMap m).
Proof.
  intros Hk Hx. simpl. revert k v Hk Hx. induction m as [|j w m Hj Hfst IH] using map_first_key_ind;
    intros k v Hk Hx; [done|].
  rewrite map_fold_insert_first_key by done. rewrite elem_of_app.
  apply lookup_insert_Some in Hk as [[-> ->]|[? Hk]]; [by left | right; by eapply IH].
Qed.

Definition light (n : nat) (v : any) : Prop := ∀ x, x ∈ strings_of v → weight x ≤ n.

Lemma QueryUnescape_weight s t : QueryUnescape s = Ok t → weight t ≤ weight s.
Proof.
  remember (slen s) as n eqn:Hn. revert s t Hn.
  induction (lt_wf n) as [n _ IH]. intros s t ->.
  assert (Hstep : ∀ c d r t, slen r < slen s → (heavy d → heavy c) →
    String d <$> QueryUnescape r = Ok t → weight t ≤ weight (String c r)).
  { intros c d r t' Hr Hh. destruct (QueryUnescape r) as [u|] eqn:Hu; [|done]. intros [= <-].
    apply (IH _ Hr) in Hu; [|done]. simpl. destruct (heavy d) eqn:?, (heavy c) eqn:?; simpl; try lia.
    exfalso. by apply Hh. }
  destruct s as [|c s]; [by intros [= <-]|]. simpl QueryUnescape.
  destruct (Ascii.eqb c "%") eqn:Hp; [apply Ascii.eqb_eq in Hp as ->|].
  - destruct s as [|a [|b s]]; [done..|]. destruct (unhex a), (unhex b); try done.
    intros Ht. eapply Nat.le_trans; [eapply (Hstep "%"%char); [|done|done]|]; simpl; lia.
  - destruct (Ascii.eqb c "+") eqn:Hq; [apply Ascii.eqb_eq in Hq as ->|].
    + intros Ht. eapply (Hstep _ " "%char); [simpl; lia | done | done].
    + intros Ht. eapply (Hstep c c); [simpl; lia | done |].
      destruct c as [[][][][][][][][]]; done.
Qed.

Lemma SplitByte_weight s c x : x ∈ SplitByte s c → weight x ≤ weight s.
Proof.
  revert x; induction s as [|d s IH]; intros x; simpl; [by intros ->%list_elem_of_singleton|].
  destruct (SplitByte s c) as [|w ws]; [by intros ?%not_elem_of_nil|].
  pose proof (IH w (list_elem_of_here _ _)). pose proof (λ x H, IH x (list_elem_of_further _ _ _ H)) as Hws.
  destruct (Ascii.eqb d c); rewrite !elem_of_cons; [intros [->|[->|Hx]]|intros [->|Hx]]; simpl;
    try apply Hws in Hx; lia.
Qed.

Lemma SplitN2_infix s sep x : x ∈ SplitN2 s sep → infix x s.
Proof.
  unfold SplitN2. destruct (Index s sep); set_unfold; naive_solver eauto with go.
Qed.

Lemma parseQueryPart_weight part k v :
  parseQueryPart part = Ok (Some (k, v)) → weight v ≤ weight part.
Proof.
  unfold parseQueryPart. destruct (ContainsByte part ";"); [done|]. case_decide; [done|].
  assert (Hv : ∃ a b, match IndexByte part "=" with
    | Some i => (stake i part, sdrop (S i) part) | None => (part, "") end = (a, b) ∧ infix b part).
  { destruct (IndexByte part "="); eauto 10 with go. }
  destruct Hv as (a & b & -> & Hb). intros (key & _ & (value & Hval & [= <- <-])%bind_ok_inv)%bind_ok_inv.
  apply QueryUnescape_weight in Hval. apply weight_infix in Hb. lia.
Qed.

Lemma ParseQuery_weight s m k vs x :
  ParseQuery s = Ok m → m !! k = Some vs → x ∈ vs → weight x ≤ weight s.
Proof.
  unfold ParseQuery. intros (parts & Hparts & [= <-])%bind_ok_inv. apply mapM_res_ok in Hparts.
  assert (Hw : ∀ k v, Some (k, v) ∈ parts → weight v ≤ weight s).
  { intros k' v Hin. apply list_elem_of_lookup in Hin as [i Hi].
    eapply Forall2_lookup_r in Hparts as (p & Hp & Hpv); [|done].
    apply parseQueryPart_weight in Hpv. eapply Nat.le_trans; [done|].
    eapply SplitByte_weight, list_elem_of_lookup. eauto. }
  clear Hparts. revert k vs x.
  assert (Hgen : ∀ m0 : gmap string (list string),
    (∀ k vs x, m0 !! k = Some vs → x ∈ vs → weight x ≤ weight s) →
    ∀ k vs x, foldl (λ m p, match p with Some (k, v) => <[k:=default [] (m !! k) ++ [v]]> m | None => m end)
      m0 parts !! k = Some vs → x ∈ vs → weight x ≤ weight s); [|by eapply (Hgen ∅)].
  induction parts as [|p parts IH]; intros m0 Hm0; simpl; [done|]. apply IH.
  { intros ???. eapply Hw. by right. }
  destruct p as [[k' v']|]; [|done]. intros k vs x [[-> <-]|[? Hk]]%lookup_insert_Some; [|by eapply Hm0].
  rewrite elem_of_app, list_elem_of_singleton. intros [Hx| ->].
  - destruct (m0 !! k) as [ws|] eqn:Hk; [by eapply Hm0 | by apply not_elem_of_nil in Hx].
  - eapply Hw. by left.
Qed.

(** What termination needs of YAML decoding and of [confmap]: a decoded string
    has at most the graphic ASCII bytes of the text it was decoded from (plain
    and quoted scalars keep or drop bytes of the text, an escape of at least two
    graphic bytes gives at most one, four base64 digits give three), and a
    configuration built from a map holds the strings of that map only. *)
Class DecodingLaws (Ext : Externals) (C : Confmap) := {
  yaml_weight t v : yaml_Unmarshal t = Ok v → light (weight t) v;
  yaml_map_weight t m k v : yaml_Unmarshal_map t = Ok m → m !! k = Some v → light (weight t) v;
  conf_weight m n : (∀ k v, m !! k = Some v → light n v) →
    ∀ k, k ∈ AllKeys (NewFromStringMap m) → light n (Get (NewFromStringMap m) k);
}.

Section termination.
Context `{Ext : Externals} `{C : Confmap} {D : DecodingLaws Ext C} `{FloatText} `{MapRange}.
Context (configSources : gmap string (string → option conf → res Retrieved)).
Context (confmapProviders : gmap string (option (string → res Retrieved))).

Lemma parseParam_light m p kv m' n :
  (∀ k v, m !! k = Some v → light n v) → (∀ x, x ∈ kv.2 → weight x ≤ n) → p = Ok m' →
  parseParam m kv = p → ∀ k v, m' !! k = Some v → light n v.
Proof.
  destruct kv as [k0 vs]. intros Hm Hvs -> Hp k v. simpl in *.
  assert (Hins : ∀ w, light n w → <[k0 := w]> m !! k = Some v → light n v).
  { intros w Hw [[-> <-]|[_ Hk]]%lookup_insert_Some; [done | by eapply Hm]. }
  assert (Hy : ∀ t w, t ∈ vs → yaml_Unmarshal t = Ok w → light n w).
  { intros t w Ht Hw x Hx. eapply Nat.le_trans; [by eapply yaml_weight | by apply Hvs]. }
  destruct vs as [|t [|t' vs]].
  - injection Hp as <-. apply Hins. intros x Hx. by apply not_elem_of_nil in Hx.
  - apply bind_ok_inv in Hp as (w & Hw & [= <-]). apply Hins. eapply Hy; [|done]. by left.
  - apply bind_ok_inv in Hp as (ws & Hws & [= <-]). apply Hins.
    intros x (w & [i Hi]%list_elem_of_lookup & Hx)%strings_of_slice.
    apply mapM_res_ok in Hws. eapply Forall2_lookup_r in Hws as (t0 & Ht0 & Hdec); [|done].
    eapply Hy; [|done|done]. apply list_elem_of_lookup. eauto.
Qed.

Lemma parseParamsAsURLQuery_light s c :
  parseParamsAsURLQuery s = Ok c → ∀ k, k ∈ AllKeys c → light (weight s) (Get c k).
Proof.
  intros (values & Hq & (params & Hp & [= <-])%bind_ok_inv)%bind_ok_inv. apply conf_weight.
  eapply (foldM_res_ind (λ m, ∀ k v, m !! k = Some v → light (weight s) v)); [intros k v; by rewrite lookup_empty| |exact Hp].
  intros m [k0 vs] m' Hin Hm Hstep. eapply parseParam_light; [done| |reflexivity|done].
  intros x Hx. apply elem_of_range in Hin. by eapply ParseQuery_weight.
Qed.

Lemma parseCfgSrcInvocation_light s name sel params :
  parseCfgSrcInvocation s = Ok (name, sel, params) →
  weight sel ≤ weight s ∧
  ∀ c, params = Some c → ∀ k, k ∈ AllKeys c → light (weight s) (Get c k).
Proof.
  unfold parseCfgSrcInvocation.
  destruct (SplitN2 s _) as [|p0 [|after [|]]] eqn:Hs; try done.
  assert (Ha : infix after s) by (eapply SplitN2_infix; rewrite Hs; set_solver).
  assert (Hparts : ∀ sep x, x ∈ SplitN2 after sep → weight x ≤ weight s ∧ weight (Trim x " ") ≤ weight s).
  { intros sep x Hx%SplitN2_infix. split; apply weight_infix; eauto using infix_trans, infix_Trim. }
  destruct (Contains after _).
  - destruct (SplitN2 after _) as [|x [|y l]] eqn:Hx; [by intros [= <- <- <-]; simpl; split; [lia|] |..];
      pose proof (Hparts _ x ltac:(rewrite Hx; set_solver)) as [_ ?].
    { by intros [= <- <- <-]. }
    pose proof (Hparts _ y ltac:(rewrite Hx; set_solver)) as [? _].
    destruct (0 <? slen y); [|by intros [= <- <- <-]].
    intros (data & Hd & [= <- <- <-])%bind_ok_inv. split; [done|]. intros c [= <-].
    apply conf_weight. intros k v Hk z Hz. eapply Nat.le_trans; [by eapply yaml_map_weight | done].
  - destruct (SplitN2 after "?") as [|x [|y [|]]] eqn:Hx; [by intros [= <- <- <-]; simpl; split; [lia|] |..];
      pose proof (Hparts _ x ltac:(rewrite Hx; set_solver)) as [_ ?]; [by intros [= <- <- <-]| |by intros [= <- <- <-]].
    pose proof (Hparts _ y ltac:(rewrite Hx; set_solver)) as [? _].
    intros (c & Hc%wrap_err_ok & [= <- <- <-])%bind_ok_inv. split; [done|]. intros c' [= <-] k Hk z Hz.
    eapply Nat.le_trans; [by eapply parseParamsAsURLQuery_light | done].
Qed.

Lemma collect_total {A B} (f : A → fres (B * option CloseFunc)) l :
  (∀ x, x ∈ l → is_Some (f x)) → is_Some (collect f l).
Proof.
  induction l as [|x l IH]; intros Hf; simpl; [eauto|].
  destruct (Hf x (list_elem_of_here _ _)) as [r Hr]. rewrite Hr.
  destruct IH as [y Hy]; [intros; apply Hf; by right|]. rewrite Hy.
  destruct r as [[]|]; [destruct y as [[]|]|]; eauto.
Qed.

Lemma finish_total {A} (k : A → any) r : is_Some r → is_Some (finish k r).
Proof. intros [[[]|] ->]; simpl; eauto. Qed.

Lemma resolveValue_total f v : (∀ x, x ∈ strings_of v → is_Some (f x)) → is_Some (resolveValue f v).
Proof.
  induction v as [v IH] using any_size_ind. intros Hf.
  destruct v as [| | | |s| |l| |m| |]; simpl; eauto.
  - apply Hf. by left.
  - apply finish_total, collect_total. intros x Hx. apply IH; [by apply any_size_slice|].
    intros y Hy. apply Hf, strings_of_slice. eauto.
  - apply finish_total, collect_total. intros [k x] Hk%elem_of_range. simpl.
    rewrite map_lookup_imap, Hk. simpl.
    destruct (IH x) as [[[u c]|e] ->]; eauto; [by eapply any_size_map|].
    intros y Hy. apply Hf. by eapply strings_of_map.
Qed.

Lemma resolveConf_total f c :
  (∀ k x, k ∈ AllKeys c → x ∈ strings_of (Get c k) → is_Some (f x)) → is_Some (resolveConf f c).
Proof.
  intros Hf. unfold resolveConf.
  match goal with |- context [collect ?g ?l] => destruct (collect_total g l) as [[[]|] ->] end; eauto.
  intros k Hk. destruct (resolveValue_total f (Get c k)) as [[[u h]|e] ->]; eauto.
Qed.

Lemma retrieveWith_total f name inv :
  (∀ x, weight x ≤ weight inv → is_Some (f x)) →
  is_Some (retrieveWith configSources confmapProviders f name inv).
Proof.
  intros Hf. unfold retrieveWith.
  destruct (configSources !! name) as [src|].
  - destruct (parseCfgSrcInvocation inv) as [[[n sel] params]|] eqn:Hp; [|eauto].
    apply parseCfgSrcInvocation_light in Hp as [Hsel Hparams].
    unfold retrieveFromSource. destruct (Hf sel Hsel) as [[[v c]|] ->]; [|eauto].
    destruct v; eauto.
    destruct params as [pc|]; [|go_cases; eauto].
    destruct (resolveConf_total f pc) as [[[]|] ->]; [|go_cases; eauto..].
    intros k x Hk Hx. apply Hf. by eapply Hparams.
  - destruct (confmapProviders !! name); [|eauto]. destruct (parseCfgSrcInvocation inv) as [[[]]|]; eauto.
Qed.

Lemma evalSegs_total retr acc cfs segs :
  (∀ name inv, Source name inv ∈ segs → is_Some (retr name inv)) → is_Some (evalSegs retr acc cfs segs).
Proof.
  revert acc cfs; induction segs as [|[t|c w|name inv] segs IH]; intros acc cfs Hr; simpl; [eauto|..].
  - apply IH. intros. apply Hr. by right.
  - apply IH. intros. apply Hr. by right.
  - destruct (Hr name inv (list_elem_of_here _ _)) as [[[v g]|] ->]; [|eauto].
    case_decide; [eauto|]. apply IH. intros. apply Hr. by right.
Qed.

Lemma resolveStringValue_total fuel s :
  weight s < fuel → is_Some (resolveStringValue configSources confmapProviders fuel s).
Proof.
  revert s; induction fuel as [|fuel IH]; intros s Hw; [lia|]. rewrite resolveStringValue_S.
  apply evalSegs_total. intros name inv Hin%segments_source_weight. apply retrieveWith_total.
  intros x Hx. apply IH. lia.
Qed.
End termination.

(** ** Single invocations *)

Fixpoint sall (f : ascii → bool) (s : string) : bool :=
  match s with EmptyString => true | String c s => f c && sall f s end.

(** A config source name: letters, digits and [_], not starting with a digit. *)
Definition source_name (name : string) : bool :=
  sall isAlphaNum name &&
  match name with String c _ => negb (isShellSpecialVar c) | EmptyString => false end.

Lemma scanToken_alnum name rest i sep :
  sall isAlphaNum name = true →
  scanToken (name +:+ rest) i sep = scanToken rest (i + slen name) sep.
Proof.
  revert i; induction name as [|c name IH]; intros i; [by rewrite Nat.add_0_r|].
  simpl. intros [Hc Hn]%andb_true_iff. rewrite Hc, IH by done.
  f_equal. lia.
Qed.

Lemma alnum_not_brace c : isAlphaNum c = true → Ascii.eqb c "{" = false ∧ Ascii.eqb c "$" = false.
Proof. intros H. split; apply not_true_iff_false; intros ->%Ascii.eqb_eq; done. Qed.

Lemma getTokenName_source name rest :
  source_name name = true → getTokenName (name +:+ String ":" rest) = (name, slen name).
Proof.
  unfold source_name. destruct name as [|c name]; [done|].
  intros [Hall Hsp%negb_true_iff]%andb_true_iff. unfold getTokenName.
  assert (Hsc : scanToken (String c name +:+ String ":" rest) 0 None = (slen (String c name), None)).
  { by rewrite scanToken_alnum. }
  rewrite Hsc, stake_app. rewrite append_cons. cbn [sget]. by rewrite Hsp.
Qed.

(** [$name:sel] is one config source invocation that consumes the whole string. *)
Lemma expandableAt_source dd name sel :
  source_name name = true →
  expandableAt dd (String "$" (name +:+ String ":" sel)) 0 =
  (name +:+ String ":" sel, slen (name +:+ String ":" sel), name).
Proof.
  intros Hn. unfold expandableAt, getBareExpandableContent.
  cbn [Nat.add sget sdrop]. rewrite (getTokenName_source name sel Hn).
  assert (Hget : sget (name +:+ String ":" sel) (slen name) = Some ":"%char).
  { rewrite <-(Nat.add_0_r (slen name)). by rewrite sget_append_r. }
  assert (Hlt : S (slen name) <? slen (String "$" (name +:+ String ":" sel)) = true).
  { apply Nat.ltb_lt. simpl. rewrite slen_append. simpl. lia. }
  rewrite Hget, Hlt. unfold source_name in Hn. destruct name as [|c name]; [done|].
  simpl in Hn. apply andb_true_iff in Hn as [[Hc _]%andb_true_iff _].
  apply alnum_not_brace in Hc as [Hbr Hdo]. rewrite append_cons. cbn [sget byte_is].
  unfold expandPrefixChar. by rewrite Hdo, Hbr.
Qed.

Lemma segments_source dd name sel :
  source_name name = true →
  segments dd (S (slen (String "$" (name +:+ String ":" sel)))) "" (String "$" (name +:+ String ":" sel)) =
  [Source name (name +:+ String ":" sel)].
Proof.
  intros Hn. cbn [segments].
  rewrite bool_decide_eq_false_2 by (by destruct name).
  change (Ascii.eqb "$" expandPrefixChar && negb false) with true. cbn [andb].
  rewrite expandableAt_source by done. unfold mk_seg.
  rewrite decide_False by (by destruct name).
  rewrite Nat.add_1_r. change (sdrop (S ?n) (String "$" ?x)) with (sdrop n x).
  by rewrite sdrop_all, segments_nil by done.
Qed.

(** Doubling every prefix char: how a literal [$] is written. *)
Fixpoint escape (s : string) : string :=
  match s with
  | EmptyString => ""
  | String c s => if Ascii.eqb c expandPrefixChar then String c (String c (escape s)) else String c (escape s)
  end.

Section plain.
Context `{Ext : Externals} `{C : Confmap} `{FloatText} `{MapRange}.
Implicit Types (retrieve : string → string → fres (any * option CloseFunc)).

Lemma segments_plain dd n pending rest :
  ContainsByte rest expandPrefixChar = false → slen rest < n →
  segments dd n pending rest = lit (pending +:+ rest).
Proof.
  revert pending rest; induction n as [|n IH]; intros pending rest Hp Hn; [lia|].
  destruct rest as [|c rest]; simpl; [by rewrite append_nil_r|].
  rewrite ContainsByte_cons in Hp. apply orb_false_iff in Hp as [-> Hp]. simpl.
  simpl in Hn. rewrite IH by (done || lia). by rewrite append_assoc.
Qed.

Lemma evalSegs_escape retrieve n acc cfs pending s :
  slen (escape s) < n →
  evalSegs retrieve acc cfs (segments false n pending (escape s)) =
  Some (Ok (AString (acc +:+ pending +:+ s), MergeCloseFuncs cfs)).
Proof.
  revert n acc pending; induction s as [|c s IH]; intros n acc pending Hn.
  { cbn [escape]. rewrite segments_nil, <-(app_nil_r (lit _)), evalSegs_lit. simpl. by rewrite append_nil_r. }
  cbn [escape] in *. destruct (Ascii.eqb c expandPrefixChar) eqn:Hc.
  - apply Ascii.eqb_eq in Hc as ->. destruct n as [|n]; [simpl in Hn; lia|].
    cbn [segments]. change (Ascii.eqb expandPrefixChar expandPrefixChar) with true.
    rewrite bool_decide_eq_false_2 by done. cbn [andb negb].
    change (expandableAt false (String expandPrefixChar (String expandPrefixChar (escape s))) 0)
      with ("$", 1, ""). cbv beta iota. rewrite evalSegs_lit. cbn [evalSegs mk_seg].
    unfold mk_seg. rewrite decide_True by done. cbn [evalSegs sdrop Nat.add].
    rewrite IH by (simpl in Hn; lia). rewrite append_nil_l.
    unfold osExpandEnv. rewrite decide_False, decide_True by done. by rewrite !append_assoc.
  - destruct n as [|n]; [lia|]. cbn [segments]. rewrite Hc. cbn [andb].
    rewrite IH by (simpl in Hn; lia). by rewrite !append_assoc.
Qed.
End plain.

(** ** Properties *)

Section properties.
Context `{Ext : Externals} `{C : Confmap} `{FloatText} `{MapRange}.
Context (configSources : gmap string (string → option conf → res Retrieved)).
Context (confmapProviders : gmap string (option (string → res Retrieved))).

(** C1: the index-based expansion loop computes the same value, close functions
    and errors as evaluating, left to right, the segments the string is cut
    into (literal text, environment variables, config source invocations). *)
Theorem resolveStringValue_reference fuel s :
  resolveStringValue configSources confmapProviders (S fuel) s =
  evalSegs (retrieveConfigSourceData configSources confmapProviders fuel) "" []
    (segments ddBackwardCompatible (S (slen s)) "" s).
Proof. apply resolveStringValue_S. Qed.

(** A string without the prefix char [$] is returned unchanged and nothing
    is left to close. *)
Theorem resolveStringValue_plain fuel s :
  ContainsByte s expandPrefixChar = false →
  resolveStringValue configSources confmapProviders (S fuel) s = Some (Ok (AString s, None)).
Proof.
  intros Hs. rewrite resolveStringValue_S, segments_plain by (done || lia).
  by rewrite <-(app_nil_r (lit _)), evalSegs_lit.
Qed.

(** C3: with the [$$] compatibility mode off, resolving a text whose every [$]
    was doubled gives back the text. *)
Theorem resolveStringValue_escape fuel s :
  ddBackwardCompatible = false →
  resolveStringValue configSources confmapProviders (S fuel) (escape s) = Some (Ok (AString s, None)).
Proof. intros Hdd. rewrite resolveStringValue_S, Hdd. by rewrite evalSegs_escape by lia. Qed.

(** C2: resolution terminates: fuel above the number of graphic ASCII bytes of the
    string always gives a result or an error, for any config sources, when no
    string that YAML decoding gives has more graphic ASCII bytes than its text. *)
Theorem resolveStringValue_terminates {D : DecodingLaws Ext C} fuel s :
  weight s < fuel → ∃ r, resolveStringValue configSources confmapProviders fuel s = Some r.
Proof. intros Hw. by destruct (resolveStringValue_total configSources confmapProviders fuel s Hw) as [r Hr]; exists r. Qed.

(** A result does not depend on the fuel it was computed with. *)
Theorem resolveStringValue_fuel_irrelevant n m s r :
  n ≤ m → resolveStringValue configSources confmapProviders n s = Some r →
  resolveStringValue configSources confmapProviders m s = Some r.
Proof. induction 1 as [|m _ IH]; [done|]. intros Hr. by apply resolveStringValue_extends, IH. Qed.

(** C4: when a string resolves, its close function closes exactly the values that
    were retrieved for it, each once and in the order of retrieval: those of the
    selector and of the parameters of every config source in the string, then
    the value the config source returned, and what providers returned. *)
Theorem resolveStringValue_closes_all fuel s v closer :
  resolveStringValue configSources confmapProviders fuel s = Some (Ok (v, closer)) →
  handles closer = retrievedBy configSources confmapProviders fuel s.
Proof. apply resolveStringValue_closes. Qed.

(** [$name:selector] with a name that is neither a config source nor a
    provider fails with the unknown config source error. *)
Theorem resolveStringValue_unknown fuel name sel :
  source_name name = true → configSources !! name = None → confmapProviders !! name = None →
  resolveStringValue configSources confmapProviders (S fuel) (String "$" (name +:+ String ":" sel)) =
  Some (Err (newErrUnknownConfigSource name)).
Proof.
  intros Hn Hs Hp. rewrite resolveStringValue_S, segments_source by done. simpl.
  unfold retrieveConfigSourceData, retrieveWith. by rewrite Hs, Hp.
Qed.

(** A selector with nothing to expand, no parameters and no outer spaces. *)
Definition simple_selector (sel : string) : bool :=
  negb (ContainsByte sel expandPrefixChar) && negb (ContainsByte sel "?") &&
  negb (ContainsByte sel "010") && bool_decide (Trim sel " " = sel).

Lemma parse_simple name sel :
  source_name name = true → simple_selector sel = true →
  parseCfgSrcInvocation (name +:+ String ":" sel) = Ok (name, sel, None).
Proof.
  unfold source_name, simple_selector.
  intros [Hall _]%andb_true_iff [[[Hd Hq%negb_true_iff]%andb_true_iff Hnl%negb_true_iff]%andb_true_iff Ht%bool_decide_eq_true]%andb_true_iff.
  assert (Hfree : ∀ c, isAlphaNum c = false → IndexByte name c = None).
  { intros c Hc. induction name as [|d name IH]; [done|]. simpl in *. apply andb_true_iff in Hall as [Hd' ?].
    destruct (Ascii.eqb d c) eqn:E; [apply Ascii.eqb_eq in E; congruence|]. by rewrite IH. }
  unfold parseCfgSrcInvocation, SplitN2, configSourceNameDelimChar.
  rewrite Index_byte, (IndexByte_app_None name sel ":") by (by apply Hfree).
  rewrite stake_app. change (slen (String ":" "")) with 1. rewrite sdrop_app_add. cbn [sdrop].
  unfold Contains, ContainsByte in *. rewrite !Index_byte.
  destruct (IndexByte sel "010"); [done|]. destruct (IndexByte sel "?"); [done|].
  rewrite Ht. replace (Trim name " ") with name; [done|]. symmetry. apply Trim_id.
  unfold ContainsByte. by rewrite Hfree.
Qed.

(** [$name:selector] resolves to the value its config source retrieves for
    the selector, decoded as YAML when it is text, with the retrieved value to
    close; a failing config source gives its error wrapped. *)
Theorem resolveStringValue_source fuel name sel src :
  source_name name = true → simple_selector sel = true → configSources !! name = Some src →
  resolveStringValue configSources confmapProviders (S (S fuel)) (String "$" (name +:+ String ":" sel)) =
  match src sel None with
  | Err e => Some (Err (Wrapf "config source %q failed to retrieve value: %w" [name] e))
  | Ok r => match AsRaw r with
            | Err e => Some (Err e)
            | Ok v => Some (Ok (wholeValue v, Some [Close r]))
            end
  end.
Proof.
  intros Hn Hsel Hsrc. rewrite resolveStringValue_S, segments_source by done. cbn [evalSegs].
  unfold retrieveConfigSourceData, retrieveWith. rewrite Hsrc, parse_simple by done.
  unfold retrieveFromSource. rewrite resolveStringValue_S, segments_plain;
    [|unfold simple_selector in Hsel; by destruct (ContainsByte sel expandPrefixChar) | lia].
  rewrite <-(app_nil_r (lit _)), evalSegs_lit, append_nil_l, append_nil_l. simpl.
  destruct (src sel None) as [r|e]; [|done]. by destruct (AsRaw r).
Qed.
End properties.

(** ** Witnesses *)

(** A decoder that reads every YAML text as a plain scalar, but for one [!!binary]
    scalar, the base64 of [$file:x]. *)
Definition scalar_ext (dd : bool) : Externals := {|
  Getenv n := if decide (n = "HOME") then "/root" else "";
  ddBackwardCompatible := dd;
  yaml_Unmarshal t := Ok (AString (if decide (t = "!!binary JGZpbGU6eA==") then "$file:x" else t));
  yaml_empty t := bool_decide (Trim t " " = "");
  yaml_Unmarshal_map _ := Ok ∅;
  ToStringMap_cast m := list_to_map (omap (λ kv, match kv with (AString k, v) => Some (k, v) | _ => None end) m);
  IntfaceKeysToStrings m := m;
|}.

#[global] Instance scalar_laws dd : DecodingLaws (scalar_ext dd) flat_confmap.
Proof.
  split; simpl.
  - intros t v [= <-] x ->%list_elem_of_singleton. case_decide as Ht; [|done]. rewrite Ht. vm_compute. lia.
  - intros t m k v [= <-]. by rewrite lookup_empty.
  - intros m n Hm k _. destruct (m !! k) as [v|] eqn:Hk; simpl; [by eapply Hm|].
    intros x Hx. by apply not_elem_of_nil in Hx.
Qed.

Definition no_float : FloatText := λ _, "NaN".

Definition file_source : string → option (gmap string any) → res Retrieved :=
  λ sel _, Ok {| AsRaw := Ok (AString (sel +:+ "!")); Close := 7 |}.

Definition demo_sources : gmap string (string → option (gmap string any) → res Retrieved) :=
  {["file" := file_source]}.

Definition demo_resolve (dd : bool) : nat → string → fres (any * option CloseFunc) :=
  @resolveStringValue (scalar_ext dd) flat_confmap no_float forward_range demo_sources ∅.

Example demo_nested :
  demo_resolve true 9 "a $HOME ${file:$HOME/x?k=$HOME}-$$ b" =
  Some (Ok (AString "a /root /root/x!-$ b", Some [7])).
Proof. vm_compute. reflexivity. Qed.

Lemma resolveStringValue_plain_witness : demo_resolve true 1 "no expansion" = Some (Ok (AString "no expansion", None)).
Proof. apply (@resolveStringValue_plain (scalar_ext true) flat_confmap no_float forward_range). reflexivity. Defined.

Lemma resolveStringValue_escape_witness : demo_resolve false 1 (escape "a$b") = Some (Ok (AString "a$b", None)).
Proof. apply (@resolveStringValue_escape (scalar_ext false) flat_confmap no_float forward_range). reflexivity. Defined.

Lemma resolveStringValue_terminates_witness :
  demo_resolve true 33 "$file:a?k=!!binary+JGZpbGU6eA==" = Some (Ok (AString "a!", Some [7; 7])) ∧
  ∃ r, demo_resolve true 33 "$file:a?k=!!binary+JGZpbGU6eA==" = Some r.
Proof.
  split; [vm_compute; reflexivity|].
  apply (@resolveStringValue_terminates (scalar_ext true) flat_confmap no_float forward_range _ _ _).
  vm_compute. lia.
Defined.

Lemma resolveStringValue_fuel_irrelevant_witness :
  demo_resolve true 9 "$file:x" = Some (Ok (AString "x!", Some [7])).
Proof.
  apply (@resolveStringValue_fuel_irrelevant (scalar_ext true) flat_confmap no_float forward_range _ _ 2);
    [lia | vm_compute; reflexivity].
Defined.

(** A config source whose handle tells what was retrieved. *)
Definition numbered_source : string → option (gmap string any) → res Retrieved :=
  λ sel params, Ok {| AsRaw := Ok (AString sel); Close := slen sel + 10 * size (default ∅ params) |}.

Definition numbered_sources : gmap string (string → option (gmap string any) → res Retrieved) :=
  {["file" := numbered_source]}.

Lemma resolveStringValue_closes_all_witness :
  [1; 2; 14; 5] =
  @retrievedBy (scalar_ext true) flat_confmap no_float forward_range numbered_sources ∅ 3
    "${file:abc$file:x?k=$file:yy}${file:vwxyz}-".
Proof.
  change [1; 2; 14; 5] with (handles (Some [1; 2; 14; 5])).
  eapply (@resolveStringValue_closes_all (scalar_ext true) flat_confmap no_float forward_range numbered_sources ∅ 3).
  vm_compute. reflexivity.
Defined.

Lemma resolveStringValue_unknown_witness :
  demo_resolve true 1 "$vault:secret" = Some (Err (newErrUnknownConfigSource "vault")).
Proof.
  apply (@resolveStringValue_unknown (scalar_ext true) flat_confmap no_float forward_range
    demo_sources ∅ 0 "vault" "secret"); reflexivity.
Defined.

Lemma resolveStringValue_source_witness :
  demo_resolve true 2 "$file:/etc/x" = Some (Ok (AString "/etc/x!", Some [7])).
Proof.
  apply (@resolveStringValue_source (scalar_ext true) flat_confmap no_float forward_range
    demo_sources ∅ 0 "file" "/etc/x" file_source); vm_compute; reflexivity.
Defined.
