(* ===== verification/ConfigProvider.v ===== *)
(** * Config source settings and the provider wrapper

    [internal/configsource/settings.go] (reading the [config_sources] section),
    [BuildConfigSources] and [BuildConfigSourcesFromConf] of [source.go], and
    [internal/confmapprovider/configsource/provider.go] (wrapping a
    [confmap.Provider] so that what it retrieves is resolved).  [component.ID],
    the decoding of settings and the factories are parameters. *)

From S2P Require Import Prelude GoStrings GoValue Confmap ConfigSource ConfigSourceProofs.

Definition configSourcesKey : string := "config_sources".

(** [component.ID] of the collector: a type and a name. *)
Record ID := { ID_Type : string; ID_Name : string }.

#[global] Instance ID_eq_dec : EqDecision ID.
Proof. solve_decision. Defined.

Section settings.
Context `{Ext : Externals} `{C : Confmap} `{FloatText} `{MapRange}.
(** [component.ID.UnmarshalText], [component.ID.String] *)
Context (UnmarshalText : string → res ID) (ID_String : ID → string).
(** Settings of a config source; [Conf.Unmarshal] into them, with unknown fields an error. *)
Context {Settings : Type} (Settings_ID : Settings → ID) (SetIDName : string → Settings → Settings).
Context (Unmarshal : conf → Settings → res Settings) (ToStringMap_any : any → gmap string any).

Abbreviation ConfigSource := (string → option conf → res Retrieved).
Abbreviation Provider := (string → res Retrieved).

(** A factory; [CreateConfigSource] may return a nil config source. *)
Record Factory := {
  CreateDefaultConfig : Settings;
  CreateConfigSource : Settings → res (option ConfigSource);
}.
Abbreviation Factories := (gmap string Factory).

Definition loadSetting (factories : Factories) (settings : gmap string Settings) (kv : string * any)
    : res (gmap string Settings) :=
  let '(key, value) := kv in
  let settingsValue := NewFromStringMap (ToStringMap_any value) in
  componentID ← wrap_err "invalid %s type and name key %q: %w" [configSourcesKey; key] (UnmarshalText key);
  match factories !! ID_Type componentID with
  | None => Err (Errorf "unknown %s type %q for %q" [configSourcesKey; ID_Type componentID; ID_String componentID])
  | Some factory =>
      let cfgSrcSettings := SetIDName (ID_Name componentID) (CreateDefaultConfig factory) in
      cfgSrcSettings ← wrap_err "error reading %s configuration for %q: %w"
                         [configSourcesKey; ID_String componentID] (Unmarshal settingsValue cfgSrcSettings);
      let fullName := ID_String componentID in
      match settings !! fullName with
      | Some _ => Err (Errorf "duplicate %s name %s" [configSourcesKey; fullName])
      | None => Ok (<[fullName := cfgSrcSettings]> settings)
      end
  end.

Definition loadSettings (settingsMap : gmap string any) (factories : Factories) : res (gmap string Settings) :=
  foldM_res (loadSetting factories) ∅ (range settingsMap).

(** The keys of the [config_sources] section, their values resolved with the
    providers only; close functions are dropped. *)
Fixpoint resolveSettingsKeys (resolve : any → fres (any * option CloseFunc)) (c : conf) (keys : list string)
    (splitMap : gmap string any) : fres (gmap string any) :=
  match keys with
  | [] => Some (Ok splitMap)
  | key :: keys =>
      if HasPrefix key configSourcesKey then
        match resolve (Get c key) with
        | None => None
        | Some (Err e) => Some (Err e)
        | Some (Ok (value, _)) => resolveSettingsKeys resolve c keys (<[key := value]> splitMap)
        end
      else resolveSettingsKeys resolve c keys splitMap
  end.

Definition sourceSettings (fuel : nat) (v : conf) (factories : Factories)
    (confmapProviders : gmap string (option Provider)) : fres (gmap string Settings) :=
  match resolveSettingsKeys (resolveConfigValue ∅ confmapProviders fuel) v (AllKeys v) ∅ with
  | None => None
  | Some (Err e) => Some (Err e)
  | Some (Ok splitMap) =>
      Some (settingsMap ← wrap_err "invalid settings sub map content: %w" []
                            (Sub (NewFromStringMap splitMap) configSourcesKey);
            loadSettings (ToStringMap settingsMap) factories)
  end.

Definition remainingMap (c : conf) : gmap string any :=
  foldl (λ m k, if HasPrefix k configSourcesKey then m else <[k := Get c k]> m) ∅ (AllKeys c).

Definition SettingsFromConf (fuel : nat) (c : conf) (factories : Factories)
    (confmapProviders : gmap string (option Provider)) : fres (gmap string Settings * conf) :=
  match sourceSettings fuel c factories confmapProviders with
  | None => None
  | Some (Err e) => Some (Err (Wrapf "failed resolving config sources settings: %w" [] e))
  | Some (Ok settings) => Some (Ok (settings, NewFromStringMap (remainingMap c)))
  end.

Definition buildConfigSource (factories : Factories) (cfgSources : gmap string ConfigSource)
    (kv : string * Settings) : res (gmap string ConfigSource) :=
  let '(fullName, cfgSrcSettings) := kv in
  match factories !! ID_Type (Settings_ID cfgSrcSettings) with
  | None => Err (Errorf "unknown %s config source type for %s" [ID_Type (Settings_ID cfgSrcSettings); fullName])
  | Some factory =>
      cfgSrc ← wrap_err "failed to create config source %s: %w" [fullName] (CreateConfigSource factory cfgSrcSettings);
      match cfgSrc with
      | None => Err (Errorf "factory for %q produced a nil extension" [fullName])
      | Some cfgSrc => Ok (<[fullName := cfgSrc]> cfgSources)
      end
  end.

Definition BuildConfigSources (configSourcesSettings : gmap string Settings) (factories : Factories)
    : res (gmap string ConfigSource) :=
  foldM_res (buildConfigSource factories) ∅ (range configSourcesSettings).

Definition BuildConfigSourcesFromConf (fuel : nat) (confToFurtherResolve : conf) (factories : Factories)
    (confmapProviders : gmap string (option Provider)) : fres (gmap string ConfigSource * conf) :=
  match SettingsFromConf fuel confToFurtherResolve factories confmapProviders with
  | None => None
  | Some (Err e) => Some (Err (Wrapf "failed to parse settings from conf: %w" [] e))
  | Some (Ok (configSourceSettings, confWithoutSettings)) =>
      Some (configSources ← wrap_err "failed to build config sources: %w" []
                              (BuildConfigSources configSourceSettings factories);
            Ok (configSources, confWithoutSettings))
  end.

(** ** The provider wrapper *)

(** The calls a [Hook] receives, in order. *)
Inductive hookEvent :=
| OnNew (hook : nat)
| OnRetrieve (hook : nat) (scheme : string) (retrieved : gmap string any)
| OnShutdown (hook : nat).

Record providerWrapper := {
  providers : gmap string (option Provider);
  hooks : nat;                   (* how many hooks are registered *)
  events : list hookEvent;       (* what they have seen *)
}.

(** What a wrapped provider returns, and what [ResolveForWrapped] returns. *)
Record WrappedRetrieved := { AsConf : res (option conf); wrappedRaw : res any; wrappedClose : handle }.
Inductive outRetrieved :=
| RawRetrieved (raw : any)
| ConfRetrieved (m : gmap string any) (closer : option CloseFunc).

Record wrappedProvider := {
  Scheme : string;
  wrappedRetrieve : string → res WrappedRetrieved;
}.

Definition Wrap (pw : providerWrapper) (provider : wrappedProvider) (asProvider : Provider) : providerWrapper :=
  {| providers := <[Scheme provider := Some asProvider]> (providers pw);
     hooks := hooks pw;
     events := events pw ++ map OnNew (seq 0 (hooks pw)) |}.

Definition wrappedProvider_Shutdown (pw : providerWrapper) (w : wrappedProvider) : providerWrapper :=
  {| providers := delete (Scheme w) (providers pw);
     hooks := hooks pw;
     events := events pw ++ map OnShutdown (seq 0 (hooks pw)) |}.

(** [rawOk]: whether [confmap.NewRetrieved] accepts a raw value. *)
Definition ResolveForWrapped (rawOk : any → bool) (fuel : nat) (factories : Factories) (pw : providerWrapper)
    (uri : string) (w : wrappedProvider) : providerWrapper * fres outRetrieved :=
  match wrappedRetrieve w uri with
  | Err e => (pw, Some (Err (Wrapf "configsource provider failed retrieving: %w" [] e)))
  | Ok retrieved =>
      match AsConf retrieved with
      | Err e =>
          (pw, match wrappedRaw retrieved with
               | Ok raw => if rawOk raw then Some (Ok (RawRetrieved raw))
                           else Some (Err (Wrapf "failed retrieving from wrappedProvider: %w" [] e))
               | Err _ => Some (Err (Wrapf "failed retrieving from wrappedProvider: %w" [] e))
               end)
      | Ok None => (pw, Some (Err (Errorf "retrieved confmap.Conf is unexpectedly nil" [])))
      | Ok (Some c) =>
          let pw := {| providers := providers pw; hooks := hooks pw;
                       events := events pw ++
                         map (λ h, OnRetrieve h (Scheme w) (ToStringMap c)) (seq 0 (hooks pw)) |} in
          (pw,
           match BuildConfigSourcesFromConf fuel c factories (providers pw) with
           | None => None
           | Some (Err e) => Some (Err (Wrapf "failed resolving latestConf: %w" [] e))
           | Some (Ok (configSources, confToResolve)) =>
               match ResolveWithConfigSources configSources (providers pw) fuel confToResolve with
               | None => None
               | Some (Err e) => Some (Err (Wrapf "failed resolving with config sources: %w" [] e))
               | Some (Ok (resolved, closeFunc)) =>
                   Some (Ok (ConfRetrieved (ToStringMap resolved)
                               (MergeCloseFuncs [closeFunc; Some [wrappedClose retrieved]])))
               end
           end)
      end
  end.
End settings.

(** ** Properties *)

Section properties.
Context `{Ext : Externals} `{C : Confmap} {L : ConfmapLaws C} `{FloatText} `{MapRange}.
Context (UnmarshalText : string → res ID) (ID_String : ID → string).
Context {Settings : Type} (Settings_ID : Settings → ID) (SetIDName : string → Settings → Settings).
Context (Unmarshal : conf → Settings → res Settings) (ToStringMap_any : any → gmap string any).

Lemma remainingMap_leaves c :
  remainingMap c = filter (λ kv, HasPrefix kv.1 configSourcesKey = false) (leaves c).
Proof.
  apply map_eq. intros k. apply option_eq. intros v.
  rewrite map_lookup_filter_Some, lookup_leaves. unfold remainingMap.
  rewrite foldl_keys_lookup, lookup_empty. case_decide; naive_solver.
Qed.

(** Reading the settings of the config sources leaves exactly the leaves of the
    configuration whose path does not start with [config_sources]. *)
Theorem SettingsFromConf_remaining fuel c factories ps settings rest :
  SettingsFromConf UnmarshalText ID_String SetIDName Unmarshal ToStringMap_any fuel c factories ps =
    Some (Ok (settings, rest)) →
  rest = NewFromStringMap (filter (λ kv, HasPrefix kv.1 configSourcesKey = false) (leaves c)).
Proof.
  unfold SettingsFromConf. rewrite remainingMap_leaves.
  destruct (sourceSettings _ _ _ _ _ _ _ _ _) as [[]|]; naive_solver.
Qed.

(** What closing a returned value closes: [confmap.NewRetrieved] without options
    has nothing to close. *)
Definition outClose (out : outRetrieved) : list handle :=
  match out with RawRetrieved _ => [] | ConfRetrieved _ closer => handles closer end.

(** C5: closing the configuration that a wrapped provider hands on closes every
    value that its resolution retrieved from config sources and providers, in
    order, and then the wrapped provider's own value.  The raw fallback closes
    nothing: the wrapped value is handed on without its close function. *)
Theorem ResolveForWrapped_closes rawOk fuel factories pw uri w pw' out :
  ResolveForWrapped UnmarshalText ID_String Settings_ID SetIDName Unmarshal ToStringMap_any
    rawOk fuel factories pw uri w = (pw', Some (Ok out)) →
  ∃ r, wrappedRetrieve w uri = Ok r ∧
    match AsConf r with
    | Ok (Some c) => ∃ srcs rest,
        BuildConfigSourcesFromConf UnmarshalText ID_String Settings_ID SetIDName Unmarshal ToStringMap_any
          fuel c factories (providers pw) = Some (Ok (srcs, rest)) ∧
        outClose out = confRetrievedBy srcs (providers pw) fuel rest ++ [wrappedClose r]
    | Ok None => False
    | Err _ => outClose out = []
    end.
Proof.
  unfold ResolveForWrapped. destruct (wrappedRetrieve w uri) as [r|]; [|naive_solver].
  destruct (AsConf r) as [[c|]|] eqn:Hc.
  - destruct (BuildConfigSourcesFromConf _ _ _ _ _ _ _ _ _ _) as [[[srcs c']|]|] eqn:Hb; [|naive_solver..].
    destruct (ResolveWithConfigSources _ _ _ _) as [[[c'' f]|]|] eqn:Hr; [|naive_solver..].
    intros [= <- <-]. exists r. rewrite Hc. split; [done|]. exists srcs, c'. split; [done|].
    apply ResolveWithConfigSources_closes in Hr. simpl in Hr. rewrite <-Hr. simpl.
    by destruct f; simpl; rewrite ?app_nil_r.
  - naive_solver.
  - destruct (wrappedRaw r) as [raw|]; [destruct (rawOk raw)|]; intros [=]; subst; exists r; by rewrite Hc.
Qed.
End properties.

(** Building the config sources succeeds only by creating, for every setting,
    the config source its type's factory makes, under the same name and no
    other; the result is the same in any iteration order. *)
Theorem BuildConfigSources_spec `{C : Confmap} `{MapRange} {Settings} (Settings_ID : Settings → ID)
    (settings : gmap string Settings) factories srcs :
  BuildConfigSources Settings_ID settings factories = Ok srcs →
  dom srcs = dom settings ∧
  ∀ name st, settings !! name = Some st →
    ∃ factory src, factories !! ID_Type (Settings_ID st) = Some factory ∧
      CreateConfigSource factory st = Ok (Some src) ∧ srcs !! name = Some src.
Proof.
  set (create := λ kv : string * Settings,
    match factories !! ID_Type (Settings_ID kv.2) with
    | None => Err (Errorf "unknown" [])
    | Some factory => match CreateConfigSource factory kv.2 with
                      | Ok (Some src) => Ok src | Ok None => Err (Errorf "nil" []) | Err e => Err e end
    end).
  intros Hb. apply (foldM_res_insert create) in Hb as [Hin Hout]; [| |apply NoDup_range].
  - split.
    + apply set_eq. intros k. rewrite !elem_of_dom. split.
      * intros [w Hw]. destruct (decide (k ∈ (range settings).*1)) as [Hk|Hk].
        { apply list_elem_of_fmap in Hk as ([k' v] & -> & Hk%elem_of_range). eauto. }
        rewrite Hout in Hw by done. by rewrite lookup_empty in Hw.
      * intros [st Hst]. apply elem_of_range, Hin in Hst as (w & _ & Hw). eauto.
    + intros name st (w & Hc & Hw)%elem_of_range%Hin. unfold create in Hc. simpl in Hc.
      destruct (factories !! _) as [fac|]; [|done].
      destruct (CreateConfigSource fac st) as [[src|]|] eqn:Hcr; naive_solver.
  - intros m [k st] m'. unfold buildConfigSource, create. simpl.
    destruct (factories !! _) as [fac|]; [|done].
    intros ([src|] & Hcr%wrap_err_ok & ?)%bind_ok_inv; [|done]. rewrite Hcr. naive_solver.
Qed.

(** ** Witnesses *)

Definition demo_ext : Externals := {|
  Getenv _ := ""; ddBackwardCompatible := true;
  yaml_Unmarshal t := Ok (AString t); yaml_empty _ := false; yaml_Unmarshal_map _ := Ok ∅;
  ToStringMap_cast _ := ∅; IntfaceKeysToStrings m := m |}.

Definition demo_text : FloatText := λ _, "NaN".

Definition demo_id (key : string) : res ID := Ok {| ID_Type := key; ID_Name := "" |}.
Definition demo_set_name (n : string) (st : ID) : ID := {| ID_Type := ID_Type st; ID_Name := n |}.

Definition demo_source : string → option (gmap string any) → res Retrieved :=
  λ sel _, Ok {| AsRaw := Ok (AString sel); Close := 3 |}.

Definition demo_factories : gmap string (@Factory flat_confmap ID) :=
  {["env" := @Build_Factory flat_confmap ID {| ID_Type := "env"; ID_Name := "" |}
               (λ _, Ok (Some demo_source))]}.

Definition demo_conf : gmap string any :=
  {["config_sources::env" := AMap ∅; "exporters::otlp::endpoint" := AString "$env:HOST"]}.

Definition demo_wrapped : @wrappedProvider flat_confmap :=
  @Build_wrappedProvider flat_confmap "file" (λ _,
    Ok (@Build_WrappedRetrieved flat_confmap (Ok (Some demo_conf)) (Ok ANil) 9)).

Lemma SettingsFromConf_remaining_witness :
  ∃ settings rest,
    @SettingsFromConf demo_ext flat_confmap demo_text forward_range demo_id ID_Type ID demo_set_name
      (λ _ st, Ok st) (λ _, ∅) 5 demo_conf demo_factories ∅ = Some (Ok (settings, rest)) ∧
    rest = filter (λ kv, HasPrefix kv.1 configSourcesKey = false) (@leaves flat_confmap demo_conf).
Proof.
  eexists _, _. split; [vm_compute; reflexivity|].
  eapply (@SettingsFromConf_remaining demo_ext flat_confmap _ demo_text forward_range demo_id ID_Type ID demo_set_name
      (λ _ st, Ok st) (λ _, ∅) 5 demo_conf demo_factories ∅).
  vm_compute. reflexivity.
Defined.

Lemma BuildConfigSources_spec_witness :
  @BuildConfigSources flat_confmap forward_range ID id {["env" := {| ID_Type := "env"; ID_Name := "" |}]}
    demo_factories = Ok {["env" := demo_source]} ∧
  dom ({["env" := demo_source]} : gmap string _) = {["env"]}.
Proof.
  assert (Hb : @BuildConfigSources flat_confmap forward_range ID id
    {["env" := {| ID_Type := "env"; ID_Name := "" |}]} demo_factories = Ok {["env" := demo_source]})
    by (vm_compute; reflexivity).
  split; [exact Hb|].
  exact (proj1 (@BuildConfigSources_spec flat_confmap forward_range ID id _ _ _ Hb)).
Defined.

Lemma ResolveForWrapped_closes_witness :
  ∃ r, wrappedRetrieve demo_wrapped "file:x" = Ok r ∧
    match AsConf r with
    | Ok (Some c) => ∃ srcs rest,
        @BuildConfigSourcesFromConf demo_ext flat_confmap demo_text forward_range demo_id ID_Type ID id demo_set_name
          (λ _ st, Ok st) (λ _, ∅) 5 c demo_factories ∅ = Some (Ok (srcs, rest)) ∧
        [3; 9] = @confRetrievedBy demo_ext flat_confmap demo_text forward_range srcs ∅ 5 rest ++ [wrappedClose r]
    | Ok None => False
    | Err _ => [3; 9] = []
    end.
Proof.
  eapply (@ResolveForWrapped_closes demo_ext flat_confmap demo_text forward_range demo_id ID_Type ID id demo_set_name
      (λ _ st, Ok st) (λ _, ∅) (λ _, true) 5 demo_factories
      {| providers := ∅; hooks := 1; events := [] |} "file:x" demo_wrapped _ (ConfRetrieved _ (Some [3; 9]))).
  vm_compute. reflexivity.
Defined.
