(* ===== verification/ConfigSources.v ===== *)
(** * The config source implementations

    [internal/configsource/{envvar,include,zookeeper,etcd2,vault}configsource]:
    each source's validation, [Retrieve] and change notification.  The clients
    (file system, template engine, etcd, ZooKeeper, Vault) are parameters.  A
    watching goroutine is a function from the sequence of what its [select]
    receives to the list of change notifications it sends. *)

From S2P Require Import Prelude GoStrings GoValue Confmap.
From Stdlib Require Import Ascii.

(** [confmap.ChangeEvent] *)
Record ChangeEvent := { ce_Error : option error }.

(** ** Environment variables *)

Record retrieveParams := { Optional : bool }.

Section envvar.
Context `{Confmap}.
Context (LookupEnv : string → option string) (UnmarshalParams : conf → res retrieveParams).

Record envVarConfigSource := { defaults : gmap string any }.

(** [Config.Defaults] may be a nil map. *)
Definition newEnvVarConfigSource (Defaults : option (gmap string any)) : envVarConfigSource :=
  {| defaults := match Defaults with Some d => d | None => ∅ end |}.

Definition envVar_Retrieve (e : envVarConfigSource) (selector : string) (params : option conf) : res any :=
  actualParams ← match params with
                 | None => Ok {| Optional := false |}
                 | Some c => wrap_err "failed to unmarshall retrieve params: %w" []
                               (UnmarshalParams (NewFromStringMap (ToStringMap c)))
                 end;
  match LookupEnv selector with
  | Some value => Ok (AString value)
  | None =>
      match defaults e !! selector with
      | Some defaultValue => Ok defaultValue
      | None =>
          if Optional actualParams then Ok ANil
          else Err (Errorf "env var %q is required but not defined and not present on defaults" [selector])
      end
  end.
End envvar.

(** ** Included files *)

Section include.
Context `{Confmap}.
(** [template.ParseFiles] and [Execute]: the rendered text. *)
Context (render : string → gmap string any → res string) (Remove : string → res unit).
(** [fsnotify.NewWatcher] and [Watcher.Add] *)
Context (NewWatcher : res unit) (Add : string → res unit).

Record includeConfigSource := {
  DeleteFiles : bool;
  WatchFiles : bool;
  watcherMade : bool;             (* is.watcher != nil *)
  watchedFiles : gset string;
  watchList : gset string;        (* what the fsnotify watcher watches *)
}.

Definition newIncludeConfigSource (deleteFiles watchFiles : bool) : res includeConfigSource :=
  if deleteFiles && watchFiles then
    Err (Errorf "cannot be configured with delete_files and watch_files at the same time" [])
  else Ok {| DeleteFiles := deleteFiles; WatchFiles := watchFiles; watcherMade := false;
             watchedFiles := ∅; watchList := ∅ |}.

(** The new state and the file to unwatch on close, if any. *)
Definition watchFile (ics : includeConfigSource) (file : string)
    : includeConfigSource * res (option string) :=
  if decide (file ∈ watchedFiles ics) then (ics, Ok None)
  else
    match (if watcherMade ics then Ok () else NewWatcher) with
    | Err e => (ics, Err e)
    | Ok _ =>
        let ics := {| DeleteFiles := DeleteFiles ics; WatchFiles := WatchFiles ics; watcherMade := true;
                     watchedFiles := watchedFiles ics; watchList := watchList ics |} in
        match Add file with
        | Err e => (ics, Err e)
        | Ok _ => ({| DeleteFiles := DeleteFiles ics; WatchFiles := WatchFiles ics; watcherMade := true;
                      watchedFiles := {[file]} ∪ watchedFiles ics;
                      watchList := {[file]} ∪ watchList ics |}, Ok (Some file))
        end
    end.

(** The close function of a watched file: [true] when the watcher is closed. *)
Definition closeWatched (ics : includeConfigSource) (file : string) : includeConfigSource * bool :=
  let ics := {| DeleteFiles := DeleteFiles ics; WatchFiles := WatchFiles ics; watcherMade := watcherMade ics;
               watchedFiles := watchedFiles ics; watchList := watchList ics ∖ {[file]} |} in
  (ics, bool_decide (watchList ics = ∅)).

(** [hasWatcher]: whether the caller passed a watcher function. *)
Definition include_Retrieve (ics : includeConfigSource) (selector : string) (params : option conf)
    (hasWatcher : bool) : includeConfigSource * res (string * option string) :=
  match render selector (match params with Some c => ToStringMap c | None => ∅ end) with
  | Err e => (ics, Err e)
  | Ok text =>
      match (if DeleteFiles ics then wrap_err "failed to delete file %q as requested: %w" [selector] (Remove selector)
             else Ok ()) with
      | Err e => (ics, Err e)
      | Ok _ =>
          if negb (WatchFiles ics) || negb hasWatcher then (ics, Ok (text, None))
          else match watchFile ics selector with
               | (ics, Err e) => (ics, Err e)
               | (ics, Ok closer) => (ics, Ok (text, closer))
               end
      end
  end.

(** [event.Op&fsnotify.Write], an error, or a closed channel. *)
Inductive fsEvent := FsEvent (isWrite : bool) | FsError (e : error) | FsClosed.

Fixpoint fileWatcherLoop (received : list fsEvent) : list ChangeEvent :=
  match received with
  | [] => []
  | FsClosed :: _ => []
  | FsEvent true :: _ => [{| ce_Error := None |}]
  | FsEvent false :: received => fileWatcherLoop received
  | FsError e :: _ => [{| ce_Error := Some e |}]
  end.
End include.

(** ** ZooKeeper *)

Section zookeeper.
Context {Conn : Type} (zk_Connect : res Conn) (Disconnected : Conn → bool).

(** The closure of [newConnectFunc] over its variable [conn].  The inner
    [conn, _, err := zk.Connect(...)] declares a new variable, so the captured
    one keeps its value. *)
Definition connectFunc (conn : option Conn) : option Conn * res Conn :=
  match conn with
  | Some c => if negb (Disconnected c) then (conn, Ok c)
              else (conn, zk_Connect)
  | None => (conn, zk_Connect)
  end.

Definition newZkConfigSource (Endpoints : list string) : res (option Conn) :=
  if decide (Endpoints = []) then Err (Errorf "cannot connect to zk without any endpoints" [])
  else Ok None.

Context (GetW : Conn → string → res string).

Definition zk_Retrieve (conn : option Conn) (selector : string) : option Conn * res (string * Conn) :=
  match connectFunc conn with
  | (conn, Err e) => (conn, Err e)
  | (conn, Ok c) => (conn, match GetW c selector with Err e => Err e | Ok value => Ok (value, c) end)
  end.
End zookeeper.

Inductive zkEventType := EventNodeCreated | EventNodeDataChanged | EventNodeChildrenChanged
  | EventNodeDeleted | EventSession | EventNotWatching.
Record zkEvent := { zk_Err : option error; zk_Type : zkEventType }.

(** What the watching goroutine's [select] receives. *)
Inductive zkReceived := ZkClose | ZkChannelClosed | ZkEvent (e : zkEvent).

Definition startWatcher (r : zkReceived) : list ChangeEvent :=
  match r with
  | ZkClose | ZkChannelClosed => []
  | ZkEvent e =>
      (match zk_Err e with Some err => [{| ce_Error := Some err |}] | None => [] end) ++
      match zk_Type e with
      | EventNodeCreated | EventNodeDataChanged | EventNodeChildrenChanged => [{| ce_Error := None |}]
      | _ => [{| ce_Error := Some (Errorf "zookeeper watcher stopped" []) |}]
      end
  end.

(** ** etcd2 *)

(** The outcome of [watcher.Next] and of the backoff that follows a cluster error. *)
Inductive etcdNext :=
| NextOk
| NextCanceled
| NextClusterError (e : error) (doneDuringBackoff : bool)
| NextError (e : error).

Fixpoint etcdWatcher (received : list etcdNext) : list ChangeEvent :=
  match received with
  | [] => []
  | NextOk :: _ => [{| ce_Error := None |}]
  | NextCanceled :: _ => []
  | NextClusterError _ true :: _ => []
  | NextClusterError _ false :: received => etcdWatcher received
  | NextError e :: _ => [{| ce_Error := Some e |}]
  end.

Definition etcd2_CreateConfigSource (ParseRequestURI : string → res unit) (Endpoints : list string) : res unit :=
  if decide (Endpoints = []) then Err (Errorf "cannot connect to etcd2 without any endpoints" [])
  else
    _ ← mapM_res (λ uri, wrap_err "invalid endpoint %q: %w" [uri] (ParseRequestURI uri)) Endpoints;
    Ok ().

(** [kapi.Get] gives the node's value; a watcher is started only when asked for. *)
Definition etcd2_Retrieve (Get : string → res string) (selector : string) (hasWatcher : bool)
    : res (string * bool) :=
  match Get selector with
  | Err e => Err e
  | Ok value => Ok (value, hasWatcher)
  end.

(** ** Vault *)

Record Secret := {
  secret_Data : option (gmap string any);
  secret_Renewable : bool;
  secret_LeaseDuration : Z;      (* seconds *)
}.

Record Authentication := {
  auth_Token : option string;
  auth_IAM : option nat;
  auth_GCP : option nat;
}.

Record VaultConfig := {
  Endpoint : string;
  Path : string;
  Auth : option Authentication;
  PollInterval : Z;
}.

Definition count_some {A} (o : option A) : nat := match o with Some _ => 1 | None => 0 end.

Definition validateAuth (auth : option Authentication) : res unit :=
  match auth with
  | None => Err (Errorf "cannot connect to vault without an explicit auth method" [])
  | Some auth =>
      if bool_decide (auth_Token auth = Some "") then Err (Errorf "token cannot be empty" [])
      else
        let countMethods := count_some (auth_Token auth) + count_some (auth_IAM auth) + count_some (auth_GCP auth) in
        if countMethods =? 0 then Err (Errorf "auth cannot be empty, exactly one method must be used" [])
        else if 1 <? countMethods then Err (Errorf "multiple auth methods were set, use only one" [])
        else Ok ()
  end.

Definition getClientToken (IAMToken GCPToken : nat → res string) (auth : Authentication) : res string :=
  match auth_Token auth, auth_IAM auth, auth_GCP auth with
  | Some t, _, _ => Ok t
  | None, Some i, _ => IAMToken i
  | None, None, Some g => GCPToken g
  | None, None, None => Err (Errorf "auth cannot be empty, exactly one method must be used" [])
  end.

Record vaultConfigSource := {
  vault_secret : option Secret;
  vault_path : string;
  vault_pollInterval : Z;
}.

Section vault.
Context (ParseRequestURI : string → res unit) (NewClient : string → res unit).
Context (IAMToken GCPToken : nat → res string).

Definition newVaultConfigSource (cfg : VaultConfig) (auth : Authentication) : res vaultConfigSource :=
  _ ← NewClient (Endpoint cfg);
  _ ← getClientToken IAMToken GCPToken auth;
  if bool_decide (PollInterval cfg ≤ 0)%Z then Err (Errorf "poll interval must be greater than zero" [])
  else Ok {| vault_secret := None; vault_path := Path cfg; vault_pollInterval := PollInterval cfg |}.

Definition vault_CreateConfigSource (cfg : VaultConfig) : res vaultConfigSource :=
  if decide (Endpoint cfg = "") then Err (Errorf "cannot connect to vault with an empty endpoint" [])
  else
    _ ← wrap_err "invalid endpoint %q: %w" [Endpoint cfg] (ParseRequestURI (Endpoint cfg));
    if decide (Path cfg = "") then Err (Errorf "cannot connect to vault with an empty path" [])
    else
      _ ← validateAuth (Auth cfg);
      if bool_decide (PollInterval cfg ≤ 0)%Z then Err (Errorf "poll_interval must to be positive" [])
      else match Auth cfg with
           | Some auth => newVaultConfigSource cfg auth
           | None => Err (Errorf "nil authentication" []) (* unreachable: [validateAuth] rejects it *)
           end.

(** Walk a dot-delimited key through nested maps; a missing key reads as nil. *)
Fixpoint traverseParts (data : gmap string any) (parts : list string) : any :=
  match parts with
  | [] => ANil
  | [part] => default ANil (data !! part)
  | part :: parts =>
      match data !! part with
      | Some (AMap data) => traverseParts data parts
      | _ => ANil
      end
  end.

Definition traverseToKey (data : gmap string any) (key : string) : any :=
  traverseParts data (SplitByte key ".").

(** [client.Logical().Read] and [client.NewLifetimeWatcher] *)
Context (Read : string → res (option Secret)) (NewLifetimeWatcher : Secret → res unit).

Definition readSecret (v : vaultConfigSource) : vaultConfigSource * res Secret :=
  match Read (vault_path v) with
  | Err e => (v, Err e)
  | Ok None => (v, Err (Errorf "no secret found at %q" [vault_path v]))
  | Ok (Some secret) =>
      match secret_Data secret with
      | None => (v, Err (Errorf "no data at %q warnings: %v" [vault_path v]))
      | Some _ => ({| vault_secret := Some secret; vault_path := vault_path v;
                      vault_pollInterval := vault_pollInterval v |}, Ok secret)
      end
  end.

Record versionMetadata := { Timestamp : string; Version : Z }.

#[global] Instance versionMetadata_eq_dec : EqDecision versionMetadata.
Proof. solve_decision. Defined.

Definition extractVersionMetadata (metadataMap : gmap string any) (timestampKey versionKey : string)
    : option versionMetadata :=
  match metadataMap !! timestampKey with
  | Some (AString timestamp) =>
      match metadataMap !! versionKey with
      | Some (ANumber versionNumber) =>
          match ParseInt64 versionNumber with
          | Some versionInt => Some {| Timestamp := timestamp; Version := versionInt |}
          | None => None
          end
      | _ => None
      end
  | _ => None
  end.

(** What the watching goroutine of a secret does. *)
Inductive vaultWatcher :=
| LifetimeWatcher
| V1LeaseWatcher (wait_s : Z)
| PollingWatcher (metadataPath : string) (original : versionMetadata)
| NoWatcher.

Definition buildPollingWatcher (v : vaultConfigSource) (data : gmap string any) : vaultWatcher :=
  match data !! "metadata" with
  | None | Some ANil => NoWatcher
  | Some mdValue =>
      if negb (Contains (vault_path v) "/data/") then NoWatcher
      else match mdValue with
           | AMap mdMap =>
               match extractVersionMetadata mdMap "created_time" "version" with
               | None => NoWatcher
               | Some originalVersion =>
                   PollingWatcher (ReplaceOnce (vault_path v) "/data/" "/metadata/") originalVersion
               end
           | _ => NoWatcher
           end
  end.

Definition buildWatcherFn (v : vaultConfigSource) (secret : Secret) : res vaultWatcher :=
  if secret_Renewable secret then
    match NewLifetimeWatcher secret with Err e => Err e | Ok _ => Ok LifetimeWatcher end
  else if (0 <? secret_LeaseDuration secret)%Z then
    Ok (V1LeaseWatcher (secret_LeaseDuration secret `quot` 2)%Z)
  else Ok (buildPollingWatcher v (default ∅ (secret_Data secret))).

(** Returns the value and the watcher that the close function stops, if one was started. *)
Definition vault_Retrieve (v : vaultConfigSource) (selector : string) (hasWatcher : bool)
    : vaultConfigSource * res (any * option vaultWatcher) :=
  let finish v (secret : Secret) (closer : option vaultWatcher) :=
    (v, match traverseToKey (default ∅ (secret_Data secret)) selector with
        | ANil => Err (Errorf "no value at path %q for key %q" [vault_path v; selector])
        | ANumber val => Ok (AString val, closer)
        | value => Ok (value, closer)
        end) in
  match vault_secret v with
  | Some secret => finish v secret None
  | None =>
      match readSecret v with
      | (v, Err e) => (v, Err e)
      | (v, Ok secret) =>
          if hasWatcher then
            match buildWatcherFn v secret with
            | Err e => (v, Err e)
            | Ok w => finish v secret (Some w)
            end
          else finish v secret None
      end
  end.
End vault.

(** One receive of the polling goroutine: a tick with what [Read] returned, or done. *)
Inductive pollReceived := PollTick (read : res (option Secret)) | PollDone.

Fixpoint pollLoop (metadataPath : string) (original : versionMetadata) (received : list pollReceived)
    : list ChangeEvent :=
  match received with
  | [] => []
  | PollDone :: _ => []
  | PollTick (Err err) :: _ =>
      [{| ce_Error := Some (Wrapf "failed to read secret metadata at %q: %w" [metadataPath] err) |}]
  | PollTick (Ok metadataSecret) :: received =>
      match metadataSecret ≫= secret_Data with
      | None => [{| ce_Error := Some (Errorf "no secret metadata found at %q" [metadataPath]) |}]
      | Some data =>
          match extractVersionMetadata data "updated_time" "current_version" with
          | None =>
              [{| ce_Error := Some (Errorf "secret metadata is not in the expected format for keys %q and %q"
                                      ["updated_time"; "current_version"]) |}]
          | Some latest =>
              if negb (bool_decide (Timestamp original = Timestamp latest)) ||
                 negb (bool_decide (Version original = Version latest))
              then [{| ce_Error := None |}]
              else pollLoop metadataPath original received
          end
      end
  end.

(** The lifetime watcher's goroutine. *)
Inductive lifetimeReceived := Renewed | RenewalDone (err : option error) | LifetimeStop.

Fixpoint lifetimeLoop (received : list lifetimeReceived) : list ChangeEvent :=
  match received with
  | [] => []
  | Renewed :: received => lifetimeLoop received
  | RenewalDone err :: _ => [{| ce_Error := err |}]
  | LifetimeStop :: _ => []
  end.

(** ** Properties *)

(** The closure of [newConnectFunc] never stores the connection it makes:
    however often it was called before, every call connects anew. *)
Theorem connectFunc_never_caches {Conn} (zk_Connect : res Conn) Disconnected n :
  let state := Nat.iter n (λ s, (connectFunc zk_Connect Disconnected s).1) None in
  connectFunc zk_Connect Disconnected state = (None, zk_Connect).
Proof.
  intros state. assert (state = None) as ->; [|done].
  subst state. induction n as [|n IH]; simpl; [done|]. by rewrite IH.
Qed.

(** A ZooKeeper event that carries an error is reported twice. *)
Theorem startWatcher_error_twice e err :
  zk_Err e = Some err →
  ∃ second, startWatcher (ZkEvent e) = [{| ce_Error := Some err |}; second].
Proof. intros He. unfold startWatcher. rewrite He. destruct (zk_Type e); simpl; eauto. Qed.

Lemma startWatcher_error_twice_witness :
  ∃ second, startWatcher (ZkEvent {| zk_Err := Some (Errorf "closed" []); zk_Type := EventNotWatching |}) =
            [{| ce_Error := Some (Errorf "closed" []) |}; second].
Proof. apply startWatcher_error_twice. reflexivity. Defined.

(** Vault authentication is accepted exactly when one method is set and, if
    it is a token, the token is not empty. *)
Theorem validateAuth_exactly_one auth :
  validateAuth (Some auth) = Ok () ↔
  auth_Token auth ≠ Some "" ∧
  count_some (auth_Token auth) + count_some (auth_IAM auth) + count_some (auth_GCP auth) = 1.
Proof.
  unfold validateAuth. case_bool_decide as Ht; [naive_solver|].
  destruct (Nat.eqb_spec (count_some (auth_Token auth) + count_some (auth_IAM auth) + count_some (auth_GCP auth)) 0);
    [naive_solver lia|].
  destruct (Nat.ltb_spec 1 (count_some (auth_Token auth) + count_some (auth_IAM auth) + count_some (auth_GCP auth)));
    naive_solver lia.
Qed.

(** The nested maps that hold [v] at the path [parts]. *)
Fixpoint nest (parts : list string) (v : any) : gmap string any :=
  match parts with
  | [] => ∅
  | [p] => {[p := v]}
  | p :: parts => {[p := AMap (nest parts v)]}
  end.

Lemma traverseParts_nest parts v : parts ≠ [] → traverseParts (nest parts v) parts = v.
Proof.
  induction parts as [|p [|q parts] IH]; intros Hne; [done|simpl; by rewrite lookup_singleton_eq|].
  change (traverseParts (nest (p :: q :: parts) v) (p :: q :: parts)) with
    (match nest (p :: q :: parts) v !! p with
     | Some (AMap data) => traverseParts data (q :: parts) | _ => ANil end).
  change (nest (p :: q :: parts) v) with ({[p := AMap (nest (q :: parts) v)]} : gmap string any).
  rewrite lookup_singleton_eq. by apply IH.
Qed.

Lemma SplitByte_Join parts c :
  parts ≠ [] → Forall (λ p, ContainsByte p c = false) parts → SplitByte (Join parts (String c "")) c = parts.
Proof.
  induction parts as [|p [|q parts] IH]; intros Hne Hf; [done| |];
    apply Forall_cons in Hf as [Hp Hf].
  - by apply SplitByte_plain.
  - change (Join (p :: q :: parts) (String c "")) with (p +:+ String c "" +:+ Join (q :: parts) (String c "")).
    rewrite append_cons, append_nil_l, SplitByte_app by done. by rewrite IH.
Qed.

(** A value stored under a path of dot-free segments is found again by the
    dot-delimited key of the path. *)
Theorem traverseToKey_nest parts v :
  parts ≠ [] → Forall (λ p, ContainsByte p "." = false) parts →
  traverseToKey (nest parts v) (Join parts ".") = v.
Proof. intros Hne Hf. unfold traverseToKey. rewrite SplitByte_Join by done. by apply traverseParts_nest. Qed.

Lemma traverseToKey_nest_witness : traverseToKey (nest ["db"; "password"] (AString "pw")) "db.password" = AString "pw".
Proof. apply (traverseToKey_nest ["db"; "password"]); [done|]. repeat constructor. Defined.

(** What a poll of the secret's metadata reads. *)
Definition polled (r : res (option Secret)) : option versionMetadata :=
  match r with
  | Ok s => data ← s ≫= secret_Data; extractVersionMetadata data "updated_time" "current_version"
  | Err _ => None
  end.

(** The polling watcher stays silent exactly while every poll reads the
    original version, and sends at most one notification. *)
Theorem pollLoop_detects path original ticks :
  (pollLoop path original (map PollTick ticks) = [] ↔ Forall (λ r, polled r = Some original) ticks) ∧
  length (pollLoop path original (map PollTick ticks)) ≤ 1.
Proof.
  induction ticks as [|[s|e] ticks [IH1 IH2]]; simpl; [by split; [split|lia]| |].
  - rewrite Forall_cons. unfold polled at 1. destruct (s ≫= secret_Data) as [data|]; simpl;
      [|split; [naive_solver|lia]].
    destruct (extractVersionMetadata data _ _) as [latest|]; [|split; [naive_solver|simpl; lia]].
    destruct original as [t n], latest as [t' n']; simpl in *.
    repeat case_bool_decide; simpl; (split; [|lia]); rewrite ?IH1; naive_solver.
  - rewrite Forall_cons. split; [naive_solver|lia].
Qed.

(** The include source never watches a file twice, and a file whose watch was
    closed is not watched again by the same instance. *)
Theorem watchFile_once NewWatcher Add ics file ics' :
  watchFile NewWatcher Add ics file = (ics', Ok (Some file)) →
  file ∈ watchList ics' ∧
  watchFile NewWatcher Add ics' file = (ics', Ok None) ∧
  let closed := (closeWatched ics' file).1 in
  file ∉ watchList closed ∧ watchFile NewWatcher Add closed file = (closed, Ok None).
Proof.
  unfold watchFile at 1. case_decide; [done|].
  destruct (if watcherMade ics then Ok () else NewWatcher); [|done].
  destruct (Add file); [|done]. intros [= <-]. simpl. unfold watchFile; simpl.
  rewrite !decide_True by set_solver. set_solver.
Qed.

Lemma watchFile_once_witness :
  let ics := {| DeleteFiles := false; WatchFiles := true; watcherMade := false; watchedFiles := ∅; watchList := ∅ |} in
  ∃ ics', watchFile (Ok ()) (λ _, Ok ()) ics "a.yaml" = (ics', Ok (Some "a.yaml")) ∧ "a.yaml" ∈ watchList ics'.
Proof.
  eexists. split; [reflexivity|].
  apply (watchFile_once (Ok ()) (λ _, Ok ())
    {| DeleteFiles := false; WatchFiles := true; watcherMade := false; watchedFiles := ∅; watchList := ∅ |} "a.yaml").
  reflexivity.
Defined.

(** A Vault source is created only with a non-empty endpoint and path, a
    positive poll interval and exactly one authentication method. *)
Theorem vault_CreateConfigSource_validated ParseRequestURI NewClient IAM GCP cfg v :
  vault_CreateConfigSource ParseRequestURI NewClient IAM GCP cfg = Ok v →
  Endpoint cfg ≠ "" ∧ Path cfg ≠ "" ∧ (0 < PollInterval cfg)%Z ∧ vault_secret v = None ∧
  vault_path v = Path cfg ∧ ∃ auth, Auth cfg = Some auth ∧ validateAuth (Some auth) = Ok ().
Proof.
  unfold vault_CreateConfigSource. case_decide; [done|].
  intros (u & _ & Hv)%bind_ok_inv. case_decide; [done|].
  apply bind_ok_inv in Hv as ([] & Ha & Hv). case_bool_decide; [done|].
  destruct (Auth cfg) as [auth|]; [|done]. unfold newVaultConfigSource in Hv.
  apply bind_ok_inv in Hv as (? & _ & (? & _ & Hv)%bind_ok_inv).
  case_bool_decide; [done|]. simplify_eq. split_and!; [done|done|lia|done|done|]. eauto.
Qed.

Lemma vault_CreateConfigSource_validated_witness :
  let cfg := {| Endpoint := "http://v"; Path := "secret/data/kv"; PollInterval := 60;
                Auth := Some {| auth_Token := Some "t"; auth_IAM := None; auth_GCP := None |} |} in
  Endpoint cfg ≠ "" ∧ (0 < PollInterval cfg)%Z.
Proof.
  intros cfg. edestruct (vault_CreateConfigSource_validated (λ _, Ok ()) (λ _, Ok ()) (λ _, Ok "") (λ _, Ok "") cfg)
    as (? & ? & ? & _); [vm_compute; reflexivity|]. split; assumption.
Defined.
