(* ===== verification/Converters.v ===== *)
(** * Configuration converters that move or drop keys

    Models of [src/internal/configconverter]: [LogLevelToVerbosity],
    [MoveHecTLS], [MoveOTLPInsecureKey], [RemoveBallastKey], [RenameK8sTagger],
    [NormalizeGcp] and the overwrite-properties converter.  A converter gets a
    [*confmap.Conf] ([None] is the nil pointer) and replaces what it points to;
    log messages are not modelled.  Each loop over [in.AllKeys()] is a fold over
    the keys, storing in a fresh [map[string]any]. *)

From S2P Require Import Prelude GoStrings GoValue Confmap Regexp.
From Stdlib Require Import Ascii.

(** ** Keys and expressions *)

(* "exporters::logging(/.+)?::loglevel" *)
Definition loglevelRe : regexp :=
  RCat (RLit "exporters::logging")
    (RCat (ROpt (RGroup 1 (RCat (RLit "/") (RPlus (RChar any_byte))))) (RLit "::loglevel")).

(** The four deprecated TLS settings. *)
Definition hecFields : regexp :=
  RAlt (RLit "insecure_skip_verify") (RAlt (RLit "ca_file") (RAlt (RLit "cert_file") (RLit "key_file"))).

(* "exporters::splunk_hec(/\\w+)?::(insecure_skip_verify|ca_file|cert_file|key_file)" *)
Definition hecTLSRe : regexp := RComponent "exporters::splunk_hec" (RGroup 2 hecFields).

(* "exporters::otlp(/\\w+)?::insecure" *)
Definition insecureRE : regexp := RComponent "exporters::otlp" (RLit "insecure").

(* "processors::memory_limiter(/\\w+)?::ballast_size_mib" *)
Definition ballastKeyRegexp : regexp := RComponent "processors::memory_limiter" (RLit "ballast_size_mib").

(* "k8s_tagger(/\\w+:{0,2})?" *)
Definition taggerSuffix : regexp :=
  ROpt (RGroup 1 (RCat (RLit "/") (RCat (RPlus (RChar word_byte))
    (ROpt (RCat (RLit ":") (ROpt (RLit ":"))))))).
Definition taggerRe : regexp := RCat (RLit "k8s_tagger") taggerSuffix.

(* "processors::k8s_tagger(/\\w+:{0,2})?(.+)?" *)
Definition k8sTaggerKeyRe : regexp :=
  RCat (RLit "processors::k8s_tagger") (RCat taggerSuffix (ROpt (RGroup 2 (RPlus (RChar any_byte))))).

(* "service(.+)processors" *)
Definition serviceEntryRe : regexp :=
  RCat (RLit "service") (RCat (RGroup 1 (RPlus (RChar any_byte))) (RLit "processors")).

(* "processors::resourcedetection(?P<processor_name>/(?:[^:]|:[^:])+)?::detectors" *)
Definition resourceDetectorRE : regexp :=
  RCat (RLit "processors::resourcedetection")
    (RCat (ROpt (RGroup 1 (RCat (RLit "/")
        (RPlus (RAlt (RChar (not_byte ":")) (RCat (RLit ":") (RChar (not_byte ":"))))))))
      (RLit "::detectors")).

(** ** The converters *)

(** [zapcore.Level] and [configtelemetry.Level] (third-party) *)
Inductive zapLevel := DebugLevel | InfoLevel | WarnLevel | ErrorLevel | DPanicLevel | PanicLevel | FatalLevel
  | InvalidLevel (n : Z).
Inductive telemetryLevel := LevelNone | LevelBasic | LevelNormal | LevelDetailed.

Class Levels := {
  UnmarshalText : string → option zapLevel;
  LevelString : telemetryLevel → string;
}.

Definition mapLevel (level : zapLevel) : res telemetryLevel :=
  match level with
  | DebugLevel => Ok LevelDetailed
  | InfoLevel => Ok LevelNormal
  | WarnLevel | ErrorLevel | DPanicLevel | PanicLevel | FatalLevel => Ok LevelBasic
  | InvalidLevel n => Err (Errorf "log level %q is not supported" [pretty n])
  end.

(** [v.(string)] without the second result *)
Definition assertString (v : any) : res string :=
  match v with AString s => Ok s | _ => Err (Errorf "panic: interface conversion: interface {} is not string" []) end.

Section converters.
Context {C : Confmap}.

Definition nilConf (name : string) : error := Errorf "cannot %s on nil *confmap.Conf" [name].

(** One iteration of the [LogLevelToVerbosity] loop: the entry stored in [out]. *)
Definition loglevelEntry `{Levels} (c : conf) (k : string) : res (option (string * any)) :=
  let v := Get c k in
  match FindStringSubmatch loglevelRe k with
  | None => Ok (Some (k, v))
  | Some (_, m) =>
      let verbosityKey := "exporters::logging" +:+ group m 1 +:+ "::verbosity" in
      if is_nil (Get c verbosityKey) then
        match assertString v with
        | Err e => Err e
        | Ok text =>
            match UnmarshalText text with
            | None => Ok (Some (k, v))
            | Some l =>
                match mapLevel l with
                | Err _ => Ok (Some (k, v))
                | Ok verbosityLevel => Ok (Some (verbosityKey, AString (LevelString verbosityLevel)))
                end
            end
        end
      else Ok None
  end.

Definition store (out : gmap string any) (e : option (string * any)) : gmap string any :=
  match e with Some (k, v) => <[k := v]> out | None => out end.

Definition LogLevelToVerbosity_Convert `{Levels} (inp : option conf) : res (option conf) :=
  match inp with
  | None => Err (nilConf "LogLevelToVerbosity")
  | Some c =>
      match foldM_res (λ out k, store out <$> loglevelEntry c k) ∅ (AllKeys c) with
      | Err e => Err e
      | Ok out => Ok (Some (NewFromStringMap out))
      end
  end.

(** The key under which [MoveHecTLS] stores the value of [k]. *)
Definition hecTarget (k : string) : string :=
  match FindStringSubmatch hecTLSRe k with
  | None => k
  | Some (_, m) => "exporters::splunk_hec" +:+ group m 1 +:+ "::tls::" +:+ group m 2
  end.

Definition insecureTarget (k : string) : string :=
  match FindStringSubmatch insecureRE k with
  | None => k
  | Some (_, m) => "exporters::otlp" +:+ group m 1 +:+ "::tls::insecure"
  end.

Definition moveKeys (target : string → string) (c : conf) : gmap string any :=
  foldl (λ out k, <[target k := Get c k]> out) ∅ (AllKeys c).

Definition MoveHecTLS_Convert (inp : option conf) : res (option conf) :=
  match inp with
  | None => Err (nilConf "MoveHecTLS")
  | Some c => Ok (Some (NewFromStringMap (moveKeys hecTarget c)))
  end.

Definition MoveOTLPInsecureKey_Convert (inp : option conf) : res (option conf) :=
  match inp with
  | None => Err (nilConf "MoveOTLPInsecureKey")
  | Some c => Ok (Some (NewFromStringMap (moveKeys insecureTarget c)))
  end.

Definition ballastOut (c : conf) : gmap string any :=
  foldl (λ out k, if MatchString ballastKeyRegexp k then out else <[k := Get c k]> out) ∅ (AllKeys c).

Definition RemoveBallastKey_Convert (inp : option conf) : res (option conf) :=
  match inp with
  | None => Err (nilConf "RemoveBallastKey")
  | Some c => Ok (Some (NewFromStringMap (ballastOut c)))
  end.

(** A pipeline entry of [RenameK8sTagger]. *)
Definition renameEntry (v : any) : any :=
  match v with
  | AString s =>
      match FindStringSubmatch taggerRe s with
      | Some (_, m) => AString ("k8sattributes" +:+ group m 1)
      | None => v
      end
  | _ => v
  end.

Definition taggerKey (k : string) : option string :=
  match FindStringSubmatch k8sTaggerKeyRe k with
  | Some (_, m) => Some ("processors::k8sattributes" +:+ group m 1 +:+ group m 2)
  | None => None
  end.

Definition taggerEntry (c : conf) (k : string) : string * any :=
  let v := Get c k in
  match taggerKey k with
  | Some k' => (k', v)
  | None =>
      if MatchString serviceEntryRe k then
        match v with ASlice l => (k, ASlice (map renameEntry l)) | _ => (k, v) end
      else (k, v)
  end.

Definition taggerOut (c : conf) : gmap string any :=
  foldl (λ out k, store out (Some (taggerEntry c k))) ∅ (AllKeys c).

Definition RenameK8sTagger_Convert (inp : option conf) : res (option conf) :=
  match inp with
  | None => Err (nilConf "RenameK8sTagger")
  | Some c => Ok (Some (NewFromStringMap (taggerOut c)))
  end.

(** The inner loop of [NormalizeGcp] over the detectors. *)
Definition is_gce_gke (v : any) : bool :=
  match v with AString s => bool_decide (s = "gce" ∨ s = "gke") | _ => false end.

Fixpoint normalizeDetectors (found : bool) (vArr : list any) : list any :=
  match vArr with
  | [] => []
  | item :: vArr =>
      if is_gce_gke item then
        if found then normalizeDetectors true vArr else AString "gcp" :: normalizeDetectors true vArr
      else if is_nil item then normalizeDetectors found vArr
      else item :: normalizeDetectors found vArr
  end.

(** The value stored in [out] for the key [k], if any. *)
Definition gcpEntry (c : conf) (k : string) : option any :=
  match FindStringSubmatch resourceDetectorRE k with
  | None => None
  | Some _ =>
      match Get c k with
      | ASlice vArr => Some (ASlice (normalizeDetectors false vArr))
      | _ => None
      end
  end.

Definition gcpOut (c : conf) : gmap string any :=
  foldl (λ out k, store out (pair k <$> gcpEntry c k)) ∅ (AllKeys c).

Definition NormalizeGcp_Convert (inp : option conf) : res (option conf) :=
  match inp with
  | None => Ok None
  | Some c => Ok (Some (Merge c (NewFromStringMap (gcpOut c))).1)
  end.

(** [overwrite_properties.go]: [properties.Load] gives the keys with their raw
    values in order; [yaml.Unmarshal] and [maps.Unflatten] are parameters. *)
Section overwrite.
Variable loadProperties : string → res (list (string * string)).
Variable yamlUnmarshal : string → res any.
Variable Unflatten : gmap string any → string → gmap string any.

Definition parseProperty (parsed : gmap string any) (kv : string * string) : res (gmap string any) :=
  match yamlUnmarshal kv.2 with
  | Err e => Err (Wrapf "error unmarshalling %q value: %w" [kv.1] e)
  | Ok value => Ok (<[kv.1 := value]> parsed)
  end.

Definition propertiesText (properties : list string) : string :=
  foldl (λ b property, b +:+ TrimSpace property +:+ String "010" "") "" properties.

Definition overwriteProperties_Convert (properties : list string) (c : conf) : conf * option error :=
  match properties with
  | [] => (c, None)
  | _ =>
      match loadProperties (propertiesText properties) with
      | Err e => (c, Some e)
      | Ok props =>
          match foldM_res parseProperty ∅ props with
          | Err e => (c, Some e)
          | Ok parsed => Merge c (NewFromStringMap (Unflatten parsed "."))
          end
      end
  end.
End overwrite.
End converters.

(** ** Renaming keys *)

Lemma moveKeys_fold {W} (t : string → string) (g : string → W) (l : list string) (m0 : gmap string W) k' v :
  (∀ k1 k2, k1 ∈ l → k2 ∈ l → t k1 = t k2 → k1 = k2) →
  foldl (λ m k, <[t k := g k]> m) m0 l !! k' = Some v ↔
  (∃ k, k ∈ l ∧ t k = k' ∧ g k = v) ∨ (m0 !! k' = Some v ∧ ∀ k, k ∈ l → t k ≠ k').
Proof.
  revert m0; induction l as [|x l IH]; intros m0 Hinj; cbn [foldl].
  { split; [intros ?; right; split; [done | set_solver] | set_solver]. }
  rewrite IH by (intros ?????; apply Hinj; set_solver). rewrite lookup_insert_Some. split.
  - intros [(k & ? & ? & ?) | [[[<- <-]|[? ?]] Hl]]; [left; exists k; set_solver|left; exists x; set_solver|].
    right. split; [done|]. set_solver.
  - intros [(k & [->|Hk]%elem_of_cons & <- & <-) | [? Hl]].
    + destruct (decide (x ∈ l)) as [Hx|Hx]; [left; eauto|]. right. split; [by left|].
      intros k Hk He. apply Hx. assert (k = x) as <- by (apply Hinj; set_solver). done.
    + left; eauto.
    + right. split; [|set_solver]. right. split; [apply Hl; set_solver | done].
Qed.

Section renaming.
Context {C : Confmap} {L : ConfmapLaws C}.

(** Two keys of [c] never compete for one target. *)
Definition no_clash (target : string → string) (c : conf) : Prop :=
  ∀ k1 k2, k1 ∈ AllKeys c → k2 ∈ AllKeys c → target k1 = target k2 → k1 = k2.

Lemma moveKeys_leaves target c k' v :
  no_clash target c → flat (moveKeys target c) →
  leaves (NewFromStringMap (moveKeys target c)) !! k' = Some v ↔ ∃ k, leaves c !! k = Some v ∧ target k = k'.
Proof.
  intros Hc Hf. rewrite (leaves_New _ Hf). unfold moveKeys. rewrite moveKeys_fold by done.
  setoid_rewrite lookup_leaves. split.
  - intros [(k & ? & ? & ?)|[Hn _]]; [eauto 10|]. by rewrite lookup_empty in Hn.
  - intros (k & [? ?] & ?). left. eauto.
Qed.
End renaming.

Definition tlsFields : list string := ["insecure_skip_verify"; "ca_file"; "cert_file"; "key_file"].

Lemma hecFields_derives c w c' : derives hecFields c w c' ↔ w ∈ tlsFields ∧ c' = c.
Proof.
  unfold hecFields, tlsFields. rewrite !derives_RAlt, !derives_RLit_iff, !elem_of_cons, elem_of_nil. naive_solver.
Qed.

(** None of the four names is a prefix of another. *)
Lemma tlsFields_prefix w w' x y : w ∈ tlsFields → w' ∈ tlsFields → w +:+ x = w' +:+ y → w = w'.
Proof.
  unfold tlsFields. rewrite !elem_of_cons, !elem_of_nil.
  intros [-> | [-> | [-> | [-> | []]]]] [-> | [-> | [-> | [-> | []]]]]; try done.
Qed.

Lemma hecTarget_field n f x :
  instance_name n → f ∈ tlsFields →
  hecTarget ("exporters::splunk_hec" +:+ n +:+ "::" +:+ f +:+ x) =
  "exporters::splunk_hec" +:+ n +:+ "::tls::" +:+ f.
Proof.
  intros Hn Hf. unfold hecTarget, hecTLSRe.
  destruct (RComponent_find "exporters::splunk_hec" (RGroup 2 hecFields) n f x Hn) as (m0 & c0 & c1 & w & y & -> & Hc & Hd & Heq).
  { intros c. eexists. constructor. by apply hecFields_derives. }
  apply derives_RGroup in Hd as (c' & [Hw ->]%hecFields_derives & ->).
  rewrite (tlsFields_prefix f w x y) by done. by destruct Hc as [[-> ->] | ->].
Qed.

Lemma insecureTarget_field n x :
  instance_name n →
  insecureTarget ("exporters::otlp" +:+ n +:+ "::" +:+ "insecure" +:+ x) =
  "exporters::otlp" +:+ n +:+ "::tls::insecure".
Proof.
  intros Hn. unfold insecureTarget, insecureRE.
  destruct (RComponent_find "exporters::otlp" (RLit "insecure") n "insecure" x Hn) as (m0 & c0 & c1 & w & y & -> & Hc & Hd & Heq).
  { intros c. eexists. apply derives_RLit. }
  apply derives_RLit_inv in Hd as [_ ->]. by destruct Hc as [[-> ->] | ->].
Qed.

Section move_theorems.
Context {C : Confmap} {L : ConfmapLaws C}.

(** [MoveHecTLS] keeps every setting of the configuration, moves the four
    deprecated TLS settings of every [splunk_hec] exporter, named or not, under
    [tls], and leaves the keys its expression does not match where they are,
    provided no setting is given in both places. *)
Theorem MoveHecTLS_correct (c : conf) :
  no_clash hecTarget c → flat (moveKeys hecTarget c) →
  ∃ c', MoveHecTLS_Convert (Some c) = Ok (Some c') ∧
    (∀ k' v, leaves c' !! k' = Some v ↔ ∃ k, leaves c !! k = Some v ∧ hecTarget k = k') ∧
    (∀ n f v, instance_name n → f ∈ tlsFields →
      leaves c !! ("exporters::splunk_hec" +:+ n +:+ "::" +:+ f) = Some v →
      leaves c' !! ("exporters::splunk_hec" +:+ n +:+ "::tls::" +:+ f) = Some v) ∧
    (∀ k v, MatchString hecTLSRe k = false → leaves c !! k = Some v → leaves c' !! k = Some v).
Proof.
  intros Hc Hf. eexists. split; [done|]. setoid_rewrite (moveKeys_leaves hecTarget c _ _ Hc Hf).
  split_and!; [done| |].
  - intros n f v Hn Hf' Hv. eexists. split; [exact Hv|]. rewrite <-(append_nil_r f) at 1.
    by apply hecTarget_field.
  - intros k v Hm Hv. exists k. split; [done|]. unfold hecTarget, MatchString in *. by case_match.
Qed.

(** [MoveOTLPInsecureKey] moves every key of an [otlp] exporter that merely
    starts with [insecure], such as [insecure_skip_verify], to [tls::insecure]. *)
Theorem MoveOTLPInsecureKey_prefix (c : conf) :
  no_clash insecureTarget c → flat (moveKeys insecureTarget c) →
  ∃ c', MoveOTLPInsecureKey_Convert (Some c) = Ok (Some c') ∧
    (∀ n x v, instance_name n →
      leaves c !! ("exporters::otlp" +:+ n +:+ "::insecure" +:+ x) = Some v →
      leaves c' !! ("exporters::otlp" +:+ n +:+ "::tls::insecure") = Some v) ∧
    (∀ k v, MatchString insecureRE k = false → leaves c !! k = Some v → leaves c' !! k = Some v).
Proof.
  intros Hc Hf. eexists. split; [done|]. setoid_rewrite (moveKeys_leaves insecureTarget c _ _ Hc Hf). split.
  - intros n x v Hn Hv. eexists. split; [exact Hv|]. by apply (insecureTarget_field n x).
  - intros k v Hm Hv. exists k. split; [done|]. unfold insecureTarget, MatchString in *. by case_match.
Qed.

Lemma flat_subset m m' : flat m → m' ⊆ m → flat m'.
Proof.
  intros [H1 H2] Hs. assert (dom m' ⊆ dom m) by by apply subseteq_dom.
  split; [set_solver|]. intros k v Hk. eapply H2. by eapply lookup_weaken.
Qed.

Lemma ballastOut_lookup c k v :
  ballastOut c !! k = Some v ↔ leaves c !! k = Some v ∧ MatchString ballastKeyRegexp k = false.
Proof.
  unfold ballastOut. rewrite (foldl_keys_lookup (MatchString ballastKeyRegexp) (Get c)), lookup_leaves.
  case_decide as Hd; [|rewrite lookup_empty]; naive_solver.
Qed.

(** [RemoveBallastKey] drops exactly the leaves whose path holds
    [processors::memory_limiter], an optional instance name and
    [::ballast_size_mib], and keeps every other leaf. *)
Theorem RemoveBallastKey_correct (c : conf) :
  flat (leaves c) →
  ∃ c', RemoveBallastKey_Convert (Some c) = Ok (Some c') ∧
    ∀ k v, leaves c' !! k = Some v ↔
      leaves c !! k = Some v ∧
      ¬ ∃ pre n post, instance_name n ∧
          k = pre +:+ "processors::memory_limiter" +:+ n +:+ "::ballast_size_mib" +:+ post.
Proof.
  intros Hf. eexists. split; [done|]. intros k v. rewrite leaves_New, ballastOut_lookup.
  2:{ eapply flat_subset; [done|]. apply map_subseteq_spec. intros ?? Hk. by apply ballastOut_lookup in Hk as []. }
  rewrite <-not_true_iff_false, MatchString_spec. do 2 f_equiv. split.
  - intros (pre & w & post & c0 & -> & Hd).
    apply derives_RCat in Hd as (? & w1 & ? & -> & [-> ->]%derives_RLit_iff & Hd).
    apply derives_RCat in Hd as (n & w2 & c1 & -> & [Hn _]%derives_RName_inv & Hd).
    apply derives_RCat in Hd as (? & w' & ? & -> & [-> ->]%derives_RLit_iff & [-> ->]%derives_RLit_iff).
    exists pre, n, post. by rewrite !append_assoc.
  - intros (pre & n & post & Hn & ->). destruct (derives_RName 1 [] n Hn) as (c1 & Hd & _).
    exists pre, ("processors::memory_limiter" +:+ n +:+ "::" +:+ "ballast_size_mib"), post, c1.
    split; [by rewrite !append_assoc|]. repeat (econstructor; [first [apply derives_RLit | exact Hd]|]).
    apply derives_RLit.
Qed.
End move_theorems.

(** ** [RenameK8sTagger] *)

Lemma taggerSuffix_inv c w c' : derives taggerSuffix c w c' → c' = c ∧ w = "" ∨ c' = (1, w) :: c.
Proof.
  unfold taggerSuffix, ROpt at 1. rewrite derives_RAlt, derives_RGroup. intros [(c1 & Hd & ->)|Hd].
  - apply derives_groupless in Hd as ->; [by right | done].
  - inversion Hd; subst. by left.
Qed.

Lemma taggerKey_renames rest :
  sall any_byte rest →
  taggerKey ("processors::k8s_tagger" +:+ rest) = Some ("processors::k8sattributes" +:+ rest).
Proof.
  intros Hs. unfold taggerKey.
  assert (∃ m0 c0, match_here k8sTaggerKeyRe ("processors::k8s_tagger" +:+ rest) = Some (m0, c0) ∧
            group c0 1 +:+ group c0 2 = rest) as (m0 & c0 & Hh & Hg).
  { unfold match_here, k8sTaggerKeyRe. generalize ("processors::k8s_tagger" +:+ rest) at 2 3. intros s0.
    set (k := λ s' c, Some (stake (slen s0 - slen s') s0, c)).
    change (rmatch (RCat ?r1 ?r2)) with (λ s c k, rmatch r1 s c (λ s' c', rmatch r2 s' c' k)).
    cbv beta. rewrite rmatch_RLit.
    assert (is_Some (rmatch (RCat taggerSuffix (ROpt (RGroup 2 (RPlus (RChar any_byte))))) rest [] k)) as [x Hx].
    { rewrite <-(append_nil_l rest). eapply rmatch_complete; [|by eexists].
      apply derives_RCat. exists "", "", []. split; [done|]. split; apply derives_alt_r; constructor. }
    cbn [rmatch] in Hx |- *. rewrite Hx. apply rmatch_sound in Hx as (w & s' & c' & -> & Hd & Hx).
    apply taggerSuffix_inv in Hd. destruct s' as [|a s'].
    - cbn in Hx. injection Hx as <-. exists (stake (slen s0 - 0) s0), c'. split; [done|].
      destruct Hd as [[-> ->]| ->]; cbn [group Nat.eqb]; by rewrite ?append_nil_r.
    - rewrite (greedy_rest any_byte 2 (String a s') c' k (stake (slen s0 - 0) s0, (2, String a s') :: c')) in Hx; [| |done|done].
      + injection Hx as <-. eexists _, _. split; [done|]. by destruct Hd as [[-> ->]| ->].
      + intros i b Hb. apply (Hs (slen w + i)). by rewrite sget_append_r. }
  rewrite (FindStringSubmatch_here _ _ _ Hh). by rewrite Hg.
Qed.

(** The entries of the pipelines: a tagger entry keeps its instance name. *)
Lemma renameEntry_tagger n :
  instance_name n → renameEntry (AString ("k8s_tagger" +:+ n)) = AString ("k8sattributes" +:+ n).
Proof.
  intros Hn. unfold renameEntry.
  assert (∃ m0 c0, match_here taggerRe ("k8s_tagger" +:+ n) = Some (m0, c0) ∧ group c0 1 = n) as (m0 & c0 & Hh & Hg).
  { unfold match_here. generalize ("k8s_tagger" +:+ n) at 2 3. intros s0.
    set (k := λ s' c, Some (stake (slen s0 - slen s') s0, c)).
    change (rmatch taggerRe ("k8s_tagger" +:+ n) [] k) with
      (rmatch (RLit "k8s_tagger") ("k8s_tagger" +:+ n) [] (λ s c, rmatch taggerSuffix s c k)).
    rewrite rmatch_RLit. destruct Hn as [-> | (w & -> & Hw & Hs)]; [by eexists _, _|].
    destruct w as [|a w]; [done|]. apply sall_cons in Hs as [Ha Hs].
    exists (stake (slen s0 - 0) s0), [(1, "/" +:+ String a w)]. split; [|done].
    change (rmatch taggerSuffix ("/" +:+ String a w) [] k) with
      (match (if word_byte a then star_loop (rmatch (RChar word_byte)) (slen w) w []
                (λ s' c', rmatch (ROpt (RCat (RLit ":") (ROpt (RLit ":")))) s' c'
                   (λ s' c', k s' ((1, stake (S (S (slen w)) - slen s') ("/" +:+ String a w)) :: c'))) else None) with
       | Some x => Some x | None => k ("/" +:+ String a w) [] end).
    rewrite Ha. erewrite (star_greedy word_byte w); [done|done|].
    cbn [rmatch ROpt RLit]. rewrite Nat.sub_0_r, stake_all by done. done. }
  rewrite (FindStringSubmatch_here _ _ _ Hh). by rewrite Hg.
Qed.

(** ** Detectors *)

Definition kept (v : any) : bool := negb (is_gce_gke v) && negb (is_nil v).

Lemma normalizeDetectors_found l : normalizeDetectors true l = List.filter kept l.
Proof. induction l as [|x l IH]; simpl; [done|]. unfold kept at 1. rewrite IH. by destruct (is_gce_gke x), (is_nil x). Qed.

Lemma normalizeDetectors_none l :
  existsb is_gce_gke l = false → normalizeDetectors false l = List.filter kept l.
Proof.
  induction l as [|x l IH]; simpl; [done|]. intros [Hx Hl]%orb_false_iff. unfold kept at 1. rewrite Hx, (IH Hl). simpl.
  by destruct (is_nil x).
Qed.

Lemma normalizeDetectors_first l1 x l2 :
  existsb is_gce_gke l1 = false → is_gce_gke x = true →
  normalizeDetectors false (l1 ++ x :: l2) = List.filter kept l1 ++ AString "gcp" :: List.filter kept l2.
Proof.
  intros H1 Hx. induction l1 as [|y l1 IH]; simpl in *.
  - by rewrite Hx, normalizeDetectors_found.
  - apply orb_false_iff in H1 as [Hy Hl]. unfold kept at 1. rewrite Hy, (IH Hl). simpl. by destruct (is_nil y).
Qed.

Lemma normalizeDetectors_clean found l : forallb kept (normalizeDetectors found l) = true.
Proof.
  revert found; induction l as [|x l IH]; intros found; simpl; [done|].
  destruct (is_gce_gke x) eqn:Hx; [by destruct found; simpl; rewrite IH|].
  destruct (is_nil x) eqn:Hn; [done|]. simpl. unfold kept at 1. by rewrite Hx, Hn, IH.
Qed.

Lemma filter_all {A} (f : A → bool) l : forallb f l = true → List.filter f l = l.
Proof. induction l as [|x l IH]; simpl; [done|]. intros [-> ?]%andb_true_iff. by rewrite IH. Qed.

Lemma normalizeDetectors_idem l :
  normalizeDetectors false (normalizeDetectors false l) = normalizeDetectors false l.
Proof.
  pose proof (normalizeDetectors_clean false l) as Hc. rewrite normalizeDetectors_none.
  - by apply filter_all.
  - apply not_true_iff_false. rewrite existsb_elem. intros (x & Hx & Hg). rewrite forallb_elem in Hc.
    specialize (Hc x Hx). unfold kept in Hc. by rewrite Hg in Hc.
Qed.

(** The detectors list under a detectors key, and any other value, converted. *)
Definition gcpValue (k : string) (v : any) : any :=
  match v with
  | ASlice l => if MatchString resourceDetectorRE k then ASlice (normalizeDetectors false l) else v
  | _ => v
  end.

Section tagger_theorems.
Context {C : Confmap} {L : ConfmapLaws C}.

Lemma foldl_store_Some (f : string → string * any) l m0 :
  foldl (λ out k, store out (Some (f k))) m0 l = foldl (λ m k, <[(f k).1 := (f k).2]> m) m0 l.
Proof. revert m0; induction l as [|x l IH]; intros m0; simpl; [done|]. rewrite <-IH. by destruct (f x). Qed.

(** [RenameK8sTagger] moves every [processors::k8s_tagger...] setting under
    [processors::k8sattributes...], renames the tagger entries of the service
    pipelines keeping their instance names, and keeps every other setting. *)
Theorem RenameK8sTagger_correct (c : conf) :
  no_clash (λ k, (taggerEntry c k).1) c → flat (taggerOut c) →
  ∃ c', RenameK8sTagger_Convert (Some c) = Ok (Some c') ∧
    (∀ rest v, sall any_byte rest → leaves c !! ("processors::k8s_tagger" +:+ rest) = Some v →
      leaves c' !! ("processors::k8sattributes" +:+ rest) = Some v) ∧
    (∀ k l i n, taggerKey k = None → MatchString serviceEntryRe k = true → instance_name n →
      leaves c !! k = Some (ASlice l) → l !! i = Some (AString ("k8s_tagger" +:+ n)) →
      ∃ l', leaves c' !! k = Some (ASlice l') ∧ length l' = length l ∧
        l' !! i = Some (AString ("k8sattributes" +:+ n))) ∧
    (∀ k v, taggerKey k = None → MatchString serviceEntryRe k = false →
      leaves c !! k = Some v → leaves c' !! k = Some v).
Proof.
  intros Hc Hf. eexists. split; [done|]. rewrite (leaves_New _ Hf). unfold taggerOut. rewrite foldl_store_Some.
  assert (Hout : ∀ k k' v, k ∈ AllKeys c → taggerEntry c k = (k', v) →
    foldl (λ m k, <[(taggerEntry c k).1 := (taggerEntry c k).2]> m) (∅ : gmap string any) (AllKeys c) !! k' = Some v).
  { intros k k' v Hk He. apply moveKeys_fold; [exact Hc|]. left. exists k. by rewrite He. }
  split_and!.
  - intros rest v Hr [Hk Hv]%lookup_leaves. eapply Hout; [done|]. unfold taggerEntry.
    by rewrite taggerKey_renames, Hv.
  - intros k l i n Ht Hm Hn [Hk Hv]%lookup_leaves Hi. exists (map renameEntry l). split_and!.
    + eapply Hout; [done|]. unfold taggerEntry. by rewrite Ht, Hm, Hv.
    + apply length_map.
    + rewrite list_lookup_fmap, Hi. simpl. by rewrite <-(renameEntry_tagger n Hn).
  - intros k v Ht Hm [Hk Hv]%lookup_leaves. eapply Hout; [done|]. unfold taggerEntry. by rewrite Ht, Hm, Hv.
Qed.

Lemma gcpOut_lookup c k v : gcpOut c !! k = Some v ↔ k ∈ AllKeys c ∧ gcpEntry c k = Some v.
Proof.
  unfold gcpOut.
  assert (Hf : ∀ l m0, foldl (λ out k, store out (pair k <$> gcpEntry c k)) m0 l =
     foldl (λ m k, if bool_decide (gcpEntry c k = None) then m else <[k := default ANil (gcpEntry c k)]> m) m0 l).
  { intros l; induction l as [|x l IH]; intros m0; simpl; [done|]. rewrite <-IH.
    by destruct (gcpEntry c x). }
  rewrite Hf, (foldl_keys_lookup (λ k, bool_decide (gcpEntry c k = None)) (λ k, default ANil (gcpEntry c k))).
  case_decide as Hd; rewrite bool_decide_eq_false in Hd; [|rewrite lookup_empty].
  - destruct Hd. destruct (gcpEntry c k); naive_solver.
  - split; [done|]. intros [? He]. rewrite He in Hd. naive_solver.
Qed.
End tagger_theorems.

Section value_theorems.
Context {C : Confmap} {L : ConfmapLaws C}.

Lemma gcpEntry_value c k v : gcpEntry c k = Some v → v = gcpValue k (Get c k).
Proof. unfold gcpEntry, gcpValue, MatchString. go_cases. done. Qed.

(** [NormalizeGcp] changes the detectors lists of the resource detection
    processors only: the first [gce] or [gke] entry becomes [gcp], the others
    and the nil entries go, everything else keeps its place; and converting
    twice is converting once. *)
Theorem NormalizeGcp_correct (c : conf) :
  flat (leaves c) →
  ∃ c', NormalizeGcp_Convert (Some c) = Ok (Some c') ∧
    (∀ k, leaves c' !! k = gcpValue k <$> leaves c !! k) ∧
    (∀ k l1 x l2, MatchString resourceDetectorRE k = true →
      existsb is_gce_gke l1 = false → is_gce_gke x = true →
      leaves c !! k = Some (ASlice (l1 ++ x :: l2)) →
      leaves c' !! k = Some (ASlice (List.filter kept l1 ++ AString "gcp" :: List.filter kept l2))) ∧
    (∀ k v, gcpValue k (gcpValue k v) = gcpValue k v).
Proof.
  intros Hf. eexists. split; [done|].
  assert (Hout : ∀ k v, gcpOut c !! k = Some v → ∃ w, leaves c !! k = Some w ∧ as_map v = None).
  { intros k v [Hk He]%gcpOut_lookup. exists (Get c k). split; [by apply lookup_leaves|].
    apply gcpEntry_value in He as ->. destruct (as_map (gcpValue k (Get c k))) eqn:Hm; [|done].
    destruct Hf as [_ Hf]. rewrite <-(Hf k (Get c k)) by by apply lookup_leaves.
    unfold gcpValue in *. by destruct (Get c k); try destruct (MatchString _ _). }
  destruct (Merge_leaves c (gcpOut c)) as [_ Hm].
  { destruct Hf as [Hf _]. split; [|naive_solver]. intros k k'. rewrite !elem_of_dom. intros [v Hv] [v' Hv'].
    apply Hf; rewrite elem_of_dom; [destruct (Hout k v Hv) as (?&?&?) | destruct (Hout k' v' Hv') as (?&?&?)]; eauto. }
  { intros k [v [Hk _]%gcpOut_lookup]%elem_of_dom. done. }
  assert (Hall : ∀ k, leaves (Merge c (NewFromStringMap (gcpOut c))).1 !! k = gcpValue k <$> leaves c !! k).
  { intros k. rewrite Hm, lookup_union. destruct (leaves c !! k) as [v|] eqn:Hv; simpl.
    - apply lookup_leaves in Hv as [Hk <-]. destruct (gcpEntry c k) as [w|] eqn:He.
      + rewrite (proj2 (gcpOut_lookup c k w)) by done. simpl. by rewrite <-(gcpEntry_value _ _ _ He).
      + assert (gcpOut c !! k = None) as ->.
        { apply eq_None_not_Some. intros [w [_ Hw]%gcpOut_lookup]. congruence. }
        simpl. f_equal. unfold gcpEntry, gcpValue, MatchString in *. by go_cases.
    - assert (gcpOut c !! k = None) as ->; [|done].
      apply eq_None_not_Some. intros [w Hw]. destruct (Hout k w Hw) as (?&?&?). congruence. }
  split_and!; [done| |].
  - intros k l1 x l2 Hk H1 Hx Hl. rewrite Hall, Hl. simpl. rewrite Hk. by rewrite normalizeDetectors_first.
  - intros k v. unfold gcpValue. destruct v; try done. destruct (MatchString resourceDetectorRE k) eqn:Hk; simpl; rewrite ?Hk; [|done].
    by rewrite normalizeDetectors_idem.
Qed.

(** The expression of [LogLevelToVerbosity] finds the instance name of a
    [loglevel] key. *)
Lemma loglevelRe_find n :
  n = "" ∨ (∃ w, n = "/" +:+ w ∧ w ≠ "" ∧ sall any_byte w) → ContainsByte n ":" = false →
  ∃ m0 c0, FindStringSubmatch loglevelRe ("exporters::logging" +:+ n +:+ "::loglevel") = Some (m0, c0) ∧ group c0 1 = n.
Proof.
  intros Hn Hcol.
  assert (Hd : ∃ c1, derives (ROpt (RGroup 1 (RCat (RLit "/") (RPlus (RChar any_byte))))) [] n c1).
  { destruct Hn as [-> | (w & -> & Hw & Hs)]; [eexists; apply derives_alt_r; constructor|].
    eexists. apply derives_alt_l. constructor. econstructor; [apply derives_RLit | by apply derives_plus_char]. }
  destruct Hd as [c1 Hd1].
  assert (Hd : derives loglevelRe [] ("exporters::logging" +:+ n +:+ "::loglevel") c1).
  { econstructor; [apply derives_RLit|]. econstructor; [done | apply derives_RLit]. }
  destruct (FindStringSubmatch_start _ _ "" _ Hd) as (m0 & c0 & post & Hf & Heq & Hd0). rewrite append_nil_r in Hf, Heq.
  exists m0, c0. split; [done|].
  apply derives_RCat in Hd0 as (? & w1 & ? & -> & [-> ->]%derives_RLit_iff & Hd0).
  apply derives_RCat in Hd0 as (n' & w2 & c1' & -> & Hd0 & [-> ->]%derives_RLit_iff).
  rewrite !append_assoc in Heq. apply append_inv_l in Heq.
  assert (n' = n) as ->.
  { pose proof (f_equal slen Heq) as Hlen. rewrite !slen_append in Hlen.
    assert (Hn' : n' = stake (slen n') n).
    { rewrite <-(stake_app n' ("::loglevel" +:+ post)) at 1. rewrite <-Heq. apply stake_app_le. simpl in Hlen. lia. }
    change ("::loglevel" +:+ post) with (String ":" (":loglevel" +:+ post)) in Heq.
    change "::loglevel" with (String ":" ":loglevel") in Heq.
    apply split_at_byte in Heq as [<- _]; [done|done|].
    rewrite Hn'. by apply ContainsByte_stake. }
  apply derives_RAlt in Hd0 as [Hd0|Hd0].
  - apply derives_RGroup in Hd0 as (c2 & Hd2 & ->). done.
  - by inversion Hd0; subst.
Qed.

(** For a [loglevel] setting of a [logging] exporter without a
    [verbosity], [LogLevelToVerbosity] stores the mapped verbosity, keeps the
    setting when the level is not readable, drops it when a verbosity is set,
    and panics on a level that is not a string. *)
Theorem loglevelEntry_correct `{Levels} (c : conf) n :
  n = "" ∨ (∃ w, n = "/" +:+ w ∧ w ≠ "" ∧ sall any_byte w) → ContainsByte n ":" = false →
  let k := "exporters::logging" +:+ n +:+ "::loglevel" in
  let verbosityKey := "exporters::logging" +:+ n +:+ "::verbosity" in
  loglevelEntry c k =
    if is_nil (Get c verbosityKey) then
      match Get c k with
      | AString text =>
          match UnmarshalText text with
          | None | Some (InvalidLevel _) => Ok (Some (k, AString text))
          | Some DebugLevel => Ok (Some (verbosityKey, AString (LevelString LevelDetailed)))
          | Some InfoLevel => Ok (Some (verbosityKey, AString (LevelString LevelNormal)))
          | Some _ => Ok (Some (verbosityKey, AString (LevelString LevelBasic)))
          end
      | _ => Err (Errorf "panic: interface conversion: interface {} is not string" [])
      end
    else Ok None.
Proof.
  intros Hn Hcol k verbosityKey. destruct (loglevelRe_find n Hn Hcol) as (m0 & c0 & Hf & Hg).
  unfold loglevelEntry. fold k in Hf. rewrite Hf, Hg. fold verbosityKey.
  destruct (is_nil (Get c verbosityKey)); [|done].
  destruct (Get c k) as [| | | |text| | | | | |]; try done. simpl.
  by destruct (UnmarshalText text) as [[]|].
Qed.
End value_theorems.

(** ** Concrete configurations *)

Definition clash_free (target : string → string) (keys : list string) : bool :=
  forallb (λ k1, forallb (λ k2, bool_decide (k1 = k2) || negb (bool_decide (target k1 = target k2))) keys) keys.

Lemma clash_free_no_clash {C : Confmap} target (c : conf) :
  clash_free target (AllKeys c) = true → no_clash target c.
Proof.
  unfold clash_free. rewrite forallb_elem. intros H k1 k2 H1 H2 He. specialize (H k1 H1).
  rewrite forallb_elem in H. specialize (H k2 H2). rewrite (bool_decide_eq_true_2 (target k1 = target k2)) in H by done.
  rewrite orb_false_r in H. by apply bool_decide_eq_true in H.
Qed.

Definition hec_conf : gmap string any :=
  {[ "exporters::splunk_hec/a::ca_file" := AString "f"; "exporters::splunk_hec/a::token" := AString "t" ]}.

(** The theorem applied to a named [splunk_hec] exporter. *)
Lemma MoveHecTLS_correct_witness :
  ∃ c', @MoveHecTLS_Convert flat_confmap (Some hec_conf) = Ok (Some c') ∧
    @leaves flat_confmap c' !! "exporters::splunk_hec/a::tls::ca_file" = Some (AString "f").
Proof.
  destruct (@MoveHecTLS_correct flat_confmap _ hec_conf) as (c' & Hc & _ & Hm & _).
  - apply clash_free_no_clash. by vm_compute.
  - apply flatb_flat. by vm_compute.
  - exists c'. split; [exact Hc|]. apply (Hm "/a" "ca_file").
    + right. exists "a". split_and!; [done|done|]. apply sall_cons. split; [done|]. by intros [] ?.
    + apply (bool_decide_unpack _). by vm_compute.
    + rewrite leaves_flat_confmap. by vm_compute.
Defined.

Definition otlp_conf : gmap string any :=
  {[ "exporters::otlp::insecure_skip_verify" := ABool true; "exporters::otlp::endpoint" := AString "e" ]}.

(** [insecure_skip_verify] turns into [tls::insecure]. *)
Lemma MoveOTLPInsecureKey_prefix_witness :
  ∃ c', @MoveOTLPInsecureKey_Convert flat_confmap (Some otlp_conf) = Ok (Some c') ∧
    @leaves flat_confmap c' !! "exporters::otlp::tls::insecure" = Some (ABool true).
Proof.
  destruct (@MoveOTLPInsecureKey_prefix flat_confmap _ otlp_conf) as (c' & Hc & Hm & _).
  - apply clash_free_no_clash. by vm_compute.
  - apply flatb_flat. by vm_compute.
  - exists c'. split; [exact Hc|]. apply (Hm "" "_skip_verify"); [by left|].
    rewrite leaves_flat_confmap. by vm_compute.
Defined.

Definition ballast_conf : gmap string any :=
  {[ "processors::memory_limiter::ballast_size_mib" := AInt 1; "processors::memory_limiter::limit_mib" := AInt 2 ]}.

(** The theorem applied to a memory limiter. *)
Lemma RemoveBallastKey_correct_witness :
  ∃ c', @RemoveBallastKey_Convert flat_confmap (Some ballast_conf) = Ok (Some c') ∧
    @leaves flat_confmap c' !! "processors::memory_limiter::ballast_size_mib" ≠ Some (AInt 1).
Proof.
  destruct (@RemoveBallastKey_correct flat_confmap _ ballast_conf) as (c' & Hc & Hm).
  - rewrite leaves_flat_confmap. apply flatb_flat. by vm_compute.
  - exists c'. split; [exact Hc|]. intros Hk. apply Hm in Hk as [_ Hk]. apply Hk.
    exists "", "", "". split; [by left | done].
Defined.

Definition tagger_conf : gmap string any :=
  {[ "processors::k8s_tagger/x::passthrough" := ABool true;
     "service::pipelines::traces::processors" := ASlice [AString "batch"; AString "k8s_tagger/x"] ]}.

(** The theorem applied to a named tagger. *)
Lemma RenameK8sTagger_correct_witness :
  ∃ c', @RenameK8sTagger_Convert flat_confmap (Some tagger_conf) = Ok (Some c') ∧
    @leaves flat_confmap c' !! "processors::k8sattributes/x::passthrough" = Some (ABool true).
Proof.
  destruct (@RenameK8sTagger_correct flat_confmap _ tagger_conf) as (c' & Hc & Hm & _).
  - apply clash_free_no_clash. by vm_compute.
  - apply flatb_flat. by vm_compute.
  - exists c'. split; [exact Hc|]. apply (Hm "/x::passthrough").
    + repeat (apply sall_cons; split; [done|]). by intros [] ?.
    + rewrite leaves_flat_confmap. by vm_compute.
Defined.

(** The expression for pipeline entries is not anchored: an entry that only
    holds [k8s_tagger], such as [batch/k8s_tagger], is replaced as well. *)
Theorem RenameK8sTagger_replaces_other_processors :
  ∃ c', @RenameK8sTagger_Convert flat_confmap (Some
      {[ "service::pipelines::traces::processors" := ASlice [AString "batch/k8s_tagger"] ]}) = Ok (Some c') ∧
    @leaves flat_confmap c' !! "service::pipelines::traces::processors" = Some (ASlice [AString "k8sattributes"]).
Proof. eexists. split; [reflexivity|]. rewrite leaves_flat_confmap. by vm_compute. Qed.

Definition gcp_conf : gmap string any :=
  {[ "processors::resourcedetection::detectors" := ASlice [AString "gce"; ANil; AString "gke"; AString "ecs"] ]}.

(** The theorem applied to a list with both deprecated detectors. *)
Lemma NormalizeGcp_correct_witness :
  ∃ c', @NormalizeGcp_Convert flat_confmap (Some gcp_conf) = Ok (Some c') ∧
    @leaves flat_confmap c' !! "processors::resourcedetection::detectors" = Some (ASlice [AString "gcp"; AString "ecs"]).
Proof.
  destruct (@NormalizeGcp_correct flat_confmap _ gcp_conf) as (c' & Hc & _ & Hm & _).
  - rewrite leaves_flat_confmap. apply flatb_flat. by vm_compute.
  - exists c'. split; [exact Hc|].
    apply (Hm _ [] (AString "gce") [ANil; AString "gke"; AString "ecs"]); [by vm_compute..|].
    rewrite leaves_flat_confmap. by vm_compute.
Defined.

Definition demo_levels : Levels := {|
  UnmarshalText s := if bool_decide (s = "debug") then Some DebugLevel else None;
  LevelString l := match l with LevelDetailed => "Detailed" | _ => "Basic" end;
|}.

(** The theorem applied to a named logging exporter. *)
Lemma loglevelEntry_correct_witness :
  @loglevelEntry flat_confmap demo_levels {[ "exporters::logging/a::loglevel" := AString "debug" ]}
    "exporters::logging/a::loglevel" = Ok (Some ("exporters::logging/a::verbosity", AString "Detailed")).
Proof.
  etransitivity; [apply (@loglevelEntry_correct flat_confmap demo_levels _ "/a"); [|done]|by vm_compute].
  right. exists "a". split_and!; [done|done|]. apply sall_cons. split; [done|]. by intros [] ?.
Defined.
