(* ===== verification/DPFilters.v ===== *)
(** * Datapoint filters of the converters, and the kubelet utilization converter

    [src/internal/configconverter/dpfilters] is a second, slightly different copy
    of the agent's filters: its string filters are built and matched like the
    overridable filters of [Filters], but a dimensions filter looks at the
    dimensions of the datapoint instead of at its own keys.
    [DisableKubeletUtilizationMetrics] uses it to see which metrics the signalfx
    exporters drop. *)

From S2P Require Import Prelude GoStrings GoValue Confmap Regexp Filters.
From Stdlib Require Import Ascii.

(** [sfxpb.DataPoint], the fields read *)
Record Dimension := { Key : string; Value : string }.
Record DataPoint := { Metric : string; Dimensions : list Dimension }.

(** ** string.go: the fields of [StringFilter] are those of [BasicStringFilter] *)

Definition NewStringFilter `{PatternEngine} (items : list string) : res BasicStringFilter :=
  foldM_res addFilterItem emptyStringFilter items.

(** A nil filter matches everything. *)
Definition StringFilter_Matches (f : option BasicStringFilter) (s : string) : bool :=
  match f with
  | None => true
  | Some f =>
      let matched := match staticSet f !! s with Some _ => true | None => false end in
      let negated := match staticSet f !! s with Some n => n | None => false end in
      if matched && negated then false
      else match matchUnlessNegated regexMatcher_Matches (regexps f) s matched with
           | None => false
           | Some matched =>
               match matchUnlessNegated globMatcher_Matches (globs f) s matched with
               | None => false
               | Some matched => matched
               end
           end
  end.

(** ** dimensions.go *)

Record dimensionsFilter := { dimFilters : gmap string BasicStringFilter }.

Definition addDimension `{PatternEngine} (filters : gmap string BasicStringFilter) (kv : string * list string)
    : res (gmap string BasicStringFilter) :=
  let '(k, v) := kv in
  if decide (v = []) then Err (Errorf "string map value in filter cannot be empty" [])
  else match NewStringFilter v with
       | Err e => Err e
       | Ok f => Ok (<[k := f]> filters)
       end.

Definition newDimensionsFilter `{PatternEngine, MapRange} (m : gmap string (list string)) : res dimensionsFilter :=
  match foldM_res addDimension ∅ (range m) with
  | Err e => Err e
  | Ok fm => Ok {| dimFilters := fm |}
  end.

(** The loop over the datapoint's dimensions. *)
Fixpoint matchDimensions (filters : gmap string BasicStringFilter) (dims : list Dimension)
    (atLeastOneMatchedDimension : bool) : bool :=
  match dims with
  | [] => atLeastOneMatchedDimension
  | dim :: dims =>
      match filters !! Key dim with
      | None => matchDimensions filters dims atLeastOneMatchedDimension
      | Some dimF =>
          if StringFilter_Matches (Some dimF) (Value dim) then matchDimensions filters dims true else false
      end
  end.

Definition dimensionsFilter_Matches (f : dimensionsFilter) (dimensions : list Dimension) : bool :=
  match dimensions with
  | [] => false
  | _ => matchDimensions (dimFilters f) dimensions false
  end.

(** ** datapoint.go *)

Record dataPointFilter := {
  dpMetricFilter : option BasicStringFilter;
  dpDimensionsFilter : option dimensionsFilter;
}.

Definition newDataPointFilter `{PatternEngine, MapRange} (metricNames : list string)
    (dimSet : gmap string (list string)) : res dataPointFilter :=
  metF ← (if 0 <? length metricNames then Some <$> NewStringFilter metricNames else Ok None);
  dimF ← (if 0 <? size dimSet then Some <$> newDimensionsFilter dimSet else Ok None);
  match metF, dimF with
  | None, None => Err (Errorf "metric filter must have at least one metric or dimension defined on it" [])
  | _, _ => Ok {| dpMetricFilter := metF; dpDimensionsFilter := dimF |}
  end.

Definition dataPointFilter_Matches (f : dataPointFilter) (dp : DataPoint) : bool :=
  let metricNameMatched :=
    match dpMetricFilter f with None => true | Some mf => StringFilter_Matches (Some mf) (Metric dp) end in
  if metricNameMatched then
    match dpDimensionsFilter f with None => true | Some df => dimensionsFilter_Matches df (Dimensions dp) end
  else false.

(** ** metricfilter.go and filterset.go *)

Record dpMetricFilterConfig := {
  cfgDimensions : gmap string any;
  cfgMetricName : string;
  cfgMetricNames : list string;
}.

(** [normalize] appends [MetricName] to the receiver's [MetricNames] and returns
    the dimensions as string lists. *)
Definition normalize `{FloatText, MapRange} (mf : dpMetricFilterConfig)
    : dpMetricFilterConfig * res (gmap string (list string)) :=
  let mf' :=
    if decide (cfgMetricName mf = "") then mf
    else {| cfgDimensions := cfgDimensions mf; cfgMetricName := cfgMetricName mf;
            cfgMetricNames := cfgMetricNames mf ++ [cfgMetricName mf] |} in
  (mf', foldM_res normalizeDimension ∅ (range (cfgDimensions mf'))).

Definition getDataPointFilter `{PatternEngine, FloatText, MapRange} (f : dpMetricFilterConfig) : res dataPointFilter :=
  let '(f, dims) := normalize f in
  dimSet ← dims;
  newDataPointFilter (cfgMetricNames f) dimSet.

Definition getDataPointFilters `{PatternEngine, FloatText, MapRange} (metricFilters : list dpMetricFilterConfig)
    : res (list dataPointFilter) :=
  mapM_res getDataPointFilter metricFilters.

Record dpFilterSet := { excludeFilters : list dataPointFilter; includeFilters : list dataPointFilter }.

Definition NewFilterSet `{PatternEngine, FloatText, MapRange} (excludes includes : list dpMetricFilterConfig)
    : res dpFilterSet :=
  excludeSet ← getDataPointFilters excludes;
  includeSet ← getDataPointFilters includes;
  Ok {| excludeFilters := excludeSet; includeFilters := includeSet |}.

Fixpoint scanFilters (excludes includes : list dataPointFilter) (dp : DataPoint) : bool :=
  match excludes with
  | [] => false
  | ex :: excludes =>
      if dataPointFilter_Matches ex dp
      then (if existsb (λ incl, dataPointFilter_Matches incl dp) includes then false else true)
      else scanFilters excludes includes dp
  end.

Definition dpFilterSet_Matches (fs : dpFilterSet) (dp : DataPoint) : bool :=
  scanFilters (excludeFilters fs) (includeFilters fs) dp.

(** ** disable_kubelet_utilization_metrics.go *)

Definition k8sNodeCPUUtilization : string := "k8s.node.cpu.utilization".
Definition k8sPodCPUUtilization : string := "k8s.pod.cpu.utilization".
Definition containerCPUUtilization : string := "container.cpu.utilization".

Record signalfxExporterConfig := {
  ExcludeMetrics : list dpMetricFilterConfig;
  IncludeMetrics : list dpMetricFilterConfig;
}.

Definition defaultExcludeMetrics : list dpMetricFilterConfig :=
  [{| cfgDimensions := ∅; cfgMetricName := "";
      cfgMetricNames := ["/^(?i:(container)|(k8s\.node)|(k8s\.pod))\.cpu\.utilization$/"] |}].

(** The named sections whose name matches [re] and which are maps. *)
Definition matchingConfigs `{MapRange} (re : regexp) (m : gmap string any) : gmap string (gmap string any) :=
  foldl (λ acc kv, if MatchString re kv.1 then
                     match kv.2 with AMap v => <[kv.1 := v]> acc | _ => acc end
                   else acc) ∅ (range m).

Definition allDisabled : gmap string bool :=
  {[ k8sNodeCPUUtilization := true; k8sPodCPUUtilization := true; containerCPUUtilization := true ]}.

(** One signalfx exporter: the metrics its filters let through stay enabled. *)
Definition exporterFilter `{PatternEngine, FloatText, MapRange} (unmarshal : gmap string any → res signalfxExporterConfig)
    (cm : gmap string any) : res dpFilterSet :=
  match unmarshal cm with
  | Err e => Err e
  | Ok cfg =>
      let excludes := match ExcludeMetrics cfg with [] => defaultExcludeMetrics | l => l end in
      NewFilterSet excludes (IncludeMetrics cfg)
  end.

Definition keepMatched (filter : dpFilterSet) (disableMetrics : gmap string bool) : gmap string bool :=
  map_imap (λ metricName b,
    Some (if dpFilterSet_Matches filter {| Metric := metricName; Dimensions := [] |} then b else false)) disableMetrics.

Definition disabledAfter `{PatternEngine, FloatText, MapRange} (unmarshal : gmap string any → res signalfxExporterConfig)
    (exporters : gmap string (gmap string any)) : res (gmap string bool) :=
  foldM_res (λ disableMetrics kv, (λ f, keepMatched f disableMetrics) <$> exporterFilter unmarshal kv.2)
    allDisabled (range exporters).

(** [if _, ok := metricsCfg[m]; !ok && disableMetrics[m] { ... }] *)
Definition disableMetric (disableMetrics : gmap string bool) (metricsCfg : gmap string any) (m : string) : gmap string any :=
  match metricsCfg !! m with
  | Some _ => metricsCfg
  | None => if default false (disableMetrics !! m)
            then <[m := AMap {[ "enabled" := ABool false ]}]> metricsCfg else metricsCfg
  end.

Definition receiverMetrics (disableMetrics : gmap string bool) (cfg : gmap string any) : gmap string any :=
  let metricsCfg := match cfg !! "metrics" with Some (AMap v) => v | _ => ∅ end in
  foldl (disableMetric disableMetrics) metricsCfg
    [k8sNodeCPUUtilization; k8sPodCPUUtilization; containerCPUUtilization].

Section kubelet.
Context {C : Confmap} `{PatternEngine, FloatText, MapRange}.
Variable unmarshal : gmap string any → res signalfxExporterConfig.

Fixpoint mergeReceivers (disableMetrics : gmap string bool) (c : conf) (receivers : list (string * gmap string any))
    : conf * option error :=
  match receivers with
  | [] => (c, None)
  | (receiverName, cfg) :: receivers =>
      let metricsCfg := receiverMetrics disableMetrics cfg in
      if 0 <? size metricsCfg then
        match Merge c (NewFromStringMap {[ "receivers::" +:+ receiverName +:+ "::metrics" := AMap metricsCfg ]}) with
        | (c, Some e) => (c, Some e)
        | (c, None) => mergeReceivers disableMetrics c receivers
        end
      else mergeReceivers disableMetrics c receivers
  end.

(* "kubeletstats(/\w+)?" and "signalfx(/\w+)?" *)
Definition kubeletRe : regexp := RCat (RLit "kubeletstats") (RName 1).
Definition signalfxRe : regexp := RCat (RLit "signalfx") (RName 1).

Definition DisableKubeletUtilizationMetrics_Convert (inp : option conf) : option conf * option error :=
  match inp with
  | None => (None, Some (Errorf "cannot DisableKubeletUtilizationMetrics on nil *confmap.Conf" []))
  | Some c =>
      match Sub c "receivers" with
      | Err _ => (Some c, None)
      | Ok receivers =>
          let kubeletReceiverConfigs := matchingConfigs kubeletRe (ToStringMap receivers) in
          match Sub c "exporters" with
          | Err _ => (Some c, None)
          | Ok exporters =>
              let sfxExporterConfigs := matchingConfigs signalfxRe (ToStringMap exporters) in
              if (size kubeletReceiverConfigs =? 0) || (size sfxExporterConfigs =? 0) then (Some c, None)
              else match disabledAfter unmarshal sfxExporterConfigs with
                   | Err _ => (Some c, None)
                   | Ok disableMetrics =>
                       let '(c', e) := mergeReceivers disableMetrics c (range kubeletReceiverConfigs) in
                       (Some c', e)
                   end
          end
      end
  end.
End kubelet.

(** ** What the filters mean *)

Section spec.
Context `{PatternEngine, FloatText, MapRange}.

Definition filter_names (f : dpMetricFilterConfig) : list string := cfgMetricNames (normalize f).1.

(** Some dimension of the datapoint is filtered, and every filtered one passes. *)
Definition dims_spec (dimSet : gmap string (list string)) (dims : list Dimension) : Prop :=
  (∃ d, d ∈ dims ∧ is_Some (dimSet !! Key d)) ∧
  (∀ d items, d ∈ dims → dimSet !! Key d = Some items → overridable_spec items (Value d)).

Definition filter_spec (f : dpMetricFilterConfig) (dp : DataPoint) : Prop :=
  ∃ dimSet, (normalize f).2 = Ok dimSet ∧
    (filter_names f = [] ∨ overridable_spec (filter_names f) (Metric dp)) ∧
    (dimSet = ∅ ∨ dims_spec dimSet (Dimensions dp)).

(** No item list of the filter has a literal both plain and negated. *)
Definition filter_consistent (f : dpMetricFilterConfig) : Prop :=
  literals_consistent (filter_names f) ∧
  ∀ dimSet k items, (normalize f).2 = Ok dimSet → dimSet !! k = Some items → literals_consistent items.

Lemma StringFilter_refines items f s :
  literals_consistent items → NewStringFilter items = Ok f →
  StringFilter_Matches (Some f) s = true ↔ overridable_spec items s.
Proof. apply overridable_refines. Qed.

Lemma matchDimensions_true fs dims b :
  matchDimensions fs dims b = true ↔
  (b = true ∨ ∃ d, d ∈ dims ∧ is_Some (fs !! Key d)) ∧
  (∀ d f, d ∈ dims → fs !! Key d = Some f → StringFilter_Matches (Some f) (Value d) = true).
Proof.
  revert b; induction dims as [|d dims IH]; intros b; cbn [matchDimensions].
  { split; [intros ->; split; [by left | set_solver] | intros [[?|(? & ?%not_elem_of_nil & _)] _]; done]. }
  setoid_rewrite elem_of_cons. destruct (fs !! Key d) as [f|] eqn:Hd.
  - destruct (StringFilter_Matches (Some f) (Value d)) eqn:Hm.
    + rewrite IH. split.
      * intros [_ Hall]. split; [right; exists d; rewrite Hd; eauto|]. intros ?? [->|?] ?; [congruence | eauto].
      * intros [_ Hall]. split; [by left | eauto].
    + split; [done|]. intros [_ Hall]. rewrite <-Hm. eauto.
  - rewrite IH. split.
    + intros [Hb Hall]. split; [|intros ?? [->|?] ?; [congruence | eauto]].
      destruct Hb as [?|(d' & ? & ?)]; [by left | right; eauto].
    + intros [Hb Hall]. split; [|eauto].
      destruct Hb as [?|(d' & [->|?] & [? ?])]; [by left | congruence | right; eauto].
Qed.

Lemma newDimensionsFilter_fields m f :
  newDimensionsFilter m = Ok f →
  ∀ k, match m !! k with
       | Some items => ∃ sf, NewStringFilter items = Ok sf ∧ dimFilters f !! k = Some sf
       | None => dimFilters f !! k = None
       end.
Proof.
  unfold newDimensionsFilter. destruct (foldM_res addDimension ∅ (range m)) as [fm|] eqn:Hf; [|done].
  intros [= <-] k. simpl.
  apply (foldM_res_insert (λ kv, NewStringFilter kv.2)) in Hf as [Hin Hout]; [| |apply NoDup_range].
  - destruct (m !! k) as [items|] eqn:Hk.
    + by apply Hin, elem_of_range.
    + rewrite Hout; [apply lookup_empty|]. intros ([k' v] & -> & Hkv)%list_elem_of_fmap.
      apply elem_of_range in Hkv. simpl in Hk. congruence.
  - intros m0 [k0 v0] m'. unfold addDimension. case_decide; [done|].
    destruct (NewStringFilter v0) eqn:Hv; [|done]. intros [= <-]. simpl. eauto.
Qed.

Lemma dimensionsFilter_refines dimSet f dims :
  newDimensionsFilter dimSet = Ok f →
  (∀ k items, dimSet !! k = Some items → literals_consistent items) →
  dimensionsFilter_Matches f dims = true ↔ dims_spec dimSet dims.
Proof.
  intros Hf Hc. pose proof (newDimensionsFilter_fields _ _ Hf) as Hk.
  transitivity (matchDimensions (dimFilters f) dims false = true); [by destruct dims|].
  rewrite matchDimensions_true. unfold dims_spec. f_equiv.
  - split.
    + intros [?|(d & ? & Hd)]; [done|]. exists d. split; [done|]. specialize (Hk (Key d)).
      destruct (dimSet !! Key d); [by eexists|]. rewrite Hk in Hd. by destruct Hd.
    + intros (d & ? & [items Hd]). right. exists d. split; [done|]. specialize (Hk (Key d)). rewrite Hd in Hk.
      destruct Hk as (? & _ & ->). by eexists.
  - split.
    + intros Hall d items Hd Hi. specialize (Hk (Key d)). rewrite Hi in Hk. destruct Hk as (sf & Hsf & Hl).
      apply (StringFilter_refines items sf); [eauto|done|]. eauto.
    + intros Hall d sf Hd Hl. specialize (Hk (Key d)). destruct (dimSet !! Key d) as [items|] eqn:Hi; [|congruence].
      destruct Hk as (sf' & Hsf & Hl'). simplify_eq. apply (StringFilter_refines items); eauto.
Qed.

Lemma dataPointFilter_refines f df dp :
  filter_consistent f → getDataPointFilter f = Ok df →
  dataPointFilter_Matches df dp = true ↔ filter_spec f dp.
Proof.
  unfold filter_consistent, getDataPointFilter, filter_spec, filter_names.
  destruct (normalize f) as [f' [dimSet|]]; simpl; [|done]. generalize (cfgMetricNames f'). intros names [Hn Hc].
  unfold newDataPointFilter. intros (metF & Hmet & (dimF & Hdim & Hdf)%bind_ok_inv)%bind_ok_inv.
  assert (df = {| dpMetricFilter := metF; dpDimensionsFilter := dimF |}) as -> by (by destruct metF, dimF; simplify_eq).
  clear Hdf.
  transitivity ((names = [] ∨ overridable_spec names (Metric dp)) ∧ (dimSet = ∅ ∨ dims_spec dimSet (Dimensions dp)));
    [|naive_solver].
  unfold dataPointFilter_Matches. cbn [dpMetricFilter dpDimensionsFilter].
  match goal with |- (if ?b then ?c else false) = true ↔ _ => transitivity (b = true ∧ c = true); [destruct b; naive_solver|] end.
  f_equiv.
  - destruct names as [|n ns]; simpl in Hmet; simplify_eq; [naive_solver|].
    destruct (NewStringFilter (n :: ns)) as [sf|] eqn:Hsf; simpl in Hmet; simplify_eq.
    rewrite (StringFilter_refines (n :: ns) sf) by done. naive_solver.
  - destruct (decide (dimSet = ∅)) as [->|Hne].
    + rewrite map_size_empty in Hdim. simpl in Hdim. simplify_eq. naive_solver.
    + rewrite (proj2 (Nat.ltb_lt _ _)) in Hdim.
      2:{ apply Nat.neq_0_lt_0. intros ?. by apply Hne, map_size_empty_inv. }
      destruct (newDimensionsFilter dimSet) as [d|] eqn:Hd; simpl in Hdim; simplify_eq.
      rewrite (dimensionsFilter_refines dimSet d) by (done || eauto). naive_solver.
Qed.

Lemma getDataPointFilters_refines l dfs dp :
  (∀ f, f ∈ l → filter_consistent f) → getDataPointFilters l = Ok dfs →
  existsb (λ d, dataPointFilter_Matches d dp) dfs = true ↔ ∃ f, f ∈ l ∧ filter_spec f dp.
Proof.
  intros Hc Hl. apply mapM_res_ok in Hl. rewrite existsb_elem. split.
  - intros (d & Hd & Hm). apply list_elem_of_lookup in Hd as [i Hi].
    destruct (Forall2_lookup_r _ _ _ _ _ Hl Hi) as (f & Hf & Hg). apply list_elem_of_lookup_2 in Hf.
    exists f. split; [done|]. by apply (dataPointFilter_refines f d dp (Hc f Hf)).
  - intros (f & Hf & Hs). pose proof Hf as [i Hi]%list_elem_of_lookup.
    destruct (Forall2_lookup_l _ _ _ _ _ Hl Hi) as (d & Hd & Hg). apply list_elem_of_lookup_2 in Hd.
    exists d. split; [done|]. by apply (dataPointFilter_refines f d dp (Hc f Hf)).
Qed.

Lemma scanFilters_true excludes includes dp :
  scanFilters excludes includes dp = true ↔
  existsb (λ d, dataPointFilter_Matches d dp) excludes = true ∧
  existsb (λ d, dataPointFilter_Matches d dp) includes = false.
Proof.
  induction excludes as [|e excludes IH]; simpl; [naive_solver|].
  destruct (dataPointFilter_Matches e dp); simpl; [|done].
  destruct (existsb _ includes); naive_solver.
Qed.
End spec.

(** C6: a filter set built by [NewFilterSet] drops a datapoint exactly when some
    exclude filter describes it and no include filter does, provided no filter
    lists a literal both plain and negated ([filter_consistent]).  A filter
    describes a datapoint when its metric names and its dimensions do: a string
    is described by a list when a plain item hits it and no negated item does.
    As in [Filters], the comment on [Matches] ([string.go]) says that a plain
    literal wins over a negated pattern; the code gives the negated hit. *)
Theorem dpFilterSet_correct `{PatternEngine, FloatText, MapRange} excludes includes fs dp :
  (∀ f, f ∈ excludes ++ includes → filter_consistent f) →
  NewFilterSet excludes includes = Ok fs →
  dpFilterSet_Matches fs dp = true ↔
  (∃ f, f ∈ excludes ∧ filter_spec f dp) ∧ ¬ (∃ f, f ∈ includes ∧ filter_spec f dp).
Proof.
  intros Hc (ex & Hex & (inc & Hinc & [= <-])%bind_ok_inv)%bind_ok_inv.
  unfold dpFilterSet_Matches. simpl. rewrite scanFilters_true, <-not_true_iff_false.
  rewrite (getDataPointFilters_refines excludes ex) by (done || set_solver).
  by rewrite (getDataPointFilters_refines includes inc) by (done || set_solver).
Qed.

(** ** The kubelet converter *)

Definition userMetrics (cfg : gmap string any) : gmap string any :=
  match cfg !! "metrics" with Some (AMap v) => v | _ => ∅ end.

Definition utilizationMetrics : list string :=
  [k8sNodeCPUUtilization; k8sPodCPUUtilization; containerCPUUtilization].

Lemma foldl_disableMetric d l m0 m :
  foldl (disableMetric d) m0 l !! m =
  match m0 !! m with
  | Some v => Some v
  | None => if bool_decide (m ∈ l) && default false (d !! m) then Some (AMap {[ "enabled" := ABool false ]}) else None
  end.
Proof.
  revert m0; induction l as [|x l IH]; intros m0; cbn [foldl].
  { rewrite bool_decide_eq_false_2 by apply not_elem_of_nil. by destruct (m0 !! m). }
  rewrite IH. unfold disableMetric. destruct (decide (m = x)) as [->|Hne].
  - rewrite (bool_decide_eq_true_2 (x ∈ x :: l)) by left. destruct (m0 !! x) as [v|] eqn:Hx; [by rewrite Hx|].
    destruct (default false (d !! x)) eqn:Hd; [by rewrite lookup_insert_eq|].
    rewrite Hx. by rewrite andb_false_r.
  - rewrite (bool_decide_ext (m ∈ x :: l) (m ∈ l)) by (rewrite elem_of_cons; naive_solver).
    destruct (m0 !! x); [done|]. destruct (default false (d !! x)); [|done]. by rewrite lookup_insert_ne.
Qed.

Section kubelet_theorems.
Context `{PatternEngine, FloatText, MapRange}.
Variable unmarshal : gmap string any → res signalfxExporterConfig.

(** The exporter drops the metric [m]. *)
Definition drops (cm : gmap string any) (m : string) : Prop :=
  ∃ fs, exporterFilter unmarshal cm = Ok fs ∧ dpFilterSet_Matches fs {| Metric := m; Dimensions := [] |} = true.

Lemma disabledAfter_fold (l : list (string * gmap string any)) d0 d m b :
  foldM_res (λ d kv, (λ f, keepMatched f d) <$> exporterFilter unmarshal kv.2) d0 l = Ok d →
  d0 !! m = Some b →
  d !! m = Some true ↔ b = true ∧ ∀ kv, kv ∈ l → drops kv.2 m.
Proof.
  revert d0 b; induction l as [|[k cm] l IH]; intros d0 b; cbn [foldM_res].
  { intros [= <-] ->. split; [intros [= ->]; split; [done | set_solver] | by intros [-> _]]. }
  cbn [snd]. destruct (exporterFilter unmarshal cm) as [fs|] eqn:Hfs; [|done]. cbn [fmap res_fmap]. intros Hf Hd0.
  rewrite (IH _ (if dpFilterSet_Matches fs {| Metric := m; Dimensions := [] |} then b else false) Hf).
  2:{ unfold keepMatched. by rewrite map_lookup_imap, Hd0. }
  split.
  - destruct (dpFilterSet_Matches fs _) eqn:Hm; [|by intros []]. intros [-> Hl]. split; [done|].
    intros kv [->|?]%elem_of_cons; [by exists fs | by apply Hl].
  - intros [-> Hl]. destruct (Hl (k, cm)) as (fs' & Hfs' & Hm); [by left|]. assert (fs' = fs) as -> by (simpl in Hfs'; congruence).
    rewrite Hm. split; [done|]. intros. apply Hl. by right.
Qed.

(** [DisableKubeletUtilizationMetrics] adds [enabled: false] to a kubelet
    receiver exactly for the utilization metrics that every signalfx exporter
    drops and the receiver does not configure, and keeps what it configures. *)
Theorem receiverMetrics_correct (exporters : gmap string (gmap string any)) d cfg m :
  disabledAfter unmarshal exporters = Ok d → m ∈ utilizationMetrics →
  (∀ v, userMetrics cfg !! m = Some v → receiverMetrics d cfg !! m = Some v) ∧
  (userMetrics cfg !! m = None →
    (receiverMetrics d cfg !! m = Some (AMap {[ "enabled" := ABool false ]}) ↔
      ∀ name cm, exporters !! name = Some cm → drops cm m) ∧
    (receiverMetrics d cfg !! m = None ↔ ¬ ∀ name cm, exporters !! name = Some cm → drops cm m)).
Proof.
  intros Hd Hm. unfold receiverMetrics. fold utilizationMetrics. fold (userMetrics cfg).
  rewrite foldl_disableMetric. rewrite (bool_decide_eq_true_2 _ Hm). simpl. split; [by intros v ->|]. intros ->.
  assert (Hd0 : allDisabled !! m = Some true).
  { repeat (apply elem_of_cons in Hm as [->|Hm]); try by vm_compute. by apply not_elem_of_nil in Hm. }
  pose proof (disabledAfter_fold _ _ _ _ _ Hd Hd0) as Hiff.
  assert (Hall : d !! m = Some true ↔ ∀ name cm, exporters !! name = Some cm → drops cm m).
  { rewrite Hiff. split.
    - intros [_ Hl] name cm Hn. apply (Hl (name, cm)). by apply elem_of_range.
    - intros Hl. split; [done|]. intros [name cm] Hn. eapply Hl. by apply elem_of_range. }
  rewrite <-Hall. destruct (d !! m) as [[]|]; simpl; naive_solver.
Qed.
End kubelet_theorems.

(** ** Concrete filters *)

Definition cpu_filter : dpMetricFilterConfig :=
  {| cfgDimensions := {[ "host" := ASlice [AString "a"; AString "!b"] ]}; cfgMetricName := "cpu"; cfgMetricNames := [] |}.

Lemma cpu_filter_consistent f :
  f ∈ [cpu_filter] ++ [] → @filter_consistent (λ _, "") forward_range f.
Proof.
  intros [->|[]%not_elem_of_nil]%elem_of_cons. split.
  - intros i j Hi Hj _ _ He. vm_compute in Hi, Hj.
    apply list_elem_of_singleton in Hi as ->, Hj as ->. done.
  - intros dimSet k items Hn Hk. vm_compute in Hn. injection Hn as <-.
    change (({[ "host" := ["a"; "!b"] ]} : gmap string (list string)) !! k = Some items) in Hk.
    apply lookup_singleton_Some in Hk as [<- <-]. intros i j Hi Hj _ _.
    rewrite !elem_of_cons, elem_of_nil in Hi, Hj.
    destruct Hi as [->|[->|[]]], Hj as [->|[->|[]]]; done.
Qed.

(** The filter drops [cpu] on host [a]. *)
Lemma dpFilterSet_correct_witness :
  ∃ fs, @NewFilterSet prefix_engine (λ _, "") forward_range [cpu_filter] [] = Ok fs ∧
    (∃ f, f ∈ [cpu_filter] ∧
      @filter_spec prefix_engine (λ _, "") forward_range f {| Metric := "cpu"; Dimensions := [{| Key := "host"; Value := "a" |}] |}).
Proof.
  destruct (@NewFilterSet prefix_engine (λ _, "") forward_range [cpu_filter] []) as [fs|] eqn:Hfs; [|vm_compute in Hfs; discriminate].
  exists fs. split; [done|].
  apply (@dpFilterSet_correct prefix_engine (λ _, "") forward_range [cpu_filter] [] fs
          {| Metric := "cpu"; Dimensions := [{| Key := "host"; Value := "a" |}] |}).
  - apply cpu_filter_consistent.
  - done.
  - vm_compute in Hfs. injection Hfs as <-. by vm_compute.
Defined.

(** The theorem applied to one exporter that includes nothing and excludes the metric. *)
Lemma receiverMetrics_correct_witness :
  let unmarshal := λ _ : gmap string any, Ok {| ExcludeMetrics := [{| cfgDimensions := ∅; cfgMetricName := k8sNodeCPUUtilization; cfgMetricNames := [] |}]; IncludeMetrics := [] |} in
  ∃ d, @disabledAfter prefix_engine (λ _, "") forward_range unmarshal {[ "signalfx" := ∅ ]} = Ok d ∧
    receiverMetrics d ∅ !! k8sPodCPUUtilization = None.
Proof.
  intros unmarshal.
  assert (Hok : is_ok (@disabledAfter prefix_engine (λ _, "") forward_range unmarshal {[ "signalfx" := ∅ ]}) = true)
    by by vm_compute.
  destruct (@disabledAfter prefix_engine (λ _, "") forward_range unmarshal {[ "signalfx" := ∅ ]}) as [d|] eqn:Hd; [|done].
  exists d. split; [done|].
  destruct (@receiverMetrics_correct prefix_engine (λ _, "") forward_range unmarshal {[ "signalfx" := ∅ ]} d ∅
    k8sPodCPUUtilization Hd) as [_ Hn]; [right; left|].
  destruct Hn as [_ Hn]; [by vm_compute|]. apply Hn. clear Hn.
  intros Hall. destruct (Hall "signalfx" ∅) as (fs & Hfs & Hm); [apply lookup_singleton_eq|].
  vm_compute in Hfs. injection Hfs as <-. by vm_compute in Hm.
Defined.
