(* ===== verification/ServiceConverters.v ===== *)
(** * Converters of the service section, the debug config server and dry run

    [src/internal/configconverter]: [Discovery] (moves what the discovery
    provider found into the service section),
    [DisableExcessiveInternalMetrics] (adds drop rules to the internal
    prometheus jobs), [ConfigServer] (serves the redacted configuration while
    providers are alive) and [DryRun].  Go maps and slices reached from
    [conf.ToStringMap()] or [conf.Get()] are copies, so an early error return
    leaves the [Conf] as it was.  A failed type assertion or the hashing of an
    unhashable map key is a panic, an [Err] here. *)

From S2P Require Import Prelude GoStrings GoValue Confmap.
From Stdlib Require Import Ascii.

Definition panic {A} (what : string) : res A := Err (Errorf "panic: %s" [what]).

(** ** common/discovery *)

Definition DiscoExtensionsKey : string := "extensions/splunk.discovery".
Definition DiscoReceiversKey : string := "receivers/splunk.discovery".

(** ** discovery.go *)

(** [x.(map[string]any)] *)
Definition assertMap (v : any) : res (gmap string any) :=
  match v with AMap m => Ok m | _ => panic "interface conversion" end.

Definition toAnySlice (s : any) : res (list any) :=
  match s with
  | ASlice l => Ok l
  | AStrings l => Ok (map AString l)
  | _ => Err (Errorf "unexpected form %T" [])
  end.

(** A field that is present and not nil. *)
Definition present (m : gmap string any) (k : string) : option any :=
  match m !! k with Some ANil | None => None | Some v => Some v end.

Definition getServiceExtensions (out : gmap string any) : res (gmap string any * list any) :=
  match present out "service" with
  | None => Ok (∅, [])
  | Some (AMap service) =>
      match present service "extensions" with
      | None => Ok (service, [])
      | Some ses =>
          serviceExtensions ← wrap_err "cannot determine service extensions: %w" [] (toAnySlice ses);
          Ok (service, serviceExtensions)
      end
  | Some s => Err (Errorf "service is of unexpected form (%T): %v" [])
  end.

(** Removes the key from [service] and returns what it held. *)
Definition getDisco (key what : string) (service : gmap string any) : gmap string any * res (bool * list any) :=
  match service !! key with
  | None => (service, Ok (false, []))
  | Some des =>
      (delete key service,
       match wrap_err what [] (toAnySlice des) with Ok l => Ok (true, l) | Err e => Err e end)
  end.

Definition getDiscoExtensions : gmap string any → gmap string any * res (bool * list any) :=
  getDisco DiscoExtensionsKey "cannot determine discovery extensions: %w".
Definition getDiscoReceivers : gmap string any → gmap string any * res (bool * list any) :=
  getDisco DiscoReceiversKey "cannot determine discovery receivers: %w".

(** The pipelines, the metrics pipeline and its receivers; the first two are
    (re)attached to [service] by the caller. *)
Definition getMetricsPipelineAndReceivers (service : gmap string any)
    : res (gmap string any * gmap string any * list any) :=
  pipelines ← (match present service "pipelines" with None => Ok ∅ | Some pl => assertMap pl end);
  metricsPipeline ← (match present pipelines "metrics" with None => Ok ∅ | Some mp => assertMap mp end);
  metricsReceivers ← (match present metricsPipeline "receivers" with
                      | None => Ok []
                      | Some mr => wrap_err "cannot determine metrics pipeline receivers: %w" [] (toAnySlice mr)
                      end);
  Ok (pipelines, metricsPipeline, metricsReceivers).

(** Values usable as map keys, and Go's [==] on them. *)
Definition hashable (v : any) : bool :=
  match v with ASlice _ | AStrings _ | ABytes _ | AMap _ | AIMap _ => false | _ => true end.

Definition key_eqb (v w : any) : bool :=
  match v, w with
  | ANil, ANil => true
  | ABool a, ABool b => Bool.eqb a b
  | AInt a, AInt b => Z.eqb a b
  | AFloat a, AFloat b => SFeqb a b
  | AString a, AString b => String.eqb a b
  | ANumber a, ANumber b => String.eqb a b
  | _, _ => false
  end.

Definition appendUnique (serviceComponents discoComponents : list any) : res (list any) :=
  if negb (forallb hashable serviceComponents && forallb hashable discoComponents)
  then panic "runtime error: hash of unhashable type"
  else Ok (serviceComponents ++
           List.filter (λ e, negb (existsb (λ x, key_eqb x e) serviceComponents)) discoComponents).

Definition setAutoDiscoveryResourceAttribute (service : gmap string any) : res (gmap string any) :=
  telemetry ← (match service !! "telemetry" with Some tel => assertMap tel | None => Ok ∅ end);
  resAttrs ← (match telemetry !! "resource" with Some ra => assertMap ra | None => Ok ∅ end);
  Ok (<["telemetry" := AMap (<["resource" := AMap (<["splunk_autodiscovery" := AString "true"]> resAttrs)]> telemetry)]> service).

(** What [Discovery.Convert] computes from [in.ToStringMap()]; [None] when the
    configuration is left alone. *)
Definition discoverService (out : gmap string any) : res (option (gmap string any)) :=
  '(service, serviceExtensions) ← getServiceExtensions out;
  let '(service, dext) := getDiscoExtensions service in
  '(discoExtensionsIsSet, discoExtensions) ← dext;
  let '(service, drec) := getDiscoReceivers service in
  '(discoReceiversIsSet, discoReceivers) ← drec;
  if negb discoExtensionsIsSet && negb discoReceiversIsSet then Ok None
  else
    service ← (if 0 <? length discoExtensions then
                 l ← appendUnique serviceExtensions discoExtensions;
                 Ok (<["extensions" := ASlice l]> service)
               else Ok service);
    '(pipelines, metricsPipeline, metricsReceivers) ← getMetricsPipelineAndReceivers service;
    metricsPipeline ← (if 0 <? length discoReceivers then
                         l ← appendUnique metricsReceivers discoReceivers;
                         Ok (<["receivers" := ASlice l]> metricsPipeline)
                       else Ok metricsPipeline);
    let service := <["pipelines" := AMap (<["metrics" := AMap metricsPipeline]> pipelines)]> service in
    service ← setAutoDiscoveryResourceAttribute service;
    Ok (Some (<["service" := AMap service]> out)).

Definition Discovery_Convert {C : Confmap} (inp : option conf) : res (option conf) :=
  match inp with
  | None => Ok None
  | Some c =>
      match discoverService (ToStringMap c) with
      | Err e => Err e
      | Ok None => Ok (Some c)
      | Ok (Some out) => Ok (Some (NewFromStringMap out))
      end
  end.

(** ** disable_excessive_internal_metrics.go *)

Definition promJobNamePrefix : string := "otel-".
Definition dropPatterns : list string := ["otelcol_rpc_.*"; "otelcol_http_.*"; "otelcol_processor_batch_.*"].
Definition promScrapeConfigsKeys : list string := [
  "receivers::prometheus/internal::config::scrape_configs";
  "receivers::prometheus/agent::config::scrape_configs";
  "receivers::prometheus/k8s_cluster_receiver::config::scrape_configs";
  "receivers::prometheus/collector::config::scrape_configs" ].

(** The expression of a relabel rule on the metric name. *)
Definition nameRegex (metricRelabelConfig : any) : option string :=
  match metricRelabelConfig with
  | AMap mrc =>
      match mrc !! "source_labels" with
      | Some (ASlice [AString "__name__"]) =>
          match mrc !! "regex" with Some (AString regex) => Some regex | _ => None end
      | _ => None
      end
  | _ => None
  end.

Definition foundRegexPatterns (mrcs : list any) : list string := omap nameRegex mrcs.

Definition dropRule (pattern : string) : any :=
  AMap {[ "source_labels" := ASlice [AString "__name__"]; "regex" := AString pattern; "action" := AString "drop" ]}.

Definition addDropRules (mrcs : list any) : list any :=
  mrcs ++ map dropRule (List.filter (λ p, negb (bool_decide (p ∈ foundRegexPatterns mrcs))) dropPatterns).

Definition updateScrapeConfig (scrapeConfig : any) : res any :=
  match scrapeConfig with
  | AMap sc =>
      match sc !! "job_name" with
      | None => Ok scrapeConfig
      | Some (AString jobName) =>
          if HasPrefix jobName promJobNamePrefix then
            match default ANil (sc !! "metric_relabel_configs") with
            | ANil => Ok (AMap (<["metric_relabel_configs" := ASlice (addDropRules [])]> sc))
            | ASlice mrcs => Ok (AMap (<["metric_relabel_configs" := ASlice (addDropRules mrcs)]> sc))
            | _ => Ok scrapeConfig
            end
          else Ok scrapeConfig
      | Some _ => panic "interface conversion: interface {} is not string"
      end
  | _ => Ok scrapeConfig
  end.

Definition updatePromReceiver {C : Confmap} (c : conf) (key : string) : conf * option error :=
  match Get c key with
  | ASlice scrapeConfigs =>
      match mapM_res updateScrapeConfig scrapeConfigs with
      | Err e => (c, Some e)
      | Ok scrapeConfigs => Merge c (NewFromStringMap {[ key := ASlice scrapeConfigs ]})
      end
  | _ => (c, None)
  end.

Fixpoint updatePromReceivers {C : Confmap} (c : conf) (keys : list string) : conf * option error :=
  match keys with
  | [] => (c, None)
  | key :: keys =>
      match updatePromReceiver c key with
      | (c, Some e) => (c, Some e)
      | (c, None) => updatePromReceivers c keys
      end
  end.

Definition DisableExcessiveInternalMetrics_Convert {C : Confmap} (inp : option conf) : option conf * option error :=
  match inp with
  | None => (None, Some (Errorf "cannot DisableExcessiveInternalMetrics on nil *confmap.Conf" []))
  | Some c => let '(c, e) := updatePromReceivers c promScrapeConfigsKeys in (Some c, e)
  end.

(** ** Properties of [DisableExcessiveInternalMetrics] *)

Lemma nameRegex_dropRule p : nameRegex (dropRule p) = Some p.
Proof. reflexivity. Qed.

Lemma found_addDropRules mrcs :
  foundRegexPatterns (addDropRules mrcs) =
  foundRegexPatterns mrcs ++ List.filter (λ p, negb (bool_decide (p ∈ foundRegexPatterns mrcs))) dropPatterns.
Proof.
  unfold addDropRules, foundRegexPatterns at 1. rewrite omap_app. f_equal.
  generalize (List.filter (λ p, negb (bool_decide (p ∈ foundRegexPatterns mrcs))) dropPatterns).
  intros l. induction l as [|p l IH]; [done|]. cbn [map omap list_omap]. by rewrite nameRegex_dropRule, IH.
Qed.

Lemma addDropRules_complete mrcs p : p ∈ dropPatterns → p ∈ foundRegexPatterns (addDropRules mrcs).
Proof.
  intros Hp. rewrite found_addDropRules, elem_of_app.
  destruct (decide (p ∈ foundRegexPatterns mrcs)) as [|Hn]; [by left|right].
  apply list_elem_of_In, filter_In. split; [by apply list_elem_of_In|]. by rewrite bool_decide_eq_false_2.
Qed.

Lemma addDropRules_idem mrcs : addDropRules (addDropRules mrcs) = addDropRules mrcs.
Proof.
  unfold addDropRules at 1.
  assert (List.filter (λ p, negb (bool_decide (p ∈ foundRegexPatterns (addDropRules mrcs)))) dropPatterns = []) as ->.
  { assert (∀ p, p ∈ dropPatterns → negb (bool_decide (p ∈ foundRegexPatterns (addDropRules mrcs))) = false) as Hall.
    { intros p Hp. by rewrite bool_decide_eq_true_2 by by apply addDropRules_complete. }
    revert Hall. generalize dropPatterns. intros l. induction l as [|p l IH]; intros Hall; simpl; [done|].
    rewrite (Hall p) by left. apply IH. intros q Hq. apply Hall. by right. }
  by rewrite app_nil_r.
Qed.

(** The relabel rules of a scrape configuration. *)
Definition relabelConfigs (sc : gmap string any) : option (list any) :=
  match default ANil (sc !! "metric_relabel_configs") with
  | ANil => Some [] | ASlice mrcs => Some mrcs | _ => None
  end.

(** For a job whose name starts with [otel-], the updated scrape
    configuration keeps its rules, has a drop rule for each of the three
    patterns, differs in no other setting, and is not changed by a second run;
    other jobs are not touched. *)
Theorem updateScrapeConfig_correct (sc : gmap string any) jobName mrcs :
  sc !! "job_name" = Some (AString jobName) → relabelConfigs sc = Some mrcs →
  if HasPrefix jobName promJobNamePrefix then
    ∃ sc' added, updateScrapeConfig (AMap sc) = Ok (AMap sc') ∧
      relabelConfigs sc' = Some (mrcs ++ map dropRule added) ∧
      (∀ p, p ∈ dropPatterns → p ∈ foundRegexPatterns (mrcs ++ map dropRule added)) ∧
      (∀ k, k ≠ "metric_relabel_configs" → sc' !! k = sc !! k) ∧
      updateScrapeConfig (AMap sc') = Ok (AMap sc')
  else updateScrapeConfig (AMap sc) = Ok (AMap sc).
Proof.
  intros Hj Hr. unfold updateScrapeConfig at 1 3. rewrite Hj. destruct (HasPrefix jobName promJobNamePrefix) eqn:Hp; [|done].
  set (sc' := <["metric_relabel_configs" := ASlice (addDropRules mrcs)]> sc).
  exists sc', (List.filter (λ p, negb (bool_decide (p ∈ foundRegexPatterns mrcs))) dropPatterns). split_and!.
  - unfold relabelConfigs in Hr. destruct (default ANil (sc !! "metric_relabel_configs")); by simplify_eq.
  - unfold relabelConfigs, sc'. by rewrite lookup_insert_eq.
  - apply addDropRules_complete.
  - intros k Hk. unfold sc'. by rewrite lookup_insert_ne.
  - unfold updateScrapeConfig, sc'. rewrite lookup_insert_ne, Hj, Hp, lookup_insert_eq by done. simpl.
    by rewrite insert_insert_eq, addDropRules_idem.
Qed.

(** The theorem applied to a job without relabel rules. *)
Lemma updateScrapeConfig_correct_witness :
  ∃ sc' added, updateScrapeConfig (AMap {[ "job_name" := AString "otel-agent" ]}) = Ok (AMap sc') ∧
    relabelConfigs sc' = Some (map dropRule added).
Proof.
  destruct (updateScrapeConfig_correct {[ "job_name" := AString "otel-agent" ]} "otel-agent" [])
    as (sc' & added & ? & ? & _); [reflexivity..|]. by exists sc', added.
Defined.

(** ** Properties of [Discovery] *)

Lemma appendUnique_ok s d l :
  appendUnique s d = Ok l →
  ∃ new, l = s ++ new ∧ new `sublist_of` d ∧
    ∀ e, e ∈ d → e ∈ new ∨ ∃ x, x ∈ s ∧ key_eqb x e = true.
Proof.
  unfold appendUnique. case_match; [done|]. intros [= <-]. eexists. split_and!; [done| |].
  - clear. induction d as [|x d IH]; simpl; [constructor|].
    destruct (negb _); [by constructor | by apply sublist_cons].
  - intros e He. destruct (existsb (λ x, key_eqb x e) s) eqn:Hx.
    + right. by apply existsb_elem in Hx.
    + left. apply list_elem_of_In, filter_In. rewrite Hx. split; [by apply list_elem_of_In | done].
Qed.

Lemma getMetrics_other service k v :
  k ≠ "pipelines" → getMetricsPipelineAndReceivers (<[k := v]> service) = getMetricsPipelineAndReceivers service.
Proof. intros Hk. unfold getMetricsPipelineAndReceivers, present. by rewrite lookup_insert_ne. Qed.

Lemma getMetrics_delete service k :
  k ≠ "pipelines" → getMetricsPipelineAndReceivers (delete k service) = getMetricsPipelineAndReceivers service.
Proof. intros Hk. unfold getMetricsPipelineAndReceivers, present. by rewrite lookup_delete_ne. Qed.

Lemma getMetrics_attach service pipelines mp l :
  getMetricsPipelineAndReceivers
    (<["pipelines" := AMap (<["metrics" := AMap (<["receivers" := ASlice l]> mp)]> pipelines)]> service) =
  Ok (<["metrics" := AMap (<["receivers" := ASlice l]> mp)]> pipelines, <["receivers" := ASlice l]> mp, l).
Proof.
  unfold getMetricsPipelineAndReceivers, present. rewrite lookup_insert_eq. simpl.
  rewrite lookup_insert_eq. simpl. by rewrite lookup_insert_eq.
Qed.

Lemma getDisco_spec key what service :
  (getDisco key what service).1 = delete key service.
Proof. unfold getDisco. destruct (service !! key) eqn:Hk; [done|]. simpl. by rewrite delete_id. Qed.

Lemma setAuto_ok service service' :
  setAutoDiscoveryResourceAttribute service = Ok service' → ∃ v, service' = <["telemetry" := v]> service.
Proof. intros (tel & _ & (ra & _ & [= <-])%bind_ok_inv)%bind_ok_inv. eauto. Qed.

(** When the discovery provider found receivers, a successful conversion
    only changes the service section, removes the provider's two keys, and
    appends to the receivers of the metrics pipeline, which stay in front, the
    found receivers that were not listed yet, in order. *)
Theorem discoverService_receivers out out' service disco pipelines mp old :
  discoverService out = Ok (Some out') →
  out !! "service" = Some (AMap service) →
  service !! DiscoReceiversKey = Some (ASlice disco) → disco ≠ [] →
  getMetricsPipelineAndReceivers service = Ok (pipelines, mp, old) →
  ∃ service' new pipelines' mp',
    out' = <["service" := AMap service']> out ∧
    service' !! DiscoReceiversKey = None ∧ service' !! DiscoExtensionsKey = None ∧
    getMetricsPipelineAndReceivers service' = Ok (pipelines', mp', old ++ new) ∧
    new `sublist_of` disco ∧
    ∀ e, e ∈ disco → e ∈ new ∨ ∃ x, x ∈ old ∧ key_eqb x e = true.
Proof.
  intros Hout Hs Hr Hne Hmet. unfold discoverService in Hout.
  apply bind_ok_inv in Hout as ([s0 ext] & Hext & Hout).
  assert (s0 = service) as ->.
  { unfold getServiceExtensions, present in Hext. rewrite Hs in Hext.
    destruct (service !! "extensions") as [[]|]; simpl in Hext; simplify_eq; done. }
  pose proof (getDisco_spec DiscoExtensionsKey "cannot determine discovery extensions: %w" service) as Hde.
  fold getDiscoExtensions in Hde. destruct (getDiscoExtensions service) as [s1 dext]. simpl in Hde. subst s1.
  apply bind_ok_inv in Hout as ([des dexts] & _ & Hout).
  assert (Hrec : getDiscoReceivers (delete DiscoExtensionsKey service) =
    (delete DiscoReceiversKey (delete DiscoExtensionsKey service), Ok (true, disco))).
  { unfold getDiscoReceivers, getDisco. by rewrite lookup_delete_ne, Hr. }
  rewrite Hrec in Hout. apply bind_ok_inv in Hout as ([? ?] & [= <- <-] & Hout). rewrite andb_false_r in Hout.
  set (s2 := delete DiscoReceiversKey (delete DiscoExtensionsKey service)) in *.
  apply bind_ok_inv in Hout as (s3 & Hs3 & Hout).
  assert (Hs3' : s3 = s2 ∨ ∃ v, s3 = <["extensions" := v]> s2).
  { destruct (0 <? length dexts); [|left; congruence]. apply bind_ok_inv in Hs3 as (l & _ & [= <-]). right. eauto. }
  assert (getMetricsPipelineAndReceivers s3 = Ok (pipelines, mp, old)) as Hm3.
  { rewrite <-Hmet. destruct Hs3' as [-> | [v ->]]; rewrite ?getMetrics_other by done; unfold s2; by rewrite !getMetrics_delete. }
  rewrite Hm3 in Hout. apply bind_ok_inv in Hout as ([[? ?] ?] & [= <- <- <-] & Hout).
  assert (0 <? length disco = true) as Hlen by (by destruct disco).
  rewrite Hlen in Hout. apply bind_ok_inv in Hout as (mp' & (l & Hl & [= <-])%bind_ok_inv & Hout).
  apply bind_ok_inv in Hout as (s4 & (v & ->)%setAuto_ok & [= <-]).
  apply appendUnique_ok in Hl as (new & -> & Hsub & Hin).
  eexists _, new, _, _. split; [done|].
  assert (Hs3k : ∀ k, k = DiscoReceiversKey ∨ k = DiscoExtensionsKey → s3 !! k = None).
  { intros k Hk. assert (s2 !! k = None).
    { unfold s2. destruct Hk as [->| ->]; [apply lookup_delete_eq|]. by rewrite lookup_delete_ne, lookup_delete_eq. }
    destruct Hs3' as [-> | [w ->]]; [done|]. by rewrite lookup_insert_ne by by destruct Hk as [->| ->]. }
  split_and!; [rewrite !lookup_insert_ne by done; by apply Hs3k; left | rewrite !lookup_insert_ne by done; by apply Hs3k; right | | done | done].
  rewrite getMetrics_other by done. apply getMetrics_attach.
Qed.

Definition disco_out : gmap string any :=
  {[ "service" := AMap {[ DiscoReceiversKey := ASlice [AString "a"; AString "b"];
       "pipelines" := AMap {[ "metrics" := AMap {[ "receivers" := AStrings ["b"] ]} ]} ]} ]}.

(** The theorem applied to a configuration that already lists one of two found receivers. *)
Lemma discoverService_receivers_witness :
  ∃ out' service' new pipelines' mp',
    discoverService disco_out = Ok (Some out') ∧ out' = <["service" := AMap service']> disco_out ∧
    getMetricsPipelineAndReceivers service' = Ok (pipelines', mp', [AString "b"] ++ new).
Proof.
  assert (Hok : match discoverService disco_out with Ok (Some _) => true | _ => false end = true) by by vm_compute.
  destruct (discoverService disco_out) as [[out'|]|] eqn:Hd; [|done..]. clear Hok.
  destruct (discoverService_receivers disco_out out'
    {[ DiscoReceiversKey := ASlice [AString "a"; AString "b"];
       "pipelines" := AMap {[ "metrics" := AMap {[ "receivers" := AStrings ["b"] ]} ]} ]}
    [AString "a"; AString "b"] {[ "metrics" := AMap {[ "receivers" := AStrings ["b"] ]} ]}
    {[ "receivers" := AStrings ["b"] ]} [AString "b"] Hd) as (s & new & pl & mp & Ho & _ & _ & Hg & _);
    [reflexivity|reflexivity|done|reflexivity|].
  exists out', s, new, pl, mp. by split_and!.
Defined.

(** ** config_server.go: redaction *)

Definition redactFragments : list string :=
  ["access"; "api_key"; "apikey"; "auth"; "credential"; "creds"; "login"; "password"; "pwd"; "token"; "user"].

Definition shouldRedactKey (k : string) : bool := existsb (λ fragment, Contains k fragment) redactFragments.

Section redact.
(** [cast.ToStringMap] on a [map[any]any] turns every key into its text. *)
Variable castToString : any → string.

Fixpoint redactValue (k : string) (v : any) : any :=
  match v with
  | AString _ => if shouldRedactKey k then AString "<redacted>" else v
  | AMap m => AMap (map_imap (λ k x, Some (redactValue k x)) m)
  | AIMap m => AMap (list_to_map (map (λ '(key, x), (castToString key, redactValue (castToString key) x)) m))
  | _ => v
  end.

Definition simpleRedact (config : gmap string any) : gmap string any :=
  map_imap (λ k v, Some (redactValue k v)) config.

(** The value at a path of map keys. *)
Fixpoint follow (v : any) (path : list string) : option any :=
  match path with
  | [] => Some v
  | k :: path =>
      match v with
      | AMap m => match m !! k with Some x => follow x path | None => None end
      | _ => None
      end
  end.

Lemma redactValue_hidden k v path k' s :
  follow (redactValue k v) (path ++ [k']) = Some (AString s) → shouldRedactKey k' = true → s = "<redacted>".
Proof.
  intros Hf Hr. revert k v Hf; induction path as [|k1 path IH]; intros k v.
  - destruct v; simpl; try done.
    + by destruct (shouldRedactKey k).
    + rewrite map_lookup_imap. destruct (m !! k') as [x|]; simpl; [|done]. intros [= Hx].
      destruct x; simpl in Hx; rewrite ?Hr in Hx; by simplify_eq.
    + destruct (list_to_map _ !! k') as [y|] eqn:Hy; [|done]. intros [= ->].
      apply elem_of_list_to_map_2, list_elem_of_fmap in Hy as ([key x] & [= -> Hx] & _).
      destruct x; simpl in Hx; rewrite ?Hr in Hx; by simplify_eq.
  - destruct v; simpl; try done.
    + by destruct (shouldRedactKey k).
    + rewrite map_lookup_imap. destruct (m !! k1) as [x|]; simpl; [|done]. apply IH.
    + destruct (list_to_map _ !! k1) as [y|] eqn:Hy; [|done].
      apply elem_of_list_to_map_2, list_elem_of_fmap in Hy as ([key x] & [= -> ->] & _). apply IH.
Qed.

Lemma last_default {A} (x : A) l d d' : List.last (x :: l) d = List.last (x :: l) d'.
Proof. revert x; induction l as [|y l IH]; intros x; [done|]. apply (IH y). Qed.

(** What redaction does to a value reached through [map[string]any] maps. *)
Lemma redactValue_follow k v path x :
  follow v path = Some x → follow (redactValue k v) path = Some (redactValue (List.last path k) x).
Proof.
  revert k v; induction path as [|k1 path IH]; intros k v; simpl.
  { by intros [= ->]. }
  destruct v; try done. destruct (m !! k1) as [y|] eqn:Hy; [|done]. intros Hf. simpl.
  rewrite map_lookup_imap, Hy. simpl. rewrite (IH k1 y Hf). destruct path as [|k2 path]; [done|].
  by rewrite (last_default k2 path k1 k).
Qed.
End redact.

(** Nothing the server shows of the effective configuration through maps
    is a string under a key that should be redacted, every other string keeps
    its value, and lists, with whatever secrets they hold, are shown verbatim. *)
Theorem simpleRedact_correct (castToString : any → string) (config : gmap string any) :
  let shown := AMap (simpleRedact castToString config) in
  (∀ path k s, follow shown (path ++ [k]) = Some (AString s) → shouldRedactKey k = true → s = "<redacted>") ∧
  (∀ path k s, follow (AMap config) (path ++ [k]) = Some (AString s) → shouldRedactKey k = false →
     follow shown (path ++ [k]) = Some (AString s)) ∧
  (∀ path k l, follow (AMap config) (path ++ [k]) = Some (ASlice l) → follow shown (path ++ [k]) = Some (ASlice l)).
Proof.
  intros shown. change shown with (redactValue castToString "" (AMap config)). split_and!.
  - intros path k s. apply redactValue_hidden.
  - intros path k s Hf Hk. rewrite (redactValue_follow _ _ _ _ _ Hf). rewrite last_last. simpl. by rewrite Hk.
  - intros path k l Hf. by rewrite (redactValue_follow _ _ _ _ _ Hf).
Qed.

(** ** config_server.go: life cycle *)

Record ConfigServer := {
  initial : gmap string any;    (* scheme -> retrieved map *)
  effective : gmap string any;
  wg : Z;                       (* sync.WaitGroup counter *)
  once : bool;                  (* sync.Once has run *)
  listening : option string;    (* the endpoint served *)
  listens : nat;                (* successful net.Listen calls, a ghost counter *)
}.

Definition NewConfigServer : ConfigServer :=
  {| initial := ∅; effective := ∅; wg := 0; once := false; listening := None; listens := 0 |}.

Class ServerEnv := {
  serverEnabled : string;           (* os.Getenv(configServerEnabledEnvVar) *)
  portOverride : option string;     (* os.LookupEnv(configServerPortEnvVar) *)
  Listen : string → option error;   (* net.Listen("tcp", endpoint) *)
}.

Definition defaultConfigServerEndpoint : string := "localhost:55554".

Definition configServer_start `{ServerEnv} (cs : ConfigServer) : ConfigServer :=
  if negb (String.eqb serverEnabled "true") then cs
  else if once cs then cs
  else
    let cs := {| initial := initial cs; effective := effective cs; wg := wg cs; once := true;
                 listening := listening cs; listens := listens cs |} in
    let serve endpoint :=
      match Listen endpoint with
      | Some _ => cs
      | None => {| initial := initial cs; effective := effective cs; wg := wg cs; once := true;
                   listening := Some endpoint; listens := S (listens cs) |}
      end in
    match portOverride with
    | Some "" => cs
    | Some port => serve ("localhost:" +:+ port)
    | None => serve defaultConfigServerEndpoint
    end.

Definition setEffective (cs : ConfigServer) (config : gmap string any) : ConfigServer :=
  {| initial := initial cs; effective := config; wg := wg cs; once := once cs;
     listening := listening cs; listens := listens cs |}.

Definition configServer_Convert {C : Confmap} `{ServerEnv} (cs : ConfigServer) (c : conf) : ConfigServer :=
  setEffective (configServer_start cs) (ToStringMap c).

Definition setWg (cs : ConfigServer) (n : Z) : ConfigServer :=
  {| initial := initial cs; effective := effective cs; wg := n; once := once cs;
     listening := listening cs; listens := listens cs |}.

Definition configServer_OnNew (cs : ConfigServer) : ConfigServer := setWg cs (wg cs + 1).
(** [sync.WaitGroup.Done] panics when the counter gets negative. *)
Definition configServer_OnShutdown (cs : ConfigServer) : res ConfigServer :=
  if (wg cs <=? 0)%Z then panic "sync: negative WaitGroup counter" else Ok (setWg cs (wg cs - 1)).

Definition configServer_OnRetrieve (cs : ConfigServer) (scheme : string) (retrieved : gmap string any) : ConfigServer :=
  {| initial := <[scheme := AMap retrieved]> (initial cs); effective := effective cs; wg := wg cs; once := once cs;
     listening := listening cs; listens := listens cs |}.

Inductive ConfigType := initialConfig | effectiveConfig.

Section handler.
Variable castToString : any → string.
Variable yaml_Marshal : gmap string any → string.

(** The status code and body of a request to one of the two paths. *)
Definition muxHandleFunc (configType : ConfigType) (cs : ConfigServer) (method : string) : Z * string :=
  if String.eqb method "GET" then
    (200%Z, yaml_Marshal match configType with
                         | initialConfig => initial cs
                         | effectiveConfig => simpleRedact castToString (effective cs)
                         end)
  else (405%Z, "").
End handler.

(** The calls the collector makes, and the goroutine that waits for the last
    provider and closes the server. *)
Inductive cs_step `{ServerEnv} : ConfigServer → ConfigServer → Prop :=
| cs_new cs : cs_step cs (configServer_OnNew cs)
| cs_retrieve cs scheme m : cs_step cs (configServer_OnRetrieve cs scheme m)
| cs_shutdown cs cs' : configServer_OnShutdown cs = Ok cs' → cs_step cs cs'
| cs_convert cs config : cs_step cs (setEffective (configServer_start cs) config)
| cs_close cs endpoint :
    listening cs = Some endpoint → wg cs = 0%Z →
    cs_step cs {| initial := initial cs; effective := effective cs; wg := wg cs; once := once cs;
                  listening := None; listens := listens cs |}.

Section lifecycle.
Context `{ServerEnv}.

Definition cs_inv (cs : ConfigServer) : Prop :=
  (0 ≤ wg cs)%Z ∧ listens cs ≤ 1 ∧ (once cs = false → listens cs = 0) ∧
  (∀ e, listening cs = Some e → once cs = true ∧ listens cs = 1 ∧ serverEnabled = "true" ∧ portOverride ≠ Some "").

Lemma start_cases cs :
  configServer_start cs = cs ∨
  (serverEnabled = "true" ∧ once cs = false ∧ once (configServer_start cs) = true ∧
   wg (configServer_start cs) = wg cs ∧
   (listening (configServer_start cs) = listening cs ∧ listens (configServer_start cs) = listens cs ∨
    portOverride ≠ Some "" ∧ listens (configServer_start cs) = S (listens cs))).
Proof.
  unfold configServer_start. destruct (String.eqb serverEnabled "true") eqn:He; [|by left].
  apply String.eqb_eq in He. destruct (once cs) eqn:Ho; [by left|right]. simpl.
  destruct portOverride as [[|a p]|] eqn:Hp; [|case_match..]; simpl; rewrite ?Hp; naive_solver.
Qed.

Lemma start_inv cs config : cs_inv cs → cs_inv (setEffective (configServer_start cs) config).
Proof.
  intros (Hw & Hl & Ho & He). unfold cs_inv; simpl.
  destruct (start_cases cs) as [-> | (Hen & Hon & Hon' & Hwg & Hc)]; [done|].
  rewrite Hwg, Hon'. specialize (Ho Hon).
  destruct Hc as [[-> ->]|[Hp ->]]; split_and!; try lia; try done; intros e Hle; split_and!; try done; try lia.
  all: apply He in Hle as (Hf & _); congruence.
Qed.

Lemma cs_step_inv cs cs' : cs_inv cs → cs_step cs cs' → cs_inv cs'.
Proof.
  intros Hi Hs. destruct Hs as [cs|cs scheme m|cs cs' Hd|cs config|cs e Hl Hw].
  - destruct Hi as (? & ? & ? & ?). by split_and!; simpl; try lia.
  - done.
  - unfold configServer_OnShutdown in Hd. destruct (wg cs <=? 0)%Z eqn:Hw; simplify_eq.
    apply Z.leb_gt in Hw. destruct Hi as (? & ? & ? & ?). by split_and!; simpl; try lia.
  - by apply start_inv.
  - destruct Hi as (? & ? & ? & ?). by split_and!; simpl.
Qed.
End lifecycle.

(** However the hooks and conversions interleave, the debug server listens
    at most once in the life of the process, only when it is enabled and the
    port override is not empty, and while it listens the last provider's
    shutdown enables the step that closes it. *)
Theorem configServer_once `{ServerEnv} cs :
  rtc cs_step NewConfigServer cs →
  listens cs ≤ 1 ∧
  (∀ e, listening cs = Some e →
    listens cs = 1 ∧ serverEnabled = "true" ∧ portOverride ≠ Some "" ∧
    (wg cs = 0%Z → ∃ cs', cs_step cs cs' ∧ listening cs' = None)).
Proof.
  intros Hr. assert (Hi : cs_inv cs).
  { revert Hr. apply (rtc_ind_r (λ cs, cs_inv cs)).
    - split_and!; simpl; [lia | lia | done | done].
    - intros y z _ Hs Hy. by eapply cs_step_inv. }
  destruct Hi as (_ & Hl & _ & He). split; [done|]. intros e Hle. destruct (He e Hle) as (_ & ? & ? & ?).
  split_and!; try done. intros Hw. eexists. split; [by eapply cs_close|done].
Qed.

Definition demo_env : ServerEnv := {| serverEnabled := "true"; portOverride := None; Listen _ := None |}.

(** The theorem applied after one provider and one conversion. *)
Lemma configServer_once_witness :
  let cs := setEffective (@configServer_start demo_env (configServer_OnNew NewConfigServer)) ∅ in
  listening cs = Some defaultConfigServerEndpoint ∧ listens cs ≤ 1.
Proof.
  intros cs. split; [reflexivity|].
  apply (@configServer_once demo_env cs). eapply rtc_l; [apply cs_new|]. apply rtc_once. apply (@cs_convert demo_env).
Defined.

(** ** dry_run.go *)

Section dry_run.
Context {C : Confmap}.

Record DryRun := {
  locked : bool;
  configs : list (gmap string any);
  converters : list (conf → conf * option error);
  enabled : bool;
}.

(** How a call ends: it returns, it blocks on the mutex, or the process exits
    after printing the configuration. *)
Inductive outcome (A : Type) := Returned (a : A) | Blocked | Exited (printed : gmap string any).
Arguments Returned {A} a.
Arguments Blocked {A}.
Arguments Exited {A} printed.

Definition setLocked (dr : DryRun) (b : bool) : DryRun :=
  {| locked := b; configs := configs dr; converters := converters dr; enabled := enabled dr |}.

Definition dryRun_OnRetrieve (dr : DryRun) (retrieved : gmap string any) : DryRun * outcome unit :=
  if negb (enabled dr) then (dr, Returned ())
  else if locked dr then (dr, Blocked)
  else ({| locked := false; configs := configs dr ++ [retrieved]; converters := converters dr; enabled := enabled dr |},
        Returned ()).

(** The two loops of [Convert]: the first error ends them. *)
Fixpoint runAll {A} (f : conf → A → conf * option error) (cm : conf) (l : list A) : conf * option error :=
  match l with
  | [] => (cm, None)
  | x :: l => match f cm x with (cm, Some e) => (cm, Some e) | (cm, None) => runAll f cm l end
  end.

Definition dryRun_Convert (New : conf) (dr : DryRun) : DryRun * outcome (option error) :=
  if negb (enabled dr) then (dr, Returned None)
  else if locked dr then (dr, Blocked)
  else
    let dr := setLocked dr true in
    match runAll (λ cm cfg, Merge cm (NewFromStringMap cfg)) New (configs dr) with
    | (_, Some e) => (setLocked dr false, Returned (Some e))
    | (cm, None) =>
        match runAll (λ cm c, c cm) cm (converters dr) with
        | (_, Some e) => (dr, Returned (Some (Wrapf "error finalizing --dry-run with converter %v: %w" [] e)))
        | (cm, None) => (setLocked dr false, Exited (ToStringMap cm))
        end
    end.

(** A converter that fails during a dry run makes [Convert] return its
    error with the mutex still held, so every later call blocks. *)
Theorem dryRun_error_keeps_lock (New : conf) dr cm cm' e retrieved :
  enabled dr = true → locked dr = false →
  runAll (λ cm cfg, Merge cm (NewFromStringMap cfg)) New (configs dr) = (cm, None) →
  runAll (λ cm c, c cm) cm (converters dr) = (cm', Some e) →
  (dryRun_Convert New dr).2 = Returned (Some (Wrapf "error finalizing --dry-run with converter %v: %w" [] e)) ∧
  (dryRun_OnRetrieve (dryRun_Convert New dr).1 retrieved).2 = Blocked ∧
  (dryRun_Convert New (dryRun_Convert New dr).1).2 = Blocked.
Proof.
  intros He Hl Hm Hc. unfold dryRun_Convert at 1 2 4. rewrite He, Hl. simpl. rewrite Hm, Hc. simpl.
  split_and!; [done| |].
  - unfold dryRun_OnRetrieve. simpl. by rewrite He.
  - unfold dryRun_Convert. simpl. by rewrite He.
Qed.
End dry_run.

(** The theorem applied to a converter that always fails. *)
Lemma dryRun_error_keeps_lock_witness :
  let dr := {| locked := false; configs := [∅]; converters := [λ c, (c, Some (Errorf "no" []))]; enabled := true |} in
  (@dryRun_OnRetrieve flat_confmap (@dryRun_Convert flat_confmap ∅ dr).1 ∅).2 = Blocked _.
Proof.
  intros dr.
  by destruct (@dryRun_error_keeps_lock flat_confmap ∅ dr ∅ ∅ (Errorf "no" []) ∅) as (_ & ? & _).
Defined.
