(* ===== verification/Settings.v ===== *)
(** * Command line settings and environment

    [src/internal/settings/settings.go]: the flags, the choice of the
    configuration URIs, the memory settings and the environment variables the
    collector sets for itself, and the order of the converters.  The process
    environment is a state threaded by the monad [envM]; [log.Fatalf] and an
    error returned to [main] both end the process and are [Err].  [os.Setenv] of
    the names and values written here cannot fail.  pflag's parser, [os.Stat] and
    the platform are parameters.  Integers are Go's 64-bit [int]. *)

From S2P Require Import Prelude GoStrings GoValue Regexp.
From Stdlib Require Import Ascii.

(** ** Process environment *)

Abbreviation env := (gmap string string).
Definition envM (A : Type) := env → res (A * env).
#[global] Instance envM_ret : MRet envM := λ A a e, Ok (a, e).
#[global] Instance envM_bind : MBind envM := λ A B f m e,
  match m e with Ok (a, e') => f a e' | Err er => Err er end.
Definition fail {A} (er : error) : envM A := λ _, Err er.
Definition Getenv (k : string) : envM string := λ e, Ok (default "" (e !! k), e).
Definition LookupEnv (k : string) : envM (option string) := λ e, Ok (e !! k, e).
Definition Setenv (k v : string) : envM () := λ e, Ok ((), <[k := v]> e).

(** Go's 64-bit [int]: the result of an arithmetic operation wraps around. *)
Definition wrap64 (z : Z) : Z := ((z + 2 ^ 63) mod 2 ^ 64 - 2 ^ 63)%Z.
(** [a * b / c] *)
Definition mul_div (a b c : Z) : Z := Z.quot (wrap64 (a * b)) c.

Definition APIURLEnvVar : string := "SPLUNK_API_URL".
Definition BallastEnvVar : string := "SPLUNK_BALLAST_SIZE_MIB".
Definition ConfigEnvVar : string := "SPLUNK_CONFIG".
Definition ConfigDirEnvVar : string := "SPLUNK_CONFIG_DIR".
Definition ConfigServerEnabledEnvVar : string := "SPLUNK_DEBUG_CONFIG_SERVER".
Definition ConfigYamlEnvVar : string := "SPLUNK_CONFIG_YAML".
Definition HecLogIngestURLEnvVar : string := "SPLUNK_HEC_URL".
Definition ListenInterfaceEnvVar : string := "SPLUNK_LISTEN_INTERFACE".
Definition HecTokenEnvVar : string := "SPLUNK_HEC_TOKEN".
Definition IngestURLEnvVar : string := "SPLUNK_INGEST_URL".
Definition MemLimitMiBEnvVar : string := "SPLUNK_MEMORY_LIMIT_MIB".
Definition MemTotalEnvVar : string := "SPLUNK_MEMORY_TOTAL_MIB".
Definition RealmEnvVar : string := "SPLUNK_REALM".
Definition TokenEnvVar : string := "SPLUNK_ACCESS_TOKEN".
Definition TraceIngestURLEnvVar : string := "SPLUNK_TRACE_URL".
Definition DefaultGatewayConfig : string := "/etc/otel/collector/gateway_config.yaml".
Definition DefaultOTLPLinuxConfig : string := "/etc/otel/collector/otlp_config_linux.yaml".
Definition DefaultConfigDir : string := "/etc/otel/collector/config.d".
Definition DefaultMemoryBallastPercentage : Z := 33.
Definition DefaultMemoryLimitPercentage : Z := 90.
Definition DefaultMemoryTotalMiB : Z := 512.
Definition DefaultListenInterface : string := "0.0.0.0".
Definition DefaultAgentConfigLinux : string := "/etc/otel/collector/agent_config.yaml".

(** ** Flags and settings *)

Record Settings := {
  configPaths : list string;
  configDir : option string;
  discoveryPropertiesFile : option string;
  setProperties : list string;
  discoveryProperties : list string;
  colCoreArgs : list string;
  providerSchemes : list string;  (* the keys of confMapProviders *)
  versionFlag : bool;
  noConvertConfig : bool;
  configD : bool;
  discoveryMode : bool;
  dryRunFlag : bool;
}.

Definition with_configPaths (s : Settings) (l : list string) : Settings :=
  {| configPaths := l; configDir := configDir s; discoveryPropertiesFile := discoveryPropertiesFile s;
     setProperties := setProperties s; discoveryProperties := discoveryProperties s; colCoreArgs := colCoreArgs s;
     providerSchemes := providerSchemes s; versionFlag := versionFlag s; noConvertConfig := noConvertConfig s;
     configD := configD s; discoveryMode := discoveryMode s; dryRunFlag := dryRunFlag s |}.

(** What [flagSet.Parse(args)] leaves in the flags. *)
Record Flags := {
  f_config : list string;
  f_set : list string;
  f_dryRun : bool;
  f_noConvertConfig : bool;
  f_configDir : option string;
  f_configD : bool;
  f_discovery : bool;
  f_discoveryProperties : option string;
  f_version : bool;
  f_versionChanged : bool;
  f_featureGates : list string;
  f_featureGatesChanged : bool;
  f_Args : list string;
}.

(** [setDefaultFeatureGates]: the gates to pass on and whether the flag counts
    as changed. *)
Definition addDefaultGate (gates : list string) (fg : string) : list string :=
  let bareGate := if HasPrefix fg "+" || HasPrefix fg "-" then sdrop 1 fg else fg in
  if negb (bool_decide (bareGate ∈ gates)) && negb (bool_decide ("-" +:+ bareGate ∈ gates)) &&
     negb (bool_decide ("+" +:+ bareGate ∈ gates))
  then gates ++ [fg] else gates.

Definition setDefaultFeatureGates (defaultFeatureGates : list string) (f : Flags) : list string * bool :=
  if f_versionChanged f then (f_featureGates f, f_featureGatesChanged f)
  else (foldl addDefaultGate (f_featureGates f) defaultFeatureGates,
        match defaultFeatureGates with [] => f_featureGatesChanged f | _ => true end).

Fixpoint parseSetOptionArguments (arguments : list string) : list string * list string :=
  match arguments with
  | [] => ([], [])
  | arg :: arguments =>
      let '(setProps, discoProps) := parseSetOptionArguments arguments in
      if HasPrefix arg "splunk.discovery" then (setProps, arg :: discoProps) else (arg :: setProps, discoProps)
  end.

Definition bool_text (b : bool) : string := if b then "true" else "false".

Definition flagSetToArgs (version versionChanged : bool) (gates : list string) (gatesChanged : bool)
    (colCommands args : list string) : list string :=
  (if versionChanged then ["--version"; bool_text version] else []) ++
  (if gatesChanged then flat_map (λ val, ["--feature-gates"; val]) gates else []) ++
  List.filter (λ arg, bool_decide (arg ∈ colCommands)) args.

(** ** URIs and paths *)

Definition letter (c : ascii) : bool := in_range "A" "Z" c || in_range "a" "z" c.
Definition scheme_byte (c : ascii) : bool :=
  letter c || in_range "0" "9" c || Ascii.eqb c "+" || Ascii.eqb c "." || Ascii.eqb c "-".

(** Anchored at both ends: a letter and one or more of [[A-Za-z0-9+.-]] as the
    scheme, a colon, and any text as the location. *)
Definition uriRegexp : regexp :=
  RCat (RGroup 1 (RCat (RChar letter) (RPlus (RChar scheme_byte))))
    (RCat (RLit ":") (RGroup 2 (RStar (RChar (λ _, true))))).

Definition parseURI (uri : string) : option (string * string) :=
  match match_here uriRegexp uri with
  | Some (_, m) => Some (group m 1, group m 2)
  | None => None
  end.

(** [filepath.Clean] on slash-separated paths. *)
Fixpoint cleanElems (rooted : bool) (stack elems : list string) : list string :=
  match elems with
  | [] => reverse stack
  | "" :: elems | "." :: elems => cleanElems rooted stack elems
  | ".." :: elems =>
      match stack with
      | [] => if rooted then cleanElems rooted [] elems else cleanElems rooted [".."] elems
      | ".." :: _ => cleanElems rooted (".." :: stack) elems
      | _ :: stack => cleanElems rooted stack elems
      end
  | e :: elems => cleanElems rooted (e :: stack) elems
  end.

Definition Clean (path : string) : string :=
  let rooted := HasPrefix path "/" in
  let body := Join (cleanElems rooted [] (SplitByte path "/")) "/" in
  if rooted then "/" +:+ body else if String.eqb body "" then "." else body.

Section settings.
(** [os.Stat(path)] fails; the path of the Windows agent configuration; the
    schemes of the discovery provider. *)
Variable StatErr : string → option error.
Variable DefaultAgentConfigWindows : string.
Variables PropertyScheme PropertiesFileScheme ConfigDScheme DiscoveryModeScheme : string.
Variable defaultFeatureGates : list string.

(** [loadConfMapProviders]: the schemes registered. *)
Definition loadConfMapProviders : list string :=
  ["env"; "file"; PropertyScheme; ConfigDScheme; DiscoveryModeScheme; PropertiesFileScheme].

Definition parseArgs (parsed : res Flags) : res Settings :=
  match parsed with
  | Err e => Err e
  | Ok f =>
      let '(gates, gatesChanged) := setDefaultFeatureGates defaultFeatureGates f in
      let '(setProps, discoProps) := parseSetOptionArguments (f_set f) in
      let settings :=
        {| configPaths := f_config f; configDir := f_configDir f;
           discoveryPropertiesFile := f_discoveryProperties f;
           setProperties := setProps; discoveryProperties := discoProps;
           colCoreArgs := flagSetToArgs (f_version f) (f_versionChanged f) gates gatesChanged ["validate"] (f_Args f);
           providerSchemes := loadConfMapProviders;
           versionFlag := f_version f; noConvertConfig := f_noConvertConfig f; configD := f_configD f;
           discoveryMode := f_discovery f; dryRunFlag := f_dryRun f |} in
      match f_discoveryProperties f with
      | None => Ok settings
      | Some propertiesFile =>
          match StatErr propertiesFile with
          | None => Ok settings
          | Some e => Err (Wrapf "unable to find discovery properties file %s. Ensure flag '--discovery-properties' is set correctly: %w" [propertiesFile] e)
          end
      end
  end.

Fixpoint requireEnvVars (path : string) (vars : list string) : envM () :=
  match vars with
  | [] => mret ()
  | v :: vars =>
      val ← Getenv v;
      if String.eqb val ""
      then fail (Errorf "ERROR: Missing required environment variable %s with default config path %s" [v; path])
      else requireEnvVars path vars
  end.

Fixpoint confirmRequiredEnvVarsForDefaultConfigs (paths : list string) : envM () :=
  match paths with
  | [] => mret ()
  | path :: paths =>
      if String.eqb path DefaultGatewayConfig || String.eqb path DefaultOTLPLinuxConfig then
        _ ← requireEnvVars path [RealmEnvVar; TokenEnvVar];
        confirmRequiredEnvVarsForDefaultConfigs paths
      else confirmRequiredEnvVarsForDefaultConfigs paths
  end.

(** The loop of [checkInputConfigs]: the files among the given configurations. *)
Fixpoint configFiles (schemes paths : list string) : res (list string) :=
  match paths with
  | [] => Ok []
  | filePath :: paths =>
      let check file :=
        match StatErr file with
        | Some e => Err (Wrapf "unable to find the configuration file %s, ensure flag '--config' is set properly: %w" [file] e)
        | None => match configFiles schemes paths with Err e => Err e | Ok files => Ok (file :: files) end
        end in
      match parseURI filePath with
      | None => check filePath
      | Some (scheme, location) =>
          if negb (bool_decide (scheme ∈ schemes)) then configFiles schemes paths
          else if negb (String.eqb scheme "file") then configFiles schemes paths
          else check location
      end
  end.

Definition checkInputConfigs (settings : Settings) : envM () :=
  match configFiles (providerSchemes settings) (configPaths settings) with
  | Err e => fail e
  | Ok [] => mret ()
  | Ok files => confirmRequiredEnvVarsForDefaultConfigs files
  end.

Definition checkConfigPathEnvVar (settings : Settings) : envM Settings :=
  configPath ← Getenv ConfigEnvVar;
  match StatErr configPath with
  | Some e => fail (Wrapf "unable to find the configuration file (%s), ensure %s environment variable is set properly: %w" [configPath; ConfigEnvVar] e)
  | None =>
      let settings :=
        if bool_decide (configPath ∈ configPaths settings) then settings
        else with_configPaths settings (configPaths settings ++ [configPath]) in
      _ ← confirmRequiredEnvVarsForDefaultConfigs (configPaths settings);
      mret settings
  end.

Definition getExistingDefaultConfigPath : res string :=
  match StatErr DefaultGatewayConfig with
  | None => Ok DefaultGatewayConfig
  | Some _ => Err (Errorf "unable to find the default configuration file %s" [DefaultGatewayConfig])
  end.

Definition checkConfig (settings : Settings) : envM Settings :=
  configPathVar ← Getenv ConfigEnvVar;
  configYaml ← Getenv ConfigYamlEnvVar;
  match configPaths settings with
  | _ :: _ => _ ← checkInputConfigs settings; mret settings
  | [] =>
      if negb (String.eqb configPathVar "") then checkConfigPathEnvVar settings
      else if negb (String.eqb configYaml "") then mret settings
      else match getExistingDefaultConfigPath with
           | Err e => fail e
           | Ok defaultConfigPath =>
               let settings := with_configPaths settings (configPaths settings ++ [defaultConfigPath]) in
               _ ← confirmRequiredEnvVarsForDefaultConfigs (configPaths settings);
               mret settings
           end
  end.

Definition envVarAsInt (name : string) : envM Z :=
  envVal ← Getenv name;
  match ParseInt64 envVal with
  | Some val => mret val
  | None => fail (Errorf "Expected a number in %s env variable but got %s" [name; envVal])
  end.

Definition setMemoryBallast (memTotalSizeMiB : Z) : envM Z :=
  text ← Getenv BallastEnvVar;
  ballastSize ← (if String.eqb text "" then mret (mul_div memTotalSizeMiB DefaultMemoryBallastPercentage 100)
                 else n ← envVarAsInt BallastEnvVar;
                      if (33 >? n)%Z
                      then fail (Errorf "Expected a number greater than 33 for %s env variable but got %d" [BallastEnvVar; pretty n])
                      else mret n);
  _ ← Setenv BallastEnvVar (pretty ballastSize);
  mret ballastSize.

Definition setMemoryLimit (memTotalSizeMiB : Z) : envM Z :=
  text ← Getenv MemLimitMiBEnvVar;
  memLimit ← (if String.eqb text "" then mret (mul_div memTotalSizeMiB DefaultMemoryLimitPercentage 100)
              else envVarAsInt MemLimitMiBEnvVar);
  _ ← Setenv MemLimitMiBEnvVar (pretty memLimit);
  mret memLimit.

Definition memoryTotal : envM Z :=
  text ← Getenv MemTotalEnvVar;
  if String.eqb text "" then mret DefaultMemoryTotalMiB
  else n ← envVarAsInt MemTotalEnvVar;
       if (99 >? n)%Z
       then fail (Errorf "expected a number greater than 99 for %s env variable but got %d" [MemTotalEnvVar; pretty n])
       else mret n.

(** The memory part of [checkRuntimeParams]. *)
Definition checkMemory : envM () :=
  memTotalSize ← memoryTotal;
  ballastSize ← setMemoryBallast memTotalSize;
  memLimit ← setMemoryLimit memTotalSize;
  if (wrap64 (2 * ballastSize) >? memLimit)%Z
  then fail (Errorf "memory limit (%d) is less than 2x ballast (%d). Increase memory limit or decrease ballast size" [pretty memLimit; pretty ballastSize])
  else mret ().

Definition checkRuntimeParams (settings : Settings) : envM Settings :=
  settings ← checkConfig settings;
  _ ← checkMemory;
  mret settings.

Definition isAgentConfig (path : string) : bool :=
  let path := match parseURI path with
              | Some (scheme, location) => if String.eqb scheme "file" then location else path
              | None => path
              end in
  let cleaned := Clean path in
  String.eqb path DefaultAgentConfigLinux || String.eqb cleaned DefaultAgentConfigLinux ||
  String.eqb path DefaultAgentConfigWindows || String.eqb cleaned DefaultAgentConfigWindows.

Definition defaultListenAddr (s : Settings) : string :=
  if existsb isAgentConfig (configPaths s) then "127.0.0.1" else DefaultListenInterface.

Fixpoint setUnset (vars : list (string * string)) : envM () :=
  match vars with
  | [] => mret ()
  | (k, v) :: vars =>
      present ← LookupEnv k;
      _ ← (match present with Some _ => mret () | None => Setenv k v end);
      setUnset vars
  end.

Definition setDefaultEnvVars (s : Settings) : envM () :=
  realm ← LookupEnv RealmEnvVar;
  token ← LookupEnv TokenEnvVar;
  setUnset
    ([(ListenInterfaceEnvVar, defaultListenAddr s); (ConfigServerEnabledEnvVar, "true")] ++
     (match realm with
      | Some realm =>
          [(APIURLEnvVar, "https://api." +:+ realm +:+ ".signalfx.com");
           (IngestURLEnvVar, "https://ingest." +:+ realm +:+ ".signalfx.com");
           (TraceIngestURLEnvVar, "https://ingest." +:+ realm +:+ ".signalfx.com/v2/trace");
           (HecLogIngestURLEnvVar, "https://ingest." +:+ realm +:+ ".signalfx.com/v1/log")]
      | None => []
      end) ++
     (match token with Some token => [(HecTokenEnvVar, token)] | None => [] end)).

Definition New (parsed : res Flags) : envM Settings :=
  match parseArgs parsed with
  | Err e => fail e
  | Ok s =>
      if versionFlag s then mret s
      else
        s ← checkRuntimeParams s;
        _ ← setDefaultEnvVars s;
        mret s
  end.

Definition getConfigDir (s : Settings) : envM string :=
  envConfigDir ← LookupEnv ConfigDirEnvVar;
  mret (match configDir s with
        | Some d => d
        | None => default DefaultConfigDir envConfigDir
        end).

Definition ResolverURIs (s : Settings) : envM (list string) :=
  configEnvVal ← Getenv ConfigEnvVar;
  let paths :=
    match configPaths s with
    | [] => if String.eqb configEnvVal "" then [] else ["file:" +:+ configEnvVal]
    | l => l
    end in
  dir ← getConfigDir s;
  let paths := paths ++
    (match discoveryPropertiesFile s with Some f => [PropertiesFileScheme +:+ ":" +:+ f] | None => [] end) ++
    map (λ property, PropertyScheme +:+ ":" +:+ property) (discoveryProperties s) ++
    (if configD s then [ConfigDScheme +:+ ":" +:+ dir] else []) ++
    (if discoveryMode s then [DiscoveryModeScheme +:+ ":" +:+ dir] else []) in
  configYaml ← Getenv ConfigYamlEnvVar;
  mret (match paths with
        | [] => if String.eqb configYaml "" then [""] else ["env:" +:+ ConfigYamlEnvVar]
        | l => l
        end).
End settings.

(** ** URIs *)

Definition valid_scheme (s : string) : Prop :=
  ∃ a rest, s = String a rest ∧ letter a = true ∧ rest ≠ "" ∧ sall scheme_byte rest.

Lemma valid_scheme_colon s : valid_scheme s → ContainsByte s ":" = false.
Proof.
  intros (a & rest & -> & Ha & _ & Hs). rewrite ContainsByte_cons, (sall_ContainsByte scheme_byte) by done.
  rewrite orb_false_r. apply Ascii.eqb_neq. by intros ->.
Qed.

Lemma scheme_group_inv c w c' :
  derives (RGroup 1 (RCat (RChar letter) (RPlus (RChar scheme_byte)))) c w c' → valid_scheme w ∧ c' = (1, w) :: c.
Proof.
  intros (c1 & (w1 & w2 & c2 & -> & Hd1 & Hd2)%derives_RCat & ->)%derives_RGroup.
  apply derives_plus_char_inv in Hd2 as (Hne & Hs & ->). inversion Hd1; subst.
  split; [|done]. eexists _, w2. by rewrite append_cons, append_nil_l.
Qed.

Lemma parseURI_sound s scheme location :
  parseURI s = Some (scheme, location) → valid_scheme scheme ∧ s = scheme +:+ ":" +:+ location.
Proof.
  unfold parseURI, match_here. set (k := λ s' c, Some (stake (slen s - slen s') s, c)).
  destruct (rmatch uriRegexp s [] k) as [[m0 m]|] eqn:Hm; [|done]. intros [= <- <-].
  change (rmatch uriRegexp s [] k) with
    (rmatch (RGroup 1 (RCat (RChar letter) (RPlus (RChar scheme_byte)))) s []
      (λ s' c', rmatch (RLit ":") s' c' (λ s' c', rmatch (RGroup 2 (RStar (RChar (λ _, true)))) s' c' k))) in Hm.
  apply rmatch_sound in Hm as (w & s1 & c1 & Hs & [Hw ->]%scheme_group_inv & Hm).
  apply rmatch_sound in Hm as (w2 & s2 & c2 & -> & [-> ->]%derives_RLit_iff & Hm).
  change (rmatch (RGroup 2 (RStar (RChar (λ _, true)))) s2 [(1, w)] k) with
    (star_loop (rmatch (RChar (λ _, true))) (slen s2) s2 [(1, w)]
       (λ s' c', k s' ((2, stake (slen s2 - slen s') s2) :: c'))) in Hm.
  erewrite (star_greedy (λ _, true) s2) in Hm; [|done|done]. injection Hm as <- <-.
  rewrite Nat.sub_0_r, stake_all by done. done.
Qed.

(** [parseURI] accepts exactly the texts made of a valid scheme, a colon
    and any location, and splits them there. *)
Theorem parseURI_correct s scheme location :
  parseURI s = Some (scheme, location) ↔ valid_scheme scheme ∧ s = scheme +:+ ":" +:+ location.
Proof.
  split; [apply parseURI_sound|]. intros [Hv ->].
  assert (Hd : ∃ c, derives uriRegexp [] (scheme +:+ ":" +:+ location) c).
  { destruct Hv as (a & rest & -> & Ha & Hne & Hs). eexists.
    econstructor; [constructor|econstructor; [apply derives_RLit|constructor; by apply derives_star_char]].
    change (String a rest) with (String a "" +:+ rest).
    econstructor; [by constructor | by apply derives_plus_char]. }
  destruct Hd as [c Hd]. destruct (match_here_complete uriRegexp _ "" _ Hd) as [[m0 m] Hm]. rewrite append_nil_r in Hm.
  assert (parseURI (scheme +:+ ":" +:+ location) = Some (group m 1, group m 2)) as Hp.
  { unfold parseURI. by rewrite Hm. }
  rewrite Hp. destruct (parseURI_sound _ _ _ Hp) as [Hv' Heq].
  apply split_at_byte in Heq as [<- <-]; [done|by apply valid_scheme_colon..].
Qed.

(** ** Environment *)

Lemma envM_bind_ok {A B} (m : envM A) (f : A → envM B) e b e' :
  (m ≫= f) e = Ok (b, e') ↔ ∃ a e1, m e = Ok (a, e1) ∧ f a e1 = Ok (b, e').
Proof. unfold mbind, envM_bind. destruct (m e) as [[a e1]|]; naive_solver. Qed.

Lemma setUnset_ok vars e :
  ∃ e', setUnset vars e = Ok ((), e') ∧
    ∀ k, e' !! k = match e !! k with Some v => Some v | None => list_to_map (M := gmap string string) vars !! k end.
Proof.
  revert e; induction vars as [|[k v] vars IH]; intros e; cbn [setUnset].
  { exists e. split; [done|]. intros k. by destruct (e !! k). }
  assert (∃ e1, (present ← LookupEnv k; match present with Some _ => mret () | None => Setenv k v end) e = Ok ((), e1) ∧
    ∀ k', e1 !! k' = match e !! k' with Some w => Some w | None => if decide (k' = k) then Some v else None end)
    as (e1 & He1 & Hl1).
  { unfold mbind, envM_bind, LookupEnv. destruct (e !! k) as [w|] eqn:Hk.
    - exists e. split; [done|]. intros k'. destruct (e !! k') eqn:Hk'; [done|]. case_decide; [subst; congruence | done].
    - exists (<[k := v]> e). split; [done|]. intros k'. destruct (decide (k' = k)) as [->|Hne].
      + by rewrite lookup_insert_eq, Hk.
      + rewrite lookup_insert_ne by done. by destruct (e !! k'). }
  destruct (IH e1) as (e' & He' & Hl'). exists e'. split.
  - revert He1. unfold mbind, envM_bind, LookupEnv. destruct (e !! k); simpl; unfold mret, envM_ret, Setenv.
    + by intros [= <-].
    + by intros [= <-].
  - intros k'. rewrite Hl', Hl1. destruct (e !! k'); [done|]. rewrite list_to_map_cons.
    case_decide as Hd; [subst; by rewrite lookup_insert_eq | by rewrite lookup_insert_ne].
Qed.

Lemma wrap64_id z : (- 2 ^ 63 ≤ z < 2 ^ 63)%Z → wrap64 z = z.
Proof. intros Hz. unfold wrap64. rewrite Z.mod_small by lia. lia. Qed.

Local Ltac if_test H := match type of H with (if ?b then _ else _) _ = _ => destruct b end.

(** [checkMemory] sets two variables. *)
Lemma checkMemory_frame e u e' k :
  checkMemory e = Ok (u, e') → k ≠ BallastEnvVar → k ≠ MemLimitMiBEnvVar → e' !! k = e !! k.
Proof.
  assert (Hint : ∀ name e n e', envVarAsInt name e = Ok (n, e') → e' = e).
  { intros name e0 n e0'. unfold envVarAsInt, mbind, envM_bind, Getenv. destruct (ParseInt64 _); [|done].
    by intros [= <- <-]. }
  intros (total & e1 & Ht & (b & e2 & Hb & (l & e3 & Hl & Hc)%envM_bind_ok)%envM_bind_ok)%envM_bind_ok Hk1 Hk2.
  assert (e3 = e') as <- by (destruct (_ >? _)%Z; [done | by injection Hc]).
  unfold memoryTotal, setMemoryBallast, setMemoryLimit in *.
  apply envM_bind_ok in Hl as (tl & ? & [= <- <-] & (l' & e4 & Hl & [= <- <-])%envM_bind_ok).
  apply envM_bind_ok in Hb as (tb & ? & [= <- <-] & (b' & e5 & Hb & [= <- <-])%envM_bind_ok).
  apply envM_bind_ok in Ht as (tt & ? & [= <- <-] & Ht).
  rewrite lookup_insert_ne by done.
  assert (e4 = <[BallastEnvVar := pretty b']> e5) as ->.
  { if_test Hl; [by injection Hl | by apply Hint in Hl]. }
  rewrite lookup_insert_ne by done.
  assert (e5 = e1) as ->.
  { if_test Hb; [by injection Hb|]. apply envM_bind_ok in Hb as (n & ? & ->%Hint & Hb).
    destruct (33 >? n)%Z; [done | by injection Hb]. }
  if_test Ht; [by injection Ht as <- <-|]. apply envM_bind_ok in Ht as (n & ? & ->%Hint & Ht).
  destruct (99 >? n)%Z; [done | by injection Ht as <- <-].
Qed.

Definition unset (e : env) (k : string) : Prop := default "" (e !! k) = "".

Lemma Getenv_unset e k : unset e k → Getenv k e = Ok ("", e).
Proof. unfold unset, Getenv. by intros ->. Qed.

(** With neither a ballast nor a limit in the environment, every total of
    at least 99 MiB (and below the overflow of the 64-bit product) passes the
    check: the ballast is set to 33 percent of it and the limit to 90 percent,
    rounded down, and nothing else changes. *)
Theorem checkMemory_defaults (e : env) total :
  memoryTotal e = Ok (total, e) → (99 ≤ total < 2 ^ 63 / 90)%Z →
  unset e BallastEnvVar → unset e MemLimitMiBEnvVar →
  checkMemory e = Ok ((), <[MemLimitMiBEnvVar := pretty (total * 90 / 100)%Z]>
                            (<[BallastEnvVar := pretty (total * 33 / 100)%Z]> e)).
Proof.
  intros Ht Hr Hb Hl. change (2 ^ 63 / 90)%Z with 102481911520608620%Z in Hr.
  assert (Hdiv : ∀ p, (0 ≤ p ≤ 90)%Z → mul_div total p 100 = (total * p / 100)%Z).
  { intros p Hp. unfold mul_div. rewrite wrap64_id by (assert (0 ≤ total * p ≤ total * 90)%Z by nia; lia). apply Z.quot_div_nonneg; nia. }
  unfold checkMemory, mbind, envM_bind. rewrite Ht. unfold setMemoryBallast, mbind, envM_bind.
  rewrite (Getenv_unset _ _ Hb). cbn [String.eqb mret envM_ret Setenv].
  unfold setMemoryLimit, mbind, envM_bind.
  rewrite (Getenv_unset (<[BallastEnvVar := _]> e) MemLimitMiBEnvVar)
    by (unfold unset; by rewrite lookup_insert_ne by done).
  cbn [String.eqb mret envM_ret Setenv]. unfold mret, envM_ret, Setenv.
  rewrite (Hdiv DefaultMemoryBallastPercentage), (Hdiv DefaultMemoryLimitPercentage) by (unfold DefaultMemoryBallastPercentage, DefaultMemoryLimitPercentage; lia).
  assert (Hle : (2 * (total * DefaultMemoryBallastPercentage / 100) ≤ total * DefaultMemoryLimitPercentage / 100)%Z).
  { unfold DefaultMemoryBallastPercentage, DefaultMemoryLimitPercentage. apply Z.div_le_lower_bound; [lia|].
    pose proof (Z.mul_div_le (total * 33) 100). lia. }
  rewrite wrap64_id.
  2:{ unfold DefaultMemoryBallastPercentage. pose proof (Z.mul_div_le (total * 33) 100).
      pose proof (Z.div_pos (total * 33) 100). lia. }
  destruct (2 * (total * DefaultMemoryBallastPercentage / 100) >? total * DefaultMemoryLimitPercentage / 100)%Z eqn:Hg; [|done].
  rewrite Z.gtb_ltb, Z.ltb_lt in Hg. lia.
Qed.

(** The theorem applied to the smallest accepted total. *)
Lemma checkMemory_defaults_witness :
  checkMemory {[ MemTotalEnvVar := "99" ]} =
  Ok ((), <[MemLimitMiBEnvVar := "89"]> (<[BallastEnvVar := "32"]> {[ MemTotalEnvVar := "99" ]})).
Proof. apply (checkMemory_defaults {[ MemTotalEnvVar := "99" ]} 99); [reflexivity | done | reflexivity..]. Defined.

(** A run of [checkMemory] that succeeds leaves a ballast and a limit in
    the environment with the limit at least twice the ballast, and a total that
    was given is at least 99 and a ballast that was given at least 33. *)
Theorem checkMemory_sound (e e' : env) :
  checkMemory e = Ok ((), e') →
  ∃ ballast limit,
    e' = <[MemLimitMiBEnvVar := pretty limit]> (<[BallastEnvVar := pretty ballast]> e) ∧
    (wrap64 (2 * ballast) ≤ limit)%Z ∧
    (¬ unset e MemTotalEnvVar → ∃ t, ParseInt64 (default "" (e !! MemTotalEnvVar)) = Some t ∧ (99 ≤ t)%Z) ∧
    (¬ unset e BallastEnvVar → ParseInt64 (default "" (e !! BallastEnvVar)) = Some ballast ∧ (33 ≤ ballast)%Z) ∧
    (¬ unset e MemLimitMiBEnvVar → ParseInt64 (default "" (e !! MemLimitMiBEnvVar)) = Some limit).
Proof.
  intros (total & e1 & Ht & (ballast & e2 & Hb & (limit & e3 & Hl & Hc)%envM_bind_ok)%envM_bind_ok)%envM_bind_ok.
  assert (Hint : ∀ name e n e', envVarAsInt name e = Ok (n, e') → e' = e ∧ ParseInt64 (default "" (e !! name)) = Some n).
  { intros name e0 n e0'. unfold envVarAsInt, mbind, envM_bind, Getenv. destruct (ParseInt64 _) eqn:Hp; [|done].
    by intros [= -> <-]. }
  assert (e1 = e ∧ (¬ unset e MemTotalEnvVar →
    ∃ t, ParseInt64 (default "" (e !! MemTotalEnvVar)) = Some t ∧ (99 ≤ t)%Z)) as [-> Ht'].
  { unfold memoryTotal in Ht. apply envM_bind_ok in Ht as (text & e0 & [= <- <-] & Ht).
    destruct (String.eqb _ "") eqn:He.
    - apply String.eqb_eq in He. injection Ht as <- <-. split; [done|]. by intros [].
    - apply envM_bind_ok in Ht as (n & e0 & [-> Hn]%Hint & Ht). destruct (99 >? n)%Z eqn:Hg; [done|].
      injection Ht as <- <-. split; [done|]. intros _. exists n. split; [done|]. rewrite Z.gtb_ltb in Hg. apply Z.ltb_ge in Hg. lia. }
  assert (e2 = <[BallastEnvVar := pretty ballast]> e ∧ (¬ unset e BallastEnvVar →
    ParseInt64 (default "" (e !! BallastEnvVar)) = Some ballast ∧ (33 ≤ ballast)%Z)) as [-> Hb'].
  { unfold setMemoryBallast in Hb. apply envM_bind_ok in Hb as (text & e0 & [= <- <-] & Hb).
    apply envM_bind_ok in Hb as (b & e0 & Hbb & Hb). injection Hb as <- <-.
    destruct (String.eqb _ "") eqn:He.
    - apply String.eqb_eq in He. injection Hbb as <- <-. split; [done|]. by intros [].
    - apply envM_bind_ok in Hbb as (n & e4 & [-> Hn]%Hint & Hbb). destruct (33 >? n)%Z eqn:Hg; [done|].
      injection Hbb as <- <-. split; [done|]. intros _. split; [done|]. rewrite Z.gtb_ltb in Hg. apply Z.ltb_ge in Hg. lia. }
  assert (e3 = <[MemLimitMiBEnvVar := pretty limit]> (<[BallastEnvVar := pretty ballast]> e) ∧
    (¬ unset e MemLimitMiBEnvVar → ParseInt64 (default "" (e !! MemLimitMiBEnvVar)) = Some limit)) as [-> Hl'].
  { unfold setMemoryLimit in Hl. apply envM_bind_ok in Hl as (text & e0 & [= <- <-] & Hl).
    apply envM_bind_ok in Hl as (l & e0 & Hll & Hl). injection Hl as <- <-.
    rewrite (lookup_insert_ne e BallastEnvVar MemLimitMiBEnvVar) in Hll by done.
    destruct (String.eqb _ "") eqn:He.
    - apply String.eqb_eq in He. injection Hll as <- <-. split; [done|]. by intros [].
    - apply Hint in Hll as [-> Hn]. rewrite lookup_insert_ne in Hn by done. done. }
  destruct (wrap64 (2 * ballast) >? limit)%Z eqn:Hg; [done|]. injection Hc as <-.
  exists ballast, limit. split_and!; try done. rewrite Z.gtb_ltb in Hg. by apply Z.ltb_ge in Hg.
Qed.

(** The theorem applied to a given ballast. *)
Lemma checkMemory_sound_witness :
  ∃ ballast limit : Z, ParseInt64 "40" = Some ballast ∧ (wrap64 (2 * ballast) ≤ limit)%Z.
Proof.
  destruct (checkMemory_sound {[ BallastEnvVar := "40" ]}
    (<[MemLimitMiBEnvVar := "460"]> (<[BallastEnvVar := "40"]> {[ BallastEnvVar := "40" ]})))
    as (b & l & _ & Hle & _ & Hb & _); [reflexivity|].
  exists b, l. split; [|done]. apply Hb. by vm_compute.
Defined.

Section settings_theorems.
Variable StatErr : string → option error.
Variable DefaultAgentConfigWindows : string.
Variables PropertyScheme PropertiesFileScheme ConfigDScheme DiscoveryModeScheme : string.
Variable defaultFeatureGates : list string.

Abbreviation defaultsOf := (setDefaultEnvVars DefaultAgentConfigWindows).
Abbreviation newSettings := (New StatErr DefaultAgentConfigWindows PropertyScheme PropertiesFileScheme
  ConfigDScheme DiscoveryModeScheme defaultFeatureGates).
Abbreviation urisOf := (ResolverURIs PropertyScheme PropertiesFileScheme ConfigDScheme DiscoveryModeScheme).

(** The variables [setDefaultEnvVars] may set. *)
Definition defaultedVars : list string :=
  [ListenInterfaceEnvVar; ConfigServerEnabledEnvVar; APIURLEnvVar; IngestURLEnvVar; TraceIngestURLEnvVar;
   HecLogIngestURLEnvVar; HecTokenEnvVar].

Local Ltac find_var :=
  repeat (rewrite list_to_map_cons; first [rewrite lookup_insert_eq; reflexivity | rewrite lookup_insert_ne by done]).

Lemma defaulted_keys addr (realm token : option string) k :
  k ∈ (([(ListenInterfaceEnvVar, addr); (ConfigServerEnabledEnvVar, "true")] ++
     (match realm with
      | Some realm =>
          [(APIURLEnvVar, "https://api." +:+ realm +:+ ".signalfx.com");
           (IngestURLEnvVar, "https://ingest." +:+ realm +:+ ".signalfx.com");
           (TraceIngestURLEnvVar, "https://ingest." +:+ realm +:+ ".signalfx.com/v2/trace");
           (HecLogIngestURLEnvVar, "https://ingest." +:+ realm +:+ ".signalfx.com/v1/log")]
      | None => []
      end) ++
     (match token with Some token => [(HecTokenEnvVar, token)] | None => [] end)).*1) → k ∈ defaultedVars.
Proof.
  unfold defaultedVars. destruct realm, token; cbn [app fmap list_fmap fst]; rewrite !elem_of_cons, elem_of_nil; tauto.
Qed.

Lemma setDefaults_frame s e u e' k : defaultsOf s e = Ok (u, e') → k ∉ defaultedVars → e' !! k = e !! k.
Proof.
  unfold setDefaultEnvVars, mbind, envM_bind, LookupEnv.
  match goal with |- context [setUnset ?vars e] => destruct (setUnset_ok vars e) as (e1 & -> & Hl) end.
  intros [= <- <-] Hk. rewrite Hl. destruct (e !! k); [done|]. apply not_elem_of_list_to_map_1.
  intros Hin. by apply Hk, (defaulted_keys _ _ _ _ Hin).
Qed.

(** [setDefaultEnvVars] never changes a variable that is set, always
    leaves the listen interface and the config server switch set, derives the
    four endpoints from the realm and the HEC token from the access token, and
    touches nothing else. *)
Theorem setDefaultEnvVars_correct (s : Settings) (e : env) :
  ∃ e', defaultsOf s e = Ok ((), e') ∧
    (∀ k v, e !! k = Some v → e' !! k = Some v) ∧
    e' !! ListenInterfaceEnvVar = Some (default (defaultListenAddr DefaultAgentConfigWindows s) (e !! ListenInterfaceEnvVar)) ∧
    e' !! ConfigServerEnabledEnvVar = Some (default "true" (e !! ConfigServerEnabledEnvVar)) ∧
    (∀ realm, e !! RealmEnvVar = Some realm →
      e' !! IngestURLEnvVar = Some (default ("https://ingest." +:+ realm +:+ ".signalfx.com") (e !! IngestURLEnvVar)) ∧
      e' !! APIURLEnvVar = Some (default ("https://api." +:+ realm +:+ ".signalfx.com") (e !! APIURLEnvVar))) ∧
    (∀ token, e !! TokenEnvVar = Some token → e' !! HecTokenEnvVar = Some (default token (e !! HecTokenEnvVar))) ∧
    (∀ k, k ∉ defaultedVars → e' !! k = e !! k).
Proof.
  unfold setDefaultEnvVars, mbind, envM_bind, LookupEnv.
  match goal with |- context [setUnset ?vars e] => destruct (setUnset_ok vars e) as (e' & -> & Hl) end.
  exists e'. split; [done|]. split_and!.
  - intros k v Hk. by rewrite Hl, Hk.
  - rewrite Hl. destruct (e !! ListenInterfaceEnvVar); [done|]. cbn [app]. find_var.
  - rewrite Hl. destruct (e !! ConfigServerEnabledEnvVar); [done|]. cbn [app]. find_var.
  - intros realm Hr. rewrite !Hl, Hr. cbn [app].
    split; [destruct (e !! IngestURLEnvVar) | destruct (e !! APIURLEnvVar)]; try done; find_var.
  - intros token Htok. rewrite Hl, Htok. destruct (e !! HecTokenEnvVar); [done|].
    destruct (e !! RealmEnvVar); cbn [app]; find_var.
  - intros k Hk. rewrite Hl. destruct (e !! k); [done|]. apply not_elem_of_list_to_map_1.
    intros Hin. by apply Hk, (defaulted_keys _ _ _ _ Hin).
Qed.

Lemma confirm_env paths e u e' : confirmRequiredEnvVarsForDefaultConfigs paths e = Ok (u, e') → e' = e.
Proof.
  revert u; induction paths as [|p paths IH]; intros u; cbn [confirmRequiredEnvVarsForDefaultConfigs]; [by intros [=]|].
  destruct (_ || _); [|apply IH].
  intros (? & e1 & Hr & Hc)%envM_bind_ok. apply envM_bind_ok in Hr as (val & e2 & [= <- <-] & Hr).
  destruct (String.eqb _ ""); [done|]. apply envM_bind_ok in Hr as (val & e3 & [= <- <-] & Hr).
  destruct (String.eqb _ ""); [done|]. injection Hr as <- <-. by apply IH in Hc.
Qed.

(** The configuration [checkConfig] settles on. *)
Definition chosenPaths (flags : list string) (e : env) : list string :=
  match flags with
  | [] => let fromEnv := default "" (e !! ConfigEnvVar) in
          if String.eqb fromEnv "" then
            if String.eqb (default "" (e !! ConfigYamlEnvVar)) "" then [DefaultGatewayConfig] else []
          else [fromEnv]
  | l => l
  end.

Lemma checkConfig_chosen s e s' e' :
  checkConfig StatErr s e = Ok (s', e') →
  e' = e ∧ s' = with_configPaths s (chosenPaths (configPaths s) e).
Proof.
  intros (cp & e1 & [= <- <-] & (cy & e2 & [= <- <-] & Hc)%envM_bind_ok)%envM_bind_ok. unfold chosenPaths.
  destruct (configPaths s) as [|p ps] eqn:Hps.
  - destruct (String.eqb (default "" (e !! ConfigEnvVar)) "") eqn:Hce; cbn [negb] in Hc.
    + destruct (String.eqb (default "" (e !! ConfigYamlEnvVar)) "") eqn:Hcy; cbn [negb] in Hc.
      * unfold getExistingDefaultConfigPath in Hc. destruct (StatErr DefaultGatewayConfig); [done|].
        apply envM_bind_ok in Hc as (u & e3 & ->%confirm_env & [= <- <-]). done.
      * injection Hc as <- <-. split; [done|]. rewrite <-Hps. by destruct s.
    + unfold checkConfigPathEnvVar in Hc. apply envM_bind_ok in Hc as (c & e3 & [= <- <-] & Hc).
      destruct (StatErr _); [done|]. rewrite Hps in Hc.
      rewrite bool_decide_eq_false_2 in Hc by apply not_elem_of_nil.
      apply envM_bind_ok in Hc as (u & e3 & ->%confirm_env & [= <- <-]). done.
  - apply envM_bind_ok in Hc as (u & e3 & Hci & [= <- <-]).
    assert (e3 = e) as ->.
    { unfold checkInputConfigs in Hci. destruct (configFiles _ _ _) as [[|f fs]|]; [by injection Hci| |done].
      by apply confirm_env in Hci. }
    split; [done|]. rewrite <-Hps. by destruct s.
Qed.

Lemma parseSet_nil l :
  (∀ a, a ∈ l → HasPrefix a "splunk.discovery" = false) → (parseSetOptionArguments l).2 = [].
Proof.
  induction l as [|a l IH]; intros Hl; [done|]. cbn [parseSetOptionArguments].
  destruct (parseSetOptionArguments l) as [sp dp]. rewrite (Hl a) by left. apply IH. intros b Hb. apply Hl. by right.
Qed.

(** Without discovery options, the configuration the collector resolves
    is, in this order of priority, the [--config] flags, the file named by
    SPLUNK_CONFIG, the text in SPLUNK_CONFIG_YAML, the default gateway file. *)
Theorem config_priority (f : Flags) (e e' : env) s :
  newSettings (Ok f) e = Ok (s, e') →
  f_version f = false → f_discoveryProperties f = None → f_configD f = false → f_discovery f = false →
  (∀ a, a ∈ f_set f → HasPrefix a "splunk.discovery" = false) →
  urisOf s e' = Ok
    (match f_config f with
     | [] =>
         if String.eqb (default "" (e !! ConfigEnvVar)) "" then
           if String.eqb (default "" (e !! ConfigYamlEnvVar)) "" then [DefaultGatewayConfig]
           else ["env:" +:+ ConfigYamlEnvVar]
         else [default "" (e !! ConfigEnvVar)]
     | l => l
     end, e').
Proof.
  intros Hn Hv Hp Hcd Hdm Hset. unfold New, parseArgs in Hn. rewrite Hp in Hn.
  destruct (setDefaultFeatureGates defaultFeatureGates f) as [gates changed].
  pose proof (parseSet_nil _ Hset) as Hds. destruct (parseSetOptionArguments (f_set f)) as [sp dp]. simpl in Hds. subst dp.
  cbn [versionFlag] in Hn. rewrite Hv in Hn.
  apply envM_bind_ok in Hn as (s1 & e1 & Hrt & (u & e2 & Hd & [= <- <-])%envM_bind_ok).
  apply envM_bind_ok in Hrt as (s2 & e3 & [-> ->]%checkConfig_chosen & (u' & e4 & Hm & [= <- <-])%envM_bind_ok).
  assert (Hsame : ∀ k, k ≠ BallastEnvVar → k ≠ MemLimitMiBEnvVar → k ∉ defaultedVars → e2 !! k = e !! k).
  { intros k H1 H2 H3. rewrite (setDefaults_frame _ _ _ _ _ Hd H3). by eapply checkMemory_frame. }
  assert (Hcfg : e2 !! ConfigEnvVar = e !! ConfigEnvVar) by (apply Hsame; apply (bool_decide_unpack _); by vm_compute).
  assert (Hyaml : e2 !! ConfigYamlEnvVar = e !! ConfigYamlEnvVar) by (apply Hsame; apply (bool_decide_unpack _); by vm_compute).
  unfold ResolverURIs, getConfigDir, mbind, envM_bind, Getenv, LookupEnv, mret, envM_ret.
  cbn [configPaths with_configPaths discoveryPropertiesFile discoveryProperties configD discoveryMode].
  rewrite Hcfg, Hyaml, Hcd, Hdm. unfold chosenPaths. cbn [map app].
  destruct (f_config f) as [|p ps]; [|by rewrite !app_nil_r].
  destruct (String.eqb (default "" (e !! ConfigEnvVar)) "") eqn:Hce; simpl; [|done].
  destruct (String.eqb (default "" (e !! ConfigYamlEnvVar)) "") eqn:Hcy; simpl; done.
Qed.
End settings_theorems.

Definition demo_flags : Flags :=
  {| f_config := []; f_set := ["processors.batch.timeout=2s"]; f_dryRun := false; f_noConvertConfig := false;
     f_configDir := None; f_configD := false; f_discovery := false; f_discoveryProperties := None;
     f_version := false; f_versionChanged := false; f_featureGates := []; f_featureGatesChanged := false; f_Args := [] |}.

(** The theorem applied when SPLUNK_CONFIG and SPLUNK_CONFIG_YAML are both set. *)
Lemma config_priority_witness :
  ∃ s e', New (λ _, None) "w" "p" "pf" "d" "m" [] (Ok demo_flags) {[ ConfigEnvVar := "/a.yaml"; ConfigYamlEnvVar := "x" ]} = Ok (s, e') ∧
    ResolverURIs "p" "pf" "d" "m" s e' = Ok (["/a.yaml"], e').
Proof.
  assert (Hok : is_ok (New (λ _, None) "w" "p" "pf" "d" "m" [] (Ok demo_flags)
    {[ ConfigEnvVar := "/a.yaml"; ConfigYamlEnvVar := "x" ]}) = true) by by vm_compute.
  destruct (New (λ _, None) "w" "p" "pf" "d" "m" [] (Ok demo_flags) {[ ConfigEnvVar := "/a.yaml"; ConfigYamlEnvVar := "x" ]})
    as [[s e']|] eqn:Hn; [|done]. clear Hok.
  exists s, e'. split; [done|].
  rewrite (config_priority (λ _, None) "w" "p" "pf" "d" "m" [] demo_flags _ e' s Hn); [by vm_compute|done..|].
  intros a [->|[]%not_elem_of_nil]%elem_of_cons. by vm_compute.
Defined.
