(* ===== verification/Collector.v ===== *)
(** * The converters of a collector run

    [Settings.ConfMapConverters] of [src/internal/settings/settings.go] and the way
    [cmd/otelcol/main.go] hands the converters to the configuration resolver: the
    models of [Converters], [DPFilters] and [ServiceConverters] composed in the
    order of the source. *)

From S2P Require Import Prelude GoStrings GoValue Confmap Filters Converters DPFilters ServiceConverters Settings.

Section collector.
Context {C : Confmap} {Lv : Levels} `{PatternEngine, FloatText, MapRange}.
Variable loadProperties : string → res (list (string * string)).
Variable yamlUnmarshal : string → res any.
Variable Unflatten : gmap string any → string → gmap string any.
Variable unmarshalExporter : gmap string any → res signalfxExporterConfig.

(** [confmap.Converter]: the configuration after the call and the error. *)
Abbreviation Converter := (conf → conf * option error).

(** A converter that replaces [*in] only when it succeeds. *)
Definition replacing (f : option conf → res (option conf)) : Converter := λ c,
  match f (Some c) with
  | Ok (Some c') => (c', None)
  | Ok None => (c, None)
  | Err e => (c, Some e)
  end.

(** A converter that merges into [*in]. *)
Definition merging (f : option conf → option conf * option error) : Converter := λ c,
  match f (Some c) with (Some c', e) => (c', e) | (None, e) => (c, e) end.

Definition ConfMapConverters (s : Settings) : list Converter :=
  [overwriteProperties_Convert loadProperties yamlUnmarshal Unflatten (setProperties s);
   replacing Discovery_Convert] ++
  (if noConvertConfig s then []
   else [replacing RemoveBallastKey_Convert;
         replacing MoveOTLPInsecureKey_Convert;
         replacing MoveHecTLS_Convert;
         replacing RenameK8sTagger_Convert;
         replacing NormalizeGcp_Convert;
         replacing LogLevelToVerbosity_Convert;
         merging (DisableKubeletUtilizationMetrics_Convert unmarshalExporter);
         merging DisableExcessiveInternalMetrics_Convert]).

(** The converters in order; the first error ends the resolution. *)
Definition convertAll (s : Settings) (c : conf) : conf * option error :=
  runAll (λ c f, f c) c (ConfMapConverters s).

(** With [--no-convert-config], no [--set] property and nothing discovered,
    the converters hand the configuration on unchanged. *)
Theorem noConvertConfig_identity (s : Settings) (c : conf) :
  noConvertConfig s = true → setProperties s = [] → discoverService (ToStringMap c) = Ok None →
  convertAll s c = (c, None).
Proof.
  intros Hn Hs Hd. unfold convertAll, ConfMapConverters. rewrite Hn, Hs. cbn.
  unfold replacing, Discovery_Convert. by rewrite Hd.
Qed.
End collector.

(** The theorem applied to a configuration with legacy settings. *)
Lemma noConvertConfig_identity_witness :
  ∃ s, noConvertConfig s = true ∧
    @convertAll flat_confmap demo_levels prefix_engine (λ _, "") forward_range (λ _, Ok []) (λ _, Ok ANil) (λ m _, m)
      (λ _, Err (Errorf "" [])) s ballast_conf = (ballast_conf, None).
Proof.
  exists {| configPaths := []; configDir := None; discoveryPropertiesFile := None; setProperties := [];
     discoveryProperties := []; colCoreArgs := []; providerSchemes := []; versionFlag := false; noConvertConfig := true;
     configD := false; discoveryMode := false; dryRunFlag := false |}.
  split; [done|]. apply (@noConvertConfig_identity flat_confmap); reflexivity.
Defined.
