(* ===== verification/DiscoveryReceiver.v ===== *)
(** * The discovery receiver: configuration

    [src/internal/common/discovery] and [src/internal/receiver/discoveryreceiver/config.go]:
    identifiers and attribute names, the configuration and its validation.  A
    combined error ([multierr.Combine]) is the list of its errors, nil when empty. *)

From S2P Require Import Prelude GoStrings GoValue Regexp ConfigProvider.
From Stdlib Require Import Ascii.

(** ** common/discovery *)

Definition EndpointIDAttr : string := "discovery.endpoint.id".
Definition ObserverIDAttr : string := "discovery.observer.id".
Definition ReceiverConfigAttr : string := "discovery.receiver.config".
Definition ReceiverNameAttr : string := "discovery.receiver.name".
Definition ReceiverTypeAttr : string := "discovery.receiver.type".
Definition StatusAttr : string := "discovery.status".
Definition eventTypeAttr : string := "discovery.event.type".
Definition metricNameAttr : string := "metric.name".
Definition receiverRuleAttr : string := "discovery.receiver.rule".
Definition receiverUpdatedConfigAttr : string := "discovery.receiver.updated.config".

Definition NoType : ID := {| ID_Type := "SENTINEL_FOR_DISCOVERY_RECEIVER___"; ID_Name := "" |}.

(** [component.ID.String] *)
Definition cid_String (id : ID) : string :=
  if String.eqb (ID_Name id) "" then ID_Type id else ID_Type id +:+ "/" +:+ ID_Name id.

#[global] Instance ID_countable : Countable ID.
Proof.
  apply (inj_countable' (λ id, (ID_Type id, ID_Name id)) (λ p, {| ID_Type := p.1; ID_Name := p.2 |})).
  by intros [].
Defined.

Definition StatusTypes : list string := ["successful"; "partial"; "failed"].
(** [%v] of a slice of strings *)
Definition Sprint_strings (l : list string) : string := "[" +:+ Join l " " +:+ "]".
Definition IsValidStatus (status : string) : option error :=
  if bool_decide (status ∈ StatusTypes) then None
  else Some (Errorf "invalid status %q. must be one of %v" [status; Sprint_strings StatusTypes]).

(** ** config.go *)

Record LogRecordCfg := {
  Attributes : gmap string string;
  SeverityText : string;
  Body : string;
  AppendPattern : bool;
}.

Record Match := {
  Record_ : option LogRecordCfg;
  Strict : string;
  Regexp_ : string;
  Expr : string;
  FirstOnly : bool;
}.

Record Status := {
  Metrics : gmap string (list Match);
  Statements : gmap string (list Match);
}.

Record ReceiverEntry := {
  re_Config : gmap string any;
  re_Status : option Status;
  re_ResourceAttributes : gmap string string;
  re_Rule : string;
}.

Record Config := {
  Receivers : gmap ID ReceiverEntry;
  WatchObservers : list ID;
  LogEndpoints : bool;
  EmbedReceiverConfig : bool;
  CorrelationTTL : Z;
}.

(** [receiver_creator/] and [{endpoint=[^}]*}/] *)
Definition receiverCreatorRegexp : regexp := RLit "receiver_creator/".
Definition endpointTargetRegexp : regexp :=
  RCat (RLit "{endpoint=") (RCat (RStar (RChar (not_byte "}"))) (RLit "}/")).

Definition allowedMatchTypes : list string := ["regexp"; "strict"; "expr"].
Definition matchTypes (m : Match) : list string :=
  (if String.eqb (Strict m) "" then [] else ["strict"]) ++
  (if String.eqb (Regexp_ m) "" then [] else ["regexp"]) ++
  (if String.eqb (Expr m) "" then [] else ["expr"]).

Definition validateMatch (sourceType statusType : string) (m : Match) : list error :=
  if negb (length (matchTypes m) =? 1) then
    [Errorf "`%s` status source type `%s` match type validation failed. Must provide one of %v but received %v"
       [sourceType; statusType; Sprint_strings allowedMatchTypes; Sprint_strings (matchTypes m)]]
  else [].

Definition validateSource (sourceType : string) (kv : string * list Match) : list error :=
  match IsValidStatus kv.1 with
  | Some e => [e]
  | None => flat_map (validateMatch sourceType kv.1) kv.2
  end.

(** [range] over a map keyed by component identifiers: any order. *)
Class IDRange := {
  rangeID : ∀ {V : Type}, gmap ID V → list (ID * V);
  rangeID_perm : ∀ (V : Type) (m : gmap ID V), rangeID m ≡ₚ map_to_list m;
}.
Arguments rangeID {_ V} _.

Lemma elem_of_rangeID `{IDRange} {V} (m : gmap ID V) k v : (k, v) ∈ rangeID m ↔ m !! k = Some v.
Proof. by rewrite rangeID_perm, elem_of_map_to_list. Qed.

Section validate.
Context `{MapRange, IDRange}.

Definition Status_validate (s : option Status) : list error :=
  match s with
  | None => [Errorf "`status` must be defined and contain at least one `metrics` or `statements` mapping" []]
  | Some s =>
      if (size (Metrics s) =? 0) && (size (Statements s) =? 0) then
        [Errorf "`status` must contain at least one `metrics` or `statements` mapping with at least one of %v"
           [Sprint_strings StatusTypes]]
      else flat_map (validateSource "metrics") (range (Metrics s)) ++
           flat_map (validateSource "statements") (range (Statements s))
  end.

Definition ReceiverEntry_validate (re : ReceiverEntry) : list error := Status_validate (re_Status re).

(** An error of a receiver: its own, or around the combined errors of its status. *)
Inductive cfgError :=
| PlainError (e : error)
| ReceiverFailure (name : string) (es : list error).

Definition reservedName (name : string) (re : string * regexp) : list cfgError :=
  if MatchString re.2 name then
    [PlainError (Errorf "receiver %q validation failure: receiver name cannot contain %q" [name; re.1])]
  else [].

Definition validateReceiver (kv : ID * ReceiverEntry) : list cfgError :=
  let name := cid_String kv.1 in
  if String.eqb (ID_Type kv.1) "receiver_creator" then
    [PlainError (Errorf "receiver %q validation failure: receiver cannot be a receiver_creator" [name])]
  else
    flat_map (reservedName name) [("receiver_creator/", receiverCreatorRegexp); ("{endpoint=[^}]*}/", endpointTargetRegexp)] ++
    match ReceiverEntry_validate kv.2 with
    | [] => []
    | es => [ReceiverFailure name es]
    end.

Definition Config_Validate (cfg : Config) : list cfgError :=
  flat_map validateReceiver (rangeID (Receivers cfg)) ++
  match WatchObservers cfg with
  | [] => [PlainError (Errorf "`watch_observers` must be defined and include at least one configured observer extension" [])]
  | _ => []
  end.

(** What a valid configuration looks like. *)
Definition match_ok (m : Match) : Prop :=
  (Strict m ≠ "" ∧ Regexp_ m = "" ∧ Expr m = "") ∨
  (Strict m = "" ∧ Regexp_ m ≠ "" ∧ Expr m = "") ∨
  (Strict m = "" ∧ Regexp_ m = "" ∧ Expr m ≠ "").

Definition source_ok (ms : gmap string (list Match)) : Prop :=
  ∀ status matches, ms !! status = Some matches → status ∈ StatusTypes ∧ ∀ m, m ∈ matches → match_ok m.

Definition receiver_ok (id : ID) (re : ReceiverEntry) : Prop :=
  ID_Type id ≠ "receiver_creator" ∧
  MatchString receiverCreatorRegexp (cid_String id) = false ∧
  MatchString endpointTargetRegexp (cid_String id) = false ∧
  ∃ s, re_Status re = Some s ∧ (Metrics s ≠ ∅ ∨ Statements s ≠ ∅) ∧ source_ok (Metrics s) ∧ source_ok (Statements s).

Lemma flat_map_nil {A B} (f : A → list B) l : flat_map f l = [] ↔ ∀ x, x ∈ l → f x = [].
Proof.
  induction l as [|x l IH]; simpl; [set_solver|]. rewrite app_nil, IH. setoid_rewrite elem_of_cons. naive_solver.
Qed.

Lemma validateMatch_nil st status m : validateMatch st status m = [] ↔ match_ok m.
Proof.
  unfold validateMatch, matchTypes, match_ok.
  destruct (String.eqb_spec (Strict m) ""), (String.eqb_spec (Regexp_ m) ""), (String.eqb_spec (Expr m) ""); simpl; naive_solver.
Qed.

Lemma validateSource_nil st ms : flat_map (validateSource st) (range ms) = [] ↔ source_ok ms.
Proof.
  rewrite flat_map_nil. unfold source_ok. transitivity (∀ status matches, ms !! status = Some matches →
    validateSource st (status, matches) = []).
  { split.
    - intros Hall status matches Hk. apply Hall. by apply elem_of_range.
    - intros Hall [status matches] Hk. apply Hall. by apply elem_of_range. }
  assert (Hv : ∀ status matches, validateSource st (status, matches) = [] ↔
    status ∈ StatusTypes ∧ ∀ m, m ∈ matches → match_ok m); [|naive_solver].
  intros status matches. unfold validateSource, IsValidStatus. cbn [fst snd]. case_bool_decide as Hs.
  - rewrite flat_map_nil. setoid_rewrite validateMatch_nil. tauto.
  - naive_solver.
Qed.

Lemma Status_validate_nil o :
  Status_validate o = [] ↔
  ∃ s, o = Some s ∧ (Metrics s ≠ ∅ ∨ Statements s ≠ ∅) ∧ source_ok (Metrics s) ∧ source_ok (Statements s).
Proof.
  unfold Status_validate. destruct o as [s|]; [|naive_solver].
  assert (Hz : ∀ m : gmap string (list Match), (size m =? 0) = true ↔ m = ∅).
  { intros m. rewrite Nat.eqb_eq. apply map_size_empty_iff. }
  destruct ((size (Metrics s) =? 0) && (size (Statements s) =? 0)) eqn:He.
  - apply andb_true_iff in He as [H1%Hz H2%Hz]. split; [done|]. intros (s' & [= <-] & [?|?] & _); done.
  - rewrite app_nil, !validateSource_nil. split.
    + intros [Hm Hs]. exists s. split_and!; try done. apply andb_false_iff in He as [He|He]; [left|right];
        intros Heq; apply Hz in Heq; congruence.
    + by intros (s' & [= <-] & _ & ? & ?).
Qed.

Lemma Config_Validate_nil (cfg : Config) :
  Config_Validate cfg = [] ↔
  WatchObservers cfg ≠ [] ∧ ∀ id re, Receivers cfg !! id = Some re → receiver_ok id re.
Proof.
  unfold Config_Validate. rewrite app_nil, flat_map_nil.
  transitivity ((∀ id re, Receivers cfg !! id = Some re → validateReceiver (id, re) = []) ∧ WatchObservers cfg ≠ []).
  { f_equiv; [|by destruct (WatchObservers cfg)]. split.
    - intros Hall id re Hk. apply Hall. by apply elem_of_rangeID.
    - intros Hall [id re] Hk. apply Hall. by apply elem_of_rangeID. }
  assert (Hv : ∀ id re, validateReceiver (id, re) = [] ↔ receiver_ok id re);
    [|setoid_rewrite Hv; tauto].
  intros id re. unfold validateReceiver, receiver_ok. cbn [fst snd].
  rewrite <-Status_validate_nil. unfold ReceiverEntry_validate.
  destruct (String.eqb_spec (ID_Type id) "receiver_creator"); [split; [done|by intros []]|].
  rewrite app_nil, flat_map_nil. unfold reservedName. setoid_rewrite elem_of_cons. setoid_rewrite elem_of_cons.
  split.
  - intros [Hn Hs]. split_and!; [done| | |by destruct (Status_validate (re_Status re))].
    + specialize (Hn _ (or_introl eq_refl)). cbn [fst snd] in Hn. by destruct (MatchString _ _).
    + specialize (Hn _ (or_intror (or_introl eq_refl))). cbn [fst snd] in Hn. by destruct (MatchString _ _).
  - intros (_ & H1 & H2 & Hs). rewrite Hs. split; [|done].
    intros r [->|[->|[]%not_elem_of_nil]]; cbn [fst snd]; [by rewrite H1 | by rewrite H2].
Qed.

(** [Validate] accepts exactly the configurations that watch an observer and
    whose receivers are not receiver creators, have a name without the reserved
    separators, and a status with valid status types whose matches give exactly
    one of strict, regexp and expr. *)
Theorem Config_Validate_correct (cfg : Config) :
  Config_Validate cfg = [] ↔
  WatchObservers cfg ≠ [] ∧ ∀ id re, Receivers cfg !! id = Some re → receiver_ok id re.
Proof. apply Config_Validate_nil. Qed.
End validate.

Definition forward_rangeID : IDRange.
Proof. refine {| rangeID V m := map_to_list m |}. done. Defined.
