(* ===== verification/StatusSources.v ===== *)
(** * Status sources

    [src/internal/receiver/discoveryreceiver/statussources]: recovery of the
    receiver and endpoint identifiers from the name of a logger created by the
    receiver creator ([statements.go]) or from the resource of its metrics
    ([metrics.go]), and the log record of a statement.  [component.NewType] and
    the rendering of a [pcommon.Value] are parameters; the zap encoder and JSON
    decoding are represented by the decoded fields they deliver. *)

From S2P Require Import Prelude GoStrings GoValue Regexp ConfigProvider DiscoveryReceiver.
From Stdlib Require Import Ascii.

(** [component.NewType] (does it accept the text) and [pcommon.Value.AsString]. *)
Class Pdata := {
  NewType : string → bool;
  AsString : any → string;
}.

(** What the package documents of them: the sentinel type is a type
    ([MustNewID] was called on it), types have no slash and no newline and are
    not empty, a string value is its own text. *)
Class PdataLaws `{Pdata} := {
  NewType_NoType : NewType (ID_Type NoType) = true;
  NewType_empty : NewType "" = false;
  NewType_slash t : NewType t = true → ContainsByte t "/" = false;
  AsString_string s : AsString (AString s) = s;
}.

(** The groups [type], all but slashes, and [name], after the first slash; the
    group [id] after a [{endpoint=...}/].  Both are anchored at both ends. *)
Definition receiverNameRegexp : regexp :=
  RCat (RGroup 1 (RPlus (RChar (not_byte "/")))) (RCat (RLit "/") (RGroup 2 (RStar (RChar any_byte)))).
Definition endpointIDRegexp : regexp :=
  RCat (RStar (RChar any_byte)) (RCat (RLit "{endpoint=") (RCat (RStar (RChar any_byte))
    (RCat (RLit "}/") (RGroup 1 (RStar (RChar any_byte)))))).

Definition quoted (s : string) : string := String "034" (s +:+ String "034" "").

Section sources.
Context `{Pdata}.

(** [component.MustNewIDWithName] panics on an invalid type. *)
Definition MustNewIDWithName (typeVal nameVal : string) : res ID :=
  if NewType typeVal then Ok {| ID_Type := typeVal; ID_Name := nameVal |}
  else Err (Errorf "panic: invalid type" [typeVal]).

(** The part of [ReceiverNameToIDs] after the name is determined. *)
Definition decomposeName (receiverName : string) : res (ID * string) :=
  if negb (forallb (λ re, FindAllCount re receiverName =? 1) [receiverCreatorRegexp; endpointTargetRegexp]) then
    Ok (NoType, "")
  else
    match Index receiverName "receiver_creator/" with
    | None => Ok (NoType, "")
    | Some rcIdx =>
        let nameSection := stake rcIdx receiverName in
        let endpointSection := sdrop rcIdx receiverName in
        match match_full receiverNameRegexp nameSection with
        | None => Ok (NoType, "")
        | Some nameMatches =>
            let rTypeName := group nameMatches 1 in
            let nameCandidate := group nameMatches 2 in
            let rName :=
              if byte_is (sget nameCandidate (slen nameCandidate - 1)) "/"
              then stake (slen nameCandidate - 1) nameCandidate else nameCandidate in
            let eID :=
              match match_full endpointIDRegexp endpointSection with
              | Some endpointMatches => group endpointMatches 1
              | None => ""
              end in
            let rType := if NewType rTypeName then rTypeName else ID_Type NoType in
            receiverID ← MustNewIDWithName rType rName;
            Ok (receiverID, eID)
        end
    end.

(** The name that is decomposed: that of the "name" field, or the placeholder
    built from it for the receiver creator's own start statement. *)
Definition loggerName (record : gmap string any) : option string :=
  match record !! "name" with
  | None => None
  | Some nameAttr =>
      let receiverName := AsString nameAttr in
      match record !! "endpoint_id" with
      | Some endpointIDAttr =>
          Some (receiverName +:+ "/receiver_creator/<PLACEHOLDER>/{endpoint=" +:+ quoted "PLACEHOLDER" +:+ "}/"
                +:+ AsString endpointIDAttr)
      | None => Some receiverName
      end
  end.

Definition ReceiverNameToIDs (record : gmap string any) : res (ID * string) :=
  match loggerName record with
  | None => Ok (NoType, "")
  | Some receiverName => decomposeName receiverName
  end.

(** [MetricsToReceiverIDs], from the attributes of the first resource, if any. *)
Definition attrText (attrs : gmap string any) (k : string) : string :=
  match attrs !! k with Some r => AsString r | None => "" end.
Definition MetricsToReceiverIDs (resources : list (gmap string any)) : res (ID * string) :=
  let mResAttrs := match resources with r :: _ => r | [] => ∅ end in
  let receiverType := attrText mResAttrs ReceiverTypeAttr in
  let receiverName := attrText mResAttrs ReceiverNameAttr in
  let endpointID := attrText mResAttrs EndpointIDAttr in
  if negb (NewType receiverType) then Ok (NoType, "")
  else receiverID ← MustNewIDWithName receiverType receiverName; Ok (receiverID, endpointID).

(** ** Matching *)

Lemma sall_append p s t : sall p (s +:+ t) ↔ sall p s ∧ sall p t.
Proof.
  induction s as [|a s IH].
  - rewrite append_nil_l. unfold sall at 2. simpl. naive_solver.
  - rewrite append_cons, !sall_cons, IH. tauto.
Qed.

Lemma receiverNameRegexp_match t n :
  t ≠ "" → ContainsByte t "/" = false → sall any_byte n →
  ∃ c, match_full receiverNameRegexp (t +:+ "/" +:+ n) = Some c ∧ group c 1 = t ∧ group c 2 = n.
Proof.
  intros Ht Hs Hn.
  assert (Hd : derives receiverNameRegexp [] (t +:+ "/" +:+ n) [(2, n); (1, t)]).
  { unfold receiverNameRegexp. econstructor; [constructor; apply derives_plus_char; [done|]|].
    - intros i a Ha. unfold not_byte. apply negb_true_iff, Ascii.eqb_neq. by eapply ContainsByte_sget.
    - econstructor; [apply derives_RLit|]. constructor. by apply derives_star_char. }
  destruct (match_full_complete _ _ _ Hd) as [c Hc]. exists c. split; [done|].
  apply match_full_sound in Hc. unfold receiverNameRegexp in Hc.
  apply derives_RCat in Hc as (t' & w & c1 & He & (c2 & (_ & Ht' & ->)%derives_plus_char_inv & ->)%derives_RGroup & Hc).
  apply derives_RCat in Hc as (? & n' & ? & -> & [-> ->]%derives_RLit_iff & (c3 & (_ & ->)%derives_star_char_inv & ->)%derives_RGroup).
  apply (split_at_byte "/") in He as [-> ->]; [done|done|]. by apply (sall_ContainsByte (not_byte "/")).
Qed.

(** Where a byte occurs, relative to its first occurrence. *)
Lemma first_byte_split d x y u v :
  ContainsByte x d = false → x +:+ String d y = u +:+ String d v →
  (u = x ∧ v = y) ∨ ∃ u', u = x +:+ String d u' ∧ y = u' +:+ String d v.
Proof.
  intros Hx He. destruct (ContainsByte u d) eqn:Hu.
  - apply split_first_byte in Hu as (u1 & u2 & -> & Hu1). rewrite append_assoc, append_cons in He.
    apply split_at_byte in He as [-> ->]; [|done|done]. right. by exists u2.
  - apply split_at_byte in He as [-> ->]; [|done|done]. by left.
Qed.

Lemma Index_occurs x sub y : Index (x +:+ sub +:+ y) sub ≠ None.
Proof.
  induction x as [|a x IH].
  - rewrite append_nil_l. pose proof (HasPrefix_app sub y) as Hp.
    destruct (sub +:+ y); cbn [Index]; by rewrite Hp.
  - rewrite append_cons. cbn [Index]. destruct (HasPrefix _ _); [done|]. by rewrite fmap_None.
Qed.

Lemma endpointIDRegexp_match p target e :
  ContainsByte p "{" = false → ContainsByte target "}" = false → Index e "}/" = None →
  sall any_byte (p +:+ "{endpoint=" +:+ target +:+ "}/" +:+ e) →
  ∃ c, match_full endpointIDRegexp (p +:+ "{endpoint=" +:+ target +:+ "}/" +:+ e) = Some c ∧ group c 1 = e.
Proof.
  intros Hp Ht He Hall. rewrite !sall_append in Hall. destruct Hall as (Hap & _ & Hat & _ & Hae).
  assert (Hd : derives endpointIDRegexp [] (p +:+ "{endpoint=" +:+ target +:+ "}/" +:+ e) [(1, e)]).
  { unfold endpointIDRegexp. econstructor; [by apply derives_star_char|]. econstructor; [apply derives_RLit|].
    econstructor; [by apply derives_star_char|]. econstructor; [apply derives_RLit|].
    constructor. by apply derives_star_char. }
  destruct (match_full_complete _ _ _ Hd) as [c Hc]. exists c. split; [done|]. clear Hd.
  apply match_full_sound in Hc. unfold endpointIDRegexp in Hc.
  apply derives_RCat in Hc as (u & ? & ? & Heq & (_ & ->)%derives_star_char_inv & Hc).
  apply derives_RCat in Hc as (? & ? & ? & -> & [-> ->]%derives_RLit_iff & Hc).
  apply derives_RCat in Hc as (v & ? & ? & -> & (_ & ->)%derives_star_char_inv & Hc).
  apply derives_RCat in Hc as (? & w & ? & -> & [-> ->]%derives_RLit_iff & (? & (_ & ->)%derives_star_char_inv & ->)%derives_RGroup).
  cbn [group Nat.eqb]. assert (Hsp : ∃ v', ("endpoint=" +:+ target) +:+ String "}" ("/" +:+ e) = v' +:+ String "}" ("/" +:+ w)).
  { rewrite append_assoc. apply (first_byte_split "{" p ("endpoint=" +:+ target +:+ "}/" +:+ e) u) in Heq as [[-> Heq]|(u' & -> & Heq)]; [| |done].
    - exists ("endpoint=" +:+ v). rewrite append_assoc. symmetry. exact Heq.
    - exists (u' +:+ "{endpoint=" +:+ v). rewrite !append_assoc. exact Heq. }
  destruct Hsp as [v' Hv']. apply first_byte_split in Hv' as [[_ Hw]|(v'' & _ & Hw)]; [| |by rewrite ContainsByte_append, Ht].
  - by apply append_inv_l in Hw.
  - destruct v'' as [|b v'']; [done|]. rewrite append_cons in Hw. injection Hw as _ Hw.
    change (e = v'' +:+ "}/" +:+ w) in Hw. rewrite Hw in He. by destruct (Index_occurs v'' "}/" w).
Qed.

(** The name the receiver creator gives to the receiver [id] it starts for the
    endpoint [e] at [target]. *)
Definition generatedName (id : ID) (rc target e : string) : string :=
  cid_String id +:+ "/receiver_creator/" +:+ rc +:+ "{endpoint=" +:+ target +:+ "}/" +:+ e.

(** What precedes the separator: the type, and the name with a slash. *)
Lemma cid_String_slash id rest :
  cid_String id +:+ "/" +:+ rest =
  (ID_Type id +:+ "/" +:+ (if String.eqb (ID_Name id) "" then "" else ID_Name id +:+ "/")) +:+ rest.
Proof. unfold cid_String. destruct (String.eqb (ID_Name id) ""); by rewrite !append_assoc. Qed.

Lemma drop_last_slash n : 
  (if byte_is (sget (n +:+ "/") (slen (n +:+ "/") - 1)) "/"
   then stake (slen (n +:+ "/") - 1) (n +:+ "/") else n +:+ "/") = n.
Proof.
  rewrite slen_append. change (slen "/") with 1. rewrite Nat.add_sub.
  rewrite <-(Nat.add_0_r (slen n)) at 1. by rewrite sget_append_r, stake_app.
Qed.

(** The parts of a generated name that can be told apart. *)
Definition separable (id : ID) (rc target e : string) : Prop :=
  ID_Type id ≠ "" ∧ ContainsByte (ID_Type id) "/" = false ∧
  sall any_byte (generatedName id rc target e) ∧
  ContainsByte rc "{" = false ∧ ContainsByte target "}" = false ∧ Index e "}/" = None.

Lemma decomposeName_generated `{!PdataLaws} id rc target e :
  separable id rc target e →
  FindAllCount receiverCreatorRegexp (generatedName id rc target e) = 1 →
  FindAllCount endpointTargetRegexp (generatedName id rc target e) = 1 →
  decomposeName (generatedName id rc target e) =
  Ok ({| ID_Type := if NewType (ID_Type id) then ID_Type id else ID_Type NoType; ID_Name := ID_Name id |}, e).
Proof.
  intros (Hte & Hts & Hall & Hrc & Htg & He) Hc1 Hc2.
  unfold decomposeName. cbn [forallb]. rewrite Hc2. rewrite Hc1. cbn [Nat.eqb andb negb].
  set (n := if String.eqb (ID_Name id) "" then "" else ID_Name id +:+ "/").
  set (rest := "receiver_creator/" +:+ rc +:+ "{endpoint=" +:+ target +:+ "}/" +:+ e).
  assert (Hg : generatedName id rc target e = (ID_Type id +:+ "/" +:+ n) +:+ rest) by apply cid_String_slash.
  rewrite Hg in *. apply sall_append in Hall as [Hn Hr].
  assert (Hi : Index ((ID_Type id +:+ "/" +:+ n) +:+ rest) "receiver_creator/" = Some (slen (ID_Type id +:+ "/" +:+ n)))
    by exact (FindAllCount_one_Index "receiver_creator" "/" _ (rc +:+ "{endpoint=" +:+ target +:+ "}/" +:+ e) eq_refl Hc1).
  rewrite Hi, stake_app, sdrop_app. rewrite !sall_append in Hn.
  destruct (receiverNameRegexp_match (ID_Type id) n) as (c & -> & -> & ->); [done|done|tauto|].
  unfold rest. destruct (endpointIDRegexp_match ("receiver_creator/" +:+ rc) target e) as (c' & Hm & Hg').
  { by rewrite ContainsByte_append, Hrc. }
  { done. }
  { done. }
  { by rewrite append_assoc. }
  rewrite append_assoc in Hm. rewrite Hm, Hg'. unfold MustNewIDWithName.
  assert (Hv : NewType (if NewType (ID_Type id) then ID_Type id else ID_Type NoType) = true)
    by (destruct (NewType (ID_Type id)) eqn:Ht; [done | apply NewType_NoType]).
  rewrite Hv. subst n. cbn [mbind res_bind].
  destruct (String.eqb_spec (ID_Name id) "") as [->|]; [done|]. by rewrite drop_last_slash.
Qed.

(** C10: The identifiers are recovered from the name: if the record's name was
    generated for a receiver with a valid type, its parts can be told apart (on one line, no
    brace in the receiver creator's name, no closing one in the target, no
    closing separator in the endpoint identifier) and it has each separator
    once, then [ReceiverNameToIDs] returns the receiver and the endpoint that the
    name was made from. *)
Theorem ReceiverNameToIDs_roundtrip `{!PdataLaws} (record : gmap string any) id rc target e :
  loggerName record = Some (generatedName id rc target e) →
  NewType (ID_Type id) = true → separable id rc target e →
  FindAllCount receiverCreatorRegexp (generatedName id rc target e) = 1 →
  FindAllCount endpointTargetRegexp (generatedName id rc target e) = 1 →
  ReceiverNameToIDs record = Ok (id, e).
Proof.
  intros Hname Ht Hs Hc1 Hc2. unfold ReceiverNameToIDs. rewrite Hname, decomposeName_generated by done.
  rewrite Ht. by destruct id.
Qed.

(** [ReceiverNameToIDs] never panics, whatever the record, and a name without
    exactly one of each separator yields no identifiers. *)
Theorem ReceiverNameToIDs_total `{!PdataLaws} (record : gmap string any) :
  ∃ id e, ReceiverNameToIDs record = Ok (id, e) ∧
    ((∀ name, loggerName record = Some name →
        FindAllCount receiverCreatorRegexp name ≠ 1 ∨ FindAllCount endpointTargetRegexp name ≠ 1) →
     id = NoType ∧ e = "").
Proof.
  unfold ReceiverNameToIDs. destruct (loggerName record) as [name|] eqn:Hn; [|by exists NoType, ""].
  unfold decomposeName. cbn [forallb]. rewrite andb_true_r.
  destruct (FindAllCount receiverCreatorRegexp name =? 1) eqn:H1; [|by exists NoType, ""].
  destruct (FindAllCount endpointTargetRegexp name =? 1) eqn:H2; [|by exists NoType, ""]. cbn [andb negb].
  apply Nat.eqb_eq in H1, H2.
  destruct (Index name _); [|by exists NoType, ""]. destruct (match_full receiverNameRegexp _) as [c|]; [|by exists NoType, ""].
  unfold MustNewIDWithName.
  assert (Hv : NewType (if NewType (group c 1) then group c 1 else ID_Type NoType) = true)
    by (destruct (NewType (group c 1)) eqn:Ht; [done | apply NewType_NoType]).
  rewrite Hv. eexists _, _. split; [reflexivity|]. intros Hbad. destruct (Hbad name eq_refl); done.
Qed.

(** A name whose type is not a valid type, but which has the separators,
    yields the sentinel type with the name and with the endpoint identifier,
    not the empty ones. *)
Theorem ReceiverNameToIDs_invalid_type `{!PdataLaws} (record : gmap string any) t rc target e :
  loggerName record = Some (generatedName {| ID_Type := t; ID_Name := "" |} rc target e) →
  NewType t = false → separable {| ID_Type := t; ID_Name := "" |} rc target e →
  FindAllCount receiverCreatorRegexp (generatedName {| ID_Type := t; ID_Name := "" |} rc target e) = 1 →
  FindAllCount endpointTargetRegexp (generatedName {| ID_Type := t; ID_Name := "" |} rc target e) = 1 →
  ReceiverNameToIDs record = Ok (NoType, e).
Proof.
  intros Hname Ht Hs Hc1 Hc2. unfold ReceiverNameToIDs. rewrite Hname, decomposeName_generated by done.
  cbn [ID_Type]. by rewrite Ht.
Qed.
End sources.

(** ** A concrete [Pdata]: the documented grammar of types *)

Fixpoint all_bytes (p : ascii → bool) (s : string) : bool :=
  match s with EmptyString => true | String c s => p c && all_bytes p s end.

Definition demo_pdata : Pdata := {|
  NewType t :=
    match t with
    | EmptyString => false
    | String c t => (in_range "a" "z" c || in_range "A" "Z" c) && all_bytes word_byte t
    end;
  AsString v := match v with AString s => s | _ => "" end;
|}.

Lemma all_bytes_sall p s : all_bytes p s = true ↔ sall p s.
Proof. induction s as [|c s IH]; simpl; [unfold sall; simpl; naive_solver|]. by rewrite sall_cons, <-IH, andb_true_iff. Qed.

#[local] Instance demo_pdata_laws : @PdataLaws demo_pdata.
Proof.
  split; try done. intros [|c t]; [done|]. unfold NewType; cbn -[in_range word_byte].
  intros [Hc Ht]%andb_true_iff. rewrite ContainsByte_cons. apply orb_false_iff. split.
  - apply Ascii.eqb_neq. by intros ->.
  - apply (sall_ContainsByte word_byte); [done|]. by apply all_bytes_sall.
Qed.

Definition demo_receiver : ID := {| ID_Type := "smartagent"; ID_Name := "redis/with/slashes" |}.
Definition demo_record : gmap string any :=
  {["name" := AString (generatedName demo_receiver "discovery/name" "127.0.0.53:53" "(host_observer)127.0.0.53-53")]}.

Lemma separable_demo t n :
  ID_Type (Build_ID t n) ≠ "" → ContainsByte t "/" = false → all_bytes any_byte (t +:+ n) = true →
  separable {| ID_Type := t; ID_Name := n |} "discovery/name" "127.0.0.53:53" "(host_observer)127.0.0.53-53".
Proof.
  intros Ht Hs Hall. split_and!; try done. apply all_bytes_sall, sall_append in Hall as [Hat Han].
  unfold generatedName, cid_String. cbn [ID_Type ID_Name].
  destruct (String.eqb n ""); rewrite !sall_append; split_and!; try done; by apply all_bytes_sall.
Qed.

Lemma ReceiverNameToIDs_roundtrip_witness :
  @ReceiverNameToIDs demo_pdata demo_record = Ok (demo_receiver, "(host_observer)127.0.0.53-53").
Proof.
  refine (@ReceiverNameToIDs_roundtrip demo_pdata _ demo_record demo_receiver "discovery/name" "127.0.0.53:53" _ _ _ _ _ _).
  - reflexivity.
  - reflexivity.
  - by apply separable_demo.
  - reflexivity.
  - reflexivity.
Defined.

Lemma ReceiverNameToIDs_total_witness : ∃ id e, @ReceiverNameToIDs demo_pdata demo_record = Ok (id, e).
Proof.
  destruct (@ReceiverNameToIDs_total demo_pdata demo_pdata_laws demo_record) as (id & e & He & _). by exists id, e.
Defined.

Definition demo_bad_record : gmap string any :=
  {["name" := AString (generatedName {| ID_Type := "1bad"; ID_Name := "" |} "discovery/name" "127.0.0.53:53" "(host_observer)127.0.0.53-53")]}.

Lemma ReceiverNameToIDs_invalid_type_witness :
  @ReceiverNameToIDs demo_pdata demo_bad_record = Ok (NoType, "(host_observer)127.0.0.53-53").
Proof.
  refine (@ReceiverNameToIDs_invalid_type demo_pdata _ demo_bad_record "1bad" "discovery/name" "127.0.0.53:53" _ _ _ _ _ _).
  - reflexivity.
  - reflexivity.
  - by apply separable_demo.
  - reflexivity.
  - reflexivity.
Defined.

(** ** A reserved name that validation accepts *)

Definition reserved_id : ID := {| ID_Type := "smartagent"; ID_Name := "receiver_creator" |}.
Definition reserved_entry : ReceiverEntry := {|
  re_Config := ∅;
  re_Status := Some {| Metrics := ∅; Statements := {["failed" :=
    [{| Record_ := None; Strict := "boom"; Regexp_ := ""; Expr := ""; FirstOnly := false |}]]} |};
  re_ResourceAttributes := ∅;
  re_Rule := "";
|}.

(** [Validate] refuses the separators in a receiver's own name, not where the
    name meets the receiver creator's: the receiver [smartagent/receiver_creator]
    is accepted, and no statement of it is ever attributed to it. *)
Theorem reserved_suffix_accepted `{Pdata} `{MapRange} `{IDRange} (observers : list ID) (rc target e : string) :
  Config_Validate {| Receivers := {[reserved_id := reserved_entry]}; WatchObservers := NoType :: observers;
                     LogEndpoints := false; EmbedReceiverConfig := false; CorrelationTTL := 0 |} = [] ∧
  decomposeName (generatedName reserved_id rc target e) = Ok (NoType, "").
Proof.
  split.
  - apply Config_Validate_nil. cbn [Receivers WatchObservers]. split; [done|]. intros id re [<- <-]%lookup_singleton_Some.
    split_and!; [done|reflexivity|reflexivity|]. eexists. split; [reflexivity|]. cbn [Metrics Statements].
    split_and!; [right; apply map_non_empty_singleton | intros ? ?; by rewrite lookup_empty |].
    intros status ms [<- <-]%lookup_singleton_Some. split; [set_solver|]. intros m ->%list_elem_of_singleton. by left.
  - unfold decomposeName. cbn [forallb].
    destruct (FindAllCount receiverCreatorRegexp _ =? 1) eqn:Hc; [|done]. exfalso. apply Nat.eqb_eq in Hc.
    pose proof (FindAllCount_one_Index "receiver_creator" "/" "smartagent/receiver_creator/"
      (rc +:+ "{endpoint=" +:+ target +:+ "}/" +:+ e) eq_refl Hc) as Hi. done.
Qed.
