(* ===== verification/Correlations.v ===== *)
(** * The correlation store of the discovery receiver

    [src/internal/receiver/discoveryreceiver/correlation.go].  The store maps an
    endpoint to a receiver map, and that maps a receiver to its correlation.  A
    receiver map is an object of its own: [GetOrCreate] keeps a pointer to it
    after it has released the lock of the endpoint, and the reaper may take the
    map out of the store meanwhile.  So the receiver maps are in a [heap] and
    the store has pointers to them.  A correlation is mutated in place by
    [UpdateEndpoint] only and is never shared between two entries, so the maps
    hold the correlations themselves.

    The critical sections are the steps of [step], under the locks per endpoint
    and per receiver as the code takes them; the two loads and the store of
    [GetOrCreate], after the lock of the endpoint is released, are separate
    steps.  The ticker of the reaping loop is an arbitrary choice of when to
    [reap].  Times are nanoseconds, given by the environment. *)

From S2P Require Import Prelude GoStrings GoValue ConfigProvider DiscoveryReceiver.

(** ** Endpoints *)

(** Values of an [observer.EndpointEnv]; [EText] is the [%v] text of any other value. *)
Inductive envValue :=
| EUint16 (z : Z)
| EBool (b : bool)
| EStringMap (m : gmap string string)
| EEnv (m : gmap string envValue)
| EText (s : string).

Record EndpointDetails := { ed_Type : string; ed_Env : gmap string envValue }.
Record Endpoint := {
  ep_ID : string;
  ep_Target : string;
  ep_Details : option EndpointDetails;
}.
Definition zeroEndpoint : Endpoint := {| ep_ID := ""; ep_Target := ""; ep_Details := None |}.

Definition addedState : string := "added".
Definition removedState : string := "removed".
Definition changedState : string := "changed".

Record correlation := {
  lastState : string;
  lastUpdated : Z;
  endpoint : Endpoint;
  receiverID : ID;
  observerID : ID;
}.

(** [time.Time{}], relative to the Unix epoch *)
Definition zeroTime : Z := -62135596800000000000.

Definition newCorrelation : correlation := {|
  lastState := ""; lastUpdated := zeroTime; endpoint := zeroEndpoint; receiverID := NoType; observerID := NoType;
|}.

Record store := {
  correlations : gmap string nat;
  heap : gmap nat (gmap ID correlation);
  receiverAttrs : gmap ID (gmap string string);
  ttl : Z;
}.
Definition newCorrelationStore (ttl : Z) : store :=
  {| correlations := ∅; heap := ∅; receiverAttrs := ∅; ttl := ttl |}.

Definition set_map (ptr : nat) (m : gmap ID correlation) (s : store) : store :=
  {| correlations := correlations s; heap := <[ptr := m]> (heap s); receiverAttrs := receiverAttrs s; ttl := ttl s |}.
Definition set_attrs (a : gmap ID (gmap string string)) (s : store) : store :=
  {| correlations := correlations s; heap := heap s; receiverAttrs := a; ttl := ttl s |}.
Definition set_correlations (c : gmap string nat) (s : store) : store :=
  {| correlations := c; heap := heap s; receiverAttrs := receiverAttrs s; ttl := ttl s |}.

(** [s.correlations.LoadOrStore(endpointID, &sync.Map{})], followed by the store
    of the first correlation in a map that is new. *)
Definition LoadOrStore (endpointID : string) (first : correlation) (s : store) : nat * bool * store :=
  match correlations s !! endpointID with
  | Some ptr => (ptr, true, s)
  | None =>
      let ptr := fresh (dom (heap s)) in
      (ptr, false, set_map ptr {[NoType := first]} (set_correlations (<[endpointID := ptr]> (correlations s)) s))
  end.

Definition touch (ep : Endpoint) (state : string) (obs : ID) (now : Z) (corr : correlation) : correlation :=
  {| lastState := state; lastUpdated := now; endpoint := ep; receiverID := receiverID corr; observerID := obs |}.

(** [now] gives the time at which each correlation is written. *)
Definition UpdateEndpoint (now : ID → Z) (ep : Endpoint) (state : string) (obs : ID) (s : store) : store :=
  let '(ptr, ok, s) := LoadOrStore (ep_ID ep)
    {| lastState := state; lastUpdated := now NoType; endpoint := ep; receiverID := NoType; observerID := obs |} s in
  if negb ok then s
  else
    match heap s !! ptr with
    | Some m => set_map ptr (map_imap (λ rid corr, Some (touch ep state obs (now rid) corr)) m) s
    | None => s
    end.

(** [GetOrCreate]: under the lock of the endpoint ... *)
Definition receiverMapFor (endpointID : string) (s : store) : nat * store :=
  let '(ptr, _, s) := LoadOrStore endpointID newCorrelation s in (ptr, s).
(** ... then under the lock of the receiver: an existing correlation, *)
Definition loadCorrelation (rid : ID) (ptr : nat) (s : store) : option correlation := m ← heap s !! ptr; m !! rid.
(** or a copy of the sentinel's (a missing one would be a failed type assertion), *)
Definition copyNoType (rid : ID) (ptr : nat) (s : store) : option correlation :=
  nt ← loadCorrelation NoType ptr s;
  Some {| lastState := lastState nt; lastUpdated := lastUpdated nt; endpoint := endpoint nt;
          receiverID := rid; observerID := observerID nt |}.
(** which is stored. *)
Definition storeCorrelation (ptr : nat) (corr : correlation) (s : store) : store :=
  match heap s !! ptr with
  | Some m => set_map ptr (<[receiverID corr := corr]> m) s
  | None => s
  end.

Definition GetOrCreate (rid : ID) (endpointID : string) (s : store) : res (correlation * store) :=
  let '(ptr, s) := receiverMapFor endpointID s in
  match loadCorrelation rid ptr s with
  | Some c => Ok (c, s)
  | None =>
      match copyNoType rid ptr s with
      | Some corr => Ok (corr, storeCorrelation ptr corr s)
      | None => Err (Errorf "panic: interface conversion" [])
      end
  end.

(** Both return or change a copy: the map in the store is not shared. *)
Definition Attrs (rid : ID) (s : store) : gmap string string * store :=
  match receiverAttrs s !! rid with
  | Some a => (a, s)
  | None => (∅, set_attrs (<[rid := ∅]> (receiverAttrs s)) s)
  end.
Definition UpdateAttrs (rid : ID) (attrs : gmap string string) (s : store) : store :=
  let a := default ∅ (receiverAttrs s !! rid) in
  set_attrs (<[rid := attrs ∪ a]> (receiverAttrs s)) s.

(** The function [reap] runs on each entry, at the time [now]. *)
Definition stale (now : Z) (s : store) (ptr : nat) : bool :=
  match loadCorrelation NoType ptr s with
  | Some corr => String.eqb (lastState corr) removedState && bool_decide (ttl s < now - lastUpdated corr)%Z
  | None => false
  end.
Definition reapEndpoint (now : Z) (endpointID : string) (s : store) : store :=
  match correlations s !! endpointID with
  | Some ptr => if stale now s ptr then set_correlations (delete endpointID (correlations s)) s else s
  | None => s
  end.
Definition reap `{MapRange} (now : string → Z) (s : store) : store :=
  foldl (λ s eid, reapEndpoint (now eid) eid s) s (range (correlations s)).*1.

(** ** Concurrent use *)

(** Where a call of [GetOrCreate] is. *)
Inductive thread :=
| Loading (rid : ID) (ptr : nat)
| Storing (rid : ID) (ptr : nat) (corr : correlation)
| Returned (corr : correlation)
| Panicked.

(** The receiver whose lock a call holds. *)
Definition locked (t : thread) : option ID :=
  match t with Loading rid _ | Storing rid _ _ => Some rid | _ => None end.

Record system := { st : store; threads : gmap nat thread }.

(** The critical sections; an [UpdateEndpoint] or the reaper may come between
    any two steps of a call.  [NewCall] takes the lock of the receiver before it
    releases that of the endpoint. *)
Inductive step : system → system → Prop :=
| StepUpdate now ep state obs s ts :
    step {| st := s; threads := ts |} {| st := UpdateEndpoint now ep state obs s; threads := ts |}
| StepNewCall tid rid eid s ts ptr s' :
    ts !! tid = None → map_Forall (λ _ t, locked t ≠ Some rid) ts →
    receiverMapFor eid s = (ptr, s') →
    step {| st := s; threads := ts |} {| st := s'; threads := <[tid := Loading rid ptr]> ts |}
| StepHit tid rid ptr corr s ts :
    ts !! tid = Some (Loading rid ptr) → loadCorrelation rid ptr s = Some corr →
    step {| st := s; threads := ts |} {| st := s; threads := <[tid := Returned corr]> ts |}
| StepCopy tid rid ptr corr s ts :
    ts !! tid = Some (Loading rid ptr) → loadCorrelation rid ptr s = None → copyNoType rid ptr s = Some corr →
    step {| st := s; threads := ts |} {| st := s; threads := <[tid := Storing rid ptr corr]> ts |}
| StepPanic tid rid ptr s ts :
    ts !! tid = Some (Loading rid ptr) → loadCorrelation rid ptr s = None → copyNoType rid ptr s = None →
    step {| st := s; threads := ts |} {| st := s; threads := <[tid := Panicked]> ts |}
| StepStore tid rid ptr corr s ts :
    ts !! tid = Some (Storing rid ptr corr) →
    step {| st := s; threads := ts |}
         {| st := storeCorrelation ptr corr s; threads := <[tid := Returned corr]> ts |}
| StepReap now eid s ts :
    step {| st := s; threads := ts |} {| st := reapEndpoint now eid s; threads := ts |}
| StepAttrs rid s ts :
    step {| st := s; threads := ts |} {| st := (Attrs rid s).2; threads := ts |}
| StepUpdateAttrs rid attrs s ts :
    step {| st := s; threads := ts |} {| st := UpdateAttrs rid attrs s; threads := ts |}.

Definition initial (ttl : Z) : system := {| st := newCorrelationStore ttl; threads := ∅ |}.
Definition reachable (ttl : Z) (x : system) : Prop := rtc step (initial ttl) x.

(** ** Invariants *)

(** Every receiver map has the sentinel, keys agree with the correlations, and
    the store points into the heap, to a map of its own for each endpoint. *)
Record map_wf (m : gmap ID correlation) : Prop := {
  wf_NoType : is_Some (m !! NoType);
  wf_key rid corr : m !! rid = Some corr → receiverID corr = rid;
}.
Record store_wf (s : store) : Prop := {
  wf_maps ptr m : heap s !! ptr = Some m → map_wf m;
  wf_ptr eid ptr : correlations s !! eid = Some ptr → is_Some (heap s !! ptr);
  wf_own eid1 eid2 ptr : correlations s !! eid1 = Some ptr → correlations s !! eid2 = Some ptr → eid1 = eid2;
}.

(** A call that is about to store holds the correlation of its receiver, and no
    other call has stored one meanwhile. *)
Definition thread_wf (s : store) (t : thread) : Prop :=
  match t with
  | Loading _ ptr => is_Some (heap s !! ptr)
  | Storing rid ptr corr => receiverID corr = rid ∧ is_Some (heap s !! ptr) ∧ loadCorrelation rid ptr s = None
  | Returned _ => True
  | Panicked => False
  end.

Record system_wf (x : system) : Prop := {
  wf_store : store_wf (st x);
  wf_threads tid t : threads x !! tid = Some t → thread_wf (st x) t;
  wf_locks tid1 tid2 t1 t2 rid :
    threads x !! tid1 = Some t1 → threads x !! tid2 = Some t2 →
    locked t1 = Some rid → locked t2 = Some rid → tid1 = tid2;
}.

Lemma newCorrelationStore_wf t : store_wf (newCorrelationStore t).
Proof. split; intros ? ?; cbn; by rewrite lookup_empty. Qed.

(** What an operation may do to the heap without disturbing a running call:
    maps stay, and receivers without a correlation stay without. *)
Definition heap_le (s s' : store) : Prop :=
  ∀ ptr m, heap s !! ptr = Some m → ∃ m', heap s' !! ptr = Some m' ∧ ∀ rid, m !! rid = None → m' !! rid = None.

Lemma thread_wf_mono s s' t : heap_le s s' → thread_wf s t → thread_wf s' t.
Proof.
  intros Hle. destruct t as [rid ptr|rid ptr corr| |]; cbn; try done.
  - intros [m (m' & Hm' & _)%Hle]. by eexists.
  - intros (Hr & [m Hm] & Hn). destruct (Hle _ _ Hm) as (m' & Hm' & Hnone). split_and!; [done|by eexists|].
    unfold loadCorrelation in *. rewrite Hm in Hn. rewrite Hm'. by apply Hnone.
Qed.

Lemma map_wf_singleton corr : receiverID corr = NoType → map_wf {[NoType := corr]}.
Proof.
  intros Hr. split; [rewrite lookup_singleton_eq; by eexists|]. intros rid c [<- <-]%lookup_singleton_Some. done.
Qed.

Lemma store_wf_set_map ptr m s : store_wf s → map_wf m → store_wf (set_map ptr m s).
Proof.
  intros [Hm Hp Ho] Hw. split; cbn; [| |exact Ho].
  - intros p m' [[<- <-]|[_ Hh]]%lookup_insert_Some; eauto.
  - intros eid p Hc. apply lookup_insert_is_Some'. right. eauto.
Qed.

Lemma store_wf_correlations s s' :
  heap s' = heap s → (∀ eid ptr, correlations s' !! eid = Some ptr → correlations s !! eid = Some ptr) →
  store_wf s → store_wf s'.
Proof. intros Hh Hc [Hm Hp Ho]. split; rewrite ?Hh; eauto. Qed.

Lemma heap_le_refl s s' : heap s' = heap s → heap_le s s'.
Proof. intros Hh ptr m Hm. exists m. by rewrite Hh. Qed.

Lemma heap_le_set_map ptr m' s :
  (∀ m, heap s !! ptr = Some m → ∀ rid, m !! rid = None → m' !! rid = None) → heap_le s (set_map ptr m' s).
Proof.
  intros Hm p m Hp. cbn. destruct (decide (p = ptr)) as [->|Hne].
  - exists m'. rewrite lookup_insert_eq. eauto.
  - exists m. by rewrite lookup_insert_ne.
Qed.

Lemma LoadOrStore_wf eid first s ptr ok s' :
  receiverID first = NoType → store_wf s → LoadOrStore eid first s = (ptr, ok, s') →
  store_wf s' ∧ heap_le s s' ∧ is_Some (heap s' !! ptr) ∧ correlations s' !! eid = Some ptr ∧
  (ok = false → heap s' !! ptr = Some {[NoType := first]}) ∧ (ok = true → s' = s).
Proof.
  intros Hf Hs. unfold LoadOrStore. destruct (correlations s !! eid) as [p|] eqn:Hc; intros [= <- <- <-].
  - split_and!; [done|by apply heap_le_refl|by eapply wf_ptr|done|done|done].
  - set (p := fresh (dom (heap s))).
    assert (Hfr : heap s !! p = None) by (apply not_elem_of_dom, is_fresh).
    split_and!; [| | | | |done].
    + destruct Hs as [Hm Hp Ho]. split; cbn.
      * intros q m [[<- <-]|[_ Hh]]%lookup_insert_Some; [by apply map_wf_singleton|eauto].
      * intros e q [[<- <-]|[_ Hq]]%lookup_insert_Some; apply lookup_insert_is_Some'; eauto.
      * assert (Hnp : ∀ e, correlations s !! e ≠ Some p) by (intros e He; destruct (Hp _ _ He); congruence).
        intros e1 e2 q [[<- <-]|[_ H1]]%lookup_insert_Some [[<- Hq]|[_ H2]]%lookup_insert_Some; [done| | |eauto].
        -- by destruct (Hnp e2).
        -- subst q. by destruct (Hnp e1).
    + intros q m Hq. cbn. exists m. rewrite lookup_insert_ne; [done|congruence].
    + cbn. rewrite lookup_insert_eq. by eexists.
    + cbn. by rewrite lookup_insert_eq.
    + intros _. cbn. by rewrite lookup_insert_eq.
Qed.

Lemma map_imap_touch_lookup ep state obs now (m : gmap ID correlation) rid :
  map_imap (λ rid corr, Some (touch ep state obs (now rid) corr)) m !! rid = touch ep state obs (now rid) <$> m !! rid.
Proof. rewrite map_lookup_imap. by destruct (m !! rid). Qed.

Lemma UpdateEndpoint_wf now ep state obs s :
  store_wf s → store_wf (UpdateEndpoint now ep state obs s) ∧ heap_le s (UpdateEndpoint now ep state obs s).
Proof.
  intros Hs. unfold UpdateEndpoint. destruct (LoadOrStore _ _ s) as [[ptr ok] s'] eqn:Hl.
  apply LoadOrStore_wf in Hl as (Hs' & Hle & [m Hm] & _ & _ & Hok); [|done|done].
  destruct ok; cbn [negb]; [|done]. rewrite (Hok eq_refl) in *. rewrite Hm. split.
  - apply store_wf_set_map; [done|]. destruct (wf_maps _ Hs' _ _ Hm) as [[c Hc] Hk]. split.
    + rewrite map_imap_touch_lookup, Hc. by eexists.
    + intros rid corr. rewrite map_imap_touch_lookup. intros (c' & Hc' & ->)%fmap_Some. exact (Hk _ _ Hc').
  - apply heap_le_set_map. intros m2 Hm2 rid Hr. assert (m2 = m) as -> by (rewrite Hm in Hm2; by injection Hm2).
    by rewrite map_imap_touch_lookup, Hr.
Qed.

Lemma receiverMapFor_wf eid s ptr s' :
  store_wf s → receiverMapFor eid s = (ptr, s') →
  store_wf s' ∧ heap_le s s' ∧ is_Some (heap s' !! ptr) ∧ correlations s' !! eid = Some ptr.
Proof.
  intros Hs. unfold receiverMapFor. destruct (LoadOrStore _ _ s) as [[p ok] s1] eqn:Hl. intros [= <- <-].
  apply LoadOrStore_wf in Hl as (? & ? & ? & ? & _); done.
Qed.

Lemma storeCorrelation_wf ptr corr s : store_wf s → store_wf (storeCorrelation ptr corr s).
Proof.
  intros Hs. unfold storeCorrelation. destruct (heap s !! ptr) as [m|] eqn:Hm; [|done].
  apply store_wf_set_map; [done|]. destruct (wf_maps _ Hs _ _ Hm) as [Hn Hk]. split.
  - apply lookup_insert_is_Some'. by right.
  - intros rid c [[<- <-]|[_ Hc]]%lookup_insert_Some; [done|by apply Hk].
Qed.

(** A store for one receiver does not disturb the calls for the others. *)
Lemma storeCorrelation_thread ptr corr s t :
  locked t ≠ Some (receiverID corr) → thread_wf s t → thread_wf (storeCorrelation ptr corr s) t.
Proof.
  unfold storeCorrelation. destruct (heap s !! ptr) as [m|] eqn:Hm; [|done]. intros Hl.
  destruct t as [rid p|rid p c| |]; cbn; try done.
  - intros Hp. apply lookup_insert_is_Some'. by right.
  - intros (Hr & Hp & Hn). split_and!; [done|apply lookup_insert_is_Some'; by right|].
    unfold loadCorrelation in *. cbn in *. destruct (decide (p = ptr)) as [->|Hne].
    + rewrite lookup_insert_eq. rewrite Hm in Hn. cbn in *. rewrite lookup_insert_ne; [done|congruence].
    + by rewrite lookup_insert_ne.
Qed.

Lemma reapEndpoint_wf now eid s :
  store_wf s → store_wf (reapEndpoint now eid s) ∧ heap (reapEndpoint now eid s) = heap s.
Proof.
  intros Hs. unfold reapEndpoint. destruct (correlations s !! eid) as [ptr|]; [|done].
  destruct (stale now s ptr); [|done]. split; [|done]. apply (store_wf_correlations s); [done| |done].
  cbn. by intros e p [_ ?]%lookup_delete_Some.
Qed.

Lemma Attrs_wf rid s : store_wf s → store_wf (Attrs rid s).2 ∧ heap (Attrs rid s).2 = heap s.
Proof.
  intros Hs. unfold Attrs. destruct (receiverAttrs s !! rid); [done|]. split; [|done].
  by apply (store_wf_correlations s).
Qed.

Lemma copyNoType_Some rid ptr s : store_wf s → is_Some (heap s !! ptr) → ∃ corr, copyNoType rid ptr s = Some corr ∧ receiverID corr = rid.
Proof.
  intros Hs [m Hm]. destruct (wf_NoType _ (wf_maps _ Hs _ _ Hm)) as [c Hc].
  unfold copyNoType, loadCorrelation. rewrite Hm. cbn. rewrite Hc. by eexists.
Qed.

(** A step that changes the store harmlessly and no thread. *)
Lemma system_wf_store s s' ts :
  store_wf s' → heap_le s s' → system_wf {| st := s; threads := ts |} → system_wf {| st := s'; threads := ts |}.
Proof. intros Hs Hle [_ Ht Hl]. split; [done| |done]. cbn in *. eauto using thread_wf_mono. Qed.

(** A step of the thread [tid] that acquires no lock. *)
Lemma system_wf_thread s s' ts tid t t' :
  store_wf s' → ts !! tid = Some t → locked t' = locked t ∨ locked t' = None → thread_wf s' t' →
  (∀ tid' u, tid' ≠ tid → ts !! tid' = Some u → thread_wf s u → thread_wf s' u) →
  system_wf {| st := s; threads := ts |} → system_wf {| st := s'; threads := <[tid := t']> ts |}.
Proof.
  intros Hs Ht Hlt Hwt Hoth [_ Hts Hl]. cbn in *. split; cbn; [done| |].
  - intros tid' u [[<- <-]|[Hne Hu]]%lookup_insert_Some; eauto.
  - assert (Hlk : ∀ i u rid, <[tid := t']> ts !! i = Some u → locked u = Some rid → ∃ v, ts !! i = Some v ∧ locked v = Some rid).
    { intros i u rid [[<- <-]|[Hne Hu]]%lookup_insert_Some Hk; [|eauto]. destruct Hlt; [|congruence]. exists t. split; congruence. }
    intros i j u v rid Hi Hj Hu Hv. apply (Hlk i u rid Hi) in Hu as (u' & Hi' & Hu'). apply (Hlk j v rid Hj) in Hv as (v' & Hj' & Hv'). eauto.
Qed.

Lemma step_wf x y : step x y → system_wf x → system_wf y.
Proof.
  intros Hst Hx. pose proof (wf_store _ Hx) as Hs. destruct Hst as
    [now ep state obs s ts|tid rid eid s ts ptr s' Hf Hlk Hr|tid rid ptr corr s ts Ht Hl|tid rid ptr corr s ts Ht Hl Hc
    |tid rid ptr s ts Ht Hl Hc|tid rid ptr corr s ts Ht|now eid s ts|rid s ts|rid attrs s ts]; cbn in Hs.
  - destruct (UpdateEndpoint_wf now ep state obs s Hs). by apply (system_wf_store s).
  - destruct (receiverMapFor_wf _ _ _ _ Hs Hr) as (Hs' & Hle & Hp & _). destruct Hx as [_ Hts Hl]. cbn in *. split; cbn; [done| |].
    + intros i u [[<- <-]|[_ Hu]]%lookup_insert_Some; [done|]. eauto using thread_wf_mono.
    + intros i j u v r [[<- <-]|[_ Hi]]%lookup_insert_Some [[<- <-]|[_ Hj]]%lookup_insert_Some Hu Hv; [done| | |eauto].
      * cbn in Hu. injection Hu as ->. by destruct (Hlk _ _ Hj).
      * cbn in Hv. injection Hv as ->. by destruct (Hlk _ _ Hi).
  - by apply (system_wf_thread s s ts tid (Loading rid ptr)); try done; [by right].
  - apply (system_wf_thread s s ts tid (Loading rid ptr)); try done; [by left|].
    pose proof (wf_threads _ Hx _ _ Ht) as Hp. cbn in Hp. cbn.
    destruct (copyNoType_Some rid ptr s Hs Hp) as (c & Hc' & Hr). split_and!; [congruence|done|done].
  - destruct (copyNoType_Some rid ptr s Hs (wf_threads _ Hx _ _ Ht)) as (c & Hc' & _). congruence.
  - destruct (wf_threads _ Hx _ _ Ht) as (Hr & _ & _).
    apply (system_wf_thread s _ ts tid (Storing rid ptr corr)); try done; [by apply storeCorrelation_wf|by right|].
    intros i u Hne Hu. apply storeCorrelation_thread. intros Hlk. apply Hne.
    eapply (wf_locks _ Hx i tid u _ rid); [done|done|congruence|done].
  - destruct (reapEndpoint_wf now eid s Hs) as [? Hh]. apply (system_wf_store s); [done|by apply heap_le_refl|done].
  - destruct (Attrs_wf rid s Hs) as [? Hh]. apply (system_wf_store s); [done|by apply heap_le_refl|done].
  - apply (system_wf_store s); [by apply (store_wf_correlations s)|by apply heap_le_refl|done].
Qed.

Lemma reachable_wf t x : reachable t x → system_wf x.
Proof.
  intros Hr. apply (rtc_ind_r system_wf (initial t)) in Hr; [done| |eauto using step_wf].
  split; cbn; [apply newCorrelationStore_wf|intros ? ?; by rewrite lookup_empty..].
Qed.

(** ** What callers rely on *)

(** C8: However [UpdateEndpoint], the reaper and calls of [GetOrCreate]
    interleave, the sentinel correlation is there when [GetOrCreate] reads it
    (the ignored [ok] is always true, so no call panics), and the correlation
    it then stores never replaces one that another call has stored. *)
Theorem GetOrCreate_interleaved t x tid :
  reachable t x →
  threads x !! tid ≠ Some Panicked ∧
  ∀ rid ptr, threads x !! tid = Some (Loading rid ptr) ∨ (∃ corr, threads x !! tid = Some (Storing rid ptr corr)) →
    is_Some (loadCorrelation NoType ptr (st x)) ∧
    ((∃ corr, threads x !! tid = Some (Storing rid ptr corr)) → loadCorrelation rid ptr (st x) = None).
Proof.
  intros Hx%reachable_wf. split; [intros Ht; exact (wf_threads _ Hx _ _ Ht)|].
  assert (Hnt : ∀ ptr, is_Some (heap (st x) !! ptr) → is_Some (loadCorrelation NoType ptr (st x))).
  { intros ptr [m Hm]. unfold loadCorrelation. rewrite Hm. exact (wf_NoType _ (wf_maps _ (wf_store _ Hx) _ _ Hm)). }
  intros rid ptr Ht. split.
  - apply Hnt. destruct Ht as [Ht|[corr Ht]]; apply (wf_threads _ Hx) in Ht; cbn in Ht; tauto.
  - intros [corr Hc]. apply (wf_threads _ Hx) in Hc. cbn in Hc. tauto.
Qed.

Lemma UpdateEndpoint_entries now ep state obs s :
  store_wf s →
  ∃ ptr m, correlations (UpdateEndpoint now ep state obs s) !! ep_ID ep = Some ptr ∧
    heap (UpdateEndpoint now ep state obs s) !! ptr = Some m ∧
    ∀ rid c, m !! rid = Some c → endpoint c = ep ∧ lastState c = state ∧ observerID c = obs ∧ lastUpdated c = now rid.
Proof.
  intros Hs. unfold UpdateEndpoint. destruct (LoadOrStore _ _ s) as [[ptr ok] s'] eqn:Hl.
  apply LoadOrStore_wf in Hl as (Hs' & _ & [m Hm] & Hc & Hf & _); [|done|done].
  destruct ok; cbn [negb].
  - rewrite Hm. exists ptr. eexists. split; [done|]. split; [cbn; apply lookup_insert_eq|].
    intros rid c. rewrite map_imap_touch_lookup. by intros (c' & _ & ->)%fmap_Some.
  - exists ptr, m. split_and!; [done|done|]. rewrite (Hf eq_refl) in Hm. injection Hm as <-.
    by intros rid c [<- <-]%lookup_singleton_Some.
Qed.

(** The correlations of an endpoint, and what other endpoints' events leave of them. *)
Definition receiverMap (eid : string) (s : store) : option (gmap ID correlation) :=
  ptr ← correlations s !! eid; heap s !! ptr.

Lemma LoadOrStore_other eid first s ptr ok s' eid' :
  store_wf s → eid' ≠ eid → LoadOrStore eid first s = (ptr, ok, s') →
  receiverMap eid' s' = receiverMap eid' s ∧ correlations s' !! eid' ≠ Some ptr.
Proof.
  intros Hs Hne. unfold LoadOrStore, receiverMap. destruct (correlations s !! eid) as [p|] eqn:Hc; intros [= <- <- <-].
  - split; [done|]. intros Hc'. by pose proof (wf_own _ Hs _ _ _ Hc Hc').
  - cbn. rewrite lookup_insert_ne by done. set (p := fresh (dom (heap s))).
    assert (Hfr : heap s !! p = None) by (apply not_elem_of_dom, is_fresh).
    destruct (correlations s !! eid') as [q|] eqn:Hq; [|done]. cbn. destruct (wf_ptr _ Hs _ _ Hq).
    assert (q ≠ p) by congruence. split; [by rewrite lookup_insert_ne|congruence].
Qed.

Lemma UpdateEndpoint_other now ep state obs s eid :
  store_wf s → eid ≠ ep_ID ep → receiverMap eid (UpdateEndpoint now ep state obs s) = receiverMap eid s.
Proof.
  intros Hs Hne. unfold UpdateEndpoint. destruct (LoadOrStore _ _ s) as [[ptr ok] s'] eqn:Hl.
  destruct (LoadOrStore_other _ _ _ _ _ _ eid Hs Hne Hl) as [Hr Hp]. destruct ok; cbn [negb]; [|done].
  destruct (heap s' !! ptr) as [m|]; [|done]. rewrite <-Hr. unfold receiverMap. cbn.
  destruct (correlations s' !! eid) as [q|]; [|done]. cbn. apply lookup_insert_ne. congruence.
Qed.

Lemma receiverMapFor_existing eid s ptr : correlations s !! eid = Some ptr → receiverMapFor eid s = (ptr, s).
Proof. intros Hc. unfold receiverMapFor, LoadOrStore. by rewrite Hc. Qed.

Lemma GetOrCreate_hit rid eid s ptr m c :
  correlations s !! eid = Some ptr → heap s !! ptr = Some m → m !! rid = Some c → GetOrCreate rid eid s = Ok (c, s).
Proof.
  intros Hc Hh Hm. unfold GetOrCreate. rewrite (receiverMapFor_existing _ _ _ Hc).
  unfold loadCorrelation. rewrite Hh. cbn. by rewrite Hm.
Qed.

(** Whatever is called, the result is kept for the next call. *)
Lemma GetOrCreate_ok rid eid s :
  store_wf s →
  ∃ c s' ptr m, GetOrCreate rid eid s = Ok (c, s') ∧ store_wf s' ∧ receiverID c = rid ∧
    correlations s' !! eid = Some ptr ∧ heap s' !! ptr = Some m ∧ m !! rid = Some c.
Proof.
  intros Hs. unfold GetOrCreate. destruct (receiverMapFor eid s) as [ptr s1] eqn:Hr.
  apply receiverMapFor_wf in Hr as (Hs1 & _ & [m Hm] & Hc); [|done]. unfold loadCorrelation at 1. rewrite Hm. cbn.
  destruct (m !! rid) as [c|] eqn:Hl.
  - exists c, s1, ptr, m. split_and!; try done. by eapply wf_key; [eapply wf_maps|].
  - destruct (copyNoType_Some rid ptr s1 Hs1) as (c & -> & Hrid); [by eexists|].
    exists c, (storeCorrelation ptr c s1), ptr, (<[rid := c]> m).
    assert (Hst : storeCorrelation ptr c s1 = set_map ptr (<[rid := c]> m) s1)
      by (unfold storeCorrelation; by rewrite Hm, Hrid).
    split_and!; [done|by apply storeCorrelation_wf|done|by rewrite Hst|rewrite Hst; cbn; apply lookup_insert_eq|apply lookup_insert_eq].
Qed.

(** After [UpdateEndpoint], [GetOrCreate] returns for every receiver a
    correlation with the endpoint, state and observer of that update, whether
    or not one existed before; a second call returns the same one and changes
    nothing. *)
Theorem GetOrCreate_after_UpdateEndpoint now ep state obs rid s :
  store_wf s →
  ∃ c s', GetOrCreate rid (ep_ID ep) (UpdateEndpoint now ep state obs s) = Ok (c, s') ∧
    endpoint c = ep ∧ lastState c = state ∧ observerID c = obs ∧ receiverID c = rid ∧
    GetOrCreate rid (ep_ID ep) s' = Ok (c, s').
Proof.
  intros Hs. destruct (UpdateEndpoint_entries now ep state obs s Hs) as (ptr & m & Hc & Hm & Hall).
  destruct (UpdateEndpoint_wf now ep state obs s Hs) as [Hs1 _]. revert Hc Hm Hs1.
  generalize (UpdateEndpoint now ep state obs s) as s1. clear s Hs. intros s1 Hc Hm Hs1.
  destruct (GetOrCreate_ok rid (ep_ID ep) s1 Hs1) as (c & s' & ptr' & m' & Hg & _ & Hrid & Hc' & Hm' & Hl).
  exists c, s'. rewrite (GetOrCreate_hit _ _ _ _ _ _ Hc' Hm' Hl). split; [done|].
  assert (Hsrc : ∃ rid0 c0, m !! rid0 = Some c0 ∧ endpoint c = endpoint c0 ∧ lastState c = lastState c0 ∧ observerID c = observerID c0).
  { clear Hc' Hm' Hl. revert Hg. unfold GetOrCreate. rewrite (receiverMapFor_existing _ _ _ Hc).
    unfold copyNoType, loadCorrelation. rewrite Hm. cbn. destruct (m !! rid) as [c1|] eqn:Hl1.
    - intros [= -> _]. by exists rid, c.
    - destruct (m !! NoType) as [nt|] eqn:Hnt; cbn; [|done]. intros [= <- _]. by exists NoType, nt. }
  destruct Hsrc as (rid0 & c0 & (-> & -> & -> & _)%Hall & -> & -> & ->). done.
Qed.

(** ** The reaper *)

Lemma stale_frame now s s' ptr : heap s' = heap s → ttl s' = ttl s → stale now s' ptr = stale now s ptr.
Proof. intros Hh Ht. unfold stale, loadCorrelation. by rewrite Hh, Ht. Qed.

Lemma reapEndpoint_frame now eid s : heap (reapEndpoint now eid s) = heap s ∧ ttl (reapEndpoint now eid s) = ttl s
  ∧ receiverAttrs (reapEndpoint now eid s) = receiverAttrs s.
Proof. unfold reapEndpoint. destruct (correlations s !! eid); [|done]. by destruct (stale _ _ _). Qed.

Lemma reapEndpoint_lookup now eid s e :
  correlations (reapEndpoint now eid s) !! e =
  if decide (e = eid) then ptr ← correlations s !! e; (if stale now s ptr then None else Some ptr)
  else correlations s !! e.
Proof.
  unfold reapEndpoint. destruct (decide (e = eid)) as [->|Hne].
  - destruct (correlations s !! eid) as [ptr|] eqn:Hc; cbn; [|done]. destruct (stale now s ptr); [|done].
    cbn. apply lookup_delete_eq.
  - destruct (correlations s !! eid) as [ptr|]; [|done]. destruct (stale now s ptr); [|done]. cbn. by apply lookup_delete_ne.
Qed.

(** The reaper drops exactly the endpoints that were last reported removed
    longer ago than the time to live; the others, their correlations and the
    receivers' attributes are untouched. *)
Theorem reap_spec `{MapRange} now s :
  (∀ eid, correlations (reap now s) !! eid =
     ptr ← correlations s !! eid; if stale (now eid) s ptr then None else Some ptr) ∧
  heap (reap now s) = heap s ∧ receiverAttrs (reap now s) = receiverAttrs s.
Proof.
  unfold reap. pose proof (NoDup_range (correlations s)) as Hnd.
  assert (Hgen : ∀ l s1, NoDup l →
    heap (foldl (λ s eid, reapEndpoint (now eid) eid s) s1 l) = heap s1 ∧
    receiverAttrs (foldl (λ s eid, reapEndpoint (now eid) eid s) s1 l) = receiverAttrs s1 ∧
    ∀ eid, correlations (foldl (λ s eid, reapEndpoint (now eid) eid s) s1 l) !! eid =
      if decide (eid ∈ l) then ptr ← correlations s1 !! eid; (if stale (now eid) s1 ptr then None else Some ptr)
      else correlations s1 !! eid).
  { induction l as [|e l IH]; intros s1; cbn [foldl]; [done|]. intros [Hni Hl]%NoDup_cons.
    destruct (reapEndpoint_frame (now e) e s1) as (Hh & Ht & Ha).
    destruct (IH (reapEndpoint (now e) e s1) Hl) as (-> & -> & Hc). split_and!; [done|done|]. intros eid. rewrite Hc, reapEndpoint_lookup.
    destruct (decide (eid = e)) as [->|Hne].
    - rewrite decide_False, decide_True by set_solver. done.
    - destruct (decide (eid ∈ l)) as [Hin|Hin].
      + rewrite decide_True by (by right). destruct (correlations s1 !! eid) as [ptr|]; [|done]. cbn. by rewrite (stale_frame _ s1).
      + rewrite decide_False; [done|]. by intros [?|?]%elem_of_cons. }
  destruct (Hgen _ s Hnd) as (-> & -> & Hc). split_and!; [|done|done]. intros eid. rewrite Hc.
  destruct (decide (eid ∈ (range (correlations s)).*1)) as [|Hni]; [done|].
  destruct (correlations s !! eid) as [ptr|] eqn:He; [|done]. destruct Hni. apply list_elem_of_fmap.
  exists (eid, ptr). split; [done|]. by apply elem_of_range.
Qed.

(** ** A lost update *)

(** The call of [GetOrCreate] for [rid] that has copied the sentinel before the
    endpoint's first event. *)
Definition before_event (t : Z) (rid : ID) (eid : string) : system :=
  let '(ptr, s) := receiverMapFor eid (newCorrelationStore t) in
  {| st := s; threads := {[0 := Storing rid ptr {| lastState := ""; lastUpdated := zeroTime; endpoint := zeroEndpoint;
                                                   receiverID := rid; observerID := NoType |}]} |}.

Lemma before_event_reachable t rid eid : rid ≠ NoType → reachable t (before_event t rid eid).
Proof.
  intros Hr. unfold before_event. destruct (receiverMapFor eid (newCorrelationStore t)) as [ptr s] eqn:Hm.
  assert (Hs : heap s !! ptr = Some {[NoType := newCorrelation]}).
  { unfold receiverMapFor, LoadOrStore in Hm. cbn [correlations newCorrelationStore] in Hm. rewrite lookup_empty in Hm.
    injection Hm as <- <-. cbn. apply lookup_insert_eq. }
  eapply rtc_l; [by apply (StepNewCall 0 rid eid _ ∅ ptr s)|].
  eapply rtc_l; [eapply (StepCopy 0 rid ptr)|].
  - apply lookup_insert_eq.
  - unfold loadCorrelation. rewrite Hs. cbn [mbind option_bind]. apply lookup_singleton_ne. congruence.
  - unfold copyNoType, loadCorrelation. rewrite Hs. cbn [mbind option_bind]. by rewrite lookup_singleton_eq.
  - rewrite insert_insert_eq. apply rtc_refl.
Qed.

(** An [UpdateEndpoint] between the copy and the store of a [GetOrCreate] is
    lost for that receiver: when every call has returned, the store has the new
    observer for the endpoint, and yet keeps returning the receiver's
    correlation without it, until the endpoint's next event. *)
Theorem GetOrCreate_lost_update (t : Z) (rid : ID) (ep : Endpoint) (obs : ID) :
  rid ≠ NoType →
  ∃ x, reachable t x ∧ (∀ tid u, threads x !! tid = Some u → locked u = None) ∧
    (∃ ptr nt, correlations (st x) !! ep_ID ep = Some ptr ∧ loadCorrelation NoType ptr (st x) = Some nt ∧ observerID nt = obs) ∧
    ∃ c, GetOrCreate rid (ep_ID ep) (st x) = Ok (c, st x) ∧ observerID c = NoType.
Proof.
  intros Hr. pose proof (before_event_reachable t rid (ep_ID ep) Hr) as Hreach.
  unfold before_event in Hreach. destruct (receiverMapFor (ep_ID ep) (newCorrelationStore t)) as [ptr s] eqn:Hm.
  pose proof (receiverMapFor_wf _ _ _ _ (newCorrelationStore_wf t) Hm) as (Hs & _ & _ & Hc).
  set (corr := {| lastState := ""; lastUpdated := zeroTime; endpoint := zeroEndpoint; receiverID := rid; observerID := NoType |}) in *.
  set (s1 := UpdateEndpoint (λ _, 0%Z) ep addedState obs s).
  destruct (UpdateEndpoint_entries (λ _, 0%Z) ep addedState obs s Hs) as (ptr1 & m & Hc1 & Hm1 & Hall).
  destruct (UpdateEndpoint_wf (λ _, 0%Z) ep addedState obs s Hs) as [Hs1 _]. fold s1 in Hc1, Hm1, Hs1.
  assert (Hp : ptr1 = ptr).
  { unfold s1, UpdateEndpoint, LoadOrStore in Hc1. rewrite Hc in Hc1. cbn in Hc1.
    destruct (heap s !! ptr); cbn in Hc1; congruence. }
  subst ptr1. exists {| st := storeCorrelation ptr corr s1; threads := <[0 := Returned corr]> {[0 := Storing rid ptr corr]} |}.
  assert (Hst : storeCorrelation ptr corr s1 = set_map ptr (<[rid := corr]> m) s1) by (unfold storeCorrelation; by rewrite Hm1).
  split_and!.
  - eapply rtc_r; [eapply rtc_r; [exact Hreach|apply StepUpdate]|]. apply StepStore with rid. apply lookup_insert_eq.
  - cbn. by intros tid u [[<- <-]|[Hne [? _]%lookup_singleton_Some]]%lookup_insert_Some.
  - cbn [st]. rewrite Hst. destruct (wf_NoType _ (wf_maps _ Hs1 _ _ Hm1)) as [nt Hnt]. exists ptr, nt. split; [done|].
    split; [|by apply (Hall NoType)]. unfold loadCorrelation. cbn. rewrite lookup_insert_eq. cbn. by rewrite lookup_insert_ne.
  - exists corr. cbn [st]. rewrite Hst. split; [|done].
    apply (GetOrCreate_hit _ _ _ ptr (<[rid := corr]> m)); [done|cbn; apply lookup_insert_eq|apply lookup_insert_eq].
Qed.

(** [Attrs] returns what [UpdateAttrs] recorded, the latest value of a key
    first, for that receiver only. *)
Theorem Attrs_UpdateAttrs rid attrs s rid' :
  (Attrs rid' (UpdateAttrs rid attrs s)).1 =
  if decide (rid' = rid) then attrs ∪ (Attrs rid s).1 else (Attrs rid' s).1.
Proof.
  unfold Attrs, UpdateAttrs. cbn. destruct (decide (rid' = rid)) as [->|Hne].
  - rewrite lookup_insert_eq. by destruct (receiverAttrs s !! rid).
  - rewrite lookup_insert_ne by done. by destruct (receiverAttrs s !! rid').
Qed.

(** ** Witnesses *)

Definition demo_rid : ID := {| ID_Type := "smartagent"; ID_Name := "redis" |}.
Definition demo_ep : Endpoint := {| ep_ID := "(host_observer)6379"; ep_Target := "127.0.0.1:6379"; ep_Details := None |}.
Definition demo_obs : ID := {| ID_Type := "host_observer"; ID_Name := "" |}.

Lemma GetOrCreate_interleaved_witness :
  threads (before_event 0 demo_rid (ep_ID demo_ep)) !! 0 ≠ Some Panicked.
Proof. apply (GetOrCreate_interleaved 0). by apply before_event_reachable. Defined.

Lemma GetOrCreate_after_UpdateEndpoint_witness :
  ∃ c s', GetOrCreate demo_rid (ep_ID demo_ep) (UpdateEndpoint (λ _, 7%Z) demo_ep addedState demo_obs (newCorrelationStore 0)) = Ok (c, s')
    ∧ observerID c = demo_obs.
Proof.
  destruct (GetOrCreate_after_UpdateEndpoint (λ _, 7%Z) demo_ep addedState demo_obs demo_rid (newCorrelationStore 0)
    (newCorrelationStore_wf 0)) as (c & s' & ? & _ & _ & ? & _).
  exists c, s'. done.
Defined.

Lemma GetOrCreate_lost_update_witness : ∃ x, reachable 0 x ∧
  ∃ c, GetOrCreate demo_rid (ep_ID demo_ep) (st x) = Ok (c, st x) ∧ observerID c = NoType.
Proof.
  destruct (GetOrCreate_lost_update 0 demo_rid demo_ep demo_obs ltac:(discriminate)) as (x & Hx & _ & _ & Hc).
  exists x. done.
Defined.
