(* ===== verification/DiscoveryEvaluator.v ===== *)
(** * Evaluation of metrics and statements by the discovery receiver

    [evaluator.go], [metric_evaluator.go], [statement_evaluator.go] and the
    configuration handed to the receiver creator ([config.go]), under
    [src/internal/receiver/discoveryreceiver].  A [plog.Logs] is the list of its
    resource logs, each the attributes of the resource and the records of its
    only scope; attribute maps are finite maps and observed timestamps (the
    time of the call) are left out.  A Go panic is an [Err]; an error that the
    code logs and skips is a value. *)

From S2P Require Import Prelude GoStrings GoValue Regexp ConfigProvider DiscoveryReceiver StatusSources Correlations.
From Stdlib Require Import Ascii.

(** User expressions ([regexp], [expr]) and encodings.  The environment of an
    expression also holds itself under "ExprEnv", which the code adds before
    it compiles. *)
Class Engines := {
  regexp_Compile : string → res (string → bool);
  program : Type;
  expr_Compile : string → gmap string any → res program;
  vm_Run : program → gmap string any → res any;
  base64_Encode : string → string;
  base64_Decode : string → res string;
  yaml_Marshal : gmap string any → res string;
  yaml_Unmarshal : string → res (gmap string any);
  json_Marshal : gmap string string → res string;
  json_Unmarshal : string → res (gmap string any);
  Quote : string → string;
}.

Definition receiverUpdatedConfigKey (observerID : string) : string := receiverUpdatedConfigAttr +:+ "." +:+ observerID.
Definition metricMatch : string := "metric.match".
Definition statementMatch : string := "statement.match".

Record logRecord := {
  lr_Body : string;
  lr_SeverityText : string;
  lr_Attributes : gmap string any;
  lr_Timestamp : option Z;
}.
Record resourceLogs := { rl_Attributes : gmap string any; rl_Records : list logRecord }.
Definition plogs := list resourceLogs.
Definition LogRecordCount (l : plogs) : nat := sum_list_with (λ r, length (rl_Records r)) l.

(** The state of an evaluator: the keys already logged, and the store it shares. *)
Record evalState := { alreadyLogged : gset string; estore : store }.

Section evaluator.
Context `{Engines} `{Pdata} `{FloatText} `{MapRange} `{IDRange}.

(** ** evaluator.go *)

(** [matchPattern] and what [matchFunc] says: a verdict, an error, or a failed
    type assertion on the value of an expression. *)
Inductive verdict := VMatch (b : bool) | VError (e : error) | VPanic.

Definition matchPattern (m : Match) : string :=
  if negb (String.eqb (Strict m) "") then Strict m
  else if negb (String.eqb (Regexp_ m) "") then Regexp_ m
  else Expr m.

Definition runMatch (exprEnv : string → gmap string any) (m : Match) (pattern : string) : verdict :=
  if negb (String.eqb (Strict m) "") then VMatch (String.eqb pattern (Strict m))
  else if negb (String.eqb (Regexp_ m) "") then
    match regexp_Compile (Regexp_ m) with
    | Err e => VError (Wrapf "invalid match regexp statement: %w" [] e)
    | Ok re => VMatch (re pattern)
    end
  else if negb (String.eqb (Expr m) "") then
    match expr_Compile (Expr m) (exprEnv pattern) with
    | Err e => VError (Wrapf "invalid match expr statement: %w" [] e)
    | Ok program =>
        match vm_Run program (exprEnv pattern) with
        | Err e => VError e
        | Ok (ABool b) => VMatch b
        | Ok _ => VPanic
        end
    end
  else VError (Errorf "no valid match field provided" []).

Definition loggedKey (m : Match) (status : string) (rid : ID) (endpointID : string) : string :=
  endpointID +:+ "::" +:+ cid_String rid +:+ "::" +:+ status +:+ "::" +:+ matchPattern m.

Definition evaluateMatch (exprEnv : string → gmap string any) (m : Match) (pattern status : string) (rid : ID)
    (endpointID : string) (logged : gset string) : res (bool * option error * gset string) :=
  match runMatch exprEnv m pattern with
  | VPanic => Err (Errorf "panic: interface conversion" [])
  | VError e => Ok (false, Some e, logged)
  | VMatch false => Ok (false, None, logged)
  | VMatch true =>
      if FirstOnly m then
        let key := loggedKey m status rid endpointID in
        if bool_decide (key ∈ logged) then Ok (false, None, logged) else Ok (true, None, {[key]} ∪ logged)
      else Ok (true, None, logged)
  end.

Definition addObserverToEncodedConfig (encoded observerID : string) : res string :=
  dBytes ← base64_Decode encoded;
  cfg ← yaml_Unmarshal dBytes;
  cfgYaml ← wrap_err "failed embedding receiver config to include %q: %w" [observerID]
              (yaml_Marshal (<["watch_observers" := AStrings [observerID]]> cfg));
  Ok (base64_Encode cfgYaml).

(** The value the [Range] of [correlateResourceAttributes] copies for the
    embedded configuration, with the store after it. *)
Definition embeddedConfig (corr : correlation) (attrs : gmap string string) (v : any) (s : store) : string * store :=
  let oid := cid_String (observerID corr) in
  let configVal := AsString v in
  match attrs !! receiverUpdatedConfigKey oid with
  | Some updatedConfig => (updatedConfig, s)
  | None =>
      if String.eqb oid "" then (configVal, s)
      else
        match addObserverToEncodedConfig configVal oid with
        | Err _ => (configVal, s)
        | Ok updatedConfig => (updatedConfig, UpdateAttrs (receiverID corr) {[receiverUpdatedConfigKey oid := updatedConfig]} s)
        end
  end.

(** [from] has its temporary entry removed at the end, so it is as before. *)
Definition correlateResourceAttributes (embed : bool) (from to : gmap string any) (corr : correlation) (s : store)
    : gmap string any * store :=
  let oid := cid_String (observerID corr) in
  let to := if negb (String.eqb oid "") && negb (String.eqb oid (cid_String NoType))
            then <[ObserverIDAttr := AString oid]> to else to in
  let '(attrs, s) := Attrs (receiverID corr) s in
  if embed then
    let v := default (AString (default "" (attrs !! ReceiverConfigAttr))) (from !! ReceiverConfigAttr) in
    let '(configVal, s) := embeddedConfig corr attrs v s in
    (to ∪ <[ReceiverConfigAttr := AString configVal]> from, s)
  else (to ∪ from, s).

(** ** metric_evaluator.go *)

Inductive metricData :=
| MetricTypeEmpty
| MetricTypeGauge (timestamps : list Z)
| MetricTypeSum (timestamps : list Z)
| MetricTypeHistogram (timestamps : list Z)
| MetricTypeExponentialHistogram (timestamps : list Z)
| MetricTypeSummary (timestamps : list Z).
Record metric := { m_Name : string; m_Data : metricData }.
Record resourceMetrics := { rm_Attributes : gmap string any; rm_Scopes : list (list metric) }.

Definition timestampFromMetric (m : metric) : option Z :=
  match m_Data m with
  | MetricTypeGauge ts | MetricTypeSum ts | MetricTypeHistogram ts | MetricTypeExponentialHistogram ts
  | MetricTypeSummary ts => head ts
  | MetricTypeEmpty => None
  end.

Definition allMetrics (md : list resourceMetrics) : list metric := flat_map (λ rm, mjoin (rm_Scopes rm)) md.

(** [receiverMetrics[m.Name()] = append(receiverMetrics[m.Name()], m)] *)
Definition addMetric (rms : gmap string (list metric)) (m : metric) : gmap string (list metric) :=
  <[m_Name m := default [] (rms !! m_Name m) ++ [m]]> rms.

Definition metricEnv (pattern : string) : gmap string any := {["name" := AString pattern]}.

Definition emptyRecord : LogRecordCfg := {| Attributes := ∅; SeverityText := ""; Body := ""; AppendPattern := false |}.

Definition metricRecord (m : Match) (metricName status : string) (mt : metric) : logRecord :=
  let desired := default emptyRecord (Record_ m) in
  {| lr_Body := Body desired;
     lr_SeverityText := if String.eqb (SeverityText desired) "" then "info" else SeverityText desired;
     lr_Attributes := <[StatusAttr := AString status]> (<[metricNameAttr := AString metricName]> (AString <$> Attributes desired));
     lr_Timestamp := timestampFromMetric mt |}.

(** The innermost loop body; [err != nil] and [!shouldLog] both continue. *)
Definition evalMetric (rid : ID) (endpointID status : string) (m : Match) (metricName : string)
    (acc : gset string * list logRecord) (mt : metric) : res (gset string * list logRecord) :=
  match evaluateMatch metricEnv m metricName status rid endpointID acc.1 with
  | Err e => Err e
  | Ok (shouldLog, _, logged) =>
      Ok (logged, if shouldLog then acc.2 ++ [metricRecord m metricName status mt] else acc.2)
  end.

Definition evalMetrics (rid : ID) (endpointID : string) (metrics : gmap string (list Match))
    (rms : gmap string (list metric)) (acc : gset string * list logRecord) : res (gset string * list logRecord) :=
  foldM_res (λ acc (sm : string * list Match),
    foldM_res (λ acc m,
      foldM_res (λ acc (nm : string * list metric), foldM_res (evalMetric rid endpointID sm.1 m nm.1) acc nm.2)
        acc (range rms)) acc sm.2) acc (range metrics).

(** The logs, and the state after it; the error of [GetOrCreate] is a panic. *)
Definition evaluateMetrics (cfg : Config) (md : list resourceMetrics) (st : evalState) : res (plogs * evalState) :=
  if length (allMetrics md) =? 0 then Ok ([], st)
  else
    match MetricsToReceiverIDs (rm_Attributes <$> md) with
    | Err e => Err e
    | Ok (rid, endpointID) =>
        if bool_decide (rid = NoType) || String.eqb endpointID "" then Ok ([], st)
        else
          match Receivers cfg !! rid with
          | None => Ok ([], st)
          | Some rEntry =>
              match re_Status rEntry with
              | None => Ok ([], st)
              | Some status =>
                  if size (Metrics status) =? 0 then Ok ([], st)
                  else
                    match GetOrCreate rid endpointID (estore st) with
                    | Err e => Err e
                    | Ok (corr, s) =>
                        let from := match md with rm :: _ => rm_Attributes rm | [] => ∅ end in
                        let '(rAttrs, s) := correlateResourceAttributes (EmbedReceiverConfig cfg) from ∅ corr s in
                        let rAttrs := <[receiverRuleAttr := AString (re_Rule rEntry)]>
                                        (<[eventTypeAttr := AString metricMatch]> rAttrs) in
                        let rms := foldl addMetric ∅ (allMetrics md) in
                        match evalMetrics rid endpointID (Metrics status) rms (alreadyLogged st, []) with
                        | Err e => Err e
                        | Ok (logged, records) =>
                            Ok (if length records =? 0 then [] else [{| rl_Attributes := rAttrs; rl_Records := records |}],
                                {| alreadyLogged := logged; estore := s |})
                        end
                    end
              end
          end
    end.

(** [ConsumeMetrics] sends the logs on the channel when there are records. *)
Definition ConsumeMetrics (cfg : Config) (md : list resourceMetrics) (st : evalState) (ch : list plogs)
    : res (list plogs * evalState) :=
  match evaluateMetrics cfg md st with
  | Err e => Err e
  | Ok (pLogs, st) => Ok (if 0 <? LogRecordCount pLogs then ch ++ [pLogs] else ch, st)
  end.

(** ** statement_evaluator.go *)

Record Statement := { s_Message : string; s_Fields : gmap string any; s_Level : string; s_Time : Z }.

(** [StatementFromZapCoreEntry], from the decoded JSON of the encoded entry. *)
Definition undesiredFields : list string := ["ts"; "msg"; "level"].
Definition StatementFromZapCoreEntry (message level : string) (time : Z) (decoded : gmap string any) : Statement :=
  {| s_Message := message; s_Level := level; s_Time := time;
     s_Fields := foldl (λ m k, delete k m) decoded undesiredFields |}.

Definition ToLogRecord (s : Statement) : logRecord :=
  {| lr_Body := s_Message s; lr_SeverityText := s_Level s; lr_Attributes := s_Fields s; lr_Timestamp := Some (s_Time s) |}.

Definition statementEnv (pattern : string) : gmap string any :=
  match json_Unmarshal pattern with
  | Ok patternMap => patternMap
  | Err _ => {["message" := AString pattern]}
  end.

Definition receiverEntryFromLogRecord (cfg : Config) (record : logRecord) : res (option (ID * string * ReceiverEntry * Status)) :=
  match ReceiverNameToIDs (lr_Attributes record) with
  | Err e => Err e
  | Ok (rid, endpointID) =>
      if bool_decide (rid = NoType) || String.eqb endpointID "" then Ok None
      else
        match Receivers cfg !! rid with
        | None => Ok None
        | Some rEntry =>
            match re_Status rEntry with
            | None => Ok None
            | Some status => Ok (Some (rid, endpointID, rEntry, status))
            end
        end
  end.

(** The attributes of the staged logs. *)
Definition prepareMatchingLogs (cfg : Config) (rEntry : ReceiverEntry) (rid : ID) (endpointID : string) (s : store)
    : res (gmap string any * store) :=
  let fromAttrs : gmap string any :=
    <[EndpointIDAttr := AString endpointID]> (<[ReceiverNameAttr := AString (ID_Name rid)]>
      {[ReceiverTypeAttr := AString (ID_Type rid)]}) in
  match GetOrCreate rid endpointID s with
  | Err e => Err e
  | Ok (corr, s) =>
      let '(rAttrs, s) := correlateResourceAttributes (EmbedReceiverConfig cfg) fromAttrs ∅ corr s in
      Ok (<[receiverRuleAttr := AString (re_Rule rEntry)]> (<[eventTypeAttr := AString statementMatch]> rAttrs), s)
  end.

Definition unpatternedFields : list string := ["caller"; "monitorID"; "name"; "stacktrace"].
Definition patternMap (s : Statement) : gmap string string :=
  (Sprint <$> filter (λ kv, kv.1 ∉ unpatternedFields) (s_Fields s)) ∪ {["message" := s_Message s]}.
Definition patternMapStr (s : Statement) : string :=
  match json_Marshal (patternMap s) with
  | Ok pm => pm
  | Err _ => "{" +:+ quoted "message" +:+ ":" +:+ Quote (s_Message s) +:+ "}"
  end.

Definition statementRecord (m : Match) (p status : string) (s : Statement) : logRecord :=
  let desired := default emptyRecord (Record_ m) in
  let base := ToLogRecord s in
  {| lr_Body :=
       if String.eqb (Body desired) "" then lr_Body base
       else if AppendPattern desired then Body desired +:+ " (evaluated " +:+ Quote p +:+ ")" else Body desired;
     lr_SeverityText :=
       if negb (String.eqb (SeverityText desired) "") then SeverityText desired
       else if negb (String.eqb (lr_SeverityText base) "") then lr_SeverityText base else "INFO";
     lr_Attributes := <[StatusAttr := AString status]> ((AString <$> Attributes desired) ∪ lr_Attributes base);
     lr_Timestamp := Some (s_Time s) |}.

Definition statementPattern (m : Match) (s : Statement) : string :=
  if negb (String.eqb (Strict m) "") then s_Message s else patternMapStr s.

Definition evalStatement (rid : ID) (endpointID status : string) (s : Statement)
    (acc : gset string * list logRecord) (m : Match) : res (gset string * list logRecord) :=
  match evaluateMatch statementEnv m (statementPattern m s) status rid endpointID acc.1 with
  | Err e => Err e
  | Ok (shouldLog, _, logged) =>
      Ok (logged, if shouldLog then acc.2 ++ [statementRecord m (statementPattern m s) status s] else acc.2)
  end.

Definition evaluateStatement (cfg : Config) (s : Statement) (st : evalState) : res (plogs * evalState) :=
  match receiverEntryFromLogRecord cfg (ToLogRecord s) with
  | Err e => Err e
  | Ok None => Ok ([], st)
  | Ok (Some (rid, endpointID, rEntry, status)) =>
      match prepareMatchingLogs cfg rEntry rid endpointID (estore st) with
      | Err e => Err e
      | Ok (rAttrs, store') =>
          match foldM_res (λ acc (sm : string * list Match), foldM_res (evalStatement rid endpointID sm.1 s) acc sm.2)
                  (alreadyLogged st, []) (range (Statements status)) with
          | Err e => Err e
          | Ok (logged, records) =>
              Ok (if length records =? 0 then [] else [{| rl_Attributes := rAttrs; rl_Records := records |}],
                  {| alreadyLogged := logged; estore := store' |})
          end
      end
  end.

(** [Write] on the decoded entry: statements of the internal receiver creator
    go to the receiver's own logger, the others are evaluated. *)
Inductive written := Forwarded | Evaluated (ch : list plogs) (st : evalState).
Definition Write (UnmarshalText : string → res ID) (id : ID) (cfg : Config) (s : Statement) (st : evalState)
    (ch : list plogs) : res written :=
  let internal :=
    match s_Fields s !! "name" with
    | Some name =>
        match UnmarshalText (Sprint name) with
        | Ok cid => String.eqb (ID_Type cid) "receiver_creator" && String.eqb (ID_Name cid) (cid_String id)
        | Err _ => false
        end
    | None => false
    end in
  if internal then Ok Forwarded
  else
    match evaluateStatement cfg s st with
    | Err e => Err e
    | Ok (pLogs, st) => Ok (Evaluated (if 0 <? LogRecordCount pLogs then ch ++ [pLogs] else ch) st)
    end.

(** ** config.go: the receiver creator's configuration *)

Definition strings_any (m : gmap string string) : any := AMap (AString <$> m).

Definition receiverResourceAttributes (rid : ID) (rEntry : ReceiverEntry) : gmap string string :=
  <[EndpointIDAttr := "`id`"]> (<[receiverRuleAttr := re_Rule rEntry]> (<[ReceiverTypeAttr := ID_Type rid]>
    (<[ReceiverNameAttr := ID_Name rid]> (re_ResourceAttributes rEntry)))).

Definition embeddedReceiver (rid : ID) (rEntry : ReceiverEntry) : gmap string any :=
  {["receivers" := AMap {[cid_String rid := AMap
    (<["rule" := AString (re_Rule rEntry)]> (<["config" := AMap (re_Config rEntry)]>
      {["resource_attributes" := strings_any (re_ResourceAttributes rEntry)]}))]}]}.

Definition receiverTemplate (embed : bool) (acc : gmap string any * store) (kv : ID * ReceiverEntry)
    : res (gmap string any * store) :=
  let '(rid, rEntry) := kv in
  let attrs := receiverResourceAttributes rid rEntry in
  let add attrs s :=
    Ok (<[cid_String rid := AMap (<["rule" := AString (re_Rule rEntry)]> (<["config" := AMap (re_Config rEntry)]>
          {["resource_attributes" := strings_any attrs]}))]> acc.1, s) in
  if embed then
    match yaml_Marshal (embeddedReceiver rid rEntry) with
    | Err e => Err (Wrapf "failed embedding %q receiver config: %w" [cid_String rid] e)
    | Ok configYaml =>
        let encoded := base64_Encode configYaml in
        add (<[ReceiverConfigAttr := encoded]> attrs) (UpdateAttrs rid {[ReceiverConfigAttr := encoded]} acc.2)
    end
  else add attrs acc.2.

Definition receiverCreatorReceiversConfig (cfg : Config) (s : store) : res (gmap string any * store) :=
  foldM_res (receiverTemplate (EmbedReceiverConfig cfg)) (∅, s) (rangeID (Receivers cfg)).

(** ** First-only matches *)

(** A sequence of calls of [evaluateMatch] on one evaluator. *)
Record evaluation := { ev_Match : Match; ev_Pattern : string; ev_Status : string; ev_Receiver : ID; ev_Endpoint : string }.
Definition ev_key (e : evaluation) : string := loggedKey (ev_Match e) (ev_Status e) (ev_Receiver e) (ev_Endpoint e).

Fixpoint evaluateAll (env : string → gmap string any) (es : list evaluation) (logged : gset string) : res (list bool) :=
  match es with
  | [] => Ok []
  | e :: es =>
      match evaluateMatch env (ev_Match e) (ev_Pattern e) (ev_Status e) (ev_Receiver e) (ev_Endpoint e) logged with
      | Err e => Err e
      | Ok (b, _, logged) => match evaluateAll env es logged with Err e => Err e | Ok bs => Ok (b :: bs) end
      end
  end.

(** A first-only match that is satisfied. *)
Definition fires (env : string → gmap string any) (e : evaluation) : Prop :=
  FirstOnly (ev_Match e) = true ∧ runMatch env (ev_Match e) (ev_Pattern e) = VMatch true.

Lemma evaluateMatch_logged env e logged b err logged' :
  evaluateMatch env (ev_Match e) (ev_Pattern e) (ev_Status e) (ev_Receiver e) (ev_Endpoint e) logged = Ok (b, err, logged') →
  (∀ k, k ∈ logged' ↔ k ∈ logged ∨ (fires env e ∧ k = ev_key e)) ∧
  (FirstOnly (ev_Match e) = true → (b = true ↔ runMatch env (ev_Match e) (ev_Pattern e) = VMatch true ∧ ev_key e ∉ logged)).
Proof.
  unfold evaluateMatch, fires. destruct (runMatch env _ _) as [[]| |]; try (intros [= <- <- <-]; naive_solver).
  fold (ev_key e). destruct (FirstOnly (ev_Match e)); [|intros [= <- <- <-]; naive_solver].
  case_bool_decide as Hk; intros [= <- <- <-]; [set_solver|]. split; [|naive_solver]. intros k. set_solver.
Qed.

Lemma evaluateAll_spec env es logged bs :
  evaluateAll env es logged = Ok bs →
  ∀ i e, es !! i = Some e → FirstOnly (ev_Match e) = true →
    (bs !! i = Some true ↔
     runMatch env (ev_Match e) (ev_Pattern e) = VMatch true ∧ ev_key e ∉ logged ∧
     ∀ j e', j < i → es !! j = Some e' → fires env e' → ev_key e' ≠ ev_key e).
Proof.
  revert logged bs. induction es as [|e0 es IH]; intros logged bs; cbn [evaluateAll]; [done|].
  destruct (evaluateMatch env _ _ _ _ _ logged) as [[[b err] logged']|] eqn:He; [|done].
  destruct (evaluateAll env es logged') as [bs'|] eqn:Hall; [|done]. intros [= <-].
  apply evaluateMatch_logged in He as [Hl Hb]. intros [|i] e Hi Hf; cbn in Hi.
  - injection Hi as ->. cbn. rewrite (inj_iff Some), (Hb Hf). naive_solver lia.
  - cbn. rewrite (IH _ _ Hall i e Hi Hf), Hl. split.
    + intros (Hm & Hn & Hj). split_and!; [done|tauto|]. intros [|j] e' Hlt He' Hfi; cbn in He'.
      * injection He' as ->. intros Hk. apply Hn. right. done.
      * apply (Hj j); [lia|done|done].
    + intros (Hm & Hn & Hj). split_and!; [done| |].
      * intros [?|[Hfi Hk]]; [done|]. by apply (Hj 0 e0); [lia|done|done|].
      * intros j e' Hlt He' Hfi. apply (Hj (S j)); [lia|done|done].
Qed.

(** A first-only match is reported exactly once per key: of the evaluations
    an evaluator makes, one of a first-only match says to log if and only if
    the match holds and no earlier first-only match that held had its key
    (endpoint, receiver, status and pattern). *)
Theorem evaluateMatch_first_only env es bs :
  evaluateAll env es ∅ = Ok bs →
  ∀ i e, es !! i = Some e → FirstOnly (ev_Match e) = true →
    (bs !! i = Some true ↔
     runMatch env (ev_Match e) (ev_Pattern e) = VMatch true ∧
     ∀ j e', j < i → es !! j = Some e' → fires env e' → ev_key e' ≠ ev_key e).
Proof.
  intros Hall i e Hi Hf. rewrite (evaluateAll_spec _ _ _ _ Hall i e Hi Hf). set_solver.
Qed.

(** An expression whose value is not a boolean makes the evaluation panic:
    the compilation does not ask for a boolean and the value's type is asserted. *)
Theorem evaluateMatch_expr_panics env m pattern status rid eid logged prog v :
  Strict m = "" → Regexp_ m = "" → Expr m ≠ "" →
  expr_Compile (Expr m) (env pattern) = Ok prog → vm_Run prog (env pattern) = Ok v → (∀ b, v ≠ ABool b) →
  ∃ e, evaluateMatch env m pattern status rid eid logged = Err e.
Proof.
  intros Hs Hr He Hc Hv Hb. unfold evaluateMatch, runMatch. rewrite Hs, Hr, Hc, Hv. cbn [String.eqb negb].
  destruct (String.eqb_spec (Expr m) ""); [done|]. cbn [negb].
  destruct v; try (by eexists). by destruct (Hb b).
Qed.

(** ** The evaluation loops *)

(** One evaluation of a loop: the record is added when the match says to log. *)
Record candidate := { c_Match : Match; c_Pattern : string; c_Status : string; c_Record : logRecord }.

Definition evalCandidate (env : string → gmap string any) (rid : ID) (endpointID : string)
    (acc : gset string * list logRecord) (c : candidate) : res (gset string * list logRecord) :=
  match evaluateMatch env (c_Match c) (c_Pattern c) (c_Status c) rid endpointID acc.1 with
  | Err e => Err e
  | Ok (shouldLog, _, logged) => Ok (logged, if shouldLog then acc.2 ++ [c_Record c] else acc.2)
  end.

Definition holds (env : string → gmap string any) (c : candidate) : Prop :=
  runMatch env (c_Match c) (c_Pattern c) = VMatch true.

Lemma evalCandidates_spec env rid eid cs acc :
  (∀ c, c ∈ cs → runMatch env (c_Match c) (c_Pattern c) ≠ VPanic) →
  ∃ logged rs, foldM_res (evalCandidate env rid eid) acc cs = Ok (logged, acc.2 ++ rs) ∧
    (∀ r, r ∈ rs → ∃ c, c ∈ cs ∧ holds env c ∧ r = c_Record c) ∧
    (∀ c, c ∈ cs → holds env c → FirstOnly (c_Match c) = false → c_Record c ∈ rs).
Proof.
  revert acc. induction cs as [|c cs IH]; intros [logged0 rs0] Hp; cbn [foldM_res].
  { exists logged0, []. rewrite app_nil_r. set_solver. }
  assert (Hstep : ∃ b logged, evalCandidate env rid eid (logged0, rs0) c = Ok (logged, if b : bool then rs0 ++ [c_Record c] else rs0) ∧
    (b = true → holds env c) ∧ (holds env c → FirstOnly (c_Match c) = false → b = true)).
  { unfold evalCandidate, evaluateMatch, holds. specialize (Hp c (list_elem_of_here _ _)). cbn [fst snd].
    destruct (runMatch env _ _) as [[]| |]; [|by eexists false, _|by eexists false, _|done].
    destruct (FirstOnly (c_Match c)); [|by eexists true, _]. case_bool_decide; [by eexists false, _|by eexists true, _]. }
  destruct Hstep as (b & logged & -> & Hb1 & Hb2).
  destruct (IH (logged, if b then rs0 ++ [c_Record c] else rs0)) as (lg & rs & -> & Hs & Hc); [set_solver|].
  cbn [snd]. exists lg, ((if b then [c_Record c] else []) ++ rs). split_and!.
  - destruct b; cbn [fst snd app]; [by rewrite <-app_assoc|done].
  - intros r. rewrite elem_of_app. intros [Hr|(c' & ? & ? & ->)%Hs].
    + destruct b; [|set_solver]. exists c. set_solver.
    + exists c'. set_solver.
  - intros c'. rewrite elem_of_cons. intros [->|Hin] Hh Hf; rewrite elem_of_app.
    + left. rewrite Hb2 by done. set_solver.
    + right. by apply Hc.
Qed.

Lemma foldM_res_flat_map {A B C} (f : C → B → res C) (g : A → list B) (c : C) l :
  foldM_res f c (flat_map g l) = foldM_res (λ c x, foldM_res f c (g x)) c l.
Proof.
  revert c. induction l as [|x l IH]; intros c; [done|]. cbn [flat_map foldM_res].
  assert (Happ : ∀ l1 l2 c, foldM_res f c (l1 ++ l2) = match foldM_res f c l1 with Err e => Err e | Ok c => foldM_res f c l2 end).
  { induction l1 as [|y l1 IH1]; intros l2 c0; [done|]. cbn. destruct (f c0 y); [apply IH1|done]. }
  rewrite Happ. destruct (foldM_res f c (g x)); [apply IH|done].
Qed.

Lemma foldM_res_ext {A B} (f g : B → A → res B) b l : (∀ b x, f b x = g b x) → foldM_res f b l = foldM_res g b l.
Proof. intros Hfg. revert b. induction l as [|x l IH]; intros b; [done|]. cbn. rewrite Hfg. destruct (g b x); [apply IH|done]. Qed.

Lemma foldM_res_map {A B C} (f : C → B → res C) (g : A → B) (c : C) l :
  foldM_res f c (map g l) = foldM_res (λ c x, f c (g x)) c l.
Proof. revert c. induction l as [|x l IH]; intros c; [done|]. cbn. destruct (f c (g x)); [apply IH|done]. Qed.

(** ** Metrics *)

Definition metricCandidate (status : string) (m : Match) (name : string) (mt : metric) : candidate :=
  {| c_Match := m; c_Pattern := name; c_Status := status; c_Record := metricRecord m name status mt |}.
Definition metricCandidates (metrics : gmap string (list Match)) (rms : gmap string (list metric)) : list candidate :=
  flat_map (λ sm : string * list Match, flat_map (λ m,
    flat_map (λ nm : string * list metric, map (metricCandidate sm.1 m nm.1) nm.2) (range rms)) sm.2) (range metrics).

Lemma evalMetrics_candidates rid eid metrics rms acc :
  evalMetrics rid eid metrics rms acc = foldM_res (evalCandidate metricEnv rid eid) acc (metricCandidates metrics rms).
Proof.
  unfold evalMetrics, metricCandidates. rewrite foldM_res_flat_map. apply foldM_res_ext. intros a [status matches].
  rewrite foldM_res_flat_map. apply foldM_res_ext. intros a' m. rewrite foldM_res_flat_map.
  apply foldM_res_ext. intros a'' [name ms]. by rewrite foldM_res_map.
Qed.

(** The metrics are grouped by name, none lost. *)
Lemma addMetric_spec l rms0 name mt :
  (∃ ms, foldl addMetric rms0 l !! name = Some ms ∧ mt ∈ ms) ↔
  (∃ ms, rms0 !! name = Some ms ∧ mt ∈ ms) ∨ (mt ∈ l ∧ m_Name mt = name).
Proof.
  revert rms0. induction l as [|m l IH]; intros rms0; cbn [foldl]; [set_solver|]. rewrite IH, elem_of_cons.
  unfold addMetric. destruct (decide (m_Name m = name)) as [<-|Hne].
  - assert (Hex : ∀ x : list metric, (∃ ms, Some x = Some ms ∧ mt ∈ ms) ↔ mt ∈ x) by naive_solver.
    rewrite lookup_insert_eq, Hex. destruct (rms0 !! m_Name m) as [ms|]; cbn [default].
    + rewrite Hex, elem_of_app, list_elem_of_singleton. naive_solver.
    + rewrite elem_of_app, list_elem_of_singleton. set_solver.
  - rewrite lookup_insert_ne by done. naive_solver.
Qed.

Lemma elem_of_metricCandidates metrics md c :
  c ∈ metricCandidates metrics (foldl addMetric ∅ (allMetrics md)) ↔
  ∃ status matches m mt, metrics !! status = Some matches ∧ m ∈ matches ∧ mt ∈ allMetrics md ∧
    c = metricCandidate status m (m_Name mt) mt.
Proof.
  unfold metricCandidates. rewrite elem_of_flat_map. split.
  - intros ([status matches] & Hs%elem_of_range & Hc). apply elem_of_flat_map in Hc as (m & Hm & Hc).
    apply elem_of_flat_map in Hc as ([name ms] & Hn%elem_of_range & Hc).
    apply (list_elem_of_fmap (metricCandidate status m name) ms) in Hc as (mt & -> & Hmt).
    destruct (proj1 (addMetric_spec (allMetrics md) ∅ name mt)) as [(? & ? & _)|[Hin <-]]; [by eexists| |].
    { by rewrite lookup_empty in *. }
    by exists status, matches, m, mt.
  - intros (status & matches & m & mt & Hs & Hm & Hmt & ->). exists (status, matches). split; [by apply elem_of_range|].
    apply elem_of_flat_map. exists m. split; [done|]. apply elem_of_flat_map.
    destruct (proj2 (addMetric_spec (allMetrics md) ∅ (m_Name mt) mt)) as (ms & Hl & Hin); [by right|].
    exists (m_Name mt, ms). split; [by apply elem_of_range|]. by apply (list_elem_of_fmap_2 (metricCandidate status m (m_Name mt))).
Qed.

Definition logRecords (l : plogs) : list logRecord := flat_map rl_Records l.

Lemma staged_records a rs :
  logRecords (if length rs =? 0 then [] else [{| rl_Attributes := a; rl_Records := rs |}]) = rs.
Proof. destruct rs; [done|]. cbn. by rewrite app_nil_r. Qed.

(** C9: Metrics that carry the identity of a receiver and an endpoint, of a
    receiver that is configured with a status, are evaluated: when no match
    expression panics on them (an expression that is not boolean does),
    [evaluateMetrics] returns logs whose records are each for one
    of the metrics and a match of some status that its name satisfies, with
    the metric's name and that status among the attributes; and every metric
    that satisfies a match that is not first-only has its record. *)
Theorem evaluateMetrics_correct cfg md st rid eid entry status :
  store_wf (estore st) →
  MetricsToReceiverIDs (rm_Attributes <$> md) = Ok (rid, eid) → rid ≠ NoType → eid ≠ "" →
  Receivers cfg !! rid = Some entry → re_Status entry = Some status →
  (∀ s ms m mt, Metrics status !! s = Some ms → m ∈ ms → mt ∈ allMetrics md → runMatch metricEnv m (m_Name mt) ≠ VPanic) →
  ∃ logs st', evaluateMetrics cfg md st = Ok (logs, st') ∧
    (∀ r, r ∈ logRecords logs → ∃ s ms m mt, Metrics status !! s = Some ms ∧ m ∈ ms ∧ mt ∈ allMetrics md ∧
       runMatch metricEnv m (m_Name mt) = VMatch true ∧ r = metricRecord m (m_Name mt) s mt) ∧
    (∀ s ms m mt, Metrics status !! s = Some ms → m ∈ ms → mt ∈ allMetrics md →
       runMatch metricEnv m (m_Name mt) = VMatch true → FirstOnly m = false → metricRecord m (m_Name mt) s mt ∈ logRecords logs).
Proof.
  intros Hs Hids Hr He Hentry Hstatus Hp. unfold evaluateMetrics.
  destruct (length (allMetrics md) =? 0) eqn:Hlen.
  { apply Nat.eqb_eq, nil_length_inv in Hlen. eexists [], _. split; [done|]. rewrite Hlen. set_solver. }
  rewrite Hids, bool_decide_false by done. destruct (String.eqb_spec eid ""); [done|]. cbn [orb].
  rewrite Hentry, Hstatus. destruct (size (Metrics status) =? 0) eqn:Hsz.
  { apply Nat.eqb_eq, map_size_empty_iff in Hsz. eexists [], _. split; [done|]. rewrite Hsz.
    split; [set_solver|]. intros ? ? ? ?. by rewrite lookup_empty. }
  destruct (GetOrCreate_ok rid eid (estore st) Hs) as (corr & s1 & _ & _ & -> & _).
  destruct (correlateResourceAttributes _ _ _ _ _) as [rAttrs s2]. rewrite evalMetrics_candidates.
  destruct (evalCandidates_spec metricEnv rid eid (metricCandidates (Metrics status) (foldl addMetric ∅ (allMetrics md)))
    (alreadyLogged st, [])) as (logged & rs & -> & Hsound & Hcomp).
  { intros c (s & ms & m & mt & ? & ? & ? & ->)%elem_of_metricCandidates. by eapply Hp. }
  cbn [snd app]. eexists _, _. split; [reflexivity|].
  rewrite staged_records. split.
  - intros r (c & (s & ms & m & mt & ? & ? & ? & ->)%elem_of_metricCandidates & Hh & ->)%Hsound. by exists s, ms, m, mt.
  - intros s ms m mt Hl Hm Hmt Hrun Hf. apply (Hcomp (metricCandidate s m (m_Name mt) mt)); [|done|done].
    apply elem_of_metricCandidates. by exists s, ms, m, mt.
Qed.

(** ** Statements *)

Definition statementCandidate (s : Statement) (status : string) (m : Match) : candidate :=
  {| c_Match := m; c_Pattern := statementPattern m s; c_Status := status;
     c_Record := statementRecord m (statementPattern m s) status s |}.

(** A statement of a configured receiver is evaluated: unless an expression
    is not boolean, [evaluateStatement] returns logs whose records are each for
    a match of some status that the statement satisfies (its message, for a
    strict match, else its fields as JSON), and every such match that is not
    first-only has its record. *)
Theorem evaluateStatement_correct cfg s st rid eid entry status :
  store_wf (estore st) → receiverEntryFromLogRecord cfg (ToLogRecord s) = Ok (Some (rid, eid, entry, status)) →
  (∀ k ms m, Statements status !! k = Some ms → m ∈ ms → runMatch statementEnv m (statementPattern m s) ≠ VPanic) →
  ∃ logs st', evaluateStatement cfg s st = Ok (logs, st') ∧
    (∀ r, r ∈ logRecords logs → ∃ k ms m, Statements status !! k = Some ms ∧ m ∈ ms ∧
       runMatch statementEnv m (statementPattern m s) = VMatch true ∧ r = statementRecord m (statementPattern m s) k s) ∧
    (∀ k ms m, Statements status !! k = Some ms → m ∈ ms → runMatch statementEnv m (statementPattern m s) = VMatch true →
       FirstOnly m = false → statementRecord m (statementPattern m s) k s ∈ logRecords logs).
Proof.
  intros Hs Hids Hp. unfold evaluateStatement, prepareMatchingLogs. rewrite Hids.
  destruct (GetOrCreate_ok rid eid (estore st) Hs) as (corr & s1 & _ & _ & -> & _).
  destruct (correlateResourceAttributes _ _ _ _ _) as [rAttrs s2].
  set (cs := flat_map (λ sm : string * list Match, map (statementCandidate s sm.1) sm.2) (range (Statements status))).
  assert (Hcs : ∀ c, c ∈ cs ↔ ∃ k ms m, Statements status !! k = Some ms ∧ m ∈ ms ∧ c = statementCandidate s k m).
  { intros c. unfold cs. rewrite elem_of_flat_map. split.
    - intros ([k ms] & Hk%elem_of_range & (m & -> & Hm)%(list_elem_of_fmap (statementCandidate s k) ms)). by exists k, ms, m.
    - intros (k & ms & m & Hk & Hm & ->). exists (k, ms). split; [by apply elem_of_range|].
      by apply (list_elem_of_fmap_2 (statementCandidate s k)). }
  assert (Hloop : foldM_res (λ acc (sm : string * list Match), foldM_res (evalStatement rid eid sm.1 s) acc sm.2)
    (alreadyLogged st, []) (range (Statements status)) = foldM_res (evalCandidate statementEnv rid eid) (alreadyLogged st, []) cs).
  { unfold cs. rewrite foldM_res_flat_map. apply foldM_res_ext. intros a [k ms]. by rewrite foldM_res_map. }
  rewrite Hloop. destruct (evalCandidates_spec statementEnv rid eid cs (alreadyLogged st, [])) as (logged & rs & -> & Hsound & Hcomp).
  { intros c (k & ms & m & ? & ? & ->)%Hcs. by eapply Hp. }
  cbn [snd app]. eexists _, _. split; [reflexivity|].
  rewrite staged_records. split.
  - intros r (c & (k & ms & m & ? & ? & ->)%Hcs & Hh & ->)%Hsound. by exists k, ms, m.
  - intros k ms m Hl Hm Hrun Hf. apply (Hcomp (statementCandidate s k m)); [|done|done]. apply Hcs. by exists k, ms, m.
Qed.

(** ** The receiver creator's templates *)

Lemma cid_String_inj id1 id2 :
  ContainsByte (ID_Type id1) "/" = false → ContainsByte (ID_Type id2) "/" = false →
  cid_String id1 = cid_String id2 → id1 = id2.
Proof.
  destruct id1 as [t1 n1], id2 as [t2 n2]. unfold cid_String. cbn [ID_Type ID_Name]. intros Hs1 Hs2.
  destruct (String.eqb_spec n1 "") as [->|], (String.eqb_spec n2 "") as [->|]; intros He.
  - by subst.
  - rewrite He, !ContainsByte_append in Hs1. by rewrite orb_comm in Hs1.
  - rewrite <-He, !ContainsByte_append in Hs2. by rewrite orb_comm in Hs2.
  - by apply (split_at_byte "/") in He as [-> ->].
Qed.

Definition template (rEntry : ReceiverEntry) (attrs : gmap string string) : any :=
  AMap (<["rule" := AString (re_Rule rEntry)]> (<["config" := AMap (re_Config rEntry)]>
    {["resource_attributes" := strings_any attrs]})).

(** Attributes from which the metrics of the receiver [rid] are recognised. *)
Definition identifies (attrs : gmap string string) (rid : ID) : Prop :=
  attrs !! EndpointIDAttr = Some "`id`" ∧ attrs !! ReceiverTypeAttr = Some (ID_Type rid) ∧
  attrs !! ReceiverNameAttr = Some (ID_Name rid).

Lemma receiverTemplate_ok embed acc rid rEntry :
  embed = false ∨ is_ok (yaml_Marshal (embeddedReceiver rid rEntry)) = true →
  ∃ attrs s, receiverTemplate embed acc (rid, rEntry) = Ok (<[cid_String rid := template rEntry attrs]> acc.1, s) ∧
    identifies attrs rid.
Proof.
  intros Hok. unfold receiverTemplate.
  assert (Hid : identifies (receiverResourceAttributes rid rEntry) rid) by (unfold receiverResourceAttributes; by split_and!; simplify_map_eq).
  destruct embed; [|by eexists _, _]. destruct Hok as [|Hok]; [done|]. destruct (yaml_Marshal _) as [y|]; [|done].
  eexists _, _. split; [reflexivity|]. destruct Hid as (Hi1 & Hi2 & Hi3). unfold identifies. by rewrite !lookup_insert_ne.
Qed.

Lemma templates_fold `{!PdataLaws} embed (l : list (ID * ReceiverEntry)) acc :
  NoDup l.*1 → (∀ kv, kv ∈ l → NewType (ID_Type kv.1) = true) →
  (∀ kv, kv ∈ l → embed = false ∨ is_ok (yaml_Marshal (embeddedReceiver kv.1 kv.2)) = true) →
  ∃ acc', foldM_res (receiverTemplate embed) acc l = Ok acc' ∧
    (∀ kv, kv ∈ l → ∃ attrs, acc'.1 !! cid_String kv.1 = Some (template kv.2 attrs) ∧ identifies attrs kv.1) ∧
    (∀ k, (∀ kv, kv ∈ l → cid_String kv.1 ≠ k) → acc'.1 !! k = acc.1 !! k).
Proof.
  revert acc. induction l as [|[rid re] l IH]; intros acc Hnd Ht Hok; cbn [foldM_res].
  { exists acc. set_solver. }
  rewrite fmap_cons in Hnd. apply NoDup_cons in Hnd as [Hni Hnd].
  destruct (receiverTemplate_ok embed acc rid re) as (attrs & s & -> & Hid); [apply (Hok (rid, re)); left|].
  destruct (IH (<[cid_String rid := template re attrs]> acc.1, s)) as (acc' & Hf & Hall & Hfr);
    [done|intros; apply Ht; by right|intros; apply Hok; by right|]. exists acc'. split; [done|]. split.
  - intros kv [->|Hin]%elem_of_cons; [|by apply Hall]. exists attrs. split; [|done].
    cbn [fst snd]. rewrite Hfr; [apply lookup_insert_eq|]. intros kv' Hin' Heq.
    assert (kv'.1 = rid) as <-.
    { apply cid_String_inj; [apply NewType_slash, Ht; by right| |done]. apply NewType_slash, (Ht (rid, re)). by left. }
    apply Hni. apply list_elem_of_fmap. by exists kv'.
  - intros k Hk. rewrite Hfr; [|intros; apply Hk; by right]. cbn [fst]. apply lookup_insert_ne, (Hk (rid, re)). by left.
Qed.

Lemma MetricsToReceiverIDs_identifies `{!PdataLaws} attrs rid eid rest :
  NewType (ID_Type rid) = true → identifies attrs rid →
  MetricsToReceiverIDs ((AString <$> <[EndpointIDAttr := eid]> attrs) :: rest) = Ok (rid, eid).
Proof.
  intros Ht (Hi1 & Hi2 & Hi3). unfold MetricsToReceiverIDs, attrText. rewrite !lookup_fmap.
  rewrite lookup_insert_eq, !lookup_insert_ne by done. rewrite Hi2, Hi3. cbn [fmap option_fmap option_map].
  rewrite !AsString_string, Ht. cbn [negb]. unfold MustNewIDWithName. rewrite Ht. by destruct rid.
Qed.

(** The metrics of a receiver started from its template are recognised: the
    configuration for the receiver creator has a template for every receiver,
    its resource attributes (which the user's do not override) make
    [MetricsToReceiverIDs] return that receiver and the endpoint it was started
    for, once the receiver creator has expanded the endpoint's identifier. *)
Theorem receiverCreatorReceiversConfig_identity `{!PdataLaws} cfg s :
  (∀ rid re, Receivers cfg !! rid = Some re → NewType (ID_Type rid) = true) →
  (∀ rid re, Receivers cfg !! rid = Some re →
     EmbedReceiverConfig cfg = false ∨ is_ok (yaml_Marshal (embeddedReceiver rid re)) = true) →
  ∃ templates s', receiverCreatorReceiversConfig cfg s = Ok (templates, s') ∧
    ∀ rid re, Receivers cfg !! rid = Some re →
      ∃ attrs, templates !! cid_String rid = Some (template re attrs) ∧ attrs !! EndpointIDAttr = Some "`id`" ∧
        ∀ eid rest, MetricsToReceiverIDs ((AString <$> <[EndpointIDAttr := eid]> attrs) :: rest) = Ok (rid, eid).
Proof.
  intros Ht Hok. unfold receiverCreatorReceiversConfig.
  destruct (templates_fold (EmbedReceiverConfig cfg) (rangeID (Receivers cfg)) (∅, s)) as ([templates s'] & Hf & Hall & _).
  - rewrite rangeID_perm. apply NoDup_fst_map_to_list.
  - intros [rid re] Hin%elem_of_rangeID. by eapply Ht.
  - intros [rid re] Hin%elem_of_rangeID. by eapply Hok.
  - exists templates, s'. split; [done|]. intros rid re Hr.
    destruct (Hall (rid, re)) as (attrs & Hl & Hid); [by apply elem_of_rangeID|]. exists attrs. split; [done|].
    split; [apply Hid|]. intros eid rest. apply MetricsToReceiverIDs_identifies; [by eapply Ht|done].
Qed.

(** A correlation without an observer adds no observer attribute, but the
    sentinel is written as the watched observer into the embedded configuration
    and recorded as such for the receiver. *)
Theorem embedded_config_sentinel `{!PdataLaws} from corr s enc updated :
  observerID corr = NoType → from !! ReceiverConfigAttr = Some (AString enc) → from !! ObserverIDAttr = None →
  (Attrs (receiverID corr) s).1 !! receiverUpdatedConfigKey (cid_String NoType) = None →
  addObserverToEncodedConfig enc (cid_String NoType) = Ok updated →
  ∃ to s', correlateResourceAttributes true from ∅ corr s = (to, s') ∧
    to !! ObserverIDAttr = None ∧ to !! ReceiverConfigAttr = Some (AString updated) ∧
    (Attrs (receiverID corr) s').1 !! receiverUpdatedConfigKey (cid_String NoType) = Some updated.
Proof.
  intros Ho Hc Hn Ha Hu. unfold correlateResourceAttributes. rewrite Ho.
  replace (negb (String.eqb (cid_String NoType) "") && negb (String.eqb (cid_String NoType) (cid_String NoType))) with false by done.
  destruct (Attrs (receiverID corr) s) as [attrs s1] eqn:Hs. cbn [fst] in Ha. rewrite Hc. cbn [default from_option id].
  unfold embeddedConfig. rewrite Ho, Ha, AsString_string, Hu. replace (String.eqb (cid_String NoType) "") with false by done.
  eexists _, _. split; [reflexivity|]. rewrite !(left_id_L ∅ (∪)). split_and!.
  - by rewrite lookup_insert_ne.
  - apply lookup_insert_eq.
  - unfold Attrs, UpdateAttrs. cbn [receiverAttrs set_attrs]. rewrite lookup_insert_eq. cbn [fst].
    apply lookup_union_Some_l, lookup_singleton_eq.
Qed.
End evaluator.

(** ** Witnesses *)

Definition demo_engines : Engines := {|
  regexp_Compile s := Ok (λ p, Contains p s);
  program := any;
  expr_Compile e _ := Ok (AString e);
  vm_Run p _ := Ok p;
  base64_Encode s := s;
  base64_Decode s := Ok s;
  yaml_Marshal _ := Ok "yaml";
  yaml_Unmarshal _ := Ok ∅;
  json_Marshal m := Ok (default "" (m !! "message"));
  json_Unmarshal s := Ok {["message" := AString s]};
  Quote s := quoted s;
|}.

Definition strict_match (first : bool) (s : string) : Match :=
  {| Record_ := None; Strict := s; Regexp_ := ""; Expr := ""; FirstOnly := first |}.
Definition expr_match : Match := {| Record_ := None; Strict := ""; Regexp_ := ""; Expr := "name"; FirstOnly := false |}.

Definition demo_evaluation : evaluation :=
  {| ev_Match := strict_match true "redis.clients"; ev_Pattern := "redis.clients"; ev_Status := "successful";
     ev_Receiver := demo_rid; ev_Endpoint := "e" |}.

Lemma evaluateMatch_first_only_witness :
  @evaluateAll demo_engines metricEnv [demo_evaluation; demo_evaluation] ∅ = Ok [true; false] ∧
  [true; false] !! 0 = Some true.
Proof.
  assert (Hr : @evaluateAll demo_engines metricEnv [demo_evaluation; demo_evaluation] ∅ = Ok [true; false]) by reflexivity.
  split; [exact Hr|].
  apply (@evaluateMatch_first_only demo_engines metricEnv [demo_evaluation; demo_evaluation] [true; false] Hr 0 demo_evaluation eq_refl eq_refl).
  split; [reflexivity|]. intros j e' Hj. lia.
Defined.

Lemma evaluateMatch_expr_panics_witness :
  ∃ e, @evaluateMatch demo_engines metricEnv expr_match "redis.clients" "failed" demo_rid "e" ∅ = Err e.
Proof.
  apply (@evaluateMatch_expr_panics demo_engines metricEnv expr_match "redis.clients" "failed" demo_rid "e" ∅ (AString "name") (AString "name"));
    try reflexivity; discriminate.
Defined.

Definition demo_entry : ReceiverEntry := {|
  re_Config := ∅;
  re_Status := Some {| Metrics := {["successful" := [strict_match false "redis.clients"]]};
                       Statements := {["failed" := [strict_match false "boom"]]} |};
  re_ResourceAttributes := ∅;
  re_Rule := "port == 6379";
|}.
Definition demo_cfg : Config := {|
  Receivers := {[demo_rid := demo_entry]}; WatchObservers := [demo_obs];
  LogEndpoints := true; EmbedReceiverConfig := true; CorrelationTTL := 600000000000;
|}.
Definition demo_state : evalState := {| alreadyLogged := ∅; estore := newCorrelationStore 0 |}.
Definition demo_metric : metric := {| m_Name := "redis.clients"; m_Data := MetricTypeGauge [5%Z] |}.
Definition demo_md : list resourceMetrics := [{|
  rm_Attributes := AString <$> {[ReceiverTypeAttr := "smartagent"; ReceiverNameAttr := "redis"; EndpointIDAttr := "e"]} : gmap string any;
  rm_Scopes := [[demo_metric]];
|}].

Lemma evaluateMetrics_correct_witness : ∃ logs st',
  @evaluateMetrics demo_engines demo_pdata forward_range demo_cfg demo_md demo_state = Ok (logs, st') ∧
  metricRecord (strict_match false "redis.clients") "redis.clients" "successful" demo_metric ∈ logRecords logs.
Proof.
  destruct (@evaluateMetrics_correct demo_engines demo_pdata forward_range demo_cfg demo_md demo_state demo_rid "e" demo_entry
    {| Metrics := {["successful" := [strict_match false "redis.clients"]]}; Statements := {["failed" := [strict_match false "boom"]]} |})
    as (logs & st' & He & _ & Hc).
  - apply newCorrelationStore_wf.
  - reflexivity.
  - discriminate.
  - discriminate.
  - reflexivity.
  - reflexivity.
  - cbn [Metrics]. intros s ms m mt [<- <-]%lookup_singleton_Some ->%list_elem_of_singleton _. discriminate.
  - exists logs, st'. split; [exact He|]. apply (Hc "successful" [strict_match false "redis.clients"] (strict_match false "redis.clients") demo_metric);
      [reflexivity|left|left|reflexivity|reflexivity].
Defined.

Definition demo_statement : Statement := {|
  s_Message := "boom"; s_Level := "error"; s_Time := 3;
  s_Fields := {["name" := AString (generatedName demo_rid "discovery/name" "127.0.0.1:6379" "e")]};
|}.

Definition demo_float : FloatText := λ _, "".

Lemma evaluateStatement_correct_witness : ∃ logs st',
  @evaluateStatement demo_engines demo_pdata demo_float forward_range demo_cfg demo_statement demo_state = Ok (logs, st') ∧
  @statementRecord demo_engines (strict_match false "boom") "boom" "failed" demo_statement ∈ logRecords logs.
Proof.
  destruct (@evaluateStatement_correct demo_engines demo_pdata demo_float forward_range demo_cfg demo_statement demo_state demo_rid "e" demo_entry
    {| Metrics := {["successful" := [strict_match false "redis.clients"]]}; Statements := {["failed" := [strict_match false "boom"]]} |})
    as (logs & st' & He & _ & Hc).
  - apply newCorrelationStore_wf.
  - reflexivity.
  - cbn [Statements]. intros k ms m [<- <-]%lookup_singleton_Some ->%list_elem_of_singleton. discriminate.
  - exists logs, st'. split; [exact He|]. apply (Hc "failed" [strict_match false "boom"] (strict_match false "boom"));
      [reflexivity|left|reflexivity|reflexivity].
Defined.

Lemma receiverCreatorReceiversConfig_identity_witness :
  ∃ templates s', @receiverCreatorReceiversConfig demo_engines forward_rangeID demo_cfg (newCorrelationStore 0) = Ok (templates, s') ∧
    ∃ attrs, templates !! cid_String demo_rid = Some (template demo_entry attrs).
Proof.
  destruct (@receiverCreatorReceiversConfig_identity demo_engines demo_pdata forward_rangeID demo_pdata_laws demo_cfg (newCorrelationStore 0))
    as (templates & s' & He & Hall).
  - cbn [Receivers demo_cfg]. by intros rid re [<- <-]%lookup_singleton_Some.
  - cbn [Receivers demo_cfg]. intros rid re [<- <-]%lookup_singleton_Some. by right.
  - exists templates, s'. split; [exact He|]. destruct (Hall demo_rid demo_entry) as (attrs & Hl & _); [reflexivity|]. by exists attrs.
Defined.

Definition demo_corr : correlation :=
  {| lastState := ""; lastUpdated := zeroTime; endpoint := zeroEndpoint; receiverID := demo_rid; observerID := NoType |}.

Lemma embedded_config_sentinel_witness : ∃ to s',
  @correlateResourceAttributes demo_engines demo_pdata true {[ReceiverConfigAttr := AString "enc"]} ∅ demo_corr (newCorrelationStore 0) = (to, s') ∧
  to !! ReceiverConfigAttr = Some (AString "yaml").
Proof.
  destruct (@embedded_config_sentinel demo_engines demo_pdata demo_pdata_laws {[ReceiverConfigAttr := AString "enc"]} demo_corr
    (newCorrelationStore 0) "enc" "yaml") as (to & s' & He & _ & Hc & _); try reflexivity.
  by exists to, s'.
Defined.
