(* ===== verification/EndpointTracker.v ===== *)
(** * The endpoint tracker and the receiver's life cycle

    [endpoint_tracker.go] and [receiver.go] under
    [src/internal/receiver/discoveryreceiver]: the log records and correlations
    made of an observer's notifications, the observers taken from the host, and
    the channel between the trackers and the consumer loop as it is shut down.
    The endpoint types are constants of the observer package; the extensions of
    the host that are observers are given as such. *)

From S2P Require Import Prelude GoStrings GoValue Regexp ConfigProvider DiscoveryReceiver StatusSources Correlations DiscoveryEvaluator.

Class EndpointTypes := { PodType : string; PortType : string; ContainerType : string; K8sNodeType : string }.
Class EndpointTypesLaws `{EndpointTypes} := { PodType_PortType : PodType ≠ PortType }.

Definition observerNameAttr : string := "discovery.observer.name".
Definition observerTypeAttr : string := "discovery.observer.type".

Section tracker.
Context `{FloatText} `{MapRange} `{IDRange} `{EndpointTypes}.

(** ** Attributes of an endpoint *)

Fixpoint env_any (v : envValue) : any :=
  match v with
  | EUint16 z => AInt z
  | EBool b => ABool b
  | EStringMap m => strings_any m
  | EEnv m => AMap (env_any <$> m)
  | EText s => AString s
  end.

Definition shouldEmbedMap (endpointType k : string) : bool :=
  (String.eqb k "annotations" && (String.eqb endpointType PodType || String.eqb endpointType K8sNodeType)) ||
  (String.eqb k "labels" &&
   (String.eqb endpointType PodType || String.eqb endpointType ContainerType || String.eqb endpointType K8sNodeType)).

(** The value put for one entry; [pod] converts the pod of a port. *)
Definition envAttr (pod : gmap string envValue → res (gmap string any)) (endpointType k : string) (v : envValue) : res any :=
  if shouldEmbedMap endpointType k then
    match v with
    | EStringMap asMap => Ok (strings_any asMap)
    | _ => Err (Errorf "failed parsing %v env attributes" [endpointType])
    end
  else if String.eqb k PodType && String.eqb endpointType PortType then
    match v with
    | EEnv podEnv =>
        match pod podEnv with
        | Ok podAttrs => Ok (AMap podAttrs)
        | Err _ => Err (Errorf "failed parsing %v pod attributes " [endpointType])
        end
    | _ => Err (Errorf "failed parsing %v pod env %#v" [endpointType])
    end
  else
    match v with
    | EUint16 z => Ok (AInt z)
    | EBool b => Ok (ABool b)
    | _ => Ok (AString (Sprint (env_any v)))
    end.

(** The recursion is on the pod of a port, at type pod, and goes no deeper. *)
Fixpoint endpointEnvToAttrs (fuel : nat) (endpointType : string) (env : gmap string envValue) : res (gmap string any) :=
  let pod podEnv :=
    match fuel with
    | O => Err (Errorf "fuel" [])
    | S fuel => endpointEnvToAttrs fuel PodType podEnv
    end in
  foldM_res (λ attrs (kv : string * envValue),
    match envAttr pod endpointType kv.1 kv.2 with Ok v => Ok (<[kv.1 := v]> attrs) | Err e => Err e end)
    ∅ (range env).

(** ** Log records of endpoints *)

Definition endpointAttrs (ep : Endpoint) : gmap string any * option error :=
  match ep_Details ep with
  | None => (∅, None)
  | Some d =>
      let '(attrs, err) :=
        match endpointEnvToAttrs 1 (ed_Type d) (ed_Env d) with
        | Ok envAttrs => (envAttrs, None)
        | Err e => (∅, Some (Wrapf "failed determining attributes for %q: %w" [ep_ID ep] e))
        end in
      (<["type" := AString (ed_Type d)]> attrs, err)
  end.

Definition endpointRecord (eventType : string) (received : Z) (ep : Endpoint) : logRecord := {|
  lr_Body :=
    match ep_Details ep with
    | Some d => eventType +:+ " " +:+ ed_Type d +:+ " endpoint " +:+ ep_ID ep
    | None => eventType +:+ " endpoint " +:+ ep_ID ep
    end;
  lr_SeverityText := "info";
  lr_Attributes := <["id" := AString (ep_ID ep)]> (<["endpoint" := AString (ep_Target ep)]> (endpointAttrs ep).1);
  lr_Timestamp := Some received;
|}.

(** The logs and the errors, one for each endpoint that failed. *)
Definition endpointToPLogs (obs : ID) (eventType : string) (endpoints : list Endpoint) (received : Z)
    : plogs * nat * list error :=
  let rAttrs : gmap string any :=
    <[observerTypeAttr := AString (ID_Type obs)]> (<[observerNameAttr := AString (ID_Name obs)]>
      {[eventTypeAttr := AString eventType]}) in
  foldl (λ '(logs, failed, errs) ep,
      (match logs with
       | [rl] => [{| rl_Attributes := rl_Attributes rl; rl_Records := rl_Records rl ++ [endpointRecord eventType received ep] |}]
       | _ => logs
       end,
       match (endpointAttrs ep).2 with Some _ => S failed | None => failed end,
       match (endpointAttrs ep).2 with Some e => errs ++ [e] | None => errs end))
    ([{| rl_Attributes := rAttrs; rl_Records := [] |}], 0, []) endpoints.

(** ** Notifications *)

Definition emitEndpointLogs (logEndpoints : bool) (obs : ID) (state : string) (endpoints : list Endpoint) (received : Z)
    (ch : list plogs) : list plogs :=
  if logEndpoints then
    let '(pLogs, _, _) := endpointToPLogs obs ("endpoint." +:+ state) endpoints received in
    if 0 <? LogRecordCount pLogs then ch ++ [pLogs] else ch
  else ch.

Definition updateEndpoints (now : string → ID → Z) (endpoints : list Endpoint) (state : string) (obs : ID) (s : store) : store :=
  foldl (λ s ep, UpdateEndpoint (now (ep_ID ep)) ep state obs s) s endpoints.

(** [OnAdd], [OnRemove] and [OnChange], by their state. *)
Definition onNotify (logEndpoints : bool) (obs : ID) (state : string) (received : Z) (now : string → ID → Z)
    (endpoints : list Endpoint) (x : store * list plogs) : store * list plogs :=
  (updateEndpoints now endpoints state obs x.1, emitEndpointLogs logEndpoints obs state endpoints received x.2).
Definition OnAdd (l : bool) (obs : ID) := onNotify l obs addedState.
Definition OnRemove (l : bool) (obs : ID) := onNotify l obs removedState.
Definition OnChange (l : bool) (obs : ID) := onNotify l obs changedState.

(** ** Observers of the host *)

(** An extension: [Some] observable when it is an observer. *)
Definition watchObserver {Observable} (extensions : gmap ID (option Observable)) (found : gmap ID Observable) (obs : ID)
    : res (gmap ID Observable) :=
  foldM_res (λ found (kv : ID * option Observable),
    if bool_decide (kv.1 = obs) then
      match kv.2 with
      | Some observable => Ok (<[obs := observable]> found)
      | None => Err (Errorf "extension %q in watch_observers is not an observer" [cid_String obs])
      end
    else Ok found) found (rangeID extensions).

Definition observablesFromHost {Observable} (extensions : gmap ID (option Observable)) (watch : list ID)
    : res (gmap ID Observable) :=
  watchObservables ← foldM_res (watchObserver extensions) ∅ watch;
  match list_find (λ obs, watchObservables !! obs = None) watch with
  | Some (_, obs) => Err (Errorf "failed to find observer %q as a configured extension" [cid_String obs])
  | None => Ok watchObservables
  end.

(** ** Correctness *)

Lemma foldM_insert_ok {V W} (g : string * V → res W) m0 l :
  is_ok (foldM_res (λ (m : gmap string W) kv, match g kv with Ok w => Ok (<[kv.1 := w]> m) | Err e => Err e end) m0 l) = true ↔
  ∀ kv, kv ∈ l → is_ok (g kv) = true.
Proof.
  revert m0. induction l as [|kv l IH]; intros m0; cbn [foldM_res]; [set_solver|].
  destruct (g kv) as [w|e] eqn:Hg.
  - rewrite IH. setoid_rewrite elem_of_cons. split; [|by eauto]. intros Hall kv' [->|Hin]; [by rewrite Hg|by apply Hall].
  - split; [done|]. intros Hall. specialize (Hall kv (list_elem_of_here _ _)). by rewrite Hg in Hall.
Qed.

Definition isStringMap (v : envValue) : bool := match v with EStringMap _ => true | _ => false end.

(** Labels and annotations are string maps, and the pod of a port is an
    environment of which that holds. *)
Definition env_ok (endpointType : string) (env : gmap string envValue) : Prop :=
  ∀ k v, env !! k = Some v →
    if shouldEmbedMap endpointType k then isStringMap v = true
    else k = PodType → endpointType = PortType →
      ∃ podEnv, v = EEnv podEnv ∧ ∀ k' v', podEnv !! k' = Some v' → shouldEmbedMap PodType k' = true → isStringMap v' = true.

Lemma is_ok_envAttr pod t k v :
  is_ok (envAttr pod t k v) = true ↔
  if shouldEmbedMap t k then isStringMap v = true
  else k = PodType → t = PortType → ∃ podEnv, v = EEnv podEnv ∧ is_ok (pod podEnv) = true.
Proof.
  unfold envAttr. destruct (shouldEmbedMap t k); [by destruct v|].
  destruct (String.eqb_spec k PodType); cbn [andb]; [|by destruct v].
  destruct (String.eqb_spec t PortType); [|by destruct v].
  destruct v as [| | |podEnv|]; try (split; [done|]; intros Hx; by destruct Hx as (? & ? & _)).
  split.
  - intros Hok _ _. exists podEnv. split; [done|]. by destruct (pod podEnv).
  - intros (pe & [= <-] & Hok); [done|done|]. by destruct (pod podEnv).
Qed.

Lemma is_ok_endpointEnvToAttrs `{!EndpointTypesLaws} fuel t env :
  is_ok (endpointEnvToAttrs (S fuel) t env) = true ↔ env_ok t env.
Proof.
  assert (Hflat : ∀ fuel podEnv, is_ok (endpointEnvToAttrs fuel PodType podEnv) = true ↔
    ∀ k v, podEnv !! k = Some v → shouldEmbedMap PodType k = true → isStringMap v = true).
  { intros n podEnv. destruct n; cbn [endpointEnvToAttrs];
      rewrite (foldM_insert_ok (λ kv, envAttr _ PodType kv.1 kv.2) ∅ (range podEnv)).
    all: split; [intros Hall k v Hk%elem_of_range Hs; specialize (Hall _ Hk); cbn [fst snd] in Hall; apply is_ok_envAttr in Hall; by rewrite Hs in Hall
                |intros Hall [k v] Hk%elem_of_range; apply is_ok_envAttr; cbn [fst snd]; specialize (Hall k v Hk);
                 destruct (shouldEmbedMap PodType k); [by apply Hall|intros _ He; by destruct (PodType_PortType He)]]. }
  cbn [endpointEnvToAttrs]. rewrite (foldM_insert_ok (λ kv, envAttr _ t kv.1 kv.2) ∅ (range env)). unfold env_ok. split.
  - intros Hall k v Hk%elem_of_range. specialize (Hall _ Hk). cbn [fst snd] in Hall. apply is_ok_envAttr in Hall.
    destruct (shouldEmbedMap t k); [done|]. intros Hp Ht. destruct (Hall Hp Ht) as (pe & -> & Hok).
    exists pe. split; [done|]. exact (proj1 (Hflat _ _) Hok).
  - intros Hall [k v] Hk%elem_of_range. apply is_ok_envAttr. cbn [fst snd]. specialize (Hall k v Hk).
    destruct (shouldEmbedMap t k); [done|]. intros Hp Ht. destruct (Hall Hp Ht) as (pe & -> & Hok).
    exists pe. split; [done|]. by apply Hflat.
Qed.

(** The conversion of an endpoint's environment succeeds exactly when its
    labels and annotations are string maps and the pod of a port is itself
    such an environment, whatever the order of iteration; then there is one
    attribute per entry, and ports and flags keep their type. *)
Theorem endpointEnvToAttrs_correct `{!EndpointTypesLaws} t env :
  (is_ok (endpointEnvToAttrs 1 t env) = true ↔ env_ok t env) ∧
  ∀ attrs, endpointEnvToAttrs 1 t env = Ok attrs →
    dom attrs = dom env ∧
    ∀ k v a, env !! k = Some v → shouldEmbedMap t k = false → k ≠ PodType → attrs !! k = Some a →
      a = match v with EUint16 z => AInt z | EBool b => ABool b | _ => AString (Sprint (env_any v)) end.
Proof.
  split; [apply is_ok_endpointEnvToAttrs|]. intros attrs Hok. cbn [endpointEnvToAttrs] in Hok.
  apply (foldM_res_insert (λ kv, envAttr (λ podEnv, endpointEnvToAttrs 0 PodType podEnv) t kv.1 kv.2)) in Hok as [Hin Hout].
  - split.
    + apply set_eq. intros k. rewrite !elem_of_dom. split.
      * intros [a Ha]. destruct (env !! k) as [v|] eqn:Hk; [by eexists|]. rewrite Hout, lookup_empty in Ha; [done|].
        rewrite list_elem_of_fmap. intros ([k' v] & -> & Hr%elem_of_range). cbn in Hk. congruence.
      * intros [v Hv%elem_of_range]. destruct (Hin _ _ Hv) as (w & _ & ->). by eexists.
    + intros k v a Hv%elem_of_range Hs Hp Ha. destruct (Hin _ _ Hv) as (w & Hw & Hw'). rewrite Ha in Hw'. injection Hw' as ->.
      cbn [fst snd] in Hw. unfold envAttr in Hw. rewrite Hs in Hw. destruct (String.eqb_spec k PodType); [done|]. cbn [andb] in Hw.
      by destruct v; injection Hw as <-.
  - intros m kv m' Hm. destruct (envAttr _ t kv.1 kv.2) as [w|] eqn:Hw; [|done]. injection Hm as <-. by exists w.
  - apply NoDup_range.
Qed.

Lemma endpointToPLogs_eq obs ev eps received :
  endpointToPLogs obs ev eps received =
  ([{| rl_Attributes := <[observerTypeAttr := AString (ID_Type obs)]> (<[observerNameAttr := AString (ID_Name obs)]>
         {[eventTypeAttr := AString ev]});
       rl_Records := map (endpointRecord ev received) eps |}],
   length (omap (λ ep, (endpointAttrs ep).2) eps), omap (λ ep, (endpointAttrs ep).2) eps).
Proof.
  unfold endpointToPLogs. induction eps as [|ep eps IH] using rev_ind; [done|].
  rewrite foldl_app, IH. cbn [foldl]. rewrite omap_app, length_app, map_app. cbn [omap list_omap map].
  destruct (endpointAttrs ep).2; cbn [length]; [by rewrite Nat.add_1_r|]. by rewrite app_nil_r, Nat.add_0_r.
Qed.

(** What an endpoint's correlations look like after an event. *)
Definition reflects (ep : Endpoint) (state : string) (obs : ID) (s : store) : Prop :=
  ∃ m, receiverMap (ep_ID ep) s = Some m ∧
    ∀ rid c, m !! rid = Some c → endpoint c = ep ∧ lastState c = state ∧ observerID c = obs.

Lemma updateEndpoints_correct now eps state obs s :
  store_wf s → NoDup (ep_ID <$> eps) →
  store_wf (updateEndpoints now eps state obs s) ∧
  (∀ ep, ep ∈ eps → reflects ep state obs (updateEndpoints now eps state obs s)) ∧
  (∀ eid, eid ∉ ep_ID <$> eps → receiverMap eid (updateEndpoints now eps state obs s) = receiverMap eid s).
Proof.
  unfold updateEndpoints. revert s. induction eps as [|ep eps IH]; intros s Hs; cbn [foldl fmap list_fmap]; [set_solver|].
  intros [Hni Hnd]%NoDup_cons. destruct (UpdateEndpoint_wf (now (ep_ID ep)) ep state obs s Hs) as [Hs1 _].
  destruct (IH _ Hs1 Hnd) as (Hs2 & Hin & Hout). split_and!; [done| |].
  - intros e [->|He]%elem_of_cons; [|by apply Hin].
    destruct (UpdateEndpoint_entries (now (ep_ID ep)) ep state obs s Hs) as (ptr & m & Hc & Hm & Hall).
    exists m. rewrite Hout by done. unfold receiverMap. rewrite Hc. cbn. split; [done|]. intros rid c Hrc. by destruct (Hall rid c Hrc) as (? & ? & ? & _).
  - intros eid Hne. apply not_elem_of_cons in Hne as [Hne1 Hne2]. rewrite Hout by done. by apply UpdateEndpoint_other.
Qed.

(** A notification records the state, the observer and the endpoint for every
    notified endpoint and every receiver of it, leaves the correlations of the
    other endpoints alone, and, when endpoints are logged, sends one batch with
    a record per endpoint in order. *)
Theorem onNotify_correct logEndpoints obs state received now eps s ch :
  store_wf s → NoDup (ep_ID <$> eps) →
  ∃ s' ch', onNotify logEndpoints obs state received now eps (s, ch) = (s', ch') ∧ store_wf s' ∧
    (∀ ep, ep ∈ eps → reflects ep state obs s') ∧
    (∀ eid, eid ∉ ep_ID <$> eps → receiverMap eid s' = receiverMap eid s) ∧
    (if logEndpoints && negb (length eps =? 0) then
       ∃ a, ch' = ch ++ [[{| rl_Attributes := a; rl_Records := map (endpointRecord ("endpoint." +:+ state) received) eps |}]]
     else ch' = ch).
Proof.
  intros Hs Hnd. unfold onNotify. cbn [fst snd]. eexists _, _. split; [reflexivity|].
  destruct (updateEndpoints_correct now eps state obs s Hs Hnd) as (? & ? & ?). split_and!; [done|done|done|].
  unfold emitEndpointLogs. destruct logEndpoints; [|done]. rewrite endpointToPLogs_eq.
  cbn [andb LogRecordCount sum_list_with rl_Records]. rewrite length_map, Nat.add_0_r.
  destruct eps; cbn [length Nat.eqb Nat.ltb Nat.leb negb]; [done|]. by eexists.
Qed.

(** ** Observers *)

Lemma watchObserver_fold {Observable} obs (l : list (ID * option Observable)) (found : gmap ID Observable) :
  NoDup l.*1 →
  foldM_res (λ (found : gmap ID Observable) (kv : ID * option Observable),
    if bool_decide (kv.1 = obs) then
      match kv.2 with
      | Some observable => Ok (<[obs := observable]> found)
      | None => Err (Errorf "extension %q in watch_observers is not an observer" [cid_String obs])
      end
    else Ok found) found l =
  match list_to_map (M := gmap ID (option Observable)) l !! obs with
  | Some (Some o) => Ok (<[obs := o]> found)
  | Some None => Err (Errorf "extension %q in watch_observers is not an observer" [cid_String obs])
  | None => Ok found
  end.
Proof.
  revert found. induction l as [|[id ext] l IH]; intros found; cbn [foldM_res fst snd fmap list_fmap].
  { by rewrite list_to_map_nil, lookup_empty. }
  rewrite list_to_map_cons. intros [Hni Hnd]%NoDup_cons. case_bool_decide as Hid.
  - subst id. rewrite lookup_insert_eq. destruct ext as [o|]; [|done]. rewrite IH by done.
    by rewrite (not_elem_of_list_to_map_1 l obs Hni).
  - rewrite IH by done. by rewrite lookup_insert_ne.
Qed.

Lemma watchObserver_eq {Observable} (extensions : gmap ID (option Observable)) found obs :
  watchObserver extensions found obs =
  match extensions !! obs with
  | Some (Some o) => Ok (<[obs := o]> found)
  | Some None => Err (Errorf "extension %q in watch_observers is not an observer" [cid_String obs])
  | None => Ok found
  end.
Proof.
  assert (Hnd : NoDup (rangeID extensions).*1) by (rewrite rangeID_perm; apply NoDup_fst_map_to_list).
  unfold watchObserver. rewrite watchObserver_fold by done.
  by rewrite (list_to_map_proper (rangeID extensions) (map_to_list extensions)), list_to_map_to_list by (done || apply rangeID_perm).
Qed.

Lemma watchObservers_fold {Observable} (extensions : gmap ID (option Observable)) watch found0 :
  (is_ok (foldM_res (watchObserver extensions) found0 watch) = true ↔ ∀ obs, obs ∈ watch → extensions !! obs ≠ Some None) ∧
  ∀ found, foldM_res (watchObserver extensions) found0 watch = Ok found →
    ∀ id, found !! id = if bool_decide (id ∈ watch) then mjoin (extensions !! id) ∪ found0 !! id else found0 !! id.
Proof.
  revert found0. induction watch as [|obs watch IH]; intros found0; cbn [foldM_res].
  { split; [set_solver|]. by intros found [= <-]. }
  rewrite watchObserver_eq. destruct (extensions !! obs) as [[o|]|] eqn:He.
  - destruct (IH (<[obs := o]> found0)) as [Hok Hval]. split; [rewrite Hok; set_solver|].
    intros found Hf id. rewrite (Hval found Hf id). destruct (decide (id = obs)) as [->|Hne].
    + rewrite lookup_insert_eq, He, (bool_decide_true (obs ∈ obs :: watch)) by (by left). case_bool_decide; by destruct (found0 !! obs).
    + rewrite lookup_insert_ne by done. rewrite (bool_decide_ext (id ∈ obs :: watch) (id ∈ watch)) by set_solver. done.
  - split; [|done]. split; [done|]. intros Hall. by destruct (Hall obs (list_elem_of_here _ _)).
  - destruct (IH found0) as [Hok Hval]. split; [rewrite Hok; set_solver|].
    intros found Hf id. rewrite (Hval found Hf id). destruct (decide (id = obs)) as [->|Hne].
    + rewrite He, (bool_decide_true (obs ∈ obs :: watch)) by (by left). cbn. rewrite (left_id_L None (∪)). by case_bool_decide.
    + rewrite (bool_decide_ext (id ∈ obs :: watch) (id ∈ watch)) by set_solver. done.
Qed.

(** The receiver starts only if every watched observer is an extension of
    the host that is an observer, and then watches exactly those. *)
Theorem observablesFromHost_correct {Observable} (extensions : gmap ID (option Observable)) (watch : list ID) :
  (is_ok (observablesFromHost extensions watch) = true ↔ ∀ obs, obs ∈ watch → ∃ o, extensions !! obs = Some (Some o)) ∧
  ∀ found, observablesFromHost extensions watch = Ok found →
    ∀ id, found !! id = if bool_decide (id ∈ watch) then mjoin (extensions !! id) else None.
Proof.
  destruct (watchObservers_fold extensions watch ∅) as [Hok Hval]. unfold observablesFromHost.
  destruct (foldM_res (watchObserver extensions) ∅ watch) as [found|e]; cbn [mbind res_bind].
  - specialize (Hval found eq_refl). destruct Hok as [Hok _]. specialize (Hok eq_refl).
    destruct (list_find _ watch) as [[i obs]|] eqn:Hf.
    + apply list_find_Some in Hf as (Hi & Hn & _). assert (Hin : obs ∈ watch) by by eapply list_elem_of_lookup_2.
      rewrite Hval, bool_decide_true in Hn by done. split; [|done]. split; [done|]. intros Hall. destruct (Hall obs Hin) as [o Ho]. by rewrite Ho in Hn.
    + apply list_find_None in Hf. rewrite Forall_forall in Hf. split.
      * split; [|done]. intros _ obs Hin. specialize (Hf obs Hin). rewrite Hval, bool_decide_true in Hf by done.
        destruct (extensions !! obs) as [[o|]|]; [by exists o|done|done].
      * intros f [= <-] id. rewrite Hval, lookup_empty. case_bool_decide; [by rewrite (right_id_L None (∪))|done].
  - split; [|done]. split; [done|]. intros Hall. apply Hok. intros obs Hin He. destruct (Hall obs Hin). congruence.
Qed.
End tracker.

(** ** Shutdown *)

(** The consumer loop of [receiver.go], the unbuffered channel [pLogs] with its
    blocked senders, and how far [Shutdown] is.  [stop] unsubscribes from the
    observers in goroutines of their own, so a notification can come until
    [l_subscribed] is false. *)
Record life := {
  l_running : bool;
  l_stopping : bool;
  l_subscribed : bool;
  l_sentinel : bool;
  l_closed : bool;
  l_panicked : bool;
  l_sent : list plogs;
  l_sending : list plogs;
  l_consumed : list plogs;
}.
Definition started : life := {|
  l_running := true; l_stopping := false; l_subscribed := true; l_sentinel := false; l_closed := false; l_panicked := false;
  l_sent := []; l_sending := []; l_consumed := [];
|}.

Inductive lstep : life → life → Prop :=
| LSend p run stopping sen pan sent sending consumed :
    lstep (Build_life run stopping true sen false pan sent sending consumed)
          (Build_life run stopping true sen false pan (sent ++ [p]) (sending ++ [p]) consumed)
| LSendClosed run stopping sen pan sent sending consumed :
    lstep (Build_life run stopping true sen true pan sent sending consumed)
          (Build_life run stopping true sen true true sent sending consumed)
| LReceive p stopping sub sen pan sent before after consumed :
    lstep (Build_life true stopping sub sen false pan sent (before ++ p :: after) consumed)
          (Build_life true stopping sub sen false pan sent (before ++ after) (consumed ++ [p]))
| LStop run sub sen closed pan sent sending consumed :
    lstep (Build_life run false sub sen closed pan sent sending consumed)
          (Build_life run true sub sen closed pan sent sending consumed)
| LUnsubscribe run sub sen closed pan sent sending consumed :
    lstep (Build_life run true sub sen closed pan sent sending consumed)
          (Build_life run true false sen closed pan sent sending consumed)
| LSentinel sub pan sent sending consumed :
    lstep (Build_life true true sub false false pan sent sending consumed)
          (Build_life true true sub true false pan sent sending consumed)
| LHalt stopping sub closed pan sent sending consumed :
    lstep (Build_life true stopping sub true closed pan sent sending consumed)
          (Build_life false stopping sub false closed pan sent sending consumed)
| LClose sub pan sent sending consumed :
    lstep (Build_life false true sub false false pan sent sending consumed)
          (Build_life false true sub false true (pan || negb (length sending =? 0)) sent sending consumed).

Lemma life_inv x :
  rtc lstep started x → l_sent x ≡ₚ l_consumed x ++ l_sending x ∧ (l_panicked x = true → l_closed x = true) ∧
    (l_closed x = true → l_running x = false) ∧
    (l_closed x = true → l_panicked x = false → l_sending x = []).
Proof.
  intros Hr. refine (rtc_ind_r (λ x, l_sent x ≡ₚ l_consumed x ++ l_sending x ∧ (l_panicked x = true → l_closed x = true) ∧
    (l_closed x = true → l_running x = false) ∧ (l_closed x = true → l_panicked x = false → l_sending x = [])) started _ _ x Hr).
  - done.
  - intros y z _ Hst. destruct Hst; cbn; intros (Hs & Hp & Hc & Hd); split_and!; try done; try tauto.
    + rewrite Hs. by rewrite app_assoc.
    + rewrite Hs, <-app_assoc. f_equiv. cbn. symmetry. apply Permutation_middle.
    + rewrite orb_false_iff, negb_false_iff. intros _ [_ He]. by apply Nat.eqb_eq, nil_length_inv in He.
Qed.

(** What the consumer loop delivers is what was sent, nothing twice: at any
    time the sent logs are the consumed ones and those of blocked senders.  A
    panic needs a closed channel, and the channel is closed only after the loop
    has ended. *)
Theorem consumerLoop_delivers x :
  rtc lstep started x →
  l_sent x ≡ₚ l_consumed x ++ l_sending x ∧
  (l_running x = true → l_panicked x = false) ∧
  (l_closed x = true → l_panicked x = false → l_sent x ≡ₚ l_consumed x).
Proof.
  intros (Hs & Hp & Hc & Hd)%life_inv. split_and!; [done| |].
  - intros Hr. destruct (l_panicked x); [|done]. rewrite Hc in Hr by auto. done.
  - intros Hcl Hpan. by rewrite Hs, Hd, app_nil_r.
Qed.

(** [Shutdown] can panic: it does not wait for the observers to be
    unsubscribed, so the logs [p] of a notification can be on their way when
    the loop ends and the channel is closed. *)
Theorem Shutdown_panics p : ∃ x, rtc lstep started x ∧ l_panicked x = true ∧ l_sent x = [p] ∧ l_consumed x = [].
Proof.
  exists (Build_life false true true false true true [p] [p] []). split_and!; try done.
  eapply rtc_l; [apply (LSend p)|]. eapply rtc_l; [apply LStop|]. eapply rtc_l; [apply LSentinel|].
    eapply rtc_l; [apply LHalt|]. eapply rtc_l; [apply LClose|]. apply rtc_refl.
Qed.

(** ** Witnesses *)

Definition demo_types : EndpointTypes := {| PodType := "pod"; PortType := "port"; ContainerType := "container"; K8sNodeType := "k8s.node" |}.

#[local] Instance demo_types_laws : @EndpointTypesLaws demo_types.
Proof. by split. Qed.

Lemma endpointEnvToAttrs_correct_witness :
  is_ok (@endpointEnvToAttrs demo_float forward_range demo_types 1 "port" {["port" := EUint16 6379]}) = true.
Proof.
  apply (@endpointEnvToAttrs_correct demo_float forward_range demo_types demo_types_laws "port" {["port" := EUint16 6379]}).
  by intros k v [<- <-]%lookup_singleton_Some.
Defined.

Lemma onNotify_correct_witness : ∃ s' ch',
  @onNotify demo_float forward_range demo_types true demo_obs addedState 5 (λ _ _, 5%Z) [demo_ep] (newCorrelationStore 0, []) = (s', ch') ∧
  reflects demo_ep addedState demo_obs s'.
Proof.
  destruct (@onNotify_correct demo_float forward_range demo_types true demo_obs addedState 5 (λ _ _, 5%Z) [demo_ep]
    (newCorrelationStore 0) []) as (s' & ch' & He & _ & Hr & _).
  - apply newCorrelationStore_wf.
  - apply NoDup_singleton.
  - exists s', ch'. split; [exact He|]. apply Hr. left.
Defined.

Lemma consumerLoop_delivers_witness : rtc lstep started started ∧ l_panicked started = false.
Proof.
  split; [apply rtc_refl|]. by apply (consumerLoop_delivers started (rtc_refl _ _)).
Defined.
