(* ===== verification/DiscoveryProperties.v ===== *)
(** * Discovery properties

    [src/internal/confmapprovider/discovery/properties]: the encoding of property
    names as environment variables ([wordify], [unwordify]), properties from
    [--set] options and environment variables, and the properties file.  Texts
    are lists of runes (Unicode code points), as [range] over a Go string gives
    them.  The grammars are struct tags interpreted by the participle library:
    its parsers are parameters, with the law that they accept and capture what
    the two grammars, written out here, say; YAML decoding and [component.ID] are
    parameters too. *)

From S2P Require Import Prelude GoStrings GoValue Confmap Regexp ConfigProvider DiscoveryReceiver StatusSources.
From Stdlib Require Import Ascii.
#[local] Open Scope Z_scope.

Abbreviation rune := Z.
Abbreviation text := (list Z).

Fixpoint runes (s : string) : text :=
  match s with
  | EmptyString => []
  | String c s => Z.of_N (N_of_ascii c) :: runes s
  end.

(** A code point that UTF-8 can encode. *)
Definition valid_rune (c : rune) : bool :=
  (0 <=? c) && (c <? 0x110000) && negb ((0xD800 <=? c) && (c <? 0xE000)).

(** ** wordify *)

Definition needsHex (c : rune) : bool :=
  (negb (c =? 95) && (c <? 48)) || ((57 <? c) && (c <? 65)) || ((90 <? c) && (c <? 97)) || (122 <? c).

(** [hex.Encode] of the big-endian bytes of a 32-bit value. *)
Definition hexDigit (n : Z) : rune := if n <? 10 then 48 + n else 87 + n.
Definition nibble (c : Z) (i : nat) : Z := Z.land (Z.shiftr c (4 * Z.of_nat i)) 15.
Definition hexEncode32 (c : Z) : text := map (λ i, hexDigit (nibble c i)) [7; 6; 5; 4; 3; 2; 1; 0]%nat.

(** Leading zeros go, unless one is needed for an even length. *)
Fixpoint stripZeros (h : text) : text :=
  match h with
  | d :: t =>
      if d =? 48 then
        match t with
        | d' :: _ => if negb (d' =? 48) && Nat.even (length h) then h else stripZeros t
        | [] => []
        end
      else h
  | [] => []
  end.

Definition escape (c : rune) : text := [95; 120] ++ stripZeros (hexEncode32 c) ++ [95].
Definition wordify (s : text) : text := flat_map (λ c, if needsHex c then escape c else [c]) s.

(** ** unwordify *)

Definition isHex (d : rune) : bool :=
  ((48 <=? d) && (d <=? 57)) || ((97 <=? d) && (d <=? 102)) || ((65 <=? d) && (d <=? 70)).
Definition hexValue (d : rune) : Z :=
  if d <=? 57 then d - 48 else if d <=? 70 then d - 55 else d - 87.

Fixpoint takeHex (s : text) : text * text :=
  match s with
  | d :: t => if isHex d then let '(h, r) := takeHex t in (d :: h, r) else ([], s)
  | [] => ([], [])
  end.

(** A match of [_x[0-9a-fA-F]+_] at the start: its digits and the rest. *)
Definition matchEscape (s : text) : option (text * text) :=
  match s with
  | a :: b :: t =>
      if (a =? 95) && (b =? 120) then
        match takeHex t with
        | (d :: h, e :: r) => if e =? 95 then Some (d :: h, r) else None
        | _ => None
        end
      else None
  | _ => None
  end.

(** [hex.DecodeString] on hexadecimal digits *)
Fixpoint hexBytes (h : text) : option (list Z) :=
  match h with
  | [] => Some []
  | [_] => None
  | a :: b :: t => bs ← hexBytes t; Some (hexValue a * 16 + hexValue b :: bs)
  end.

(** The 32-bit value of the first four bytes, padded on the left. *)
Definition padBytes (bs : list Z) : list Z := replicate (4 - length bs) 0 ++ bs.
Definition Uint32 (bs : list Z) : Z := foldl (λ a b, a * 256 + b) 0 (take 4 bs).
Definition int32 (u : Z) : Z := if u <? 2 ^ 31 then u else u - 2 ^ 32.
(** [fmt.Sprintf("%c", r)] *)
Definition formatRune (r : Z) : rune := if valid_rune r then r else 0xFFFD.

Definition decodeEscape (h : text) : text + error :=
  match hexBytes h with
  | None => inr (Errorf "%q: encoding/hex: odd length hex string" [])
  | Some bs => inl [formatRune (int32 (Uint32 (padBytes bs)))]
  end.

(** [ReplaceAllStringFunc]; errors are collected and the match dropped. *)
Fixpoint unwordifyLoop (fuel : nat) (s : text) : text * list error :=
  match fuel with
  | O => (s, [])
  | S fuel =>
      match matchEscape s with
      | Some (h, rest) =>
          let '(out, errs) := unwordifyLoop fuel rest in
          match decodeEscape h with
          | inl d => (d ++ out, errs)
          | inr e => (out, e :: errs)
          end
      | None =>
          match s with
          | c :: s => let '(out, errs) := unwordifyLoop fuel s in (c :: out, errs)
          | [] => ([], [])
          end
      end
  end.

Definition unwordify (s : text) : res text :=
  match unwordifyLoop (length s) s with
  | (out, []) => Ok out
  | (_, e :: _) => Err (Wrapf "failed parsing env var hex-encoded content: %w" [] e)
  end.

Definition wordRune (c : rune) : bool :=
  ((48 <=? c) && (c <=? 57)) || ((65 <=? c) && (c <=? 90)) || ((97 <=? c) && (c <=? 122)) || (c =? 95).

Example wordify_1 : wordify (runes "a-b_c") = runes "a_x2d_b_x5f_c". Proof. reflexivity. Qed.
Example unwordify_1 : unwordify (runes "a_x2d_b_c") = Ok (runes "a-b_c"). Proof. reflexivity. Qed.
(** The encoding in the comment of env_var.go is not the one that is read: the second escape has no underscore of its own. *)
Example comment_encoding : unwordify (runes "field_x3a_x3a_subfield") = Ok (runes "field:x3a_subfield"). Proof. reflexivity. Qed.
Example unwordify_2 : is_ok (unwordify (runes "_xfffff__xa_")) = false. Proof. reflexivity. Qed.
Example unwordify_3 : unwordify (runes "_xnothex__xgggg ") = Ok (runes "_xnothex__xgggg "). Proof. reflexivity. Qed.

(** ** The round trip *)

(** The value of a text of hexadecimal digits. *)
Definition hexVal (h : text) : Z := foldl (λ a d, a * 16 + hexValue d) 0 h.

Lemma hexDigit_ok n : 0 <= n < 16 → isHex (hexDigit n) = true ∧ hexValue (hexDigit n) = n.
Proof. intros Hn. assert (Hb : forallb (λ n, isHex (hexDigit n) && (hexValue (hexDigit n) =? n)) (map Z.of_nat (seq 0 16)) = true) by reflexivity.
  rewrite forallb_forall in Hb. specialize (Hb n). rewrite in_map_iff in Hb.
  assert (Hx : ∃ x, Z.of_nat x = n ∧ In x (seq 0 16)) by (exists (Z.to_nat n); rewrite in_seq; lia).
  apply Hb in Hx. apply andb_true_iff in Hx as [? ?%Z.eqb_eq]. done.
Qed.

Lemma hexVal_acc h a : foldl (λ a d, a * 16 + hexValue d) a h = a * 16 ^ Z.of_nat (length h) + hexVal h.
Proof. unfold hexVal. revert a. induction h as [|d h IH]; intros a; [cbn; lia|].
  cbn [foldl length]. rewrite (IH (a * 16 + _)), (IH (0 * 16 + _)).
  replace (Z.of_nat (S (length h))) with (Z.of_nat (length h) + 1) by lia. rewrite Z.pow_add_r by lia. lia.
Qed.

Lemma nibble_spec c i : 0 <= c →
  0 <= nibble c i < 16 ∧ (c / 16 ^ (Z.of_nat i + 1)) * 16 + nibble c i = c / 16 ^ Z.of_nat i.
Proof. intros Hc. unfold nibble. change 15 with (Z.ones 4). rewrite Z.land_ones, Z.shiftr_div_pow2 by lia.
  rewrite Z.pow_mul_r by lia. change (2 ^ 4) with 16. rewrite Z.pow_add_r, Z.pow_1_r by lia.
  rewrite <- Z.div_div by (try lia; apply Z.pow_pos_nonneg; lia).
  pose proof (Z.div_mod (c / 16 ^ Z.of_nat i) 16). pose proof (Z.mod_pos_bound (c / 16 ^ Z.of_nat i) 16). lia.
Qed.

Lemma hexEncode32_spec c : 0 <= c < 2 ^ 32 →
  Forall (λ d, isHex d = true) (hexEncode32 c) ∧ hexVal (hexEncode32 c) = c.
Proof. intros Hc. assert (Hn : ∀ i, isHex (hexDigit (nibble c i)) = true ∧ hexValue (hexDigit (nibble c i)) = nibble c i).
  { intros i. apply hexDigit_ok, nibble_spec. lia. }
  split; [apply Forall_map, Forall_forall; intros i _; apply Hn|].
  unfold hexEncode32, hexVal. cbn [map foldl]. rewrite !(proj2 (Hn _)).
  assert (H8 : c / 16 ^ (Z.of_nat 7 + 1) = 0) by (apply Z.div_small; cbn; lia). rewrite <- H8.
  rewrite (proj2 (nibble_spec c 7 ltac:(lia))). 
  repeat match goal with |- context [c / 16 ^ Z.of_nat (S ?i)] =>
    replace (Z.of_nat (S i)) with (Z.of_nat i + 1) by lia; rewrite (proj2 (nibble_spec c i ltac:(lia))) end.
  cbn. apply Z.div_1_r.
Qed.

(** An even-length text loses pairs of zeros and keeps its value. *)
Lemma stripZeros_spec n h : length h = (2 * n)%nat → Forall (λ d, isHex d = true) h →
  let r := stripZeros h in
  hexVal r = hexVal h ∧ Forall (λ d, isHex d = true) r ∧ (length r ≤ length h)%nat ∧ Nat.even (length r) = true.
Proof. revert h. induction n as [|n IH]; intros h Hl Hh; [destruct h; [done|discriminate Hl]|].
  destruct h as [|d [|d' t]]; [discriminate Hl|cbn in Hl; lia|]. cbn in Hl.
  assert (He : Nat.even (length (d :: d' :: t)) = true) by (cbn; apply Nat.even_spec; exists n; lia).
  destruct (decide (d = 48 ∧ d' = 48)) as [[-> ->]|Hne].
  - assert (Hs : stripZeros (48 :: 48 :: t) = stripZeros t).
    { destruct t as [|e t]; [done|]. change (Nat.even (S (length t)) = true) in He. rewrite Nat.even_succ in He.
      change (stripZeros (48 :: 48 :: e :: t)) with
        (if negb (e =? 48) && Nat.even (length t) then 48 :: e :: t else stripZeros (e :: t)).
      rewrite <- Nat.negb_odd, He, andb_false_r. done. }
    destruct (IH t) as (H1 & H2 & H3 & H4); [lia|inversion_clear Hh as [|?? ? Ht]; by inversion_clear Ht|].
    cbv zeta. rewrite Hs. split_and!; [|done|cbn; lia|done]. rewrite H1. done.
  - assert (Hs : stripZeros (d :: d' :: t) = d :: d' :: t).
    { change (stripZeros (d :: d' :: t)) with
        (if d =? 48 then if negb (d' =? 48) && Nat.even (length (d :: d' :: t)) then d :: d' :: t else stripZeros (d' :: t) else d :: d' :: t).
      rewrite He, andb_true_r. destruct (Z.eqb_spec d 48); [|done]. destruct (Z.eqb_spec d' 48); [|done]. exfalso. auto. }
    cbv zeta. rewrite Hs. done.
Qed.

Lemma hexBytes_spec n h : length h = (2 * n)%nat →
  ∃ bs, hexBytes h = Some bs ∧ length bs = n ∧ foldl (λ a b, a * 256 + b) 0 bs = hexVal h.
Proof.
  enough (Hg : ∀ a, length h = (2 * n)%nat → ∃ bs, hexBytes h = Some bs ∧ length bs = n ∧
    foldl (λ a b, a * 256 + b) a bs = foldl (λ a d, a * 16 + hexValue d) a h) by apply Hg.
  revert h. induction n as [|n IH]; intros h a Hl; [destruct h; [by exists []|discriminate Hl]|].
  destruct h as [|d [|d' t]]; [discriminate Hl|cbn in Hl; lia|]. cbn in Hl.
  destruct (IH t ((a * 16 + hexValue d) * 16 + hexValue d')) as (bs & Hb & Hn & Hf); [lia|].
  exists (hexValue d * 16 + hexValue d' :: bs). cbn [hexBytes]. rewrite Hb. split_and!; [done|cbn; lia|].
  cbn [foldl]. rewrite <- Hf. f_equal. lia.
Qed.

Lemma foldl_zeros n (bs : list Z) : foldl (λ a b, a * 256 + b) 0 (replicate n 0 ++ bs) = foldl (λ a b, a * 256 + b) 0 bs.
Proof. induction n as [|n IH]; [done|]. cbn. apply IH. Qed.

Lemma takeHex_app h d r : Forall (λ d, isHex d = true) h → isHex d = false → takeHex (h ++ d :: r) = (h, d :: r).
Proof. intros Hh Hd. induction Hh as [|e h He _ IH]; cbn; [by rewrite Hd|]. rewrite He, IH. done. Qed.

Lemma escape_decodes c r : valid_rune c = true → c ≠ 0 →
  ∃ h, matchEscape (escape c ++ r) = Some (h, r) ∧ decodeEscape h = inl [c].
Proof. intros Hv Hc0. assert (Hc : 0 <= c < 0x110000) by (unfold valid_rune in Hv; lia).
  destruct (hexEncode32_spec c) as [Hh Hval]; [lia|].
  destruct (stripZeros_spec 4 (hexEncode32 c)) as (Hs & Hsh & Hsl & Hse); [done|done|].
  exists (stripZeros (hexEncode32 c)). set (h := stripZeros (hexEncode32 c)) in *. split.
  - unfold escape. fold h. rewrite <- !app_assoc. cbn [app matchEscape]. rewrite takeHex_app by done.
    destruct h as [|d h'] eqn:Eh; [|done]. unfold h in Hs. rewrite Hval in Hs. cbn in Hs. lia.
  - apply Nat.even_spec in Hse as [n Hn]. destruct (hexBytes_spec n h Hn) as (bs & Hb & Hbl & Hbv).
    unfold decodeEscape. rewrite Hb. assert (Hn4 : (n ≤ 4)%nat) by (change (length (hexEncode32 c)) with 8%nat in Hsl; lia).
    unfold Uint32. rewrite take_ge by (unfold padBytes; rewrite length_app, length_replicate; lia).
    unfold padBytes. rewrite foldl_zeros, Hbv, Hs, Hval. unfold int32. destruct (Z.ltb_spec c (2 ^ 31)); [|lia].
    unfold formatRune. by rewrite Hv.
Qed.

Lemma unwordifyLoop_wordify fuel s : Forall (λ c, valid_rune c = true ∧ c ≠ 0) s → (length (wordify s) ≤ fuel)%nat →
  unwordifyLoop fuel (wordify s) = (s, []).
Proof. intros Hs. revert fuel. induction Hs as [|c s [Hv Hc] Hs IH]; intros fuel Hf; [by destruct fuel|].
  cbn [wordify flat_map] in *. fold (wordify s) in *. rewrite length_app in Hf.
  destruct fuel as [|fuel]; [destruct (needsHex c); cbn in Hf; lia|].
  destruct (needsHex c) eqn:En.
  - destruct (escape_decodes c (wordify s) Hv Hc) as (h & Hm & Hd).
    cbn [unwordifyLoop]. rewrite Hm, IH by (cbn in Hf; lia). by rewrite Hd.
  - cbn [unwordifyLoop app]. assert (Hne : c =? 95 = false) by (unfold needsHex in En; lia).
    replace (matchEscape (c :: wordify s)) with (@None (text * text)).
    + rewrite IH by (cbn in Hf; lia). done.
    + unfold matchEscape. rewrite Hne. by destruct (wordify s).
Qed.

Lemma hexEncode32_word c : 0 <= c < 2 ^ 32 → Forall (λ d, wordRune d = true) (stripZeros (hexEncode32 c)).
Proof. intros Hc. destruct (hexEncode32_spec c Hc) as [Hh _].
  destruct (stripZeros_spec 4 (hexEncode32 c)) as (_ & Hsh & _); [done|done|].
  eapply Forall_impl; [exact Hsh|]. intros d Hd. cbv beta in Hd. unfold isHex in Hd. unfold wordRune. lia.
Qed.

(** C11: A text of valid, non-zero code points survives its encoding as part of an
    environment variable name, which has only word characters. *)
Theorem wordify_roundtrip s : Forall (λ c, valid_rune c = true ∧ c ≠ 0) s →
  unwordify (wordify s) = Ok s ∧ Forall (λ c, wordRune c = true) (wordify s).
Proof. intros Hs. split; [unfold unwordify; by rewrite unwordifyLoop_wordify|].
  induction Hs as [|c s [Hv Hc] Hs IH]; [constructor|]. cbn [wordify flat_map]. fold (wordify s).
  apply Forall_app; split; [|done]. destruct (needsHex c) eqn:En.
  - unfold escape. repeat (apply Forall_app; split); [by repeat constructor| |by repeat constructor].
    apply hexEncode32_word. unfold valid_rune in Hv. lia.
  - constructor; [|done]. unfold needsHex in En. unfold valid_rune in Hv. unfold wordRune. lia.
Qed.

Lemma wordify_roundtrip_witness : unwordify (wordify (runes "kafka/a-b_c::d")) = Ok (runes "kafka/a-b_c::d") ∧
  Forall (λ c, wordRune c = true) (wordify (runes "kafka/a-b_c::d")).
Proof. apply (wordify_roundtrip (runes "kafka/a-b_c::d")). repeat constructor; intro; discriminate. Defined.

(** NUL is the exception: it is written [_x_], which does not decode. *)
Lemma wordify_nul : unwordify (wordify [0]) = Ok (runes "_x_").
Proof. reflexivity. Qed.

(** ** Properties *)

(** A string from its runes: their UTF-8 encoding. *)
Definition byteOf (n : Z) : ascii := ascii_of_N (Z.to_N n).
Definition utf8Rune (c : rune) : string :=
  let c := formatRune c in
  let tail i := String (byteOf (128 + Z.land (Z.shiftr c (6 * i)) 63)) in
  if c <? 0x80 then String (byteOf c) ""
  else if c <? 0x800 then String (byteOf (192 + Z.shiftr c 6)) (tail 0 "")
  else if c <? 0x10000 then String (byteOf (224 + Z.shiftr c 12)) (tail 1 (tail 0 ""))
  else String (byteOf (240 + Z.shiftr c 18)) (tail 2 (tail 1 (tail 0 ""))).
Fixpoint utf8 (s : text) : string :=
  match s with [] => "" | c :: s => utf8Rune c +:+ utf8 s end.

(** The runes of a string, as [range] decodes them: an invalid byte is U+FFFD. *)
Definition byteVal (c : ascii) : Z := Z.of_N (N_of_ascii c).
Definition contIn (lo hi : Z) (c : ascii) : bool := (lo <=? byteVal c) && (byteVal c <=? hi).
Definition cont : ascii → bool := contIn 0x80 0xBF.
Definition low6 (c : ascii) : Z := Z.land (byteVal c) 63.
Definition second3 (a : ascii) : ascii → bool :=
  if byteVal a =? 0xE0 then contIn 0xA0 0xBF else if byteVal a =? 0xED then contIn 0x80 0x9F else cont.
Definition second4 (a : ascii) : ascii → bool :=
  if byteVal a =? 0xF0 then contIn 0x90 0xBF else if byteVal a =? 0xF4 then contIn 0x80 0x8F else cont.
Fixpoint decodeUTF8 (s : string) : text :=
  match s with
  | EmptyString => []
  | String a s1 =>
      let x := byteVal a in
      if x <? 0x80 then x :: decodeUTF8 s1
      else if (0xC2 <=? x) && (x <=? 0xDF) then
        match s1 with
        | String b s2 => if cont b then Z.land x 31 * 64 + low6 b :: decodeUTF8 s2 else 0xFFFD :: decodeUTF8 s1
        | EmptyString => [0xFFFD]
        end
      else if (0xE0 <=? x) && (x <=? 0xEF) then
        match s1 with
        | String b (String c s3) =>
            if second3 a b && cont c then (Z.land x 15 * 64 + low6 b) * 64 + low6 c :: decodeUTF8 s3
            else 0xFFFD :: decodeUTF8 s1
        | _ => 0xFFFD :: decodeUTF8 s1
        end
      else if (0xF0 <=? x) && (x <=? 0xF4) then
        match s1 with
        | String b (String c (String d s4)) =>
            if second4 a b && cont c && cont d then
              ((Z.land x 7 * 64 + low6 b) * 64 + low6 c) * 64 + low6 d :: decodeUTF8 s4
            else 0xFFFD :: decodeUTF8 s1
        | _ => 0xFFFD :: decodeUTF8 s1
        end
      else 0xFFFD :: decodeUTF8 s1
  end.

Example decodeUTF8_1 : decodeUTF8 (utf8 [97; 0xE9; 0x20AC; 0x1F600; 0xFFFD]) = [97; 0xE9; 0x20AC; 0x1F600; 0xFFFD].
Proof. reflexivity. Qed.

(** The alternatives the grammars capture: [@('receivers' | 'extensions')] and
    [@'config' | @'enabled'], upper-case in environment variables. *)
Inductive ComponentType := ctReceivers | ctExtensions.
Inductive PropertyType := ptConfig | ptEnabled.
Definition ct_text (c : ComponentType) : string := match c with ctReceivers => "receivers" | ctExtensions => "extensions" end.
Definition pt_text (t : PropertyType) : string := match t with ptConfig => "config" | ptEnabled => "enabled" end.

Record PropertyAST := {
  ast_ComponentType : ComponentType; ast_CType : text; ast_CName : text; ast_Type : PropertyType; ast_Key : text;
}.

Record Property := {
  stringMap : gmap string any;
  p_ast : PropertyAST;
  Val : string;
  Input : text;
}.

Record EnvVarProperty := { evp_ast : PropertyAST; evp_Val : string }.

(** The two participle parsers, YAML decoding into a map and the part of the
    standard library's quoting that error texts use. *)
Class PropertyParsers := {
  ParseString : text → res PropertyAST;
  ParseEnvVar : text → res PropertyAST;
  UnmarshalMap : string → res (gmap string any);
}.

(** ** The two grammars *)

(** The tokens of the two lexers: a separator, or a run of other characters. *)
Inductive token := Sym (c : rune) | Word (w : text).
Definition tokenText (t : token) : text := match t with Sym c => [c] | Word w => w end.
Definition tokensText (ts : list token) : text := flat_map tokenText ts.
Definition flushWord (w : text) : list token := if bool_decide (w = []) then [] else [Word w].

(** [envVarLex]: [w] is the word being read. *)
Fixpoint lexEnvVar (w s : text) : list token :=
  match s with
  | [] => flushWord w
  | c :: s => if c =? 95 then flushWord w ++ Sym c :: lexEnvVar [] s else lexEnvVar (w ++ [c]) s
  end.
(** [lex]: white space before a word is elided. *)
Definition isSpaceRune (c : rune) : bool := (c =? 9) || (c =? 10) || (c =? 12) || (c =? 13) || (c =? 32).
Fixpoint lexProperty (w s : text) : list token :=
  match s with
  | [] => flushWord w
  | c :: s =>
      if (c =? 46) || (c =? 47) then flushWord w ++ Sym c :: lexProperty [] s
      else if bool_decide (w = []) && isSpaceRune c then lexProperty [] s
      else lexProperty (w ++ [c]) s
  end.

(** [@~(stop)+]: the tokens before the first place where [stop] matches, and the rest. *)
Fixpoint readUntil (stop : list token → bool) (ts : list token) : list token * list token :=
  match ts with
  | [] => ([], [])
  | t :: ts' => if stop ts then ([], ts) else let '(a, b) := readUntil stop ts' in (t :: a, b)
  end.
(** The separator [sep] with the lookahead of one of the two markers. *)
Definition atMarker (sep : rune) (conf enab : text) (ts : list token) : bool :=
  match ts with
  | Sym c :: Word w :: _ => (c =? sep) && (bool_decide (w = conf) || bool_decide (w = enab))
  | _ => false
  end.
Definition atEnvMarker : list token → bool := atMarker 95 (runes "CONFIG") (runes "ENABLED").
Definition atPropertyMarker : list token → bool := atMarker 46 (runes "config") (runes "enabled").
Definition startsWithSlash (ts : list token) : bool := match ts with Sym c :: _ => c =? 47 | _ => false end.

(** The elements of the grammars: a separator, a literal, an alternative of literals. *)
Definition sym (c : rune) (ts : list token) : option (list token) :=
  match ts with Sym d :: ts => if d =? c then Some ts else None | _ => None end.
Definition word (w : text) (ts : list token) : option (list token) :=
  match ts with Word v :: ts => if bool_decide (v = w) then Some ts else None | _ => None end.
Definition oneOf {A} (a b : text * A) (ts : list token) : option (A * list token) :=
  match word a.1 ts with Some ts => Some (a.2, ts) | None => ts ← word b.1 ts; Some (b.2, ts) end.

(** [EnvVarComponentID]: the type, the optional name after [_x2f_], the rest. *)
Definition envName (ts : list token) : option (list token) := ts ← sym 95 ts; ts ← word (runes "x2f") ts; sym 95 ts.
Definition envComponent (ts : list token) : option (text * text * list token) :=
  let '(ty, ts) := readUntil atEnvMarker ts in
  if bool_decide (ty = []) then None
  else match envName ts with
       | Some ts => let '(nm, ts) := readUntil atEnvMarker ts in Some (tokensText ty, tokensText nm, ts)
       | None => Some (tokensText ty, [], ts)
       end.
(** [EnvVarProperty]; [None] is a parsing error. *)
Definition envVarGrammar (s : text) : option PropertyAST :=
  ts ← word (runes "SPLUNK") (lexEnvVar [] s); ts ← sym 95 ts; ts ← word (runes "DISCOVERY") ts; ts ← sym 95 ts;
  '(c, ts) ← oneOf (runes "RECEIVERS", ctReceivers) (runes "EXTENSIONS", ctExtensions) ts; ts ← sym 95 ts;
  '(ty, nm, ts) ← envComponent ts; ts ← sym 95 ts;
  '(t, ts) ← oneOf (runes "CONFIG", ptConfig) (runes "ENABLED", ptEnabled) ts;
  key ← (if bool_decide (ts = []) then Some [] else ts ← sym 95 ts; if bool_decide (ts = []) then None else Some (tokensText ts));
  Some {| ast_ComponentType := c; ast_CType := ty; ast_CName := nm; ast_Type := t; ast_Key := key |}.

(** [ComponentID]: the type, the name after the optional slash, the rest. *)
Definition propertyComponent (ts : list token) : option (text * text * list token) :=
  let '(ty, ts) := readUntil (λ ts, startsWithSlash ts || atPropertyMarker ts) ts in
  if bool_decide (ty = []) then None
  else match sym 47 ts with
       | Some ts => let '(nm, ts) := readUntil atPropertyMarker ts in Some (tokensText ty, tokensText nm, ts)
       | None => Some (tokensText ty, [], ts)
       end.
(** [((@'config' Dot)|@('enabled'))] *)
Definition propertyType (ts : list token) : option (PropertyType * list token) :=
  match ts ← word (runes "config") ts; sym 46 ts with
  | Some ts => Some (ptConfig, ts)
  | None => ts ← word (runes "enabled") ts; Some (ptEnabled, ts)
  end.
(** [Property]; [None] is a parsing error. *)
Definition propertyGrammar (s : text) : option PropertyAST :=
  ts ← word (runes "splunk") (lexProperty [] s); ts ← sym 46 ts; ts ← word (runes "discovery") ts; ts ← sym 46 ts;
  '(c, ts) ← oneOf (runes "receivers", ctReceivers) (runes "extensions", ctExtensions) ts; ts ← sym 46 ts;
  '(ty, nm, ts) ← propertyComponent ts; ts ← sym 46 ts;
  '(t, ts) ← propertyType ts;
  Some {| ast_ComponentType := c; ast_CType := ty; ast_CName := nm; ast_Type := t; ast_Key := tokensText ts |}.

(** What participle documents: a parser accepts the texts of its grammar and captures what the grammar says; the texts of the
    errors are its own. *)
Class GrammarLaws `{PropertyParsers} : Prop := {
  ParseString_grammar : ∀ s, match ParseString s with Ok a => Some a | Err _ => None end = propertyGrammar s;
  ParseEnvVar_grammar : ∀ s, match ParseEnvVar s with Ok a => Some a | Err _ => None end = envVarGrammar s;
}.

Example envVarGrammar_named : envVarGrammar (runes "SPLUNK_DISCOVERY_RECEIVERS_receiver_type_x2f__CONFIG_one") =
  Some {| ast_ComponentType := ctReceivers; ast_CType := runes "receiver_type_x2f_"; ast_CName := []; ast_Type := ptConfig; ast_Key := runes "one" |}.
Proof. reflexivity. Qed.
Example envVarGrammar_rejects :
  map envVarGrammar [runes "SPLUNK_DISCOVERY_NOTVALIDCOMPONENT_TYPE_CONFIG_ONE"; runes "SPLUNK_DISCOVERY_RECEIVERS_TYPE_NOTCONFIG_ONE";
    runes "SPLUNK_DISCOVERY_EXTENSIONS_TYPE_x2f_NAME_CONFIG_"] = [None; None; None].
Proof. reflexivity. Qed.

Lemma tokensText_app a b : tokensText (a ++ b) = tokensText a ++ tokensText b.
Proof. apply flat_map_app. Qed.
Lemma tokensText_flush w : tokensText (flushWord w) = w.
Proof. unfold flushWord. case_bool_decide as Hw; [by rewrite Hw|]. apply app_nil_r. Qed.
Lemma tokensText_lexEnvVar w s : tokensText (lexEnvVar w s) = w ++ s.
Proof.
  revert w. induction s as [|c s IH]; intros w; cbn [lexEnvVar]; [by rewrite tokensText_flush, app_nil_r|].
  destruct (c =? 95); [|by rewrite IH, <-app_assoc]. rewrite tokensText_app, tokensText_flush. f_equal. unfold tokensText. cbn. f_equal. apply IH.
Qed.
Lemma lexEnvVar_app w a b : lexEnvVar w (a ++ [95] ++ b) = lexEnvVar w a ++ Sym 95 :: lexEnvVar [] b.
Proof.
  revert w. induction a as [|c a IH]; intros w; [done|]. cbn [app lexEnvVar]. destruct (c =? 95); [|apply IH].
  rewrite <-app_assoc. f_equal. cbn [app]. f_equal. apply IH.
Qed.
Lemma readUntil_text stop ts a b : readUntil stop ts = (a, b) → ts = a ++ b.
Proof.
  revert a b. induction ts as [|t ts IH]; intros a b; cbn [readUntil]; [by intros [= <- <-]|].
  destruct (stop _); [by intros [= <- <-]|]. destruct (readUntil stop ts) as [a' b'] eqn:E. intros [= <- <-]. cbn. f_equal. by apply IH.
Qed.
Lemma readUntil_stopped stop ts a b : readUntil stop ts = (a, b) → b = [] ∨ stop b = true.
Proof.
  revert a b. induction ts as [|t ts IH]; intros a b; cbn [readUntil]; [intros [= <- <-]; by left|].
  destruct (stop (t :: ts)) eqn:Es; [intros [= <- <-]; by right|]. destruct (readUntil stop ts) as [a' b'] eqn:E. intros [= <- <-]. eauto.
Qed.
Lemma sym_inv c ts r : sym c ts = Some r → ts = Sym c :: r.
Proof. unfold sym. destruct ts as [|[d|w] ts]; try done. destruct (Z.eqb_spec d c); [|done]. naive_solver. Qed.
Lemma word_inv w ts r : word w ts = Some r → ts = Word w :: r.
Proof. unfold word. destruct ts as [|[d|v] ts]; try done. case_bool_decide; [|done]. naive_solver. Qed.
Lemma sym_ok c r : sym c (Sym c :: r) = Some r.
Proof. unfold sym. by rewrite Z.eqb_refl. Qed.
Lemma word_ok w r : word w (Word w :: r) = Some r.
Proof. unfold word. by rewrite bool_decide_eq_true_2. Qed.
Lemma some_bind {A B} (x : A) (f : A → option B) : (Some x ≫= f) = f x.
Proof. done. Qed.
Lemma oneOf_inv {A} (a b : text * A) ts x r : oneOf a b ts = Some (x, r) → ∃ w, (w, x) ∈ [a; b] ∧ ts = Word w :: r.
Proof.
  unfold oneOf. destruct (word a.1 ts) as [r'|] eqn:Ha.
  - intros [= <- <-]. apply word_inv in Ha as ->. exists a.1. split; [|done]. destruct a. constructor.
  - destruct (word b.1 ts) as [r'|] eqn:Hb; [|done]. cbn. intros [= <- <-]. apply word_inv in Hb as ->. exists b.1. split; [|done]. destruct b. do 2 constructor.
Qed.
(** The name of [EnvVarComponentID] is never read: the type runs up to the marker, and takes [_x2f_] with it. *)
Lemma envComponent_name ts ty nm rest : envComponent ts = Some (ty, nm, rest) → nm = [].
Proof.
  unfold envComponent. destruct (readUntil _ ts) as [a b] eqn:E. case_bool_decide; [done|].
  destruct (envName b) as [r|] eqn:Hn; [|by intros [= <- <- <-]].
  unfold envName in Hn. destruct (sym 95 b) as [b1|] eqn:H1; [|done]. apply sym_inv in H1 as ->. cbn in Hn.
  destruct (word _ b1) as [b2|] eqn:H2; [|done]. apply word_inv in H2 as ->.
  by destruct (readUntil_stopped _ _ _ _ E).
Qed.

(** [strconv.ParseBool] *)
Definition ParseBool (s : string) : res bool :=
  if existsb (String.eqb s) ["1"; "t"; "T"; "TRUE"; "true"; "True"] then Ok true
  else if existsb (String.eqb s) ["0"; "f"; "F"; "FALSE"; "false"; "False"] then Ok false
  else Err (Errorf "strconv.ParseBool: parsing %q: invalid syntax" [s]).

Definition bool_text (b : bool) : string := if b then "true" else "false".

Section properties.
Context `{C : Confmap} `{Pdata} `{PropertyParsers}.

(** The map under the component, and the value as it is stored. *)
Definition subStringMap (property : text) (a : PropertyAST) (val : string) : res (gmap string any * string) :=
  match ast_Type a with
  | ptEnabled =>
      bVal ← wrap_err "failed parsing %q bool: %w" [utf8 property] (ParseBool val);
      Ok ({["enabled" := AString (bool_text bVal)]}, bool_text bVal)
  | ptConfig =>
      dst ← wrap_err "failed unmarshaling property %q: %w" [utf8 (ast_Key a)]
        (UnmarshalMap (utf8 (ast_Key a) +:+ ": " +:+ val));
      Ok ({["config" := AMap (ToStringMap (NewFromStringMap dst))]}, val)
  end.

Definition NewProperty (property : text) (val : string) : res Property :=
  a ← wrap_err "invalid property %q (parsing error): %w" [utf8 property] (ParseString property);
  '(sub, v) ← subStringMap property a val;
  id ← MustNewIDWithName (utf8 (ast_CType a)) (utf8 (ast_CName a));
  Ok {| stringMap := {[ct_text (ast_ComponentType a) := AMap {[cid_String id := AMap sub]}]};
        p_ast := a; Val := v; Input := property |}.

Definition envVarPrefixS : text := runes "SPLUNK_DISCOVERY_".
Definition slash : text := [47].
Definition dot : text := [46].
Definition underscore : text := [95].

Fixpoint hasPrefix (s p : text) : bool :=
  match p, s with
  | [], _ => true
  | c :: p, d :: s => (c =? d) && hasPrefix s p
  | _ :: _, [] => false
  end.

(** Whether the name, with its slash, is part of the environment variable. *)
Definition printsName (p : Property) : bool :=
  let a := p_ast p in
  negb (bool_decide (ast_CName a = [])) ||
  hasPrefix (Input p) (runes "splunk.discovery." ++ runes (ct_text (ast_ComponentType a)) ++ dot ++ ast_CType a ++ runes "/.").

Definition ToEnvVar (p : Property) : text :=
  let a := p_ast p in
  envVarPrefixS ++ runes (ToUpper (ct_text (ast_ComponentType a))) ++ underscore ++ wordify (ast_CType a) ++
  (if printsName p then wordify (slash ++ ast_CName a) else []) ++
  underscore ++ runes (ToUpper (pt_text (ast_Type a))) ++
  match ast_Type a with ptConfig => underscore ++ wordify (ast_Key a) | ptEnabled => [] end.

Definition NewEnvVarProperty (property : text) (val : string) : res EnvVarProperty :=
  a ← wrap_err "invalid property env var (parsing error): %w" [] (ParseEnvVar property);
  Ok {| evp_ast := a; evp_Val := val |}.

(** The [--set] form of a property. *)
Definition propertyText (ct : ComponentType) (cid : text) (pt : PropertyType) (key : text) : text :=
  runes "splunk.discovery." ++ runes (ct_text ct) ++ dot ++ cid ++ dot ++ runes (pt_text pt) ++
  match pt with ptConfig => dot ++ key | ptEnabled => [] end.

(** [None]: not a discovery property.  A name that does not decode is reported
    with the error of the type, which is nil there. *)
Definition NewPropertyFromEnvVar (envVar : text) (val : string) : option (res Property) :=
  if negb (hasPrefix envVar envVarPrefixS) then None
  else Some (
    evp ← wrap_err "invalid env var property (parsing error): %w" [] (NewEnvVarProperty envVar val);
    let a := evp_ast evp in
    cid ← wrap_err "failed parsing env var property component id type: %w" [] (unwordify (ast_CType a));
    cid ← (if bool_decide (ast_CName a = []) then Ok cid
           else match unwordify (ast_CName a) with
                | Ok cidName => Ok (cid ++ slash ++ cidName)
                | Err _ => Err (Errorf "failed parsing env var property component id name: %!w(<nil>)" [])
                end);
    key ← wrap_err "failed parsing env var property key: %w" [] (unwordify (ast_Key a));
    NewProperty (propertyText (ast_ComponentType a) cid (ast_Type a) key) val).

(** The component's identifier as the property was written: the slash is there when the name is printed. *)
Definition componentText (p : Property) : text :=
  ast_CType (p_ast p) ++ (if printsName p then slash ++ ast_CName (p_ast p) else []).

(** What the environment variable grammar reads from a printed property: the
    encoded identifier, name included, as the type, and the encoded key. *)
Definition encodedAST (p : Property) : PropertyAST := {|
  ast_ComponentType := ast_ComponentType (p_ast p); ast_CType := wordify (componentText p); ast_CName := [];
  ast_Type := ast_Type (p_ast p); ast_Key := match ast_Type (p_ast p) with ptConfig => wordify (ast_Key (p_ast p)) | ptEnabled => [] end;
|}.

Definition text_ok (s : text) : Prop := Forall (λ c, valid_rune c = true ∧ c ≠ 0) s.

Lemma unwordify_wordify s : text_ok s → unwordify (wordify s) = Ok s.
Proof. intros Hs. unfold unwordify. by rewrite unwordifyLoop_wordify. Qed.

Lemma wordify_nil s : text_ok s → wordify s = [] → s = [].
Proof. intros Hs Hw. apply unwordify_wordify in Hs. rewrite Hw in Hs. by injection Hs. Qed.

Lemma hasPrefix_app p s : hasPrefix (p ++ s) p = true.
Proof. induction p as [|c p IH]; [by destruct s|]. cbn. rewrite Z.eqb_refl. apply IH. Qed.

Lemma wordify_app a b : wordify (a ++ b) = wordify a ++ wordify b.
Proof. apply flat_map_app. Qed.

(** The properties whose environment variable can be read back: valid characters, no white space that the lexer elides, no
    [CONFIG] or [ENABLED] in the encoded identifier that the grammar would take for the end of it, a key for a configuration
    and none for [enabled]. *)
Record portable (p : Property) : Prop := {
  portable_texts : text_ok (Input p);
  portable_spaces : tokensText (lexProperty [] (Input p)) = Input p;
  portable_component : (readUntil atEnvMarker (lexEnvVar [] (wordify (componentText p)))).2 = [];
  portable_key : match ast_Type (p_ast p) with ptConfig => ast_Key (p_ast p) ≠ [] | ptEnabled => ast_Key (p_ast p) = [] end;
}.

Lemma readUntil_marked ts r : (readUntil atEnvMarker ts).2 = [] → atEnvMarker (Sym 95 :: r) = true →
  readUntil atEnvMarker (ts ++ Sym 95 :: r) = (ts, Sym 95 :: r).
Proof.
  intros Hts Hr. induction ts as [|t ts IH]; [cbn [app readUntil]; by rewrite Hr|]. cbn [app readUntil] in *.
  assert (Hsame : atEnvMarker (t :: ts ++ Sym 95 :: r) = atEnvMarker (t :: ts)) by (destruct t, ts as [|[] ?]; done).
  rewrite Hsame. destruct (atEnvMarker (t :: ts)); [done|]. destruct (readUntil atEnvMarker ts). by rewrite IH.
Qed.

Definition keyText (p : Property) : text := match ast_Type (p_ast p) with ptConfig => underscore ++ wordify (ast_Key (p_ast p)) | ptEnabled => [] end.
Lemma ToEnvVar_parts p : ToEnvVar p =
  (envVarPrefixS ++ runes (ToUpper (ct_text (ast_ComponentType (p_ast p))))) ++ [95] ++ wordify (componentText p) ++ [95] ++
    runes (ToUpper (pt_text (ast_Type (p_ast p)))) ++ keyText p.
Proof.
  unfold ToEnvVar, keyText, componentText, underscore. rewrite (wordify_app (ast_CType _)), <-!app_assoc.
  by destruct (printsName p).
Qed.
Lemma lex_marker p : lexEnvVar [] (runes (ToUpper (pt_text (ast_Type (p_ast p)))) ++ keyText p) =
  Word (runes (ToUpper (pt_text (ast_Type (p_ast p))))) ::
    match ast_Type (p_ast p) with ptConfig => Sym 95 :: lexEnvVar [] (wordify (ast_Key (p_ast p))) | ptEnabled => [] end.
Proof. unfold keyText. destruct (ast_Type (p_ast p)); [apply (lexEnvVar_app [])|done]. Qed.
Lemma lexEnvVar_nil s : text_ok s → s ≠ [] → lexEnvVar [] (wordify s) ≠ [].
Proof.
  intros Hs Hne Hl. pose proof (tokensText_lexEnvVar [] (wordify s)) as Ht. rewrite Hl in Ht. symmetry in Ht. by apply wordify_nil in Ht.
Qed.

Lemma lex_prefix c : lexEnvVar [] (envVarPrefixS ++ runes (ToUpper (ct_text c))) =
  [Word (runes "SPLUNK"); Sym 95; Word (runes "DISCOVERY"); Sym 95; Word (runes (ToUpper (ct_text c)))].
Proof. by destruct c. Qed.
Lemma oneOf_component c r : oneOf (runes "RECEIVERS", ctReceivers) (runes "EXTENSIONS", ctExtensions) (Word (runes (ToUpper (ct_text c))) :: r) = Some (c, r).
Proof. by destruct c. Qed.
Lemma oneOf_marker t r : oneOf (runes "CONFIG", ptConfig) (runes "ENABLED", ptEnabled) (Word (runes (ToUpper (pt_text t))) :: r) = Some (t, r).
Proof. by destruct t. Qed.

(** The grammar reads the printed variable into the encoded parts. *)
Lemma ToEnvVar_parsed p : text_ok (ast_Key (p_ast p)) → text_ok (componentText p) → componentText p ≠ [] → portable p →
  envVarGrammar (ToEnvVar p) = Some (encodedAST p).
Proof.
  intros Hk Hok Hne Hp. pose proof (lexEnvVar_nil _ Hok Hne) as HW.
  assert (Hc : envComponent (lexEnvVar [] (wordify (componentText p)) ++ Sym 95 :: lexEnvVar [] (runes (ToUpper (pt_text (ast_Type (p_ast p)))) ++ keyText p)) =
    Some (wordify (componentText p), [], Sym 95 :: lexEnvVar [] (runes (ToUpper (pt_text (ast_Type (p_ast p)))) ++ keyText p))).
  { unfold envComponent. rewrite readUntil_marked; [|apply Hp|rewrite lex_marker; by destruct (ast_Type (p_ast p))].
    rewrite bool_decide_eq_false_2, lex_marker by done. rewrite tokensText_lexEnvVar. by destruct (ast_Type (p_ast p)). }
  unfold envVarGrammar. rewrite ToEnvVar_parts, (lexEnvVar_app []), (lexEnvVar_app []), lex_prefix. cbn [app].
  rewrite word_ok, some_bind, sym_ok, some_bind, word_ok, some_bind, sym_ok, some_bind, oneOf_component, some_bind, sym_ok, some_bind, Hc, some_bind.
  rewrite sym_ok, some_bind, lex_marker, oneOf_marker, some_bind. unfold encodedAST. pose proof (portable_key p Hp) as Hkey.
  destruct (ast_Type (p_ast p)).
  - rewrite bool_decide_eq_false_2, sym_ok, some_bind, bool_decide_eq_false_2, tokensText_lexEnvVar by (done || by apply lexEnvVar_nil). done.
  - rewrite bool_decide_eq_true_2 by done. done.
Qed.

(** A word is never empty. *)
Lemma lexProperty_nonempty w s : Forall (λ t, tokenText t ≠ []) (lexProperty w s).
Proof.
  assert (Hf : ∀ w, Forall (λ t, tokenText t ≠ []) (flushWord w)) by (intros v; unfold flushWord; case_bool_decide; auto).
  revert w. induction s as [|c s IH]; intros w; cbn [lexProperty]; [apply Hf|].
  destruct (_ || _); [apply Forall_app; split; [apply Hf | constructor; [done | apply IH]]|]. destruct (_ && _); apply IH.
Qed.
Lemma tokensText_nonempty ts : Forall (λ t, tokenText t ≠ []) ts → ts ≠ [] → tokensText ts ≠ [].
Proof. intros Hf Hne. destruct Hf as [|t ts Ht Hf]; [done|]. cbn. intros [? _]%app_nil. done. Qed.

(** What the property grammar captures, in the text that it read. *)
Lemma propertyComponent_inv ts ty nm rest : propertyComponent ts = Some (ty, nm, rest) → Forall (λ t, tokenText t ≠ []) ts →
  ty ≠ [] ∧ ∃ named : bool, tokensText ts = ty ++ (if named then slash ++ nm else []) ++ tokensText rest ∧ (named = false → nm = []).
Proof.
  unfold propertyComponent. destruct (readUntil _ ts) as [a b] eqn:E. apply readUntil_text in E as ->. case_bool_decide as Ha; [done|].
  intros Hp [Hfa Hfb]%Forall_app. rewrite tokensText_app. destruct (sym 47 b) as [b1|] eqn:Hs.
  - apply sym_inv in Hs as ->. destruct (readUntil atPropertyMarker b1) as [c d] eqn:E. apply readUntil_text in E as ->. injection Hp as <- <- <-.
    split; [by apply tokensText_nonempty|]. exists true. split; [|done]. f_equal. unfold tokensText at 1. cbn [flat_map tokenText app]. fold (tokensText (c ++ d)).
    by rewrite tokensText_app.
  - injection Hp as <- <- <-. split; [by apply tokensText_nonempty|]. by exists false.
Qed.
Lemma propertyType_inv ts t r : propertyType ts = Some (t, r) → tokensText ts = runes (pt_text t) ++ match t with ptConfig => dot | ptEnabled => [] end ++ tokensText r.
Proof.
  unfold propertyType. destruct (word _ ts ≫= _) as [r'|] eqn:Hc.
  - apply bind_Some in Hc as (ts1 & ->%word_inv & ->%sym_inv). by intros [= <- <-].
  - intros (ts1 & ->%word_inv & [= <- <-])%bind_Some. done.
Qed.
Lemma propertyGrammar_inv s a : propertyGrammar s = Some a → tokensText (lexProperty [] s) = s →
  ast_CType a ≠ [] ∧ ∃ named : bool, (named = false → ast_CName a = []) ∧
    s = runes "splunk.discovery." ++ runes (ct_text (ast_ComponentType a)) ++ dot ++ (ast_CType a ++ if named then slash ++ ast_CName a else []) ++ dot ++
      runes (pt_text (ast_Type a)) ++ match ast_Type a with ptConfig => dot | ptEnabled => [] end ++ ast_Key a.
Proof.
  intros Hg Hs. pose proof (lexProperty_nonempty [] s) as Hf. unfold propertyGrammar in Hg.
  apply bind_Some in Hg as (ts1 & H1%word_inv & Hg). apply bind_Some in Hg as (ts2 & ->%sym_inv & Hg).
  apply bind_Some in Hg as (ts3 & ->%word_inv & Hg). apply bind_Some in Hg as (ts4 & ->%sym_inv & Hg).
  apply bind_Some in Hg as ([c ts5] & (w & Hw & ->)%oneOf_inv & Hg). apply bind_Some in Hg as (ts6 & ->%sym_inv & Hg).
  apply bind_Some in Hg as ([[ty nm] ts7] & Hc & Hg). apply bind_Some in Hg as (ts8 & ->%sym_inv & Hg).
  apply bind_Some in Hg as ([t ts9] & Ht%propertyType_inv & [= <-]). cbn [ast_CType ast_CName ast_ComponentType ast_Type ast_Key].
  rewrite H1 in Hs, Hf. do 6 (apply Forall_cons in Hf as [_ Hf]).
  destruct (propertyComponent_inv _ _ _ _ Hc Hf) as (Hty & named & Htxt & Hnm). split; [done|]. exists named. split; [done|].
  rewrite <-Hs. assert (Hw' : w = runes (ct_text c)).
  { apply elem_of_cons in Hw as [[= -> ->]|Hw]; [done|]. apply list_elem_of_singleton in Hw. by injection Hw as -> ->. }
  rewrite Hw'. unfold tokensText. cbn [flat_map tokenText]. fold (tokensText ts6). rewrite Htxt.
  unfold tokensText at 1. cbn [flat_map tokenText]. fold (tokensText ts8). rewrite Ht, <-!app_assoc. done.
Qed.

Lemma hasPrefix_strip p s q : hasPrefix (p ++ s) (p ++ q) = hasPrefix s q.
Proof. induction p as [|c p IH]; [done|]. cbn [app hasPrefix]. by rewrite Z.eqb_refl. Qed.
(** A property that was read is written with its slash exactly when the slash was there. *)
Lemma printsName_written p named r : (named = false → ast_CName (p_ast p) = []) →
  Input p = runes "splunk.discovery." ++ runes (ct_text (ast_ComponentType (p_ast p))) ++ dot ++ (ast_CType (p_ast p) ++ if named : bool then slash ++ ast_CName (p_ast p) else []) ++ dot ++ r →
  printsName p = named.
Proof.
  intros Hnm Hi. unfold printsName. rewrite Hi, <-!app_assoc. destruct named.
  - case_bool_decide as He; [|done]. rewrite He. cbn [negb orb]. rewrite !hasPrefix_strip. by destruct r.
  - rewrite bool_decide_eq_true_2 by auto. cbn [negb orb]. rewrite !hasPrefix_strip. done.
Qed.

Lemma NewProperty_fixed property val p : NewProperty property val = Ok p → NewProperty property (Val p) = Ok p ∧ Input p = property ∧ ParseString property = Ok (p_ast p).
Proof.
  unfold NewProperty. destruct (ParseString property) as [a|]; [|done]. cbn [wrap_err mbind res_bind]. destruct (subStringMap property a val) as [[sub v]|] eqn:Hs; [|done]. cbn [mbind res_bind].
  destruct (MustNewIDWithName _ _) as [id|]; [|done]. cbn [mbind res_bind]. intros [= <-]. cbn [Val Input p_ast]. split; [|done].
  assert (Hv : subStringMap property a v = Ok (sub, v)).
  { unfold subStringMap in *. destruct (ast_Type a).
    - destruct (UnmarshalMap (utf8 (ast_Key a) +:+ ": " +:+ val)) as [dst|] eqn:Hu; [|done]. cbn [wrap_err mbind res_bind] in *. injection Hs as <- <-. by rewrite Hu.
    - destruct (ParseBool val) as [b|]; [|done]. cbn [wrap_err mbind res_bind] in *. injection Hs as <- <-. by destruct b. }
  by rewrite Hv.
Qed.
(** The text of a portable property is its canonical one, and its parts are encodable. *)
Lemma portable_canonical `{!GrammarLaws} property val p : NewProperty property val = Ok p → portable p →
  text_ok (ast_Key (p_ast p)) ∧ text_ok (componentText p) ∧ componentText p ≠ [] ∧
  property = propertyText (ast_ComponentType (p_ast p)) (componentText p) (ast_Type (p_ast p)) (ast_Key (p_ast p)).
Proof.
  intros Hn [Hok Hsp _ Hkey]. destruct (NewProperty_fixed _ _ _ Hn) as (_ & Hi & Hp).
  pose proof (ParseString_grammar property) as Hg. rewrite Hp in Hg. symmetry in Hg. rewrite Hi in Hok, Hsp.
  destruct (propertyGrammar_inv _ _ Hg Hsp) as (Hty & named & Hnm & Heq).
  pose proof Heq as Hpr. rewrite <-Hi in Hpr. apply printsName_written in Hpr; [|done].
  unfold componentText. rewrite Hpr. rewrite Heq in Hok. unfold text_ok in Hok. rewrite !Forall_app in Hok. split_and!.
  - apply Hok.
  - apply Forall_app. apply Hok.
  - by intros [? _]%app_nil.
  - rewrite Heq at 1. unfold propertyText. destruct (ast_Type (p_ast p)); [done|]. by rewrite Hkey.
Qed.

(** Setting the environment variable that [ToEnvVar] names is setting the
    property, whatever the characters of the component's type and name and of
    the key. *)
Theorem ToEnvVar_roundtrip `{!GrammarLaws} (property : text) (val : string) (p : Property) :
  NewProperty property val = Ok p → portable p → NewPropertyFromEnvVar (ToEnvVar p) (Val p) = Some (Ok p).
Proof.
  intros Hn Hp. destruct (portable_canonical _ _ _ Hn Hp) as (Hk & Hok & Hne & Heq). destruct (NewProperty_fixed _ _ _ Hn) as (Hf & Hi & _).
  assert (Hparse : ParseEnvVar (ToEnvVar p) = Ok (encodedAST p)).
  { pose proof (ParseEnvVar_grammar (ToEnvVar p)) as Hg. rewrite ToEnvVar_parsed in Hg by done. destruct (ParseEnvVar _); [by injection Hg as -> | done]. }
  unfold NewPropertyFromEnvVar. unfold ToEnvVar at 1. rewrite hasPrefix_app. cbn [negb].
  f_equal. unfold NewEnvVarProperty. rewrite Hparse. cbn [wrap_err mbind res_bind evp_ast encodedAST ast_CType ast_CName ast_Key ast_Type ast_ComponentType].
  rewrite (unwordify_wordify _ Hok), bool_decide_eq_true_2 by done. cbn [wrap_err mbind res_bind].
  destruct (ast_Type (p_ast p)) eqn:Ety.
  - rewrite (unwordify_wordify _ Hk). cbn [wrap_err mbind res_bind]. by rewrite <-Heq.
  - cbn [unwordify unwordifyLoop length wrap_err mbind res_bind]. unfold propertyText in *. by rewrite <-Heq.
Qed.

(** The error of a component name that does not decode has lost its cause. *)
Lemma NewPropertyFromEnvVar_name_error envVar val a cid e :
  hasPrefix envVar envVarPrefixS = true → ParseEnvVar envVar = Ok a → unwordify (ast_CType a) = Ok cid →
  ast_CName a ≠ [] → unwordify (ast_CName a) = Err e →
  NewPropertyFromEnvVar envVar val = Some (Err (Errorf "failed parsing env var property component id name: %!w(<nil>)" [])).
Proof.
  intros Hp Ha Hc Hn He. unfold NewPropertyFromEnvVar, NewEnvVarProperty. rewrite Hp, Ha. cbn [negb wrap_err mbind res_bind evp_ast].
  rewrite Hc. cbn [wrap_err mbind res_bind]. rewrite bool_decide_eq_false_2, He by done. done.
Qed.
End properties.

(** ** The properties file *)

Section file.
Context `{C : Confmap} `{Pdata} `{PropertyParsers} `{MapRange} `{FloatText}.

(** [MergeMaps]: every key of the merged configuration is stored into [dst]. *)
Definition MergeMaps (dst src : gmap string any) : res (gmap string any) :=
  match Merge (NewFromStringMap dst) (NewFromStringMap src) with
  | (_, Some e) => Err e
  | (dstMap, None) => Ok (ToStringMap dstMap ∪ dst)
  end.

Record Entry := { e_Config : option (gmap string any); e_Enabled : option bool; e_Unknown : list any }.
Record File := {
  f_Receivers : gmap string Entry; f_Extensions : gmap string Entry; f_Unknown : list any;
  f_Entries : gmap string any;
}.
Record propTuple := { pt_key : text; pt_value : any }.

Definition sortStrings : list string → list string := merge_sort String.le.

(** The tuples of one component, [enabled] first. *)
Definition entryProps (typ : ComponentType) (kv : string * Entry) : list propTuple :=
  let '(cid, ent) := kv in
  let prefix := runes "splunk.discovery." ++ runes (ct_text typ) ++ dot ++ decodeUTF8 cid in
  match e_Enabled ent with
  | Some b => [{| pt_key := prefix ++ runes ".enabled"; pt_value := ABool b |}]
  | None => []
  end ++
  match e_Config ent with
  | Some m =>
      let c := NewFromStringMap m in
      map (λ ck, {| pt_key := prefix ++ runes ".config." ++ decodeUTF8 ck; pt_value := Get c ck |}) (AllKeys c)
  | None => []
  end.

Definition entryUnknown (typ : ComponentType) (kv : string * Entry) : list string :=
  map (λ u, "splunk.discovery." +:+ ct_text typ +:+ "." +:+ kv.1 +:+ "." +:+ Sprint u) (e_Unknown kv.2).

Definition fileProps (file : File) : list propTuple :=
  flat_map (entryProps ctExtensions) (range (f_Extensions file)) ++
  flat_map (entryProps ctReceivers) (range (f_Receivers file)) ++
  let entriesConf := NewFromStringMap (f_Entries file) in
  map (λ k, {| pt_key := decodeUTF8 k; pt_value := Get entriesConf k |}) (AllKeys entriesConf).

Definition fileWarnings (file : File) : list error :=
  map (λ u, Errorf "unknown discovery property mapping splunk.discovery.%v" [u]) (sortStrings (map Sprint (f_Unknown file))) ++
  map (λ u, Errorf "unknown property %q" [u]) (sortStrings (flat_map (entryUnknown ctExtensions) (range (f_Extensions file)))) ++
  map (λ u, Errorf "unknown property %q" [u]) (sortStrings (flat_map (entryUnknown ctReceivers) (range (f_Receivers file)))).

(** The loop over the tuples: properties that do not parse are warned about. *)
Definition loadProp (st : gmap string any * list error) (prop : propTuple) : res (gmap string any * list error) :=
  let '(confProperties, warning) := st in
  match NewProperty (pt_key prop) (Sprint (pt_value prop)) with
  | Err e => Ok (confProperties, warning ++ [e])
  | Ok p =>
      m ← wrap_err "failed merging properties.discovery.yaml content: %w" [] (MergeMaps confProperties (stringMap p));
      Ok (m, warning)
  end.

Definition LoadConf (unmarshal : conf → res File) (raw : gmap string any) : res (conf * list error) :=
  file ← unmarshal (NewFromStringMap raw);
  '(m, warning) ← foldM_res loadProp (∅, fileWarnings file) (fileProps file);
  Ok (NewFromStringMap m, warning).

(** The properties that parse, and the errors of the others. *)
Definition parsed (prop : propTuple) : list (gmap string any) :=
  match NewProperty (pt_key prop) (Sprint (pt_value prop)) with Ok p => [stringMap p] | Err _ => [] end.
Definition unparsed (prop : propTuple) : list error :=
  match NewProperty (pt_key prop) (Sprint (pt_value prop)) with Ok _ => [] | Err e => [e] end.

Lemma loadProp_fold props m w m' w' :
  foldM_res loadProp (m, w) props = Ok (m', w') ↔
  foldM_res MergeMaps m (flat_map parsed props) = Ok m' ∧ w' = w ++ flat_map unparsed props.
Proof.
  revert m w. induction props as [|prop props IH]; intros m w; cbn [foldM_res flat_map].
  { rewrite app_nil_r. naive_solver. }
  cbn [loadProp]. unfold parsed at 1, unparsed at 1.
  destruct (NewProperty _ _) as [p|e]; cbn [app foldM_res].
  - destruct (MergeMaps m (stringMap p)) as [m1|e1]; cbn [wrap_err mbind res_bind]; [apply IH | naive_solver].
  - rewrite IH, <-app_assoc. done.
Qed.

(** A properties file is the merge, in order, of its well-formed properties:
    the mapped extensions, the mapped receivers, then the [--set] entries, which
    therefore win; every other property is a warning and changes nothing. *)
Theorem LoadConf_spec unmarshal raw file c w :
  unmarshal (NewFromStringMap raw) = Ok file →
  LoadConf unmarshal raw = Ok (c, w) ↔
  ∃ m, foldM_res MergeMaps ∅ (flat_map parsed (fileProps file)) = Ok m ∧ c = NewFromStringMap m ∧
    w = fileWarnings file ++ flat_map unparsed (fileProps file).
Proof.
  intros Hf. unfold LoadConf. rewrite Hf. cbn [mbind res_bind].
  destruct (foldM_res loadProp _ _) as [[m1 w1]|e] eqn:Hl; cbn [mbind res_bind].
  - apply loadProp_fold in Hl as [Hm ->]. rewrite Hm. naive_solver.
  - split; [done|]. intros (m & Hm & -> & ->).
    assert (Hx : foldM_res loadProp (∅, fileWarnings file) (fileProps file) = Ok (m, fileWarnings file ++ flat_map unparsed (fileProps file))).
    { apply loadProp_fold. done. }
    congruence.
Qed.
End file.

(** ** Concrete parsers and witnesses *)

(** Parsers that follow the grammars. *)
Definition grammarParser (grammar : text → option PropertyAST) (s : text) : res PropertyAST :=
  match grammar s with Some a => Ok a | None => Err (Errorf "unexpected token" []) end.
Definition demo_parsers : PropertyParsers := {|
  ParseString := grammarParser propertyGrammar; ParseEnvVar := grammarParser envVarGrammar; UnmarshalMap s := Ok {["raw" := AString s]};
|}.
Lemma demo_grammars : @GrammarLaws demo_parsers.
Proof. split; intros s; cbn; unfold grammarParser; [by destruct (propertyGrammar s) | by destruct (envVarGrammar s)]. Qed.

Definition demo_property : text := runes "splunk.discovery.receivers.smartagent/a-b_c.config.extra::field".
Definition demo_prop : res Property := @NewProperty flat_confmap demo_pdata demo_parsers demo_property "x".
Definition demo_prop_value : Property := {|
  stringMap := {["receivers" := AMap {["smartagent/a-b_c" := AMap {["config" := AMap {["raw" := AString "extra::field: x"]}]}]}]};
  p_ast := {| ast_ComponentType := ctReceivers; ast_CType := runes "smartagent"; ast_CName := runes "a-b_c";
              ast_Type := ptConfig; ast_Key := runes "extra::field" |};
  Val := "x"; Input := demo_property |}.

Example demo_prop_ok : demo_prop = Ok demo_prop_value.
Proof. vm_compute. reflexivity. Qed.
Example demo_prop_env : ToEnvVar demo_prop_value =
  runes "SPLUNK_DISCOVERY_RECEIVERS_smartagent_x2f_a_x2d_b_x5f_c_CONFIG_extra_x3a__x3a_field".
Proof. reflexivity. Qed.

Lemma demo_portable : portable demo_prop_value.
Proof. split; [repeat constructor; intro; discriminate | reflexivity | vm_compute; reflexivity | intro; discriminate]. Qed.
Lemma ToEnvVar_roundtrip_witness :
  @NewPropertyFromEnvVar flat_confmap demo_pdata demo_parsers (ToEnvVar demo_prop_value) "x" = Some (Ok demo_prop_value).
Proof. exact (@ToEnvVar_roundtrip flat_confmap demo_pdata demo_parsers demo_grammars demo_property "x" demo_prop_value demo_prop_ok demo_portable). Defined.

(** A name with the word [CONFIG] is not portable: its variable is read as another component's. *)
Example marker_in_name :
  envVarGrammar (ToEnvVar {| stringMap := ∅; Val := "x"; Input := runes "splunk.discovery.receivers.redis/a-CONFIG.config.k";
    p_ast := {| ast_ComponentType := ctReceivers; ast_CType := runes "redis"; ast_CName := runes "a-CONFIG"; ast_Type := ptConfig; ast_Key := runes "k" |} |}) =
  Some {| ast_ComponentType := ctReceivers; ast_CType := runes "redis_x2f_a_x2d"; ast_CName := []; ast_Type := ptConfig; ast_Key := runes "CONFIG_k" |}.
Proof. reflexivity. Qed.

Definition demo_file : File := {|
  f_Receivers := {["redis" := {| e_Config := None; e_Enabled := Some true; e_Unknown := [AString "conf"] |}]};
  f_Extensions := ∅; f_Unknown := []; f_Entries := {["not.a.property" := AInt 1]} |}.
Definition demo_loaded : gmap string any := {["receivers" := AMap {["redis" := AMap {["enabled" := AString "true"]}]}]}.

Lemma LoadConf_spec_witness :
  @LoadConf flat_confmap demo_pdata demo_parsers forward_range (λ _, "") (λ _, Ok demo_file) ∅ =
  Ok (demo_loaded, [Errorf "unknown property %q" ["splunk.discovery.receivers.redis.conf"];
    Wrapf "invalid property %q (parsing error): %w" ["not.a.property"] (Errorf "unexpected token" [])]).
Proof.
  apply (@LoadConf_spec flat_confmap demo_pdata demo_parsers forward_range (λ _, "") (λ _, Ok demo_file) ∅ demo_file); [reflexivity|].
  exists demo_loaded. split_and!; reflexivity.
Defined.
