(* ===== verification/ConfigD.v ===== *)
(** * The config.d directory

    [src/internal/confmapprovider/discovery/config.go]: the classification of
    the files of a configuration directory by their paths, loading them into a
    [Config], rendering it as a Collector configuration and merging a user
    directory with the bundled one.  Paths are those of [io/fs], separated by
    slashes.  YAML decoding, reading a file and koanf's
    [maps.IntfaceKeysToStrings] are parameters. *)

From S2P Require Import Prelude GoStrings GoValue Confmap Regexp ConfigProvider DiscoveryReceiver.
From Stdlib Require Import Ascii.

(** ** Data *)

(** Maps that may be nil: reading nil finds nothing, writing to it panics. *)
Abbreviation nmap K V := (option (gmap K V)).
Definition ncontents {K V} `{Countable K} (m : nmap K V) : gmap K V := default ∅ m.
Definition assign {K V} `{Countable K} (m : nmap K V) (k : K) (v : V) : res (nmap K V) :=
  match m with
  | Some m => Ok (Some (<[k := v]> m))
  | None => Err (Errorf "panic: assignment to entry in nil map" [])
  end.

Abbreviation EntryMap := (nmap string any).
Record ObserverEntry := { o_Enabled : option bool; o_Config : EntryMap; o_Entry : EntryMap }.
Record ReceiverToDiscoverEntry := {
  r_Rule : nmap ID string;
  r_Config : nmap ID (gmap string any);
  r_Enabled : option bool;
  r_Entry : EntryMap;
}.

Record Config := {
  Service : EntryMap;
  Exporters : nmap ID EntryMap;
  Extensions : nmap ID EntryMap;
  DiscoveryObservers : nmap ID ObserverEntry;
  Processors : nmap ID EntryMap;
  Receivers : nmap ID EntryMap;
  ReceiversToDiscover : nmap ID ReceiverToDiscoverEntry;
  DiscoveryProperties : EntryMap;
  propertiesAlreadyLoaded : bool;
}.

Definition NewConfig : Config := {|
  Service := Some ∅; Exporters := Some ∅; Extensions := Some ∅; DiscoveryObservers := Some ∅; Processors := Some ∅;
  Receivers := Some ∅; ReceiversToDiscover := Some ∅; DiscoveryProperties := Some ∅; propertiesAlreadyLoaded := false;
|}.

(** ** Paths *)

Definition notSlash : regexp := RStar (RChar (not_byte "/")).
Definition yamlExt : regexp := RAlt (RLit ".yaml") (RLit ".yml").
(** [^[^/]*[/]?service\.(yaml|yml)$] and the like, anchored at both ends *)
Definition rootEntryRegex (name : string) : regexp := RCat notSlash (RCat (ROpt (RLit "/")) (RCat (RLit name) yamlExt)).
Definition serviceEntryRegex : regexp := rootEntryRegex "service".
Definition discoveryPropertiesEntryRegex : regexp := rootEntryRegex "properties.discovery".
Definition dirRegex (dirName : string) : regexp := RCat notSlash (RCat (RStar (RLit "/")) (RLit dirName)).
Definition entryRegex (dirName : string) : regexp := RCat (dirRegex dirName) (RCat (RLit "/") (RCat notSlash yamlExt)).
Definition discoveryEntryRegex (dirName : string) : regexp :=
  RCat (dirRegex dirName) (RCat (RLit "/") (RCat notSlash (RCat (RLit ".discovery") yamlExt))).

Definition matches (r : regexp) (path : string) : bool := bool_decide (is_Some (match_full r path)).
Definition isServiceEntryPath : string → bool := matches serviceEntryRegex.
Definition isDiscoveryPropertiesEntryPath : string → bool := matches discoveryPropertiesEntryRegex.
Definition isExporterEntryPath : string → bool := matches (entryRegex "exporters").
Definition isExtensionEntryPath : string → bool := matches (entryRegex "extensions").
Definition isDiscoveryObserverEntryPath : string → bool := matches (discoveryEntryRegex "extensions").
Definition isProcessorEntryPath : string → bool := matches (entryRegex "processors").
Definition isReceiverEntryPath : string → bool := matches (entryRegex "receivers").
Definition isReceiverToDiscoverEntryPath : string → bool := matches (discoveryEntryRegex "receivers").

Inductive entryKind :=
| typeService | typeDiscoveryProperties | typeExporter | typeExtension | typeDiscoveryObserver
| typeProcessor | typeReceiver | typeReceiverToDiscover.

#[global] Instance entryKind_eq_dec : EqDecision entryKind.
Proof. solve_decision. Defined.

Definition kindText (k : entryKind) : string :=
  match k with
  | typeService => "service" | typeReceiver => "receiver" | typeExporter => "exporter"
  | typeExtension => "extension" | typeProcessor => "processor" | typeDiscoveryObserver => "discovery.extension"
  | typeReceiverToDiscover => "discovery.receiver" | typeDiscoveryProperties => "discovery.properties"
  end.

(** The switch of [LoadFS], first match first. *)
Definition classify (path : string) : option entryKind :=
  if isServiceEntryPath path then Some typeService
  else if isDiscoveryPropertiesEntryPath path then Some typeDiscoveryProperties
  else if isExporterEntryPath path then Some typeExporter
  else if isExtensionEntryPath path then
    Some (if isDiscoveryObserverEntryPath path then typeDiscoveryObserver else typeExtension)
  else if isProcessorEntryPath path then Some typeProcessor
  else if isReceiverEntryPath path then
    Some (if isReceiverToDiscoverEntryPath path then typeReceiverToDiscover else typeReceiver)
  else None.

Example classify_1 : map classify ["service.yaml"; "exporters/otlp.yml"; "receivers/redis.discovery.yaml"; "receivers/x.yaml";
    "extensions/host.discovery.yml"; "properties.discovery.yaml"; "exporters/sub/a.yaml"; "exporters"; "a/b/service.yaml"] =
  [Some typeService; Some typeExporter; Some typeReceiverToDiscover; Some typeReceiver; Some typeDiscoveryObserver;
   Some typeDiscoveryProperties; None; None; None].
Proof. vm_compute. reflexivity. Qed.

(** ** What the path expressions accept *)

Definition noSlash (s : string) : Prop := ContainsByte s "/" = false.

Lemma matches_spec r path : matches r path = true ↔ ∃ c, derives r [] path c.
Proof.
  unfold matches. rewrite bool_decide_eq_true. split; [intros [c ?%match_full_sound]; eauto | intros [c ?%match_full_complete]; done].
Qed.

Lemma derives_notSlash c w c' : derives notSlash c w c' ↔ noSlash w ∧ c' = c.
Proof.
  unfold notSlash, noSlash. split.
  - intros [Hw ->]%derives_star_char_inv. split; [|done]. by apply (sall_ContainsByte (not_byte "/")).
  - intros [Hw ->]. apply derives_star_char. intros i a Ha. unfold not_byte.
    rewrite ContainsByte_sget in Hw. apply Hw in Ha. by destruct (Ascii.eqb_spec a "/").
Qed.

Lemma derives_yamlExt c w c' : derives yamlExt c w c' ↔ (w = ".yaml" ∨ w = ".yml") ∧ c' = c.
Proof. unfold yamlExt. rewrite derives_RAlt, !derives_RLit_iff. naive_solver. Qed.

Lemma derives_slashes c w c' : derives (RStar (RLit "/")) c w c' → c' = c ∧ (w = "" ∨ ∃ v, w = String "/" v).
Proof.
  intros Hd. split; [by eapply derives_groupless in Hd|].
  inversion Hd as [| | | | | |r c0 c1 c2 w1 w2 Hne H1 H2|]; subst; [by left|].
  apply (derives_RLit_inv "/") in H1 as [-> _]. right. exists w2. done.
Qed.

Lemma noSlash_app s t : noSlash (s +:+ t) ↔ noSlash s ∧ noSlash t.
Proof. unfold noSlash. rewrite ContainsByte_append. apply orb_false_iff. Qed.

Lemma noSlash_slash s t : ¬ noSlash (s +:+ String "/" t).
Proof. rewrite noSlash_app. unfold noSlash. rewrite ContainsByte_cons. cbn. naive_solver. Qed.

(** A directory expression followed by a file expression accepts [x/n] exactly
    when [x] ends with the directory's name. *)
Lemma dir_match d r x n : noSlash d → noSlash x → noSlash n → groupless r = true →
  (∀ c w c', derives r c w c' → noSlash w) →
  (∃ c, derives (RCat (dirRegex d) (RCat (RLit "/") r)) [] (x +:+ String "/" n) c) ↔
  HasSuffix x d = true ∧ ∃ c, derives r [] n c.
Proof.
  intros Hd Hx Hn Hg Hr. unfold dirRegex. setoid_rewrite derives_RCat. rewrite HasSuffix_spec. split.
  - intros (c & w1 & w2 & c1 & Hp & H1 & H2). apply derives_RCat in H1 as (a & w3 & c2 & -> & Ha & H3).
    apply derives_RCat in H3 as (sl & w4 & c3 & -> & Hsl & H4). apply derives_RCat in H2 as (w5 & w6 & c4 & -> & H5 & H6).
    apply derives_notSlash in Ha as [Ha ->]. apply derives_RLit_inv in H4 as [-> ->], H5 as [-> ->].
    apply derives_slashes in Hsl as [-> Hsl]. rewrite !append_assoc in Hp. destruct Hsl as [->|[v ->]].
    + change ("" +:+ d +:+ "/" +:+ w6) with (d +:+ String "/" w6) in Hp. rewrite <-append_assoc in Hp.
      apply split_at_byte in Hp as [-> ->]; [|done|by apply noSlash_app]. split; [by exists a | by exists c].
    + rewrite append_cons in Hp. apply split_at_byte in Hp as [-> ->]; [|done|done].
      exfalso. change ("/" +:+ w6) with (String "/" w6) in Hn. rewrite <-!append_assoc in Hn. by apply noSlash_slash in Hn.
  - intros [[a ->] [c Hc]]. apply noSlash_app in Hx as [Ha _].
    exists c, (a +:+ d), ("/" +:+ n), []. split; [done|]. split.
    + apply derives_RCat. exists a, d, []. split; [done|]. split; [by apply derives_notSlash|].
      apply derives_RCat. exists "", d, []. split; [done|]. split; [apply derives_star_nil | apply derives_RLit].
    + apply derives_RCat. exists "/", n, []. split; [done|]. split; [apply (derives_RLit "/") | done].
Qed.

Definition isYaml (e : string) : Prop := e = ".yaml" ∨ e = ".yml".

Lemma entry_match d x n : noSlash d → noSlash x → noSlash n →
  matches (entryRegex d) (x +:+ String "/" n) = true ↔ HasSuffix x d = true ∧ ∃ m e, isYaml e ∧ n = m +:+ e.
Proof.
  intros Hd Hx Hn. rewrite matches_spec. unfold entryRegex. rewrite dir_match; [|done..|].
  - apply and_iff_compat_l. setoid_rewrite derives_RCat. setoid_rewrite derives_notSlash. setoid_rewrite derives_yamlExt. split.
    + intros (c & m & e & c1 & -> & _ & He & _). by exists m, e.
    + intros (m & e & He & ->). apply noSlash_app in Hn as [Hm _]. by exists [], m, e, [].
  - intros c w c' (m & e & c1 & -> & [Hm _]%derives_notSlash & [[-> | ->] _]%derives_yamlExt)%derives_RCat; by apply noSlash_app.
Qed.

Lemma discovery_match d x n : noSlash d → noSlash x → noSlash n →
  matches (discoveryEntryRegex d) (x +:+ String "/" n) = true ↔
  HasSuffix x d = true ∧ ∃ m e, isYaml e ∧ n = m +:+ ".discovery" +:+ e.
Proof.
  intros Hd Hx Hn. rewrite matches_spec. unfold discoveryEntryRegex. rewrite dir_match; [|done..|].
  - apply and_iff_compat_l. setoid_rewrite derives_RCat. setoid_rewrite derives_RCat. setoid_rewrite derives_notSlash.
    setoid_rewrite derives_RLit_iff. setoid_rewrite derives_yamlExt. split.
    + intros (c & m & e & c1 & -> & _ & w1 & w2 & c2 & -> & [-> _] & He & _). by exists m, w2.
    + intros (m & e & He & ->). apply noSlash_app in Hn as [Hm _].
      exists [], m, (".discovery" +:+ e), []. split_and!; [done|done|done|]. by exists ".discovery", e, [].
  - intros c w c' (m & v & c1 & -> & [Hm _]%derives_notSlash & (l & e & c2 & -> & [-> _]%derives_RLit_iff & [[-> | ->] _]%derives_yamlExt)%derives_RCat)%derives_RCat;
      by apply noSlash_app.
Qed.

Lemma root_match nm x n : noSlash nm → noSlash x →
  matches (rootEntryRegex nm) (x +:+ String "/" n) = true ↔ ∃ e, isYaml e ∧ n = nm +:+ e.
Proof.
  intros Hnm Hx. rewrite matches_spec. unfold rootEntryRegex, ROpt. split.
  - intros (c & (a & w & c1 & Hp & [Ha ->]%derives_notSlash & (sl & v & c2 & -> & Hsl & (l & e & c3 & -> & [-> ->]%derives_RLit_iff & [He ->]%derives_yamlExt)%derives_RCat)%derives_RCat)%derives_RCat).
    exists e. split; [done|]. apply derives_RAlt in Hsl as [[-> ->]%(derives_RLit_iff "/")|Hsl].
    + by apply split_at_byte in Hp as [-> ->].
    + inversion Hsl; subst. exfalso. apply (noSlash_slash x n). rewrite Hp. repeat (apply noSlash_app; split); try done. by destruct He as [-> | ->].
  - intros (e & He & ->). exists []. apply derives_RCat. exists x, ("/" +:+ nm +:+ e), []. split; [done|].
    split; [by apply derives_notSlash|]. apply derives_RCat. exists "/", (nm +:+ e), []. split; [done|].
    split; [apply derives_RAlt; left; apply (derives_RLit "/")|]. apply derives_RCat. exists nm, e, [].
    split; [done|]. split; [apply derives_RLit | by apply derives_yamlExt].
Qed.

Lemma same_length_tail x s y t : slen s = slen t → x +:+ s = y +:+ t → x = y ∧ s = t.
Proof.
  intros Hl He. assert (Hx : slen x = slen y) by (apply (f_equal slen) in He; rewrite !slen_append in He; lia).
  assert (Ht : s = t) by (apply (f_equal (sdrop (slen x))) in He; by rewrite sdrop_app, Hx, sdrop_app in He).
  subst. by apply append_inv_r in He.
Qed.

(** The name before the extension is determined. *)
Lemma yaml_split x e y e' : isYaml e → isYaml e' → x +:+ e = y +:+ e' → x = y ∧ e = e'.
Proof.
  intros [-> | ->] [-> | ->] He; try (by apply append_inv_r in He as ->).
  - change (x +:+ "." +:+ "yaml" = y +:+ ".yml") in He. rewrite <-append_assoc in He. by apply same_length_tail in He as [_ ?].
  - change (x +:+ ".yml" = y +:+ "." +:+ "yaml") in He. rewrite <-append_assoc in He. by apply same_length_tail in He as [_ ?].
Qed.

(** The directories of component files and what their files hold. *)
Definition componentDirs : list (string * (entryKind * entryKind)) :=
  [("exporters", (typeExporter, typeExporter)); ("extensions", (typeExtension, typeDiscoveryObserver));
   ("processors", (typeProcessor, typeProcessor)); ("receivers", (typeReceiver, typeReceiverToDiscover))].

Lemma entry_match_dir d x m e : noSlash d → noSlash x → noSlash m → isYaml e →
  matches (entryRegex d) (x +:+ String "/" (m +:+ e)) = HasSuffix x d.
Proof.
  intros Hd Hx Hm He. assert (Hn : noSlash (m +:+ e)) by (apply noSlash_app; split; [done|]; by destruct He as [-> | ->]).
  apply eq_bool_prop_intro. rewrite !Is_true_true, entry_match by done. naive_solver.
Qed.

Lemma discovery_match_dir d x m e : noSlash d → noSlash x → noSlash m → isYaml e →
  matches (discoveryEntryRegex d) (x +:+ String "/" (m +:+ e)) = HasSuffix x d && HasSuffix m ".discovery".
Proof.
  intros Hd Hx Hm He. assert (Hn : noSlash (m +:+ e)) by (apply noSlash_app; split; [done|]; by destruct He as [-> | ->]).
  apply eq_bool_prop_intro. rewrite !Is_true_true, discovery_match, andb_true_iff, (HasSuffix_spec m) by done.
  apply and_iff_compat_l. split.
  - intros (m' & e' & He' & Hq). rewrite <-append_assoc in Hq. apply yaml_split in Hq as [-> _]; [|done|done]. by exists m'.
  - intros [t ->]. exists t, e. by rewrite append_assoc.
Qed.

Lemma root_match_dir nm x m e : noSlash nm → noSlash x → isYaml e →
  matches (rootEntryRegex nm) (x +:+ String "/" (m +:+ e)) = bool_decide (m = nm).
Proof.
  intros Hnm Hx He. apply eq_bool_prop_intro. rewrite !Is_true_true, root_match, bool_decide_eq_true by done. split.
  - intros (e' & He' & Hq). by apply yaml_split in Hq as [-> _].
  - intros ->. by exists e.
Qed.

(** A YAML file of a component directory is a component of that directory's
    kind, a discovery one when its name ends with [.discovery]; only the names
    of the two root files are taken for those. *)
Theorem classify_component (dir name ext : string) (kind dkind : entryKind) :
  (dir, (kind, dkind)) ∈ componentDirs → noSlash name → isYaml ext → name ≠ "service" → name ≠ "properties.discovery" →
  classify (dir +:+ "/" +:+ name +:+ ext) = Some (if HasSuffix name ".discovery" then dkind else kind).
Proof.
  intros Hdir Hn He Hs Hp. assert (Hd : noSlash dir).
  { unfold componentDirs in Hdir. rewrite !elem_of_cons, elem_of_nil in Hdir.
    destruct Hdir as [[= -> -> ->]|[[= -> -> ->]|[[= -> -> ->]|[[= -> -> ->]|[]]]]]; done. }
  change ("/" +:+ name +:+ ext) with (String "/" (name +:+ ext)). unfold classify.
  unfold isServiceEntryPath, serviceEntryRegex, isDiscoveryPropertiesEntryPath, discoveryPropertiesEntryRegex.
  rewrite !root_match_dir, !bool_decide_eq_false_2 by done.
  unfold isExporterEntryPath, isExtensionEntryPath, isDiscoveryObserverEntryPath, isProcessorEntryPath, isReceiverEntryPath, isReceiverToDiscoverEntryPath.
  rewrite !entry_match_dir, !discovery_match_dir by done.
  unfold componentDirs in Hdir. rewrite !elem_of_cons, elem_of_nil in Hdir.
  destruct Hdir as [[= -> -> ->]|[[= -> -> ->]|[[= -> -> ->]|[[= -> -> ->]|[]]]]]; cbn -[HasSuffix]; destruct (HasSuffix name ".discovery"); done.
Qed.

Lemma classify_component_witness : classify ("receivers" +:+ "/" +:+ "redis.discovery" +:+ ".yaml") = Some typeReceiverToDiscover.
Proof. apply (classify_component "receivers" "redis.discovery" ".yaml" typeReceiver typeReceiverToDiscover); [|done|by left|done|done].
  unfold componentDirs. rewrite !elem_of_cons. auto.
Defined.

(** The service file is to be in the root of the directory; any directory's
    [service.yaml] is taken for it, also a component directory's, whose
    components it then hides. *)
Theorem service_in_any_directory (dir : string) : noSlash dir → classify (dir +:+ "/service.yaml") = Some typeService.
Proof.
  intros Hd. change (dir +:+ "/service.yaml") with (dir +:+ String "/" ("service" +:+ ".yaml")). unfold classify.
  unfold isServiceEntryPath, serviceEntryRegex. by rewrite root_match_dir, bool_decide_eq_true_2 by (done || by left).
Qed.

Lemma service_in_any_directory_witness : classify ("exporters" +:+ "/service.yaml") = Some typeService.
Proof. apply (service_in_any_directory "exporters"). reflexivity. Defined.

(** ** Loading *)

(** Decoding a file into the four targets the code uses. *)
Class ConfigYaml := {
  UnmarshalComponents : string → res (gmap ID EntryMap);
  UnmarshalObservers : string → res (gmap ID ObserverEntry);
  UnmarshalReceivers : string → res (gmap ID ReceiverToDiscoverEntry);
  UnmarshalEntry : string → res EntryMap;
  IntfaceKeysToStrings : gmap string any → gmap string any;
}.

Definition sortIDs (ids : list ID) : list string := merge_sort String.le (map cid_String ids).

(** A file system as [fs.WalkDir] visits it: the paths in lexical order, with
    the error of the visit if any; opening a path, then reading it. *)
Record FS := { visits : list (string * option error); Open : string → res (res string) }.

Section config.
Context `{ConfigYaml} `{IDRange} `{C : Confmap}.

Definition Entry_ToStringMap (e : EntryMap) : gmap string any := IntfaceKeysToStrings (ncontents e).

Definition errorF (k : entryKind) (path : string) (err : error) : error :=
  Wrapf "failed loading %s from %s: %w" [kindText k; path] err.

Definition unmarshalYaml {A} (decode : string → res A) (fs : FS) (path : string) : res A :=
  f ← Open fs path;
  contents ← wrap_err "failed reading file %q: %w" [path] f;
  wrap_err "failed parsing %q as yaml: %w" [path] (decode contents).

(** [unmarshalEntry] for a component file: [None] when the file is empty. *)
Definition unmarshalEntry {V} (k : entryKind) (decode : string → res (gmap ID V)) (fs : FS) (path : string) : res (option (ID * V)) :=
  entry ← wrap_err "failed unmarshalling component %s: %w" [kindText k] (unmarshalYaml decode fs path);
  match rangeID entry with
  | [] => Ok None
  | [(id, v)] => Ok (Some (id, v))
  | l => Err (errorF k path (Errorf "must contain a single mapping of ComponentID to component but contained %v" (sortIDs l.*1)))
  end.

(** [loadEntry] for a component file *)
Definition loadEntry {V} (k : entryKind) (decode : string → res (gmap ID V)) (fs : FS) (path : string) (target : nmap ID V)
    : res (nmap ID V) :=
  match unmarshalEntry k decode fs path with
  | Err e => Err (errorF k path e)
  | Ok None => Ok target
  | Ok (Some (id, v)) =>
      if bool_decide (id = NoType) then Ok target
      else if bool_decide (is_Some (ncontents target !! id)) then
        Err (errorF k path (Errorf "duplicate %q" [cid_String id]))
      else assign target id v
  end.

(** [loadEntry] for the service and properties files: the entries are stored
    one by one into the existing map. *)
Definition loadShallow (k : entryKind) (fs : FS) (path : string) (target : EntryMap) : res EntryMap :=
  match wrap_err "failed unmarshalling component %s: %w" [kindText k] (unmarshalYaml UnmarshalEntry fs path) with
  | Err e => Err (errorF k path e)
  | Ok e =>
      let tmp := Entry_ToStringMap e in
      match target with
      | Some m => Ok (Some (tmp ∪ m))
      | None => if bool_decide (tmp = ∅) then Ok None else Err (Errorf "panic: assignment to entry in nil map" [])
      end
  end.

Definition setService (c : Config) (v : EntryMap) : Config :=
  {| Service := v; Exporters := Exporters c; Extensions := Extensions c; DiscoveryObservers := DiscoveryObservers c;
     Processors := Processors c; Receivers := Receivers c; ReceiversToDiscover := ReceiversToDiscover c;
     DiscoveryProperties := DiscoveryProperties c; propertiesAlreadyLoaded := propertiesAlreadyLoaded c |}.
Definition setProperties (c : Config) (v : EntryMap) : Config :=
  {| Service := Service c; Exporters := Exporters c; Extensions := Extensions c; DiscoveryObservers := DiscoveryObservers c;
     Processors := Processors c; Receivers := Receivers c; ReceiversToDiscover := ReceiversToDiscover c;
     DiscoveryProperties := v; propertiesAlreadyLoaded := propertiesAlreadyLoaded c |}.
Definition setExporters (c : Config) (v : nmap ID EntryMap) : Config :=
  {| Service := Service c; Exporters := v; Extensions := Extensions c; DiscoveryObservers := DiscoveryObservers c;
     Processors := Processors c; Receivers := Receivers c; ReceiversToDiscover := ReceiversToDiscover c;
     DiscoveryProperties := DiscoveryProperties c; propertiesAlreadyLoaded := propertiesAlreadyLoaded c |}.
Definition setExtensions (c : Config) (v : nmap ID EntryMap) : Config :=
  {| Service := Service c; Exporters := Exporters c; Extensions := v; DiscoveryObservers := DiscoveryObservers c;
     Processors := Processors c; Receivers := Receivers c; ReceiversToDiscover := ReceiversToDiscover c;
     DiscoveryProperties := DiscoveryProperties c; propertiesAlreadyLoaded := propertiesAlreadyLoaded c |}.
Definition setObservers (c : Config) (v : nmap ID ObserverEntry) : Config :=
  {| Service := Service c; Exporters := Exporters c; Extensions := Extensions c; DiscoveryObservers := v;
     Processors := Processors c; Receivers := Receivers c; ReceiversToDiscover := ReceiversToDiscover c;
     DiscoveryProperties := DiscoveryProperties c; propertiesAlreadyLoaded := propertiesAlreadyLoaded c |}.
Definition setProcessors (c : Config) (v : nmap ID EntryMap) : Config :=
  {| Service := Service c; Exporters := Exporters c; Extensions := Extensions c; DiscoveryObservers := DiscoveryObservers c;
     Processors := v; Receivers := Receivers c; ReceiversToDiscover := ReceiversToDiscover c;
     DiscoveryProperties := DiscoveryProperties c; propertiesAlreadyLoaded := propertiesAlreadyLoaded c |}.
Definition setReceivers (c : Config) (v : nmap ID EntryMap) : Config :=
  {| Service := Service c; Exporters := Exporters c; Extensions := Extensions c; DiscoveryObservers := DiscoveryObservers c;
     Processors := Processors c; Receivers := v; ReceiversToDiscover := ReceiversToDiscover c;
     DiscoveryProperties := DiscoveryProperties c; propertiesAlreadyLoaded := propertiesAlreadyLoaded c |}.
Definition setToDiscover (c : Config) (v : nmap ID ReceiverToDiscoverEntry) : Config :=
  {| Service := Service c; Exporters := Exporters c; Extensions := Extensions c; DiscoveryObservers := DiscoveryObservers c;
     Processors := Processors c; Receivers := Receivers c; ReceiversToDiscover := v;
     DiscoveryProperties := DiscoveryProperties c; propertiesAlreadyLoaded := propertiesAlreadyLoaded c |}.

(** The function [LoadFS] walks the directory with. *)
Definition loadPath (fs : FS) (c : Config) (visit : string * option error) : res Config :=
  let '(path, err) := visit in
  match err with
  | Some e => Err e
  | None =>
      match classify path with
      | Some typeService => setService c <$> loadShallow typeService fs path (Service c)
      | Some typeDiscoveryProperties =>
          if propertiesAlreadyLoaded c then Ok c
          else setProperties c <$> loadShallow typeDiscoveryProperties fs path (DiscoveryProperties c)
      | Some typeExporter => setExporters c <$> loadEntry typeExporter UnmarshalComponents fs path (Exporters c)
      | Some typeDiscoveryObserver =>
          setObservers c <$> loadEntry typeDiscoveryObserver UnmarshalObservers fs path (DiscoveryObservers c)
      | Some typeExtension => setExtensions c <$> loadEntry typeExtension UnmarshalComponents fs path (Extensions c)
      | Some typeProcessor => setProcessors c <$> loadEntry typeProcessor UnmarshalComponents fs path (Processors c)
      | Some typeReceiverToDiscover =>
          setToDiscover c <$> loadEntry typeReceiverToDiscover UnmarshalReceivers fs path (ReceiversToDiscover c)
      | Some typeReceiver => setReceivers c <$> loadEntry typeReceiver UnmarshalComponents fs path (Receivers c)
      | None => Ok c
      end
  end.

Definition cleared (c : Config) : Config := {|
  Service := None; Exporters := None; Extensions := None; DiscoveryObservers := None; Processors := None;
  Receivers := None; ReceiversToDiscover := None; DiscoveryProperties := None;
  propertiesAlreadyLoaded := propertiesAlreadyLoaded c;
|}.

(** The configuration after the call and the error. *)
Definition LoadFS (c : Config) (fs : FS) : Config * option error :=
  match foldM_res (loadPath fs) c (visits fs) with
  | Ok c' => (c', None)
  | Err e => (cleared c, Some e)
  end.

Definition LoadProperties (c : Config) (fs : FS) (base : string) : res Config :=
  setProperties c <$> loadShallow typeDiscoveryProperties fs base (DiscoveryProperties c).

(** ** Rendering and merging *)

(** One section: [map[string]any{"receivers": ...}] *)
Definition section (m : nmap ID EntryMap) : gmap string any :=
  list_to_map (reverse (map (λ kv : ID * EntryMap, (cid_String kv.1, AMap (Entry_ToStringMap kv.2))) (rangeID (ncontents m)))).

(** [sc.Merge] with its error ignored. *)
Definition mergeInto (sc : conf) (key : string) (m : gmap string any) : conf :=
  (Merge sc (NewFromStringMap {[key := AMap m]})).1.

Definition toServiceConfig (c : Config) : gmap string any :=
  let sc := mergeInto (NewFromStringMap ∅) "service" (Entry_ToStringMap (Service c)) in
  let sc := mergeInto sc "receivers" (section (Receivers c)) in
  let sc := mergeInto sc "processors" (section (Processors c)) in
  let sc := mergeInto sc "exporters" (section (Exporters c)) in
  let sc := mergeInto sc "extensions" (section (Extensions c)) in
  ToStringMap sc.

Definition mergeObserver (bundled user : ObserverEntry) : res ObserverEntry :=
  match Merge (NewFromStringMap (Entry_ToStringMap (o_Config bundled))) (NewFromStringMap (Entry_ToStringMap (o_Config user))) with
  | (_, Some e) => Err e
  | (c, None) => Ok {| o_Enabled := match o_Enabled user with Some b => Some b | None => o_Enabled bundled end;
                       o_Config := Some (ToStringMap c); o_Entry := None |}
  end.

Definition mergeObservers (user : nmap ID ObserverEntry) (kv : ID * ObserverEntry) : res (nmap ID ObserverEntry) :=
  let '(obs, bundledObs) := kv in
  match ncontents user !! obs with
  | None => assign user obs bundledObs
  | Some userObs =>
      o ← wrap_err "failed merged user and bundled observer %q discovery configs: %w" [cid_String obs] (mergeObserver bundledObs userObs);
      assign user obs o
  end.

(** The two inner loops write into the maps of the bundled entry. *)
Definition mergeRules (rule : nmap ID string) (kv : ID * string) : res (nmap ID string) := assign rule kv.1 kv.2.
Definition mergeBlock (config : nmap ID (gmap string any)) (kv : ID * gmap string any) : res (nmap ID (gmap string any)) :=
  let '(obs, block) := kv in
  match ncontents config !! obs with
  | Some bundled => assign config obs (ToStringMap (Merge (NewFromStringMap bundled) (NewFromStringMap block)).1)
  | None => assign config obs block
  end.

Definition mergeReceiver (rec : ID) (bundled user : ReceiverToDiscoverEntry) : res ReceiverToDiscoverEntry :=
  match Merge (NewFromStringMap (Entry_ToStringMap (r_Entry bundled))) (NewFromStringMap (Entry_ToStringMap (r_Entry user))) with
  | (_, Some e) => Err (Wrapf "failed merged user and bundled receiver %q discovery configs: %w" [cid_String rec] e)
  | (c, None) =>
      rule ← foldM_res mergeRules (r_Rule bundled) (rangeID (ncontents (r_Rule user)));
      config ← foldM_res mergeBlock (r_Config bundled) (rangeID (ncontents (r_Config user)));
      Ok {| r_Rule := rule; r_Config := config;
            r_Enabled := match r_Enabled user with Some b => Some b | None => r_Enabled bundled end;
            r_Entry := Some (ToStringMap c) |}
  end.

(** The user's receivers and the bundle's: the bundled entry keeps its own
    [Enabled] and [Entry], and shares [Rule] and [Config] with the merged one. *)
Definition mergeReceivers (st : nmap ID ReceiverToDiscoverEntry * gmap ID ReceiverToDiscoverEntry) (kv : ID * ReceiverToDiscoverEntry)
    : res (nmap ID ReceiverToDiscoverEntry * gmap ID ReceiverToDiscoverEntry) :=
  let '(user, bundle) := st in
  let '(rec, bundledRec) := kv in
  match ncontents user !! rec with
  | None => user' ← assign user rec bundledRec; Ok (user', bundle)
  | Some userRec =>
      r ← mergeReceiver rec bundledRec userRec;
      user' ← assign user rec r;
      Ok (user', <[rec := {| r_Rule := r_Rule r; r_Config := r_Config r; r_Enabled := r_Enabled bundledRec;
                             r_Entry := r_Entry bundledRec |}]> bundle)
  end.

Definition mergeConfigWithBundle (userCfg bundleCfg : Config) : res (Config * Config) :=
  obs ← foldM_res mergeObservers (DiscoveryObservers userCfg) (rangeID (ncontents (DiscoveryObservers bundleCfg)));
  '(recs, bundle) ← foldM_res mergeReceivers (ReceiversToDiscover userCfg, ncontents (ReceiversToDiscover bundleCfg))
                      (rangeID (ncontents (ReceiversToDiscover bundleCfg)));
  Ok (setToDiscover (setObservers userCfg obs) recs,
      setToDiscover bundleCfg (match ReceiversToDiscover bundleCfg with None => None | Some _ => Some bundle end)).

(** ** What a directory loads *)

(** The component a file holds, if it holds exactly one. *)
Definition fileEntry {V} (k : entryKind) (decode : string → res (gmap ID V)) (fs : FS) (path : string) : option (ID * V) :=
  match unmarshalEntry k decode fs path with
  | Ok (Some (id, v)) => if bool_decide (id = NoType) then None else Some (id, v)
  | _ => None
  end.

Definition entriesOf {V} (k : entryKind) (decode : string → res (gmap ID V)) (fs : FS) (l : list (string * option error)) : list (ID * V) :=
  omap (λ visit, if bool_decide (classify visit.1 = Some k) then fileEntry k decode fs visit.1 else None) l.

(** A section holds exactly the components of the files of its kind, each from
    one file. *)
Definition loaded {V} (k : entryKind) (decode : string → res (gmap ID V)) (fs : FS) (m : nmap ID V) : Prop :=
  ∃ m', m = Some m' ∧ (∀ id v, m' !! id = Some v ↔ (id, v) ∈ entriesOf k decode fs (visits fs)) ∧
    NoDup (entriesOf k decode fs (visits fs)).*1.

Lemma loadEntry_ok {V} k (decode : string → res (gmap ID V)) fs path m r :
  loadEntry k decode fs path (Some m) = Ok r →
  match fileEntry k decode fs path with
  | None => r = Some m
  | Some (id, v) => m !! id = None ∧ r = Some (<[id := v]> m)
  end.
Proof.
  unfold loadEntry, fileEntry. destruct (unmarshalEntry k decode fs path) as [[[id v]|]|e]; [| |done]; [|by intros [= <-]].
  case_bool_decide; [by intros [= <-]|]. case_bool_decide as Hin; [done|].
  cbn. intros [= <-]. split; [|done]. by apply eq_None_not_Some.
Qed.

Lemma load_section {V} (get : Config → nmap ID V) k decode fs :
  (∀ c p c', loadPath fs c (p, None) = Ok c' →
    if decide (classify p = Some k) then loadEntry k decode fs p (get c) = Ok (get c') else get c' = get c) →
  ∀ l c c' m, get c = Some m → foldM_res (loadPath fs) c l = Ok c' →
  ∃ m', get c' = Some m' ∧ (∀ id v, m' !! id = Some v ↔ m !! id = Some v ∨ (id, v) ∈ entriesOf k decode fs l) ∧
    NoDup (entriesOf k decode fs l).*1 ∧ (∀ id, id ∈ (entriesOf k decode fs l).*1 → m !! id = None).
Proof.
  intros Hstep l. induction l as [|[p err] l IH]; intros c c' m Hm; cbn [foldM_res].
  { intros [= <-]. exists m. unfold entriesOf. cbn. split_and!; [done|set_solver|constructor|set_solver]. }
  destruct (loadPath fs c (p, err)) as [c1|e] eqn:Hp; [|done]. intros Hl.
  destruct err as [e|]; [done|]. pose proof (Hstep _ _ _ Hp) as Hs.
  unfold entriesOf in *. cbn [omap list_omap fst].
  assert (Hskip : get c1 = get c → (∃ m', get c' = Some m' ∧ (∀ id v, m' !! id = Some v ↔ m !! id = Some v ∨ (id, v) ∈ entriesOf k decode fs l) ∧
    NoDup (entriesOf k decode fs l).*1 ∧ (∀ id, id ∈ (entriesOf k decode fs l).*1 → m !! id = None))).
  { intros Hg. eapply IH; [by rewrite Hg | done]. }
  case_decide as Hk; [rewrite bool_decide_eq_true_2 by done | rewrite bool_decide_eq_false_2 by done; by apply Hskip].
  rewrite Hm in Hs. apply loadEntry_ok in Hs. destruct (fileEntry k decode fs p) as [[id v]|]; [|apply Hskip; congruence].
  destruct Hs as [Hnone Hg]. destruct (IH _ _ _ Hg Hl) as (m' & Hm' & Hiff & Hnd & Hfresh).
  exists m'. split; [done|]. split_and!.
  - intros id' v'. rewrite Hiff, elem_of_cons. destruct (decide (id' = id)) as [->|Hne].
    + rewrite lookup_insert_eq, Hnone. split; [intros [[= ->]|Hin]; auto|]. intros [?|[[= ->]|?]]; [done|auto|auto].
    + rewrite lookup_insert_ne by done. split; [intros [?|?]; auto|]. intros [?|[[= ->]|?]]; [auto|done|auto].
  - cbn. constructor; [|done]. intros Hin. apply Hfresh in Hin. by rewrite lookup_insert_eq in Hin.
  - intros id' [->|Hin]%elem_of_cons; [done|]. apply Hfresh in Hin.
    destruct (decide (id' = id)) as [->|Hne]; [done|]. by rewrite lookup_insert_ne in Hin.
Qed.

Lemma loaded_section {V} (get : Config → nmap ID V) k decode fs c c' :
  (∀ c p c', loadPath fs c (p, None) = Ok c' →
    if decide (classify p = Some k) then loadEntry k decode fs p (get c) = Ok (get c') else get c' = get c) →
  get c = Some ∅ → foldM_res (loadPath fs) c (visits fs) = Ok c' → loaded k decode fs (get c').
Proof.
  intros Hstep Hc Hl. destruct (load_section get k decode fs Hstep _ _ _ _ Hc Hl) as (m' & Hm & Hiff & Hnd & _).
  exists m'. split; [done|]. split; [|done]. intros id v. rewrite Hiff, lookup_empty. naive_solver.
Qed.

Ltac section_step :=
  intros c0 p0 c0' Hp0; unfold loadPath in Hp0; destruct (decide (classify p0 = Some _)) as [Hk0|Hk0];
  [rewrite Hk0 in Hp0 | destruct (classify p0) as [[]|]; try done; try (by destruct (propertiesAlreadyLoaded c0))];
  repeat match goal with
  | Hx : _ <$> ?m = Ok _ |- _ => destruct m eqn:?; cbn in Hx; [injection Hx as <- | done]
  | Hx : (if ?b then _ else _) = Ok _ |- _ => destruct b
  | Hx : Ok _ = Ok _ |- _ => injection Hx as <-
  end; done.

(** C12: Loading a directory into a new configuration gives in each section exactly
    the components of the files of that kind, no component twice; a failure
    leaves nothing of a partial configuration. *)
Theorem LoadFS_spec (fs : FS) (c : Config) (err : option error) :
  LoadFS NewConfig fs = (c, err) →
  match err with
  | Some e => c = cleared NewConfig ∧ foldM_res (loadPath fs) NewConfig (visits fs) = Err e
  | None =>
      loaded typeExporter UnmarshalComponents fs (Exporters c) ∧
      loaded typeExtension UnmarshalComponents fs (Extensions c) ∧
      loaded typeProcessor UnmarshalComponents fs (Processors c) ∧
      loaded typeReceiver UnmarshalComponents fs (Receivers c) ∧
      loaded typeDiscoveryObserver UnmarshalObservers fs (DiscoveryObservers c) ∧
      loaded typeReceiverToDiscover UnmarshalReceivers fs (ReceiversToDiscover c)
  end.
Proof.
  unfold LoadFS. destruct (foldM_res _ _ _) as [c'|e] eqn:Hl; intros [= <- <-]; [|done].
  split_and!; (eapply loaded_section; [| |exact Hl]; [section_step | reflexivity]).
Qed.

(** ** What the merge with the bundle gives *)

Ltac premise H :=
  match type of H with ?P → _ => let X := fresh in assert (X : P); [|specialize (H X); clear X] end.

(** A loop over the entries of a map that stores one value per key, computed
    from the entry and the previous value. *)
Lemma foldM_assign {V W} (g : ID → V → option W → res W) (f : nmap ID W → ID * V → res (nmap ID W)) (l : list (ID * V)) m0 r :
  (∀ m k v r, f m (k, v) = Ok r → ∃ w, g k v (ncontents m !! k) = Ok w ∧ assign m k w = Ok r) →
  NoDup l.*1 → foldM_res f m0 l = Ok r →
  (∀ k v, (k, v) ∈ l → ∃ w, g k v (ncontents m0 !! k) = Ok w ∧ ncontents r !! k = Some w) ∧
  (∀ k, k ∉ l.*1 → ncontents r !! k = ncontents m0 !! k).
Proof.
  intros Hf. revert m0. induction l as [|[k v] l IH]; intros m0 Hnd; cbn [foldM_res].
  { intros [= <-]. split; [intros ?? []%elem_of_nil | done]. }
  cbn in Hnd. apply NoDup_cons in Hnd as [Hk Hnd]. destruct (f m0 (k, v)) as [m1|e] eqn:Hs; [|done]. intros Hl.
  apply Hf in Hs as (w & Hw & Ha). destruct m0 as [m0|]; [|done]. cbn in Ha. injection Ha as <-.
  apply IH in Hl as [Hin Hout]; [|done]. cbn [ncontents default] in *. split.
  - intros k' v' [[= -> ->]|Hl]%elem_of_cons.
    + exists w. split; [done|]. rewrite Hout by done. apply lookup_insert_eq.
    + destruct (Hin _ _ Hl) as (w' & Hw' & Hr). exists w'. split; [|done].
      rewrite <-Hw'. f_equal. symmetry. apply lookup_insert_ne. intros ->. apply Hk. apply list_elem_of_fmap. by exists (k', v').
  - intros k' Hk'. cbn in Hk'. apply not_elem_of_cons in Hk' as [Hne Hk']. rewrite Hout by done. by apply lookup_insert_ne.
Qed.

Lemma NoDup_rangeID {V} (m : gmap ID V) : NoDup (rangeID m).*1.
Proof. rewrite rangeID_perm. apply NoDup_fst_map_to_list. Qed.

Lemma foldM_assign_range {V W} (g : ID → V → option W → res W) f (m : gmap ID V) m0 r k :
  (∀ m k v r, f m (k, v) = Ok r → ∃ w, g k v (ncontents m !! k) = Ok w ∧ assign m k w = Ok r) →
  foldM_res f m0 (rangeID m) = Ok r →
  match m !! k with
  | Some v => ∃ w, g k v (ncontents m0 !! k) = Ok w ∧ ncontents r !! k = Some w
  | None => ncontents r !! k = ncontents m0 !! k
  end.
Proof.
  intros Hf Hl. destruct (foldM_assign g f _ _ _ Hf (NoDup_rangeID m) Hl) as [Hin Hout].
  destruct (m !! k) as [v|] eqn:Hk; [apply Hin; by apply elem_of_rangeID|]. apply Hout.
  intros ([k' v] & -> & Hv)%list_elem_of_fmap. cbn in Hk. apply elem_of_rangeID in Hv. congruence.
Qed.

Lemma foldM_res_fst {A B D} (f : A * B → D → res (A * B)) (f1 : A → D → res A) s l s' :
  (∀ s x s', f s x = Ok s' → f1 s.1 x = Ok s'.1) → foldM_res f s l = Ok s' → foldM_res f1 s.1 l = Ok s'.1.
Proof.
  intros Hf. revert s. induction l as [|x l IH]; intros s; cbn [foldM_res]; [by intros [= <-]|].
  destruct (f s x) as [s1|e] eqn:Hs; [|done]. apply Hf in Hs. rewrite Hs. apply IH.
Qed.

Definition orElse {A} (o o' : option A) : option A := match o with Some x => Some x | None => o' end.

Lemma mergeRules_spec rule (m : gmap ID string) rule' k :
  foldM_res mergeRules rule (rangeID m) = Ok rule' → ncontents rule' !! k = orElse (m !! k) (ncontents rule !! k).
Proof.
  intros Hl. pose proof (foldM_assign_range (λ _ v _, Ok v) mergeRules m rule rule' k) as Hk.
  premise Hk; [by intros; eexists|]. specialize (Hk Hl).
  destruct (m !! k); [by destruct Hk as (w & [= <-] & Hw) | done].
Qed.

Lemma mergeReceiver_spec rec bundled user r : mergeReceiver rec bundled user = Ok r →
  r_Enabled r = orElse (r_Enabled user) (r_Enabled bundled) ∧
  (∀ cid, ncontents (r_Rule r) !! cid = orElse (ncontents (r_Rule user) !! cid) (ncontents (r_Rule bundled) !! cid)) ∧
  (∀ obs, match ncontents (r_Config user) !! obs, ncontents (r_Config bundled) !! obs with
          | Some u, Some b => ncontents (r_Config r) !! obs = Some (ToStringMap (Merge (NewFromStringMap b) (NewFromStringMap u)).1)
          | u, b => ncontents (r_Config r) !! obs = orElse u b
          end).
Proof.
  unfold mergeReceiver. destruct (Merge _ _) as [c [e|]]; [done|].
  intros (rule & Hrule & (config & Hconfig & [= <-])%bind_ok_inv)%bind_ok_inv. cbn [r_Enabled r_Rule r_Config].
  split_and!; [done | by intros; apply mergeRules_spec | intros obs].
  pose proof (foldM_assign_range (λ _ u (b : option (gmap string any)),
    Ok match b with Some b => ToStringMap (Merge (NewFromStringMap b) (NewFromStringMap u)).1 | None => u end) mergeBlock
    (ncontents (r_Config user)) (r_Config bundled) config obs) as Hk.
  assert (Hf : ∀ m k v r, mergeBlock m (k, v) = Ok r → ∃ w, Ok match ncontents m !! k with Some b => ToStringMap (Merge (NewFromStringMap b) (NewFromStringMap v)).1 | None => v end = Ok w ∧ assign m k w = Ok r).
  { intros m k v r Hr. unfold mergeBlock in Hr. destruct (ncontents m !! k); eauto. }
  specialize (Hk Hf Hconfig). destruct (ncontents (r_Config user) !! obs), (ncontents (r_Config bundled) !! obs);
    cbn [orElse]; try (destruct Hk as (w & [= <-] & Hw)); done.
Qed.

Lemma mergeObservers_spec user (bundle : gmap ID ObserverEntry) user' id :
  foldM_res mergeObservers user (rangeID bundle) = Ok user' →
  match bundle !! id, ncontents user !! id with
  | Some b, Some u => ∃ o, mergeObserver b u = Ok o ∧ ncontents user' !! id = Some o ∧ o_Enabled o = orElse (o_Enabled u) (o_Enabled b)
  | b, u => ncontents user' !! id = orElse u b
  end.
Proof.
  intros Hobs. pose proof (foldM_assign_range (λ obs b (u : option ObserverEntry), match u with None => Ok b | Some u =>
    wrap_err "failed merged user and bundled observer %q discovery configs: %w" [cid_String obs] (mergeObserver b u) end)
    mergeObservers bundle user user' id) as Hk.
  premise Hk.
  { intros m k v r Hr. unfold mergeObservers in Hr. destruct (ncontents m !! k); [by apply bind_ok_inv in Hr | eauto]. }
  specialize (Hk Hobs). destruct (bundle !! id) as [b|], (ncontents user !! id) as [u|]; cbn [orElse]; try done.
  - destruct Hk as (o & Ho%wrap_err_ok & Hr). exists o. split_and!; [done|done|].
    unfold mergeObserver in Ho. destruct (Merge _ _) as [c [e|]]; [done|]. by injection Ho as <-.
  - by destruct Hk as (w & [= <-] & Hw).
Qed.

Definition mergeUser (m : nmap ID ReceiverToDiscoverEntry) (kv : ID * ReceiverToDiscoverEntry) : res (nmap ID ReceiverToDiscoverEntry) :=
  match ncontents m !! kv.1 with
  | None => assign m kv.1 kv.2
  | Some u => r ← mergeReceiver kv.1 kv.2 u; assign m kv.1 r
  end.

Lemma mergeReceivers_spec user bd (bundle : gmap ID ReceiverToDiscoverEntry) user' bd' id :
  foldM_res mergeReceivers (user, bd) (rangeID bundle) = Ok (user', bd') →
  match bundle !! id, ncontents user !! id with
  | Some b, Some u => ∃ r, mergeReceiver id b u = Ok r ∧ ncontents user' !! id = Some r
  | b, u => ncontents user' !! id = orElse u b
  end.
Proof.
  intros Hrecs. apply (foldM_res_fst _ mergeUser) in Hrecs.
  2: { unfold mergeUser. intros [m b] [k v] [m' b']. cbn [fst snd mergeReceivers]. destruct (ncontents m !! k) as [u|].
       - intros (r & -> & (m1 & Hm1 & [= <- _])%bind_ok_inv)%bind_ok_inv. done.
       - intros (m1 & Hm1 & [= <- _])%bind_ok_inv. done. }
  cbn [fst] in Hrecs.
  pose proof (foldM_assign_range (λ rec b (u : option ReceiverToDiscoverEntry), match u with None => Ok b | Some u => mergeReceiver rec b u end)
    mergeUser bundle user user' id) as Hk.
  premise Hk.
  { unfold mergeUser. intros m k v r. cbn [fst snd]. destruct (ncontents m !! k); [by intros Hr%bind_ok_inv | eauto]. }
  specialize (Hk Hrecs). destruct (bundle !! id) as [b|], (ncontents user !! id) as [u|]; cbn [orElse]; try done.
  by destruct Hk as (w & [= <-] & Hw).
Qed.

(** Merging keeps every entry of the user, adds those only the bundle has, and
    combines the others: the user's [enabled] and rules win where given, the
    bundle's stand otherwise, and the observers' configurations are merged. *)
Theorem mergeConfigWithBundle_spec (user bundle user' bundle' : Config) :
  mergeConfigWithBundle user bundle = Ok (user', bundle') →
  (∀ id, match ncontents (DiscoveryObservers bundle) !! id, ncontents (DiscoveryObservers user) !! id with
    | Some b, Some u => ∃ o, mergeObserver b u = Ok o ∧ ncontents (DiscoveryObservers user') !! id = Some o ∧
        o_Enabled o = orElse (o_Enabled u) (o_Enabled b)
    | b, u => ncontents (DiscoveryObservers user') !! id = orElse u b
    end) ∧
  (∀ id, match ncontents (ReceiversToDiscover bundle) !! id, ncontents (ReceiversToDiscover user) !! id with
    | Some b, Some u => ∃ r, ncontents (ReceiversToDiscover user') !! id = Some r ∧
        r_Enabled r = orElse (r_Enabled u) (r_Enabled b) ∧
        ∀ cid, ncontents (r_Rule r) !! cid = orElse (ncontents (r_Rule u) !! cid) (ncontents (r_Rule b) !! cid)
    | b, u => ncontents (ReceiversToDiscover user') !! id = orElse u b
    end) ∧
  Service user' = Service user ∧ Exporters user' = Exporters user ∧ Receivers user' = Receivers user.
Proof.
  intros (obs & Hobs & Hm)%bind_ok_inv. apply bind_ok_inv in Hm as ([recs bnd] & Hrecs & [= <- <-]).
  cbn [DiscoveryObservers ReceiversToDiscover Service Exporters Receivers setToDiscover setObservers]. split_and!; try done; intros id.
  - by apply mergeObservers_spec.
  - apply (mergeReceivers_spec _ _ _ _ _ id) in Hrecs.
    destruct (_ !! id) as [b|], (_ !! id) as [u|]; try done.
    destruct Hrecs as (r & (He & Hrule & _)%mergeReceiver_spec & Hr). by exists r.
Qed.
End config.

(** ** Witnesses *)

Definition demo_type (s : string) : ID := {| ID_Type := s; ID_Name := "" |}.
Definition demo_toDiscover (rule : string) (en : option bool) : ReceiverToDiscoverEntry :=
  {| r_Rule := Some {[demo_type "host_observer" := rule]}; r_Config := Some ∅; r_Enabled := en; r_Entry := Some ∅ |}.
Definition demo_configYaml : ConfigYaml := {|
  UnmarshalComponents s := Ok (if bool_decide (s = "") then ∅ else {[demo_type s := Some ∅]});
  UnmarshalObservers s := Ok {[demo_type s := {| o_Enabled := None; o_Config := None; o_Entry := None |}]};
  UnmarshalReceivers s := Ok {[demo_type s := demo_toDiscover "true" None]};
  UnmarshalEntry s := Ok (Some ∅);
  IntfaceKeysToStrings m := m;
|}.
Definition demo_fs : FS := {|
  visits := map (λ p, (p, None)) ["."; "exporters"; "exporters/empty.yaml"; "exporters/otlp.yaml"; "extensions"; "extensions/host.discovery.yaml"; "service.yaml"];
  Open p := Ok (Ok (if bool_decide (p = "exporters/otlp.yaml") then "otlp" else if bool_decide (p = "exporters/empty.yaml") then "" else "host_observer"));
|}.
Definition demo_loaded_config : Config := {|
  Service := Some ∅; Exporters := Some {[demo_type "otlp" := Some ∅]}; Extensions := Some ∅;
  DiscoveryObservers := Some {[demo_type "host_observer" := {| o_Enabled := None; o_Config := None; o_Entry := None |}]};
  Processors := Some ∅; Receivers := Some ∅; ReceiversToDiscover := Some ∅; DiscoveryProperties := Some ∅;
  propertiesAlreadyLoaded := false;
|}.

Lemma LoadFS_spec_witness :
  @loaded forward_rangeID _ typeExporter (@UnmarshalComponents demo_configYaml) demo_fs (Exporters demo_loaded_config).
Proof. apply (@LoadFS_spec demo_configYaml forward_rangeID demo_fs demo_loaded_config None). vm_compute. reflexivity. Defined.

Definition demo_user : Config := setToDiscover NewConfig (Some {[demo_type "redis" := demo_toDiscover "user" (Some false)]}).
Definition demo_bundle : Config := setToDiscover NewConfig (Some {[demo_type "redis" := demo_toDiscover "bundled" None]}).
Definition demo_merged : Config := setToDiscover NewConfig (Some {[demo_type "redis" := demo_toDiscover "user" (Some false)]}).
Definition demo_bundle_after : Config := setToDiscover NewConfig (Some {[demo_type "redis" := demo_toDiscover "user" None]}).

Lemma mergeConfigWithBundle_spec_witness :
  ∃ r, ncontents (ReceiversToDiscover demo_merged) !! demo_type "redis" = Some r ∧ r_Enabled r = Some false ∧
    ncontents (r_Rule r) !! demo_type "host_observer" = Some "user".
Proof.
  destruct (@mergeConfigWithBundle_spec demo_configYaml forward_rangeID flat_confmap demo_user demo_bundle demo_merged demo_bundle_after)
    as (_ & Hr & _); [vm_compute; reflexivity|].
  specialize (Hr (demo_type "redis")). destruct Hr as (r & Hr & He & Hrule). exists r. split; [exact Hr|]. split; [exact He|].
  rewrite Hrule. reflexivity.
Defined.
