(* ===== verification/Discoverer.v ===== *)
(** * The discoverer

    [src/internal/confmapprovider/discovery/discoverer.go] and [provider.go]:
    the preflight service of discovery mode.  It collects discovery properties,
    prepares a discovery receiver per observer, consumes the logs the receivers
    emit, and renders the configuration of what was discovered.

    A receiver's configuration blocks ([ReceiverToDiscoverEntry.Config]) are Go
    maps that the entries of several observers share: an entry refers to a block
    ([BlockRef]), and writing a block is seen through every reference.  The
    collector's factories, the resolver, observers and receivers are parameters. *)

From S2P Require Import Prelude GoStrings GoValue Confmap Regexp ConfigProvider DiscoveryReceiver StatusSources Correlations DiscoveryEvaluator.
From S2P Require Import DiscoveryProperties ConfigD.
From Stdlib Require Import Ascii.

(** ** Statuses *)

Definition Successful : string := "successful".
Definition Partial : string := "partial".
Definition Failed : string := "failed".

Definition determineCurrentStatus (current observed : string) : string :=
  if String.eqb current Successful then current
  else if String.eqb observed Successful then Successful
  else if String.eqb current Partial then current
  else observed.

(** ** ConsumeLogs *)

Record resourceLogs := { rl_Attributes : gmap string any; rl_Scopes : list (list logRecord) }.
Definition LogRecordCount (ld : list resourceLogs) : nat :=
  sum_list_with (λ r, sum_list_with length (rl_Scopes r)) ld.

(** What the preflight service remembers of the logs it consumes. *)
Record logState := {
  discoveredReceivers : gmap ID string;
  discoveredObservers : gmap ID string;
  discoveredConfig : gmap ID (gmap string any);
}.

Definition setStatuses (st : logState) (rid oid : ID) (rs os : string) : logState := {|
  discoveredReceivers := <[rid := rs]> (discoveredReceivers st);
  discoveredObservers := <[oid := os]> (discoveredObservers st);
  discoveredConfig := discoveredConfig st;
|}.
Definition setConfig (st : logState) (rid : ID) (c : gmap string any) : logState := {|
  discoveredReceivers := discoveredReceivers st; discoveredObservers := discoveredObservers st;
  discoveredConfig := <[rid := c]> (discoveredConfig st);
|}.

(** [pcommon.Value.Str]: empty unless the value is a string. *)
Definition Str (v : any) : string := match v with AString s => s | _ => "" end.
Definition attrStr (attrs : gmap string any) (k : string) : string :=
  match attrs !! k with Some v => Str v | None => "" end.

(** A [map[any]any] with string keys, read and written. *)
Fixpoint imapGet (m : list (any * any)) (k : string) : option any :=
  match m with
  | [] => None
  | (AString s, x) :: m => if String.eqb s k then Some x else imapGet m k
  | _ :: m => imapGet m k
  end.
Fixpoint imapSet (m : list (any * any)) (k : string) (v : any) : list (any * any) :=
  match m with
  | [] => [(AString k, v)]
  | (AString s, x) :: m => if String.eqb s k then (AString k, v) :: m else (AString s, x) :: imapSet m k v
  | kv :: m => kv :: imapSet m k v
  end.

Definition panic {A} (what : string) : res A := Err (Errorf "panic: %s" [what]).

Section consume.
Context `{Pdata} `{Engines} (UnmarshalText : string → res ID).

(** The unexpanded entry of a receiver for an observer. *)
Context (getUnexpandedReceiverConfig : ID → ID → option (gmap string any)).

Definition zeroID : ID := {| ID_Type := ""; ID_Name := "" |}.

(** The fallback for an embedded configuration, with the unexpanded rule and
    config section in place of the expanded ones. *)
Definition embeddedConfig (receiverID : ID) (receiverConfig rule : string) (configSection : option (gmap string any)) : res (gmap string any) :=
  dBytes ← base64_Decode receiverConfig;
  rCfg ← yaml_Unmarshal dBytes;
  match rCfg !! "receivers" with
  | Some (AIMap receivers) =>
      match imapGet receivers (cid_String receiverID) with
      | Some (AIMap rMap) =>
          let rMap := if String.eqb rule "" then rMap else imapSet rMap "rule" (AString rule) in
          let rMap := match configSection with Some c => imapSet rMap "config" (AMap c) | None => rMap end in
          Ok (<["receivers" := AIMap (imapSet receivers (cid_String receiverID) (AIMap rMap))]> rCfg)
      | _ => panic "interface conversion"
      end
  | _ => panic "interface conversion"
  end.

(** The rule and the config section of an unexpanded entry. *)
Definition entryParts (o : option (gmap string any)) : res (string * option (gmap string any)) :=
  match o with
  | None => Ok ("", None)
  | Some rCfg =>
      rule ← match rCfg !! "rule" with None => Ok "" | Some (AString r) => Ok r | Some _ => panic "interface conversion" end;
      cfg ← match rCfg !! "config" with None => Ok None | Some (AMap c) => Ok (Some c) | Some _ => panic "interface conversion" end;
      Ok (rule, cfg)
  end.

(** One log record, with the statuses read before the loop. *)
Definition consumeRecord (rid oid : ID) (curR curO : string) (st : logState) (lr : logRecord) : logState :=
  if String.eqb curR Successful && String.eqb curO Successful then st
  else match lr_Attributes lr !! StatusAttr with
       | None => st
       | Some v =>
           match IsValidStatus (Str v) with
           | Some _ => st
           | None => setStatuses st rid oid (determineCurrentStatus curR (Str v)) (determineCurrentStatus curO (Str v))
           end
       end.

(** The loop over the scopes reads the first one each time. *)
Definition consumeScopes (rid oid : ID) (scopes : list (list logRecord)) (st : logState) : logState :=
  let curR := default "" (discoveredReceivers st !! rid) in
  let curO := default "" (discoveredObservers st !! oid) in
  foldl (λ st _, foldl (consumeRecord rid oid curR curO) st (default [] (head scopes))) st scopes.

(** The identifiers a resource names; [None] when it is to be skipped. *)
Definition resourceIDs (rAttrs : gmap string any) : res (option (ID * ID)) :=
  match rAttrs !! ReceiverTypeAttr with
  | None => Ok None
  | Some rType =>
      let obsID := attrStr rAttrs ObserverIDAttr in
      match (if String.eqb obsID "" then Ok zeroID else UnmarshalText obsID) with
      | Err _ => Ok None
      | Ok observerID =>
          receiverID ← MustNewIDWithName (Str rType) (attrStr rAttrs ReceiverNameAttr);
          Ok (Some (receiverID, observerID))
      end
  end.

(** The state after one resource, and the error that ends the call. *)
Definition consumeResource (st : logState) (rlog : resourceLogs) : logState * option error :=
  match resourceIDs (rl_Attributes rlog) with
  | Err e => (st, Some e)
  | Ok None => (st, None)
  | Ok (Some (receiverID, observerID)) =>
      let unexpanded := getUnexpandedReceiverConfig receiverID observerID in
      match entryParts unexpanded with
      | Err e => (st, Some e)
      | Ok (rule, configSection) =>
          let st := match unexpanded with Some rCfg => setConfig st receiverID rCfg | None => st end in
          let receiverConfig := attrStr (rl_Attributes rlog) ReceiverConfigAttr in
          if String.eqb receiverConfig "" then (consumeScopes receiverID observerID (rl_Scopes rlog) st, None)
          else match embeddedConfig receiverID receiverConfig rule configSection with
               | Err e => (st, Some e)
               | Ok rCfg => (consumeScopes receiverID observerID (rl_Scopes rlog) (setConfig st receiverID rCfg), None)
               end
      end
  end.

Fixpoint consumeResources (st : logState) (ld : list resourceLogs) : logState * option error :=
  match ld with
  | [] => (st, None)
  | rlog :: ld =>
      match consumeResource st rlog with
      | (st, Some e) => (st, Some e)
      | (st, None) => consumeResources st ld
      end
  end.

Definition ConsumeLogs (st : logState) (ld : list resourceLogs) : logState * option error :=
  if LogRecordCount ld =? 0 then (st, None) else consumeResources st ld.

(** ** Statuses only improve from call to call *)

(** The order of statuses: unknown, failed, partial, successful. *)
Definition rank (status : string) : nat :=
  if String.eqb status Successful then 3 else if String.eqb status Partial then 2 else if String.eqb status Failed then 1 else 0.
Definition statusOf (m : gmap ID string) (id : ID) : string := default "" (m !! id).
Definition known (status : string) : Prop := status = "" ∨ status ∈ StatusTypes.

Lemma IsValidStatus_spec s : IsValidStatus s = None ↔ s ∈ StatusTypes.
Proof. unfold IsValidStatus. case_bool_decide; naive_solver. Qed.

Lemma determine_max current observed : known current → observed ∈ StatusTypes →
  rank (determineCurrentStatus current observed) = rank current `max` rank observed ∧
  determineCurrentStatus current observed ∈ StatusTypes.
Proof.
  unfold known, StatusTypes. rewrite !elem_of_cons, !elem_of_nil.
  intros [->|[->|[->|[->|[]]]]] [->|[->|[->|[]]]]; cbn; auto.
Qed.

Definition statuses_known (st : logState) : Prop :=
  map_Forall (λ _ s, known s) (discoveredReceivers st) ∧ map_Forall (λ _ s, known s) (discoveredObservers st).

(** The statuses of [st'] are those of [st] or better. *)
Definition improves (st st' : logState) : Prop :=
  (∀ id, rank (statusOf (discoveredReceivers st) id) ≤ rank (statusOf (discoveredReceivers st') id)) ∧
  (∀ id, rank (statusOf (discoveredObservers st) id) ≤ rank (statusOf (discoveredObservers st') id)).

#[local] Instance improves_preorder : PreOrder improves.
Proof. split; [split; done|]. intros x y z [H1 H2] [H3 H4]. split; intros id; [etrans; [apply H1 | apply H3] | etrans; [apply H2 | apply H4]]. Qed.

(** The last valid status of the records. *)
Definition recordStatus (lr : logRecord) : option string :=
  match lr_Attributes lr !! StatusAttr with
  | Some v => match IsValidStatus (Str v) with None => Some (Str v) | Some _ => None end
  | None => None
  end.
Definition lastStatus (lrs : list logRecord) : option string := last (omap recordStatus lrs).

Lemma setStatuses_twice st rid oid r1 o1 r2 o2 :
  setStatuses (setStatuses st rid oid r1 o1) rid oid r2 o2 = setStatuses st rid oid r2 o2.
Proof. unfold setStatuses. cbn. by rewrite !insert_insert_eq. Qed.

Lemma consumeRecord_status rid oid curR curO st lr :
  consumeRecord rid oid curR curO st lr =
  if String.eqb curR Successful && String.eqb curO Successful then st
  else match recordStatus lr with
       | Some v => setStatuses st rid oid (determineCurrentStatus curR v) (determineCurrentStatus curO v)
       | None => st
       end.
Proof. unfold consumeRecord, recordStatus. destruct (_ && _), (lr_Attributes lr !! StatusAttr) as [v|]; try done. by destruct (IsValidStatus (Str v)). Qed.

Lemma consumeRecords rid oid curR curO lrs st :
  foldl (consumeRecord rid oid curR curO) st lrs =
  if String.eqb curR Successful && String.eqb curO Successful then st
  else match lastStatus lrs with
       | Some v => setStatuses st rid oid (determineCurrentStatus curR v) (determineCurrentStatus curO v)
       | None => st
       end.
Proof.
  unfold lastStatus. induction lrs as [|lr lrs IH] using rev_ind; [by destruct (_ && _)|].
  rewrite foldl_snoc, IH, omap_app, consumeRecord_status. destruct (_ && _); [done|].
  cbn [omap list_omap]. destruct (recordStatus lr) as [v|]; [|by rewrite app_nil_r].
  rewrite last_snoc. destruct (last _); [apply setStatuses_twice | done].
Qed.

(** What the scopes of a resource do to the statuses: the last valid status of
    the first scope is combined with the statuses before the call. *)
Lemma consumeScopes_spec rid oid scope scopes st :
  let curR := statusOf (discoveredReceivers st) rid in
  let curO := statusOf (discoveredObservers st) oid in
  consumeScopes rid oid (scope :: scopes) st =
  if String.eqb curR Successful && String.eqb curO Successful then st
  else match lastStatus scope with
       | Some v => setStatuses st rid oid (determineCurrentStatus curR v) (determineCurrentStatus curO v)
       | None => st
       end.
Proof.
  cbv zeta. unfold consumeScopes, statusOf. cbn [head foldl]. change (default [] (Some scope)) with scope. rewrite consumeRecords.
  set (curR := default "" _). set (curO := default "" _). set (b := String.eqb curR Successful && _).
  induction scopes as [|s scopes IH] using rev_ind; [done|]. rewrite foldl_snoc, IH, consumeRecords. fold b.
  destruct b; [done|]. by destruct (lastStatus scope); rewrite ?setStatuses_twice.
Qed.

Lemma lastStatus_valid lrs v : lastStatus lrs = Some v → v ∈ StatusTypes.
Proof.
  unfold lastStatus. intros (l & Hl)%last_Some. assert (Hv : v ∈ omap recordStatus lrs) by (rewrite Hl; set_solver).
  apply list_elem_of_omap in Hv as (lr & _ & Hr). unfold recordStatus in Hr.
  destruct (lr_Attributes lr !! StatusAttr) as [x|]; [|done]. destruct (IsValidStatus (Str x)) eqn:Hx; [done|]. injection Hr as <-. by apply IsValidStatus_spec.
Qed.

Lemma statusOf_insert m id s id' : statusOf (<[id := s]> m) id' = if decide (id' = id) then s else statusOf m id'.
Proof. unfold statusOf. case_decide as He; [subst; by rewrite lookup_insert_eq | by rewrite lookup_insert_ne by done]. Qed.

Lemma statusOf_known m id : map_Forall (λ _ s, known s) m → known (statusOf m id).
Proof. intros Hm. unfold statusOf. destruct (m !! id) eqn:Hi; [by apply (Hm id) | by left]. Qed.

Lemma rank_insert m id v id' : map_Forall (λ _ s, known s) m → v ∈ StatusTypes →
  rank (statusOf m id') ≤ rank (statusOf (<[id := determineCurrentStatus (statusOf m id) v]> m) id').
Proof.
  intros Hm Hv. rewrite statusOf_insert. case_decide as He; [|done]. subst.
  rewrite (proj1 (determine_max _ _ (statusOf_known m id Hm) Hv)). lia.
Qed.

Lemma consumeScopes_improves rid oid scopes st : statuses_known st →
  improves st (consumeScopes rid oid scopes st) ∧ statuses_known (consumeScopes rid oid scopes st).
Proof.
  intros Hk. destruct scopes as [|scope scopes]; [done|]. rewrite consumeScopes_spec.
  destruct (_ && _); [done|]. destruct (lastStatus scope) as [v|] eqn:Hv; [|done]. apply lastStatus_valid in Hv.
  destruct Hk as [Hr Ho]. split; [split; intros id; by apply rank_insert|].
  split; apply map_Forall_insert_2; try done; right; apply determine_max; try done; by apply statusOf_known.
Qed.

Lemma consumeResource_improves st rlog : statuses_known st →
  improves st (consumeResource st rlog).1 ∧ statuses_known (consumeResource st rlog).1.
Proof.
  intros Hk. unfold consumeResource. destruct (resourceIDs _) as [[[rid oid]|]|e]; [|done..].
  destruct (entryParts _) as [[rule cfg]|e]; [|done].
  set (st1 := match getUnexpandedReceiverConfig rid oid with Some c => setConfig st rid c | None => st end).
  assert (Hst : ∀ st', discoveredReceivers st' = discoveredReceivers st → discoveredObservers st' = discoveredObservers st →
    improves st (consumeScopes rid oid (rl_Scopes rlog) st') ∧ statuses_known (consumeScopes rid oid (rl_Scopes rlog) st')).
  { intros st' H1 H2. unfold improves, statuses_known in Hk |- *. rewrite <-H1, <-H2 in Hk |- *. by apply consumeScopes_improves. }
  assert (H1 : discoveredReceivers st1 = discoveredReceivers st ∧ discoveredObservers st1 = discoveredObservers st).
  { unfold st1. by destruct (getUnexpandedReceiverConfig _ _). }
  destruct (String.eqb _ ""); [apply Hst; apply H1|]. destruct (embeddedConfig _ _ _ _) as [c|e]; [apply Hst; apply H1|].
  unfold improves, statuses_known. cbn [fst]. by rewrite (proj1 H1), (proj2 H1).
Qed.

(** C13: From call to call the status of a receiver or an observer never gets
    worse, in the order failed, partial, successful, and stays a known status;
    so what was successful stays successful. *)
Theorem ConsumeLogs_improves (st : logState) (ld : list resourceLogs) : statuses_known st →
  improves st (ConsumeLogs st ld).1 ∧ statuses_known (ConsumeLogs st ld).1.
Proof.
  unfold ConsumeLogs. destruct (_ =? 0); [done|]. revert st. induction ld as [|rlog ld IH]; intros st Hk; [done|].
  cbn [consumeResources]. destruct (consumeResource_improves st rlog Hk) as [Hi Hk1].
  destruct (consumeResource st rlog) as [st1 [e|]]; cbn [fst] in *; [done|]. destruct (IH st1 Hk1) as [Hi2 Hk2].
  split; [by etrans | done].
Qed.

(** The comment says that a successful receiver never reverts.  Within one
    resource it does: a record that reports a failure, after any records, makes
    a receiver failed that was not successful before the call. *)
Theorem status_reverts_within_resource (st : logState) (rlog : resourceLogs) (rid oid : ID) (lrs : list logRecord) (lr : logRecord) (scopes : list (list logRecord)) :
  resourceIDs (rl_Attributes rlog) = Ok (Some (rid, oid)) → getUnexpandedReceiverConfig rid oid = None →
  attrStr (rl_Attributes rlog) ReceiverConfigAttr = "" →
  statusOf (discoveredReceivers st) rid = "" → rl_Scopes rlog = (lrs ++ [lr]) :: scopes → recordStatus lr = Some Failed →
  statusOf (discoveredReceivers (ConsumeLogs st [rlog]).1) rid = Failed.
Proof.
  intros Hids Hu Hc Hst Hs Hf. unfold ConsumeLogs. assert (Hn : LogRecordCount [rlog] =? 0 = false).
  { apply Nat.eqb_neq. unfold LogRecordCount. cbn. rewrite Hs. cbn. rewrite length_app. cbn. lia. }
  rewrite Hn. cbn [consumeResources]. unfold consumeResource. rewrite Hids, Hu. cbn [entryParts]. rewrite Hc. cbn [String.eqb].
  rewrite Hs, consumeScopes_spec, Hst. cbn [andb String.eqb Successful fst].
  unfold lastStatus. rewrite omap_app. cbn [omap list_omap]. rewrite Hf, last_snoc. cbn [fst].
  unfold setStatuses. cbn [discoveredReceivers]. rewrite statusOf_insert, decide_True by done. done.
Qed.

(** The records of all scopes but the first are ignored. *)
Theorem later_scopes_ignored (rid oid : ID) (scope : list logRecord) (scopes scopes' : list (list logRecord)) (st : logState) :
  consumeScopes rid oid (scope :: scopes) st = consumeScopes rid oid (scope :: scopes') st.
Proof. by rewrite !consumeScopes_spec. Qed.
End consume.

(** ** Witnesses *)

Definition demo_redis : ID := {| ID_Type := "redis"; ID_Name := "" |}.
Definition demo_status (s : string) : logRecord :=
  {| lr_Body := ""; lr_SeverityText := "info"; lr_Attributes := {[StatusAttr := AString s]}; lr_Timestamp := None |}.
Definition demo_resource (statuses : list string) : resourceLogs :=
  {| rl_Attributes := {[ReceiverTypeAttr := AString "redis"]}; rl_Scopes := [map demo_status statuses] |}.
Definition demo_logState : logState :=
  {| discoveredReceivers := {[demo_redis := Partial]}; discoveredObservers := ∅; discoveredConfig := ∅ |}.
Definition demo_noLogs : logState := {| discoveredReceivers := ∅; discoveredObservers := ∅; discoveredConfig := ∅ |}.
Definition demo_consume (st : logState) (ld : list resourceLogs) : logState * option error :=
  @ConsumeLogs demo_pdata demo_engines (λ s, Ok {| ID_Type := s; ID_Name := "" |}) (λ _ _, None) st ld.

Lemma ConsumeLogs_improves_witness :
  improves demo_logState (demo_consume demo_logState [demo_resource [Failed]]).1.
Proof.
  exact (proj1 (@ConsumeLogs_improves demo_pdata demo_engines (λ s, Ok {| ID_Type := s; ID_Name := "" |}) (λ _ _, None)
    demo_logState [demo_resource [Failed]] ltac:(split; [apply map_Forall_singleton; right; right; left | apply map_Forall_empty]))).
Defined.

Lemma status_reverts_within_resource_witness :
  statusOf (discoveredReceivers (demo_consume demo_noLogs [demo_resource [Successful; Failed]]).1) demo_redis = Failed.
Proof.
  apply (@status_reverts_within_resource demo_pdata demo_engines (λ s, Ok {| ID_Type := s; ID_Name := "" |}) (λ _ _, None)
    demo_noLogs (demo_resource [Successful; Failed]) demo_redis zeroID [demo_status Successful] (demo_status Failed) []); reflexivity.
Defined.
