(* ===== verification/DiscoveryService.v ===== *)
(** * The discovery service

    [src/internal/confmapprovider/discovery/discoverer.go]: preparing the
    discovery receivers and observers, running them, and rendering what was
    discovered; [provider.go]: the providers of the four discovery schemes.

    A receiver's configuration blocks ([ReceiverToDiscoverEntry.Config]) are Go
    maps that the receiver's entries share: an entry refers to a block
    ([BlockRef]), and a write to a block is seen through every reference.  The
    collector's factories, the resolver, the observers and the receivers are
    parameters ([Components]). *)

From S2P Require Import Prelude GoStrings GoValue Confmap Regexp ConfigProvider DiscoveryReceiver StatusSources.
From S2P Require Import Correlations DiscoveryEvaluator DiscoveryProperties ConfigD Discoverer.
From Stdlib Require Import Ascii.

(** ** Data *)

Inductive entryVal := Plain (v : any) | BlockRef (obs : ID).

Record discReceiver := {
  dr_Rule : gmap ID string;
  dr_Config : gmap ID (gmap string any);
  dr_Enabled : option bool;
  dr_Entry : nmap string entryVal;
}.

Definition ofReceiver (r : ReceiverToDiscoverEntry) : discReceiver := {|
  dr_Rule := ncontents (r_Rule r); dr_Config := ncontents (r_Config r); dr_Enabled := r_Enabled r;
  dr_Entry := match r_Entry r with Some m => Some (Plain <$> m) | None => None end;
|}.

Definition setEntry (r : discReceiver) (e : nmap string entryVal) : discReceiver :=
  {| dr_Rule := dr_Rule r; dr_Config := dr_Config r; dr_Enabled := dr_Enabled r; dr_Entry := e |}.
Definition setBlock (r : discReceiver) (obs : ID) (m : gmap string any) : discReceiver :=
  {| dr_Rule := dr_Rule r; dr_Config := <[obs := m]> (dr_Config r); dr_Enabled := dr_Enabled r; dr_Entry := dr_Entry r |}.

(** The values an entry shows: a reference is read when it is used. *)
Definition derefVal (r : discReceiver) (v : entryVal) : any :=
  match v with Plain v => v | BlockRef obs => AMap (default ∅ (dr_Config r !! obs)) end.
Definition deref (r : discReceiver) (e : gmap string entryVal) : gmap string any := derefVal r <$> e.

Definition defaultType : ID := {| ID_Type := "default"; ID_Name := "" |}.

(** The collector's side: expansion of environment variables, decoding and
    creating an observer, resolving and creating a discovery receiver. *)
Class Components `{Confmap} := {
  obsConfig : Type;
  expandConf : conf → res conf;
  UnmarshalObserver : ID → conf → res obsConfig;
  CreateExtension : ID → obsConfig → res unit;
  recConfig : Type;
  resolveConf : gmap string any → res conf;
  UnmarshalReceiver : conf → res recConfig;
  CreateLogsReceiver : ID → recConfig → res unit;
}.

Section service.
Context `{ConfigYaml} `{IDRange} `{C : Confmap} `{FloatText}.

(** ** updateReceiverForObserver *)

(** The receiver after the call: the writes happen also when it is disregarded. *)
Definition updateReceiverForObserver (receiverID : ID) (receiver : discReceiver) (observerID : ID) : res (bool * discReceiver) :=
  match dr_Rule receiver !! observerID with
  | None => Ok (false, receiver)
  | Some observerRule =>
      entry ← assign (dr_Entry receiver) "rule" (Plain (AString observerRule));
      let receiver := setEntry receiver entry in
      let hasDefault := bool_decide (is_Some (dr_Config receiver !! defaultType)) in
      entry ← (if hasDefault then assign entry "config" (BlockRef defaultType) else Ok entry);
      let receiver := setEntry receiver entry in
      match dr_Config receiver !! observerID, dr_Config receiver !! defaultType with
      | None, None => Ok (false, receiver)
      | None, Some _ => Ok (true, receiver)
      | Some block, Some defaultConfig =>
          m ← wrap_err "failed merging %q config for %q: %w" [cid_String receiverID; cid_String observerID]
                (MergeMaps defaultConfig block);
          Ok (true, setBlock receiver defaultType m)
      | Some _, None =>
          entry ← assign entry "config" (BlockRef observerID);
          Ok (true, setEntry receiver entry)
      end
  end.

(** [receiver.Entry.ToStringMap()]: a shallow copy whose nested maps get string
    keys in place. *)
Definition plainPart (e : gmap string entryVal) : gmap string any :=
  omap (λ v, match v with Plain v => Some v | BlockRef _ => None end) e.
Definition refPart (e : gmap string entryVal) : gmap string entryVal :=
  omap (λ v, match v with Plain _ => None | BlockRef o => Some (BlockRef o) end) e.
Definition refsOf (e : gmap string entryVal) : gset ID :=
  list_to_set (omap (λ kv : string * entryVal, match kv.2 with BlockRef o => Some o | _ => None end) (map_to_list e)).
Definition copyEntry (r : discReceiver) : gmap string entryVal * discReceiver :=
  let e := ncontents (dr_Entry r) in
  (refPart e ∪ (Plain <$> IntfaceKeysToStrings (plainPart e)),
   {| dr_Rule := dr_Rule r;
      dr_Config := map_imap (λ o m, Some (if bool_decide (o ∈ refsOf e) then IntfaceKeysToStrings m else m)) (dr_Config r);
      dr_Enabled := dr_Enabled r; dr_Entry := dr_Entry r |}).

(** ** The receivers of one observer *)

Record prepState := {
  ps_Receivers : gmap ID discReceiver;
  ps_Unexpanded : gmap ID (gmap ID (gmap string entryVal));
}.

Definition addUnexpandedReceiverConfig (u : gmap ID (gmap ID (gmap string entryVal))) (receiverID observerID : ID)
    (cfg : gmap string entryVal) : gmap ID (gmap ID (gmap string entryVal)) :=
  <[receiverID := <[observerID := cfg]> (default ∅ (u !! receiverID))]> u.

(** What [getUnexpandedReceiverConfig] finds, as it reads now. *)
Definition getUnexpandedReceiverConfig (st : prepState) (receiverID observerID : ID) : option (gmap string any) :=
  m ← ps_Unexpanded st !! receiverID;
  e ← m !! observerID;
  r ← ps_Receivers st !! receiverID;
  Some (deref r e).

(** A boolean property, when it is one. *)
Definition enabledProperty (c : conf) (enabled : bool) : bool :=
  match ParseBool (ToLower (Sprint (Get c "enabled"))) with Ok b => b | Err _ => enabled end.

(** The entry with the receiver's properties merged, and whether it is enabled. *)
Definition withProperties (props : conf) (receiverID : ID) (r : discReceiver) (entry : gmap string entryVal) (enabled : bool)
    : res (gmap string entryVal * bool) :=
  if IsSet props (cid_String receiverID) then
    rp ← wrap_err "failed obtaining receiver properties config: %w" [] (Sub props (cid_String receiverID));
    let '(rp, enabled) :=
      if IsSet rp "enabled" then (NewFromStringMap (delete "enabled" (ToStringMap rp)), enabledProperty rp enabled)
      else (rp, enabled) in
    match Merge (NewFromStringMap (deref r entry)) rp with
    | (_, Some e) => Err (Wrapf "failed merging receiver %q properties config: %w" [cid_String receiverID] e)
    | (entryConf, None) => Ok (Plain <$> ToStringMap entryConf, enabled)
    end
  else Ok (entry, enabled).

(** One receiver for one observer: the state, and the receivers of the
    discovery receiver being configured. *)
Definition prepareReceiver (props : conf) (observerID : ID) (acc : prepState * gmap string any) (receiverID : ID)
    : res (prepState * gmap string any) :=
  let '(st, receivers) := acc in
  match ps_Receivers st !! receiverID with
  | None => Ok acc
  | Some receiver =>
      '(ok, receiver) ← updateReceiverForObserver receiverID receiver observerID;
      if negb ok then Ok ({| ps_Receivers := <[receiverID := receiver]> (ps_Receivers st); ps_Unexpanded := ps_Unexpanded st |}, receivers)
      else
        let '(entry, receiver) := copyEntry receiver in
        let st := {| ps_Receivers := <[receiverID := receiver]> (ps_Receivers st); ps_Unexpanded := ps_Unexpanded st |} in
        '(entry, enabled) ← withProperties props receiverID receiver entry (default true (dr_Enabled receiver));
        if negb enabled then Ok (st, receivers)
        else Ok ({| ps_Receivers := ps_Receivers st;
                    ps_Unexpanded := addUnexpandedReceiverConfig (ps_Unexpanded st) receiverID observerID entry |},
                 <[cid_String receiverID := AMap (deref receiver entry)]> receivers)
  end.

(** ** Observers share a receiver's default block *)

Lemma elem_of_refsOf e o : o ∈ refsOf e ↔ ∃ k, e !! k = Some (BlockRef o).
Proof.
  unfold refsOf. rewrite elem_of_list_to_set, list_elem_of_omap. split.
  - intros ([k v] & Hin%elem_of_map_to_list & Hv). cbn in Hv. destruct v; [done|]. injection Hv as ->. by exists k.
  - intros [k Hk]. exists (k, BlockRef o). by rewrite elem_of_map_to_list.
Qed.

(** Only [config] is a reference in the entry of a loaded receiver. *)
Definition plainEntry (e : gmap string entryVal) : Prop := ∀ k o, e !! k = Some (BlockRef o) → k = "config".

(** A receiver with a default block that the observer is to be added to. *)
Record shared (r : discReceiver) (o : ID) (d b : gmap string any) : Prop := {
  sh_rule : is_Some (dr_Rule r !! o);
  sh_default : dr_Config r !! defaultType = Some d;
  sh_block : dr_Config r !! o = Some b;
  sh_ne : o ≠ defaultType;
  sh_entry : ∃ e, dr_Entry r = Some e ∧ plainEntry e;
  sh_enabled : default true (dr_Enabled r) = true;
}.

Lemma update_shared rid r o d b m : shared r o d b → MergeMaps d b = Ok m →
  ∃ rule e, dr_Rule r !! o = Some rule ∧ dr_Entry r = Some e ∧ plainEntry e ∧
    updateReceiverForObserver rid r o = Ok (true, {| dr_Rule := dr_Rule r; dr_Config := <[defaultType := m]> (dr_Config r);
      dr_Enabled := dr_Enabled r; dr_Entry := Some (<["config" := BlockRef defaultType]> (<["rule" := Plain (AString rule)]> e)) |}).
Proof.
  intros [[rule Hr] Hd Hb Hne (e & He & Hp) Hen] Hm. exists rule, e. split_and!; try done.
  unfold updateReceiverForObserver. rewrite Hr, He. cbn [assign mbind res_bind]. unfold setEntry, setBlock. cbn [dr_Config dr_Rule dr_Enabled dr_Entry].
  rewrite Hd, Hb, bool_decide_eq_true_2 by done. cbn [assign mbind res_bind dr_Config dr_Rule dr_Enabled dr_Entry]. rewrite Hm. done.
Qed.

Lemma prepareReceiver_shared props o st raw rid r d b m :
  ps_Receivers st !! rid = Some r → shared r o d b → MergeMaps d b = Ok m → IsSet props (cid_String rid) = false →
  ∃ r' raw' e', prepareReceiver props o (st, raw) rid = Ok ({| ps_Receivers := <[rid := r']> (ps_Receivers st);
      ps_Unexpanded := addUnexpandedReceiverConfig (ps_Unexpanded st) rid o e' |}, raw') ∧
    e' !! "config" = Some (BlockRef defaultType) ∧ raw' !! cid_String rid = Some (AMap (deref r' e')) ∧
    dr_Config r' !! defaultType = Some (IntfaceKeysToStrings m) ∧
    (∀ o' b', o' ≠ o → shared r o' d b' → shared r' o' (IntfaceKeysToStrings m) b').
Proof.
  intros Hst Hsh Hm Hprops. destruct (update_shared rid r o d b m Hsh Hm) as (rule & e & Hrule & He & Hp & Hu).
  set (e1 := <["config" := BlockRef defaultType]> (<["rule" := Plain (AString rule)]> e)) in *.
  assert (Hrefs : ∀ x, x ∈ refsOf e1 ↔ x = defaultType).
  { intros x. rewrite elem_of_refsOf. split.
    - intros [k Hk]. destruct (decide (k = "config")) as [->|Hk1]; [unfold e1 in Hk; rewrite lookup_insert_eq in Hk; congruence|].
      unfold e1 in Hk. rewrite lookup_insert_ne in Hk by done. destruct (decide (k = "rule")) as [->|Hk2]; [by rewrite lookup_insert_eq in Hk|].
      rewrite lookup_insert_ne in Hk by done. by apply Hp in Hk.
    - intros ->. exists "config". apply lookup_insert_eq. }
  assert (Hp1 : plainEntry e1) by (intros k x Hk; destruct (decide (k = "config")); [done|]; unfold e1 in Hk; rewrite lookup_insert_ne in Hk by done;
    destruct (decide (k = "rule")) as [->|Hk2]; [by rewrite lookup_insert_eq in Hk|]; rewrite lookup_insert_ne in Hk by done; by apply Hp in Hk).
  unfold prepareReceiver. rewrite Hst, Hu. cbn [mbind res_bind negb]. unfold copyEntry. cbn [dr_Entry dr_Config dr_Rule dr_Enabled ncontents default].
  change (default ∅ (Some e1)) with e1. rewrite (sh_enabled _ _ _ _ Hsh).
  unfold withProperties. rewrite Hprops. cbn [mbind res_bind negb ps_Receivers ps_Unexpanded].
  eexists _, _, _. split; [reflexivity|]. split_and!.
  - apply lookup_union_Some_l. unfold refPart. rewrite lookup_omap.
    by rewrite (lookup_insert_eq _ "config" _ : e1 !! "config" = Some (BlockRef defaultType)).
  - apply lookup_insert_eq.
  - cbn [dr_Config]. rewrite map_lookup_imap, lookup_insert_eq. cbn. by rewrite bool_decide_eq_true_2 by by apply Hrefs.
  - intros o' b' Hne [Hr' Hd' Hb' Hne' _ _]. split; cbn [dr_Config dr_Rule dr_Enabled dr_Entry]; try done.
    + rewrite map_lookup_imap, lookup_insert_eq. cbn. by rewrite bool_decide_eq_true_2 by by apply Hrefs.
    + rewrite map_lookup_imap, lookup_insert_ne, Hb' by done. cbn. rewrite bool_decide_eq_false_2; [done|]. by intros ->%Hrefs.
    + by exists e1.
    + apply Hsh.
Qed.

Lemma getUnexpanded_add rs u rid r o e o' :
  getUnexpandedReceiverConfig {| ps_Receivers := <[rid := r]> rs; ps_Unexpanded := addUnexpandedReceiverConfig u rid o e |} rid o' =
  if decide (o' = o) then Some (deref r e)
  else match default ∅ (u !! rid) !! o' with Some e' => Some (deref r e') | None => None end.
Proof.
  unfold getUnexpandedReceiverConfig, addUnexpandedReceiverConfig. cbn [ps_Unexpanded ps_Receivers].
  rewrite !lookup_insert_eq. cbn [mbind option_bind]. case_decide as Ho.
  - subst. by rewrite lookup_insert_eq.
  - rewrite lookup_insert_ne by done. by destruct (default ∅ (u !! rid) !! o').
Qed.

(** The first observer of a receiver gets the receiver's default configuration
    with its own block merged in. *)
Lemma prepareReceiver_first props o st raw rid r d b m : 
  ps_Receivers st !! rid = Some r → shared r o d b → MergeMaps d b = Ok m → IsSet props (cid_String rid) = false →
  ∃ st' raw' entry, prepareReceiver props o (st, raw) rid = Ok (st', raw') ∧
    getUnexpandedReceiverConfig st' rid o = Some entry ∧ raw' !! cid_String rid = Some (AMap entry) ∧
    entry !! "config" = Some (AMap (IntfaceKeysToStrings m)).
Proof.
  intros Hst Hsh Hm Hp. destruct (prepareReceiver_shared props o st raw rid r d b m Hst Hsh Hm Hp) as (r' & raw' & e' & -> & Hc & Hraw & Hd & _).
  eexists _, _, (deref r' e'). split; [done|]. split_and!; [|done|].
  - by rewrite getUnexpanded_add, decide_True.
  - unfold deref. rewrite lookup_fmap, Hc. cbn. by rewrite Hd.
Qed.

(** When a second observer is prepared, its block is merged into the map that
    the first observer's entry refers to: the configuration recorded for the
    first observer changes, and has the settings of both. *)
Theorem observers_share_default_config (props : conf) (o1 o2 rid : ID) (st : prepState) (raw1 raw2 : gmap string any)
    (r : discReceiver) (d b1 b2 m1 m2 : gmap string any) :
  ps_Receivers st !! rid = Some r → o1 ≠ o2 → shared r o1 d b1 → shared r o2 d b2 → IsSet props (cid_String rid) = false →
  MergeMaps d b1 = Ok m1 → MergeMaps (IntfaceKeysToStrings m1) b2 = Ok m2 →
  ∃ st1 raw1' st2 raw2' e1 e1' e2,
    prepareReceiver props o1 (st, raw1) rid = Ok (st1, raw1') ∧ prepareReceiver props o2 (st1, raw2) rid = Ok (st2, raw2') ∧
    getUnexpandedReceiverConfig st1 rid o1 = Some e1 ∧ e1 !! "config" = Some (AMap (IntfaceKeysToStrings m1)) ∧
    getUnexpandedReceiverConfig st2 rid o1 = Some e1' ∧ e1' !! "config" = Some (AMap (IntfaceKeysToStrings m2)) ∧
    getUnexpandedReceiverConfig st2 rid o2 = Some e2 ∧ e2 !! "config" = Some (AMap (IntfaceKeysToStrings m2)).
Proof.
  intros Hst Hne Hs1 Hs2 Hp Hm1 Hm2.
  destruct (prepareReceiver_shared props o1 st raw1 rid r d b1 m1 Hst Hs1 Hm1 Hp) as (r1 & raw1' & ent1 & Hp1 & Hc1 & _ & Hd1 & Hnext).
  set (st1 := {| ps_Receivers := _; ps_Unexpanded := _ |}) in Hp1.
  assert (Hst1 : ps_Receivers st1 !! rid = Some r1) by apply lookup_insert_eq.
  destruct (prepareReceiver_shared props o2 st1 raw2 rid r1 _ b2 m2 Hst1 (Hnext o2 b2 ltac:(done) Hs2) Hm2 Hp) as (r2 & raw2' & ent2 & Hp2 & Hc2 & _ & Hd2 & _).
  eexists st1, raw1', _, raw2', (deref r1 ent1), (deref r2 ent1), (deref r2 ent2). split; [done|]. split; [done|].
  assert (Hl : ∀ (r : discReceiver) e m, e !! "config" = Some (BlockRef defaultType) → dr_Config r !! defaultType = Some m → deref r e !! "config" = Some (AMap m)).
  { intros r0 e m He Hr. unfold deref. rewrite lookup_fmap, He. cbn. by rewrite Hr. }
  assert (Hg1 : getUnexpandedReceiverConfig st1 rid o1 = Some (deref r1 ent1)) by (unfold st1; by rewrite getUnexpanded_add, decide_True).
  split; [done|]. split; [by apply Hl|]. split; [|split; [by apply Hl|]; split; [by rewrite getUnexpanded_add, decide_True | by apply Hl]].
  rewrite getUnexpanded_add, decide_False by done. unfold st1, addUnexpandedReceiverConfig. cbn [ps_Unexpanded].
  rewrite lookup_insert_eq. cbn [default]. unfold id. by rewrite lookup_insert_eq.
Qed.
End service.

(** ** Observers *)

Definition observerTypes : list string := ["docker_observer"; "host_observer"; "k8s_observer"; "ecs_task_observer"].

Section discover.
Context `{ConfigYaml} `{IDRange} `{C : Confmap} `{FloatText} `{!Components} `{Pdata} `{PropertyParsers} `{MapRange}.

Inductive creation := Created | Disabled | NotCreated (e : error).

Definition factoryForObserverType (t : string) : option error :=
  if existsb (String.eqb t) observerTypes then None
  else Some (Errorf "unsupported discovery observer %q. Please remove its .discovery.yaml from your config directory" [t]).

(** Whether the directory's entry enables the observer. *)
Definition entryEnabled (observers : gmap ID ObserverEntry) (id : ID) : bool :=
  match observers !! id with
  | Some o => default true (o_Enabled o)
  | None => true
  end.
Definition entryConfig (observers : gmap ID ObserverEntry) (id : ID) : gmap string any :=
  match observers !! id with Some o => Entry_ToStringMap (o_Config o) | None => Entry_ToStringMap None end.

(** The observers with the properties of this one merged, and its configuration. *)
Definition observerWithProperties (propertiesConf : conf) (observers : gmap ID ObserverEntry) (id : ID)
    : res (gmap ID ObserverEntry * conf) :=
  let discoveryConf := NewFromStringMap (entryConfig observers id) in
  if IsSet propertiesConf "extensions" then
    props ← wrap_err "failed obtaining extensions properties config: %w" [] (Sub propertiesConf "extensions");
    if IsSet props (cid_String id) then
      observerProperties ← wrap_err "failed obtaining observer properties: %w" [] (Sub props (cid_String id));
      config ← wrap_err "failed obtaining observer properties config: %w" [] (Sub observerProperties "config");
      let enabled := if IsSet observerProperties "enabled" then enabledProperty observerProperties (entryEnabled observers id)
                     else entryEnabled observers id in
      match Merge discoveryConf config with
      | (_, Some e) => Err (Wrapf "failed merging observer properties config: %w" [] e)
      | (discoveryConf, None) =>
          Ok (<[id := {| o_Enabled := Some enabled; o_Config := Some (ToStringMap discoveryConf); o_Entry := None |}]> observers, discoveryConf)
      end
    else Ok (observers, discoveryConf)
  else Ok (observers, discoveryConf).

Definition createObserver (propertiesConf : conf) (observers : gmap ID ObserverEntry) (id : ID) : gmap ID ObserverEntry * creation :=
  match factoryForObserverType (ID_Type id) with
  | Some e => (observers, NotCreated e)
  | None =>
      match observerWithProperties propertiesConf observers id with
      | Err e => (observers, NotCreated e)
      | Ok (observers, discoveryConf) =>
          (observers,
           if negb (entryEnabled observers id) then Disabled
           else match (c ← wrap_err "error converting environment variables in %q config: %w" [cid_String id] (expandConf discoveryConf);
                       oc ← wrap_err "failed unmarshaling %q config: %w" [cid_String id] (UnmarshalObserver id c);
                       wrap_err "failed creating %q extension: %w" [cid_String id] (CreateExtension id oc)) with
                | Ok _ => Created
                | Err e => NotCreated e
                end)
      end
  end.

(** ** createDiscoveryReceiversAndObservers *)

Record discState := {
  ds_Observers : gmap ID ObserverEntry;   (* cfg.DiscoveryObservers *)
  ds_Prep : prepState;                    (* cfg.ReceiversToDiscover, unexpandedReceiverEntries *)
  ds_Created : list ID;                   (* discoveryObservers, in order of creation *)
  ds_Receivers : list ID;                 (* discoveryReceivers, named by their observers *)
}.

Definition receiverProps (propertiesConf : conf) : res conf :=
  if IsSet propertiesConf "receivers" then
    wrap_err "failed obtaining receivers properties config: %w" [] (Sub propertiesConf "receivers")
  else Ok (NewFromStringMap ∅).

(** One iteration: an observer that cannot be created or is disabled is
    skipped, anything else that fails ends the call. *)
Definition prepareObserver (propertiesConf : conf) (st : discState) (observerID : ID) : res discState :=
  match createObserver propertiesConf (ds_Observers st) observerID with
  | (obs, NotCreated _) | (obs, Disabled) =>
      Ok {| ds_Observers := obs; ds_Prep := ds_Prep st; ds_Created := ds_Created st; ds_Receivers := ds_Receivers st |}
  | (obs, Created) =>
      props ← receiverProps propertiesConf;
      '(prep, receivers) ← foldM_res (prepareReceiver props observerID) (ds_Prep st, ∅) (rangeID (ps_Receivers (ds_Prep st))).*1;
      c ← wrap_err "error preparing discovery receiver config: %w" [] (resolveConf {["receivers" := AMap receivers]});
      rc ← wrap_err "failed unmarshaling discovery receiver config: %w" [] (UnmarshalReceiver c);
      _ ← wrap_err "failed creating discovery receiver: %w" [] (CreateLogsReceiver observerID rc);
      Ok {| ds_Observers := obs; ds_Prep := prep; ds_Created := ds_Created st ++ [observerID];
            ds_Receivers := ds_Receivers st ++ [observerID] |}
  end.

Definition observersForDiscoveryMode (observers : gmap ID ObserverEntry) : list ID := (rangeID observers).*1.

Definition createDiscoveryReceiversAndObservers (propertiesConf : conf) (observers : gmap ID ObserverEntry)
    (receivers : gmap ID ReceiverToDiscoverEntry) (unexpanded : gmap ID (gmap ID (gmap string entryVal))) : res discState :=
  foldM_res (prepareObserver propertiesConf)
    {| ds_Observers := observers; ds_Prep := {| ps_Receivers := ofReceiver <$> receivers; ps_Unexpanded := unexpanded |};
       ds_Created := []; ds_Receivers := [] |}
    (observersForDiscoveryMode observers).

(** ** What preparing the observers gives *)

Lemma createObserver_frame props obs id id' : id' ≠ id → (createObserver props obs id).1 !! id' = obs !! id'.
Proof.
  intros Hne. unfold createObserver. destruct (factoryForObserverType _); [done|].
  unfold observerWithProperties. destruct (IsSet props "extensions"); [|done].
  destruct (Sub props "extensions") as [p|]; [|done]. cbn [wrap_err mbind res_bind].
  destruct (IsSet p (cid_String id)); [|done]. destruct (Sub p (cid_String id)) as [op|]; [|done]. cbn [wrap_err mbind res_bind].
  destruct (Sub op "config") as [oc|]; [|done]. cbn [wrap_err mbind res_bind].
  destruct (Merge _ oc) as [c [e|]]; [done|]. cbn [fst]. by rewrite lookup_insert_ne.
Qed.

Lemma createObserver_created props obs id obs' : createObserver props obs id = (obs', Created) →
  ID_Type id ∈ observerTypes ∧ entryEnabled obs' id = true.
Proof.
  unfold createObserver, factoryForObserverType. destruct (existsb _ observerTypes) eqn:Ht; [|done].
  apply existsb_elem in Ht as (t & Hin & <-%String.eqb_eq).
  destruct (observerWithProperties _ _ _) as [[o c]|]; [|done]. intros [= -> Hc]. split; [done|].
  by destruct (entryEnabled obs' id).
Qed.

(** The observers created so far: enabled, of a supported type, each with its
    discovery receiver. *)
Definition prepared (todo : list ID) (st : discState) : Prop :=
  ds_Receivers st = ds_Created st ∧ NoDup (ds_Created st) ∧
  ∀ id, id ∈ ds_Created st → id ∉ todo ∧ ID_Type id ∈ observerTypes ∧ entryEnabled (ds_Observers st) id = true.

Lemma prepareObserver_prepared props id todo st st' : id ∉ todo → prepared (id :: todo) st → prepareObserver props st id = Ok st' →
  prepared todo st' ∧ (∀ x, x ∈ ds_Created st' → x ∈ ds_Created st ∨ x = id).
Proof.
  intros Hid (Hr & Hnd & Hall) Hp. unfold prepareObserver in Hp.
  pose proof (createObserver_frame props (ds_Observers st) id) as Hfr.
  pose proof (createObserver_created props (ds_Observers st) id) as Hcr.
  destruct (createObserver props (ds_Observers st) id) as [obs c]. cbn [fst] in Hfr.
  assert (Hold : ∀ x, x ∈ ds_Created st → x ∉ todo ∧ ID_Type x ∈ observerTypes ∧ entryEnabled obs x = true).
  { intros x Hx. destruct (Hall x Hx) as (Hn & Ht & He). apply not_elem_of_cons in Hn as [Hne Hn].
    unfold entryEnabled in *. by rewrite Hfr. }
  destruct c.
  - apply bind_ok_inv in Hp as (p & _ & ([prep recs] & _ & (c & _ & (rc & _ & (u & _ & [= <-])%bind_ok_inv)%bind_ok_inv)%bind_ok_inv)%bind_ok_inv).
    destruct (Hcr obs eq_refl) as [Ht He]. unfold prepared. cbn [ds_Receivers ds_Created ds_Observers]. split; [|set_solver].
    split_and!; [by rewrite Hr| |].
    + apply NoDup_app. split_and!; [done| |apply NoDup_singleton]. intros x Hx ->%list_elem_of_singleton.
      apply Hall in Hx as [Hn _]. set_solver.
    + intros x [Hx| ->%list_elem_of_singleton]%elem_of_app; [by apply Hold | done].
  - injection Hp as <-. split; [done|]. cbn. auto.
  - injection Hp as <-. split; [done|]. cbn. auto.
Qed.

(** The observers that discovery runs are among those configured, enabled, of a
    supported type, and each has exactly one discovery receiver. *)
Theorem created_observers (props : conf) (observers : gmap ID ObserverEntry) (recs : gmap ID ReceiverToDiscoverEntry)
    (unexpanded : gmap ID (gmap ID (gmap string entryVal))) (st : discState) :
  createDiscoveryReceiversAndObservers props observers recs unexpanded = Ok st →
  ds_Receivers st = ds_Created st ∧ NoDup (ds_Created st) ∧
  ∀ id, id ∈ ds_Created st → is_Some (observers !! id) ∧ ID_Type id ∈ observerTypes ∧ entryEnabled (ds_Observers st) id = true.
Proof.
  unfold createDiscoveryReceiversAndObservers, observersForDiscoveryMode. intros Hf.
  assert (Hg : ∀ todo s, NoDup todo → prepared todo s → foldM_res (prepareObserver props) s todo = Ok st →
    prepared [] st ∧ (∀ x, x ∈ ds_Created st → x ∈ ds_Created s ∨ x ∈ todo)).
  { intros todo. induction todo as [|id todo IH]; intros s Hnd Hs; cbn [foldM_res]; [intros [= <-]; auto|].
    apply NoDup_cons in Hnd as [Hid Hnd]. destruct (prepareObserver props s id) as [s1|] eqn:Hp; [|done]. intros Hl.
    destruct (prepareObserver_prepared _ _ _ _ _ Hid Hs Hp) as [Hs1 Hsub]. destruct (IH s1 Hnd Hs1 Hl) as [Hq1 Hq2].
    split; [done|]. intros x Hx. rewrite elem_of_cons. apply Hq2 in Hx as [Hx|]; [apply Hsub in Hx as [|]; auto | auto]. }
  apply Hg in Hf as [(Hr & Hnd & Hall) Hsub].
  - split_and!; [done|done|]. intros id Hid. destruct (Hall id Hid) as (_ & Ht & He). split_and!; [|done|done].
    apply Hsub in Hid as [Hid|Hid]; [by apply elem_of_nil in Hid|].
    apply list_elem_of_fmap in Hid as ([k v] & -> & Hv%elem_of_rangeID). by eexists.
  - apply NoDup_rangeID.
  - split_and!; [done|constructor|]. intros id []%elem_of_nil.
Qed.

(** ** Running the service *)

Inductive runEvent := StartObserver (id : ID) | StartReceiver (id : ID) | Wait | StopReceiver (id : ID) | StopObserver (id : ID).

(** The calls [discover] makes on the components, whose errors are only
    logged; maps are ranged over anew for each loop. *)
Definition runComponents (order : list ID → list ID) (observers receivers : list ID) : list runEvent :=
  map StartObserver (order observers) ++ map StartReceiver (order receivers) ++ [Wait] ++
  map StopReceiver (order receivers) ++ map StopObserver (order observers).

(** [confmap.Conf.Merge] with its error. *)
Definition mergeConf (format : string) (args : list string) (c : conf) (m : gmap string any) : res conf :=
  match Merge c (NewFromStringMap m) with
  | (c, None) => Ok c
  | (_, Some e) => Err (Wrapf format args e)
  end.

Definition creatorKey : string := "receiver_creator/discovery".

Definition addReceiver (configs : gmap ID (gmap string any)) (acc : conf * bool) (kv : ID * string) : res (conf * bool) :=
  let '(dCfg, receiverAdded) := acc in
  if negb (String.eqb kv.2 Successful) then Ok acc
  else match configs !! kv.1 with
       | None => Ok acc
       | Some m =>
           c ← mergeConf "failure adding receiver entry to suggested config: %w" [] dCfg {["receivers" := AMap {[creatorKey := AMap m]}]};
           Ok (c, true)
       end.

Definition addObserver (cfg : gmap ID ObserverEntry) (acc : conf * list string) (kv : ID * string) : res (conf * list string) :=
  let '(ext, observers) := acc in
  if String.eqb kv.2 Failed then Ok acc
  else match cfg !! kv.1 with
       | None => Ok acc
       | Some o =>
           c ← mergeConf "failure merging %q with suggested config: %w" [cid_String kv.1] ext
                 {["extensions" := AMap {[cid_String kv.1 := AMap (Entry_ToStringMap (o_Config o))]}]};
           Ok (c, observers ++ [cid_String kv.1])
       end.

Definition DiscoReceiversKey : string := "receivers/splunk.discovery".
Definition DiscoExtensionsKey : string := "extensions/splunk.discovery".

Definition discoveryConfig (cfg : gmap ID ObserverEntry) (st : logState) : res (gmap string any) :=
  '(dCfg, receiverAdded) ← foldM_res (addReceiver (discoveredConfig st)) (NewFromStringMap ∅, false) (rangeID (discoveredReceivers st));
  dCfg ← (if receiverAdded : bool then
            mergeConf "failed forming suggested discovery receivers array: %w" [] dCfg
              {["service" := AMap {[DiscoReceiversKey := AStrings [creatorKey]]}]}
          else Ok dCfg);
  '(extensions, observers) ← foldM_res (addObserver cfg) (NewFromStringMap {["extensions" := AMap ∅]}, []) (rangeID (discoveredObservers st));
  dCfg ← (if length observers =? 0 then Ok dCfg
          else
            let observers := sortStrings observers in
            mergeConf "failed forming suggested discovery observer extensions array: %w" [] dCfg
              {["receivers" := AMap {[creatorKey := AMap {["watch_observers" := AStrings observers]}]};
                "service" := AMap {[DiscoExtensionsKey := AStrings observers]}]});
  match Merge dCfg extensions with
  | (c, None) => Ok (ToStringMap c)
  | (_, Some e) => Err (Wrapf "failed merging discovery observer extensions: %w" [] e)
  end.

(** ** Properties *)

Definition durationEnvVar : text := runes "SPLUNK_DISCOVERY_DURATION".
Definition logLevelEnvVar : text := runes "SPLUNK_DISCOVERY_LOG_LEVEL".

(** Text before and after the first [=]; [None] when there is no value. *)
Fixpoint splitEquals (s : text) : option (text * text) :=
  match s with
  | [] => None
  | c :: s =>
      if (c =? 61)%Z then match s with [] => None | _ => Some ([], s) end
      else '(k, v) ← splitEquals s; Some (c :: k, v)
  end.

Definition propertyFromEnv (propertiesConf : conf) (env : text) : conf :=
  match splitEquals env with
  | None => propertiesConf
  | Some (envVar, val) =>
      if bool_decide (envVar = logLevelEnvVar) || bool_decide (envVar = durationEnvVar) then propertiesConf
      else match NewPropertyFromEnvVar envVar (utf8 val) with
           | Some (Ok p) => (Merge propertiesConf (NewFromStringMap (stringMap p))).1
           | _ => propertiesConf
           end
  end.
Definition propertiesConfFromEnv (environ : list text) : conf := foldl propertyFromEnv (NewFromStringMap ∅) environ.

(** The configuration after merging a properties file below what is set already. *)
Definition mergeDiscoveryPropertiesEntry (unmarshal : conf → res File) (propertiesConf : conf) (properties : EntryMap) : res conf :=
  '(c, _) ← LoadConf unmarshal (Entry_ToStringMap properties);
  match Merge c propertiesConf with
  | (c, None) => Ok c
  | (_, Some e) => Err e
  end.

Definition parsedProperty (propertiesConf : conf) (rawProperty : text) : res conf :=
  match splitEquals rawProperty with
  | None => Err (Errorf "invalid discovery property %q not of form <property>=<value>" [utf8 rawProperty])
  | Some (property, val) =>
      prop ← wrap_err "invalid discovery property: %w" [] (NewProperty property (utf8 val));
      Ok (Merge propertiesConf (NewFromStringMap (stringMap prop))).1
  end.

(** ** discover *)

(** What the discoverer keeps between calls. *)
Record discoverer := {
  d_propertiesConf : conf;
  d_propertiesFileSpecified : bool;
  d_unexpanded : gmap ID (gmap ID (gmap string entryVal));
  d_logs : logState;
}.
Definition setProps (d : discoverer) (c : conf) : discoverer := {|
  d_propertiesConf := c; d_propertiesFileSpecified := d_propertiesFileSpecified d; d_unexpanded := d_unexpanded d; d_logs := d_logs d |}.

Context `{Engines} (UnmarshalText : string → res ID) (unmarshalFile : conf → res File).

(** The batches of logs the discovery receivers emit while they run: an error
    of one call is the receiver's, the state stays. *)
Definition consumeAll (prep : prepState) (st : logState) (batches : list (list resourceLogs)) : logState :=
  foldl (λ st ld, (ConsumeLogs UnmarshalText (getUnexpandedReceiverConfig prep) st ld).1) st batches.

(** The discoverer after the call, with the discovered configuration; [None] is
    the nil map of a configuration without observers.  [batches] are the logs
    emitted during the run. *)
Definition discover (d : discoverer) (cfg : Config) (batches : list (list resourceLogs)) : discoverer * res (option (gmap string any)) :=
  match (if d_propertiesFileSpecified d then Ok (d_propertiesConf d)
         else wrap_err "failed reconciling properties.discovery: %w" []
                (mergeDiscoveryPropertiesEntry unmarshalFile (d_propertiesConf d) (DiscoveryProperties cfg))) with
  | Err e => (d, Err e)
  | Ok props =>
      let d := setProps d props in
      match createDiscoveryReceiversAndObservers props (ncontents (DiscoveryObservers cfg)) (ncontents (ReceiversToDiscover cfg)) (d_unexpanded d) with
      | Err e => (d, Err e)
      | Ok st =>
          if length (ds_Created st) =? 0 then (d, Ok None)
          else
            let logs := consumeAll (ds_Prep st) (d_logs d) batches in
            ({| d_propertiesConf := props; d_propertiesFileSpecified := d_propertiesFileSpecified d;
                d_unexpanded := ps_Unexpanded (ds_Prep st); d_logs := logs |},
             Some <$> wrap_err "failed constructing discovery config: %w" [] (discoveryConfig (ds_Observers st) logs))
      end
  end.

(** ** provider.go *)

Definition discoveryModeScheme : string := "splunk.discovery".
Definition propertyScheme : string := "splunk.property".
Definition propertiesFileScheme : string := "splunk.properties".
Definition configDScheme : string := "splunk.configd".

(** Files: the directory of a path, the bundle, and [errors.Is(_, ErrNotExist)]. *)
Context (DirFS : string → FS) (BundledFS : FS) (isNotExist : error → bool).
(** [filepath.Dir] and [filepath.Base] *)
Context (Dir Base : string → string).

Record mapProvider := {
  mp_configs : gmap string Config;
  mp_discoverer : discoverer;
  mp_retrieved : option (option (gmap string any));
}.
Definition setDiscoverer (m : mapProvider) (d : discoverer) : mapProvider :=
  {| mp_configs := mp_configs m; mp_discoverer := d; mp_retrieved := mp_retrieved m |}.
Definition setConfigs (m : mapProvider) (c : gmap string Config) : mapProvider :=
  {| mp_configs := c; mp_discoverer := mp_discoverer m; mp_retrieved := mp_retrieved m |}.

Definition loadPropertiesFile (m : mapProvider) (path : string) : mapProvider * res (option (gmap string any)) :=
  match (propertiesCfg ← LoadProperties NewConfig (DirFS (Dir path)) (Base path);
         mergeDiscoveryPropertiesEntry unmarshalFile (d_propertiesConf (mp_discoverer m)) (DiscoveryProperties propertiesCfg)) with
  | Err e => (m, Err e)
  | Ok c => (setDiscoverer m {| d_propertiesConf := c; d_propertiesFileSpecified := true;
                                d_unexpanded := d_unexpanded (mp_discoverer m); d_logs := d_logs (mp_discoverer m) |}, Ok None)
  end.

Definition newConfig (alreadyLoaded : bool) : Config := {|
  Service := Some ∅; Exporters := Some ∅; Extensions := Some ∅; DiscoveryObservers := Some ∅; Processors := Some ∅;
  Receivers := Some ∅; ReceiversToDiscover := Some ∅; DiscoveryProperties := Some ∅; propertiesAlreadyLoaded := alreadyLoaded |}.

(** The configuration of a directory, loaded once. *)
Definition configFor (m : mapProvider) (uriVal : string) : mapProvider * res Config :=
  if String.eqb uriVal "" then (m, Ok NewConfig)
  else match mp_configs m !! uriVal with
       | Some cfg => (m, Ok cfg)
       | None =>
           match LoadFS (newConfig (d_propertiesFileSpecified (mp_discoverer m))) (DirFS uriVal) with
           | (cfg, None) => (setConfigs m (<[uriVal := cfg]> (mp_configs m)), Ok cfg)
           | (_, Some e) =>
               if String.eqb uriVal "/etc/otel/collector/config.d" && isNotExist e then
                 (setConfigs m (<[uriVal := NewConfig]> (mp_configs m)), Ok NewConfig)
               else (m, Err e)
           end
       end.

Definition bundledConfig (m : mapProvider) : res Config :=
  match mp_configs m !! "<bundled>" with
  | Some cfg => Ok cfg
  | None => match LoadFS NewConfig BundledFS with (cfg, None) => Ok cfg | (_, Some e) => Err e end
  end.

(** Discovery mode, once the directory's configuration is at hand: the merged
    configurations replace those in the provider's table. *)
Definition discoverWith (m : mapProvider) (uriVal : string) (cfg : Config) (batches : list (list resourceLogs))
    : mapProvider * res (option (gmap string any)) :=
  match mp_retrieved m with
  | Some r => (m, Ok r)
  | None =>
      match bundledConfig m with
      | Err e => (m, Err e)
      | Ok bundled =>
          match wrap_err "failed merging user and bundled discovery configs: %w" [] (mergeConfigWithBundle cfg bundled) with
          | Err e => (setConfigs m (<["<bundled>" := bundled]> (mp_configs m)), Err e)
          | Ok (cfg, bundled) =>
              let configs := <["<bundled>" := bundled]> (mp_configs m) in
              let configs := if String.eqb uriVal "" then configs else <[uriVal := cfg]> configs in
              let '(d, r) := discover (mp_discoverer m) cfg batches in
              match wrap_err "failed to successfully discover target services: %w" [] r with
              | Err e => ({| mp_configs := configs; mp_discoverer := d; mp_retrieved := None |}, Err e)
              | Ok c => ({| mp_configs := configs; mp_discoverer := d; mp_retrieved := Some c |}, Ok c)
              end
          end
      end
  end.

Definition retrieve (scheme : string) (m : mapProvider) (uri : string) (batches : list (list resourceLogs))
    : mapProvider * res (option (gmap string any)) :=
  let schemePrefix := scheme +:+ ":" in
  if negb (HasPrefix uri schemePrefix) then (m, Err (Errorf "uri %q is not supported by %s provider" [uri; scheme]))
  else
    let uriVal := sdrop (slen schemePrefix) uri in
    if String.eqb scheme propertiesFileScheme then loadPropertiesFile m uriVal
    else if String.eqb scheme propertyScheme then
      match parsedProperty (d_propertiesConf (mp_discoverer m)) (decodeUTF8 uriVal) with
      | Err e => (m, Err e)
      | Ok c => (setDiscoverer m (setProps (mp_discoverer m) c), Ok None)
      end
    else
      match configFor m uriVal with
      | (m, Err e) => (m, Err e)
      | (m, Ok cfg) =>
          if HasPrefix uri configDScheme then (m, Ok (Some (toServiceConfig cfg)))
          else if HasPrefix uri discoveryModeScheme then discoverWith m uriVal cfg batches
          else (m, Err (Errorf "unsupported %s scheme %q" [scheme; uri]))
      end.

(** ** Priority of properties *)

(** What [Merge] documents: the keys of its argument are set to its values. *)
Definition merges_over : Prop := ∀ a b k,
  (Merge a b).2 = None → k ∈ AllKeys b → k ∈ AllKeys (Merge a b).1 ∧ Get (Merge a b).1 k = Get b k.

(** [--set] properties win over a properties file, also over one loaded later. *)
Theorem set_property_survives_file (m m1 m2 : mapProvider) (rawProperty path : string) (b1 b2 : list (list resourceLogs))
    (property val : text) (p : Property) (k : string) :
  merges_over →
  retrieve propertyScheme m (propertyScheme +:+ ":" +:+ rawProperty) b1 = (m1, Ok None) →
  splitEquals (decodeUTF8 rawProperty) = Some (property, val) → NewProperty property (utf8 val) = Ok p →
  (Merge (d_propertiesConf (mp_discoverer m)) (NewFromStringMap (stringMap p))).2 = None →
  retrieve propertiesFileScheme m1 (propertiesFileScheme +:+ ":" +:+ path) b2 = (m2, Ok None) →
  k ∈ AllKeys (NewFromStringMap (stringMap p)) →
  Get (d_propertiesConf (mp_discoverer m2)) k = Get (NewFromStringMap (stringMap p)) k.
Proof.
  intros Hover Hq1 Hsplit Hp Hmerge Hq2 Hk. unfold retrieve in Hq1, Hq2.
  change (propertyScheme +:+ ":" +:+ rawProperty) with ((propertyScheme +:+ ":") +:+ rawProperty) in Hq1.
  change (propertiesFileScheme +:+ ":" +:+ path) with ((propertiesFileScheme +:+ ":") +:+ path) in Hq2.
  rewrite HasPrefix_app, sdrop_app in Hq1, Hq2. cbn [negb] in Hq1, Hq2. 
  change (String.eqb propertyScheme propertiesFileScheme) with false in Hq1. change (String.eqb propertyScheme propertyScheme) with true in Hq1.
  change (String.eqb propertiesFileScheme propertiesFileScheme) with true in Hq2. cbv iota in Hq1, Hq2.
  unfold parsedProperty in Hq1. rewrite Hsplit, Hp in Hq1. cbn [wrap_err mbind res_bind] in Hq1. injection Hq1 as <-.
  unfold loadPropertiesFile in Hq2. cbn [mp_discoverer setDiscoverer setProps d_propertiesConf] in Hq2.
  destruct (Hover _ _ _ Hmerge Hk) as [Hin Hget]. set (c1 := (Merge _ _).1) in *.
  destruct (LoadProperties _ _ _) as [pc|]; [|done]. cbn [mbind res_bind] in Hq2. unfold mergeDiscoveryPropertiesEntry in Hq2.
  destruct (LoadConf _ _) as [[fc w]|]; [|done]. cbn [mbind res_bind] in Hq2.
  pose proof (Hover fc c1 k) as Hm. destruct (Merge fc c1) as [c2 [e|]]; [done|]. injection Hq2 as <-.
  cbn [mp_discoverer setDiscoverer d_propertiesConf]. rewrite <-Hget. by apply Hm.
Qed.

(** The discovered configuration is computed once: a later retrieval returns
    it, whatever its directory, and discovers nothing. *)
Theorem discovery_memoised (m m1 m2 : mapProvider) (val1 val2 : string) (b1 b2 : list (list resourceLogs)) (r : option (gmap string any)) (r2 : res (option (gmap string any))) :
  retrieve discoveryModeScheme m (discoveryModeScheme +:+ ":" +:+ val1) b1 = (m1, Ok r) →
  retrieve discoveryModeScheme m1 (discoveryModeScheme +:+ ":" +:+ val2) b2 = (m2, r2) →
  mp_discoverer m2 = mp_discoverer m1 ∧ (r2 = Ok r ∨ ∃ e, (configFor m1 val2).2 = Err e ∧ r2 = Err e).
Proof.
  assert (Hre : ∀ m v b, retrieve discoveryModeScheme m (discoveryModeScheme +:+ ":" +:+ v) b =
    match configFor m v with (m, Err e) => (m, Err e) | (m, Ok cfg) => discoverWith m v cfg b end).
  { intros m0 v b. unfold retrieve. change (discoveryModeScheme +:+ ":" +:+ v) with ((discoveryModeScheme +:+ ":") +:+ v).
    rewrite HasPrefix_app, sdrop_app. cbn [negb].
    change (String.eqb discoveryModeScheme propertiesFileScheme) with false. change (String.eqb discoveryModeScheme propertyScheme) with false. cbv iota.
    rewrite append_assoc, HasPrefix_app. destruct (configFor m0 v) as [m' [cfg|e]]; [|done].
    replace (HasPrefix (discoveryModeScheme +:+ ":" +:+ v) configDScheme) with false by done. done. }
  assert (Hc : ∀ m v m' r, configFor m v = (m', r) → mp_discoverer m' = mp_discoverer m ∧ mp_retrieved m' = mp_retrieved m).
  { intros m0 v m' r0. unfold configFor. destruct (String.eqb v ""); [by intros [= <- <-]|].
    destruct (mp_configs m0 !! v); [by intros [= <- <-]|]. destruct (LoadFS _ _) as [c [e|]]; [|by intros [= <- <-]].
    destruct (_ && _); by intros [= <- <-]. }
  rewrite !Hre. intros Hq1 Hq2. assert (Hret : mp_retrieved m1 = Some r).
  { destruct (configFor m val1) as [m0 [cfg|e]]; [|done]. unfold discoverWith in Hq1.
    destruct (mp_retrieved m0) as [r0|] eqn:Hr; [congruence|]. destruct (bundledConfig m0); [|done].
    destruct (wrap_err _ _ _) as [[c1 c2]|]; [|done]. destruct (discover _ _ _) as [d rd]. destruct (wrap_err _ _ _); [|done]. by injection Hq1 as <- <-. }
  destruct (configFor m1 val2) as [m0 [cfg|e]] eqn:Hcf; apply Hc in Hcf as [Hd Hr]; cbn [snd].
  - unfold discoverWith in Hq2. rewrite Hr, Hret in Hq2. injection Hq2 as <- <-. auto.
  - injection Hq2 as <- <-. eauto.
Qed.
End discover.

(** ** Witnesses *)

Definition demo_o1 : ID := {| ID_Type := "host_observer"; ID_Name := "" |}.
Definition demo_o2 : ID := {| ID_Type := "docker_observer"; ID_Name := "" |}.
Definition demo_default : gmap string any := {["username" := AString "root"]}.
Definition demo_b1 : gmap string any := {["endpoint" := AString "host"]}.
Definition demo_b2 : gmap string any := {["endpoint" := AString "docker"; "tls" := ABool true]}.
Definition demo_shared : discReceiver := {|
  dr_Rule := {[demo_o1 := "r1"; demo_o2 := "r2"]};
  dr_Config := {[defaultType := demo_default; demo_o1 := demo_b1; demo_o2 := demo_b2]};
  dr_Enabled := None; dr_Entry := Some ∅ |}.
Definition demo_prep : prepState := {| ps_Receivers := {[demo_redis := demo_shared]}; ps_Unexpanded := ∅ |}.
Definition demo_props : gmap string any := ∅.
Definition demo_m1 : gmap string any := {["username" := AString "root"; "endpoint" := AString "host"]}.
Definition demo_m2 : gmap string any := {["username" := AString "root"; "endpoint" := AString "docker"; "tls" := ABool true]}.

(** The settings for docker end up in the configuration recorded for the host. *)
Lemma observers_share_default_config_witness :
  ∃ st1 raw1' st2 raw2' e1',
    @prepareReceiver demo_configYaml flat_confmap (λ _, "") demo_props demo_o1 (demo_prep, ∅) demo_redis = Ok (st1, raw1') ∧
    @prepareReceiver demo_configYaml flat_confmap (λ _, "") demo_props demo_o2 (st1, ∅) demo_redis = Ok (st2, raw2') ∧
    getUnexpandedReceiverConfig st2 demo_redis demo_o1 = Some e1' ∧ e1' !! "config" = Some (AMap demo_m2).
Proof.
  destruct (@observers_share_default_config demo_configYaml flat_confmap (λ _, "") demo_props demo_o1 demo_o2 demo_redis demo_prep ∅ ∅
    demo_shared demo_default demo_b1 demo_b2 demo_m1 demo_m2) as (st1 & raw1 & st2 & raw2 & e1 & e1' & e2 & Hp1 & Hp2 & _ & _ & Hg & Hc & _);
    try reflexivity; try done.
  - split; try done; by exists ∅.
  - split; try done; by exists ∅.
  - by exists st1, raw1, st2, raw2, e1'.
Defined.

Definition demo_components : @Components flat_confmap := {|
  obsConfig := unit; expandConf c := Ok c; UnmarshalObserver _ _ := Ok (); CreateExtension _ _ := Ok ();
  recConfig := unit; resolveConf _ := Ok ∅; UnmarshalReceiver _ := Ok (); CreateLogsReceiver _ _ := Ok ();
|}.
#[local] Existing Instances demo_configYaml forward_rangeID flat_confmap demo_components demo_pdata demo_parsers forward_range.
#[local] Instance demo_floats : FloatText := λ _, "".

Definition demo_observers : gmap ID ObserverEntry :=
  {[demo_o1 := {| o_Enabled := None; o_Config := None; o_Entry := None |};
    demo_o2 := {| o_Enabled := Some false; o_Config := None; o_Entry := None |}]}.
Definition demo_receivers : gmap ID ReceiverToDiscoverEntry := {[demo_redis := demo_toDiscover "true" None]}.

Definition demo_create : res discState :=
  createDiscoveryReceiversAndObservers (demo_props : @conf flat_confmap) demo_observers demo_receivers ∅.
Example demo_create_ok : is_ok demo_create = true.
Proof. vm_compute. reflexivity. Qed.

Lemma created_observers_witness : ∃ st, demo_create = Ok st ∧ ds_Receivers st = ds_Created st ∧ NoDup (ds_Created st).
Proof.
  pose proof demo_create_ok as Hok. destruct demo_create as [st|e] eqn:He; [|discriminate Hok].
  exists st. split; [reflexivity|].
  destruct (created_observers (demo_props : @conf flat_confmap) demo_observers demo_receivers ∅ st He) as (Hr & Hnd & _).
  split; assumption.
Defined.

Lemma flat_merges_over : merges_over.
Proof.
  unfold merges_over. change (@conf flat_confmap) with (gmap string any).
  intros a b k _ Hk. change (k ∈ merge_sort String.le (elements (dom b))) in Hk.
  change (k ∈ merge_sort String.le (elements (dom (b ∪ a))) ∧ default ANil ((b ∪ a) !! k) = default ANil (b !! k)).
  rewrite merge_sort_Permutation, elem_of_elements, elem_of_dom in Hk |- *. destruct Hk as [v Hv].
  rewrite (lookup_union_Some_l b a k v Hv), Hv. split; [by eexists | done].
Qed.

Definition demo_provider : mapProvider := {|
  mp_configs := ∅; mp_retrieved := None;
  mp_discoverer := {| d_propertiesConf := (∅ : @conf flat_confmap); d_propertiesFileSpecified := false; d_unexpanded := ∅; d_logs := demo_noLogs |} |}.
Definition demo_set_text : string := "splunk.discovery.receivers.redis.enabled=false".
Definition demo_set_map : gmap string any := {["receivers" := AMap {["redis" := AMap {["enabled" := AString "false"]}]}]}.
Definition demo_set_prop : Property := {|
  stringMap := demo_set_map;
  p_ast := {| ast_ComponentType := ctReceivers; ast_CType := runes "redis"; ast_CName := []; ast_Type := ptEnabled; ast_Key := [] |};
  Val := "false"; Input := runes "splunk.discovery.receivers.redis.enabled" |}.
Definition demo_dirs (_ : string) : FS := {| visits := []; Open _ := Ok (Ok "") |}.
Definition demo_retrieve (scheme : string) (m : mapProvider) (uri : string) : mapProvider * res (option (gmap string any)) :=
  @retrieve demo_configYaml forward_rangeID flat_confmap demo_floats demo_components demo_pdata demo_parsers forward_range demo_engines
    (λ s, Ok (demo_type s)) (λ _, Ok demo_file) demo_dirs (demo_dirs "") (λ _, false) id id scheme m uri [].

Lemma set_property_survives_file_witness :
  Get (d_propertiesConf (mp_discoverer (demo_retrieve propertiesFileScheme
    (demo_retrieve propertyScheme demo_provider (propertyScheme +:+ ":" +:+ demo_set_text)).1 "splunk.properties:file").1)) "receivers" =
  AMap {["redis" := AMap {["enabled" := AString "false"]}]}.
Proof.
  rewrite (@set_property_survives_file demo_configYaml forward_rangeID flat_confmap demo_floats demo_components demo_pdata demo_parsers forward_range demo_engines
    (λ s, Ok (demo_type s)) (λ _, Ok demo_file) demo_dirs (demo_dirs "") (λ _, false) id id
    demo_provider (demo_retrieve propertyScheme demo_provider (propertyScheme +:+ ":" +:+ demo_set_text)).1
    (demo_retrieve propertiesFileScheme (demo_retrieve propertyScheme demo_provider (propertyScheme +:+ ":" +:+ demo_set_text)).1 "splunk.properties:file").1
    demo_set_text "file" [] [] (runes "splunk.discovery.receivers.redis.enabled") (runes "false") demo_set_prop "receivers" flat_merges_over);
    try reflexivity.
  assert (Hk : AllKeys (NewFromStringMap (stringMap demo_set_prop)) = ["receivers"]) by (vm_compute; reflexivity).
  rewrite Hk. left.
Defined.
