(* ===== verification/Telemetry.v ===== *)
(** * Telemetry data

    The parts of [pdata] (metrics, logs, spans) that the receivers and
    processors of the repository build and change, as records; Go's 64-bit
    integers and floats; [time.Time] and [time.ParseDuration].  Timestamps are
    unsigned 64-bit nanoseconds, durations signed ones. *)

From S2P Require Import Prelude GoStrings GoValue Settings.
From Stdlib Require Import Ascii.
#[local] Open Scope Z_scope.

(** ** Machine integers and floats *)

Definition u64 (z : Z) : Z := z mod 2 ^ 64.
Definition is_u64 (z : Z) : Prop := 0 <= z < 2 ^ 64.
Definition is_i64 (z : Z) : Prop := - 2 ^ 63 <= z < 2 ^ 63.

Lemma u64_range z : is_u64 (u64 z).
Proof. unfold is_u64, u64. apply Z.mod_pos_bound. lia. Qed.
Lemma u64_id z : is_u64 z → u64 z = z.
Proof. intros Hz. apply Z.mod_small. exact Hz. Qed.
Lemma wrap64_range z : is_i64 (wrap64 z).
Proof. unfold is_i64, wrap64. pose proof (Z.mod_pos_bound (z + 2 ^ 63) (2 ^ 64)). lia. Qed.

(** [wrap64] and [u64] pick representatives of the same class. *)
Lemma u64_add_wrap a b : u64 (wrap64 a + b) = u64 (a + b).
Proof.
  unfold u64, wrap64. rewrite <-(Zplus_mod_idemp_l a b), <-(Zplus_mod_idemp_l (_ - _) b). f_equal. f_equal.
  rewrite Zminus_mod, Zmod_mod, <-Zminus_mod. f_equal. lia.
Qed.
Lemma u64_wrap a : u64 (wrap64 a) = u64 a.
Proof. rewrite <-(Z.add_0_r (wrap64 a)), u64_add_wrap. f_equal. lia. Qed.
Lemma u64_add_u64 a b : u64 (u64 a + b) = u64 (a + b).
Proof. apply Zplus_mod_idemp_l. Qed.
Lemma wrap64_add_wrap a b : wrap64 (wrap64 a + b) = wrap64 (a + b).
Proof.
  unfold wrap64. f_equal. rewrite <-Z.add_assoc. 
  replace ((a + 2 ^ 63) mod 2 ^ 64 - 2 ^ 63 + (b + 2 ^ 63)) with ((a + 2 ^ 63) mod 2 ^ 64 + b) by lia.
  rewrite Zplus_mod_idemp_l. f_equal. lia.
Qed.

(** Conversions of binary64 numbers: [float64(z)], and the integer part towards
    zero, which [int64(f)] and [uint64(f)] give when it is in range. *)
Definition float_of_Z (z : Z) : float64 := binary_normalize 53 1024 z 0 false.
Definition truncZ (f : float64) : option Z :=
  match f with
  | S754_zero _ => Some 0
  | S754_finite s m e =>
      let a := if 0 <=? e then Z.pos m * 2 ^ e else Z.pos m / 2 ^ (- e) in
      Some (if s then - a else a)
  | _ => None
  end.
Definition is_nan (f : float64) : bool := match f with S754_nan => true | _ => false end.

(** The value that a conversion out of range gives is not defined by the
    language. *)
Class FloatOverflow := {
  int64_overflow : float64 → Z;
  int64_overflow_range f : is_i64 (int64_overflow f);
}.
Definition int64_of_float `{FloatOverflow} (f : float64) : Z :=
  match truncZ f with
  | Some z => if bool_decide (is_i64 z) then z else int64_overflow f
  | None => int64_overflow f
  end.

#[global] Instance is_i64_dec z : Decision (is_i64 z).
Proof. unfold is_i64. apply _. Defined.

Lemma int64_of_float_range `{FloatOverflow} f : is_i64 (int64_of_float f).
Proof. unfold int64_of_float. destruct (truncZ f) as [z|]; [case_bool_decide; [done|]|]; apply int64_overflow_range. Qed.

(** ** Time *)

(** A [time.Time] is its exact nanoseconds since the epoch. *)
Definition AsTime (ts : Z) : Z := wrap64 ts.
Definition UnixNano (t : Z) : Z := wrap64 t.
Definition NewTimestampFromTime (t : Z) : Z := u64 (UnixNano t).
Definition UnixMilli (ms : Z) : Z := ms * 1000000.

Definition isDigit (c : ascii) : bool := in_range "0" "9" c.
Definition digitVal (c : ascii) : Z := Z.of_N (N_of_ascii c) - 48.

(** [leadingInt]: [None] when the value overflows. *)
Fixpoint leadingInt (x : Z) (s : string) : option (Z * string) :=
  match s with
  | String c s' =>
      if isDigit c then
        if 2 ^ 63 / 10 <? x then None
        else let x := x * 10 + digitVal c in if 2 ^ 63 <? x then None else leadingInt x s'
      else Some (x, s)
  | EmptyString => Some (x, s)
  end.

(** [leadingFraction]: the digits that fit, the scale as a float, the rest. *)
Fixpoint leadingFraction (x : Z) (scale : float64) (overflow : bool) (s : string) : Z * float64 * string :=
  match s with
  | String c s' =>
      if isDigit c then
        if overflow then leadingFraction x scale true s'
        else if (2 ^ 63 - 1) / 10 <? x then leadingFraction x scale true s'
        else
          let y := x * 10 + digitVal c in
          if 2 ^ 63 <? y then leadingFraction x scale true s'
          else leadingFraction y (SFmul 53 1024 scale (float_of_Z 10)) false s'
      else (x, scale, s)
  | EmptyString => (x, scale, s)
  end.

Fixpoint takeUnit (s : string) : string * string :=
  match s with
  | String c s' =>
      if Ascii.eqb c "." || isDigit c then (EmptyString, s)
      else let '(u, r) := takeUnit s' in (String c u, r)
  | EmptyString => (EmptyString, EmptyString)
  end.

(** [unitMap], with both spellings of the micro sign. *)
Definition microUnits : list string := ["us"; String "194" (String "181" "s"); String "206" (String "188" "s")].
Definition unitMap (u : string) : option Z :=
  if String.eqb u "ns" then Some 1
  else if existsb (String.eqb u) microUnits then Some 1000
  else if String.eqb u "ms" then Some 1000000
  else if String.eqb u "s" then Some 1000000000
  else if String.eqb u "m" then Some 60000000000
  else if String.eqb u "h" then Some 3600000000000
  else None.

(** [uint64(float64(f) * (float64(unit) / scale))] *)
Definition fractionOf (f unit : Z) (scale : float64) : Z :=
  u64 (default 0 (truncZ (SFmul 53 1024 (float_of_Z f) (SFdiv 53 1024 (float_of_Z unit) scale)))).

Definition invalidDuration {A} (orig : string) : res A := Err (Errorf "time: invalid duration %s" [orig]).

(** One number with its unit: its nanoseconds and the rest of the text. *)
Definition durationItem (orig s : string) : res (Z * string) :=
  match s with
  | EmptyString => invalidDuration orig
  | String c _ =>
      if negb (Ascii.eqb c "." || isDigit c) then invalidDuration orig
      else match leadingInt 0 s with
           | None => invalidDuration orig
           | Some (v, s1) =>
               let pre := negb (slen s1 =? slen s)%nat in
               let '(f, scale, s2, post) :=
                 match s1 with
                 | String "." s1' => let '(f, scale, s2) := leadingFraction 0 (float_of_Z 1) false s1' in (f, scale, s2, negb (slen s2 =? slen s1')%nat)
                 | _ => (0, float_of_Z 1, s1, false)
                 end%char in
               if negb pre && negb post then invalidDuration orig
               else match takeUnit s2 with
                    | (EmptyString, _) => Err (Errorf "time: missing unit in duration %s" [orig])
                    | (u, s3) =>
                        match unitMap u with
                        | None => Err (Errorf "time: unknown unit %s in duration %s" [u; orig])
                        | Some unit =>
                            if 2 ^ 63 / unit <? v then invalidDuration orig
                            else
                              let v := v * unit in
                              if 0 <? f then
                                let v := u64 (v + fractionOf f unit scale) in
                                if 2 ^ 63 <? v then invalidDuration orig else Ok (v, s3)
                              else Ok (v, s3)
                        end
                    end
           end
  end.

Fixpoint durationLoop (fuel : nat) (orig : string) (d : Z) (s : string) : res Z :=
  match s, fuel with
  | EmptyString, _ => Ok d
  | _, O => invalidDuration orig
  | _, S fuel =>
      '(v, s') ← durationItem orig s;
      let d := u64 (d + v) in
      if 2 ^ 63 <? d then invalidDuration orig else durationLoop fuel orig d s'
  end.

(** [time.ParseDuration]; every item consumes a byte, so the length of the
    text is fuel enough. *)
Definition ParseDuration (orig : string) : res Z :=
  let '(neg, s) := match orig with
                   | String "-" s => (true, s)
                   | String "+" s => (false, s)
                   | s => (false, s)
                   end%char in
  if String.eqb s "0" then Ok 0
  else if String.eqb s "" then invalidDuration orig
  else
    d ← durationLoop (slen s) orig 0 s;
    if neg then Ok (wrap64 (- d)) else if 2 ^ 63 - 1 <? d then invalidDuration orig else Ok d.

Example ParseDuration_1 : ParseDuration "-1h30m" = Ok (- 5400000000000). Proof. vm_compute. reflexivity. Qed.
Example ParseDuration_2 : ParseDuration "1.5s" = Ok 1500000000. Proof. vm_compute. reflexivity. Qed.
Example ParseDuration_3 : is_ok (ParseDuration "5") = false. Proof. vm_compute. reflexivity. Qed.
Example ParseDuration_4 : ParseDuration "-9223372036854775808ns" = Ok (- 2 ^ 63). Proof. vm_compute. reflexivity. Qed.
Example ParseDuration_5 : is_ok (ParseDuration "9223372036854775808ns") = false. Proof. vm_compute. reflexivity. Qed.

Lemma leadingInt_rest x s v s' : leadingInt x s = Some (v, s') → (slen s' <= slen s)%nat.
Proof.
  revert x. induction s as [|c s IH]; intros x; cbn -[Z.pow Z.div]; [by intros [= _ <-]|].
  destruct (isDigit c); [|by intros [= _ <-]]. destruct (_ <? x); [done|]. destruct (_ <? _); [done|].
  intros Hs. apply IH in Hs. lia.
Qed.

Lemma leadingFraction_rest x sc o s v sc' s' : leadingFraction x sc o s = (v, sc', s') → (slen s' <= slen s)%nat.
Proof.
  revert x sc o. induction s as [|c s IH]; intros x sc o; cbn -[Z.pow Z.div SFmul]; [by intros [= _ _ <-]|].
  destruct (isDigit c); [|by intros [= _ _ <-]]. repeat destruct_scrut; intros Hs; apply IH in Hs; lia.
Qed.

Lemma takeUnit_rest s u s' : takeUnit s = (u, s') → (slen u + slen s' = slen s)%nat.
Proof.
  revert u s'. induction s as [|c s IH]; intros u s'; cbn; [by intros [= <- <-]|].
  destruct (_ || _); [by intros [= <- <-]|]. destruct (takeUnit s) as [u1 r1]. intros [= <- <-]. cbn. specialize (IH u1 r1 eq_refl). lia.
Qed.

(** Every item takes at least its unit from the text. *)
Lemma durationItem_rest orig s v s' : durationItem orig s = Ok (v, s') → (slen s' < slen s)%nat.
Proof.
  unfold durationItem. destruct s as [|c s0]; [done|]. destruct (negb _); [done|].
  destruct (leadingInt 0 (String c s0)) as [[v1 s1]|] eqn:Hi; [|done]. apply leadingInt_rest in Hi.
  assert (Hf : ∀ t, t = match s1 with
                 | String "." s1' => let '(f, scale, s2) := leadingFraction 0 (float_of_Z 1) false s1' in (f, scale, s2, negb (slen s2 =? slen s1')%nat)
                 | _ => (0, float_of_Z 1, s1, false)
                 end%char → (slen t.1.2 <= slen s1)%nat).
  { intros t ->. destruct s1 as [|a s1']; [done|]. destruct (Ascii.eqb_spec a ".") as [->|Ha].
    - destruct (leadingFraction _ _ _ s1') as [[f sc] s2] eqn:Hl. apply leadingFraction_rest in Hl. cbn. lia.
    - destruct a as [[] [] [] [] [] [] [] []]; cbn; try lia; done. }
  destruct (match s1 with String _ _ => _ | _ => _ end) as [[[f sc] s2] post]. specialize (Hf _ eq_refl). cbn in Hf.
  destruct (negb _ && negb post); [done|]. destruct (takeUnit s2) as [u s3] eqn:Hu. apply takeUnit_rest in Hu.
  destruct u as [|a u]; [done|]. destruct (unitMap _); [|done]. destruct (_ <? _); [done|]. cbn in Hu.
  destruct (0 <? f); [destruct (_ <? _); [done|]|]; intros [= _ <-]; lia.
Qed.

(** The loop ends: fuel beyond the length of the text changes nothing. *)
Lemma durationLoop_fuel fuel orig d s : (slen s <= fuel)%nat → durationLoop fuel orig d s = durationLoop (slen s) orig d s.
Proof.
  revert d s. induction fuel as [fuel IH] using (well_founded_induction lt_wf). intros d s Hf.
  destruct s as [|c s]; [by destruct fuel|]. destruct fuel as [|fuel]; [cbn in Hf; lia|].
  change (slen (String c s)) with (S (slen s)). cbn [durationLoop]. cbn in Hf.
  destruct (durationItem orig (String c s)) as [[v s']|e] eqn:Hi; [|done]. cbn [mbind res_bind]. apply durationItem_rest in Hi. cbn in Hi.
  destruct (_ <? _); [done|]. rewrite (IH fuel), (IH (slen s)) by lia. done.
Qed.

Lemma durationLoop_range fuel orig d s r : 0 <= d <= 2 ^ 63 → durationLoop fuel orig d s = Ok r → 0 <= r <= 2 ^ 63.
Proof.
  revert d s. induction fuel as [|fuel IH]; intros d s Hd; destruct s as [|c s]; cbn [durationLoop]; try (by intros [= <-]).
  destruct (durationItem _ _) as [[v s']|]; [|done]. cbn [mbind res_bind]. destruct (Z.ltb_spec (2 ^ 63) (u64 (d + v))); [done|].
  apply IH. pose proof (u64_range (d + v)) as Hu. unfold is_u64 in Hu. lia.
Qed.

(** A duration that parses is one that fits 64 bits, at both ends. *)
Lemma ParseDuration_range s d : ParseDuration s = Ok d → is_i64 d.
Proof.
  unfold ParseDuration. destruct (match s with String _ _ => _ | _ => _ end) as [neg t].
  destruct (String.eqb t "0"); [intros [= <-]; unfold is_i64; lia|]. destruct (String.eqb t ""); [done|].
  intros (r & Hr & Hd)%bind_ok_inv. apply durationLoop_range in Hr; [|lia].
  destruct neg; [injection Hd as <-; apply wrap64_range|]. destruct (Z.ltb_spec (2 ^ 63 - 1) r); [done|]. injection Hd as <-. unfold is_i64. lia.
Qed.

(** ** Metrics, logs and spans *)

Inductive nvalue := NEmpty | NInt (z : Z) | NDouble (f : float64).
Record exemplar := { ex_Time : Z; ex_Value : nvalue; ex_Attrs : gmap string any }.
Record numberDP := {
  n_Attrs : gmap string any; n_Start : Z; n_Time : Z; n_Value : nvalue; n_Exemplars : list exemplar;
}.
Record histogramDP := {
  h_Attrs : gmap string any; h_Start : Z; h_Time : Z; h_Count : Z; h_Sum : option float64;
  h_Counts : list Z; h_Bounds : list float64; h_Exemplars : list exemplar;
}.
Record expHistogramDP := {
  e_Attrs : gmap string any; e_Start : Z; e_Time : Z; e_Count : Z; e_Sum : option float64; e_Exemplars : list exemplar;
}.
Record summaryDP := {
  s_Attrs : gmap string any; s_Start : Z; s_Time : Z; s_Count : Z; s_Sum : float64; s_Quantiles : list (float64 * float64);
}.
Inductive temporality := Unspecified | Delta | Cumulative.
Inductive metricData :=
| MEmpty
| MGauge (dps : list numberDP)
| MSum (t : temporality) (monotonic : bool) (dps : list numberDP)
| MHistogram (t : temporality) (dps : list histogramDP)
| MExpHistogram (t : temporality) (dps : list expHistogramDP)
| MSummary (dps : list summaryDP).
Record metric := { m_Name : string; m_Description : string; m_Data : metricData }.
Record scopeMetrics := { sm_Name : string; sm_Version : string; sm_Metrics : list metric }.
Record resourceMetrics := { rm_Attrs : gmap string any; rm_Scopes : list scopeMetrics }.

Record logRecord := { lr_Time : Z; lr_Observed : Z; lr_Body : any; lr_Attrs : gmap string any }.
Record resourceLogs := { rl_Attrs : gmap string any; rl_Scopes : list (list logRecord) }.

Record spanEvent := { ev_Name : string; ev_Time : Z; ev_Attrs : gmap string any }.
Record span := {
  sp_Name : string; sp_Start : Z; sp_End : Z; sp_Attrs : gmap string any; sp_Events : list spanEvent;
}.
Record resourceSpans := { rs_Attrs : gmap string any; rs_Scopes : list (list span) }.
