(* ===== verification/TimestampProcessor.v ===== *)
(** * The timestamp processor

    [src/pkg/processor/timestampprocessor]: every timestamp of the metrics, logs
    and spans that pass is moved by a configured offset, except unset ones. *)

From S2P Require Import Prelude GoStrings GoValue Settings Telemetry.
From Stdlib Require Import Ascii.
#[local] Open Scope Z_scope.

(** ** config.go, factory.go *)

Definition Validate (offset : string) : option error :=
  match ParseDuration offset with
  | Ok _ => None
  | Err e => Some (Wrapf "invalid offset format %s: %w" [offset] e)
  end.

Definition defaultOffset : string := "0h".

Definition offsetFn (offset ts : Z) : Z :=
  if ts =? 0 then ts else NewTimestampFromTime (AsTime ts + offset).

(** The offset of a created processor: the error is ignored, it leaves zero. *)
Definition processorOffset (offset : string) : Z :=
  match ParseDuration offset with Ok d => d | Err _ => 0 end.

(** ** The processors *)

Definition moveExemplar (f : Z → Z) (e : exemplar) : exemplar :=
  {| ex_Time := f (ex_Time e); ex_Value := ex_Value e; ex_Attrs := ex_Attrs e |}.
Definition moveNumber (f : Z → Z) (d : numberDP) : numberDP :=
  {| n_Attrs := n_Attrs d; n_Start := f (n_Start d); n_Time := f (n_Time d); n_Value := n_Value d;
     n_Exemplars := map (moveExemplar f) (n_Exemplars d) |}.
Definition moveHistogram (f : Z → Z) (d : histogramDP) : histogramDP :=
  {| h_Attrs := h_Attrs d; h_Start := f (h_Start d); h_Time := f (h_Time d); h_Count := h_Count d; h_Sum := h_Sum d;
     h_Counts := h_Counts d; h_Bounds := h_Bounds d; h_Exemplars := map (moveExemplar f) (h_Exemplars d) |}.
Definition moveExpHistogram (f : Z → Z) (d : expHistogramDP) : expHistogramDP :=
  {| e_Attrs := e_Attrs d; e_Start := f (e_Start d); e_Time := f (e_Time d); e_Count := e_Count d; e_Sum := e_Sum d;
     e_Exemplars := map (moveExemplar f) (e_Exemplars d) |}.
Definition moveSummary (f : Z → Z) (d : summaryDP) : summaryDP :=
  {| s_Attrs := s_Attrs d; s_Start := f (s_Start d); s_Time := f (s_Time d); s_Count := s_Count d; s_Sum := s_Sum d;
     s_Quantiles := s_Quantiles d |}.
Definition moveMetric (f : Z → Z) (m : metric) : metric :=
  {| m_Name := m_Name m; m_Description := m_Description m;
     m_Data := match m_Data m with
               | MGauge dps => MGauge (map (moveNumber f) dps)
               | MHistogram t dps => MHistogram t (map (moveHistogram f) dps)
               | MEmpty => MEmpty
               | MSum t mono dps => MSum t mono (map (moveNumber f) dps)
               | MExpHistogram t dps => MExpHistogram t (map (moveExpHistogram f) dps)
               | MSummary dps => MSummary (map (moveSummary f) dps)
               end |}.
Definition processMetrics (f : Z → Z) (metrics : list resourceMetrics) : list resourceMetrics :=
  map (λ rs, {| rm_Attrs := rm_Attrs rs; rm_Scopes := map (λ ss,
    {| sm_Name := sm_Name ss; sm_Version := sm_Version ss; sm_Metrics := map (moveMetric f) (sm_Metrics ss) |}) (rm_Scopes rs) |}) metrics.

Definition moveLog (f : Z → Z) (l : logRecord) : logRecord :=
  {| lr_Time := f (lr_Time l); lr_Observed := f (lr_Observed l); lr_Body := lr_Body l; lr_Attrs := lr_Attrs l |}.
Definition processLogs (f : Z → Z) (logs : list resourceLogs) : list resourceLogs :=
  map (λ rs, {| rl_Attrs := rl_Attrs rs; rl_Scopes := map (map (moveLog f)) (rl_Scopes rs) |}) logs.

Definition moveEvent (f : Z → Z) (e : spanEvent) : spanEvent :=
  {| ev_Name := ev_Name e; ev_Time := f (ev_Time e); ev_Attrs := ev_Attrs e |}.
Definition moveSpan (f : Z → Z) (s : span) : span :=
  {| sp_Name := sp_Name s; sp_Start := f (sp_Start s); sp_End := f (sp_End s); sp_Attrs := sp_Attrs s;
     sp_Events := map (moveEvent f) (sp_Events s) |}.
Definition processTraces (f : Z → Z) (traces : list resourceSpans) : list resourceSpans :=
  map (λ rs, {| rs_Attrs := rs_Attrs rs; rs_Scopes := map (map (moveSpan f)) (rs_Scopes rs) |}) traces.

(** ** What the offset does *)

Lemma offsetFn_spec offset ts : offsetFn offset ts = if ts =? 0 then 0 else u64 (ts + offset).
Proof.
  unfold offsetFn, NewTimestampFromTime, UnixNano, AsTime. destruct (Z.eqb_spec ts 0) as [->|_]; [done|].
  by rewrite u64_wrap, u64_add_wrap.
Qed.

(** C14: A set timestamp moves by the offset modulo 2^64: the distance of two set
    timestamps stays, moving back restores a timestamp that did not become
    zero, and an unset one stays unset. *)
Theorem offsetFn_correct (offset ts ts' : Z) : is_u64 ts → is_u64 ts' → ts ≠ 0 → ts' ≠ 0 →
  is_u64 (offsetFn offset ts) ∧ u64 (offsetFn offset ts' - offsetFn offset ts) = u64 (ts' - ts) ∧
  (offsetFn offset ts ≠ 0 → offsetFn (- offset) (offsetFn offset ts) = ts) ∧
  (0 <= ts + offset < 2 ^ 64 → offsetFn offset ts = ts + offset) ∧ offsetFn offset 0 = 0.
Proof.
  intros Ht Ht' Hn Hn'. rewrite !(offsetFn_spec offset).
  rewrite (proj2 (Z.eqb_neq ts 0) Hn), (proj2 (Z.eqb_neq ts' 0) Hn').
  split_and!; [apply u64_range| | |by intros; apply u64_id|done].
  - unfold u64. rewrite <-Zminus_mod. f_equal. lia.
  - intros Hne. rewrite offsetFn_spec, (proj2 (Z.eqb_neq _ 0) Hne), u64_add_u64.
    replace (ts + offset + - offset) with ts by lia. by apply u64_id.
Qed.

Lemma offsetFn_correct_witness :
  offsetFn (- 3600000000000) 1700000000000000000 = 1699996400000000000 ∧ offsetFn 5 0 = 0.
Proof.
  destruct (offsetFn_correct (- 3600000000000) 1700000000000000000 1 ltac:(unfold is_u64; lia) ltac:(unfold is_u64; lia) ltac:(lia) ltac:(lia))
    as (_ & _ & _ & Hmv & _).
  split; [apply Hmv; lia | reflexivity].
Defined.

(** A processor with a configuration that validates moves by the parsed
    duration, which fits 64 bits; one that does not validate would move nothing. *)
Theorem Validate_offset (offset : string) :
  match Validate offset with
  | None => ParseDuration offset = Ok (processorOffset offset) ∧ is_i64 (processorOffset offset)
  | Some _ => is_ok (ParseDuration offset) = false ∧ ∀ ts, is_u64 ts → offsetFn (processorOffset offset) ts = ts
  end.
Proof.
  unfold Validate, processorOffset. destruct (ParseDuration offset) as [d|e] eqn:Hp; [split; [done|]; by eapply ParseDuration_range|].
  split; [done|]. intros ts Ht. rewrite offsetFn_spec. destruct (Z.eqb_spec ts 0) as [->|_]; [done|]. rewrite Z.add_0_r. by apply u64_id.
Qed.

(** ** All timestamps, and only those *)

Definition exemplarTimes (l : list exemplar) : list Z := map ex_Time l.
Definition numberTimes (d : numberDP) : list Z := n_Start d :: n_Time d :: exemplarTimes (n_Exemplars d).
Definition metricTimes (m : metric) : list Z :=
  match m_Data m with
  | MEmpty => []
  | MGauge dps | MSum _ _ dps => flat_map numberTimes dps
  | MHistogram _ dps => flat_map (λ d, h_Start d :: h_Time d :: exemplarTimes (h_Exemplars d)) dps
  | MExpHistogram _ dps => flat_map (λ d, e_Start d :: e_Time d :: exemplarTimes (e_Exemplars d)) dps
  | MSummary dps => flat_map (λ d, [s_Start d; s_Time d]) dps
  end.
Definition metricsTimes (l : list resourceMetrics) : list Z :=
  flat_map (λ rs, flat_map (λ ss, flat_map metricTimes (sm_Metrics ss)) (rm_Scopes rs)) l.
Definition logsTimes (l : list resourceLogs) : list Z :=
  flat_map (λ rs, flat_map (flat_map (λ r, [lr_Time r; lr_Observed r])) (rl_Scopes rs)) l.
Definition tracesTimes (l : list resourceSpans) : list Z :=
  flat_map (λ rs, flat_map (flat_map (λ s, sp_Start s :: sp_End s :: map ev_Time (sp_Events s))) (rs_Scopes rs)) l.

Lemma flat_map_map_times {A} (g : A → A) (t : A → list Z) (f : Z → Z) (l : list A) :
  (∀ x, t (g x) = map f (t x)) → flat_map t (map g l) = map f (flat_map t l).
Proof. intros Hg. induction l as [|x l IH]; [done|]. cbn. by rewrite Hg, IH, map_app. Qed.

Lemma exemplarTimes_move f l : exemplarTimes (map (moveExemplar f) l) = map f (exemplarTimes l).
Proof. unfold exemplarTimes. by rewrite !map_map. Qed.

Lemma metricTimes_move f m : metricTimes (moveMetric f m) = map f (metricTimes m).
Proof.
  destruct m as [n desc []]; unfold metricTimes; cbn; try done; apply flat_map_map_times;
    intros []; unfold numberTimes; cbn; by rewrite ?exemplarTimes_move.
Qed.

(** Erasing the timestamps: moving everything to zero. *)
Definition zeroTime (_ : Z) : Z := 0.

Lemma move_compose_metric f g m : moveMetric g (moveMetric f m) = moveMetric (λ t, g (f t)) m.
Proof.
  destruct m as [n desc d]. unfold moveMetric. cbn. f_equal.
  destruct d; cbn; f_equal; rewrite ?map_map; try done; apply map_ext; intros [];
    unfold moveNumber, moveHistogram, moveExpHistogram, moveSummary; cbn; f_equal; by rewrite map_map.
Qed.

(** The processor applies the offset to every timestamp of the metrics, in
    place, and leaves everything else as it is. *)
Theorem processMetrics_correct (f : Z → Z) (metrics : list resourceMetrics) :
  metricsTimes (processMetrics f metrics) = map f (metricsTimes metrics) ∧
  processMetrics zeroTime (processMetrics f metrics) = processMetrics zeroTime metrics.
Proof.
  split.
  - apply flat_map_map_times. intros rs. apply flat_map_map_times. intros ss. apply flat_map_map_times. apply metricTimes_move.
  - unfold processMetrics. rewrite map_map. apply map_ext. intros [a scopes]. cbn. f_equal. rewrite map_map. apply map_ext.
    intros [n v ms]. cbn. f_equal. rewrite map_map. apply map_ext. intros m. by rewrite move_compose_metric.
Qed.

Lemma map_move_erase {A} (move : (Z → Z) → A → A) (f : Z → Z) (ll : list (list A)) :
  (∀ x, move zeroTime (move f x) = move zeroTime x) → map (map (move zeroTime)) (map (map (move f)) ll) = map (map (move zeroTime)) ll.
Proof. intros Hm. rewrite map_map. apply map_ext. intros l. rewrite map_map. by apply map_ext. Qed.

(** The same for logs and spans. *)
Theorem processLogsTraces_correct (f : Z → Z) (logs : list resourceLogs) (traces : list resourceSpans) :
  (logsTimes (processLogs f logs) = map f (logsTimes logs) ∧ processLogs zeroTime (processLogs f logs) = processLogs zeroTime logs) ∧
  tracesTimes (processTraces f traces) = map f (tracesTimes traces) ∧
  processTraces zeroTime (processTraces f traces) = processTraces zeroTime traces.
Proof.
  split_and!.
  - apply flat_map_map_times. intros rs. apply flat_map_map_times. intros ss. by apply flat_map_map_times.
  - unfold processLogs. rewrite map_map. apply map_ext. intros [a scopes]. cbn. f_equal. by apply map_move_erase.
  - apply flat_map_map_times. intros rs. apply flat_map_map_times. intros ss. apply flat_map_map_times.
    intros []. cbn. by rewrite !map_map.
  - unfold processTraces. rewrite map_map. apply map_ext. intros [a scopes]. cbn. f_equal. apply map_move_erase.
    intros []. unfold moveSpan. cbn. f_equal. by rewrite map_map.
Qed.
