(* ===== verification/LightPrometheus.v ===== *)
(** * The light Prometheus receiver

    [src/internal/receiver/lightprometheusreceiver]: a scrape of a Prometheus
    endpoint and the conversion of its metric families.  The HTTP client, the
    exposition format decoder and [url.Parse] are parameters: what the request
    answered, the decoded families with the error that ended them, and the
    parts of the URL. *)

From S2P Require Import Prelude GoStrings GoValue Settings Telemetry.
From Stdlib Require Import Ascii.
#[local] Open Scope Z_scope.

(** ** The client model of Prometheus *)

Inductive familyType := COUNTER | GAUGE | SUMMARY | UNTYPED | HISTOGRAM | GAUGE_HISTOGRAM | OtherType (n : Z).
Record bucket := { b_CumulativeCount : Z; b_UpperBound : float64 }.
Record dtoHistogram := { dh_Count : Z; dh_Sum : float64; dh_Buckets : list bucket }.
Record dtoSummary := { ds_Count : Z; ds_Sum : float64; ds_Quantiles : list (float64 * float64) }.
(** Absent parts read as zero, as the getters do. *)
Record dtoMetric := {
  dm_Labels : list (string * string);
  dm_Counter : float64; dm_Gauge : float64; dm_Untyped : float64;
  dm_Histogram : dtoHistogram; dm_Summary : dtoSummary;
}.
Record family := { f_Name : string; f_Help : string; f_Type : option familyType; f_Metrics : list dtoMetric }.

(** ** Conversion *)

(** The labels with a value, as attributes. *)
Definition putLabel (m : gmap string any) (l : string * string) : gmap string any :=
  if String.eqb l.2 "" then m else <[l.1 := AString l.2]> m.
Definition attributes (labels : list (string * string)) : gmap string any := foldl putLabel ∅ labels.

(** The buckets after the first one: each but the last also gives a bound. *)
Fixpoint laterBuckets (last : Z) (buckets : list bucket) : list Z * list float64 :=
  match buckets with
  | [] => ([], [])
  | [b] => ([u64 (b_CumulativeCount b - last)], [])
  | b :: rest =>
      let '(counts, bounds) := laterBuckets (b_CumulativeCount b) rest in
      (u64 (b_CumulativeCount b - last) :: counts, b_UpperBound b :: bounds)
  end.
Definition convertBuckets (buckets : list bucket) : list Z * list float64 :=
  match buckets with
  | [] => ([], [])
  | [b] => ([b_CumulativeCount b], [])
  | b :: rest =>
      let '(counts, bounds) := laterBuckets (b_CumulativeCount b) rest in
      (b_CumulativeCount b :: counts, b_UpperBound b :: bounds)
  end.

Section convert.
Context (now startTime : Z).

Definition numberPoint (v : float64) (fm : dtoMetric) : numberDP :=
  {| n_Attrs := attributes (dm_Labels fm); n_Start := startTime; n_Time := now; n_Value := NDouble v; n_Exemplars := [] |}.
Definition histogramPoint (fm : dtoMetric) : histogramDP :=
  let h := dm_Histogram fm in
  let '(counts, bounds) := convertBuckets (dh_Buckets h) in
  {| h_Attrs := attributes (dm_Labels fm); h_Start := startTime; h_Time := now; h_Count := dh_Count h; h_Sum := Some (dh_Sum h);
     h_Counts := counts; h_Bounds := bounds; h_Exemplars := [] |}.
Definition summaryPoint (fm : dtoMetric) : summaryDP :=
  let s := dm_Summary fm in
  {| s_Attrs := attributes (dm_Labels fm); s_Start := startTime; s_Time := now; s_Count := ds_Count s; s_Sum := ds_Sum s;
     s_Quantiles := ds_Quantiles s |}.

(** One family; a type the switch does not know leaves an empty metric, a
    missing one is dereferenced. *)
Definition convertFamily (f : family) : res metric :=
  match f_Type f with
  | None => Err (Errorf "panic: nil pointer dereference" [])
  | Some t =>
      Ok {| m_Name := f_Name f; m_Description := f_Help f;
            m_Data := match t with
                      | COUNTER => MSum Cumulative true (map (λ fm, numberPoint (dm_Counter fm) fm) (f_Metrics f))
                      | GAUGE => MGauge (map (λ fm, numberPoint (dm_Gauge fm) fm) (f_Metrics f))
                      | HISTOGRAM | GAUGE_HISTOGRAM => MHistogram Cumulative (map histogramPoint (f_Metrics f))
                      | SUMMARY => MSummary (map summaryPoint (f_Metrics f))
                      | UNTYPED => MGauge (map (λ fm, numberPoint (dm_Untyped fm) fm) (f_Metrics f))
                      | OtherType _ => MEmpty
                      end |}
  end.

Definition convertMetricFamilies (families : list family) : res scopeMetrics :=
  ms ← mapM_res convertFamily families;
  Ok {| sm_Name := ""; sm_Version := ""; sm_Metrics := ms |}.
End convert.

(** ** The scrape *)

Record resourceCfg := {
  ServiceName : bool; ServiceInstanceID : bool; NetHostName : bool; NetHostPort : bool; HTTPScheme : bool;
}.
Record Config := { Endpoint : string; ResourceAttributes : resourceCfg }.
Definition createDefaultConfig : Config := {|
  Endpoint := "";
  ResourceAttributes := {| ServiceInstanceID := true; ServiceName := true; NetHostName := false; NetHostPort := false; HTTPScheme := false |} |}.
Definition Config_Validate (cfg : Config) : option error :=
  if String.eqb (Endpoint cfg) "" then Some (Errorf "endpoint is required" []) else None.

(** An answered request, its status and body; the body's decoder gives
    families until its end or an error. *)
Record response := { StatusCode : Z; body : string }.
Record URL := { Host : string; Port : string; Scheme : string }.

Section scrape.
Context (Do : string → res response) (Decode : string → list family * option error) (url_Parse : string → res URL).

Definition fetch (cfg : Config) : res string :=
  resp ← Do (Endpoint cfg);
  if negb (StatusCode resp =? 200) then
    Err (Errorf "light prometheus %s returned status %d: %s" [Endpoint cfg; pretty (StatusCode resp); body resp])
  else Ok (body resp).

Definition doFetch (cfg : Config) : res (list family) :=
  b ← fetch cfg;
  match Decode b with
  | (mfs, None) => Ok mfs
  | (_, Some e) => Err e
  end.

Definition resourceAttributes (cfg : Config) (name : string) (u : URL) : gmap string any :=
  let put (enabled : bool) k v (m : gmap string any) := if enabled then <[k := AString v]> m else m in
  let ra := ResourceAttributes cfg in
  put (HTTPScheme ra) "http.scheme" (Scheme u)
    (put (NetHostPort ra) "net.host.port" (Port u)
      (put (ServiceInstanceID ra) "service.instance.id" (Host u)
        (put (NetHostName ra) "net.host.name" (Host u)
          (put (ServiceName ra) "service.name" name ∅)))).

Definition scrape (cfg : Config) (name : string) (startTime now : Z) : res (list resourceMetrics) :=
  families ← doFetch cfg;
  u ← url_Parse (Endpoint cfg);
  sm ← convertMetricFamilies now startTime families;
  Ok [{| rm_Attrs := resourceAttributes cfg name u; rm_Scopes := [sm] |}].
End scrape.

(** ** Histograms *)

(** The cumulative counts of the buckets of a converted histogram. *)
Fixpoint cumulate (acc : Z) (counts : list Z) : list Z :=
  match counts with [] => [] | c :: counts => u64 (acc + c) :: cumulate (u64 (acc + c)) counts end.

Definition buckets_ok (l : list bucket) : Prop := Forall (λ b, is_u64 (b_CumulativeCount b)) l.

Lemma laterBuckets_spec last l : is_u64 last → buckets_ok l → l ≠ [] →
  cumulate last (laterBuckets last l).1 = map b_CumulativeCount l ∧
  length (laterBuckets last l).1 = length l ∧ (laterBuckets last l).2 = map b_UpperBound (removelast l).
Proof.
  revert last. induction l as [|b l IH]; intros last Hlast Hl Hne; [done|]. apply Forall_cons in Hl as [Hb Hl].
  assert (Hc : u64 (last + u64 (b_CumulativeCount b - last)) = b_CumulativeCount b).
  { rewrite Z.add_comm, u64_add_u64. replace (b_CumulativeCount b - last + last) with (b_CumulativeCount b) by lia. by apply u64_id. }
  destruct l as [|b' l]; [cbn; by rewrite Hc|]. destruct (IH (b_CumulativeCount b) Hb Hl ltac:(done)) as (H1 & H2 & H3).
  change (laterBuckets last (b :: b' :: l)) with (let '(counts, bounds) := laterBuckets (b_CumulativeCount b) (b' :: l) in
      (u64 (b_CumulativeCount b - last) :: counts, b_UpperBound b :: bounds)).
  destruct (laterBuckets (b_CumulativeCount b) (b' :: l)) as [counts bounds]. cbn [fst snd] in *.
  change (removelast (b :: b' :: l)) with (b :: removelast (b' :: l)). cbn [cumulate map length] in *. rewrite Hc, H1, H2, H3. done.
Qed.

Lemma convertBuckets_spec l : buckets_ok l → l ≠ [] →
  cumulate 0 (convertBuckets l).1 = map b_CumulativeCount l ∧
  length (convertBuckets l).1 = length l ∧ (convertBuckets l).2 = map b_UpperBound (removelast l).
Proof.
  destruct l as [|b l]; [done|]. intros [Hb Hl]%Forall_cons _. assert (Hz : u64 (0 + b_CumulativeCount b) = b_CumulativeCount b) by by apply u64_id.
  destruct l as [|b' l]; [cbn [convertBuckets cumulate fst snd]; by rewrite Hz|].
  destruct (laterBuckets_spec (b_CumulativeCount b) (b' :: l) Hb Hl ltac:(done)) as (H1 & H2 & H3).
  change (convertBuckets (b :: b' :: l)) with (let '(counts, bounds) := laterBuckets (b_CumulativeCount b) (b' :: l) in
      (b_CumulativeCount b :: counts, b_UpperBound b :: bounds)).
  destruct (laterBuckets (b_CumulativeCount b) (b' :: l)) as [counts bounds]. cbn [fst snd] in *.
  change (removelast (b :: b' :: l)) with (b :: removelast (b' :: l)). cbn [cumulate map length] in *. rewrite Hz, H1, H2, H3. done.
Qed.

Lemma cumulate_length acc l : length (cumulate acc l) = length l.
Proof. revert acc. induction l as [|c l IH]; intros acc; [done|]. cbn. by rewrite IH. Qed.

Lemma cumulate_last acc l : is_u64 acc → List.last (cumulate acc l) acc = u64 (acc + foldr Z.add 0 l).
Proof.
  revert acc. induction l as [|c l IH]; intros acc Hacc; [cbn; rewrite Z.add_0_r; by rewrite u64_id|].
  cbn [cumulate foldr]. transitivity (List.last (cumulate (u64 (acc + c)) l) (u64 (acc + c))).
  - destruct l as [|c' l]; [done|]. cbn [cumulate]. cbn -[cumulate]. clear. generalize (u64 (u64 (acc + c) + c')). intros x.
    generalize (cumulate x l). intros k. revert x. induction k as [|y k IHk]; intros x; [done|]. apply IHk.
  - rewrite IH by apply u64_range. rewrite u64_add_u64. f_equal. lia.
Qed.

(** A converted histogram is a valid OTLP one: its counts add up to the
    cumulative counts of the Prometheus buckets, there is one bound less than
    counts, the bounds are those of all buckets but the last (infinite) one, and
    when that one counts every sample the counts sum to the sample count. *)
Theorem histogram_correct (now startTime : Z) (fm : dtoMetric) :
  let buckets := dh_Buckets (dm_Histogram fm) in
  buckets_ok buckets → buckets ≠ [] →
  let dp := histogramPoint now startTime fm in
  cumulate 0 (h_Counts dp) = map b_CumulativeCount buckets ∧
  length (h_Counts dp) = S (length (h_Bounds dp)) ∧ h_Bounds dp = map b_UpperBound (removelast buckets) ∧
  (∀ b, last buckets = Some b → b_CumulativeCount b = dh_Count (dm_Histogram fm) →
    u64 (foldr Z.add 0 (h_Counts dp)) = h_Count dp).
Proof.
  cbv zeta. intros Hok Hne. unfold histogramPoint.
  destruct (convertBuckets_spec _ Hok Hne) as (H1 & H2 & H3). destruct (convertBuckets _) as [counts bounds]. cbn [fst snd] in *.
  cbn [h_Counts h_Bounds h_Count]. subst bounds. split_and!; [done| |done|].
  - rewrite H2, length_map. destruct (dh_Buckets (dm_Histogram fm)) as [|b l] using rev_ind; [done|].
    rewrite removelast_last, length_app. cbn. lia.
  - intros b Hb <-. rewrite <-(Z.add_0_l (foldr _ _ _)). rewrite <-cumulate_last by (unfold is_u64; lia). rewrite H1.
    apply last_Some in Hb as (l' & ->). rewrite map_app. cbn. by rewrite List.last_last.
Qed.

Definition demo_metric : dtoMetric := {|
  dm_Labels := [("path", "/"); ("empty", "")]; dm_Counter := float_of_Z 3; dm_Gauge := S754_zero false; dm_Untyped := S754_zero false;
  dm_Histogram := {| dh_Count := 9; dh_Sum := float_of_Z 20;
    dh_Buckets := [{| b_CumulativeCount := 2; b_UpperBound := float_of_Z 1 |}; {| b_CumulativeCount := 7; b_UpperBound := float_of_Z 5 |};
                   {| b_CumulativeCount := 9; b_UpperBound := S754_infinity false |}] |};
  dm_Summary := {| ds_Count := 0; ds_Sum := S754_zero false; ds_Quantiles := [] |} |}.

Lemma histogram_correct_witness :
  h_Counts (histogramPoint 5 1 demo_metric) = [2; 5; 2] ∧ u64 (foldr Z.add 0 (h_Counts (histogramPoint 5 1 demo_metric))) = 9.
Proof.
  split; [reflexivity|].
  apply (histogram_correct 5 1 demo_metric ltac:(unfold buckets_ok; cbn; repeat constructor; done) ltac:(done)) with (b := {| b_CumulativeCount := 9; b_UpperBound := S754_infinity false |}); reflexivity.
Defined.

(** ** Families *)

Definition dataPointTimes (m : metric) : list (Z * Z) :=
  match m_Data m with
  | MEmpty => []
  | MGauge dps | MSum _ _ dps => map (λ d, (n_Start d, n_Time d)) dps
  | MHistogram _ dps => map (λ d, (h_Start d, h_Time d)) dps
  | MExpHistogram _ dps => map (λ d, (e_Start d, e_Time d)) dps
  | MSummary dps => map (λ d, (s_Start d, s_Time d)) dps
  end.

Lemma map_constant {A B} (f : A → B) (c : B) l : (∀ x, f x = c) → map f l = replicate (length l) c.
Proof. intros Hf. induction l as [|x l IH]; [done|]. cbn. by rewrite Hf, IH. Qed.

(** A scrape that succeeds gives one metric per family, in order, with its
    name, and one data point per metric of a family of a known type, from the
    start of the receiver to the time of the scrape. *)
Theorem convertMetricFamilies_correct (now startTime : Z) (families : list family) (sm : scopeMetrics) :
  convertMetricFamilies now startTime families = Ok sm →
  Forall2 (λ f m, m_Name m = f_Name f ∧ ∃ t, f_Type f = Some t ∧
    match t with OtherType _ => m_Data m = MEmpty | _ => dataPointTimes m = replicate (length (f_Metrics f)) (startTime, now) end)
    families (sm_Metrics sm).
Proof.
  unfold convertMetricFamilies. intros (ms & Hms%mapM_res_ok & [= <-])%bind_ok_inv. cbn [sm_Metrics].
  eapply Forall2_impl; [exact Hms|]. intros f m Hm. unfold convertFamily in Hm. destruct (f_Type f) as [t|]; [|done].
  injection Hm as <-. split; [done|]. exists t. split; [done|].
  destruct t; unfold dataPointTimes; cbn [m_Data]; try done; rewrite map_map; apply map_constant; intros x; try done;
    unfold histogramPoint; by destruct (convertBuckets _).
Qed.

Lemma convertMetricFamilies_correct_witness : ∃ sm,
  convertMetricFamilies 5 1 [{| f_Name := "h"; f_Help := ""; f_Type := Some HISTOGRAM; f_Metrics := [demo_metric] |}] = Ok sm ∧
  map m_Name (sm_Metrics sm) = ["h"].
Proof.
  eexists. split; [reflexivity|].
  pose proof (convertMetricFamilies_correct 5 1 [{| f_Name := "h"; f_Help := ""; f_Type := Some HISTOGRAM; f_Metrics := [demo_metric] |}] _ eq_refl) as Hf.
  inversion Hf as [|? ? ? ? [Hn _] Hr]; subst. inversion Hr. reflexivity.
Defined.
