(* ===== verification/PrometheusRemoteWrite.v ===== *)
(** * The Prometheus remote write receiver

    [src/internal/receiver/signalfxgatewayprometheusremotewritereceiver]: the
    translation of write requests ([prometheus_to_otel.go],
    [internal/prometheus_spec_utils.go]), the HTTP handler ([server.go]) and the
    goroutines between the handlers and the next consumer ([receiver.go]).
    Decoding a request body and the next consumer are parameters. *)

From S2P Require Import Prelude GoStrings GoValue Settings Telemetry.
From Stdlib Require Import Ascii.
#[local] Open Scope Z_scope.

(** ** Requests *)

Record label := { l_Name : string; l_Value : string }.
Record sample := { sa_Value : float64; sa_Timestamp : Z }.
Record timeSeries := { ts_Labels : list label; ts_Samples : list sample }.
Record writeRequest := { wr_Timeseries : list timeSeries; wr_Metadata : nat }.

(** ** internal/prometheus_spec_utils.go *)

Inductive metricType := UNKNOWN | COUNTER | GAUGE | HISTOGRAM | GAUGEHISTOGRAM | SUMMARY | INFO | STATESET.
#[global] Instance metricType_eq_dec : EqDecision metricType.
Proof. solve_decision. Defined.
Definition typeCode (t : metricType) : nat :=
  match t with UNKNOWN => 0 | COUNTER => 1 | GAUGE => 2 | HISTOGRAM => 3 | GAUGEHISTOGRAM => 4 | SUMMARY => 5 | INFO => 6 | STATESET => 7 end.
Definition typeOfCode (n : nat) : metricType :=
  match n with 0 => UNKNOWN | 1 => COUNTER | 2 => GAUGE | 3 => HISTOGRAM | 4 => GAUGEHISTOGRAM | 5 => SUMMARY | 6 => INFO | _ => STATESET end%nat.
#[global] Instance metricType_countable : Countable metricType.
Proof. apply (inj_countable' typeCode typeOfCode). by intros []. Defined.

Fixpoint getLabelValue (labels : list label) (name : string) : option string :=
  match labels with
  | [] => None
  | l :: labels => if String.eqb (l_Name l) name then Some (l_Value l) else getLabelValue labels name
  end.

Definition ExtractMetricNameLabel (labels : list label) : res string :=
  match getLabelValue labels "__name__" with
  | Some n => Ok n
  | None => Err (Errorf "did not find a label with `__name__` as per prometheus spec" [])
  end.

Definition has (labels : list label) (name : string) : bool := bool_decide (is_Some (getLabelValue labels name)).
Definition DetermineMetricTypeByConvention (metricName : string) (labels : list label) : metricType :=
  if has labels "le" && (HasSuffix metricName "_gsum" || HasSuffix metricName "_gcount") then GAUGEHISTOGRAM
  else if has labels "le" then HISTOGRAM
  else if has labels "quantile" then SUMMARY
  else if has labels metricName then STATESET
  else if HasSuffix metricName "_total" || HasSuffix metricName "_count" || HasSuffix metricName "_counter" || HasSuffix metricName "_created" then COUNTER
  else if HasSuffix metricName "_bucket" then HISTOGRAM
  else if HasSuffix metricName "_info" then INFO
  else GAUGE.

(** ** prometheus_to_otel.go *)

Record metricDataP := { md_Name : string; md_Labels : list label; md_Samples : list sample; md_Type : metricType }.

(** The counters of the parser, [atomic.Int64]s. *)
Record parser := { totalNans : Z; totalInvalidRequests : Z; totalBadMetrics : Z }.
Definition newPrometheusRemoteOtelParser : parser := {| totalNans := 0; totalInvalidRequests := 0; totalBadMetrics := 0 |}.
Definition addNans (p : parser) (n : Z) : parser :=
  {| totalNans := wrap64 (totalNans p + n); totalInvalidRequests := totalInvalidRequests p; totalBadMetrics := totalBadMetrics p |}.
Definition addInvalid (p : parser) (n : Z) : parser :=
  {| totalNans := totalNans p; totalInvalidRequests := wrap64 (totalInvalidRequests p + n); totalBadMetrics := totalBadMetrics p |}.
Definition addBad (p : parser) (n : Z) : parser :=
  {| totalNans := totalNans p; totalInvalidRequests := totalInvalidRequests p; totalBadMetrics := wrap64 (totalBadMetrics p + n) |}.

Abbreviation partitions := (gmap metricType (list metricDataP)).

(** The series as the parser keeps it: a missing name is the empty one. *)
Definition seriesData (ts : timeSeries) : metricDataP :=
  let name := match ExtractMetricNameLabel (ts_Labels ts) with Ok n => n | Err _ => "" end in
  {| md_Name := name; md_Labels := ts_Labels ts; md_Samples := ts_Samples ts;
     md_Type := DetermineMetricTypeByConvention name (ts_Labels ts) |}.

Definition seriesErrors (ts : timeSeries) : list error :=
  match ExtractMetricNameLabel (ts_Labels ts) with Ok _ => [] | Err e => [e] end ++
  match ts_Samples ts with [] => [Errorf "no samples found for  %s" [md_Name (seriesData ts)]] | _ => [] end.

Definition partitionSeries (acc : partitions * parser * list error) (ts : timeSeries) : partitions * parser * list error :=
  let '(parts, p, errs) := acc in
  let md := seriesData ts in
  (<[md_Type md := default [] (parts !! md_Type md) ++ [md]]> parts,
   match ts_Samples ts with [] => addInvalid p 1 | _ => p end,
   errs ++ seriesErrors ts).

Definition partitionWriteRequest (p : parser) (req : writeRequest) : partitions * parser * list error :=
  foldl partitionSeries (∅, p, []) (wr_Timeseries req).

Definition prometheusToOtelTimestamp (ts : Z) : Z := u64 (wrap64 (ts * 1000000)).

Section otel.
Context `{FloatOverflow}.

Definition setFloatOrInt (v : float64) : nvalue :=
  if is_nan v then NEmpty
  else if SFeqb (float_of_Z (int64_of_float v)) v then NInt (int64_of_float v) else NDouble v.

Definition setAttributes (labels : list label) : gmap string any :=
  foldl (λ m l, if String.eqb (l_Name l) "__name__" then m else <[l_Name l := AString (l_Value l)]> m) ∅ labels.

(** The data points of the samples that are numbers. *)
Definition samplePoint (labels : list label) (s : sample) : numberDP :=
  let t := prometheusToOtelTimestamp (sa_Timestamp s) in
  {| n_Attrs := setAttributes labels; n_Start := t; n_Time := t; n_Value := setFloatOrInt (sa_Value s); n_Exemplars := [] |}.

Definition addSample (labels : list label) (acc : list numberDP * parser) (s : sample) : list numberDP * parser :=
  if is_nan (sa_Value s) then (acc.1, addNans acc.2 1) else (acc.1 ++ [samplePoint labels s], acc.2).

Definition isSum (t : metricType) : bool :=
  match t with COUNTER | HISTOGRAM | GAUGEHISTOGRAM => true | _ => false end.
(** [addCounterMetrics] and [addGaugeMetrics] *)
Definition addMetric (sum : bool) (acc : list metric * parser) (md : metricDataP) : list metric * parser :=
  let '(ms, p) := acc in
  if String.eqb (md_Name md) "" then (ms, addBad p 1)
  else
    let '(dps, p) := foldl (addSample (md_Labels md)) ([], p) (md_Samples md) in
    (ms ++ [{| m_Name := md_Name md; m_Description := "";
               m_Data := if sum then MSum Cumulative true dps else MGauge dps |}], p).

Definition addMetrics (acc : list metric * parser) (tm : metricType * list metricDataP) : list metric * parser :=
  foldl (addMetric (isSum tm.1)) acc tm.2.

(** [range] over the partitions: any order. *)
Context (rangeT : partitions → list (metricType * list metricDataP)).

Definition transformPrometheusRemoteWriteToOtel (p : parser) (parts : partitions) : list metric * parser :=
  foldl addMetrics ([], p) (rangeT parts).

Definition getSampleTimestampBounds (samples : list sample) : Z * Z :=
  match samples with
  | [] => (-1, -1)
  | _ => foldl (λ '(lo, hi) s, (if sa_Timestamp s <? lo then sa_Timestamp s else lo, if hi <? sa_Timestamp s then sa_Timestamp s else hi))
           (2 ^ 63 - 1, - 2 ^ 63) samples
  end.

(** As times. *)
Definition getWriteRequestTimestampBounds (req : writeRequest) : Z * Z :=
  let '(lo, hi) := foldl (λ '(lo, hi) ts,
    let '(sampleMin, sampleMax) := getSampleTimestampBounds (ts_Samples ts) in
    (if sampleMin <? lo then sampleMin else lo, if hi <? sampleMax then sampleMax else hi))
    (2 ^ 63 - 1, - 2 ^ 63) (wr_Timeseries req) in
  (UnixMilli lo, UnixMilli hi).

(** The three metrics about the requests themselves. *)
Definition countMetric (name : string) (n start_ end_ : Z) : metric :=
  {| m_Name := name; m_Description := "";
     m_Data := MSum Cumulative true [{| n_Attrs := ∅; n_Start := NewTimestampFromTime start_; n_Time := NewTimestampFromTime end_;
                                        n_Value := NInt n; n_Exemplars := [] |}] |}.

Definition scopeName : string := "otelcol/signalfxgatewayprometheusremotewrite".

Definition fromPrometheusWriteRequestMetrics (p : parser) (req : writeRequest) : list resourceMetrics * parser * list error :=
  let '(parts, p, errs) := partitionWriteRequest p req in
  let '(ms, p) := transformPrometheusRemoteWriteToOtel p parts in
  let '(start_, end_) := getWriteRequestTimestampBounds req in
  let ms := ms ++ [countMetric "prometheus.invalid_requests" (totalInvalidRequests p) start_ end_;
                   countMetric "prometheus.total_NAN_samples" (totalNans p) start_ end_;
                   countMetric "prometheus.total_bad_datapoints" (totalBadMetrics p) start_ end_] in
  ([{| rm_Attrs := ∅; rm_Scopes := [{| sm_Name := scopeName; sm_Version := "0.1"; sm_Metrics := ms |}] |}], p, errs).

(** ** The handler (server.go) *)

(** The status of the answer, the metrics sent on the channel, the parser. *)
Definition handle (decode : string → res writeRequest) (p : parser) (body : string) : Z * option (list resourceMetrics) * parser :=
  match decode body with
  | Err _ => (400, None, p)
  | Ok req =>
      if (length (wr_Timeseries req) =? 0)%nat && (wr_Metadata req =? 0)%nat then (204, None, p)
      else let '(results, p, errs) := fromPrometheusWriteRequestMetrics p req in
           match errs with
           | _ :: _ => (400, None, p)
           | [] => (202, Some results, p)
           end
  end.

(** ** What a translation gives *)

Definition parser_ok (p : parser) : Prop := is_i64 (totalNans p) ∧ is_i64 (totalInvalidRequests p) ∧ is_i64 (totalBadMetrics p).

Lemma wrap64_add_0 z : is_i64 z → wrap64 (z + 0) = z.
Proof. intros Hz. rewrite Z.add_0_r. by apply wrap64_id. Qed.

(** The counters after [nans], [invalid] and [bad] more events. *)
Definition counted (p : parser) (nans invalid bad : nat) : parser := {|
  totalNans := wrap64 (totalNans p + Z.of_nat nans);
  totalInvalidRequests := wrap64 (totalInvalidRequests p + Z.of_nat invalid);
  totalBadMetrics := wrap64 (totalBadMetrics p + Z.of_nat bad) |}.

Lemma counted_0 p : parser_ok p → counted p 0 0 0 = p.
Proof. intros (H1 & H2 & H3). destruct p. unfold counted. change (Z.of_nat 0) with 0. cbn in *. by rewrite !wrap64_add_0. Qed.
Lemma counted_counted p a b c a' b' c' : counted (counted p a b c) a' b' c' = counted p (a + a') (b + b') (c + c').
Proof. unfold counted. cbn. rewrite !wrap64_add_wrap, !Nat2Z.inj_add, !Z.add_assoc. done. Qed.
Lemma counted_ok p a b c : parser_ok (counted p a b c).
Proof. split_and!; apply wrap64_range. Qed.
Lemma addNans_counted p : parser_ok p → addNans p 1 = counted p 1 0 0.
Proof. intros (H1 & H2 & H3). unfold addNans, counted. change (Z.of_nat 0) with 0. change (Z.of_nat 1) with 1. by rewrite !(wrap64_add_0 _ H2), !(wrap64_add_0 _ H3). Qed.
Lemma addInvalid_counted p : parser_ok p → addInvalid p 1 = counted p 0 1 0.
Proof. intros (H1 & H2 & H3). unfold addInvalid, counted. change (Z.of_nat 0) with 0. change (Z.of_nat 1) with 1. by rewrite !(wrap64_add_0 _ H1), !(wrap64_add_0 _ H3). Qed.
Lemma addBad_counted p : parser_ok p → addBad p 1 = counted p 0 0 1.
Proof. intros (H1 & H2 & H3). unfold addBad, counted. change (Z.of_nat 0) with 0. change (Z.of_nat 1) with 1. by rewrite !(wrap64_add_0 _ H1), !(wrap64_add_0 _ H2). Qed.

Definition isNumber (s : sample) : bool := negb (is_nan (sa_Value s)).
Definition nansOf (l : list sample) : nat := length (List.filter (λ s, is_nan (sa_Value s)) l).
Definition named (md : metricDataP) : bool := negb (String.eqb (md_Name md) "").
Definition seriesPoints (md : metricDataP) : list numberDP := map (samplePoint (md_Labels md)) (List.filter isNumber (md_Samples md)).
Definition seriesMetric (sum : bool) (md : metricDataP) : metric :=
  {| m_Name := md_Name md; m_Description := ""; m_Data := if sum then MSum Cumulative true (seriesPoints md) else MGauge (seriesPoints md) |}.

Lemma addSamples labels dps p l : parser_ok p →
  foldl (addSample labels) (dps, p) l = (dps ++ map (samplePoint labels) (List.filter isNumber l), counted p (nansOf l) 0 0).
Proof.
  revert dps p. induction l as [|s l IH]; intros dps p Hp; cbn [foldl List.filter map].
  { by rewrite app_nil_r, counted_0. }
  unfold addSample at 2. unfold isNumber at 1, nansOf. cbn [fst snd List.filter]. destruct (is_nan (sa_Value s)); cbn [negb length].
  - rewrite addNans_counted, IH by (done || apply counted_ok). by rewrite counted_counted.
  - rewrite IH by done. cbn [map]. by rewrite <-app_assoc.
Qed.

Definition nansOfNamed (l : list metricDataP) : nat := sum_list_with (λ md, nansOf (md_Samples md)) (List.filter named l).
Definition nameless (l : list metricDataP) : nat := length (List.filter (λ md, negb (named md)) l).

Lemma addMetric_named sum ms p md : parser_ok p →
  addMetric sum (ms, p) md =
  if named md then (ms ++ [seriesMetric sum md], counted p (nansOf (md_Samples md)) 0 0) else (ms, counted p 0 0 1).
Proof.
  intros Hp. unfold addMetric, named. destruct (String.eqb (md_Name md) ""); cbn [negb]; [by rewrite addBad_counted|].
  by rewrite addSamples.
Qed.

Lemma addMetric_list sum ms p l : parser_ok p →
  foldl (addMetric sum) (ms, p) l = (ms ++ map (seriesMetric sum) (List.filter named l), counted p (nansOfNamed l) 0 (nameless l)).
Proof.
  revert ms p. induction l as [|md l IH]; intros ms p Hp; cbn [foldl].
  { cbn. by rewrite app_nil_r, counted_0. }
  rewrite (addMetric_named sum ms p md Hp). unfold nansOfNamed, nameless. cbn [List.filter].
  destruct (named md); cbn [negb length sum_list_with map]; rewrite IH by apply counted_ok; rewrite counted_counted; [by rewrite <-app_assoc | done].
Qed.

Lemma addMetrics_list ms p l : parser_ok p →
  foldl addMetrics (ms, p) l =
  (ms ++ flat_map (λ tm, map (seriesMetric (isSum tm.1)) (List.filter named tm.2)) l,
   counted p (nansOfNamed (flat_map snd l)) 0 (nameless (flat_map snd l))).
Proof.
  revert ms p. induction l as [|[t mds] l IH]; intros ms p Hp; cbn [foldl flat_map].
  { by rewrite app_nil_r, counted_0. }
  unfold addMetrics at 2. cbn [fst snd]. rewrite addMetric_list by done. rewrite IH by apply counted_ok.
  rewrite counted_counted, <-app_assoc. unfold nansOfNamed, nameless. by rewrite !List.filter_app, sum_list_with_app, length_app.
Qed.

(** ** Partitions *)

Definition parts_ok (parts : partitions) : Prop := ∀ t l, parts !! t = Some l → Forall (λ md, md_Type md = t) l.
Definition members (parts : partitions) : list metricDataP := flat_map snd (map_to_list parts).

Lemma flat_map_Permutation {A B} (f : A → list B) l l' : l ≡ₚ l' → flat_map f l ≡ₚ flat_map f l'.
Proof.
  induction 1; cbn; [done| | |by etrans].
  - by f_equiv.
  - rewrite !app_assoc. f_equiv. apply Permutation_app_comm.
Qed.

Lemma partition_insert parts md : parts_ok parts →
  let parts' := <[md_Type md := default [] (parts !! md_Type md) ++ [md]]> parts in
  parts_ok parts' ∧ members parts' ≡ₚ members parts ++ [md].
Proof.
  intros Hok parts'. split.
  - intros t l. unfold parts'. destruct (decide (t = md_Type md)) as [->|Hne]; [|rewrite lookup_insert_ne by done; apply Hok].
    rewrite lookup_insert_eq. intros [= <-]. apply Forall_app. split; [|by repeat constructor].
    destruct (parts !! md_Type md) as [l|] eqn:Hl; [by apply Hok | constructor].
  - unfold members, parts'. rewrite <-insert_delete_eq.
    rewrite (flat_map_Permutation _ _ _ (map_to_list_insert (delete (md_Type md) parts) _ _ (lookup_delete_eq _ _))). cbn [flat_map snd].
    destruct (parts !! md_Type md) as [l|] eqn:Hl.
    + rewrite <-(insert_delete_id parts (md_Type md) l Hl) at 2.
      rewrite (flat_map_Permutation snd _ _ (map_to_list_insert (delete (md_Type md) parts) _ l (lookup_delete_eq _ _))). cbn [flat_map snd].
      cbn [default]. unfold id. rewrite <-!app_assoc. f_equiv. apply Permutation_app_comm.
    + rewrite delete_id by done. cbn. apply Permutation_cons_append.
Qed.

Definition noSamples (ts : timeSeries) : bool := match ts_Samples ts with [] => true | _ => false end.
Definition emptySeries (l : list timeSeries) : nat := length (List.filter noSamples l).

Lemma partition_list parts p errs l : parts_ok parts → parser_ok p →
  ∃ parts', foldl partitionSeries (parts, p, errs) l = (parts', counted p 0 (emptySeries l) 0, errs ++ flat_map seriesErrors l) ∧
    parts_ok parts' ∧ members parts' ≡ₚ members parts ++ map seriesData l.
Proof.
  revert parts p errs. induction l as [|ts l IH]; intros parts p errs Hok Hp; cbn [foldl].
  { exists parts. cbn. by rewrite !app_nil_r, counted_0. }
  destruct (partition_insert parts (seriesData ts) Hok) as [Hok1 Hm1]. unfold partitionSeries at 2.
  set (p1 := match ts_Samples ts with [] => addInvalid p 1 | _ => p end).
  assert (Hp1 : p1 = counted p 0 (if noSamples ts then 1 else 0) 0).
  { unfold p1, noSamples. destruct (ts_Samples ts); [by apply addInvalid_counted | by rewrite counted_0]. }
  destruct (IH _ p1 (errs ++ seriesErrors ts) Hok1) as (parts' & Hf & Hok' & Hm'); [rewrite Hp1; apply counted_ok|].
  exists parts'. rewrite Hf, Hp1, counted_counted. split_and!; [|done|].
  - unfold emptySeries. cbn [List.filter flat_map]. rewrite <-app_assoc. by destruct (noSamples ts).
  - rewrite Hm', Hm1, <-app_assoc. done.
Qed.

Lemma flat_map_filter_map {A B} (f : A → B) (p : A → bool) (g : metricType * list A → A → B) (l : list (metricType * list A)) :
  (∀ tm x, tm ∈ l → x ∈ tm.2 → g tm x = f x) →
  flat_map (λ tm, map (g tm) (List.filter p tm.2)) l = map f (List.filter p (flat_map snd l)).
Proof.
  induction l as [|tm l IH]; intros Hg; [done|]. cbn [flat_map]. rewrite List.filter_app, map_app, IH.
  - f_equal. apply map_ext_in. intros x [Hx _]%filter_In. apply Hg; [left | by apply list_elem_of_In].
  - intros tm' x Htm. apply Hg. by right.
Qed.

Context (rangeT_perm : ∀ m, rangeT m ≡ₚ map_to_list m).

Definition pointsOf (m : metric) : nat :=
  match m_Data m with MGauge dps | MSum _ _ dps => length dps | _ => 0 end%nat.

Lemma samples_split l : length l = (length (List.filter isNumber l) + nansOf l)%nat.
Proof. unfold nansOf, isNumber. induction l as [|s l IH]; [done|]. cbn. destruct (is_nan (sa_Value s)); cbn; lia. Qed.

Lemma filter_Permutation {A} (p : A → bool) l l' : l ≡ₚ l' → List.filter p l ≡ₚ List.filter p l'.
Proof.
  induction 1 as [|x l l' _ IH|x y l|l1 l2 l3 _ IH1 _ IH2]; cbn; [done| | |by etrans].
  - by destruct (p x); rewrite IH.
  - destruct (p x), (p y); try done. apply Permutation_swap.
Qed.

Lemma nansOfNamed_Permutation l l' : l ≡ₚ l' → nansOfNamed l = nansOfNamed l'.
Proof. intros Hl. unfold nansOfNamed. apply (filter_Permutation named) in Hl. by rewrite Hl. Qed.
Lemma nameless_Permutation l l' : l ≡ₚ l' → nameless l = nameless l'.
Proof. intros Hl. unfold nameless. by rewrite (filter_Permutation _ _ _ Hl). Qed.

(** C15: A request becomes one metric per series with a name, a sum or a gauge by
    its conventional type, with a point for every sample that is a number,
    whatever the order of the partitions; the other samples and the series
    without name or samples are counted. *)
Theorem translation_correct (p : parser) (req : writeRequest) : parser_ok p →
  let series := map seriesData (wr_Timeseries req) in
  let p' := counted p (nansOfNamed series) (emptySeries (wr_Timeseries req)) (nameless series) in
  ∃ ms start_ end_,
    fromPrometheusWriteRequestMetrics p req =
      ([{| rm_Attrs := ∅; rm_Scopes := [{| sm_Name := scopeName; sm_Version := "0.1"; sm_Metrics := ms ++
          [countMetric "prometheus.invalid_requests" (totalInvalidRequests p') start_ end_;
           countMetric "prometheus.total_NAN_samples" (totalNans p') start_ end_;
           countMetric "prometheus.total_bad_datapoints" (totalBadMetrics p') start_ end_] |}] |}],
       p', flat_map seriesErrors (wr_Timeseries req)) ∧
    ms ≡ₚ map (λ md, seriesMetric (isSum (md_Type md)) md) (List.filter named series) ∧
    (sum_list_with pointsOf ms + nansOfNamed series = sum_list_with (λ md, length (md_Samples md)) (List.filter named series))%nat.
Proof.
  intros Hp series p'. unfold fromPrometheusWriteRequestMetrics, partitionWriteRequest.
  destruct (partition_list ∅ p [] (wr_Timeseries req)) as (parts & -> & Hok & Hmem); [by intros t l Hl; rewrite lookup_empty in Hl|done|].
  unfold transformPrometheusRemoteWriteToOtel. rewrite addMetrics_list by apply counted_ok. cbn [app].
  assert (Hser : flat_map snd (rangeT parts) ≡ₚ series).
  { rewrite (flat_map_Permutation _ _ _ (rangeT_perm parts)). fold (members parts). rewrite Hmem. unfold members. by rewrite map_to_list_empty. }
  rewrite (nansOfNamed_Permutation _ _ Hser), (nameless_Permutation _ _ Hser), counted_counted, !Nat.add_0_l, Nat.add_0_r.
  destruct (getWriteRequestTimestampBounds req) as [start_ end_].
  set (ms := flat_map _ (rangeT parts)). 
  assert (Hms : ms ≡ₚ map (λ md, seriesMetric (isSum (md_Type md)) md) (List.filter named series)).
  { unfold ms. rewrite (flat_map_filter_map (λ md, seriesMetric (isSum (md_Type md)) md)).
    - by rewrite (filter_Permutation named _ _ Hser).
    - intros [t l] md Htm Hmd. cbn in *. rewrite rangeT_perm, elem_of_map_to_list in Htm. apply Hok in Htm.
      rewrite Forall_forall in Htm. by rewrite (Htm md Hmd). }
  exists ms, start_, end_. split_and!; [done|done|].
  rewrite Hms. unfold nansOfNamed. clear. induction (List.filter named series) as [|md l IH]; [done|]. cbn [map sum_list_with].
  rewrite (samples_split (md_Samples md)).
  assert (Hpts : pointsOf (seriesMetric (isSum (md_Type md)) md) = length (List.filter isNumber (md_Samples md))).
  { unfold pointsOf, seriesMetric. cbn [m_Data]. destruct (isSum (md_Type md)); apply length_map. }
  rewrite Hpts. lia.
Qed.

Definition series_ok (ts : timeSeries) : Prop := is_Some (getLabelValue (ts_Labels ts) "__name__") ∧ ts_Samples ts ≠ [].

Lemma seriesErrors_nil ts : seriesErrors ts = [] ↔ series_ok ts.
Proof.
  unfold seriesErrors, series_ok, ExtractMetricNameLabel. destruct (getLabelValue _ _), (ts_Samples ts); cbn;
    split; try done; try (intros [[? ?] ?]; done); intros _; split; try done; by eexists.
Qed.

Lemma flat_map_seriesErrors l : flat_map seriesErrors l = [] ↔ Forall series_ok l.
Proof.
  induction l as [|ts l IH]; cbn; [by split|]. rewrite app_nil, IH, seriesErrors_nil, Forall_cons. done.
Qed.

(** A request is accepted and its metrics sent exactly when every series has a
    name label and samples; one such series without rejects the whole request,
    an empty request is answered without sending. *)
Theorem handle_correct (decode : string → res writeRequest) (p : parser) (body : string) (req : writeRequest) :
  parser_ok p → decode body = Ok req →
  match handle decode p body with
  | (status, sent, _) =>
      (wr_Timeseries req = [] ∧ wr_Metadata req = 0%nat ∧ status = 204 ∧ sent = None) ∨
      ((wr_Timeseries req ≠ [] ∨ wr_Metadata req ≠ 0%nat) ∧
       (Forall series_ok (wr_Timeseries req) ∧ status = 202 ∧ (∃ ms, sent = Some ms) ∨
        ¬ Forall series_ok (wr_Timeseries req) ∧ status = 400 ∧ sent = None))
  end.
Proof.
  intros Hp Hd. unfold handle. rewrite Hd.
  destruct ((length (wr_Timeseries req) =? 0)%nat && (wr_Metadata req =? 0)%nat) eqn:He.
  - apply andb_true_iff in He as [Hl%Nat.eqb_eq Hm%Nat.eqb_eq]. left. destruct (wr_Timeseries req); done.
  - destruct (translation_correct p req Hp) as (ms & a & b & -> & _ & _). 
    assert (Hne : wr_Timeseries req ≠ [] ∨ wr_Metadata req ≠ 0%nat).
    { apply andb_false_iff in He as [Hl%Nat.eqb_neq|Hm%Nat.eqb_neq]; [left | by right]. by destruct (wr_Timeseries req). }
    destruct (flat_map seriesErrors (wr_Timeseries req)) eqn:Hf; right; (split; [done|]).
    + apply flat_map_seriesErrors in Hf. left. eauto.
    + right. split_and!; [|done|done]. intros Hall%flat_map_seriesErrors. congruence.
Qed.

(** The bounds of a request without series are those of the empty range: its
    own metrics start at the end of the unsigned range and end at zero. *)
Theorem metadata_only_bounds (req : writeRequest) : wr_Timeseries req = [] →
  let '(start_, end_) := getWriteRequestTimestampBounds req in
  NewTimestampFromTime start_ = 2 ^ 64 - 1000000 ∧ NewTimestampFromTime end_ = 0.
Proof. intros Ht. unfold getWriteRequestTimestampBounds. rewrite Ht. split; vm_compute; reflexivity. Qed.

(** An integer stands for the sample's very value, and fits; a timestamp that
    fits unsigned nanoseconds is converted exactly. *)
Lemma setFloatOrInt_exact v z : setFloatOrInt v = NInt z → SFeqb (float_of_Z z) v = true ∧ is_i64 z.
Proof.
  unfold setFloatOrInt. destruct (is_nan v); [done|]. destruct (SFeqb _ v) eqn:Hq; [|done]. intros [= <-]. split; [done|]. apply int64_of_float_range.
Qed.
Lemma prometheusToOtelTimestamp_exact ts : is_u64 (ts * 1000000) → prometheusToOtelTimestamp ts = ts * 1000000.
Proof. intros Ht. unfold prometheusToOtelTimestamp. rewrite u64_wrap. by apply u64_id. Qed.
End otel.

(** ** The goroutines of a started receiver (receiver.go)

    Handlers send their results on a channel of the configured capacity; the
    loop of [manageServerLifecycle] receives them and flushes each to the next
    consumer.  Messages are identified by their metrics. *)

Section lifecycle.
Context {msg : Type} (capacity : nat) (ConsumeMetrics : msg → option error).

Record server := {
  sending : list msg;    (* handlers blocked on the channel *)
  buffer : list msg;
  running : bool;        (* the loop has not returned *)
  closed : bool;
  cancelled : bool;
  accepted : list msg;   (* requests answered with 202, in the order of their sends *)
  flushed : list msg;    (* received by the loop *)
}.

Definition started : server :=
  {| sending := []; buffer := []; running := true; closed := false; cancelled := false; accepted := []; flushed := [] |}.

Inductive step : server → server → Prop :=
(* a handler has translated its request *)
| step_request s m :
    step s {| sending := sending s ++ [m]; buffer := buffer s; running := running s; closed := closed s; cancelled := cancelled s;
              accepted := accepted s; flushed := flushed s |}
(* a send into the buffer *)
| step_send s m l1 l2 :
    sending s = l1 ++ m :: l2 → closed s = false → (length (buffer s) < capacity)%nat →
    step s {| sending := l1 ++ l2; buffer := buffer s ++ [m]; running := running s; closed := closed s; cancelled := cancelled s;
              accepted := accepted s ++ [m]; flushed := flushed s |}
(* a send to the waiting loop, when the channel is unbuffered *)
| step_handoff s m l1 l2 :
    sending s = l1 ++ m :: l2 → closed s = false → capacity = 0%nat → running s = true → buffer s = [] →
    step s {| sending := l1 ++ l2; buffer := []; running := match ConsumeMetrics m with None => true | Some _ => false end;
              closed := closed s; cancelled := cancelled s; accepted := accepted s ++ [m]; flushed := flushed s ++ [m] |}
(* a send on the closed channel panics, the handler is gone *)
| step_panic s m l1 l2 :
    sending s = l1 ++ m :: l2 → closed s = true →
    step s {| sending := l1 ++ l2; buffer := buffer s; running := running s; closed := closed s; cancelled := cancelled s;
              accepted := accepted s; flushed := flushed s |}
(* the loop receives and flushes; an error ends it *)
| step_receive s m b :
    running s = true → buffer s = m :: b →
    step s {| sending := sending s; buffer := b; running := match ConsumeMetrics m with None => true | Some _ => false end;
              closed := closed s; cancelled := cancelled s; accepted := accepted s; flushed := flushed s ++ [m] |}
(* the loop sees the closed channel, or the cancelled context *)
| step_closed s :
    running s = true → buffer s = [] → closed s = true →
    step s {| sending := sending s; buffer := []; running := false; closed := closed s; cancelled := cancelled s;
              accepted := accepted s; flushed := flushed s |}
| step_done s :
    running s = true → cancelled s = true →
    step s {| sending := sending s; buffer := buffer s; running := false; closed := closed s; cancelled := cancelled s;
              accepted := accepted s; flushed := flushed s |}
(* [Shutdown]: the channel is closed, then the context cancelled *)
| step_close s :
    step s {| sending := sending s; buffer := buffer s; running := running s; closed := true; cancelled := cancelled s;
              accepted := accepted s; flushed := flushed s |}
| step_cancel s :
    closed s = true →
    step s {| sending := sending s; buffer := buffer s; running := running s; closed := closed s; cancelled := true;
              accepted := accepted s; flushed := flushed s |}.

Definition steps := rtc step.

(** Accepted requests are flushed in the order they were accepted, or wait in
    the buffer, which stays within its capacity. *)
Definition wf (s : server) : Prop := accepted s = flushed s ++ buffer s ∧ (length (buffer s) <= capacity)%nat.

Lemma server_step_wf s s' : step s s' → wf s → wf s'.
Proof.
  intros Hs [Ha Hl]. destruct Hs; split; cbn; try done.
  - by rewrite Ha, app_assoc.
  - rewrite length_app. cbn. lia.
  - match goal with Hb : buffer s = [] |- _ => rewrite Hb, app_nil_r in Ha end. by rewrite Ha, app_nil_r.
  - lia.
  - match goal with Hb : buffer s = m :: b |- _ => rewrite Hb in Ha end. by rewrite Ha, <-app_assoc.
  - match goal with Hb : buffer s = m :: b |- _ => rewrite Hb in Hl end. cbn in Hl. lia.
  - match goal with Hb : buffer s = [] |- _ => rewrite Hb in Ha end. done.
  - lia.
Qed.

Lemma accepted_wf s : steps started s → wf s.
Proof.
  assert (Hg : ∀ a b, steps a b → wf a → wf b) by (induction 1; eauto using server_step_wf).
  intros Hs. apply (Hg _ _ Hs). split; cbn; [done | lia].
Qed.

(** In every reachable state nothing accepted is lost or reordered: it was
    flushed, in order, or is still buffered. *)
Theorem accepted_in_order (s : server) : steps started s →
  accepted s = flushed s ++ buffer s ∧ (length (buffer s) <= capacity)%nat.
Proof.
  apply accepted_wf.
Qed.

Lemma step_stopped s s' : step s s' → running s = false → running s' = false ∧ flushed s' = flushed s.
Proof. intros Hs Hr. destruct Hs; cbn; try done; congruence. Qed.

(** While the loop runs and the consumer takes what it is given, everything
    buffered gets flushed. *)
Theorem buffer_drains (s : server) : running s = true → Forall (λ m, ConsumeMetrics m = None) (buffer s) →
  ∃ s', steps s s' ∧ buffer s' = [] ∧ flushed s' = flushed s ++ buffer s ∧ accepted s' = accepted s ∧ running s' = true.
Proof.
  intros Hr Hall. remember (buffer s) as b eqn:Hb. revert s Hr Hb. induction Hall as [|m b Hm Hall IH]; intros s Hr Hb.
  - exists s. rewrite app_nil_r. split; [apply rtc_refl|]. done.
  - pose proof (step_receive s m b Hr (eq_sym Hb)) as Hs. rewrite Hm in Hs.
    match type of Hs with step _ ?t => set (s1 := t) in * end.
    destruct (IH s1) as (s' & Hss & He & Hf & Ha & Hr'); [done|done|]. exists s'. split; [by eapply rtc_l|].
    split_and!; [done| |done|done]. rewrite Hf. unfold s1. cbn. by rewrite <-app_assoc.
Qed.

(** An error of the next consumer ends the loop for good, while the handlers go
    on: nothing is delivered any more, whatever happens, and once the buffer is
    full no request is answered. *)
Theorem flush_error_ends_delivery (s : server) (m : msg) (b : list msg) (e : error) (s1 s' : server) :
  steps started s → running s = true → buffer s = m :: b → ConsumeMetrics m = Some e →
  s1 = {| sending := sending s; buffer := b; running := false; closed := closed s; cancelled := cancelled s;
          accepted := accepted s; flushed := flushed s ++ [m] |} →
  steps s1 s' →
  step s s1 ∧ running s' = false ∧ flushed s' = flushed s ++ [m] ∧ (length (accepted s') <= length (flushed s') + capacity)%nat.
Proof.
  intros Hs Hr Hb He -> Hs1.
  assert (Hst : step s {| sending := sending s; buffer := b; running := false; closed := closed s; cancelled := cancelled s;
    accepted := accepted s; flushed := flushed s ++ [m] |}) by (pose proof (step_receive s m b Hr Hb) as Hx; by rewrite He in Hx).
  split; [done|].
  assert (Hg : ∀ x y, steps x y → running x = false → running y = false ∧ flushed y = flushed x).
  { induction 1 as [|x y z Hxy _ IH]; [done|]. intros Hx. destruct (step_stopped _ _ Hxy Hx) as [Hy Hf]. rewrite <-Hf. by apply IH. }
  destruct (Hg _ _ Hs1 eq_refl) as [Hr' Hf']. split_and!; [done|done|].
  destruct (accepted_wf s') as [Ha Hl]; [etrans; [exact Hs | by eapply rtc_l]|]. rewrite Ha, length_app. lia.
Qed.
End lifecycle.

(** ** Witnesses *)

Definition demo_overflow : FloatOverflow.
Proof. refine {| int64_overflow _ := - 2 ^ 63 |}. intros _. unfold is_i64. lia. Defined.

Definition demo_series : timeSeries := {|
  ts_Labels := [{| l_Name := "__name__"; l_Value := "http_requests_total" |}; {| l_Name := "code"; l_Value := "200" |}];
  ts_Samples := [{| sa_Value := float_of_Z 7; sa_Timestamp := 1000 |}; {| sa_Value := S754_nan; sa_Timestamp := 2000 |}] |}.
Definition demo_request : writeRequest := {| wr_Timeseries := [demo_series]; wr_Metadata := 0 |}.

Example setFloatOrInt_1 : @setFloatOrInt demo_overflow (float_of_Z 7) = NInt 7. Proof. vm_compute. reflexivity. Qed.
Example setFloatOrInt_2 : @setFloatOrInt demo_overflow (S754_finite false 3 (-1)) = NDouble (S754_finite false 3 (-1)). Proof. vm_compute. reflexivity. Qed.
Example setFloatOrInt_3 : @setFloatOrInt demo_overflow (S754_infinity false) = NDouble (S754_infinity false). Proof. vm_compute. reflexivity. Qed.

Lemma parser_start : parser_ok newPrometheusRemoteOtelParser.
Proof. unfold parser_ok, is_i64. cbn. lia. Qed.

Lemma translation_correct_witness : ∃ ms start_ end_,
  (sum_list_with pointsOf ms + 1 = 2)%nat ∧
  (@fromPrometheusWriteRequestMetrics demo_overflow map_to_list newPrometheusRemoteOtelParser demo_request).1.1 =
    [{| rm_Attrs := ∅; rm_Scopes := [{| sm_Name := scopeName; sm_Version := "0.1"; sm_Metrics := ms ++
      [countMetric "prometheus.invalid_requests" 0 start_ end_; countMetric "prometheus.total_NAN_samples" 1 start_ end_;
       countMetric "prometheus.total_bad_datapoints" 0 start_ end_] |}] |}].
Proof.
  destruct (@translation_correct demo_overflow map_to_list ltac:(done) newPrometheusRemoteOtelParser demo_request parser_start)
    as (ms & a & b & Hf & _ & Hsum).
  exists ms, a, b. split; [exact Hsum|]. rewrite Hf. reflexivity.
Defined.

Lemma handle_correct_witness :
  (@handle demo_overflow map_to_list (λ _, Ok demo_request) newPrometheusRemoteOtelParser "").1.1 = 202.
Proof.
  pose proof (@handle_correct demo_overflow map_to_list ltac:(done) (λ _, Ok demo_request) newPrometheusRemoteOtelParser "" demo_request parser_start eq_refl) as Hh.
  destruct (handle _ _ _ _) as [[st sent] p']. destruct Hh as [(Hn & _)|(_ & [(_ & -> & _)|(Hn & _)])]; [discriminate Hn|reflexivity|].
  exfalso. apply Hn. repeat constructor; [by eexists | done].
Defined.

Lemma metadata_only_bounds_witness : NewTimestampFromTime (getWriteRequestTimestampBounds {| wr_Timeseries := []; wr_Metadata := 3 |}).2 = 0.
Proof.
  pose proof (metadata_only_bounds {| wr_Timeseries := []; wr_Metadata := 3 |} eq_refl) as Hm.
  destruct (getWriteRequestTimestampBounds _) as [a b]. apply Hm.
Defined.

Definition demo_server : server (msg := nat) :=
  {| sending := []; buffer := [2%nat]; running := true; closed := false; cancelled := false; accepted := [1%nat; 2%nat]; flushed := [1%nat] |}.
Definition demo_consume (fails : nat) (m : nat) : option error := if (m =? fails)%nat then Some (Errorf "export failed" []) else None.

Lemma demo_server_reachable : steps 1 (demo_consume 2) started demo_server.
Proof.
  eapply rtc_l; [apply (step_request _ _ _ 1%nat)|]. eapply rtc_l; [eapply (step_send _ _ _ 1%nat [] []); [reflexivity|done|cbn; lia]|].
  eapply rtc_l; [eapply (step_receive _ _ _ 1%nat []); reflexivity|]. eapply rtc_l; [apply (step_request _ _ _ 2%nat)|].
  eapply rtc_l; [eapply (step_send _ _ _ 2%nat [] []); [reflexivity|done|cbn; lia]|]. apply rtc_refl.
Qed.

Lemma accepted_in_order_witness : accepted demo_server = flushed demo_server ++ buffer demo_server.
Proof. apply (accepted_in_order 1 (demo_consume 2) demo_server). apply demo_server_reachable. Defined.

Lemma buffer_drains_witness : ∃ s', steps 1 (demo_consume 9) demo_server s' ∧ flushed s' = [1%nat; 2%nat].
Proof.
  destruct (buffer_drains 1 (demo_consume 9) demo_server) as (s' & Hs & _ & Hf & _); [reflexivity|repeat constructor|].
  exists s'. split; assumption.
Defined.

Definition demo_stopped : server (msg := nat) :=
  {| sending := []; buffer := []; running := false; closed := false; cancelled := false; accepted := [1%nat; 2%nat]; flushed := [1%nat; 2%nat] |}.
Definition demo_after : server (msg := nat) :=
  {| sending := [4%nat]; buffer := [3%nat]; running := false; closed := false; cancelled := false; accepted := [1; 2; 3]%nat; flushed := [1%nat; 2%nat] |}.

Lemma demo_after_reachable : steps 1 (demo_consume 2) demo_stopped demo_after.
Proof.
  eapply rtc_l; [apply (step_request _ _ _ 3%nat)|]. eapply rtc_l; [eapply (step_send _ _ _ 3%nat [] []); [reflexivity|done|cbn; lia]|].
  eapply rtc_l; [apply (step_request _ _ _ 4%nat)|]. apply rtc_refl.
Qed.

(** Two requests after the error: one is accepted and never delivered, the
    other is not answered. *)
Lemma flush_error_ends_delivery_witness : flushed demo_after = [1%nat; 2%nat] ∧ (length (accepted demo_after) <= 3)%nat.
Proof.
  destruct (flush_error_ends_delivery 1 (demo_consume 2) demo_server 2%nat [] (Errorf "export failed" []) demo_stopped demo_after
    demo_server_reachable eq_refl eq_refl eq_refl eq_refl demo_after_reachable) as (_ & _ & Hf & Ha).
  split; [exact Hf | exact Ha].
Defined.
