(* ===== verification/SmartAgent.v ===== *)
(** * The Smart Agent receiver

    [src/pkg/receiver/smartagentreceiver]: the conversion of SignalFx data points,
    events, spans and dimension updates ([converter], [dimension.go]), the filter
    of a monitor's metrics ([filtering.go], on the filters of [Filters]), the
    output that monitors send to ([output.go]), the endpoint and interval of a
    monitor's configuration ([config.go]) and the receiver's life cycle
    ([receiver.go]).  The Zipkin translator, the monitors and their
    configuration structs are parameters or records of the fields used. *)

From S2P Require Import Prelude GoStrings GoValue Settings Telemetry Filters ConfigProvider DiscoveryReceiver.
From Stdlib Require Import Ascii.
#[local] Open Scope Z_scope.

(** ** converter/metrics.go *)

Inductive sfxMetricType := Gauge | Count | Enum | Counter | Rate | Timestamp | OtherMetricType (n : Z).
Inductive sfxValue := IntValue (z : Z) | FloatValue (f : float64) | StringValue (s : string).
(** [golib/datapoint.Datapoint]; no timestamp is the zero time, [Meta] is read
    under string keys only. *)
Record sfxDatapoint := {
  sd_Metric : string; sd_Type : sfxMetricType; sd_Value : sfxValue; sd_Time : option Z;
  sd_Dimensions : gmap string string; sd_Meta : gmap string any;
}.

Definition monitorIDDim : string := "monitorID".

Definition fillNumberDatapoint (value : sfxValue) (timestamp : option Z) (dimensions : gmap string string) (timeReceived : Z) : numberDP :=
  {| n_Attrs := AString <$> dimensions; n_Start := 0;
     n_Time := u64 (UnixNano (default timeReceived timestamp));
     n_Value := match value with IntValue z => NInt z | FloatValue f => NDouble f | StringValue _ => NEmpty end;
     n_Exemplars := [] |}.

(** The dimensions without a monitor identifier that the meta data repeats. *)
Definition withoutMonitorID (d : sfxDatapoint) : gmap string string :=
  match sd_Meta d !! monitorIDDim, sd_Dimensions d !! monitorIDDim with
  | Some (AString mmID), Some dmID => if String.eqb dmID mmID then delete monitorIDDim (sd_Dimensions d) else sd_Dimensions d
  | _, _ => sd_Dimensions d
  end.

Definition setDataTypeAndPoints (d : sfxDatapoint) (timeReceived : Z) : res metric :=
  match sd_Type d with
  | Timestamp => Err (Errorf "unsupported metric type timestamp" [])
  | t =>
      match sd_Value d with
      | StringValue s => Err (Errorf "unsupported value type %T: %v" [s])
      | _ =>
          let dp := fillNumberDatapoint (sd_Value d) (sd_Time d) (withoutMonitorID d) timeReceived in
          data ← match t with
                 | Gauge | Enum | Rate => Ok (MGauge [dp])
                 | Count => Ok (MSum Delta true [dp])
                 | Counter => Ok (MSum Cumulative true [dp])
                 | _ => Err (Errorf "unsupported metric type %T: %v" [])
                 end;
          Ok {| m_Name := sd_Metric d; m_Description := ""; m_Data := data |}
      end
  end.

(** [nil] data points are skipped, those that do not convert are dropped. *)
Definition convertDatapoint (timeReceived : Z) (d : option sfxDatapoint) : list metric :=
  match d with
  | None => []
  | Some d => match setDataTypeAndPoints d timeReceived with Ok m => [m] | Err _ => [] end
  end.
Definition sfxDatapointsToPDataMetrics (datapoints : list (option sfxDatapoint)) (timeReceived : Z) : list resourceMetrics :=
  [{| rm_Attrs := ∅; rm_Scopes := [{| sm_Name := ""; sm_Version := ""; sm_Metrics := flat_map (convertDatapoint timeReceived) datapoints |}] |}].

(** ** converter/event.go *)

Definition sfxEventCategoryKey : string := "com.splunk.signalfx.event_category".
Definition sfxEventPropertiesKey : string := "com.splunk.signalfx.event_properties".
Definition sfxEventType : string := "com.splunk.signalfx.event_type".

Record sfxEvent := {
  se_Time : option Z; se_Type : string; se_Category : Z;
  se_Dimensions : gmap string string; se_Properties : gmap string any;
}.

Section converter.
Context `{FloatText} `{MapRange}.

(** A property as an attribute value; all integer kinds are one here. *)
Definition propertyValue (v : any) : option any :=
  match v with
  | ANil => None
  | AString _ | ABool _ | AInt _ | AFloat _ => Some v
  | _ => Some (AString (Sprint v))
  end.

Definition sfxEventToPDataLogs (e : sfxEvent) : list resourceLogs :=
  let attrs : gmap string any := AString <$> se_Dimensions e in
  let attrs := <[sfxEventCategoryKey := if se_Category e =? 0 then ANil else AInt (se_Category e)]> attrs in
  let attrs := if String.eqb (se_Type e) "" then attrs else <[sfxEventType := AString (se_Type e)]> attrs in
  let attrs := if (size (se_Properties e) =? 0)%nat then attrs
               else <[sfxEventPropertiesKey := AMap (omap propertyValue (se_Properties e))]> attrs in
  [{| rl_Attrs := ∅; rl_Scopes := [[{| lr_Time := match se_Time e with None => 0 | Some t => u64 (UnixNano t) end; lr_Observed := 0;
                                       lr_Body := ANil; lr_Attrs := attrs |}]] |}].

(** ** converter/traces.go *)

(** A span with the client address of its meta data; [sfxToZipkin] is the JSON
    round trip, [ToTraces] the translator of the Zipkin receiver. *)
Context {sfxSpan zipkinSpan : Type} (sourceIP : sfxSpan → string) (sfxToZipkin : sfxSpan → option zipkinSpan)
  (ToTraces : list zipkinSpan → res (list resourceSpans)).

Definition addToBatch (batches : gmap string (list sfxSpan)) (s : option sfxSpan) : gmap string (list sfxSpan) :=
  match s with
  | None => batches
  | Some s => <[sourceIP s := default [] (batches !! sourceIP s) ++ [s]]> batches
  end.

Definition withIP (ip : string) (rs : resourceSpans) : resourceSpans :=
  if String.eqb ip "" then rs else {| rs_Attrs := <["ip" := AString ip]> (rs_Attrs rs); rs_Scopes := rs_Scopes rs |}.

Definition translateBatch (acc : list resourceSpans * option error) (kv : string * list sfxSpan) : list resourceSpans * option error :=
  let '(ip, spans) := kv in
  match ToTraces (omap sfxToZipkin spans) with
  | Err e => (acc.1, Some e)
  | Ok translated => (acc.1 ++ map (withIP ip) translated, acc.2)
  end.

Definition sfxSpansToPDataTraces (spans : list (option sfxSpan)) : list resourceSpans * option error :=
  foldl translateBatch ([], None) (range (foldl addToBatch ∅ spans)).
End converter.

(** ** dimension.go *)

Definition deleteThisProperty : string := "sf_delete_this_property".
Record saDimension := { d_Name : string; d_Value : string; d_Properties : gmap string string; d_Tags : gmap string bool }.
Record MetadataUpdate := {
  ResourceIDKey : string; ResourceID : string;
  MetadataToAdd : gmap string string; MetadataToRemove : gmap string string; MetadataToUpdate : gmap string string;
}.

Definition dimensionToMetadataUpdate `{MapRange} (d : saDimension) : MetadataUpdate :=
  let u := foldl (λ u (kv : string * string),
    if String.eqb kv.2 "" then
      {| ResourceIDKey := ResourceIDKey u; ResourceID := ResourceID u; MetadataToAdd := MetadataToAdd u;
         MetadataToRemove := <[kv.1 := deleteThisProperty]> (MetadataToRemove u); MetadataToUpdate := MetadataToUpdate u |}
    else
      {| ResourceIDKey := ResourceIDKey u; ResourceID := ResourceID u; MetadataToAdd := MetadataToAdd u;
         MetadataToRemove := MetadataToRemove u; MetadataToUpdate := <[kv.1 := kv.2]> (MetadataToUpdate u) |})
    {| ResourceIDKey := d_Name d; ResourceID := d_Value d; MetadataToAdd := ∅; MetadataToRemove := ∅; MetadataToUpdate := ∅ |}
    (range (d_Properties d)) in
  foldl (λ u (kv : string * bool),
    if kv.2 then
      {| ResourceIDKey := ResourceIDKey u; ResourceID := ResourceID u; MetadataToAdd := <[kv.1 := ""]> (MetadataToAdd u);
         MetadataToRemove := MetadataToRemove u; MetadataToUpdate := MetadataToUpdate u |}
    else
      {| ResourceIDKey := ResourceIDKey u; ResourceID := ResourceID u; MetadataToAdd := MetadataToAdd u;
         MetadataToRemove := <[kv.1 := ""]> (MetadataToRemove u); MetadataToUpdate := MetadataToUpdate u |})
    u (range (d_Tags d)).

(** ** filtering.go *)

(** [monitors.Metadata], with the groups of the metrics. *)
Record Metadata := {
  MonitorType : string; SendAll : bool; SendUnknown : bool;
  DefaultMetrics : gmap string bool; MetricGroups : gmap string string; GroupMetricsMap : gmap string (list string);
}.
Definition HasMetric (md : Metadata) (metric : string) : bool := bool_decide (is_Some (MetricGroups md !! metric)).
Definition HasDefaultMetric (md : Metadata) (metric : string) : bool := default false (DefaultMetrics md !! metric).

Section filtering.
Context `{PatternEngine} `{FloatText} `{MapRange}.

(** The error of an extra metric; a metric or pattern unknown to the monitor is
    only warned about. *)
Definition validateMetricName (md : Metadata) (metricName : string) : res unit :=
  if String.eqb (TrimSpace metricName) "" then Err (Errorf "metric name cannot be empty" [])
  else if SendUnknown md then Ok ()
  else if ContainsByte metricName "*" then
    _ ← NewBasicStringFilter [metricName];
    Ok ()
  else Ok ().

Definition validateGroup (md : Metadata) (group : string) : res (list string) :=
  if String.eqb (TrimSpace group) "" then Err (Errorf "group cannot be empty" [])
  else Ok (default [] (GroupMetricsMap md !! group)).

Record extraMetricsFilter := { emf_metadata : Metadata; emf_extraMetrics : gset string; emf_stringFilter : BasicStringFilter }.

Definition extraItem (md : Metadata) (metric : string) : res (list string) :=
  _ ← validateMetricName md metric;
  Ok (if default false (DefaultMetrics md !! metric) then [] else [metric]).

Definition newMetricsFilter (md : Metadata) (extraMetrics extraGroups : list string) : res extraMetricsFilter :=
  items ← mapM_res (extraItem md) extraMetrics;
  groups ← mapM_res (validateGroup md) extraGroups;
  let filterItems := concat items ++ concat groups in
  match NewBasicStringFilter filterItems with
  | Err _ => Err (Errorf "unable to construct filter with items %s: %s" filterItems)
  | Ok basicFilter =>
      Ok {| emf_metadata := md;
            emf_extraMetrics := list_to_set (List.filter (BasicStringFilter_Matches basicFilter) (range (MetricGroups md)).*1);
            emf_stringFilter := basicFilter |}
  end.

Definition extraMetricsFilter_Matches (mf : extraMetricsFilter) (dp : Datapoint) : bool :=
  let md := emf_metadata mf in
  if (size (MetricGroups md) =? 0)%nat then true
  else if negb (HasMetric md (dp_Metric dp)) && SendUnknown md then true
  else if HasDefaultMetric md (dp_Metric dp) then true
  else if bool_decide (dp_Metric dp ∈ emf_extraMetrics mf) then true
  else BasicStringFilter_Matches (emf_stringFilter mf) (dp_Metric dp).

(** The parts of a monitor's configuration that filtering reads; [GetExtraMetrics]
    of the monitors that have it. *)
Record monitorConfig := {
  DatapointsToExclude : list MetricFilter; ExtraMetrics : list string; ExtraGroups : list string;
  GetExtraMetrics : list string;
}.

Definition buildFilterSet (md : option Metadata) (conf : monitorConfig) : res FilterSet :=
  filter ← makeNewFilterSet (DatapointsToExclude conf);
  let excludeFilters : list DatapointFilter := [FilterSet_Matches filter] in
  match md with
  | Some md =>
      if negb (size (MetricGroups md) =? 0)%nat && negb (SendAll md) then
        match newMetricsFilter md (ExtraMetrics conf ++ GetExtraMetrics conf) (ExtraGroups conf) with
        | Err _ => Err (Errorf "unable to construct extraMetrics filter: %s" [])
        | Ok included => Ok {| ExcludeFilters := Negate (extraMetricsFilter_Matches included) :: excludeFilters; IncludeFilters := [] |}
        end
      else Ok {| ExcludeFilters := excludeFilters; IncludeFilters := [] |}
  | None => Ok {| ExcludeFilters := excludeFilters; IncludeFilters := [] |}
  end.

Record monitorFiltering := { mf_filterSet : FilterSet; mf_metadata : option Metadata; mf_hasExtraMetrics : bool }.

Definition newMonitorFiltering (conf : monitorConfig) (md : option Metadata) : res monitorFiltering :=
  fs ← buildFilterSet md conf;
  Ok {| mf_filterSet := fs; mf_metadata := md;
        mf_hasExtraMetrics := negb (length (ExtraMetrics conf) =? 0)%nat || negb (length (ExtraGroups conf) =? 0)%nat |}.

Definition AddDatapointExclusionFilter (mf : monitorFiltering) (f : DatapointFilter) : monitorFiltering :=
  {| mf_filterSet := {| ExcludeFilters := ExcludeFilters (mf_filterSet mf) ++ [f]; IncludeFilters := IncludeFilters (mf_filterSet mf) |};
     mf_metadata := mf_metadata mf; mf_hasExtraMetrics := mf_hasExtraMetrics mf |}.

Definition EnabledMetrics (mf : monitorFiltering) : list string :=
  match mf_metadata mf with
  | None => []
  | Some md => List.filter (λ m, negb (FilterSet_Matches (mf_filterSet mf) {| dp_Metric := m; dp_Dimensions := ∅ |})) (range (MetricGroups md)).*1
  end.

Definition HasEnabledMetricInGroup (mf : monitorFiltering) (group : string) : bool :=
  match mf_metadata mf with
  | None => false
  | Some md => existsb (λ m, String.eqb (default "" (MetricGroups md !! m)) group) (EnabledMetrics mf)
  end.
End filtering.

(** ** output.go *)

(** The outputs of one receiver: [Copy] gives a monitor's child its own extra
    dimensions, and shares the filtering. *)
Record outputs := { out_filtering : monitorFiltering; out_extra : list (gmap string string) }.

Definition newOutput (mf : monitorFiltering) : outputs := {| out_filtering := mf; out_extra := [∅] |}.
Definition output_Copy (os : outputs) (i : nat) : outputs :=
  {| out_filtering := out_filtering os; out_extra := out_extra os ++ [default ∅ (out_extra os !! i)] |}.
Definition AddExtraDimension (os : outputs) (i : nat) (key value : string) : outputs :=
  {| out_filtering := out_filtering os; out_extra := alter (λ m : gmap string string, <[key := value]> m) i (out_extra os) |}.
Definition output_AddDatapointExclusionFilter (os : outputs) (f : DatapointFilter) : outputs :=
  {| out_filtering := AddDatapointExclusionFilter (out_filtering os) f; out_extra := out_extra os |}.

Definition toDatapoint (d : sfxDatapoint) : Datapoint := {| dp_Metric := sd_Metric d; dp_Dimensions := sd_Dimensions d |}.
(** [utils.MergeStringMaps(a, b)]: the later map wins. *)
Definition MergeStringMaps (a b : gmap string string) : gmap string string := b ∪ a.

Definition filterDatapoints (mf : monitorFiltering) (datapoints : list sfxDatapoint) : list sfxDatapoint :=
  List.filter (λ d, negb (FilterSet_Matches (mf_filterSet mf) (toDatapoint d))) datapoints.
Definition addExtra (extra : gmap string string) (d : sfxDatapoint) : sfxDatapoint :=
  {| sd_Metric := sd_Metric d; sd_Type := sd_Type d; sd_Value := sd_Value d; sd_Time := sd_Time d;
     sd_Dimensions := MergeStringMaps (sd_Dimensions d) extra; sd_Meta := sd_Meta d |}.

(** What the next consumer is given; nothing without a metrics consumer. *)
Definition SendDatapoints (hasConsumer : bool) (os : outputs) (i : nat) (now : Z) (datapoints : list sfxDatapoint) : option (list resourceMetrics) :=
  if hasConsumer then
    Some (sfxDatapointsToPDataMetrics
      (map (λ d, Some (addExtra (default ∅ (out_extra os !! i)) d)) (filterDatapoints (out_filtering os) datapoints)) now)
  else None.

(** The exporters of the host: their identifiers and whether they take metadata. *)
Section clients.
Context `{IDRange}.

Definition getDimensionClientsFromMetricsExporters (specifiedClients : option (list string)) (exporters : gmap ID bool)
    (nextIsMetadataExporter : bool) : list (option ID) * bool :=
  match specifiedClients with
  | None => (if nextIsMetadataExporter then [None] else [], true)
  | Some clients =>
      (flat_map (λ client, flat_map (λ kv : ID * bool, if String.eqb (cid_String kv.1) client && kv.2 then [Some kv.1] else []) (rangeID exporters)) clients, false)
  end.

Fixpoint loneSFx (found : option ID) (l : list (ID * bool)) : option ID :=
  match l with
  | [] => found
  | (id, _) :: l =>
      if String.eqb (ID_Type id) "signalfx" then match found with None => loneSFx (Some id) l | Some _ => None end
      else loneSFx found l
  end.
Definition getLoneSFxExporter (exporters : gmap ID bool) : option ID := loneSFx None (rangeID exporters).

(** [None] stands for the next metrics consumer. *)
Definition getMetadataExporters (specifiedClients : option (list string)) (exporters : gmap ID bool) (nextIsMetadataExporter : bool) : list (option ID) :=
  let '(found, noClientsSpecified) := getDimensionClientsFromMetricsExporters specifiedClients exporters nextIsMetadataExporter in
  if (length found =? 0)%nat && noClientsSpecified then
    match getLoneSFxExporter exporters with
    | Some id => if default false (exporters !! id) then [Some id] else []
    | None => []
    end
  else found.
End clients.

(** ** config.go *)

Definition defaultIntervalSeconds : Z := 10.
(** The interval a monitor's configuration has after [validate]. *)
Definition validateInterval (intervalSeconds : Z) : res Z :=
  if intervalSeconds =? 0 then Ok defaultIntervalSeconds
  else if intervalSeconds <? 0 then Err (Errorf "intervalSeconds must be greater than 0s (%d provided)" [pretty intervalSeconds])
  else Ok intervalSeconds.

Definition getStringSliceFromAllSettings (allSettings : gmap string any) (key : string) : res (option (list string) * gmap string any) :=
  match allSettings !! key with
  | None => Ok (None, allSettings)
  | Some (ASlice l) =>
      match mapM as_string l with
      | Some items => Ok (Some items, delete key allSettings)
      | None => Err (Errorf "dimensionClients must be an array of compatible exporter names" [])
      end
  | Some _ => Err (Errorf "dimensionClients must be an array of compatible exporter names" [])
  end.

(** [net.SplitHostPort]; [None] on an error. *)
Fixpoint LastIndexByte (s : string) (c : ascii) : option nat :=
  match s with
  | EmptyString => None
  | String d s =>
      match LastIndexByte s c with
      | Some i => Some (S i)
      | None => if Ascii.eqb d c then Some 0%nat else None
      end
  end.
Definition SplitHostPort (hostport : string) : option (string * string) :=
  match LastIndexByte hostport ":" with
  | None => None
  | Some i =>
      let port := sdrop (S i) hostport in
      match hostport with
      | String "[" _ =>
          match IndexByte hostport "]" with
          | None => None
          | Some e =>
              if (S e =? i)%nat then
                if ContainsByte (sdrop 1 hostport) "[" || ContainsByte (sdrop (S e) hostport) "]" then None
                else Some (slice hostport 1 e, port)
              else None
          end
      | _ =>
          let host := stake i hostport in
          if ContainsByte host ":" || ContainsByte hostport "[" || ContainsByte hostport "]" then None else Some (host, port)
      end%char
  end.

(** [strconv.ParseUint(s, 10, 16)] *)
Definition ParseUint16 (s : string) : option Z :=
  if String.eqb s "" then None
  else match digits_value 0 s with
       | Some n => if n <? 65536 then Some n else None
       | None => None
       end.

(** The [Host] and [Port] fields of a monitor's configuration, if it has them
    with these types. *)
Inductive portField := NoPort | PortUint (p : Z) | PortString (s : string).
Record hostPort := { hp_Host : option string; hp_Port : portField }.

Definition setHost (host : string) (c : hostPort) : hostPort :=
  if String.eqb host "" then c
  else {| hp_Host := match hp_Host c with Some "" => Some host | h => h end; hp_Port := hp_Port c |}.
Definition setPort (port : Z) (portStr : string) (c : hostPort) : hostPort :=
  if port =? 0 then c
  else {| hp_Host := hp_Host c;
          hp_Port := match hp_Port c with
                     | PortUint p => PortUint (if p =? 0 then port else p)
                     | PortString s => PortString (if String.eqb s "" then portStr else s)
                     | NoPort => NoPort
                     end |}.
Definition setHostAndPortViaEndpoint (endpoint : string) (c : hostPort) : res hostPort :=
  if String.eqb endpoint "" then Ok c
  else
    let '(host, portStr) := match SplitHostPort endpoint with Some hp => hp | None => (endpoint, "") end in
    if String.eqb portStr "" then Ok (setHost host c)
    else match ParseUint16 portStr with
         | None => Err (Errorf "cannot determine port via Endpoint: %w" [])
         | Some port => Ok (setPort port portStr (setHost host c))
         end.

Example SplitHostPort_1 : SplitHostPort "localhost:8080" = Some ("localhost", "8080"). Proof. reflexivity. Qed.
Example SplitHostPort_2 : SplitHostPort "[::1]:80" = Some ("::1", "80"). Proof. reflexivity. Qed.
Example SplitHostPort_3 : SplitHostPort "::1" = None. Proof. reflexivity. Qed.

(** ** receiver.go *)

Definition stripMonitorTypePrefix (s : string) : string :=
  match IndexByte s "/" with None => s | Some idx => sdrop (S idx) s end.

(** Whether a monitor is set, and the calls made to it. *)
Record saReceiver := { hasMonitor : bool; configured : bool; shutdowns : nat }.
(** [Start]: the outcome of validating, of creating the monitor (an error, with
    or without a monitor) and of configuring it are the environment's. *)
Definition Start (r : saReceiver) (valid : option error) (create : bool * option error) (configure : option error) : saReceiver * option error :=
  if hasMonitor r then (r, None)
  else match valid with
       | Some e => (r, Some (Wrapf "config validation failed for %q: %w" [] e))
       | None =>
           let r := {| hasMonitor := create.1; configured := configured r; shutdowns := shutdowns r |} in
           match create.2 with
           | Some e => (r, Some (Wrapf "failed creating monitor %q: %w" [] e))
           | None => ({| hasMonitor := create.1; configured := bool_decide (configure = None); shutdowns := shutdowns r |}, configure)
           end
       end.
Definition Shutdown (r : saReceiver) (shutdownable : bool) : saReceiver * option error :=
  if negb (hasMonitor r) then (r, Some (Errorf "smartagentreceiver's Shutdown() called before Start() or with invalid monitor state" []))
  else if negb shutdownable then (r, Some (Errorf "invalid monitor state at Shutdown(): %#v" []))
  else ({| hasMonitor := hasMonitor r; configured := configured r; shutdowns := S (shutdowns r) |}, None).

(** ** Which data points are sent *)

Section sent.
Context `{PatternEngine} `{FloatText} `{MapRange}.

(** A metric is included when the monitor declares none, when it is unknown and
    the monitor sends unknown ones, when it is a default one, or when the user's
    extra metrics and groups match it. *)
Definition included (md : Metadata) (extra : BasicStringFilter) (metric : string) : bool :=
  (size (MetricGroups md) =? 0)%nat || (negb (HasMetric md metric) && SendUnknown md) ||
  HasDefaultMetric md metric || BasicStringFilter_Matches extra metric.

Lemma newMetricsFilter_fields md em eg mf : newMetricsFilter md em eg = Ok mf →
  emf_metadata mf = md ∧
  ∀ m, m ∈ emf_extraMetrics mf → BasicStringFilter_Matches (emf_stringFilter mf) m = true.
Proof.
  unfold newMetricsFilter. intros (items & _ & (groups & _ & Hf)%bind_ok_inv)%bind_ok_inv.
  destruct (NewBasicStringFilter _) as [bf|]; [|done]. injection Hf as <-. cbn. split; [done|].
  intros m Hm. rewrite elem_of_list_to_set, list_elem_of_In in Hm. by apply filter_In in Hm as [_ Hm].
Qed.

(** The set of known extra metrics computed in advance does not change what the
    filter matches. *)
Lemma extraMetricsFilter_fast_path md em eg mf dp : newMetricsFilter md em eg = Ok mf →
  extraMetricsFilter_Matches mf dp = included md (emf_stringFilter mf) (dp_Metric dp).
Proof.
  intros Hf. destruct (newMetricsFilter_fields _ _ _ _ Hf) as [Hmd Hex]. unfold extraMetricsFilter_Matches, included. rewrite Hmd.
  destruct (_ =? 0)%nat; [done|]. destruct (negb _ && _); [done|]. destruct (HasDefaultMetric _ _); [done|]. cbn [orb].
  case_bool_decide as Hin; [|done]. symmetry. by apply Hex.
Qed.

(** What the user excludes. *)
Definition excluded (conf : monitorConfig) (dp : Datapoint) : Prop :=
  ∃ fs, makeNewFilterSet (DatapointsToExclude conf) = Ok fs ∧ FilterSet_Matches fs dp = true.

Definition sends (md : option Metadata) (conf : monitorConfig) (metric : string) : Prop :=
  match md with
  | Some md => SendAll md = true ∨ size (MetricGroups md) = 0%nat ∨
      ∃ mf, newMetricsFilter md (ExtraMetrics conf ++ GetExtraMetrics conf) (ExtraGroups conf) = Ok mf ∧
        included md (emf_stringFilter mf) metric = true
  | None => True
  end.

Lemma excludes_only fs dp : FilterSet_Matches {| ExcludeFilters := fs; IncludeFilters := [] |} dp = existsb (λ f, f dp) fs.
Proof. unfold FilterSet_Matches. cbn. induction fs as [|f fs IH]; [done|]. cbn. by destruct (f dp). Qed.

(** The filter set of a monitor: what is not to be sent, then what the user excludes. *)
Lemma sends_filter md conf ufs fs d : makeNewFilterSet (DatapointsToExclude conf) = Ok ufs →
  match md with
  | Some md =>
      if negb (size (MetricGroups md) =? 0)%nat && negb (SendAll md) then
        match newMetricsFilter md (ExtraMetrics conf ++ GetExtraMetrics conf) (ExtraGroups conf) with
        | Err _ => Err (Errorf "unable to construct extraMetrics filter: %s" [])
        | Ok included => Ok {| ExcludeFilters := Negate (extraMetricsFilter_Matches included) :: [FilterSet_Matches ufs]; IncludeFilters := [] |}
        end
      else Ok {| ExcludeFilters := [FilterSet_Matches ufs]; IncludeFilters := [] |}
  | None => Ok {| ExcludeFilters := [FilterSet_Matches ufs]; IncludeFilters := [] |}
  end = Ok fs →
  ∃ b, (b = false ↔ sends md conf (sd_Metric d)) ∧ FilterSet_Matches fs (toDatapoint d) = b || FilterSet_Matches ufs (toDatapoint d).
Proof.
  intros _. unfold sends. destruct md as [md|]; [destruct (negb _ && negb _) eqn:Hb|].
  - apply andb_true_iff in Hb as [Hsz%negb_true_iff%Nat.eqb_neq Hsa%negb_true_iff].
    destruct (newMetricsFilter md _ _) as [nmf|] eqn:Hn; [|done]. intros [= <-]. rewrite excludes_only. cbn [existsb].
    exists (negb (included md (emf_stringFilter nmf) (sd_Metric d))). rewrite orb_false_r. split.
    + rewrite negb_false_iff. split; [by right; right; exists nmf|]. intros [?|[?|(mf & [= <-] & Hi)]]; congruence.
    + unfold Negate, NegatedDatapointFilter_Matches. by rewrite (extraMetricsFilter_fast_path _ _ _ _ _ Hn).
  - intros [= <-]. rewrite excludes_only. cbn [existsb]. exists false. rewrite orb_false_r. split; [|done].
    apply andb_false_iff in Hb as [Hb%negb_false_iff%Nat.eqb_eq|Hb%negb_false_iff]; tauto.
  - intros [= <-]. rewrite excludes_only. cbn [existsb]. exists false. rewrite orb_false_r. done.
Qed.

(** A monitor's output sends exactly the data points of the metrics that the
    monitor and the user's extra metrics include and that no exclusion of the
    user matches, with the output's extra dimensions over their own. *)
Theorem SendDatapoints_correct (conf : monitorConfig) (md : option Metadata) (mf : monitorFiltering) (os : outputs) (i : nat)
    (extra : gmap string string) (now : Z) (datapoints : list sfxDatapoint) :
  newMonitorFiltering conf md = Ok mf → out_filtering os = mf → out_extra os !! i = Some extra →
  ∃ sent, SendDatapoints true os i now datapoints =
      Some (sfxDatapointsToPDataMetrics (map (λ d, Some (addExtra extra d)) sent) now) ∧
    (∀ d, d ∈ sent ↔ d ∈ datapoints ∧ sends md conf (sd_Metric d) ∧ ¬ excluded conf (toDatapoint d)) ∧
    sent `sublist_of` datapoints ∧
    (∀ d k, sd_Dimensions (addExtra extra d) !! k = match extra !! k with Some v => Some v | None => sd_Dimensions d !! k end).
Proof.
  intros Hmf <- He. unfold SendDatapoints. rewrite He. cbn [default]. exists (filterDatapoints (out_filtering os) datapoints).
  split; [done|]. split_and!.
  - intros d. unfold filterDatapoints. rewrite list_elem_of_In, filter_In, <-list_elem_of_In. apply and_iff_compat_l.
    unfold newMonitorFiltering in Hmf. apply bind_ok_inv in Hmf as (fs & Hfs & [= <-]). cbn [mf_filterSet].
    unfold buildFilterSet in Hfs. apply bind_ok_inv in Hfs as (ufs & Hu & Hfs).
    assert (Hex : excluded conf (toDatapoint d) ↔ FilterSet_Matches ufs (toDatapoint d) = true).
    { unfold excluded. rewrite Hu. naive_solver. }
    rewrite Hex, negb_true_iff, not_true_iff_false. destruct (sends_filter _ _ _ _ d Hu Hfs) as (b & Hb & ->).
    rewrite orb_false_iff, Hb. done.
  - unfold filterDatapoints. clear. induction datapoints as [|d l IH]; cbn; [constructor|].
    destruct (negb _); [by apply sublist_skip | by apply sublist_cons].
  - intros d k. cbn [addExtra sd_Dimensions]. unfold MergeStringMaps. rewrite lookup_union. destruct (extra !! k), (sd_Dimensions d !! k); done.
Qed.
End sent.

(** ** Conversion *)

Definition convertible (d : sfxDatapoint) : bool :=
  match sd_Type d, sd_Value d with
  | (Timestamp | OtherMetricType _), _ | _, StringValue _ => false
  | _, _ => true
  end.

(** The dimension is the monitor identifier, and the meta data has the same. *)
Definition repeatsMonitorID (d : sfxDatapoint) (k : string) : bool :=
  String.eqb k monitorIDDim &&
  match sd_Dimensions d !! k, sd_Meta d !! k with Some v, Some (AString w) => String.eqb v w | _, _ => false end.

(** A data point of a known type with a number becomes one metric of its name,
    gauges, deltas and cumulative counters apart, with its value and time (the
    time of receipt if it has none) and its dimensions, less a monitor
    identifier that its meta data repeats; any other is dropped. *)
Theorem setDataTypeAndPoints_correct (d : sfxDatapoint) (timeReceived : Z) :
  match setDataTypeAndPoints d timeReceived with
  | Ok m =>
      convertible d = true ∧ m_Name m = sd_Metric d ∧ ∃ dp,
        m_Data m = match sd_Type d with Count => MSum Delta true [dp] | Counter => MSum Cumulative true [dp] | _ => MGauge [dp] end ∧
        n_Time dp = u64 (default timeReceived (sd_Time d)) ∧
        match sd_Value d with IntValue z => n_Value dp = NInt z | FloatValue f => n_Value dp = NDouble f | StringValue _ => False end ∧
        ∀ k, n_Attrs dp !! k =
          if repeatsMonitorID d k then None else AString <$> sd_Dimensions d !! k
  | Err _ => convertible d = false
  end.
Proof.
  unfold setDataTypeAndPoints, convertible.
  assert (Hdp : ∀ v, let dp := fillNumberDatapoint v (sd_Time d) (withoutMonitorID d) timeReceived in
    n_Time dp = u64 (default timeReceived (sd_Time d)) ∧
    ∀ k, n_Attrs dp !! k = if repeatsMonitorID d k then None else AString <$> sd_Dimensions d !! k).
  { intros v dp. split; [unfold dp, fillNumberDatapoint, UnixNano; cbn; apply u64_wrap|]. intros k. cbn. rewrite lookup_fmap. unfold withoutMonitorID.
    unfold repeatsMonitorID. destruct (String.eqb_spec k monitorIDDim) as [->|Hk]; cbn [andb].
    - destruct (sd_Meta d !! monitorIDDim) as [[]|], (sd_Dimensions d !! monitorIDDim) as [w|] eqn:Hw; rewrite ?Hw; try done.
      destruct (String.eqb w s); [by rewrite lookup_delete_eq | by rewrite Hw].
    - destruct (sd_Meta d !! monitorIDDim) as [[]|], (sd_Dimensions d !! monitorIDDim) as [w|]; try done.
      destruct (String.eqb w s); [by rewrite lookup_delete_ne | done]. }
  destruct (sd_Type d), (sd_Value d); cbn [mbind res_bind]; try done;
    (split; [done|]; split; [done|]; eexists; split; [reflexivity|]; split; [apply Hdp|]; split; [done|]; apply Hdp).
Qed.

(** ** Endpoints *)

(** An endpoint sets only the fields the user left unset; an endpoint with a
    port sets both the host and the port. *)
Theorem setHostAndPort_correct (endpoint host portStr : string) (port : Z) (c c' : hostPort) :
  setHostAndPortViaEndpoint endpoint c = Ok c' →
  (∀ h, hp_Host c = Some h → h ≠ "" → hp_Host c' = Some h) ∧
  (∀ p, hp_Port c = PortUint p → p ≠ 0 → hp_Port c' = PortUint p) ∧
  (SplitHostPort endpoint = Some (host, portStr) → ParseUint16 portStr = Some port →
   (hp_Host c = Some "" → host ≠ "" → hp_Host c' = Some host) ∧
   (hp_Port c = PortUint 0 → hp_Port c' = PortUint port) ∧
   (hp_Port c = PortString "" → port ≠ 0 → hp_Port c' = PortString portStr)).
Proof.
  intros Hs. assert (Hhost : ∀ h, hp_Port (setHost h c) = hp_Port c ∧ (∀ x, hp_Host c = Some x → x ≠ "" → hp_Host (setHost h c) = Some x) ∧
    (hp_Host c = Some "" → h ≠ "" → hp_Host (setHost h c) = Some h)).
  { intros h. unfold setHost. destruct (String.eqb_spec h "") as [->|Hh]; [done|]. cbn. split; [done|]. split.
    - intros x -> Hx. by destruct x.
    - by intros ->. }
  assert (Hport : ∀ p s r, hp_Host (setPort p s r) = hp_Host r ∧ (∀ x, hp_Port r = PortUint x → x ≠ 0 → hp_Port (setPort p s r) = PortUint x) ∧
    (hp_Port r = PortUint 0 → hp_Port (setPort p s r) = PortUint p) ∧ (hp_Port r = PortString "" → p ≠ 0 → hp_Port (setPort p s r) = PortString s)).
  { intros p s r. unfold setPort. destruct (Z.eqb_spec p 0) as [->|Hp]; [done|]. cbn. split; [done|]. split_and!.
    - intros x -> Hx. by rewrite (proj2 (Z.eqb_neq x 0) Hx).
    - by intros ->.
    - by intros ->. }
  unfold setHostAndPortViaEndpoint in Hs. destruct (String.eqb_spec endpoint "") as [->|_]; [injection Hs as <-; split_and!; done|].
  destruct (SplitHostPort endpoint) as [[h p]|] eqn:Hsp; cbn [String.eqb] in Hs.
  - destruct (String.eqb_spec p "") as [->|Hp].
    + injection Hs as <-. destruct (Hhost h) as (-> & H1 & H2). split_and!; try done. by intros [= -> <-].
    + destruct (ParseUint16 p) as [n|] eqn:Hn; [|done]. injection Hs as <-. destruct (Hhost h) as (Hq & H1 & H2).
      destruct (Hport n p (setHost h c)) as (-> & H3 & H4 & H5). rewrite Hq in H3, H4, H5. split_and!; try done.
      intros [= <- <-]. rewrite Hn. intros [= <-]. done.
  - injection Hs as <-. destruct (Hhost endpoint) as (-> & H1 & H2). split_and!; done.
Qed.

(** ** The lone SignalFx exporter *)

Lemma loneSFx_spec found l id : NoDup l.*1 → (∀ x, found = Some x → ID_Type x = "signalfx" ∧ x ∉ l.*1) →
  loneSFx found l = Some id ↔
  ID_Type id = "signalfx" ∧ (found = Some id ∨ found = None ∧ id ∈ l.*1) ∧ ∀ x, x ∈ l.*1 → ID_Type x = "signalfx" → x = id.
Proof.
  revert found. induction l as [|[y b] l IH]; intros found Hnd Hf; cbn [loneSFx fmap list_fmap].
  { split; [intros ->; specialize (Hf id eq_refl); set_solver | set_solver]. }
  apply NoDup_cons in Hnd as [Hy Hnd]. cbn [fst] in *.
  destruct (String.eqb_spec (ID_Type y) "signalfx") as [Ht|Ht].
  - destruct found as [f|].
    + split; [done|]. intros (Hid & [[= ->]|[? _]] & Hall); [|done]. exfalso. destruct (Hf id eq_refl) as [_ Hni].
      apply Hni. rewrite <-(Hall y); [left | left | done].
    + rewrite IH; [|done|intros x [= <-]; done]. split.
      * intros (Hid & [[= ->]|[? _]] & Hall); [|done]. split; [done|]. split; [right; split; [done | left]|].
        intros x [->|Hx]%elem_of_cons Hxt; [done | by apply Hall].
      * intros (Hid & _ & Hall). assert (y = id) as -> by (apply Hall; [left | done]). split; [done|]. split; [by left|].
        intros x Hx. apply Hall. by right.
  - rewrite IH; [|done|]. 2: { intros x Hx. destruct (Hf x Hx) as [? Hni]. split; [done|]. intros Hin. apply Hni. by right. }
    split.
    + intros (Hid & Ho & Hall). split; [done|]. split; [destruct Ho as [|[? ?]]; [by left | right; split; [done | by right]]|].
      intros x [->|Hx]%elem_of_cons Hxt; [done | by apply Hall].
    + intros (Hid & Ho & Hall). split; [done|]. split; [|intros x Hx; apply Hall; by right].
      destruct Ho as [|[? [->|Hin]%elem_of_cons]]; [by left | done | by right].
Qed.

(** The default client is a SignalFx exporter only when there is exactly one,
    whatever the order the exporters are visited in. *)
Lemma getLoneSFxExporter_spec `{IDRange} (exporters : gmap ID bool) id :
  getLoneSFxExporter exporters = Some id ↔
  ID_Type id = "signalfx" ∧ is_Some (exporters !! id) ∧ ∀ x, is_Some (exporters !! x) → ID_Type x = "signalfx" → x = id.
Proof.
  assert (Hdom : ∀ x, x ∈ (rangeID exporters).*1 ↔ is_Some (exporters !! x)).
  { intros x. rewrite list_elem_of_fmap. split.
    - intros ([k v] & -> & Hv%elem_of_rangeID). by eexists.
    - intros [v Hv]. exists (x, v). by rewrite elem_of_rangeID. }
  unfold getLoneSFxExporter. rewrite loneSFx_spec; [|rewrite rangeID_perm; apply NoDup_fst_map_to_list|done].
  rewrite Hdom. setoid_rewrite Hdom. split; intros (Hid & Hi & Hall); (split; [done|]; split; [|done]).
  - by destruct Hi as [|[_ ?]].
  - by right.
Qed.

(** ** Instances *)

Section instances.
#[local] Existing Instance prefix_engine.
#[local] Existing Instance forward_range.
#[local] Existing Instance demo_text.

Definition demo_metadata : Metadata :=
  {| MonitorType := "cpu"; SendAll := false; SendUnknown := false; DefaultMetrics := {["cpu.utilization" := true]};
     MetricGroups := {["cpu.utilization" := ""; "cpu.idle" := "more"; "cpu.wait" := "more"]};
     GroupMetricsMap := {["more" := ["cpu.idle"; "cpu.wait"]]} |}.
Definition demo_monitorConfig : monitorConfig :=
  {| DatapointsToExclude := []; ExtraMetrics := ["cpu.idle"]; ExtraGroups := []; GetExtraMetrics := [] |}.
Definition demo_sfxDatapoint (m : string) : sfxDatapoint :=
  {| sd_Metric := m; sd_Type := Gauge; sd_Value := IntValue 1; sd_Time := None; sd_Dimensions := ∅; sd_Meta := ∅ |}.
Definition demo_filtering : res monitorFiltering := newMonitorFiltering demo_monitorConfig (Some demo_metadata).
Example demo_filtering_ok : is_ok demo_filtering = true. Proof. vm_compute. reflexivity. Qed.

Lemma SendDatapoints_correct_witness :
  ∃ mf sent, newMonitorFiltering demo_monitorConfig (Some demo_metadata) = Ok mf ∧
    SendDatapoints true (newOutput mf) 0 7 (map demo_sfxDatapoint ["cpu.utilization"; "cpu.idle"; "cpu.wait"]) =
      Some (sfxDatapointsToPDataMetrics (map (λ d, Some (addExtra ∅ d)) sent) 7).
Proof.
  destruct demo_filtering as [mf|] eqn:Hmf; [|generalize demo_filtering_ok; by rewrite Hmf].
  destruct (SendDatapoints_correct demo_monitorConfig (Some demo_metadata) mf (newOutput mf) 0 ∅ 7
    (map demo_sfxDatapoint ["cpu.utilization"; "cpu.idle"; "cpu.wait"]) Hmf eq_refl eq_refl) as (sent & Hs & _).
  exists mf, sent. by split.
Defined.

Example SendDatapoints_1 : match demo_filtering with
  | Ok mf => map sd_Metric (filterDatapoints mf (map demo_sfxDatapoint ["cpu.utilization"; "cpu.idle"; "cpu.wait"]))
  | Err _ => [] end = ["cpu.utilization"; "cpu.idle"].
Proof. vm_compute. reflexivity. Qed.
End instances.

Lemma setHostAndPort_correct_witness :
  ∃ c', setHostAndPortViaEndpoint "db:5432" {| hp_Host := Some ""; hp_Port := PortUint 0 |} = Ok c' ∧
    hp_Host c' = Some "db" ∧ hp_Port c' = PortUint 5432.
Proof.
  eexists. split; [reflexivity|].
  destruct (setHostAndPort_correct "db:5432" "db" "5432" 5432 {| hp_Host := Some ""; hp_Port := PortUint 0 |} _ eq_refl) as (_ & _ & Hs).
  destruct (Hs eq_refl eq_refl) as (Hh & Hp & _). split; [by apply Hh | by apply Hp].
Defined.
