(* ===== verification/GoNumbers.v ===== *)
(** * Numbers as text

    [strconv.ParseFloat] of the Go library for binary64: decimal and hexadecimal
    numbers with exponents, digit separators, infinities and NaN, rounded to the
    nearest number with ties to even, a number out of range being an error.  The
    value is computed exactly and rounded once. *)

From S2P Require Import Prelude GoStrings GoValue Telemetry.
From Stdlib Require Import Ascii.
#[local] Open Scope Z_scope.

Definition isHexLetter (c : ascii) : bool := in_range "a" "f" (lower_byte c).
Definition hexDigitVal (c : ascii) : Z :=
  if isDigit c then digitVal c else Z.of_N (N_of_ascii (lower_byte c)) - 87.

(** The digits read so far: their value, how many follow the point (if there was
    one), whether there were any, and whether there were separators. *)
Record mantissa := { mt_Value : Z; mt_Frac : option Z; mt_Digits : bool; mt_Underscores : bool }.

Fixpoint readMantissa (hex : bool) (m : mantissa) (s : string) : mantissa * string :=
  match s with
  | EmptyString => (m, s)
  | String c t =>
      if Ascii.eqb c "_" then
        readMantissa hex {| mt_Value := mt_Value m; mt_Frac := mt_Frac m; mt_Digits := mt_Digits m; mt_Underscores := true |} t
      else if Ascii.eqb c "." then
        match mt_Frac m with
        | Some _ => (m, s)
        | None => readMantissa hex {| mt_Value := mt_Value m; mt_Frac := Some 0; mt_Digits := mt_Digits m; mt_Underscores := mt_Underscores m |} t
        end
      else if isDigit c || hex && isHexLetter c then
        readMantissa hex {| mt_Value := mt_Value m * (if hex then 16 else 10) + hexDigitVal c;
          mt_Frac := Z.succ <$> mt_Frac m; mt_Digits := true; mt_Underscores := mt_Underscores m |} t
      else (m, s)
  end.

(** The digits of an exponent, which stops growing at five digits. *)
Fixpoint readExponent (e : Z) (underscores : bool) (s : string) : Z * bool * string :=
  match s with
  | String c t =>
      if Ascii.eqb c "_" then readExponent e true t
      else if isDigit c then readExponent (if e <? 10000 then e * 10 + digitVal c else e) underscores t
      else (e, underscores, s)
  | EmptyString => (e, underscores, s)
  end.

(** Separators stand between digits, or between the base prefix and a digit.
    [saw] is the last byte's class: a digit, a separator, or neither. *)
Inductive sawByte := SawDigit | SawUnderscore | SawOther.
Fixpoint underscoresBetween (hex : bool) (saw : sawByte) (s : string) : bool :=
  match s with
  | EmptyString => match saw with SawUnderscore => false | _ => true end
  | String c t =>
      if isDigit c || hex && isHexLetter c then underscoresBetween hex SawDigit t
      else if Ascii.eqb c "_" then match saw with SawDigit => underscoresBetween hex SawUnderscore t | _ => false end
      else match saw with SawUnderscore => false | _ => underscoresBetween hex SawOther t end
  end.

(** Sign, and the rest. *)
Definition takeSign (s : string) : bool * string :=
  match s with
  | String "-" t => (true, t)
  | String "+" t => (false, t)
  | _ => (false, s)
  end%char.
(** The base prefix is one only when something follows it. *)
Definition takeBase (s : string) : bool * string :=
  match s with
  | String "0" (String x (String c t)) => if Ascii.eqb (lower_byte x) "x" then (true, String c t) else (false, s)
  | _ => (false, s)
  end%char.
Definition underscoreOK (body : string) : bool :=
  match body with
  | String "0" (String x t) =>
      let b := lower_byte x in
      if Ascii.eqb b "b" || Ascii.eqb b "o" || Ascii.eqb b "x" then underscoresBetween (Ascii.eqb b "x") SawDigit t
      else underscoresBetween false SawOther body
  | _ => underscoresBetween false SawOther body
  end%char.

(** [m * base^e] rounded: a power of the base is multiplied or divided exactly. *)
Definition roundDecimal (m e : Z) : float64 :=
  match m with
  | Zpos p =>
      if 0 <=? e then binary_normalize 53 1024 (m * 10 ^ e) 0 false
      else SFdiv 53 1024 (S754_finite false p 0) (S754_finite false (Z.to_pos (10 ^ (- e))) 0)
  | _ => S754_zero false
  end.
Definition roundHex (m e : Z) : float64 := binary_normalize 53 1024 m e false.

Definition special (s : string) : option float64 :=
  let '(neg, body) := takeSign s in
  let l := ToLower body in
  if String.eqb l "inf" || String.eqb l "infinity" then Some (S754_infinity neg)
  else if String.eqb (ToLower s) "nan" then Some S754_nan
  else None.

(** Value of the digits and the exponent; [None] is a syntax error. *)
Definition readFloat (body : string) : option float64 :=
  let '(hex, digits) := takeBase body in
  let '(m, rest) := readMantissa hex {| mt_Value := 0; mt_Frac := None; mt_Digits := false; mt_Underscores := false |} digits in
  if negb (mt_Digits m) then None
  else
    let frac := default 0 (mt_Frac m) in
    let finish (e : Z) (us : bool) (rest : string) : option float64 :=
      if negb (String.eqb rest "") || us && negb (underscoreOK body) then None
      else Some (if hex then roundHex (mt_Value m) (e - 4 * frac) else roundDecimal (mt_Value m) (e - frac)) in
    match rest with
    | String c t =>
        if Ascii.eqb (lower_byte c) (if hex then "p"%char else "e"%char) then
          let '(neg, ds) := takeSign t in
          match ds with
          | String d _ =>
              if isDigit d then
                let '(e, us, rest) := readExponent 0 (mt_Underscores m) ds in
                finish (if neg then - e else e) us rest
              else None
          | EmptyString => None
          end
        else None
    | EmptyString => if hex then None else finish 0 (mt_Underscores m) ""
    end.

Definition ParseFloat (s : string) : res float64 :=
  match special s with
  | Some f => Ok f
  | None =>
      let '(neg, body) := takeSign s in
      match readFloat body with
      | None => Err (Errorf "strconv.ParseFloat: parsing %q: invalid syntax" [s])
      | Some (S754_infinity _) => Err (Errorf "strconv.ParseFloat: parsing %q: value out of range" [s])
      | Some f => Ok (if neg then SFopp f else f)
      end
  end.

Example ParseFloat_1 : ParseFloat "0.1" = Ok (S754_finite false 7205759403792794 (-56)). Proof. vm_compute. reflexivity. Qed.
Example ParseFloat_2 : ParseFloat "-1.5e2" = Ok (SFopp (float_of_Z 150)). Proof. vm_compute. reflexivity. Qed.
Example ParseFloat_3 : ParseFloat "0x1.8p1" = Ok (float_of_Z 3). Proof. vm_compute. reflexivity. Qed.
Example ParseFloat_4 : is_ok (ParseFloat "1e309") = false. Proof. vm_compute. reflexivity. Qed.
Example ParseFloat_5 : ParseFloat "9007199254740993" = Ok (float_of_Z 9007199254740992). Proof. vm_compute. reflexivity. Qed.
Example ParseFloat_6 : ParseFloat "1_000.5" = Ok (S754_finite false 8800491068719104 (-43)). Proof. vm_compute. reflexivity. Qed.
Example ParseFloat_7 : is_ok (ParseFloat "1__0") = false ∧ is_ok (ParseFloat "") = false ∧ is_ok (ParseFloat "1 ") = false ∧ is_ok (ParseFloat "0x1") = false.
Proof. vm_compute. done. Qed.
Example ParseFloat_8 : ParseFloat "+Infinity" = Ok (S754_infinity false) ∧ is_ok (ParseFloat "-nan") = false.
Proof. vm_compute. done. Qed.

(** ** Decimal integers *)

Lemma readMantissa_digits hex m s t n : digits_value (mt_Value m) s = Some n → mt_Frac m = None → hex = false →
  readMantissa hex m (s +:+ t) =
  readMantissa hex {| mt_Value := n; mt_Frac := None; mt_Digits := mt_Digits m || negb (String.eqb s ""); mt_Underscores := mt_Underscores m |} t.
Proof.
  intros Hd Hf ->. revert m n Hd Hf. induction s as [|c s IH]; intros m n Hd Hf.
  { injection Hd as <-. rewrite orb_false_r. destruct m; cbn in *. by subst. }
  cbn [digits_value] in Hd. destruct (in_range "0" "9" c) eqn:Hc; [|done].
  rewrite append_cons. cbn [readMantissa]. unfold isDigit. rewrite Hc, Hf.
  assert (Hne : Ascii.eqb c "_" = false ∧ Ascii.eqb c "." = false).
  { split; apply Ascii.eqb_neq; intros ->; discriminate Hc. }
  destruct Hne as [-> ->]. cbn [orb fmap option_fmap option_map].
  erewrite IH with (n := n); [|cbn [mt_Value]|done].
  - cbn. by rewrite orb_true_r.
  - unfold hexDigitVal, isDigit. rewrite Hc. unfold digitVal. rewrite <-Hd. f_equal.
    rewrite N2Z.inj_sub; [lia|]. unfold in_range in Hc. apply andb_true_iff in Hc as [Hc _]. clear -Hc.
    apply N.leb_le in Hc. exact Hc.
Qed.

Lemma digits_head acc s n : digits_value acc s = Some n → ∀ c t, s = String c t → isDigit c = true.
Proof. intros Hd c t ->. cbn [digits_value] in Hd. unfold isDigit. by destruct (in_range "0" "9" c). Qed.

Lemma isDigit_not c d : isDigit c = true → isDigit d = false → Ascii.eqb c d = false.
Proof. intros Hc Hd. apply Ascii.eqb_neq. intros ->. congruence. Qed.

Lemma takeSign_digit c t : isDigit c = true → takeSign (String c t) = (false, String c t).
Proof. intros Hc. destruct c as [[] [] [] [] [] [] [] []]; by vm_compute in Hc. Qed.

Lemma lower_digit c : isDigit c = true → lower_byte c = c.
Proof. intros Hc. destruct c as [[] [] [] [] [] [] [] []]; by vm_compute in Hc. Qed.

Lemma takeBase_digits acc s n : digits_value acc s = Some n → takeBase s = (false, s).
Proof.
  intros Hd. destruct s as [|c [|x [|y t]]]; try done.
  - destruct c as [[] [] [] [] [] [] [] []]; done.
  - destruct c as [[] [] [] [] [] [] [] []]; done.
  - assert (Hx : isDigit x = true).
    { cbn [digits_value] in Hd. destruct (in_range _ _ c); [|done]. unfold isDigit. by destruct (in_range "0" "9" x). }
    cbn [takeBase]. rewrite (lower_digit x Hx), (isDigit_not x "x" Hx eq_refl). by destruct c as [[] [] [] [] [] [] [] []].
Qed.

(** A run of digits is read as the integer it denotes, rounded. *)
Lemma ParseFloat_digits s n : s ≠ "" → digits_value 0 s = Some n → (∀ b, float_of_Z n ≠ S754_infinity b) →
  ParseFloat s = Ok (float_of_Z n).
Proof.
  intros Hs Hd Hfin. destruct s as [|c t]; [done|]. pose proof (digits_head _ _ _ Hd c t eq_refl) as Hc.
  unfold ParseFloat, special. rewrite (takeSign_digit c t Hc).
  assert (Hl : ToLower (String c t) = String c (ToLower t)) by (unfold ToLower; cbn [smap]; by rewrite lower_digit).
  assert (Hne : ∀ d u, isDigit d = false → String.eqb (String c (ToLower t)) (String d u) = false).
  { intros d u Hdd. apply String.eqb_neq. intros [= ->]. congruence. }
  rewrite Hl, !Hne by done. cbn [orb]. unfold readFloat. rewrite (takeBase_digits _ _ _ Hd).
  rewrite <-(append_nil_r (String c t)), (readMantissa_digits _ _ _ _ n) by done. cbn [readMantissa mt_Digits mt_Frac mt_Value mt_Underscores String.eqb orb negb default andb].
  rewrite Z.sub_0_r. assert (Hr : roundDecimal n 0 = float_of_Z n).
  { assert (0 <= n) as Hn.
    { clear -Hd. revert Hd. generalize (String c t) as s. assert (Hg : ∀ s acc, 0 <= acc → digits_value acc s = Some n → 0 <= n).
      { induction s as [|d s IH]; intros acc Ha; cbn [digits_value]; [by intros [= <-]|]. destruct (in_range _ _ d); [|done]. apply IH. lia. }
      intros s. by apply Hg. }
    unfold roundDecimal, float_of_Z. destruct n; [done| |lia]. cbn [Z.leb Z.compare]. f_equal. lia. }
  rewrite Hr. destruct (float_of_Z n) eqn:Hf; try done. by destruct (Hfin s).
Qed.
