(* ===== verification/StatsD.v ===== *)
(** * The statsd monitor

    [src/internal/signalfx-agent/pkg/monitors/statsd]: the patterns that take
    dimensions out of metric names ([parser.go]), the parsing of the received
    lines and the listener's buffer ([statsd.go]), and the aggregation and
    conversion of the metrics of an interval ([monitor.go]).  The UDP socket is
    the source of the datagrams; a Go panic is an error whose text says so. *)

From S2P Require Import Prelude GoStrings GoValue Telemetry GoNumbers ConfigSources DiscoveryProperties SmartAgent.
From Stdlib Require Import Ascii.
#[local] Open Scope Z_scope.

(** ** parser.go *)

Record fieldPattern := { substrs : list string; startWithField : bool }.
Record converter := { pattern : fieldPattern; cv_metric : fieldPattern }.

Definition openBrace : rune := 123.
Definition closeBrace : rune := 125.

(** The loop over the runes of a pattern; [first] is [i == 0]. *)
Fixpoint parseRunes (first inBraces : bool) (currentField : text) (p : text) : option (list text) :=
  match p with
  | [] =>
      if inBraces then None
      else Some (if bool_decide (currentField = []) then [] else [currentField])
  | c :: p =>
      if c =? openBrace then
        if inBraces then None
        else if bool_decide (currentField = []) then (if first then parseRunes false true [] p else None)
        else cons currentField <$> parseRunes false true [] p
      else if c =? closeBrace then
        if inBraces then cons currentField <$> parseRunes false false [] p else None
      else parseRunes false inBraces (currentField ++ [c]) p
  end.

Definition parseFields (p : string) : option fieldPattern :=
  l ← parseRunes true false [] (decodeUTF8 p);
  Some {| substrs := map utf8 l; startWithField := HasPrefix p "{" |}.

Record ConverterInput := { Pattern : string; MetricName : string }.

Definition newConverter (input : ConverterInput) : option converter :=
  p ← parseFields (Pattern input);
  m ← parseFields (MetricName input);
  Some {| pattern := p; cv_metric := m |}.

(** A map of dimensions; the [nil] map is the empty one, which reads alike. *)
Abbreviation dims := (gmap string string).

(** [strings.LastIndex] *)
Fixpoint LastIndex (s sub : string) : option nat :=
  match s with
  | EmptyString => if HasPrefix s sub then Some 0%nat else None
  | String _ t =>
      match LastIndex t sub with
      | Some i => Some (S i)
      | None => if HasPrefix s sub then Some 0%nat else None
      end
  end.

Definition addTag (d : dims) (t : string) : dims :=
  match SplitN2 t ":" with
  | [k; v] => <[k := v]> d
  | _ => d
  end.

Definition parseDogstatsdTags (s : string) : string * dims :=
  match LastIndex s "|#" with
  | None => (s, ∅)
  | Some tagsIdx => (stake tagsIdx s, foldl addTag ∅ (SplitByte (sdrop (tagsIdx + 2) s) ","))
  end.

Definition storeField (f v : string) (fields : dims) : dims :=
  if String.eqb f "" then fields else <[f := v]> fields.

(** The loop from a field of the pattern on: fields and literals alternate, the
    last field takes the rest of the name.  The fields found so far stay when
    a literal is missing. *)
Fixpoint matchFields (l : list string) (name : string) (fields : dims) : dims * bool :=
  match l with
  | [] => (fields, true)
  | [f] => (storeField f name fields, true)
  | f :: lit :: l =>
      match Index name lit with
      | None => (fields, false)
      | Some next => matchFields l (sdrop (next + slen lit) name) (storeField f (stake next name) fields)
      end
  end.

Definition matchPattern (p : fieldPattern) (name : string) (fields : dims) : res (dims * bool) :=
  if startWithField p then Ok (matchFields (substrs p) name fields)
  else match substrs p with
       | [] => Err (Errorf "panic: index out of range [0] with length 0" [])
       | lit :: l => Ok (if HasPrefix name lit then matchFields l (sdrop (slen lit) name) fields else (fields, false))
       end.

Fixpoint composeName (isField : bool) (l : list string) (fields : dims) : string :=
  match l with
  | [] => ""
  | s :: l => (if isField then default "" (fields !! s) else s) +:+ composeName (negb isField) l fields
  end.

(** The map of fields is one map, also across the converters that do not match. *)
Fixpoint convertMetric (name : string) (converters : list converter) (fields : dims) : res (string * dims) :=
  match converters with
  | [] => Ok (name, ∅)
  | c :: cs =>
      '(fields, matched) ← matchPattern (pattern c) name fields;
      if matched : bool then Ok (composeName (startWithField (cv_metric c)) (substrs (cv_metric c)) fields, fields)
      else convertMetric name cs fields
  end.

(** ** statsd.go *)

Record statsDMetric := { rawMetricName : string; metricName : string; metricType : string; value : float64; dimensions : dims }.
Record statsDListener := { prefix : string; converters : option (list converter); metricBuffer : list string }.

(** One received line: the metric, if it is one. *)
Definition parseMetric (sl : statsDListener) (line : string) : res (option statsDMetric) :=
  if String.eqb line "" then Ok None
  else
    let '(m, dims) := parseDogstatsdTags line in
    match Index m ":", Index m "|" with
    | Some colonIdx, Some pipeIdx =>
        if (slen m - 1 <=? pipeIdx)%nat then Ok None
        else
          let afterPipe := sdrop (S pipeIdx) m in
          let metricType :=
            match Index afterPipe "|" with
            | Some (S i) => stake i afterPipe
            | _ => afterPipe
            end in
          let rawMetricName := stake colonIdx m in
          let metricName := if String.eqb (prefix sl) "" then rawMetricName else TrimPrefix rawMetricName (prefix sl +:+ ".") in
          '(metricName, dims) ← match converters sl with
                                | Some cs => convertMetric metricName cs dims
                                | None => Ok (metricName, dims)
                                end;
          if (pipeIdx <? S colonIdx)%nat then Err (Errorf "panic: slice bounds out of range" [])
          else
            match ParseFloat (slice m (S colonIdx) pipeIdx) with
            | Ok value => Ok (Some {| rawMetricName := rawMetricName; metricName := metricName; metricType := metricType; value := value; dimensions := dims |})
            | Err _ => Ok None
            end
    | _, _ => Ok None
    end.

Definition parseMetrics (sl : statsDListener) (raw : list string) : res (list statsDMetric) :=
  match mapM_res (parseMetric sl) raw with
  | Ok ms => Ok (omap id ms)
  | Err e => Err e
  end.

Definition setBuffer (b : list string) (sl : statsDListener) : statsDListener :=
  {| prefix := prefix sl; converters := converters sl; metricBuffer := b |}.
(** A datagram received by [Read]. *)
Definition received (data : string) (sl : statsDListener) : statsDListener :=
  setBuffer (metricBuffer sl ++ SplitByte data "010") sl.
Definition FetchMetrics (sl : statsDListener) : res (list statsDMetric) * statsDListener :=
  (parseMetrics sl (metricBuffer sl), setBuffer [] sl).

(** ** monitor.go *)

(** The zero [datapoint.MetricType], which a missing key of the map gives. *)
Class ZeroMetricType := zeroMetricType : sfxMetricType.

Section monitor.
Context `{ZeroMetricType}.

Definition metricTypeMap (t : string) : sfxMetricType :=
  if String.eqb t "g" then Gauge
  else if String.eqb t "c" then Count
  else if String.eqb t "ms" then Gauge
  else if String.eqb t "s" then Gauge
  else zeroMetricType.

Definition Validate (cs : list ConverterInput) : option error :=
  foldr (λ ci rest,
    if String.eqb (Pattern ci) "" then Some (Errorf "[pattern] is required for a converter" [])
    else if String.eqb (MetricName ci) "" then Some (Errorf "[metricName] is required for a converter" [])
    else rest) None cs.

(** The listener that [Configure] creates. *)
Definition newListener (metricPrefix : string) (cs : list ConverterInput) : statsDListener :=
  let l := omap newConverter cs in
  {| prefix := metricPrefix; converters := if bool_decide (l = []) then None else Some l; metricBuffer := [] |}.

Definition isCount (t : string) : bool := match metricTypeMap t with Count => true | _ => false end.

Definition addValue (v : float64) (m : statsDMetric) : statsDMetric :=
  {| rawMetricName := rawMetricName m; metricName := metricName m; metricType := metricType m;
     value := SFadd 53 1024 (value m) v; dimensions := dimensions m |}.

Definition aggregate (acc : gmap string statsDMetric) (m : statsDMetric) : gmap string statsDMetric :=
  match acc !! rawMetricName m with
  | Some old => if isCount (metricType m) then <[rawMetricName m := addValue (value m) old]> acc else <[rawMetricName m := m]> acc
  | None => <[rawMetricName m := m]> acc
  end.
Definition aggregateMetrics (metrics : list statsDMetric) : gmap string statsDMetric := foldl aggregate ∅ metrics.

Context `{FloatOverflow} `{MapRange}.

Definition convertToDatapoint (m : statsDMetric) : list sfxDatapoint :=
  match metricTypeMap (metricType m) with
  | Gauge => [{| sd_Metric := metricName m; sd_Type := Gauge; sd_Value := FloatValue (value m); sd_Time := None;
                 sd_Dimensions := dimensions m; sd_Meta := ∅ |}]
  | Count => [{| sd_Metric := metricName m; sd_Type := Count; sd_Value := IntValue (int64_of_float (value m)); sd_Time := None;
                 sd_Dimensions := dimensions m; sd_Meta := ∅ |}]
  | _ => []
  end.
Definition convertMetricsToDatapoints (metrics : gmap string statsDMetric) : list sfxDatapoint :=
  flat_map (λ kv, convertToDatapoint kv.2) (range metrics).

(** What one round of the interval sends, and the listener after it. *)
Definition interval (sl : statsDListener) : res (list sfxDatapoint) * statsDListener :=
  let '(metrics, sl) := FetchMetrics sl in
  (match metrics with Ok ms => Ok (convertMetricsToDatapoints (aggregateMetrics ms)) | Err e => Err e end, sl).
End monitor.

Example convert_1 :
  convertMetric "cluster.cds_egress_demo-mesh_gateway-vn_tcp_8080.update"
    (omap newConverter [{| Pattern := "cluster.cds_{traffic}_{mesh}_{service}-vn_{}.{action}"; MetricName := "{traffic}.{action}" |}]) ∅ =
  Ok ("egress.update", <["traffic" := "egress"]> (<["mesh" := "demo-mesh"]> (<["service" := "gateway"]> {["action" := "update"]}))).
Proof. vm_compute. reflexivity. Qed.

(** ** Patterns *)

Definition braceless (s : text) : Prop := Forall (λ c, c ≠ openBrace ∧ c ≠ closeBrace) s.

(** The text of a pattern whose literals and fields alternate. *)
Fixpoint printSegments (isField : bool) (l : list text) : text :=
  match l with
  | [] => []
  | s :: l => (if isField then [openBrace] ++ s ++ [closeBrace] else s) ++ printSegments (negb isField) l
  end.
Fixpoint segments_ok (isField : bool) (l : list text) : Prop :=
  match l with
  | [] => True
  | s :: l => braceless s ∧ (isField = false → s ≠ []) ∧ segments_ok (negb isField) l
  end.

Lemma parseRunes_run first inBraces cur s p : braceless s →
  parseRunes first inBraces cur (s ++ p) = parseRunes (first && bool_decide (s = [])) inBraces (cur ++ s) p.
Proof.
  intros Hs. revert first cur. induction Hs as [|c s [Ho Hc] Hs IH]; intros first cur.
  { rewrite app_nil_r. by rewrite andb_true_r. }
  cbn [app parseRunes]. rewrite (proj2 (Z.eqb_neq _ _) Ho), (proj2 (Z.eqb_neq _ _) Hc), IH. rewrite andb_false_r.
  cbn [andb]. by rewrite <-app_assoc.
Qed.

Lemma parseRunes_print l : ∀ first cur,
  (segments_ok true l → (first = true ∧ cur = [] ∨ cur ≠ []) →
   parseRunes first false cur (printSegments true l) = Some (if bool_decide (cur = []) then l else cur :: l)) ∧
  (segments_ok false l → parseRunes first false [] (printSegments false l) = Some l).
Proof.
  induction l as [|s l IH]; intros first cur.
  { split; [|done]. intros _ _. cbn. by case_bool_decide. }
  split; cbn [segments_ok printSegments negb].
  - intros (Hs & _ & Hl) Hcur. rewrite <-!app_assoc. cbn [app parseRunes]. rewrite Z.eqb_refl.
    assert (Hin : parseRunes false true [] (s ++ [closeBrace] ++ printSegments false l) = Some (s :: l)).
    { rewrite parseRunes_run by done. cbn [app parseRunes]. rewrite (proj2 (Z.eqb_neq closeBrace openBrace)) by done.
      rewrite Z.eqb_refl. by rewrite (proj2 (IH false [])). }
    change (s ++ closeBrace :: printSegments false l) with (s ++ [closeBrace] ++ printSegments false l).
    case_bool_decide as Hc; [destruct Hcur as [[-> _]|]; [exact Hin | done] | by rewrite Hin].
  - intros (Hs & Hne & Hl). rewrite parseRunes_run by done. cbn [app]. rewrite (proj1 (IH _ s)); [|done|right; by apply Hne].
    case_bool_decide as Hc; [by destruct (Hne eq_refl) | done].
Qed.

(** What is read in each state of the loop. *)
Definition reads (first inBraces : bool) (cur p : text) (l : list text) : Prop :=
  if inBraces then ∃ s l', l = (cur ++ s) :: l' ∧ p = s ++ [closeBrace] ++ printSegments false l' ∧ braceless s ∧ segments_ok false l'
  else if bool_decide (cur = []) then
    ∃ b, (b = true → first = true) ∧ p = printSegments b l ∧ segments_ok b l
  else ∃ s l', l = (cur ++ s) :: l' ∧ p = s ++ printSegments true l' ∧ braceless s ∧ segments_ok true l'.

Lemma parseRunes_reads p : ∀ first inBraces cur l, parseRunes first inBraces cur p = Some l → reads first inBraces cur p l.
Proof.
  induction p as [|c p IH]; intros first inB cur l; cbn [parseRunes]; unfold reads.
  { destruct inB; [done|]. case_bool_decide as Hc; intros [= <-].
    - exists false. done.
    - exists [], []. rewrite app_nil_r. split_and!; try done. constructor. }
  destruct (Z.eqb_spec c openBrace) as [->|Ho].
  - destruct inB; [done|]. case_bool_decide as Hc.
    + destruct first; [|done]. intros (s & l' & -> & -> & Hs & Hl)%IH. exists true. split; [done|]. cbn. by rewrite <-app_assoc.
    + intros (l1 & Hl1 & ->)%fmap_Some. apply IH in Hl1 as (s & l' & -> & -> & Hs & Hl).
      exists [], (s :: l'). rewrite app_nil_r. split_and!; try done; [|constructor]. cbn. by rewrite <-app_assoc.
  - destruct (Z.eqb_spec c closeBrace) as [->|Hc].
    + destruct inB; [|done]. intros (l1 & Hl1 & ->)%fmap_Some. apply IH in Hl1. unfold reads in Hl1.
      rewrite bool_decide_eq_true_2 in Hl1 by done. destruct Hl1 as (b & Hb & -> & Hl). destruct b; [by specialize (Hb eq_refl)|].
      exists [], l1. rewrite app_nil_r. split_and!; try done. constructor.
    + intros Hp%IH. unfold reads in Hp. destruct inB.
      * destruct Hp as (s & l' & -> & -> & Hs & Hl). exists (c :: s), l'. rewrite <-app_assoc. split_and!; try done. by constructor.
      * rewrite (bool_decide_eq_false_2 (cur ++ [c] = [])) in Hp by (by destruct cur).
        destruct Hp as (s & l' & -> & -> & Hs & Hl). case_bool_decide as Hcur.
        -- subst cur. exists false. split; [done|]. split; [done|]. cbn. split_and!; [by constructor | done | done].
        -- exists (c :: s), l'. rewrite <-app_assoc. split_and!; try done. by constructor.
Qed.

(** A pattern parses exactly when it is alternating literals and fields, fields
    in braces, and the segments read are those written. *)
Theorem parseFields_print (p : text) (l : list text) :
  parseRunes true false [] p = Some l ↔ ∃ b, p = printSegments b l ∧ segments_ok b l.
Proof.
  split.
  - intros (b & _ & Hp)%parseRunes_reads. by exists b.
  - intros ([] & -> & Hl); [|by apply (proj2 (parseRunes_print l true []))]. rewrite (proj1 (parseRunes_print l true [])); [done|done|by left].
Qed.

(** ** Conversion of names *)

Lemma pairs_ind {A} (P : list A → Prop) :
  P [] → (∀ x, P [x]) → (∀ x y l, P l → P (x :: y :: l)) → ∀ l, P l.
Proof.
  intros H0 H1 H2 l. assert (Hl : P l ∧ ∀ x, P (x :: l)) by (induction l as [|x l [IH1 IH2]]; split; auto).
  apply Hl.
Qed.

(** The values of the fields of a pattern in a name: each is the shortest that
    the next literal follows, the last one the rest. *)
Fixpoint bindings (l : list string) (name : string) : option (list (string * string)) :=
  match l with
  | [] => Some []
  | [f] => Some [(f, name)]
  | f :: lit :: l =>
      match Index name lit with
      | None => None
      | Some next => cons (f, stake next name) <$> bindings l (sdrop (next + slen lit) name)
      end
  end.
Definition patternBindings (p : fieldPattern) (name : string) : option (list (string * string)) :=
  if startWithField p then bindings (substrs p) name
  else match substrs p with
       | lit :: l => if HasPrefix name lit then bindings l (sdrop (slen lit) name) else None
       | [] => None
       end.
Fixpoint render (l : list string) (bs : list (string * string)) : string :=
  match l, bs with
  | f :: lit :: l, (_, v) :: bs => v +:+ lit +:+ render l bs
  | [f], (_, v) :: _ => v
  | _, _ => ""
  end.
Definition renderPattern (p : fieldPattern) (bs : list (string * string)) : string :=
  if startWithField p then render (substrs p) bs
  else match substrs p with lit :: l => lit +:+ render l bs | [] => "" end.
Definition lastBinding (bs : list (string * string)) (k : string) : option string :=
  foldl (λ o kv, if String.eqb kv.1 k && negb (String.eqb k "") then Some kv.2 else o) None bs.
Definition storeAll (bs : list (string * string)) (fields : dims) : dims := foldl (λ d kv, storeField kv.1 kv.2 d) fields bs.

Lemma bindings_render l : ∀ name bs, bindings l name = Some bs → ∃ rest, name = render l bs +:+ rest.
Proof.
  induction l as [|f|f lit l IH] using pairs_ind; intros name bs; cbn [bindings].
  - intros [= <-]. by exists name.
  - intros [= <-]. exists "". cbn. by rewrite append_nil_r.
  - destruct (Index name lit) as [next|] eqn:Hi; [|done]. intros (bs' & Hbs & ->)%fmap_Some.
    apply IH in Hbs as [rest Hrest]. apply Index_Some in Hi as [Hn _]. exists rest. cbn [render].
    by rewrite !append_assoc, <-Hrest, <-Hn.
Qed.

Lemma matchFields_spec l : ∀ name fields,
  match bindings l name with
  | Some bs => matchFields l name fields = (storeAll bs fields, true)
  | None => ∃ fields', matchFields l name fields = (fields', false) ∧ ∀ k, k ∉ l → fields' !! k = fields !! k
  end.
Proof.
  induction l as [|f|f lit l IH] using pairs_ind; intros name fields; cbn [bindings matchFields]; [done|done|].
  destruct (Index name lit) as [next|]; [|by exists fields].
  specialize (IH (sdrop (next + slen lit) name) (storeField f (stake next name) fields)).
  destruct (bindings l _) as [bs|]; cbn [fmap option_fmap option_map]; [done|].
  destruct IH as (fields' & Hm & Hk). exists fields'. split; [done|]. intros k Hn. rewrite Hk by set_solver.
  unfold storeField. destruct (String.eqb f ""); [done|]. rewrite lookup_insert_ne; [done|set_solver].
Qed.

Definition pattern_ok (p : fieldPattern) : Prop := startWithField p = false → substrs p ≠ [].

Lemma matchPattern_spec p name fields : pattern_ok p →
  match patternBindings p name with
  | Some bs => matchPattern p name fields = Ok (storeAll bs fields, true) ∧ ∃ rest, name = renderPattern p bs +:+ rest
  | None => ∃ fields', matchPattern p name fields = Ok (fields', false) ∧ ∀ k, k ∉ substrs p → fields' !! k = fields !! k
  end.
Proof.
  unfold pattern_ok, patternBindings, matchPattern, renderPattern. destruct (startWithField p).
  - intros _. pose proof (matchFields_spec (substrs p) name fields) as Hm. destruct (bindings _ name) as [bs|] eqn:Hb.
    + rewrite Hm. split; [done|]. by apply bindings_render.
    + destruct Hm as (fields' & -> & Hk). by exists fields'.
  - intros Hne. destruct (substrs p) as [|lit l]; [by destruct Hne|].
    destruct (HasPrefix name lit) eqn:Hp; [|by exists fields].
    apply HasPrefix_spec in Hp as [t ->]. rewrite sdrop_app. pose proof (matchFields_spec l t fields) as Hm.
    destruct (bindings l t) as [bs|] eqn:Hb.
    + rewrite Hm. split; [done|]. apply bindings_render in Hb as [rest ->]. exists rest. by rewrite append_assoc.
    + destruct Hm as (fields' & -> & Hk). exists fields'. split; [done|]. set_solver.
Qed.

Lemma storeAll_lookup bs k fields : storeAll bs fields !! k = match lastBinding bs k with Some v => Some v | None => fields !! k end.
Proof.
  unfold storeAll, lastBinding. set (upd := λ (o : option string) (kv : string * string), if String.eqb kv.1 k && negb (String.eqb k "") then Some kv.2 else o).
  assert (Hs : ∀ fields, foldl (λ d kv, storeField kv.1 kv.2 d) fields bs !! k = foldl upd (fields !! k) bs).
  { induction bs as [|[f v] bs IH]; intros fs; [done|]. cbn [foldl fst snd]. rewrite IH. f_equal. unfold storeField, upd. cbn [fst snd].
    destruct (String.eqb_spec f k) as [->|Hne]; [destruct (String.eqb_spec k ""); [done | by rewrite lookup_insert_eq]|].
    destruct (String.eqb f ""); [done|]. by rewrite lookup_insert_ne. }
  assert (Hu : ∀ o, foldl upd o bs = match foldl upd None bs with Some v => Some v | None => o end).
  { clear Hs. induction bs as [|kv bs IH]; intros o; [done|]. cbn [foldl]. rewrite (IH (upd o kv)), (IH (upd None kv)). unfold upd.
    by destruct (_ && _), (foldl _ None bs). }
  by rewrite Hs, Hu.
Qed.

(** The first converter whose pattern matches decides: the name is made of its
    literals and the values found, the new name of those values, and each of its
    fields becomes a dimension.  Other dimensions come from the tags, unless an
    earlier pattern that did not match has a field of that name.  Without a
    match the name stays, and the tags are dropped. *)
Theorem convertMetric_correct (name : string) (cs : list converter) (fields : dims) :
  (∀ c, c ∈ cs → pattern_ok (pattern c)) →
  ∃ name' dims', convertMetric name cs fields = Ok (name', dims') ∧
    ((∀ c, c ∈ cs → patternBindings (pattern c) name = None) ∧ name' = name ∧ dims' = ∅ ∨
     ∃ cs1 c cs2 bs rest, cs = cs1 ++ c :: cs2 ∧ (∀ c', c' ∈ cs1 → patternBindings (pattern c') name = None) ∧
       patternBindings (pattern c) name = Some bs ∧ name = renderPattern (pattern c) bs +:+ rest ∧
       name' = composeName (startWithField (cv_metric c)) (substrs (cv_metric c)) dims' ∧
       (∀ k v, lastBinding bs k = Some v → dims' !! k = Some v) ∧
       (∀ k, lastBinding bs k = None → (∀ c', c' ∈ cs1 → k ∉ substrs (pattern c')) → dims' !! k = fields !! k)).
Proof.
  revert fields. induction cs as [|c cs IH]; intros fields Hok.
  { exists name, ∅. split; [done|]. left. split; [|done]. by intros c ?%elem_of_nil. }
  pose proof (matchPattern_spec (pattern c) name fields (Hok c ltac:(left))) as Hm. cbn [convertMetric].
  destruct (patternBindings (pattern c) name) as [bs|] eqn:Hb.
  - destruct Hm as (-> & rest & Hn). cbn [mbind res_bind]. eexists _, _. split; [done|]. right.
    exists [], c, cs, bs, rest. split_and!; try done.
    + by intros c' ?%elem_of_nil.
    + intros k v Hk. by rewrite storeAll_lookup, Hk.
    + intros k Hk _. by rewrite storeAll_lookup, Hk.
  - destruct Hm as (fields' & -> & Hk). cbn [mbind res_bind]. destruct (IH fields') as (name' & dims' & Hc & Hcase); [set_solver|].
    exists name', dims'. split; [done|]. destruct Hcase as [(Hall & ? & ?)|(cs1 & c1 & cs2 & bs & rest & -> & Hpre & Hbs & Hn & Hname & Hin & Hout)].
    + left. split; [|done]. intros c' [->|]%elem_of_cons; auto.
    + right. exists (c :: cs1), c1, cs2, bs, rest. split_and!; try done.
      * intros c' [->|]%elem_of_cons; auto.
      * intros k Hl Hns. rewrite Hout, Hk; [done|apply Hns; left|done|]. intros c' Hc'. apply Hns. by right.
Qed.

(** The converters of a validated configuration have such patterns. *)
Lemma decodeUTF8_nonempty s : s ≠ "" → decodeUTF8 s ≠ [].
Proof. destruct s as [|a s]; [done|]. intros _. cbn [decodeUTF8]. repeat case_match; done. Qed.
Lemma newConverter_ok ci c : Pattern ci ≠ "" → newConverter ci = Some c → pattern_ok (pattern c).
Proof.
  intros Hne. unfold newConverter, parseFields. intros (p & (l & Hl & [= <-])%bind_Some & (m & _ & [= <-])%bind_Some)%bind_Some _.
  cbn. intros Hnil. destruct l; [|done]. apply parseRunes_reads in Hl as (b & _ & Hp & _). by apply (decodeUTF8_nonempty _ Hne).
Qed.

(** ** Lines *)

Definition noByte (c : ascii) (s : string) : bool := negb (ContainsByte s c).

(** A line of the protocol, with the tags of the Datadog extension. *)
Definition tagText (kv : string * string) : string := kv.1 +:+ String ":" kv.2.
Definition tagsText (tags : list (string * string)) : string :=
  match tags with [] => "" | _ => "|#" +:+ Join (map tagText tags) "," end.
Definition lineText (name v t rest : string) : string := name +:+ String ":" (v +:+ String "|" (t +:+ rest)).
Definition tag_ok (kv : string * string) : bool :=
  noByte ":" kv.1 && noByte "," kv.1 && noByte "|" kv.1 && noByte "," kv.2 && noByte "|" kv.2.

Lemma noByte_Index c s : noByte c s = true → IndexByte s c = None.
Proof. unfold noByte, ContainsByte. by destruct (IndexByte s c). Qed.
Lemma noByte_app c s t : noByte c (s +:+ t) = noByte c s && noByte c t.
Proof. unfold noByte. rewrite ContainsByte_append. apply negb_orb. Qed.
Lemma noByte_cons c d s : noByte c (String d s) = negb (Ascii.eqb d c) && noByte c s.
Proof. unfold noByte. rewrite ContainsByte_cons. apply negb_orb. Qed.
Lemma Index_here s c t : noByte c s = true → Index (s +:+ String c t) (String c "") = Some (slen s).
Proof. intros Hs. rewrite Index_byte. by apply IndexByte_app_None, noByte_Index. Qed.

Lemma LastIndex_none s : noByte "|" s = true → LastIndex s "|#" = None.
Proof.
  induction s as [|c s IH]; [done|]. rewrite noByte_cons. intros [Hc Hs]%andb_true_iff. cbn [LastIndex]. rewrite IH by done.
  cbn [HasPrefix]. destruct (Ascii.eqb_spec c "|"); [done|]. by rewrite (proj2 (Ascii.eqb_neq _ _)) by congruence.
Qed.

Lemma LastIndex_app s t : noByte "|" s = true → LastIndex (s +:+ t) "|#" = Nat.add (slen s) <$> LastIndex t "|#".
Proof.
  induction s as [|c s IH]; [intros _; rewrite append_nil_l; by destruct (LastIndex t "|#")|].
  rewrite noByte_cons. intros [Hc Hs]%andb_true_iff. rewrite append_cons. cbn [LastIndex]. rewrite IH by done. destruct (LastIndex t "|#"); [done|]. cbn [fmap option_fmap option_map HasPrefix].
  destruct (Ascii.eqb_spec c "|"); [done|]. by rewrite (proj2 (Ascii.eqb_neq _ _)) by congruence.
Qed.

Lemma tags_fold tags : forallb tag_ok tags = true → NoDup tags.*1 → foldl addTag ∅ (map tagText tags) = list_to_map tags.
Proof.
  assert (Hg : ∀ d : dims, forallb tag_ok tags = true → NoDup tags.*1 → foldl addTag d (map tagText tags) = list_to_map tags ∪ d).
  { induction tags as [|[k v] tags IH]; intros d; [cbn; by rewrite (left_id_L ∅ (∪))|]. cbn [forallb map foldl fmap list_fmap fst].
    intros [Hkv Ht]%andb_true_iff [Hk Hnd]%NoDup_cons. rewrite IH by done.
    unfold addTag, tagText, SplitN2. cbn [fst snd].
    assert (Hi : Index (k +:+ String ":" v) ":" = Some (slen k)).
    { apply Index_here. unfold tag_ok in Hkv. cbn [fst] in Hkv. by do 4 apply andb_true_iff in Hkv as [Hkv _]. }
    rewrite Hi, stake_app. change (slen ":") with 1%nat. rewrite sdrop_app_add. cbn [sdrop list_to_map foldr fst snd].
    rewrite <-insert_union_l, insert_union_r; [done|]. by apply not_elem_of_list_to_map_1. }
  intros Ht Hnd. by rewrite Hg, (right_id_L ∅ (∪)).
Qed.

Lemma Join_noByte c sep l : noByte c sep = true → Forall (λ s, noByte c s = true) l → noByte c (Join l sep) = true.
Proof.
  intros Hsep Hl. induction Hl as [|s l Hs Hl IH]; [done|]. destruct l as [|u l]; [done|].
  change (Join (s :: u :: l) sep) with (s +:+ sep +:+ Join (u :: l) sep). by rewrite !noByte_app, Hs, Hsep, IH.
Qed.

Lemma tags_noByte tags : forallb tag_ok tags = true → noByte "|" (Join (map tagText tags) ",") = true.
Proof.
  intros Ht. apply Join_noByte; [done|]. apply Forall_map, Forall_forall. intros x Hx.
  assert (Hok : tag_ok x = true) by (by apply (proj1 (forallb_elem tag_ok tags) Ht x)).
  unfold tag_ok in Hok. cbv beta. unfold tagText. rewrite noByte_app, noByte_cons. cbn [negb andb].
  repeat (apply andb_true_iff in Hok as [Hok ?]). by rewrite !andb_true_iff.
Qed.

Lemma tags_split tags : tags ≠ [] → forallb tag_ok tags = true → SplitByte (Join (map tagText tags) ",") "," = map tagText tags.
Proof.
  intros Hne Ht. apply (SplitByte_Join _ ","); [by destruct tags|]. apply Forall_map, Forall_forall. intros x Hx.
  assert (Hok : tag_ok x = true) by (by apply (proj1 (forallb_elem tag_ok tags) Ht x)).
  unfold tag_ok in Hok. cbv beta. unfold tagText. rewrite ContainsByte_append, ContainsByte_cons.
  repeat (apply andb_true_iff in Hok as [Hok ?]). unfold noByte in *. rewrite !negb_true_iff in *. by rewrite !orb_false_iff.
Qed.

(** The tags are cut off the line and read back. *)
Lemma parseDogstatsdTags_tags s p tags : noByte "|" s = true → HasPrefix p "#" = false → noByte "|" p = true →
  forallb tag_ok tags = true → NoDup tags.*1 →
  parseDogstatsdTags (s +:+ String "|" (p +:+ tagsText tags)) = (s +:+ String "|" p, list_to_map tags).
Proof.
  intros Hs Hp Hpp Ht Hnd. destruct (decide (tags = [])) as [->|Hne].
  { cbn [tagsText]. rewrite append_nil_r. unfold parseDogstatsdTags. rewrite LastIndex_app by done. cbn [LastIndex].
    rewrite LastIndex_none by done. assert (Hq : HasPrefix (String "|" p) "|#" = false) by (destruct p; cbn in *; by rewrite ?andb_true_r in *).
    by rewrite Hq. }
  set (j := Join (map tagText tags) ",").
  assert (Hl : s +:+ String "|" (p +:+ tagsText tags) = (s +:+ String "|" p) +:+ String "|" (String "#" j)).
  { unfold tagsText. destruct tags; [done|]. fold j. by rewrite append_assoc. }
  rewrite Hl. assert (HL : LastIndex ((s +:+ String "|" p) +:+ String "|" (String "#" j)) "|#" = Some (slen (s +:+ String "|" p))).
  { rewrite append_assoc, LastIndex_app, append_cons by done. cbn [LastIndex]. rewrite LastIndex_app by done. cbn [LastIndex].
    rewrite LastIndex_none by (by apply tags_noByte). rewrite slen_append. cbn. by destruct j; cbn; f_equal; lia. }
  unfold parseDogstatsdTags. rewrite HL, stake_app, sdrop_app_add. cbn [sdrop]. unfold j. rewrite tags_split by done.
  by rewrite tags_fold.
Qed.

(** The type that is read after the first bar: all of the rest, or what stands
    before a second bar less its last byte. *)
Definition typeAfter (rest : string) : string :=
  match Index rest "|" with Some (S i) => stake i rest | _ => rest end.
Definition nameAfter (sl : statsDListener) (name : string) (d : dims) : res (string * dims) :=
  let n := if String.eqb (prefix sl) "" then name else TrimPrefix name (prefix sl +:+ ".") in
  match converters sl with Some cs => convertMetric n cs d | None => Ok (n, d) end.

Lemma parseMetric_parts sl line name v rest d :
  line ≠ "" → parseDogstatsdTags line = (name +:+ String ":" (v +:+ String "|" rest), d) → noByte ":" name = true → noByte "|" (name +:+ v) = true → rest ≠ "" →
  parseMetric sl line =
    '(n, d) ← nameAfter sl name d;
    match ParseFloat v with
    | Ok f => Ok (Some {| rawMetricName := name; metricName := n; metricType := typeAfter rest; value := f; dimensions := d |})
    | Err _ => Ok None
    end.
Proof.
  intros Hline Hd Hn Hv Hrest. unfold parseMetric. rewrite (proj2 (String.eqb_neq _ _) Hline), Hd.
  rewrite noByte_app in Hv. apply andb_true_iff in Hv as [Hn2 Hv].
  assert (Hpipe : noByte "|" (name +:+ String ":" v) = true) by (rewrite noByte_app, noByte_cons; cbn; by rewrite Hn2, Hv).
  assert (Hsplit : name +:+ String ":" (v +:+ String "|" rest) = (name +:+ String ":" v) +:+ String "|" rest) by (by rewrite append_assoc).
  assert (Hlt : (0 < slen rest)%nat) by (destruct rest; [done | cbn; lia]).
  assert (Hi : Index (name +:+ String ":" (v +:+ String "|" rest)) "|" = Some (slen (name +:+ String ":" v))) by (rewrite Hsplit; by apply Index_here).
  assert (Hlen : (slen (name +:+ String ":" (v +:+ String "|" rest)) - 1 <=? slen (name +:+ String ":" v))%nat = false).
  { rewrite Hsplit, (slen_append (name +:+ String ":" v)). apply Nat.leb_gt. cbn. lia. }
  assert (Hs : sdrop (S (slen (name +:+ String ":" v))) (name +:+ String ":" (v +:+ String "|" rest)) = rest) by (by rewrite Hsplit, <-Nat.add_1_r, sdrop_app_add).
  assert (Hval : slice (name +:+ String ":" (v +:+ String "|" rest)) (S (slen name)) (slen (name +:+ String ":" v)) = v).
  { unfold slice. rewrite <-(Nat.add_1_r (slen name)), sdrop_app_add, slen_append. cbn [sdrop slen].
    replace (slen name + S (slen v) - (slen name + 1))%nat with (slen v) by lia. apply stake_app. }
  rewrite (Index_here name), Hi, Hlen, Hs, Hval, stake_app by done. unfold nameAfter, typeAfter.
  rewrite (slen_append name), (proj2 (Nat.ltb_ge _ _)) by (cbn; lia). done.
Qed.

Lemma lineText_nonempty name v t rest : lineText name v t rest ≠ "".
Proof. by destruct name. Qed.

(** The metric of a line is read back: its name, type and tags are those written
    and its value is that of its text. *)
Theorem parseMetric_line (sl : statsDListener) (name v t : string) (tags : list (string * string)) (f : float64) :
  prefix sl = "" → converters sl = None →
  noByte ":" name = true → noByte "|" (name +:+ v) = true → noByte "|" t = true → t ≠ "" → HasPrefix t "#" = false →
  forallb tag_ok tags = true → NoDup tags.*1 → ParseFloat v = Ok f →
  parseMetric sl (lineText name v t (tagsText tags)) =
    Ok (Some {| rawMetricName := name; metricName := name; metricType := t; value := f; dimensions := list_to_map tags |}).
Proof.
  intros Hpre Hcs Hn Hv Ht Hne Hh Htags Hnd Hf.
  rewrite (parseMetric_parts _ _ name v t (list_to_map tags)); [|apply lineText_nonempty| |done|done|done].
  - unfold nameAfter, typeAfter. rewrite Hcs, Hpre, Index_byte, noByte_Index by done. cbn [String.eqb mbind res_bind]. by rewrite Hf.
  - unfold lineText. rewrite noByte_app in Hv. apply andb_true_iff in Hv as [Hn2 Hv].
    assert (Hpipe : noByte "|" (name +:+ String ":" v) = true) by (rewrite noByte_app, noByte_cons; cbn; by rewrite Hn2, Hv).
    pose proof (parseDogstatsdTags_tags (name +:+ String ":" v) t tags Hpipe Hh Ht Htags Hnd) as Hp.
    by rewrite !append_assoc, !append_cons in Hp.
Qed.

(** With a sampling rate after the type the last byte of the type is lost: a
    sampled counter has no type, and is reported as whatever the zero type is. *)
Theorem sampled_counter_type `{ZeroMetricType} (sl : statsDListener) (name v rate : string) (f : float64) :
  prefix sl = "" → converters sl = None →
  noByte ":" name = true → noByte "|" (name +:+ v) = true → noByte "|" rate = true → HasPrefix rate "#" = false →
  ParseFloat v = Ok f →
  ∃ m, parseMetric sl (lineText name v "c" (String "|" rate)) = Ok (Some m) ∧ metricType m = "" ∧ metricTypeMap (metricType m) = zeroMetricType.
Proof.
  intros Hpre Hcs Hn Hv Hr Hh Hf.
  erewrite (parseMetric_parts _ _ name v ("c" +:+ String "|" rate) ∅); [|apply lineText_nonempty| |done|done|done].
  - unfold nameAfter. rewrite Hcs, Hpre. cbn [String.eqb mbind res_bind]. rewrite Hf. by eexists.
  - unfold lineText. rewrite noByte_app in Hv. apply andb_true_iff in Hv as [Hn2 Hv]. unfold parseDogstatsdTags.
    rewrite LastIndex_app by done. cbn [LastIndex]. rewrite LastIndex_app by done. cbn [String.append LastIndex].
    rewrite (append_cons "c" ""), append_nil_l. cbn [LastIndex]. rewrite LastIndex_none by done. by destruct rate as [|a rate]; [|cbn in Hh; cbn; rewrite andb_true_r in Hh; rewrite Hh].
Qed.

(** A line whose first bar stands before its first colon makes the code slice
    backwards: the round of the interval panics. *)
Theorem colon_after_bar_panics `{ZeroMetricType} `{FloatOverflow} `{MapRange} (sl : statsDListener) (a b c : string) (before after : list string) :
  converters sl = None → noByte ":" a = true → noByte "|" a = true → noByte ":" b = true → LastIndex (a +:+ String "|" (b +:+ String ":" c)) "|#" = None →
  metricBuffer sl = before ++ (a +:+ String "|" (b +:+ String ":" c)) :: after →
  is_ok (interval sl).1 = false.
Proof.
  intros Hcs Ha1 Ha2 Hb Hl Hbuf. set (line := a +:+ String "|" (b +:+ String ":" c)) in *.
  assert (Hp : is_ok (parseMetric sl line) = false).
  { unfold parseMetric, parseDogstatsdTags. rewrite Hl, Hcs. assert (Hne : String.eqb line "" = false) by (by destruct a).
    rewrite Hne. unfold line at 2. rewrite (Index_here a) by done.
    assert (Hc : Index line ":" = Some (slen (a +:+ String "|" b))).
    { unfold line. replace (a +:+ String "|" (b +:+ String ":" c)) with ((a +:+ String "|" b) +:+ String ":" c) by (by rewrite append_assoc).
      apply Index_here. rewrite noByte_app, noByte_cons. cbn. by rewrite Ha1, Hb. }
    rewrite Hc. unfold line at 1. rewrite slen_append. cbn [slen]. rewrite (slen_append b). cbn [slen].
    rewrite (proj2 (Nat.leb_gt _ _)) by lia. cbn [mbind res_bind]. rewrite (slen_append a). cbn [slen].
    by rewrite (proj2 (Nat.ltb_lt _ _)) by lia. }
  unfold interval, FetchMetrics, parseMetrics. cbn [fst]. rewrite Hbuf.
  destruct (mapM_res (parseMetric sl) (before ++ line :: after)) as [ms|] eqn:Hm; [|done].
  exfalso. apply mapM_res_ok in Hm. apply Forall2_app_inv_l in Hm as (l1 & l2 & _ & H2 & _). apply Forall2_cons_inv_l in H2 as (y & l3 & Hy & _).
  by rewrite Hy in Hp.
Qed.

(** ** Aggregation *)

Section aggregation.
Context `{ZeroMetricType}.

(** The metrics of one name in the order they came. *)
Definition combine (o : option statsDMetric) (m : statsDMetric) : option statsDMetric :=
  match o with
  | Some old => Some (if isCount (metricType m) then addValue (value m) old else m)
  | None => Some m
  end.
Definition sameName (k : string) (m : statsDMetric) : bool := String.eqb (rawMetricName m) k.

Lemma aggregate_lookup acc m k : aggregate acc m !! k = if sameName k m then combine (acc !! k) m else acc !! k.
Proof.
  unfold aggregate, sameName, combine. destruct (String.eqb_spec (rawMetricName m) k) as [->|Hk].
  - destruct (acc !! k); [destruct (isCount _)|]; by rewrite lookup_insert_eq.
  - destruct (acc !! rawMetricName m); [destruct (isCount _)|]; by rewrite lookup_insert_ne.
Qed.

Lemma aggregateMetrics_lookup ms k : aggregateMetrics ms !! k = foldl combine None (List.filter (sameName k) ms).
Proof.
  unfold aggregateMetrics. assert (Hg : ∀ acc, foldl aggregate acc ms !! k = foldl combine (acc !! k) (List.filter (sameName k) ms)).
  { induction ms as [|m ms IH]; intros acc; [done|]. cbn [foldl List.filter]. rewrite IH, aggregate_lookup. by destruct (sameName k m). }
  apply Hg.
Qed.

Lemma combine_counts ms m0 : forallb (λ m, isCount (metricType m)) ms = true →
  foldl combine (Some m0) ms = Some {| rawMetricName := rawMetricName m0; metricName := metricName m0; metricType := metricType m0;
    value := foldl (λ a m, SFadd 53 1024 a (value m)) (value m0) ms; dimensions := dimensions m0 |}.
Proof.
  revert m0. induction ms as [|m ms IH]; intros m0; [by destruct m0|]. cbn [forallb foldl combine]. intros [Hm Hms]%andb_true_iff.
  rewrite Hm, IH by done. by destruct m0.
Qed.

(** Each name of an interval is reported once: counters of a name are added up,
    keeping the first one's name and dimensions, and a metric of another type
    replaces what came before it. *)
Theorem aggregateMetrics_correct (ms : list statsDMetric) (k : string) :
  (is_Some (aggregateMetrics ms !! k) ↔ ∃ m, m ∈ ms ∧ rawMetricName m = k) ∧
  (∀ m counts, List.filter (sameName k) ms = m :: counts → forallb (λ c, isCount (metricType c)) counts = true →
    ∃ r, aggregateMetrics ms !! k = Some r ∧ metricName r = metricName m ∧ metricType r = metricType m ∧ dimensions r = dimensions m ∧
      value r = foldl (λ a c, SFadd 53 1024 a (value c)) (value m) counts) ∧
  (∀ before m counts, List.filter (sameName k) ms = before ++ m :: counts → isCount (metricType m) = false →
    forallb (λ c, isCount (metricType c)) counts = true →
    ∃ r, aggregateMetrics ms !! k = Some r ∧ metricName r = metricName m ∧ metricType r = metricType m ∧ dimensions r = dimensions m ∧
      value r = foldl (λ a c, SFadd 53 1024 a (value c)) (value m) counts).
Proof.
  rewrite aggregateMetrics_lookup. split_and!.
  - assert (Hs : ∀ l o, is_Some (foldl combine o l) ↔ is_Some o ∨ l ≠ []).
    { induction l as [|m l IH]; intros o; cbn [foldl]; [naive_solver|]. rewrite IH. split; [by right|].
      intros _. left. unfold combine. destruct o; eauto. }
    rewrite Hs. split.
    + intros [[? [=]]|Hne]. destruct (List.filter (sameName k) ms) as [|m l] eqn:Hf; [done|].
      assert (Hm : In m (List.filter (sameName k) ms)) by (rewrite Hf; by left). apply filter_In in Hm as [Hm Hk%String.eqb_eq].
      exists m. by rewrite list_elem_of_In.
    + intros (m & Hm & Hk). right. intros Hf. assert (Hin : In m (List.filter (sameName k) ms)).
      { apply filter_In. split; [by apply list_elem_of_In | by apply String.eqb_eq]. }
      by rewrite Hf in Hin.
  - intros m counts -> Hc. cbn [foldl combine]. rewrite combine_counts by done. by eexists.
  - intros before m counts -> Hm Hc. rewrite foldl_app. cbn [foldl].
    assert (Hr : combine (foldl combine None before) m = Some m) by (unfold combine at 1; destruct (foldl _ _ _); by rewrite ?Hm).
    rewrite Hr, combine_counts by done. by eexists.
Qed.
End aggregation.

(** The fields that a pattern binds before it fails stay on the metric that a
    later pattern converts. *)
Theorem mismatch_leaks_fields :
  convertMetric "db_main.reads" (omap newConverter
      [{| Pattern := "{kind}_{instance}.writes"; MetricName := "writes" |}; {| Pattern := "{name}.reads"; MetricName := "reads" |}]) ∅ =
  Ok ("reads", <["kind" := "db"]> {["name" := "db_main"]}).
Proof. vm_compute. reflexivity. Qed.

(** ** Instances *)

Definition demo_listener : statsDListener := {| prefix := ""; converters := None; metricBuffer := [] |}.

Lemma parseMetric_line_witness :
  parseMetric demo_listener "page.views:3|c|#env:prod,zone:a" =
    Ok (Some {| rawMetricName := "page.views"; metricName := "page.views"; metricType := "c"; value := float_of_Z 3;
                dimensions := list_to_map [("env", "prod"); ("zone", "a")] |}).
Proof.
  apply (parseMetric_line demo_listener "page.views" "3" "c" [("env", "prod"); ("zone", "a")]); try reflexivity; [done|].
  apply NoDup_cons. split; [set_solver|]. apply NoDup_singleton.
Defined.

Lemma sampled_counter_type_witness :
  ∃ m, parseMetric demo_listener "page.views:3|c|@0.1" = Ok (Some m) ∧ metricType m = "".
Proof.
  destruct (@sampled_counter_type Gauge demo_listener "page.views" "3" "@0.1" (float_of_Z 3)) as (m & Hm & Ht & _); try reflexivity.
  by exists m.
Defined.

Definition no_overflow : FloatOverflow.
Proof. refine {| int64_overflow := λ _, 0 |}. intros _. unfold is_i64. lia. Defined.

Lemma colon_after_bar_panics_witness :
  is_ok (@interval Gauge no_overflow forward_range {| prefix := ""; converters := None; metricBuffer := ["up:1|g"; "a|g:1"] |}).1 = false.
Proof. apply (@colon_after_bar_panics Gauge no_overflow forward_range _ "a" "g" "1" ["up:1|g"] []); reflexivity. Defined.

Definition demo_converter : converter :=
  {| pattern := {| substrs := ["db_"; "instance"; ".reads"]; startWithField := false |}; cv_metric := {| substrs := ["reads"]; startWithField := false |} |}.

Lemma convertMetric_correct_witness :
  ∃ dims', convertMetric "db_main.reads" [demo_converter] ∅ = Ok ("reads", dims') ∧ dims' !! "instance" = Some "main".
Proof.
  destruct (convertMetric_correct "db_main.reads" [demo_converter] ∅) as (name' & dims' & Hc & Hcase).
  { intros c [->| ?%elem_of_nil]%elem_of_cons; done. }
  exists dims'. destruct Hcase as [(Hn & _)|(cs1 & c & cs2 & bs & rest & Hcs & _ & Hb & _ & Hname & Hin & _)].
  - exfalso. specialize (Hn demo_converter ltac:(left)). vm_compute in Hn. discriminate Hn.
  - destruct cs1 as [|c1 cs1]; [|destruct cs1; discriminate Hcs]. injection Hcs as <- _. cbn in Hname. subst name'. split; [exact Hc|].
    vm_compute in Hb. injection Hb as <-. by apply Hin.
Defined.
