(* ===== verification/ScriptedInputs.v ===== *)
(** * The scripted inputs receiver

    [src/internal/receiver/scriptedinputsreceiver]: the configuration and its
    checks ([config.go]), the entries made of a script's output ([operator.go]),
    and the goroutines of a cycle ([commander.go], [operator.go]): the script's
    process, the goroutine that waits for it, the one that closes the pipe and
    cancels the reader's context, the reader with its [bufio.Scanner], and the
    loop that starts a cycle per interval.  The process is the environment; what
    [exec.Cmd.Wait], [io.Pipe] and the scanner do is written out.  The splitting
    function of the scanner is a parameter, like decoding. *)

From S2P Require Import Prelude GoStrings GoValue Settings Telemetry Filters ConfigProvider.
From Stdlib Require Import Ascii.
#[local] Open Scope Z_scope.

(** ** config.go *)

Definition defaultCollectionInterval : string := "60s".
Definition minMaxLogSize : Z := 64 * 1024.
Definition defaultMaxLogSize : Z := 1024 * 1024.
Definition maxInt : Z := 2 ^ 63 - 1.

Record siConfig := {
  ScriptName : string; Encoding : string; Source : string; SourceType : string; CollectionInterval : string;
  MaxLogSize : Z; LineStartPattern : string; LineEndPattern : string; si_interval : Z;
}.
Definition siDefaultConfig : siConfig :=
  {| ScriptName := ""; Encoding := "utf-8"; Source := ""; SourceType := ""; CollectionInterval := defaultCollectionInterval;
     MaxLogSize := defaultMaxLogSize; LineStartPattern := ""; LineEndPattern := ""; si_interval := 0 |}.
Definition setInterval (d : Z) (c : siConfig) : siConfig :=
  {| ScriptName := ScriptName c; Encoding := Encoding c; Source := Source c; SourceType := SourceType c; CollectionInterval := CollectionInterval c;
     MaxLogSize := MaxLogSize c; LineStartPattern := LineStartPattern c; LineEndPattern := LineEndPattern c; si_interval := d |}.

(** [Validate]; the interval it stores is part of the result. *)
Definition siValidate (scripts : gmap string string) (c : siConfig) : res siConfig :=
  if String.eqb (ScriptName c) "" then Err (Errorf "'script_name' must be specified" [])
  else match scripts !! ScriptName c with
  | None => Err (Errorf "unsupported 'script_name' %q. must be one of %v" [ScriptName c])
  | Some _ =>
      if negb (MaxLogSize c =? 0) && (MaxLogSize c <? minMaxLogSize) then
        Err (Errorf "invalid value for parameter 'max_log_size', must be equal to or greater than %d bytes" [])
      else if maxInt <? MaxLogSize c then
        Err (Errorf "invalid value for parameter 'max_log_size', must be less than or equal to %d bytes" [])
      else match ParseDuration (CollectionInterval c) with
           | Err e => Err (Wrapf "invalid 'collection_interval': %w" [] e)
           | Ok d => Ok (setInterval d c)
           end
  end.

(** [isContainer] with the process id and the files that exist. *)
Definition isContainer (pid : Z) (exists_ : string → bool) : bool :=
  (pid =? 1) || exists_ "/.dockerenv" || exists_ "/run/.containerenv".

(** How the output is split: not at all up to the maximal size, or by patterns. *)
Inductive splitting := NoSplit (size : Z) | Multiline (start end_ : string) (size : Z).
Definition Build (container : bool) (inputBuild lookupEncoding : res unit) (multilineFunc : string → string → res unit)
    (scripts : gmap string string) (c : siConfig) : res (splitting * string) :=
  if container then Err (Errorf "scriped inputs receiver must be run directly on host and is not supported in container" [])
  else
    _ ← inputBuild;
    _ ← lookupEncoding;
    split ← (if String.eqb (LineStartPattern c) "" && String.eqb (LineEndPattern c) "" then Ok (NoSplit (MaxLogSize c))
             else _ ← multilineFunc (LineStartPattern c) (LineEndPattern c);
                  Ok (Multiline (LineStartPattern c) (LineEndPattern c) (MaxLogSize c)));
    match scripts !! ScriptName c with
    | None => Err (Errorf "missing script %q" [ScriptName c])
    | Some content => Ok (split, content)
    end.

(** ** operator.go: the entries *)

Record entry := { en_Body : string; en_Attributes : gmap string string }.

Section output.
(** Decoding and the creation of an entry may fail, which skips a token. *)
Context (Decode : string → res string) (NewEntry : string → res entry).

Definition AddAttribute (k v : string) (e : entry) : entry :=
  {| en_Body := en_Body e; en_Attributes := <[k := v]> (en_Attributes e) |}.

Definition readToken (c : siConfig) (token : string) : option entry :=
  match Decode token with
  | Err _ => None
  | Ok decoded =>
      match NewEntry decoded with
      | Err _ => None
      | Ok e =>
          let e := if String.eqb (Source c) "" then e else AddAttribute "com.splunk.source" (Source c) e in
          let e := if String.eqb (SourceType c) "" then e else AddAttribute "com.splunk.sourcetype" (SourceType c) e in
          Some e
      end
  end.

(** ** The goroutines of a cycle *)

(** [Reaped]: [Process.Wait] has returned, inside of [Cmd.Wait]; a signal to the
    process fails from then on. *)
Inductive process := Running | Exited (ok : bool) | Reaped (ok : bool).
(** [watch]: in [Wait], after a successful [Wait], or returned. *)
Inductive watcher := Waiting | Succeeded | Watched.
(** The goroutine of [beginCycle]: in its select, in [Stop] after the signal was
    sent, about to close the pipe, about to cancel the reader's context, or
    returned. *)
Inductive closer := Selecting | Stopping | Closing | Cancelling | Ended.
Inductive loop := Cycling | WaitingGroup | LoopEnded.

(** What a splitting function returns: an error, or how many bytes to advance and
    a token if there is one. *)
Inductive splitResult := SplitError | Advance (n : nat) (token : option string).

Record siState := {
  proc : process; unread : string;          (* the script's output that is not read from the pipe yet *)
  watch : watcher; done : bool; waitClosed : bool; isRunning : bool;
  ctxDone : bool;                           (* the cycle's context *)
  closing : closer; writerClosed : bool; readerCancelled : bool;
  reading : bool; atEOF : bool; buffered : string;  (* the reader and its scanner *)
  taken : list (string * option string);    (* the bytes the scanner advanced over, with their token *)
  written : list (bool * entry);            (* what was written, and whether readerCtx was done then *)
  looping : loop; cycles : nat; stopped : bool;
}.

(** Goroutines the wait group still counts. *)
Definition wg (s : siState) : nat :=
  (match closing s with Ended => 0 | _ => 1 end + if reading s then 1 else 0)%nat.

Definition setProc (p : process) (u : string) (s : siState) : siState :=
  {| proc := p; unread := u; watch := watch s; done := done s; waitClosed := waitClosed s; isRunning := isRunning s; ctxDone := ctxDone s;
     closing := closing s; writerClosed := writerClosed s; readerCancelled := readerCancelled s; reading := reading s; atEOF := atEOF s;
     buffered := buffered s; taken := taken s; written := written s; looping := looping s; cycles := cycles s; stopped := stopped s |}.
Definition setWatch (w : watcher) (d wc r : bool) (s : siState) : siState :=
  {| proc := proc s; unread := unread s; watch := w; done := d; waitClosed := wc; isRunning := r; ctxDone := ctxDone s;
     closing := closing s; writerClosed := writerClosed s; readerCancelled := readerCancelled s; reading := reading s; atEOF := atEOF s;
     buffered := buffered s; taken := taken s; written := written s; looping := looping s; cycles := cycles s; stopped := stopped s |}.
Definition setCloser (c : closer) (d wcl rc : bool) (s : siState) : siState :=
  {| proc := proc s; unread := unread s; watch := watch s; done := d; waitClosed := waitClosed s; isRunning := isRunning s; ctxDone := ctxDone s;
     closing := c; writerClosed := wcl; readerCancelled := rc; reading := reading s; atEOF := atEOF s;
     buffered := buffered s; taken := taken s; written := written s; looping := looping s; cycles := cycles s; stopped := stopped s |}.
Definition setReader (r e : bool) (u b : string) (t : list (string * option string)) (w : list (bool * entry)) (s : siState) : siState :=
  {| proc := proc s; unread := u; watch := watch s; done := done s; waitClosed := waitClosed s; isRunning := isRunning s; ctxDone := ctxDone s;
     closing := closing s; writerClosed := writerClosed s; readerCancelled := readerCancelled s; reading := r; atEOF := e;
     buffered := b; taken := t; written := w; looping := looping s; cycles := cycles s; stopped := stopped s |}.
Definition setLoop (l : loop) (cd st : bool) (s : siState) : siState :=
  {| proc := proc s; unread := unread s; watch := watch s; done := done s; waitClosed := waitClosed s; isRunning := isRunning s; ctxDone := cd;
     closing := closing s; writerClosed := writerClosed s; readerCancelled := readerCancelled s; reading := reading s; atEOF := atEOF s;
     buffered := buffered s; taken := taken s; written := written s; looping := l; cycles := cycles s; stopped := st |}.

(** [beginCycle] with a script that is going to print [u]. *)
Definition beginCycle (u : string) (w : list (bool * entry)) (n : nat) : siState :=
  {| proc := Running; unread := u; watch := Waiting; done := false; waitClosed := false; isRunning := true; ctxDone := false;
     closing := Selecting; writerClosed := false; readerCancelled := false; reading := true; atEOF := false;
     buffered := ""; taken := []; written := w; looping := Cycling; cycles := n; stopped := false |}.
(** A cycle whose script does not start has no goroutines. *)
Definition failedCycle (w : list (bool * entry)) (n : nat) (st : bool) : siState :=
  {| proc := Reaped false; unread := ""; watch := Watched; done := false; waitClosed := true; isRunning := false; ctxDone := st;
     closing := Ended; writerClosed := true; readerCancelled := false; reading := false; atEOF := true;
     buffered := ""; taken := []; written := w; looping := Cycling; cycles := n; stopped := st |}.

Context (c : siConfig) (split : string → bool → splitResult).

(** [readerCtx] is done when the cycle's context is, or once it was cancelled. *)
Definition writeToken (s : siState) (t : string) : list (bool * entry) :=
  written s ++ option_list (pair (ctxDone s || readerCancelled s) <$> readToken c t).

(** The scanner is about to read: it has no data, or [split] found no token in it
    and skips [n] bytes. *)
Definition needs_data (s : siState) (n : nat) : Prop :=
  atEOF s = false ∧ ((buffered s = "" ∧ n = 0%nat) ∨ (buffered s ≠ "" ∧ split (buffered s) false = Advance n None)).
Definition skipped (n : nat) (s : siState) : list (string * option string) :=
  if (n =? 0)%nat then taken s else taken s ++ [(stake n (buffered s), None)].

(** The steps of the goroutines of a cycle.  A process that fails or is killed
    prints a part of its output.  [Wait] reaps the process and returns once all
    that was printed has gone through the pipe; it fails when the process did,
    or when the context was done in time to kill it. *)
Inductive inner : siState → siState → Prop :=
| exit_ok s : proc s = Running → inner s (setProc (Exited true) (unread s) s)
| exit_failed s k : proc s = Running → inner s (setProc (Exited false) (stake k (unread s)) s)
| reap s ok : watch s = Waiting → proc s = Exited ok → inner s (setProc (Reaped ok) (unread s) s)
| wait_ok s : watch s = Waiting → proc s = Reaped true → unread s = "" → inner s (setWatch Succeeded true (waitClosed s) (isRunning s) s)
| wait_failed s ok : watch s = Waiting → proc s = Reaped ok → unread s = "" → (ok = false ∨ ctxDone s = true) →
    inner s (setWatch Watched (done s) true (isRunning s) s)
| watch_returns s : watch s = Succeeded → inner s (setWatch Watched (done s) true false s)
| select_done s : closing s = Selecting → done s = true → inner s (setCloser Closing false (writerClosed s) (readerCancelled s) s)
(* Stop: the signal is sent, or the process is finished already *)
| stop_signal s : closing s = Selecting → ctxDone s = true → (∀ ok, proc s ≠ Reaped ok) →
    inner s (setCloser Stopping (done s) (writerClosed s) (readerCancelled s) s)
| stop_finished s ok : closing s = Selecting → ctxDone s = true → proc s = Reaped ok →
    inner s (setCloser Ended (done s) (writerClosed s) (readerCancelled s) s)
| stop_waited s : closing s = Stopping → waitClosed s = true →
    inner s (setCloser Closing (done s) (writerClosed s) (readerCancelled s) (setWatch (watch s) (done s) (waitClosed s) false s))
| stop_kill_failed s : closing s = Stopping → waitClosed s = true →
    inner s (setCloser Ended (done s) (writerClosed s) (readerCancelled s) (setWatch (watch s) (done s) (waitClosed s) false s))
| close_pipe s : closing s = Closing → inner s (setCloser Cancelling (done s) true (readerCancelled s) s)
| cancel_reader s : closing s = Cancelling → inner s (setCloser Ended (done s) (writerClosed s) true s)
| scan_token s n t : reading s = true → (buffered s ≠ "" ∨ atEOF s = true) → split (buffered s) (atEOF s) = Advance n (Some t) →
    inner s (setReader true (atEOF s) (unread s) (sdrop n (buffered s)) (taken s ++ [(stake n (buffered s), Some t)]) (writeToken s t) s)
| scan_read s n k : reading s = true → needs_data s n → (slen (sdrop n (buffered s)) < Z.to_nat (MaxLogSize c))%nat →
    (0 < k ≤ slen (unread s))%nat → (slen (sdrop n (buffered s)) + k ≤ Z.to_nat (MaxLogSize c))%nat →
    inner s (setReader true false (sdrop k (unread s)) (sdrop n (buffered s) +:+ stake k (unread s)) (skipped n s) (written s) s)
| scan_eof s n : reading s = true → needs_data s n → (slen (sdrop n (buffered s)) < Z.to_nat (MaxLogSize c))%nat →
    unread s = "" → writerClosed s = true →
    inner s (setReader true true "" (sdrop n (buffered s)) (skipped n s) (written s) s)
| scan_too_long s n : reading s = true → needs_data s n → (Z.to_nat (MaxLogSize c) ≤ slen (sdrop n (buffered s)))%nat →
    inner s (setReader false (atEOF s) (unread s) (buffered s) (taken s) (written s) s)
| scan_error s : reading s = true → (buffered s ≠ "" ∨ atEOF s = true) → split (buffered s) (atEOF s) = SplitError →
    inner s (setReader false (atEOF s) (unread s) (buffered s) (taken s) (written s) s)
| scan_end s n : reading s = true → atEOF s = true → split (buffered s) true = Advance n None →
    inner s (setReader false true (unread s) (buffered s) (taken s) (written s) s).

(** The loop of [Start], and [Stop].  A script is not started with a context that
    is done. *)
Inductive step : siState → siState → Prop :=
| step_inner s s' : inner s s' → step s s'
| step_tick s : looping s = Cycling → step s (setLoop WaitingGroup true (stopped s) s)
| step_next s u : looping s = WaitingGroup → wg s = 0%nat → stopped s = false → step s (beginCycle u (written s) (S (cycles s)))
| step_next_failed s : looping s = WaitingGroup → wg s = 0%nat → step s (failedCycle (written s) (S (cycles s)) (stopped s))
| step_cancel s : step s (setLoop (looping s) true true s)
| step_end s : looping s = Cycling → stopped s = true → step s (setLoop LoopEnded true true s).

Definition reachable (s : siState) : Prop := ∃ u, rtc step (beginCycle u [] 1) s.

(** What is documented of a splitting function and holds of the one that is used
    without patterns: it does not fail, advances within the data and by at least
    a byte for a token, gives what is left at the end as tokens, and cuts a full
    buffer.  With patterns the last is a condition on the output: no line is
    longer than [max_log_size]. *)
Class SplitLaws := {
  split_ok d e : split d e ≠ SplitError;
  split_within d e n tok : split d e = Advance n tok → (n ≤ slen d)%nat;
  split_advances d e n t : split d e = Advance n (Some t) → (0 < n)%nat;
  split_flushes d n : d ≠ "" → split d true ≠ Advance n None;
  split_cuts d n : (Z.to_nat (MaxLogSize c) ≤ slen d)%nat → d ≠ "" → split d false ≠ Advance n None;
  size_positive : (0 < Z.to_nat (MaxLogSize c))%nat;
}.
Context {Laws : SplitLaws}.

(** ** The scanner loses nothing *)

Definition bytes (s : siState) : string := Join (map fst (taken s)) "" +:+ buffered s.

Lemma Join_snoc (l : list string) x : Join (l ++ [x]) "" = Join l "" +:+ x.
Proof.
  induction l as [|y l IH]; [done|]. destruct l as [|z l]; [done|]. cbn [app] in *.
  change (Join (y :: z :: l ++ [x]) "") with (y +:+ "" +:+ Join (z :: l ++ [x]) "").
  change (Join (y :: z :: l) "") with (y +:+ "" +:+ Join (z :: l) ""). rewrite IH. by rewrite !append_assoc.
Qed.

Lemma bytes_skip n s : Join (map fst (skipped n s)) "" +:+ sdrop n (buffered s) = bytes s.
Proof.
  unfold skipped, bytes. destruct n as [|n]; [done|]. cbn [Nat.eqb]. rewrite map_app. cbn [map fst].
  by rewrite Join_snoc, append_assoc, stake_sdrop.
Qed.

Lemma skip_short s n : needs_data s n → (slen (sdrop n (buffered s)) < Z.to_nat (MaxLogSize c))%nat.
Proof.
  intros [_ [[Hb ->]|[Hb Hs]]]; [rewrite Hb; apply size_positive|].
  rewrite slen_sdrop. destruct (Nat.le_gt_cases (Z.to_nat (MaxLogSize c)) (slen (buffered s))) as [Hl|]; [|lia].
  by destruct (split_cuts _ n Hl Hb).
Qed.

(** The entries of the tokens that were taken. *)
Definition tokens (l : list (string * option string)) : list entry :=
  flat_map (λ p, match p.2 with Some t => option_list (readToken c t) | None => [] end) l.

Lemma tokens_app l l' : tokens (l ++ l') = tokens l ++ tokens l'.
Proof. apply flat_map_app. Qed.

Lemma tokens_skipped n s : tokens (skipped n s) = tokens (taken s).
Proof. unfold skipped. destruct (n =? 0)%nat; [done|]. rewrite tokens_app. by rewrite app_nil_r. Qed.

Lemma written_token s t : map snd (writeToken s t) = map snd (written s) ++ option_list (readToken c t).
Proof. unfold writeToken. rewrite map_app. by destruct (readToken c t). Qed.

(** ** Invariant of a cycle *)

Record cycle_inv (s : siState) : Prop := {
  inv_unread : watch s ≠ Waiting → unread s = "";
  inv_done : done s = true → proc s = Reaped true;
  inv_reaped : watch s ≠ Waiting → ∃ ok, proc s = Reaped ok;
  inv_succeeded : watch s = Succeeded → proc s = Reaped true;
  inv_writer : writerClosed s = false ∨ closing s = Cancelling ∨ closing s = Ended;
  inv_eof : atEOF s = true → writerClosed s = true;
  inv_reader : reading s = false → writerClosed s = true;
}.

Lemma inner_inv s s' : inner s s' → cycle_inv s → cycle_inv s'.
Proof.
  intros Hi [H1 H2 H3 H4 H5 H6 H7].
  destruct Hi as [s Hp|s k Hp|s ok Hw Hp|s Hw Hp Hu|s ok Hw Hp Hu Ho|s Hw|s Hc Hd|s Hc Hx Hp|s ok Hc Hx Hp|s Hc Hwc|s Hc Hwc|s Hc|s Hc
    |s n t Hr Hb Hs|s n k Hr Hn Hl Hk Hk'|s n Hr Hn Hl Hu Hw|s n Hr Hn Hl|s Hr Hb Hs|s n Hr He Hs].
  all: try (by destruct (split_ok _ _ Hs)).
  all: try (pose proof (skip_short s n Hn); lia).
  all: constructor; cbn; try done; try (intros Hq; specialize (H3 Hq) as [ok' H3]; congruence); try (intros; congruence).
  all: try (intros Hq; specialize (H2 Hq); congruence).
  all: try (intros Hq; specialize (H4 Hq); congruence).
  all: try (by intros _; eauto).
  all: try (by destruct H5 as [|[|]]; [by left | congruence..]).
  all: try (by right; left). all: try (by right; right).
  all: try (by intros _; rewrite H1 by congruence).
  all: try (by intros Hq; rewrite (H1 Hq); destruct k).
  all: try (by intros _; apply H3; congruence).
  all: try (intros; by apply H6).
  all: try (by intros _; apply H1; congruence).
  all: try (by intros Hq; rewrite (H1 Hq) in Hk; simpl in Hk; lia).
Qed.

Lemma step_inv s s' : step s s' → cycle_inv s → cycle_inv s'.
Proof.
  intros Hs Hv. destruct Hs; [by eapply inner_inv | | | | |]; try (destruct Hv; by constructor).
  - constructor; cbn; try done. by left.
  - constructor; cbn; try done; [by eauto | by right; right].
Qed.

Lemma beginCycle_inv u w n : cycle_inv (beginCycle u w n).
Proof. constructor; cbn; try done. by left. Qed.

Lemma reachable_inv s : reachable s → cycle_inv s.
Proof.
  intros [u Hr]. pose proof (beginCycle_inv u [] 1) as H0.
  induction Hr as [|a b d Hab _ IH]; [done|]. apply IH. by eapply step_inv.
Qed.

(** ** A script that fails *)

(** Nothing closes the pipe any more, and the reader waits for that. *)
Definition blocked (s : siState) : Prop :=
  proc s = Reaped false ∧ watch s = Watched ∧ done s = false ∧ (closing s = Selecting ∨ closing s = Ended) ∧
  writerClosed s = false ∧ reading s = true ∧ atEOF s = false ∧ unread s = "".

Lemma step_blocked s s' : step s s' → blocked s → blocked s' ∧ cycles s' = cycles s ∧ bytes s' = bytes s.
Proof.
  intros Hs (Hp & Hw & Hd & Hc & Hwc & Hr & He & Hu).
  assert (Hwg : wg s ≠ 0%nat) by (unfold wg; rewrite Hr; lia).
  destruct Hs as [s s' Hi| | | | |]; try done; [|by unfold blocked, bytes; cbn..].
  destruct Hi as [| | | | | | |s _ _ Hx| | | | | |s n t _ _ Hs|s n k _ Hn Hl Hk|s n|s n _ Hn Hl|s _ _ Hs|s n]; try (destruct Hc; congruence).
  - unfold blocked, bytes. cbn. split_and!; try done. by right.
  - unfold blocked, bytes. cbn. split_and!; try done. rewrite map_app. cbn [map fst].
    by rewrite Join_snoc, append_assoc, stake_sdrop.
  - rewrite Hu in Hk. simpl in Hk. lia.
  - pose proof (skip_short s n Hn). lia.
  - by destruct (split_ok _ _ Hs).
Qed.

(** C16: Once the script has exited with an error by itself, and [Wait] has returned
    that error while the goroutine that closes the pipe is still in its select
    (so the interval has not ended the cycle), no cycle is started any more, no
    byte is read any more and the wait group never gets empty, so stopping the
    receiver blocks too. *)
Theorem failed_script_blocks (s s' : siState) :
  reachable s → proc s = Reaped false → watch s = Watched → closing s = Selecting → rtc step s s' →
  cycles s' = cycles s ∧ bytes s' = bytes s ∧ wg s' ≠ 0%nat.
Proof.
  intros Hr Hp Hw Hc Hs. destruct (reachable_inv s Hr) as [H1 H2 H3 H4 H5 H6 H7].
  assert (Hwr : writerClosed s = false) by (destruct H5 as [?|[?|?]]; congruence).
  assert (Hb : blocked s).
  { unfold blocked. rewrite Hwr in *. split_and!; try done; [|by left| | |apply H1; congruence].
    - destruct (done s); [|done]. specialize (H2 eq_refl). congruence.
    - destruct (reading s); [done|]. by specialize (H7 eq_refl).
    - destruct (atEOF s); [|done]. by specialize (H6 eq_refl). }
  clear -Hb Hs Laws. induction Hs as [s|a b d Hab _ IH].
  - split_and!; [done..|]. destruct Hb as (_ & _ & _ & _ & _ & Hr & _). unfold wg. rewrite Hr. lia.
  - destruct (step_blocked _ _ Hab Hb) as (Hb' & Hcy & Hby). rewrite <-Hcy, <-Hby. by apply IH.
Qed.

(** ** A script that succeeds *)

(** Each step of the goroutines gets nearer to the end of the cycle; the reader
    moves each byte from the pipe to its buffer and out of it. *)
Definition remaining (s : siState) : nat :=
  (match proc s with Running => 2 | Exited _ => 1 | Reaped _ => 0 end + 2 * slen (unread s) + slen (buffered s) +
   match watch s with Waiting => 2 | Succeeded => 1 | Watched => 0 end +
   match closing s with Selecting => 4 | Stopping => 3 | Closing => 2 | Cancelling => 1 | Ended => 0 end +
   (if reading s then 1 else 0) + if atEOF s then 0 else 1)%nat.

Lemma inner_remaining s s' : inner s s' → (remaining s' < remaining s)%nat.
Proof.
  destruct 1 as [s Hp|s k Hp|s ok Hw Hp|s Hw Hp Hu|s ok Hw Hp Hu Ho|s Hw|s Hc Hd|s Hc Hx Hp|s ok Hc Hx Hp|s Hc Hwc|s Hc Hwc|s Hc|s Hc
    |s n t Hr Hb Hs|s n k Hr [He Hn] Hl Hk Hk'|s n Hr [He Hn] Hl Hu Hw|s n Hr Hn Hl|s Hr Hb Hs|s n Hr He Hs]; unfold remaining; cbn.
  all: rewrite ?Hp, ?Hw, ?Hc, ?Hr, ?He; cbn; try lia.
  - rewrite slen_stake. lia.
  - pose proof (split_within _ _ _ _ Hs). pose proof (split_advances _ _ _ _ Hs). rewrite slen_sdrop. lia.
  - rewrite slen_append, slen_stake, !slen_sdrop. lia.
  - rewrite slen_sdrop, Hu. cbn. lia.
Qed.

Lemma inner_terminates s : Acc (λ a b, inner b a) s.
Proof.
  remember (remaining s) as n eqn:Hn. revert s Hn. induction (lt_wf n) as [n _ IH]; intros s ->. constructor. intros s' Hs.
  eapply IH; [by apply inner_remaining | done].
Qed.

(** The script has not failed. *)
Definition succeeding (s : siState) : Prop := proc s ≠ Exited false ∧ proc s ≠ Reaped false.

(** A cycle within its interval whose script prints [u]. *)
Record healthy (u : string) (w : list entry) (s : siState) : Prop := {
  h_inv : cycle_inv s;
  h_ctx : ctxDone s = false;
  h_bytes : bytes s +:+ unread s = u;
  h_written : map snd (written s) = w ++ tokens (taken s);
  h_running : watch s = Watched → isRunning s = false;
  h_done : match closing s with
           | Selecting => watch s ≠ Waiting → done s = true
           | Stopping => False
           | Closing => watch s ≠ Waiting
           | Cancelling | Ended => watch s ≠ Waiting ∧ writerClosed s = true
           end;
  h_notdone : watch s = Waiting → done s = false;
  h_flushed : reading s = false → buffered s = "";
}.

Lemma inner_healthy u w s s' : inner s s' → succeeding s' → healthy u w s → healthy u w s'.
Proof.
  intros Hi [Hp1 Hp2] [H0 H1 H2 H3 H4 H5 H6 H7]. pose proof (inner_inv _ _ Hi H0) as H0'. pose proof H0 as [I1 I2 I3 I4 I5 I6 I7].
  destruct Hi as [s Hp|s k Hp|s ok Hw Hp|s Hw Hp Hu|s ok Hw Hp Hu Ho|s Hw|s Hc Hd|s Hc Hx Hp|s ok Hc Hx Hp|s Hc Hwc|s Hc Hwc|s Hc|s Hc
    |s n t Hr Hb Hs|s n k Hr Hn Hl Hk Hk'|s n Hr Hn Hl Hu Hw|s n Hr Hn Hl|s Hr Hb Hs|s n Hr He Hs];
    cbn in Hp1, Hp2; try congruence; try (rewrite Hc in H5; done).
  all: try (by destruct (split_ok _ _ Hs)).
  all: try (pose proof (skip_short s n Hn); lia).
  - by constructor.
  - by constructor.
  - constructor; try done. cbn. destruct (closing s); try done; by destruct H5.
  - exfalso. destruct Ho as [->|]; congruence.
  - constructor; try done. cbn. assert (Hn : watch s ≠ Waiting) by congruence. destruct (closing s); try done; [intros _; by apply H5|by destruct H5..].
  - constructor; try done. cbn. intros Hw. by rewrite (H6 Hw) in Hd.
  - constructor; try done; cbn.
    + rewrite <-H2. unfold bytes. cbn. rewrite map_app. cbn [map fst]. by rewrite Join_snoc, (append_assoc _ _ (sdrop n _)), stake_sdrop.
    + rewrite written_token, H3, tokens_app, <-app_assoc. cbn. by rewrite app_nil_r.
  - constructor; try done; cbn.
    + rewrite <-H2, <-(bytes_skip n s). unfold bytes. cbn. rewrite !append_assoc. by rewrite stake_sdrop.
    + by rewrite H3, tokens_skipped.
  - constructor; try done; cbn.
    + rewrite <-H2, <-(bytes_skip n s), Hu. done.
    + by rewrite H3, tokens_skipped.
  - constructor; try done; cbn. intros _. destruct (decide (buffered s = "")) as [|Hne]; [done|]. by destruct (split_flushes _ n Hne).
Qed.

(** As long as the scanner is not at the end of its input it can move, or it waits
    for the pipe. *)
Lemma reader_moves s : reading s = true → (unread s ≠ "" ∨ writerClosed s = true) → ∃ s', inner s s'.
Proof.
  intros Hr Hx. destruct (split (buffered s) (atEOF s)) as [|n [t|]] eqn:Hs; [by destruct (split_ok _ _ Hs)|..].
  - destruct (decide (buffered s = "")) as [Hb|Hb]; [|eexists; eapply scan_token; eauto].
    pose proof (split_within _ _ _ _ Hs) as Hle. pose proof (split_advances _ _ _ _ Hs). rewrite Hb in Hle. simpl in Hle. lia.
  - destruct (atEOF s) eqn:He; [eexists; eapply scan_end; eauto|].
    assert (Hn : ∃ m, needs_data s m).
    { destruct (decide (buffered s = "")); [exists 0%nat | exists n]; (split; [done|]); [by left | by right]. }
    destruct Hn as [m Hn]. pose proof (skip_short s m Hn) as Hl. destruct (decide (unread s = "")) as [Hu|Hu].
    + destruct Hx as [|Hw]; [done|]. eexists. by eapply scan_eof.
    + eexists. eapply (scan_read s m 1); [done..| |lia]. destruct (unread s); [done|]. simpl. lia.
Qed.

(** C17: Within its interval, a cycle whose script succeeds ends by itself in every
    order of the goroutines' steps, when the splitting function cuts a full
    buffer: when none of them can move, the wait group is empty, the scanner has
    cut the whole output into tokens and the entries of these tokens were
    written, in order (with the reader's context done or not), and the script
    counts as not running. *)
Theorem cycle_completes (u : string) (w : list (bool * entry)) (n : nat) (s : siState) :
  rtc inner (beginCycle u w n) s → succeeding s →
  Acc (λ a b, inner b a) s ∧
  ((∀ s', ¬ inner s s') → wg s = 0%nat ∧ isRunning s = false ∧ Join (map fst (taken s)) "" = u ∧
     map snd (written s) = map snd w ++ tokens (taken s)).
Proof.
  intros Hr Hp. split; [apply inner_terminates|].
  assert (Hh : healthy u (map snd w) s).
  { revert s Hr Hp. refine (rtc_ind_r (λ s, succeeding s → healthy _ _ s) _ _ _).
    - intros _. split; try done; [apply beginCycle_inv | cbn; by rewrite app_nil_r | cbn; by intros []].
    - intros s s' _ Hs IH Hp. eapply inner_healthy; [done..|]. apply IH. destruct Hp as [Hp1 Hp2].
      split; intros Hf; destruct Hs; cbn in *; congruence. }
  destruct Hh as [[I1 I2 I3 I4 I5 I6 I7] H1 H2 H3 H4 H5 H6 H7]. destruct Hp as [Hp1 Hp2]. intros Hno.
  assert (Hrd : reading s = false ∨ unread s = "" ∧ writerClosed s = false).
  { destruct (reading s) eqn:Hq; [right|by left].
    assert (Hstuck : ¬ (unread s ≠ "" ∨ writerClosed s = true)) by (intros Hx; by destruct (reader_moves s Hq Hx) as [s' ?%Hno]).
    split; [by destruct (decide (unread s = "")); [|destruct Hstuck; left] | by destruct (writerClosed s); [destruct Hstuck; right|]]. }
  assert (Hun : unread s = "").
  { destruct Hrd as [Hrd|[? _]]; [|done]. specialize (I7 Hrd). apply I1. destruct (closing s); try done; try (by destruct H5);
      destruct I5 as [?|[?|?]]; congruence. }
  assert (Hw : watch s = Watched).
  { destruct (watch s) eqn:Hq; [|by destruct (Hno _ (watch_returns s Hq))|done].
    destruct (proc s) as [|[]|[]] eqn:Hpr; try done; [by destruct (Hno _ (exit_ok s Hpr)) | by destruct (Hno _ (reap s true Hq Hpr)) | by destruct (Hno _ (wait_ok s Hq Hpr Hun))]. }
  rewrite Hw in H5. assert (Hc : closing s = Ended ∧ writerClosed s = true).
  { destruct (closing s) eqn:Hq; [|done| | |by destruct H5].
    - by destruct (Hno _ (select_done s Hq (H5 ltac:(done)))).
    - by destruct (Hno _ (close_pipe s Hq)).
    - by destruct (Hno _ (cancel_reader s Hq)). }
  destruct Hc as [Hc Hwc]. destruct Hrd as [Hrd|[_ ?]]; [|congruence].
  unfold wg. rewrite Hc, Hrd. split_and!; [done|by apply H4| |done].
  rewrite <-H2, Hun. unfold bytes. by rewrite (H7 Hrd), !append_nil_r.
Qed.
End output.

(** ** Configurations *)

(** A validated configuration names a bundled script, has a buffer that is unset
    or large enough and representable, and an interval that is a duration. *)
Theorem siValidate_correct (scripts : gmap string string) (c : siConfig) :
  match siValidate scripts c with
  | Ok c' => is_Some (scripts !! ScriptName c) ∧ ScriptName c ≠ "" ∧
      (MaxLogSize c = 0 ∨ minMaxLogSize <= MaxLogSize c) ∧ MaxLogSize c <= maxInt ∧
      ∃ d, ParseDuration (CollectionInterval c) = Ok d ∧ is_i64 d ∧ c' = setInterval d c
  | Err _ => ScriptName c = "" ∨ scripts !! ScriptName c = None ∨ (MaxLogSize c ≠ 0 ∧ MaxLogSize c < minMaxLogSize) ∨
      maxInt < MaxLogSize c ∨ is_ok (ParseDuration (CollectionInterval c)) = false
  end.
Proof.
  unfold siValidate. destruct (String.eqb_spec (ScriptName c) "") as [->|Hn]; [by left|].
  destruct (scripts !! ScriptName c) eqn:Hs; [|by right; left].
  destruct (negb (MaxLogSize c =? 0) && (MaxLogSize c <? minMaxLogSize)) eqn:Hm.
  { apply andb_true_iff in Hm as [H1%negb_true_iff%Z.eqb_neq H2%Z.ltb_lt]. tauto. }
  destruct (Z.ltb_spec maxInt (MaxLogSize c)) as [Hmax|Hmax]; [tauto|].
  destruct (ParseDuration (CollectionInterval c)) as [d|] eqn:Hd; [|cbn; tauto].
  split_and!; [done|done| |done|].
  - apply andb_false_iff in Hm as [Hm%negb_false_iff%Z.eqb_eq|Hm%Z.ltb_ge]; tauto.
  - exists d. split; [done|]. split; [by eapply ParseDuration_range | done].
Qed.

(** ** Instances *)

Definition demo_decode (s : string) : res string := Ok s.
Definition demo_newEntry (s : string) : res entry := Ok {| en_Body := s; en_Attributes := ∅ |}.
(** Up to the maximal size everything is one token, at the end of the output. *)
Definition demo_split (size : Z) (d : string) (eof : bool) : splitResult :=
  if (size <=? Z.of_nat (slen d)) && negb (String.eqb d "") then Advance (Z.to_nat size) (Some (stake (Z.to_nat size) d))
  else if eof && negb (String.eqb d "") then Advance (slen d) (Some d)
  else Advance 0 None.

Lemma demo_split_laws (c : siConfig) : 0 < MaxLogSize c → SplitLaws c (demo_split (MaxLogSize c)).
Proof.
  assert (Hne : ∀ d, d ≠ "" → (0 < slen d)%nat) by (intros [|? ?] ?; [done|simpl; lia]).
  remember (MaxLogSize c) as size eqn:Hsize. intros Hpos. split; rewrite <-?Hsize; unfold demo_split; [..|lia].
  - intros d e. by repeat case_match.
  - intros d e n tok. destruct (Z.leb_spec size (Z.of_nat (slen d))), (String.eqb d ""), e; cbn; intros; simplify_eq; lia.
  - intros d e n t. destruct (Z.leb_spec size (Z.of_nat (slen d))), (String.eqb_spec d "") as [|Hd%Hne], e; cbn; intros; simplify_eq; lia.
  - intros d n Hd. destruct (String.eqb_spec d "") as [|_]; [done|]. by destruct (size <=? Z.of_nat (slen d)).
  - intros d n Hl Hd. destruct (String.eqb_spec d "") as [|_]; [done|]. by rewrite (proj2 (Z.leb_le _ _)) by lia.
Qed.
#[local] Instance demo_default_laws : SplitLaws siDefaultConfig (demo_split 1048576) := demo_split_laws siDefaultConfig eq_refl.

(** The script exits with an error, and is waited for, before the tick. *)
Definition demo_failing : siState :=
  setWatch Watched false true true (setProc (Reaped false) "" (setProc (Exited false) "" (beginCycle "" [] 1))).

Lemma demo_failing_reachable : reachable demo_decode demo_newEntry siDefaultConfig (demo_split 1048576) demo_failing.
Proof.
  exists "". eapply rtc_l; [apply step_inner, (exit_failed _ _ _ _ _ 0); reflexivity|].
  eapply rtc_l; [apply step_inner, (reap _ _ _ _ _ false); reflexivity|].
  eapply rtc_l; [apply step_inner, (wait_failed _ _ _ _ _ false); try reflexivity; by left|]. apply rtc_refl.
Qed.

Lemma failed_script_blocks_witness :
  ∃ s', rtc (step demo_decode demo_newEntry siDefaultConfig (demo_split 1048576)) demo_failing s' ∧
    looping s' = WaitingGroup ∧ cycles s' = 1%nat ∧ wg s' ≠ 0%nat.
Proof.
  assert (Hs : rtc (step demo_decode demo_newEntry siDefaultConfig (demo_split 1048576)) demo_failing (setLoop WaitingGroup true false demo_failing)).
  { eapply rtc_l; [apply step_tick; reflexivity|]. apply rtc_refl. }
  eexists. split; [exact Hs|]. split; [done|].
  destruct (failed_script_blocks demo_decode demo_newEntry siDefaultConfig (demo_split 1048576) demo_failing _ demo_failing_reachable eq_refl eq_refl eq_refl Hs) as (Hc & _ & Hw).
  by split.
Defined.

(** A cycle that has ended: the reader took the output as one token after the
    pipe was closed, and its context was cancelled by then. *)
Definition demo_ended : siState :=
  {| proc := Reaped true; unread := ""; watch := Watched; done := false; waitClosed := true; isRunning := false; ctxDone := false;
     closing := Ended; writerClosed := true; readerCancelled := true; reading := false; atEOF := true; buffered := "";
     taken := [("cpu 3", Some "cpu 3")]; written := [(true, {| en_Body := "cpu 3"; en_Attributes := ∅ |})];
     looping := Cycling; cycles := 1; stopped := false |}.

(** One step of a concrete run, the reached state evaluated. *)
Ltac demo_next tac :=
  eapply rtc_l; [tac|]; match goal with |- rtc ?R ?s ?t => let s' := eval lazy in s in change (rtc R s' t) end.

Lemma demo_run : rtc (inner demo_decode demo_newEntry siDefaultConfig (demo_split 1048576)) (beginCycle "cpu 3" [] 1) demo_ended.
Proof.
  assert (Hsize : ∀ n, (n < 10)%nat → (n < Z.to_nat (MaxLogSize siDefaultConfig))%nat) by (intros; change (MaxLogSize _) with 1048576; lia).
  demo_next ltac:(apply (scan_read _ _ _ _ _ 0 5); [done|by split; [|left]|apply Hsize; vm_compute; lia|cbn; lia|apply Nat.lt_le_incl, Hsize; vm_compute; lia]).
  demo_next ltac:(by apply exit_ok). demo_next ltac:(by eapply reap). demo_next ltac:(by apply wait_ok).
  demo_next ltac:(by apply watch_returns). demo_next ltac:(by apply select_done). demo_next ltac:(by apply close_pipe).
  demo_next ltac:(by apply cancel_reader).
  demo_next ltac:(apply (scan_eof _ _ _ _ _ 0); [done|split; [done|by right]|apply Hsize; vm_compute; lia|done|done]).
  demo_next ltac:(apply (scan_token _ _ _ _ _ 5 "cpu 3"); [done|by left|done]).
  demo_next ltac:(apply (scan_end _ _ _ _ _ 0); done). apply rtc_refl.
Qed.

Lemma cycle_completes_witness :
  Acc (λ a b, inner demo_decode demo_newEntry siDefaultConfig (demo_split 1048576) b a) demo_ended ∧
  ((∀ s', ¬ inner demo_decode demo_newEntry siDefaultConfig (demo_split 1048576) demo_ended s') →
    wg demo_ended = 0%nat ∧ isRunning demo_ended = false ∧ Join (map fst (taken demo_ended)) "" = "cpu 3" ∧
    map snd (written demo_ended) = [] ++ tokens demo_decode demo_newEntry siDefaultConfig (taken demo_ended)).
Proof.
  apply (cycle_completes demo_decode demo_newEntry siDefaultConfig (demo_split 1048576) "cpu 3" [] 1 demo_ended demo_run).
  by split.
Defined.
