(* ===== verification/HTTPSink.v ===== *)
(** * The HTTP sink exporter

    [src/internal/exporter/httpsinkexporter]: the options of a request
    ([options.go]), the filters and the loop that answers it ([client.go],
    [metrics.go]), and the sinks that exporters share ([sink.go],
    [httpsink_exporter.go]).  The marshalers are parameters; what the select of
    the loop receives is the list of events it is given. *)

From S2P Require Import Prelude GoStrings GoValue Settings Telemetry.
From Stdlib Require Import Ascii.
#[local] Open Scope Z_scope.

(** ** options.go *)

Inductive dataType := typeSpans | typeMetrics.
#[global] Instance dataType_eq_dec : EqDecision dataType.
Proof. solve_decision. Defined.
Record options := { o_attrs : gmap string string; o_names : list string; o_dataType : dataType; o_count : Z; o_timeout : Z }.

Definition second : Z := 1000000000.

Fixpoint parseAttrs (attrs : gmap string string) (l : list string) : res (gmap string string) :=
  match l with
  | [] => Ok attrs
  | a :: l =>
      match SplitN2 a "=" with
      | [k; v] => parseAttrs (<[k := v]> attrs) l
      | _ => Err (Errorf "attr query string parameter is not formatted correctly" [])
      end
  end.
(** [strconv.Atoi] of the first value of a parameter, if it is given. *)
Definition intParam (q : gmap string (list string)) (name : string) (dflt : Z) : res Z :=
  match q !! name with
  | Some (v :: _) => match ParseInt64 v with Some n => Ok n | None => Err (Errorf "strconv.Atoi: parsing %q" [v]) end
  | Some [] => Err (Errorf "panic: index out of range [0] with length 0" [])
  | None => Ok dflt
  end.
Definition parseOptions (path : string) (q : gmap string (list string)) : res options :=
  dt ← (if String.eqb path "/metrics" then Ok typeMetrics
        else if String.eqb path "/spans" then Ok typeSpans
        else Err (Errorf "unsupported data-type. only metrics and spans are supported" []));
  attrs ← parseAttrs ∅ (default [] (q !! "attr"));
  timeout ← intParam q "timeout" 10;
  count ← intParam q "count" 1;
  Ok {| o_attrs := attrs; o_names := default [] (q !! "name"); o_dataType := dt; o_count := count; o_timeout := wrap64 (second * timeout) |}.

(** ** client.go, metrics.go *)

Section client.
Context `{MapRange} (AsString : any → string).

Definition filterByName (opts : options) (name : string) : bool :=
  if (length (o_names opts) =? 0)%nat then true else existsb (String.eqb name) (o_names opts).

(** A data point has one of the attributes. *)
Definition pointMatches (attrs : gmap string string) (dp : gmap string any) : bool :=
  existsb (λ kv, match dp !! kv.1 with Some val => String.eqb (AsString val) kv.2 | None => false end) (range attrs).
Definition filterMetricByAttr (points : list (gmap string any)) (attrs : gmap string string) : bool :=
  if (size attrs =? 0)%nat then true else existsb (pointMatches attrs) points.

Definition filterMetricByAttrs (opts : options) (m : metric) : bool :=
  if (size (o_attrs opts) =? 0)%nat then true
  else match m_Data m with
       | MGauge dps => filterMetricByAttr (map n_Attrs dps) (o_attrs opts)
       | MSum _ _ dps => filterMetricByAttr (map n_Attrs dps) (o_attrs opts)
       | MHistogram _ dps => filterMetricByAttr (map h_Attrs dps) (o_attrs opts)
       | MExpHistogram _ dps => filterMetricByAttr (map e_Attrs dps) (o_attrs opts)
       | MSummary dps => filterMetricByAttr (map s_Attrs dps) (o_attrs opts)
       | _ => false
       end.

Definition keepMetric (opts : options) (m : metric) : bool := filterByName opts (m_Name m) || filterMetricByAttrs opts m.
Definition filterScope (opts : options) (sm : scopeMetrics) : scopeMetrics :=
  {| sm_Name := sm_Name sm; sm_Version := sm_Version sm; sm_Metrics := List.filter (keepMetric opts) (sm_Metrics sm) |}.
Definition filterMetrics (opts : options) (md : list resourceMetrics) : list resourceMetrics :=
  map (λ rm, {| rm_Attrs := rm_Attrs rm; rm_Scopes := map (filterScope opts) (rm_Scopes rm) |}) md.
Definition MetricCount (md : list resourceMetrics) : Z :=
  Z.of_nat (length (flat_map (λ rm, flat_map sm_Metrics (rm_Scopes rm)) md)).

(** A span of a batch: its operation name and what marshaling it gives. *)
Record jspan := { OperationName : string; js_json : res string }.
Definition filterSpans (opts : options) (b : list jspan) : list jspan := List.filter (λ s, filterByName opts (OperationName s)) b.

Context (MarshalMetrics : list resourceMetrics → res string).

Inductive event := EvSpans (b : list jspan) | EvMetrics (md : list resourceMetrics) | EvTimeout | EvCancelled | EvDone.
Record progress := { results : list string; received : Z; doneClosed : bool }.
(** The loop goes on, the function returns, or the process panics. *)
Inductive outcome := Continue (p : progress) | Return (r : res string) | Panic.

Definition closeDone (p : progress) : outcome :=
  if doneClosed p then Panic else Continue {| results := results p; received := received p; doneClosed := true |}.

Fixpoint addSpans (opts : options) (p : progress) (l : list jspan) : outcome :=
  match l with
  | [] => Continue p
  | s :: l =>
      match js_json s with
      | Err e => Return (Err e)
      | Ok json =>
          let p := {| results := results p ++ [json]; received := received p + 1; doneClosed := doneClosed p |} in
          if received p =? o_count opts then
            match closeDone p with Continue p => addSpans opts p l | r => r end
          else addSpans opts p l
      end
  end.

Definition addMetricsBatch (opts : options) (p : progress) (md : list resourceMetrics) : outcome :=
  let md := filterMetrics opts md in
  let count := MetricCount md in
  let finish p := if o_count opts <=? received p then closeDone p else Continue p in
  if 0 <? count then
    match MarshalMetrics md with
    | Err e => Return (Err e)
    | Ok json => finish {| results := results p ++ [json]; received := received p + count; doneClosed := doneClosed p |}
    end
  else finish p.

Definition onEvent (opts : options) (p : progress) (e : event) : outcome :=
  match e with
  | EvSpans b => addSpans opts p (filterSpans opts b)
  | EvMetrics md => addMetricsBatch opts p md
  | EvTimeout => Return (Err (Errorf "timed out while waiting for results" []))
  | EvCancelled => Return (Err (Errorf "context deadline exceeded" []))
  | EvDone => if doneClosed p then Return (Ok ("[" +:+ Join (results p) "," +:+ "]")) else Continue p
  end.

Fixpoint respond (opts : options) (p : progress) (l : list event) : outcome :=
  match l with
  | [] => Continue p
  | e :: l => match onEvent opts p e with Continue p => respond opts p l | r => r end
  end.
Definition response (opts : options) : list event → outcome := respond opts {| results := []; received := 0; doneClosed := false |}.
End client.

(** ** sink.go, httpsink_exporter.go *)

(** The clients of a sink, by identity; whether its server was started, and
    whether it serves. *)
Record client := { cl_id : nat; cl_type : dataType; cl_stopped : bool }.
Record sink := { sk_clients : list client; sk_once : bool; sk_serving : bool }.
Definition emptySink : sink := {| sk_clients := []; sk_once := false; sk_serving := false |}.

Definition newSink (sinks : gmap string sink) (endpoint : string) : gmap string sink :=
  match sinks !! endpoint with Some _ => sinks | None => <[endpoint := emptySink]> sinks end.
Definition sink_start (s : sink) : sink :=
  if sk_once s then s else {| sk_clients := sk_clients s; sk_once := true; sk_serving := true |}.
Definition sink_shutdown (s : sink) : sink := {| sk_clients := sk_clients s; sk_once := sk_once s; sk_serving := false |}.
Definition clients (s : sink) (dt : dataType) : list client := List.filter (λ c, bool_decide (cl_type c = dt)) (sk_clients s).
Definition addClient (c : client) (s : sink) : sink := {| sk_clients := sk_clients s ++ [c]; sk_once := sk_once s; sk_serving := sk_serving s |}.
Fixpoint removeFirst (id : nat) (l : list client) : list client :=
  match l with
  | [] => []
  | c :: l => if (cl_id c =? id)%nat then l else c :: removeFirst id l
  end.
Definition removeClient (id : nat) (s : sink) : sink := {| sk_clients := removeFirst id (sk_clients s); sk_once := sk_once s; sk_serving := sk_serving s |}.
(** Who gets a batch of this type. *)
Definition fanOut (s : sink) (dt : dataType) : list nat := map cl_id (List.filter (λ c, negb (cl_stopped c)) (clients s dt)).

(** ** What a request gets *)

Section answers.
Context `{MapRange} (AsString : any → string) (MarshalMetrics : list resourceMetrics → res string).

Definition metricPoints (m : metric) : list (gmap string any) :=
  match m_Data m with
  | MEmpty => []
  | MGauge dps | MSum _ _ dps => map n_Attrs dps
  | MHistogram _ dps => map h_Attrs dps
  | MExpHistogram _ dps => map e_Attrs dps
  | MSummary dps => map s_Attrs dps
  end.

Lemma pointMatches_spec attrs dp :
  pointMatches AsString attrs dp = true ↔ ∃ k v val, attrs !! k = Some v ∧ dp !! k = Some val ∧ AsString val = v.
Proof.
  unfold pointMatches. rewrite existsb_elem. split.
  - intros ([k v] & Hkv%elem_of_range & Hm). cbn in Hm. destruct (dp !! k) as [val|] eqn:Hd; [|done]. apply String.eqb_eq in Hm. by exists k, v, val.
  - intros (k & v & val & Hkv & Hd & Hs). exists (k, v). rewrite elem_of_range. split; [done|]. cbn. rewrite Hd. by apply String.eqb_eq.
Qed.

(** A metric is kept when its name is listed or one of its points has a listed
    attribute, and always when names or attributes are not given: the names
    alone, or the attributes alone, restrict nothing. *)
Theorem keepMetric_correct (opts : options) (m : metric) :
  keepMetric AsString opts m = true ↔
  o_names opts = [] ∨ m_Name m ∈ o_names opts ∨ o_attrs opts = ∅ ∨
  ∃ dp k v val, dp ∈ metricPoints m ∧ o_attrs opts !! k = Some v ∧ dp !! k = Some val ∧ AsString val = v.
Proof.
  unfold keepMetric. rewrite orb_true_iff.
  assert (Hn : filterByName opts (m_Name m) = true ↔ o_names opts = [] ∨ m_Name m ∈ o_names opts).
  { unfold filterByName. destruct (Nat.eqb_spec (length (o_names opts)) 0) as [Hl|Hl].
    - apply nil_length_inv in Hl. rewrite Hl. tauto.
    - rewrite existsb_elem. split.
      + intros (x & Hx & ->%String.eqb_eq). by right.
      + intros [Hnil|Hin]; [by rewrite Hnil in Hl|]. exists (m_Name m). split; [done|]. apply String.eqb_refl. }
  assert (Ha : filterMetricByAttrs AsString opts m = true ↔ o_attrs opts = ∅ ∨
    ∃ dp k v val, dp ∈ metricPoints m ∧ o_attrs opts !! k = Some v ∧ dp !! k = Some val ∧ AsString val = v).
  { assert (Hp : filterMetricByAttrs AsString opts m = if (size (o_attrs opts) =? 0)%nat then true else existsb (pointMatches AsString (o_attrs opts)) (metricPoints m)).
    { unfold filterMetricByAttrs, filterMetricByAttr, metricPoints. destruct (_ =? 0)%nat; [done|]. by destruct (m_Data m). }
    rewrite Hp. destruct (Nat.eqb_spec (size (o_attrs opts)) 0) as [Hs|Hs].
    - apply map_size_empty_inv in Hs. tauto.
    - rewrite existsb_elem. setoid_rewrite pointMatches_spec. split; [|intros [He|Hx]].
      + intros (dp & Hd & k & v & val & Hr). right. by exists dp, k, v, val.
      + by rewrite He, map_size_empty in Hs.
      + destruct Hx as (dp & k & v & val & Hd & Hr). by exists dp; split; [|exists k, v, val]. }
  rewrite Hn, Ha. tauto.
Qed.

(** What the events give: the marshaled matching spans and batches of metrics,
    and how many spans and metrics these are. *)
Definition eventResults (opts : options) (e : event) : list string :=
  match e with
  | EvSpans b => flat_map (λ s, match js_json s with Ok j => [j] | Err _ => [] end) (filterSpans opts b)
  | EvMetrics md =>
      let md := filterMetrics AsString opts md in
      if 0 <? MetricCount md then match MarshalMetrics md with Ok j => [j] | Err _ => [] end else []
  | _ => []
  end.
Definition eventCount (opts : options) (e : event) : Z :=
  match e with
  | EvSpans b => Z.of_nat (length (filterSpans opts b))
  | EvMetrics md => MetricCount (filterMetrics AsString opts md)
  | _ => 0
  end.
Definition total (opts : options) (l : list event) : Z := foldr (λ e n, eventCount opts e + n) 0 l.

Definition consistent (opts : options) (p : progress) : Prop := doneClosed p = true → o_count opts <= received p.

Lemma closeDone_continue p p' : closeDone p = Continue p' → results p' = results p ∧ received p' = received p.
Proof. unfold closeDone. destruct (doneClosed p); [done|]. by intros [= <-]. Qed.

Lemma addSpans_continue opts l : ∀ p p', addSpans opts p l = Continue p' → consistent opts p →
  results p' = results p ++ flat_map (λ s, match js_json s with Ok j => [j] | Err _ => [] end) l ∧
  received p' = received p + Z.of_nat (length l) ∧ consistent opts p'.
Proof.
  induction l as [|s l IH]; intros p p'; cbn [addSpans flat_map length].
  { intros [= <-] Hc. rewrite app_nil_r. split_and!; [done | lia | done]. }
  destruct (js_json s) as [j|e]; [|done]. cbn [received].
  set (p1 := {| results := results p ++ [j]; received := received p + 1; doneClosed := doneClosed p |}). intros Hs Hc.
  assert (Hgo : ∃ q, addSpans opts q l = Continue p' ∧ results q = results p ++ [j] ∧ received q = received p + 1 ∧ consistent opts q).
  { destruct (Z.eqb_spec (received p + 1) (o_count opts)) as [He|He].
    - destruct (closeDone p1) as [q| |] eqn:Hq; [|done|done]. exists q. destruct (closeDone_continue _ _ Hq) as [Hq1 Hq2].
      split_and!; [done..|]. intros _. rewrite Hq2. cbn. lia.
    - exists p1. split_and!; [done..|]. intros Hd. specialize (Hc Hd). cbn. lia. }
  destruct Hgo as (q & Hq & Hq1 & Hq2 & Hcq). apply IH in Hq as (H1 & H2 & H3); [|done].
  rewrite H1, Hq1, H2, Hq2, <-app_assoc. split_and!; [done | lia | done].
Qed.

Lemma MetricCount_nonneg md : 0 <= MetricCount md.
Proof. unfold MetricCount. lia. Qed.

Lemma onEvent_continue opts p p' e : onEvent AsString MarshalMetrics opts p e = Continue p' → consistent opts p →
  results p' = results p ++ eventResults opts e ∧ received p' = received p + eventCount opts e ∧ consistent opts p'.
Proof.
  destruct e as [b|md| | |]; cbn [onEvent eventResults eventCount]; try done.
  - intros Hs Hc. by apply addSpans_continue.
  - unfold addMetricsBatch. pose proof (MetricCount_nonneg (filterMetrics AsString opts md)) as Hnn. intros Hs Hc.
    assert (Hf : ∀ q, (if o_count opts <=? received q then closeDone q else Continue q) = Continue p' → consistent opts q →
      results p' = results q ∧ received p' = received q ∧ consistent opts p').
    { intros q Hq Hcq. destruct (Z.leb_spec (o_count opts) (received q)) as [Hle|Hle].
      - destruct (closeDone_continue _ _ Hq) as [-> Hr]. split_and!; [done..|]. intros _. by rewrite Hr.
      - by injection Hq as <-. }
    destruct (Z.ltb_spec 0 (MetricCount (filterMetrics AsString opts md))) as [Hpos|Hpos].
    + destruct (MarshalMetrics _) as [j|]; [|done]. apply Hf in Hs as (-> & -> & Hcp); [done|].
      intros Hd. specialize (Hc Hd). cbn. lia.
    + apply Hf in Hs as (-> & -> & Hcp); [|done]. rewrite app_nil_r. split_and!; [done | lia | done].
  - destruct (doneClosed p) eqn:Hd; [done|]. intros [= <-] Hc. rewrite app_nil_r. split_and!; [done | lia | done].
Qed.

(** An answer holds everything that matched before the loop noticed that it is
    done, in the order it came, and that is at least as much as was asked for. *)
Theorem response_correct (opts : options) (l : list event) (body : string) :
  response AsString MarshalMetrics opts l = Return (Ok body) →
  ∃ l1 l2, l = l1 ++ EvDone :: l2 ∧ body = "[" +:+ Join (flat_map (eventResults opts) l1) "," +:+ "]" ∧ o_count opts <= total opts l1.
Proof.
  unfold response. assert (Hg : ∀ l p, consistent opts p → respond AsString MarshalMetrics opts p l = Return (Ok body) →
    ∃ l1 l2, l = l1 ++ EvDone :: l2 ∧ body = "[" +:+ Join (results p ++ flat_map (eventResults opts) l1) "," +:+ "]" ∧ o_count opts <= received p + total opts l1).
  { clear l. induction l as [|e l IH]; intros p Hc; cbn [respond]; [done|].
    destruct (onEvent AsString MarshalMetrics opts p e) as [p'|r|] eqn:He; [|intros [= ->]|done].
    - intros Hr. apply onEvent_continue in He as (H1 & H2 & H3); [|done]. apply IH in Hr as (l1 & l2 & -> & -> & Hcount); [|done].
      exists (e :: l1), l2. split; [done|]. cbn [flat_map total foldr]. rewrite H1, H2, <-app_assoc in *. split; [done|]. unfold total in Hcount. lia.
    - destruct e as [b|md| | |]; cbn [onEvent] in He; try done.
      + exfalso. clear -He. revert p He. induction (filterSpans opts b) as [|s sp IHs]; intros p; cbn [addSpans]; [done|].
        destruct (js_json s); [|done]. destruct (_ =? _); [|apply IHs]. unfold closeDone. cbn. destruct (doneClosed p); [done|]. apply IHs.
      + exfalso. clear -He. revert He. unfold addMetricsBatch, closeDone. cbn. repeat case_match; done.
      + destruct (doneClosed p) eqn:Hd; [|done]. injection He as <-. exists [], l. cbn. rewrite app_nil_r. split_and!; [done..|].
        specialize (Hc Hd). lia. }
  intros Hr. apply Hg in Hr; [done|]. by intros [=].
Qed.

(** A batch of metrics that arrives after enough were received, before the
    select notices the closed channel, closes it again. *)
Theorem second_batch_panics (opts : options) (md1 md2 : list resourceMetrics) (j1 : string) (l : list event) :
  let n1 := MetricCount (filterMetrics AsString opts md1) in
  0 < n1 → o_count opts <= n1 → MarshalMetrics (filterMetrics AsString opts md1) = Ok j1 → is_ok (MarshalMetrics (filterMetrics AsString opts md2)) = true →
  response AsString MarshalMetrics opts (EvMetrics md1 :: EvMetrics md2 :: l) = Panic.
Proof.
  intros n1 Hpos Hc Hj Hj2. unfold response. cbn [respond onEvent]. unfold addMetricsBatch at 1. fold n1.
  rewrite (proj2 (Z.ltb_lt _ _) Hpos), Hj. cbn [received]. rewrite (proj2 (Z.leb_le _ _)) by lia. cbn [closeDone doneClosed].
  unfold addMetricsBatch. cbn [results received doneClosed].
  pose proof (MetricCount_nonneg (filterMetrics AsString opts md2)) as Hnn.
  destruct (Z.ltb_spec 0 (MetricCount (filterMetrics AsString opts md2))).
  - destruct (MarshalMetrics (filterMetrics AsString opts md2)); [|done]. rewrite (proj2 (Z.leb_le _ _)) by (cbn; lia). done.
  - rewrite (proj2 (Z.leb_le _ _)) by lia. done.
Qed.
End answers.

(** A sink that was shut down is found again for its endpoint, and does not
    serve again however often it is started. *)
Theorem sink_not_restarted (sinks : gmap string sink) (endpoint : string) (s : sink) (n : nat) :
  sinks !! endpoint = Some s → sk_once s = true →
  newSink sinks endpoint = sinks ∧ sk_serving (Nat.iter n sink_start (sink_shutdown s)) = false.
Proof.
  intros Hs Ho. split; [unfold newSink; by rewrite Hs|].
  assert (Hi : Nat.iter n sink_start (sink_shutdown s) = sink_shutdown s); [|by rewrite Hi].
  induction n as [|n IH]; [done|]. rewrite Nat.iter_succ, IH. unfold sink_start. cbn. by rewrite Ho.
Qed.

(** ** Instances *)

Definition demo_AsString (v : any) : string := match v with AString s => s | _ => "" end.
Definition demo_marshal (md : list resourceMetrics) : res string := Ok "{}".
Definition demo_opts : options := {| o_attrs := ∅; o_names := ["up"]; o_dataType := typeMetrics; o_count := 1; o_timeout := 10 * second |}.
Definition demo_batch : list resourceMetrics :=
  [{| rm_Attrs := ∅; rm_Scopes := [{| sm_Name := ""; sm_Version := ""; sm_Metrics := [{| m_Name := "up"; m_Description := ""; m_Data := MEmpty |}] |}] |}].

Lemma response_correct_witness :
  ∃ l1 l2, [EvMetrics demo_batch; EvDone] = l1 ++ EvDone :: l2 ∧ 1 <= @total forward_range demo_AsString demo_opts l1.
Proof.
  destruct (@response_correct forward_range demo_AsString demo_marshal demo_opts [EvMetrics demo_batch; EvDone] "[{}]" ltac:(vm_compute; reflexivity))
    as (l1 & l2 & Hl & _ & Hc). by exists l1, l2.
Defined.

Lemma second_batch_panics_witness :
  @response forward_range demo_AsString demo_marshal demo_opts [EvMetrics demo_batch; EvMetrics demo_batch; EvDone] = Panic.
Proof. apply (@second_batch_panics forward_range demo_AsString demo_marshal demo_opts demo_batch demo_batch "{}"); vm_compute; done. Defined.

Lemma sink_not_restarted_witness :
  sk_serving (Nat.iter 2 sink_start (sink_shutdown (sink_start emptySink))) = false.
Proof. apply (sink_not_restarted {["localhost:8378" := sink_start emptySink]} "localhost:8378"); [by rewrite lookup_singleton_eq | done]. Defined.
