(* ===== verification/HostMonitors.v ===== *)
(** * Host monitors: cpu, net-io and filesystems

    [src/internal/signalfx-agent/pkg/monitors/{cpu/cpu.go,netio/netio.go,
    filesystems/filesystems.go}]: the states these monitors keep between rounds
    and the data points of a round.  What gopsutil reads from the host is an
    input; binary64 arithmetic is that of [SpecFloat], counters are unsigned
    64-bit numbers. *)

From S2P Require Import Prelude GoStrings GoValue Settings Telemetry Filters SmartAgent.
From Stdlib Require Import Ascii.
#[local] Open Scope Z_scope.

Definition fadd : float64 → float64 → float64 := SFadd 53 1024.
Definition fsub : float64 → float64 → float64 := SFsub 53 1024.
Definition fmul : float64 → float64 → float64 := SFmul 53 1024.
Definition fdiv : float64 → float64 → float64 := SFdiv 53 1024.
Definition fzero : float64 := S754_zero false.
Definition hundred : float64 := float_of_Z 100.

Definition mkDatapoint (name : string) (t : sfxMetricType) (v : sfxValue) (dims : gmap string string) : sfxDatapoint :=
  {| sd_Metric := name; sd_Type := t; sd_Value := v; sd_Time := None; sd_Dimensions := dims; sd_Meta := ∅ |}.
Definition CumulativeF (name : string) (f : float64) : sfxDatapoint := mkDatapoint name Counter (FloatValue f) ∅.

(** [strings.ReplaceAll] with a non-empty old text; [skip] bytes belong to the
    occurrence just replaced. *)
Fixpoint replaceFrom (old new : string) (skip : nat) (s : string) : string :=
  match s with
  | EmptyString => ""
  | String c t =>
      match skip with
      | S k => replaceFrom old new k t
      | O => if HasPrefix s old then new +:+ replaceFrom old new (slen old - 1) t else String c (replaceFrom old new 0 t)
      end
  end.
Definition ReplaceAll (s old new : string) : string := replaceFrom old new 0 s.

(** ** cpu *)

Record TimesStat := {
  t_CPU : string; t_User : float64; t_System : float64; t_Idle : float64; t_Nice : float64;
  t_Iowait : float64; t_Irq : float64; t_Softirq : float64; t_Steal : float64;
}.
Record totalUsed := { Total : float64; Used : float64 }.
Record cpuMonitor := { previousPerCore : gmap string totalUsed; previousTotal : option totalUsed }.

Definition cpuTimeStatTototalUsed (t : TimesStat) : totalUsed :=
  let total := fadd (fadd (fadd (fadd (fadd (fadd (fadd (t_User t) (t_System t)) (t_Idle t)) (t_Nice t)) (t_Iowait t)) (t_Irq t)) (t_Softirq t)) (t_Steal t) in
  {| Total := total; Used := fsub total (t_Idle t) |}.

Definition makeSecondaryDatapoints (t : TimesStat) : list sfxDatapoint :=
  [CumulativeF "cpu.idle" (t_Idle t); CumulativeF "cpu.nice" (t_Nice t); CumulativeF "cpu.softirq" (t_Softirq t);
   CumulativeF "cpu.interrupt" (t_Irq t); CumulativeF "cpu.steal" (t_Steal t); CumulativeF "cpu.system" (t_System t);
   CumulativeF "cpu.user" (t_User t); CumulativeF "cpu.wait" (t_Iowait t)].

Definition getUtilization (prev current : totalUsed) : res float64 :=
  if SFeqb (Total prev) fzero then Err (Errorf "prev.Total == 0 will skip until previous Total is > 0" [])
  else
    let usedDiff := fsub (Used current) (Used prev) in
    let totalDiff := fsub (Total current) (Total prev) in
    if SFltb usedDiff fzero then Err (Errorf "usedDiff < 0" [])
    else if SFltb totalDiff fzero then Err (Errorf "totalDiff < 0" [])
    else if SFeqb usedDiff fzero && SFeqb totalDiff fzero || SFeqb totalDiff fzero then Ok fzero
    else
      let utilization := fmul (fdiv usedDiff totalDiff) hundred in
      if SFltb utilization fzero then Err (Errorf "percent %v < 0 total: %v used: %v" [])
      else if SFltb hundred utilization then Ok hundred
      else Ok utilization.

(** A round for the whole host; [total] is what was read, if anything, and
    [counts] the number of processors. *)
Definition generateDatapoints (total : option TimesStat) (counts : option Z) (m : cpuMonitor) : list sfxDatapoint * cpuMonitor :=
  match total with
  | None => ([], m)
  | Some t =>
      let current := cpuTimeStatTototalUsed t in
      let next := {| previousPerCore := previousPerCore m; previousTotal := Some current |} in
      let num := match counts with Some n => [mkDatapoint "cpu.num_processors" Gauge (IntValue n) ∅] | None => [] end in
      match previousTotal m with
      | Some prev =>
          match getUtilization prev current with
          | Err _ => ([], m)
          | Ok u => (makeSecondaryDatapoints t ++ [mkDatapoint "cpu.utilization" Gauge (FloatValue u) ∅] ++ num, next)
          end
      | None => (makeSecondaryDatapoints t ++ num, next)
      end
  end.

Definition withCPU (cpu : string) (d : sfxDatapoint) : sfxDatapoint :=
  {| sd_Metric := sd_Metric d; sd_Type := sd_Type d; sd_Value := sd_Value d; sd_Time := sd_Time d;
     sd_Dimensions := MergeStringMaps (sd_Dimensions d) {["cpu" := ReplaceAll cpu "cpu" ""]}; sd_Meta := sd_Meta d |}.

Definition coreDatapoints (acc : list sfxDatapoint * cpuMonitor) (core : TimesStat) : list sfxDatapoint * cpuMonitor :=
  let '(out, m) := acc in
  let current := cpuTimeStatTototalUsed core in
  let util := match previousPerCore m !! t_CPU core with
              | Some prev => match getUtilization prev current with
                             | Ok u => [mkDatapoint "cpu.utilization_per_core" Gauge (FloatValue u) ∅]
                             | Err _ => []
                             end
              | None => []
              end in
  (out ++ map (withCPU (t_CPU core)) (makeSecondaryDatapoints core ++ util),
   {| previousPerCore := <[t_CPU core := current]> (previousPerCore m); previousTotal := previousTotal m |}).
Definition generatePerCoreDatapoints (totals : list TimesStat) (m : cpuMonitor) : list sfxDatapoint * cpuMonitor :=
  foldl coreDatapoints ([], m) totals.

Definition initializeCPUTimes (total : option TimesStat) (m : cpuMonitor) : cpuMonitor :=
  match total with
  | Some t => {| previousPerCore := previousPerCore m; previousTotal := Some (cpuTimeStatTototalUsed t) |}
  | None => m
  end.
Definition initializePerCoreCPUTimes (totals : list TimesStat) (m : cpuMonitor) : cpuMonitor :=
  {| previousPerCore := foldl (λ p t, <[t_CPU t := cpuTimeStatTototalUsed t]> p) ∅ totals; previousTotal := previousTotal m |}.

(** ** net-io *)

Record IOCountersStat := {
  io_Name : string; BytesSent : Z; BytesRecv : Z; PacketsSent : Z; PacketsRecv : Z; Errin : Z; Errout : Z; Dropin : Z; Dropout : Z;
}.
Record netio := { io_sent : Z; io_recv : Z }.
Record netMonitor := { networkTotal : Z; previousInterfaceStats : gmap string netio }.

(** What a counter adds to the total: its growth, or all of it after a reset. *)
Definition growth (prev : option Z) (cur : Z) : Z :=
  match prev with Some p => if p <=? cur then u64 (cur - p) else cur | None => cur end.
Definition updateTotals (iface : string) (i : IOCountersStat) (m : netMonitor) : netMonitor :=
  let prev := previousInterfaceStats m !! iface in
  let t := u64 (networkTotal m + growth (io_recv <$> prev) (BytesRecv i)) in
  let t := u64 (t + growth (io_sent <$> prev) (BytesSent i)) in
  {| networkTotal := t; previousInterfaceStats := <[iface := {| io_sent := BytesSent i; io_recv := BytesRecv i |}]> (previousInterfaceStats m) |}.

Section filtered.
Context `{PatternEngine}.

Definition counterPoints (ifaceName : string) (i : IOCountersStat) : list sfxDatapoint :=
  let dims : gmap string string := {["interface" := ifaceName]} in
  let p name z := mkDatapoint name Counter (IntValue (wrap64 z)) dims in
  [p "if_errors.rx" (Errin i); p "if_errors.tx" (Errout i); p "if_octets.rx" (BytesRecv i); p "if_octets.tx" (BytesSent i);
   p "if_packets.rx" (PacketsRecv i); p "if_packets.tx" (PacketsSent i); p "if_dropped.rx" (Dropin i); p "if_dropped.tx" (Dropout i)].

Definition emitInterface (filter : BasicStringFilter) (acc : list sfxDatapoint * netMonitor) (i : IOCountersStat) : list sfxDatapoint * netMonitor :=
  if OverridableStringFilter_Matches filter (io_Name i) then
    let ifaceName := ReplaceByte (io_Name i) " " "_" in
    (acc.1 ++ counterPoints ifaceName i, updateTotals ifaceName i acc.2)
  else acc.
Definition EmitDatapoints (filter : BasicStringFilter) (info : option (list IOCountersStat)) (m : netMonitor) : list sfxDatapoint * netMonitor :=
  match info with
  | None => ([], m)
  | Some info =>
      let '(dps, m) := foldl (emitInterface filter) ([], m) info in
      (dps ++ [mkDatapoint "network.total" Counter (IntValue (wrap64 (networkTotal m))) ∅], m)
  end.

(** The filter that [Configure] builds. *)
Definition interfaceFilter (interfaces : list string) : res BasicStringFilter :=
  NewOverridableStringFilter (if (length interfaces =? 0)%nat then ["*"] else interfaces).
End filtered.

(** ** filesystems *)

Record PartitionStat := { pt_Device : string; pt_Mountpoint : string; pt_Fstype : string; pt_Opts : list string }.
Record UsageStat := {
  du_Total : Z; du_Free : Z; du_Used : Z; du_UsedPercent : float64; du_InodesFree : Z; du_InodesUsed : Z; du_InodesUsedPercent : float64;
}.
Record fsMonitor := { hostFSPath : string; fsTypes : option BasicStringFilter; mountPoints : option BasicStringFilter; sendModeDimension : bool }.

Definition spaceless (s : string) : string := ReplaceByte s " " "_".
Definition stripHost (hostPath mount : string) : string :=
  if String.eqb hostPath "" then mount
  else let m := ReplaceOnce mount hostPath "" in if String.eqb m "" then "/" else m.

Definition getCommonDimensions (m : fsMonitor) (p : PartitionStat) : gmap string string :=
  let dims : gmap string string :=
    <["mountpoint" := stripHost (hostFSPath m) (spaceless (pt_Mountpoint p))]> (<["device" := spaceless (pt_Device p)]> {["fs_type" := spaceless (pt_Fstype p)]}) in
  if sendModeDimension m then
    match find (λ o, String.eqb o "ro" || String.eqb o "rw") (pt_Opts p) with
    | Some mode => <["mode" := mode]> dims
    | None => dims
    end
  else dims.

Section disks.
Context `{FloatOverflow}.

Definition gauge (dims : gmap string string) (name : string) (v : sfxValue) : sfxDatapoint := mkDatapoint name Gauge v dims.
Definition reserved (d : UsageStat) : Z := u64 (du_Total d - du_Used d - du_Free d).

Definition makeInodeDatapoints (dims : gmap string string) (d : UsageStat) : list sfxDatapoint :=
  [gauge dims "df_inodes.free" (IntValue (wrap64 (du_InodesFree d))); gauge dims "df_inodes.used" (IntValue (wrap64 (du_InodesUsed d)));
   gauge dims "percent_inodes.free" (IntValue (int64_of_float (fsub hundred (du_InodesUsedPercent d))));
   gauge dims "percent_inodes.used" (IntValue (int64_of_float (du_InodesUsedPercent d)))].
Definition makeDFComplex (dims : gmap string string) (d : UsageStat) : list sfxDatapoint :=
  [gauge dims "df_complex.free" (IntValue (wrap64 (du_Free d))); gauge dims "df_complex.used" (IntValue (wrap64 (du_Used d)));
   gauge dims "df_complex.reserved" (IntValue (wrap64 (reserved d)))].
Definition makePercentBytes (dims : gmap string string) (d : UsageStat) : list sfxDatapoint :=
  [gauge dims "percent_bytes.free" (FloatValue (fsub hundred (du_UsedPercent d))); gauge dims "percent_bytes.used" (FloatValue (du_UsedPercent d));
   gauge dims "percent_bytes.reserved" (FloatValue (fmul (fdiv (float_of_Z (reserved d)) (float_of_Z (du_Total d))) hundred))].

Definition calculateUtil (used total : float64) : res float64 :=
  let percent := if SFeqb total fzero then fzero else fmul (fdiv used total) hundred in
  if SFltb percent fzero || SFltb hundred percent then Err (Errorf "percent %v total: %v used: %v" []) else Ok percent.

(** The environment of a round: usage of a mount point, and the enabled groups;
    the platform is not Windows. *)
Context (getUsage : string → string → res UsageStat) (hasGroup : string → bool).

Definition selected (m : fsMonitor) (p : PartitionStat) : bool :=
  match fsTypes m with Some f => OverridableStringFilter_Matches f (pt_Fstype p) | None => true end &&
  match mountPoints m with Some f => OverridableStringFilter_Matches f (stripHost (hostFSPath m) (pt_Mountpoint p)) | None => true end.

Definition partitionPoints (m : fsMonitor) (p : PartitionStat) (d : UsageStat) : list sfxDatapoint :=
  let dims := getCommonDimensions m p in
  gauge dims "disk.utilization" (FloatValue (du_UsedPercent d)) :: makeDFComplex dims d ++
  (if hasGroup "percentage" then makePercentBytes dims d else []) ++ (if hasGroup "inodes" then makeInodeDatapoints dims d else []).

Definition emitPartition (m : fsMonitor) (acc : list sfxDatapoint * Z * Z) (p : PartitionStat) : list sfxDatapoint * Z * Z :=
  let '(dps, used, total) := acc in
  if selected m p then
    match getUsage (hostFSPath m) (pt_Mountpoint p) with
    | Err _ => acc
    | Ok d => (dps ++ partitionPoints m p d, u64 (used + du_Used d), u64 (total + (du_Used d + du_Free d)))
    end
  else acc.

(** A round, with the partitions that were found (none on an error). *)
Definition emitFilesystems (m : fsMonitor) (partitions : list PartitionStat) (failed : bool) : option (list sfxDatapoint) :=
  if failed && (length partitions =? 0)%nat then None
  else
    let '(dps, used, total) := foldl (emitPartition m) ([], 0, 0) partitions in
    Some (dps ++ match calculateUtil (float_of_Z used) (float_of_Z total) with
                 | Ok u => [mkDatapoint "disk.summary_utilization" Gauge (FloatValue u) ∅]
                 | Err _ => []
                 end).
End disks.

(** ** Utilization *)

(** A utilization that is reported is within 0 and 100 percent. *)
Lemma getUtilization_range prev current u : getUtilization prev current = Ok u → SFltb u fzero = false ∧ SFltb hundred u = false.
Proof.
  unfold getUtilization. destruct (SFeqb (Total prev) fzero); [done|]. destruct (SFltb _ fzero) eqn:H1; [done|].
  destruct (SFltb (fsub (Total current) _) fzero); [done|]. destruct (_ || _); [by intros [= <-]|].
  destruct (SFltb (fmul _ _) fzero) eqn:H2; [done|]. destruct (SFltb hundred _) eqn:H3; intros [= <-]; done.
Qed.

(** The rounds of the monitor for the whole host. *)
Fixpoint rounds (l : list (option TimesStat * option Z)) (m : cpuMonitor) : list (list sfxDatapoint) * cpuMonitor :=
  match l with
  | [] => ([], m)
  | (t, n) :: l =>
      let '(dps, m) := generateDatapoints t n m in
      let '(out, m) := rounds l m in (dps :: out, m)
  end.

(** When the first reading adds up to nothing, the monitor never reports the
    host's times or utilization again, whatever it reads later: the reading it
    compares with is kept when the utilization cannot be computed. *)
Theorem cpu_stalls_on_zero_total (m : cpuMonitor) (prev : totalUsed) (l : list (option TimesStat * option Z)) :
  previousTotal m = Some prev → SFeqb (Total prev) fzero = true →
  (rounds l m).2 = m ∧ Forall (λ dps, dps = []) (rounds l m).1.
Proof.
  intros Hp Hz. induction l as [|[t n] l [IH1 IH2]]; [done|]. cbn [rounds].
  assert (Hg : generateDatapoints t n m = ([], m)).
  { unfold generateDatapoints. destruct t as [t|]; [|done]. rewrite Hp. unfold getUtilization. by rewrite Hz. }
  rewrite Hg. destruct (rounds l m) as [out m']. cbn in *. split; [done|]. by constructor.
Qed.

(** The comparison of a round is with the last reading whose utilization could
    be computed; what a core is compared with is always its last reading. *)
Theorem cpu_previous (m m' : cpuMonitor) (t : TimesStat) (n : option Z) (dps : list sfxDatapoint) :
  generateDatapoints (Some t) n m = (dps, m') →
  (∀ prev, previousTotal m = Some prev → is_ok (getUtilization prev (cpuTimeStatTototalUsed t)) = false → dps = [] ∧ m' = m) ∧
  (∀ prev u, previousTotal m = Some prev → getUtilization prev (cpuTimeStatTototalUsed t) = Ok u →
     mkDatapoint "cpu.utilization" Gauge (FloatValue u) ∅ ∈ dps ∧ SFltb u fzero = false ∧ SFltb hundred u = false ∧
     previousTotal m' = Some (cpuTimeStatTototalUsed t)) ∧
  (∀ l, t ∈ l → (∀ t', t' ∈ l → t_CPU t' = t_CPU t → t' = t) →
     previousPerCore (generatePerCoreDatapoints l m).2 !! t_CPU t = Some (cpuTimeStatTototalUsed t)).
Proof.
  intros Hg. split_and!.
  - intros prev Hp He. unfold generateDatapoints in Hg. rewrite Hp in Hg. destruct (getUtilization _ _); [done|]. by injection Hg as <- <-.
  - intros prev u Hp Hu. unfold generateDatapoints in Hg. rewrite Hp, Hu in Hg. injection Hg as <- <-.
    destruct (getUtilization_range _ _ _ Hu) as [H1 H2]. split_and!; [|done..].
    do 8 apply list_elem_of_further. apply list_elem_of_here.
  - intros l. unfold generatePerCoreDatapoints. generalize (@nil sfxDatapoint) as out. revert m Hg. clear.
    intros m _. revert m. induction l as [|x l IH] using rev_ind; intros m out Hin Hun; [by apply elem_of_nil in Hin|].
    rewrite foldl_app. cbn [foldl]. destruct (foldl coreDatapoints (out, m) l) as [o m1] eqn:Hf. unfold coreDatapoints. cbn.
    destruct (decide (t_CPU x = t_CPU t)) as [He|He].
    + rewrite (Hun x) by (done || apply elem_of_app; right; left). by rewrite lookup_insert_eq.
    + rewrite lookup_insert_ne by done. replace m1 with (foldl coreDatapoints (out, m) l).2 by (by rewrite Hf). apply IH.
      * apply elem_of_app in Hin as [|Hin]; [done|]. apply list_elem_of_singleton in Hin as ->. done.
      * intros t' Ht'. apply Hun. apply elem_of_app. by left.
Qed.

(** ** The network total *)

(** The bytes of all interfaces at their last readings. *)
Definition ioBytes (s : netio) : Z := io_recv s + io_sent s.
Definition sumStats (stats : gmap string netio) : Z := map_fold (λ _ s acc, ioBytes s + acc) 0 stats.

Lemma sumStats_insert stats k s : sumStats (<[k := s]> stats) = ioBytes s + sumStats (delete k stats).
Proof.
  unfold sumStats. rewrite <-insert_delete_eq, map_fold_insert_L; [done| |apply lookup_delete_eq]. intros. lia.
Qed.
Lemma sumStats_delete stats k s : stats !! k = Some s → sumStats stats = ioBytes s + sumStats (delete k stats).
Proof. intros Hk. rewrite <-(insert_id stats k s Hk) at 1. apply sumStats_insert. Qed.

(** The counters of a reading have not fallen since the last one. *)
Definition not_reset (prev : option netio) (i : IOCountersStat) : Prop :=
  is_u64 (BytesRecv i) ∧ is_u64 (BytesSent i) ∧
  match prev with Some p => 0 <= io_recv p <= BytesRecv i ∧ 0 <= io_sent p <= BytesSent i | None => True end.

Definition total_ok (m : netMonitor) : Prop := networkTotal m = u64 (sumStats (previousInterfaceStats m)).

Lemma growth_spec prev cur : is_u64 cur → match prev with Some p => 0 <= p <= cur | None => True end → growth prev cur = cur - default 0 prev.
Proof.
  intros Hc Hp. unfold growth. destruct prev as [p|]; cbn; [|lia]. rewrite (proj2 (Z.leb_le _ _)) by lia. apply u64_id. unfold is_u64 in *. lia.
Qed.

Lemma updateTotals_ok iface i m : total_ok m → not_reset (previousInterfaceStats m !! iface) i → total_ok (updateTotals iface i m).
Proof.
  intros Hm (Hr & Hs & Hp). unfold total_ok, updateTotals in *. cbn [networkTotal previousInterfaceStats].
  rewrite (growth_spec (io_recv <$> _) (BytesRecv i)) by (done || by destruct (previousInterfaceStats m !! iface); cbn; [lia|]).
  rewrite (growth_spec (io_sent <$> _) (BytesSent i)) by (done || by destruct (previousInterfaceStats m !! iface); cbn; [lia|]).
  rewrite Hm, u64_add_u64, <-Z.add_assoc, u64_add_u64, sumStats_insert. unfold ioBytes. cbn [io_recv io_sent]. f_equal.
  destruct (previousInterfaceStats m !! iface) as [p|] eqn:Hk; cbn -[sumStats u64].
  - rewrite (sumStats_delete _ _ _ Hk). unfold ioBytes. unfold id. lia.
  - rewrite delete_id by done. unfold id. lia.
Qed.

Section total.
Context `{PatternEngine}.

Fixpoint no_resets (filter : BasicStringFilter) (m : netMonitor) (info : list IOCountersStat) : Prop :=
  match info with
  | [] => True
  | i :: info =>
      if OverridableStringFilter_Matches filter (io_Name i) then
        let k := ReplaceByte (io_Name i) " " "_" in
        not_reset (previousInterfaceStats m !! k) i ∧ no_resets filter (updateTotals k i m) info
      else no_resets filter m info
  end.

(** As long as no counter is reset, the network total is the sum of the bytes
    that the selected interfaces have sent and received, modulo 2^64, and the
    last data point of a round reports it. *)
Theorem network_total_correct (filter : BasicStringFilter) (m m' : netMonitor) (info : list IOCountersStat) (dps : list sfxDatapoint) :
  total_ok m → no_resets filter m info → EmitDatapoints filter (Some info) m = (dps, m') →
  total_ok m' ∧ last dps = Some (mkDatapoint "network.total" Counter (IntValue (wrap64 (sumStats (previousInterfaceStats m')))) ∅).
Proof.
  intros Hm Hn He. unfold EmitDatapoints in He. destruct (foldl (emitInterface filter) ([], m) info) as [out m1] eqn:Hf. injection He as <- <-.
  assert (Ht : total_ok m1).
  { replace m1 with (foldl (emitInterface filter) ([], m) info).2 by (by rewrite Hf). clear Hf. generalize (@nil sfxDatapoint) as o. revert m Hm Hn.
    induction info as [|i info IH]; intros m Hm Hn o; [done|]. cbn [foldl no_resets] in *. unfold emitInterface at 2. cbn [fst snd].
    destruct (OverridableStringFilter_Matches filter (io_Name i)); [|by apply IH]. destruct Hn as [Hi Hn]. apply IH; [by apply updateTotals_ok | done]. }
  split; [done|]. rewrite last_snoc, Ht. do 3 f_equal. unfold wrap64, u64. rewrite Zplus_mod_idemp_l. done.
Qed.
End total.

(** ** Partitions *)

Section partitions.
Context `{FloatOverflow} (getUsage : string → string → res UsageStat) (hasGroup : string → bool).

(** The partitions that are reported, with their usage. *)
Definition reported (m : fsMonitor) (p : PartitionStat) : list (PartitionStat * UsageStat) :=
  if selected m p then match getUsage (hostFSPath m) (pt_Mountpoint p) with Ok d => [(p, d)] | Err _ => [] end else [].
Definition usedBytes (l : list (PartitionStat * UsageStat)) : Z := foldr (λ pd z, du_Used pd.2 + z) 0 l.
Definition totalBytes (l : list (PartitionStat * UsageStat)) : Z := foldr (λ pd z, du_Used pd.2 + du_Free pd.2 + z) 0 l.

Lemma emitPartition_fold m ps : ∀ dps u t,
  foldl (emitPartition getUsage hasGroup m) (dps, u64 u, u64 t) ps =
  (dps ++ flat_map (λ pd, partitionPoints hasGroup m pd.1 pd.2) (flat_map (reported m) ps),
   u64 (u + usedBytes (flat_map (reported m) ps)), u64 (t + totalBytes (flat_map (reported m) ps))).
Proof.
  induction ps as [|p ps IH]; intros dps u t; [cbn; by rewrite app_nil_r, !Z.add_0_r|].
  cbn [foldl flat_map]. unfold emitPartition at 2, reported at 1 3 5.
  destruct (selected m p); [|apply IH]. destruct (getUsage _ _) as [d|]; [|apply IH].
  rewrite !u64_add_u64, IH. cbn [app flat_map usedBytes totalBytes foldr fst snd]. rewrite <-app_assoc. f_equal; [f_equal|]; f_equal;
    unfold usedBytes, totalBytes; lia.
Qed.

(** A round reports the selected partitions whose usage can be read, in order,
    with the dimensions of the partition, and one summary: what all of them use
    of what is used or free, when that is within 0 and 100 percent. *)
Theorem emitFilesystems_correct (m : fsMonitor) (ps : list PartitionStat) (failed : bool) :
  match emitFilesystems getUsage hasGroup m ps failed with
  | None => failed = true ∧ ps = []
  | Some dps =>
      let l := flat_map (reported m) ps in
      let u := fmul (fdiv (float_of_Z (u64 (usedBytes l))) (float_of_Z (u64 (totalBytes l)))) hundred in
      ∃ summary, dps = flat_map (λ pd, partitionPoints hasGroup m pd.1 pd.2) l ++ summary ∧
        (summary = [] ∨ ∃ v, summary = [mkDatapoint "disk.summary_utilization" Gauge (FloatValue v) ∅] ∧
           SFltb v fzero = false ∧ SFltb hundred v = false ∧ (v = u ∨ SFeqb (float_of_Z (u64 (totalBytes l))) fzero = true))
  end.
Proof.
  unfold emitFilesystems. destruct (failed && (length ps =? 0)%nat) eqn:Hf.
  { apply andb_true_iff in Hf as [-> Hl%Nat.eqb_eq]. split; [done|]. by apply nil_length_inv. }
  change (@nil sfxDatapoint, 0, 0) with (@nil sfxDatapoint, u64 0, u64 0). rewrite emitPartition_fold. cbn [app Z.add].
  eexists. split; [done|]. unfold calculateUtil. destruct (_ || _) eqn:Hr; [by left|]. apply orb_false_iff in Hr as [H1 H2]. right.
  eexists. split; [done|]. split; [done|]. split; [done|]. destruct (SFeqb _ fzero); [by right | by left].
Qed.
End partitions.

(** ** Instances *)

Definition demo_times (idle user : Z) : TimesStat :=
  {| t_CPU := "cpu0"; t_User := float_of_Z user; t_System := fzero; t_Idle := float_of_Z idle; t_Nice := fzero;
     t_Iowait := fzero; t_Irq := fzero; t_Softirq := fzero; t_Steal := fzero |}.
Definition demo_cpu : cpuMonitor := initializeCPUTimes (Some (demo_times 0 0)) {| previousPerCore := ∅; previousTotal := None |}.

Lemma cpu_stalls_on_zero_total_witness :
  Forall (λ dps, dps = []) (rounds [(Some (demo_times 10 5), Some 2); (Some (demo_times 20 9), Some 2)] demo_cpu).1.
Proof. by apply (cpu_stalls_on_zero_total demo_cpu (cpuTimeStatTototalUsed (demo_times 0 0))). Defined.

Example utilization_1 : getUtilization (cpuTimeStatTototalUsed (demo_times 90 10)) (cpuTimeStatTototalUsed (demo_times 165 35)) = Ok (float_of_Z 25).
Proof. vm_compute. reflexivity. Qed.
Example ReplaceAll_1 : ReplaceAll "cpu12" "cpu" "" = "12". Proof. reflexivity. Qed.

Definition demo_cpu2 : cpuMonitor := initializeCPUTimes (Some (demo_times 90 10)) {| previousPerCore := ∅; previousTotal := None |}.
Lemma cpu_previous_witness :
  ∃ dps m', generateDatapoints (Some (demo_times 165 35)) None demo_cpu2 = (dps, m') ∧
    mkDatapoint "cpu.utilization" Gauge (FloatValue (float_of_Z 25)) ∅ ∈ dps.
Proof.
  destruct (generateDatapoints (Some (demo_times 165 35)) None demo_cpu2) as [dps m'] eqn:Hg. exists dps, m'. split; [done|].
  destruct (cpu_previous demo_cpu2 m' (demo_times 165 35) None dps Hg) as (_ & Hu & _).
  apply (Hu (cpuTimeStatTototalUsed (demo_times 90 10)) (float_of_Z 25)); [reflexivity | vm_compute; reflexivity].
Defined.

Definition demo_stat (name : string) (sent recv : Z) : IOCountersStat :=
  {| io_Name := name; BytesSent := sent; BytesRecv := recv; PacketsSent := 0; PacketsRecv := 0; Errin := 0; Errout := 0; Dropin := 0; Dropout := 0 |}.
Definition demo_net : netMonitor := {| networkTotal := 30; previousInterfaceStats := {["eth0" := {| io_sent := 10; io_recv := 20 |}]} |}.
Definition demo_if_filter : res BasicStringFilter := @interfaceFilter prefix_engine ["eth0"].
Example demo_if_filter_ok : is_ok demo_if_filter = true. Proof. vm_compute. reflexivity. Qed.

Lemma network_total_correct_witness :
  ∃ f dps m', demo_if_filter = Ok f ∧ EmitDatapoints f (Some [demo_stat "eth0" 15 50]) demo_net = (dps, m') ∧ total_ok m'.
Proof.
  destruct demo_if_filter as [f|] eqn:Hf; [|generalize demo_if_filter_ok; by rewrite Hf].
  destruct (EmitDatapoints f (Some [demo_stat "eth0" 15 50]) demo_net) as [dps m'] eqn:He. exists f, dps, m'. split_and!; [done..|].
  apply (network_total_correct f demo_net m' [demo_stat "eth0" 15 50] dps); [|  |done].
  - unfold total_ok, demo_net. cbn [networkTotal previousInterfaceStats]. unfold sumStats. by rewrite map_fold_singleton.
  - cbn [no_resets]. destruct (OverridableStringFilter_Matches f _); [|done]. split; [|done]. unfold not_reset, demo_net, is_u64. cbn [previousInterfaceStats].
    change (ReplaceByte (io_Name (demo_stat "eth0" 15 50)) " " "_") with "eth0". rewrite lookup_singleton_eq. cbn. lia.
Defined.
