(* ===== verification/HAProxy.v ===== *)
(** * The haproxy monitor

    [src/internal/signalfx-agent/pkg/monitors/haproxy]: the statistics and their
    metrics ([helpers.go], the metric types of [genmetadata.go]), the tables read
    over HTTP or the socket and their data points ([helpers.go]), and the choice
    of proxies and sources ([monitor.go], [config.go]).  The CSV reader and the
    transports are parameters. *)

From S2P Require Import Prelude GoStrings GoValue Settings Telemetry DiscoveryProperties SmartAgent HostMonitors.
From Stdlib Require Import Ascii.
#[local] Open Scope Z_scope.

(** ** The statistics and their metrics *)

Definition sfxMetricsTable : list (string * string) :=
  [("status", "haproxy_status"); ("conn_tot", "haproxy_connection_total"); ("lbtot", "haproxy_server_selected_total");
   ("bin", "haproxy_bytes_in"); ("bout", "haproxy_bytes_out"); ("cli_abrt", "haproxy_client_aborts");
   ("comp_byp", "haproxy_compress_bypass"); ("comp_in", "haproxy_compress_in"); ("comp_out", "haproxy_compress_out");
   ("comp_rsp", "haproxy_compress_responses"); ("CompressBpsIn", "haproxy_compress_bits_per_second_in"); ("CompressBpsOut", "haproxy_compress_bits_per_second_out");
   ("CumConns", "haproxy_connections"); ("dreq", "haproxy_denied_request"); ("dresp", "haproxy_denied_response");
   ("downtime", "haproxy_downtime"); ("econ", "haproxy_error_connections"); ("ereq", "haproxy_error_request");
   ("eresp", "haproxy_error_response"); ("chkfail", "haproxy_failed_checks"); ("wredis", "haproxy_redispatched");
   ("req_tot", "haproxy_request_total"); ("CumReq", "haproxy_requests"); ("hrsp_1xx", "haproxy_response_1xx");
   ("hrsp_2xx", "haproxy_response_2xx"); ("hrsp_3xx", "haproxy_response_3xx"); ("hrsp_4xx", "haproxy_response_4xx");
   ("hrsp_5xx", "haproxy_response_5xx"); ("hrsp_other", "haproxy_response_other"); ("wretr", "haproxy_retries");
   ("stot", "haproxy_session_total"); ("srv_abrt", "haproxy_server_aborts"); ("SslCacheLookups", "haproxy_ssl_cache_lookups");
   ("SslCacheMisses", "haproxy_ssl_cache_misses"); ("CumSslConns", "haproxy_ssl_connections"); ("Uptime_sec", "haproxy_uptime_seconds");
   ("act", "haproxy_active_servers"); ("bck", "haproxy_backup_servers"); ("check_duration", "haproxy_check_duration");
   ("conn_rate", "haproxy_connection_rate"); ("conn_rate_max", "haproxy_connection_rate_max"); ("CurrConns", "haproxy_current_connections");
   ("CurrSslConns", "haproxy_current_ssl_connections"); ("dcon", "haproxy_denied_tcp_connections"); ("dses", "haproxy_denied_tcp_sessions");
   ("Idle_pct", "haproxy_idle_percent"); ("intercepted", "haproxy_intercepted_requests"); ("lastsess", "haproxy_last_session");
   ("MaxConnRate", "haproxy_max_connection_rate"); ("MaxConn", "haproxy_max_connections"); ("MaxPipes", "haproxy_max_pipes");
   ("MaxSessRate", "haproxy_max_session_rate"); ("MaxSslConns", "haproxy_max_ssl_connections"); ("PipesFree", "haproxy_pipes_free");
   ("PipesUsed", "haproxy_pipes_used"); ("qcur", "haproxy_queue_current"); ("qlimit", "haproxy_queue_limit");
   ("qmax", "haproxy_queue_max"); ("qtime", "haproxy_queue_time_average"); ("req_rate", "haproxy_request_rate");
   ("req_rate_max", "haproxy_request_rate_max"); ("rtime", "haproxy_response_time_average"); ("Run_queue", "haproxy_run_queue");
   ("scur", "haproxy_session_current"); ("slim", "haproxy_session_limit"); ("smax", "haproxy_session_max");
   ("rate", "haproxy_session_rate"); ("SessRate", "haproxy_session_rate_all"); ("rate_lim", "haproxy_session_rate_limit");
   ("rate_max", "haproxy_session_rate_max"); ("ttime", "haproxy_session_time_average"); ("SslBackendKeyRate", "haproxy_ssl_backend_key_rate");
   ("SslFrontendKeyRate", "haproxy_ssl_frontend_key_rate"); ("SslRate", "haproxy_ssl_rate"); ("Tasks", "haproxy_tasks");
   ("throttle", "haproxy_throttle"); ("ZlibMemUsage", "haproxy_zlib_memory_usage"); ("ConnRate", "haproxy_connection_rate_all")].
Definition sfxMetricsMap : gmap string string := list_to_map sfxMetricsTable.

Definition metricSetTable : list (string * sfxMetricType) :=
  [("haproxy_active_servers", Gauge); ("haproxy_backup_servers", Gauge); ("haproxy_bytes_in", Counter);
   ("haproxy_bytes_out", Counter); ("haproxy_check_duration", Gauge); ("haproxy_client_aborts", Counter);
   ("haproxy_compress_bits_per_second_in", Counter); ("haproxy_compress_bits_per_second_out", Counter); ("haproxy_compress_bypass", Counter);
   ("haproxy_compress_in", Counter); ("haproxy_compress_out", Counter); ("haproxy_compress_responses", Counter);
   ("haproxy_connection_rate", Gauge); ("haproxy_connection_rate_all", Gauge); ("haproxy_connection_rate_max", Gauge);
   ("haproxy_connection_total", Counter); ("haproxy_connections", Counter); ("haproxy_current_connections", Gauge);
   ("haproxy_current_ssl_connections", Gauge); ("haproxy_denied_request", Counter); ("haproxy_denied_response", Counter);
   ("haproxy_denied_tcp_connections", Gauge); ("haproxy_denied_tcp_sessions", Gauge); ("haproxy_downtime", Counter);
   ("haproxy_error_connections", Counter); ("haproxy_error_request", Counter); ("haproxy_error_response", Counter);
   ("haproxy_failed_checks", Counter); ("haproxy_idle_percent", Gauge); ("haproxy_intercepted_requests", Gauge);
   ("haproxy_last_session", Gauge); ("haproxy_max_connection_rate", Gauge); ("haproxy_max_connections", Gauge);
   ("haproxy_max_pipes", Gauge); ("haproxy_max_session_rate", Gauge); ("haproxy_max_ssl_connections", Gauge);
   ("haproxy_pipes_free", Gauge); ("haproxy_pipes_used", Gauge); ("haproxy_queue_current", Gauge);
   ("haproxy_queue_limit", Gauge); ("haproxy_queue_max", Gauge); ("haproxy_queue_time_average", Gauge);
   ("haproxy_redispatched", Counter); ("haproxy_request_rate", Gauge); ("haproxy_request_rate_max", Gauge);
   ("haproxy_request_total", Counter); ("haproxy_requests", Counter); ("haproxy_response_1xx", Counter);
   ("haproxy_response_2xx", Counter); ("haproxy_response_3xx", Counter); ("haproxy_response_4xx", Counter);
   ("haproxy_response_5xx", Counter); ("haproxy_response_other", Counter); ("haproxy_response_time_average", Gauge);
   ("haproxy_retries", Counter); ("haproxy_run_queue", Gauge); ("haproxy_server_aborts", Counter);
   ("haproxy_server_selected_total", Counter); ("haproxy_session_current", Gauge); ("haproxy_session_limit", Gauge);
   ("haproxy_session_max", Gauge); ("haproxy_session_rate", Gauge); ("haproxy_session_rate_all", Gauge);
   ("haproxy_session_rate_limit", Gauge); ("haproxy_session_rate_max", Gauge); ("haproxy_session_time_average", Gauge);
   ("haproxy_session_total", Counter); ("haproxy_ssl_backend_key_rate", Gauge); ("haproxy_ssl_cache_lookups", Counter);
   ("haproxy_ssl_cache_misses", Counter); ("haproxy_ssl_connections", Counter); ("haproxy_ssl_frontend_key_rate", Gauge);
   ("haproxy_ssl_rate", Gauge); ("haproxy_status", Gauge); ("haproxy_tasks", Gauge);
   ("haproxy_throttle", Gauge); ("haproxy_uptime_seconds", Counter); ("haproxy_zlib_memory_usage", Gauge)].
Definition metricSet : gmap string sfxMetricType := list_to_map metricSetTable.

Definition defaultMetrics : list string :=
  ["haproxy_bytes_in"; "haproxy_bytes_out"; "haproxy_connection_rate_all"; "haproxy_denied_request"; "haproxy_denied_response";
   "haproxy_error_connections"; "haproxy_error_request"; "haproxy_error_response"; "haproxy_idle_percent"; "haproxy_queue_current";
   "haproxy_queue_time_average"; "haproxy_redispatched"; "haproxy_request_rate"; "haproxy_requests"; "haproxy_response_2xx";
   "haproxy_response_4xx"; "haproxy_response_5xx"; "haproxy_response_time_average"; "haproxy_retries"; "haproxy_server_selected_total";
   "haproxy_session_current"; "haproxy_session_rate"; "haproxy_session_rate_all"; "haproxy_session_time_average"].

(** ** Data points *)

Definition parseStatusField (v : string) : Z :=
  if existsb (String.eqb v) ["UP"; "UP 1/3"; "UP 2/3"; "OPEN"; "no check"] then 1 else 0.

(** [metricSet[metric].Type]; a metric without an entry has the zero type. *)
Definition newDp (zeroType : sfxMetricType) (stat value : string) : option sfxDatapoint :=
  match sfxMetricsMap !! stat with
  | None => None
  | Some metric =>
      if String.eqb metric "" || String.eqb value "" then None
      else
        let dp v := mkDatapoint metric (default zeroType (metricSet !! metric)) (FloatValue (float_of_Z v)) ∅ in
        if String.eqb stat "status" then Some (dp (parseStatusField value))
        else match ParseInt64 value with
             | None => None
             | Some v => Some (dp v)
             end
  end.

(** [unicode.IsSpace] and [utils.TrimAllSpaces]. *)
Definition isSpaceRune (c : rune) : bool :=
  existsb (Z.eqb c) [9; 10; 11; 12; 13; 32; 0x85; 0xA0; 0x1680; 0x2028; 0x2029; 0x202F; 0x205F; 0x3000] || (0x2000 <=? c) && (c <=? 0x200A).
Definition TrimAllSpaces (s : string) : string := utf8 (List.filter (λ c, negb (isSpaceRune c)) (decodeUTF8 s)).

(** A row as a map of the header; a later column of the same name wins. *)
Definition rowMap (header row : list string) : gmap string string :=
  foldl (λ m hv, <[hv.1 := hv.2]> m) ∅ (zip header row).

(** The table that the CSV reader gives has rows of equal length. *)
Definition statsMap (table : res (list (list string))) : res (list (gmap string string)) :=
  table ← table;
  match table with
  | [] => Err (Errorf "unavailable proxy stats csv data" [])
  | [] :: _ => Err (Errorf "panic: index out of range [0] with length 0" [])
  | (h :: header) :: rows =>
      if String.eqb (TrimAllSpaces h) "#pxname" then Ok (map (rowMap ("pxname" :: header)) rows)
      else Err (Errorf "incompatible proxy stats csv data. Expected '#pxname' as first header" [])
  end.

Definition get (m : gmap string string) (k : string) : string := default "" (m !! k).
Definition withDims (dims : gmap string string) (d : sfxDatapoint) : sfxDatapoint :=
  {| sd_Metric := sd_Metric d; sd_Type := sd_Type d; sd_Value := sd_Value d; sd_Time := sd_Time d;
     sd_Dimensions := dims ∪ sd_Dimensions d; sd_Meta := sd_Meta d |}.
Definition statsDims (row : gmap string string) : gmap string string :=
  list_to_map [("proxy_name", get row "pxname"); ("service_name", get row "svname"); ("type", get row "type");
               ("server_id", get row "sid"); ("unique_proxy_id", get row "iid"); ("process_id", get row "pid")].

Section round.
Context `{MapRange} (zeroType : sfxMetricType).

Definition rowSelected (proxies : gset string) (row : gmap string string) : bool :=
  (size proxies =? 0)%nat || bool_decide (get row "pxname" ∈ proxies) || bool_decide (get row "svname" ∈ proxies).
Definition rowPoints (row : gmap string string) : list sfxDatapoint :=
  flat_map (λ sv, match newDp zeroType sv.1 sv.2 with Some dp => [withDims (statsDims row) dp] | None => [] end) (range row).

(** The rows are visited in the order [rangeRows] gives. *)
Definition statsHelper (rangeRows : list (gmap string string) → list (gmap string string))
    (body : res (res (list (list string)))) (proxies : gset string) : list sfxDatapoint :=
  match body with
  | Err _ => []
  | Ok table =>
      match statsMap table with
      | Err _ => []
      | Ok rows => flat_map rowPoints (List.filter (rowSelected proxies) (rangeRows rows))
      end
  end.

(** A line of [show info]. *)
Definition infoLine (m : gmap string string) (line : string) : gmap string string :=
  match SplitN2 line ":" with
  | [k; v] =>
      if String.eqb (TrimSpace k) "" || String.eqb (TrimSpace v) "" then m else <[TrimSpace k := TrimSpace v]> m
  | _ => m
  end.
Definition infoMap (body : res (list string)) : res (gmap string string) :=
  lines ← body;
  let m := foldl infoLine ∅ lines in
  if (size m =? 0)%nat then Err (Errorf "failed to create process info datapoints" []) else Ok m.
Definition infoSocket (body : res (list string)) : list sfxDatapoint :=
  match infoMap body with
  | Err _ => []
  | Ok info =>
      flat_map (λ sv, match newDp zeroType sv.1 sv.2 with
                      | Some dp => [withDims {["process_id" := get info "Process_num"]} dp]
                      | None => [] end) (range info)
  end.
End round.

(** ** monitor.go, config.go *)

Definition proxyKey (p : string) : string :=
  let l := ToLower (TrimSpace p) in
  if String.eqb l "frontend" then "FRONTEND" else if String.eqb l "backend" then "BACKEND" else p.
Definition proxySet (proxies : list string) : gset string := list_to_set (map proxyKey proxies).

Inductive source := StatsHTTP | StatsSocket | InfoSocket.
Definition fetchFuncs (scheme : string) : res (list source) :=
  if existsb (String.eqb scheme) ["http"; "https"; "file"] then Ok [StatsHTTP]
  else if String.eqb scheme "unix" then Ok [StatsSocket; InfoSocket]
  else Err (Errorf "unsupported url scheme:%q" [scheme]).

Record haConfig := { hc_Host : string; hc_Port : Z; hc_Path : string; hc_UseHTTPS : bool; hc_URL : string }.
Definition ScrapeURL (c : haConfig) : string :=
  if String.eqb (hc_URL c) "" then
    (if hc_UseHTTPS c then "https" else "http") +:+ "://" +:+ hc_Host c +:+ ":" +:+ pretty (hc_Port c) +:+ "/" +:+ hc_Path c
  else hc_URL c.

(** A round: each source's data points, unless the context ends first and the
    select takes that case ([expired]), are sent with the plugin dimension; the
    channel is buffered, so the sources are sent in their order. *)
Definition fetched (expired : bool) (dps : list sfxDatapoint) : list sfxDatapoint := if expired then [] else dps.
Definition sentDatapoints (rounds : list (bool * list sfxDatapoint)) : list (list sfxDatapoint) :=
  map (λ r, map (withDims {["plugin" := "haproxy"]}) (fetched r.1 r.2)) rounds.

(** ** What is reported *)

(** Whether a statistic of the table has a metric of a declared type. *)
Definition declared (sm : string * string) : bool :=
  negb (String.eqb sm.2 "") && existsb (λ mt, String.eqb mt.1 sm.2) metricSetTable.
Lemma sfxMetrics_checked : forallb declared sfxMetricsTable = true.
Proof. vm_compute. reflexivity. Qed.
#[local] Opaque sfxMetricsTable metricSetTable.

Lemma metricSet_some k : existsb (λ mt : string * sfxMetricType, String.eqb mt.1 k) metricSetTable = true → is_Some (metricSet !! k).
Proof.
  intros (mt & Hin & Heq%String.eqb_eq)%existsb_exists. apply elem_of_dom. unfold metricSet. rewrite dom_list_to_map_L.
  apply elem_of_list_to_set, list_elem_of_fmap. exists mt. rewrite list_elem_of_In. done.
Qed.
Lemma sfxMetrics_declared stat metric : sfxMetricsMap !! stat = Some metric → metric ≠ "" ∧ is_Some (metricSet !! metric).
Proof.
  intros Hm. unfold sfxMetricsMap in Hm. apply elem_of_list_to_map_2, list_elem_of_In in Hm.
  pose proof (proj1 (forallb_forall _ _) sfxMetrics_checked _ Hm) as Hd. unfold declared in Hd.
  apply andb_prop in Hd as [H1 H2]. split; [| by apply metricSet_some].
  intros ->. discriminate H1.
Qed.

#[local] Opaque sfxMetricsMap metricSet.

(** The number a statistic's text stands for. *)
Definition statValue (stat value : string) : option Z :=
  if String.eqb stat "status" then Some (parseStatusField value) else ParseInt64 value.

(** A statistic gives a point exactly when it is known and its text is a number
    or a status; the point has the metric's declared type, whatever the zero
    type is. *)
Lemma newDp_correct z stat value dp :
  newDp z stat value = Some dp ↔
  ∃ metric ty v, sfxMetricsMap !! stat = Some metric ∧ metricSet !! metric = Some ty ∧ value ≠ "" ∧
    statValue stat value = Some v ∧ dp = mkDatapoint metric ty (FloatValue (float_of_Z v)) ∅.
Proof.
  unfold newDp. destruct (sfxMetricsMap !! stat) as [metric|] eqn:Hm; [| split; [discriminate | intros (? & ? & ? & [=] & _)]].
  destruct (sfxMetrics_declared stat metric Hm) as [Hne [ty Hty]].
  apply String.eqb_neq in Hne as ->. rewrite Hty. cbn [orb default from_option id].
  destruct (String.eqb_spec value "") as [->|Hv]; [split; [discriminate | intros (? & ? & ? & _ & _ & Hv & _); by destruct Hv] |].
  unfold statValue.
  assert (Hdone : ∀ o : option Z, match o with None => None | Some v => Some (mkDatapoint metric ty (FloatValue (float_of_Z v)) ∅) end = Some dp ↔
    ∃ metric' ty' v, Some metric = Some metric' ∧ metricSet !! metric' = Some ty' ∧ value ≠ "" ∧ o = Some v ∧
      dp = mkDatapoint metric' ty' (FloatValue (float_of_Z v)) ∅).
  { intros [v|]; split.
    - intros [= <-]. exists metric, ty, v. split_and!; auto.
    - intros (? & ? & ? & [= <-] & Hty' & _ & [= <-] & ->). rewrite Hty in Hty'. injection Hty' as <-. reflexivity.
    - discriminate.
    - intros (? & ? & ? & _ & _ & _ & [=] & _). }
  destruct (String.eqb stat "status"); [apply (Hdone (Some _)) | apply Hdone].
Qed.

Lemma newDp_dims z stat value dp : newDp z stat value = Some dp → sd_Dimensions dp = ∅.
Proof. intros (? & ? & ? & _ & _ & _ & _ & ->)%newDp_correct. done. Qed.

Section reported.
Context `{MapRange} (zeroType : sfxMetricType).

Lemma points_elem (f : gmap string string) (dims : gmap string string) dp :
  dp ∈ flat_map (λ sv, match newDp zeroType sv.1 sv.2 with Some d => [withDims dims d] | None => [] end) (range f) ↔
  ∃ stat value d, f !! stat = Some value ∧ newDp zeroType stat value = Some d ∧ dp = withDims dims d.
Proof.
  rewrite list_elem_of_In, in_flat_map. split.
  - intros ([stat value] & Hin & Hdp). apply list_elem_of_In in Hin. rewrite range_perm in Hin. apply elem_of_map_to_list in Hin.
    cbn [fst snd] in Hdp. destruct (newDp zeroType stat value) as [d|] eqn:Hd; [| destruct Hdp].
    destruct Hdp as [<-|[]]. eauto 6.
  - intros (stat & value & d & Hf & Hd & ->). exists (stat, value). split.
    + apply list_elem_of_In. rewrite range_perm. by apply elem_of_map_to_list.
    + cbn [fst snd]. rewrite Hd. by left.
Qed.
End reported.

Lemma rowSelected_correct proxies row :
  rowSelected proxies row = true ↔ proxies = ∅ ∨ get row "pxname" ∈ proxies ∨ get row "svname" ∈ proxies.
Proof.
  unfold rowSelected. rewrite !orb_true_iff, !bool_decide_eq_true, Nat.eqb_eq, size_empty_iff. split.
  - intros [[?%leibniz_equiv|?]|?]; auto.
  - intros [->|[?|?]]; auto.
Qed.
Lemma withDims_mk metric ty v dims : withDims dims (mkDatapoint metric ty v ∅) = mkDatapoint metric ty v dims.
Proof. unfold withDims, mkDatapoint. cbn. by rewrite (right_id_L ∅ (∪)). Qed.

(** The statistics round reports exactly the known statistics, with a number
    or a status, of the rows whose proxy or service is asked for (all rows when
    none is), each once under its declared type with the row's dimensions; the
    order of the rows and of their columns is free. *)
Theorem statsHelper_correct `{MapRange} z rangeRows h header rows proxies dp :
  (∀ l : list (gmap string string), rangeRows l ≡ₚ l) → TrimAllSpaces h = "#pxname" →
  dp ∈ statsHelper z rangeRows (Ok (Ok ((h :: header) :: rows))) proxies ↔
  ∃ row stat value metric ty v,
    row ∈ map (rowMap ("pxname" :: header)) rows ∧
    (proxies = ∅ ∨ get row "pxname" ∈ proxies ∨ get row "svname" ∈ proxies) ∧
    row !! stat = Some value ∧ value ≠ "" ∧ sfxMetricsMap !! stat = Some metric ∧ metricSet !! metric = Some ty ∧
    statValue stat value = Some v ∧ dp = mkDatapoint metric ty (FloatValue (float_of_Z v)) (statsDims row).
Proof.
  intros Hperm Hh. unfold statsHelper, statsMap. cbn [mbind res_bind]. rewrite Hh, String.eqb_refl.
  rewrite list_elem_of_In, in_flat_map. split.
  - intros (row & [Hrow Hsel]%filter_In & Hdp). apply list_elem_of_In in Hrow, Hdp. rewrite Hperm in Hrow.
    apply points_elem in Hdp as (stat & value & d & Hf & (metric & ty & v & Hm & Hty & Hv & Hn & ->)%newDp_correct & ->).
    apply rowSelected_correct in Hsel. exists row, stat, value, metric, ty, v. split_and!; try assumption. apply withDims_mk.
  - intros (row & stat & value & metric & ty & v & Hrow & Hsel & Hf & Hv & Hm & Hty & Hn & ->). exists row. split.
    + apply filter_In. rewrite <-list_elem_of_In, Hperm. split; [exact Hrow | by apply rowSelected_correct].
    + apply list_elem_of_In, points_elem. exists stat, value, (mkDatapoint metric ty (FloatValue (float_of_Z v)) ∅).
      split_and!; [exact Hf | apply newDp_correct; exists metric, ty, v; split_and!; auto | symmetry; apply withDims_mk].
Qed.

Lemma statsHelper_correct_witness :
  mkDatapoint "haproxy_bytes_in" Counter (FloatValue (float_of_Z 12))
    (statsDims (rowMap ["pxname"; "svname"; "status"; "bin"] ["http-in"; "FRONTEND"; "OPEN"; "12"]))
  ∈ @statsHelper forward_range Gauge id (Ok (Ok [["# pxname"; "svname"; "status"; "bin"]; ["http-in"; "FRONTEND"; "OPEN"; "12"]])) {["FRONTEND"]}.
Proof.
  apply (@statsHelper_correct forward_range Gauge id "# pxname" ["svname"; "status"; "bin"]); [reflexivity | vm_compute; reflexivity |].
  exists (rowMap ["pxname"; "svname"; "status"; "bin"] ["http-in"; "FRONTEND"; "OPEN"; "12"]), "bin", "12", "haproxy_bytes_in", Counter, 12.
  split_and!; [apply list_elem_of_here | right; right; apply elem_of_singleton; vm_compute; reflexivity | vm_compute; reflexivity | discriminate
    | vm_compute; reflexivity | vm_compute; reflexivity | vm_compute; reflexivity | reflexivity].
Defined.

(** The process round reports the known numbers of [show info] with the process
    number as a dimension. *)
Lemma infoSocket_correct `{MapRange} z lines dp :
  dp ∈ infoSocket z (Ok lines) ↔
  let info := foldl infoLine ∅ lines in
  ∃ stat value metric ty v,
    info !! stat = Some value ∧ value ≠ "" ∧ sfxMetricsMap !! stat = Some metric ∧ metricSet !! metric = Some ty ∧
    statValue stat value = Some v ∧
    dp = mkDatapoint metric ty (FloatValue (float_of_Z v)) {["process_id" := get info "Process_num"]}.
Proof.
  cbv zeta. unfold infoSocket, infoMap. cbn [mbind res_bind]. set (info := foldl infoLine ∅ lines).
  destruct (Nat.eqb_spec (size info) 0) as [Hz|Hz].
  - apply map_size_empty_iff in Hz. split; [intros Hn; by apply not_elem_of_nil in Hn |].
    intros (stat & ? & ? & ? & ? & Hl & _). rewrite Hz, lookup_empty in Hl. discriminate.
  - rewrite points_elem. split.
    + intros (stat & value & d & Hf & (metric & ty & v & Hm & Hty & Hv & Hn & ->)%newDp_correct & ->).
      exists stat, value, metric, ty, v. split_and!; try assumption. apply withDims_mk.
    + intros (stat & value & metric & ty & v & Hf & Hv & Hm & Hty & Hn & ->).
      exists stat, value, (mkDatapoint metric ty (FloatValue (float_of_Z v)) ∅).
      split_and!; [exact Hf | apply newDp_correct; exists metric, ty, v; split_and!; auto | symmetry; apply withDims_mk].
Qed.
