(* ===== verification/Subproc.v ===== *)
(** * Monitors in subprocesses

    [src/internal/signalfx-agent/pkg/monitors/subproc]: the framing of messages
    ([messages.go]), the configuration of a subprocess with the goroutines around
    it ([core.go]) and the handler of the messages a monitor sends
    ([signalfx/handler.go]).  JSON, protobuf and the values of the ingest
    protocol are parameters. *)

From S2P Require Import Prelude GoStrings GoValue Settings Telemetry DiscoveryProperties SmartAgent.
From Stdlib Require Import Ascii.
#[local] Open Scope Z_scope.

(** ** messages.go *)

Definition MessageTypeNone : Z := 0.
Definition MessageTypeConfigure : Z := 1.
Definition MessageTypeConfigureResult : Z := 2.
Definition MessageTypeShutdown : Z := 3.
Definition MessageTypeLog : Z := 4.

Definition u32 (z : Z) : Z := z mod 2 ^ 32.

(** [binary.BigEndian]. *)
Definition byteOf (z : Z) : ascii := ascii_of_N (Z.to_N (z mod 256)).
Definition ofByte (c : ascii) : Z := Z.of_N (N_of_ascii c).
Definition PutUint32 (v : Z) : string :=
  String (byteOf (Z.shiftr v 24)) (String (byteOf (Z.shiftr v 16)) (String (byteOf (Z.shiftr v 8)) (String (byteOf v) ""))).
Definition BigEndianUint32 (b : string) : Z :=
  match b with
  | String b0 (String b1 (String b2 (String b3 _))) =>
      Z.lor (ofByte b3) (Z.lor (Z.shiftl (ofByte b2) 8) (Z.lor (Z.shiftl (ofByte b1) 16) (Z.shiftl (ofByte b0) 24)))
  | _ => 0
  end.

(** What can still be read from the pipe before it ends, what was written, and
    the bytes left in the last payload's reader. *)
Record messageReadWriter := { Reader : string; Writer : string; writable : bool; lastPayload : option Z }.

Definition setReader (r : string) (last : option Z) (m : messageReadWriter) : messageReadWriter :=
  {| Reader := r; Writer := Writer m; writable := writable m; lastPayload := last |}.

(** [io.ReadFull] into a buffer of four bytes. *)
Definition ReadFull4 (m : messageReadWriter) : res string * messageReadWriter :=
  let n := slen (Reader m) in
  if (n =? 0)%nat then (Err (Errorf "EOF" []), m)
  else if (n <? 4)%nat then (Err (Errorf "unexpected EOF" []), setReader "" (lastPayload m) m)
  else (Ok (stake 4 (Reader m)), setReader (sdrop 4 (Reader m)) (lastPayload m) m).

Definition RecvMessage (m : messageReadWriter) : res Z * messageReadWriter :=
  if match lastPayload m with Some n => 0 <? n | None => false end
  then (Err (Errorf "last payload was not fully read, cannot receive" []), m)
  else
    match ReadFull4 m with
    | (Err e, m) => (Err e, m)
    | (Ok buf, m) =>
        let msgType := BigEndianUint32 buf in
        match ReadFull4 m with
        | (Err e, m) => (Err e, m)
        | (Ok buf, m) => (Ok msgType, setReader (Reader m) (Some (BigEndianUint32 buf)) m)
        end
    end.

(** Reading [n] bytes of the payload through the limited reader, which ends after
    its limit or with the pipe. *)
Definition payload (m : messageReadWriter) : string := stake (Z.to_nat (default 0 (lastPayload m))) (Reader m).
Definition readPayload (n : nat) (m : messageReadWriter) : messageReadWriter :=
  let n := (n `min` slen (payload m))%nat in
  setReader (sdrop n (Reader m)) ((λ l, l - Z.of_nat n) <$> lastPayload m) m.
(** [ioutil.ReadAll]. *)
Definition ReadAll (m : messageReadWriter) : string * messageReadWriter := (payload m, readPayload (slen (payload m)) m).

(** Writing to a pipe whose other end is closed fails. *)
Definition Write (b : string) (m : messageReadWriter) : res messageReadWriter :=
  if writable m then Ok {| Reader := Reader m; Writer := Writer m +:+ b; writable := true; lastPayload := lastPayload m |}
  else Err (Errorf "broken pipe" []).

Definition SendMessage (msgType : Z) (b : option string) (m : messageReadWriter) : res messageReadWriter :=
  m ← Write (PutUint32 (u32 msgType)) m;
  m ← Write (PutUint32 (u32 (Z.of_nat (slen (default "" b))))) m;
  match b with Some b => Write b m | None => Ok m end.

(** ** core.go: the configuration of a subprocess *)

Section configure.
(** The decoder of [configResult], whose error may be set, and the handler of
    log messages. *)
Context (decodeResult : string → res (option string)).

(** The loop around [RecvMessage]: the result, and the log messages handled. *)
Fixpoint waitForConfigure (fuel : nat) (m : messageReadWriter) : option (res (option string) * list string * messageReadWriter) :=
  match fuel with
  | O => None
  | S fuel =>
      match RecvMessage m with
      | (Err e, m) => Some (Err e, [], m)
      | (Ok msgType, m) =>
          let '(content, m) := ReadAll m in
          if msgType =? MessageTypeConfigureResult then Some (decodeResult content, [], m)
          else if msgType =? MessageTypeLog then
            '(r, logs, m) ← waitForConfigure fuel m; Some (r, content :: logs, m)
          else Some (Err (Errorf "got unexpected message code %d from subprocess monitor" [pretty msgType]), [], m)
      end
  end.

Definition doConfigure (fuel : nat) (jsonBytes : string) (m : messageReadWriter) : option (res unit * list string * messageReadWriter) :=
  match SendMessage MessageTypeConfigure (Some jsonBytes) m with
  | Err e => Some (Err e, [], m)
  | Ok m =>
      '(r, logs, m) ← waitForConfigure fuel m;
      Some (match r with Ok None => Ok () | Ok (Some msg) => Err (Errorf msg []) | Err e => Err e end, logs, m)
  end.
End configure.

(** ** signalfx/handler.go *)

Definition messageTypeDatapointJSONList : Z := 200.
Definition messageTypeDatapointProtobufList : Z := 201.

Record JSONDatapoint := { jd_Metric : string; jd_Dimensions : gmap string string; jd_Value : any; jd_Timestamp : Z }.
Record LogMessage := { lm_Message : string; lm_Level : string }.

(** The code this handler uses: the decoders of the two lists, the conversion of
    values and of protobuf points, the metric types of the protobuf model, and the
    decoder of log messages, which may stop before the end of what it is given:
    it tells how many bytes it took. *)
Class HandlerDeps := {
  UnmarshalV2 : string → res (gmap string (list JSONDatapoint));
  ValueToValue : any → res sfxValue;
  MetricType_value : string → option Z;
  MetricType_GAUGE : Z;
  MetricType_COUNTER : Z;
  MetricType_CUMULATIVE_COUNTER : Z;
  UnmarshalUpload : string → res (list (res sfxDatapoint));
  decodeLog : string → nat * res LogMessage;
}.

(** What a call of [handleMessage] did: the batches it sent and the error it
    returned, or a panic. *)
Inductive handled := Handled (sent : list (list sfxDatapoint)) (err : option error) | Panicked (sent : list (list sfxDatapoint)).

Section handler.
Context `{HandlerDeps} `{MapRange} (now : Z).

Definition fromMT (mt : Z) : option sfxMetricType :=
  if mt =? MetricType_CUMULATIVE_COUNTER then Some Counter
  else if mt =? MetricType_GAUGE then Some Gauge
  else if mt =? MetricType_COUNTER then Some Count
  else None.

Definition fromTs (ts : Z) : Z :=
  if 0 <? ts then wrap64 (ts * 1000000) else now + wrap64 (- wrap64 (1000000 * ts)).

(** The points of one metric type; without a type the conversion of the first
    point that has a value panics. *)
Fixpoint jsonPoints (mt : Z) (l : list JSONDatapoint) : option (list sfxDatapoint) :=
  match l with
  | [] => Some []
  | d :: l =>
      match ValueToValue (jd_Value d) with
      | Err _ => jsonPoints mt l
      | Ok v =>
          ty ← fromMT mt;
          out ← jsonPoints mt l;
          Some ({| sd_Metric := jd_Metric d; sd_Type := ty; sd_Value := v; sd_Time := Some (fromTs (jd_Timestamp d));
                   sd_Dimensions := jd_Dimensions d; sd_Meta := ∅ |} :: out)
      end
  end.

Fixpoint jsonTypes (l : list (string * list JSONDatapoint)) : handled :=
  match l with
  | [] => Handled [] None
  | (metricType, datapoints) :: l =>
      match datapoints with
      | [] => jsonTypes l
      | _ :: _ =>
          match MetricType_value (ToUpper metricType) with
          | None => jsonTypes l
          | Some mt =>
              match jsonPoints mt datapoints with
              | None => Panicked []
              | Some out => match jsonTypes l with Handled sent e => Handled (out :: sent) e | Panicked sent => Panicked (out :: sent) end
              end
          end
      end
  end.

Definition oks {A} (l : list (res A)) : list A := omap (λ r, match r with Ok a => Some a | Err _ => None end) l.

Definition HandleLogMessage (m : messageReadWriter) : handled * messageReadWriter :=
  let '(n, r) := decodeLog (payload m) in
  (Handled [] (match r with Ok _ => None | Err e => Some e end), readPayload n m).

Definition handleMessage (msgType : Z) (m : messageReadWriter) : handled * messageReadWriter :=
  if msgType =? messageTypeDatapointJSONList then
    let '(content, m) := ReadAll m in
    (match UnmarshalV2 content with Err e => Handled [] (Some e) | Ok d => jsonTypes (range d) end, m)
  else if msgType =? messageTypeDatapointProtobufList then
    let '(content, m) := ReadAll m in
    (match UnmarshalUpload content with Err e => Handled [] (Some e) | Ok points => Handled [oks points] None end, m)
  else if msgType =? MessageTypeLog then HandleLogMessage m
  else (Handled [] (Some (Errorf "unknown message type received %d" [pretty msgType])), m).

(** How [ProcessMessages] ends. *)
Inductive ending := Cancelled | ReceiveFailed (e : error) | Crashed.
Definition prepend (sent : list (list sfxDatapoint)) (r : list (list sfxDatapoint) * ending) : list (list sfxDatapoint) * ending :=
  (sent ++ r.1, r.2).

(** [cancelled i]: the context is done when message [i] has been received. *)
Fixpoint ProcessMessages (fuel : nat) (cancelled : nat → bool) (m : messageReadWriter) : option (list (list sfxDatapoint) * ending) :=
  match fuel with
  | O => None
  | S fuel =>
      let '(r, m) := RecvMessage m in
      if cancelled 0%nat then Some ([], Cancelled)
      else match r with
           | Err e => Some ([], ReceiveFailed e)
           | Ok msgType =>
               match handleMessage msgType m with
               | (Panicked sent, _) => Some (sent, Crashed)
               | (Handled sent _, m) => prepend sent <$> ProcessMessages fuel (λ i, cancelled (S i)) m
               end
           end
  end.
End handler.

(** ** core.go: goroutines *)

(** The caller of [ConfigureInSubproc]: holding the lock, in [Wait], woken and
    waiting for the lock, or returned. *)
Inductive mainPc := MainLocked | MainWaiting | MainWoken | MainReturned (r : option error).
(** The goroutine that configures: before the lock, holding it, after unlocking
    and before the broadcast, or after it. *)
Inductive confPc := ConfIdle | ConfLocked | ConfUnlocked (r : option error) | ConfFinished (r : option error).
(** The loop of [runWithRestart]: making the pipes, starting the process, waiting
    for it, after [run] returned, sleeping, or returned. *)
Inductive runPc := RunPipes | RunStarting | RunWaiting | RunReturned | RunSleeping | RunEnded.

Record round := { rd_started : bool; rd_conf : confPc }.
Record core := {
  co_main : mainPc; co_rounds : list round; co_run : runPc;
  co_exited : bool;                            (* some [run] has returned *)
  co_result : option error; co_shutdown : bool;
}.

(** The lock of the condition: held by the caller or by one of the goroutines. *)
Definition rd_locked (r : round) : bool := match rd_conf r with ConfLocked => true | _ => false end.
Definition locked (s : core) : bool := match co_main s with MainLocked => true | _ => false end || existsb rd_locked (co_rounds s).

Definition wake (p : mainPc) : mainPc := match p with MainWaiting => MainWoken | p => p end.
Definition setConf (i : nat) (c : confPc) (s : core) : list round :=
  alter (λ r, {| rd_started := rd_started r; rd_conf := c |}) i (co_rounds s).
Definition setStarted (i : nat) (s : core) : list round :=
  alter (λ r, {| rd_started := true; rd_conf := rd_conf r |}) i (co_rounds s).
Definition newRound : round := {| rd_started := false; rd_conf := ConfIdle |}.
Definition initial : core :=
  {| co_main := MainLocked; co_rounds := []; co_run := RunPipes; co_exited := false; co_result := None; co_shutdown := false |}.

Inductive step : core → core → Prop :=
| main_wait s : co_main s = MainLocked →
    step s {| co_main := MainWaiting; co_rounds := co_rounds s; co_run := co_run s; co_exited := co_exited s; co_result := co_result s; co_shutdown := co_shutdown s |}
| main_return s : co_main s = MainWoken → locked s = false →
    step s {| co_main := MainReturned (co_result s); co_rounds := co_rounds s; co_run := co_run s; co_exited := co_exited s; co_result := co_result s; co_shutdown := co_shutdown s |}
| conf_lock s i r : co_rounds s !! i = Some r → rd_conf r = ConfIdle → locked s = false →
    step s {| co_main := co_main s; co_rounds := setConf i ConfLocked s; co_run := co_run s; co_exited := co_exited s; co_result := co_result s; co_shutdown := co_shutdown s |}
(* only a process that was started answers *)
| conf_unlock s i r res : co_rounds s !! i = Some r → rd_conf r = ConfLocked → (res = None → rd_started r = true) →
    step s {| co_main := co_main s; co_rounds := setConf i (ConfUnlocked res) s; co_run := co_run s; co_exited := co_exited s; co_result := res; co_shutdown := co_shutdown s |}
| conf_broadcast s i r res : co_rounds s !! i = Some r → rd_conf r = ConfUnlocked res →
    step s {| co_main := wake (co_main s); co_rounds := setConf i (ConfFinished res) s; co_run := co_run s; co_exited := co_exited s; co_result := co_result s;
              co_shutdown := co_shutdown s || match co_result s with Some _ => true | None => false end |}
| run_start s : co_run s = RunStarting →
    step s {| co_main := co_main s; co_rounds := setStarted (length (co_rounds s) - 1) s; co_run := RunWaiting; co_exited := co_exited s; co_result := co_result s; co_shutdown := co_shutdown s |}
| run_fails s : co_run s = RunStarting →
    step s {| co_main := co_main s; co_rounds := co_rounds s; co_run := RunReturned; co_exited := true; co_result := co_result s; co_shutdown := co_shutdown s |}
| run_exits s : co_run s = RunWaiting →
    step s {| co_main := co_main s; co_rounds := co_rounds s; co_run := RunReturned; co_exited := true; co_result := co_result s; co_shutdown := co_shutdown s |}
| run_broadcast s : co_run s = RunReturned →
    step s {| co_main := wake (co_main s); co_rounds := co_rounds s; co_run := if co_shutdown s then RunEnded else RunSleeping;
              co_exited := co_exited s; co_result := co_result s; co_shutdown := co_shutdown s |}
| run_restart s : co_run s = RunSleeping →
    step s {| co_main := co_main s; co_rounds := co_rounds s; co_run := RunPipes; co_exited := co_exited s; co_result := co_result s; co_shutdown := co_shutdown s |}
| run_pipes_fail s : co_run s = RunPipes →
    step s {| co_main := co_main s; co_rounds := co_rounds s; co_run := RunEnded; co_exited := co_exited s; co_result := co_result s; co_shutdown := co_shutdown s |}
| run_pipes s : co_run s = RunPipes →
    step s {| co_main := co_main s; co_rounds := co_rounds s ++ [newRound]; co_run := RunStarting; co_exited := co_exited s; co_result := co_result s; co_shutdown := co_shutdown s |}
| shutdown s :
    step s {| co_main := co_main s; co_rounds := co_rounds s; co_run := co_run s; co_exited := co_exited s; co_result := co_result s; co_shutdown := true |}.

Definition reachable (s : core) : Prop := rtc step initial s.

(** ** Framing *)

Lemma ofByte_byteOf z : ofByte (byteOf z) = z mod 256.
Proof.
  unfold ofByte, byteOf. rewrite N_ascii_embedding; [rewrite Z2N.id; [done|] |]; pose proof (Z.mod_pos_bound z 256 eq_refl); lia.
Qed.

(** A bit of the four bytes is that of the number. *)
Lemma byte_bit v k i : 0 <= k → Z.testbit (Z.shiftr v k mod 2 ^ 8) i = (0 <=? i) && (i <? 8) && Z.testbit v (i + k).
Proof.
  intros Hk. destruct (Z.leb_spec 0 i) as [Hi|Hi]; [| by rewrite Z.testbit_neg_r].
  destruct (Z.ltb_spec i 8) as [H8|H8]; cbn [andb].
  - by rewrite Z.mod_pow2_bits_low, Z.shiftr_spec.
  - by rewrite Z.mod_pow2_bits_high.
Qed.
Lemma shifted_byte_bit v k i : 0 <= k → 0 <= i →
  Z.testbit (Z.shiftl (Z.shiftr v k mod 2 ^ 8) k) i = (k <=? i) && (i <? k + 8) && Z.testbit v i.
Proof.
  intros Hk Hi. rewrite Z.shiftl_spec, byte_bit by done. replace (i - k + k) with i by lia.
  f_equal. f_equal; apply Bool.eq_iff_eq_true; rewrite ?Z.leb_le, ?Z.ltb_lt; lia.
Qed.

Lemma BigEndian_roundtrip v : BigEndianUint32 (PutUint32 v) = u32 v.
Proof.
  unfold PutUint32, BigEndianUint32, u32. rewrite !ofByte_byteOf. change 256 with (2 ^ 8).
  apply Z.bits_inj'. intros i Hi. rewrite !Z.lor_spec, !shifted_byte_bit by lia.
  rewrite <-(Z.shiftr_0_r v) at 1. rewrite byte_bit, Z.add_0_r by lia.
  destruct (Z.ltb_spec i 32) as [H32|H32]; [rewrite Z.mod_pow2_bits_low by lia | rewrite Z.mod_pow2_bits_high by lia].
  - destruct (Z.testbit v i); rewrite ?andb_false_r, ?andb_true_r; [|done].
    rewrite !orb_true_iff, !andb_true_iff, !Z.leb_le, !Z.ltb_lt. lia.
  - rewrite !orb_false_iff, !andb_false_iff, !Z.leb_gt, !Z.ltb_ge. lia.
Qed.

Lemma slen_PutUint32 v : slen (PutUint32 v) = 4%nat.
Proof. done. Qed.
Lemma ReadFull4_app b r w o l : slen b = 4%nat →
  ReadFull4 {| Reader := b +:+ r; Writer := w; writable := o; lastPayload := l |} = (Ok b, {| Reader := r; Writer := w; writable := o; lastPayload := l |}).
Proof.
  intros Hb. unfold ReadFull4, setReader. cbn [Reader Writer writable lastPayload]. rewrite slen_append, Hb.
  change (4 + slen r =? 0)%nat with false. change (4 + slen r <? 4)%nat with false. cbn match.
  rewrite <-Hb, stake_app, sdrop_app. done.
Qed.

Lemma u32_small z : 0 <= z < 2 ^ 32 → u32 z = z.
Proof. apply Z.mod_small. Qed.
Lemma u32_idemp z : u32 (u32 z) = u32 z.
Proof. apply Zmod_mod. Qed.

Definition frame (msgType : Z) (b : string) : string := PutUint32 (u32 msgType) +:+ PutUint32 (u32 (Z.of_nat (slen b))) +:+ b.

(** What is sent is a frame. *)
Lemma SendMessage_frame t b m : writable m = true →
  SendMessage t b m = Ok {| Reader := Reader m; Writer := Writer m +:+ frame t (default "" b); writable := true; lastPayload := lastPayload m |}.
Proof.
  intros Hw. unfold SendMessage, Write. rewrite Hw. cbn [mbind res_bind writable Reader Writer lastPayload].
  unfold frame. destruct b as [b|]; cbn [default]; rewrite !append_assoc; [done|]. by rewrite append_nil_r.
Qed.

(** Nothing of the last payload is left to read. *)
Definition drained (m : messageReadWriter) : Prop := match lastPayload m with Some n => n <= 0 | None => True end.
Definition received (b : string) (rest : string) (m : messageReadWriter) : messageReadWriter :=
  setReader (b +:+ rest) (Some (u32 (Z.of_nat (slen b)))) m.

Lemma RecvMessage_frame t b rest m : drained m → Reader m = frame t b +:+ rest →
  RecvMessage m = (Ok (u32 t), received b rest m).
Proof.
  intros Hd Hr. destruct m as [r w o l]. cbn [Reader] in Hr. subst r. unfold RecvMessage. cbn [lastPayload].
  assert (Hl : match l with Some n => 0 <? n | None => false end = false).
  { unfold drained in Hd. cbn [lastPayload] in Hd. destruct l; [by apply Z.ltb_ge | done]. }
  rewrite Hl. unfold frame. rewrite !append_assoc, !ReadFull4_app by apply slen_PutUint32.
  by rewrite !BigEndian_roundtrip, !u32_idemp.
Qed.

Lemma sdrop_app_le n s r : (n <= slen s)%nat → sdrop n (s +:+ r) = sdrop n s +:+ r.
Proof.
  revert n. induction s as [|c s IH]; intros [|n] Hn; try done; [cbn in Hn; lia|]. rewrite append_cons. cbn [sdrop]. apply IH. cbn in Hn. lia.
Qed.
Lemma payload_received b rest m : Z.of_nat (slen b) < 2 ^ 32 → payload (received b rest m) = b.
Proof.
  intros Hb. unfold payload, received, setReader. cbn [lastPayload Reader default from_option id].
  rewrite u32_small, Nat2Z.id by lia. apply stake_app.
Qed.
Lemma readPayload_received n b rest m : Z.of_nat (slen b) < 2 ^ 32 →
  readPayload n (received b rest m) = setReader (sdrop (n `min` slen b) b +:+ rest) (Some (Z.of_nat (slen b - n))) m.
Proof.
  intros Hb. unfold readPayload. rewrite payload_received by done. unfold received, setReader. cbn [lastPayload Reader Writer writable fmap option_fmap option_map].
  rewrite u32_small by lia. f_equal; [|f_equal; lia].
  apply sdrop_app_le. lia.
Qed.
Lemma ReadAll_received b rest m : Z.of_nat (slen b) < 2 ^ 32 → ReadAll (received b rest m) = (b, setReader rest (Some 0) m).
Proof.
  intros Hb. unfold ReadAll. rewrite payload_received, readPayload_received by done.
  rewrite sdrop_all, append_nil_l by lia. by rewrite Nat.sub_diag.
Qed.

(** Messages that fit: a type and a length of 32 bits. *)
Definition fits (tb : Z * string) : Prop := 0 <= tb.1 < 2 ^ 32 ∧ Z.of_nat (slen tb.2) < 2 ^ 32.
Definition frames (msgs : list (Z * string)) : string := foldr (λ tb s, frame tb.1 tb.2 +:+ s) "" msgs.

Definition sendAll (msgs : list (Z * string)) (m : messageReadWriter) : res messageReadWriter :=
  foldM_res (λ m tb, SendMessage tb.1 (Some tb.2) m) m msgs.
Fixpoint recvAll (n : nat) (m : messageReadWriter) : res (list (Z * string)) * messageReadWriter :=
  match n with
  | O => (Ok [], m)
  | S n =>
      match RecvMessage m with
      | (Err e, m) => (Err e, m)
      | (Ok t, m) =>
          let '(b, m) := ReadAll m in
          let '(r, m) := recvAll n m in
          (l ← r; Ok ((t, b) :: l), m)
      end
  end.

Lemma sendAll_frames msgs m : writable m = true →
  sendAll msgs m = Ok {| Reader := Reader m; Writer := Writer m +:+ frames msgs; writable := true; lastPayload := lastPayload m |}.
Proof.
  revert m. induction msgs as [|[t b] msgs IH]; intros m Hw; cbn [sendAll foldM_res frames foldr].
  - destruct m; cbn in *. by rewrite Hw, append_nil_r.
  - rewrite SendMessage_frame by done. cbn [mbind res_bind fst snd default from_option id]. unfold sendAll in IH. rewrite IH by done. cbn [Writer Reader lastPayload]. by rewrite append_assoc.
Qed.
Lemma recvAll_frames msgs rest m : Forall fits msgs → drained m → Reader m = frames msgs +:+ rest →
  ∃ l, recvAll (length msgs) m = (Ok msgs, setReader rest l m) ∧ drained (setReader rest l m).
Proof.
  intros Hf. revert m. induction Hf as [|[t b] msgs [Ht Hb] _ IH]; intros m Hd Hr; cbn [length recvAll].
  - exists (lastPayload m). destruct m; cbn in *. by rewrite append_nil_l in Hr; subst.
  - cbn [frames foldr fst snd] in Hr, Ht, Hb. rewrite append_assoc in Hr. rewrite (RecvMessage_frame t b (frames msgs +:+ rest)) by done.
    rewrite ReadAll_received by done. edestruct (IH (setReader (frames msgs +:+ rest) (Some 0) m)) as (l & -> & Hl); [done..|].
    exists l. rewrite u32_small by done. done.
Qed.

(** C18: The bytes a series of messages is sent as are received at the other end of
    the pipe as the same series, each payload whole, and then the end of file;
    types and lengths of 32 bits are the only restriction. *)
Theorem messages_roundtrip (msgs : list (Z * string)) :
  Forall fits msgs →
  ∃ m', sendAll msgs {| Reader := ""; Writer := ""; writable := true; lastPayload := None |} = Ok m' ∧
  let '(r, m) := recvAll (length msgs) {| Reader := Writer m'; Writer := ""; writable := true; lastPayload := None |} in
  r = Ok msgs ∧ (RecvMessage m).1 = Err (Errorf "EOF" []).
Proof.
  intros Hf. rewrite sendAll_frames by done. eexists. split; [done|]. cbn [Writer Reader]. rewrite append_nil_l.
  set (m0 := {| Reader := frames msgs; Writer := ""; writable := true; lastPayload := None |}).
  destruct (recvAll_frames msgs "" m0 Hf I) as (l & -> & Hl); [by rewrite append_nil_r|]. split; [done|].
  unfold RecvMessage, drained, setReader in *. cbn [lastPayload] in *. destruct l as [n|]; [|done]. by rewrite (proj2 (Z.ltb_ge 0 n)).
Qed.

Lemma messages_roundtrip_witness : Forall fits [(1, "{}"); (200, "abc")] ∧
  ∃ m', sendAll [(1, "{}"); (200, "abc")] {| Reader := ""; Writer := ""; writable := true; lastPayload := None |} = Ok m' ∧
  let '(r, m) := recvAll 2 {| Reader := Writer m'; Writer := ""; writable := true; lastPayload := None |} in
  r = Ok [(1, "{}"); (200, "abc")] ∧ (RecvMessage m).1 = Err (Errorf "EOF" []).
Proof.
  assert (Hf : Forall fits [(1, "{}"); (200, "abc")]) by (repeat constructor; cbn; lia).
  split; [exact Hf | exact (messages_roundtrip _ Hf)].
Defined.

(** A length of 2^32 or more is sent modulo 2^32, so the receiver takes the rest of
    the payload for further messages. *)
Lemma oversized_payload t b m m' : Writer m = "" → writable m = true → 2 ^ 32 <= Z.of_nat (slen b) →
  match SendMessage t (Some b) m with
  | Ok m1 => let '(r, m2) := RecvMessage (setReader (Writer m1) None m') in r = Ok (u32 t) ∧ (payload m2 ≠ b)
  | Err _ => False
  end.
Proof.
  intros Hw Hwr Hb. rewrite SendMessage_frame by done. cbn [default from_option id Writer]. rewrite Hw, append_nil_l.
  rewrite (RecvMessage_frame t b "") by (done || by rewrite append_nil_r). split; [done|]. intros Heq.
  assert (Hl : slen (payload (received b "" (setReader (frame t b) None m'))) = slen b) by by rewrite Heq.
  unfold payload, received, setReader in Hl. cbn [lastPayload Reader default from_option id] in Hl. rewrite slen_stake in Hl.
  pose proof (Z.mod_pos_bound (Z.of_nat (slen b)) (2 ^ 32) eq_refl). unfold u32 in Hl. lia.
Qed.

(** ** Processing *)

Section processing.
Context `{HandlerDeps} `{MapRange} (now : Z).

(** What handling a message of this type and payload does, and how many bytes of
    the payload it takes. *)
Definition effect (t : Z) (b : string) : handled * nat :=
  if t =? messageTypeDatapointJSONList then
    (match UnmarshalV2 b with Err e => Handled [] (Some e) | Ok d => jsonTypes now (range d) end, slen b)
  else if t =? messageTypeDatapointProtobufList then
    (match UnmarshalUpload b with Err e => Handled [] (Some e) | Ok points => Handled [oks points] None end, slen b)
  else if t =? MessageTypeLog then
    (Handled [] (match (decodeLog b).2 with Ok _ => None | Err e => Some e end), ((decodeLog b).1 `min` slen b)%nat)
  else (Handled [] (Some (Errorf "unknown message type received %d" [pretty t])), 0%nat).

Lemma effect_le t b : ((effect t b).2 <= slen b)%nat.
Proof. unfold effect. repeat case_match; cbn; lia. Qed.

Lemma handleMessage_received t b rest m : Z.of_nat (slen b) < 2 ^ 32 →
  let '(h, n) := effect t b in
  handleMessage now t (received b rest m) = (h, setReader (sdrop n b +:+ rest) (Some (Z.of_nat (slen b - n))) m).
Proof.
  intros Hb. unfold effect, handleMessage. destruct (t =? _).
  { rewrite ReadAll_received, sdrop_all, append_nil_l, Nat.sub_diag by (done || lia). done. }
  destruct (t =? _).
  { rewrite ReadAll_received, sdrop_all, append_nil_l, Nat.sub_diag by (done || lia). by destruct (UnmarshalUpload b). }
  destruct (t =? _).
  - unfold HandleLogMessage. rewrite payload_received by done. destruct (decodeLog b) as [n r]. cbn [fst snd].
    rewrite readPayload_received by done. do 3 f_equal. f_equal. lia.
  - cbn [sdrop]. unfold received. by rewrite Nat.sub_0_r, u32_small by lia.
Qed.

(** The messages before the first whose payload is not taken whole: each was
    handled, failing or not, without a panic. *)
Definition taken (tb : Z * string) (sent : list (list sfxDatapoint)) : Prop :=
  fits tb ∧ ∃ e, effect tb.1 tb.2 = (Handled sent e, slen tb.2).

Lemma ProcessMessages_taken msgs sents rest fuel m :
  Forall2 taken msgs sents → drained m → Reader m = frames msgs +:+ rest →
  ∃ l, drained (setReader rest l m) ∧
  ProcessMessages now (length msgs + fuel) (λ _, false) m =
  prepend (concat sents) <$> ProcessMessages now fuel (λ _, false) (setReader rest l m).
Proof.
  intros Hf. revert m. induction Hf as [|[t b] sent msgs sents [[Ht Hb] [e He]] _ IH]; intros m Hd Hr; cbn [length Nat.add concat].
  - exists (lastPayload m). cbn [frames foldr] in Hr. rewrite append_nil_l in Hr. subst rest.
    replace (setReader (Reader m) (lastPayload m) m) with m by by destruct m. split; [done|].
    destruct (ProcessMessages now fuel (λ _, false) m) as [[? ?]|]; done.
  - cbn [frames foldr fst snd] in Hr, Ht, Hb, He. rewrite append_assoc in Hr. cbn [ProcessMessages].
    rewrite (RecvMessage_frame t b (frames msgs +:+ rest)) by done. rewrite u32_small by done.
    pose proof (handleMessage_received t b (frames msgs +:+ rest) m Hb) as Hh. rewrite He in Hh. rewrite Hh.
    rewrite sdrop_all, append_nil_l, Nat.sub_diag by lia.
    destruct (IH (setReader (frames msgs +:+ rest) (Some 0) m)) as (l & Hl & Hp); [done..|]. exists l. split; [done|].
    change (Z.of_nat 0) with 0. rewrite Hp. unfold setReader; cbn [Writer writable]. destruct (ProcessMessages now fuel _ _) as [[? ?]|]; [|done].
    cbn. unfold prepend. cbn. by rewrite app_assoc.
Qed.

(** A stream of messages whose payloads are taken whole is processed to its end:
    the batches sent are those of the messages, in order; a message that fails is
    skipped and the ones after it are processed. *)
Theorem ProcessMessages_delivers (msgs : list (Z * string)) (sents : list (list (list sfxDatapoint))) (fuel : nat) :
  Forall2 taken msgs sents → (length msgs < fuel)%nat →
  ProcessMessages now fuel (λ _, false) {| Reader := frames msgs; Writer := ""; writable := true; lastPayload := None |} =
  Some (concat sents, ReceiveFailed (Errorf "EOF" [])).
Proof.
  intros Hf Hfuel. set (m := {| Reader := frames msgs; Writer := ""; writable := true; lastPayload := None |}).
  destruct (ProcessMessages_taken msgs sents "" (fuel - length msgs) m Hf I) as (l & Hl & Hp); [by rewrite append_nil_r|].
  replace fuel with (length msgs + (fuel - length msgs))%nat by lia. rewrite Hp.
  destruct (fuel - length msgs)%nat as [|k] eqn:Hk; [lia|]. cbn [ProcessMessages].
  assert (Hr : RecvMessage (setReader "" l m) = (Err (Errorf "EOF" []), setReader "" l m)).
  { unfold RecvMessage, drained, setReader in *. cbn [lastPayload] in *. destruct l as [n|]; [|done]. by rewrite (proj2 (Z.ltb_ge 0 n)). }
  rewrite Hr. cbn. unfold prepend. cbn. by rewrite app_nil_r.
Qed.

(** A message that is not taken whole, such as one of an unknown type with a
    payload, ends the processing at the next receive: whatever follows it in the
    stream is lost, although the code means to go on after such an error. *)
Theorem unread_payload_ends_processing (msgs : list (Z * string)) (sents : list (list (list sfxDatapoint)))
    (t : Z) (b rest : string) sent e n (fuel : nat) :
  Forall2 taken msgs sents → fits (t, b) → effect t b = (Handled sent e, n) → (n < slen b)%nat → (S (length msgs) < fuel)%nat →
  ProcessMessages now fuel (λ _, false)
    {| Reader := frames msgs +:+ frame t b +:+ rest; Writer := ""; writable := true; lastPayload := None |} =
  Some (concat sents ++ sent, ReceiveFailed (Errorf "last payload was not fully read, cannot receive" [])).
Proof.
  intros Hf [Ht Hb] He Hn Hfuel. cbn [fst snd] in Ht, Hb.
  set (m := {| Reader := frames msgs +:+ frame t b +:+ rest; Writer := ""; writable := true; lastPayload := None |}).
  destruct (ProcessMessages_taken msgs sents (frame t b +:+ rest) (fuel - length msgs) m Hf I eq_refl) as (l & Hl & Hp).
  replace fuel with (length msgs + (fuel - length msgs))%nat by lia. rewrite Hp.
  destruct (fuel - length msgs)%nat as [|[|k]] eqn:Hk; [lia..|]. cbn [ProcessMessages].
  rewrite (RecvMessage_frame t b rest) by done. rewrite u32_small by done.
  pose proof (handleMessage_received t b rest (setReader (frame t b +:+ rest) l m) Hb) as Hh. rewrite He in Hh. rewrite Hh.
  unfold RecvMessage at 1. unfold setReader at 1. cbn [lastPayload].
  rewrite (proj2 (Z.ltb_lt 0 _)) by lia. cbn. unfold prepend. cbn. by rewrite app_nil_r.
Qed.

(** Whatever the stream holds, fuel for its bytes is enough. *)
Lemma ReadFull4_shorter m b m' : ReadFull4 m = (Ok b, m') → (slen (Reader m') + 4 = slen (Reader m))%nat.
Proof.
  unfold ReadFull4. destruct (Nat.eqb_spec (slen (Reader m)) 0); [done|]. destruct (Nat.ltb_spec (slen (Reader m)) 4); [done|].
  intros [_ <-]%pair_equal_spec. unfold setReader. cbn [Reader]. rewrite slen_sdrop. lia.
Qed.
Lemma RecvMessage_shorter m t m' : RecvMessage m = (Ok t, m') → (slen (Reader m') < slen (Reader m))%nat.
Proof.
  unfold RecvMessage. destruct (match lastPayload m with Some n => 0 <? n | None => false end); [done|].
  destruct (ReadFull4 m) as [[b|e] m1] eqn:H1; [|done]. destruct (ReadFull4 m1) as [[b2|e] m2] eqn:H2; [|done].
  intros [= _ <-]. cbn [setReader Reader]. apply ReadFull4_shorter in H1, H2. lia.
Qed.
Lemma readPayload_le n m : (slen (Reader (readPayload n m)) <= slen (Reader m))%nat.
Proof. unfold readPayload, setReader. cbn [Reader]. rewrite slen_sdrop. lia. Qed.
Lemma handleMessage_le t m : (slen (Reader (handleMessage now t m).2) <= slen (Reader m))%nat.
Proof.
  unfold handleMessage, ReadAll. destruct (t =? _); [apply readPayload_le|]. destruct (t =? _); [apply readPayload_le|].
  destruct (t =? _); [|done]. unfold HandleLogMessage. destruct (decodeLog (payload m)). apply readPayload_le.
Qed.
Lemma ProcessMessages_total fuel cancelled m : (slen (Reader m) < fuel)%nat → is_Some (ProcessMessages now fuel cancelled m).
Proof.
  revert cancelled m. induction fuel as [|fuel IH]; intros cancelled m Hf; [lia|]. cbn [ProcessMessages].
  destruct (RecvMessage m) as [r m1] eqn:Hr. destruct (cancelled 0%nat); [done|]. destruct r as [t|e]; [|done].
  apply RecvMessage_shorter in Hr. pose proof (handleMessage_le t m1) as Hle. destruct (handleMessage now t m1) as [[sent err|sent] m2]; [|done].
  apply fmap_is_Some. apply IH. cbn [snd] in Hle. lia.
Qed.
End processing.

Lemma waitForConfigure_total decodeResult fuel m : (slen (Reader m) < fuel)%nat → is_Some (waitForConfigure decodeResult fuel m).
Proof.
  revert m. induction fuel as [|fuel IH]; intros m Hf; [lia|]. cbn [waitForConfigure]. destruct (RecvMessage m) as [[t|e] m1] eqn:Hr; [|done].
  apply RecvMessage_shorter in Hr. unfold ReadAll. destruct (t =? _); [done|]. destruct (t =? _); [|done].
  destruct (IH (readPayload (slen (payload m1)) m1)) as [[[r logs] m2] ->]; [|done].
  pose proof (readPayload_le (slen (payload m1)) m1). lia.
Qed.

(** Configuring sends the configuration as one message; log messages before the
    answer are handled in order, the answer decides, and any other message before
    it is an error; nothing of the stream after the answer is touched. *)
Theorem doConfigure_correct (decodeResult : string → res (option string)) (json : string) (logs : list string) (t : Z) (b rest : string) (fuel : nat) :
  Forall (λ l, Z.of_nat (slen l) < 2 ^ 32) logs → fits (t, b) → t ≠ MessageTypeLog → (length logs < fuel)%nat →
  let stream := frames (map (pair MessageTypeLog) logs ++ [(t, b)]) +:+ rest in
  ∃ l, doConfigure decodeResult fuel json {| Reader := stream; Writer := ""; writable := true; lastPayload := None |} =
  Some (if t =? MessageTypeConfigureResult
        then match decodeResult b with Ok None => Ok () | Ok (Some msg) => Err (Errorf msg []) | Err e => Err e end
        else Err (Errorf "got unexpected message code %d from subprocess monitor" [pretty t]),
        logs, {| Reader := rest; Writer := frame MessageTypeConfigure json; writable := true; lastPayload := l |}).
Proof.
  intros Hlogs [Ht Hb] Hnl Hfuel stream. unfold doConfigure. rewrite SendMessage_frame by done. cbn [default from_option id Writer Reader lastPayload].
  rewrite append_nil_l. set (w := frame MessageTypeConfigure json). subst stream. cbn [fst snd] in Ht, Hb.
  enough (Hg : ∀ last fuel, match last with Some n => n <= 0 | None => True end → (length logs < fuel)%nat →
    ∃ l, waitForConfigure decodeResult fuel {| Reader := frames (map (pair MessageTypeLog) logs ++ [(t, b)]) +:+ rest; Writer := w; writable := true; lastPayload := last |} =
    Some (if t =? MessageTypeConfigureResult then decodeResult b else Err (Errorf "got unexpected message code %d from subprocess monitor" [pretty t]),
      logs, {| Reader := rest; Writer := w; writable := true; lastPayload := l |})).
  { destruct (Hg None fuel I Hfuel) as [l ->]. exists l. cbn. by destruct (t =? _). }
  clear Hfuel fuel. induction Hlogs as [|log logs Hlog _ IH]; intros last fuel Hd Hfuel; (destruct fuel as [|fuel]; [cbn in Hfuel; lia|]); cbn [waitForConfigure].
  - cbn [map app frames foldr fst snd]. rewrite append_nil_r.
    rewrite (RecvMessage_frame t b rest) by done. rewrite u32_small, ReadAll_received by done. exists (Some 0).
    destruct (t =? MessageTypeConfigureResult); [done|]. by destruct (Z.eqb_spec t MessageTypeLog).
  - cbn [map app frames foldr fst snd]. fold (frames (map (pair MessageTypeLog) logs ++ [(t, b)])). rewrite append_assoc.
    rewrite (RecvMessage_frame MessageTypeLog log (frames (map (pair MessageTypeLog) logs ++ [(t, b)]) +:+ rest)) by done.
    rewrite ReadAll_received by done. change (u32 MessageTypeLog =? MessageTypeConfigureResult) with false. cbn match.
    change (u32 MessageTypeLog =? MessageTypeLog) with true. cbn match. unfold setReader. cbn [Writer writable].
    destruct (IH (Some 0) fuel) as [l ->]; [done | cbn in Hfuel; lia |]. exists l. done.
Qed.

(** ** The result of a configuration *)

Definition answer (r : round) : option (option error) :=
  match rd_conf r with ConfUnlocked res | ConfFinished res => Some res | _ => None end.
Definition answered_started (r : round) : Prop := answer r = Some None → rd_started r = true.

Record core_inv (s : core) : Prop := {
  ci_result : Some (co_result s) ∈ map answer (co_rounds s) ∨ co_result s = None ∧ Forall (λ a, a = None) (map answer (co_rounds s));
  ci_started : Forall answered_started (co_rounds s);
  ci_woken : co_main s = MainWoken → co_exited s = true ∨ ¬ Forall (λ a, a = None) (map answer (co_rounds s));
  ci_returned : co_run s = RunReturned → co_exited s = true;
}.

Lemma alter_answers (f : round → round) i l r : l !! i = Some r → answer (f r) = answer r → map answer (alter f i l) = map answer l.
Proof.
  intros Hi Hf. revert i Hi. induction l as [|x l IH]; intros [|i] Hi; try done; cbn in Hi |- *.
  - injection Hi as ->. by rewrite Hf.
  - f_equal. by apply IH.
Qed.
Lemma answer_elem l i r res : l !! i = Some r → answer r = Some res → Some res ∈ map answer l.
Proof. intros Hi Hr. apply list_elem_of_fmap. exists r. split; [done|]. by eapply list_elem_of_lookup_2. Qed.
Lemma some_not_all_none {A} (l : list (option A)) x : Some x ∈ l → ¬ Forall (λ a, a = None) l.
Proof. intros Hx Hall. rewrite Forall_forall in Hall. by specialize (Hall _ Hx). Qed.
Lemma alter_started (f : round → round) i l r : l !! i = Some r → answered_started (f r) → Forall answered_started l →
  Forall answered_started (alter f i l).
Proof. intros Hi Hf Hl. apply Forall_alter; [done|]. intros x Hx _. rewrite Hi in Hx. by injection Hx as <-. Qed.

(** A step of one goroutine that keeps the answers. *)
Lemma setConf_keeps s i r c : co_rounds s !! i = Some r → answer {| rd_started := rd_started r; rd_conf := c |} = answer r →
  Forall answered_started (co_rounds s) →
  map answer (setConf i c s) = map answer (co_rounds s) ∧ Forall answered_started (setConf i c s).
Proof.
  intros Hi Ha Hs. split; [by eapply alter_answers|]. eapply alter_started; [done| |done].
  unfold answered_started. rewrite Ha. exact (proj1 (Forall_forall _ _) Hs r (list_elem_of_lookup_2 _ _ _ Hi)).
Qed.

Lemma setStarted_keeps s i : Forall answered_started (co_rounds s) →
  map answer (setStarted i s) = map answer (co_rounds s) ∧ Forall answered_started (setStarted i s).
Proof.
  intros Hs. unfold setStarted. destruct (co_rounds s !! i) as [r|] eqn:Hi.
  - split; [by eapply alter_answers | by eapply alter_started].
  - assert (Hn : alter (λ r, {| rd_started := true; rd_conf := rd_conf r |}) i (co_rounds s) = co_rounds s); [|by rewrite Hn].
    apply list_eq. intros j. destruct (decide (i = j)) as [<-|]; [by rewrite list_lookup_alter_eq, Hi | by rewrite list_lookup_alter_ne].
Qed.

Lemma wake_returned p r : wake p = MainReturned r → p = MainReturned r.
Proof. destruct p; cbn; auto; done. Qed.

Lemma step_core_inv s s' : step s s' → core_inv s → core_inv s'.
Proof.
  intros Hst [H1 H2 H3 H4].
  destruct Hst as [s Hm|s Hm Hl|s i r Hi Hr Hl|s i r res Hi Hr Hok|s i r res Hi Hr|s Hr|s Hr|s Hr|s Hr|s Hr|s Hr|s Hr|s].
  - constructor; cbn; try done.
  - constructor; cbn; try done.
  - destruct (setConf_keeps s i r ConfLocked Hi) as [Ha Hs]; [unfold answer; by rewrite Hr|done|]. constructor; cbn; rewrite ?Ha; done.
  - assert (He : setConf i (ConfUnlocked res) s !! i = Some {| rd_started := rd_started r; rd_conf := ConfUnlocked res |})
      by (unfold setConf; by rewrite list_lookup_alter_eq, Hi).
    assert (Hin : Some res ∈ map answer (setConf i (ConfUnlocked res) s)) by (eapply answer_elem; [exact He|done]).
    constructor; cbn; [by left| |intros _; right; by eapply some_not_all_none|done].
    eapply alter_started; [done| |done]. intros Ha. injection Ha as ->. by apply Hok.
  - destruct (setConf_keeps s i r (ConfFinished res) Hi) as [Ha Hs]; [unfold answer; by rewrite Hr|done|].
    constructor; cbn; rewrite ?Ha; try done. intros _. right.
    eapply some_not_all_none, (answer_elem _ i r res Hi). unfold answer. by rewrite Hr.
  - destruct (setStarted_keeps s (length (co_rounds s) - 1) H2) as [Ha Hs]. constructor; cbn; rewrite ?Ha; done.
  - constructor; cbn; auto.
  - constructor; cbn; auto.
  - constructor; cbn; try done; [|by destruct (co_shutdown s)]. intros _. left. by apply H4.
  - constructor; cbn; done.
  - constructor; cbn; done.
  - constructor; cbn; try done; rewrite ?map_app.
    + destruct H1 as [H1|[H1 H5]]; [left; apply elem_of_app; by left | right; split; [done|]]. apply Forall_app. split; [done|]. by constructor.
    + apply Forall_app. split; [done|]. by repeat constructor.
    + intros Hw. destruct (H3 Hw) as [|H5]; [by left|right]. intros [? ?]%Forall_app. done.
  - constructor; cbn; done.
Qed.
Lemma reachable_core_inv s : reachable s → core_inv s.
Proof.
  refine (rtc_ind_r (λ s, core_inv s) _ _ _ s); [|intros a b _ Hab IH; by eapply step_core_inv].
  constructor; cbn; try done. right. split; [done|]. constructor.
Qed.

(** When [ConfigureInSubproc] returns, its result is the answer to a
    configuration, success being the answer of a process that was started; or no
    configuration was attempted yet, because the subprocess ended first, and then
    it reports success all the same. *)
Theorem configure_result (s s' : core) (r : option error) :
  reachable s → step s s' → (∀ x, co_main s ≠ MainReturned x) → co_main s' = MainReturned r →
  (∃ rd, rd ∈ co_rounds s ∧ answer rd = Some r ∧ (r = None → rd_started rd = true)) ∨
  (r = None ∧ co_exited s = true ∧ Forall (λ rd, rd_conf rd = ConfIdle) (co_rounds s)).
Proof.
  intros Hr Hst Hn Hm'. destruct (reachable_core_inv s Hr) as [H1 H2 H3 _].
  destruct Hst; cbn in Hm'; try (by apply Hn in Hm'); try (by apply wake_returned, Hn in Hm'); try discriminate.
  injection Hm' as <-. destruct H1 as [(rd & Ha & Hrd)%list_elem_of_fmap|[Hres Hall]].
  - left. exists rd. split; [done|]. split; [done|]. intros Hnone. rewrite Forall_forall in H2. apply H2; [done|]. by rewrite <-Ha, Hnone.
  - right. split; [done|]. destruct (H3 ltac:(done)) as [He|[]]; [|done]. split; [done|].
    apply Forall_forall. intros rd Hrd. rewrite Forall_forall in Hall.
    assert (Ha : answer rd = None) by (apply Hall, list_elem_of_fmap; eauto).
    unfold locked in *. match goal with H : _ || _ = false |- _ => apply orb_false_iff in H as [_ Hl] end.
    assert (Hk : rd_locked rd = false).
    { destruct (rd_locked rd) eqn:Hq; [|done]. rewrite <-Hl. symmetry. apply existsb_elem. eauto. }
    unfold answer, rd_locked in *. by destruct (rd_conf rd).
Qed.

(** Such an execution exists: a subprocess that cannot be started, whose failure is
    broadcast before the configuring goroutine takes the lock, is reported as
    configured. *)
Theorem success_without_process :
  ∃ s, reachable s ∧ co_main s = MainReturned None ∧ Forall (λ rd, rd_started rd = false) (co_rounds s).
Proof.
  eexists. split_and!.
  - unfold reachable. eapply rtc_l; [by apply run_pipes|]. eapply rtc_l; [by apply main_wait|]. eapply rtc_l; [by apply run_fails|].
    eapply rtc_l; [by apply run_broadcast|]. eapply rtc_l; [by apply main_return|]. apply rtc_refl.
  - done.
  - cbn. by repeat constructor.
Qed.

(** When the pipes of the first round cannot be made, nobody wakes the caller: it
    never returns. *)
Theorem pipes_failed_blocks (s s' : core) :
  co_run s = RunEnded → co_rounds s = [] → co_main s = MainWaiting → rtc step s s' → co_main s' = MainWaiting.
Proof.
  intros Hr Ho Hm Hs. enough (Hg : co_run s' = RunEnded ∧ co_rounds s' = [] ∧ co_main s' = MainWaiting) by tauto.
  induction Hs as [s|a b d Hab _ IH]; [done|]. apply IH; destruct Hab; cbn; try congruence;
    match goal with H : co_rounds _ !! _ = Some _ |- _ => rewrite Ho in H; done end.
Qed.

(** A metric type of the protobuf model other than the three that are translated
    makes the agent panic. *)
Lemma untranslated_type_panics `{HandlerDeps} `{MapRange} now metricType mt d v l :
  MetricType_value (ToUpper metricType) = Some mt → fromMT mt = None → ValueToValue (jd_Value d) = Ok v →
  jsonTypes now ((metricType, [d]) :: l) = Panicked [].
Proof. intros Hm Hf Hv. cbn [jsonTypes]. rewrite Hm. cbn [jsonPoints]. by rewrite Hv, Hf. Qed.

(** ** Instances *)

Definition demo_point : JSONDatapoint := {| jd_Metric := "m"; jd_Dimensions := ∅; jd_Value := AInt 1; jd_Timestamp := 5 |}.
Definition demo_deps : HandlerDeps := {|
  UnmarshalV2 _ := Ok {["gauge" := [demo_point]]};
  ValueToValue v := match v with AInt z => Ok (IntValue z) | _ => Err (Errorf "unable to convert" []) end;
  MetricType_value s :=
    if String.eqb s "GAUGE" then Some 0 else if String.eqb s "COUNTER" then Some 1 else if String.eqb s "ENUM" then Some 2
    else if String.eqb s "CUMULATIVE_COUNTER" then Some 3 else None;
  MetricType_GAUGE := 0; MetricType_COUNTER := 1; MetricType_CUMULATIVE_COUNTER := 3;
  UnmarshalUpload _ := Err (Errorf "proto" []);
  decodeLog s := (slen s, Ok {| lm_Message := s; lm_Level := "INFO" |});
|}.
Definition demo_sent : list (list sfxDatapoint) :=
  [[{| sd_Metric := "m"; sd_Type := Gauge; sd_Value := IntValue 1; sd_Time := Some 5000000; sd_Dimensions := ∅; sd_Meta := ∅ |}]].

Lemma ProcessMessages_delivers_witness :
  @ProcessMessages demo_deps forward_range 0 4 (λ _, false)
    {| Reader := frames [(201, "x"); (4, "log"); (200, "{}")]; Writer := ""; writable := true; lastPayload := None |} =
  Some (demo_sent, ReceiveFailed (Errorf "EOF" [])).
Proof.
  apply (@ProcessMessages_delivers demo_deps forward_range 0 [(201, "x"); (4, "log"); (200, "{}")] [[]; []; demo_sent]); [|cbn; lia].
  repeat constructor; cbn; try lia; eexists; vm_compute; reflexivity.
Defined.

Lemma unread_payload_ends_processing_witness :
  @ProcessMessages demo_deps forward_range 0 9 (λ _, false)
    {| Reader := frames [(200, "{}")] +:+ frame 7 "??" +:+ frames [(200, "{}"); (200, "{}")]; Writer := ""; writable := true; lastPayload := None |} =
  Some (demo_sent, ReceiveFailed (Errorf "last payload was not fully read, cannot receive" [])).
Proof.
  apply (@unread_payload_ends_processing demo_deps forward_range 0 [(200, "{}")] [demo_sent] 7 "??" (frames [(200, "{}"); (200, "{}")]) []
    (Some (Errorf "unknown message type received %d" ["7"])) 0); [| |vm_compute; reflexivity|cbn; lia|cbn; lia].
  - repeat constructor; cbn; try lia. eexists; vm_compute; reflexivity.
  - split; cbn; lia.
Defined.

Lemma doConfigure_correct_witness :
  ∃ l, doConfigure (λ _, Ok None) 5 "{}" {| Reader := frames [(4, "a"); (2, "ok")] +:+ "rest"; Writer := ""; writable := true; lastPayload := None |} =
  Some (Ok (), ["a"], {| Reader := "rest"; Writer := frame 1 "{}"; writable := true; lastPayload := l |}).
Proof. apply (doConfigure_correct (λ _, Ok None) "{}" ["a"] 2 "ok" "rest" 5); [by repeat constructor | split; cbn; lia | done | cbn; lia]. Defined.

(** The states of an execution in which the process answers. *)
Definition demo_core (m : mainPc) (c : confPc) : core :=
  {| co_main := m; co_rounds := [{| rd_started := true; rd_conf := c |}]; co_run := RunWaiting; co_exited := false; co_result := None; co_shutdown := false |}.
Lemma demo_core_reachable : reachable (demo_core MainWoken (ConfFinished None)).
Proof.
  unfold reachable. eapply rtc_l; [by apply run_pipes|]. eapply rtc_l; [by apply main_wait|]. eapply rtc_l; [by apply run_start|].
  eapply rtc_l; [by eapply (conf_lock _ 0)|]. eapply rtc_l; [by eapply (conf_unlock _ 0 _ None)|].
  eapply rtc_l; [by eapply (conf_broadcast _ 0)|]. apply rtc_refl.
Qed.
Lemma configure_result_witness :
  (∃ rd, rd ∈ co_rounds (demo_core MainWoken (ConfFinished None)) ∧ answer rd = Some None ∧ (None (A := error) = None → rd_started rd = true)) ∨
  (None (A := error) = None ∧ co_exited (demo_core MainWoken (ConfFinished None)) = true ∧
   Forall (λ rd, rd_conf rd = ConfIdle) (co_rounds (demo_core MainWoken (ConfFinished None)))).
Proof.
  apply (configure_result (demo_core MainWoken (ConfFinished None)) (demo_core (MainReturned None) (ConfFinished None)) None);
    [apply demo_core_reachable | by apply main_return | done | done].
Defined.

Definition demo_no_pipes (shut : bool) : core :=
  {| co_main := MainWaiting; co_rounds := []; co_run := RunEnded; co_exited := false; co_result := None; co_shutdown := shut |}.
Lemma pipes_failed_blocks_witness : co_main (demo_no_pipes true) = MainWaiting.
Proof.
  apply (pipes_failed_blocks (demo_no_pipes false) (demo_no_pipes true)); [done..|].
  eapply rtc_l; [apply shutdown | apply rtc_refl].
Defined.
