(* ===== verification/Telegraf.v ===== *)
(** * Telegraf plugins: accumulator and emitter

    [src/internal/signalfx-agent/pkg/monitors/telegraf/common]: the accumulator
    that telegraf's plugins report to ([accumulator/accumulator.go]), the emitter
    that turns measurements into data points and events
    ([emitter/baseemitter/baseemitter.go]) and the renaming of fields
    ([emitter/emitter.go]).  Telegraf's metrics are third-party code: the class
    [TelegrafMetric] is their interface, [TelegrafLaws] what its documentation
    says of it. *)

From S2P Require Import Prelude GoStrings GoValue Settings Telemetry SmartAgent HostMonitors.
#[local] Open Scope Z_scope.

Inductive ValueType := VCounter | VGauge | VUntyped | VSummary | VHistogram | VOther (n : Z).

Class TelegrafMetric (M : Type) := {
  newMetric : string → gmap string string → gmap string any → option Z → ValueType → M;
  Name : M → string;
  Type_ : M → ValueType;
  Tags : M → gmap string string;
  Fields : M → gmap string any;
  Time : M → option Z;
  AddTag : string → string → M → M;
  RemoveTag : string → M → M;
  AddField : string → any → M → M;
  RemoveField : string → M → M;
}.

(** What a metric is apart from its tags and fields. *)
Definition identity `{TelegrafMetric M} (m : M) : string * ValueType * option Z := (Name m, Type_ m, Time m).

Class TelegrafLaws (M : Type) `{TelegrafMetric M} := {
  new_tags : ∀ n tags fields t ty, Tags (newMetric n tags fields t ty) = tags;
  new_fields : ∀ n tags fields t ty, Fields (newMetric n tags fields t ty) = fields;
  new_identity : ∀ n tags fields t ty, identity (newMetric n tags fields t ty) = (n, ty, t);
  AddTag_tags : ∀ k v m, Tags (AddTag k v m) = <[k := v]> (Tags m);
  AddTag_fields : ∀ k v m, Fields (AddTag k v m) = Fields m;
  AddTag_identity : ∀ k v m, identity (AddTag k v m) = identity m;
  RemoveTag_tags : ∀ k m, Tags (RemoveTag k m) = delete k (Tags m);
  RemoveTag_fields : ∀ k m, Fields (RemoveTag k m) = Fields m;
  RemoveTag_identity : ∀ k m, identity (RemoveTag k m) = identity m;
  AddField_fields : ∀ k v m, Fields (AddField k v m) = <[k := v]> (Fields m);
  AddField_tags : ∀ k v m, Tags (AddField k v m) = Tags m;
  RemoveField_fields : ∀ k m, Fields (RemoveField k m) = delete k (Fields m);
  RemoveField_tags : ∀ k m, Tags (RemoveField k m) = Tags m;
}.

Section emitter.
Context {M : Type} `{TelegrafMetric M} `{MapRange}.
(** [datapoint.CastMetricValue]. *)
Context (CastMetricValue : any → res sfxValue).

Definition TelegrafToSFXMetricType (m : M) : sfxMetricType * string :=
  match Type_ m with
  | VGauge => (Gauge, "")
  | VCounter => (Counter, "")
  | VSummary => (Gauge, "summary")
  | VHistogram => (Gauge, "histogram")
  | VUntyped => (Gauge, "untyped")
  | VOther _ => (Gauge, "unrecognized")
  end.

(** A transformation changes what it is given, and its error is only logged. *)
Record BaseEmitter := {
  OmitPluginDimension : bool;
  omittedTags : gmap string bool; addTags : gmap string string;
  included : gmap string bool; excluded : gmap string bool; nameMap : gmap string string;
  metricNameTransformations : list (string → string);
  measurementTransformations : list (M → M * option error);
  datapointTransformations : list (sfxDatapoint → sfxDatapoint * option error);
  omitOriginalMetricType : bool;
}.

Definition NewEmitter : BaseEmitter :=
  {| OmitPluginDimension := false; omittedTags := ∅; addTags := ∅; included := ∅; excluded := ∅; nameMap := ∅;
     metricNameTransformations := []; measurementTransformations := []; datapointTransformations := []; omitOriginalMetricType := false |}.

(** The registrations. *)
Definition setTags (om : gmap string bool) (ad : gmap string string) (b : BaseEmitter) : BaseEmitter :=
  {| OmitPluginDimension := OmitPluginDimension b; omittedTags := om; addTags := ad; included := included b; excluded := excluded b; nameMap := nameMap b;
     metricNameTransformations := metricNameTransformations b; measurementTransformations := measurementTransformations b;
     datapointTransformations := datapointTransformations b; omitOriginalMetricType := omitOriginalMetricType b |}.
Definition setNames (inc exc : gmap string bool) (nm : gmap string string) (b : BaseEmitter) : BaseEmitter :=
  {| OmitPluginDimension := OmitPluginDimension b; omittedTags := omittedTags b; addTags := addTags b; included := inc; excluded := exc; nameMap := nm;
     metricNameTransformations := metricNameTransformations b; measurementTransformations := measurementTransformations b;
     datapointTransformations := datapointTransformations b; omitOriginalMetricType := omitOriginalMetricType b |}.
Definition setTransformations mn me dp (b : BaseEmitter) : BaseEmitter :=
  {| OmitPluginDimension := OmitPluginDimension b; omittedTags := omittedTags b; addTags := addTags b; included := included b; excluded := excluded b; nameMap := nameMap b;
     metricNameTransformations := mn; measurementTransformations := me; datapointTransformations := dp; omitOriginalMetricType := omitOriginalMetricType b |}.

Definition emitter_AddTag (k v : string) (b : BaseEmitter) : BaseEmitter := setTags (omittedTags b) (<[k := v]> (addTags b)) b.
Definition AddTags (tags : gmap string string) (b : BaseEmitter) : BaseEmitter := foldl (λ b kv, emitter_AddTag kv.1 kv.2 b) b (range tags).
Definition IncludeEvent (name : string) (b : BaseEmitter) : BaseEmitter := setNames (<[name := true]> (included b)) (excluded b) (nameMap b) b.
Definition IncludeEvents (names : list string) (b : BaseEmitter) : BaseEmitter := foldl (λ b n, IncludeEvent n b) b names.
Definition Included (b : BaseEmitter) (name : string) : bool := default false (included b !! name).
Definition ExcludeDatum (name : string) (b : BaseEmitter) : BaseEmitter := setNames (included b) (<[name := true]> (excluded b)) (nameMap b) b.
Definition ExcludeData (names : list string) (b : BaseEmitter) : BaseEmitter := foldl (λ b n, ExcludeDatum n b) b names.
Definition IsExcluded (b : BaseEmitter) (name : string) : bool := default false (excluded b !! name).
Definition OmitTag (tag : string) (b : BaseEmitter) : BaseEmitter := setTags (<[tag := true]> (omittedTags b)) (addTags b) b.
Definition OmitTags (tags : list string) (b : BaseEmitter) : BaseEmitter := foldl (λ b t, OmitTag t b) b tags.
Definition FilterTags (b : BaseEmitter) (key : string) : bool := negb (default false (omittedTags b !! key)).
Definition RenameMetric (original override : string) (b : BaseEmitter) : BaseEmitter :=
  setNames (included b) (excluded b) (<[original := override]> (nameMap b)) b.
Definition RenameMetrics (mappings : gmap string string) (b : BaseEmitter) : BaseEmitter :=
  foldl (λ b kv, RenameMetric kv.1 kv.2 b) b (range mappings).
Definition AddMetricNameTransformation (f : string → string) (b : BaseEmitter) : BaseEmitter :=
  setTransformations (metricNameTransformations b ++ [f]) (measurementTransformations b) (datapointTransformations b) b.
Definition AddMetricNameTransformations (fns : list (string → string)) (b : BaseEmitter) : BaseEmitter :=
  foldl (λ b f, AddMetricNameTransformation f b) b fns.
Definition AddMeasurementTransformation (f : M → M * option error) (b : BaseEmitter) : BaseEmitter :=
  setTransformations (metricNameTransformations b) (measurementTransformations b ++ [f]) (datapointTransformations b) b.
Definition AddMeasurementTransformations (fns : list (M → M * option error)) (b : BaseEmitter) : BaseEmitter :=
  foldl (λ b f, AddMeasurementTransformation f b) b fns.
Definition AddDatapointTransformation (f : sfxDatapoint → sfxDatapoint * option error) (b : BaseEmitter) : BaseEmitter :=
  setTransformations (metricNameTransformations b) (measurementTransformations b) (datapointTransformations b ++ [f]) b.
Definition AddDatapointTransformations (fns : list (sfxDatapoint → sfxDatapoint * option error)) (b : BaseEmitter) : BaseEmitter :=
  foldl (λ b f, AddDatapointTransformation f b) b fns.
Definition SetOmitOriginalMetricType (v : bool) (b : BaseEmitter) : BaseEmitter :=
  {| OmitPluginDimension := OmitPluginDimension b; omittedTags := omittedTags b; addTags := addTags b; included := included b; excluded := excluded b; nameMap := nameMap b;
     metricNameTransformations := metricNameTransformations b; measurementTransformations := measurementTransformations b;
     datapointTransformations := datapointTransformations b; omitOriginalMetricType := v |}.

Definition GetMetricName (b : BaseEmitter) (metricName field : string) : string :=
  let name := if String.eqb field "value" then "" else field in
  let name := if String.eqb name "" then metricName else metricName +:+ "." +:+ name in
  let altName := default "" (nameMap b !! name) in
  if String.eqb altName "" then foldl (λ n f, f n) name (metricNameTransformations b) else altName.

Definition TransformMeasurement (b : BaseEmitter) (m : M) : M := foldl (λ m tf, (tf m).1) m (measurementTransformations b).
Definition TransformDatapoint (b : BaseEmitter) (dp : sfxDatapoint) : sfxDatapoint := foldl (λ d tf, (tf d).1) dp (datapointTransformations b).

(** What goes to the output. *)
Inductive emission := SendDatapoint (dp : sfxDatapoint) | SendEvent (ev : sfxEvent).

(** [event.AGENT] of golib. *)
Context (AGENT : Z).

(** The part of [AddMetric] before the fields. *)
Definition prepareTags (b : BaseEmitter) (m : M) : M :=
  let m := foldl (λ m kv, RemoveTag kv.1 m) m (range (omittedTags b)) in
  let m := foldl (λ m kv, AddTag kv.1 kv.2 m) m (range (addTags b)) in
  let original := (TelegrafToSFXMetricType m).2 in
  let m := if negb (String.eqb original "") && negb (omitOriginalMetricType b) then AddTag "telegraf_type" original m else m in
  if negb (bool_decide (is_Some (Tags m !! "plugin"))) && negb (OmitPluginDimension b) then AddTag "plugin" (Name m) m else m.

Definition emitField (b : BaseEmitter) (m : M) (field : string) (val : any) : list emission :=
  let metricName := GetMetricName b (Name m) field in
  if IsExcluded b metricName then []
  else match CastMetricValue val with
       | Ok v =>
           [SendDatapoint (TransformDatapoint b
              {| sd_Metric := metricName; sd_Type := (TelegrafToSFXMetricType m).1; sd_Value := v; sd_Time := Time m;
                 sd_Dimensions := Tags m; sd_Meta := ∅ |})]
       | Err _ =>
           if Included b metricName then
             [SendEvent {| se_Time := Time m; se_Type := metricName; se_Category := AGENT; se_Dimensions := Tags m;
                           se_Properties := {["message" := val]} |}]
           else []
       end.

Definition AddMetric (b : BaseEmitter) (m : M) : list emission :=
  let m := prepareTags b (TransformMeasurement b m) in
  flat_map (λ fv, emitField b m fv.1 fv.2) (range (Fields m)).

(** ** accumulator.go *)

Definition getTime (times : list (option Z)) : option Z := match times with t :: _ => t | [] => None end.
Definition addTyped (ty : ValueType) (b : BaseEmitter) (measurement : string) (fields : gmap string any) (tags : gmap string string) (t : list (option Z)) : list emission :=
  AddMetric b (newMetric measurement tags fields (getTime t) ty).
Definition AddFields := addTyped VUntyped.
Definition AddGauge := addTyped VGauge.
Definition AddCounter := addTyped VCounter.
Definition AddSummary := addTyped VSummary.
Definition AddHistogram := addTyped VHistogram.
Definition AddMetrics (b : BaseEmitter) (ms : list M) : list emission := flat_map (AddMetric b) ms.

(** ** emitter.go *)

Definition RenameFieldWithTag (replace : string → string) (tagName fieldName : string) (m : M) : M :=
  match Tags m !! tagName with
  | None => m
  | Some tagVal =>
      let tagVal := replace tagVal in
      match Fields m !! fieldName with
      | Some val => if String.eqb tagVal "" then m else RemoveTag tagName (RemoveField fieldName (AddField tagVal val m))
      | None => m
      end
  end.
End emitter.
Arguments BaseEmitter : clear implicits.

(** ** What is emitted *)

Section laws.
Context {M : Type} `{TelegrafLaws M} `{MapRange}.
Context (CastMetricValue : any → res sfxValue) (AGENT : Z).
Implicit Types (b : BaseEmitter M) (m : M).

Lemma identity_Type m m' : identity m = identity m' → Name m = Name m' ∧ Type_ m = Type_ m' ∧ Time m = Time m'.
Proof. unfold identity. intros [= -> -> ->]. done. Qed.

(** Two metrics that differ in their tags only. *)
Definition same_but_tags m m' : Prop := identity m = identity m' ∧ Fields m = Fields m'.
#[local] Instance same_but_tags_equiv : Equivalence same_but_tags.
Proof. split; [done | intros ?? [? ?]; done | intros ??? [] []; split; congruence]. Qed.
Lemma same_AddTag k v m : same_but_tags (AddTag k v m) m.
Proof. split; [apply AddTag_identity | apply AddTag_fields]. Qed.
Lemma same_RemoveTag k m : same_but_tags (RemoveTag k m) m.
Proof. split; [apply RemoveTag_identity | apply RemoveTag_fields]. Qed.
Lemma same_foldl {A} (f : M → A → M) l m : (∀ m a, same_but_tags (f m a) m) → same_but_tags (foldl f m l) m.
Proof. intros Hf. revert m. induction l as [|a l IH]; intros m; [done|]. cbn. by rewrite IH, Hf. Qed.

(** Removing and adding tags in any order of the maps. *)
Lemma foldl_RemoveTag (l : list (string * bool)) m k :
  Tags (foldl (λ m kv, RemoveTag kv.1 m) m l) !! k = if bool_decide (k ∈ l.*1) then None else Tags m !! k.
Proof.
  revert m. induction l as [|[k' v] l IH]; intros m; [done|]. cbn [foldl fst]. rewrite IH, RemoveTag_tags. cbn [fmap list_fmap fst].
  destruct (decide (k = k')) as [->|Hk].
  - rewrite lookup_delete_eq, (bool_decide_eq_true_2 (k' ∈ k' :: _)) by left. by destruct (bool_decide _).
  - rewrite lookup_delete_ne by congruence. assert (Hiff : k ∈ k' :: l.*1 ↔ k ∈ l.*1) by (rewrite elem_of_cons; naive_solver).
    by rewrite (bool_decide_ext _ _ Hiff).
Qed.
Lemma foldl_AddTag (t : gmap string string) m k :
  Tags (foldl (λ m kv, AddTag kv.1 kv.2 m) m (range t)) !! k = match t !! k with Some v => Some v | None => Tags m !! k end.
Proof.
  assert (Hg : ∀ l, NoDup l.*1 → ∀ m : M, Tags (foldl (λ m kv, AddTag kv.1 kv.2 m) m l) !! k =
    match (list_to_map l : gmap string string) !! k with Some v => Some v | None => Tags m !! k end).
  { clear m. induction l as [|[k' v] l IH]; intros Hnd m; [done|]. cbn [fmap list_fmap fst] in Hnd. apply NoDup_cons in Hnd as [Hn Hnd].
    cbn [foldl fst snd list_to_map foldr]. rewrite IH by done. unfold uncurry. rewrite AddTag_tags. destruct (decide (k = k')) as [->|Hk].
    - rewrite !lookup_insert_eq. rewrite not_elem_of_list_to_map_1 by done. done.
    - by rewrite !lookup_insert_ne by congruence. }
  rewrite Hg by apply NoDup_range. by rewrite (list_to_map_proper _ _ (NoDup_range t) (range_perm t)), list_to_map_to_list.
Qed.

(** The tag a point of the measurement carries under a key. *)
Definition baseTag b m k : option string :=
  match addTags b !! k with Some v => Some v | None => if bool_decide (is_Some (omittedTags b !! k)) then None else Tags m !! k end.
Definition typedTag b m k : option string :=
  let original := (TelegrafToSFXMetricType m).2 in
  if String.eqb k "telegraf_type" && negb (String.eqb original "") && negb (omitOriginalMetricType b) then Some original else baseTag b m k.
Definition expectedTag b m k : option string :=
  match typedTag b m k with
  | Some v => Some v
  | None => if String.eqb k "plugin" && negb (OmitPluginDimension b) then Some (Name m) else None
  end.

Lemma range_keys {V} (t : gmap string V) k : k ∈ (range t).*1 ↔ is_Some (t !! k).
Proof.
  rewrite list_elem_of_fmap. split.
  - intros ([k' v] & -> & Hin). exists v. by apply elem_of_range.
  - intros [v Hv]. exists (k, v). split; [done|]. by apply elem_of_range.
Qed.

Lemma prepareTags_same b m : same_but_tags (prepareTags b m) m.
Proof.
  unfold prepareTags. cbv zeta.
  set (m1 := foldl (λ m kv, RemoveTag kv.1 m) m _). assert (Hs1 : same_but_tags m1 m) by (apply same_foldl; intros; apply same_RemoveTag).
  set (m2 := foldl (λ m kv, AddTag kv.1 kv.2 m) m1 _). assert (Hs2 : same_but_tags m2 m) by (rewrite <-Hs1; apply same_foldl; intros; apply same_AddTag).
  set (m3 := if negb _ && negb _ then _ else m2). assert (Hs3 : same_but_tags m3 m) by (subst m3; destruct (_ && _); [rewrite same_AddTag|]; done).
  destruct (negb (bool_decide _) && _); [rewrite same_AddTag|]; done.
Qed.

Lemma prepareTags_tags b m k : Tags (prepareTags b m) !! k = expectedTag b m k.
Proof.
  unfold prepareTags. cbv zeta.
  set (m1 := foldl (λ m kv, RemoveTag kv.1 m) m _). assert (Hs1 : same_but_tags m1 m) by (apply same_foldl; intros; apply same_RemoveTag).
  set (m2 := foldl (λ m kv, AddTag kv.1 kv.2 m) m1 _). assert (Hs2 : same_but_tags m2 m) by (rewrite <-Hs1; apply same_foldl; intros; apply same_AddTag).
  assert (Hb : ∀ k, Tags m2 !! k = baseTag b m k).
  { intros k'. subst m2 m1. rewrite foldl_AddTag, foldl_RemoveTag. unfold baseTag. by rewrite (bool_decide_ext _ _ (range_keys (omittedTags b) k')). }
  assert (Ht : TelegrafToSFXMetricType m2 = TelegrafToSFXMetricType m).
  { unfold TelegrafToSFXMetricType. by destruct (identity_Type _ _ (proj1 Hs2)) as (_ & -> & _). }
  rewrite Ht. set (original := (TelegrafToSFXMetricType m).2).
  set (m3 := if negb _ && negb _ then _ else m2). assert (Hs3 : same_but_tags m3 m) by (subst m3; destruct (_ && _); [rewrite same_AddTag|]; done).
  assert (Hty : ∀ k, Tags m3 !! k = typedTag b m k).
  { intros k'. subst m3. unfold typedTag. fold original. rewrite <-andb_assoc. destruct (negb (String.eqb original "") && negb (omitOriginalMetricType b)).
    - rewrite AddTag_tags, andb_true_r. destruct (String.eqb_spec k' "telegraf_type") as [->|Hk]; [by rewrite lookup_insert_eq|].
      by rewrite lookup_insert_ne by congruence.
    - by rewrite andb_false_r. }
  destruct (identity_Type _ _ (proj1 Hs3)) as (Hname & _ & _). unfold expectedTag. rewrite Hty, Hname.
  destruct (typedTag b m "plugin") as [p|] eqn:Hp.
  - rewrite bool_decide_eq_true_2 by done. cbn [negb andb]. rewrite Hty. destruct (String.eqb_spec k "plugin") as [->|]; [by rewrite Hp|]. by destruct (typedTag b m k).
  - rewrite bool_decide_eq_false_2 by by intros [? ?]. cbn [negb andb]. destruct (OmitPluginDimension b); cbn [negb].
    + rewrite Hty, andb_false_r. by destruct (typedTag b m k).
    + rewrite AddTag_tags, andb_true_r. destruct (String.eqb_spec k "plugin") as [->|Hk]; [by rewrite lookup_insert_eq, Hp|].
      rewrite lookup_insert_ne, Hty by congruence. by destruct (typedTag b m k).
Qed.

(** Adding a measurement emits exactly, for each field of the transformed
    measurement, a data point under the field's metric name when its value is a
    number and the name is not excluded, and an event when it is not a number and
    the name is included; each carries the measurement's tags without the omitted
    ones, with the added ones over them, the original type where it was changed
    and the plugin's name unless there is one. *)
Theorem AddMetric_correct b m (e : emission) :
  let m' := TransformMeasurement b m in
  e ∈ AddMetric CastMetricValue AGENT b m ↔
  ∃ field val dims, Fields m' !! field = Some val ∧ (∀ k, dims !! k = expectedTag b m' k) ∧
    let name := GetMetricName b (Name m') field in
    IsExcluded b name = false ∧
    match CastMetricValue val with
    | Ok v => e = SendDatapoint (TransformDatapoint b
        {| sd_Metric := name; sd_Type := (TelegrafToSFXMetricType m').1; sd_Value := v; sd_Time := Time m'; sd_Dimensions := dims; sd_Meta := ∅ |})
    | Err _ => Included b name = true ∧
        e = SendEvent {| se_Time := Time m'; se_Type := name; se_Category := AGENT; se_Dimensions := dims; se_Properties := {["message" := val]} |}
    end.
Proof.
  cbv zeta. unfold AddMetric. set (m' := TransformMeasurement b m). destruct (prepareTags_same b m') as [Hid Hf].
  destruct (identity_Type _ _ Hid) as (Hn & Hty & Htm).
  assert (Ht : TelegrafToSFXMetricType (prepareTags b m') = TelegrafToSFXMetricType m') by (unfold TelegrafToSFXMetricType; by rewrite Hty).
  rewrite Hf, list_elem_of_In, in_flat_map. unfold emitField. rewrite Hn, Ht, Htm. split.
  - intros ([field val] & Hin & He). apply list_elem_of_In, elem_of_range in Hin. cbn [fst snd] in He.
    exists field, val, (Tags (prepareTags b m')). split; [done|]. split; [apply prepareTags_tags|].
    destruct (IsExcluded b _); [destruct He|]. split; [done|]. destruct (CastMetricValue val) as [v|].
    + by destruct He as [<-|[]].
    + destruct (Included b _); [|destruct He]. by destruct He as [<-|[]].
  - intros (field & val & dims & Hin & Hd & Hex & He). exists (field, val). split; [by apply list_elem_of_In, elem_of_range|]. cbn [fst snd].
    assert (Tags (prepareTags b m') = dims) as -> by (apply map_eq; intros k; by rewrite prepareTags_tags, Hd).
    rewrite Hex. destruct (CastMetricValue val) as [v|]; [by left|]. destruct He as [-> ->]. by left.
Qed.

(** Renaming a field with a tag: the field is stored under the tag's value and
    the tag is gone. *)
Lemma RenameFieldWithTag_correct replace tagName fieldName m tagVal val :
  Tags m !! tagName = Some tagVal → Fields m !! fieldName = Some val → replace tagVal ≠ "" → replace tagVal ≠ fieldName →
  Fields (RenameFieldWithTag replace tagName fieldName m) = <[replace tagVal := val]> (delete fieldName (Fields m)) ∧
  Tags (RenameFieldWithTag replace tagName fieldName m) = delete tagName (Tags m).
Proof.
  intros Ht Hf Hne Hd. unfold RenameFieldWithTag. rewrite Ht, Hf. apply String.eqb_neq in Hne as ->.
  rewrite RemoveTag_fields, RemoveTag_tags, RemoveField_fields, RemoveField_tags, AddField_fields, AddField_tags.
  split; [|done]. by rewrite delete_insert_ne.
Qed.

(** When the tag's value is the field's own name, the renaming deletes the field:
    its value is lost, and so is the tag. *)
Theorem rename_to_itself_loses_field (replace : string → string) (tagName fieldName : string) m (tagVal : string) (val : any) :
  Tags m !! tagName = Some tagVal → Fields m !! fieldName = Some val → replace tagVal = fieldName → fieldName ≠ "" →
  Fields (RenameFieldWithTag replace tagName fieldName m) !! fieldName = None ∧
  Tags (RenameFieldWithTag replace tagName fieldName m) !! tagName = None.
Proof.
  intros Ht Hf Heq Hne. unfold RenameFieldWithTag. rewrite Ht, Hf, Heq. apply String.eqb_neq in Hne as ->.
  by rewrite RemoveTag_fields, RemoveTag_tags, RemoveField_fields, !lookup_delete_eq.
Qed.
End laws.

(** ** An instance of the interface *)

Record plainMetric := { p_Name : string; p_Type : ValueType; p_Tags : gmap string string; p_Fields : gmap string any; p_Time : option Z }.
Definition withPlainTags (t : gmap string string) (m : plainMetric) : plainMetric :=
  {| p_Name := p_Name m; p_Type := p_Type m; p_Tags := t; p_Fields := p_Fields m; p_Time := p_Time m |}.
Definition withPlainFields (f : gmap string any) (m : plainMetric) : plainMetric :=
  {| p_Name := p_Name m; p_Type := p_Type m; p_Tags := p_Tags m; p_Fields := f; p_Time := p_Time m |}.
#[global] Instance plain_metric : TelegrafMetric plainMetric := {|
  newMetric n tags fields t ty := {| p_Name := n; p_Type := ty; p_Tags := tags; p_Fields := fields; p_Time := t |};
  Name := p_Name; Type_ := p_Type; Tags := p_Tags; Fields := p_Fields; Time := p_Time;
  AddTag k v m := withPlainTags (<[k := v]> (p_Tags m)) m; RemoveTag k m := withPlainTags (delete k (p_Tags m)) m;
  AddField k v m := withPlainFields (<[k := v]> (p_Fields m)) m; RemoveField k m := withPlainFields (delete k (p_Fields m)) m |}.
#[global] Instance plain_laws : TelegrafLaws plainMetric.
Proof. by split. Qed.

Definition demo_tf : plainMetric :=
  {| p_Name := "win_cpu"; p_Type := VUntyped; p_Tags := {["instance" := "value"]}; p_Fields := {["value" := AInt 7]}; p_Time := None |}.
Lemma rename_to_itself_loses_field_witness :
  Fields (RenameFieldWithTag id "instance" "value" demo_tf) !! "value" = None ∧
  Tags (RenameFieldWithTag id "instance" "value" demo_tf) !! "instance" = None.
Proof. by apply (rename_to_itself_loses_field id "instance" "value" demo_tf "value" (AInt 7)). Defined.

Definition demo_cast (v : any) : res sfxValue := match v with AInt z => Ok (IntValue z) | _ => Err (Errorf "invalid value" []) end.
Lemma AddMetric_correct_witness :
  SendDatapoint {| sd_Metric := "win_cpu"; sd_Type := Gauge; sd_Value := IntValue 7; sd_Time := None;
    sd_Dimensions := {["plugin" := "win_cpu"; "telegraf_type" := "untyped"]}; sd_Meta := ∅ |}
  ∈ @AddMetric plainMetric _ forward_range demo_cast 0 (OmitTag "instance" NewEmitter) demo_tf.
Proof.
  apply (@AddMetric_correct plainMetric _ plain_laws forward_range).
  exists "value", (AInt 7), {["plugin" := "win_cpu"; "telegraf_type" := "untyped"]}.
  split; [vm_compute; reflexivity|]. split; [|split; vm_compute; reflexivity].
  intros k. unfold expectedTag, typedTag, baseTag. cbn [TransformMeasurement measurementTransformations OmitTag NewEmitter setTags foldl omittedTags addTags
    omitOriginalMetricType OmitPluginDimension Tags Name plain_metric demo_tf p_Tags p_Name TelegrafToSFXMetricType Type_ p_Type snd negb String.eqb andb].
  rewrite lookup_empty. destruct (String.eqb_spec k "telegraf_type") as [->|Ht]; [vm_compute; reflexivity|].
  destruct (String.eqb_spec k "plugin") as [->|Hp]; [vm_compute; reflexivity|].
  rewrite lookup_insert_ne, lookup_singleton_ne by congruence. destruct (decide (k = "instance")) as [->|Hi]; [vm_compute; reflexivity|].
  rewrite !lookup_singleton_ne by congruence. cbn [andb]. by destruct (bool_decide _).
Defined.
