(* ===== verification/Leadership.v ===== *)
(** * Leader election among the agents of a cluster

    [src/internal/signalfx-agent/pkg/monitors/kubernetes/leadership/leadership.go]
    and the loop of the cluster monitor that listens to it
    ([kubernetes/cluster/monitor.go]).  The callback of the elector, the
    subscriptions and the receivers run concurrently: [step] is one move of one
    of them.  The callback keeps the package's lock while it sends, and a channel
    holds one value. *)

From S2P Require Import Prelude GoStrings GoValue.

(** A subscriber's channel: what it holds, and everything ever sent to it. *)
Record notice := { nc_id : nat; nc_buf : option bool; nc_sent : list bool }.

(** The callback: not running, or sending a value to the rest of the channels. *)
Inductive callback := CallbackIdle | Sending (v : bool) (ids : list nat).

Record leadership := {
  noticeChans : list notice; started : bool; isLeader : bool; leaderIdentity : string;
  cb : callback; nextId : nat;
}.
Definition initial : leadership :=
  {| noticeChans := []; started := false; isLeader := false; leaderIdentity := ""; cb := CallbackIdle; nextId := 0 |}.

(** [startLeaderElection]: its environment variables, and the errors of the client. *)
Definition startLeaderElection (namespace node : string) (client : option error) : option error :=
  if String.eqb namespace "" then Some (Errorf "MY_NAMESPACE envvar is not defined" [])
  else if String.eqb node "" then Some (Errorf "MY_NODE_NAME envvar is not defined" [])
  else client.

Definition newNotice (id : nat) (leader : bool) : notice :=
  {| nc_id := id; nc_buf := if leader then Some true else None; nc_sent := if leader then [true] else [] |}.

Definition RequestLeaderNotification (startErr : option error) (s : leadership) : res nat * leadership :=
  match (if started s then None else startErr) with
  | Some e => (Err e, s)
  | None =>
      (Ok (nextId s), {| noticeChans := noticeChans s ++ [newNotice (nextId s) (isLeader s)]; started := true; isLeader := isLeader s;
                         leaderIdentity := leaderIdentity s; cb := cb s; nextId := S (nextId s) |})
  end.

Fixpoint removeNotice (id : nat) (l : list notice) : list notice :=
  match l with
  | [] => []
  | c :: l => if (nc_id c =? id)%nat then l else c :: removeNotice id l
  end.
Definition unsubscribe (id : nat) (s : leadership) : leadership :=
  {| noticeChans := removeNotice id (noticeChans s); started := started s; isLeader := isLeader s; leaderIdentity := leaderIdentity s;
     cb := cb s; nextId := nextId s |}.

(** [OnNewLeader]: taking the lock, and what is going to be sent. *)
Definition OnNewLeader (nodeName identity : string) (s : leadership) : leadership :=
  {| noticeChans := noticeChans s; started := started s; isLeader := isLeader s; leaderIdentity := identity;
     cb := if String.eqb identity nodeName && negb (isLeader s) then Sending true (map nc_id (noticeChans s))
           else if negb (String.eqb identity nodeName) && isLeader s then Sending false (map nc_id (noticeChans s))
           else CallbackIdle;
     nextId := nextId s |}.

Definition pushNotice (v : bool) (c : notice) : notice := {| nc_id := nc_id c; nc_buf := Some v; nc_sent := nc_sent c ++ [v] |}.
Definition takeNotice (c : notice) : notice := {| nc_id := nc_id c; nc_buf := None; nc_sent := nc_sent c |}.
Definition onNotice (id : nat) (f : notice → notice) (l : list notice) : list notice :=
  map (λ c, if (nc_id c =? id)%nat then f c else c) l.

Definition withChans (l : list notice) (c : callback) (s : leadership) : leadership :=
  {| noticeChans := l; started := started s; isLeader := isLeader s; leaderIdentity := leaderIdentity s; cb := c; nextId := nextId s |}.
(** Only the branch of the new leader sets the flag. *)
Definition finishCallback (v : bool) (s : leadership) : leadership :=
  {| noticeChans := noticeChans s; started := started s; isLeader := if v then true else isLeader s; leaderIdentity := leaderIdentity s;
     cb := CallbackIdle; nextId := nextId s |}.

Section steps.
Context (nodeName : string).

Inductive step : leadership → leadership → Prop :=
| step_request s e : cb s = CallbackIdle → step s (RequestLeaderNotification e s).2
| step_unsubscribe s id : cb s = CallbackIdle → step s (unsubscribe id s)
| step_new_leader s identity : cb s = CallbackIdle → started s = true → step s (OnNewLeader nodeName identity s)
| step_send s v id ids c : cb s = Sending v (id :: ids) → c ∈ noticeChans s → nc_id c = id → nc_buf c = None →
    step s (withChans (onNotice id (pushNotice v) (noticeChans s)) (Sending v ids) s)
| step_sent s v : cb s = Sending v [] → step s (finishCallback v s)
| step_receive s id : step s (withChans (onNotice id takeNotice (noticeChans s)) (cb s) s).

Definition reachable (s : leadership) : Prop := rtc step initial s.
End steps.

(** ** The loop of the cluster monitor *)

(** Whether it reports, after the values it received. *)
Definition shouldReport (always : bool) (received : list bool) : bool := foldl (λ _ v, v) always received.

(** ** What subscribers are told *)

Definition heard (c : notice) : Prop := nc_sent c ≠ [].
Definition starts_true (c : notice) : Prop := match nc_sent c with v :: _ => v = true | [] => True end.

Record lead_inv (s : leadership) : Prop := {
  li_first : Forall starts_true (noticeChans s);
  li_ids : Forall (λ c, nc_id c < nextId s) (noticeChans s);
  li_unique : NoDup (map nc_id (noticeChans s));
  li_heard : isLeader s = true → Forall heard (noticeChans s);
  li_sending : match cb s with
               | CallbackIdle => True
               | Sending true ids => isLeader s = false ∧ Forall (λ c, nc_id c ∈ ids ∨ heard c) (noticeChans s)
               | Sending false ids => isLeader s = true
               end;
}.

Lemma removeNotice_sub id l c : c ∈ removeNotice id l → c ∈ l.
Proof.
  induction l as [|d l IH]; [done|]. cbn. destruct (nc_id d =? id)%nat; [by right|].
  intros [->|Hc]%elem_of_cons; [by left | right; by apply IH].
Qed.
Lemma removeNotice_nodup id l : NoDup (map nc_id l) → NoDup (map nc_id (removeNotice id l)).
Proof.
  induction l as [|d l IH]; [done|]. cbn. intros [Hn Hd]%NoDup_cons. destruct (nc_id d =? id)%nat; [done|]. cbn. constructor; [|by apply IH].
  intros (c & Hc & Hin)%list_elem_of_fmap. apply Hn, list_elem_of_fmap. exists c. split; [done|]. by eapply removeNotice_sub.
Qed.
Lemma Forall_removeNotice (P : notice → Prop) id l : Forall P l → Forall P (removeNotice id l).
Proof. rewrite !Forall_forall. intros Hl c Hc. by eapply Hl, removeNotice_sub. Qed.
Lemma onNotice_ids id f l : (∀ c, nc_id (f c) = nc_id c) → map nc_id (onNotice id f l) = map nc_id l.
Proof. intros Hf. unfold onNotice. rewrite map_map. apply map_ext. intros c. destruct (nc_id c =? id)%nat; [apply Hf | done]. Qed.
Lemma Forall_onNotice (P Q : notice → Prop) id f l :
  (∀ c, P c → nc_id c = id → Q (f c)) → (∀ c, P c → nc_id c ≠ id → Q c) → Forall P l → Forall Q (onNotice id f l).
Proof.
  intros H1 H2 Hl. unfold onNotice. apply Forall_map. eapply Forall_impl; [exact Hl|]. intros c Hc. cbn.
  destruct (Nat.eqb_spec (nc_id c) id); auto.
Qed.
Lemma starts_true_push v c : (v = true ∨ heard c) → starts_true c → starts_true (pushNotice v c).
Proof. unfold starts_true, heard. cbn. destruct (nc_sent c); cbn; [|done]. by intros [->|[]] _. Qed.
Lemma heard_push v c : heard (pushNotice v c).
Proof. unfold heard. cbn. by destruct (nc_sent c). Qed.

Lemma step_lead_inv nodeName s s' : step nodeName s s' → lead_inv s → lead_inv s'.
Proof.
  intros Hs [H1 H2 H3 H4 H5].
  destruct Hs as [s e Hc|s id Hc|s identity Hc Hst|s v id ids c Hc Hin Hid Hbuf|s v Hc|s id].
  - unfold RequestLeaderNotification. destruct (if started s then None else e); [by constructor|]. constructor; cbn; rewrite ?Hc.
    + apply Forall_app. split; [done|]. repeat constructor. by destruct (isLeader s).
    + apply Forall_app. split; [eapply Forall_impl; [exact H2|]; cbn; lia | repeat constructor; cbn; lia].
    + rewrite map_app. apply NoDup_app. split; [done|]. split; [|by repeat constructor; apply not_elem_of_nil].
      intros x (c & -> & Hin)%list_elem_of_fmap Hx%list_elem_of_singleton. rewrite Forall_forall in H2. specialize (H2 c Hin). cbn in Hx. lia.
    + intros Hl. apply Forall_app. split; [by apply H4|]. repeat constructor. unfold newNotice, heard. cbn. by rewrite Hl.
    + done.
  - constructor; cbn; rewrite ?Hc; [by apply Forall_removeNotice | by apply Forall_removeNotice | by apply removeNotice_nodup | | done].
    intros Hl. apply Forall_removeNotice. by apply H4.
  - constructor; cbn; try done. destruct (String.eqb identity nodeName); destruct (isLeader s) eqn:Hl; cbn; try done.
    split; [done|]. apply Forall_forall. intros c Hin. left. apply list_elem_of_fmap. eauto.
  - rewrite Hc in H5.
    assert (Hheard : v = false → Forall heard (noticeChans s)) by (intros ->; by apply H4).
    constructor; cbn.
    + assert (Hall : Forall (λ c, (v = true ∨ heard c) ∧ starts_true c) (noticeChans s)).
      { apply Forall_and. split; [|done]. destruct v; [by apply Forall_true; left|]. eapply Forall_impl; [by apply Hheard|]. by right. }
      eapply Forall_onNotice; [| |exact Hall]; [|by intros ? []]. intros ? [? ?] _. by apply starts_true_push.
    + eapply Forall_onNotice; [| |exact H2]; done.
    + by rewrite onNotice_ids.
    + intros Hl. eapply Forall_onNotice; [| |by apply H4]; [|done]. intros; apply heard_push.
    + destruct v; [|done]. destruct H5 as [Hl Hf]. split; [done|]. eapply Forall_onNotice; [| |exact Hf].
      * intros d _ _. right. apply heard_push.
      * intros d [[->|Hd]%elem_of_cons|Hd] Hne; [done|by left|by right].
  - rewrite Hc in H5. constructor; cbn; try done. destruct v; [|done]. destruct H5 as [_ Hf]. intros _.
    eapply Forall_impl; [exact Hf|]. intros d [Hd|Hd]; [|done]. by apply not_elem_of_nil in Hd.
  - constructor; cbn.
    + eapply Forall_onNotice; [| |exact H1]; done.
    + eapply Forall_onNotice; [| |exact H2]; done.
    + by rewrite onNotice_ids.
    + intros Hl. eapply Forall_onNotice; [| |by apply H4]; done.
    + destruct (cb s) as [|[] ids]; [done| |done]. destruct H5 as [Hl Hf]. split; [done|]. eapply Forall_onNotice; [| |exact Hf]; done.
Qed.

Lemma reachable_lead_inv nodeName s : reachable nodeName s → lead_inv s.
Proof.
  refine (rtc_ind_r (λ s, lead_inv s) _ _ _ s); [|intros a b _ Hab IH; by eapply step_lead_inv].
  constructor; cbn; try done; constructor.
Qed.

(** However subscriptions, receivers and the elector interleave, the first value a
    subscriber is sent is true, and while the agent has been leader every
    subscriber has been told. *)
Theorem first_notice_true (nodeName : string) (s : leadership) :
  reachable nodeName s →
  Forall starts_true (noticeChans s) ∧ (isLeader s = true → Forall heard (noticeChans s)).
Proof. intros Hr. by destruct (reachable_lead_inv nodeName s Hr). Qed.

(** ** After the first term *)

(** What a channel got since: nothing but false, and a new one true before. *)
Definition follows (s : leadership) (c' : notice) : Prop :=
  (∃ c n, c ∈ noticeChans s ∧ nc_id c = nc_id c' ∧ nc_sent c' = nc_sent c ++ repeat false n) ∨
  (nextId s <= nc_id c' ∧ ∃ n, nc_sent c' = true :: repeat false n).
Record since (s s' : leadership) : Prop := {
  si_leader : isLeader s' = true;
  si_cb : match cb s' with Sending true _ => False | _ => True end;
  si_next : nextId s <= nextId s';
  si_chans : Forall (follows s) (noticeChans s');
}.

Lemma follows_push s c : follows s c → follows s (pushNotice false c).
Proof.
  assert (Hr : ∀ n, repeat false n ++ [false] = repeat false (S n)) by (intros n; symmetry; apply repeat_cons).
  intros [(d & n & Hd & Hi & Hs)|[Hn [n Hs]]]; [left | right]; cbn.
  - exists d, (S n). split_and!; [done|done|]. by rewrite Hs, <-app_assoc, Hr.
  - split; [done|]. exists (S n). by rewrite Hs, <-app_comm_cons, Hr.
Qed.

Lemma step_since nodeName s0 s s' : step nodeName s s' → since s0 s → since s0 s'.
Proof.
  intros Hs [H1 H2 H3 H4]. destruct Hs as [s e Hc|s id Hc|s identity Hc Hst|s v id ids c Hc Hin Hid Hbuf|s v Hc|s id].
  - unfold RequestLeaderNotification. destruct (if started s then None else e); [by constructor|]. constructor; cbn; try done; [lia|].
    apply Forall_app. split; [done|]. apply Forall_singleton. right. rewrite H1. split; [exact H3|]. by exists 0.
  - constructor; cbn; try done. by apply Forall_removeNotice.
  - constructor; cbn; try done. rewrite H1. by destruct (String.eqb identity nodeName).
  - rewrite Hc in H2. destruct v; [done|]. constructor; cbn; try done.
    eapply Forall_onNotice; [| |exact H4]; [intros; by apply follows_push | done].
  - rewrite Hc in H2. destruct v; [done|]. by constructor.
  - constructor; cbn; try done. eapply Forall_onNotice; [| |exact H4]; done.
Qed.

Lemma since_refl nodeName s : reachable nodeName s → isLeader s = true → since s s.
Proof.
  intros Hr Hl. destruct (reachable_lead_inv nodeName s Hr) as [_ _ _ _ H5]. constructor; try done.
  - destruct (cb s) as [|[] ids]; try done. destruct H5. congruence.
  - apply Forall_forall. intros c Hc. left. exists c, 0. by rewrite app_nil_r.
Qed.
Lemma rtc_since nodeName s s' : reachable nodeName s → isLeader s = true → rtc (step nodeName) s s' → since s s'.
Proof.
  intros Hr Hl. revert s'. refine (rtc_ind_r (λ s', since s s') _ _ _); [by eapply since_refl|]. intros a b _ Hab IH. by eapply step_since.
Qed.

Lemma shouldReport_app b l v : shouldReport b (l ++ [v]) = v.
Proof. unfold shouldReport. by rewrite foldl_app. Qed.
Lemma shouldReport_falses b l n : shouldReport b l = false → shouldReport b (l ++ repeat false n) = false.
Proof.
  intros Hl. destruct n as [|n]; [by rewrite app_nil_r|]. replace (S n) with (n + 1) by lia. rewrite repeat_app, app_assoc. apply shouldReport_app.
Qed.

(** Once the agent has been leader and a monitor was told that it no longer is, that
    monitor never reports again, whoever is elected afterwards: the flag of
    the lost leadership is not cleared, so a second term is not announced. *)
Theorem reelected_leader_stays_silent (nodeName : string) (s s' : leadership) (c c' : notice) :
  reachable nodeName s → isLeader s = true → c ∈ noticeChans s → shouldReport false (nc_sent c) = false →
  rtc (step nodeName) s s' → c' ∈ noticeChans s' → nc_id c' = nc_id c → shouldReport false (nc_sent c') = false.
Proof.
  intros Hr Hl Hc Hsr Hst Hc' Hid. destruct (reachable_lead_inv nodeName s Hr) as [_ Hids Huniq _ _].
  destruct (rtc_since nodeName s s' Hr Hl Hst) as [_ _ _ Hall]. rewrite Forall_forall in Hall.
  destruct (Hall c' Hc') as [(d & n & Hd & Hdi & ->)|[Hn _]].
  - assert (d = c) as ->; [|by apply shouldReport_falses].
    apply list_elem_of_lookup in Hd as [i Hi], Hc as [j Hj].
    assert (i = j) as ->; [|congruence]. eapply (NoDup_lookup (map nc_id (noticeChans s))); [done| |].
    + apply list_lookup_fmap_Some. exists d. done.
    + apply list_lookup_fmap_Some. exists c. split; [congruence|done].
  - rewrite Forall_forall in Hids. specialize (Hids c Hc). cbn in Hids. lia.
Qed.

(** Whoever the leader is by then, a subscriber that comes after the agent's first
    term is told that the agent is leader. *)
Theorem late_subscriber_told_leader (nodeName : string) (s s' : leadership) (e : option error) :
  reachable nodeName s → isLeader s = true → rtc (step nodeName) s s' → started s' = true →
  ∃ id, (RequestLeaderNotification e s').1 = Ok id ∧
    newNotice id true ∈ noticeChans (RequestLeaderNotification e s').2.
Proof.
  intros Hr Hl Hst Hs'. destruct (rtc_since nodeName s s' Hr Hl Hst) as [Hl' _ _ _].
  exists (nextId s'). unfold RequestLeaderNotification. rewrite Hs', Hl'. split; [done|]. cbn. apply elem_of_app. right. by left.
Qed.

(** ** An execution: elected, replaced, elected again *)

Definition demo_state (buf : option bool) (sent : list bool) (leader : bool) (who : string) (c : callback) : leadership :=
  {| noticeChans := [{| nc_id := 0; nc_buf := buf; nc_sent := sent |}]; started := true; isLeader := leader; leaderIdentity := who; cb := c; nextId := 1 |}.
Definition demo_lost : leadership := demo_state (Some false) [true; false] true "other" CallbackIdle.
Definition demo_again : leadership := demo_state (Some false) [true; false] true "node" CallbackIdle.

Lemma demo_lost_reachable : reachable "node" demo_lost.
Proof.
  unfold reachable. eapply rtc_l; [by apply (step_request _ _ None)|]. eapply rtc_l; [by apply (step_new_leader _ _ "node")|].
  eapply rtc_l; [by eapply (step_send _ _ true 0 []); [|left|..]|]. eapply rtc_l; [by eapply (step_sent _ _ true)|].
  eapply rtc_l; [by apply (step_receive _ _ 0)|]. eapply rtc_l; [by apply (step_new_leader _ _ "other")|].
  eapply rtc_l; [by eapply (step_send _ _ false 0 []); [|left|..]|]. eapply rtc_l; [by eapply (step_sent _ _ false)|]. apply rtc_refl.
Qed.
Lemma demo_again_follows : rtc (step "node") demo_lost demo_again.
Proof. eapply rtc_l; [by apply (step_new_leader "node" demo_lost "node")|]. apply rtc_refl. Qed.

Lemma first_notice_true_witness : Forall starts_true (noticeChans demo_lost) ∧ (isLeader demo_lost = true → Forall heard (noticeChans demo_lost)).
Proof. exact (first_notice_true "node" demo_lost demo_lost_reachable). Defined.

Lemma reelected_leader_stays_silent_witness : leaderIdentity demo_again = "node" ∧ shouldReport false [true; false] = false.
Proof.
  split; [reflexivity|].
  apply (reelected_leader_stays_silent "node" demo_lost demo_again
    {| nc_id := 0; nc_buf := Some false; nc_sent := [true; false] |} {| nc_id := 0; nc_buf := Some false; nc_sent := [true; false] |});
    [exact demo_lost_reachable | reflexivity | left | reflexivity | exact demo_again_follows | left | reflexivity].
Defined.

Lemma late_subscriber_told_leader_witness : leaderIdentity demo_lost = "other" ∧
  ∃ id, (RequestLeaderNotification None demo_lost).1 = Ok id ∧ newNotice id true ∈ noticeChans (RequestLeaderNotification None demo_lost).2.
Proof.
  split; [reflexivity|]. apply (late_subscriber_told_leader "node" demo_lost demo_lost None);
    [exact demo_lost_reachable | reflexivity | apply rtc_refl | reflexivity].
Defined.
