(* ===== verification/K8sObjects.v ===== *)
(** * Data points of kubernetes objects

    [src/internal/signalfx-agent/pkg/monitors/kubernetes/cluster/metrics]: the data
    points of pods and containers, namespaces, controllers, quotas, nodes, jobs
    and autoscalers.  The objects are records of the API's fields that the code
    reads; the strings of the API (phases, condition states, resource names) are
    those it documents.  A quantity is the pair of numbers its methods give.  A
    nil slice, which the cache distinguishes from an empty one, is [None]. *)

From S2P Require Import Prelude GoStrings GoValue Settings Telemetry SmartAgent HostMonitors.
From Stdlib Require Import Ascii.
#[local] Open Scope Z_scope.

Record OwnerReference := { or_Kind : string; or_Name : string; or_UID : string }.
Record ObjectMeta := { om_Name : string; om_Namespace : string; om_UID : string; om_Labels : gmap string string; om_Owners : list OwnerReference;
  om_Created : string }.   (* in RFC 3339 *)
Record Quantity := { q_Value : Z; q_MilliValue : Z }.
Definition ResourceList := gmap string Quantity.

Definition gaugeI (name : string) (dims : gmap string string) (v : Z) : sfxDatapoint := mkDatapoint name Gauge (IntValue v) dims.
Definition gaugeF (name : string) (dims : gmap string string) (v : float64) : sfxDatapoint := mkDatapoint name Gauge (FloatValue v) dims.
Definition counterI (name : string) (dims : gmap string string) (v : Z) : sfxDatapoint := mkDatapoint name Counter (IntValue v) dims.
Definition milli (q : Quantity) : float64 := fdiv (float_of_Z (q_MilliValue q)) (float_of_Z 1000).

(** ** Pods and containers *)

(** [StripContainerID]: a scheme in front of [://] is removed. *)
Definition schemeByte (c : ascii) : bool :=
  in_range "a" "z" c || in_range "A" "Z" c || in_range "0" "9" c || Ascii.eqb c "_" || Ascii.eqb c "-".
Fixpoint schemeLength (s : string) : nat :=
  match s with
  | String c t => if schemeByte c then S (schemeLength t) else 0
  | EmptyString => 0
  end.
Definition StripContainerID (id : string) : string :=
  let n := schemeLength id in
  if (0 <? n)%nat && HasPrefix (sdrop n id) "://" then sdrop (n + 3) id else id.

Record ContainerStatus := {
  cs_Name : string; cs_Image : string; cs_ContainerID : string; cs_RestartCount : Z; cs_Ready : bool;
  cs_Running : bool; cs_Terminated : option string; cs_Waiting : option string;   (* the state, with reasons *)
}.
Record Container := { ct_Name : string; ct_Requests : ResourceList; ct_Limits : ResourceList }.
Record Pod := {
  pod_Meta : ObjectMeta; pod_NodeName : string; pod_Phase : string;
  pod_ContainerStatuses : list ContainerStatus; pod_Containers : list Container;
}.

Definition phaseToInt (phase : string) : Z :=
  if String.eqb phase "Pending" then 1 else if String.eqb phase "Running" then 2 else if String.eqb phase "Succeeded" then 3
  else if String.eqb phase "Failed" then 4 else 5.

Definition BoolToInt (b : bool) : Z := if b then 1 else 0.

Definition getAllContainerDimensions (id name image : string) (dims : gmap string string) : gmap string string :=
  <["container_image" := image]> (<["container_spec_name" := name]> (<["container_id" := StripContainerID id]> dims)).

Definition datapointsForContainerStatus (cs : ContainerStatus) (contDims : gmap string string) : list sfxDatapoint :=
  [gaugeI "kubernetes.container_restart_count" contDims (cs_RestartCount cs);
   gaugeI "kubernetes.container_ready" contDims (BoolToInt (cs_Ready cs))].

(** One of the six blocks of [datapointsForContainerSpec]. *)
Definition specPoint (rl : ResourceList) (resource metric : string) (asMilli : bool) (dims : gmap string string) : list sfxDatapoint :=
  match rl !! resource with
  | Some q => [if asMilli then gaugeF metric dims (milli q) else gaugeI metric dims (q_Value q)]
  | None => []
  end.
(** A nil map of dimensions is the empty one. *)
Definition datapointsForContainerSpec (c : Container) (contDims : gmap string string) : list sfxDatapoint :=
  specPoint (ct_Requests c) "cpu" "kubernetes.container_cpu_request" true contDims ++
  specPoint (ct_Limits c) "cpu" "kubernetes.container_cpu_limit" true contDims ++
  specPoint (ct_Requests c) "memory" "kubernetes.container_memory_request" false contDims ++
  specPoint (ct_Limits c) "memory" "kubernetes.container_memory_limit" false contDims ++
  specPoint (ct_Requests c) "ephemeral-storage" "kubernetes.container_ephemeral_storage_request" false contDims ++
  specPoint (ct_Limits c) "ephemeral-storage" "kubernetes.container_ephemeral_storage_limit" false contDims.

Definition podDimensions (p : Pod) : gmap string string :=
  list_to_map [("metric_source", "kubernetes"); ("kubernetes_namespace", om_Namespace (pod_Meta p)); ("kubernetes_pod_uid", om_UID (pod_Meta p));
               ("kubernetes_pod_name", om_Name (pod_Meta p)); ("kubernetes_node", pod_NodeName p)].

(** The loop over the statuses: the data points and the dimensions by name. *)
Definition statusLoop (dims : gmap string string) (acc : list sfxDatapoint * gmap string (gmap string string)) (cs : ContainerStatus) :
    list sfxDatapoint * gmap string (gmap string string) :=
  if String.eqb (cs_ContainerID cs) "" then acc
  else
    let contDims := getAllContainerDimensions (cs_ContainerID cs) (cs_Name cs) (cs_Image cs) dims in
    (acc.1 ++ datapointsForContainerStatus cs contDims, <[cs_Name cs := contDims]> acc.2).

Definition datapointsForPod (p : Pod) : list sfxDatapoint :=
  let dims := podDimensions p in
  let '(dps, byName) := foldl (statusLoop dims) ([gaugeI "kubernetes.pod_phase" dims (phaseToInt (pod_Phase p))], ∅) (pod_ContainerStatuses p) in
  dps ++ flat_map (λ c, datapointsForContainerSpec c (default ∅ (byName !! ct_Name c))) (pod_Containers p).

(** ** Namespaces and controllers *)

Definition namespacePhaseValue (phase : string) : Z :=
  if String.eqb phase "Active" then 1 else if String.eqb phase "Terminating" then 0 else if String.eqb phase "" then -1 else 0.
Definition datapointsForNamespace (name phase : string) : list sfxDatapoint :=
  [gaugeI "kubernetes.namespace_phase" {["kubernetes_namespace" := name]} (namespacePhaseValue phase)].

Definition controllerDims (m : ObjectMeta) : gmap string string :=
  list_to_map [("metric_source", "kubernetes"); ("kubernetes_namespace", om_Namespace m); ("kubernetes_uid", om_UID m); ("kubernetes_name", om_Name m)].
Definition makeReplicaDPs (resource : string) (dims : gmap string string) (desired available : Z) : list sfxDatapoint :=
  [gaugeI ("kubernetes." +:+ resource +:+ ".desired") dims desired; gaugeI ("kubernetes." +:+ resource +:+ ".available") dims available].

(** Replica sets, replication controllers, deployments and stateful sets. *)
Record Replicas := {
  rp_Meta : ObjectMeta; rp_Desired : option Z; rp_Available : Z; rp_Ready : Z; rp_Current : Z; rp_Updated : Z;
  rp_CurrentRevision : string; rp_UpdateRevision : string;
}.

Definition datapointsForReplicaSet (rs : Replicas) : option (list sfxDatapoint) :=
  desired ← rp_Desired rs; Some (makeReplicaDPs "replica_set" (controllerDims (rp_Meta rs)) desired (rp_Available rs)).
Definition datapointsForReplicationController (rc : Replicas) : option (list sfxDatapoint) :=
  desired ← rp_Desired rc; Some (makeReplicaDPs "replication_controller" (controllerDims (rp_Meta rc)) desired (rp_Available rc)).
Definition datapointsForDeployment (dep : Replicas) : option (list sfxDatapoint) :=
  desired ← rp_Desired dep;
  let dims := controllerDims (rp_Meta dep) in
  Some (makeReplicaDPs "deployment" dims desired (rp_Available dep) ++ [gaugeI "kubernetes.deployment.updated" dims (rp_Updated dep)]).
Definition datapointsForStatefulSet (ss : Replicas) : option (list sfxDatapoint) :=
  desired ← rp_Desired ss;
  let dims := controllerDims (rp_Meta ss) in
  Some [gaugeI "kubernetes.stateful_set.desired" dims desired; gaugeI "kubernetes.stateful_set.ready" dims (rp_Ready ss);
        gaugeI "kubernetes.stateful_set.current" dims (rp_Current ss); gaugeI "kubernetes.stateful_set.updated" dims (rp_Updated ss)].

Record DaemonSet := { ds_Meta : ObjectMeta; ds_Current : Z; ds_Desired : Z; ds_Misscheduled : Z; ds_Ready : Z; ds_Updated : Z }.
Definition datapointsForDaemonSet (ds : DaemonSet) : list sfxDatapoint :=
  let dims := controllerDims (ds_Meta ds) in
  [gaugeI "kubernetes.daemon_set.current_scheduled" dims (ds_Current ds); gaugeI "kubernetes.daemon_set.desired_scheduled" dims (ds_Desired ds);
   gaugeI "kubernetes.daemon_set.misscheduled" dims (ds_Misscheduled ds); gaugeI "kubernetes.daemon_set.ready" dims (ds_Ready ds);
   gaugeI "kubernetes.daemon_set.updated" dims (ds_Updated ds)].

Record Job := { job_Meta : ObjectMeta; job_Completions : option Z; job_Parallelism : option Z; job_Active : Z; job_Failed : Z; job_Succeeded : Z }.
Definition datapointsForJob (j : Job) : list sfxDatapoint :=
  let dims := controllerDims (job_Meta j) in
  match job_Completions j with Some v => [gaugeI "kubernetes.job.completions" dims v] | None => [] end ++
  match job_Parallelism j with Some v => [gaugeI "kubernetes.job.parallelism" dims v] | None => [] end ++
  [gaugeI "kubernetes.job.active" dims (job_Active j); counterI "kubernetes.job.failed" dims (job_Failed j);
   counterI "kubernetes.job.succeeded" dims (job_Succeeded j)].

Record CronJob := { cj_Meta : ObjectMeta; cj_Active : nat; cj_Schedule : string; cj_Policy : string }.
Definition datapointsForCronJob (cj : CronJob) : list sfxDatapoint :=
  [gaugeI "kubernetes.cronjob.active" (controllerDims (cj_Meta cj)) (Z.of_nat (cj_Active cj))].

(** ** Autoscalers *)

Record Hpa := {
  hpa_Meta : ObjectMeta; hpa_Max : Z; hpa_Min : option Z; hpa_Current : Z; hpa_Desired : Z;
  hpa_Conditions : list (string * string);   (* type and status *)
}.
Definition newStatusMetricValue (c : string * string) : res (string * Z) :=
  metric ← (if String.eqb c.1 "ScalingActive" then Ok "kubernetes.hpa.status.condition.scaling_active"
            else if String.eqb c.1 "AbleToScale" then Ok "kubernetes.hpa.status.condition.able_to_scale"
            else if String.eqb c.1 "ScalingLimited" then Ok "kubernetes.hpa.status.condition.scaling_limited"
            else Err (Errorf "invalid horizontal pod autoscaler condition type: %v" [c.1]));
  if String.eqb c.2 "True" then Ok (metric, 1)
  else if String.eqb c.2 "False" then Ok (metric, 0)
  else if String.eqb c.2 "Unknown" then Ok (metric, -1)
  else Err (Errorf "invalid horizontal pod autoscaler condition status: %v" [c.2]).
Definition newStatusDatapoints (conditions : list (string * string)) (dims : gmap string string) : list sfxDatapoint :=
  flat_map (λ c, match newStatusMetricValue c with Ok (metric, v) => [gaugeI metric dims v] | Err _ => [] end) conditions.
(** The minimum is dereferenced without a check. *)
Definition datapointsForHpa (h : Hpa) : res (list sfxDatapoint) :=
  match hpa_Min h with
  | None => Err (Errorf "panic: invalid memory address or nil pointer dereference" [])
  | Some min =>
      let dims := controllerDims (hpa_Meta h) in
      Ok ([gaugeI "kubernetes.hpa.spec.max_replicas" dims (hpa_Max h); gaugeI "kubernetes.hpa.spec.min_replicas" dims min;
           gaugeI "kubernetes.hpa.status.current_replicas" dims (hpa_Current h); gaugeI "kubernetes.hpa.status.desired_replicas" dims (hpa_Desired h)] ++
          newStatusDatapoints (hpa_Conditions h) dims)
  end.

(** ** Quotas *)

Record ResourceQuota := { rq_Meta : ObjectMeta; rq_Hard : ResourceList; rq_Used : ResourceList }.
Section ranges.
Context `{MapRange}.

Definition quotaPoints (rq : ResourceQuota) (typ : string) (rl : ResourceList) : list sfxDatapoint :=
  map (λ kv, gaugeI ("kubernetes.resource_quota_" +:+ typ)
               (list_to_map [("resource", kv.1); ("quota_name", om_Name (rq_Meta rq)); ("kubernetes_namespace", om_Namespace (rq_Meta rq))])
               (if HasSuffix kv.1 ".cpu" then q_MilliValue kv.2 else q_Value kv.2)) (range rl).
Definition datapointsForResourceQuota (rq : ResourceQuota) : list sfxDatapoint :=
  quotaPoints rq "hard" (rq_Hard rq) ++ quotaPoints rq "used" (rq_Used rq).
End ranges.

Record NamespaceQuota := { nq_Namespace : string; nq_Hard : ResourceList; nq_Used : ResourceList }.
Record ClusterQuota := { cq_Meta : ObjectMeta; cq_Hard : ResourceList; cq_Used : ResourceList; cq_Namespaces : list NamespaceQuota }.
Definition resources : list string :=
  ["cpu"; "memory"; "pods"; "services"; "persistentvolumeclaims"; "services.nodeports"; "services.loadbalancers"].
Definition resourcePoint (metric : string) (dims : gmap string string) (rl : ResourceList) (resource : string) : list sfxDatapoint :=
  match rl !! resource with Some q => [gaugeI metric dims (q_Value q)] | None => [] end.
Definition buildDatapoints (metricPrefix : string) (dims : gmap string string) (limit used : ResourceList) : list sfxDatapoint :=
  flat_map (λ r, resourcePoint (metricPrefix +:+ "." +:+ r +:+ ".limit") dims limit r ++
                 resourcePoint (metricPrefix +:+ "." +:+ r +:+ ".used") dims used r) resources.
(** [append] to a nil slice leaves nil when nothing is appended. *)
Definition asSlice {A} (l : list A) : option (list A) := match l with [] => None | _ => Some l end.
Definition datapointsForClusterQuotas (q : ClusterQuota) : option (list sfxDatapoint) :=
  let dims := list_to_map [("metric_source", "openshift"); ("kubernetes_uid", om_UID (cq_Meta q)); ("quota_name", om_Name (cq_Meta q))] in
  asSlice (buildDatapoints "openshift.clusterquota" dims (cq_Hard q) (cq_Used q) ++
           flat_map (λ ns, buildDatapoints "openshift.appliedclusterquota" (dims ∪ {["kubernetes_namespace" := nq_Namespace ns]})
                             (nq_Hard ns) (nq_Used ns)) (cq_Namespaces q)).

(** ** Nodes *)

Record Node := { node_Meta : ObjectMeta; node_Conditions : list (string * string); node_Allocatable : ResourceList }.
Definition nodeConditionStatus (s : string) : Z :=
  if String.eqb s "True" then 1 else if String.eqb s "Unknown" then -1 else 0.
Definition nodeConditionValue (n : Node) (condType : string) : Z :=
  nodeConditionStatus (match find (λ c, String.eqb c.1 condType) (node_Conditions n) with Some c => c.2 | None => "Unknown" end).
Definition nodeResources : list (string * string) :=
  [("cpu", "kubernetes.node_allocatable_cpu"); ("memory", "kubernetes.node_allocatable_memory");
   ("storage", "kubernetes.node_allocatable_storage"); ("ephemeral-storage", "kubernetes.node_allocatable_ephemeral_storage")].
(** [ToSnake] is third-party code. *)
Definition datapointsForNode (ToSnake : string → string) (n : Node) (conditionTypes : list string) : list sfxDatapoint :=
  let dims := list_to_map [("kubernetes_node", om_Name (node_Meta n)); ("kubernetes_node_uid", om_UID (node_Meta n))] in
  map (λ t, gaugeI ("kubernetes.node_" +:+ ToSnake t) dims (nodeConditionValue n t)) conditionTypes ++
  flat_map (λ rm, match node_Allocatable n !! rm.1 with Some q => [gaugeF rm.2 dims (milli q)] | None => [] end) nodeResources.

(** ** Dimensions of a pod's data points *)

Lemma getAllContainerDimensions_sub id name image p :
  podDimensions p ⊆ getAllContainerDimensions id name image (podDimensions p).
Proof.
  assert (Hn : ∀ k, k ∈ ["container_image"; "container_spec_name"; "container_id"] → podDimensions p !! k = None).
  { intros k Hk. unfold podDimensions. apply not_elem_of_list_to_map_1. cbn [fmap list_fmap fst].
    rewrite !elem_of_cons in Hk. rewrite !not_elem_of_cons. destruct Hk as [->|[->|[->|Hk]]]; [split_and!; try done; apply not_elem_of_nil..|].
    by apply not_elem_of_nil in Hk. }
  unfold getAllContainerDimensions.
  etransitivity; [|apply insert_subseteq; rewrite !lookup_insert_ne by done; apply Hn; by left].
  etransitivity; [|apply insert_subseteq; rewrite !lookup_insert_ne by done; apply Hn; right; by left].
  apply insert_subseteq, Hn. right. right. by left.
Qed.

Lemma spec_dims c dims dp : dp ∈ datapointsForContainerSpec c dims → sd_Dimensions dp = dims.
Proof.
  unfold datapointsForContainerSpec, specPoint. rewrite !elem_of_app. intros Hin.
  repeat match type of Hin with
         | _ ∨ _ => destruct Hin as [Hin|Hin]
         end; match type of Hin with context [match ?o with _ => _ end] => destruct o end;
    try (by apply not_elem_of_nil in Hin); by apply list_elem_of_singleton in Hin as ->.
Qed.

(** A started container of this name has a status. *)
Definition has_status (p : Pod) (name : string) : Prop :=
  ∃ cs, cs ∈ pod_ContainerStatuses p ∧ cs_ContainerID cs ≠ "" ∧ cs_Name cs = name.

Definition carries (p : Pod) (dp : sfxDatapoint) : Prop := podDimensions p ⊆ sd_Dimensions dp.

Lemma ex_cons {A} (a : A) l (P : A → Prop) : (∃ x, x ∈ a :: l ∧ P x) ↔ P a ∨ ∃ x, x ∈ l ∧ P x.
Proof.
  split.
  - intros (x & [->|Hx]%elem_of_cons & HP); [by left | right; eauto].
  - intros [HP|(x & Hx & HP)]; [exists a; split; [by left | done] | exists x; split; [by right | done]].
Qed.

Lemma statusLoop_inv p l acc :
  Forall (carries p) acc.1 → map_Forall (λ _ d, podDimensions p ⊆ d) acc.2 →
  let r := foldl (statusLoop (podDimensions p)) acc l in
  Forall (carries p) r.1 ∧ map_Forall (λ _ d, podDimensions p ⊆ d) r.2 ∧
  (∀ n, is_Some (r.2 !! n) ↔ is_Some (acc.2 !! n) ∨ ∃ cs, cs ∈ l ∧ cs_ContainerID cs ≠ "" ∧ cs_Name cs = n).
Proof.
  revert acc. induction l as [|cs l IH]; intros acc H1 H2; cbn [foldl].
  - split_and!; try done. intros n. split; [by left|]. intros [?|(cs & Hcs & _)]; [done|]. by apply not_elem_of_nil in Hcs.
  - unfold statusLoop at 2 4 6. destruct (String.eqb_spec (cs_ContainerID cs) "") as [He|Hne].
    + destruct (IH acc H1 H2) as (? & ? & Hk). split_and!; try done. intros n. rewrite Hk, (ex_cons cs l (λ cs, cs_ContainerID cs ≠ "" ∧ cs_Name cs = n)). tauto.
    + set (d := getAllContainerDimensions _ _ _ _).
      assert (Hd : podDimensions p ⊆ d) by apply getAllContainerDimensions_sub.
      destruct (IH (acc.1 ++ datapointsForContainerStatus cs d, <[cs_Name cs := d]> acc.2)) as (? & ? & Hk).
      { cbn. apply Forall_app. split; [done|]. by repeat constructor. }
      { cbn. by apply map_Forall_insert_2. }
      split_and!; try done. intros n. rewrite Hk, (ex_cons cs l (λ cs, cs_ContainerID cs ≠ "" ∧ cs_Name cs = n)). cbn [snd]. rewrite lookup_insert_is_Some'. tauto.
Qed.

(** Every data point of a pod carries the pod's dimensions, except those of the
    resources of a container that has no status with an identifier yet: these
    carry no dimension at all. *)
Theorem datapointsForPod_dims (p : Pod) (dp : sfxDatapoint) :
  dp ∈ datapointsForPod p →
  podDimensions p ⊆ sd_Dimensions dp ∨
  (sd_Dimensions dp = ∅ ∧ ∃ c, c ∈ pod_Containers p ∧ ¬ has_status p (ct_Name c) ∧ dp ∈ datapointsForContainerSpec c ∅).
Proof.
  unfold datapointsForPod. set (acc := ([gaugeI _ _ _], ∅)).
  destruct (statusLoop_inv p (pod_ContainerStatuses p) acc) as (H1 & H2 & H3); [by apply Forall_singleton; unfold carries | apply map_Forall_empty |].
  destruct (foldl _ acc _) as [dps byName]. cbn [fst snd] in *. rewrite elem_of_app. intros [Hin|Hin].
  - left. rewrite Forall_forall in H1. by apply H1.
  - apply list_elem_of_In, in_flat_map in Hin as (c & Hc & Hin). apply list_elem_of_In in Hc, Hin.
    pose proof (spec_dims _ _ _ Hin) as Hd. destruct (byName !! ct_Name c) as [d|] eqn:Hl; cbn [default from_option id] in *.
    + left. rewrite Hd. exact (H2 _ _ Hl).
    + right. split; [done|]. exists c. split_and!; try done. intros (cs & Hcs & Hid & Hn).
      assert (Hs : is_Some (byName !! ct_Name c)) by (apply H3; right; eauto). rewrite Hl in Hs. by destruct Hs.
Qed.

(** Such data points are reported. *)
Lemma unstarted_container_reported (p : Pod) (c : Container) dp :
  c ∈ pod_Containers p → ¬ has_status p (ct_Name c) → dp ∈ datapointsForContainerSpec c ∅ → dp ∈ datapointsForPod p.
Proof.
  intros Hc Hn Hin. unfold datapointsForPod. set (acc := ([gaugeI _ _ _], ∅)).
  destruct (statusLoop_inv p (pod_ContainerStatuses p) acc) as (_ & _ & H3); [by apply Forall_singleton; unfold carries | apply map_Forall_empty |].
  destruct (foldl _ acc _) as [dps byName]. cbn [fst snd] in *. apply elem_of_app. right.
  apply list_elem_of_In, in_flat_map. exists c. split; [by apply list_elem_of_In|]. apply list_elem_of_In.
  destruct (byName !! ct_Name c) eqn:Hl; [|done]. destruct Hn. destruct (proj1 (H3 (ct_Name c))) as [Hx|Hx]; [by rewrite Hl| |done].
  subst acc. cbn [snd] in Hx. rewrite lookup_empty in Hx. by destruct Hx.
Qed.

(** ** Names of the cluster quota metrics *)

(** The metrics the monitor's metadata declares for quotas ([meta/genmetadata.go]). *)
Definition declaredQuotaMetrics : list string :=
  flat_map (λ prefix, flat_map (λ r, [prefix +:+ r +:+ ".hard"; prefix +:+ r +:+ ".used"]) resources)
    ["openshift.appliedclusterquota."; "openshift.clusterquota."].

(** The limits of a cluster quota are reported under names that end in limit, none
    of which the monitor declares (it declares them as hard); the used amounts are
    reported under declared names. *)
Theorem quota_limits_undeclared (prefix : string) (dims : gmap string string) (limit used : ResourceList) (dp : sfxDatapoint) :
  prefix ∈ ["openshift.appliedclusterquota"; "openshift.clusterquota"] →
  dp ∈ buildDatapoints prefix dims limit used →
  ∃ r, r ∈ resources ∧
    ((is_Some (limit !! r) ∧ sd_Metric dp = prefix +:+ "." +:+ r +:+ ".limit" ∧ sd_Metric dp ∉ declaredQuotaMetrics) ∨
     (is_Some (used !! r) ∧ sd_Metric dp = prefix +:+ "." +:+ r +:+ ".used" ∧ sd_Metric dp ∈ declaredQuotaMetrics)).
Proof.
  intros Hp Hin. unfold buildDatapoints in Hin. apply list_elem_of_In, in_flat_map in Hin as (r & Hr & Hin). apply list_elem_of_In in Hr, Hin.
  exists r. split; [done|]. apply elem_of_app in Hin as [Hin|Hin]; unfold resourcePoint in Hin.
  - left. destruct (limit !! r); [|by apply not_elem_of_nil in Hin]. apply list_elem_of_singleton in Hin as ->. split; [done|]. split; [done|].
    cbn [sd_Metric gaugeI mkDatapoint].
    assert (Hall : forallb (λ pr, negb (existsb (String.eqb (pr.1 +:+ "." +:+ pr.2 +:+ ".limit")) declaredQuotaMetrics))
      (list_prod ["openshift.appliedclusterquota"; "openshift.clusterquota"] resources) = true) by (vm_compute; reflexivity).
    assert (Hpr : In (prefix, r) (list_prod ["openshift.appliedclusterquota"; "openshift.clusterquota"] resources))
      by (apply in_prod; by apply list_elem_of_In).
    pose proof (proj1 (forallb_forall _ _) Hall _ Hpr) as Hd. cbn [fst snd] in Hd. apply negb_true_iff in Hd.
    intros He. assert (Ht : existsb (String.eqb (prefix +:+ "." +:+ r +:+ ".limit")) declaredQuotaMetrics = true); [|congruence].
    apply existsb_elem. eexists. split; [exact He | apply String.eqb_refl].
  - right. destruct (used !! r); [|by apply not_elem_of_nil in Hin]. apply list_elem_of_singleton in Hin as ->. split; [done|]. split; [done|].
    cbn [sd_Metric gaugeI mkDatapoint].
    assert (Hall : forallb (λ pr, existsb (String.eqb (pr.1 +:+ "." +:+ pr.2 +:+ ".used")) declaredQuotaMetrics)
      (list_prod ["openshift.appliedclusterquota"; "openshift.clusterquota"] resources) = true) by (vm_compute; reflexivity).
    assert (Hpr : In (prefix, r) (list_prod ["openshift.appliedclusterquota"; "openshift.clusterquota"] resources))
      by (apply in_prod; by apply list_elem_of_In).
    pose proof (proj1 (forallb_forall _ _) Hall _ Hpr) as Hd. cbn [fst snd] in Hd.
    apply existsb_elem in Hd as (x & Hx & He%String.eqb_eq). by rewrite He.
Qed.

Definition startingPod : Pod :=
  {| pod_Meta := {| om_Name := "cart-1"; om_Namespace := "shop"; om_UID := "p1"; om_Labels := ∅; om_Owners := []; om_Created := "2024-01-01T00:00:00Z" |};
     pod_NodeName := "n1"; pod_Phase := "Pending"; pod_ContainerStatuses := [];
     pod_Containers := [{| ct_Name := "main"; ct_Requests := {["memory" := {| q_Value := 64; q_MilliValue := 64000 |}]}; ct_Limits := ∅ |}] |}.
Definition orphanPoint : sfxDatapoint := gaugeI "kubernetes.container_memory_request" ∅ 64.

Lemma datapointsForPod_dims_witness : orphanPoint ∈ datapointsForPod startingPod ∧ ¬ has_status startingPod "main" ∧
  (podDimensions startingPod ⊆ sd_Dimensions orphanPoint ∨
   (sd_Dimensions orphanPoint = ∅ ∧ ∃ c, c ∈ pod_Containers startingPod ∧ ¬ has_status startingPod (ct_Name c) ∧ orphanPoint ∈ datapointsForContainerSpec c ∅)).
Proof.
  assert (Hin : orphanPoint ∈ datapointsForPod startingPod) by (vm_compute; right; left).
  split; [exact Hin|]. split; [intros (cs & Hcs & _); inversion Hcs|]. exact (datapointsForPod_dims startingPod orphanPoint Hin).
Defined.

Definition fivePods : ResourceList := {["pods" := {| q_Value := 5; q_MilliValue := 5000 |}]}.
Lemma quota_limits_undeclared_witness :
  ∃ r, r ∈ resources ∧
    ((is_Some (fivePods !! r) ∧
      "openshift.clusterquota.pods.limit" = "openshift.clusterquota" +:+ "." +:+ r +:+ ".limit" ∧ "openshift.clusterquota.pods.limit" ∉ declaredQuotaMetrics) ∨
     (is_Some ((∅ : ResourceList) !! r) ∧
      "openshift.clusterquota.pods.limit" = "openshift.clusterquota" +:+ "." +:+ r +:+ ".used" ∧ "openshift.clusterquota.pods.limit" ∈ declaredQuotaMetrics)).
Proof.
  apply (quota_limits_undeclared "openshift.clusterquota" ∅ fivePods ∅
    (gaugeI "openshift.clusterquota.pods.limit" ∅ 5)).
  - right. left.
  - vm_compute. left.
Defined.
