(* ===== verification/K8sDimensions.v ===== *)
(** * Dimension updates of kubernetes objects

    [src/internal/signalfx-agent/pkg/monitors/kubernetes]: the caches of pods,
    services, replica sets and jobs by namespace ([utils/*cache.go]), the
    properties and tags of objects ([cluster/metrics/*.go], [utils/labels.go],
    [utils/owners.go]) and the handler that relates pods to services and
    controllers in whatever order they arrive ([cluster/metrics/dimensions.go]).
    The matching of label selectors is a parameter. *)

From S2P Require Import Prelude GoStrings GoValue SmartAgent K8sObjects.
From Stdlib Require Import Ascii.

(** ** Objects *)

Record Service := { sv_Meta : ObjectMeta; sv_Selector : gmap string string }.

Inductive k8sObject :=
| OPod (p : Pod)
| ONamespace (m : ObjectMeta) (phase : string)
| OReplicationController (r : Replicas)
| ODaemonSet (d : DaemonSet)
| ODeployment (d : Replicas)
| OReplicaSet (r : Replicas)
| OResourceQuota (q : ResourceQuota)
| ONode (n : Node)
| OService (s : Service)
| OStatefulSet (s : Replicas)
| OClusterQuota (q : ClusterQuota)
| OJob (j : Job)
| OCronJob (c : CronJob)
| OHpa (h : Hpa)
| OUnknown (m : option ObjectMeta).

Definition metaOf (o : k8sObject) : option ObjectMeta :=
  match o with
  | OPod p => Some (pod_Meta p)
  | ONamespace m _ => Some m
  | OReplicationController r | ODeployment r | OReplicaSet r | OStatefulSet r => Some (rp_Meta r)
  | ODaemonSet d => Some (ds_Meta d)
  | OResourceQuota q => Some (rq_Meta q)
  | ONode n => Some (node_Meta n)
  | OService s => Some (sv_Meta s)
  | OClusterQuota q => Some (cq_Meta q)
  | OJob j => Some (job_Meta j)
  | OCronJob c => Some (cj_Meta c)
  | OHpa h => Some (hpa_Meta h)
  | OUnknown m => m
  end.
Definition keyForObject (o : k8sObject) : res string :=
  match metaOf o with
  | Some m => Ok (om_UID m)
  | None => Err (Errorf "kubernetes object is not of the expected form" [])
  end.

(** ** Caches by namespace *)

Section nsCache.
Context {A : Type} (ns : A → string).

Record nsCache := { byNamespace : gmap string (gset string); cached : gmap string A }.
Definition NewCache : nsCache := {| byNamespace := ∅; cached := ∅ |}.

Definition uidsIn (c : nsCache) (n : string) : gset string := default ∅ (byNamespace c !! n).
Definition addCached (uid : string) (a : A) (c : nsCache) : nsCache :=
  {| byNamespace := <[ns a := {[uid]} ∪ uidsIn c (ns a)]> (byNamespace c); cached := <[uid := a]> (cached c) |}.

(** [removeEmpty]: whether a namespace without entries is dropped. *)
Definition DeleteByKey (removeEmpty : bool) (kind uid : string) (c : nsCache) : option error * nsCache :=
  match cached c !! uid with
  | None => (Some (Errorf (kind +:+ " does not exist in internal cache") []), c)
  | Some a =>
      let left := uidsIn c (ns a) ∖ {[uid]} in
      (None, {| byNamespace := if removeEmpty && bool_decide (left = ∅) then delete (ns a) (byNamespace c)
                               else if bool_decide (is_Some (byNamespace c !! ns a)) then <[ns a := left]> (byNamespace c) else byNamespace c;
                cached := delete uid (cached c) |})
  end.

(** The order of a set's iteration is any; a missing entry would be a nil object. *)
Definition GetForNamespace (order : gset string → list string) (c : nsCache) (n : string) : list (option A) :=
  map (λ uid, cached c !! uid) (order (uidsIn c n)).

(** Entries are listed under their own namespace, and only there. *)
Definition cache_wf (c : nsCache) : Prop := ∀ uid n, uid ∈ uidsIn c n ↔ ∃ a, cached c !! uid = Some a ∧ ns a = n.

Lemma NewCache_wf : cache_wf NewCache.
Proof.
  intros uid n. unfold uidsIn. cbn. rewrite lookup_empty. cbn. split; [intros Hin; by apply not_elem_of_empty in Hin|].
  intros (a & Ha & _). by rewrite lookup_empty in Ha.
Qed.

(** An object keeps its namespace. *)
Lemma addCached_wf uid a c : cache_wf c → (∀ b, cached c !! uid = Some b → ns b = ns a) → cache_wf (addCached uid a c).
Proof.
  intros Hwf Hns u n. unfold uidsIn, addCached. cbn. destruct (decide (ns a = n)) as [<-|Hn].
  - rewrite lookup_insert_eq. cbn. rewrite elem_of_union, elem_of_singleton, (Hwf u (ns a)). destruct (decide (u = uid)) as [->|Hu].
    + split; [intros _; exists a; by rewrite lookup_insert_eq | auto].
    + rewrite lookup_insert_ne by congruence. split; [by intros [|]|auto].
  - rewrite lookup_insert_ne by congruence. fold (uidsIn c n). rewrite (Hwf u n). destruct (decide (u = uid)) as [->|Hu].
    + rewrite lookup_insert_eq. split.
      * intros (b & Hb & <-). destruct Hn. symmetry. by apply Hns.
      * intros (b & Hb & <-). congruence.
    + by rewrite lookup_insert_ne by congruence.
Qed.

Lemma DeleteByKey_wf removeEmpty kind uid c : cache_wf c → cache_wf (DeleteByKey removeEmpty kind uid c).2.
Proof.
  intros Hwf. unfold DeleteByKey. destruct (cached c !! uid) as [a|] eqn:Ha; [|done]. cbn [snd]. intros u n.
  assert (Hin : uid ∈ uidsIn c (ns a)) by (apply Hwf; eauto).
  assert (Hsome : is_Some (byNamespace c !! ns a)).
  { unfold uidsIn in Hin. destruct (byNamespace c !! ns a); [done|]. by apply not_elem_of_empty in Hin. }
  rewrite (bool_decide_eq_true_2 _ Hsome).
  assert (Hu : ∀ m, uidsIn {| byNamespace := if removeEmpty && bool_decide (uidsIn c (ns a) ∖ {[uid]} = ∅) then delete (ns a) (byNamespace c)
      else <[ns a := uidsIn c (ns a) ∖ {[uid]}]> (byNamespace c); cached := delete uid (cached c) |} m =
      if decide (ns a = m) then uidsIn c m ∖ {[uid]} else uidsIn c m).
  { intros m. unfold uidsIn at 1. cbn [byNamespace]. destruct (decide (ns a = m)) as [<-|Hm].
    - destruct removeEmpty; cbn [andb]; [|by rewrite lookup_insert_eq]. case_bool_decide as He; [by rewrite lookup_delete_eq, He | by rewrite lookup_insert_eq].
    - destruct (removeEmpty && _); [rewrite lookup_delete_ne by congruence | rewrite lookup_insert_ne by congruence]; done. }
  rewrite Hu. cbn [cached]. destruct (decide (u = uid)) as [->|Hne].
  - rewrite lookup_delete_eq. split; [|by intros (? & ? & _)]. destruct (decide (ns a = n)) as [<-|Hm].
    + rewrite elem_of_difference, elem_of_singleton. by intros [_ []].
    + intros (b & Hb & Hn)%Hwf. congruence.
  - rewrite lookup_delete_ne by congruence. destruct (decide (ns a = n)) as [<-|Hm]; [|apply Hwf].
    rewrite elem_of_difference, elem_of_singleton, (Hwf u (ns a)). split; [by intros [? _] | done].
Qed.

(** The listing of a namespace is what is cached with that namespace. *)
Lemma GetForNamespace_elem order c n a : (∀ s x, x ∈ order s ↔ x ∈ s) → cache_wf c →
  Some a ∈ GetForNamespace order c n ↔ ∃ uid, cached c !! uid = Some a ∧ ns a = n.
Proof.
  intros Ho Hwf. unfold GetForNamespace. rewrite list_elem_of_fmap. split.
  - intros (uid & Ha & Hin). apply Ho, Hwf in Hin as (b & Hb & Hn). exists uid. rewrite Hb in Ha. by injection Ha as <-.
  - intros (uid & Ha & Hn). exists uid. split; [done|]. apply Ho, Hwf. eauto.
Qed.
End nsCache.
Arguments nsCache : clear implicits.

(** What the caches keep of an object. *)
Record CachedPod := { cp_UID : string; cp_Labels : gmap string string; cp_Owners : list OwnerReference; cp_Namespace : string; cp_Created : string }.
Definition newCachedPod (p : Pod) : CachedPod :=
  {| cp_UID := om_UID (pod_Meta p); cp_Labels := om_Labels (pod_Meta p); cp_Owners := om_Owners (pod_Meta p);
     cp_Namespace := om_Namespace (pod_Meta p); cp_Created := om_Created (pod_Meta p) |}.
Record CachedService := { cv_UID : string; cv_Name : string; cv_Namespace : string; cv_Selector : gmap string string }.
Definition newCachedService (s : Service) : CachedService :=
  {| cv_UID := om_UID (sv_Meta s); cv_Name := om_Name (sv_Meta s); cv_Namespace := om_Namespace (sv_Meta s); cv_Selector := sv_Selector s |}.
(** Replica sets and jobs. *)
Record CachedOwner := { co_UID : string; co_Name : string; co_Namespace : string; co_Owners : list OwnerReference }.
Definition newCachedOwner (m : ObjectMeta) : CachedOwner :=
  {| co_UID := om_UID m; co_Name := om_Name m; co_Namespace := om_Namespace m; co_Owners := om_Owners m |}.

Definition PodCache := nsCache CachedPod.
Definition ServiceCache := nsCache CachedService.
Definition OwnerCache := nsCache CachedOwner.
Definition AddPod (p : Pod) : PodCache → PodCache := addCached cp_Namespace (om_UID (pod_Meta p)) (newCachedPod p).
Definition AddService (s : Service) : ServiceCache → ServiceCache := addCached cv_Namespace (om_UID (sv_Meta s)) (newCachedService s).
Definition AddReplicaSet (r : Replicas) : OwnerCache → OwnerCache := addCached co_Namespace (om_UID (rp_Meta r)) (newCachedOwner (rp_Meta r)).
Definition AddJob (j : Job) : OwnerCache → OwnerCache := addCached co_Namespace (om_UID (job_Meta j)) (newCachedOwner (job_Meta j)).

Definition FindOwnerWithUID (ors : list OwnerReference) (uid : string) : option OwnerReference := find (λ r, String.eqb (or_UID r) uid) ors.
Definition FindOwnerWithKind (ors : list OwnerReference) (kind : string) : option OwnerReference := find (λ r, String.eqb (or_Kind r) kind) ors.

(** ** Properties and tags *)

Record Dimension := { dm_Name : string; dm_Value : string; dm_Props : gmap string string; dm_Tags : gmap string bool; dm_Merge : bool }.

Definition sanitize : string → string := smap (λ c, if Ascii.eqb c "." || Ascii.eqb c "/" then "_"%char else c).
(** [LowercaseFirstChar] of a kind, whose first letter is a byte. *)
Definition LowercaseFirstChar (s : string) : string := match s with String c t => String (lower_byte c) t | EmptyString => "" end.

Section dims.
Context `{MapRange}.

Definition PropsAndTagsFromLabels (labels : gmap string string) : gmap string string * gmap string bool :=
  foldl (λ pt lv, if String.eqb lv.2 "" then (pt.1, <[sanitize lv.1 := true]> pt.2) else (<[sanitize lv.1 := lv.2]> pt.1, pt.2)) (∅, ∅) (range labels).

Definition setProps (kvs : list (string * string)) (props : gmap string string) : gmap string string :=
  foldl (λ p kv, <[kv.1 := kv.2]> p) props kvs.
Definition ownerProps (r : OwnerReference) : list (string * string) :=
  [(LowercaseFirstChar (or_Kind r), or_Name r); (LowercaseFirstChar (or_Kind r) +:+ "_uid", or_UID r)].
(** A controller's own dimension: labels, some properties, then its owners. *)
Definition uidDimension (m : ObjectMeta) (kvs : list (string * string)) : Dimension :=
  let '(props, tags) := PropsAndTagsFromLabels (om_Labels m) in
  {| dm_Name := "kubernetes_uid"; dm_Value := om_UID m; dm_Props := setProps (kvs ++ flat_map ownerProps (om_Owners m)) props; dm_Tags := tags; dm_Merge := false |}.

Definition dimensionForReplicaSet (r : Replicas) : Dimension :=
  uidDimension (rp_Meta r) [("kubernetes_workload_name", om_Name (rp_Meta r)); ("kubernetes_workload", "ReplicaSet");
    ("replicaset_creation_timestamp", om_Created (rp_Meta r))].
Definition dimensionForReplicationController (r : Replicas) : Dimension :=
  uidDimension (rp_Meta r) [("kubernetes_workload_name", om_Name (rp_Meta r)); ("kubernetes_workload", "ReplicationController");
    ("replication_controller_creation_timestamp", om_Created (rp_Meta r))].
Definition dimensionForDaemonSet (d : DaemonSet) : Dimension :=
  uidDimension (ds_Meta d) [("kubernetes_workload", "DaemonSet"); ("kubernetes_workload_name", om_Name (ds_Meta d));
    ("daemonset_creation_timestamp", om_Created (ds_Meta d))].
Definition dimensionForDeployment (d : Replicas) : Dimension :=
  uidDimension (rp_Meta d) [("kubernetes_workload_name", om_Name (rp_Meta d)); ("deployment", om_Name (rp_Meta d)); ("kubernetes_workload", "Deployment");
    ("deployment_creation_timestamp", om_Created (rp_Meta d))].
Definition dimensionForStatefulSet (s : Replicas) : Dimension :=
  uidDimension (rp_Meta s) [("kubernetes_workload", "StatefulSet"); ("kubernetes_workload_name", om_Name (rp_Meta s));
    ("current_revision", rp_CurrentRevision s); ("update_revision", rp_UpdateRevision s); ("statefulset_creation_timestamp", om_Created (rp_Meta s))].
Definition dimensionForJob (j : Job) : Dimension :=
  uidDimension (job_Meta j) [("kubernetes_workload", "Job"); ("kubernetes_workload_name", om_Name (job_Meta j)); ("job_creation_timestamp", om_Created (job_Meta j))].
Definition dimensionForCronJob (c : CronJob) : Dimension :=
  uidDimension (cj_Meta c) [("cronjob_creation_timestamp", om_Created (cj_Meta c)); ("kubernetes_workload", "CronJob");
    ("kubernetes_workload_name", om_Name (cj_Meta c)); ("schedule", cj_Schedule c); ("concurrency_policy", cj_Policy c)].
Definition dimensionForHpa (h : Hpa) : Dimension :=
  let '(props, tags) := PropsAndTagsFromLabels (om_Labels (hpa_Meta h)) in
  {| dm_Name := "kubernetes_uid"; dm_Value := om_UID (hpa_Meta h);
     dm_Props := setProps (flat_map (λ r, ("kubernetes_workload", or_Kind r) :: ownerProps r) (om_Owners (hpa_Meta h))) props;
     dm_Tags := tags; dm_Merge := false |}.

Definition dimensionsForNode (n : Node) (updatesForNodeDimension : bool) : list Dimension :=
  let '(props, tags) := PropsAndTagsFromLabels (om_Labels (node_Meta n)) in
  let props := <["node_creation_timestamp" := om_Created (node_Meta n)]> props in
  (if updatesForNodeDimension
   then [{| dm_Name := "kubernetes_node"; dm_Value := om_Name (node_Meta n); dm_Props := props; dm_Tags := tags; dm_Merge := false |}] else []) ++
  [{| dm_Name := "kubernetes_node_uid"; dm_Value := om_UID (node_Meta n); dm_Props := <["kubernetes_node" := om_Name (node_Meta n)]> props; dm_Tags := tags; dm_Merge := false |}].

(** Properties of a pod: replica sets and jobs are left to their own handlers. *)
Definition podOwnerProps (r : OwnerReference) : list (string * string) :=
  ownerProps r ++
  if String.eqb (or_Kind r) "ReplicaSet" || String.eqb (or_Kind r) "Job" then []
  else [("kubernetes_workload", or_Kind r); ("kubernetes_workload_name", or_Name r)].
Definition dimensionForPod (p : Pod) : Dimension :=
  let '(props, tags) := PropsAndTagsFromLabels (om_Labels (pod_Meta p)) in
  {| dm_Name := "kubernetes_pod_uid"; dm_Value := om_UID (pod_Meta p);
     dm_Props := setProps (("pod_creation_timestamp", om_Created (pod_Meta p)) :: flat_map podOwnerProps (om_Owners (pod_Meta p))) props;
     dm_Tags := tags; dm_Merge := true |}.
End dims.

Definition podDimension (uid : string) (props : list (string * string)) : Dimension :=
  {| dm_Name := "kubernetes_pod_uid"; dm_Value := uid; dm_Props := setProps props ∅; dm_Tags := ∅; dm_Merge := true |}.
Definition dimensionForPodWorkload (uid workloadName workloadType : string) : Dimension :=
  podDimension uid [("kubernetes_workload", workloadType); ("kubernetes_workload_name", workloadName)].
Definition dimensionForPodDeployment (uid name deploymentUID : string) : Dimension :=
  podDimension uid [("kubernetes_workload", "Deployment"); ("kubernetes_workload_name", name); ("deployment", name); ("deployment_uid", deploymentUID)].
Definition dimensionForPodCronJob (uid name cronJobUID : string) : Dimension :=
  podDimension uid [("kubernetes_workload", "CronJob"); ("kubernetes_workload_name", name); ("cronJob", name); ("cronJob_uid", cronJobUID)].
Definition serviceTag (name : string) : string := "kubernetes_service_" +:+ name.
Definition dimensionForPodServices (uid : string) (serviceNames : list string) (isAdd : bool) : Dimension :=
  {| dm_Name := "kubernetes_pod_uid"; dm_Value := uid; dm_Props := ∅;
     dm_Tags := foldl (λ t s, <[serviceTag s := isAdd]> t) ∅ serviceNames; dm_Merge := true |}.

Definition dimensionForContainer (cs : ContainerStatus) : Dimension :=
  let props := if cs_Running cs then [("container_status", "running"); ("container_status_reason", "")] else [] in
  let props := props ++ match cs_Terminated cs with Some r => [("container_status", "terminated"); ("container_status_reason", r)] | None => [] end in
  let props := props ++ match cs_Waiting cs with Some r => [("container_status", "waiting"); ("container_status_reason", r)] | None => [] end in
  {| dm_Name := "container_id"; dm_Value := StripContainerID (cs_ContainerID cs); dm_Props := setProps props ∅; dm_Tags := ∅; dm_Merge := true |}.
Definition dimensionsForPodContainers (p : Pod) : list Dimension :=
  map dimensionForContainer (List.filter (λ cs, negb (String.eqb (cs_ContainerID cs) "")) (pod_ContainerStatuses p)).

(** ** The handler *)

Record DimensionHandler := {
  uidKindCache : gmap string string; podCache : PodCache; serviceCache : ServiceCache;
  replicaSetCache : OwnerCache; jobCache : OwnerCache; updatesForNodeDimension : bool;
}.
Definition NewDimensionHandler (updates : bool) : DimensionHandler :=
  {| uidKindCache := ∅; podCache := NewCache; serviceCache := NewCache; replicaSetCache := NewCache; jobCache := NewCache; updatesForNodeDimension := updates |}.

Definition setCaches (pc : PodCache) (sc : ServiceCache) (rc jc : OwnerCache) (h : DimensionHandler) : DimensionHandler :=
  {| uidKindCache := uidKindCache h; podCache := pc; serviceCache := sc; replicaSetCache := rc; jobCache := jc; updatesForNodeDimension := updatesForNodeDimension h |}.
Definition setKinds (k : gmap string string) (h : DimensionHandler) : DimensionHandler :=
  {| uidKindCache := k; podCache := podCache h; serviceCache := serviceCache h; replicaSetCache := replicaSetCache h; jobCache := jobCache h;
     updatesForNodeDimension := updatesForNodeDimension h |}.

Section handler.
Context `{MapRange} (order : gset string → list string).
(** Whether a selector matches labels: [labels.Set.AsSelectorPreValidated().Matches]. *)
Context (Matches : gmap string string → gmap string string → bool).

Definition SelectorMatchesPod (selector : gmap string string) (p : CachedPod) : bool := Matches selector (cp_Labels p).

(** The pods (services, ...) of a namespace; the caches give no nil objects. *)
Definition present {A} (l : list (option A)) : list A := omap id l.

(** The names of the matching services of a pod's namespace. *)
Definition podServiceNames (h : DimensionHandler) (p : CachedPod) : list string :=
  map cv_Name (List.filter (λ s, SelectorMatchesPod (cv_Selector s) p) (present (GetForNamespace order (serviceCache h) (cp_Namespace p)))).

Definition ownerUpdate (uid : string) (cache : OwnerCache) (ref : option OwnerReference) (parentKind kind : string)
    (parentDim : string → string → string → Dimension) : list Dimension :=
  match ref with
  | None => []
  | Some r =>
      match cached cache !! or_UID r with
      | None => []
      | Some o =>
          match FindOwnerWithKind (co_Owners o) parentKind with
          | Some parent => [parentDim uid (or_Name parent) (or_UID parent)]
          | None => [dimensionForPodWorkload uid (co_Name o) kind]
          end
      end
  end.

Definition handleAddPod (p : Pod) (h : DimensionHandler) : list Dimension * DimensionHandler :=
  let h := setCaches (AddPod p (podCache h)) (serviceCache h) (replicaSetCache h) (jobCache h) h in
  let cp := newCachedPod p in
  let names := podServiceNames h cp in
  ((match names with [] => [] | _ => [dimensionForPodServices (cp_UID cp) names true] end) ++
   ownerUpdate (cp_UID cp) (replicaSetCache h) (FindOwnerWithKind (cp_Owners cp) "ReplicaSet") "Deployment" "ReplicaSet" dimensionForPodDeployment ++
   ownerUpdate (cp_UID cp) (jobCache h) (FindOwnerWithKind (cp_Owners cp) "Job") "CronJob" "Job" dimensionForPodCronJob, h).

(** The pods of the service's namespace that it selects. *)
Definition servicePods (h : DimensionHandler) (namespace : string) (selector : gmap string string) : list CachedPod :=
  List.filter (SelectorMatchesPod selector) (present (GetForNamespace order (podCache h) namespace)).
Definition handleAddService (s : Service) (h : DimensionHandler) : list Dimension * DimensionHandler :=
  let h := setCaches (podCache h) (AddService s (serviceCache h)) (replicaSetCache h) (jobCache h) h in
  (map (λ p, dimensionForPodServices (cp_UID p) [om_Name (sv_Meta s)] true) (servicePods h (om_Namespace (sv_Meta s)) (sv_Selector s)), h).
Definition handleDeleteService (uid : string) (h : DimensionHandler) : list Dimension * DimensionHandler :=
  match cached (serviceCache h) !! uid with
  | None => ([], h)
  | Some s =>
      let h := setCaches (podCache h) (DeleteByKey cv_Namespace true "service" uid (serviceCache h)).2 (replicaSetCache h) (jobCache h) h in
      (map (λ p, dimensionForPodServices (cp_UID p) [cv_Name s] false) (servicePods h (cv_Namespace s) (cv_Selector s)), h)
  end.

(** The pods of the namespace that a replica set or job owns. *)
Definition ownedPods (h : DimensionHandler) (m : ObjectMeta) : list CachedPod :=
  List.filter (λ p, bool_decide (is_Some (FindOwnerWithUID (cp_Owners p) (om_UID m)))) (present (GetForNamespace order (podCache h) (om_Namespace m))).
Definition handleAddReplicaSet (r : Replicas) (h : DimensionHandler) : list Dimension * DimensionHandler :=
  let h := setCaches (podCache h) (serviceCache h) (AddReplicaSet r (replicaSetCache h)) (jobCache h) h in
  (map (λ p, match FindOwnerWithKind (om_Owners (rp_Meta r)) "Deployment" with
             | None => dimensionForPodWorkload (cp_UID p) (om_Name (rp_Meta r)) "ReplicaSet"
             | Some d => dimensionForPodDeployment (cp_UID p) (or_Name d) (or_UID d) end) (ownedPods h (rp_Meta r)), h).
Definition handleAddJob (j : Job) (h : DimensionHandler) : list Dimension * DimensionHandler :=
  let h := setCaches (podCache h) (serviceCache h) (replicaSetCache h) (AddJob j (jobCache h)) h in
  (map (λ p, match FindOwnerWithKind (om_Owners (job_Meta j)) "CronJob" with
             | None => dimensionForPodWorkload (cp_UID p) (om_Name (job_Meta j)) "Job"
             | Some d => dimensionForPodCronJob (cp_UID p) (or_Name d) (or_UID d) end) (ownedPods h (job_Meta j)), h).

(** What is sent for an object, its kind, and the caches after it. *)
Definition dispatchAdd (o : k8sObject) (h : DimensionHandler) : option (list Dimension * string * DimensionHandler) :=
  match o with
  | OPod p => let '(ds, h) := handleAddPod p h in Some (dimensionForPod p :: dimensionsForPodContainers p ++ ds, "Pod", h)
  | ODaemonSet d => Some ([dimensionForDaemonSet d], "DaemonSet", h)
  | ODeployment d => Some ([dimensionForDeployment d], "Deployment", h)
  | OReplicaSet r => let '(ds, h) := handleAddReplicaSet r h in Some (ds ++ [dimensionForReplicaSet r], "ReplicaSet", h)
  | OReplicationController r => Some ([dimensionForReplicationController r], "ReplicationController", h)
  | ONode n => Some (dimensionsForNode n (updatesForNodeDimension h), "Node", h)
  | OService s => let '(ds, h) := handleAddService s h in Some (ds, "Service", h)
  | OStatefulSet s => Some ([dimensionForStatefulSet s], "StatefulSet", h)
  | OJob j => let '(ds, h) := handleAddJob j h in Some (dimensionForJob j :: ds, "Job", h)
  | OCronJob c => Some ([dimensionForCronJob c], "CronJob", h)
  | OHpa a => Some ([dimensionForHpa a], "HorizontalPodAutoscaler", h)
  | ONamespace _ _ | OResourceQuota _ | OClusterQuota _ | OUnknown _ => None
  end.
Definition dims_HandleAdd (o : k8sObject) (h : DimensionHandler) : option string * list Dimension * DimensionHandler :=
  match dispatchAdd o h with
  | None => (None, [], h)
  | Some (ds, kind, h) =>
      match keyForObject o with
      | Err _ => (None, ds, h)
      | Ok key => (Some key, ds, setKinds (<[key := kind]> (uidKindCache h)) h)
      end
  end.

Definition dims_DeleteByKey (key : string) (h : DimensionHandler) : list Dimension * DimensionHandler :=
  let kind := default "" (uidKindCache h !! key) in
  let '(ds, h) :=
    if String.eqb kind "Pod" then
      ([], setCaches (DeleteByKey cp_Namespace true "pod" key (podCache h)).2 (serviceCache h) (replicaSetCache h) (jobCache h) h)
    else if String.eqb kind "Service" then handleDeleteService key h
    else if String.eqb kind "ReplicaSet" then
      ([], setCaches (podCache h) (serviceCache h) (DeleteByKey co_Namespace false "replicaset" key (replicaSetCache h)).2 (jobCache h) h)
    else if String.eqb kind "Job" then
      ([], setCaches (podCache h) (serviceCache h) (replicaSetCache h) (DeleteByKey co_Namespace true "job" key (jobCache h)).2 h)
    else ([], h) in
  (ds, setKinds (delete key (uidKindCache h)) h).
Definition dims_HandleDelete (o : k8sObject) (h : DimensionHandler) : option string * list Dimension * DimensionHandler :=
  match keyForObject o with
  | Err _ => (None, [], h)
  | Ok key => let '(ds, h) := dims_DeleteByKey key h in (Some key, ds, h)
  end.
End handler.

(** ** The tags of pods, whatever the order of events *)

(** The tags the backend has for pods after merging an update. *)
Notation backend := (gmap string (gmap string bool)).
Definition tagsOf (b : backend) (uid : string) : gmap string bool := default ∅ (b !! uid).
Definition applyDim (b : backend) (d : Dimension) : backend :=
  if String.eqb (dm_Name d) "kubernetes_pod_uid" then <[dm_Value d := dm_Tags d ∪ tagsOf b (dm_Value d)]> b else b.
Definition applyDims : backend → list Dimension → backend := foldl applyDim.

Definition adds_only (d : Dimension) : Prop := map_Forall (λ _ v, v = true) (dm_Tags d).

Lemma tagsOf_apply b d uid : tagsOf (applyDim b d) uid =
  if bool_decide (dm_Name d = "kubernetes_pod_uid" ∧ dm_Value d = uid) then dm_Tags d ∪ tagsOf b uid else tagsOf b uid.
Proof.
  unfold applyDim. destruct (String.eqb_spec (dm_Name d) "kubernetes_pod_uid") as [Hn|Hn].
  - destruct (decide (dm_Value d = uid)) as [<-|Hv].
    + rewrite bool_decide_eq_true_2 by done. unfold tagsOf at 1. by rewrite lookup_insert_eq.
    + rewrite bool_decide_eq_false_2 by naive_solver. unfold tagsOf. by rewrite lookup_insert_ne.
  - by rewrite bool_decide_eq_false_2 by naive_solver.
Qed.
(** A tag that no update takes away stays. *)
Lemma apply_keeps ds b uid k :
  Forall (λ d, dm_Name d = "kubernetes_pod_uid" → dm_Value d = uid → dm_Tags d !! k ≠ Some false) ds →
  tagsOf b uid !! k = Some true → tagsOf (applyDims b ds) uid !! k = Some true.
Proof.
  intros Hds. revert b. induction Hds as [|d ds Hd _ IH]; intros b Hb; [done|]. cbn [applyDims foldl]. apply IH. rewrite tagsOf_apply.
  case_bool_decide as Hc; [|done]. specialize (Hd (proj1 Hc) (proj2 Hc)). rewrite lookup_union. destruct (dm_Tags d !! k) as [[]|]; [|done|].
  - by destruct (tagsOf b uid !! k).
  - by rewrite Hb.
Qed.
(** A tag that an update gives, and none takes away, is there. *)
Lemma apply_gives ds b uid k d :
  d ∈ ds → dm_Name d = "kubernetes_pod_uid" → dm_Value d = uid → dm_Tags d !! k = Some true →
  Forall (λ d, dm_Name d = "kubernetes_pod_uid" → dm_Value d = uid → dm_Tags d !! k ≠ Some false) ds →
  tagsOf (applyDims b ds) uid !! k = Some true.
Proof.
  intros Hin Hn Hv Ht Hds. apply list_elem_of_split in Hin as (l1 & l2 & ->). unfold applyDims. rewrite foldl_app. cbn [foldl].
  apply Forall_app in Hds as [_ [_ Hds]%Forall_cons]. apply apply_keeps; [done|]. rewrite tagsOf_apply, bool_decide_eq_true_2 by done.
  rewrite lookup_union, Ht. by destruct (tagsOf _ uid !! k).
Qed.
Lemma adds_only_keeps ds uid k : Forall adds_only ds →
  Forall (λ d, dm_Name d = "kubernetes_pod_uid" → dm_Value d = uid → dm_Tags d !! k ≠ Some false) ds.
Proof. intros Hds. eapply Forall_impl; [exact Hds|]. intros d Hd _ _ Hf. by specialize (Hd _ _ Hf). Qed.

Lemma services_tags uid names isAdd k : dm_Tags (dimensionForPodServices uid names isAdd) !! k =
  if bool_decide (k ∈ map serviceTag names) then Some isAdd else None.
Proof.
  cbn [dm_Tags dimensionForPodServices].
  assert (Hg : ∀ t : gmap string bool, foldl (λ t s, <[serviceTag s := isAdd]> t) t names !! k =
    if bool_decide (k ∈ map serviceTag names) then Some isAdd else t !! k).
  { induction names as [|n names IH]; intros t; [done|]. cbn [foldl map]. rewrite IH.
    destruct (decide (k = serviceTag n)) as [->|Hk].
    - rewrite (bool_decide_eq_true_2 (serviceTag n ∈ serviceTag n :: _)) by left. rewrite lookup_insert_eq. by destruct (bool_decide _).
    - assert (Hiff : k ∈ serviceTag n :: map serviceTag names ↔ k ∈ map serviceTag names).
      { rewrite elem_of_cons. split; [intros [?|?]; [done|done] | by right]. }
      rewrite (bool_decide_ext _ _ Hiff). by rewrite lookup_insert_ne by congruence. }
  rewrite Hg. by rewrite lookup_empty.
Qed.
Lemma serviceTag_inj s t : serviceTag s = serviceTag t → s = t.
Proof. unfold serviceTag. intros Heq. repeat (rewrite !append_cons in Heq || injection Heq as Heq). by rewrite !append_nil_l in Heq. Qed.
Lemma adds_only_services uid names : adds_only (dimensionForPodServices uid names true).
Proof. intros k v Hv. rewrite services_tags in Hv. destruct (bool_decide _); congruence. Qed.

Section tags.
Context `{MapRange} (order : gset string → list string) (Matches : gmap string string → gmap string string → bool).
Hypothesis order_elem : ∀ s x, x ∈ order s ↔ x ∈ s.

Lemma labels_adds_only labels : map_Forall (λ _ v, v = true) (PropsAndTagsFromLabels labels).2.
Proof.
  unfold PropsAndTagsFromLabels.
  assert (Hg : ∀ l (pt : gmap string string * gmap string bool), map_Forall (λ _ v, v = true) pt.2 →
    map_Forall (λ _ v, v = true) (foldl (λ pt lv, if String.eqb lv.2 "" then (pt.1, <[sanitize lv.1 := true]> pt.2) else (<[sanitize lv.1 := lv.2]> pt.1, pt.2)) pt l).2).
  { induction l as [|lv l IH]; intros pt Hpt; [done|]. cbn [foldl]. apply IH. destruct (String.eqb lv.2 ""); [|done]. cbn. by apply map_Forall_insert_2. }
  apply Hg. apply map_Forall_empty.
Qed.
Lemma adds_only_plain d : dm_Tags d = ∅ → adds_only d.
Proof. intros Hd. unfold adds_only. rewrite Hd. apply map_Forall_empty. Qed.
Lemma adds_only_pod p : adds_only (dimensionForPod p).
Proof. unfold dimensionForPod, adds_only. pose proof (labels_adds_only (om_Labels (pod_Meta p))) as Hl. by destruct (PropsAndTagsFromLabels _). Qed.
Lemma adds_only_uid m kvs : adds_only (uidDimension m kvs).
Proof. unfold uidDimension, adds_only. pose proof (labels_adds_only (om_Labels m)) as Hl. by destruct (PropsAndTagsFromLabels _). Qed.

(** The caches and what the backend has of them. *)
Record tagged (b : backend) (h : DimensionHandler) : Prop := {
  tg_pods : cache_wf cp_Namespace (podCache h);
  tg_services : cache_wf cv_Namespace (serviceCache h);
  tg_uid : map_Forall (λ uid p, cp_UID p = uid) (cached (podCache h));
  tg_unique : ∀ u1 u2 s1 s2, cached (serviceCache h) !! u1 = Some s1 → cached (serviceCache h) !! u2 = Some s2 →
    cv_Namespace s1 = cv_Namespace s2 → cv_Name s1 = cv_Name s2 → u1 = u2;
  tg_tags : ∀ uid p u s, cached (podCache h) !! uid = Some p → cached (serviceCache h) !! u = Some s →
    cv_Namespace s = cp_Namespace p → Matches (cv_Selector s) (cp_Labels p) = true → tagsOf b uid !! serviceTag (cv_Name s) = Some true;
}.

Lemma present_elem {A} (l : list (option A)) a : a ∈ present l ↔ Some a ∈ l.
Proof. unfold present. rewrite list_elem_of_omap. split; [intros (x & Hx & Heq); cbn in Heq; by subst | intros Ha; by exists (Some a)]. Qed.
Lemma servicePods_elem h n sel p : cache_wf cp_Namespace (podCache h) →
  p ∈ servicePods order Matches h n sel ↔ (∃ uid, cached (podCache h) !! uid = Some p) ∧ cp_Namespace p = n ∧ Matches sel (cp_Labels p) = true.
Proof.
  intros Hwf. unfold servicePods, SelectorMatchesPod. rewrite list_elem_of_In, filter_In, <-list_elem_of_In, present_elem, GetForNamespace_elem by done.
  split; [intros [(uid & Hu & Hn) Hm]; eauto | intros ((uid & Hu) & Hn & Hm); eauto].
Qed.

(** Updates that only give tags, with the caches unchanged or smaller. *)
Lemma tagged_plain b h h' ds : tagged b h → Forall adds_only ds →
  podCache h' = podCache h → serviceCache h' = serviceCache h → tagged (applyDims b ds) h'.
Proof.
  intros [H1 H2 H3 H4 H5] Hds Hp Hs. constructor; rewrite ?Hp, ?Hs; try done.
  intros uid p u s Hpod Hsvc Hn Hm. apply apply_keeps; [by apply adds_only_keeps | by eapply H5].
Qed.

(** What must hold of an object that is added: it keeps its namespace, and a
    service's name is unique in its namespace. *)
Definition add_ok (h : DimensionHandler) (o : k8sObject) : Prop :=
  match o with
  | OPod p => ∀ c, cached (podCache h) !! om_UID (pod_Meta p) = Some c → cp_Namespace c = om_Namespace (pod_Meta p)
  | OService s =>
      (∀ c, cached (serviceCache h) !! om_UID (sv_Meta s) = Some c → cv_Namespace c = om_Namespace (sv_Meta s)) ∧
      (∀ u c, cached (serviceCache h) !! u = Some c → cv_Namespace c = om_Namespace (sv_Meta s) → cv_Name c = om_Name (sv_Meta s) → u = om_UID (sv_Meta s))
  | _ => True
  end.

Lemma ownerUpdate_adds uid cache ref pk k pd : (∀ a b c, adds_only (pd a b c)) → Forall adds_only (ownerUpdate uid cache ref pk k pd).
Proof.
  intros Hpd. unfold ownerUpdate. destruct ref as [r|]; [|done]. destruct (cached cache !! or_UID r); [|done].
  destruct (FindOwnerWithKind _ _); apply Forall_singleton; [apply Hpd | by apply adds_only_plain].
Qed.

Lemma tagged_add_pod b h p : tagged b h → add_ok h (OPod p) →
  let '(ds, h') := handleAddPod order Matches p h in
  tagged (applyDims b (dimensionForPod p :: dimensionsForPodContainers p ++ ds)) h'.
Proof.
  intros [H1 H2 H3 H4 H5] Hok. unfold handleAddPod. cbv zeta.
  set (h' := setCaches _ _ _ _ h). set (cp := newCachedPod p). set (names := podServiceNames order Matches h' cp).
  set (ds := dimensionForPod p :: _).
  assert (Hadds : Forall adds_only ds).
  { subst ds. constructor; [apply adds_only_pod|]. repeat apply Forall_app_2.
    - apply Forall_forall. intros d (cs & -> & _)%list_elem_of_fmap. by apply adds_only_plain.
    - destruct names; [done|]. apply Forall_singleton, adds_only_services.
    - apply ownerUpdate_adds. intros. by apply adds_only_plain.
    - apply ownerUpdate_adds. intros. by apply adds_only_plain. }
  constructor; cbn [podCache serviceCache h' setCaches]; try done.
  - unfold AddPod. apply addCached_wf; [exact H1|]. intros c Hc. cbn. by apply Hok.
  - unfold AddPod, addCached. cbn [cached]. by apply map_Forall_insert_2.
  - intros uid q u s Hpod Hsvc Hn Hm. unfold AddPod, addCached in Hpod. cbn [cached] in Hpod.
    destruct (decide (uid = om_UID (pod_Meta p))) as [->|Hu].
    + rewrite lookup_insert_eq in Hpod. injection Hpod as <-. fold cp in Hm, Hn.
      assert (Hin : cv_Name s ∈ names).
      { subst names. unfold podServiceNames. apply list_elem_of_fmap. exists s. split; [done|].
        rewrite list_elem_of_In, filter_In, <-list_elem_of_In, present_elem, (GetForNamespace_elem cv_Namespace) by done. split; [eauto|done]. }
      apply (apply_gives ds b _ _ (dimensionForPodServices (cp_UID cp) names true)); [| done | done | | by apply adds_only_keeps].
      * subst ds. right. apply elem_of_app. right. apply elem_of_app. left. destruct names; [by apply not_elem_of_nil in Hin | by left].
      * rewrite services_tags, bool_decide_eq_true_2; [done|]. apply list_elem_of_fmap. eauto.
    + rewrite lookup_insert_ne in Hpod by congruence. apply apply_keeps; [by apply adds_only_keeps | by eapply H5].
Qed.

Lemma tagged_add_service b h s : tagged b h → add_ok h (OService s) →
  let '(ds, h') := handleAddService order Matches s h in tagged (applyDims b ds) h'.
Proof.
  intros [H1 H2 H3 H4 H5] [Hok1 Hok2]. unfold handleAddService. cbv zeta. set (h' := setCaches _ _ _ _ h). set (ds := map _ _).
  assert (Hadds : Forall adds_only ds) by (apply Forall_forall; intros d (q & -> & _)%list_elem_of_fmap; apply adds_only_services).
  constructor; cbn [podCache serviceCache h' setCaches]; try done.
  - unfold AddService. apply addCached_wf; [exact H2|]. intros c Hc. cbn. by apply Hok1.
  - intros u1 u2 s1 s2. unfold AddService, addCached. cbn [cached]. rewrite !lookup_insert_Some.
    intros [[<- <-]|[Hn1 Hs1]] [[<- <-]|[Hn2 Hs2]]; cbn; intros Hns Hnm; [done | | by eapply Hok2 | by eapply H4].
    symmetry. by eapply Hok2.
  - intros uid p u c Hpod Hsvc Hn Hm. unfold AddService, addCached in Hsvc. cbn [cached] in Hsvc. apply lookup_insert_Some in Hsvc as [[<- <-]|[Hu Hsvc]].
    + apply (apply_gives ds b _ _ (dimensionForPodServices (cp_UID p) [om_Name (sv_Meta s)] true)); [| done | exact (H3 _ _ Hpod) | | by apply adds_only_keeps].
      * apply list_elem_of_fmap. exists p. split; [done|]. apply servicePods_elem; [done|]. cbn in Hn, Hm. split_and!; [eauto|done|done].
      * rewrite services_tags, bool_decide_eq_true_2; [done|]. by left.
    + apply apply_keeps; [by apply adds_only_keeps | by eapply H5].
Qed.

Lemma tagged_delete_service b h uid : tagged b h →
  let '(ds, h') := handleDeleteService order Matches uid h in tagged (applyDims b ds) h'.
Proof.
  intros Ht. pose proof Ht as [H1 H2 H3 H4 H5]. unfold handleDeleteService. destruct (cached (serviceCache h) !! uid) as [s|] eqn:Hs; [|done].
  cbv zeta. set (h' := setCaches _ _ _ _ h). set (ds := map _ _).
  assert (Hc : ∀ u c, cached (serviceCache h') !! u = Some c → u ≠ uid ∧ cached (serviceCache h) !! u = Some c).
  { intros u c. cbn [serviceCache h' setCaches]. unfold DeleteByKey. rewrite Hs. cbn [snd cached]. by intros [? ?]%lookup_delete_Some. }
  constructor; cbn [podCache h' setCaches]; try done.
  - cbn [serviceCache h' setCaches]. by apply DeleteByKey_wf.
  - intros u1 u2 s1 s2 [_ Hs1]%Hc [_ Hs2]%Hc. by eapply H4.
  - intros q p u c Hpod [Hne Hsvc]%Hc Hn Hm. apply apply_keeps; [|by eapply H5]. apply Forall_forall.
    intros d (p' & -> & Hp')%list_elem_of_fmap _ Hv. rewrite services_tags. case_bool_decide as Hin; [|done].
    apply list_elem_of_singleton in Hin. apply serviceTag_inj in Hin. cbn in Hv.
    apply servicePods_elem in Hp' as ((q' & Hq') & Hns & _); [|done].
    assert (q' = q) as -> by (rewrite <-Hv; symmetry; exact (H3 _ _ Hq')). cbn [podCache h' setCaches] in Hq'. rewrite Hpod in Hq'. injection Hq' as <-.
    destruct Hne. eapply H4; [done|done|congruence|done].
Qed.

Lemma tagged_delete_pod b h key : tagged b h →
  tagged b (setCaches (DeleteByKey cp_Namespace true "pod" key (podCache h)).2 (serviceCache h) (replicaSetCache h) (jobCache h) h).
Proof.
  intros [H1 H2 H3 H4 H5]. assert (Hc : ∀ u c, cached (DeleteByKey cp_Namespace true "pod" key (podCache h)).2 !! u = Some c → cached (podCache h) !! u = Some c).
  { intros u c. unfold DeleteByKey. destruct (cached (podCache h) !! key); [|done]. cbn [snd cached]. by intros [_ ?]%lookup_delete_Some. }
  constructor; cbn [podCache serviceCache setCaches]; try done.
  - by apply DeleteByKey_wf.
  - intros u c Hu%Hc. by apply H3.
  - intros uid p u s Hp%Hc. by eapply H5.
Qed.

Inductive k8sEvent := Added (o : k8sObject) | Deleted (o : k8sObject) | DroppedKey (key : string).
Definition runEvent (st : backend * DimensionHandler) (e : k8sEvent) : backend * DimensionHandler :=
  match e with
  | Added o => let '(_, ds, h) := dims_HandleAdd order Matches o st.2 in (applyDims st.1 ds, h)
  | Deleted o => let '(_, ds, h) := dims_HandleDelete order Matches o st.2 in (applyDims st.1 ds, h)
  | DroppedKey key => let '(ds, h) := dims_DeleteByKey order Matches key st.2 in (applyDims st.1 ds, h)
  end.
Definition event_ok (h : DimensionHandler) (e : k8sEvent) : Prop := match e with Added o => add_ok h o | _ => True end.
Fixpoint events_ok (st : backend * DimensionHandler) (l : list k8sEvent) : Prop :=
  match l with
  | [] => True
  | e :: l => event_ok st.2 e ∧ events_ok (runEvent st e) l
  end.

Lemma tagged_setKinds b h k : tagged b h → tagged b (setKinds k h).
Proof. intros [H1 H2 H3 H4 H5]. by constructor. Qed.

Lemma dispatchAdd_tagged b h o : tagged b h → add_ok h o →
  match dispatchAdd order Matches o h with Some (ds, _, h') => tagged (applyDims b ds) h' | None => True end.
Proof.
  intros Ht Hok. destruct o as [p|m ph|r|d|d|r|q|n|s|s|q|j|c|a|m]; cbn [dispatchAdd]; try done.
  - pose proof (tagged_add_pod b h p Ht Hok) as Hp. by destruct (handleAddPod order Matches p h).
  - eapply tagged_plain; [done| |done|done]. apply Forall_singleton, adds_only_uid.
  - eapply tagged_plain; [done| |done|done]. apply Forall_singleton, adds_only_uid.
  - eapply tagged_plain; [done| |done|done]. apply Forall_singleton, adds_only_uid.
  - unfold handleAddReplicaSet. eapply tagged_plain; [done| |done|done]. apply Forall_app_2; [|apply Forall_singleton, adds_only_uid].
    apply Forall_forall. intros x (p & -> & _)%list_elem_of_fmap. destruct (FindOwnerWithKind _ _); by apply adds_only_plain.
  - eapply tagged_plain; [done| |done|done]. unfold dimensionsForNode. pose proof (labels_adds_only (om_Labels (node_Meta n))) as Hl.
    destruct (PropsAndTagsFromLabels _) as [props tags]. cbn [snd] in Hl. apply Forall_app_2; [|by apply Forall_singleton].
    destruct (updatesForNodeDimension h); [by apply Forall_singleton | done].
  - pose proof (tagged_add_service b h s Ht Hok) as Hs. by destruct (handleAddService order Matches s h).
  - eapply tagged_plain; [done| |done|done]. apply Forall_singleton, adds_only_uid.
  - unfold handleAddJob. eapply tagged_plain; [done| |done|done]. constructor; [apply adds_only_uid|].
    apply Forall_forall. intros x (p & -> & _)%list_elem_of_fmap. destruct (FindOwnerWithKind _ _); by apply adds_only_plain.
  - eapply tagged_plain; [done| |done|done]. apply Forall_singleton, adds_only_uid.
  - eapply tagged_plain; [done| |done|done]. apply Forall_singleton. unfold dimensionForHpa, adds_only.
    pose proof (labels_adds_only (om_Labels (hpa_Meta a))) as Hl. by destruct (PropsAndTagsFromLabels _).
Qed.

Lemma deleteKey_tagged b h key : tagged b h → let '(ds, h') := dims_DeleteByKey order Matches key h in tagged (applyDims b ds) h'.
Proof.
  intros Ht. unfold dims_DeleteByKey. set (kind := default "" _). destruct (String.eqb kind "Pod").
  { apply tagged_setKinds. by apply (tagged_delete_pod b h key). }
  destruct (String.eqb kind "Service").
  { pose proof (tagged_delete_service b h key Ht) as Hs. destruct (handleDeleteService order Matches key h). by apply tagged_setKinds. }
  destruct (String.eqb kind "ReplicaSet"); [|destruct (String.eqb kind "Job")]; apply tagged_setKinds; by apply (tagged_plain b h _ []).
Qed.

Lemma runEvent_tagged st e : tagged st.1 st.2 → event_ok st.2 e → tagged (runEvent st e).1 (runEvent st e).2.
Proof.
  destruct st as [b h]. intros Ht Hok. cbn [fst snd] in Ht, Hok. destruct e as [o|o|key]; cbn [runEvent fst snd].
  - unfold dims_HandleAdd. pose proof (dispatchAdd_tagged b h o Ht Hok) as Hd. destruct (dispatchAdd order Matches o h) as [[[ds kind] h']|]; [|done].
    destruct (keyForObject o); [by apply tagged_setKinds | done].
  - unfold dims_HandleDelete. destruct (keyForObject o) as [key|]; [|done].
    pose proof (deleteKey_tagged b h key Ht) as Hd. by destruct (dims_DeleteByKey order Matches key h).
  - pose proof (deleteKey_tagged b h key Ht) as Hd. by destruct (dims_DeleteByKey order Matches key h).
Qed.

(** C19: In whatever order pods, services and other objects are added, updated and
    deleted, every known pod that a known service of its namespace selects has the
    service's tag, provided objects keep their namespace and service names are
    unique in it. *)
Theorem service_tags_complete (updates : bool) (l : list k8sEvent) :
  events_ok (∅, NewDimensionHandler updates) l →
  let '(b, h) := foldl runEvent (∅, NewDimensionHandler updates) l in
  ∀ uid p u s, cached (podCache h) !! uid = Some p → cached (serviceCache h) !! u = Some s →
    cv_Namespace s = cp_Namespace p → Matches (cv_Selector s) (cp_Labels p) = true →
    tagsOf b uid !! serviceTag (cv_Name s) = Some true.
Proof.
  intros Hok. assert (H0 : tagged ∅ (NewDimensionHandler updates)).
  { constructor; cbn [podCache serviceCache NewDimensionHandler NewCache cached]; try apply NewCache_wf; try apply map_Forall_empty;
      intros *; rewrite ?lookup_empty; done. }
  enough (Hg : ∀ st, tagged st.1 st.2 → events_ok st l → tagged (foldl runEvent st l).1 (foldl runEvent st l).2).
  { specialize (Hg (∅, NewDimensionHandler updates) H0 Hok). destruct (foldl _ _ l) as [b h]. by destruct Hg. }
  clear Hok H0. induction l as [|e l IH]; intros st Ht; [done|]. cbn [events_ok foldl]. intros [He Hl]. apply IH; [by apply runEvent_tagged | done].
Qed.
End tags.

(** A service without a selector, which selects no pod in kubernetes, gives its tag
    to every pod of its namespace, since the empty selector matches everything. *)
Theorem selectorless_service_tags_all_pods `{MapRange} (order : gset string → list string) (Matches : gmap string string → gmap string string → bool)
    (h : DimensionHandler) (s : Service) (p : CachedPod) (uid : string) :
  (∀ s x, x ∈ order s ↔ x ∈ s) → (∀ labels, Matches ∅ labels = true) → cache_wf cp_Namespace (podCache h) →
  sv_Selector s = ∅ → cached (podCache h) !! uid = Some p → cp_Namespace p = om_Namespace (sv_Meta s) →
  dimensionForPodServices (cp_UID p) [om_Name (sv_Meta s)] true ∈ (handleAddService order Matches s h).1.
Proof.
  intros Ho Hall Hwf Hs Hp Hn. unfold handleAddService. cbn [fst]. apply list_elem_of_fmap. exists p. split; [done|].
  apply servicePods_elem; [done..|]. rewrite Hs. split_and!; [eauto | done | apply Hall].
Qed.

(** ** Examples *)

Definition exampleMeta (uid name : string) (labels : gmap string string) : ObjectMeta :=
  {| om_Name := name; om_Namespace := "shop"; om_UID := uid; om_Labels := labels; om_Owners := []; om_Created := "2024-01-01T00:00:00Z" |}.
Definition examplePod : Pod :=
  {| pod_Meta := exampleMeta "p1" "cart-1" {["app" := "cart"]}; pod_NodeName := "n1"; pod_Phase := "Running"; pod_ContainerStatuses := []; pod_Containers := [] |}.
Definition exampleService (selector : gmap string string) : Service := {| sv_Meta := exampleMeta "s1" "cart" ∅; sv_Selector := selector |}.
Definition subsetMatches (selector labels : gmap string string) : bool := bool_decide (selector ⊆ labels).
Definition setElements : gset string → list string := elements.

Definition podThenService : list k8sEvent := [Added (OPod examplePod); Added (OService (exampleService {["app" := "cart"]}))].

Lemma service_tags_complete_witness :
  let '(b, h) := foldl (@runEvent forward_range setElements subsetMatches) (∅, NewDimensionHandler true) podThenService in
  ∀ uid p u s, cached (podCache h) !! uid = Some p → cached (serviceCache h) !! u = Some s →
    cv_Namespace s = cp_Namespace p → subsetMatches (cv_Selector s) (cp_Labels p) = true →
    tagsOf b uid !! serviceTag (cv_Name s) = Some true.
Proof.
  apply (@service_tags_complete forward_range setElements subsetMatches (λ s x, elem_of_elements s x) true podThenService).
  split; [intros c E; discriminate E|]. split; [|exact I]. split; [intros c E; discriminate E | intros u c E; cbn in E; rewrite lookup_empty in E; discriminate E].
Defined.
(** The hypotheses of the statement hold there. *)
Example podThenService_selected :
  let st := foldl (@runEvent forward_range setElements subsetMatches) (∅, NewDimensionHandler true) podThenService in
  match cached (podCache st.2) !! "p1", cached (serviceCache st.2) !! "s1" with
  | Some p, Some s => String.eqb (cv_Namespace s) (cp_Namespace p) && subsetMatches (cv_Selector s) (cp_Labels p)
  | _, _ => false
  end = true.
Proof. vm_compute. reflexivity. Qed.

Lemma selectorless_service_tags_all_pods_witness :
  dimensionForPodServices "p1" ["cart"] true ∈
    (@handleAddService setElements subsetMatches (exampleService ∅) (handleAddPod setElements subsetMatches examplePod (NewDimensionHandler true)).2).1.
Proof.
  apply (@selectorless_service_tags_all_pods forward_range setElements subsetMatches _ (exampleService ∅) (newCachedPod examplePod) "p1").
  - intros s x. apply elem_of_elements.
  - intros labels. unfold subsetMatches. apply bool_decide_eq_true_2, map_empty_subseteq.
  - cbn [handleAddPod snd]. unfold AddPod. apply addCached_wf; [apply NewCache_wf|]. intros c E. cbn in E. rewrite lookup_empty in E. discriminate E.
  - reflexivity.
  - reflexivity.
  - reflexivity.
Defined.
