(* ===== verification/K8sCluster.v ===== *)
(** * The kubernetes cluster monitor

    [src/internal/signalfx-agent/pkg/monitors/kubernetes/cluster]: the cache of data
    points ([metrics/cache.go]), the store functions that keep it and the
    dimension handler in step with the API server ([clusterstate.go]) and what a
    report sends ([monitor.go]).  The reflector calls the store functions one at
    a time: they hold both locks. *)

From S2P Require Import Prelude GoStrings GoValue Settings Telemetry SmartAgent HostMonitors K8sObjects K8sDimensions.

Section cluster.
Context `{MapRange} (ToSnake : string → string) (conditionTypes : list string).
Context (order : gset string → list string) (Matches : gmap string string → gmap string string → bool).

(** ** metrics/cache.go *)

Notation dpCache := (gmap string (list sfxDatapoint)).

(** The data points of an object: no case for an unknown type, a panic, a nil slice
    or a slice. *)
Definition datapointsFor (o : k8sObject) : option (res (option (list sfxDatapoint))) :=
  match o with
  | OPod p => Some (Ok (Some (datapointsForPod p)))
  | ONamespace m phase => Some (Ok (Some (datapointsForNamespace (om_Name m) phase)))
  | OReplicationController r => Some (Ok (datapointsForReplicationController r))
  | ODaemonSet d => Some (Ok (Some (datapointsForDaemonSet d)))
  | ODeployment d => Some (Ok (datapointsForDeployment d))
  | OReplicaSet r => Some (Ok (datapointsForReplicaSet r))
  | OResourceQuota q => Some (Ok (Some (datapointsForResourceQuota q)))
  | ONode n => Some (Ok (Some (datapointsForNode ToSnake n conditionTypes)))
  | OService _ => Some (Ok None)
  | OStatefulSet s => Some (Ok (datapointsForStatefulSet s))
  | OClusterQuota q => Some (Ok (datapointsForClusterQuotas q))
  | OJob j => Some (Ok (Some (datapointsForJob j)))
  | OCronJob c => Some (Ok (Some (datapointsForCronJob c)))
  | OHpa h => Some (Some <$> datapointsForHpa h)
  | OUnknown _ => None
  end.

Definition cache_HandleAdd (o : k8sObject) (c : dpCache) : res (option string * dpCache) :=
  match datapointsFor o with
  | None => Ok (None, c)
  | Some r =>
      dps ← r;
      match keyForObject o with
      | Err _ => Ok (None, c)
      | Ok key => Ok (Some key, match dps with Some d => <[key := d]> c | None => c end)
      end
  end.
Definition cache_DeleteByKey (key : string) (c : dpCache) : dpCache := delete key c.
Definition cache_HandleDelete (o : k8sObject) (c : dpCache) : option string * dpCache :=
  match keyForObject o with Err _ => (None, c) | Ok key => (Some key, cache_DeleteByKey key c) end.
Definition AllDatapoints (c : dpCache) : list sfxDatapoint := flat_map snd (range c).

(** [sendLatestDatapoints]: the time of the report, and the mark that the points
    do not belong to the host. *)
Definition NotHostSpecificMeta : string := "sfx-not-host-specific".
Definition stamp (now : Z) (d : sfxDatapoint) : sfxDatapoint :=
  {| sd_Metric := sd_Metric d; sd_Type := sd_Type d; sd_Value := sd_Value d; sd_Time := Some now;
     sd_Dimensions := sd_Dimensions d; sd_Meta := <[NotHostSpecificMeta := ABool true]> (sd_Meta d) |}.
Definition sendLatestDatapoints (now : Z) (c : dpCache) : list sfxDatapoint := map (stamp now) (AllDatapoints c).

(** ** clusterstate.go *)

Record State := { st_cache : dpCache; st_dims : DimensionHandler; st_keys : gset string }.

Definition seen (key : option string) (keys : gset string) : gset string := match key with Some k => {[k]} ∪ keys | None => keys end.
Definition unseen (key : option string) (keys : gset string) : gset string := match key with Some k => keys ∖ {[k]} | None => keys end.

(** The store functions of one resource type; [keysSeen] is theirs, the caches are
    shared. *)
Definition AddFunc (o : k8sObject) (s : State) : res (list Dimension * State) :=
  '(k1, c) ← cache_HandleAdd o (st_cache s);
  let '(k2, ds, h) := dims_HandleAdd order Matches o (st_dims s) in
  Ok (ds, {| st_cache := c; st_dims := h; st_keys := seen k2 (seen k1 (st_keys s)) |}).
Definition DeleteFunc (o : k8sObject) (s : State) : list Dimension * State :=
  let '(k1, c) := cache_HandleDelete o (st_cache s) in
  let '(k2, ds, h) := dims_HandleDelete order Matches o (st_dims s) in
  (ds, {| st_cache := c; st_dims := h; st_keys := unseen k2 (unseen k1 (st_keys s)) |}).
Definition dropKey (acc : list Dimension * State) (k : string) : list Dimension * State :=
  let '(ds, h) := dims_DeleteByKey order Matches k (st_dims acc.2) in
  (acc.1 ++ ds, {| st_cache := cache_DeleteByKey k (st_cache acc.2); st_dims := h; st_keys := st_keys acc.2 ∖ {[k]} |}).
Definition addOne (acc : list Dimension * State) (o : k8sObject) : res (list Dimension * State) :=
  '(ds, s) ← AddFunc o acc.2; Ok (acc.1 ++ ds, s).
Definition ReplaceFunc (l : list k8sObject) (s : State) : res (list Dimension * State) :=
  foldM_res addOne (foldl dropKey ([], s) (order (st_keys s))) l.

(** [Start] after a [Stop]: the caches stay, the keys seen are forgotten. *)
Definition restart (s : State) : State := {| st_cache := st_cache s; st_dims := st_dims s; st_keys := ∅ |}.

Inductive storeOp := StoreAdd (o : k8sObject) | StoreDelete (o : k8sObject) | StoreReplace (l : list k8sObject).
Definition runOp (s : State) (op : storeOp) : res State :=
  match op with
  | StoreAdd o => '(_, s) ← AddFunc o s; Ok s
  | StoreDelete o => Ok (DeleteFunc o s).2
  | StoreReplace l => '(_, s) ← ReplaceFunc l s; Ok s
  end.

(** ** What the cache promises: the objects that exist, by identifier *)

(** An existing object is kept with the last data points it had: an object
    without data points (a deployment with no replica count, say) keeps those of
    its earlier versions. *)
Notation objects := (gmap string (option (list sfxDatapoint))).
Definition uidOf (o : k8sObject) : string := match metaOf o with Some m => om_UID m | None => "" end.
Definition insertObject (a : objects) (o : k8sObject) : objects :=
  <[uidOf o := match datapointsFor o with Some (Ok (Some d)) => Some d | _ => default None (a !! uidOf o) end]> a.
Definition specOp (a : objects) (op : storeOp) : objects :=
  match op with
  | StoreAdd o => insertObject a o
  | StoreDelete o => delete (uidOf o) a
  | StoreReplace l => foldl insertObject ∅ l
  end.

(** Objects of a known type for which no conversion panics. *)
Definition convertible (o : k8sObject) : Prop := ∃ d, datapointsFor o = Some (Ok d).
(** The entries of the other resource types, which share the cache. *)
Definition object_ok (other : dpCache) (o : k8sObject) : Prop := convertible o ∧ uidOf o ∉ dom other.
Definition op_ok (other : dpCache) (op : storeOp) : Prop :=
  match op with
  | StoreAdd o => object_ok other o
  | StoreDelete o => is_Some (metaOf o) ∧ uidOf o ∉ dom other
  | StoreReplace l => Forall (object_ok other) l
  end.

Definition refines (other : dpCache) (s : State) (a : objects) : Prop :=
  st_cache s = omap id a ∪ other ∧ st_keys s = dom a ∧ dom a ## dom other.

Lemma convertible_key o : convertible o → keyForObject o = Ok (uidOf o).
Proof. intros [d Hd]. unfold keyForObject, uidOf. by destruct o. Qed.
Lemma dims_add_key o h : (dims_HandleAdd order Matches o h).1.1 = None ∨ ∃ k, keyForObject o = Ok k ∧ (dims_HandleAdd order Matches o h).1.1 = Some k.
Proof.
  unfold dims_HandleAdd. destruct (dispatchAdd order Matches o h) as [[[ds kind] h']|]; [|by left].
  destruct (keyForObject o) as [k|]; [right; by exists k | by left].
Qed.
Lemma omap_id_insert (a : objects) k x :
  omap id (<[k := x]> a) = (match x with Some d => <[k := d]> | None => delete k end) (omap id a : dpCache).
Proof.
  apply map_eq. intros j. rewrite lookup_omap. destruct (decide (j = k)) as [->|Hne].
  - rewrite lookup_insert_eq. destruct x; simpl; [by rewrite lookup_insert_eq | by rewrite lookup_delete_eq].
  - rewrite lookup_insert_ne by congruence. destruct x; [rewrite lookup_insert_ne by congruence|rewrite lookup_delete_ne by congruence]; by rewrite lookup_omap.
Qed.
Lemma insert_refines other o d (c : dpCache) (keys : gset string) a :
  c = omap id a ∪ other → keys = dom a → dom a ## dom other → datapointsFor o = Some (Ok d) → uidOf o ∉ dom other →
  match d with Some d => <[uidOf o := d]> c | None => c end = omap id (insertObject a o) ∪ other ∧
  {[uidOf o]} ∪ keys = dom (insertObject a o) ∧ dom (insertObject a o) ## dom other.
Proof.
  intros Hc Hk Hdis Hd Ho. unfold insertObject. rewrite omap_id_insert, dom_insert_L, Hc, Hk, Hd.
  split; [|split; [done|intros x [->%elem_of_singleton|Hx]%elem_of_union Hx'; [done|]; by apply (Hdis x)]].
  destruct d as [d|]; [by rewrite insert_union_l|]. f_equal.
  destruct (a !! uidOf o) as [[d|]|] eqn:Ha; simpl; symmetry; [apply insert_id | apply delete_id..]; by rewrite lookup_omap, Ha.
Qed.

Lemma AddFunc_refines other o s a : object_ok other o → refines other s a →
  ∃ ds s', AddFunc o s = Ok (ds, s') ∧ refines other s' (insertObject a o).
Proof.
  intros [Hp Ho] (Hc & Hk & Hdis). pose proof (convertible_key o Hp) as Hkey. destruct Hp as [d Hd]. unfold AddFunc, cache_HandleAdd. rewrite Hd. cbn [mbind res_bind]. rewrite Hkey.
  cbn [mbind res_bind]. pose proof (insert_refines other o d (st_cache s) (st_keys s) a Hc Hk Hdis Hd Ho) as (R1 & R2 & R3).
  destruct (dims_add_key o (st_dims s)) as [Hn|(k & Hk' & Hn)];
    destruct (dims_HandleAdd order Matches o (st_dims s)) as [[k2 ds] h]; cbn [fst] in Hn; subst k2; do 2 eexists; (split; [reflexivity|]);
    split_and!; cbn [st_cache st_keys seen]; [exact R1 | exact R2 | exact R3 | exact R1 | | exact R3].
  rewrite Hkey in Hk'. injection Hk' as <-. by rewrite (assoc_L (∪)), (idemp_L (∪)).
Qed.

Lemma addAll_refines other l acc a : Forall (object_ok other) l → refines other acc.2 a →
  ∃ acc', foldM_res addOne acc l = Ok acc' ∧ refines other acc'.2 (foldl insertObject a l).
Proof.
  intros Hl. revert acc a. induction Hl as [|o l Ho _ IH]; intros acc a Hr; cbn [foldM_res foldl]; [eauto|].
  destruct (AddFunc_refines other o acc.2 a Ho Hr) as (ds & s' & Hadd & Hr'). unfold addOne at 1. rewrite Hadd. cbn [mbind res_bind]. by apply IH.
Qed.

Lemma DeleteFunc_refines other o s a : is_Some (metaOf o) → uidOf o ∉ dom other → refines other s a →
  refines other (DeleteFunc o s).2 (delete (uidOf o) a).
Proof.
  intros [m Hm] Ho (Hc & Hk & Hdis). unfold DeleteFunc, cache_HandleDelete, dims_HandleDelete, keyForObject. unfold uidOf in *. rewrite Hm in *.
  destruct (dims_DeleteByKey order Matches (om_UID m) (st_dims s)) as [ds h]. cbn [snd]. split_and!; cbn [st_cache st_keys unseen cache_DeleteByKey].
  - unfold cache_DeleteByKey. rewrite Hc, delete_union, omap_delete. f_equal. apply delete_id. by apply not_elem_of_dom.
  - rewrite dom_delete_L, Hk. by rewrite difference_difference_l_L, (idemp_L (∪)).
  - rewrite dom_delete_L. intros x [Hx _]%elem_of_difference. by apply Hdis.
Qed.

Lemma dropKeys_cache l acc : st_cache (foldl dropKey acc l).2 = foldr delete (st_cache acc.2) (reverse l) ∧
  st_keys (foldl dropKey acc l).2 = st_keys acc.2 ∖ list_to_set l.
Proof.
  revert acc. induction l as [|k l IH]; intros acc; cbn [foldl].
  - split; [done|]. cbn. by rewrite difference_empty_L.
  - destruct (IH (dropKey acc k)) as [-> ->]. unfold dropKey. destruct (dims_DeleteByKey order Matches k (st_dims acc.2)). cbn [snd st_cache st_keys].
    rewrite reverse_cons, foldr_app. cbn [foldr list_to_set]. split; [done|]. by rewrite difference_difference_l_L.
Qed.

Lemma foldr_delete_lookup (c : dpCache) l k : foldr delete c l !! k = if bool_decide (k ∈ l) then None else c !! k.
Proof.
  induction l as [|x l IH]; [done|]. cbn [foldr]. destruct (decide (k = x)) as [->|Hne].
  - rewrite lookup_delete_eq, bool_decide_eq_true_2; [done | by left].
  - rewrite lookup_delete_ne, IH by congruence. assert (Hiff : k ∈ l ↔ k ∈ x :: l) by (rewrite elem_of_cons; split; [by right | by intros [?|?]]).
    by rewrite (bool_decide_ext _ _ Hiff).
Qed.

Hypothesis order_elem : ∀ s x, x ∈ order s ↔ x ∈ s.

Lemma dropKeys_refines other s a : refines other s a → refines other (foldl dropKey ([], s) (order (st_keys s))).2 ∅.
Proof.
  intros (Hc & Hk & Hdis). destruct (dropKeys_cache (order (st_keys s)) ([], s)) as [Ec Ek]. split_and!.
  - rewrite Ec. cbn [snd]. rewrite omap_empty, (left_id_L ∅ (∪)). apply map_eq. intros k. rewrite foldr_delete_lookup, Hc.
    assert (Hiff : k ∈ reverse (order (st_keys s)) ↔ k ∈ dom a) by (by rewrite elem_of_reverse, order_elem, Hk).
    rewrite (bool_decide_ext _ _ Hiff). case_bool_decide as Hin.
    + symmetry. apply not_elem_of_dom. intros Ho. by apply (Hdis k).
    + rewrite lookup_union_r; [done|]. rewrite lookup_omap. by apply not_elem_of_dom in Hin as ->.
  - rewrite Ek. cbn [snd]. rewrite dom_empty_L. apply set_eq. intros x. rewrite elem_of_difference, elem_of_list_to_set, order_elem. split; [by intros []|by intros ?%elem_of_empty].
  - rewrite dom_empty_L. by intros x ?%elem_of_empty.
Qed.

Lemma runOp_refines other s a op : op_ok other op → refines other s a → ∃ s', runOp s op = Ok s' ∧ refines other s' (specOp a op).
Proof.
  intros Hop Hr. destruct op as [o|o|l]; cbn [runOp specOp op_ok] in *.
  - destruct (AddFunc_refines other o s a Hop Hr) as (ds & s' & -> & Hr'). by exists s'.
  - destruct Hop. eexists. split; [done|]. by apply DeleteFunc_refines.
  - unfold ReplaceFunc. destruct (addAll_refines other l _ ∅ Hop (dropKeys_refines other s a Hr)) as ((ds & s') & -> & Hr'). by exists s'.
Qed.

Lemma runOps_refines other l s a : Forall (op_ok other) l → refines other s a →
  ∃ s', foldM_res runOp s l = Ok s' ∧ refines other s' (foldl specOp a l).
Proof.
  intros Hl. revert s a. induction Hl as [|op l Hop _ IH]; intros s a Hr; cbn [foldM_res foldl]; [eauto|].
  destruct (runOp_refines other s a op Hop Hr) as (s' & -> & Hr'). cbn [mbind res_bind]. by apply IH.
Qed.

(** C20: The store functions of one resource type keep its part of the cache equal to
    the last data points of the objects that exist: after any sequence of
    additions, updates, deletions and relists of objects of known types, none of
    which panics, the cache holds, by identifier, the points that each object the
    sequence leaves had in its latest version that had any since it was last
    listed, next to the untouched entries of the other types.  An update to a
    version without points keeps the earlier, stale ones. *)
Theorem store_refines_objects (other : dpCache) (h : DimensionHandler) (l : list storeOp) :
  Forall (op_ok other) l →
  ∃ s, foldM_res runOp {| st_cache := other; st_dims := h; st_keys := ∅ |} l = Ok s ∧
    st_cache s = omap id (foldl specOp ∅ l) ∪ other ∧ st_keys s = dom (foldl specOp ∅ l).
Proof.
  intros Hl. destruct (runOps_refines other l {| st_cache := other; st_dims := h; st_keys := ∅ |} ∅ Hl) as (s & Hs & Hc & Hk & _); [|by exists s].
  split_and!; cbn [st_cache st_keys]; [by rewrite omap_empty, (left_id_L ∅ (∪)) | by rewrite dom_empty_L | rewrite dom_empty_L; by intros x ?%elem_of_empty].
Qed.

(** The identifiers an operation is about. *)
Definition opKeys (op : storeOp) : list string :=
  match op with StoreAdd o | StoreDelete o => [uidOf o] | StoreReplace l => uidOf <$> l end.
(** An entry the store functions do not know of. *)
Definition orphan (uid : string) (dps : list sfxDatapoint) (s : State) : Prop := st_cache s !! uid = Some dps ∧ uid ∉ st_keys s.

Lemma key_uid o k : keyForObject o = Ok k → k = uidOf o.
Proof. unfold keyForObject, uidOf. by destruct (metaOf o); intros [= <-]. Qed.
Lemma AddFunc_orphan uid dps o s ds s' : uidOf o ≠ uid → orphan uid dps s → AddFunc o s = Ok (ds, s') → orphan uid dps s'.
Proof.
  intros Hne [Hc Hk]. unfold AddFunc. destruct (cache_HandleAdd o (st_cache s)) as [[k1 c]|] eqn:Ha; [|discriminate]. cbn [mbind res_bind].
  assert (Hd : (dims_HandleAdd order Matches o (st_dims s)).1.1 ≠ Some uid).
  { destruct (dims_add_key o (st_dims s)) as [->|(k & ->%key_uid & ->)]; [discriminate|congruence]. }
  destruct (dims_HandleAdd order Matches o (st_dims s)) as [[k2 ds'] h]. cbn [fst] in Hd. intros [= <- <-].
  assert (Hs : ∀ (k : option string) (keys : gset string), k ≠ Some uid → uid ∉ keys → uid ∉ seen k keys).
  { intros [k|] keys Hk' Hu; cbn; [|done]. intros [->%elem_of_singleton|?]%elem_of_union; [congruence|done]. }
  unfold cache_HandleAdd in Ha. destruct (datapointsFor o) as [[d|]|]; cbn [mbind res_bind] in Ha; try discriminate.
  - destruct (keyForObject o) as [k|] eqn:Ek; injection Ha as <- <-; (split; cbn [st_cache st_keys]; [|apply Hs; [done|]; apply Hs; [|done]]); try done.
    + apply key_uid in Ek as ->. destruct d; [by rewrite lookup_insert_ne|done].
    + apply key_uid in Ek as ->. congruence.
  - injection Ha as <- <-. split; cbn [st_cache st_keys]; [done|]. apply Hs; [done|]. by apply Hs.
Qed.
Lemma DeleteFunc_orphan uid dps o s : uidOf o ≠ uid → orphan uid dps s → orphan uid dps (DeleteFunc o s).2.
Proof.
  intros Hne [Hc Hk]. unfold DeleteFunc, cache_HandleDelete, dims_HandleDelete. destruct (keyForObject o) as [k|] eqn:Ek; [|done].
  apply key_uid in Ek as ->. destruct (dims_DeleteByKey order Matches (uidOf o) (st_dims s)). split; cbn [snd st_cache st_keys unseen].
  - unfold cache_DeleteByKey. by rewrite lookup_delete_ne.
  - by intros [[? _]%elem_of_difference _]%elem_of_difference.
Qed.
Lemma dropKeys_orphan uid dps s : orphan uid dps s → orphan uid dps (foldl dropKey ([], s) (order (st_keys s))).2.
Proof.
  intros [Hc Hk]. destruct (dropKeys_cache (order (st_keys s)) ([], s)) as [Ec Ek]. unfold orphan. rewrite Ec, Ek. cbn [snd]. split.
  - rewrite foldr_delete_lookup, bool_decide_eq_false_2; [done|]. by rewrite elem_of_reverse, order_elem.
  - by intros [? _]%elem_of_difference.
Qed.
Lemma runOp_orphan uid dps op s s' : uid ∉ opKeys op → orphan uid dps s → runOp s op = Ok s' → orphan uid dps s'.
Proof.
  intros Hop Ho. destruct op as [o|o|l]; cbn [runOp opKeys] in *.
  - destruct (AddFunc o s) as [[ds t]|] eqn:Ha; [|discriminate]. intros [= <-]. eapply AddFunc_orphan; [|exact Ho|exact Ha].
    intros <-. apply Hop. by apply list_elem_of_singleton.
  - intros [= <-]. apply DeleteFunc_orphan; [|done]. intros <-. apply Hop. by apply list_elem_of_singleton.
  - unfold ReplaceFunc. destruct (foldM_res addOne _ l) as [[ds t]|] eqn:Ha; [|discriminate]. intros [= <-].
    cut (orphan uid dps (ds, t).2); [done|]. revert Ha. pose proof (dropKeys_orphan uid dps s Ho) as Hd. revert Hd.
    generalize (foldl dropKey ([], s) (order (st_keys s))) as acc. induction l as [|o l IH]; intros acc Hd; cbn [foldM_res]; [by intros [= ->]|].
    rewrite fmap_cons, not_elem_of_cons in Hop. destruct Hop as [H1 H2]. unfold addOne at 1. destruct (AddFunc o acc.2) as [[ds' u]|] eqn:Hadd; [|discriminate].
    cbn [mbind res_bind]. apply (IH H2). cbn [snd]. eapply AddFunc_orphan; [|exact Hd|exact Hadd]. congruence.
Qed.

(** After leadership is lost and won again the keys seen are forgotten while the
    cache is kept: the points of an object deleted in between are still in the cache
    after every sequence of store operations that are not about its identifier, the
    first relist included. *)
Theorem restart_keeps_deleted_objects (s s' : State) (l : list storeOp) (uid : string) (dps : list sfxDatapoint) :
  st_cache s !! uid = Some dps → Forall (λ op, uid ∉ opKeys op) l → foldM_res runOp (restart s) l = Ok s' → st_cache s' !! uid = Some dps.
Proof.
  intros Hs Hl Hrun. assert (Ho : orphan uid dps (restart s)) by (split; [done|]; cbn; by apply not_elem_of_empty).
  revert Hrun Ho. generalize (restart s) as t. induction Hl as [|op l Hop _ IH]; intros t; cbn [foldM_res]; [by intros [= ->] []|].
  destruct (runOp t op) as [t'|] eqn:Ht; [|discriminate]. intros Hrun Ho. apply (IH t' Hrun). by apply (runOp_orphan uid dps op t t').
Qed.

(** An update that leaves no data points keeps the old ones. *)
Lemma update_without_points_keeps_stale (o : k8sObject) (c : dpCache) :
  datapointsFor o = Some (Ok None) → ∃ k, cache_HandleAdd o c = Ok (k, c).
Proof. intros Hd. unfold cache_HandleAdd. rewrite Hd. cbn [mbind res_bind]. destruct (keyForObject o); eauto. Qed.
End cluster.

(** ** Examples *)

Definition exampleDeployment (desired : option Z) : Replicas :=
  {| rp_Meta := exampleMeta "d1" "cart" ∅; rp_Desired := desired; rp_Available := 1%Z; rp_Ready := 1%Z; rp_Current := 1%Z; rp_Updated := 1%Z;
     rp_CurrentRevision := ""; rp_UpdateRevision := "" |}.

(** A pod that comes and goes, and a deployment whose second version has no
    replica count. *)
Definition exampleOps : list storeOp :=
  [StoreReplace [OPod examplePod; ODeployment (exampleDeployment (Some 2%Z))]; StoreAdd (OPod startingPod);
   StoreAdd (ODeployment (exampleDeployment None)); StoreDelete (OPod examplePod)].

Lemma store_refines_objects_witness :
  ∃ s, foldM_res (@runOp forward_range id [] setElements subsetMatches) {| st_cache := ∅; st_dims := NewDimensionHandler true; st_keys := ∅ |} exampleOps = Ok s ∧
    st_cache s = omap id (foldl (@specOp forward_range id []) ∅ exampleOps) ∪ ∅ ∧ st_keys s = dom (foldl (@specOp forward_range id []) ∅ exampleOps).
Proof.
  apply (@store_refines_objects forward_range id [] setElements subsetMatches (λ s x, elem_of_elements s x) ∅ (NewDimensionHandler true) exampleOps).
  assert (Ho : ∀ o, (∃ d, datapointsFor (H := forward_range) id [] o = Some (Ok d)) → object_ok (H := forward_range) id [] ∅ o).
  { intros o Ho. split; [exact Ho|]. rewrite dom_empty_L. apply not_elem_of_empty. }
  repeat (constructor; cbn [op_ok]); try (apply Ho; by eexists); try (by eexists); rewrite dom_empty_L; apply not_elem_of_empty.
Defined.

Definition otherPod : Pod :=
  {| pod_Meta := exampleMeta "p2" "cart-2" ∅; pod_NodeName := "n1"; pod_Phase := "Running"; pod_ContainerStatuses := []; pod_Containers := [] |}.
(** A pod cached while leader, deleted while not: the relist has another pod only. *)
Definition beforeRestart : State := {| st_cache := {["p1" := [orphanPoint]]}; st_dims := NewDimensionHandler true; st_keys := {["p1"]} |}.

Lemma restart_keeps_deleted_objects_witness :
  match foldM_res (@runOp forward_range id [] setElements subsetMatches) (restart beforeRestart) [StoreReplace [OPod otherPod]] with
  | Ok s' => st_cache s' !! "p1" = Some [orphanPoint]
  | Err _ => False
  end.
Proof.
  destruct (foldM_res (@runOp forward_range id [] setElements subsetMatches) (restart beforeRestart) [StoreReplace [OPod otherPod]]) as [s'|] eqn:E;
    [|vm_compute in E; discriminate E].
  apply (@restart_keeps_deleted_objects forward_range id [] setElements subsetMatches (λ s x, elem_of_elements s x)
    beforeRestart s' [StoreReplace [OPod otherPod]] "p1" [orphanPoint]); [reflexivity | | exact E].
  constructor; [|constructor]. cbn. intros Hin. apply list_elem_of_singleton in Hin. discriminate Hin.
Defined.
