(* ===== verification/Outcome.v ===== *)
(** * Computations that return, fail or panic

    Go code that can end with a result, with an error it returns, or with a run-time
    panic that no caller recovers.  Loops over a list are [mapM_outcome]: the first
    element that fails or panics ends them. *)

From S2P Require Import Prelude.

Inductive outcome (A : Type) := Done (a : A) | Failed (e : error) | Panics.
Arguments Done {A} a.
Arguments Failed {A} e.
Arguments Panics {A}.

#[global] Instance outcome_ret : MRet outcome := λ A, Done.
#[global] Instance outcome_bind : MBind outcome := λ A B f m,
  match m with Done a => f a | Failed e => Failed e | Panics => Panics end.
#[global] Instance outcome_fmap : FMap outcome := λ A B f m,
  match m with Done a => Done (f a) | Failed e => Failed e | Panics => Panics end.

Fixpoint mapM_outcome {A B} (f : A → outcome B) (l : list A) : outcome (list B) :=
  match l with
  | [] => Done []
  | x :: l =>
      match f x with
      | Failed e => Failed e
      | Panics => Panics
      | Done y => match mapM_outcome f l with Done ys => Done (y :: ys) | o => o end
      end
  end.

Definition is_done {A} (o : outcome A) : Prop := ∃ a, o = Done a.

Lemma bind_done {A B} (m : outcome A) (f : A → outcome B) b : m ≫= f = Done b ↔ ∃ a, m = Done a ∧ f a = Done b.
Proof. destruct m as [a| |]; cbn; split; [by exists a | by intros (? & [= <-] & ?) | done | by intros (? & ? & _) | done | by intros (? & ? & _)]. Qed.

Lemma mapM_outcome_done {A B} (f : A → outcome B) l ys : mapM_outcome f l = Done ys ↔ Forall2 (λ x y, f x = Done y) l ys.
Proof.
  revert ys. induction l as [|x l IH]; intros ys; cbn [mapM_outcome].
  - split; [intros [= <-]; constructor | by intros ->%Forall2_nil_inv_l].
  - rewrite Forall2_cons_iff'. destruct (f x) as [y| |].
    + destruct (mapM_outcome f l) as [ys0| |].
      * split; [intros [= <-]; exists y, ys0; split_and!; [done..|by apply IH] | intros (? & ? & -> & [= <-] & Hl); apply IH in Hl; by injection Hl as <-].
      * split; [done|]. by intros (? & ? & -> & _ & Hl%IH).
      * split; [done|]. by intros (? & ? & -> & _ & Hl%IH).
    + split; [done|]. by intros (? & ? & _ & ? & _).
    + split; [done|]. by intros (? & ? & _ & ? & _).
Qed.

Lemma mapM_outcome_is_done {A B} (f : A → outcome B) l : is_done (mapM_outcome f l) ↔ ∀ x, x ∈ l → is_done (f x).
Proof.
  split.
  - intros [ys Hl] x Hx. apply mapM_outcome_done in Hl. apply list_elem_of_lookup in Hx as [i Hi]. destruct (Forall2_lookup_l _ _ _ i x Hl Hi) as (y & _ & Hy). by exists y.
  - induction l as [|x l IH]; intros Hall; [by eexists|]. destruct (Hall x) as [y Hy]; [by left|]. destruct IH as [ys Hys]; [intros z Hz; apply Hall; by right|].
    exists (y :: ys). cbn [mapM_outcome]. by rewrite Hy, Hys.
Qed.

(** A loop that panics has a first element that does. *)
Lemma mapM_outcome_panics {A B} (f : A → outcome B) l1 x l2 : (∀ y, y ∈ l1 → is_done (f y)) → f x = Panics → mapM_outcome f (l1 ++ x :: l2) = Panics.
Proof.
  intros Hl Hx. induction l1 as [|y l1 IH]; cbn [app mapM_outcome]; [by rewrite Hx|]. destruct (Hl y) as [b ->]; [by left|].
  rewrite IH; [done|]. intros z Hz. apply Hl. by right.
Qed.

Lemma mapM_outcome_map {A B C} (f : B → outcome C) (g : A → B) l : mapM_outcome f (map g l) = mapM_outcome (λ x, f (g x)) l.
Proof. induction l as [|x l IH]; [done|]. cbn [map mapM_outcome]. by rewrite IH. Qed.
Lemma mapM_outcome_ext {A B} (f g : A → outcome B) l : (∀ x, x ∈ l → f x = g x) → mapM_outcome f l = mapM_outcome g l.
Proof.
  induction l as [|x l IH]; intros Hfg; [done|]. cbn [mapM_outcome]. rewrite (Hfg x) by by left. rewrite IH; [done|]. intros y Hy. apply Hfg. by right.
Qed.

(** Loops whose body never fails end with a panic as soon as one element panics. *)
Definition never_fails {A} (o : outcome A) : Prop := ∀ e, o ≠ Failed e.
Lemma bind_never_fails {A B} (m : outcome A) (f : A → outcome B) : never_fails m → (∀ a, m = Done a → never_fails (f a)) → never_fails (m ≫= f).
Proof. destruct m as [a|e|]; intros Hm Hf e'; cbn; [by apply Hf | by destruct (Hm e) | done]. Qed.
Lemma mapM_outcome_never_fails {A B} (f : A → outcome B) l : (∀ x, x ∈ l → never_fails (f x)) → never_fails (mapM_outcome f l).
Proof.
  intros Hf e. induction l as [|x l IH]; [done|]. cbn [mapM_outcome]. pose proof (Hf x ltac:(left)) as Hx. destruct (f x) as [y|e'|]; [|by destruct (Hx e')|done].
  assert (IH' : mapM_outcome f l ≠ Failed e) by (apply IH; intros z Hz; apply Hf; by right). by destruct (mapM_outcome f l).
Qed.
Lemma mapM_outcome_some_panics {A B} (f : A → outcome B) l x : (∀ y, y ∈ l → never_fails (f y)) → x ∈ l → f x = Panics → mapM_outcome f l = Panics.
Proof.
  intros Hf Hx Hp. induction l as [|y l IH]; [by apply not_elem_of_nil in Hx|]. cbn [mapM_outcome]. apply elem_of_cons in Hx as [->|Hx]; [by rewrite Hp|].
  pose proof (Hf y ltac:(left)) as Hy. destruct (f y) as [b|e|]; [|by destruct (Hy e)|done]. rewrite IH; [done| |done]. intros z Hz. apply Hf. by right.
Qed.
