(* ===== verification/Collectd.v ===== *)
(** * The collectd manager

    [src/internal/signalfx-agent/pkg/monitors/collectd]: the manager that runs
    collectd as a child process for the monitors that use it ([collectd.go]: a state
    machine in a goroutine of its own, a forwarder of restart requests, the
    debouncer of [utils/time.go] and callers that hold the configuration mutex), the
    delivery of what collectd writes to the monitors, and the write server
    ([write_server.go], [utils/collectdutil]).

    The goroutines are a step relation.  Whether collectd can be started and its
    configuration be rendered are parameters of the relation, so that what happens
    while they fail for good can be stated. *)

From S2P Require Import Prelude GoStrings GoValue Telemetry SmartAgent.

(** ** Delivery of data points and events *)

Definition monitorIDKey : string := "monitorID".

Definition setDims (d : sfxDatapoint) (dims : gmap string string) : sfxDatapoint :=
  {| sd_Metric := sd_Metric d; sd_Type := sd_Type d; sd_Value := sd_Value d; sd_Time := sd_Time d; sd_Dimensions := dims; sd_Meta := sd_Meta d |}.

(** The monitor of a data point, empty for none, and the point it gets: a dimension
    that names the monitor is removed. *)
Definition dpMonitor (d : sfxDatapoint) : string * sfxDatapoint :=
  match sd_Meta d !! monitorIDKey with
  | Some (AString id) => (id, d)
  | _ =>
      let id := default "" (sd_Dimensions d !! monitorIDKey) in
      if String.eqb id "" then ("", d) else (id, setDims d (delete monitorIDKey (sd_Dimensions d)))
  end.

Definition eventMonitor (e : sfxEvent) : string * sfxEvent :=
  match se_Properties e !! monitorIDKey with
  | Some (AString id) =>
      (id, {| se_Time := se_Time e; se_Type := se_Type e; se_Category := se_Category e; se_Dimensions := se_Dimensions e;
              se_Properties := delete monitorIDKey (se_Properties e) |})
  | _ =>
      let id := default "" (se_Dimensions e !! monitorIDKey) in
      if String.eqb id "" then ("", e)
      else (id, {| se_Time := se_Time e; se_Type := se_Type e; se_Category := se_Category e;
                   se_Dimensions := delete monitorIDKey (se_Dimensions e); se_Properties := se_Properties e |})
  end.

Section delivery.
Context `{MapRange}.

Definition groupDP (m : gmap string (list sfxDatapoint)) (d : sfxDatapoint) : gmap string (list sfxDatapoint) :=
  let '(id, d) := dpMonitor d in
  if String.eqb id "" then m else <[id := default [] (m !! id) ++ [d]]> m.

(** What is sent to which output, in the order of the calls. *)
Definition receiveDPs (active : gset string) (dps : list sfxDatapoint) : list (string * list sfxDatapoint) :=
  List.filter (λ kv, bool_decide (kv.1 ∈ active)) (range (foldl groupDP ∅ dps)).

Definition receiveEvents (active : gset string) (events : list sfxEvent) : list (string * sfxEvent) :=
  List.filter (λ ie, negb (String.eqb ie.1 "") && bool_decide (ie.1 ∈ active)) (map eventMonitor events).
End delivery.

(** ** The write server *)

Record JSONWriteFormat := {
  wf_Dsnames : list (option string); wf_Dstypes : list (option string); wf_Values : list (option float64);
  wf_Time : option float64; wf_Severity : option string; wf_Message : option string; wf_Meta : gmap string any;
}.

Section server.
(** The conversions of the ingest library. *)
Context (NewEvent : JSONWriteFormat → sfxEvent) (NewDatapoint : JSONWriteFormat → nat → sfxDatapoint).

Definition setMeta (d : sfxDatapoint) (meta : gmap string any) : sfxDatapoint :=
  {| sd_Metric := sd_Metric d; sd_Type := sd_Type d; sd_Value := sd_Value d; sd_Time := sd_Time d; sd_Dimensions := sd_Dimensions d; sd_Meta := meta |}.
Definition setDstypes (f : JSONWriteFormat) (l : list (option string)) : JSONWriteFormat :=
  {| wf_Dsnames := wf_Dsnames f; wf_Dstypes := l; wf_Values := wf_Values f; wf_Time := wf_Time f; wf_Severity := wf_Severity f;
     wf_Message := wf_Message f; wf_Meta := wf_Meta f |}.

Definition lowerType (t : option string) : res (option string) :=
  match t with Some t => Ok (Some (ToLower t)) | None => Err (Errorf "invalid memory address or nil pointer dereference" []) end.
Definition isSet {A} (v : option (option A)) : bool := match v with Some (Some _) => true | _ => false end.

(** The data points and events of a value list; a null data source type is
    dereferenced, which panics. *)
Definition ConvertWriteFormat (f : JSONWriteFormat) : res (list sfxDatapoint * list sfxEvent) :=
  match wf_Time f, wf_Severity f, wf_Message f with
  | Some _, Some _, Some _ => Ok ([], [NewEvent f])
  | _, _, _ =>
      types ← mapM_res lowerType (wf_Dstypes f);
      let f := setDstypes f types in
      Ok (map (λ i, setMeta (NewDatapoint f i) (wf_Meta f))
            (List.filter (λ i, (i <? length (wf_Dstypes f))%nat && isSet (wf_Values f !! i)) (seq 0 (length (wf_Dsnames f)))), [])
  end.

Definition markEvent (monitorID : string) (e : sfxEvent) : sfxEvent :=
  if String.eqb monitorID "" then e
  else {| se_Time := se_Time e; se_Type := se_Type e; se_Category := se_Category e; se_Dimensions := se_Dimensions e;
          se_Properties := <[monitorIDKey := AString monitorID]> (se_Properties e) |}.
Definition markDP (monitorID : string) (d : sfxDatapoint) : sfxDatapoint :=
  if negb (String.eqb monitorID "") && is_nil (default ANil (sd_Meta d !! monitorIDKey))
  then setMeta d (<[monitorIDKey := AString monitorID]> (sd_Meta d)) else d.

Inductive response := BadRequest | Recovered | Delivered (dps : list sfxDatapoint) (events : list sfxEvent).

(** A request with its decoded body; the server recovers from the panics of a
    handler, which then has called neither callback. *)
Definition ServeHTTP (body : option (list JSONWriteFormat)) (monitorID : string) : response :=
  match body with
  | None => BadRequest
  | Some l =>
      match mapM_res ConvertWriteFormat l with
      | Err _ => Recovered
      | Ok rs => Delivered (map (markDP monitorID) (flat_map fst rs)) (map (markEvent monitorID) (flat_map snd rs))
      end
  end.
End server.

(** ** The manager *)

Inductive collectdState := Errored | Restarting | Running | Starting | Stopped | ShuttingDown | Uninitialized | Returned.
(** A child process that was started: alive, or exited with its waiter blocked on
    [procDied].  A run has a list of them: nothing in the data says that there is
    one at most. *)
Inductive child := Alive | Exited.
(** The forwarder of requests: selecting, about to call the debounced restart, or gone. *)
Inductive forwarder := Listening | Forwarding | Gone.
(** The debouncer's goroutine: waiting for a tick, or blocked on [restart] with its lock held. *)
Inductive debouncer := Ticking | SendingRestart.

(** One run of [manageCollectd] with its goroutines. *)
Record run := {
  rn_state : collectdState; rn_children : list child; rn_stop : bool;
  rn_forwarder : forwarder; rn_debouncer : debouncer; rn_requested : bool;
}.

(** A caller that holds the configuration mutex. *)
Inductive caller := NoCaller | Requesting | AwaitingEnd (id : string).

Record manager := { cm_active : gset string; cm_jmx : gset string; cm_runs : list run; cm_caller : caller }.
Definition InitCollectd : manager := {| cm_active := ∅; cm_jmx := ∅; cm_runs := []; cm_caller := NoCaller |}.

(** Set the state and the children of a run. *)
Definition inState (s : collectdState) (c : list child) (r : run) : run :=
  {| rn_state := s; rn_children := c; rn_stop := rn_stop r; rn_forwarder := rn_forwarder r; rn_debouncer := rn_debouncer r; rn_requested := rn_requested r |}.
Definition stopped (r : run) : run :=
  {| rn_state := rn_state r; rn_children := rn_children r; rn_stop := true; rn_forwarder := rn_forwarder r; rn_debouncer := rn_debouncer r; rn_requested := rn_requested r |}.
Definition withHelpers (f : forwarder) (d : debouncer) (requested : bool) (r : run) : run :=
  {| rn_state := rn_state r; rn_children := rn_children r; rn_stop := rn_stop r; rn_forwarder := f; rn_debouncer := d; rn_requested := requested |}.

(** The channel [terminated] is closed when the run returns. *)
Definition terminated (r : run) : bool := match rn_state r with Returned => true | _ => false end.
(** A new run: without a write server it is errored and has no helpers. *)
Definition newRun (serverStarted : bool) : run :=
  {| rn_state := if serverStarted then Uninitialized else Errored; rn_children := []; rn_stop := false;
     rn_forwarder := if serverStarted then Listening else Gone; rn_debouncer := Ticking; rn_requested := false |}.

(** The current run is the first. *)
Definition needsRun (l : list run) : bool := match l with [] => true | r :: _ => terminated r end.
Definition RequestRestart (serverStarted : bool) (cm : manager) : manager :=
  {| cm_active := cm_active cm; cm_jmx := cm_jmx cm;
     cm_runs := if needsRun (cm_runs cm) then newRun serverStarted :: cm_runs cm else cm_runs cm; cm_caller := Requesting |}.

Definition ConfigureFromMonitor (serverStarted usesGenericJMX : bool) (id : string) (cm : manager) : manager :=
  RequestRestart serverStarted
    {| cm_active := {[id]} ∪ cm_active cm; cm_jmx := if usesGenericJMX then {[id]} ∪ cm_jmx cm else cm_jmx cm;
       cm_runs := cm_runs cm; cm_caller := cm_caller cm |}.

Definition stopCurrent (l : list run) : list run := match l with [] => [] | r :: l => stopped r :: l end.
(** [MonitorDidShutdown] up to its first blocking operation. *)
Definition MonitorDidShutdown (serverStarted : bool) (id : string) (cm : manager) : manager :=
  if bool_decide (id ∈ cm_active cm) then
    let jmx := cm_jmx cm ∖ {[id]} in
    if (size (cm_active cm) =? 1)%nat
    then {| cm_active := cm_active cm; cm_jmx := jmx; cm_runs := stopCurrent (cm_runs cm); cm_caller := AwaitingEnd id |}
    else RequestRestart serverStarted {| cm_active := cm_active cm ∖ {[id]}; cm_jmx := jmx; cm_runs := cm_runs cm; cm_caller := cm_caller cm |}
  else cm.

Section steps.
(** Whether collectd can be started and whether rendering its configuration can fail. *)
Context (mayStart mayFailRender : bool).

(** The steps of a run's goroutines.  A child that was killed, or not, exits; its
    waiter's message on [procDied] is taken where the state machine receives. *)
Inductive runStep : run → run → Prop :=
| run_stop_early r : rn_state r = Uninitialized → rn_stop r = true → runStep r (inState Stopped (rn_children r) r)
| run_render_fails r : rn_state r = Starting → mayFailRender = true → runStep r (inState Stopped (rn_children r) r)
| run_started r : rn_state r = Starting → mayStart = true → runStep r (inState Running (Alive :: rn_children r) r)
| run_child_exits r i : rn_children r !! i = Some Alive → runStep r (inState (rn_state r) (<[i := Exited]> (rn_children r)) r)
| run_child_died r i : rn_state r = Running → rn_children r !! i = Some Exited → runStep r (inState Starting (delete i (rn_children r)) r)
| run_stop r : rn_state r = Running → rn_stop r = true → runStep r (inState ShuttingDown (rn_children r) r)
| run_restarted r i : rn_state r = Restarting → rn_children r !! i = Some Exited → runStep r (inState Starting (delete i (rn_children r)) r)
| run_shut_down r i : rn_state r = ShuttingDown → rn_children r !! i = Some Exited → runStep r (inState Stopped (delete i (rn_children r)) r)
| run_return r : rn_state r = Stopped → runStep r (inState Returned (rn_children r) r)
| run_first_start r : rn_debouncer r = SendingRestart → rn_state r = Uninitialized →
    runStep r (withHelpers (rn_forwarder r) Ticking false (inState Starting (rn_children r) r))
| run_restart r : rn_debouncer r = SendingRestart → rn_state r = Running →
    runStep r (withHelpers (rn_forwarder r) Ticking false (inState Restarting (rn_children r) r))
| run_tick r : rn_debouncer r = Ticking → rn_requested r = true → rn_state r ≠ ShuttingDown →
    runStep r (withHelpers (rn_forwarder r) SendingRestart true r)
| run_tick_late r : rn_debouncer r = Ticking → rn_requested r = true → rn_state r = ShuttingDown →
    runStep r (withHelpers (rn_forwarder r) Ticking false r)
| run_forward r : rn_forwarder r = Forwarding → rn_debouncer r = Ticking → runStep r (withHelpers Listening Ticking true r)
| run_forwarder_ends r : rn_forwarder r = Listening → terminated r = true → runStep r (withHelpers Gone (rn_debouncer r) (rn_requested r) r).

Definition setRuns (l : list run) (c : caller) (cm : manager) : manager :=
  {| cm_active := cm_active cm; cm_jmx := cm_jmx cm; cm_runs := l; cm_caller := c |}.

(** A step of the goroutines without a new call. *)
Inductive quietStep : manager → manager → Prop :=
| quiet_run cm i r r' : cm_runs cm !! i = Some r → runStep r r' → quietStep cm (setRuns (<[i := r']> (cm_runs cm)) (cm_caller cm) cm)
(** The request is taken by the forwarder of any run that still selects. *)
| quiet_send cm i r : cm_caller cm = Requesting → cm_runs cm !! i = Some r → rn_forwarder r = Listening →
    quietStep cm (setRuns (<[i := withHelpers Forwarding (rn_debouncer r) (rn_requested r) r]> (cm_runs cm)) NoCaller cm)
| quiet_ended cm id r l : cm_caller cm = AwaitingEnd id → cm_runs cm = r :: l → terminated r = true →
    quietStep cm {| cm_active := cm_active cm ∖ {[id]}; cm_jmx := cm_jmx cm; cm_runs := cm_runs cm; cm_caller := NoCaller |}.

Inductive step : manager → manager → Prop :=
| step_quiet cm cm' : quietStep cm cm' → step cm cm'
| step_main cm ok : cm_caller cm = NoCaller → step cm (RequestRestart ok cm)
| step_configure cm ok jmx id : cm_caller cm = NoCaller → step cm (ConfigureFromMonitor ok jmx id cm)
| step_shutdown cm ok id : cm_caller cm = NoCaller → step cm (MonitorDidShutdown ok id cm).

Definition reachable (cm : manager) : Prop := rtc step InitCollectd cm.

(** ** Processes *)

(** A run has a child, and one only, exactly in the states that wait for one. *)
Definition run_inv (r : run) : Prop :=
  length (rn_children r) = match rn_state r with Running | Restarting | ShuttingDown => 1 | _ => 0 end.
Record manager_inv (cm : manager) : Prop := {
  inv_runs : Forall run_inv (cm_runs cm);
  inv_old : Forall (λ r, terminated r = true) (tail (cm_runs cm));
  inv_last : ∀ id, cm_caller cm = AwaitingEnd id → cm_active cm = {[id]};
}.

Lemma runStep_inv r r' : runStep r r' → run_inv r → run_inv r'.
Proof.
  assert (Hdel : ∀ (l : list child) i c, l !! i = Some c → length (delete i l) = length l - 1).
  { intros l i c Hi. rewrite length_delete by eauto. lia. }
  unfold run_inv. intros Hst. destruct Hst as [r Hs|r Hs|r Hs|r i Hi|r i Hs Hi|r Hs|r i Hs Hi|r i Hs Hi|r Hs|r Hd Hs|r Hd Hs| | | |];
    cbn [inState withHelpers rn_children rn_state length]; rewrite ?length_insert, ?(Hdel _ _ _ Hi); try done; rewrite Hs; lia.
Qed.
Lemma runStep_terminated r r' : runStep r r' → terminated r = true → terminated r' = true.
Proof.
  unfold terminated. intros Hst. destruct Hst; cbn [inState withHelpers rn_state]; try done;
    by match goal with E : rn_state _ = _ |- _ => rewrite E end.
Qed.

Lemma insert_tail (P : run → Prop) (l : list run) i r r' :
  l !! i = Some r → (P r → P r') → Forall P (tail l) → Forall P (tail (<[i := r']> l)).
Proof.
  intros Hi HP Hl. destruct l as [|r0 l]; [done|]. destruct i as [|i]; cbn in *; [done|].
  apply Forall_insert; [done|]. apply HP. by apply (Forall_lookup_1 P l i r).
Qed.

Lemma RequestRestart_inv ok cm : manager_inv cm → manager_inv (RequestRestart ok cm).
Proof.
  intros [H1 H2 H3]. unfold RequestRestart. destruct (needsRun (cm_runs cm)) eqn:En; constructor; cbn [cm_runs cm_caller cm_active]; try done.
  - constructor; [|done]. by destruct ok.
  - destruct (cm_runs cm) as [|r l]; [done|]. cbn in *. by constructor.
Qed.

Lemma quietStep_inv cm cm' : quietStep cm cm' → manager_inv cm → manager_inv cm'.
Proof.
  intros Hst [H1 H2 H3]. destruct Hst as [cm i r r' Hi Hr|cm i r Hc Hi Hf|cm id r l Hc Hl Ht]; constructor; cbn [setRuns cm_runs cm_caller cm_active]; try done.
  - apply Forall_insert; [done|]. apply (runStep_inv r r' Hr). by apply (Forall_lookup_1 _ _ i r) in H1.
  - apply (insert_tail _ _ i r r' Hi); [|done]. by apply runStep_terminated.
  - apply Forall_insert; [done|]. by apply (Forall_lookup_1 _ _ i r) in H1.
  - by apply (insert_tail _ _ i r _ Hi).
Qed.

Lemma step_manager_inv cm cm' : step cm cm' → manager_inv cm → manager_inv cm'.
Proof.
  intros Hst Hi. destruct Hst as [cm cm' Hq|cm ok Hc|cm ok jmx id Hc|cm ok id Hc].
  - by apply (quietStep_inv cm).
  - by apply RequestRestart_inv.
  - apply RequestRestart_inv. destruct Hi as [H1 H2 H3]. constructor; try done. cbn [cm_caller]. by rewrite Hc.
  - unfold MonitorDidShutdown. case_bool_decide as Hin; [|done]. destruct Hi as [H1 H2 H3]. destruct (Nat.eqb_spec (size (cm_active cm)) 1) as [Hs|_].
    + constructor; cbn [cm_runs cm_caller cm_active].
      * destruct (cm_runs cm) as [|r l]; [done|]. apply Forall_cons in H1 as [Hr Hl]. by constructor.
      * by destruct (cm_runs cm).
      * intros id' [= <-]. destruct (size_1_elem_of _ Hs) as [x Hx]. apply leibniz_equiv in Hx. rewrite Hx in *. by apply elem_of_singleton in Hin as ->.
    + apply RequestRestart_inv. constructor; try done. cbn [cm_caller]. by rewrite Hc.
Qed.

Lemma reachable_manager_inv cm : reachable cm → manager_inv cm.
Proof.
  intros Hr. assert (H0 : manager_inv InitCollectd) by by constructor. unfold reachable in Hr. revert H0.
  induction Hr as [cm|cm cm' cm'' Hst _ IH]; [done|]. intros H0. apply IH. by apply (step_manager_inv cm).
Qed.

(** The processes of all runs that have not been waited for. *)
Definition processes (cm : manager) : list child := concat (map rn_children (cm_runs cm)).

Lemma old_runs_no_process l : Forall run_inv l → Forall (λ r, terminated r = true) l → concat (map rn_children l) = [].
Proof.
  intros Hl Ht. induction Hl as [|r l Hr _ IH]; [done|]. apply Forall_cons in Ht as [Hr' Ht]. cbn. rewrite (IH Ht), app_nil_r.
  unfold run_inv, terminated in *. destruct (rn_state r); try done. by apply nil_length_inv.
Qed.

(** C21: However configurations, shutdowns, restarts and crashes interleave, at most one
    collectd process of a manager exists that was started and not waited for, the
    processes of earlier runs included. *)
Theorem at_most_one_collectd (cm : manager) : reachable cm → length (processes cm) ≤ 1.
Proof.
  intros Hr. destruct (reachable_manager_inv cm Hr) as [H1 H2 _]. unfold processes. destruct (cm_runs cm) as [|r l]; [cbn; lia|].
  apply Forall_cons in H1 as [Hr1 H1]. cbn in *. rewrite (old_runs_no_process l H1 H2), app_nil_r, Hr1. by destruct (rn_state r); lia.
Qed.

(** C22: When the shutdown of the last monitor returns, no monitor is active and every
    collectd process that was ever started has exited and been waited for. *)
Theorem last_shutdown_stops_collectd (cm cm' : manager) (id : string) :
  reachable cm → step cm cm' → cm_caller cm = AwaitingEnd id → cm_caller cm' = NoCaller →
  cm_active cm' = ∅ ∧ processes cm' = [].
Proof.
  intros Hr Hst Hc Hc'. pose proof (reachable_manager_inv cm Hr) as [H1 H2 H3].
  destruct Hst as [cm cm' Hq|cm ok Hn|cm ok jmx id' Hn|cm ok id' Hn]; try congruence.
  destruct Hq as [cm i r r' Hi Hrs|cm i r Hrq|cm id' r l Hw Hl Ht]; cbn [setRuns cm_caller cm_active cm_runs] in *; try congruence.
  rewrite Hc in Hw. injection Hw as <-. unfold processes. cbn [cm_runs cm_active]. rewrite (H3 id Hc), Hl in *. split; [apply difference_diag_L|].
  apply old_runs_no_process; [done|]. by constructor.
Qed.
End steps.

(** ** Calls that never return *)

(** No forwarder will take a request. *)
Definition noForwarder (cm : manager) : Prop := cm_caller cm = Requesting ∧ Forall (λ r, rn_forwarder r = Gone) (cm_runs cm).

Lemma step_noForwarder ms mf cm cm' : step ms mf cm cm' → noForwarder cm → noForwarder cm'.
Proof.
  intros Hst [Hc Hf]. destruct Hst as [cm cm' Hq|cm ok Hn|cm ok jmx id Hn|cm ok id Hn]; try congruence.
  destruct Hq as [cm i r r' Hi Hr|cm i r _ Hi Hl|cm id r l Hw]; [|by apply (Forall_lookup_1 _ _ i r) in Hf; [congruence|]|congruence].
  split; [done|]. cbn [setRuns cm_runs]. apply Forall_insert; [done|]. apply (Forall_lookup_1 _ _ i r) in Hf; [|done].
  destruct Hr; cbn [inState withHelpers rn_forwarder]; congruence.
Qed.
Lemma steps_noForwarder ms mf cm cm' : rtc (step ms mf) cm cm' → noForwarder cm → noForwarder cm'.
Proof. intros Hst. induction Hst as [cm|cm cm1 cm2 Hs _ IH]; [done|]. intros Hn. apply IH. by apply (step_noForwarder ms mf cm). Qed.

(** When the write server cannot be started, the first monitor's configuration never
    returns: the state machine spins in a state without a case and nobody takes the
    restart request. *)
Theorem errored_server_blocks (ms mf jmx : bool) (id : string) (cm : manager) :
  rtc (step ms mf) (ConfigureFromMonitor false jmx id InitCollectd) cm → cm_caller cm = Requesting.
Proof. intros Hst. by destruct (steps_noForwarder ms mf _ cm Hst) as [? _]; [split; [done|by repeat constructor]|]. Qed.

(** A configuration can come in between the moment the current run is found alive and
    its end after the configuration could not be rendered: the caller then waits for
    ever, with the mutex held. *)
Theorem request_to_ended_run_blocks (ms : bool) : ∃ cm, reachable ms true cm ∧ cm_caller cm = Requesting ∧
  ∀ ms' mf' cm', rtc (step ms' mf') cm cm' → cm_caller cm' = Requesting.
Proof.
  set (r0 := newRun true).
  set (ended := withHelpers Gone Ticking false (inState Returned [] r0)).
  exists {| cm_active := {["b"]} ∪ ({["a"]} ∪ ∅); cm_jmx := ∅; cm_runs := [ended]; cm_caller := Requesting |}. split; [|split; [done|]].
  - unfold reachable.
    eapply rtc_l. { by apply (step_configure ms true InitCollectd true false "a"). }
    eapply rtc_l. { apply step_quiet, (quiet_send ms true _ 0 r0); done. }
    eapply rtc_l. { apply step_quiet, (quiet_run ms true _ 0 (withHelpers Forwarding Ticking false r0)); [done|]. by apply run_forward. }
    eapply rtc_l. { apply step_quiet, (quiet_run ms true _ 0 (withHelpers Listening Ticking true r0)); [done|]. by apply run_tick. }
    eapply rtc_l. { apply step_quiet, (quiet_run ms true _ 0 (withHelpers Listening SendingRestart true r0)); [done|]. by apply run_first_start. }
    eapply rtc_l. { by apply (step_configure ms true _ true false "b"). }
    eapply rtc_l. { apply step_quiet, (quiet_run ms true _ 0 (withHelpers Listening Ticking false (inState Starting [] r0))); [done|]. by apply run_render_fails. }
    eapply rtc_l. { apply step_quiet, (quiet_run ms true _ 0 (withHelpers Listening Ticking false (inState Stopped [] r0))); [done|]. by apply run_return. }
    eapply rtc_l. { apply step_quiet, (quiet_run ms true _ 0 (withHelpers Listening Ticking false (inState Returned [] r0))); [done|]. by apply run_forwarder_ends. }
    apply rtc_refl.
  - intros ms' mf' cm' Hst. by destruct (steps_noForwarder ms' mf' _ cm' Hst) as [? _]; [split; [done|by repeat constructor]|].
Qed.

(** While collectd cannot be started, the shutdown of the last monitor does not return:
    the stop request is not looked at between the attempts. *)
Theorem unstartable_blocks_shutdown (cm cm' : manager) (id : string) (r : run) (l : list run) :
  cm_caller cm = AwaitingEnd id → cm_runs cm = r :: l → rn_state r = Starting →
  rtc (step false false) cm cm' → cm_caller cm' = AwaitingEnd id.
Proof.
  intros Hc Hl Hs Hst.
  assert (Hg : cm_caller cm = AwaitingEnd id ∧ ∃ r l, cm_runs cm = r :: l ∧ rn_state r = Starting) by eauto 10.
  clear Hc Hl Hs. induction Hst as [cm|cm cm1 cm2 Hs _ IH]; [by destruct Hg|]. apply IH. clear IH. destruct Hg as [Hc (r0 & l0 & Hl & Hs0)].
  destruct Hs as [cm cm1 Hq|cm ok Hn|cm ok jmx id' Hn|cm ok id' Hn]; try congruence.
  destruct Hq as [cm i r1 r' Hi Hr|cm i r1 Hrq|cm id' r1 l1 Hw Hl1 Ht]; try congruence; cbn [setRuns cm_caller cm_runs].
  - split; [done|]. destruct i as [|i]; rewrite Hl in *; cbn in *; [|eauto 10]. injection Hi as <-. do 2 eexists. split; [done|].
    destruct Hr; cbn [inState withHelpers rn_state]; try congruence; done.
  - rewrite Hl in Hl1. injection Hl1 as <- <-. unfold terminated in Ht. by rewrite Hs0 in Ht.
Qed.

(** A run that nobody asked to start. *)
Definition neverAsked (cm : manager) : Prop :=
  cm_caller cm = NoCaller ∧ ∃ l, cm_runs cm = newRun true :: l.

(** C23: A restart request can be taken by the forwarder of the previous run, which still
    selects although that run has returned: the new run is then never asked to start
    collectd, however long it waits, while a monitor is active. *)
Theorem request_lost_to_old_run : ∃ cm, reachable true true cm ∧ cm_active cm ≠ ∅ ∧
  ∀ cm', rtc (quietStep true true) cm cm' → neverAsked cm'.
Proof.
  set (r0 := newRun true).
  set (old := withHelpers Forwarding Ticking false (stopped (inState Returned [] r0))).
  exists {| cm_active := {["b"]} ∪ (({["a"]} ∪ ∅) ∖ {["a"]}); cm_jmx := ∅ ∖ {["a"]}; cm_runs := [r0; old]; cm_caller := NoCaller |}. split; [|split].
  - unfold reachable.
    eapply rtc_l. { by apply (step_configure true true InitCollectd true false "a"). }
    eapply rtc_l. { apply step_quiet, (quiet_send true true _ 0 r0); done. }
    eapply rtc_l. { apply step_quiet, (quiet_run true true _ 0 (withHelpers Forwarding Ticking false r0)); [done|]. by apply run_forward. }
    eapply rtc_l. { apply step_quiet, (quiet_run true true _ 0 (withHelpers Listening Ticking true r0)); [done|]. by apply run_tick. }
    eapply rtc_l. { apply step_quiet, (quiet_run true true _ 0 (withHelpers Listening SendingRestart true r0)); [done|]. by apply run_first_start. }
    eapply rtc_l. { by apply (step_shutdown true true _ true "a"). }
    eapply rtc_l. { apply step_quiet, (quiet_run true true _ 0 (stopped (withHelpers Listening Ticking false (inState Starting [] r0)))); [done|]. by apply run_started. }
    eapply rtc_l. { apply step_quiet, (quiet_run true true _ 0 (stopped (withHelpers Listening Ticking false (inState Running [Alive] r0)))); [done|]. by apply run_stop. }
    eapply rtc_l. { apply step_quiet, (quiet_run true true _ 0 (stopped (withHelpers Listening Ticking false (inState ShuttingDown [Alive] r0)))); [done|]. by apply (run_child_exits _ _ _ 0). }
    eapply rtc_l. { apply step_quiet, (quiet_run true true _ 0 (stopped (withHelpers Listening Ticking false (inState ShuttingDown [Exited] r0)))); [done|]. by apply (run_shut_down _ _ _ 0). }
    eapply rtc_l. { apply step_quiet, (quiet_run true true _ 0 (stopped (withHelpers Listening Ticking false (inState Stopped [] r0)))); [done|]. by apply run_return. }
    eapply rtc_l. { eapply step_quiet, quiet_ended; done. }
    eapply rtc_l. { by apply (step_configure true true _ true false "b"). }
    eapply rtc_l. { apply step_quiet, (quiet_send true true _ 1 (stopped (withHelpers Listening Ticking false (inState Returned [] r0)))); done. }
    apply rtc_refl.
  - cbn. apply (non_empty_inhabited_L "b"). by apply elem_of_union_l, elem_of_singleton.
  - intros cm' Hst. assert (Hg : neverAsked {| cm_active := {["b"]} ∪ (({["a"]} ∪ ∅) ∖ {["a"]}); cm_jmx := ∅ ∖ {["a"]}; cm_runs := [r0; old]; cm_caller := NoCaller |}) by (split; eauto).
    induction Hst as [cm|cm cm1 cm2 Hs _ IH]; [done|]. apply IH. destruct Hg as [Hc [l Hl]].
    destruct Hs as [cm i r1 r' Hi Hr|cm i r1 Hrq|cm id' r1 l1 Hw Hl1 Ht]; try congruence. split; [done|]. cbn [setRuns cm_runs].
    destruct i as [|i]; rewrite Hl in *; cbn in *; [|eauto]. injection Hi as <-. inversion Hr; discriminate.
Qed.

(** ** What the monitors receive *)

(** The data points of a monitor, in order. *)
Definition pointsFor (id : string) (dps : list sfxDatapoint) : list sfxDatapoint :=
  map snd (List.filter (λ p, String.eqb p.1 id) (map dpMonitor dps)).

Lemma groupDP_lookup dps m id : id ≠ "" →
  foldl groupDP m dps !! id = match m !! id, pointsFor id dps with None, [] => None | o, l => Some (default [] o ++ l) end.
Proof.
  intros Hid. revert m. induction dps as [|d dps IH]; intros m.
  - cbn. destruct (m !! id); [|done]. cbn. by rewrite app_nil_r.
  - cbn [foldl]. rewrite IH. unfold pointsFor. cbn [map List.filter]. unfold groupDP. destruct (dpMonitor d) as [x d'] eqn:Ed. cbn [fst].
    destruct (String.eqb_spec x "") as [->|Hx].
    + destruct (String.eqb_spec "" id) as [<-|_]; [done|]. done.
    + destruct (String.eqb_spec x id) as [->|Hne]; cbn [map snd].
      * rewrite lookup_insert_eq. cbn. rewrite <-(assoc_L (++)). by destruct (m !! id).
      * by rewrite lookup_insert_ne.
Qed.
Lemma groupDP_empty_key dps m : m !! "" = None → foldl groupDP m dps !! "" = None.
Proof.
  revert m. induction dps as [|d dps IH]; intros m Hm; [done|]. cbn [foldl]. apply IH. unfold groupDP. destruct (dpMonitor d) as [x d'].
  destruct (String.eqb_spec x "") as [->|Hx]; [done|]. by rewrite lookup_insert_ne.
Qed.

(** Of the points collectd writes, every active monitor is sent its own, once, in
    order and without the dimension that named it; points of other or no monitors are
    dropped. *)
Theorem receiveDPs_correct `{MapRange} (active : gset string) (dps : list sfxDatapoint) :
  (∀ id l, (id, l) ∈ receiveDPs active dps ↔ id ∈ active ∧ id ≠ "" ∧ l = pointsFor id dps ∧ l ≠ []) ∧
  NoDup (receiveDPs active dps).*1.
Proof.
  unfold receiveDPs. split.
  - intros id l. rewrite list_elem_of_In, filter_In, <-list_elem_of_In, elem_of_range, bool_decide_eq_true. cbn [fst].
    destruct (decide (id = "")) as [->|Hne]; [rewrite groupDP_empty_key by apply lookup_empty; split; [by intros [? _]|by intros (_ & ? & _)]|].
    rewrite groupDP_lookup, lookup_empty by done. cbn. destruct (pointsFor id dps) as [|p ps]; split.
    + by intros [? _].
    + by intros (_ & _ & -> & ?).
    + by intros [[= <-] ?].
    + by intros (? & _ & -> & _).
  - pose proof (NoDup_range (foldl groupDP ∅ dps)) as Hnd. induction (range (foldl groupDP ∅ dps)) as [|[k v] l IH]; [constructor|].
    cbn [fmap list_fmap] in Hnd. apply NoDup_cons in Hnd as [Hk Hnd]. cbn [List.filter]. case_bool_decide; [|by apply IH].
    cbn. apply NoDup_cons. split; [|by apply IH]. intros Hin. apply Hk. apply list_elem_of_fmap in Hin as ([k' v'] & Hkv & Hin). apply list_elem_of_fmap.
    exists (k', v'). split; [done|]. apply list_elem_of_In, filter_In in Hin as [Hin _]. by apply list_elem_of_In.
Qed.

(** ** Examples *)

Definition demo_run (f : forwarder) (s : collectdState) (cs : list child) (stop : bool) : run :=
  {| rn_state := s; rn_children := cs; rn_stop := stop; rn_forwarder := f; rn_debouncer := Ticking; rn_requested := false |}.
Definition demo_manager (active : gset string) (r : run) (c : caller) : manager :=
  {| cm_active := active; cm_jmx := ∅; cm_runs := [r]; cm_caller := c |}.

(** A monitor is configured and collectd started. *)
Lemma demo_running : reachable true true (demo_manager {["a"]} (demo_run Listening Running [Alive] false) NoCaller).
Proof.
  unfold reachable. set (r0 := newRun true).
  eapply rtc_l. { by apply (step_configure true true InitCollectd true false "a"). }
  eapply rtc_l. { apply step_quiet, (quiet_send true true _ 0 r0); done. }
  eapply rtc_l. { apply step_quiet, (quiet_run true true _ 0 (withHelpers Forwarding Ticking false r0)); [done|]. by apply run_forward. }
  eapply rtc_l. { apply step_quiet, (quiet_run true true _ 0 (withHelpers Listening Ticking true r0)); [done|]. by apply run_tick. }
  eapply rtc_l. { apply step_quiet, (quiet_run true true _ 0 (withHelpers Listening SendingRestart true r0)); [done|]. by apply run_first_start. }
  eapply rtc_l. { apply step_quiet, (quiet_run true true _ 0 (demo_run Listening Starting [] false)); [done|]. by apply run_started. }
  apply rtc_refl.
Qed.

(** Its shutdown waits for the process, which has been killed. *)
Lemma demo_awaiting : reachable true true (demo_manager {["a"]} (demo_run Listening Returned [] true) (AwaitingEnd "a")).
Proof.
  eapply rtc_trans; [exact demo_running|].
  eapply rtc_l. { by apply (step_shutdown true true _ true "a"). }
  eapply rtc_l. { apply step_quiet, (quiet_run true true _ 0 (demo_run Listening Running [Alive] true)); [done|]. by apply run_stop. }
  eapply rtc_l. { apply step_quiet, (quiet_run true true _ 0 (demo_run Listening ShuttingDown [Alive] true)); [done|]. by apply (run_child_exits _ _ _ 0). }
  eapply rtc_l. { apply step_quiet, (quiet_run true true _ 0 (demo_run Listening ShuttingDown [Exited] true)); [done|]. by apply (run_shut_down _ _ _ 0). }
  eapply rtc_l. { apply step_quiet, (quiet_run true true _ 0 (demo_run Listening Stopped [] true)); [done|]. by apply run_return. }
  apply rtc_refl.
Qed.

Lemma at_most_one_collectd_witness :
  processes (demo_manager {["a"]} (demo_run Listening Running [Alive] false) NoCaller) = [Alive] ∧
  length (processes (demo_manager {["a"]} (demo_run Listening Running [Alive] false) NoCaller)) ≤ 1.
Proof. split; [reflexivity|]. exact (at_most_one_collectd true true _ demo_running). Defined.

Lemma last_shutdown_stops_collectd_witness :
  let cm := demo_manager {["a"]} (demo_run Listening Returned [] true) (AwaitingEnd "a") in
  let cm' := {| cm_active := cm_active cm ∖ {["a"]}; cm_jmx := cm_jmx cm; cm_runs := cm_runs cm; cm_caller := NoCaller |} in
  cm_active cm' = ∅ ∧ processes cm' = [].
Proof.
  intros cm cm'. apply (last_shutdown_stops_collectd true true cm cm' "a" demo_awaiting); [|reflexivity|reflexivity].
  apply step_quiet. apply (quiet_ended true true cm "a" (demo_run Listening Returned [] true) []); reflexivity.
Defined.

Lemma errored_server_blocks_witness :
  cm_caller (ConfigureFromMonitor false false "a" InitCollectd) = Requesting.
Proof. apply (errored_server_blocks true true false "a"). apply rtc_refl. Defined.

Lemma unstartable_blocks_shutdown_witness :
  let cm := demo_manager {["a"]} (demo_run Listening Starting [] true) (AwaitingEnd "a") in cm_caller cm = AwaitingEnd "a".
Proof.
  apply (unstartable_blocks_shutdown (demo_manager {["a"]} (demo_run Listening Starting [] true) (AwaitingEnd "a")) _ "a" (demo_run Listening Starting [] true) []);
    [reflexivity..|apply rtc_refl].
Defined.
