(* ===== verification/SQLMonitor.v ===== *)
(** * The SQL monitor

    [src/internal/signalfx-agent/pkg/monitors/sql]: validation of the queries
    ([monitor.go]), the querier that turns the rows of a result into data points and
    dimension updates ([querier.go]) and the environment of the expressions
    ([expressions.go]).  Column names are ASCII, so that [strings.EqualFold] compares
    lower-cased names.  The database driver is the environment: a result is a list
    of columns and a list of rows of scanned cells; the expression language is a
    parameter. *)

From S2P Require Import Prelude GoStrings GoValue Outcome Settings Telemetry SmartAgent HostMonitors.

(** ** Configuration *)

Record sqlMetric := {
  sm_MetricName : string; sm_ValueColumn : string; sm_DimensionColumns : list string; sm_IsCumulative : bool;
  sm_DimensionPropertyColumns : gmap string (list string);
}.
Record Query := { qy_Query : string; qy_Params : list any; qy_Metrics : list sqlMetric; qy_Expressions : list string }.
Record sqlConfig := { sc_DBDriver : string; sc_Queries : list Query }.

Definition drivers : list string := ["postgres"; "mysql"; "sqlserver"; "snowflake"].
(** The columns seen are looked up but never recorded. *)
Definition repeatedColumn (valueCols : gmap string bool) (ms : list sqlMetric) : option string :=
  foldr (λ m r, if default false (valueCols !! sm_ValueColumn m) then Some (sm_ValueColumn m) else r) None ms.
Definition validateQuery (q : Query) : res unit :=
  match qy_Metrics q, qy_Expressions q with
  | [], [] => Err (Errorf "each SQL query must have at least one metric or expression defined on it" [])
  | ms, _ =>
      match repeatedColumn ∅ ms with
      | Some c => Err (Errorf "sql query metric value column %s is repeated in the same query" [c])
      | None => Ok tt
      end
  end.
Definition sql_Validate (c : sqlConfig) : res unit :=
  if negb (existsb (String.eqb (sc_DBDriver c)) drivers) then Err (Errorf "database driver %s is not supported" [sc_DBDriver c])
  else if (length (sc_Queries c) =? 0)%nat then Err (Errorf "must specify at least one query" [])
  else _ ← mapM_res validateQuery (sc_Queries c); Ok tt.

(** ** The querier *)

Definition EqualFold (a b : string) : bool := String.eqb (ToLower a) (ToLower b).

(** A dimension update: its name, value and properties. *)
Record sqlDimension := { di_Name : string; di_Value : string; di_Properties : gmap string string }.

(** The kind of the destination a column is scanned into. *)
Inductive destination := NullFloat64 | NullString | NullTime | NullBool | Anything.

Record querier := {
  qr_query : Query;
  valueColumnNamesToMetrics : gmap string nat;   (* the index of the metric *)
  dimensionColumnSets : list (gset string);
  qr_dimensions : list (list sqlDimension);
  rowSliceCached : option (list destination);
}.

Section sql.
Context `{MapRange}.

Definition columnSet (m : sqlMetric) : gset string := list_to_set (map ToLower (sm_DimensionColumns m)).
Definition propertyDimensions (m : sqlMetric) : list sqlDimension :=
  flat_map (λ dp, if bool_decide (ToLower dp.1 ∈ columnSet m)
                  then [{| di_Name := ToLower dp.1; di_Value := ""; di_Properties := list_to_map (map (λ p, (ToLower p, "")) dp.2) |}] else [])
    (range (sm_DimensionPropertyColumns m)).
(** A later metric with the same value column replaces an earlier one. *)
Definition valueColumns (ms : list sqlMetric) : gmap string nat :=
  foldl (λ acc im, <[ToLower (sm_ValueColumn im.2) := im.1]> acc) ∅ (imap pair ms).

Definition newQuerier (compiles : string → bool) (q : Query) : res querier :=
  if forallb compiles (qy_Expressions q) then
    Ok {| qr_query := q; valueColumnNamesToMetrics := valueColumns (qy_Metrics q);
          dimensionColumnSets := map columnSet (qy_Metrics q); qr_dimensions := map propertyDimensions (qy_Metrics q); rowSliceCached := None |}
  else Err (Errorf "failed to compile expression" []).

(** ** Destinations of the columns *)

(** The loop over the metrics for one column: the destination, the dimension columns
    and the property columns seen, as the metrics spell them. *)
Fixpoint columnLoop (ct : string) (ms : list sqlMetric) (dims props : gset string) : destination * gset string * gset string :=
  match ms with
  | [] => (NullString, dims, props)
  | m :: ms =>
      if EqualFold ct (sm_ValueColumn m) then (NullFloat64, dims, props)
      else
        let props := list_to_set (List.filter (EqualFold ct) (flat_map snd (range (sm_DimensionPropertyColumns m)))) ∪ props in
        match find (EqualFold ct) (sm_DimensionColumns m) with
        | Some colName => (NullString, {[colName]} ∪ dims, props)
        | None => columnLoop ct ms dims props
        end
  end.

Fixpoint columnsLoop (cts : list string) (ms : list sqlMetric) (dims props : gset string) : list destination * gset string * gset string :=
  match cts with
  | [] => ([], dims, props)
  | ct :: cts =>
      let '(k, dims, props) := columnLoop ct ms dims props in
      let '(ks, dims, props) := columnsLoop cts ms dims props in
      (k :: ks, dims, props)
  end.

Definition missing (seen : gset string) (l : list string) : option string := find (λ c, bool_decide (c ∉ seen)) l.
Fixpoint checkSeen (ms : list sqlMetric) (dims props : gset string) : res unit :=
  match ms with
  | [] => Ok tt
  | m :: ms =>
      match missing dims (sm_DimensionColumns m) with
      | Some c => Err (Errorf "dimension column '%s' does not exist" [c])
      | None =>
          match missing props (flat_map snd (range (sm_DimensionPropertyColumns m))) with
          | Some c => Err (Errorf "property column '%s' does not exist" [c])
          | None => checkSeen ms dims props
          end
      end
  end.

Definition cacheRow (l : list destination) (q : querier) : querier :=
  {| qr_query := qr_query q; valueColumnNamesToMetrics := valueColumnNamesToMetrics q; dimensionColumnSets := dimensionColumnSets q;
     qr_dimensions := qr_dimensions q; rowSliceCached := Some l |}.

Definition getRowSliceForStructured (cts : list string) (q : querier) : res (list destination * querier) :=
  match rowSliceCached q with
  | Some l => Ok (l, q)
  | None =>
      let '(l, dims, props) := columnsLoop cts (qy_Metrics (qr_query q)) ∅ ∅ in
      _ ← checkSeen (qy_Metrics (qr_query q)) dims props;
      Ok (l, cacheRow l q)
  end.

Definition validateStructuredMetrics (q : Query) (cts : list string) : res unit :=
  let '(_, dims, props) := columnsLoop cts (qy_Metrics q) ∅ ∅ in checkSeen (qy_Metrics q) dims props.

(** The destinations by the types the driver reports. *)
Definition getRowSliceForExpression (cts : list (string * destination)) (q : querier) : res (list destination * querier) :=
  match rowSliceCached q with
  | Some l => Ok (l, q)
  | None => _ ← validateStructuredMetrics (qr_query q) cts.*1; Ok (cts.*2, cacheRow cts.*2 q)
  end.

Definition getRowSlice (cts : list (string * destination)) (q : querier) : res (list destination * querier) :=
  match qy_Expressions (qr_query q) with
  | [] => getRowSliceForStructured cts.*1 q
  | _ => getRowSliceForExpression cts q
  end.

(** ** Conversion of a row *)

(** Scanned cells, [None] for a null. *)
Inductive cell :=
| CFloat (v : option float64) | CString (v : option string) | CTime (v : option Z) | CBool (v : option bool) | CAny (v : any).

(** A data point being filled. *)
Record partial := { pt_Value : option float64; pt_Dimensions : gmap string string }.
Record rowState := { rs_dps : list partial; rs_dims : list (list sqlDimension) }.

Definition TruncateDimensionValue (v : string) : string := if (256 <? slen v)%nat then stake 256 v else v.

Definition setValue (v : float64) (p : partial) : partial := {| pt_Value := Some v; pt_Dimensions := pt_Dimensions p |}.
Definition setDim (sets : list (gset string)) (col v : string) (j : nat) (p : partial) : partial :=
  if bool_decide (ToLower col ∈ default ∅ (sets !! j)) then {| pt_Value := pt_Value p; pt_Dimensions := <[col := v]> (pt_Dimensions p) |} else p.
Definition updateDimension (col v : string) (d : sqlDimension) : sqlDimension :=
  let '(name, value) := if EqualFold (di_Name d) col then (col, v) else (di_Name d, di_Value d) in
  {| di_Name := name; di_Value := value;
     di_Properties := map_imap (λ k x, Some (if EqualFold col k then TruncateDimensionValue v else x)) (di_Properties d) |}.

Definition convertCell (q : querier) (i : nat) (col : string) (c : cell) (s : rowState) : outcome rowState :=
  match c with
  | CFloat None => Failed (Errorf "column %d is null" [pretty (Z.of_nat i)])
  | CFloat (Some v) =>
      match valueColumnNamesToMetrics q !! ToLower col with
      | None => Panics
      | Some j => Done {| rs_dps := alter (setValue v) j (rs_dps s); rs_dims := rs_dims s |}
      end
  | CString v =>
      let v := default "" v in
      Done {| rs_dps := imap (setDim (dimensionColumnSets q) col v) (rs_dps s); rs_dims := map (map (updateDimension col v)) (rs_dims s) |}
  | _ => Done s
  end.

Fixpoint convertCells (q : querier) (i : nat) (row : list (string * cell)) (s : rowState) : outcome rowState :=
  match row with
  | [] => Done s
  | (col, c) :: row => match convertCell q i col c s with Done s => convertCells q (S i) row s | o => o end
  end.

Definition cloneDimension (d : sqlDimension) : sqlDimension :=
  {| di_Name := di_Name d; di_Value := ""; di_Properties := (λ _, "") <$> di_Properties d |}.
Definition startRow (q : querier) : rowState :=
  {| rs_dps := map (λ _, {| pt_Value := None; pt_Dimensions := ∅ |}) (qy_Metrics (qr_query q)); rs_dims := map (map cloneDimension) (qr_dimensions q) |}.
Definition finishPoint (m : sqlMetric) (p : partial) : option sfxDatapoint :=
  (λ v, mkDatapoint (sm_MetricName m) (if sm_IsCumulative m then Counter else Gauge) (FloatValue v) (pt_Dimensions p)) <$> pt_Value p.
Definition finishRow (ms : list sqlMetric) (dps : list partial) : list sfxDatapoint := omap id (zip_with finishPoint ms dps).

(** The code stores the updated dimensions in the querier and clones them for the next
    row: their names may then be spelled as the column is, which no comparison sees. *)
Definition convertCurrentRowStructured (row : list (string * cell)) (q : querier) : outcome (list sfxDatapoint * list (list sqlDimension)) :=
  match convertCells q 0 row (startRow q) with
  | Done s => Done (finishRow (qy_Metrics (qr_query q)) (rs_dps s), rs_dims s)
  | Failed e => Failed e
  | Panics => Panics
  end.

(** ** Expressions *)

Definition scannedToValue (c : cell) : any :=
  match c with
  | CString (Some s) => AString s
  | CFloat (Some f) => AFloat f
  | CTime (Some t) => AInt t
  | CBool (Some b) => ABool b
  | CAny (ABytes s) => AString s
  | _ => ANil
  end.
Definition newExprEnv (row : list (string * cell)) : gmap string any :=
  foldl (λ m nc, <[nc.1 := scannedToValue nc.2]> m) ∅ row.

(** [vm.Run]: an error, nil, a data point or another value. *)
Inductive exprResult := ExprError | ExprNil | ExprPoint (d : sfxDatapoint) | ExprOther.
Context (run : string → gmap string any → exprResult).
Definition convertCurrentRowExpressions (row : list (string * cell)) (q : querier) : list sfxDatapoint :=
  flat_map (λ e, match run e (newExprEnv row) with ExprPoint d => [d] | _ => [] end) (qy_Expressions (qr_query q)).

(** A failed structured conversion is logged only. *)
Definition convertCurrentRow (row : list (string * cell)) (q : querier) : outcome (list sfxDatapoint * list (list sqlDimension)) :=
  let exprs := convertCurrentRowExpressions row q in
  match qy_Metrics (qr_query q) with
  | [] => Done (exprs, [])
  | _ =>
      match convertCurrentRowStructured row q with
      | Done (dps, dims) => Done (dps ++ exprs, dims)
      | Failed _ => Done (exprs, [])
      | Panics => Panics
      end
  end.

(** ** A query *)

(** The rows of a result, [None] when a row cannot be scanned. *)
Inductive sent := SentPoints (l : list sfxDatapoint) | SentDimension (d : sqlDimension).
Fixpoint queryRows (cts : list (string * destination)) (rows : list (option (list cell))) (q : querier) : list sent * outcome querier :=
  match rows with
  | [] => ([], Done q)
  | row :: rows =>
      match getRowSlice cts q with
      | Err e => ([], Failed e)
      | Ok (_, q) =>
          match row with
          | None => ([], Failed (Errorf "sql: Scan error" []))
          | Some cells =>
              match convertCurrentRow (zip cts.*1 cells) q with
              | Panics => ([], Panics)
              | Failed e => ([], Failed e)
              | Done (dps, dims) =>
                  let '(out, r) := queryRows cts rows q in
                  (SentPoints dps :: map SentDimension (concat dims) ++ out, r)
              end
          end
      end
  end.
Definition doQuery (result : res (list (string * destination) * list (option (list cell)))) (q : querier) : list sent * outcome querier :=
  match result with
  | Err e => ([], Failed (Wrapf "error executing statement %s" [qy_Query (qr_query q)] e))
  | Ok (cts, rows) => queryRows cts rows q
  end.
End sql.

(** ** What a row yields *)

Lemma EqualFold_true a b : EqualFold a b = true ↔ ToLower a = ToLower b.
Proof. apply String.eqb_eq. Qed.

(** The value of a metric's column, the last one when columns are named alike. *)
Definition valueAcc (m : sqlMetric) (acc : option float64) (nc : string * cell) : option float64 :=
  match nc.2 with CFloat (Some v) => if EqualFold nc.1 (sm_ValueColumn m) then Some v else acc | _ => acc end.
Definition dimsAcc (m : sqlMetric) (acc : gmap string string) (nc : string * cell) : gmap string string :=
  match nc.2 with
  | CString v => if bool_decide (ToLower nc.1 ∈ columnSet m) then <[nc.1 := default "" v]> acc else acc
  | _ => acc
  end.
Definition valueOf (row : list (string * cell)) (m : sqlMetric) : option float64 := foldl (valueAcc m) None row.
Definition dimsOf (row : list (string * cell)) (m : sqlMetric) : gmap string string := foldl (dimsAcc m) ∅ row.
Definition expectedPoint (row : list (string * cell)) (m : sqlMetric) : option sfxDatapoint :=
  (λ v, mkDatapoint (sm_MetricName m) (if sm_IsCumulative m then Counter else Gauge) (FloatValue v) (dimsOf row m)) <$> valueOf row m.

Definition isValueColumn (ms : list sqlMetric) (col : string) : Prop := ∃ m, m ∈ ms ∧ EqualFold col (sm_ValueColumn m) = true.
(** Value cells are not null and belong to a metric. *)
Definition row_ok (ms : list sqlMetric) (row : list (string * cell)) : Prop :=
  ∀ col v, (col, CFloat v) ∈ row → is_Some v ∧ isValueColumn ms col.

Lemma valueColumns_lookup ms k j : valueColumns ms !! k = Some j →
  (∃ m, ms !! j = Some m ∧ ToLower (sm_ValueColumn m) = k) ∧ ∀ i m, ms !! i = Some m → ToLower (sm_ValueColumn m) = k → (i ≤ j)%nat.
Proof.
  unfold valueColumns. induction ms as [|m ms IH] using rev_ind; [done|]. rewrite imap_app, foldl_app. cbn [imap foldl fst snd]. rewrite Nat.add_0_r.
  destruct (decide (ToLower (sm_ValueColumn m) = k)) as [<-|Hne].
  - rewrite lookup_insert_eq. intros [= <-]. split.
    + exists m. split; [|done]. rewrite lookup_app_r, Nat.sub_diag by done. done.
    + intros i m' Hi _. apply lookup_lt_Some in Hi. rewrite length_app in Hi. cbn in Hi. lia.
  - rewrite lookup_insert_ne by done. intros Hk. destruct (IH Hk) as ((m' & Hm' & Hc) & Hmax). split.
    + exists m'. split; [|done]. by apply lookup_app_l_Some.
    + intros i m'' Hi Hc''. destruct (decide (i < length ms)%nat) as [Hlt|Hge].
      * rewrite lookup_app_l in Hi by done. by apply (Hmax i m'').
      * rewrite lookup_app_r in Hi by lia. destruct (i - length ms)%nat eqn:Ei; [|done]. cbn in Hi. by injection Hi as ->.
Qed.
Lemma valueColumns_is_Some ms m : m ∈ ms → is_Some (valueColumns ms !! ToLower (sm_ValueColumn m)).
Proof.
  unfold valueColumns. induction ms as [|m' ms IH] using rev_ind; [by intros ?%not_elem_of_nil|]. rewrite imap_app, foldl_app. cbn [imap foldl fst snd].
  intros [Hm|Hm]%elem_of_app; [|apply list_elem_of_singleton in Hm as ->; rewrite lookup_insert_eq; by eexists].
  destruct (decide (ToLower (sm_ValueColumn m') = ToLower (sm_ValueColumn m))) as [->|Hne]; [rewrite lookup_insert_eq; by eexists|].
  rewrite lookup_insert_ne by done. by apply IH.
Qed.

Section rows.
Context (q : querier) (ms : list sqlMetric).
Hypothesis Hvalues : valueColumnNamesToMetrics q = valueColumns ms.
Hypothesis Hsets : dimensionColumnSets q = map columnSet ms.

Definition fill (v : sqlMetric → option float64) (d : sqlMetric → gmap string string) (m : sqlMetric) : partial :=
  {| pt_Value := v m; pt_Dimensions := d m |}.

Lemma setValue_fill col x j v d : NoDup (map (λ m, ToLower (sm_ValueColumn m)) ms) → valueColumns ms !! ToLower col = Some j →
  alter (setValue x) j (map (fill v d) ms) = map (fill (λ m, valueAcc m (v m) (col, CFloat (Some x))) d) ms.
Proof.
  intros Hnd Hj. destruct (valueColumns_lookup ms _ j Hj) as ((m0 & Hm0 & Hc0) & _). apply list_eq. intros i.
  rewrite list_lookup_fmap. destruct (decide (i = j)) as [->|Hij].
  - rewrite list_lookup_alter_eq, list_lookup_fmap, Hm0. cbn [fmap option_fmap option_map]. unfold setValue, fill, valueAcc. cbn [fst snd pt_Dimensions].
    by rewrite (proj2 (EqualFold_true _ _)).
  - rewrite list_lookup_alter_ne, list_lookup_fmap by done. destruct (ms !! i) as [m|] eqn:Hi; [|done]. cbn [fmap option_fmap option_map]. unfold fill, valueAcc. cbn [fst snd].
    destruct (EqualFold col (sm_ValueColumn m)) eqn:He; [|done]. apply EqualFold_true in He. exfalso. apply Hij.
    apply (NoDup_lookup _ i j (ToLower col) Hnd); rewrite list_lookup_fmap; [rewrite Hi|rewrite Hm0]; cbn; congruence.
Qed.
Lemma setDim_fill col x v d :
  imap (setDim (map columnSet ms) col (default "" x)) (map (fill v d) ms) = map (fill v (λ m, dimsAcc m (d m) (col, CString x))) ms.
Proof.
  apply list_eq. intros i. rewrite list_lookup_imap, !list_lookup_fmap. destruct (ms !! i) as [m|] eqn:Hi; [|done]. cbn.
  unfold setDim. rewrite list_lookup_fmap, Hi. cbn. by case_bool_decide; unfold fill, dimsAcc; cbn; [rewrite bool_decide_eq_true_2 | rewrite bool_decide_eq_false_2].
Qed.

Lemma convertCells_fill i row v d dims : NoDup (map (λ m, ToLower (sm_ValueColumn m)) ms) → row_ok ms row →
  ∃ dims', convertCells q i row {| rs_dps := map (fill v d) ms; rs_dims := dims |} =
    Done {| rs_dps := map (fill (λ m, foldl (valueAcc m) (v m) row) (λ m, foldl (dimsAcc m) (d m) row)) ms; rs_dims := dims' |}.
Proof.
  intros Hnd. revert i v d dims. induction row as [|[col c] row IH]; intros i v d dims Hok; [by eexists|].
  assert (Hok' : row_ok ms row) by (intros col' v' Hin; apply Hok; by right). cbn [convertCells foldl]. destruct c as [[x|]|x|x|x|x]; cbn [convertCell].
  - destruct (Hok col (Some x)) as [_ (m & Hm & He)]; [by left|]. apply EqualFold_true in He. rewrite Hvalues.
    destruct (valueColumns_is_Some ms m Hm) as [j Hj]. rewrite He, Hj. cbn [rs_dps rs_dims].
    rewrite (setValue_fill col x j v d Hnd) by (by rewrite He). apply (IH (S i) _ d dims Hok').
  - destruct (Hok col None) as [[? ?] _]; [by left|done].
  - rewrite Hsets. cbn [rs_dps rs_dims]. rewrite setDim_fill. apply (IH (S i) v _ _ Hok').
  - apply (IH (S i) v d dims Hok').
  - apply (IH (S i) v d dims Hok').
  - apply (IH (S i) v d dims Hok').
Qed.
End rows.

Lemma finishRow_map row ms : finishRow ms (map (fill (valueOf row) (dimsOf row)) ms) = omap (expectedPoint row) ms.
Proof.
  unfold finishRow. induction ms as [|m ms IH]; [done|]. cbn [map zip_with]. unfold finishPoint at 1. cbn [pt_Value pt_Dimensions fill].
  cbn [omap list_omap]. unfold expectedPoint at 1. destruct (valueOf row m); cbn [fmap option_fmap option_map id]; [f_equal|]; exact IH.
Qed.

Lemma structured_row_points `{MapRange} (compiles : string → bool) (query : Query) (q : querier) (row : list (string * cell)) :
  newQuerier compiles query = Ok q → NoDup (map (λ m, ToLower (sm_ValueColumn m)) (qy_Metrics query)) → row_ok (qy_Metrics query) row →
  ∃ dims, convertCurrentRowStructured row q = Done (omap (expectedPoint row) (qy_Metrics query), dims).
Proof.
  unfold newQuerier. destruct (forallb compiles (qy_Expressions query)); [|done]. intros [= <-] Hnd Hok. unfold convertCurrentRowStructured.
  set (q := Build_querier _ _ _ _ _).
  destruct (convertCells_fill q (qy_Metrics query) eq_refl eq_refl 0 row (λ _, None) (λ _, ∅) (map (map cloneDimension) (qr_dimensions q)) Hnd Hok) as [dims' Hd].
  exists dims'. unfold startRow. change (qy_Metrics (qr_query q)) with (qy_Metrics query).
  replace (map (λ _, {| pt_Value := None; pt_Dimensions := ∅ |}) (qy_Metrics query)) with (map (fill (λ _, None) (λ _, ∅)) (qy_Metrics query)) by done.
  rewrite Hd. f_equal. f_equal. apply finishRow_map.
Qed.

(** A row whose value columns are not null gives exactly one data point for every metric
    whose value column it has: that value, the metric's name and type, and as dimensions
    the row's columns that the metric lists, provided no two metrics share a value
    column. *)
Theorem structured_row_correct `{MapRange} (compiles : string → bool) (query : Query) (q : querier) (row : list (string * cell)) :
  newQuerier compiles query = Ok q → NoDup (map (λ m, ToLower (sm_ValueColumn m)) (qy_Metrics query)) → row_ok (qy_Metrics query) row →
  ∃ dims, convertCurrentRowStructured row q = Done (omap (expectedPoint row) (qy_Metrics query), dims).
Proof. apply structured_row_points. Qed.

(** ** Panics *)

(** The cells before a numeric column that no metric takes its value from. *)
Lemma convertCells_app q i row1 row2 s : convertCells q i (row1 ++ row2) s =
  match convertCells q i row1 s with Done s' => convertCells q (i + length row1) row2 s' | o => o end.
Proof.
  revert i s. induction row1 as [|[col c] row1 IH]; intros i s; cbn [app convertCells length]; [by rewrite Nat.add_0_r|].
  destruct (convertCell q i col c s); [|done..]. by rewrite IH, Nat.add_succ_r.
Qed.

(** With expressions in the query the columns are scanned by their database types, so a
    numeric column need not be a metric's value column: a query that has both metrics
    and expressions panics on the first row with such a number. *)
Theorem unmapped_number_panics `{MapRange} (compiles : string → bool) (run : string → gmap string any → exprResult) (query : Query) (q : querier)
    (row1 row2 : list (string * cell)) (col : string) (v : float64) :
  newQuerier compiles query = Ok q → qy_Metrics query ≠ [] → NoDup (map (λ m, ToLower (sm_ValueColumn m)) (qy_Metrics query)) →
  row_ok (qy_Metrics query) row1 → ¬ isValueColumn (qy_Metrics query) col →
  convertCurrentRow run (row1 ++ (col, CFloat (Some v)) :: row2) q = Panics.
Proof.
  unfold newQuerier. destruct (forallb compiles (qy_Expressions query)); [|done]. intros [= <-] Hne Hnd Hok Hcol. unfold convertCurrentRow. cbn [qr_query].
  destruct (qy_Metrics query) as [|m0 ms0] eqn:Hms; [done|]. rewrite <-Hms in *. unfold convertCurrentRowStructured.
  set (q := Build_querier _ _ _ _ _). rewrite convertCells_app.
  destruct (convertCells_fill q (qy_Metrics query) eq_refl eq_refl 0 row1 (λ _, None) (λ _, ∅) (map (map cloneDimension) (qr_dimensions q)) Hnd Hok) as [dims' Hd].
  unfold startRow. change (map (λ _, {| pt_Value := None; pt_Dimensions := ∅ |}) (qy_Metrics (qr_query q))) with (map (fill (λ _, None) (λ _, ∅)) (qy_Metrics query)).
  rewrite Hd. cbn [convertCells convertCell]. destruct (valueColumnNamesToMetrics q !! ToLower col) as [j|] eqn:Hj; [|done].
  exfalso. apply Hcol. destruct (valueColumns_lookup _ _ j Hj) as ((m & Hm & Hc) & _). exists m. split; [by apply list_elem_of_lookup_2 in Hm|]. by apply EqualFold_true.
Qed.

(** What a destination can hold. *)
Definition conforms (d : destination) (c : cell) : bool :=
  match d, c with
  | NullFloat64, CFloat _ | NullString, CString _ | NullTime, CTime _ | NullBool, CBool _ | Anything, CAny _ => true
  | _, _ => false
  end.

Section structured.
Context `{MapRange}.

Lemma columnLoop_value ct ms dims props : (columnLoop ct ms dims props).1.1 = NullFloat64 → isValueColumn ms ct.
Proof.
  revert dims props. induction ms as [|m ms IH]; intros dims props; [done|]. cbn [columnLoop]. destruct (EqualFold ct (sm_ValueColumn m)) eqn:He.
  - intros _. exists m. split; [by left | done].
  - destruct (find (EqualFold ct) (sm_DimensionColumns m)); [done|]. intros (m' & Hm' & He')%IH. exists m'. split; [by right | done].
Qed.
Lemma columnsLoop_value cts ms dims props i : (columnsLoop cts ms dims props).1.1 !! i = Some NullFloat64 →
  ∃ ct, cts !! i = Some ct ∧ isValueColumn ms ct.
Proof.
  revert dims props i. induction cts as [|ct cts IH]; intros dims props i; [done|]. cbn [columnsLoop].
  destruct (columnLoop ct ms dims props) as [[k d1] p1] eqn:E1. destruct (columnsLoop cts ms d1 p1) as [[ks d2] p2] eqn:E2. cbn [fst].
  destruct i as [|i]; cbn.
  - intros [= ->]. exists ct. split; [done|]. apply (columnLoop_value ct ms dims props). by rewrite E1.
  - intros Hi. apply (IH d1 p1). by rewrite E2.
Qed.

Lemma convertCells_no_panic q ms row i s : valueColumnNamesToMetrics q = valueColumns ms →
  (∀ col v, (col, CFloat (Some v)) ∈ row → isValueColumn ms col) → convertCells q i row s ≠ Panics.
Proof.
  intros Hv. revert i s. induction row as [|[col c] row IH]; intros i s Hz; [done|]. cbn [convertCells].
  assert (Hz' : ∀ col' v', (col', CFloat (Some v')) ∈ row → isValueColumn ms col') by (intros col' v' Hin; apply (Hz col' v'); by right).
  destruct c as [[v|]|v|v|v|v]; cbn [convertCell]; try done; try by apply IH.
  rewrite Hv. destruct (Hz col v) as (m & Hm & He%EqualFold_true); [by left|]. destruct (valueColumns_is_Some _ m Hm) as [j Hj]. rewrite He, Hj. by apply IH.
Qed.

(** A querier of the query with the destinations the columns ask for, if any. *)
Definition serves (query : Query) (kinds : list destination) (q : querier) : Prop :=
  qr_query q = query ∧ valueColumnNamesToMetrics q = valueColumns (qy_Metrics query) ∧ (rowSliceCached q = None ∨ rowSliceCached q = Some kinds).

Lemma getRowSlice_serves query q cts l q' : qy_Expressions query = [] → serves query (columnsLoop cts.*1 (qy_Metrics query) ∅ ∅).1.1 q →
  getRowSlice cts q = Ok (l, q') → serves query (columnsLoop cts.*1 (qy_Metrics query) ∅ ∅).1.1 q'.
Proof.
  intros Hex (Hq & Hv & Hc) Hg. unfold getRowSlice in Hg. rewrite Hq, Hex in Hg. unfold getRowSliceForStructured in Hg. rewrite Hq in Hg.
  destruct Hc as [Hc|Hc]; rewrite Hc in Hg; [|injection Hg as <- <-; split_and!; [done..|by right]].
  destruct (columnsLoop cts.*1 (qy_Metrics query) ∅ ∅) as [[ks d] p]. destruct (checkSeen (qy_Metrics query) d p); [|done].
  cbn in Hg. injection Hg as <- <-. split_and!; [done..|by right].
Qed.

Lemma convertCurrentRow_no_panic run query q cts cells : serves query (columnsLoop cts (qy_Metrics query) ∅ ∅).1.1 q →
  Forall2 (λ d c, conforms d c = true) (columnsLoop cts (qy_Metrics query) ∅ ∅).1.1 cells → convertCurrentRow run (zip cts cells) q ≠ Panics.
Proof.
  intros (_ & Hv & _) Hconf. unfold convertCurrentRow, convertCurrentRowStructured. destruct (qy_Metrics (qr_query q)); [done|].
  assert (Hz : ∀ col v, (col, CFloat (Some v)) ∈ zip cts cells → isValueColumn (qy_Metrics query) col).
  { intros col v Hin. apply list_elem_of_lookup in Hin as [i Hi]. apply lookup_zip_with_Some in Hi as (x & y & [= <- <-] & Hx & Hy).
    destruct (Forall2_lookup_r _ _ _ i _ Hconf Hy) as (d & Hd & Hdc). destruct d; try done. apply columnsLoop_value in Hd as (ct & Hct & Hval). by simplify_eq. }
  pose proof (convertCells_no_panic q _ (zip cts cells) 0 (startRow q) Hv Hz) as Hn. by destruct (convertCells q 0 (zip cts cells) (startRow q)).
Qed.

Lemma structured_doQuery_no_panic (compiles : string → bool) (run : string → gmap string any → exprResult) (query : Query) (q : querier)
    (cts : list (string * destination)) (rows : list (option (list cell))) :
  newQuerier compiles query = Ok q → qy_Expressions query = [] →
  (∀ cells, Some cells ∈ rows → Forall2 (λ d c, conforms d c = true) (columnsLoop cts.*1 (qy_Metrics query) ∅ ∅).1.1 cells) →
  (doQuery run (Ok (cts, rows)) q).2 ≠ Panics.
Proof.
  unfold newQuerier. destruct (forallb compiles (qy_Expressions query)); [|done]. intros [= <-] Hex. unfold doQuery. set (q0 := Build_querier _ _ _ _ _).
  assert (Hq : serves query (columnsLoop cts.*1 (qy_Metrics query) ∅ ∅).1.1 q0) by (split_and!; [done..|by left]).
  clearbody q0. revert q0 Hq. induction rows as [|row rows IH]; intros q0 Hq Hrows; [done|]. cbn [queryRows].
  destruct (getRowSlice cts q0) as [[l q1]|] eqn:Hg; [|done]. pose proof (getRowSlice_serves query q0 cts l q1 Hex Hq Hg) as Hq1.
  destruct row as [cells|]; [|done]. pose proof (convertCurrentRow_no_panic run query q1 _ cells Hq1 (Hrows cells ltac:(left))) as Hnp.
  destruct (convertCurrentRow run (zip cts.*1 cells) q1) as [[dps dims]|e|]; [|done|done].
  specialize (IH q1 Hq1). destruct (queryRows run cts rows q1) as [out r]. apply IH. intros cells' Hin. apply Hrows. by right.
Qed.

(** Without expressions a fresh querier never panics, whatever the columns and rows of
    the results are, as long as every row holds what it was scanned into. *)
Theorem structured_query_never_panics (compiles : string → bool) (run : string → gmap string any → exprResult) (query : Query) (q : querier)
    (cts : list (string * destination)) (rows : list (option (list cell))) :
  newQuerier compiles query = Ok q → qy_Expressions query = [] →
  (∀ cells, Some cells ∈ rows → Forall2 (λ d c, conforms d c = true) (columnsLoop cts.*1 (qy_Metrics query) ∅ ∅).1.1 cells) →
  (doQuery run (Ok (cts, rows)) q).2 ≠ Panics.
Proof. apply structured_doQuery_no_panic. Qed.
End structured.

(** ** Repeated columns *)

Lemma repeatedColumn_never ms : repeatedColumn ∅ ms = None.
Proof. induction ms as [|m ms IH]; [done|]. unfold repeatedColumn in *. cbn [foldr]. rewrite lookup_empty. exact IH. Qed.

(** Validation accepts a query in which two metrics share a value column, although it
    means to refuse it; of the two the earlier one then never gets a value, in any row. *)
Theorem repeated_value_column_loses_metric `{MapRange} (compiles : string → bool) (query : Query) (q : querier) (row : list (string * cell)) (s : rowState)
    (i j : nat) (mi mj : sqlMetric) :
  newQuerier compiles query = Ok q → qy_Metrics query !! i = Some mi → qy_Metrics query !! j = Some mj → (i < j)%nat →
  EqualFold (sm_ValueColumn mi) (sm_ValueColumn mj) = true → convertCells q 0 row (startRow q) = Done s →
  validateQuery query = Ok tt ∧ pt_Value <$> rs_dps s !! i = Some None.
Proof.
  intros Hq Hi Hj Hij He Hs. split.
  { unfold validateQuery. destruct (qy_Metrics query); [done|]. by rewrite repeatedColumn_never. }
  unfold newQuerier in Hq. destruct (forallb compiles (qy_Expressions query)); [|done]. injection Hq as <-.
  set (q := Build_querier _ _ _ _ _) in *. assert (H0 : pt_Value <$> rs_dps (startRow q) !! i = Some None) by (cbn; by rewrite list_lookup_fmap, Hi).
  revert Hs H0. generalize 0%nat (startRow q). induction row as [|[col c] row IH]; intros n t; cbn [convertCells]; [by intros [= ->]|].
  destruct (convertCell q n col c t) as [t'| |] eqn:Ec; [|done..]. intros Hs H0. apply (IH (S n) t' Hs). clear IH Hs.
  destruct c as [[v|]|v|v|v|v]; cbn [convertCell] in Ec; try (injection Ec as <-; done); try done.
  - destruct (valueColumnNamesToMetrics q !! ToLower col) as [k|] eqn:Hk; [|done]. injection Ec as <-. cbn [rs_dps].
    destruct (valueColumns_lookup _ _ k Hk) as (_ & Hmax). rewrite list_lookup_alter_ne; [done|]. intros ->.
    destruct (valueColumns_lookup _ _ i Hk) as ((m & Hm & Hc) & _). rewrite Hi in Hm. injection Hm as <-. apply EqualFold_true in He.
    specialize (Hmax j mj Hj). rewrite <-He in Hmax. specialize (Hmax Hc). lia.
  - injection Ec as <-. cbn [rs_dps]. rewrite list_lookup_imap. destruct (rs_dps t !! i) as [p|]; [|done]. cbn in H0 |- *. unfold setDim. by case_bool_decide.
Qed.

Section spelling.
Context `{MapRange}.

Lemma columnLoop_dims ct ms dims props c : c ∈ (columnLoop ct ms dims props).1.2 →
  c ∈ dims ∨ EqualFold ct c = true ∧ ∃ m, m ∈ ms ∧ c ∈ sm_DimensionColumns m.
Proof.
  revert dims props. induction ms as [|m ms IH]; intros dims props; [by left|]. cbn [columnLoop]. destruct (EqualFold ct (sm_ValueColumn m)); [by left|].
  destruct (find (EqualFold ct) (sm_DimensionColumns m)) as [x|] eqn:Hf.
  - cbn [fst snd]. intros [Hx|?]%elem_of_union; [|by left]. apply elem_of_singleton in Hx as ->. apply find_some in Hf as [Hin He].
    right. split; [done|]. exists m. split; [by left|]. by apply list_elem_of_In.
  - intros [?|(He & m' & Hm' & Hc)]%IH; [by left|]. right. split; [done|]. exists m'. split; [by right|done].
Qed.

Lemma columnsLoop_unseen cts m1 ms dims props c1 c2 : c1 ∈ sm_DimensionColumns m1 → c2 ∉ sm_DimensionColumns m1 → EqualFold c1 c2 = true → c2 ∉ dims →
  c2 ∉ (columnsLoop cts (m1 :: ms) dims props).1.2.
Proof.
  intros H1 H2 He. revert dims props. induction cts as [|ct cts IH]; intros dims props Hd; [done|]. cbn [columnsLoop].
  destruct (columnLoop ct (m1 :: ms) dims props) as [[k d1] p1] eqn:E1. destruct (columnsLoop cts (m1 :: ms) d1 p1) as [[ks d2] p2] eqn:E2. cbn [fst snd].
  specialize (IH d1 p1). rewrite E2 in IH. apply IH. clear IH E2. cbn [columnLoop] in E1. destruct (EqualFold ct (sm_ValueColumn m1)); [by injection E1 as _ <- _|].
  destruct (find (EqualFold ct) (sm_DimensionColumns m1)) as [x|] eqn:Hf.
  - injection E1 as _ <- _. intros [Hx|?]%elem_of_union; [|done]. apply elem_of_singleton in Hx as ->. apply find_some in Hf as [Hin _]. apply H2. by apply list_elem_of_In.
  - intros Hin. assert (Hin' : c2 ∈ (columnLoop ct ms dims
      (list_to_set (List.filter (EqualFold ct) (flat_map snd (range (sm_DimensionPropertyColumns m1)))) ∪ props)).1.2) by (by rewrite E1).
    apply columnLoop_dims in Hin' as [?|[Hct _]]; [done|]. apply list_elem_of_In in H1. pose proof (find_none _ _ Hf c1 H1) as Hn.
    apply EqualFold_true in Hct, He. assert (EqualFold ct c1 = true) by (apply EqualFold_true; congruence). congruence.
Qed.

Lemma checkSeen_missing ms dims props m c : m ∈ ms → c ∈ sm_DimensionColumns m → c ∉ dims → is_ok (checkSeen ms dims props) = false.
Proof.
  intros Hm Hc Hd. induction ms as [|m' ms IH]; [by apply not_elem_of_nil in Hm|]. cbn [checkSeen].
  destruct (missing dims (sm_DimensionColumns m')) as [x|] eqn:Hmiss; [done|].
  destruct (missing props (flat_map snd (range (sm_DimensionPropertyColumns m')))); [done|]. apply elem_of_cons in Hm as [->|Hm]; [|by apply IH].
  apply list_elem_of_In in Hc. pose proof (find_none _ _ Hmiss c Hc) as Hn. cbn in Hn. by apply bool_decide_eq_false, dec_stable in Hn.
Qed.

(** When a later metric spells a dimension column of the first one in another case, no
    result ever has it: every row of the query fails with the column reported
    missing. *)
Theorem respelled_dimension_fails (compiles : string → bool) (query : Query) (q : querier) (m1 m2 : sqlMetric) (ms : list sqlMetric) (c1 c2 : string)
    (cts : list (string * destination)) :
  newQuerier compiles query = Ok q → qy_Metrics query = m1 :: ms → m2 ∈ ms →
  c1 ∈ sm_DimensionColumns m1 → c2 ∉ sm_DimensionColumns m1 → c2 ∈ sm_DimensionColumns m2 → EqualFold c1 c2 = true →
  is_ok (getRowSlice cts q) = false.
Proof.
  unfold newQuerier. destruct (forallb compiles (qy_Expressions query)); [|done]. intros [= <-] Hms Hm2 H1 H2 H3 He.
  assert (Hseen : c2 ∉ (columnsLoop cts.*1 (qy_Metrics query) ∅ ∅).1.2) by (rewrite Hms; apply (columnsLoop_unseen _ _ _ _ _ c1); [done..|apply not_elem_of_empty]).
  assert (Hm : m2 ∈ qy_Metrics query) by (rewrite Hms; by right).
  unfold getRowSlice, getRowSliceForStructured, getRowSliceForExpression, validateStructuredMetrics. cbn [qr_query rowSliceCached].
  destruct (columnsLoop cts.*1 (qy_Metrics query) ∅ ∅) as [[l d] p]. cbn [fst snd] in Hseen. pose proof (checkSeen_missing _ d p m2 c2 Hm H3 Hseen) as Hf.
  destruct (checkSeen (qy_Metrics query) d p); [done|]. by destruct (qy_Expressions query).
Qed.
End spelling.

(** ** Examples *)

Definition demo_metric (name col : string) (dims : list string) : sqlMetric :=
  {| sm_MetricName := name; sm_ValueColumn := col; sm_DimensionColumns := dims; sm_IsCumulative := false; sm_DimensionPropertyColumns := ∅ |}.
Definition demo_query (ms : list sqlMetric) (exprs : list string) : Query := {| qy_Query := "select"; qy_Params := []; qy_Metrics := ms; qy_Expressions := exprs |}.
Definition demo_querier (ms : list sqlMetric) (exprs : list string) : querier :=
  {| qr_query := demo_query ms exprs; valueColumnNamesToMetrics := valueColumns ms; dimensionColumnSets := map columnSet ms;
     qr_dimensions := map (@propertyDimensions forward_range) ms; rowSliceCached := None |}.
Definition demo_size : sqlMetric := demo_metric "db.size" "size" ["Name"].
Definition demo_row : list (string * cell) := [("NAME", CString (Some "orders")); ("size", CFloat (Some (S754_zero false)))].
Definition no_expr (e : string) (env : gmap string any) : exprResult := ExprNil.

Lemma demo_row_ok : row_ok [demo_size] demo_row.
Proof.
  intros col v Hin. apply elem_of_cons in Hin as [Hin|Hin]; [discriminate Hin|]. apply list_elem_of_singleton in Hin. injection Hin as -> ->.
  split; [eauto|]. exists demo_size. split; [left | reflexivity].
Qed.

Lemma structured_row_correct_witness :
  ∃ dims, convertCurrentRowStructured demo_row (demo_querier [demo_size] []) = Done (omap (expectedPoint demo_row) [demo_size], dims).
Proof.
  apply (@structured_row_correct forward_range (λ _, true) (demo_query [demo_size] []) (demo_querier [demo_size] []) demo_row);
    [reflexivity | apply NoDup_singleton | exact demo_row_ok].
Defined.

Lemma unmapped_number_panics_witness :
  convertCurrentRow no_expr (demo_row ++ [("connections", CFloat (Some (S754_zero false)))]) (demo_querier [demo_size] ["GAUGE(connections)"]) = Panics.
Proof.
  apply (@unmapped_number_panics forward_range (λ _, true) no_expr (demo_query [demo_size] ["GAUGE(connections)"]) (demo_querier [demo_size] ["GAUGE(connections)"]) demo_row [] "connections");
    [reflexivity | discriminate | apply NoDup_singleton | exact demo_row_ok |].
  intros (m & Hm & He). apply list_elem_of_singleton in Hm as ->. discriminate He.
Defined.

Lemma structured_query_never_panics_witness :
  (@doQuery forward_range no_expr (Ok ([("NAME", NullString); ("size", NullFloat64)], [Some [CString (Some "orders"); CFloat (Some (S754_zero false))]]))
    (demo_querier [demo_size] [])).2 ≠ Panics.
Proof.
  apply (@structured_query_never_panics forward_range (λ _, true) no_expr (demo_query [demo_size] []) (demo_querier [demo_size] [])); [reflexivity | reflexivity |].
  intros cells Hin. apply list_elem_of_singleton in Hin. injection Hin as ->. vm_compute. repeat constructor.
Defined.

Lemma repeated_value_column_loses_metric_witness :
  let ms := [demo_size; demo_metric "db.bytes" "SIZE" []] in
  match convertCells (demo_querier ms []) 0 demo_row (startRow (demo_querier ms [])) with
  | Done s => validateQuery (demo_query ms []) = Ok tt ∧ pt_Value <$> rs_dps s !! 0%nat = Some None
  | _ => False
  end.
Proof.
  intros ms. destruct (convertCells (demo_querier ms []) 0 demo_row (startRow (demo_querier ms []))) as [s| |] eqn:E; [|vm_compute in E; discriminate E..].
  apply (@repeated_value_column_loses_metric forward_range (λ _, true) (demo_query ms []) (demo_querier ms []) demo_row s 0 1 demo_size (demo_metric "db.bytes" "SIZE" []));
    [reflexivity | reflexivity | reflexivity | lia | reflexivity | exact E].
Defined.

Lemma respelled_dimension_fails_witness :
  is_ok (@getRowSlice forward_range [("name", NullString); ("size", NullFloat64)] (demo_querier [demo_size; demo_metric "db.rows" "rows" ["name"]] [])) = false.
Proof.
  apply (@respelled_dimension_fails forward_range (λ _, true) (demo_query [demo_size; demo_metric "db.rows" "rows" ["name"]] []) _ demo_size (demo_metric "db.rows" "rows" ["name"])
    [demo_metric "db.rows" "rows" ["name"]] "Name" "name"); try reflexivity; try left.
  intros Hin. apply list_elem_of_singleton in Hin. discriminate Hin.
Defined.
