(* ===== verification/ESQuery.v ===== *)
(** * The elasticsearch query monitor

    [src/internal/signalfx-agent/pkg/monitors/elasticsearch/query]: the aggregations of a
    request and their types ([request.go]), the decoding of a response
    ([response.go]) and the walk over it that collects data points
    ([datapoints.go]).  A decoded JSON document is an [any] made of nil, booleans,
    floats, strings, slices and maps; marshalling such a value and unmarshalling it
    again gives it back, field names are matched exactly, and no aggregation is
    null.  A Go map that was decoded is the list of its entries in the order in
    which [range] visits them. *)

From S2P Require Import Prelude GoStrings GoNumbers GoValue Outcome Settings Telemetry SmartAgent HostMonitors.

Definition isMap (v : any) : bool := match v with AMap _ => true | _ => false end.
Definition fieldOf (m : gmap string any) (k : string) : any := default ANil (m !! k).
Definition jsonError {A} : outcome A := Failed (Errorf "json: cannot unmarshal" []).

(** ** request.go *)

(** The type and properties of an aggregation and its sub aggregations. *)
Inductive aggregationInfo := AggregationInfo (props : list (string * any)) (subs : list (string * aggregationInfo)).

Section request.
Context `{MapRange}.

(** A value as an aggregation and as a map of aggregations. *)
Record infoParse := { ip_info : outcome aggregationInfo; ip_map : outcome (list (string * aggregationInfo)) }.

Definition entryOutcome {A B} (f : A → outcome B) (kv : string * A) : outcome (string * B) := b ← f kv.2; Done (kv.1, b).
Definition specialField (k : string) : bool := String.eqb k "aggs" || String.eqb k "meta" || String.eqb k "aggregations".
Definition bodyOk (kv : string * any) : bool := isMap kv.2 || is_nil kv.2.

Fixpoint parseInfo (v : any) : infoParse :=
  match v with
  | AMap m =>
      let parsed := parseInfo <$> m in
      {| ip_info :=
           subs ← match parsed !! "aggs" with Some p => ip_map p | None => Done [] end;
           if forallb bodyOk (range m) then Done (AggregationInfo (List.filter (λ kv, negb (specialField kv.1)) (range m)) subs) else jsonError;
         ip_map := mapM_outcome (entryOutcome ip_info) (range parsed) |}
  | ANil => {| ip_info := Done (AggregationInfo [] []); ip_map := Done [] |}
  | _ => {| ip_info := jsonError; ip_map := jsonError |}
  end.

Definition getAggregationType (agg : aggregationInfo) : outcome string :=
  match agg with
  | AggregationInfo ((k, _) :: _) _ => Done k
  | AggregationInfo [] _ => Failed (Errorf "unable to determine type for %v" [])
  end.
Fixpoint getAggregationsWithType (aggName : string) (agg : aggregationInfo) (out : gmap string string) {struct agg} : outcome (gmap string string) :=
  a ← getAggregationType agg;
  match agg with
  | AggregationInfo _ subs =>
      (fix loop (l : list (string * aggregationInfo)) (out : gmap string string) : outcome (gmap string string) :=
         match l with
         | [] => Done out
         | (k, sub) :: l => out ← getAggregationsWithType k sub out; loop l out
         end) subs (<[aggName := a]> out)
  end.
Fixpoint withTypes (l : list (string * aggregationInfo)) (out : gmap string string) : outcome (gmap string string) :=
  match l with
  | [] => Done out
  | (k, sub) :: l => out ← getAggregationsWithType k sub out; withTypes l out
  end.
(** The request's body: its aggregations are under [aggs]. *)
Definition getAggregationsMeta (body : any) : outcome (gmap string string) :=
  match body with
  | AMap m => aggs ← match m !! "aggs" with Some v => ip_map (parseInfo v) | None => Done [] end; withTypes aggs ∅
  | ANil => Done ∅
  | _ => jsonError
  end.
End request.

(** ** response.go *)

(** An aggregation: its document count, [value], [values], sub aggregations, buckets by
    key (each a document count and sub aggregations) and other values. *)
Inductive aggregationResponse :=
  Aggregation (docCount : option Z) (value values : any) (subs : list (string * aggregationResponse))
    (buckets : list (any * (option Z * list (string * aggregationResponse)))) (others : list (string * any)).
Notation bucketResponse := (option Z * list (string * aggregationResponse))%type.

Section response.
Context `{MapRange}.
(** [int64] of a JSON number, [None] when it is not one. *)
Context (toInt64 : float64 → option Z).

Definition decodeCount (v : any) : outcome (option Z) :=
  match v with
  | ANil => Done None
  | AFloat f => match toInt64 f with Some z => Done (Some z) | None => jsonError end
  | _ => jsonError
  end.

(** A value as an aggregation, as a bucket with its key, and as the buckets of an
    aggregation. *)
Record responseParse := {
  rp_raw : any; rp_agg : outcome aggregationResponse; rp_bucket : outcome (any * bucketResponse); rp_buckets : outcome (list (any * bucketResponse));
}.

(** Maps and slices cannot be keys of a map. *)
Definition hashable (v : any) : bool := match v with AMap _ | ASlice _ => false | _ => true end.
Definition sameKey (a b : any) : bool :=
  match a, b with
  | AString s, AString t => String.eqb s t
  | AFloat f, AFloat g => SFeqb f g
  | ABool b, ABool c => Bool.eqb b c
  | ANil, ANil => true
  | _, _ => false
  end.
(** [buckets[key] = b]. *)
Fixpoint putBucket (l : list (any * bucketResponse)) (kb : any * bucketResponse) : list (any * bucketResponse) :=
  match l with
  | [] => [kb]
  | x :: l => if sameKey x.1 kb.1 then kb :: l else x :: putBucket l kb
  end.
Fixpoint putBuckets (l : list (any * bucketResponse)) (acc : list (any * bucketResponse)) : outcome (list (any * bucketResponse)) :=
  match l with
  | [] => Done acc
  | kb :: l => if hashable kb.1 then putBuckets l (putBucket acc kb) else Panics
  end.

(** The sub aggregations among the fields: those that are objects. *)
Definition subAggregations (l : list (string * responseParse)) : outcome (list (string * aggregationResponse)) :=
  mapM_outcome (entryOutcome rp_agg) (List.filter (λ kv, isMap (rp_raw kv.2)) l).

Definition valueFields : list string := ["value"; "values"; "buckets"].
Definition isBucketKind (m : gmap string any) : bool :=
  negb (is_nil (fieldOf m "doc_count") && is_nil (fieldOf m "buckets") && is_nil (fieldOf m "value") && is_nil (fieldOf m "values")).

Fixpoint parseResponse (v : any) : responseParse :=
  match v with
  | AMap m =>
      let parsed := parseResponse <$> m in
      {| rp_raw := v;
         rp_agg :=
           count ← decodeCount (fieldOf m "doc_count");
           let fields := List.filter (λ kv, negb (bool_decide (kv.1 ∈ valueFields))) (range parsed) in
           buckets ← match parsed !! "buckets" with Some p => rp_buckets p | None => Done [] end;
           subs ← (if isBucketKind m then subAggregations fields else Done []);
           Done (Aggregation count (fieldOf m "value") (fieldOf m "values") subs buckets
                   (if isBucketKind m then [] else map (λ kv, (kv.1, rp_raw kv.2)) fields));
         rp_bucket :=
           count ← decodeCount (fieldOf m "doc_count");
           subs ← subAggregations (range parsed);
           Done (fieldOf m "key", (count, subs));
         rp_buckets :=
           l ← mapM_outcome (entryOutcome rp_bucket) (range parsed);
           putBuckets (map (λ kb, (AString kb.1, kb.2.2)) l) [] |}
  | ASlice l =>
      {| rp_raw := v; rp_agg := jsonError; rp_bucket := jsonError;
         rp_buckets := bs ← mapM_outcome rp_bucket (map parseResponse l); putBuckets bs [] |}
  | ANil => {| rp_raw := v; rp_agg := Done (Aggregation None ANil ANil [] [] []); rp_bucket := Done (ANil, (None, [])); rp_buckets := Done [] |}
  | _ => {| rp_raw := v; rp_agg := jsonError; rp_bucket := jsonError; rp_buckets := Done [] |}
  end.

(** The aggregations of the response's body. *)
Definition parseBody (body : any) : outcome (list (string * aggregationResponse)) :=
  match body with
  | AMap m => match fieldOf m "aggregations" with
              | AMap aggs => mapM_outcome (entryOutcome rp_agg) (range (parseResponse <$> aggs))
              | ANil => Done []
              | _ => jsonError
              end
  | ANil => Done []
  | _ => jsonError
  end.
End response.

(** ** datapoints.go *)

Section collection.
Context `{MapRange}.
(** [strconv.FormatFloat(p, 'f', -1, 64)]. *)
Context (formatFloat : float64 → string).
(** The types of the request's aggregations. *)
Context (aggsMeta : gmap string string).

Definition collectDatapoint (metric : string) (v : any) (dims : gmap string string) : list sfxDatapoint :=
  match v with
  | AFloat f => [mkDatapoint metric Gauge (FloatValue f) dims]
  | AInt z => [mkDatapoint metric Gauge (IntValue z) dims]
  | _ => []
  end.

Definition isMetricAggregation (a : aggregationResponse) : bool :=
  match a with Aggregation None _ _ _ [] _ => true | _ => false end.
Definition isTerminalBucket (b : bucketResponse) : bool := match b with (Some _, []) => true | _ => false end.

Definition collectDocCountFromTerminalBucket (b : bucketResponse) (aggName aggType : string) (dims : gmap string string) : list sfxDatapoint :=
  collectDatapoint (aggName +:+ ".doc_count") (match b.1 with Some n => AInt n | None => ANil end) (<["bucket_aggregation_type" := aggType]> dims).

Definition statPoints (aggName : string) (dims : gmap string string) (kv : string * any) : list sfxDatapoint :=
  if String.eqb kv.1 "std_deviation_bounds" then
    match kv.2 with
    | AMap m => flat_map (λ b, collectDatapoint (aggName +:+ "." +:+ kv.1 +:+ "." +:+ b.1) b.2 dims) (range m)
    | _ => []
    end
  else collectDatapoint (aggName +:+ "." +:+ kv.1) kv.2 dims.
Definition getDatapointsFromStats (aggName : string) (others : list (string * any)) (dims : gmap string string) : list sfxDatapoint :=
  flat_map (statPoints aggName dims) others.
Definition percentilePoint (aggName : string) (dims : gmap string string) (kv : string * any) : list sfxDatapoint :=
  match ParseFloat kv.1 with
  | Ok p => collectDatapoint (aggName +:+ ".p" +:+ formatFloat p) kv.2 dims
  | Err _ => []
  end.
Definition getDatapointsFromPercentiles (aggName : string) (values : any) (dims : gmap string string) : list sfxDatapoint :=
  match values with AMap m => flat_map (percentilePoint aggName dims) (range m) | _ => [] end.

(** The type is that of the request; an unknown aggregation's is read through a nil
    pointer. *)
Definition typeOf (aggName : string) : outcome string := match aggsMeta !! aggName with Some t => Done t | None => Panics end.

Definition metricPoints (aggName aggType : string) (dims : gmap string string) (a : aggregationResponse) : list sfxDatapoint :=
  let '(Aggregation _ value values _ _ others) := a in
  let dims := <["metric_aggregation_type" := aggType]> dims in
  if String.eqb aggType "stats" || String.eqb aggType "extended_stats" then getDatapointsFromStats aggName others dims
  else if String.eqb aggType "percentiles" then getDatapointsFromPercentiles aggName values dims
  else collectDatapoint aggName value dims.

(** The buckets before the first key that is not a string, where the loop breaks. *)
Fixpoint stringBuckets {B} (l : list (any * B)) : list (string * B) :=
  match l with (AString k, b) :: l => (k, b) :: stringBuckets l | _ => [] end.

Fixpoint recursivelyCollectDatapoints (a : aggregationResponse) (aggName : string) (dims : gmap string string) {struct a} : outcome (list sfxDatapoint) :=
  if isMetricAggregation a then t ← typeOf aggName; Done (metricPoints aggName t dims a)
  else
    match a with
    | Aggregation _ _ _ subs buckets _ =>
        let collectSubs (l : list (string * (string → gmap string string → outcome (list sfxDatapoint)))) (dims : gmap string string) :=
          dps ← mapM_outcome (λ kf, _ ← typeOf kf.1; kf.2 kf.1 dims) l; Done (concat dps) in
        let prepare := map (λ kv : string * aggregationResponse, (kv.1, recursivelyCollectDatapoints kv.2)) in
        inBuckets ← mapM_outcome
          (λ kb, let dims := <[aggName := kb.1]> dims in
                 let '(b, l) := kb.2 in
                 if isTerminalBucket b then t ← typeOf aggName; Done (collectDocCountFromTerminalBucket b aggName t dims)
                 else collectSubs l dims)
          (stringBuckets (map (λ kb, (kb.1, (kb.2, prepare kb.2.2))) buckets));
        inSubs ← collectSubs (prepare subs) dims;
        Done (concat inBuckets ++ inSubs)
    end.

Definition collectDatapoints (aggregations : list (string * aggregationResponse)) (dims : gmap string string) : outcome (list sfxDatapoint) :=
  dps ← mapM_outcome (λ kv, _ ← typeOf kv.1; recursivelyCollectDatapoints kv.2 kv.1 dims) aggregations; Done (concat dps).
End collection.

(** ** The walk *)

(** Induction on the aggregations inside an aggregation. *)
Fixpoint agg_size (a : aggregationResponse) : nat :=
  match a with
  | Aggregation _ _ _ subs buckets _ =>
      S (sum_list_with (λ kv, agg_size kv.2) subs + sum_list_with (λ kb, sum_list_with (λ kv, agg_size kv.2) kb.2.2) buckets)
  end.
Lemma agg_ind' (P : aggregationResponse → Prop) :
  (∀ c v vs subs buckets others, (∀ k a, (k, a) ∈ subs → P a) → (∀ key b k a, (key, b) ∈ buckets → (k, a) ∈ b.2 → P a) → P (Aggregation c v vs subs buckets others)) →
  ∀ a, P a.
Proof.
  intros IH a. remember (agg_size a) as n eqn:Hn. revert a Hn. induction (lt_wf n) as [n _ IHn]. intros a ->.
  destruct a as [c v vs subs buckets others]. apply IH.
  - intros k a Hin. apply (IHn (agg_size a)); [|done]. pose proof (sum_list_with_elem (λ kv : string * aggregationResponse, agg_size kv.2) (k, a) subs Hin) as Hs. cbn in *. lia.
  - intros key b k a Hb Hin. apply (IHn (agg_size a)); [|done].
    pose proof (sum_list_with_elem (λ kv : string * aggregationResponse, agg_size kv.2) (k, a) b.2 Hin) as Hs.
    pose proof (sum_list_with_elem (λ kb : any * bucketResponse, sum_list_with (λ kv, agg_size kv.2) kb.2.2) (key, b) buckets Hb) as Hs'. cbn in *. lia.
Qed.

Lemma stringBuckets_map {A B} (h : A → B) (l : list (any * A)) : stringBuckets (map (λ kb, (kb.1, h kb.2)) l) = map (λ kb, (kb.1, h kb.2)) (stringBuckets l).
Proof. induction l as [|[k b] l IH]; [done|]. destruct k; try done. cbn. by rewrite IH. Qed.
Lemma stringBuckets_elem {A} (l : list (any * A)) k b : (k, b) ∈ stringBuckets l → (AString k, b) ∈ l.
Proof.
  induction l as [|[x b'] l IH]; [by intros ?%not_elem_of_nil|]. destruct x; cbn; try by intros ?%not_elem_of_nil.
  intros [[= -> ->]|Hin]%elem_of_cons; [by left | right; by apply IH].
Qed.

Section walk.
Context `{MapRange} (formatFloat : float64 → string) (aggsMeta : gmap string string).
Notation walk := (recursivelyCollectDatapoints formatFloat aggsMeta).
Notation collectAll := (collectDatapoints formatFloat aggsMeta).

Definition inBucket (aggName : string) (dims : gmap string string) (kb : string * bucketResponse) : outcome (list sfxDatapoint) :=
  let dims := <[aggName := kb.1]> dims in
  if isTerminalBucket kb.2 then t ← typeOf aggsMeta aggName; Done (collectDocCountFromTerminalBucket kb.2 aggName t dims)
  else collectAll kb.2.2 dims.

Lemma collect_eq a aggName dims : walk a aggName dims =
  if isMetricAggregation a then t ← typeOf aggsMeta aggName; Done (metricPoints formatFloat aggName t dims a)
  else let '(Aggregation _ _ _ subs buckets _) := a in
       bs ← mapM_outcome (inBucket aggName dims) (stringBuckets buckets); ss ← collectAll subs dims; Done (concat bs ++ ss).
Proof.
  destruct a as [c v vs subs buckets others]. cbn [recursivelyCollectDatapoints]. destruct (isMetricAggregation (Aggregation c v vs subs buckets others)); [done|].
  rewrite (stringBuckets_map (λ b : bucketResponse, (b, map (λ kv : string * aggregationResponse, (kv.1, walk kv.2)) b.2))), !mapM_outcome_map.
  rewrite (mapM_outcome_ext _ (inBucket aggName dims)); [done|]. intros [k b] _. unfold inBucket. cbn [fst snd].
  destruct (isTerminalBucket b); [done|]. by rewrite mapM_outcome_map.
Qed.

Lemma typeOf_never_fails k : never_fails (typeOf aggsMeta k).
Proof. intros e. unfold typeOf. by destruct (aggsMeta !! k). Qed.

Lemma collectAll_never_fails l dims : (∀ k a, (k, a) ∈ l → ∀ name dims, never_fails (walk a name dims)) → never_fails (collectAll l dims).
Proof.
  intros Hl. apply bind_never_fails; [|done]. apply mapM_outcome_never_fails. intros [k a] Hin. apply bind_never_fails; [apply typeOf_never_fails|].
  intros _ _. by apply (Hl k a Hin).
Qed.
Lemma inBucket_never_fails aggName dims kb : (∀ k a, (k, a) ∈ kb.2.2 → ∀ name dims, never_fails (walk a name dims)) → never_fails (inBucket aggName dims kb).
Proof.
  intros Hb. unfold inBucket. destruct (isTerminalBucket kb.2); [|by apply collectAll_never_fails]. by apply bind_never_fails; [apply typeOf_never_fails|].
Qed.
Lemma collect_never_fails a aggName dims : never_fails (walk a aggName dims).
Proof.
  revert aggName dims. induction a as [c v vs subs buckets others IHs IHb] using agg_ind'. intros aggName dims. rewrite collect_eq.
  destruct (isMetricAggregation _); [by apply bind_never_fails; [apply typeOf_never_fails|]|].
  apply bind_never_fails; [apply mapM_outcome_never_fails; intros [k b] Hin; apply inBucket_never_fails; intros k' a' Ha; by apply (IHb _ _ k' a' (stringBuckets_elem _ _ _ Hin))|].
  intros bs _. apply bind_never_fails; [|done]. by apply collectAll_never_fails.
Qed.

(** *** No panic when the response has the request's aggregations *)

Inductive known : aggregationResponse → Prop :=
| known_aggregation c v vs subs buckets others :
    (∀ k a, (k, a) ∈ subs → is_Some (aggsMeta !! k) ∧ known a) →
    (∀ key b k a, (key, b) ∈ buckets → (k, a) ∈ b.2 → is_Some (aggsMeta !! k) ∧ known a) →
    known (Aggregation c v vs subs buckets others).

Lemma typeOf_done k : is_Some (aggsMeta !! k) → is_done (typeOf aggsMeta k).
Proof. intros [t Ht]. exists t. unfold typeOf. by rewrite Ht. Qed.
Lemma collectAll_done l dims : (∀ k a, (k, a) ∈ l → is_Some (aggsMeta !! k) ∧ ∀ dims, is_done (walk a k dims)) → is_done (collectAll l dims).
Proof.
  intros Hl. unfold collectDatapoints. destruct (proj2 (mapM_outcome_is_done (λ kv, _ ← typeOf aggsMeta kv.1; walk kv.2 kv.1 dims) l)) as [dps ->]; [|by eexists].
  intros [k a] Hin. destruct (Hl k a Hin) as [Hk Ha]. destruct (typeOf_done k Hk) as [t Ht]. cbn [fst snd]. rewrite Ht. apply Ha.
Qed.
Lemma collect_done a aggName dims : is_Some (aggsMeta !! aggName) → known a → is_done (walk a aggName dims).
Proof.
  revert aggName dims. induction a as [c v vs subs buckets others IHs IHb] using agg_ind'. intros aggName dims Hn Hk. inversion_clear Hk as [? ? ? ? ? ? Hs Hb].
  destruct (typeOf_done aggName Hn) as [t Ht]. rewrite collect_eq. destruct (isMetricAggregation _); [rewrite Ht; by eexists|].
  destruct (proj2 (mapM_outcome_is_done (inBucket aggName dims) (stringBuckets buckets))) as [bs ->].
  - intros [k b] Hin%stringBuckets_elem. unfold inBucket. destruct (isTerminalBucket _); [rewrite Ht; by eexists|]. apply collectAll_done. intros k' a' Ha.
    destruct (Hb _ _ k' a' Hin Ha) as [Hk' Hka]. split; [done|]. intros dims'. by apply (IHb _ _ k' a' Hin Ha).
  - destruct (collectAll_done subs dims) as [ss ->]; [|by eexists]. intros k' a' Ha. destruct (Hs k' a' Ha) as [Hk' Hka]. split; [done|].
    intros dims'. by apply (IHs k' a' Ha).
Qed.

(** An object in the response under a name that the request has no aggregation for
    ends the agent: the type of the unknown aggregation is read through a nil pointer,
    whatever the order in which the fields are visited. *)
Theorem unknown_aggregation_panics (c : option Z) (v vs : any) (subs : list (string * aggregationResponse))
    (buckets : list (any * bucketResponse)) (others : list (string * any)) (aggName k : string) (a : aggregationResponse) (dims : gmap string string) :
  is_Some c ∨ buckets ≠ [] → (k, a) ∈ subs → aggsMeta !! k = None →
  walk (Aggregation c v vs subs buckets others) aggName dims = Panics.
Proof.
  intros Hm Hin Hk. rewrite collect_eq. assert (Hmf : isMetricAggregation (Aggregation c v vs subs buckets others) = false).
  { destruct c, buckets; try done. destruct Hm as [[? ?]|]; done. }
  rewrite Hmf. assert (Hs : collectAll subs dims = Panics).
  { unfold collectDatapoints. rewrite (mapM_outcome_some_panics _ subs (k, a)); [done| |done|].
    - intros [k' a'] _. apply bind_never_fails; [apply typeOf_never_fails|]. intros _ _. apply collect_never_fails.
    - cbn [fst]. unfold typeOf. by rewrite Hk. }
  rewrite Hs. pose proof (mapM_outcome_never_fails (inBucket aggName dims) (stringBuckets buckets)) as Hf.
  assert (Hb : never_fails (mapM_outcome (inBucket aggName dims) (stringBuckets buckets))).
  { apply Hf. intros kb _. apply inBucket_never_fails. intros. apply collect_never_fails. }
  destruct (mapM_outcome (inBucket aggName dims) (stringBuckets buckets)) as [bs|e|]; [done|by destruct (Hb e)|done].
Qed.
End walk.

(** ** Which data points a response has *)

Section points.
Context `{MapRange} (formatFloat : float64 → string) (aggsMeta : gmap string string).

(** A data point of an aggregation with its name and the dimensions gathered so far: of
    the aggregation itself when it is a metric, of a bucket without aggregations, or of
    an aggregation below, a bucket's key being the dimension named after the bucket's
    aggregation. *)
Inductive yields : string → gmap string string → aggregationResponse → sfxDatapoint → Prop :=
| yields_metric name dims a t dp :
    isMetricAggregation a = true → aggsMeta !! name = Some t → dp ∈ metricPoints formatFloat name t dims a → yields name dims a dp
| yields_count name dims c v vs subs buckets others t key n :
    aggsMeta !! name = Some t → (AString key, (Some n, [])) ∈ buckets →
    yields name dims (Aggregation c v vs subs buckets others)
      (mkDatapoint (name +:+ ".doc_count") Gauge (IntValue n) (<["bucket_aggregation_type" := t]> (<[name := key]> dims)))
| yields_bucket name dims c v vs subs buckets others key b k a dp :
    (AString key, b) ∈ buckets → (k, a) ∈ b.2 → yields k (<[name := key]> dims) a dp →
    yields name dims (Aggregation c v vs subs buckets others) dp
| yields_sub name dims c v vs subs buckets others k a dp :
    is_Some c ∨ buckets ≠ [] → (k, a) ∈ subs → yields k dims a dp → yields name dims (Aggregation c v vs subs buckets others) dp.

(** All keys of buckets are strings. *)
Inductive string_keys : aggregationResponse → Prop :=
| string_keys_aggregation c v vs subs buckets others :
    (∀ k a, (k, a) ∈ subs → string_keys a) →
    (∀ key b, (key, b) ∈ buckets → (∃ s, key = AString s) ∧ ∀ k a, (k, a) ∈ b.2 → string_keys a) →
    string_keys (Aggregation c v vs subs buckets others).

Lemma stringBuckets_all (l : list (any * bucketResponse)) k b :
  (∀ key b, (key, b) ∈ l → ∃ s, key = AString s) → (AString k, b) ∈ l → (k, b) ∈ stringBuckets l.
Proof.
  intros Hall. induction l as [|[x b'] l IH]; [by intros ?%not_elem_of_nil|]. destruct (Hall x b') as [s ->]; [by left|]. cbn.
  intros [[= -> ->]|Hin]%elem_of_cons; [by left|]. right. apply IH; [|done]. intros key b'' Hin'. apply (Hall key b''). by right.
Qed.

Lemma elem_of_mapM_concat {A} (f : A → outcome (list sfxDatapoint)) l dps dp : mapM_outcome f l = Done dps →
  (dp ∈ concat dps ↔ ∃ x ps, x ∈ l ∧ f x = Done ps ∧ dp ∈ ps).
Proof.
  intros Hm%mapM_outcome_done. induction Hm as [|x ps l dps Hx _ IH]; cbn [concat].
  - split; [by intros ?%not_elem_of_nil | by intros (? & ? & ?%not_elem_of_nil & _)].
  - rewrite elem_of_app, IH. split.
    + intros [Hin|(y & ps' & Hy & Hps & Hin)]; [by exists x, ps; split; [left|] | exists y, ps'; by split; [right|]].
    + intros (y & ps' & [->|Hy]%elem_of_cons & Hps & Hin); [left; congruence | right; eauto].
Qed.

Lemma collectAll_points l dims ss dp : collectDatapoints formatFloat aggsMeta l dims = Done ss →
  (∀ k a ps, (k, a) ∈ l → recursivelyCollectDatapoints formatFloat aggsMeta a k dims = Done ps → (dp ∈ ps ↔ yields k dims a dp)) →
  (dp ∈ ss ↔ ∃ k a, (k, a) ∈ l ∧ yields k dims a dp).
Proof.
  unfold collectDatapoints. intros (dps & Hm & [= <-])%bind_done Hl. rewrite (elem_of_mapM_concat _ l dps dp Hm). split.
  - intros ([k a] & ps & Hin & (t & _ & Hc)%bind_done & Hdp). cbn [fst snd] in Hc. exists k, a. split; [done|]. by apply (Hl k a ps Hin Hc).
  - intros (k & a & Hin & Hy). destruct (proj1 (mapM_outcome_is_done _ l) ltac:(by eexists) (k, a) Hin) as [ps Hps]. exists (k, a), ps. split_and!; [done..|].
    apply bind_done in Hps as (t & _ & Hc). by apply (Hl k a ps Hin Hc).
Qed.

Lemma count_point name b t dims dp : isTerminalBucket b = true →
  (dp ∈ collectDocCountFromTerminalBucket b name t dims ↔
   ∃ n, b = (Some n, []) ∧ dp = mkDatapoint (name +:+ ".doc_count") Gauge (IntValue n) (<["bucket_aggregation_type" := t]> dims)).
Proof.
  destruct b as [[n|] [|? ?]]; try done. intros _. unfold collectDocCountFromTerminalBucket. cbn. rewrite list_elem_of_singleton. split; [by exists n | by intros (? & [= <-] & ?)].
Qed.

Lemma inBucket_points name dims key b ps dp : inBucket formatFloat aggsMeta name dims (key, b) = Done ps →
  (∀ k a ps, (k, a) ∈ b.2 → recursivelyCollectDatapoints formatFloat aggsMeta a k (<[name := key]> dims) = Done ps →
     (dp ∈ ps ↔ yields k (<[name := key]> dims) a dp)) →
  (dp ∈ ps ↔
     (∃ t n, aggsMeta !! name = Some t ∧ b = (Some n, []) ∧
        dp = mkDatapoint (name +:+ ".doc_count") Gauge (IntValue n) (<["bucket_aggregation_type" := t]> (<[name := key]> dims))) ∨
     ∃ k a, (k, a) ∈ b.2 ∧ yields k (<[name := key]> dims) a dp).
Proof.
  unfold inBucket. cbn [fst snd]. destruct (isTerminalBucket b) eqn:Hterm.
  - intros (t & Ht & [= <-])%bind_done _. rewrite count_point by done. assert (Hm : aggsMeta !! name = Some t) by (unfold typeOf in Ht; destruct (aggsMeta !! name); by simplify_eq). split.
    + intros (n & Hb & Hdp). left. by exists t, n.
    + intros [(t' & n & Ht' & Hb & Hdp)|(k & a & Hin & _)]; [exists n; split; [done|]; congruence|].
      destruct b as [[?|] [|? ?]]; try done. by apply not_elem_of_nil in Hin.
  - intros Hc Hb. rewrite (collectAll_points _ _ _ dp Hc Hb). split; [by right|]. intros [(t & n & _ & -> & _)|?]; done.
Qed.

Lemma nonmetric c v vs subs (buckets : list (any * bucketResponse)) others :
  isMetricAggregation (Aggregation c v vs subs buckets others) = false ↔ is_Some c ∨ buckets ≠ [].
Proof. destruct c, buckets; cbn; split; try done; try (by intros; left); try (by intros; right). by intros [[? ?]|]. Qed.

(** When the keys of all buckets are strings and the walk returns, the data points are
    exactly those of the metric aggregations and of the buckets without aggregations, each
    with the keys of the buckets on the way to it as dimensions named after their
    aggregations. *)
Theorem collected_points (a : aggregationResponse) (name : string) (dims : gmap string string) (ps : list sfxDatapoint) (dp : sfxDatapoint) :
  string_keys a → recursivelyCollectDatapoints formatFloat aggsMeta a name dims = Done ps → (dp ∈ ps ↔ yields name dims a dp).
Proof.
  revert name dims ps. induction a as [c v vs subs buckets others IHs IHb] using agg_ind'. intros name dims ps Hsk. inversion_clear Hsk as [? ? ? ? ? ? Hs Hb].
  rewrite collect_eq. destruct (isMetricAggregation _) eqn:Hm.
  { intros (t & Ht & [= <-])%bind_done. assert (Hmt : aggsMeta !! name = Some t) by (unfold typeOf in Ht; destruct (aggsMeta !! name); by simplify_eq). split.
    - intros Hin. by apply (yields_metric name dims _ t).
    - destruct c, buckets; try done. intros Hy. inversion Hy as [? ? ? t' ? ? Ht' Hdp| | |? ? ? ? ? ? ? ? ? ? ? Hnm]; subst.
      + rewrite Hmt in Ht'. by injection Ht' as <-.
      + by match goal with Hin : _ ∈ [] |- _ => apply not_elem_of_nil in Hin end.
      + by match goal with Hin : _ ∈ [] |- _ => apply not_elem_of_nil in Hin end.
      + by destruct Hnm as [[? ?]|]. }
  intros (bs & Hbs & (ss & Hss & [= <-])%bind_done)%bind_done. pose proof (proj1 (nonmetric _ _ _ _ _ _) Hm) as Hnm. rewrite elem_of_app, (elem_of_mapM_concat _ _ bs dp Hbs).
  rewrite (collectAll_points subs dims ss dp Hss) by (intros k a ps Hin; apply (IHs k a Hin k dims); by apply (Hs k a)). split.
  - intros [([key b] & ps & Hin & Hps & Hdp)|(k & a & Hin & Hy)]; [|by apply (yields_sub _ _ _ _ _ _ _ _ k a)].
    pose proof (stringBuckets_elem _ _ _ Hin) as Hin'. rewrite (inBucket_points _ _ _ _ _ dp Hps) in Hdp by (intros k a ps' Ha; apply (IHb _ _ k a Hin' Ha); by apply (proj2 (Hb _ _ Hin') k)).
    destruct Hdp as [(t & n & Ht & -> & ->)|(k & a & Ha & Hy)]; [by apply yields_count | by apply (yields_bucket _ _ _ _ _ _ _ _ key b k a)].
  - assert (Hkeys : ∀ key b, (key, b) ∈ buckets → ∃ s, key = AString s) by (intros key b Hin; by apply (proj1 (Hb key b Hin))).
    assert (Hback : ∀ key b, (AString key, b) ∈ buckets →
      ((∃ t n, aggsMeta !! name = Some t ∧ b = (Some n, []) ∧
          dp = mkDatapoint (name +:+ ".doc_count") Gauge (IntValue n) (<["bucket_aggregation_type" := t]> (<[name := key]> dims))) ∨
       ∃ k a, (k, a) ∈ b.2 ∧ yields k (<[name := key]> dims) a dp) → ∃ x ps, x ∈ stringBuckets buckets ∧ inBucket formatFloat aggsMeta name dims x = Done ps ∧ dp ∈ ps).
    { intros key b Hin Hor. pose proof (stringBuckets_all _ key b Hkeys Hin) as Hin'.
      destruct (proj1 (mapM_outcome_is_done _ (stringBuckets buckets)) ltac:(by eexists) (key, b) Hin') as [ps Hps]. exists (key, b), ps. split_and!; [done..|].
      apply (inBucket_points _ _ _ _ _ dp Hps); [|done]. intros k a ps' Ha. apply (IHb _ _ k a Hin Ha). by apply (proj2 (Hb _ _ Hin) k). }
    inversion 1 as [? ? ? t ? Hm'| | |]; subst; [congruence|left..|right]; eauto 10.
Qed.
End points.

(** ** Requests and their responses *)

Definition subsOf (i : aggregationInfo) : list (string * aggregationInfo) := let '(AggregationInfo _ subs) := i in subs.

(** A name of an aggregation of the request, at any depth. *)
Inductive requested : list (string * aggregationInfo) → string → Prop :=
| requested_here l k i : (k, i) ∈ l → requested l k
| requested_below l k i k' : (k, i) ∈ l → requested (subsOf i) k' → requested l k'.

(** The response has, at every level, aggregations that the request has there. *)
Inductive mirrors : list (string * aggregationInfo) → aggregationResponse → Prop :=
| mirrors_aggregation infos c v vs subs buckets others :
    (∀ k a, (k, a) ∈ subs → ∃ i, (k, i) ∈ infos ∧ mirrors (subsOf i) a) →
    (∀ key b k a, (key, b) ∈ buckets → (k, a) ∈ b.2 → ∃ i, (k, i) ∈ infos ∧ mirrors (subsOf i) a) →
    mirrors infos (Aggregation c v vs subs buckets others).

Lemma mirrors_known meta infos a : mirrors infos a → (∀ k, requested infos k → is_Some (meta !! k)) → known meta a.
Proof.
  revert infos. induction a as [c v vs subs buckets others IHs IHb] using agg_ind'. intros infos Hm Hr. inversion_clear Hm as [? ? ? ? ? ? ? Hs Hb]. constructor.
  - intros k a Hin. destruct (Hs k a Hin) as (i & Hi & Ha). split; [apply Hr; by apply (requested_here _ k i)|]. apply (IHs k a Hin (subsOf i) Ha). intros k' Hk'. apply Hr. by apply (requested_below _ k i).
  - intros key b k a Hkb Hin. destruct (Hb key b k a Hkb Hin) as (i & Hi & Ha). split; [apply Hr; by apply (requested_here _ k i)|].
    apply (IHb key b k a Hkb Hin (subsOf i) Ha). intros k' Hk'. apply Hr. by apply (requested_below _ k i).
Qed.

Fixpoint info_size (i : aggregationInfo) : nat := let '(AggregationInfo _ subs) := i in S (sum_list_with (λ kv, info_size kv.2) subs).

Lemma getAggregationsWithType_eq name i out : getAggregationsWithType name i out = (a ← getAggregationType i; withTypes (subsOf i) (<[name := a]> out)).
Proof.
  destruct i as [props subs]. cbn [getAggregationsWithType subsOf]. destruct (getAggregationType _) as [a| |]; cbn [mbind outcome_bind]; [|done..].
  generalize (<[name := a]> out). induction subs as [|[k sub] subs IH]; intros out'; [done|]. cbn [withTypes]. destruct (getAggregationsWithType k sub out'); cbn; [apply IH|done..].
Qed.

(** Every name of the tree is recorded and no name is lost. *)
Definition records (l : list (string * aggregationInfo)) : Prop := ∀ out meta, withTypes l out = Done meta →
  (∀ k, is_Some (out !! k) → is_Some (meta !! k)) ∧ ∀ k, requested l k → is_Some (meta !! k).

Lemma withTypes_step (l : list (string * aggregationInfo)) : (∀ k i, (k, i) ∈ l → records (subsOf i)) → records l.
Proof.
  intros Hl. induction l as [|[k i] l IH]; intros out meta; cbn [withTypes].
  { intros [= ->]. split; [done|]. intros k Hk. inversion Hk as [? ? ? Hin|? ? ? ? Hin]; by apply not_elem_of_nil in Hin. }
  rewrite getAggregationsWithType_eq. intros (out' & (a & _ & Hi)%bind_done & Hw)%bind_done.
  destruct (Hl k i ltac:(left) _ _ Hi) as [Hi1 Hi2]. destruct (IH (λ k' i' Hin, Hl k' i' ltac:(by right)) _ _ Hw) as [Hw1 Hw2]. split.
  - intros k' Hk'. apply Hw1, Hi1. destruct (decide (k = k')) as [->|Hne]; [rewrite lookup_insert_eq; by eexists | by rewrite lookup_insert_ne].
  - intros k' Hk'. inversion Hk' as [? ? i' Hin|? k0 i' ? Hin Hb]; subst; apply elem_of_cons in Hin as [Heq|Hin].
    + injection Heq as -> ->. apply Hw1, Hi1. rewrite lookup_insert_eq. by eexists.
    + apply Hw2. by apply (requested_here _ k' i').
    + injection Heq as -> ->. apply Hw1. by apply Hi2.
    + apply Hw2. by apply (requested_below _ k0 i').
Qed.
Lemma withTypes_records (l : list (string * aggregationInfo)) : records l.
Proof.
  assert (Hi : ∀ n i, (info_size i ≤ n)%nat → records (subsOf i)).
  { induction n as [|n IH]; intros [props subs] Hn; [cbn in Hn; lia|]. cbn [subsOf]. apply withTypes_step. intros k i Hin. apply IH.
    pose proof (sum_list_with_elem (λ kv : string * aggregationInfo, info_size kv.2) (k, i) subs Hin) as Hs. cbn in *. lia. }
  apply withTypes_step. intros k i _. by apply (Hi (info_size i)).
Qed.

(** A response whose aggregations are, level by level, among those of the request is
    collected without a panic, whatever its buckets, values and other fields are. *)
Theorem requested_response_collects `{MapRange} (formatFloat : float64 → string) (body : gmap string any) (v : any) (infos : list (string * aggregationInfo))
    (meta : gmap string string) (response : list (string * aggregationResponse)) (dims : gmap string string) :
  body !! "aggs" = Some v → ip_map (parseInfo v) = Done infos → getAggregationsMeta (AMap body) = Done meta →
  (∀ k a, (k, a) ∈ response → ∃ i, (k, i) ∈ infos ∧ mirrors (subsOf i) a) →
  is_done (collectDatapoints formatFloat meta response dims).
Proof.
  intros Hb Hp Hm Hr. cbn [getAggregationsMeta] in Hm. rewrite Hb, Hp in Hm. cbn [mbind outcome_bind] in Hm. destruct (withTypes_records infos ∅ meta Hm) as [_ Hall].
  apply collectAll_done. intros k a Hin. destruct (Hr k a Hin) as (i & Hi & Ha). assert (Hk : is_Some (meta !! k)) by (apply Hall; by apply (requested_here _ k i)).
  split; [done|]. intros dims'. apply collect_done; [done|]. apply (mirrors_known meta (subsOf i)); [done|]. intros k' Hk'. apply Hall. by apply (requested_below _ k i).
Qed.

(** A request that spells its aggregations [aggregations], as elasticsearch allows, is
    accepted without any of them being recorded, so its first response that has an
    aggregation ends the agent. *)
Theorem aggregations_spelling_panics `{MapRange} (formatFloat : float64 → string) (body : gmap string any) (k : string) (a : aggregationResponse)
    (response : list (string * aggregationResponse)) (dims : gmap string string) :
  body !! "aggs" = None → (k, a) ∈ response →
  ∃ meta, getAggregationsMeta (AMap body) = Done meta ∧ collectDatapoints formatFloat meta response dims = Panics.
Proof.
  intros Hb Hin. exists ∅. cbn [getAggregationsMeta]. rewrite Hb. split; [done|]. unfold collectDatapoints.
  rewrite (mapM_outcome_some_panics _ response (k, a)); [done| |done|done].
  intros [k' a'] _. apply bind_never_fails; [apply typeOf_never_fails|]. intros _ _. apply collect_never_fails.
Qed.

(** The key of a composite aggregation's bucket is an object, which cannot be a key of a Go
    map: decoding panics. *)
Lemma composite_key_panics (m : gmap string any) (b : bucketResponse) l acc : putBuckets ((AMap m, b) :: l) acc = Panics.
Proof. done. Qed.

(** ** Examples *)

Definition demo_agg_request : any := AMap {["hosts" := AMap {["terms" := AMap ∅]}]}.
Definition demo_agg_response : aggregationResponse :=
  Aggregation None ANil ANil [] [(AString "web", (Some 3%Z, [])); (AString "db", (Some 2%Z, []))] [].
Definition demo_format (f : float64) : string := "0".

Lemma unknown_aggregation_panics_witness :
  @recursivelyCollectDatapoints forward_range demo_format ∅ (Aggregation (Some 3%Z) ANil ANil [("meta", demo_agg_response)] [] []) "hosts" ∅ = Panics.
Proof. apply (@unknown_aggregation_panics forward_range demo_format ∅ (Some 3%Z) ANil ANil [("meta", demo_agg_response)] [] [] "hosts" "meta" demo_agg_response); [left; eauto | left | reflexivity]. Defined.

Lemma collected_points_witness :
  match @recursivelyCollectDatapoints forward_range demo_format {["hosts" := "terms"]} demo_agg_response "hosts" ∅ with
  | Done ps => ∀ dp, dp ∈ ps ↔ @yields forward_range demo_format {["hosts" := "terms"]} "hosts" ∅ demo_agg_response dp
  | _ => False
  end.
Proof.
  destruct (@recursivelyCollectDatapoints forward_range demo_format {["hosts" := "terms"]} demo_agg_response "hosts" ∅) as [ps| |] eqn:E; [|vm_compute in E; discriminate E..].
  intros dp. apply (@collected_points forward_range demo_format {["hosts" := "terms"]} demo_agg_response "hosts" ∅ ps dp); [|exact E].
  constructor; [intros k a Hin; inversion Hin|]. intros key b Hin. apply elem_of_cons in Hin as [Hin|Hin]; [|apply list_elem_of_singleton in Hin];
    injection Hin as -> ->; (split; [by eexists|]); intros k a Hin; inversion Hin.
Defined.

Lemma requested_response_collects_witness :
  match @ip_map (@parseInfo forward_range demo_agg_request), @getAggregationsMeta forward_range (AMap {["aggs" := demo_agg_request]}) with
  | Done infos, Done meta => is_done (@collectDatapoints forward_range demo_format meta [("hosts", demo_agg_response)] ∅)
  | _, _ => False
  end.
Proof.
  destruct (@ip_map (@parseInfo forward_range demo_agg_request)) as [infos| |] eqn:E; [|vm_compute in E; discriminate E..].
  destruct (@getAggregationsMeta forward_range (AMap {["aggs" := demo_agg_request]})) as [meta| |] eqn:F; [|vm_compute in F; discriminate F..].
  apply (@requested_response_collects forward_range demo_format {["aggs" := demo_agg_request]} demo_agg_request infos meta); [reflexivity | exact E | exact F |].
  intros k a Hin. apply list_elem_of_singleton in Hin. injection Hin as -> ->. vm_compute in E. injection E as <-.
  eexists. split; [left|]. constructor; [intros k a Hin; inversion Hin|]. intros key b k a Hin. apply elem_of_cons in Hin as [Hin|Hin]; [|apply list_elem_of_singleton in Hin];
    injection Hin as -> ->; intros Hin; inversion Hin.
Defined.

Lemma aggregations_spelling_panics_witness :
  ∃ meta, @getAggregationsMeta forward_range (AMap {["aggregations" := demo_agg_request]}) = Done meta ∧
    @collectDatapoints forward_range demo_format meta [("hosts", demo_agg_response)] ∅ = Panics.
Proof.
  apply (@aggregations_spelling_panics forward_range demo_format {["aggregations" := demo_agg_request]} "hosts" demo_agg_response); [reflexivity | left].
Defined.
