(* ===== verification/Docker.v ===== *)
(** * The docker monitor

    [src/internal/signalfx-agent/pkg/monitors/docker] with the watch of
    [core/common/docker/containerlist.go]: the cache of containers that events and
    periodic syncs maintain, the map of running containers the monitor keeps from
    its changes, the metric groups and the conversion of statistics to data points.
    The docker engine is the environment: an event carries the answer of its
    inspection, a sync the list and the answers.  Inspecting an identifier gives the
    container that has it. *)

From S2P Require Import Prelude GoStrings GoValue Settings Telemetry SmartAgent HostMonitors.
From Stdlib Require Import Ascii.
#[local] Open Scope Z_scope.

(** ** The metrics the monitor declares *)

Definition dockerMetrics : list (string * sfxMetricType * string) :=
  [("blkio.io_merged_recursive.async", Counter, "blkio"); ("blkio.io_merged_recursive.read", Counter, "blkio");
   ("blkio.io_merged_recursive.sync", Counter, "blkio"); ("blkio.io_merged_recursive.total", Counter, "blkio");
   ("blkio.io_merged_recursive.write", Counter, "blkio"); ("blkio.io_queue_recursive.async", Counter, "blkio");
   ("blkio.io_queue_recursive.read", Counter, "blkio"); ("blkio.io_queue_recursive.sync", Counter, "blkio");
   ("blkio.io_queue_recursive.total", Counter, "blkio"); ("blkio.io_queue_recursive.write", Counter, "blkio");
   ("blkio.io_service_bytes_recursive.async", Counter, "blkio"); ("blkio.io_service_bytes_recursive.read", Counter, "blkio");
   ("blkio.io_service_bytes_recursive.sync", Counter, "blkio"); ("blkio.io_service_bytes_recursive.total", Counter, "blkio");
   ("blkio.io_service_bytes_recursive.write", Counter, "blkio"); ("blkio.io_service_time_recursive.async", Counter, "blkio");
   ("blkio.io_service_time_recursive.read", Counter, "blkio"); ("blkio.io_service_time_recursive.sync", Counter, "blkio");
   ("blkio.io_service_time_recursive.total", Counter, "blkio"); ("blkio.io_service_time_recursive.write", Counter, "blkio");
   ("blkio.io_serviced_recursive.async", Counter, "blkio"); ("blkio.io_serviced_recursive.read", Counter, "blkio");
   ("blkio.io_serviced_recursive.sync", Counter, "blkio"); ("blkio.io_serviced_recursive.total", Counter, "blkio");
   ("blkio.io_serviced_recursive.write", Counter, "blkio"); ("blkio.io_time_recursive.async", Counter, "blkio");
   ("blkio.io_time_recursive.read", Counter, "blkio"); ("blkio.io_time_recursive.sync", Counter, "blkio");
   ("blkio.io_time_recursive.total", Counter, "blkio"); ("blkio.io_time_recursive.write", Counter, "blkio");
   ("blkio.io_wait_time_recursive.async", Counter, "blkio"); ("blkio.io_wait_time_recursive.read", Counter, "blkio");
   ("blkio.io_wait_time_recursive.sync", Counter, "blkio"); ("blkio.io_wait_time_recursive.total", Counter, "blkio");
   ("blkio.io_wait_time_recursive.write", Counter, "blkio"); ("cpu.percent", Gauge, "cpu"); ("cpu.percpu.usage", Counter, "cpu");
   ("cpu.throttling_data.periods", Counter, "cpu"); ("cpu.throttling_data.throttled_periods", Counter, "cpu");
   ("cpu.throttling_data.throttled_time", Counter, "cpu"); ("cpu.usage.kernelmode", Counter, "cpu"); ("cpu.usage.system", Counter, "cpu");
   ("cpu.usage.total", Counter, "cpu"); ("cpu.usage.usermode", Counter, "cpu"); ("memory.percent", Gauge, "memory");
   ("memory.stats.active_anon", Gauge, "memory"); ("memory.stats.active_file", Gauge, "memory"); ("memory.stats.cache", Gauge, "memory");
   ("memory.stats.dirty", Gauge, "memory"); ("memory.stats.hierarchical_memory_limit", Gauge, "memory");
   ("memory.stats.hierarchical_memsw_limit", Gauge, "memory"); ("memory.stats.inactive_anon", Gauge, "memory");
   ("memory.stats.inactive_file", Gauge, "memory"); ("memory.stats.mapped_file", Gauge, "memory"); ("memory.stats.pgfault", Counter, "memory");
   ("memory.stats.pgmajfault", Counter, "memory"); ("memory.stats.pgpgin", Counter, "memory"); ("memory.stats.pgpgout", Counter, "memory");
   ("memory.stats.rss", Gauge, "memory"); ("memory.stats.rss_huge", Gauge, "memory"); ("memory.stats.shmem", Gauge, "memory");
   ("memory.stats.swap", Gauge, "memory"); ("memory.stats.total_active_anon", Gauge, "memory"); ("memory.stats.total_active_file", Gauge, "memory");
   ("memory.stats.total_cache", Gauge, "memory"); ("memory.stats.total_dirty", Gauge, "memory");
   ("memory.stats.total_inactive_anon", Gauge, "memory"); ("memory.stats.total_inactive_file", Gauge, "memory");
   ("memory.stats.total_mapped_file", Gauge, "memory"); ("memory.stats.total_pgfault", Counter, "memory");
   ("memory.stats.total_pgmajfault", Counter, "memory"); ("memory.stats.total_pgpgin", Counter, "memory");
   ("memory.stats.total_pgpgout", Counter, "memory"); ("memory.stats.total_rss", Gauge, "memory"); ("memory.stats.total_rss_huge", Gauge, "memory");
   ("memory.stats.total_shmem", Gauge, "memory"); ("memory.stats.total_swap", Gauge, "memory"); ("memory.stats.total_unevictable", Gauge, "memory");
   ("memory.stats.total_writeback", Gauge, "memory"); ("memory.stats.unevictable", Gauge, "memory"); ("memory.stats.writeback", Gauge, "memory");
   ("memory.usage.limit", Gauge, "memory"); ("memory.usage.max", Gauge, "memory"); ("memory.usage.total", Gauge, "memory");
   ("network.usage.rx_bytes", Counter, "network"); ("network.usage.rx_dropped", Counter, "network"); ("network.usage.rx_errors", Counter, "network");
   ("network.usage.rx_packets", Counter, "network"); ("network.usage.tx_bytes", Counter, "network"); ("network.usage.tx_dropped", Counter, "network");
   ("network.usage.tx_errors", Counter, "network"); ("network.usage.tx_packets", Counter, "network")].
Definition dockerDefaultMetrics : list string :=
  ["blkio.io_service_bytes_recursive.read"; "blkio.io_service_bytes_recursive.write"; "cpu.usage.system"; "cpu.usage.total"; "memory.usage.limit";
   "memory.usage.total"; "network.usage.rx_bytes"; "network.usage.tx_bytes"].
Definition groupMetricsMap : list (string * list string) :=
  [("blkio",
    ["blkio.io_merged_recursive.async"; "blkio.io_merged_recursive.read"; "blkio.io_merged_recursive.sync"; "blkio.io_merged_recursive.total";
     "blkio.io_merged_recursive.write"; "blkio.io_queue_recursive.async"; "blkio.io_queue_recursive.read"; "blkio.io_queue_recursive.sync";
     "blkio.io_queue_recursive.total"; "blkio.io_queue_recursive.write"; "blkio.io_service_bytes_recursive.async";
     "blkio.io_service_bytes_recursive.read"; "blkio.io_service_bytes_recursive.sync"; "blkio.io_service_bytes_recursive.total";
     "blkio.io_service_bytes_recursive.write"; "blkio.io_service_time_recursive.async"; "blkio.io_service_time_recursive.read";
     "blkio.io_service_time_recursive.sync"; "blkio.io_service_time_recursive.total"; "blkio.io_service_time_recursive.write";
     "blkio.io_serviced_recursive.async"; "blkio.io_serviced_recursive.read"; "blkio.io_serviced_recursive.sync"; "blkio.io_serviced_recursive.total";
     "blkio.io_serviced_recursive.write"; "blkio.io_time_recursive.async"; "blkio.io_time_recursive.read"; "blkio.io_time_recursive.sync";
     "blkio.io_time_recursive.total"; "blkio.io_time_recursive.write"; "blkio.io_wait_time_recursive.async"; "blkio.io_wait_time_recursive.read";
     "blkio.io_wait_time_recursive.sync"; "blkio.io_wait_time_recursive.total"; "blkio.io_wait_time_recursive.write"]);
   ("cpu",
    ["cpu.percent"; "cpu.percpu.usage"; "cpu.throttling_data.periods"; "cpu.throttling_data.throttled_periods"; "cpu.throttling_data.throttled_time";
     "cpu.usage.kernelmode"; "cpu.usage.system"; "cpu.usage.total"; "cpu.usage.usermode"]);
   ("memory",
    ["memory.percent"; "memory.stats.active_anon"; "memory.stats.active_file"; "memory.stats.cache"; "memory.stats.dirty";
     "memory.stats.hierarchical_memory_limit"; "memory.stats.hierarchical_memsw_limit"; "memory.stats.inactive_anon"; "memory.stats.inactive_file";
     "memory.stats.mapped_file"; "memory.stats.pgfault"; "memory.stats.pgmajfault"; "memory.stats.pgpgin"; "memory.stats.pgpgout"; "memory.stats.rss";
     "memory.stats.rss_huge"; "memory.stats.shmem"; "memory.stats.swap"; "memory.stats.total_active_anon"; "memory.stats.total_active_file";
     "memory.stats.total_cache"; "memory.stats.total_dirty"; "memory.stats.total_inactive_anon"; "memory.stats.total_inactive_file";
     "memory.stats.total_mapped_file"; "memory.stats.total_pgfault"; "memory.stats.total_pgmajfault"; "memory.stats.total_pgpgin";
     "memory.stats.total_pgpgout"; "memory.stats.total_rss"; "memory.stats.total_rss_huge"; "memory.stats.total_shmem"; "memory.stats.total_swap";
     "memory.stats.total_unevictable"; "memory.stats.total_writeback"; "memory.stats.unevictable"; "memory.stats.writeback"; "memory.usage.limit";
     "memory.usage.max"; "memory.usage.total"]);
   ("network",
    ["network.usage.rx_bytes"; "network.usage.rx_dropped"; "network.usage.rx_errors"; "network.usage.rx_packets"; "network.usage.tx_bytes";
     "network.usage.tx_dropped"; "network.usage.tx_errors"; "network.usage.tx_packets"])].
Definition groupMetrics (group : string) : list string := default [] (snd <$> find (λ gm, String.eqb gm.1 group) groupMetricsMap).

Record EnhancedMetricsConfig := { extraBlockIO : bool; extraCPU : bool; extraMemory : bool; extraNetwork : bool }.

(** [metricSet[metric].Group]. *)
Definition metricGroup (metric : string) : option string := snd <$> find (λ m, String.eqb m.1.1 metric) dockerMetrics.
Definition groupEnabled (conf : bool) (enabledMetrics : list string) (group : string) : bool :=
  conf || existsb (λ m, bool_decide (metricGroup m = Some group)) enabledMetrics.
Definition EnableExtraGroups (conf : EnhancedMetricsConfig) (enabledMetrics : list string) : EnhancedMetricsConfig :=
  {| extraBlockIO := groupEnabled (extraBlockIO conf) enabledMetrics "blkio"; extraCPU := groupEnabled (extraCPU conf) enabledMetrics "cpu";
     extraMemory := groupEnabled (extraMemory conf) enabledMetrics "memory"; extraNetwork := groupEnabled (extraNetwork conf) enabledMetrics "network" |}.
Definition docker_GetExtraMetrics (c : EnhancedMetricsConfig) : list string :=
  (if extraBlockIO c then groupMetrics "blkio" else []) ++ (if extraCPU c then groupMetrics "cpu" else []) ++
  (if extraMemory c then groupMetrics "memory" else []) ++ (if extraNetwork c then groupMetrics "network" else []).

(** ** Containers *)

Record ContainerJSON := {
  cj_ID : string; cj_Name : string; cj_Image : string; cj_Hostname : string; cj_Running : bool; cj_Paused : bool;
  cj_Env : list string; cj_Labels : gmap string string;
}.

Definition parseEnv (out : gmap string string) (v : string) : gmap string string :=
  match SplitByte v "="%char with
  | k :: x :: _ => if String.eqb (TrimSpace x) "" then out else <[k := x]> out
  | _ => out
  end.
Definition parseContainerEnvSlice (env : list string) : gmap string string := foldl parseEnv ∅ env.

(** The monitor's running containers with their environments. *)
Notation running := (gmap string (ContainerJSON * gmap string string)).
Definition isActive (c : ContainerJSON) : bool := cj_Running c && negb (cj_Paused c).
Definition changeHandler (old new : option ContainerJSON) (m : running) : running :=
  match new, old with
  | None, None => m
  | None, Some o => delete (cj_ID o) m
  | Some n, _ => if isActive n then <[cj_ID n := (n, parseContainerEnvSlice (cj_Env n))]> m else delete (cj_ID n) m
  end.

(** ** ListAndWatchContainers *)

Record watch := { w_cache : gmap string ContainerJSON; w_running : running }.

Section watch.
(** The filter of excluded images, [None] for no filter. *)
Context (imageFilter : option (string → bool)).

Definition excluded (image : string) : bool := match imageFilter with Some f => f image | None => false end.
(** [updateContainer] with the answer of the inspection. *)
Definition updateContainer (id : string) (answer : option ContainerJSON) (cache : gmap string ContainerJSON) : bool * gmap string ContainerJSON :=
  match answer with
  | Some c => if excluded (cj_Image c) then (false, cache) else (true, <[id := c]> cache)
  | None => (false, cache)
  end.

Definition addMissing (inspect : string → option ContainerJSON) (w : watch) (id : string) : watch :=
  let cache := (updateContainer id (inspect id) (w_cache w)).2 in
  {| w_cache := cache; w_running := changeHandler None (cache !! id) (w_running w) |}.
Definition dropStale (w : watch) (id : string) : watch :=
  {| w_cache := delete id (w_cache w); w_running := changeHandler (w_cache w !! id) None (w_running w) |}.
Definition syncContainerList (listed : option (list string)) (inspect : string → option ContainerJSON) (order : gset string → list string) (w : watch) : watch :=
  match listed with
  | None => w
  | Some l =>
      let w := foldl (addMissing inspect) w (List.filter (λ id, bool_decide (w_cache w !! id = None)) l) in
      foldl dropStale w (List.filter (λ id, bool_decide (id ∉ l)) (order (dom (w_cache w))))
  end.

Inductive dockerEvent :=
| Destroy (id : string)
| Changed (id : string) (answer : option ContainerJSON)
| Sync (listed : option (list string)) (inspect : string → option ContainerJSON).

Context (order : gset string → list string).
Definition onDockerEvent (w : watch) (e : dockerEvent) : watch :=
  match e with
  | Destroy id => match w_cache w !! id with Some _ => dropStale w id | None => w end
  | Changed id answer =>
      let old := w_cache w !! id in
      let '(updated, cache) := updateContainer id answer (w_cache w) in
      if updated then {| w_cache := cache; w_running := changeHandler old (cache !! id) (w_running w) |} else {| w_cache := cache; w_running := w_running w |}
  | Sync listed inspect => syncContainerList listed inspect order w
  end.
End watch.

(** ** Statistics *)

(** [int64] of a [uint64]. *)
Definition i64 (z : Z) : Z := let u := z mod 2 ^ 64 in if u <? 2 ^ 63 then u else u - 2 ^ 64.

Definition cumulative (name : string) (dims : gmap string string) (v : Z) : sfxDatapoint := mkDatapoint name Counter (IntValue (i64 v)) dims.
Definition gauge (name : string) (dims : gmap string string) (v : Z) : sfxDatapoint := mkDatapoint name Gauge (IntValue (i64 v)) dims.

Record BlkioStatEntry := { be_Major : Z; be_Minor : Z; be_Op : string; be_Value : Z }.
Record DockerCPU := {
  dc_Total : Z; dc_System : Z; dc_Kernel : Z; dc_User : Z; dc_Percpu : list Z; dc_Online : Z;
  dc_Periods : Z; dc_ThrottledPeriods : Z; dc_ThrottledTime : Z;
}.
Record DockerMemory := { dm_Limit : Z; dm_Usage : Z; dm_Max : Z; dm_PrivateWorkingSet : Z; dm_Stats : gmap string Z }.
Record DockerNetwork := {
  dn_RxBytes : Z; dn_TxBytes : Z; dn_RxDropped : Z; dn_RxErrors : Z; dn_RxPackets : Z; dn_TxDropped : Z; dn_TxErrors : Z; dn_TxPackets : Z;
}.
Record StatsJSON := {
  st_Blkio : gmap string (list BlkioStatEntry);   (* by the names the metrics have *)
  st_CPU : DockerCPU; st_PreCPU : DockerCPU; st_Memory : DockerMemory; st_Networks : gmap string DockerNetwork;
}.

Definition memoryStatCounters : list string :=
  ["pgfault"; "pgmajfault"; "pgpgin"; "pgpgout"; "total_pgfault"; "total_pgmajfault"; "total_pgpgin"; "total_pgpgout"].
Definition basicBlockIOMetrics : list string := ["blkio.io_service_bytes_recursive.read"; "blkio.io_service_bytes_recursive.write"].

Section conversion.
Context `{MapRange}.

Definition blkioPoint (enhanced : bool) (k : string) (e : BlkioStatEntry) : list sfxDatapoint :=
  if String.eqb (be_Op e) "" then []
  else
    let name := "blkio." +:+ k +:+ "." +:+ ToLower (be_Op e) in
    if enhanced || existsb (String.eqb name) basicBlockIOMetrics
    then [cumulative name (list_to_map [("device_major", pretty (be_Major e)); ("device_minor", pretty (be_Minor e))]) (be_Value e)] else [].
Definition convertBlkioStats (stats : gmap string (list BlkioStatEntry)) (enhanced : bool) : list sfxDatapoint :=
  flat_map (λ kv, flat_map (blkioPoint enhanced kv.1) kv.2) (range stats).

Definition fpos (f : float64) : bool := SFltb (S754_zero false) f.
Definition calculateCPUPercent (previous v : DockerCPU) : float64 :=
  let cpuDelta := fsub (float_of_Z (dc_Total v)) (float_of_Z (dc_Total previous)) in
  let systemDelta := fsub (float_of_Z (dc_System v)) (float_of_Z (dc_System previous)) in
  let onlineCPUs := if dc_Online v =? 0 then float_of_Z (Z.of_nat (length (dc_Percpu v))) else float_of_Z (dc_Online v) in
  if fpos systemDelta && fpos cpuDelta then fmul (fmul (fdiv cpuDelta systemDelta) onlineCPUs) hundred else S754_zero false.

Definition percpuPoint (i : nat) (v : Z) : sfxDatapoint := cumulative "cpu.percpu.usage" {["core" := "cpu" +:+ pretty (Z.of_nat i)]} v.
Definition convertCPUStats (stats prior : DockerCPU) (enhanced : bool) : list sfxDatapoint :=
  [cumulative "cpu.usage.total" ∅ (dc_Total stats); cumulative "cpu.usage.system" ∅ (dc_System stats)] ++
  (if enhanced then
     [cumulative "cpu.usage.kernelmode" ∅ (dc_Kernel stats); cumulative "cpu.usage.usermode" ∅ (dc_User stats)] ++
     imap percpuPoint (dc_Percpu stats) ++
     [cumulative "cpu.throttling_data.periods" ∅ (dc_Periods stats); cumulative "cpu.throttling_data.throttled_periods" ∅ (dc_ThrottledPeriods stats);
      cumulative "cpu.throttling_data.throttled_time" ∅ (dc_ThrottledTime stats);
      mkDatapoint "cpu.percent" Gauge (FloatValue (calculateCPUPercent prior stats)) ∅]
   else []).

Definition memoryStat (k : string) (v : Z) : sfxDatapoint :=
  if existsb (String.eqb k) memoryStatCounters then cumulative ("memory.stats." +:+ k) ∅ v else gauge ("memory.stats." +:+ k) ∅ v.
Definition memoryTotal (stats : DockerMemory) : sfxDatapoint :=
  let bufferCacheUsage := default 0 (dm_Stats stats !! "total_cache") in
  gauge "memory.usage.total" ∅ (if dm_PrivateWorkingSet stats =? 0 then u64 (dm_Usage stats - bufferCacheUsage) else dm_PrivateWorkingSet stats).
Definition memoryPercent (stats : DockerMemory) : float64 :=
  fdiv (fmul hundred (fsub (float_of_Z (dm_Usage stats)) (float_of_Z (default 0 (dm_Stats stats !! "cache"))))) (float_of_Z (dm_Limit stats)).
Definition convertMemoryStats (stats : DockerMemory) (enhanced : bool) : list sfxDatapoint :=
  [gauge "memory.usage.limit" ∅ (dm_Limit stats); memoryTotal stats] ++
  (if enhanced then
     [gauge "memory.usage.max" ∅ (dm_Max stats); mkDatapoint "memory.percent" Gauge (FloatValue (memoryPercent stats)) ∅] ++
     map (λ kv, memoryStat kv.1 kv.2) (range (dm_Stats stats))
   else []).

Definition networkPoints (enhanced : bool) (k : string) (s : DockerNetwork) : list sfxDatapoint :=
  let dims := {["interface" := k]} in
  [cumulative "network.usage.rx_bytes" dims (dn_RxBytes s); cumulative "network.usage.tx_bytes" dims (dn_TxBytes s)] ++
  (if enhanced then
     [cumulative "network.usage.rx_dropped" dims (dn_RxDropped s); cumulative "network.usage.rx_errors" dims (dn_RxErrors s);
      cumulative "network.usage.rx_packets" dims (dn_RxPackets s); cumulative "network.usage.tx_dropped" dims (dn_TxDropped s);
      cumulative "network.usage.tx_errors" dims (dn_TxErrors s); cumulative "network.usage.tx_packets" dims (dn_TxPackets s)]
   else []).
Definition convertNetworkStats (stats : gmap string DockerNetwork) (enhanced : bool) : list sfxDatapoint :=
  flat_map (λ kv, networkPoints enhanced kv.1 kv.2) (range stats).

(** The dimensions every point gets, from the container. *)
Definition containerDims (c : ContainerJSON) : list (string * string) :=
  let name := TrimPrefix (cj_Name c) "/" in
  [("plugin", "docker"); ("container_name", name); ("plugin_instance", name); ("container_image", cj_Image c); ("container_id", cj_ID c);
   ("container_hostname", cj_Hostname c)].
Definition withDims (l : list (string * string)) (d : sfxDatapoint) : sfxDatapoint :=
  {| sd_Metric := sd_Metric d; sd_Type := sd_Type d; sd_Value := sd_Value d; sd_Time := sd_Time d;
     sd_Dimensions := foldl (λ m kv, <[kv.1 := kv.2]> m) (sd_Dimensions d) l; sd_Meta := sd_Meta d |}.
Definition ConvertStatsToMetrics (c : ContainerJSON) (parsed : StatsJSON) (conf : EnhancedMetricsConfig) : list sfxDatapoint :=
  map (withDims (containerDims c))
    (convertBlkioStats (st_Blkio parsed) (extraBlockIO conf) ++ convertCPUStats (st_CPU parsed) (st_PreCPU parsed) (extraCPU conf) ++
     convertMemoryStats (st_Memory parsed) (extraMemory conf) ++ convertNetworkStats (st_Networks parsed) (extraNetwork conf)).

(** The dimensions from the container's environment and labels, set in this order. *)
Definition mappedDims (mapping values : gmap string string) : list (string * string) :=
  flat_map (λ kd, let v := default "" (values !! kd.1) in if String.eqb v "" then [] else [(kd.2, v)]) (range mapping).
Definition fetchedPoints (c : ContainerJSON * gmap string string) (labelMap envMap : gmap string string) (parsed : StatsJSON) (conf : EnhancedMetricsConfig) : list sfxDatapoint :=
  map (withDims (mappedDims envMap c.2 ++ mappedDims labelMap (cj_Labels c.1))) (ConvertStatsToMetrics c.1 parsed conf).
End conversion.

(** ** The running containers *)

Definition monitoredOf (c : ContainerJSON) : option (ContainerJSON * gmap string string) :=
  if isActive c then Some (c, parseContainerEnvSlice (cj_Env c)) else None.
(** Cached containers are under their own identifiers and the running ones are
    monitored. *)
Definition watch_inv (w : watch) : Prop := map_Forall (λ id c, cj_ID c = id) (w_cache w) ∧ w_running w = omap monitoredOf (w_cache w).
Definition docker_event_ok (e : dockerEvent) : Prop :=
  match e with
  | Destroy _ => True
  | Changed id answer => ∀ c, answer = Some c → cj_ID c = id
  | Sync _ inspect => ∀ id c, inspect id = Some c → cj_ID c = id
  end.

Lemma changeHandler_put old cache id c : map_Forall (λ id c, cj_ID c = id) cache → cj_ID c = id →
  changeHandler old (Some c) (omap monitoredOf cache) = omap monitoredOf (<[id := c]> cache).
Proof.
  intros Hc <-. cbn [changeHandler]. destruct (isActive c) eqn:Ha.
  - rewrite (omap_insert_Some monitoredOf cache (cj_ID c) c (c, parseContainerEnvSlice (cj_Env c))); [done|]. unfold monitoredOf. by rewrite Ha.
  - rewrite omap_insert_None; [done|]. unfold monitoredOf. by rewrite Ha.
Qed.
Lemma dropStale_inv w id : watch_inv w → watch_inv (dropStale w id).
Proof.
  intros [Hc Hr]. split; cbn [dropStale w_cache w_running]; [by apply map_Forall_delete|]. rewrite Hr, omap_delete.
  destruct (w_cache w !! id) as [c|] eqn:Hid; cbn [changeHandler]; [by rewrite (Hc id c Hid)|].
  rewrite delete_id; [done|]. by rewrite lookup_omap, Hid.
Qed.

Section watch_theorems.
Context (imageFilter : option (string → bool)) (order : gset string → list string).

Lemma addMissing_inv inspect w id : (∀ id c, inspect id = Some c → cj_ID c = id) → watch_inv w → w_cache w !! id = None → watch_inv (addMissing imageFilter inspect w id).
Proof.
  intros Hi [Hc Hr] Hid. unfold addMissing, updateContainer. destruct (inspect id) as [c|] eqn:Hc'; [destruct (excluded imageFilter (cj_Image c))|].
  - split; cbn; [done|]. by rewrite Hid.
  - split; cbn [w_cache w_running snd]; [apply map_Forall_insert_2; [by apply Hi|done]|]. rewrite lookup_insert_eq, Hr. by apply changeHandler_put; [|apply Hi].
  - split; cbn; [done|]. by rewrite Hid.
Qed.
Lemma addMissing_other inspect w id id' : id ≠ id' → w_cache (addMissing imageFilter inspect w id) !! id' = w_cache w !! id'.
Proof. intros Hne. unfold addMissing, updateContainer. destruct (inspect id) as [c|]; [|done]. destruct (excluded imageFilter (cj_Image c)); [done|]. by apply lookup_insert_ne. Qed.

Lemma addAll_inv inspect l w : (∀ id c, inspect id = Some c → cj_ID c = id) → NoDup l → (∀ id, id ∈ l → w_cache w !! id = None) → watch_inv w →
  watch_inv (foldl (addMissing imageFilter inspect) w l).
Proof.
  intros Hi Hnd. revert w. induction Hnd as [|id l Hid _ IH]; intros w Hl Hw; [done|]. cbn [foldl]. apply IH.
  - intros id' Hid'. rewrite addMissing_other by (by intros ->). apply Hl. by right.
  - apply addMissing_inv; [done..|]. apply Hl. by left.
Qed.
Lemma dropAll_inv l w : watch_inv w → watch_inv (foldl dropStale w l).
Proof. revert w. induction l as [|id l IH]; intros w Hw; [done|]. apply IH. by apply dropStale_inv. Qed.

(** The engine lists a container once. *)
Definition lists_once (e : dockerEvent) : Prop := match e with Sync (Some l) _ => NoDup l | _ => True end.

Lemma onDockerEvent_inv w e : docker_event_ok e → lists_once e → watch_inv w → watch_inv (onDockerEvent imageFilter order w e).
Proof.
  intros He Hl Hw. destruct e as [id|id answer|listed inspect]; cbn [onDockerEvent docker_event_ok] in *.
  - destruct (w_cache w !! id); [by apply dropStale_inv | done].
  - unfold updateContainer. destruct answer as [c|]; [destruct (excluded imageFilter (cj_Image c)); [done|]|done]. destruct Hw as [Hc Hr].
    specialize (He c eq_refl). split; cbn [w_cache w_running]; [by apply map_Forall_insert_2|]. rewrite lookup_insert_eq, Hr. by apply changeHandler_put.
  - unfold syncContainerList. destruct listed as [l|]; [|done]. apply dropAll_inv, addAll_inv; [done| | |done].
    + apply NoDup_ListNoDup, List.NoDup_filter. by apply NoDup_ListNoDup.
    + intros id Hin. apply list_elem_of_In, filter_In in Hin as [_ Hin]. by apply bool_decide_eq_true in Hin.
Qed.

(** C24: Through any sequence of events and syncs the monitor's containers are exactly the
    cached ones that run and are not paused, with their environments. *)
Theorem monitored_are_running (l : list dockerEvent) :
  Forall docker_event_ok l → Forall lists_once l →
  let w := foldl (onDockerEvent imageFilter order) {| w_cache := ∅; w_running := ∅ |} l in w_running w = omap monitoredOf (w_cache w).
Proof.
  intros Hl Ho. assert (Hw : watch_inv {| w_cache := ∅; w_running := ∅ |}) by (split; [apply map_Forall_empty | done]).
  cut (watch_inv (foldl (onDockerEvent imageFilter order) {| w_cache := ∅; w_running := ∅ |} l)); [by intros []|].
  revert Hw. generalize {| w_cache := ∅; w_running := ∅ |}. induction Hl as [|e l He _ IH]; intros w Hw; [done|].
  apply Forall_cons in Ho as [Ho1 Ho2]. apply (IH Ho2). by apply onDockerEvent_inv.
Qed.

(** A cached container that is not monitored. *)
Definition overlooked (id : string) (c : ContainerJSON) (w : watch) : Prop :=
  w_cache w !! id = Some c ∧ w_running w !! id = None ∧ map_Forall (λ id c, cj_ID c = id) (w_cache w).

Lemma addMissing_overlooked inspect id c w x : (∀ id c, inspect id = Some c → cj_ID c = id) → x ≠ id →
  overlooked id c w → overlooked id c (addMissing imageFilter inspect w x).
Proof.
  intros Hi Hne (Hc & Hr & Hids).
  assert (Hids' : map_Forall (λ id c, cj_ID c = id) (w_cache (addMissing imageFilter inspect w x))).
  { unfold addMissing, updateContainer. destruct (inspect x) as [d|] eqn:Hd; [|done]. destruct (excluded imageFilter (cj_Image d)); [done|].
    apply map_Forall_insert_2; [by apply Hi|done]. }
  split_and!; [by rewrite addMissing_other| |done]. cbn [addMissing w_running]. unfold changeHandler.
  destruct ((updateContainer imageFilter x (inspect x) (w_cache w)).2 !! x) as [d|] eqn:Hd; [|done]. specialize (Hids' x d Hd). cbn in Hids'.
  destruct (isActive d); [rewrite lookup_insert_ne by congruence|rewrite lookup_delete_ne by congruence]; done.
Qed.
Lemma dropStale_overlooked id c w x : x ≠ id → overlooked id c w → overlooked id c (dropStale w x).
Proof.
  intros Hne (Hc & Hr & Hids). split_and!; cbn [dropStale w_cache w_running]; [by rewrite lookup_delete_ne| |by apply map_Forall_delete].
  destruct (w_cache w !! x) as [d|] eqn:Hd; [|done]. cbn. specialize (Hids x d Hd). cbn in Hids. rewrite lookup_delete_ne; [done|congruence].
Qed.
Lemma foldl_overlooked (f : watch → string → watch) id c l w : (∀ w x, x ≠ id → overlooked id c w → overlooked id c (f w x)) →
  id ∉ l → overlooked id c w → overlooked id c (foldl f w l).
Proof.
  intros Hf. revert w. induction l as [|x l IH]; intros w Hx Hw; [done|]. apply not_elem_of_cons in Hx as [Hne Hx]. apply (IH _ Hx). by apply Hf.
Qed.

(** A container that is cached as stopped is not looked at again by any sync, however
    often the engine lists it as running: when its start event could not be inspected
    it is not monitored until its next event. *)
Theorem stopped_container_not_resynced (w : watch) (l : list dockerEvent) (id : string) (c : ContainerJSON) :
  overlooked id c w →
  Forall (λ e, docker_event_ok e ∧ ∃ listed inspect, e = Sync (Some listed) inspect ∧ id ∈ listed) l →
  w_running (foldl (onDockerEvent imageFilter order) w l) !! id = None.
Proof.
  intros Hw Hl. cut (overlooked id c (foldl (onDockerEvent imageFilter order) w l)); [by intros (_ & ? & _)|].
  revert w Hw. induction Hl as [|e l (He & listed & inspect & -> & Hin) _ IH]; intros w Hw; [done|]. apply IH. cbn [onDockerEvent syncContainerList].
  apply foldl_overlooked; [intros; by apply dropStale_overlooked| |apply foldl_overlooked; [intros; by apply addMissing_overlooked| |done]].
  - intros Hx. apply list_elem_of_In, filter_In in Hx as [_ Hx]. by apply bool_decide_eq_true in Hx.
  - intros Hx. apply list_elem_of_In, filter_In in Hx as [_ Hx]. apply bool_decide_eq_true in Hx. destruct Hw as (Hc & _). congruence.
Qed.
End watch_theorems.

(** ** Metric groups *)

Lemma groupMetrics_checked : forallb (λ g, bool_decide (groupMetrics g = map (λ m, m.1.1) (List.filter (λ m, String.eqb m.2 g) dockerMetrics)))
  ["blkio"; "cpu"; "memory"; "network"] = true.
Proof. vm_compute. reflexivity. Qed.

Definition defaultOf (group : string) : string :=
  if String.eqb group "blkio" then "blkio.io_service_bytes_recursive.read" else if String.eqb group "cpu" then "cpu.usage.total"
  else if String.eqb group "memory" then "memory.usage.limit" else "network.usage.rx_bytes".

(** Whenever the default metrics are enabled, which no filter of the default set
    excludes, all four groups of extra metrics are computed, whatever the
    configuration says. *)
Theorem extra_groups_always_enabled (conf : EnhancedMetricsConfig) (enabledMetrics : list string) :
  (∀ m, m ∈ dockerDefaultMetrics → m ∈ enabledMetrics) →
  EnableExtraGroups conf enabledMetrics = {| extraBlockIO := true; extraCPU := true; extraMemory := true; extraNetwork := true |}.
Proof.
  intros Hd. assert (Hg : ∀ g b, g ∈ ["blkio"; "cpu"; "memory"; "network"] → groupEnabled b enabledMetrics g = true).
  { intros g b Hin. unfold groupEnabled. apply orb_true_iff. right. apply existsb_elem. exists (defaultOf g).
    assert (Hall : forallb (λ g, existsb (String.eqb (defaultOf g)) dockerDefaultMetrics && bool_decide (metricGroup (defaultOf g) = Some g)) ["blkio"; "cpu"; "memory"; "network"] = true)
      by (vm_compute; reflexivity).
    pose proof (proj1 (forallb_elem _ _) Hall g Hin) as Hx. apply andb_true_iff in Hx as [H1 H2]. split; [|done].
    apply existsb_elem in H1 as (x & Hx & ->%String.eqb_eq). by apply Hd. }
  unfold EnableExtraGroups. rewrite !Hg by (repeat first [left | right]). done.
Qed.

(** ** Data points *)

Lemma withDims_lookup l d k v : NoDup l.*1 → (k, v) ∈ l → sd_Dimensions (withDims l d) !! k = Some v.
Proof.
  cbn. generalize (sd_Dimensions d). induction l as [|[k' v'] l IH]; intros m Hnd; [by intros ?%not_elem_of_nil|]. cbn [fmap list_fmap] in Hnd.
  apply NoDup_cons in Hnd as [Hk Hnd]. cbn [foldl fst snd]. intros [[= -> ->]|Hin]%elem_of_cons; [|by apply IH].
  assert (Hout : ∀ l (m : gmap string string), k' ∉ l.*1 → foldl (λ m kv, <[kv.1 := kv.2]> m) m l !! k' = m !! k').
  { clear. induction l as [|[x y] l IH]; intros m Hx; [done|]. cbn in Hx. apply not_elem_of_cons in Hx as [Hne Hx]. cbn. rewrite IH by done. by apply lookup_insert_ne. }
  rewrite Hout by done. apply lookup_insert_eq.
Qed.

(** Without extra groups only default metrics are reported, and every point says which
    container it is of. *)
Theorem default_points `{MapRange} (c : ContainerJSON) (parsed : StatsJSON) (dp : sfxDatapoint) :
  dp ∈ ConvertStatsToMetrics c parsed {| extraBlockIO := false; extraCPU := false; extraMemory := false; extraNetwork := false |} →
  sd_Metric dp ∈ dockerDefaultMetrics ∧ ∀ k v, (k, v) ∈ containerDims c → sd_Dimensions dp !! k = Some v.
Proof.
  intros (d & -> & Hin)%list_elem_of_fmap. split; [|intros k v Hkv; apply withDims_lookup; [|done]; cbn; apply NoDup_ListNoDup; repeat constructor; cbn; intuition discriminate].
  change (sd_Metric (withDims (containerDims c) d)) with (sd_Metric d).
  assert (Hn : existsb (String.eqb (sd_Metric d)) dockerDefaultMetrics = true); [|apply existsb_elem in Hn as (x & Hx & ->%String.eqb_eq); exact Hx].
  cbn [extraBlockIO extraCPU extraMemory extraNetwork] in Hin. rewrite !elem_of_app in Hin. destruct Hin as [Hin|[Hin|[Hin|Hin]]].
  - unfold convertBlkioStats in Hin. apply list_elem_of_In, in_flat_map in Hin as (kv & _ & Hin). apply in_flat_map in Hin as (e & _ & Hin).
    unfold blkioPoint in Hin. destruct (String.eqb (be_Op e) ""); [done|]. cbn [orb] in Hin.
    destruct (existsb (String.eqb _) basicBlockIOMetrics) eqn:He; [|done]. destruct Hin as [<-|[]]. cbn [cumulative sd_Metric mkDatapoint].
    apply existsb_elem in He as (x & Hx & ->%String.eqb_eq). apply elem_of_cons in Hx as [->|Hx]; [done|]. by apply list_elem_of_singleton in Hx as ->.
  - apply elem_of_cons in Hin as [->|Hin]; [done|]. by apply list_elem_of_singleton in Hin as ->.
  - apply elem_of_cons in Hin as [->|Hin]; [done|]. by apply list_elem_of_singleton in Hin as ->.
  - unfold convertNetworkStats in Hin. apply list_elem_of_In, in_flat_map in Hin as (kv & _ & Hin). by destruct Hin as [<-|[<-|[]]].
Qed.

(** The unsigned subtraction and its conversion to a signed integer cancel: memory use
    without the cache is exact, also when the cache is counted larger than the use. *)
Lemma memoryTotal_exact (stats : DockerMemory) : dm_PrivateWorkingSet stats = 0 →
  - 2 ^ 63 ≤ dm_Usage stats - default 0 (dm_Stats stats !! "total_cache") < 2 ^ 63 →
  sd_Value (memoryTotal stats) = IntValue (dm_Usage stats - default 0 (dm_Stats stats !! "total_cache")).
Proof.
  intros Hp Hr. unfold memoryTotal, gauge. cbn [sd_Value mkDatapoint]. rewrite Hp. cbn [Z.eqb]. f_equal. set (d := _ - _) in *.
  unfold i64, u64. rewrite Z.mod_mod by lia. destruct (decide (0 ≤ d)) as [Hd|Hd].
  - rewrite Z.mod_small by lia. destruct (Z.ltb_spec d (2 ^ 63)); lia.
  - assert (E : d mod 2 ^ 64 = d + 2 ^ 64) by (symmetry; apply (Z.mod_unique_pos _ _ (-1)); lia). rewrite E. destruct (Z.ltb_spec (d + 2 ^ 64) (2 ^ 63)); lia.
Qed.

(** An environment variable's value is cut at its first equals sign, so that a
    dimension made from it has a prefix of the value only. *)
Theorem env_value_cut (k a b : string) :
  ContainsByte k "="%char = false → ContainsByte a "="%char = false → TrimSpace a ≠ "" →
  parseContainerEnvSlice [k +:+ String "="%char (a +:+ String "="%char b)] !! k = Some a.
Proof.
  intros Hk Ha Ht. unfold parseContainerEnvSlice. cbn [foldl]. unfold parseEnv. rewrite !SplitByte_app by done.
  destruct (String.eqb_spec (TrimSpace a) ""); [done|]. apply lookup_insert_eq.
Qed.

(** ** Examples *)

Definition demo_container (active : bool) : ContainerJSON :=
  {| cj_ID := "c1"; cj_Name := "/web"; cj_Image := "nginx"; cj_Hostname := "h"; cj_Running := active; cj_Paused := false; cj_Env := ["OPTS=-Xa=b"]; cj_Labels := ∅ |}.
Definition demo_inspect (id : string) : option ContainerJSON := if String.eqb id "c1" then Some (demo_container true) else None.
Definition demo_order : gset string → list string := elements.

Lemma demo_inspect_ok : docker_event_ok (Sync (Some ["c1"]) demo_inspect).
Proof. intros id c. unfold demo_inspect. destruct (String.eqb_spec id "c1") as [->|]; [by intros [= <-] | done]. Qed.

Lemma monitored_are_running_witness :
  let w := foldl (onDockerEvent None demo_order) {| w_cache := ∅; w_running := ∅ |} [Sync (Some ["c1"]) demo_inspect; Changed "c1" (Some (demo_container false))] in
  w_running w = omap monitoredOf (w_cache w).
Proof.
  apply (monitored_are_running None demo_order [Sync (Some ["c1"]) demo_inspect; Changed "c1" (Some (demo_container false))]).
  - constructor; [exact demo_inspect_ok|]. constructor; [|constructor]. intros c [= <-]. reflexivity.
  - constructor; [apply NoDup_singleton|]. constructor; [exact I|constructor].
Defined.

Lemma stopped_container_not_resynced_witness :
  let w := {| w_cache := {["c1" := demo_container false]}; w_running := ∅ |} in
  w_running (foldl (onDockerEvent None demo_order) w [Sync (Some ["c1"]) demo_inspect; Sync (Some ["c1"]) demo_inspect]) !! "c1" = None.
Proof.
  apply (stopped_container_not_resynced None demo_order _ _ "c1" (demo_container false)).
  - split; [reflexivity|]. split; [reflexivity|]. apply map_Forall_singleton. reflexivity.
  - assert (He : docker_event_ok (Sync (Some ["c1"]) demo_inspect) ∧ ∃ listed inspect, Sync (Some ["c1"]) demo_inspect = Sync (Some listed) inspect ∧ "c1" ∈ listed)
      by (split; [exact demo_inspect_ok|]; do 2 eexists; split; [reflexivity|left]).
    constructor; [exact He|]. constructor; [exact He|constructor].
Defined.

Lemma extra_groups_always_enabled_witness :
  EnableExtraGroups {| extraBlockIO := false; extraCPU := false; extraMemory := false; extraNetwork := false |} dockerDefaultMetrics =
  {| extraBlockIO := true; extraCPU := true; extraMemory := true; extraNetwork := true |}.
Proof. apply extra_groups_always_enabled. intros m Hm. exact Hm. Defined.

Definition demo_cpu : DockerCPU :=
  {| dc_Total := 5; dc_System := 10; dc_Kernel := 1; dc_User := 1; dc_Percpu := []; dc_Online := 1; dc_Periods := 0; dc_ThrottledPeriods := 0; dc_ThrottledTime := 0 |}.
Definition demo_stats : StatsJSON :=
  {| st_Blkio := ∅; st_CPU := demo_cpu; st_PreCPU := demo_cpu;
     st_Memory := {| dm_Limit := 100; dm_Usage := 50; dm_Max := 60; dm_PrivateWorkingSet := 0; dm_Stats := ∅ |}; st_Networks := ∅ |}.

Lemma default_points_witness :
  let dp := withDims (containerDims (demo_container true)) (cumulative "cpu.usage.total" ∅ 5) in
  sd_Metric dp ∈ dockerDefaultMetrics ∧ ∀ k v, (k, v) ∈ containerDims (demo_container true) → sd_Dimensions dp !! k = Some v.
Proof.
  apply (@default_points forward_range (demo_container true) demo_stats). apply list_elem_of_fmap. eexists. split; [reflexivity|].
  apply elem_of_app. right. apply elem_of_app. left. left.
Defined.

Lemma env_value_cut_witness : parseContainerEnvSlice ["OPTS" +:+ String "="%char ("-Xa" +:+ String "="%char "b")] !! "OPTS" = Some "-Xa".
Proof. apply (env_value_cut "OPTS" "-Xa" "b"); [reflexivity | reflexivity | discriminate]. Defined.
