(* ===== verification/DatabricksMetadata.v ===== *)
(** * The metrics of the databricks receiver

    [src/internal/receiver/databricksreceiver/internal/metadata]: the description of
    every metric ([generated_metrics.go] has a type with the same methods for each,
    here a value of [metricInfo]), the builder that buffers recorded points until they
    are emitted under a resource, and the builder of resources
    ([generated_resource.go]). *)

From S2P Require Import Prelude GoValue Settings Telemetry.
#[local] Open Scope Z_scope.

(** ** Metrics *)

Inductive instrument := IGauge | ISum (t : temporality) (monotonic : bool).
Record metricInfo := {
  mi_Name : string; mi_Description : string; mi_Unit : string; mi_Instrument : instrument;
  (** The keys of the attributes, in the order of the arguments of the function that records a point. *)
  mi_Attrs : list string;
}.

Definition appAttrs : list string := ["cluster.id"; "spark.app.id"].
Definition pipelineAttrs : list string := ["cluster.id"; "spark.app.id"; "pipeline.id"; "pipeline.name"].
Definition jobAttrs : list string := ["cluster.id"; "spark.app.id"; "spark.job.id"].
Definition executorAttrs : list string := ["cluster.id"; "spark.app.id"; "spark.executor.id"].

Definition metricDatabricksJobsActiveTotal : metricInfo :=
  {| mi_Name := "databricks.jobs.active.total"; mi_Description := "A snapshot of the number of active jobs taken at each scrape"; mi_Unit := "{jobs}";
     mi_Instrument := IGauge; mi_Attrs := [] |}.
Definition metricDatabricksJobsRunDuration : metricInfo :=
  {| mi_Name := "databricks.jobs.run.duration"; mi_Description := "The execution duration in milliseconds per completed job"; mi_Unit := "ms";
     mi_Instrument := IGauge; mi_Attrs := ["job.id"] |}.
Definition metricDatabricksJobsScheduleStatus : metricInfo :=
  {| mi_Name := "databricks.jobs.schedule.status"; mi_Description := "A snapshot of the pause/run status per job taken at each scrape"; mi_Unit := "{status}";
     mi_Instrument := IGauge; mi_Attrs := ["job.id"] |}.
Definition metricDatabricksJobsTotal : metricInfo :=
  {| mi_Name := "databricks.jobs.total"; mi_Description := "A snapshot of the total number of jobs registered in the Databricks instance taken at each scrape"; mi_Unit := "{jobs}";
     mi_Instrument := IGauge; mi_Attrs := [] |}.
Definition metricDatabricksSparkBlockManagerMemoryDiskSpaceUsed : metricInfo :=
  {| mi_Name := "databricks.spark.block_manager.memory.disk_space.used"; mi_Description := "n/a"; mi_Unit := "mb";
     mi_Instrument := IGauge; mi_Attrs := pipelineAttrs |}.
Definition metricDatabricksSparkBlockManagerMemoryMax : metricInfo :=
  {| mi_Name := "databricks.spark.block_manager.memory.max"; mi_Description := "n/a"; mi_Unit := "mb";
     mi_Instrument := IGauge; mi_Attrs := pipelineAttrs |}.
Definition metricDatabricksSparkBlockManagerMemoryOffHeapMax : metricInfo :=
  {| mi_Name := "databricks.spark.block_manager.memory.off_heap.max"; mi_Description := "n/a"; mi_Unit := "mb";
     mi_Instrument := IGauge; mi_Attrs := pipelineAttrs |}.
Definition metricDatabricksSparkBlockManagerMemoryOffHeapUsed : metricInfo :=
  {| mi_Name := "databricks.spark.block_manager.memory.off_heap.used"; mi_Description := "n/a"; mi_Unit := "mb";
     mi_Instrument := IGauge; mi_Attrs := pipelineAttrs |}.
Definition metricDatabricksSparkBlockManagerMemoryOnHeapMax : metricInfo :=
  {| mi_Name := "databricks.spark.block_manager.memory.on_heap.max"; mi_Description := "n/a"; mi_Unit := "mb";
     mi_Instrument := IGauge; mi_Attrs := pipelineAttrs |}.
Definition metricDatabricksSparkBlockManagerMemoryOnHeapUsed : metricInfo :=
  {| mi_Name := "databricks.spark.block_manager.memory.on_heap.used"; mi_Description := "n/a"; mi_Unit := "mb";
     mi_Instrument := IGauge; mi_Attrs := pipelineAttrs |}.
Definition metricDatabricksSparkBlockManagerMemoryRemaining : metricInfo :=
  {| mi_Name := "databricks.spark.block_manager.memory.remaining"; mi_Description := "n/a"; mi_Unit := "mb";
     mi_Instrument := IGauge; mi_Attrs := pipelineAttrs |}.
Definition metricDatabricksSparkBlockManagerMemoryRemainingOffHeap : metricInfo :=
  {| mi_Name := "databricks.spark.block_manager.memory.remaining.off_heap"; mi_Description := "n/a"; mi_Unit := "mb";
     mi_Instrument := IGauge; mi_Attrs := pipelineAttrs |}.
Definition metricDatabricksSparkBlockManagerMemoryRemainingOnHeap : metricInfo :=
  {| mi_Name := "databricks.spark.block_manager.memory.remaining.on_heap"; mi_Description := "n/a"; mi_Unit := "mb";
     mi_Instrument := IGauge; mi_Attrs := pipelineAttrs |}.
Definition metricDatabricksSparkBlockManagerMemoryUsed : metricInfo :=
  {| mi_Name := "databricks.spark.block_manager.memory.used"; mi_Description := "n/a"; mi_Unit := "mb";
     mi_Instrument := IGauge; mi_Attrs := pipelineAttrs |}.
Definition metricDatabricksSparkCodeGeneratorCompilationTime : metricInfo :=
  {| mi_Name := "databricks.spark.code_generator.compilation.time"; mi_Description := "This value comes from the 'mean' field in a histogram returned by the /metrics/json/ endpoint."; mi_Unit := "ns";
     mi_Instrument := IGauge; mi_Attrs := pipelineAttrs |}.
Definition metricDatabricksSparkCodeGeneratorGeneratedClassSize : metricInfo :=
  {| mi_Name := "databricks.spark.code_generator.generated_class_size"; mi_Description := "This value comes from the 'mean' field in a histogram returned by the /metrics/json/ endpoint."; mi_Unit := "By";
     mi_Instrument := IGauge; mi_Attrs := pipelineAttrs |}.
Definition metricDatabricksSparkCodeGeneratorGeneratedMethodSize : metricInfo :=
  {| mi_Name := "databricks.spark.code_generator.generated_method_size"; mi_Description := "This value comes from the 'mean' field in a histogram returned by the /metrics/json/ endpoint."; mi_Unit := "By";
     mi_Instrument := IGauge; mi_Attrs := pipelineAttrs |}.
Definition metricDatabricksSparkCodeGeneratorSourcecodeSize : metricInfo :=
  {| mi_Name := "databricks.spark.code_generator.sourcecode_size"; mi_Description := "This value comes from the 'mean' field in a histogram returned by the /metrics/json/ endpoint."; mi_Unit := "By";
     mi_Instrument := IGauge; mi_Attrs := pipelineAttrs |}.
Definition metricDatabricksSparkDagSchedulerJobsActive : metricInfo :=
  {| mi_Name := "databricks.spark.dag_scheduler.jobs.active"; mi_Description := "n/a"; mi_Unit := "{jobs}";
     mi_Instrument := IGauge; mi_Attrs := pipelineAttrs |}.
Definition metricDatabricksSparkDagSchedulerJobsAll : metricInfo :=
  {| mi_Name := "databricks.spark.dag_scheduler.jobs.all"; mi_Description := "n/a"; mi_Unit := "{jobs}";
     mi_Instrument := IGauge; mi_Attrs := pipelineAttrs |}.
Definition metricDatabricksSparkDagSchedulerStagesFailed : metricInfo :=
  {| mi_Name := "databricks.spark.dag_scheduler.stages.failed"; mi_Description := "n/a"; mi_Unit := "{stages}";
     mi_Instrument := IGauge; mi_Attrs := pipelineAttrs |}.
Definition metricDatabricksSparkDagSchedulerStagesRunning : metricInfo :=
  {| mi_Name := "databricks.spark.dag_scheduler.stages.running"; mi_Description := "n/a"; mi_Unit := "{stages}";
     mi_Instrument := IGauge; mi_Attrs := pipelineAttrs |}.
Definition metricDatabricksSparkDagSchedulerStagesWaiting : metricInfo :=
  {| mi_Name := "databricks.spark.dag_scheduler.stages.waiting"; mi_Description := "n/a"; mi_Unit := "{stages}";
     mi_Instrument := IGauge; mi_Attrs := pipelineAttrs |}.
Definition metricDatabricksSparkDatabricksDirectoryCommitAutoVacuumCount : metricInfo :=
  {| mi_Name := "databricks.spark.databricks.directory_commit.auto_vacuum.count"; mi_Description := "n/a"; mi_Unit := "{auto-vacuums}";
     mi_Instrument := ISum Cumulative false; mi_Attrs := pipelineAttrs |}.
Definition metricDatabricksSparkDatabricksDirectoryCommitDeletedFilesFiltered : metricInfo :=
  {| mi_Name := "databricks.spark.databricks.directory_commit.deleted_files_filtered"; mi_Description := "n/a"; mi_Unit := "{files}";
     mi_Instrument := ISum Cumulative false; mi_Attrs := pipelineAttrs |}.
Definition metricDatabricksSparkDatabricksDirectoryCommitFilterListingCount : metricInfo :=
  {| mi_Name := "databricks.spark.databricks.directory_commit.filter_listing.count"; mi_Description := "n/a"; mi_Unit := "{filters}";
     mi_Instrument := ISum Cumulative false; mi_Attrs := pipelineAttrs |}.
Definition metricDatabricksSparkDatabricksDirectoryCommitJobCommitCompleted : metricInfo :=
  {| mi_Name := "databricks.spark.databricks.directory_commit.job_commit_completed"; mi_Description := "n/a"; mi_Unit := "{commits}";
     mi_Instrument := ISum Cumulative false; mi_Attrs := pipelineAttrs |}.
Definition metricDatabricksSparkDatabricksDirectoryCommitMarkerReadErrors : metricInfo :=
  {| mi_Name := "databricks.spark.databricks.directory_commit.marker_read.errors"; mi_Description := "n/a"; mi_Unit := "{errors}";
     mi_Instrument := ISum Cumulative false; mi_Attrs := pipelineAttrs |}.
Definition metricDatabricksSparkDatabricksDirectoryCommitMarkerRefreshCount : metricInfo :=
  {| mi_Name := "databricks.spark.databricks.directory_commit.marker_refresh.count"; mi_Description := "n/a"; mi_Unit := "{refreshes}";
     mi_Instrument := ISum Cumulative false; mi_Attrs := pipelineAttrs |}.
Definition metricDatabricksSparkDatabricksDirectoryCommitMarkerRefreshErrors : metricInfo :=
  {| mi_Name := "databricks.spark.databricks.directory_commit.marker_refresh.errors"; mi_Description := "n/a"; mi_Unit := "{errors}";
     mi_Instrument := ISum Cumulative false; mi_Attrs := pipelineAttrs |}.
Definition metricDatabricksSparkDatabricksDirectoryCommitMarkersRead : metricInfo :=
  {| mi_Name := "databricks.spark.databricks.directory_commit.markers.read"; mi_Description := "n/a"; mi_Unit := "{markers}";
     mi_Instrument := ISum Cumulative false; mi_Attrs := pipelineAttrs |}.
Definition metricDatabricksSparkDatabricksDirectoryCommitRepeatedListCount : metricInfo :=
  {| mi_Name := "databricks.spark.databricks.directory_commit.repeated_list.count"; mi_Description := "n/a"; mi_Unit := "{lists}";
     mi_Instrument := ISum Cumulative false; mi_Attrs := pipelineAttrs |}.
Definition metricDatabricksSparkDatabricksDirectoryCommitUncommittedFilesFiltered : metricInfo :=
  {| mi_Name := "databricks.spark.databricks.directory_commit.uncommitted_files.filtered"; mi_Description := "n/a"; mi_Unit := "{files}";
     mi_Instrument := ISum Cumulative false; mi_Attrs := pipelineAttrs |}.
Definition metricDatabricksSparkDatabricksDirectoryCommitUntrackedFilesFound : metricInfo :=
  {| mi_Name := "databricks.spark.databricks.directory_commit.untracked_files.found"; mi_Description := "n/a"; mi_Unit := "{files}";
     mi_Instrument := ISum Cumulative false; mi_Attrs := pipelineAttrs |}.
Definition metricDatabricksSparkDatabricksDirectoryCommitVacuumCount : metricInfo :=
  {| mi_Name := "databricks.spark.databricks.directory_commit.vacuum.count"; mi_Description := "n/a"; mi_Unit := "{vaccums}";
     mi_Instrument := ISum Cumulative false; mi_Attrs := pipelineAttrs |}.
Definition metricDatabricksSparkDatabricksDirectoryCommitVacuumErrors : metricInfo :=
  {| mi_Name := "databricks.spark.databricks.directory_commit.vacuum.errors"; mi_Description := "n/a"; mi_Unit := "{errors}";
     mi_Instrument := ISum Cumulative false; mi_Attrs := pipelineAttrs |}.
Definition metricDatabricksSparkDatabricksPreemptionChecksCount : metricInfo :=
  {| mi_Name := "databricks.spark.databricks.preemption.checks.count"; mi_Description := "n/a"; mi_Unit := "{checks}";
     mi_Instrument := ISum Cumulative false; mi_Attrs := pipelineAttrs |}.
Definition metricDatabricksSparkDatabricksPreemptionPoolsAutoexpiredCount : metricInfo :=
  {| mi_Name := "databricks.spark.databricks.preemption.pools_autoexpired.count"; mi_Description := "n/a"; mi_Unit := "{pools}";
     mi_Instrument := ISum Cumulative false; mi_Attrs := pipelineAttrs |}.
Definition metricDatabricksSparkDatabricksPreemptionPoolstarvationTime : metricInfo :=
  {| mi_Name := "databricks.spark.databricks.preemption.poolstarvation.time"; mi_Description := "n/a"; mi_Unit := "ms";
     mi_Instrument := ISum Cumulative false; mi_Attrs := pipelineAttrs |}.
Definition metricDatabricksSparkDatabricksPreemptionSchedulerOverheadTime : metricInfo :=
  {| mi_Name := "databricks.spark.databricks.preemption.scheduler_overhead.time"; mi_Description := "n/a"; mi_Unit := "ns";
     mi_Instrument := ISum Cumulative false; mi_Attrs := pipelineAttrs |}.
Definition metricDatabricksSparkDatabricksPreemptionTaskWastedTime : metricInfo :=
  {| mi_Name := "databricks.spark.databricks.preemption.task_wasted.time"; mi_Description := "n/a"; mi_Unit := "ms";
     mi_Instrument := ISum Cumulative false; mi_Attrs := pipelineAttrs |}.
Definition metricDatabricksSparkDatabricksPreemptionTasksPreemptedCount : metricInfo :=
  {| mi_Name := "databricks.spark.databricks.preemption.tasks_preempted.count"; mi_Description := "n/a"; mi_Unit := "{tasks}";
     mi_Instrument := ISum Cumulative false; mi_Attrs := pipelineAttrs |}.
Definition metricDatabricksSparkDatabricksTaskSchedulingLanesActivePools : metricInfo :=
  {| mi_Name := "databricks.spark.databricks.task_scheduling_lanes.active_pools"; mi_Description := "n/a"; mi_Unit := "{pools}";
     mi_Instrument := ISum Cumulative false; mi_Attrs := pipelineAttrs |}.
Definition metricDatabricksSparkDatabricksTaskSchedulingLanesBypassLaneActivePools : metricInfo :=
  {| mi_Name := "databricks.spark.databricks.task_scheduling_lanes.bypass_lane_active_pools"; mi_Description := "n/a"; mi_Unit := "{pools}";
     mi_Instrument := ISum Cumulative false; mi_Attrs := pipelineAttrs |}.
Definition metricDatabricksSparkDatabricksTaskSchedulingLanesFastLaneActivePools : metricInfo :=
  {| mi_Name := "databricks.spark.databricks.task_scheduling_lanes.fast_lane_active_pools"; mi_Description := "n/a"; mi_Unit := "{pools}";
     mi_Instrument := ISum Cumulative false; mi_Attrs := pipelineAttrs |}.
Definition metricDatabricksSparkDatabricksTaskSchedulingLanesFinishedQueriesTotalTaskTime : metricInfo :=
  {| mi_Name := "databricks.spark.databricks.task_scheduling_lanes.finished_queries_total_task.time"; mi_Description := "n/a"; mi_Unit := "ns";
     mi_Instrument := ISum Cumulative false; mi_Attrs := pipelineAttrs |}.
Definition metricDatabricksSparkDatabricksTaskSchedulingLanesLaneCleanupMarkedPools : metricInfo :=
  {| mi_Name := "databricks.spark.databricks.task_scheduling_lanes.lane_cleanup.marked_pools"; mi_Description := "n/a"; mi_Unit := "{pools}";
     mi_Instrument := ISum Cumulative false; mi_Attrs := pipelineAttrs |}.
Definition metricDatabricksSparkDatabricksTaskSchedulingLanesLaneCleanupTwoPhasePoolsCleaned : metricInfo :=
  {| mi_Name := "databricks.spark.databricks.task_scheduling_lanes.lane_cleanup.two_phase_pools_cleaned"; mi_Description := "n/a"; mi_Unit := "{pools}";
     mi_Instrument := ISum Cumulative false; mi_Attrs := pipelineAttrs |}.
Definition metricDatabricksSparkDatabricksTaskSchedulingLanesLaneCleanupZombiePoolsCleaned : metricInfo :=
  {| mi_Name := "databricks.spark.databricks.task_scheduling_lanes.lane_cleanup.zombie_pools_cleaned"; mi_Description := "n/a"; mi_Unit := "{pools}";
     mi_Instrument := ISum Cumulative false; mi_Attrs := pipelineAttrs |}.
Definition metricDatabricksSparkDatabricksTaskSchedulingLanesPreemptionSlotTransferSuccessfulPreemptionIterationsCount : metricInfo :=
  {| mi_Name := "databricks.spark.databricks.task_scheduling_lanes.preemption.slot_transfer_successful_preemption_iterations.count"; mi_Description := "n/a"; mi_Unit := "{slots}";
     mi_Instrument := ISum Cumulative false; mi_Attrs := pipelineAttrs |}.
Definition metricDatabricksSparkDatabricksTaskSchedulingLanesPreemptionSlotTransferTasksPreemptedCount : metricInfo :=
  {| mi_Name := "databricks.spark.databricks.task_scheduling_lanes.preemption.slot_transfer_tasks_preempted.count"; mi_Description := "n/a"; mi_Unit := "{slots}";
     mi_Instrument := ISum Cumulative false; mi_Attrs := pipelineAttrs |}.
Definition metricDatabricksSparkDatabricksTaskSchedulingLanesPreemptionSlotTransferWastedTaskTime : metricInfo :=
  {| mi_Name := "databricks.spark.databricks.task_scheduling_lanes.preemption.slot_transfer_wasted_task.time"; mi_Description := "n/a"; mi_Unit := "ns";
     mi_Instrument := ISum Cumulative false; mi_Attrs := pipelineAttrs |}.
Definition metricDatabricksSparkDatabricksTaskSchedulingLanesSlotReservationGradualDecreaseCount : metricInfo :=
  {| mi_Name := "databricks.spark.databricks.task_scheduling_lanes.slot_reservation.gradual_decrease.count"; mi_Description := "n/a"; mi_Unit := "{slot reservations}";
     mi_Instrument := ISum Cumulative false; mi_Attrs := pipelineAttrs |}.
Definition metricDatabricksSparkDatabricksTaskSchedulingLanesSlotReservationQuickDropCount : metricInfo :=
  {| mi_Name := "databricks.spark.databricks.task_scheduling_lanes.slot_reservation.quick_drop.count"; mi_Description := "n/a"; mi_Unit := "{slot reservations}";
     mi_Instrument := ISum Cumulative false; mi_Attrs := pipelineAttrs |}.
Definition metricDatabricksSparkDatabricksTaskSchedulingLanesSlotReservationQuickJumpCount : metricInfo :=
  {| mi_Name := "databricks.spark.databricks.task_scheduling_lanes.slot_reservation.quick_jump.count"; mi_Description := "n/a"; mi_Unit := "{slot reservations}";
     mi_Instrument := ISum Cumulative false; mi_Attrs := pipelineAttrs |}.
Definition metricDatabricksSparkDatabricksTaskSchedulingLanesSlotReservationSlotsReserved : metricInfo :=
  {| mi_Name := "databricks.spark.databricks.task_scheduling_lanes.slot_reservation.slots_reserved"; mi_Description := "n/a"; mi_Unit := "{slot reservations}";
     mi_Instrument := ISum Cumulative false; mi_Attrs := pipelineAttrs |}.
Definition metricDatabricksSparkDatabricksTaskSchedulingLanesSlowLaneActivePools : metricInfo :=
  {| mi_Name := "databricks.spark.databricks.task_scheduling_lanes.slow_lane_active_pools"; mi_Description := "n/a"; mi_Unit := "{pools}";
     mi_Instrument := ISum Cumulative false; mi_Attrs := pipelineAttrs |}.
Definition metricDatabricksSparkDatabricksTaskSchedulingLanesTotalquerygroupsfinished : metricInfo :=
  {| mi_Name := "databricks.spark.databricks.task_scheduling_lanes.totalquerygroupsfinished"; mi_Description := "n/a"; mi_Unit := "{query groups}";
     mi_Instrument := ISum Cumulative false; mi_Attrs := pipelineAttrs |}.
Definition metricDatabricksSparkExecutorDiskUsed : metricInfo :=
  {| mi_Name := "databricks.spark.executor.disk_used"; mi_Description := "n/a"; mi_Unit := "By";
     mi_Instrument := IGauge; mi_Attrs := executorAttrs |}.
Definition metricDatabricksSparkExecutorMaxMemory : metricInfo :=
  {| mi_Name := "databricks.spark.executor.max_memory"; mi_Description := "n/a"; mi_Unit := "By";
     mi_Instrument := IGauge; mi_Attrs := executorAttrs |}.
Definition metricDatabricksSparkExecutorMemoryUsed : metricInfo :=
  {| mi_Name := "databricks.spark.executor.memory_used"; mi_Description := "n/a"; mi_Unit := "By";
     mi_Instrument := IGauge; mi_Attrs := executorAttrs |}.
Definition metricDatabricksSparkExecutorTotalInputBytes : metricInfo :=
  {| mi_Name := "databricks.spark.executor.total_input_bytes"; mi_Description := "n/a"; mi_Unit := "By";
     mi_Instrument := ISum Delta false; mi_Attrs := executorAttrs |}.
Definition metricDatabricksSparkExecutorTotalShuffleRead : metricInfo :=
  {| mi_Name := "databricks.spark.executor.total_shuffle_read"; mi_Description := "n/a"; mi_Unit := "By";
     mi_Instrument := ISum Delta false; mi_Attrs := executorAttrs |}.
Definition metricDatabricksSparkExecutorTotalShuffleWrite : metricInfo :=
  {| mi_Name := "databricks.spark.executor.total_shuffle_write"; mi_Description := "n/a"; mi_Unit := "By";
     mi_Instrument := ISum Delta false; mi_Attrs := executorAttrs |}.
Definition metricDatabricksSparkExecutorMetricsDirectPoolMemory : metricInfo :=
  {| mi_Name := "databricks.spark.executor_metrics.direct_pool.memory"; mi_Description := "Peak memory that the JVM is using for direct buffer pool"; mi_Unit := "By";
     mi_Instrument := IGauge; mi_Attrs := pipelineAttrs |}.
Definition metricDatabricksSparkExecutorMetricsJvmHeapMemory : metricInfo :=
  {| mi_Name := "databricks.spark.executor_metrics.jvm.heap.memory"; mi_Description := "Peak memory usage of the heap that is used for object allocation. See https://spark.apache.org/docs/latest/monitoring.html"; mi_Unit := "By";
     mi_Instrument := IGauge; mi_Attrs := pipelineAttrs |}.
Definition metricDatabricksSparkExecutorMetricsJvmOffHeapMemory : metricInfo :=
  {| mi_Name := "databricks.spark.executor_metrics.jvm.off_heap.memory"; mi_Description := "Peak memory usage of non-heap memory that is used by the Java virtual machine. See https://spark.apache.org/docs/latest/monitoring.html"; mi_Unit := "By";
     mi_Instrument := IGauge; mi_Attrs := pipelineAttrs |}.
Definition metricDatabricksSparkExecutorMetricsMajorGcCount : metricInfo :=
  {| mi_Name := "databricks.spark.executor_metrics.major_gc.count"; mi_Description := "Total major GC count. For example, the garbage collector is one of MarkSweepCompact, PS MarkSweep, ConcurrentMarkSweep, G1 Old Generation and so on."; mi_Unit := "{gc_operations}";
     mi_Instrument := IGauge; mi_Attrs := pipelineAttrs |}.
Definition metricDatabricksSparkExecutorMetricsMajorGcTime : metricInfo :=
  {| mi_Name := "databricks.spark.executor_metrics.major_gc.time"; mi_Description := "Elapsed total major GC time."; mi_Unit := "ms";
     mi_Instrument := IGauge; mi_Attrs := pipelineAttrs |}.
Definition metricDatabricksSparkExecutorMetricsMappedPoolMemory : metricInfo :=
  {| mi_Name := "databricks.spark.executor_metrics.mapped_pool.memory"; mi_Description := "Peak memory that the JVM is using for mapped buffer pool"; mi_Unit := "By";
     mi_Instrument := IGauge; mi_Attrs := pipelineAttrs |}.
Definition metricDatabricksSparkExecutorMetricsMinorGcCount : metricInfo :=
  {| mi_Name := "databricks.spark.executor_metrics.minor_gc.count"; mi_Description := "Total minor GC count. For example, the garbage collector is one of Copy, PS Scavenge, ParNew, G1 Young Generation and so on."; mi_Unit := "{gc}";
     mi_Instrument := IGauge; mi_Attrs := pipelineAttrs |}.
Definition metricDatabricksSparkExecutorMetricsMinorGcTime : metricInfo :=
  {| mi_Name := "databricks.spark.executor_metrics.minor_gc.time"; mi_Description := "Elapsed total minor GC time."; mi_Unit := "ms";
     mi_Instrument := IGauge; mi_Attrs := pipelineAttrs |}.
Definition metricDatabricksSparkExecutorMetricsOffHeapExecutionMemory : metricInfo :=
  {| mi_Name := "databricks.spark.executor_metrics.off_heap.execution.memory"; mi_Description := "Peak off heap execution memory in use, in bytes."; mi_Unit := "By";
     mi_Instrument := IGauge; mi_Attrs := pipelineAttrs |}.
Definition metricDatabricksSparkExecutorMetricsOffHeapStorageMemory : metricInfo :=
  {| mi_Name := "databricks.spark.executor_metrics.off_heap.storage.memory"; mi_Description := "Peak off heap storage memory in use, in bytes."; mi_Unit := "By";
     mi_Instrument := IGauge; mi_Attrs := pipelineAttrs |}.
Definition metricDatabricksSparkExecutorMetricsOffHeapUnifiedMemory : metricInfo :=
  {| mi_Name := "databricks.spark.executor_metrics.off_heap.unified.memory"; mi_Description := "Peak off heap memory (execution and storage)."; mi_Unit := "By";
     mi_Instrument := IGauge; mi_Attrs := pipelineAttrs |}.
Definition metricDatabricksSparkExecutorMetricsOnHeapExecutionMemory : metricInfo :=
  {| mi_Name := "databricks.spark.executor_metrics.on_heap.execution.memory"; mi_Description := "Peak on heap memory (execution and storage)."; mi_Unit := "By";
     mi_Instrument := IGauge; mi_Attrs := pipelineAttrs |}.
Definition metricDatabricksSparkExecutorMetricsOnHeapStorageMemory : metricInfo :=
  {| mi_Name := "databricks.spark.executor_metrics.on_heap.storage.memory"; mi_Description := "Peak on heap storage memory in use, in bytes."; mi_Unit := "By";
     mi_Instrument := IGauge; mi_Attrs := pipelineAttrs |}.
Definition metricDatabricksSparkExecutorMetricsOnHeapUnifiedMemory : metricInfo :=
  {| mi_Name := "databricks.spark.executor_metrics.on_heap.unified.memory"; mi_Description := "Peak on heap memory (execution and storage)."; mi_Unit := "By";
     mi_Instrument := IGauge; mi_Attrs := pipelineAttrs |}.
Definition metricDatabricksSparkExecutorMetricsProcessTreeJvmRssMemory : metricInfo :=
  {| mi_Name := "databricks.spark.executor_metrics.process_tree.jvm_rss.memory"; mi_Description := "Resident Set Size: number of pages the process has in real memory. This is just the pages which count toward text, data, or stack space. This does not include pages which have not been demand-loaded in, or which are swapped out. Enabled if spark.executor.processTreeMetrics.enabled is true."; mi_Unit := "{pages}";
     mi_Instrument := IGauge; mi_Attrs := pipelineAttrs |}.
Definition metricDatabricksSparkExecutorMetricsProcessTreeJvmVMemory : metricInfo :=
  {| mi_Name := "databricks.spark.executor_metrics.process_tree.jvm_v.memory"; mi_Description := "Virtual memory size in bytes. Enabled if spark.executor.processTreeMetrics.enabled is true."; mi_Unit := "By";
     mi_Instrument := IGauge; mi_Attrs := pipelineAttrs |}.
Definition metricDatabricksSparkExecutorMetricsProcessTreeOtherRssMemory : metricInfo :=
  {| mi_Name := "databricks.spark.executor_metrics.process_tree.other_rss.memory"; mi_Description := "Resident Set Size for other kind of process. Enabled if spark.executor.processTreeMetrics.enabled is true."; mi_Unit := "{pages}";
     mi_Instrument := IGauge; mi_Attrs := pipelineAttrs |}.
Definition metricDatabricksSparkExecutorMetricsProcessTreeOtherVMemory : metricInfo :=
  {| mi_Name := "databricks.spark.executor_metrics.process_tree.other_v.memory"; mi_Description := "Virtual memory size for other kind of process in bytes. Enabled if spark.executor.processTreeMetrics.enabled is true."; mi_Unit := "By";
     mi_Instrument := IGauge; mi_Attrs := pipelineAttrs |}.
Definition metricDatabricksSparkExecutorMetricsProcessTreePythonRssMemory : metricInfo :=
  {| mi_Name := "databricks.spark.executor_metrics.process_tree.python_rss.memory"; mi_Description := "Resident Set Size for Python. Enabled if spark.executor.processTreeMetrics.enabled is true."; mi_Unit := "{pages}";
     mi_Instrument := IGauge; mi_Attrs := pipelineAttrs |}.
Definition metricDatabricksSparkExecutorMetricsProcessTreePythonVMemory : metricInfo :=
  {| mi_Name := "databricks.spark.executor_metrics.process_tree.python_v.memory"; mi_Description := "Virtual memory size for Python in bytes. Enabled if spark.executor.processTreeMetrics.enabled is true."; mi_Unit := "By";
     mi_Instrument := IGauge; mi_Attrs := pipelineAttrs |}.
Definition metricDatabricksSparkHiveExternalCatalogFileCacheHits : metricInfo :=
  {| mi_Name := "databricks.spark.hive_external_catalog.file_cache.hits"; mi_Description := "n/a"; mi_Unit := "{hits}";
     mi_Instrument := ISum Cumulative false; mi_Attrs := pipelineAttrs |}.
Definition metricDatabricksSparkHiveExternalCatalogFilesDiscovered : metricInfo :=
  {| mi_Name := "databricks.spark.hive_external_catalog.files_discovered"; mi_Description := "n/a"; mi_Unit := "{files}";
     mi_Instrument := ISum Cumulative false; mi_Attrs := pipelineAttrs |}.
Definition metricDatabricksSparkHiveExternalCatalogHiveClientCalls : metricInfo :=
  {| mi_Name := "databricks.spark.hive_external_catalog.hive_client_calls"; mi_Description := "n/a"; mi_Unit := "{calls}";
     mi_Instrument := ISum Cumulative false; mi_Attrs := pipelineAttrs |}.
Definition metricDatabricksSparkHiveExternalCatalogParallelListingJobsCount : metricInfo :=
  {| mi_Name := "databricks.spark.hive_external_catalog.parallel_listing_jobs.count"; mi_Description := "n/a"; mi_Unit := "{jobs}";
     mi_Instrument := ISum Cumulative false; mi_Attrs := pipelineAttrs |}.
Definition metricDatabricksSparkHiveExternalCatalogPartitionsFetched : metricInfo :=
  {| mi_Name := "databricks.spark.hive_external_catalog.partitions_fetched"; mi_Description := "n/a"; mi_Unit := "{partitions}";
     mi_Instrument := ISum Cumulative false; mi_Attrs := pipelineAttrs |}.
Definition metricDatabricksSparkJobNumActiveStages : metricInfo :=
  {| mi_Name := "databricks.spark.job.num_active_stages"; mi_Description := "n/a"; mi_Unit := "{stages}";
     mi_Instrument := IGauge; mi_Attrs := jobAttrs |}.
Definition metricDatabricksSparkJobNumActiveTasks : metricInfo :=
  {| mi_Name := "databricks.spark.job.num_active_tasks"; mi_Description := "n/a"; mi_Unit := "{tasks}";
     mi_Instrument := IGauge; mi_Attrs := jobAttrs |}.
Definition metricDatabricksSparkJobNumCompletedStages : metricInfo :=
  {| mi_Name := "databricks.spark.job.num_completed_stages"; mi_Description := "n/a"; mi_Unit := "{stages}";
     mi_Instrument := IGauge; mi_Attrs := jobAttrs |}.
Definition metricDatabricksSparkJobNumCompletedTasks : metricInfo :=
  {| mi_Name := "databricks.spark.job.num_completed_tasks"; mi_Description := "n/a"; mi_Unit := "{tasks}";
     mi_Instrument := IGauge; mi_Attrs := jobAttrs |}.
Definition metricDatabricksSparkJobNumFailedStages : metricInfo :=
  {| mi_Name := "databricks.spark.job.num_failed_stages"; mi_Description := "n/a"; mi_Unit := "{stages}";
     mi_Instrument := IGauge; mi_Attrs := jobAttrs |}.
Definition metricDatabricksSparkJobNumFailedTasks : metricInfo :=
  {| mi_Name := "databricks.spark.job.num_failed_tasks"; mi_Description := "n/a"; mi_Unit := "{tasks}";
     mi_Instrument := IGauge; mi_Attrs := jobAttrs |}.
Definition metricDatabricksSparkJobNumSkippedStages : metricInfo :=
  {| mi_Name := "databricks.spark.job.num_skipped_stages"; mi_Description := "n/a"; mi_Unit := "{stages}";
     mi_Instrument := IGauge; mi_Attrs := jobAttrs |}.
Definition metricDatabricksSparkJobNumSkippedTasks : metricInfo :=
  {| mi_Name := "databricks.spark.job.num_skipped_tasks"; mi_Description := "n/a"; mi_Unit := "{tasks}";
     mi_Instrument := IGauge; mi_Attrs := jobAttrs |}.
Definition metricDatabricksSparkJobNumTasks : metricInfo :=
  {| mi_Name := "databricks.spark.job.num_tasks"; mi_Description := "n/a"; mi_Unit := "{tasks}";
     mi_Instrument := IGauge; mi_Attrs := jobAttrs |}.
Definition metricDatabricksSparkJvmCPUTime : metricInfo :=
  {| mi_Name := "databricks.spark.jvm.cpu.time"; mi_Description := "n/a"; mi_Unit := "ns";
     mi_Instrument := ISum Cumulative false; mi_Attrs := pipelineAttrs |}.
Definition metricDatabricksSparkLiveListenerBusEventsPostedCount : metricInfo :=
  {| mi_Name := "databricks.spark.live_listener_bus.events_posted.count"; mi_Description := "n/a"; mi_Unit := "{events}";
     mi_Instrument := ISum Cumulative false; mi_Attrs := pipelineAttrs |}.
Definition metricDatabricksSparkLiveListenerBusQueueAppStatusDroppedEventsCount : metricInfo :=
  {| mi_Name := "databricks.spark.live_listener_bus.queue.app_status.dropped_events.count"; mi_Description := "n/a"; mi_Unit := "{events}";
     mi_Instrument := ISum Cumulative false; mi_Attrs := pipelineAttrs |}.
Definition metricDatabricksSparkLiveListenerBusQueueAppstatusSize : metricInfo :=
  {| mi_Name := "databricks.spark.live_listener_bus.queue.appstatus.size"; mi_Description := "n/a"; mi_Unit := "1";
     mi_Instrument := IGauge; mi_Attrs := pipelineAttrs |}.
Definition metricDatabricksSparkLiveListenerBusQueueExecutorManagementDroppedEventsCount : metricInfo :=
  {| mi_Name := "databricks.spark.live_listener_bus.queue.executor_management.dropped_events.count"; mi_Description := "n/a"; mi_Unit := "{events}";
     mi_Instrument := ISum Cumulative false; mi_Attrs := pipelineAttrs |}.
Definition metricDatabricksSparkLiveListenerBusQueueExecutormanagementSize : metricInfo :=
  {| mi_Name := "databricks.spark.live_listener_bus.queue.executormanagement.size"; mi_Description := "n/a"; mi_Unit := "{executor}";
     mi_Instrument := IGauge; mi_Attrs := pipelineAttrs |}.
Definition metricDatabricksSparkLiveListenerBusQueueSharedDroppedEventsCount : metricInfo :=
  {| mi_Name := "databricks.spark.live_listener_bus.queue.shared.dropped_events.count"; mi_Description := "n/a"; mi_Unit := "{events}";
     mi_Instrument := ISum Cumulative false; mi_Attrs := pipelineAttrs |}.
Definition metricDatabricksSparkLiveListenerBusQueueSharedSize : metricInfo :=
  {| mi_Name := "databricks.spark.live_listener_bus.queue.shared.size"; mi_Description := "n/a"; mi_Unit := "1";
     mi_Instrument := IGauge; mi_Attrs := pipelineAttrs |}.
Definition metricDatabricksSparkLiveListenerBusQueueStreamsDroppedEventsCount : metricInfo :=
  {| mi_Name := "databricks.spark.live_listener_bus.queue.streams.dropped_events.count"; mi_Description := "n/a"; mi_Unit := "{events}";
     mi_Instrument := ISum Cumulative false; mi_Attrs := pipelineAttrs |}.
Definition metricDatabricksSparkLiveListenerBusQueueStreamsSize : metricInfo :=
  {| mi_Name := "databricks.spark.live_listener_bus.queue.streams.size"; mi_Description := "n/a"; mi_Unit := "1";
     mi_Instrument := IGauge; mi_Attrs := pipelineAttrs |}.
Definition metricDatabricksSparkSparkSQLOperationManagerHiveOperationsCount : metricInfo :=
  {| mi_Name := "databricks.spark.spark_sql_operation_manager.hive_operations.count"; mi_Description := "n/a"; mi_Unit := "{operations}";
     mi_Instrument := IGauge; mi_Attrs := pipelineAttrs |}.
Definition metricDatabricksSparkStageDiskBytesSpilled : metricInfo :=
  {| mi_Name := "databricks.spark.stage.disk_bytes_spilled"; mi_Description := "n/a"; mi_Unit := "By";
     mi_Instrument := IGauge; mi_Attrs := jobAttrs |}.
Definition metricDatabricksSparkStageExecutorRunTime : metricInfo :=
  {| mi_Name := "databricks.spark.stage.executor_run_time"; mi_Description := "Elapsed time the executor spent running this task. This includes time fetching shuffle data. See https://spark.apache.org/docs/latest/monitoring.html#executor-metrics"; mi_Unit := "ms";
     mi_Instrument := IGauge; mi_Attrs := jobAttrs |}.
Definition metricDatabricksSparkStageInputBytes : metricInfo :=
  {| mi_Name := "databricks.spark.stage.input_bytes"; mi_Description := "n/a"; mi_Unit := "By";
     mi_Instrument := IGauge; mi_Attrs := jobAttrs |}.
Definition metricDatabricksSparkStageInputRecords : metricInfo :=
  {| mi_Name := "databricks.spark.stage.input_records"; mi_Description := "n/a"; mi_Unit := "{records}";
     mi_Instrument := IGauge; mi_Attrs := jobAttrs |}.
Definition metricDatabricksSparkStageMemoryBytesSpilled : metricInfo :=
  {| mi_Name := "databricks.spark.stage.memory_bytes_spilled"; mi_Description := "n/a"; mi_Unit := "By";
     mi_Instrument := IGauge; mi_Attrs := jobAttrs |}.
Definition metricDatabricksSparkStageOutputBytes : metricInfo :=
  {| mi_Name := "databricks.spark.stage.output_bytes"; mi_Description := "n/a"; mi_Unit := "By";
     mi_Instrument := IGauge; mi_Attrs := jobAttrs |}.
Definition metricDatabricksSparkStageOutputRecords : metricInfo :=
  {| mi_Name := "databricks.spark.stage.output_records"; mi_Description := "n/a"; mi_Unit := "{records}";
     mi_Instrument := IGauge; mi_Attrs := jobAttrs |}.
Definition metricDatabricksSparkTimerDagSchedulerMessageProcessingTime : metricInfo :=
  {| mi_Name := "databricks.spark.timer.dag_scheduler.message_processing.time"; mi_Description := "n/a"; mi_Unit := "ms";
     mi_Instrument := ISum Delta false; mi_Attrs := appAttrs |}.
Definition metricDatabricksSparkTimerLiveListenerBusListenerProcessingApacheSparkSQLExecutionStreamingQueryListenerBusTime : metricInfo :=
  {| mi_Name := "databricks.spark.timer.live_listener_bus.listener_processing.apache.spark.sql.execution.streaming.query_listener_bus.time"; mi_Description := "n/a"; mi_Unit := "ms";
     mi_Instrument := ISum Delta false; mi_Attrs := appAttrs |}.
Definition metricDatabricksSparkTimerLiveListenerBusListenerProcessingApacheSparkSQLExecutionTime : metricInfo :=
  {| mi_Name := "databricks.spark.timer.live_listener_bus.listener_processing.apache.spark.sql.execution.time"; mi_Description := "n/a"; mi_Unit := "ms";
     mi_Instrument := ISum Delta false; mi_Attrs := appAttrs |}.
Definition metricDatabricksSparkTimerLiveListenerBusListenerProcessingApacheSparkSQLExecutionUISQLAppStatusListenerTime : metricInfo :=
  {| mi_Name := "databricks.spark.timer.live_listener_bus.listener_processing.apache.spark.sql.execution.ui.sql_app_status_listener.time"; mi_Description := "n/a"; mi_Unit := "ms";
     mi_Instrument := ISum Delta false; mi_Attrs := appAttrs |}.
Definition metricDatabricksSparkTimerLiveListenerBusListenerProcessingApacheSparkSQLHiveThriftserverUIHiveThriftServer2listenerTime : metricInfo :=
  {| mi_Name := "databricks.spark.timer.live_listener_bus.listener_processing.apache.spark.sql.hive.thriftserver.ui.hive_thrift_server2listener.time"; mi_Description := "n/a"; mi_Unit := "ms";
     mi_Instrument := ISum Delta false; mi_Attrs := appAttrs |}.
Definition metricDatabricksSparkTimerLiveListenerBusListenerProcessingApacheSparkSQLSparkSessionTime : metricInfo :=
  {| mi_Name := "databricks.spark.timer.live_listener_bus.listener_processing.apache.spark.sql.spark_session.time"; mi_Description := "n/a"; mi_Unit := "ms";
     mi_Instrument := ISum Delta false; mi_Attrs := appAttrs |}.
Definition metricDatabricksSparkTimerLiveListenerBusListenerProcessingApacheSparkSQLUtilExecutionListenerBusTime : metricInfo :=
  {| mi_Name := "databricks.spark.timer.live_listener_bus.listener_processing.apache.spark.sql.util.execution_listener_bus.time"; mi_Description := "n/a"; mi_Unit := "ms";
     mi_Instrument := ISum Delta false; mi_Attrs := appAttrs |}.
Definition metricDatabricksSparkTimerLiveListenerBusListenerProcessingApacheSparkStatusAppStatusListenerTime : metricInfo :=
  {| mi_Name := "databricks.spark.timer.live_listener_bus.listener_processing.apache.spark.status.app_status_listener.time"; mi_Description := "n/a"; mi_Unit := "ms";
     mi_Instrument := ISum Delta false; mi_Attrs := appAttrs |}.
Definition metricDatabricksSparkTimerLiveListenerBusListenerProcessingApacheSparkUtilProfilerEnvTime : metricInfo :=
  {| mi_Name := "databricks.spark.timer.live_listener_bus.listener_processing.apache.spark.util.profiler_env.time"; mi_Description := "n/a"; mi_Unit := "ms";
     mi_Instrument := ISum Delta false; mi_Attrs := appAttrs |}.
Definition metricDatabricksSparkTimerLiveListenerBusListenerProcessingDatabricksBackendDaemonDriverDataPlaneEventListenerTime : metricInfo :=
  {| mi_Name := "databricks.spark.timer.live_listener_bus.listener_processing.databricks.backend.daemon.driver.data_plane_event_listener.time"; mi_Description := "n/a"; mi_Unit := "ms";
     mi_Instrument := ISum Delta false; mi_Attrs := appAttrs |}.
Definition metricDatabricksSparkTimerLiveListenerBusListenerProcessingDatabricksBackendDaemonDriverDbcEventLoggingListenerTime : metricInfo :=
  {| mi_Name := "databricks.spark.timer.live_listener_bus.listener_processing.databricks.backend.daemon.driver.dbc_event_logging_listener.time"; mi_Description := "n/a"; mi_Unit := "ms";
     mi_Instrument := ISum Delta false; mi_Attrs := appAttrs |}.
Definition metricDatabricksSparkTimerLiveListenerBusListenerProcessingDatabricksPhotonPhotonCleanupListenerTime : metricInfo :=
  {| mi_Name := "databricks.spark.timer.live_listener_bus.listener_processing.databricks.photon.photon_cleanup_listener.time"; mi_Description := "n/a"; mi_Unit := "ms";
     mi_Instrument := ISum Delta false; mi_Attrs := appAttrs |}.
Definition metricDatabricksSparkTimerLiveListenerBusListenerProcessingDatabricksSparkUtilExecutorTimeLoggingListenerTime : metricInfo :=
  {| mi_Name := "databricks.spark.timer.live_listener_bus.listener_processing.databricks.spark.util.executor_time_logging_listener.time"; mi_Description := "n/a"; mi_Unit := "ms";
     mi_Instrument := ISum Delta false; mi_Attrs := appAttrs |}.
Definition metricDatabricksSparkTimerLiveListenerBusListenerProcessingDatabricksSparkUtilUsageLoggingListenerTime : metricInfo :=
  {| mi_Name := "databricks.spark.timer.live_listener_bus.listener_processing.databricks.spark.util.usage_logging_listener.time"; mi_Description := "n/a"; mi_Unit := "ms";
     mi_Instrument := ISum Delta false; mi_Attrs := appAttrs |}.
Definition metricDatabricksSparkTimerLiveListenerBusListenerProcessingDatabricksSQLAdviceAdvisorListenerTime : metricInfo :=
  {| mi_Name := "databricks.spark.timer.live_listener_bus.listener_processing.databricks.sql.advice.advisor_listener.time"; mi_Description := "n/a"; mi_Unit := "ms";
     mi_Instrument := ISum Delta false; mi_Attrs := appAttrs |}.
Definition metricDatabricksSparkTimerLiveListenerBusListenerProcessingDatabricksSQLDebuggerQueryWatchdogListenerTime : metricInfo :=
  {| mi_Name := "databricks.spark.timer.live_listener_bus.listener_processing.databricks.sql.debugger.query_watchdog_listener.time"; mi_Description := "n/a"; mi_Unit := "ms";
     mi_Instrument := ISum Delta false; mi_Attrs := appAttrs |}.
Definition metricDatabricksSparkTimerLiveListenerBusListenerProcessingDatabricksSQLExecutionUIIoCacheListenerTime : metricInfo :=
  {| mi_Name := "databricks.spark.timer.live_listener_bus.listener_processing.databricks.sql.execution.ui.io_cache_listener.time"; mi_Description := "n/a"; mi_Unit := "ms";
     mi_Instrument := ISum Delta false; mi_Attrs := appAttrs |}.
Definition metricDatabricksSparkTimerLiveListenerBusListenerProcessingDatabricksSQLIoCachingRepeatedReadsEstimatorTime : metricInfo :=
  {| mi_Name := "databricks.spark.timer.live_listener_bus.listener_processing.databricks.sql.io.caching.repeated_reads_estimator.time"; mi_Description := "n/a"; mi_Unit := "ms";
     mi_Instrument := ISum Delta false; mi_Attrs := appAttrs |}.
Definition metricDatabricksSparkTimerLiveListenerBusQueueAppStatusListenerProcessingTime : metricInfo :=
  {| mi_Name := "databricks.spark.timer.live_listener_bus.queue.app_status.listener_processing.time"; mi_Description := "n/a"; mi_Unit := "ms";
     mi_Instrument := ISum Delta false; mi_Attrs := appAttrs |}.
Definition metricDatabricksSparkTimerLiveListenerBusQueueExecutorManagementListenerProcessingTime : metricInfo :=
  {| mi_Name := "databricks.spark.timer.live_listener_bus.queue.executor_management.listener_processing.time"; mi_Description := "n/a"; mi_Unit := "ms";
     mi_Instrument := ISum Delta false; mi_Attrs := appAttrs |}.
Definition metricDatabricksSparkTimerLiveListenerBusQueueSharedListenerProcessingTime : metricInfo :=
  {| mi_Name := "databricks.spark.timer.live_listener_bus.queue.shared.listener_processing.time"; mi_Description := "n/a"; mi_Unit := "ms";
     mi_Instrument := ISum Delta false; mi_Attrs := appAttrs |}.
Definition metricDatabricksSparkTimerLiveListenerBusQueueStreamsListenerProcessingTime : metricInfo :=
  {| mi_Name := "databricks.spark.timer.live_listener_bus.queue.streams.listener_processing.time"; mi_Description := "n/a"; mi_Unit := "ms";
     mi_Instrument := ISum Delta false; mi_Attrs := appAttrs |}.
Definition metricDatabricksTasksRunDuration : metricInfo :=
  {| mi_Name := "databricks.tasks.run.duration"; mi_Description := "The execution duration in milliseconds per completed task"; mi_Unit := "ms";
     mi_Instrument := IGauge; mi_Attrs := ["job.id"; "task.id"] |}.
Definition metricDatabricksTasksScheduleStatus : metricInfo :=
  {| mi_Name := "databricks.tasks.schedule.status"; mi_Description := "A snapshot of the pause/run status per task taken at each scrape"; mi_Unit := "{status}";
     mi_Instrument := IGauge; mi_Attrs := ["job.id"; "task.id"; "task.type"] |}.

(** All metrics, in the order in which they are emitted. *)
Definition databricksMetrics : list metricInfo :=
  [metricDatabricksJobsActiveTotal;
   metricDatabricksJobsRunDuration;
   metricDatabricksJobsScheduleStatus;
   metricDatabricksJobsTotal;
   metricDatabricksSparkBlockManagerMemoryDiskSpaceUsed;
   metricDatabricksSparkBlockManagerMemoryMax;
   metricDatabricksSparkBlockManagerMemoryOffHeapMax;
   metricDatabricksSparkBlockManagerMemoryOffHeapUsed;
   metricDatabricksSparkBlockManagerMemoryOnHeapMax;
   metricDatabricksSparkBlockManagerMemoryOnHeapUsed;
   metricDatabricksSparkBlockManagerMemoryRemaining;
   metricDatabricksSparkBlockManagerMemoryRemainingOffHeap;
   metricDatabricksSparkBlockManagerMemoryRemainingOnHeap;
   metricDatabricksSparkBlockManagerMemoryUsed;
   metricDatabricksSparkCodeGeneratorCompilationTime;
   metricDatabricksSparkCodeGeneratorGeneratedClassSize;
   metricDatabricksSparkCodeGeneratorGeneratedMethodSize;
   metricDatabricksSparkCodeGeneratorSourcecodeSize;
   metricDatabricksSparkDagSchedulerJobsActive;
   metricDatabricksSparkDagSchedulerJobsAll;
   metricDatabricksSparkDagSchedulerStagesFailed;
   metricDatabricksSparkDagSchedulerStagesRunning;
   metricDatabricksSparkDagSchedulerStagesWaiting;
   metricDatabricksSparkDatabricksDirectoryCommitAutoVacuumCount;
   metricDatabricksSparkDatabricksDirectoryCommitDeletedFilesFiltered;
   metricDatabricksSparkDatabricksDirectoryCommitFilterListingCount;
   metricDatabricksSparkDatabricksDirectoryCommitJobCommitCompleted;
   metricDatabricksSparkDatabricksDirectoryCommitMarkerReadErrors;
   metricDatabricksSparkDatabricksDirectoryCommitMarkerRefreshCount;
   metricDatabricksSparkDatabricksDirectoryCommitMarkerRefreshErrors;
   metricDatabricksSparkDatabricksDirectoryCommitMarkersRead;
   metricDatabricksSparkDatabricksDirectoryCommitRepeatedListCount;
   metricDatabricksSparkDatabricksDirectoryCommitUncommittedFilesFiltered;
   metricDatabricksSparkDatabricksDirectoryCommitUntrackedFilesFound;
   metricDatabricksSparkDatabricksDirectoryCommitVacuumCount;
   metricDatabricksSparkDatabricksDirectoryCommitVacuumErrors;
   metricDatabricksSparkDatabricksPreemptionChecksCount;
   metricDatabricksSparkDatabricksPreemptionPoolsAutoexpiredCount;
   metricDatabricksSparkDatabricksPreemptionPoolstarvationTime;
   metricDatabricksSparkDatabricksPreemptionSchedulerOverheadTime;
   metricDatabricksSparkDatabricksPreemptionTaskWastedTime;
   metricDatabricksSparkDatabricksPreemptionTasksPreemptedCount;
   metricDatabricksSparkDatabricksTaskSchedulingLanesActivePools;
   metricDatabricksSparkDatabricksTaskSchedulingLanesBypassLaneActivePools;
   metricDatabricksSparkDatabricksTaskSchedulingLanesFastLaneActivePools;
   metricDatabricksSparkDatabricksTaskSchedulingLanesFinishedQueriesTotalTaskTime;
   metricDatabricksSparkDatabricksTaskSchedulingLanesLaneCleanupMarkedPools;
   metricDatabricksSparkDatabricksTaskSchedulingLanesLaneCleanupTwoPhasePoolsCleaned;
   metricDatabricksSparkDatabricksTaskSchedulingLanesLaneCleanupZombiePoolsCleaned;
   metricDatabricksSparkDatabricksTaskSchedulingLanesPreemptionSlotTransferSuccessfulPreemptionIterationsCount;
   metricDatabricksSparkDatabricksTaskSchedulingLanesPreemptionSlotTransferTasksPreemptedCount;
   metricDatabricksSparkDatabricksTaskSchedulingLanesPreemptionSlotTransferWastedTaskTime;
   metricDatabricksSparkDatabricksTaskSchedulingLanesSlotReservationGradualDecreaseCount;
   metricDatabricksSparkDatabricksTaskSchedulingLanesSlotReservationQuickDropCount;
   metricDatabricksSparkDatabricksTaskSchedulingLanesSlotReservationQuickJumpCount;
   metricDatabricksSparkDatabricksTaskSchedulingLanesSlotReservationSlotsReserved;
   metricDatabricksSparkDatabricksTaskSchedulingLanesSlowLaneActivePools;
   metricDatabricksSparkDatabricksTaskSchedulingLanesTotalquerygroupsfinished;
   metricDatabricksSparkExecutorDiskUsed;
   metricDatabricksSparkExecutorMaxMemory;
   metricDatabricksSparkExecutorMemoryUsed;
   metricDatabricksSparkExecutorTotalInputBytes;
   metricDatabricksSparkExecutorTotalShuffleRead;
   metricDatabricksSparkExecutorTotalShuffleWrite;
   metricDatabricksSparkExecutorMetricsDirectPoolMemory;
   metricDatabricksSparkExecutorMetricsJvmHeapMemory;
   metricDatabricksSparkExecutorMetricsJvmOffHeapMemory;
   metricDatabricksSparkExecutorMetricsMajorGcCount;
   metricDatabricksSparkExecutorMetricsMajorGcTime;
   metricDatabricksSparkExecutorMetricsMappedPoolMemory;
   metricDatabricksSparkExecutorMetricsMinorGcCount;
   metricDatabricksSparkExecutorMetricsMinorGcTime;
   metricDatabricksSparkExecutorMetricsOffHeapExecutionMemory;
   metricDatabricksSparkExecutorMetricsOffHeapStorageMemory;
   metricDatabricksSparkExecutorMetricsOffHeapUnifiedMemory;
   metricDatabricksSparkExecutorMetricsOnHeapExecutionMemory;
   metricDatabricksSparkExecutorMetricsOnHeapStorageMemory;
   metricDatabricksSparkExecutorMetricsOnHeapUnifiedMemory;
   metricDatabricksSparkExecutorMetricsProcessTreeJvmRssMemory;
   metricDatabricksSparkExecutorMetricsProcessTreeJvmVMemory;
   metricDatabricksSparkExecutorMetricsProcessTreeOtherRssMemory;
   metricDatabricksSparkExecutorMetricsProcessTreeOtherVMemory;
   metricDatabricksSparkExecutorMetricsProcessTreePythonRssMemory;
   metricDatabricksSparkExecutorMetricsProcessTreePythonVMemory;
   metricDatabricksSparkHiveExternalCatalogFileCacheHits;
   metricDatabricksSparkHiveExternalCatalogFilesDiscovered;
   metricDatabricksSparkHiveExternalCatalogHiveClientCalls;
   metricDatabricksSparkHiveExternalCatalogParallelListingJobsCount;
   metricDatabricksSparkHiveExternalCatalogPartitionsFetched;
   metricDatabricksSparkJobNumActiveStages;
   metricDatabricksSparkJobNumActiveTasks;
   metricDatabricksSparkJobNumCompletedStages;
   metricDatabricksSparkJobNumCompletedTasks;
   metricDatabricksSparkJobNumFailedStages;
   metricDatabricksSparkJobNumFailedTasks;
   metricDatabricksSparkJobNumSkippedStages;
   metricDatabricksSparkJobNumSkippedTasks;
   metricDatabricksSparkJobNumTasks;
   metricDatabricksSparkJvmCPUTime;
   metricDatabricksSparkLiveListenerBusEventsPostedCount;
   metricDatabricksSparkLiveListenerBusQueueAppStatusDroppedEventsCount;
   metricDatabricksSparkLiveListenerBusQueueAppstatusSize;
   metricDatabricksSparkLiveListenerBusQueueExecutorManagementDroppedEventsCount;
   metricDatabricksSparkLiveListenerBusQueueExecutormanagementSize;
   metricDatabricksSparkLiveListenerBusQueueSharedDroppedEventsCount;
   metricDatabricksSparkLiveListenerBusQueueSharedSize;
   metricDatabricksSparkLiveListenerBusQueueStreamsDroppedEventsCount;
   metricDatabricksSparkLiveListenerBusQueueStreamsSize;
   metricDatabricksSparkSparkSQLOperationManagerHiveOperationsCount;
   metricDatabricksSparkStageDiskBytesSpilled;
   metricDatabricksSparkStageExecutorRunTime;
   metricDatabricksSparkStageInputBytes;
   metricDatabricksSparkStageInputRecords;
   metricDatabricksSparkStageMemoryBytesSpilled;
   metricDatabricksSparkStageOutputBytes;
   metricDatabricksSparkStageOutputRecords;
   metricDatabricksSparkTimerDagSchedulerMessageProcessingTime;
   metricDatabricksSparkTimerLiveListenerBusListenerProcessingApacheSparkSQLExecutionStreamingQueryListenerBusTime;
   metricDatabricksSparkTimerLiveListenerBusListenerProcessingApacheSparkSQLExecutionTime;
   metricDatabricksSparkTimerLiveListenerBusListenerProcessingApacheSparkSQLExecutionUISQLAppStatusListenerTime;
   metricDatabricksSparkTimerLiveListenerBusListenerProcessingApacheSparkSQLHiveThriftserverUIHiveThriftServer2listenerTime;
   metricDatabricksSparkTimerLiveListenerBusListenerProcessingApacheSparkSQLSparkSessionTime;
   metricDatabricksSparkTimerLiveListenerBusListenerProcessingApacheSparkSQLUtilExecutionListenerBusTime;
   metricDatabricksSparkTimerLiveListenerBusListenerProcessingApacheSparkStatusAppStatusListenerTime;
   metricDatabricksSparkTimerLiveListenerBusListenerProcessingApacheSparkUtilProfilerEnvTime;
   metricDatabricksSparkTimerLiveListenerBusListenerProcessingDatabricksBackendDaemonDriverDataPlaneEventListenerTime;
   metricDatabricksSparkTimerLiveListenerBusListenerProcessingDatabricksBackendDaemonDriverDbcEventLoggingListenerTime;
   metricDatabricksSparkTimerLiveListenerBusListenerProcessingDatabricksPhotonPhotonCleanupListenerTime;
   metricDatabricksSparkTimerLiveListenerBusListenerProcessingDatabricksSparkUtilExecutorTimeLoggingListenerTime;
   metricDatabricksSparkTimerLiveListenerBusListenerProcessingDatabricksSparkUtilUsageLoggingListenerTime;
   metricDatabricksSparkTimerLiveListenerBusListenerProcessingDatabricksSQLAdviceAdvisorListenerTime;
   metricDatabricksSparkTimerLiveListenerBusListenerProcessingDatabricksSQLDebuggerQueryWatchdogListenerTime;
   metricDatabricksSparkTimerLiveListenerBusListenerProcessingDatabricksSQLExecutionUIIoCacheListenerTime;
   metricDatabricksSparkTimerLiveListenerBusListenerProcessingDatabricksSQLIoCachingRepeatedReadsEstimatorTime;
   metricDatabricksSparkTimerLiveListenerBusQueueAppStatusListenerProcessingTime;
   metricDatabricksSparkTimerLiveListenerBusQueueExecutorManagementListenerProcessingTime;
   metricDatabricksSparkTimerLiveListenerBusQueueSharedListenerProcessingTime;
   metricDatabricksSparkTimerLiveListenerBusQueueStreamsListenerProcessingTime;
   metricDatabricksTasksRunDuration;
   metricDatabricksTasksScheduleStatus].

(** ** The metrics builder *)

(** The enabled metrics, the start time, the points of every metric that were recorded
    and not emitted yet, and the resource metrics that were emitted and not handed out. *)
Record MetricsBuilder := {
  mb_enabled : gset string; mb_start : Z; mb_version : string; mb_data : gmap string (list numberDP); mb_buffer : list resourceMetrics;
}.
Definition withData (d : gmap string (list numberDP)) (b : list resourceMetrics) (mb : MetricsBuilder) : MetricsBuilder :=
  {| mb_enabled := mb_enabled mb; mb_start := mb_start mb; mb_version := mb_version mb; mb_data := d; mb_buffer := b |}.
Definition points (mb : MetricsBuilder) (name : string) : list numberDP := default [] (mb_data mb !! name).

(** The attributes are put under the keys of the metric. *)
Definition newPoint (mi : metricInfo) (start ts : Z) (val : nvalue) (attrs : list any) : numberDP :=
  {| n_Attrs := list_to_map (zip (mi_Attrs mi) attrs); n_Start := start; n_Time := ts; n_Value := val; n_Exemplars := [] |}.

Definition recordDataPoint (mi : metricInfo) (ts : Z) (val : nvalue) (attrs : list any) (mb : MetricsBuilder) : MetricsBuilder :=
  if bool_decide (mi_Name mi ∈ mb_enabled mb)
  then withData (<[mi_Name mi := points mb (mi_Name mi) ++ [newPoint mi (mb_start mb) ts val attrs]]> (mb_data mb)) (mb_buffer mb) mb
  else mb.

Definition instrumentData (i : instrument) (dps : list numberDP) : metricData :=
  match i with IGauge => MGauge dps | ISum t m => MSum t m dps end.
(** What a metric with points contributes; it is empty afterwards. *)
Definition emit (mb : MetricsBuilder) (mi : metricInfo) : list metric :=
  if bool_decide (mi_Name mi ∈ mb_enabled mb) then
    match points mb (mi_Name mi) with
    | [] => []
    | dps => [{| m_Name := mi_Name mi; m_Description := mi_Description mi; m_Data := instrumentData (mi_Instrument mi) dps |}]
    end
  else [].

Definition resetMetric (mb : MetricsBuilder) (d : gmap string (list numberDP)) (mi : metricInfo) : gmap string (list numberDP) :=
  match emit mb mi with [] => d | _ => delete (mi_Name mi) d end.

(** The metrics of one resource; without any there are no resource metrics. *)
Definition underResource (version : string) (res : gmap string any) (ms : list metric) : list resourceMetrics :=
  match ms with
  | [] => []
  | _ => [{| rm_Attrs := res; rm_Scopes := [{| sm_Name := "otelcol/databricksreceiver"; sm_Version := version; sm_Metrics := ms |}] |}]
  end.
Definition EmitForResource (res : gmap string any) (mb : MetricsBuilder) : MetricsBuilder :=
  withData (foldl (resetMetric mb) (mb_data mb) databricksMetrics)
    (mb_buffer mb ++ underResource (mb_version mb) res (flat_map (emit mb) databricksMetrics)) mb.
Definition Emit (res : gmap string any) (mb : MetricsBuilder) : list resourceMetrics * MetricsBuilder :=
  let mb := EmitForResource res mb in (mb_buffer mb, withData (mb_data mb) [] mb).

(** ** The resource builder *)

Record ResourceBuilder := { rb_enabled : gset string; rb_res : gmap string any }.
Definition setAttr (k v : string) (rb : ResourceBuilder) : ResourceBuilder :=
  if bool_decide (k ∈ rb_enabled rb) then {| rb_enabled := rb_enabled rb; rb_res := <[k := AString v]> (rb_res rb) |} else rb.
Definition SetDatabricksInstanceName : string → ResourceBuilder → ResourceBuilder := setAttr "databricks.instance.name".
Definition SetSparkAppID : string → ResourceBuilder → ResourceBuilder := setAttr "spark.app.id".
Definition SetSparkClusterID : string → ResourceBuilder → ResourceBuilder := setAttr "spark.cluster.id".
Definition SetSparkClusterName : string → ResourceBuilder → ResourceBuilder := setAttr "spark.cluster.name".
Definition rb_Emit (rb : ResourceBuilder) : gmap string any * ResourceBuilder := (rb_res rb, {| rb_enabled := rb_enabled rb; rb_res := ∅ |}).

(** ** What a builder emits *)

(** A call that records a point. *)
Record record := { rc_Metric : metricInfo; rc_Time : Z; rc_Value : nvalue; rc_Attrs : list any }.
Definition recordAll (l : list record) (mb : MetricsBuilder) : MetricsBuilder :=
  foldl (λ mb r, recordDataPoint (rc_Metric r) (rc_Time r) (rc_Value r) (rc_Attrs r) mb) mb l.
Definition recordPoint (start : Z) (r : record) : numberDP := newPoint (rc_Metric r) start (rc_Time r) (rc_Value r) (rc_Attrs r).
Definition recordsOf (name : string) (l : list record) : list record := List.filter (λ r, String.eqb (mi_Name (rc_Metric r)) name) l.

(** The metrics that a list of records amounts to: those of the enabled metrics with a
    record, with one point per record in the order of the calls. *)
Definition metricOf (enabled : gset string) (start : Z) (l : list record) (mi : metricInfo) : list metric :=
  if bool_decide (mi_Name mi ∈ enabled) then
    match map (recordPoint start) (recordsOf (mi_Name mi) l) with
    | [] => []
    | dps => [{| m_Name := mi_Name mi; m_Description := mi_Description mi; m_Data := instrumentData (mi_Instrument mi) dps |}]
    end
  else [].
Definition metricsOf (enabled : gset string) (start : Z) (l : list record) : list metric := flat_map (metricOf enabled start l) databricksMetrics.

(** A builder between two emissions. *)
Definition rested (mb : MetricsBuilder) : MetricsBuilder := withData ∅ [] mb.
Definition known_records (l : list record) : Prop := Forall (λ r, rc_Metric r ∈ databricksMetrics) l.

(** No two metrics share a name. *)
Lemma metric_names_unique : NoDup (map mi_Name databricksMetrics).
Proof. apply (bool_decide_unpack _). vm_compute. exact I. Qed.

Lemma recordAll_cons r l mb : recordAll (r :: l) mb = recordAll l (recordDataPoint (rc_Metric r) (rc_Time r) (rc_Value r) (rc_Attrs r) mb).
Proof. done. Qed.
Lemma recordAll_app l1 l2 mb : recordAll (l1 ++ l2) mb = recordAll l2 (recordAll l1 mb).
Proof. apply foldl_app. Qed.
Lemma recordDataPoint_config mi ts v a mb : let mb' := recordDataPoint mi ts v a mb in
  mb_enabled mb' = mb_enabled mb ∧ mb_start mb' = mb_start mb ∧ mb_version mb' = mb_version mb ∧ mb_buffer mb' = mb_buffer mb.
Proof. unfold recordDataPoint. by case_bool_decide. Qed.
Lemma recordAll_config l mb :
  mb_enabled (recordAll l mb) = mb_enabled mb ∧ mb_start (recordAll l mb) = mb_start mb ∧ mb_version (recordAll l mb) = mb_version mb ∧
  mb_buffer (recordAll l mb) = mb_buffer mb.
Proof.
  revert mb. induction l as [|r l IH]; intros mb; [done|]. rewrite recordAll_cons.
  destruct (IH (recordDataPoint (rc_Metric r) (rc_Time r) (rc_Value r) (rc_Attrs r) mb)) as (-> & -> & -> & ->). apply recordDataPoint_config.
Qed.

(** Recording appends the points of the enabled metrics. *)
Lemma points_recordAll l mb name : name ∈ mb_enabled mb →
  points (recordAll l mb) name = points mb name ++ map (recordPoint (mb_start mb)) (recordsOf name l).
Proof.
  intros Hn. revert mb Hn. induction l as [|r l IH]; intros mb Hn; [cbn; by rewrite app_nil_r|].
  rewrite recordAll_cons.
  destruct (recordDataPoint_config (rc_Metric r) (rc_Time r) (rc_Value r) (rc_Attrs r) mb) as (He & Hs & _).
  rewrite IH by (by rewrite He). rewrite Hs. unfold recordsOf. cbn [List.filter].
  destruct (String.eqb_spec (mi_Name (rc_Metric r)) name) as [<-|Hne].
  - unfold recordDataPoint. rewrite bool_decide_true by done. unfold points at 1. cbn [withData mb_data]. rewrite lookup_insert_eq. cbn [map].
    cbn [from_option id]. by rewrite <-app_assoc.
  - unfold recordDataPoint. case_bool_decide; [|done]. unfold points at 1. cbn [withData mb_data]. by rewrite lookup_insert_ne.
Qed.

Lemma data_recordAll l mb name ps : mb_data (recordAll l mb) !! name = Some ps →
  mb_data mb !! name = Some ps ∨ (name ∈ mb_enabled mb ∧ ps ≠ [] ∧ ∃ r, r ∈ l ∧ mi_Name (rc_Metric r) = name).
Proof.
  revert mb. induction l as [|r l IH]; intros mb; [by left|]. rewrite recordAll_cons. intros Hd%IH.
  destruct (recordDataPoint_config (rc_Metric r) (rc_Time r) (rc_Value r) (rc_Attrs r) mb) as (He & _). rewrite He in Hd.
  destruct Hd as [Hd|(H1 & H2 & r' & Hr' & <-)]; [|right; split_and!; [done..|exists r'; by split; [right|]]].
  unfold recordDataPoint in Hd. case_bool_decide as Hen; [|by left]. cbn [withData mb_data] in Hd.
  destruct (decide (mi_Name (rc_Metric r) = name)) as [<-|Hne]; [|rewrite lookup_insert_ne in Hd by done; by left].
  rewrite lookup_insert_eq in Hd. injection Hd as <-. right. split_and!; [done| |exists r; by split; [left|]]. by destruct (points mb (mi_Name (rc_Metric r))).
Qed.

Lemma resetMetric_lookup mb d ms name : foldl (resetMetric mb) d ms !! name =
  if existsb (λ mi, String.eqb (mi_Name mi) name && match emit mb mi with [] => false | _ => true end) ms then None else d !! name.
Proof.
  revert d. induction ms as [|mi ms IH]; intros d; [done|]. cbn [foldl existsb]. rewrite IH. unfold resetMetric.
  destruct (existsb _ ms); [by rewrite orb_true_r|]. rewrite orb_false_r. destruct (emit mb mi) as [|x l] eqn:Ee.
  - by rewrite andb_false_r.
  - destruct (String.eqb_spec (mi_Name mi) name) as [->|Hne]; cbn [andb negb]; [apply lookup_delete_eq|by apply lookup_delete_ne].
Qed.

(** Emitting hands out the metrics of the recorded points under the resource, and
    clears the builder. *)
Lemma Emit_recordAll l mb res : known_records l → rested mb = mb →
  Emit res (recordAll l mb) = (underResource (mb_version mb) res (metricsOf (mb_enabled mb) (mb_start mb) l), mb).
Proof.
  intros Hl Hc. destruct (recordAll_config l mb) as (He & Hs & Hv & Hb). unfold Emit, EmitForResource. cbn [withData mb_data mb_buffer mb_version].
  assert (Hd : mb_data mb = ∅ ∧ mb_buffer mb = []) by (by rewrite <-Hc). destruct Hd as [Hd Hb0].
  assert (Hm : flat_map (emit (recordAll l mb)) databricksMetrics = metricsOf (mb_enabled mb) (mb_start mb) l).
  { unfold metricsOf. apply flat_map_ext. intros mi. unfold emit, metricOf. rewrite He. case_bool_decide as Hen; [|done].
    rewrite points_recordAll by done. unfold points. by rewrite Hd, lookup_empty. }
  rewrite Hm, Hv, Hb, Hb0. f_equal. transitivity (rested mb); [|done]. unfold rested, withData.
  cbn [mb_enabled mb_start mb_version mb_data mb_buffer]. rewrite He, Hs, Hv. apply (f_equal (λ d, Build_MetricsBuilder _ _ _ d _)).
  apply map_eq. intros name. rewrite resetMetric_lookup, lookup_empty.
  destruct (mb_data (recordAll l mb) !! name) as [ps|] eqn:Ep; [|by destruct (existsb _ _)].
  destruct (existsb _ databricksMetrics) eqn:Ex; [done|]. exfalso.
  destruct (data_recordAll l mb name ps Ep) as [Hp|(Hn & Hne & r & Hr & Hname)]; [by rewrite Hd, lookup_empty in Hp|].
  unfold known_records in Hl. rewrite Forall_forall in Hl. specialize (Hl r Hr).
  apply Bool.not_true_iff_false in Ex. apply Ex. apply existsb_exists. exists (rc_Metric r). split; [by apply list_elem_of_In|].
  rewrite Hname, String.eqb_refl. unfold emit, points. rewrite Hname, He, Ep, bool_decide_true by done. by destruct ps.
Qed.
