(* ===== verification/Databricks.v ===== *)
(** * The databricks receiver

    [src/internal/receiver/databricksreceiver]: the paginated service of the Databricks
    API and the tracker of job runs ([internal/databricks]), the service of the Spark
    API and the metrics built from it per cluster and application ([internal/spark]),
    the retries of the HTTP client ([internal/httpauth]) and the scrape that puts them
    together ([scraper.go]).

    The decoded answers of the two APIs during one scrape are the records [DatabricksClient]
    and [SparkClient].  The loops that fetch pages take fuel; [None] is a loop that has
    not ended within it. *)

From S2P Require Import Prelude GoStrings GoValue Outcome Settings Telemetry DatabricksMetadata.
From Stdlib Require Import Ascii.
#[local] Open Scope Z_scope.

(** ** config.go *)

Record databricksConfig := { dc_Endpoint : string; dc_InstanceName : string; dc_Token : string; dc_MaxResults : Z }.
Definition maxMaxResults : Z := 25.
Definition databricks_Validate (c : databricksConfig) : option error :=
  if String.eqb (dc_Endpoint c) "" then Some (Errorf "`endpoint` is empty" [])
  else if String.eqb (dc_InstanceName c) "" then Some (Errorf "`instance_name` is empty" [])
  else if String.eqb (dc_Token c) "" then Some (Errorf "`token` is empty" [])
  else if (dc_MaxResults c <? 0) || (maxMaxResults <? dc_MaxResults c) then Some (Errorf "max_results must be between 0 and %d, inclusive" ["25"])
  else None.

(** ** httpauth *)

Definition ErrForbidden : error := Errorf "403 Forbidden" [].
Definition errTooManyRequests : error := Errorf "429 Too Many Requests" [].
(** The error wraps [ErrForbidden]. *)
Definition IsForbidden (e : error) : bool := bool_decide (root_cause e = ErrForbidden).

(** An answer to a request: its status and its body, unless it cannot be read. *)
Record httpResponse := { hr_Status : Z; hr_Body : res string }.
Definition doGet (sent : res httpResponse) : res string :=
  match sent with
  | Err e => Err (Wrapf "bearerClient failed to send http request: %w" [] e)
  | Ok r =>
      if hr_Status r =? 403 then Err ErrForbidden
      else if hr_Status r =? 429 then Err errTooManyRequests
      else if hr_Status r =? 200 then
        match hr_Body r with Ok b => Ok b | Err e => Err (Wrapf "bearerClient failed to read response body: %w" [] e) end
      else Err (Errorf "bearerClient got status code: %d: %s" [pretty (hr_Status r)])
  end.
(** The attempts of a request, in order; [None] when all were answered with a 429. *)
Fixpoint Get (attempts : list (res httpResponse)) : option (res string) :=
  match attempts with
  | [] => None
  | a :: attempts =>
      match doGet a with
      | Err e => if bool_decide (e = errTooManyRequests) then Get attempts else Some (Err e)
      | Ok b => Some (Ok b)
      end
  end.

(** ** spark: data *)

Record Cluster := { ClusterID : string; ClusterName : string; cl_State : string }.
Record PipelineSummary := { ps_ID : string; ps_Name : string; ps_ClusterID : string }.
Record Application := { ap_ID : string; ap_Name : string }.
(** Of a histogram and a timer only the mean is read. *)
Record ClusterMetrics := { Gauges : gmap string float64; Counters : gmap string Z; Histograms : gmap string float64; Timers : gmap string float64 }.
Record ExecutorInfo := {
  ei_ID : string; ei_MemoryUsed : Z; ei_DiskUsed : Z; ei_TotalInputBytes : Z; ei_TotalShuffleRead : Z; ei_TotalShuffleWrite : Z; ei_MaxMemory : Z;
}.
Record JobInfo := {
  ji_JobID : Z; ji_NumTasks : Z; ji_NumActiveTasks : Z; ji_NumCompletedTasks : Z; ji_NumSkippedTasks : Z; ji_NumFailedTasks : Z;
  ji_NumActiveStages : Z; ji_NumCompletedStages : Z; ji_NumSkippedStages : Z; ji_NumFailedStages : Z;
}.
Record StageInfo := {
  si_StageID : Z; si_ExecutorRunTime : Z; si_InputBytes : Z; si_InputRecords : Z; si_OutputBytes : Z; si_OutputRecords : Z;
  si_MemoryBytesSpilled : Z; si_DiskBytesSpilled : Z;
}.
Record resource := { rs_cluster : Cluster; rs_appID : string }.

#[global] Instance Cluster_eq_dec : EqDecision Cluster.
Proof. solve_decision. Defined.
#[global] Instance Cluster_countable : Countable Cluster.
Proof.
  refine (inj_countable' (λ c, (ClusterID c, ClusterName c, cl_State c)) (λ t, {| ClusterID := t.1.1; ClusterName := t.1.2; cl_State := t.2 |}) _).
  by intros [].
Defined.
#[global] Instance Application_eq_dec : EqDecision Application.
Proof. solve_decision. Defined.
#[global] Instance Application_countable : Countable Application.
Proof. refine (inj_countable' (λ a, (ap_ID a, ap_Name a)) (λ t, {| ap_ID := t.1; ap_Name := t.2 |}) _). by intros []. Defined.
#[global] Instance resource_eq_dec : EqDecision resource.
Proof. solve_decision. Defined.
#[global] Instance resource_countable : Countable resource.
Proof. refine (inj_countable' (λ r, (rs_cluster r, rs_appID r)) (λ t, {| rs_cluster := t.1; rs_appID := t.2 |}) _). by intros []. Defined.

(** The order in which [range] visits a map with keys that are not strings. *)
Class KeyRange := {
  krange : ∀ {K : Type} `{Countable K} {V : Type}, gmap K V → list (K * V);
  krange_perm : ∀ (K : Type) `{Countable K} (V : Type) (m : gmap K V), krange m ≡ₚ map_to_list m;
}.
Definition forward_krange : KeyRange.
Proof. refine {| krange K _ _ V m := map_to_list m |}. done. Defined.

(** ** spark: resource_metrics.go *)

Record sparkMetricBase := { sb_name : string; sb_pipelineID : string; sb_pipelineName : string }.
Definition newSparkMetricBase (name : string) (pipeline : option PipelineSummary) : sparkMetricBase :=
  match pipeline with
  | Some p => {| sb_name := name; sb_pipelineID := ps_ID p; sb_pipelineName := ps_Name p |}
  | None => {| sb_name := name; sb_pipelineID := ""; sb_pipelineName := "" |}
  end.
Inductive metricBuilder :=
| gaugeInfo (b : sparkMetricBase) (value : float64)
| counterInfo (b : sparkMetricBase) (count : Z)
| timerInfo (b : sparkMetricBase) (mean : float64)
| histoInfo (b : sparkMetricBase) (mean : float64)
| execInfo (i : ExecutorInfo)
| jobInfo (i : JobInfo)
| stageInfo (i : StageInfo).

Definition schedulerGauges : list (string * metricInfo) :=
  [("blockmanager.memory.diskspaceused", metricDatabricksSparkBlockManagerMemoryDiskSpaceUsed);
   ("blockmanager.memory.maxmem", metricDatabricksSparkBlockManagerMemoryMax);
   ("blockmanager.memory.maxoffheapmem", metricDatabricksSparkBlockManagerMemoryOffHeapMax);
   ("blockmanager.memory.maxonheapmem", metricDatabricksSparkBlockManagerMemoryOnHeapMax);
   ("blockmanager.memory.memused", metricDatabricksSparkBlockManagerMemoryUsed);
   ("blockmanager.memory.offheapmemused", metricDatabricksSparkBlockManagerMemoryOffHeapUsed);
   ("blockmanager.memory.onheapmemused", metricDatabricksSparkBlockManagerMemoryOnHeapUsed);
   ("blockmanager.memory.remainingmem", metricDatabricksSparkBlockManagerMemoryRemaining);
   ("blockmanager.memory.remainingoffheapmem", metricDatabricksSparkBlockManagerMemoryRemainingOffHeap);
   ("blockmanager.memory.remainingonheapmem", metricDatabricksSparkBlockManagerMemoryRemainingOnHeap);
   ("dagscheduler.job.activejobs", metricDatabricksSparkDagSchedulerJobsActive);
   ("dagscheduler.job.alljobs", metricDatabricksSparkDagSchedulerJobsAll);
   ("dagscheduler.stage.failedstages", metricDatabricksSparkDagSchedulerStagesFailed);
   ("dagscheduler.stage.runningstages", metricDatabricksSparkDagSchedulerStagesRunning);
   ("dagscheduler.stage.waitingstages", metricDatabricksSparkDagSchedulerStagesWaiting)].
Definition executorGauges : list (string * metricInfo) :=
  [("executormetrics.directpoolmemory", metricDatabricksSparkExecutorMetricsDirectPoolMemory);
   ("executormetrics.jvmheapmemory", metricDatabricksSparkExecutorMetricsJvmHeapMemory);
   ("executormetrics.jvmoffheapmemory", metricDatabricksSparkExecutorMetricsJvmOffHeapMemory);
   ("executormetrics.majorgccount", metricDatabricksSparkExecutorMetricsMajorGcCount);
   ("executormetrics.majorgctime", metricDatabricksSparkExecutorMetricsMajorGcTime);
   ("executormetrics.mappedpoolmemory", metricDatabricksSparkExecutorMetricsMappedPoolMemory);
   ("executormetrics.minorgccount", metricDatabricksSparkExecutorMetricsMinorGcCount);
   ("executormetrics.minorgctime", metricDatabricksSparkExecutorMetricsMinorGcTime);
   ("executormetrics.offheapexecutionmemory", metricDatabricksSparkExecutorMetricsOffHeapExecutionMemory);
   ("executormetrics.offheapstoragememory", metricDatabricksSparkExecutorMetricsOffHeapStorageMemory);
   ("executormetrics.offheapunifiedmemory", metricDatabricksSparkExecutorMetricsOffHeapUnifiedMemory);
   ("executormetrics.onheapexecutionmemory", metricDatabricksSparkExecutorMetricsOnHeapExecutionMemory);
   ("executormetrics.onheapstoragememory", metricDatabricksSparkExecutorMetricsOnHeapStorageMemory);
   ("executormetrics.onheapunifiedmemory", metricDatabricksSparkExecutorMetricsOnHeapUnifiedMemory);
   ("executormetrics.processtreejvmrssmemory", metricDatabricksSparkExecutorMetricsProcessTreeJvmRssMemory);
   ("executormetrics.processtreejvmvmemory", metricDatabricksSparkExecutorMetricsProcessTreeJvmVMemory);
   ("executormetrics.processtreeotherrssmemory", metricDatabricksSparkExecutorMetricsProcessTreeOtherRssMemory);
   ("executormetrics.processtreeothervmemory", metricDatabricksSparkExecutorMetricsProcessTreeOtherVMemory);
   ("executormetrics.processtreepythonrssmemory", metricDatabricksSparkExecutorMetricsProcessTreePythonRssMemory);
   ("executormetrics.processtreepythonvmemory", metricDatabricksSparkExecutorMetricsProcessTreePythonVMemory)].
Definition busGauges : list (string * metricInfo) :=
  [("jvmcpu.jvmcputime", metricDatabricksSparkJvmCPUTime);
   ("livelistenerbus.queue.appstatus.size", metricDatabricksSparkLiveListenerBusQueueAppstatusSize);
   ("livelistenerbus.queue.executormanagement.size", metricDatabricksSparkLiveListenerBusQueueExecutormanagementSize);
   ("livelistenerbus.queue.shared.size", metricDatabricksSparkLiveListenerBusQueueSharedSize);
   ("livelistenerbus.queue.streams.size", metricDatabricksSparkLiveListenerBusQueueStreamsSize);
   ("sparksqloperationmanager.numhiveoperations", metricDatabricksSparkSparkSQLOperationManagerHiveOperationsCount)].
Definition gaugeMetrics : list (string * metricInfo) := schedulerGauges ++ executorGauges ++ busGauges.
Definition commitCounters : list (string * metricInfo) :=
  [("databricks.directorycommit.autovacuumcount", metricDatabricksSparkDatabricksDirectoryCommitAutoVacuumCount);
   ("databricks.directorycommit.deletedfilesfiltered", metricDatabricksSparkDatabricksDirectoryCommitDeletedFilesFiltered);
   ("databricks.directorycommit.filterlistingcount", metricDatabricksSparkDatabricksDirectoryCommitFilterListingCount);
   ("databricks.directorycommit.jobcommitcompleted", metricDatabricksSparkDatabricksDirectoryCommitJobCommitCompleted);
   ("databricks.directorycommit.markerreaderrors", metricDatabricksSparkDatabricksDirectoryCommitMarkerReadErrors);
   ("databricks.directorycommit.markerrefreshcount", metricDatabricksSparkDatabricksDirectoryCommitMarkerRefreshCount);
   ("databricks.directorycommit.markerrefresherrors", metricDatabricksSparkDatabricksDirectoryCommitMarkerRefreshErrors);
   ("databricks.directorycommit.markersread", metricDatabricksSparkDatabricksDirectoryCommitMarkersRead);
   ("databricks.directorycommit.repeatedlistcount", metricDatabricksSparkDatabricksDirectoryCommitRepeatedListCount);
   ("databricks.directorycommit.uncommittedfilesfiltered", metricDatabricksSparkDatabricksDirectoryCommitUncommittedFilesFiltered);
   ("databricks.directorycommit.untrackedfilesfound", metricDatabricksSparkDatabricksDirectoryCommitUntrackedFilesFound);
   ("databricks.directorycommit.vacuumcount", metricDatabricksSparkDatabricksDirectoryCommitVacuumCount);
   ("databricks.directorycommit.vacuumerrors", metricDatabricksSparkDatabricksDirectoryCommitVacuumErrors);
   ("databricks.preemption.numchecks", metricDatabricksSparkDatabricksPreemptionChecksCount);
   ("databricks.preemption.numpoolsautoexpired", metricDatabricksSparkDatabricksPreemptionPoolsAutoexpiredCount);
   ("databricks.preemption.numtaskspreempted", metricDatabricksSparkDatabricksPreemptionTasksPreemptedCount);
   ("databricks.preemption.poolstarvationmillis", metricDatabricksSparkDatabricksPreemptionPoolstarvationTime);
   ("databricks.preemption.scheduleroverheadnanos", metricDatabricksSparkDatabricksPreemptionSchedulerOverheadTime);
   ("databricks.preemption.tasktimewastedmillis", metricDatabricksSparkDatabricksPreemptionTaskWastedTime)].
Definition laneCounters : list (string * metricInfo) :=
  [("databricks.taskschedulinglanes.activepools", metricDatabricksSparkDatabricksTaskSchedulingLanesActivePools);
   ("databricks.taskschedulinglanes.bypasslaneactivepools", metricDatabricksSparkDatabricksTaskSchedulingLanesBypassLaneActivePools);
   ("databricks.taskschedulinglanes.fastlaneactivepools", metricDatabricksSparkDatabricksTaskSchedulingLanesFastLaneActivePools);
   ("databricks.taskschedulinglanes.finishedqueriestotaltasktimens", metricDatabricksSparkDatabricksTaskSchedulingLanesFinishedQueriesTotalTaskTime);
   ("databricks.taskschedulinglanes.lanecleanup.markedpools", metricDatabricksSparkDatabricksTaskSchedulingLanesLaneCleanupMarkedPools);
   ("databricks.taskschedulinglanes.lanecleanup.twophasepoolscleaned", metricDatabricksSparkDatabricksTaskSchedulingLanesLaneCleanupTwoPhasePoolsCleaned);
   ("databricks.taskschedulinglanes.lanecleanup.zombiepoolscleaned", metricDatabricksSparkDatabricksTaskSchedulingLanesLaneCleanupZombiePoolsCleaned);
   ("databricks.taskschedulinglanes.preemption.slottransfernumsuccessfulpreemptioniterations", metricDatabricksSparkDatabricksTaskSchedulingLanesPreemptionSlotTransferSuccessfulPreemptionIterationsCount);
   ("databricks.taskschedulinglanes.preemption.slottransfernumtaskspreempted", metricDatabricksSparkDatabricksTaskSchedulingLanesPreemptionSlotTransferTasksPreemptedCount);
   ("databricks.taskschedulinglanes.preemption.slottransferwastedtasktimens", metricDatabricksSparkDatabricksTaskSchedulingLanesPreemptionSlotTransferWastedTaskTime);
   ("databricks.taskschedulinglanes.slotreservation.numgradualdecrease", metricDatabricksSparkDatabricksTaskSchedulingLanesSlotReservationGradualDecreaseCount);
   ("databricks.taskschedulinglanes.slotreservation.numquickdrop", metricDatabricksSparkDatabricksTaskSchedulingLanesSlotReservationQuickDropCount);
   ("databricks.taskschedulinglanes.slotreservation.numquickjump", metricDatabricksSparkDatabricksTaskSchedulingLanesSlotReservationQuickJumpCount);
   ("databricks.taskschedulinglanes.slotreservation.slotsreserved", metricDatabricksSparkDatabricksTaskSchedulingLanesSlotReservationSlotsReserved);
   ("databricks.taskschedulinglanes.slowlaneactivepools", metricDatabricksSparkDatabricksTaskSchedulingLanesSlowLaneActivePools);
   ("databricks.taskschedulinglanes.totalquerygroupsfinished", metricDatabricksSparkDatabricksTaskSchedulingLanesTotalquerygroupsfinished)].
Definition catalogCounters : list (string * metricInfo) :=
  [("hiveexternalcatalog.filecachehits", metricDatabricksSparkHiveExternalCatalogFileCacheHits);
   ("hiveexternalcatalog.filesdiscovered", metricDatabricksSparkHiveExternalCatalogFilesDiscovered);
   ("hiveexternalcatalog.hiveclientcalls", metricDatabricksSparkHiveExternalCatalogHiveClientCalls);
   ("hiveexternalcatalog.parallellistingjobcount", metricDatabricksSparkHiveExternalCatalogParallelListingJobsCount);
   ("hiveexternalcatalog.partitionsfetched", metricDatabricksSparkHiveExternalCatalogPartitionsFetched);
   ("livelistenerbus.numeventsposted", metricDatabricksSparkLiveListenerBusEventsPostedCount);
   ("livelistenerbus.queue.appstatus.numdroppedevents", metricDatabricksSparkLiveListenerBusQueueAppStatusDroppedEventsCount);
   ("livelistenerbus.queue.executormanagement.numdroppedevents", metricDatabricksSparkLiveListenerBusQueueExecutorManagementDroppedEventsCount);
   ("livelistenerbus.queue.shared.numdroppedevents", metricDatabricksSparkLiveListenerBusQueueSharedDroppedEventsCount);
   ("livelistenerbus.queue.streams.numdroppedevents", metricDatabricksSparkLiveListenerBusQueueStreamsDroppedEventsCount)].
Definition counterMetrics : list (string * metricInfo) := commitCounters ++ laneCounters ++ catalogCounters.
Definition timerMetricInfos : list (string * metricInfo) :=
  [("dagscheduler.messageprocessingtime", metricDatabricksSparkTimerDagSchedulerMessageProcessingTime);
   ("livelistenerbus.listenerprocessingtime.com.databricks.backend.daemon.driver.dbceventlogginglistener", metricDatabricksSparkTimerLiveListenerBusListenerProcessingDatabricksBackendDaemonDriverDbcEventLoggingListenerTime);
   ("livelistenerbus.listenerprocessingtime.com.databricks.backend.daemon.driver.dataplaneeventlistener", metricDatabricksSparkTimerLiveListenerBusListenerProcessingDatabricksBackendDaemonDriverDataPlaneEventListenerTime);
   ("livelistenerbus.listenerprocessingtime.com.databricks.photon.photoncleanuplistener", metricDatabricksSparkTimerLiveListenerBusListenerProcessingDatabricksPhotonPhotonCleanupListenerTime);
   ("livelistenerbus.listenerprocessingtime.com.databricks.spark.util.executortimelogginglistener$", metricDatabricksSparkTimerLiveListenerBusListenerProcessingDatabricksSparkUtilExecutorTimeLoggingListenerTime);
   ("livelistenerbus.listenerprocessingtime.com.databricks.spark.util.usagelogginglistener", metricDatabricksSparkTimerLiveListenerBusListenerProcessingDatabricksSparkUtilUsageLoggingListenerTime);
   ("livelistenerbus.listenerprocessingtime.com.databricks.sql.advice.advisorlistener", metricDatabricksSparkTimerLiveListenerBusListenerProcessingDatabricksSQLAdviceAdvisorListenerTime);
   ("livelistenerbus.listenerprocessingtime.com.databricks.sql.debugger.querywatchdoglistener", metricDatabricksSparkTimerLiveListenerBusListenerProcessingDatabricksSQLDebuggerQueryWatchdogListenerTime);
   ("livelistenerbus.listenerprocessingtime.com.databricks.sql.execution.ui.iocachelistener", metricDatabricksSparkTimerLiveListenerBusListenerProcessingDatabricksSQLExecutionUIIoCacheListenerTime);
   ("livelistenerbus.listenerprocessingtime.com.databricks.sql.io.caching.repeatedreadsestimator$", metricDatabricksSparkTimerLiveListenerBusListenerProcessingDatabricksSQLIoCachingRepeatedReadsEstimatorTime);
   ("livelistenerbus.listenerprocessingtime.org.apache.spark.sql.sparksession$$anon$1", metricDatabricksSparkTimerLiveListenerBusListenerProcessingApacheSparkSQLSparkSessionTime);
   ("livelistenerbus.listenerprocessingtime.org.apache.spark.sql.execution.sqlexecution$", metricDatabricksSparkTimerLiveListenerBusListenerProcessingApacheSparkSQLExecutionTime);
   ("livelistenerbus.listenerprocessingtime.org.apache.spark.sql.execution.streaming.streamingquerylistenerbus", metricDatabricksSparkTimerLiveListenerBusListenerProcessingApacheSparkSQLExecutionStreamingQueryListenerBusTime);
   ("livelistenerbus.listenerprocessingtime.org.apache.spark.sql.execution.ui.sqlappstatuslistener", metricDatabricksSparkTimerLiveListenerBusListenerProcessingApacheSparkSQLExecutionUISQLAppStatusListenerTime);
   ("livelistenerbus.listenerprocessingtime.org.apache.spark.sql.hive.thriftserver.ui.hivethriftserver2listener", metricDatabricksSparkTimerLiveListenerBusListenerProcessingApacheSparkSQLHiveThriftserverUIHiveThriftServer2listenerTime);
   ("livelistenerbus.listenerprocessingtime.org.apache.spark.sql.util.executionlistenerbus", metricDatabricksSparkTimerLiveListenerBusListenerProcessingApacheSparkSQLUtilExecutionListenerBusTime);
   ("livelistenerbus.listenerprocessingtime.org.apache.spark.status.appstatuslistener", metricDatabricksSparkTimerLiveListenerBusListenerProcessingApacheSparkStatusAppStatusListenerTime);
   ("livelistenerbus.listenerprocessingtime.org.apache.spark.util.profilerenv$$anon$1", metricDatabricksSparkTimerLiveListenerBusListenerProcessingApacheSparkUtilProfilerEnvTime);
   ("livelistenerbus.queue.appstatus.listenerprocessingtime", metricDatabricksSparkTimerLiveListenerBusQueueAppStatusListenerProcessingTime);
   ("livelistenerbus.queue.executormanagement.listenerprocessingtime", metricDatabricksSparkTimerLiveListenerBusQueueExecutorManagementListenerProcessingTime);
   ("livelistenerbus.queue.shared.listenerprocessingtime", metricDatabricksSparkTimerLiveListenerBusQueueSharedListenerProcessingTime);
   ("livelistenerbus.queue.streams.listenerprocessingtime", metricDatabricksSparkTimerLiveListenerBusQueueStreamsListenerProcessingTime)].
Definition histoMetricInfos : list (string * metricInfo) :=
  [("codegenerator.compilationtime", metricDatabricksSparkCodeGeneratorCompilationTime);
   ("codegenerator.generatedclasssize", metricDatabricksSparkCodeGeneratorGeneratedClassSize);
   ("codegenerator.generatedmethodsize", metricDatabricksSparkCodeGeneratorGeneratedMethodSize);
   ("codegenerator.sourcecodesize", metricDatabricksSparkCodeGeneratorSourcecodeSize)].

Section build.
Context (now : Z).
Definition rec (mi : metricInfo) (v : nvalue) (attrs : list any) : record := {| rc_Metric := mi; rc_Time := now; rc_Value := v; rc_Attrs := attrs |}.
(** The [switch] over the names of a table. *)
Definition byName (table : list (string * metricInfo)) (name : string) (v : nvalue) (attrs : list any) : list record :=
  match List.find (λ kv, String.eqb kv.1 name) table with Some kv => [rec kv.2 v attrs] | None => [] end.
Definition resourceAttrs (rs : resource) : list any := [AString (ClusterID (rs_cluster rs)); AString (rs_appID rs)].
Definition baseAttrs (rs : resource) (b : sparkMetricBase) : list any := resourceAttrs rs ++ [AString (sb_pipelineID b); AString (sb_pipelineName b)].

Definition buildGauge (rs : resource) (b : sparkMetricBase) (v : float64) : list record := byName gaugeMetrics (sb_name b) (NDouble v) (baseAttrs rs b).
Definition buildCounter (rs : resource) (b : sparkMetricBase) (count : Z) : list record := byName counterMetrics (sb_name b) (NInt count) (baseAttrs rs b).
Definition buildTimers (rs : resource) (b : sparkMetricBase) (mean : float64) : list record :=
  byName timerMetricInfos (sb_name b) (NDouble mean) (resourceAttrs rs).
Definition buildHistos (rs : resource) (b : sparkMetricBase) (mean : float64) : list record :=
  byName histoMetricInfos (sb_name b) (NDouble mean) (baseAttrs rs b).
Definition buildExecMetrics (rs : resource) (i : ExecutorInfo) : list record :=
  map (λ mv, rec mv.1 (NInt mv.2) (resourceAttrs rs ++ [AString (ei_ID i)]))
    [(metricDatabricksSparkExecutorMemoryUsed, ei_MemoryUsed i); (metricDatabricksSparkExecutorDiskUsed, ei_DiskUsed i);
     (metricDatabricksSparkExecutorTotalInputBytes, ei_TotalInputBytes i); (metricDatabricksSparkExecutorTotalShuffleRead, ei_TotalShuffleRead i);
     (metricDatabricksSparkExecutorTotalShuffleWrite, ei_TotalShuffleWrite i); (metricDatabricksSparkExecutorMaxMemory, ei_MaxMemory i)].
Definition buildJobMetrics (rs : resource) (i : JobInfo) : list record :=
  map (λ mv, rec mv.1 (NInt mv.2) (resourceAttrs rs ++ [AInt (ji_JobID i)]))
    [(metricDatabricksSparkJobNumTasks, ji_NumTasks i); (metricDatabricksSparkJobNumActiveTasks, ji_NumActiveTasks i);
     (metricDatabricksSparkJobNumCompletedTasks, ji_NumCompletedTasks i); (metricDatabricksSparkJobNumSkippedTasks, ji_NumSkippedTasks i);
     (metricDatabricksSparkJobNumFailedTasks, ji_NumFailedTasks i); (metricDatabricksSparkJobNumActiveStages, ji_NumActiveStages i);
     (metricDatabricksSparkJobNumCompletedStages, ji_NumCompletedStages i); (metricDatabricksSparkJobNumSkippedStages, ji_NumSkippedStages i);
     (metricDatabricksSparkJobNumFailedStages, ji_NumFailedStages i)].
(** The stage's identifier is the argument for [spark.job.id]. *)
Definition buildStageMetrics (rs : resource) (i : StageInfo) : list record :=
  map (λ mv, rec mv.1 (NInt mv.2) (resourceAttrs rs ++ [AInt (si_StageID i)]))
    [(metricDatabricksSparkStageExecutorRunTime, si_ExecutorRunTime i); (metricDatabricksSparkStageInputBytes, si_InputBytes i);
     (metricDatabricksSparkStageInputRecords, si_InputRecords i); (metricDatabricksSparkStageOutputBytes, si_OutputBytes i);
     (metricDatabricksSparkStageOutputRecords, si_OutputRecords i); (metricDatabricksSparkStageMemoryBytesSpilled, si_MemoryBytesSpilled i);
     (metricDatabricksSparkStageDiskBytesSpilled, si_DiskBytesSpilled i)].

(** The points a metric builder records for a resource. *)
Definition build (rs : resource) (b : metricBuilder) : list record :=
  match b with
  | gaugeInfo b v => buildGauge rs b v
  | counterInfo b n => buildCounter rs b n
  | timerInfo b v => buildTimers rs b v
  | histoInfo b v => buildHistos rs b v
  | execInfo i => buildExecMetrics rs i
  | jobInfo i => buildJobMetrics rs i
  | stageInfo i => buildStageMetrics rs i
  end.
End build.

Notation ResourceMetrics := (gmap resource (list metricBuilder)).
Definition addBuilder (cluster : Cluster) (appID : string) (b : metricBuilder) (m : ResourceMetrics) : ResourceMetrics :=
  let rs := {| rs_cluster := cluster; rs_appID := appID |} in <[rs := default [] (m !! rs) ++ [b]]> m.
Definition Append (m other : ResourceMetrics) : ResourceMetrics := union_with (λ a b, Some (a ++ b)) m other.

Definition setResource (instanceName : string) (rs : resource) (rb : ResourceBuilder) : ResourceBuilder :=
  SetSparkClusterName (ClusterName (rs_cluster rs)) (SetSparkClusterID (ClusterID (rs_cluster rs)) (SetDatabricksInstanceName instanceName rb)).

Section resources.
Context `{KeyRange}.
Fixpoint buildLoop (now : Z) (instanceName : string) (l : list (resource * list metricBuilder)) (mb : MetricsBuilder) (rb : ResourceBuilder) :
    list (list resourceMetrics) * MetricsBuilder * ResourceBuilder :=
  match l with
  | [] => ([], mb, rb)
  | (rs, infos) :: l =>
      let mb := recordAll (flat_map (build now rs) infos) mb in
      let '(res, rb) := rb_Emit (setResource instanceName rs rb) in
      let '(out, mb) := Emit res mb in
      let '(outs, mb, rb) := buildLoop now instanceName l mb rb in
      (out :: outs, mb, rb)
  end.
Definition Build (now : Z) (instanceName : string) (m : ResourceMetrics) (mb : MetricsBuilder) (rb : ResourceBuilder) :
    list (list resourceMetrics) * MetricsBuilder * ResourceBuilder := buildLoop now instanceName (krange m) mb rb.
End resources.

(** ** spark: service.go, cluster_metrics_builder.go, extra_metrics_builder.go *)

(** The decoded answers of the Spark API. *)
Record SparkClient := {
  sp_metrics : string → res ClusterMetrics;
  sp_applications : string → res (list Application);
  sp_appExecutors : string → string → res (list ExecutorInfo);
  sp_appJobs : string → string → res (list JobInfo);
  sp_appStages : string → string → res (list StageInfo);
}.

Definition stripSuffixMB (parts : list string) : list string :=
  match last parts with
  | Some p => if HasSuffix p "_MB" then removelast parts ++ [stake (slen p - 3) p] else parts
  | None => parts
  end.
Definition stripSparkMetricKey (s : string) : string * string :=
  match SplitByte s "."%char with
  | app :: driver :: metricParts =>
      if (match metricParts with [] => true | _ => false end) || negb (String.eqb driver "driver") then ("", "")
      else (app, ToLower (Join (stripSuffixMB metricParts) "."))
  | _ => ("", "")
  end.

Section spark.
Context `{MapRange} `{KeyRange} (c : SparkClient).

(** A cluster whose metrics must not be read is skipped. *)
Fixpoint getSparkMetricsForClusters (clusters : list Cluster) (out : gmap Cluster ClusterMetrics) : res (gmap Cluster ClusterMetrics) :=
  match clusters with
  | [] => Ok out
  | cl :: clusters =>
      match sp_metrics c (ClusterID cl) with
      | Err e => if IsForbidden e then getSparkMetricsForClusters clusters out
                 else Err (Wrapf "error getting spark metrics for cluster: %s: %w" [ClusterID cl] e)
      | Ok m => getSparkMetricsForClusters clusters (<[cl := m]> out)
      end
  end.

Section byApp.
Context {I : Type} (fetch : string → string → res (list I)) (failed : string).
Fixpoint appsLoop (clusterID : string) (apps : list Application) (out : gmap Application (list I)) : res (gmap Application (list I)) :=
  match apps with
  | [] => Ok out
  | app :: apps =>
      match fetch clusterID (ap_ID app) with
      | Err e => Err (Wrapf failed [ap_ID app] e)
      | Ok l => appsLoop clusterID apps (<[app := l]> out)
      end
  end.
Definition infoSliceByApp (clusterID : string) : res (gmap Application (list I)) :=
  match sp_applications c clusterID with
  | Err e => Err (Wrapf "failed to get applications from spark: %w" [] e)
  | Ok apps => appsLoop clusterID apps ∅
  end.
(** The loop over the clusters that the three builders share. *)
Context (wrap : I → metricBuilder) (failedCluster : string).
Definition addInfos (cl : Cluster) (m : ResourceMetrics) (al : Application * list I) : ResourceMetrics :=
  foldl (λ m i, addBuilder cl (ap_ID al.1) (wrap i) m) m al.2.
Fixpoint buildInfos (clusters : list Cluster) (out : ResourceMetrics) : res ResourceMetrics :=
  match clusters with
  | [] => Ok out
  | cl :: clusters =>
      match infoSliceByApp (ClusterID cl) with
      | Err e => if IsForbidden e then buildInfos clusters out else Err (Wrapf failedCluster [ClusterID cl] e)
      | Ok byApp => buildInfos clusters (foldl (addInfos cl) out (krange byApp))
      end
  end.
End byApp.

Definition getSparkExecutorInfoSliceByApp : string → res (gmap Application (list ExecutorInfo)) :=
  infoSliceByApp (sp_appExecutors c) "failed to get executors for app id: %s: %w".
Definition getSparkJobInfoSliceByApp : string → res (gmap Application (list JobInfo)) :=
  infoSliceByApp (sp_appJobs c) "failed to get jobs for app id: %s: %w".
Definition getSparkStageInfoSliceByApp : string → res (gmap Application (list StageInfo)) :=
  infoSliceByApp (sp_appStages c) "failed to get jobs for app id: %s: %w".
Definition BuildExecutorMetrics (clusters : list Cluster) : res ResourceMetrics :=
  buildInfos (sp_appExecutors c) "failed to get executors for app id: %s: %w" execInfo "failed to get spark executor info for cluster: %s: %w" clusters ∅.
Definition BuildJobMetrics (clusters : list Cluster) : res ResourceMetrics :=
  buildInfos (sp_appJobs c) "failed to get jobs for app id: %s: %w" jobInfo "failed to get jobs for cluster: %s: %w" clusters ∅.
Definition BuildStageMetrics (clusters : list Cluster) : res ResourceMetrics :=
  buildInfos (sp_appStages c) "failed to get jobs for app id: %s: %w" stageInfo "failed to get stages for cluster: %s: %w" clusters ∅.

(** The later of two pipelines on the same cluster wins. *)
Definition pipelinesByClusterID (pipelines : list PipelineSummary) : gmap string PipelineSummary :=
  foldl (λ m p, <[ps_ClusterID p := p]> m) ∅ pipelines.

Definition addKeyed {V} (mk : sparkMetricBase → V → metricBuilder) (cl : Cluster) (pipeline : option PipelineSummary) (m : ResourceMetrics) (kv : string * V) : ResourceMetrics :=
  let '(app, name) := stripSparkMetricKey kv.1 in addBuilder cl app (mk (newSparkMetricBase name pipeline) kv.2) m.
Definition addCounterKeyed (cl : Cluster) (pipeline : option PipelineSummary) (m : ResourceMetrics) (kv : string * Z) : ResourceMetrics :=
  if String.eqb (stripSparkMetricKey kv.1).1 "" then m else addKeyed counterInfo cl pipeline m kv.
Definition clusterMetrics (m : ClusterMetrics) (pipeline : option PipelineSummary) (cl : Cluster) : ResourceMetrics :=
  foldl (addCounterKeyed cl pipeline) (foldl (addKeyed gaugeInfo cl pipeline) ∅ (range (Gauges m))) (range (Counters m)).
Definition timerMetrics (m : ClusterMetrics) (cl : Cluster) (pipeline : option PipelineSummary) : ResourceMetrics :=
  foldl (addKeyed timerInfo cl pipeline) ∅ (range (Timers m)).
Definition histoMetrics (m : ClusterMetrics) (cl : Cluster) (pipeline : option PipelineSummary) : ResourceMetrics :=
  foldl (addKeyed histoInfo cl pipeline) ∅ (range (Histograms m)).

Definition coreMetrics (pipelines : gmap string PipelineSummary) (out : ResourceMetrics) (cm : Cluster * ClusterMetrics) : ResourceMetrics :=
  let '(cl, m) := cm in
  let pipeline := pipelines !! ClusterID cl in
  Append (Append (Append out (clusterMetrics m pipeline cl)) (timerMetrics m cl pipeline)) (histoMetrics m cl pipeline).
Definition BuildCoreMetrics (clusters : list Cluster) (pipelines : list PipelineSummary) : res ResourceMetrics :=
  match getSparkMetricsForClusters clusters ∅ with
  | Err e => Err (Wrapf "error getting spark metrics for clusters: %w" [] e)
  | Ok ms => Ok (foldl (coreMetrics (pipelinesByClusterID pipelines)) ∅ (krange ms))
  end.
End spark.

(** ** databricks: service.go *)

Record schedule := { PauseStatus : string }.
(** Which of the task's bodies are present. *)
Record jobTask := {
  jt_TaskKey : string; jt_Notebook : bool; jt_SparkJar : bool; jt_SparkPython : bool; jt_Pipeline : bool; jt_PythonWheel : bool; jt_SparkSubmit : bool;
}.
Record Job := { JobID : Z; jb_Schedule : schedule; jb_Tasks : list jobTask }.
Record jobRunTask := { rt_TaskKey : string; rt_ExecutionDuration : Z }.
Record JobRun := { jr_JobID : Z; jr_StartTime : Z; jr_ExecutionDuration : Z; jr_LifeCycleState : string; jr_Tasks : list jobRunTask }.
Record jobsList := { jl_Jobs : list Job; jl_HasMore : bool }.
(** [None] is the nil slice of an answer without runs. *)
Record jobRuns := { jr_Runs : option (list JobRun); jr_HasMore : bool }.
Record pipelineStatus := { pst_PipelineID : string; pst_State : string; pst_Name : string }.

(** The decoded answers of the Databricks API. *)
Record DatabricksClient := {
  db_jobsList : Z → Z → res jobsList;
  db_activeJobRuns : Z → Z → res jobRuns;
  db_completedJobRuns : Z → Z → Z → res jobRuns;
  db_clustersList : res (list Cluster);
  db_pipelines : res (list pipelineStatus);
  (** The cluster of a pipeline. *)
  db_pipeline : string → res string;
}.

Section service.
Context (c : DatabricksClient) (limit : Z).

(** The pages of a list from the [i]th on. *)
Fixpoint pages {A} (fuel : nat) (page : Z → res (list A * bool)) (failed : string) (i : Z) (out : list A) : option (outcome (list A)) :=
  match fuel with
  | O => None
  | S fuel =>
      match page (limit * i) with
      | Err e => Some (Failed (Wrapf failed [] e))
      | Ok (l, hasMore) => if hasMore then pages fuel page failed (i + 1) (out ++ l) else Some (Done (out ++ l))
      end
  end.
Definition jobs (fuel : nat) : option (outcome (list Job)) :=
  pages fuel (λ off, match db_jobsList c limit off with Ok r => Ok (jl_Jobs r, jl_HasMore r) | Err e => Err e end) "jobs failed to get job list: %w" 0 [].
Definition activeJobRuns (fuel : nat) : option (outcome (list JobRun)) :=
  pages fuel (λ off, match db_activeJobRuns c limit off with Ok r => Ok (default [] (jr_Runs r), jr_HasMore r) | Err e => Err e end)
    "activeJobRuns failed to get activeJobRuns: %w" 0 [].

(** The last run of a page is older than the previous start time; a page that is
    empty but not nil has no last run. *)
Definition isOlder (runs : list JobRun) (prev : Z) : outcome bool :=
  match last runs with Some r => Done (jr_StartTime r <? prev) | None => Panics end.
Fixpoint completedLoop (fuel : nat) (jobID prev : Z) (i : Z) (out : list JobRun) : option (outcome (list JobRun)) :=
  match fuel with
  | O => None
  | S fuel =>
      match db_completedJobRuns c jobID limit (limit * i) with
      | Err e => Some (Failed (Wrapf "CompletedJobRuns failed to get completedJobRuns: %w" [] e))
      | Ok resp =>
          let out := out ++ default [] (jr_Runs resp) in
          let stop := if prev =? 0 then Done true else match jr_Runs resp with None => Done true | Some runs => isOlder runs prev end in
          match stop with
          | Done true => Some (Done out)
          | Done false => if jr_HasMore resp then completedLoop fuel jobID prev (i + 1) out else Some (Done out)
          | Failed e => Some (Failed e)
          | Panics => Some Panics
          end
      end
  end.
Definition CompletedJobRuns (fuel : nat) (jobID prev : Z) : option (outcome (list JobRun)) := completedLoop fuel jobID prev 0 [].

Definition RunningClusters : res (list Cluster) :=
  match db_clustersList c with
  | Err e => Err (Wrapf "RunningClusters failed to get runningClusterIDs: %w" [] e)
  | Ok l => Ok (List.filter (λ cl, String.eqb (cl_State cl) "RUNNING") l)
  end.
Fixpoint pipelineLoop (l : list pipelineStatus) : res (list PipelineSummary) :=
  match l with
  | [] => Ok []
  | s :: l =>
      if negb (String.eqb (pst_State s) "RUNNING") then pipelineLoop l
      else match db_pipeline c (pst_PipelineID s) with
           | Err e => Err (Wrapf "RunningPipelines failed to get single pipeline: id: %s: %w" [pst_PipelineID s] e)
           | Ok cluster => rest ← pipelineLoop l; Ok ({| ps_ID := pst_PipelineID s; ps_Name := pst_Name s; ps_ClusterID := cluster |} :: rest)
           end
  end.
Definition RunningPipelines : res (list PipelineSummary) :=
  match db_pipelines c with
  | Err e => Err (Wrapf "RunningPipelines failed to get pipelines: %w" [] e)
  | Ok l => pipelineLoop l
  end.
End service.

(** ** databricks: run_tracker.go *)

(** The start times by job. *)
Notation runTracker := (gmap Z Z).
Definition getPrevStartTime (t : runTracker) (jobID : Z) : Z := default 0 (t !! jobID).
Definition collectNewRuns (runs : list JobRun) (prev : Z) : list JobRun := List.filter (λ r, negb (jr_StartTime r <=? prev)) (rev runs).
Definition extractNewRuns (runs : list JobRun) (t : runTracker) : list JobRun * runTracker :=
  match runs with
  | [] => ([], t)
  | latest :: _ =>
      let prev := getPrevStartTime t (jr_JobID latest) in
      let t := <[jr_JobID latest := jr_StartTime latest]> t in
      (if prev =? 0 then [] else collectNewRuns runs prev, t)
  end.

(** ** databricks: metrics_provider.go and run_metrics_provider.go *)

Definition pauseStatusToInt (ps : string) : Z := if String.eqb ps "PAUSED" then 0 else if String.eqb ps "UNPAUSED" then 1 else 2.
(** The name of the task type, empty when there is none. *)
Definition taskType (t : jobTask) : string :=
  if jt_Notebook t then "NotebookTask"
  else if jt_SparkJar t then "SparkJarTask"
  else if jt_SparkPython t then "SparkPythonTask"
  else if jt_Pipeline t then "PipelineTask"
  else if jt_PythonWheel t then "PythonWheelTask"
  else if jt_SparkSubmit t then "SparkSubmitTask"
  else "".
Section provider.
Context (now : Z).
Definition jobRecords (j : Job) : list record :=
  let status := NInt (pauseStatusToInt (PauseStatus (jb_Schedule j))) in
  rec now metricDatabricksJobsScheduleStatus status [AInt (JobID j)] ::
  map (λ t, rec now metricDatabricksTasksScheduleStatus status [AInt (JobID j); AString (jt_TaskKey t); AString (taskType t)]) (jb_Tasks j).
Definition jobStatusRecords (l : list Job) : list record :=
  rec now metricDatabricksJobsTotal (NInt (Z.of_nat (length l))) [] :: flat_map jobRecords l.
(** A skipped run has no records. *)
Definition runRecords (jobID : Z) (r : JobRun) : list record :=
  if String.eqb (jr_LifeCycleState r) "SKIPPED" then []
  else rec now metricDatabricksJobsRunDuration (NInt (jr_ExecutionDuration r)) [AInt jobID] ::
       map (λ t, rec now metricDatabricksTasksRunDuration (NInt (rt_ExecutionDuration t)) [AInt jobID; AString (rt_TaskKey t)]) (jr_Tasks r).
End provider.

(** ** scraper.go *)

Record scraper := { sc_tracker : runTracker; sc_mb : MetricsBuilder; sc_rb : ResourceBuilder }.

(** A computation on the scraper that may not end within the fuel, and whose effects
    stay when it fails. *)
Definition scrapeM (A : Type) : Type := scraper → option (scraper * outcome A).
#[global] Instance scrapeM_ret : MRet scrapeM := λ A a s, Some (s, Done a).
#[global] Instance scrapeM_bind : MBind scrapeM := λ A B f m s,
  match m s with
  | None => None
  | Some (s, Done a) => f a s
  | Some (s, Failed e) => Some (s, Failed e)
  | Some (s, Panics) => Some (s, Panics)
  end.
(** Run a call of a service and wrap its error. *)
Definition wrapErr {A} (msg : string) (o : outcome A) : outcome A := match o with Failed e => Failed (Wrapf msg [] e) | o => o end.
Definition calling {A} (msg : string) (r : option (outcome A)) : scrapeM A := λ s, match r with None => None | Some o => Some (s, wrapErr msg o) end.
Definition ofRes {A} (r : res A) : option (outcome A) := Some (match r with Ok a => Done a | Err e => Failed e end).
Definition recording (l : list record) : scrapeM unit := λ s,
  Some ({| sc_tracker := sc_tracker s; sc_mb := recordAll l (sc_mb s); sc_rb := sc_rb s |}, Done tt).

Section scrape.
Context `{MapRange} `{KeyRange} (fuel : nat) (dbr : DatabricksClient) (spark : SparkClient) (limit : Z) (instanceName : string) (now : Z).

Definition AddJobStatusMetrics : scrapeM (list Z) :=
  l ← calling "AddJobStatusMetrics failed to get jobs: %w" (jobs dbr limit fuel);
  recording (jobStatusRecords now l);; mret (map JobID l).
Definition AddNumActiveRunsMetric : scrapeM unit :=
  l ← calling "AddNumActiveRunsMetric failed to get active job runs: %w" (activeJobRuns dbr limit fuel);
  recording [rec now metricDatabricksJobsActiveTotal (NInt (Z.of_nat (length l))) []].
Definition tracking (runs : list JobRun) : scrapeM (list JobRun) := λ s,
  let '(new, t) := extractNewRuns runs (sc_tracker s) in
  Some ({| sc_tracker := t; sc_mb := sc_mb s; sc_rb := sc_rb s |}, Done new).
Definition addSingleJobRunMetrics (jobID : Z) : scrapeM unit := λ s,
  (runs ← calling "addSingleJobRunMetrics failed to get single job run metrics: %w" (CompletedJobRuns dbr limit fuel jobID (getPrevStartTime (sc_tracker s) jobID));
   new ← tracking runs;
   recording (flat_map (runRecords now jobID) new)) s.
Fixpoint AddMultiJobRunMetrics (jobIDs : list Z) : scrapeM unit :=
  match jobIDs with
  | [] => mret tt
  | id :: jobIDs => λ s,
      match addSingleJobRunMetrics id s with
      | Some (s, Failed e) => Some (s, Failed (Wrapf "AddMultiJobRunMetrics failed to get single job run metrics: aborting: %w" [] e))
      | Some (s, Panics) => Some (s, Panics)
      | Some (s, Done _) => AddMultiJobRunMetrics jobIDs s
      | None => None
      end
  end.
Definition within {A} (msg : string) (m : scrapeM A) : scrapeM A := λ s, match m s with None => None | Some (s, o) => Some (s, wrapErr msg o) end.

Definition emitDatabricks : scrapeM (list resourceMetrics) := λ s,
  let '(res, rb) := rb_Emit (SetDatabricksInstanceName instanceName (sc_rb s)) in
  let '(out, mb) := Emit res (sc_mb s) in
  Some ({| sc_tracker := sc_tracker s; sc_mb := mb; sc_rb := rb |}, Done out).
Definition buildSpark (m : ResourceMetrics) : scrapeM (list resourceMetrics) := λ s,
  let '(outs, mb, rb) := Build now instanceName m (sc_mb s) (sc_rb s) in
  Some ({| sc_tracker := sc_tracker s; sc_mb := mb; sc_rb := rb |}, Done (concat outs)).

(** The metrics of the Databricks API and those of the clusters. *)
Definition scrapeDatabricks : scrapeM (list resourceMetrics) :=
  jobIDs ← within "srape failed to add job status metrics: %w" AddJobStatusMetrics;
  within "scrape failed to add num active runs metric %w" AddNumActiveRunsMetric;;
  within "scrape failed to add multi job run metrics: %w" (AddMultiJobRunMetrics jobIDs);;
  emitDatabricks.
Definition scrapeSpark : scrapeM (list resourceMetrics) :=
  clusters ← calling "scrape failed to get running clusters: %w" (ofRes (RunningClusters dbr));
  pipelines ← calling "scrape failed to get pipelines: %w" (ofRes (RunningPipelines dbr));
  core ← calling "scrape failed to build spark metrics: %w" (ofRes (BuildCoreMetrics spark clusters pipelines));
  exec ← calling "scrape failed to build executor metrics: %w" (ofRes (BuildExecutorMetrics spark clusters));
  job ← calling "scrape failed to build job metrics: %w" (ofRes (BuildJobMetrics spark clusters));
  stage ← calling "scrape failed to build stage metrics: %w" (ofRes (BuildStageMetrics spark clusters));
  buildSpark (Append (Append (Append (Append ∅ core) exec) job) stage).
Definition scrape : scrapeM (list resourceMetrics) :=
  dbrMetrics ← scrapeDatabricks;
  sparkMetrics ← scrapeSpark;
  mret (dbrMetrics ++ sparkMetrics).
End scrape.

(** ** Pages *)

(** A server that lists [l] in pages. *)
Definition serves_pages {A} (limit : Z) (l : list A) (page : Z → res (list A * bool)) : Prop :=
  ∀ off, 0 <= off → page off = Ok (take (Z.to_nat limit) (drop (Z.to_nat off) l), bool_decide (off + limit < Z.of_nat (length l))).

Lemma page_step {A} (limit : Z) (l : list A) (i : nat) : 0 < limit →
  take (Z.to_nat limit * i) l ++ take (Z.to_nat limit) (drop (Z.to_nat (limit * Z.of_nat i)) l) = take (Z.to_nat limit * S i) l.
Proof.
  intros Hl. replace (Z.to_nat (limit * Z.of_nat i)) with (Z.to_nat limit * i)%nat by lia.
  rewrite <-(take_drop (Z.to_nat limit * i) (take (Z.to_nat limit * S i) l)), take_take, skipn_firstn_comm.
  f_equal; f_equal; lia.
Qed.

(** Enough fuel fetches the whole list. *)
Lemma pages_complete {A} (limit : Z) (l : list A) page failed : 0 < limit → serves_pages limit l page →
  ∀ fuel i, (length l < Z.to_nat limit * (fuel + i))%nat → (0 < fuel)%nat →
  pages limit fuel page failed (Z.of_nat i) (take (Z.to_nat limit * i) l) = Some (Done l).
Proof.
  intros Hl Hs. induction fuel as [|fuel IH]; intros i Hf H0; [lia|]. cbn [pages]. rewrite Hs by lia. rewrite page_step by done.
  case_bool_decide as Hm.
  - replace (Z.of_nat i + 1) with (Z.of_nat (S i)) by lia. apply IH; [lia|]. destruct fuel as [|fuel]; [nia|lia].
  - rewrite take_ge by nia. done.
Qed.

Definition serves_jobs (limit : Z) (l : list Job) (c : DatabricksClient) : Prop :=
  serves_pages limit l (λ off, match db_jobsList c limit off with Ok r => Ok (jl_Jobs r, jl_HasMore r) | Err e => Err e end).

(** With a limit above zero the service returns all the jobs of the account, in order,
    whatever their number. *)
Theorem jobs_complete c limit l fuel : 0 < limit → serves_jobs limit l c → (length l < fuel)%nat → jobs c limit fuel = Some (Done l).
Proof.
  intros Hl Hs Hf. pose proof (pages_complete limit l _ "jobs failed to get job list: %w" Hl Hs fuel 0) as Hp.
  rewrite Nat.mul_0_r, take_0 in Hp. apply Hp; [nia|lia].
Qed.

(** The limit zero, which the configuration allows, asks for the first page again and
    again: when the answer says that there is more, the loop never ends. *)
Theorem zero_limit_never_ends c cfg r : databricks_Validate cfg = None → dc_MaxResults cfg = 0 →
  db_jobsList c (dc_MaxResults cfg) 0 = Ok r → jl_HasMore r = true → ∀ fuel, jobs c (dc_MaxResults cfg) fuel = None.
Proof.
  intros _ -> Hr Hm. unfold jobs.
  assert (Hp : ∀ fuel page failed i out, page 0 = Ok (jl_Jobs r, true) → pages 0 fuel page failed i out = None).
  { induction fuel as [|fuel IH]; intros page failed i out H0; [done|]. cbn [pages]. rewrite Z.mul_0_l, H0. by apply IH. }
  intros fuel. apply Hp. by rewrite Hr, Hm.
Qed.

(** ** Completed runs *)

Definition desc (l : list JobRun) : Prop := StronglySorted (λ a b, jr_StartTime b <= jr_StartTime a) l.
(** A server that lists the completed runs of a job, the latest first; without runs the
    answer has no such field. *)
Definition serves_runs (limit jobID : Z) (l : list JobRun) (c : DatabricksClient) : Prop :=
  ∀ off, 0 <= off → db_completedJobRuns c jobID limit off =
    Ok {| jr_Runs := match take (Z.to_nat limit) (drop (Z.to_nat off) l) with [] => None | p => Some p end;
          jr_HasMore := bool_decide (off + limit < Z.of_nat (length l)) |}.

Lemma desc_app l1 l2 : desc (l1 ++ l2) → ∀ a b, a ∈ l1 → b ∈ l2 → jr_StartTime b <= jr_StartTime a.
Proof. intros Hs a b Ha Hb. exact (StronglySorted_app_1_elem_of _ l1 l2 a b Hs Ha Hb). Qed.

(** The runs after a page whose last run is older than [prev] are old. *)
Lemma collectNewRuns_prefix l1 l2 prev : (∀ r, r ∈ l2 → jr_StartTime r <= prev) → collectNewRuns (l1 ++ l2) prev = collectNewRuns l1 prev.
Proof.
  intros Hl. unfold collectNewRuns. rewrite rev_app_distr, List.filter_app.
  replace (List.filter _ (rev l2)) with (@nil JobRun); [done|]. symmetry. assert (Hr : ∀ r, r ∈ rev l2 → jr_StartTime r <= prev).
  { intros r Hr. apply Hl, list_elem_of_In, in_rev, list_elem_of_In, Hr. }
  revert Hr. generalize (rev l2). intros l. induction l as [|r l IH]; intros Hr; [done|]. cbn [List.filter].
  rewrite (proj2 (Z.leb_le _ _)) by (apply Hr; by left). cbn [negb]. apply IH. intros r' Hr'. apply Hr. by right.
Qed.

Lemma completedLoop_complete c limit jobID prev l : 0 < limit → prev ≠ 0 → desc l → serves_runs limit jobID l c →
  ∀ fuel i, (length l < Z.to_nat limit * (fuel + i))%nat → (0 < fuel)%nat →
  ∃ n, (Z.to_nat limit * S i <= n)%nat ∧
    completedLoop c limit fuel jobID prev (Z.of_nat i) (take (Z.to_nat limit * i) l) = Some (Done (take n l)) ∧
    ∀ r, r ∈ drop n l → jr_StartTime r <= prev.
Proof.
  intros Hl Hp Hd Hs. induction fuel as [|fuel IH]; intros i Hf H0; [lia|]. cbn [completedLoop]. rewrite Hs by lia. cbn [jr_Runs jr_HasMore].
  rewrite (proj2 (Z.eqb_neq _ _)) by done.
  pose proof (page_step limit l i Hl) as Hpg. set (pg := take (Z.to_nat limit) (drop (Z.to_nat (limit * Z.of_nat i)) l)) in *.
  assert (Hend : (length l <= Z.to_nat limit * S i)%nat → ∀ r, r ∈ drop (Z.to_nat limit * S i) l → jr_StartTime r <= prev).
  { intros Hle r. rewrite drop_ge by done. by intros ?%not_elem_of_nil. }
  destruct pg as [|r0 pg'] eqn:Epg; cbn [from_option id]; rewrite Hpg.
  - exists (Z.to_nat limit * S i)%nat. split; [lia|]. split; [done|]. apply Hend. subst pg.
    assert (Hlen : length (take (Z.to_nat limit) (drop (Z.to_nat (limit * Z.of_nat i)) l)) = 0%nat) by (by rewrite Epg).
    rewrite length_take, length_drop in Hlen. nia.
  - unfold isOlder. destruct (last (r0 :: pg')) as [r|] eqn:El; [|by apply last_None in El].
    destruct (Z.ltb_spec (jr_StartTime r) prev) as [Hold|Hnew].
    + exists (Z.to_nat limit * S i)%nat. split; [lia|]. split; [done|]. intros r' Hr'.
      assert (jr_StartTime r' <= jr_StartTime r); [|lia]. rewrite <-(take_drop (Z.to_nat limit * S i) l) in Hd.
      apply (desc_app _ _ Hd); [|done]. rewrite <-Hpg. apply elem_of_app. right. by apply last_Some_elem_of.
    + case_bool_decide as Hm.
      * destruct (IH (S i)) as (n & Hn & Hc & Ho); [lia|destruct fuel; [nia|lia]|]. exists n. split; [lia|].
        by replace (Z.of_nat i + 1) with (Z.of_nat (S i)) by lia.
      * exists (Z.to_nat limit * S i)%nat. split; [lia|]. split; [done|]. apply Hend. nia.
Qed.

Lemma head_take {A} n (l : list A) : (0 < n)%nat → head (take n l) = head l.
Proof. destruct l, n; cbn; done || lia. Qed.

Definition of_job (jobID : Z) (l : list JobRun) : Prop := Forall (λ r, jr_JobID r = jobID) l.
(** The start time of the latest run. *)
Definition latest (l : list JobRun) : option Z := jr_StartTime <$> head l.

Lemma extractNewRuns_of_job jobID l t : of_job jobID l → getPrevStartTime t jobID ≠ 0 →
  extractNewRuns l t = (collectNewRuns l (getPrevStartTime t jobID), match latest l with Some s => <[jobID := s]> t | None => t end).
Proof.
  intros Hj Hp. unfold extractNewRuns, latest. destruct l as [|r l]; [done|]. apply Forall_cons in Hj as [-> _].
  by rewrite (proj2 (Z.eqb_neq _ _)) by done.
Qed.

(** C25: For a job seen before, the runs reported are exactly the listed ones that started after the
    latest known run, oldest first, however the list is split into pages. *)
Theorem new_runs_reported c limit jobID l t fuel :
  0 < limit → desc l → of_job jobID l → serves_runs limit jobID l c → (length l < fuel)%nat → getPrevStartTime t jobID ≠ 0 →
  ∃ out, CompletedJobRuns c limit fuel jobID (getPrevStartTime t jobID) = Some (Done out) ∧
    extractNewRuns out t =
      (List.filter (λ r, getPrevStartTime t jobID <? jr_StartTime r) (rev l), match latest l with Some s => <[jobID := s]> t | None => t end).
Proof.
  intros Hl Hd Hj Hs Hf Hp. destruct (completedLoop_complete c limit jobID (getPrevStartTime t jobID) l Hl Hp Hd Hs fuel 0) as (n & Hn & Hc & Ho); [nia|lia|].
  rewrite Nat.mul_0_r, take_0 in Hc. exists (take n l). split; [exact Hc|].
  rewrite (extractNewRuns_of_job jobID) by (done || by apply Forall_take). f_equal.
  - rewrite <-(collectNewRuns_prefix _ (drop n l)), take_drop by done. apply List.filter_ext. intros r. by rewrite Z.leb_antisym, negb_involutive.
  - unfold latest. by rewrite head_take by lia.
Qed.

(** ** Metrics of clusters *)

#[global] Instance temporality_eq_dec : EqDecision temporality.
Proof. solve_decision. Defined.
#[global] Instance instrument_eq_dec : EqDecision instrument.
Proof. solve_decision. Defined.
#[global] Instance metricInfo_eq_dec : EqDecision metricInfo.
Proof. solve_decision. Defined.

Lemma tables_known : Forall (λ kv, kv.2 ∈ databricksMetrics) (gaugeMetrics ++ counterMetrics ++ timerMetricInfos ++ histoMetricInfos).
Proof. apply (bool_decide_unpack _). vm_compute. exact I. Qed.

Lemma byName_known now table name v attrs : Forall (λ kv, kv.2 ∈ databricksMetrics) table → known_records (byName now table name v attrs).
Proof.
  intros Ht. unfold byName. destruct (List.find _ table) as [kv|] eqn:E; [|constructor]. apply find_some in E as [E _].
  apply Forall_singleton. cbn [rec rc_Metric]. rewrite Forall_forall in Ht. by apply Ht, list_elem_of_In.
Qed.
Lemma rec_known now mi v attrs l : bool_decide (mi ∈ databricksMetrics) = true → known_records l → known_records (rec now mi v attrs :: l).
Proof. intros Hm Hl. constructor; [|done]. by apply bool_decide_eq_true in Hm. Qed.
Lemma known_nil : known_records [].
Proof. constructor. Qed.
Ltac solve_known := repeat (apply rec_known; [vm_compute; reflexivity|]); apply known_nil.

Lemma build_known now rs b : known_records (build now rs b).
Proof.
  pose proof tables_known as Ht. rewrite !Forall_app in Ht. destruct Ht as (H1 & H2 & H3 & H4).
  destruct b; cbn [build]; [exact (byName_known _ _ _ _ _ H1)|exact (byName_known _ _ _ _ _ H2)|exact (byName_known _ _ _ _ _ H3)|exact (byName_known _ _ _ _ _ H4)| | |];
    unfold buildExecMetrics, buildJobMetrics, buildStageMetrics; cbn [map fst snd]; solve_known.
Qed.
Lemma known_flat_map {A} (f : A → list record) l : (∀ x, known_records (f x)) → known_records (flat_map f l).
Proof. intros Hf. induction l as [|x l IH]; [constructor|]. cbn [flat_map]. apply Forall_app. split; [apply Hf|exact IH]. Qed.

(** The attributes of a resource, as far as they are enabled. *)
Definition resourceOf (enabled : gset string) (instanceName : string) (rs : resource) : gmap string any :=
  rb_res (setResource instanceName rs {| rb_enabled := enabled; rb_res := ∅ |}).
Definition fresh (rb : ResourceBuilder) : Prop := rb_res rb = ∅.
Lemma setAttr_enabled k v rb : rb_enabled (setAttr k v rb) = rb_enabled rb.
Proof. unfold setAttr. by case_bool_decide. Qed.

(** Building from a rested builder gives for every cluster and application one resource,
    with the cluster's attributes and exactly the points its metrics stand for, and leaves
    both builders as they were. *)
Theorem Build_correct `{KeyRange} now instanceName m mb rb : rested mb = mb → fresh rb →
  Build now instanceName m mb rb =
    (map (λ ri, underResource (mb_version mb) (resourceOf (rb_enabled rb) instanceName ri.1)
                  (metricsOf (mb_enabled mb) (mb_start mb) (flat_map (build now ri.1) ri.2))) (krange m), mb, rb).
Proof.
  intros Hc Hf. unfold Build. induction (krange m) as [|[rs infos] l IH]; [done|]. cbn [buildLoop map fst snd]. unfold rb_Emit.
  rewrite (Emit_recordAll _ mb) by (done || apply known_flat_map, build_known).
  assert (He : rb_enabled (setResource instanceName rs rb) = rb_enabled rb) by (unfold setResource, SetSparkClusterName, SetSparkClusterID, SetDatabricksInstanceName; by rewrite !setAttr_enabled).
  assert (Hrb : {| rb_enabled := rb_enabled (setResource instanceName rs rb); rb_res := ∅ |} = rb) by (rewrite He; destruct rb; cbn in *; by rewrite Hf).
  assert (Hres : rb_res (setResource instanceName rs rb) = resourceOf (rb_enabled rb) instanceName rs) by (unfold resourceOf; destruct rb as [en r]; cbn in *; by rewrite Hf).
  rewrite Hrb, IH, Hres. done.
Qed.

(** ** Forbidden clusters *)

Section forbidden.
Context `{MapRange} `{KeyRange} (c : SparkClient).
Definition forbidden {A} (r : res A) : bool := match r with Err e => IsForbidden e | Ok _ => false end.

Lemma getSparkMetricsForClusters_skips clusters out :
  getSparkMetricsForClusters c clusters out =
  getSparkMetricsForClusters c (List.filter (λ cl, negb (forbidden (sp_metrics c (ClusterID cl)))) clusters) out.
Proof.
  revert out. induction clusters as [|cl clusters IH]; intros out; [done|]. cbn [getSparkMetricsForClusters List.filter].
  unfold forbidden at 1. destruct (sp_metrics c (ClusterID cl)) as [m|e] eqn:E; cbn [negb]; [cbn [getSparkMetricsForClusters]; rewrite E; apply IH|].
  destruct (IsForbidden e) eqn:Ee; cbn [negb getSparkMetricsForClusters]; [apply IH|]. by rewrite E, Ee.
Qed.
Lemma buildInfos_skips {I} (fetch : string → string → res (list I)) failed wrap failedCluster clusters out :
  buildInfos c fetch failed wrap failedCluster clusters out =
  buildInfos c fetch failed wrap failedCluster (List.filter (λ cl, negb (forbidden (infoSliceByApp c fetch failed (ClusterID cl)))) clusters) out.
Proof.
  revert out. induction clusters as [|cl clusters IH]; intros out; [done|]. cbn [buildInfos List.filter].
  unfold forbidden at 1. destruct (infoSliceByApp c fetch failed (ClusterID cl)) as [m|e] eqn:E; cbn [negb]; [cbn [buildInfos]; rewrite E; apply IH|].
  destruct (IsForbidden e) eqn:Ee; cbn [negb buildInfos]; [apply IH|]. by rewrite E, Ee.
Qed.

(** A cluster none of whose data may be read. *)
Definition unreadable (cl : Cluster) : bool :=
  forbidden (sp_metrics c (ClusterID cl)) && forbidden (sp_applications c (ClusterID cl)).
Lemma unreadable_infos {I} (fetch : string → string → res (list I)) failed cl : unreadable cl = true → forbidden (infoSliceByApp c fetch failed (ClusterID cl)) = true.
Proof. unfold unreadable, infoSliceByApp. intros [_ Ha]%andb_true_iff. by destruct (sp_applications c (ClusterID cl)). Qed.
Lemma filter_skips (p q : Cluster → bool) l : (∀ cl, q cl = true → p cl = false) → List.filter p (List.filter (λ cl, negb (q cl)) l) = List.filter p l.
Proof.
  intros Hq. induction l as [|x l IH]; [done|]. cbn [List.filter]. destruct (q x) eqn:E; cbn [negb List.filter]; [by rewrite (Hq x E)|]. by rewrite IH.
Qed.

(** Clusters that the token may not read are skipped by all four builders: the result is that of the other clusters. *)
Theorem forbidden_clusters_skipped clusters pipelines : let others := List.filter (λ cl, negb (unreadable cl)) clusters in
  BuildCoreMetrics c clusters pipelines = BuildCoreMetrics c others pipelines ∧ BuildExecutorMetrics c clusters = BuildExecutorMetrics c others ∧
  BuildJobMetrics c clusters = BuildJobMetrics c others ∧ BuildStageMetrics c clusters = BuildStageMetrics c others.
Proof.
  intros others. assert (Hu : ∀ I (fetch : string → string → res (list I)) failed wrap failedCluster,
    buildInfos c fetch failed wrap failedCluster clusters ∅ = buildInfos c fetch failed wrap failedCluster others ∅).
  { intros. rewrite buildInfos_skips, (buildInfos_skips fetch failed wrap failedCluster others). unfold others. rewrite filter_skips; [done|].
    intros cl Hcl. by rewrite (unreadable_infos _ _ _ Hcl). }
  split_and!; [|apply Hu..]. unfold BuildCoreMetrics. rewrite getSparkMetricsForClusters_skips, (getSparkMetricsForClusters_skips others).
  unfold others. rewrite filter_skips; [done|]. intros cl [Hm _]%andb_true_iff. by rewrite Hm.
Qed.
End forbidden.

(** ** Keys of spark metrics *)

Lemma Join_app_last (l : list string) p q : Join (l ++ [p +:+ q]) "." = Join (l ++ [p]) "." +:+ q.
Proof.
  induction l as [|x l IH]; [done|]. destruct l as [|y l]; [cbn [app Join]; by rewrite !append_assoc|].
  change (Join ((x :: y :: l) ++ [p +:+ q]) ".") with (x +:+ "." +:+ Join ((y :: l) ++ [p +:+ q]) ".").
  change (Join ((x :: y :: l) ++ [p]) ".") with (x +:+ "." +:+ Join ((y :: l) ++ [p]) "."). by rewrite IH, !append_assoc.
Qed.
Lemma SplitByte_last_suffix s t : ContainsByte t "."%char = false → ∃ l p, SplitByte s "."%char = l ++ [p] ∧ SplitByte (s +:+ t) "."%char = l ++ [p +:+ t].
Proof.
  intros Ht. induction s as [|c s IH]; [exists [], ""; cbn; by rewrite SplitByte_plain|].
  destruct IH as (l & p & H1 & H2). rewrite append_cons. cbn [SplitByte]. rewrite H1, H2.
  destruct l as [|x l]; cbn [app]; destruct (Ascii.eqb c "."%char).
  - by exists [""], p.
  - by exists [], (String c p).
  - by exists ("" :: x :: l), p.
  - by exists (String c x :: l), p.
Qed.
Lemma HasSuffix_app s t : HasSuffix (s +:+ t) t = true.
Proof. apply HasSuffix_spec. by exists s. Qed.

Lemma stripSuffixMB_plain s : HasSuffix s "_MB" = false → Join (stripSuffixMB (SplitByte s "."%char)) "." = s.
Proof.
  intros Hs. destruct (SplitByte_last_suffix s "") as (l & p & H1 & _); [done|]. pose proof (Join_SplitByte s "."%char) as Hj. rewrite H1 in *.
  unfold stripSuffixMB. rewrite last_snoc. destruct (HasSuffix p "_MB") eqn:E; [|done]. exfalso.
  apply HasSuffix_spec in E as [u ->]. rewrite Join_app_last in Hj. rewrite <-Hj, HasSuffix_app in Hs. discriminate Hs.
Qed.
Lemma stripSuffixMB_suffix s : Join (stripSuffixMB (SplitByte (s +:+ "_MB") "."%char)) "." = s.
Proof.
  destruct (SplitByte_last_suffix s "_MB") as (l & p & H1 & H2); [done|]. rewrite H2. unfold stripSuffixMB. rewrite last_snoc, HasSuffix_app, removelast_last.
  replace (slen (p +:+ "_MB") - 3)%nat with (slen p) by (rewrite slen_append; cbn; lia). rewrite stake_app, <-H1. apply Join_SplitByte.
Qed.
Lemma stripSparkMetricKey_driver app name : ContainsByte app "."%char = false →
  stripSparkMetricKey (app +:+ ".driver." +:+ name) = (app, ToLower (Join (stripSuffixMB (SplitByte name "."%char)) ".")).
Proof.
  intros Ha. unfold stripSparkMetricKey. change (".driver." +:+ name) with (String "." ("driver" +:+ String "." name)).
  rewrite SplitByte_app, SplitByte_app by done. destruct (SplitByte name "."%char) as [|p ps] eqn:E; [by apply SplitByte_nonempty in E|]. done.
Qed.

(** The keys of a table are in lower case, without the suffix, and each selects its own metric. *)
Definition selects (table : list (string * metricInfo)) (kv : string * metricInfo) : Prop :=
  ToLower kv.1 = kv.1 ∧ HasSuffix kv.1 "_MB" = false ∧ List.find (λ x, String.eqb x.1 kv.1) table = Some kv.
#[local] Instance selects_dec table kv : Decision (selects table kv).
Proof. unfold selects. apply _. Defined.
Lemma tables_select : Forall (λ table, Forall (selects table) table) [gaugeMetrics; counterMetrics; timerMetricInfos; histoMetricInfos].
Proof. apply (bool_decide_unpack _). vm_compute. exact I. Qed.

Lemma byName_selects now table kv v attrs : Forall (selects table) table → kv ∈ table → byName now table kv.1 v attrs = [rec now kv.2 v attrs].
Proof. intros Ht Hk. rewrite Forall_forall in Ht. destruct (Ht kv Hk) as (_ & _ & E). unfold byName. by rewrite E. Qed.

(** Every gauge and counter of the driver that the receiver knows, in megabytes or not, is recorded under its own metric
    with the cluster, the application and the pipeline as attributes. *)
Theorem driver_metric_recorded now cl app p g k v n (suffix : bool) : ContainsByte app "."%char = false → g ∈ gaugeMetrics → k ∈ counterMetrics →
  let key name := app +:+ ".driver." +:+ name +:+ (if suffix then "_MB" else "") in
  let rs := {| rs_cluster := cl; rs_appID := app |} in
  let attrs := [AString (ClusterID cl); AString app; AString (ps_ID p); AString (ps_Name p)] in
  (stripSparkMetricKey (key g.1)).1 = app ∧
  build now rs (gaugeInfo (newSparkMetricBase (stripSparkMetricKey (key g.1)).2 (Some p)) v) = [rec now g.2 (NDouble v) attrs] ∧
  build now rs (counterInfo (newSparkMetricBase (stripSparkMetricKey (key k.1)).2 (Some p)) n) = [rec now k.2 (NInt n) attrs].
Proof.
  intros Ha Hg Hk key rs attrs. pose proof tables_select as Ht. apply Forall_cons in Ht as [H1 Ht]. apply Forall_cons in Ht as [H2 _].
  assert (Hkey : ∀ table kv, Forall (selects table) table → kv ∈ table → stripSparkMetricKey (key kv.1) = (app, kv.1)).
  { intros table kv Hs Hkv. rewrite Forall_forall in Hs. destruct (Hs kv Hkv) as (Hl & Hm & _). unfold key. rewrite stripSparkMetricKey_driver by done.
    destruct suffix; [rewrite stripSuffixMB_suffix|rewrite append_nil_r, stripSuffixMB_plain by done]; by rewrite Hl. }
  rewrite (Hkey _ _ H1 Hg), (Hkey _ _ H2 Hk). cbn [fst snd build]. split; [done|]. unfold buildGauge, buildCounter. cbn [newSparkMetricBase sb_name].
  by rewrite !byName_selects.
Qed.

(** ** Scrapes *)

(** A computation that only records points and moves the tracker, also when it fails. *)
Definition only_records {A} (m : scrapeM A) : Prop := ∀ s s' o, m s = Some (s', o) →
  ∃ l, known_records l ∧ sc_mb s' = recordAll l (sc_mb s) ∧ sc_rb s' = sc_rb s.
(** A scraper between two scrapes. *)
Definition at_rest (s : scraper) : Prop := rested (sc_mb s) = sc_mb s ∧ fresh (sc_rb s).

Lemma only_records_bind {A B} (m : scrapeM A) (f : A → scrapeM B) : only_records m → (∀ a, only_records (f a)) → only_records (m ≫= f).
Proof.
  intros Hm Hf s s' o. unfold mbind, scrapeM_bind. destruct (m s) as [[s1 [a|e|]]|] eqn:E; [|intros [= <- <-]; by apply (Hm s _ _ E)..|done].
  intros Hb. destruct (Hm s _ _ E) as (l1 & K1 & M1 & R1). destruct (Hf a s1 _ _ Hb) as (l2 & K2 & M2 & R2).
  exists (l1 ++ l2). split; [by apply Forall_app|]. by rewrite M2, M1, recordAll_app, R2, R1.
Qed.
Lemma only_records_stay {A} (m : scrapeM A) : (∀ s s' o, m s = Some (s', o) → sc_mb s' = sc_mb s ∧ sc_rb s' = sc_rb s) → only_records m.
Proof. intros Hm s s' o E. destruct (Hm s s' o E) as [Hmb Hrb]. exists []. split; [apply known_nil|done]. Qed.
Lemma only_records_calling {A} msg (r : option (outcome A)) : only_records (calling msg r).
Proof. apply only_records_stay. unfold calling. intros s s' o. destruct r; [|done]. by intros [= <- _]. Qed.
Lemma only_records_recording l : known_records l → only_records (recording l).
Proof. intros Hl s s' o [= <- <-]. by exists l. Qed.
Lemma only_records_within {A} msg (m : scrapeM A) : only_records m → only_records (within msg m).
Proof. intros Hm s s' o. unfold within. destruct (m s) as [[s1 o1]|] eqn:E; [|done]. intros [= <- _]. by apply (Hm s s1 o1). Qed.

Lemma jobStatusRecords_known now l : known_records (jobStatusRecords now l).
Proof.
  apply rec_known; [by vm_compute|]. apply known_flat_map. intros j. apply rec_known; [by vm_compute|].
  induction (jb_Tasks j) as [|t ts IH]; [apply known_nil|]. apply rec_known; [by vm_compute|exact IH].
Qed.
Lemma runRecords_known now jobID r : known_records (runRecords now jobID r).
Proof.
  unfold runRecords. destruct (String.eqb _ _); [apply known_nil|]. apply rec_known; [by vm_compute|].
  induction (jr_Tasks r) as [|t ts IH]; [apply known_nil|]. apply rec_known; [by vm_compute|exact IH].
Qed.

Section scrapes.
Context `{MapRange} `{KeyRange} (fuel : nat) (dbr : DatabricksClient) (spark : SparkClient) (limit : Z) (instanceName : string) (now : Z).

Lemma AddJobStatusMetrics_records : only_records (AddJobStatusMetrics fuel dbr limit now).
Proof.
  apply only_records_bind; [apply only_records_calling|]. intros l. apply only_records_bind; [apply only_records_recording, jobStatusRecords_known|].
  intros _. apply only_records_stay. by intros s s' o [= <- _].
Qed.
Lemma AddNumActiveRunsMetric_records : only_records (AddNumActiveRunsMetric fuel dbr limit now).
Proof. apply only_records_bind; [apply only_records_calling|]. intros l. apply only_records_recording, rec_known; [by vm_compute|apply known_nil]. Qed.
Lemma addSingleJobRunMetrics_records jobID : only_records (addSingleJobRunMetrics fuel dbr limit now jobID).
Proof.
  intros s s' o. unfold addSingleJobRunMetrics. revert s s' o.
  assert (Hb : ∀ prev, only_records (runs ← calling "addSingleJobRunMetrics failed to get single job run metrics: %w" (CompletedJobRuns dbr limit fuel jobID prev);
    new ← tracking runs; recording (flat_map (runRecords now jobID) new))); [|intros s; by apply Hb].
  intros prev. apply only_records_bind; [apply only_records_calling|]. intros runs. apply only_records_bind.
  - apply only_records_stay. intros s s' o. unfold tracking. destruct (extractNewRuns _ _). by intros [= <- _].
  - intros new. apply only_records_recording, known_flat_map, runRecords_known.
Qed.
Lemma AddMultiJobRunMetrics_records ids : only_records (AddMultiJobRunMetrics fuel dbr limit now ids).
Proof.
  induction ids as [|id ids IH]; cbn [AddMultiJobRunMetrics]; [apply only_records_stay; by intros s s' o [= <- _]|].
  intros s s' o. pose proof (addSingleJobRunMetrics_records id s) as H1. destruct (addSingleJobRunMetrics fuel dbr limit now id s) as [[s1 [u|e|]]|]; [|intros [= <- _]; by eapply H1..|done].
  intros E. destruct (H1 _ _ eq_refl) as (l1 & K1 & M1 & R1). destruct (IH s1 s' o E) as (l2 & K2 & M2 & R2).
  exists (l1 ++ l2). split; [by apply Forall_app|]. by rewrite M2, M1, recordAll_app, R2, R1.
Qed.

(** The calls before the first emission. *)
Definition recordDatabricks : scrapeM unit :=
  jobIDs ← within "srape failed to add job status metrics: %w" (AddJobStatusMetrics fuel dbr limit now);
  within "scrape failed to add num active runs metric %w" (AddNumActiveRunsMetric fuel dbr limit now);;
  within "scrape failed to add multi job run metrics: %w" (AddMultiJobRunMetrics fuel dbr limit now jobIDs).
Lemma recordDatabricks_records : only_records recordDatabricks.
Proof.
  apply only_records_bind; [apply only_records_within, AddJobStatusMetrics_records|]. intros ids.
  apply only_records_bind; [apply only_records_within, AddNumActiveRunsMetric_records|]. intros _. apply only_records_within, AddMultiJobRunMetrics_records.
Qed.
Lemma scrapeDatabricks_split s : scrapeDatabricks fuel dbr limit instanceName now s = (recordDatabricks;; emitDatabricks instanceName) s.
Proof.
  unfold scrapeDatabricks, recordDatabricks, mbind, scrapeM_bind. destruct (within _ (AddJobStatusMetrics _ _ _ _) s) as [[s1 [a|e|]]|]; try done.
  destruct (within _ (AddNumActiveRunsMetric _ _ _ _) s1) as [[s2 [b|e|]]|]; done.
Qed.

(** The first part of a scrape: all recorded points, those left over included, are emitted. *)
Lemma scrapeDatabricks_emits s s' out mb0 l0 : scrapeDatabricks fuel dbr limit instanceName now s = Some (s', Done out) →
  rested mb0 = mb0 → known_records l0 → sc_mb s = recordAll l0 mb0 → fresh (sc_rb s) →
  ∃ l, known_records l ∧ sc_mb s' = mb0 ∧ sc_rb s' = sc_rb s ∧
    out = underResource (mb_version mb0) (rb_res (SetDatabricksInstanceName instanceName (sc_rb s))) (metricsOf (mb_enabled mb0) (mb_start mb0) (l0 ++ l)).
Proof.
  intros Hs Hc Hk Hmb Hf. rewrite scrapeDatabricks_split in Hs. unfold mbind, scrapeM_bind in Hs.
  destruct (recordDatabricks s) as [[s1 [u|e|]]|] eqn:E; try done. destruct (recordDatabricks_records s _ _ E) as (l & K & M & R).
  unfold emitDatabricks in Hs. cbn [rb_Emit] in Hs. rewrite M, Hmb, <-recordAll_app, (Emit_recordAll _ mb0) in Hs by (done || by apply Forall_app).
  injection Hs as <- <-. exists l. cbn [sc_mb sc_rb]. split_and!; [done..| |by rewrite R].
  rewrite R. unfold SetDatabricksInstanceName. rewrite setAttr_enabled. destruct (sc_rb s) as [en r]. cbn in *. by rewrite Hf.
Qed.
Lemma scrapeSpark_rest s s' out : scrapeSpark dbr spark instanceName now s = Some (s', Done out) → at_rest s → sc_mb s' = sc_mb s ∧ sc_rb s' = sc_rb s ∧ sc_tracker s' = sc_tracker s.
Proof.
  intros Hs [Hc Hf]. unfold scrapeSpark, mbind, scrapeM_bind, calling, ofRes, wrapErr in Hs.
  repeat match type of Hs with context [match match ?r with Ok _ => _ | Err _ => _ end with _ => _ end] => destruct r; [|done] end.
  unfold buildSpark in Hs. rewrite Build_correct in Hs by done. by injection Hs as <- _.
Qed.

(** A scrape that succeeds leaves the builders as it found them: every point it recorded is part of its
    result, and none is left for a later scrape. *)
Theorem scrape_clears s s' out : at_rest s → scrape fuel dbr spark limit instanceName now s = Some (s', Done out) → sc_mb s' = sc_mb s ∧ sc_rb s' = sc_rb s.
Proof.
  intros Hr Hs. unfold scrape, mbind, scrapeM_bind in Hs. destruct (scrapeDatabricks _ _ _ _ _ s) as [[s1 [o1|e|]]|] eqn:E1; try done.
  destruct (scrapeSpark _ _ _ _ s1) as [[s2 [o2|e|]]|] eqn:E2; try done. injection Hs as <- _.
  destruct (scrapeDatabricks_emits s s1 o1 (sc_mb s) [] E1) as (l & _ & M1 & R1 & _); [apply Hr|apply known_nil|done|apply Hr|].
  destruct (scrapeSpark_rest s1 s2 o2 E2) as (M2 & R2 & _); [unfold at_rest; by rewrite M1, R1|]. by rewrite M2, R2, M1, R1.
Qed.
End scrapes.

Lemma metricsOf_elem enabled start l mi : mi ∈ databricksMetrics → mi_Name mi ∈ enabled → recordsOf (mi_Name mi) l ≠ [] →
  {| m_Name := mi_Name mi; m_Description := mi_Description mi; m_Data := instrumentData (mi_Instrument mi) (map (recordPoint start) (recordsOf (mi_Name mi) l)) |}
    ∈ metricsOf enabled start l.
Proof.
  intros Hm He Hl. unfold metricsOf. apply list_elem_of_In, in_flat_map. exists mi. split; [by apply list_elem_of_In|].
  unfold metricOf. rewrite bool_decide_true by done. destruct (recordsOf (mi_Name mi) l) as [|r rs]; [done|]. by left.
Qed.

Section failures.
Context `{MapRange} `{KeyRange} (fuel : nat) (limit : Z) (instanceName : string).

Lemma failed_active_runs dbr spark now s js e : jobs dbr limit fuel = Some (Done js) → activeJobRuns dbr limit fuel = Some (Failed e) →
  ∃ s' e', scrape fuel dbr spark limit instanceName now s = Some (s', Failed e') ∧
    sc_mb s' = recordAll (jobStatusRecords now js) (sc_mb s) ∧ sc_rb s' = sc_rb s.
Proof.
  intros Hj Ha. unfold scrape, scrapeDatabricks, mbind, scrapeM_bind, within, AddJobStatusMetrics, AddNumActiveRunsMetric, mbind, scrapeM_bind, calling.
  rewrite Hj, Ha. cbn [wrapErr recording mret scrapeM_ret]. do 2 eexists. by split.
Qed.

(** When a scrape fails after the status of the jobs was recorded, the points stay in the builder and the next successful
    scrape emits them again, with the time of the failed one. *)
Theorem failed_scrape_repeats_points dbr1 spark1 dbr2 spark2 now1 now2 s js e :
  at_rest s → mi_Name metricDatabricksJobsTotal ∈ mb_enabled (sc_mb s) →
  jobs dbr1 limit fuel = Some (Done js) → activeJobRuns dbr1 limit fuel = Some (Failed e) →
  ∃ s1 e1, scrape fuel dbr1 spark1 limit instanceName now1 s = Some (s1, Failed e1) ∧
    ∀ s2 out, scrape fuel dbr2 spark2 limit instanceName now2 s1 = Some (s2, Done out) →
      ∃ rm sm m rest, head out = Some rm ∧ sm ∈ rm_Scopes rm ∧ m ∈ sm_Metrics sm ∧ m_Name m = "databricks.jobs.total" ∧
        m_Data m = MGauge (newPoint metricDatabricksJobsTotal (mb_start (sc_mb s)) now1 (NInt (Z.of_nat (length js))) [] :: rest).
Proof.
  intros [Hc Hf] He Hj Ha. destruct (failed_active_runs dbr1 spark1 now1 s js e Hj Ha) as (s1 & e1 & Hs1 & M1 & R1). exists s1, e1. split; [done|].
  intros s2 out Hs2. unfold scrape, mbind, scrapeM_bind in Hs2. destruct (scrapeDatabricks fuel dbr2 limit instanceName now2 s1) as [[s3 [o1|e3|]]|] eqn:E1; try done.
  destruct (scrapeSpark dbr2 spark2 instanceName now2 s3) as [[s4 [o2|e4|]]|]; try done. injection Hs2 as _ <-.
  destruct (scrapeDatabricks_emits _ _ _ _ _ s1 s3 o1 (sc_mb s) (jobStatusRecords now1 js) E1) as (l & _ & _ & _ & ->); [done|apply jobStatusRecords_known|done|by rewrite R1|].
  assert (Hm : metricDatabricksJobsTotal ∈ databricksMetrics) by (apply (bool_decide_unpack _); vm_compute; exact I).
  assert (Hr : ∃ rest, recordsOf (mi_Name metricDatabricksJobsTotal) (jobStatusRecords now1 js ++ l) =
    rec now1 metricDatabricksJobsTotal (NInt (Z.of_nat (length js))) [] :: rest) by (by eexists). destruct Hr as [rest Hr].
  pose proof (metricsOf_elem (mb_enabled (sc_mb s)) (mb_start (sc_mb s)) (jobStatusRecords now1 js ++ l) metricDatabricksJobsTotal Hm He) as Hel.
  rewrite Hr in Hel. specialize (Hel ltac:(done)).
  destruct (metricsOf (mb_enabled (sc_mb s)) (mb_start (sc_mb s)) (jobStatusRecords now1 js ++ l)) as [|m0 ms]; [by apply not_elem_of_nil in Hel|].
  do 4 eexists. split; [done|]. split; [by left|]. split; [exact Hel|]. by split.
Qed.

(** When the clusters cannot be listed, the durations of the runs found by the scrape are lost: the points were emitted and
    dropped, and the tracker takes the runs as reported. *)
Theorem failed_scrape_loses_durations dbr spark now s job l act e :
  at_rest s → 0 < limit → jobs dbr limit fuel = Some (Done [job]) → activeJobRuns dbr limit fuel = Some (Done act) →
  desc l → of_job (JobID job) l → serves_runs limit (JobID job) l dbr → (length l < fuel)%nat → getPrevStartTime (sc_tracker s) (JobID job) ≠ 0 →
  db_clustersList dbr = Err e →
  ∃ s' e', scrape fuel dbr spark limit instanceName now s = Some (s', Failed e') ∧ sc_mb s' = sc_mb s ∧
    ∀ r, r ∈ l → jr_StartTime r <= getPrevStartTime (sc_tracker s') (JobID job).
Proof.
  intros [Hc Hf] Hl Hj Ha Hd Ho Hs Hfu Hp He.
  destruct (completedLoop_complete dbr limit (JobID job) (getPrevStartTime (sc_tracker s) (JobID job)) l Hl Hp Hd Hs fuel 0) as (n & Hn & Hcl & _); [nia|lia|].
  rewrite Nat.mul_0_r, take_0 in Hcl. change (Z.of_nat 0) with 0 in Hcl. fold (CompletedJobRuns dbr limit fuel (JobID job) (getPrevStartTime (sc_tracker s) (JobID job))) in Hcl.
  assert (Hx : ∃ s1 out, scrapeDatabricks fuel dbr limit instanceName now s = Some (s1, Done out) ∧
    sc_tracker s1 = match latest l with Some st => <[JobID job := st]> (sc_tracker s) | None => sc_tracker s end).
  { unfold scrapeDatabricks, mbind, scrapeM_bind, within, AddJobStatusMetrics, AddNumActiveRunsMetric, mbind, scrapeM_bind, calling.
    rewrite Hj, Ha. cbn [wrapErr recording mret scrapeM_ret map AddMultiJobRunMetrics addSingleJobRunMetrics].
    unfold addSingleJobRunMetrics, mbind, scrapeM_bind, calling. cbn [sc_tracker]. rewrite Hcl. cbn [wrapErr]. unfold tracking. cbn [sc_tracker].
    rewrite (extractNewRuns_of_job (JobID job)) by (done || by apply Forall_take). cbn [recording]. unfold mret, scrapeM_ret, emitDatabricks. cbn [wrapErr sc_tracker].
    unfold rb_Emit. match goal with |- context [Emit ?r ?m] => destruct (Emit r m) as [o mb] end. do 2 eexists. split; [done|]. cbn [sc_tracker]. unfold latest. by rewrite head_take by lia. }
  destruct Hx as (s1 & out & Hs1 & Ht). unfold scrape, mbind, scrapeM_bind. rewrite Hs1.
  unfold scrapeSpark, mbind, scrapeM_bind, calling, ofRes, RunningClusters. rewrite He. cbn [wrapErr]. do 2 eexists. split; [done|].
  destruct (scrapeDatabricks_emits _ _ _ _ _ s s1 out (sc_mb s) [] Hs1) as (l0 & _ & M1 & _); [done|apply known_nil|done..|]. split; [done|].
  intros r Hr. rewrite Ht. destruct l as [|r0 l]; [by apply not_elem_of_nil in Hr|]. unfold getPrevStartTime, latest. cbn. rewrite lookup_insert_eq. cbn.
  apply elem_of_cons in Hr as [->|Hr]; [lia|]. apply StronglySorted_inv in Hd as [_ Hd]. rewrite Forall_forall in Hd. by apply Hd.
Qed.

(** An answer whose list of runs is empty but present panics the loop. *)
Lemma empty_page_panics dbr jobID prev more : prev ≠ 0 → db_completedJobRuns dbr jobID limit 0 = Ok {| jr_Runs := Some []; jr_HasMore := more |} →
  CompletedJobRuns dbr limit (S fuel) jobID prev = Some Panics.
Proof. intros Hp Hr. unfold CompletedJobRuns. cbn [completedLoop]. rewrite Z.mul_0_r, Hr. cbn. by rewrite (proj2 (Z.eqb_neq _ _)). Qed.
End failures.

(** ** The runs reported over time *)

Lemma head_desc l r0 r : desc l → head l = Some r0 → r ∈ l → jr_StartTime r <= jr_StartTime r0.
Proof.
  destruct l as [|x l]; [done|]. intros Hd [= <-] [->|Hr]%elem_of_cons; [lia|]. apply StronglySorted_inv in Hd as [_ Hd]. rewrite Forall_forall in Hd. by apply Hd.
Qed.
Lemma extractNewRuns_state jobID l t : of_job jobID l → (extractNewRuns l t).2 = match latest l with Some s => <[jobID := s]> t | None => t end.
Proof. intros Hj. unfold extractNewRuns, latest. destruct l as [|r l]; [done|]. by apply Forall_cons in Hj as [-> _]. Qed.
Lemma extractNewRuns_after jobID l t r : of_job jobID l → r ∈ (extractNewRuns l t).1 → r ∈ l ∧ getPrevStartTime t jobID < jr_StartTime r.
Proof.
  intros Hj. unfold extractNewRuns. destruct l as [|r0 l]; [by intros ?%not_elem_of_nil|]. apply Forall_cons in Hj as [-> _].
  destruct (_ =? 0); [by intros ?%not_elem_of_nil|]. cbn [fst]. unfold collectNewRuns. intros Hr%list_elem_of_In%filter_In.
  destruct Hr as [Hr%in_rev Hs]. apply negb_true_iff, Z.leb_gt in Hs. split; [by apply list_elem_of_In|done].
Qed.
Lemma extractNewRuns_NoDup l t : NoDup l → NoDup (extractNewRuns l t).1.
Proof.
  intros Hl. unfold extractNewRuns. destruct l as [|r l]; [constructor|]. cbn [fst]. destruct (_ =? 0); [constructor|]. unfold collectNewRuns.
  apply NoDup_ListNoDup, List.NoDup_filter, List.NoDup_rev, NoDup_ListNoDup, Hl.
Qed.

(** The runs of an account at the time of a scrape: for every job its completed runs, the latest first. *)
Notation account := (Z → list JobRun).
(** The pages that the API serves are those of the account; a request may also fail, and say that there is more or not. *)
Record serves_account (limit : Z) (acc : account) (c : DatabricksClient) : Prop := {
  sa_pages : ∀ jobID off resp, 0 <= off → db_completedJobRuns c jobID limit off = Ok resp → default [] (jr_Runs resp) = take (Z.to_nat limit) (drop (Z.to_nat off) (acc jobID));
  sa_jobs : ∀ jobID, of_job jobID (acc jobID);
  sa_latest_first : ∀ jobID, desc (acc jobID);
  sa_distinct : ∀ jobID, NoDup (acc jobID);
}.
(** A run that is no longer listed does not come back. *)
Definition no_return (accs : list account) : Prop :=
  ∀ a b c jobID r x, accs = a ++ b :: c → x ∈ a → r ∈ x jobID → r ∉ b jobID → ∀ y, y ∈ c → r ∉ y jobID.

(** The pages that were read are the first ones, whatever ends the reading. *)
Lemma completedLoop_prefix c limit acc jobID prev : 0 < limit → serves_account limit acc c →
  ∀ fuel i o, completedLoop c limit fuel jobID prev (Z.of_nat i) (take (Z.to_nat limit * i) (acc jobID)) = Some (Done o) →
  ∃ n, (Z.to_nat limit <= n)%nat ∧ o = take n (acc jobID).
Proof.
  intros Hl Hs. induction fuel as [|fuel IH]; intros i o; cbn [completedLoop]; [done|].
  destruct (db_completedJobRuns c jobID limit (limit * Z.of_nat i)) as [resp|e] eqn:Hr; [|done].
  assert (Hoff : 0 <= limit * Z.of_nat i) by lia. rewrite (sa_pages _ _ _ Hs _ _ _ Hoff Hr), page_step by done.
  destruct (if prev =? 0 then _ else _) as [[]|e|]; [|destruct (jr_HasMore resp)|done..].
  - intros [= <-]. eexists. split; [|done]. nia.
  - replace (Z.of_nat i + 1) with (Z.of_nat (S i)) by lia. apply IH.
  - intros [= <-]. eexists. split; [|done]. nia.
Qed.

Section tracked.
Context `{MapRange} `{KeyRange} (fuel : nat) (limit : Z) (instanceName : string).

(** The new runs that one scrape finds, with their jobs, and the tracker that it leaves: job after job, up to the first request that fails. *)
Fixpoint jobsRound (dbr : DatabricksClient) (ids : list Z) (t : runTracker) : list (Z * JobRun) * runTracker :=
  match ids with
  | [] => ([], t)
  | id :: ids =>
      match CompletedJobRuns dbr limit fuel id (getPrevStartTime t id) with
      | Some (Done runs) =>
          let '(rest, t') := jobsRound dbr ids (extractNewRuns runs t).2 in (map (pair id) (extractNewRuns runs t).1 ++ rest, t')
      | _ => ([], t)
      end
  end.
Definition scrapeRound (dbr : DatabricksClient) (t : runTracker) : list (Z * JobRun) * runTracker :=
  match jobs dbr limit fuel, activeJobRuns dbr limit fuel with Some (Done js), Some (Done _) => jobsRound dbr (map JobID js) t | _, _ => ([], t) end.

Lemma pair_records now id new : flat_map (λ x : Z * JobRun, runRecords now x.1 x.2) (map (pair id) new) = flat_map (runRecords now id) new.
Proof. induction new as [|r new IH]; [done|]. cbn. by rewrite IH. Qed.
(** The calls of a scrape record exactly these runs. *)
Lemma AddMultiJobRunMetrics_round dbr now ids s s' o : AddMultiJobRunMetrics fuel dbr limit now ids s = Some (s', o) →
  sc_tracker s' = (jobsRound dbr ids (sc_tracker s)).2 ∧
  sc_mb s' = recordAll (flat_map (λ x, runRecords now x.1 x.2) (jobsRound dbr ids (sc_tracker s)).1) (sc_mb s).
Proof.
  revert s. induction ids as [|id ids IH]; intros s; cbn [AddMultiJobRunMetrics jobsRound]; [by intros [= <- _]|].
  unfold addSingleJobRunMetrics, mbind, scrapeM_bind, calling.
  destruct (CompletedJobRuns dbr limit fuel id (getPrevStartTime (sc_tracker s) id)) as [[runs|e|]|]; cbn [wrapErr]; [|by intros [= <- _]..|done].
  unfold tracking. destruct (extractNewRuns runs (sc_tracker s)) as [new t1]. cbn [recording fst snd]. intros Hm. destruct (IH _ Hm) as [-> ->].
  cbn [sc_tracker sc_mb]. destruct (jobsRound dbr ids t1) as [rest t2]. split; [done|]. cbn [fst]. by rewrite flat_map_app, recordAll_app, pair_records.
Qed.
Lemma keeps_tracker_calling {A B} msg (r : option (outcome A)) (k : A → scrapeM B) s s' o :
  (∀ a s s' o, k a s = Some (s', o) → sc_tracker s' = sc_tracker s) → (calling msg r ≫= k) s = Some (s', o) → sc_tracker s' = sc_tracker s.
Proof.
  intros Hk. unfold mbind, scrapeM_bind, calling. destruct r as [[a|e|]|]; cbn [wrapErr]; [apply Hk | by intros [= <- _].. | done].
Qed.
Lemma scrapeSpark_tracker dbr spark now s s' o : scrapeSpark dbr spark instanceName now s = Some (s', o) → sc_tracker s' = sc_tracker s.
Proof.
  unfold scrapeSpark. do 6 (apply keeps_tracker_calling; clear s s' o; intros ? s s' o).
  unfold buildSpark. destruct (Build _ _ _ _ _) as [[outs mb] rb]. by intros [= <- _].
Qed.
(** Whatever a scrape returns, it leaves the tracker of its round. *)
Lemma scrape_round dbr spark now s s' o : scrape fuel dbr spark limit instanceName now s = Some (s', o) → sc_tracker s' = (scrapeRound dbr (sc_tracker s)).2.
Proof.
  intros Hs. unfold scrape, mbind, scrapeM_bind in Hs.
  assert (Hd : ∀ s1 o1, scrapeDatabricks fuel dbr limit instanceName now s = Some (s1, o1) → sc_tracker s1 = (scrapeRound dbr (sc_tracker s)).2).
  { intros s1 o1. unfold scrapeDatabricks, scrapeRound, mbind, scrapeM_bind, within, AddJobStatusMetrics, AddNumActiveRunsMetric, mbind, scrapeM_bind, calling.
    destruct (jobs dbr limit fuel) as [[js|e|]|]; cbn [wrapErr recording mret scrapeM_ret]; [|by intros [= <- _]..|done].
    destruct (activeJobRuns dbr limit fuel) as [[act|e|]|]; cbn [wrapErr recording]; [|by intros [= <- _]..|done].
    destruct (AddMultiJobRunMetrics _ _ _ _ _ _) as [[s2 o2]|] eqn:Hm; [|done]. apply AddMultiJobRunMetrics_round in Hm as [Ht _]. cbn [sc_tracker] in Ht.
    destruct o2; cbn [wrapErr]; [|by intros [= <- _]..]. unfold emitDatabricks. destruct (rb_Emit _), (Emit _ _). intros [= <- _]. exact Ht. }
  destruct (scrapeDatabricks fuel dbr limit instanceName now s) as [[s1 [o1|e|]]|]; [|by injection Hs as <- _; eauto..|done].
  destruct (scrapeSpark dbr spark instanceName now s1) as [[s2 [o2|e|]]|] eqn:Hsp; [| | |done]; apply scrapeSpark_tracker in Hsp; injection Hs as <- _; rewrite Hsp; by eapply Hd.
Qed.

(** The runs that the scrapes find, one list per scrape, the scraper being what the scrapes before left. *)
Fixpoint found (l : list (DatabricksClient * SparkClient * Z)) (s : scraper) : list (list (Z * JobRun)) :=
  match l with
  | [] => []
  | (dbr, spark, now) :: l =>
      (scrapeRound dbr (sc_tracker s)).1 :: match scrape fuel dbr spark limit instanceName now s with Some (s', _) => found l s' | None => [] end
  end.
End tracked.

Section once.
Context `{MapRange} `{KeyRange} (fuel : nat) (limit : Z) (instanceName : string) (Hlimit : 0 < limit).

(** The reported runs are behind the tracker, or not listed any more. *)
Definition reported_ok (t : runTracker) (R : list (Z * JobRun)) (accs : list account) : Prop :=
  ∀ id r, (id, r) ∈ R → jr_StartTime r <= getPrevStartTime t id ∨ ∀ acc, acc ∈ accs → r ∉ acc id.
(** A reported run that is not listed now is not listed later. *)
Definition gone (R : list (Z * JobRun)) (acc : account) (accs : list account) : Prop :=
  ∀ id r, (id, r) ∈ R → r ∉ acc id → ∀ acc', acc' ∈ accs → r ∉ acc' id.

Lemma job_step dbr acc accs id R t runs : serves_account limit acc dbr → CompletedJobRuns dbr limit fuel id (getPrevStartTime t id) = Some (Done runs) →
  gone R acc accs → reported_ok t R (acc :: accs) →
  let new := map (pair id) (extractNewRuns runs t).1 in
  NoDup new ∧ (∀ x, x ∈ new → x ∉ R) ∧ (∀ i r, (i, r) ∈ new → r ∈ acc i) ∧ reported_ok (extractNewRuns runs t).2 (R ++ new) (acc :: accs).
Proof.
  intros Hs Hr Hg Hok new. unfold CompletedJobRuns in Hr.
  destruct (completedLoop_prefix dbr limit acc id (getPrevStartTime t id) Hlimit Hs fuel 0 runs) as (n & Hn & ->); [by rewrite Nat.mul_0_r, take_0|].
  assert (Hj : of_job id (take n (acc id))) by apply Forall_take, Hs.
  assert (Hnew : ∀ i r, (i, r) ∈ new → i = id ∧ r ∈ acc id ∧ getPrevStartTime t id < jr_StartTime r).
  { intros i r (r' & [= -> ->] & Hr')%list_elem_of_fmap. apply (extractNewRuns_after id) in Hr' as [Hin Hlt]; [|done]. split_and!; [done| |done].
    rewrite <-(take_drop n (acc id)). apply elem_of_app. by left. }
  split_and!.
  - apply NoDup_fmap_2; [by intros ?? [=]|]. apply extractNewRuns_NoDup, NoDup_ListNoDup. apply (List.NoDup_app_remove_r _ (drop n (acc id))).
    rewrite take_drop. apply NoDup_ListNoDup, Hs.
  - intros [i r] (-> & Hin & Hlt)%Hnew HR. destruct (Hok _ _ HR) as [?|Hno]; [lia|]. by apply (Hno acc); [left|].
  - by intros i r (-> & Hin & _)%Hnew.
  - rewrite (extractNewRuns_state id) by done. unfold latest. rewrite head_take by lia.
    destruct (head (acc id)) as [r0|] eqn:Hh; cbn [fmap option_fmap option_map].
    + intros i r HR. unfold getPrevStartTime. destruct (decide (i = id)) as [->|Hne].
      * rewrite lookup_insert_eq. cbn. destruct (decide (jr_StartTime r <= jr_StartTime r0)) as [|Hlt]; [by left|]. right.
        assert (Hout : r ∉ acc id) by (intros Hin; apply Hlt; by apply (head_desc (acc id)); [apply Hs| |]).
        apply elem_of_app in HR as [HR|(_ & Hin & _)%Hnew]; [|done]. intros acc' [->|Ha]%elem_of_cons; [done|]. by apply (Hg id r).
      * rewrite lookup_insert_ne by done. apply elem_of_app in HR as [HR|(-> & _)%Hnew]; [|done]. exact (Hok i r HR).
    + intros i r [HR|(-> & Hin & _)%Hnew]%elem_of_app; [by apply Hok|]. destruct (acc id); [by apply not_elem_of_nil in Hin|done].
Qed.
Lemma jobs_step dbr acc accs ids R t : serves_account limit acc dbr → gone R acc accs → reported_ok t R (acc :: accs) →
  let new := (jobsRound fuel limit dbr ids t).1 in
  NoDup new ∧ (∀ x, x ∈ new → x ∉ R) ∧ (∀ i r, (i, r) ∈ new → r ∈ acc i) ∧ reported_ok (jobsRound fuel limit dbr ids t).2 (R ++ new) (acc :: accs).
Proof.
  intros Hs. revert R t. induction ids as [|id ids IH]; intros R t Hg Hok; cbn [jobsRound].
  { cbn. rewrite app_nil_r. split_and!; [constructor|by intros x ?%not_elem_of_nil|by intros i r ?%not_elem_of_nil|done]. }
  destruct (CompletedJobRuns dbr limit fuel id _) as [[runs|e|]|] eqn:Hr.
  2-4: cbn; rewrite app_nil_r; split_and!; [constructor|by intros x ?%not_elem_of_nil|by intros i r ?%not_elem_of_nil|done].
  destruct (job_step _ _ _ _ _ _ _ Hs Hr Hg Hok) as (Hnd & Hfresh & Hin & Hok1). set (new1 := map (pair id) (extractNewRuns runs t).1) in *.
  assert (Hg1 : gone (R ++ new1) acc accs).
  { intros i r [HR|Hn]%elem_of_app Hout; [by apply (Hg i r)|]. destruct Hout. by apply Hin. }
  destruct (IH _ _ Hg1 Hok1) as (Hnd2 & Hfresh2 & Hin2 & Hok2). destruct (jobsRound fuel limit dbr ids _) as [rest t2]. cbn in *. split_and!.
  - apply NoDup_app. split_and!; [done| |done]. intros x Hx Hx2. apply (Hfresh2 x Hx2). apply elem_of_app. by right.
  - intros x [Hx|Hx]%elem_of_app; [by apply Hfresh|]. intros HR. apply (Hfresh2 x Hx). apply elem_of_app. by left.
  - intros i r [Hx|Hx]%elem_of_app; [by apply Hin|by apply Hin2].
  - by rewrite app_assoc.
Qed.
Lemma found_once l accs : Forall2 (λ x acc, serves_account limit acc x.1.1) l accs → ∀ past R s,
  no_return (past ++ accs) → (∀ id r, (id, r) ∈ R → ∃ acc, acc ∈ past ∧ r ∈ acc id) → reported_ok (sc_tracker s) R accs →
  NoDup (concat (found fuel limit instanceName l s)) ∧ ∀ x, x ∈ concat (found fuel limit instanceName l s) → x ∉ R.
Proof.
  induction 1 as [|[[dbr spark] now] acc l accs Hs Hl IH]; intros past R s Hnr HR Hok; cbn [found concat]; [split; [constructor|by intros x ?%not_elem_of_nil]|].
  assert (Hg : gone R acc accs).
  { intros id r Hin Hout acc' Ha. destruct (HR _ _ Hin) as (x & Hx & Hrx). by apply (Hnr past acc accs id r x). }
  assert (Hstep : let new := (scrapeRound fuel limit dbr (sc_tracker s)).1 in
    NoDup new ∧ (∀ x, x ∈ new → x ∉ R) ∧ (∀ i r, (i, r) ∈ new → r ∈ acc i) ∧ reported_ok (scrapeRound fuel limit dbr (sc_tracker s)).2 (R ++ new) (acc :: accs)).
  { unfold scrapeRound. assert (Hnil : let new := [] in NoDup new ∧ (∀ x, x ∈ new → x ∉ R) ∧ (∀ i r, (i, r) ∈ new → r ∈ acc i) ∧ reported_ok (sc_tracker s) (R ++ new) (acc :: accs)).
    { cbn. rewrite app_nil_r. split_and!; [constructor|by intros x ?%not_elem_of_nil|by intros i r ?%not_elem_of_nil|done]. }
    destruct (jobs dbr limit fuel) as [[js|e|]|]; [|done..]. destruct (activeJobRuns dbr limit fuel) as [[act|e|]|]; [|done..]. by apply jobs_step. }
  destruct Hstep as (Hnd & Hfresh & Hin & Hok1). set (new := (scrapeRound fuel limit dbr (sc_tracker s)).1) in *.
  destruct (scrape fuel dbr spark limit instanceName now s) as [[s' o]|] eqn:Hsc.
  2: { cbn. rewrite app_nil_r. done. }
  apply scrape_round in Hsc. rewrite <-Hsc in Hok1. destruct (IH (past ++ [acc]) (R ++ new) s') as [Hnd2 Hfresh2].
  - by rewrite <-app_assoc.
  - intros id r [Hr|Hr]%elem_of_app; [destruct (HR _ _ Hr) as (x & Hx & ?); exists x; split; [apply elem_of_app; by left|done]|].
    exists acc. split; [apply elem_of_app; right; by left|by apply Hin].
  - intros id r Hr. destruct (Hok1 id r Hr) as [?|Hno]; [by left|]. right. intros acc' Ha. apply Hno. by right.
  - split.
    + apply NoDup_app. split_and!; [done| |done]. intros x Hx Hx2. apply (Hfresh2 x Hx2). apply elem_of_app. by right.
    + intros x [Hx|Hx]%elem_of_app; [by apply Hfresh|]. intros Hr. apply (Hfresh2 x Hx). apply elem_of_app. by left.
Qed.

(** A run that completes after a run that started later is never reported: with a later start time in the tracker, no scrape reports
    it while the later run is listed. *)
Lemma overtaken_round dbr acc ids id r late t : serves_account limit acc dbr → late ∈ acc id → jr_StartTime r <= jr_StartTime late → jr_StartTime r <= getPrevStartTime t id →
  (id, r) ∉ (jobsRound fuel limit dbr ids t).1 ∧ jr_StartTime r <= getPrevStartTime (jobsRound fuel limit dbr ids t).2 id.
Proof.
  intros Hs Hlate Hle. revert t. induction ids as [|i ids IH]; intros t Ht; cbn [jobsRound]; [split; [apply not_elem_of_nil|done]|].
  destruct (CompletedJobRuns dbr limit fuel i _) as [[runs|e|]|] eqn:Hr; [|split; [apply not_elem_of_nil|done]..]. unfold CompletedJobRuns in Hr.
  destruct (completedLoop_prefix dbr limit acc i (getPrevStartTime t i) Hlimit Hs fuel 0 runs) as (n & Hn & ->); [by rewrite Nat.mul_0_r, take_0|].
  assert (Hj : of_job i (take n (acc i))) by apply Forall_take, Hs.
  destruct (IH (extractNewRuns (take n (acc i)) t).2) as [Hno Hprev].
  { rewrite (extractNewRuns_state i) by done. unfold latest. rewrite head_take by lia. destruct (head (acc i)) as [r0|] eqn:Hh; [|done]. cbn. unfold getPrevStartTime.
    destruct (decide (id = i)) as [->|]; [|by rewrite lookup_insert_ne]. rewrite lookup_insert_eq. cbn. pose proof (head_desc _ _ _ (sa_latest_first _ _ _ Hs i) Hh Hlate). lia. }
  destruct (jobsRound fuel limit dbr ids _) as [rest t2]. cbn in *. split; [|done]. intros [Hin|Hin]%elem_of_app; [|done].
  apply list_elem_of_fmap in Hin as (r' & [= -> ->] & Hin). apply (extractNewRuns_after i) in Hin as [_ Hlt]; [lia|done].
Qed.
Lemma overtaken_run_never_reported l accs id r late : Forall2 (λ x acc, serves_account limit acc x.1.1 ∧ late ∈ acc id) l accs → jr_StartTime r <= jr_StartTime late →
  ∀ s, jr_StartTime r <= getPrevStartTime (sc_tracker s) id → (id, r) ∉ concat (found fuel limit instanceName l s).
Proof.
  intros Hl Hle. induction Hl as [|[[dbr spark] now] acc l accs [Hs Hlate] Hl IH]; intros s Ht; cbn [found concat]; [apply not_elem_of_nil|].
  assert (Hround : (id, r) ∉ (scrapeRound fuel limit dbr (sc_tracker s)).1 ∧ jr_StartTime r <= getPrevStartTime (scrapeRound fuel limit dbr (sc_tracker s)).2 id).
  { unfold scrapeRound. destruct (jobs dbr limit fuel) as [[js|e|]|]; [|split; [apply not_elem_of_nil|done]..].
    destruct (activeJobRuns dbr limit fuel) as [[act|e|]|]; [|split; [apply not_elem_of_nil|done]..]. by apply (overtaken_round dbr acc _ id r late). }
  destruct Hround as [Hno Hprev]. intros [Hin|Hin]%elem_of_app; [done|].
  destruct (scrape fuel dbr spark limit instanceName now s) as [[s' o]|] eqn:Hsc; [|by apply not_elem_of_nil in Hin].
  apply scrape_round in Hsc. apply (IH s'); [by rewrite Hsc|done].
Qed.
End once.

(** C26: Over any sequence of scrapes, failed ones included, no completed run of any job is reported twice, however the API splits
    the runs into pages, whichever pages are read and whatever requests fail.  The API lists the runs of a job the latest first and
    each once, and a run that was removed from the list does not come back to it. *)
Theorem runs_reported_once `{MapRange} `{KeyRange} (fuel : nat) (limit : Z) (instanceName : string) (l : list (DatabricksClient * SparkClient * Z)) (accs : list account) (s : scraper) :
  0 < limit → Forall2 (λ x acc, serves_account limit acc x.1.1) l accs → no_return accs → NoDup (concat (found fuel limit instanceName l s)).
Proof. intros Hl Hs Hnr. apply (found_once fuel limit instanceName Hl l accs Hs [] [] s); [done|by intros ?? ?%not_elem_of_nil|by intros ?? ?%not_elem_of_nil]. Qed.

(** ** A small account *)

Definition demo_run (start : Z) : JobRun := {| jr_JobID := 7; jr_StartTime := start; jr_ExecutionDuration := 100; jr_LifeCycleState := "TERMINATED"; jr_Tasks := [] |}.
Definition demo_job : Job := {| JobID := 7; jb_Schedule := {| PauseStatus := "UNPAUSED" |}; jb_Tasks := [] |}.
Definition demo_databricks (l : list JobRun) (active : res jobRuns) (clusters : res (list Cluster)) : DatabricksClient := {|
  db_jobsList limit off := Ok {| jl_Jobs := take (Z.to_nat limit) (drop (Z.to_nat off) [demo_job]); jl_HasMore := bool_decide (off + limit < 1) |};
  db_activeJobRuns _ _ := active;
  db_completedJobRuns _ limit off :=
    Ok {| jr_Runs := match take (Z.to_nat limit) (drop (Z.to_nat off) l) with [] => None | p => Some p end;
          jr_HasMore := bool_decide (off + limit < Z.of_nat (length l)) |};
  db_clustersList := clusters; db_pipelines := Ok []; db_pipeline _ := Ok "";
|}.
Definition demo_spark : SparkClient := {|
  sp_metrics _ := Err ErrForbidden; sp_applications _ := Err ErrForbidden; sp_appExecutors _ _ := Ok []; sp_appJobs _ _ := Ok []; sp_appStages _ _ := Ok [];
|}.
Definition demo_mb : MetricsBuilder := {| mb_enabled := {["databricks.jobs.total"]}; mb_start := 1; mb_version := "0"; mb_data := ∅; mb_buffer := [] |}.
Definition demo_scraper : scraper := {| sc_tracker := {[7 := 20]}; sc_mb := demo_mb; sc_rb := {| rb_enabled := ∅; rb_res := ∅ |} |}.
Definition demo_active : res jobRuns := Ok {| jr_Runs := None; jr_HasMore := false |}.
Definition demo_list : list JobRun := [demo_run 40; demo_run 30; demo_run 20; demo_run 10].

Lemma demo_serves limit active clusters l : serves_runs limit 7 l (demo_databricks l active clusters).
Proof. by intros off _. Qed.
Lemma demo_desc : desc demo_list.
Proof. repeat constructor; cbn; lia. Qed.
Lemma demo_of_job : of_job 7 demo_list.
Proof. by repeat constructor. Qed.
Lemma demo_at_rest : at_rest demo_scraper.
Proof. done. Qed.

Lemma jobs_complete_witness : jobs (demo_databricks [] demo_active (Ok [])) 25 2 = Some (Done [demo_job]).
Proof. apply (jobs_complete _ 25 [demo_job] 2); [lia|by intros off _|cbn; lia]. Defined.
Lemma new_runs_reported_witness : ∃ out, CompletedJobRuns (demo_databricks demo_list demo_active (Ok [])) 2 5 7 20 = Some (Done out) ∧
  extractNewRuns out {[7 := 20]} = ([demo_run 30; demo_run 40], {[7 := 40]}).
Proof.
  destruct (new_runs_reported (demo_databricks demo_list demo_active (Ok [])) 2 7 demo_list {[7 := 20]} 5) as (out & H1 & H2);
    [lia|apply demo_desc|apply demo_of_job|apply demo_serves|cbn; lia|done|].
  exists out. split; [exact H1|]. rewrite H2. by vm_compute.
Defined.
(** Five scrapes of an account with a page size of two: the third one cannot list the clusters and its runs are lost, and before the
    fifth the two oldest runs were removed. *)
Definition demo_account (l : list JobRun) : account := λ id, if id =? 7 then l else [].
Definition demo_api (l : list JobRun) (clusters : res (list Cluster)) : DatabricksClient := {|
  db_jobsList limit off := Ok {| jl_Jobs := take (Z.to_nat limit) (drop (Z.to_nat off) [demo_job]); jl_HasMore := bool_decide (off + limit < 1) |};
  db_activeJobRuns _ _ := demo_active;
  db_completedJobRuns id limit off :=
    Ok {| jr_Runs := match take (Z.to_nat limit) (drop (Z.to_nat off) (demo_account l id)) with [] => None | p => Some p end;
          jr_HasMore := bool_decide (off + limit < Z.of_nat (length (demo_account l id))) |};
  db_clustersList := clusters; db_pipelines := Ok []; db_pipeline _ := Ok "";
|}.
Lemma demo_serves_account limit l clusters : of_job 7 l → desc l → NoDup l → serves_account limit (demo_account l) (demo_api l clusters).
Proof.
  intros Hj Hd Hn. unfold demo_account. split; intros id.
  - intros off resp _ [= <-]. cbn. unfold demo_account. by destruct (take _ _).
  - destruct (Z.eqb_spec id 7) as [->|]; [done|constructor].
  - destruct (id =? 7); [done|constructor].
  - destruct (id =? 7); [done|constructor].
Qed.
Definition demo_lists : list (list JobRun) :=
  [[demo_run 10]; [demo_run 20; demo_run 10]; demo_list; [demo_run 50; demo_run 40; demo_run 30; demo_run 20; demo_run 10]; [demo_run 60; demo_run 50; demo_run 40; demo_run 30]].
Definition demo_scrapes : list (DatabricksClient * SparkClient * Z) :=
  imap (λ i l, (demo_api l (if (i =? 2)%nat then Err (Errorf "refused" []) else Ok []), demo_spark, Z.of_nat i)) demo_lists.
#[local] Instance jobRunTask_eq_dec : EqDecision jobRunTask.
Proof. solve_decision. Defined.
#[local] Instance JobRun_eq_dec : EqDecision JobRun.
Proof. solve_decision. Defined.
(** The check of [no_return] for the lists of one job. *)
Fixpoint staysAway (past rest : list (list JobRun)) : bool :=
  match rest with
  | [] => true
  | b :: c => bool_decide (Forall (λ r, r ∈ b ∨ Forall (λ y, r ∉ y) c) (concat past)) && staysAway (past ++ [b]) c
  end.
Lemma staysAway_no_return lists : staysAway [] lists = true → no_return (map demo_account lists).
Proof.
  assert (Hgen : ∀ rest past a b c (r : JobRun) x, staysAway past rest = true → rest = a ++ b :: c → x ∈ past ++ a → r ∈ x → r ∉ b → ∀ y, y ∈ c → r ∉ y).
  { induction rest as [|l rest IH]; intros past a b c r x Hs Heq Hx Hr Hb y Hy; [by destruct a|]. cbn [staysAway] in Hs. apply andb_true_iff in Hs as [H1%bool_decide_eq_true H2].
    destruct a as [|a0 a]; injection Heq as -> ->.
    - rewrite app_nil_r in Hx. rewrite Forall_forall in H1. destruct (H1 r) as [?|Hc]; [|done|by rewrite Forall_forall in Hc; apply Hc].
      apply list_elem_of_In, in_concat. exists x. split; by apply list_elem_of_In.
    - apply (IH (past ++ [a0]) a b c r x H2); [done|by rewrite <-app_assoc|done..]. }
  intros Hs a b c id r x Heq Hx Hr Hb y Hy. apply fmap_app_inv in Heq as (la & lbc & -> & Hbc & ->). destruct lbc as [|lb lc]; [done|]. injection Hbc as -> ->.
  apply list_elem_of_fmap in Hx as (lx & -> & Hx), Hy as (ly & -> & Hy). unfold demo_account in *. destruct (id =? 7); [|by apply not_elem_of_nil in Hr].
  apply (Hgen _ [] la lb lc r lx Hs); done.
Qed.
Lemma demo_no_return : no_return (map demo_account demo_lists).
Proof. apply staysAway_no_return. vm_compute. reflexivity. Qed.
Definition demo_unseen : scraper := {| sc_tracker := ∅; sc_mb := demo_mb; sc_rb := {| rb_enabled := ∅; rb_res := ∅ |} |}.
Lemma runs_reported_once_witness :
  NoDup (concat (@found forward_range forward_krange 9 2 "i" demo_scrapes demo_unseen)) ∧
  @found forward_range forward_krange 9 2 "i" demo_scrapes demo_unseen =
    map (map (pair 7)) [[]; [demo_run 20]; [demo_run 30; demo_run 40]; [demo_run 50]; [demo_run 60]].
Proof.
  split; [|vm_compute; reflexivity]. apply (@runs_reported_once forward_range forward_krange 9 2 "i" demo_scrapes (map demo_account demo_lists)); [lia| |].
  - repeat constructor; apply demo_serves_account; unfold of_job, desc; first [apply (bool_decide_unpack _); vm_compute; exact I | repeat constructor; cbn; lia].
  - exact demo_no_return.
Defined.
Example overtaken_run : @found forward_range forward_krange 9 2 "i"
  [(demo_api [demo_run 10] (Ok []), demo_spark, 0); (demo_api [demo_run 30; demo_run 10] (Ok []), demo_spark, 1); (demo_api [demo_run 30; demo_run 20; demo_run 10] (Ok []), demo_spark, 2)]
  demo_unseen = [[]; [(7, demo_run 30)]; []].
Proof. vm_compute. reflexivity. Qed.
Lemma scrape_clears_witness : ∃ s' out,
  @scrape forward_range forward_krange 5 (demo_databricks demo_list demo_active (Ok [])) demo_spark 25 "i" 9 demo_scraper = Some (s', Done out) ∧ sc_mb s' = demo_mb.
Proof.
  do 2 eexists. split; [vm_compute; reflexivity|].
  refine (proj1 (@scrape_clears forward_range forward_krange 5 (demo_databricks demo_list demo_active (Ok [])) demo_spark 25 "i" 9 demo_scraper _ _ demo_at_rest _)).
  vm_compute. reflexivity.
Defined.
Lemma failed_scrape_loses_durations_witness : ∃ s' e',
  @scrape forward_range forward_krange 5 (demo_databricks demo_list demo_active (Err ErrForbidden)) demo_spark 25 "i" 9 demo_scraper = Some (s', Failed e') ∧
  sc_mb s' = demo_mb ∧ ∀ r, r ∈ demo_list → jr_StartTime r <= getPrevStartTime (sc_tracker s') 7.
Proof.
  apply (@failed_scrape_loses_durations forward_range forward_krange 5 25 "i" (demo_databricks demo_list demo_active (Err ErrForbidden)) demo_spark 9 demo_scraper demo_job demo_list [] ErrForbidden);
    [apply demo_at_rest|lia|done|done|apply demo_desc|apply demo_of_job|apply demo_serves|cbn; lia|done|done].
Defined.
Lemma failed_scrape_repeats_points_witness : ∃ s1 e1,
  @scrape forward_range forward_krange 5 (demo_databricks [] (Err ErrForbidden) (Ok [])) demo_spark 25 "i" 9 demo_scraper = Some (s1, Failed e1) ∧
  ∀ s2 out, @scrape forward_range forward_krange 5 (demo_databricks [] demo_active (Ok [])) demo_spark 25 "i" 19 s1 = Some (s2, Done out) →
    ∃ rm sm m rest, head out = Some rm ∧ sm ∈ rm_Scopes rm ∧ m ∈ sm_Metrics sm ∧ m_Name m = "databricks.jobs.total" ∧
      m_Data m = MGauge (newPoint metricDatabricksJobsTotal 1 9 (NInt 1) [] :: rest).
Proof.
  refine (@failed_scrape_repeats_points forward_range forward_krange 5 25 "i" (demo_databricks [] (Err ErrForbidden) (Ok [])) demo_spark
    (demo_databricks [] demo_active (Ok [])) demo_spark 9 19 demo_scraper [demo_job] _ demo_at_rest _ _ _); [apply (bool_decide_unpack _); vm_compute; exact I|done|done].
Defined.
Lemma Build_correct_witness : (@Build forward_krange 9 "i" ∅ demo_mb {| rb_enabled := ∅; rb_res := ∅ |}).1.1 = [].
Proof. rewrite (@Build_correct forward_krange 9 "i" ∅ demo_mb {| rb_enabled := ∅; rb_res := ∅ |}); done. Defined.
