(* ===== verification/Cadvisor.v ===== *)
(** * The cadvisor and kubelet-stats monitors

    [src/internal/signalfx-agent/pkg/monitors/cadvisor]: the tables of metrics of the
    converter ([converter/converter.go]) and its collection of the machine's, the
    containers' and the pods' points, the provider of the kubelet's statistics
    ([kubeletstats.go]) and the declared metrics ([genmetadata.go]).  The statistics are
    those of the vendored API, with the fields that are read; unsigned 64-bit values
    are converted to [int64] by [wrap64].  Every point of a container has dimensions of
    its own; those of a pod share theirs, whose processing is the same for each. *)

From S2P Require Import Prelude GoStrings GoValue Settings Telemetry SmartAgent HostMonitors Outcome.
#[local] Open Scope Z_scope.

(** ** The provider's data *)

Record FsStats := {
  fs_Device : string; fs_Limit : Z; fs_Usage : Z; fs_ReadsCompleted : Z; fs_SectorsRead : Z; fs_ReadsMerged : Z; fs_ReadTime : Z;
  fs_WritesCompleted : Z; fs_SectorsWritten : Z; fs_WritesMerged : Z; fs_WriteTime : Z; fs_IoInProgress : Z; fs_IoTime : Z; fs_WeightedIoTime : Z;
}.
Record InterfaceStats := {
  if_Name : string; if_RxBytes : Z; if_RxPackets : Z; if_RxDropped : Z; if_RxErrors : Z; if_TxBytes : Z; if_TxPackets : Z; if_TxDropped : Z; if_TxErrors : Z;
}.
Record ContainerStats := {
  cs_User : Z; cs_System : Z; cs_Total : Z; cs_PerCpu : list Z; cs_Periods : Z; cs_ThrottledPeriods : Z; cs_ThrottledTime : Z;
  cs_RSS : Z; cs_Failcnt : Z; cs_MemoryUsage : Z; cs_WorkingSet : Z;
  cs_Pgfault : Z; cs_Pgmajfault : Z; cs_HierarchicalPgfault : Z; cs_HierarchicalPgmajfault : Z;
  cs_Filesystem : list FsStats; cs_Interfaces : list InterfaceStats;
  cs_Sleeping : Z; cs_Running : Z; cs_Stopped : Z; cs_Uninterruptible : Z; cs_IoWait : Z;
}.
(** A nil map of labels is [None]; a container without a limit section has no CPU or
    memory specification. *)
Record ContainerInfo := {
  ci_Id : string; ci_Image : string; ci_Labels : option (gmap string string); ci_Creation : Z;
  ci_HasCpu : bool; ci_CpuLimit : Z; ci_CpuQuota : Z; ci_CpuPeriod : Z;
  ci_HasMemory : bool; ci_MemoryLimit : Z; ci_SwapLimit : Z; ci_Stats : list ContainerStats;
}.
Record MachineInfo := { mc_CpuFrequency : Z; mc_NumCores : Z; mc_MemoryCapacity : Z }.
Record PodFsStats := { pf_CapacityBytes : option Z; pf_UsedBytes : option Z }.
(** The ephemeral storage is optional in the kubelet's answer. *)
Record PodStats := { po_UID : string; po_Name : string; po_Namespace : string; po_EphemeralStorage : option PodFsStats }.
Record InfoProvider := {
  ip_containers : res (list ContainerInfo); ip_machine : res (option MachineInfo); ip_pods : res (list PodStats);
}.

(** ** The tables of metrics *)

Record metricValue := { mv_value : Z; mv_labels : list string }.
Definition plain (v : Z) : metricValue := {| mv_value := v; mv_labels := [] |}.
Record containerMetric (S : Type) := {
  cm_name : string; cm_help : string; cm_valueType : sfxMetricType; cm_extraLabels : list string; cm_getValues : S → list metricValue;
}.
Arguments cm_name {S}.
Arguments cm_help {S}.
Arguments cm_valueType {S}.
Arguments cm_extraLabels {S}.
Arguments cm_getValues {S}.
Arguments Build_containerMetric {S}.

Definition fsValues (l : list FsStats) (f : FsStats → Z) : list metricValue := map (λ fs, {| mv_value := f fs; mv_labels := [fs_Device fs] |}) l.
Definition networkValues (l : list InterfaceStats) (f : InterfaceStats → Z) : list metricValue := map (λ n, {| mv_value := f n; mv_labels := [if_Name n] |}) l.
(** An idle core is labelled by its number alone. *)
Definition coreValue (index : nat) (usage : Z) : metricValue :=
  if 0 <? usage then {| mv_value := wrap64 (usage / 10000000); mv_labels := ["cpu" +:+ pretty index] |} else {| mv_value := 0; mv_labels := [pretty index] |}.
Definition perCore (s : ContainerStats) : list metricValue := imap coreValue (cs_PerCpu s).
Definition memoryFailures (s : ContainerStats) : list metricValue :=
  [{| mv_value := wrap64 (cs_Pgfault s); mv_labels := ["pgfault"; "container"] |};
   {| mv_value := wrap64 (cs_Pgmajfault s); mv_labels := ["pgmajfault"; "container"] |};
   {| mv_value := wrap64 (cs_HierarchicalPgfault s); mv_labels := ["pgfault"; "hierarchy"] |};
   {| mv_value := wrap64 (cs_HierarchicalPgmajfault s); mv_labels := ["pgmajfault"; "hierarchy"] |}].
Definition taskStates (s : ContainerStats) : list metricValue :=
  [{| mv_value := wrap64 (cs_Sleeping s); mv_labels := ["sleeping"] |}; {| mv_value := wrap64 (cs_Running s); mv_labels := ["running"] |};
   {| mv_value := wrap64 (cs_Stopped s); mv_labels := ["stopped"] |}; {| mv_value := wrap64 (cs_Uninterruptible s); mv_labels := ["uninterruptible"] |};
   {| mv_value := wrap64 (cs_IoWait s); mv_labels := ["iowaiting"] |}].

Section collector.
Context (now : Z).
Definition cpuMetrics : list (containerMetric ContainerStats) :=
  [{| cm_name := "container_last_seen"; cm_help := "Last time a container was seen by the exporter"; cm_valueType := Timestamp; cm_extraLabels := [];
      cm_getValues := λ s, [plain (UnixNano now)] |};
   {| cm_name := "container_cpu_user_seconds_total"; cm_help := "Cumulative user cpu time consumed in nanoseconds."; cm_valueType := Counter; cm_extraLabels := [];
      cm_getValues := λ s, [plain (wrap64 (cs_User s))] |};
   {| cm_name := "container_cpu_system_seconds_total"; cm_help := "Cumulative system cpu time consumed in nanoseconds."; cm_valueType := Counter; cm_extraLabels := [];
      cm_getValues := λ s, [plain (wrap64 (cs_System s))] |};
   {| cm_name := "container_cpu_usage_seconds_total"; cm_help := "Cumulative cpu time consumed per cpu in nanoseconds."; cm_valueType := Counter; cm_extraLabels := [];
      cm_getValues := λ s, [plain (wrap64 (cs_Total s))] |};
   {| cm_name := "container_cpu_utilization"; cm_help := "Cumulative cpu utilization in percentages."; cm_valueType := Counter; cm_extraLabels := [];
      cm_getValues := λ s, [plain (wrap64 (cs_Total s / 10000000))] |};
   {| cm_name := "container_cpu_percent"; cm_help := "Cumulative cpu utilization as a percentage of the host total CPU available"; cm_valueType := Counter; cm_extraLabels := [];
      cm_getValues := λ s, [plain (Z.quot (wrap64 (cs_Total s)) (10000000 * Z.max (Z.of_nat (length (cs_PerCpu s))) 1))] |};
   {| cm_name := "container_cpu_utilization_per_core"; cm_help := "Cumulative cpu utilization in percentages per core"; cm_valueType := Counter; cm_extraLabels := ["cpu"];
      cm_getValues := perCore |};
   {| cm_name := "container_cpu_cfs_periods"; cm_help := "Total number of elapsed CFS enforcement intervals."; cm_valueType := Counter; cm_extraLabels := [];
      cm_getValues := λ s, [plain (wrap64 (cs_Periods s))] |};
   {| cm_name := "container_cpu_cfs_throttled_periods"; cm_help := "Total number of times tasks in the cgroup have been throttled"; cm_valueType := Counter; cm_extraLabels := [];
      cm_getValues := λ s, [plain (wrap64 (cs_ThrottledPeriods s))] |};
   {| cm_name := "container_cpu_cfs_throttled_time"; cm_help := "Total time duration, in nanoseconds, for which tasks in the cgroup have been throttled."; cm_valueType := Counter; cm_extraLabels := [];
      cm_getValues := λ s, [plain (wrap64 (cs_ThrottledTime s))] |}].
Definition memoryMetrics : list (containerMetric ContainerStats) :=
  [{| cm_name := "container_memory_rss"; cm_help := "RSS memory used by the container"; cm_valueType := Gauge; cm_extraLabels := [];
      cm_getValues := λ s, [plain (wrap64 (cs_RSS s))] |};
   {| cm_name := "container_memory_failcnt"; cm_help := "Number of memory usage hits limits"; cm_valueType := Counter; cm_extraLabels := [];
      cm_getValues := λ s, [plain (wrap64 (cs_Failcnt s))] |};
   {| cm_name := "container_memory_usage_bytes"; cm_help := "Current memory usage in bytes."; cm_valueType := Gauge; cm_extraLabels := [];
      cm_getValues := λ s, [plain (wrap64 (cs_MemoryUsage s))] |};
   {| cm_name := "container_memory_working_set_bytes"; cm_help := "Current working set in bytes."; cm_valueType := Gauge; cm_extraLabels := [];
      cm_getValues := λ s, [plain (wrap64 (cs_WorkingSet s))] |};
   {| cm_name := "container_memory_failures_total"; cm_help := "Cumulative count of memory allocation failures."; cm_valueType := Counter; cm_extraLabels := ["type"; "scope"];
      cm_getValues := memoryFailures |}].
Definition fsReadMetrics : list (containerMetric ContainerStats) :=
  [{| cm_name := "container_fs_limit_bytes"; cm_help := "Number of bytes that can be consumed by the container on this filesystem."; cm_valueType := Gauge; cm_extraLabels := ["device"];
      cm_getValues := λ s, fsValues (cs_Filesystem s) (λ fs, wrap64 (fs_Limit fs)) |};
   {| cm_name := "container_fs_usage_bytes"; cm_help := "Number of bytes that are consumed by the container on this filesystem."; cm_valueType := Gauge; cm_extraLabels := ["device"];
      cm_getValues := λ s, fsValues (cs_Filesystem s) (λ fs, wrap64 (fs_Usage fs)) |};
   {| cm_name := "container_fs_reads_total"; cm_help := "Cumulative count of reads completed"; cm_valueType := Gauge; cm_extraLabels := ["device"];
      cm_getValues := λ s, fsValues (cs_Filesystem s) (λ fs, wrap64 (fs_ReadsCompleted fs)) |};
   {| cm_name := "container_fs_sector_reads_total"; cm_help := "Cumulative count of sector reads completed"; cm_valueType := Counter; cm_extraLabels := ["device"];
      cm_getValues := λ s, fsValues (cs_Filesystem s) (λ fs, wrap64 (fs_SectorsRead fs)) |};
   {| cm_name := "container_fs_reads_merged_total"; cm_help := "Cumulative count of reads merged"; cm_valueType := Counter; cm_extraLabels := ["device"];
      cm_getValues := λ s, fsValues (cs_Filesystem s) (λ fs, wrap64 (fs_ReadsMerged fs)) |};
   {| cm_name := "container_fs_read_seconds_total"; cm_help := "Cumulative count of seconds spent reading"; cm_valueType := Counter; cm_extraLabels := ["device"];
      cm_getValues := λ s, fsValues (cs_Filesystem s) (λ fs, wrap64 (fs_ReadTime fs / 1000000000)) |};
   {| cm_name := "container_fs_writes_total"; cm_help := "Cumulative count of writes completed"; cm_valueType := Counter; cm_extraLabels := ["device"];
      cm_getValues := λ s, fsValues (cs_Filesystem s) (λ fs, wrap64 (fs_WritesCompleted fs)) |}].
Definition fsWriteMetrics : list (containerMetric ContainerStats) :=
  [{| cm_name := "container_fs_sector_writes_total"; cm_help := "Cumulative count of sector writes completed"; cm_valueType := Counter; cm_extraLabels := ["device"];
      cm_getValues := λ s, fsValues (cs_Filesystem s) (λ fs, wrap64 (fs_SectorsWritten fs)) |};
   {| cm_name := "container_fs_writes_merged_total"; cm_help := "Cumulative count of writes merged"; cm_valueType := Counter; cm_extraLabels := ["device"];
      cm_getValues := λ s, fsValues (cs_Filesystem s) (λ fs, wrap64 (fs_WritesMerged fs)) |};
   {| cm_name := "container_fs_write_seconds_total"; cm_help := "Cumulative count of seconds spent writing"; cm_valueType := Counter; cm_extraLabels := ["device"];
      cm_getValues := λ s, fsValues (cs_Filesystem s) (λ fs, wrap64 (fs_WriteTime fs / 1000000000)) |};
   {| cm_name := "container_fs_io_current"; cm_help := "Number of I/Os currently in progress"; cm_valueType := Gauge; cm_extraLabels := ["device"];
      cm_getValues := λ s, fsValues (cs_Filesystem s) (λ fs, wrap64 (fs_IoInProgress fs)) |};
   {| cm_name := "container_fs_io_time_seconds_total"; cm_help := "Cumulative count of seconds spent doing I/Os"; cm_valueType := Counter; cm_extraLabels := ["device"];
      cm_getValues := λ s, fsValues (cs_Filesystem s) (λ fs, wrap64 (fs_IoTime fs / 1000000000)) |};
   {| cm_name := "container_fs_io_time_weighted_seconds_total"; cm_help := "Cumulative weighted I/O time in seconds"; cm_valueType := Counter; cm_extraLabels := ["device"];
      cm_getValues := λ s, fsValues (cs_Filesystem s) (λ fs, wrap64 (fs_WeightedIoTime fs / 1000000000)) |}].
Definition networkMetrics : list (containerMetric ContainerStats) :=
  [{| cm_name := "pod_network_receive_bytes_total"; cm_help := "Cumulative count of bytes received"; cm_valueType := Counter; cm_extraLabels := ["interface"];
      cm_getValues := λ s, networkValues (cs_Interfaces s) (λ n, wrap64 (if_RxBytes n)) |};
   {| cm_name := "pod_network_receive_packets_total"; cm_help := "Cumulative count of packets received"; cm_valueType := Counter; cm_extraLabels := ["interface"];
      cm_getValues := λ s, networkValues (cs_Interfaces s) (λ n, wrap64 (if_RxPackets n)) |};
   {| cm_name := "pod_network_receive_packets_dropped_total"; cm_help := "Cumulative count of packets dropped while receiving"; cm_valueType := Counter; cm_extraLabels := ["interface"];
      cm_getValues := λ s, networkValues (cs_Interfaces s) (λ n, wrap64 (if_RxDropped n)) |};
   {| cm_name := "pod_network_receive_errors_total"; cm_help := "Cumulative count of errors encountered while receiving"; cm_valueType := Counter; cm_extraLabels := ["interface"];
      cm_getValues := λ s, networkValues (cs_Interfaces s) (λ n, wrap64 (if_RxErrors n)) |};
   {| cm_name := "pod_network_transmit_bytes_total"; cm_help := "Cumulative count of bytes transmitted"; cm_valueType := Counter; cm_extraLabels := ["interface"];
      cm_getValues := λ s, networkValues (cs_Interfaces s) (λ n, wrap64 (if_TxBytes n)) |};
   {| cm_name := "pod_network_transmit_packets_total"; cm_help := "Cumulative count of packets transmitted"; cm_valueType := Counter; cm_extraLabels := ["interface"];
      cm_getValues := λ s, networkValues (cs_Interfaces s) (λ n, wrap64 (if_TxPackets n)) |};
   {| cm_name := "pod_network_transmit_packets_dropped_total"; cm_help := "Cumulative count of packets dropped while transmitting"; cm_valueType := Counter; cm_extraLabels := ["interface"];
      cm_getValues := λ s, networkValues (cs_Interfaces s) (λ n, wrap64 (if_TxDropped n)) |};
   {| cm_name := "pod_network_transmit_errors_total"; cm_help := "Cumulative count of errors encountered while transmitting"; cm_valueType := Counter; cm_extraLabels := ["interface"];
      cm_getValues := λ s, networkValues (cs_Interfaces s) (λ n, wrap64 (if_TxErrors n)) |}].
Definition taskMetrics : list (containerMetric ContainerStats) :=
  [{| cm_name := "container_tasks_state"; cm_help := "Number of tasks in given state"; cm_valueType := Gauge; cm_extraLabels := ["state"];
      cm_getValues := taskStates |}].
Definition getContainerMetrics : list (containerMetric ContainerStats) :=
  cpuMetrics ++ memoryMetrics ++ fsReadMetrics ++ fsWriteMetrics ++ networkMetrics ++ taskMetrics.

Definition gaugeOf {S} (name : string) (f : S → list metricValue) : containerMetric S :=
  {| cm_name := name; cm_help := ""; cm_valueType := Gauge; cm_extraLabels := []; cm_getValues := f |}.
Definition getContainerSpecCPUMetrics : list (containerMetric ContainerInfo) :=
  [gaugeOf "container_spec_cpu_shares" (λ c, [plain (wrap64 (ci_CpuLimit c))]);
   gaugeOf "container_spec_cpu_quota" (λ c, [plain (wrap64 (ci_CpuQuota c))]);
   gaugeOf "container_spec_cpu_period" (λ c, [plain (wrap64 (ci_CpuPeriod c))])].
(** The limit is converted before it is compared. *)
Definition memoryLimit (c : ContainerInfo) : list metricValue :=
  let limit := wrap64 (ci_MemoryLimit c) in
  if (2 ^ 64 - 1) / 3 <=? limit then [] else [plain limit].
Definition getContainerSpecMemMetrics : list (containerMetric ContainerInfo) :=
  [gaugeOf "container_spec_memory_limit_bytes" memoryLimit;
   gaugeOf "container_spec_memory_swap_limit_bytes" (λ c, [plain (wrap64 (ci_SwapLimit c))])].
Definition getMachineInfoMetrics : list (containerMetric MachineInfo) :=
  [gaugeOf "machine_cpu_frequency_khz" (λ m, [plain (wrap64 (mc_CpuFrequency m))]);
   gaugeOf "machine_cpu_cores" (λ m, [plain (wrap64 (mc_NumCores m))]);
   gaugeOf "machine_memory_bytes" (λ m, [plain (wrap64 (mc_MemoryCapacity m))])].
Definition getContainerSpecMetrics : list (containerMetric ContainerInfo) := [gaugeOf "container_start_time_seconds" (λ c, [plain (ci_Creation c)])].
Definition optionalValue (v : option Z) : list metricValue := match v with Some v => [plain (wrap64 v)] | None => [] end.
Definition getPodEphemeralStorageMetrics : list (containerMetric PodFsStats) :=
  [gaugeOf "pod_ephemeral_storage_capacity_bytes" (λ es, optionalValue (pf_CapacityBytes es));
   {| cm_name := "pod_ephemeral_storage_used_bytes"; cm_help := ""; cm_valueType := Counter; cm_extraLabels := [];
      cm_getValues := λ es, optionalValue (pf_UsedBytes es) |}].

(** ** Collection *)

Context (defaultDimensions : gmap string string).

Definition atNow (name : string) (t : sfxMetricType) (v : Z) (dims : gmap string string) : sfxDatapoint :=
  {| sd_Metric := name; sd_Type := t; sd_Value := IntValue v; sd_Time := Some now; sd_Dimensions := dims; sd_Meta := ∅ |}.

(** The extra dimensions of a value; a metric with more labels than values panics. *)
Fixpoint labelled (labels values : list string) (dims : gmap string string) : outcome (gmap string string) :=
  match labels, values with
  | [], _ => Done dims
  | _ :: _, [] => Panics
  | k :: labels, v :: values => labelled labels values (<[k := v]> dims)
  end.
Definition valuePoint {S} (dims : gmap string string) (cm : containerMetric S) (v : metricValue) : outcome sfxDatapoint :=
  d ← labelled (cm_extraLabels cm) (mv_labels v) dims; Done (atNow (cm_name cm) (cm_valueType cm) (mv_value v) d).
Definition metricPoints {S} (dims : gmap string string) (s : S) (cm : containerMetric S) : outcome (list sfxDatapoint) :=
  mapM_outcome (valuePoint dims cm) (cm_getValues cm s).
Definition tablePoints {S} (dims : gmap string string) (table : list (containerMetric S)) (s : S) : outcome (list sfxDatapoint) :=
  l ← mapM_outcome (metricPoints dims s) table; Done (concat l).

Definition label (c : ContainerInfo) (k : string) : string := default "" (default ∅ (ci_Labels c) !! k).
Definition containerDimensions (c : ContainerInfo) : gmap string string :=
  <["kubernetes_namespace" := label c "io.kubernetes.pod.namespace"]> $
  <["kubernetes_pod_name" := label c "io.kubernetes.pod.name"]> $
  <["kubernetes_pod_uid" := label c "io.kubernetes.pod.uid"]> $
  <["container_name" := label c "io.kubernetes.container.name"]> $
  <["container_spec_name" := label c "io.kubernetes.container.name"]> $
  <["container_id" := ci_Id c]> $
  (if String.eqb (ci_Image c) "" then ∅ else {["container_image" := ci_Image c]}).

(** Only the last statistics of a container are used. *)
Definition containerPoints (c : ContainerInfo) : outcome (list sfxDatapoint) :=
  let dims := containerDimensions c in
  spec ← tablePoints dims getContainerSpecMetrics c;
  cpu ← (if ci_HasCpu c then tablePoints dims getContainerSpecCPUMetrics c else Done []);
  mem ← (if ci_HasMemory c then tablePoints dims getContainerSpecMemMetrics c else Done []);
  stats ← match last (ci_Stats c) with Some s => tablePoints dims getContainerMetrics s | None => Done [] end;
  Done (spec ++ cpu ++ mem ++ stats).

Definition isPod (d : sfxDatapoint) : bool := String.eqb (default "" (sd_Dimensions d !! "container_name")) "POD".
(** The points of the pod's own container are kept for network metrics only. *)
Definition keptPoint (d : sfxDatapoint) : bool := negb (isPod d) || HasPrefix (sd_Metric d) "pod_network_".
Definition preprocessDims (d : sfxDatapoint) : gmap string string :=
  let dims := if isPod d then delete "container_name" (sd_Dimensions d) else sd_Dimensions d in
  delete "name" (delete "id" (defaultDimensions ∪ <["metric_source" := "kubernetes"]> dims)).
Definition preprocess (dps : list sfxDatapoint) : list sfxDatapoint :=
  map (λ d, {| sd_Metric := sd_Metric d; sd_Type := sd_Type d; sd_Value := sd_Value d; sd_Time := sd_Time d; sd_Dimensions := preprocessDims d; sd_Meta := sd_Meta d |})
    (List.filter keptPoint dps).

Definition collectContainersInfo (p : InfoProvider) : outcome (list sfxDatapoint) :=
  match ip_containers p with
  | Err _ => Done []
  | Ok cs => l ← mapM_outcome containerPoints cs; Done (preprocess (concat l))
  end.
Definition collectMachineInfo (p : InfoProvider) : outcome (list sfxDatapoint) :=
  match ip_machine p with
  | Ok (Some m) => l ← tablePoints ∅ getMachineInfoMetrics m; Done (preprocess l)
  | _ => Done []
  end.
Definition podDims (po : PodStats) : gmap string string :=
  <["kubernetes_namespace" := po_Namespace po]> (<["kubernetes_pod_name" := po_Name po]> {["kubernetes_pod_uid" := po_UID po]}).
Definition podPoints (po : PodStats) : outcome (list sfxDatapoint) :=
  match po_EphemeralStorage po with
  | None => Panics
  | Some es => tablePoints (podDims po) getPodEphemeralStorageMetrics es
  end.
Definition collectEphemeralStorageStatsFromPod (p : InfoProvider) : outcome (list sfxDatapoint) :=
  match ip_pods p with
  | Err _ => Done []
  | Ok pods => l ← mapM_outcome podPoints pods; Done (preprocess (concat l))
  end.
(** What is sent by one collection. *)
Definition Collect (podStats : bool) (p : InfoProvider) : outcome (list sfxDatapoint) :=
  machine ← collectMachineInfo p;
  containers ← collectContainersInfo p;
  pods ← (if podStats then collectEphemeralStorageStatsFromPod p else Done []);
  Done (machine ++ containers ++ pods).
End collector.

(** ** kubeletstats.go *)

(** The condition accepts every container with labels. *)
Definition inPod (c : ContainerInfo) : bool :=
  match ci_Labels c with Some _ => true | None => false end || negb (String.eqb (label c "io.kubernetes.pod.uid") "").
Definition filterPodContainers (cs : list ContainerInfo) : list ContainerInfo := List.filter inPod cs.

(** ** genmetadata.go *)

Definition cadvisorMetrics : list (string * sfxMetricType) :=
  [("container_cpu_cfs_periods", Counter); ("container_cpu_cfs_throttled_periods", Counter); ("container_cpu_cfs_throttled_time", Counter);
   ("container_cpu_percent", Counter); ("container_cpu_system_seconds_total", Counter); ("container_cpu_usage_seconds_total", Counter);
   ("container_cpu_user_seconds_total", Counter); ("container_cpu_utilization", Counter); ("container_cpu_utilization_per_core", Counter);
   ("container_fs_io_current", Gauge); ("container_fs_io_time_seconds_total", Counter); ("container_fs_io_time_weighted_seconds_total", Counter);
   ("container_fs_limit_bytes", Gauge); ("container_fs_read_seconds_total", Counter); ("container_fs_reads_merged_total", Counter);
   ("container_fs_reads_total", Counter); ("container_fs_sector_reads_total", Counter); ("container_fs_sector_writes_total", Counter);
   ("container_fs_usage_bytes", Gauge); ("container_fs_write_seconds_total", Counter); ("container_fs_writes_merged_total", Counter);
   ("container_fs_writes_total", Counter); ("container_last_seen", Gauge); ("container_memory_failcnt", Counter);
   ("container_memory_failures_total", Counter); ("container_memory_rss", Gauge); ("container_memory_usage_bytes", Gauge);
   ("container_memory_working_set_bytes", Gauge); ("container_spec_cpu_period", Gauge); ("container_spec_cpu_quota", Gauge);
   ("container_spec_cpu_shares", Gauge); ("container_spec_memory_limit_bytes", Gauge); ("container_spec_memory_swap_limit_bytes", Gauge);
   ("container_start_time_seconds", Gauge); ("container_tasks_state", Gauge); ("machine_cpu_cores", Gauge); ("machine_cpu_frequency_khz", Gauge);
   ("machine_memory_bytes", Gauge); ("pod_ephemeral_storage_capacity_bytes", Gauge); ("pod_ephemeral_storage_used_bytes", Gauge);
   ("pod_network_receive_bytes_total", Counter); ("pod_network_receive_errors_total", Counter);
   ("pod_network_receive_packets_dropped_total", Counter); ("pod_network_receive_packets_total", Counter);
   ("pod_network_transmit_bytes_total", Counter); ("pod_network_transmit_errors_total", Counter);
   ("pod_network_transmit_packets_dropped_total", Counter); ("pod_network_transmit_packets_total", Counter)].

(** ** Labels *)

Definition enough_labels {S} (cm : containerMetric S) : Prop := ∀ s, Forall (λ v, length (mv_labels v) = length (cm_extraLabels cm)) (cm_getValues cm s).

Lemma labelled_done labels values dims : length values = length labels → labelled labels values dims = Done (foldl (λ d kv, <[kv.1 := kv.2]> d) dims (zip labels values)).
Proof. revert values dims. induction labels as [|k labels IH]; intros [|v values] dims Hl; try discriminate Hl; [done|]. cbn. apply IH. by injection Hl. Qed.

Lemma per_core_labels l n : Forall (λ v, length (mv_labels v) = 1%nat) (imap (λ i, coreValue (n + i)) l).
Proof.
  revert n. induction l as [|u l IH]; intros n; cbn [imap]; [constructor|]. constructor.
  - unfold coreValue. by destruct (0 <? u).
  - rewrite (imap_ext _ (λ i, coreValue (S n + i))); [apply IH|]. intros i x _. cbn. by rewrite Nat.add_succ_r.
Qed.

Ltac solve_labels := repeat first [apply Forall_cons_2 | apply Forall_nil_2]; intros s; cbn [cm_getValues cm_extraLabels gaugeOf];
  first [by repeat constructor | by (apply Forall_map; apply Forall_true) | exact (per_core_labels (cs_PerCpu s) 0)].
Lemma container_labels now : Forall enough_labels (getContainerMetrics now).
Proof. unfold getContainerMetrics. rewrite !Forall_app. split_and!; solve_labels. Qed.
Lemma memoryLimit_labels c : Forall (λ v, length (mv_labels v) = 0%nat) (memoryLimit c).
Proof. unfold memoryLimit. by destruct (_ <=? _); repeat constructor. Qed.
Lemma spec_labels : Forall enough_labels (getContainerSpecMetrics ++ getContainerSpecCPUMetrics ++ getContainerSpecMemMetrics).
Proof.
  unfold getContainerSpecMetrics, getContainerSpecCPUMetrics, getContainerSpecMemMetrics.
  repeat first [apply Forall_cons_2 | apply Forall_nil_2]; intros s; cbn [cm_getValues cm_extraLabels gaugeOf]; first [apply memoryLimit_labels | by repeat constructor].
Qed.
Lemma machine_labels : Forall enough_labels getMachineInfoMetrics.
Proof. solve_labels. Qed.
Lemma optionalValue_labels v : Forall (λ v, length (mv_labels v) = 0%nat) (optionalValue v).
Proof. destruct v; by repeat constructor. Qed.
Lemma pod_labels : Forall enough_labels getPodEphemeralStorageMetrics.
Proof. repeat first [apply Forall_cons_2 | apply Forall_nil_2]; intros s; apply optionalValue_labels. Qed.

(** ** Collected points *)

(** The dimensions of a value. *)
Definition valueDims {S} (dims : gmap string string) (cm : containerMetric S) (v : metricValue) : gmap string string :=
  foldl (λ d kv, <[kv.1 := kv.2]> d) dims (zip (cm_extraLabels cm) (mv_labels v)).
Definition pointOf {S} (now : Z) (dims : gmap string string) (cm : containerMetric S) (v : metricValue) : sfxDatapoint :=
  atNow now (cm_name cm) (cm_valueType cm) (mv_value v) (valueDims dims cm v).
(** All points of a table. *)
Definition pointsOf {S} (now : Z) (dims : gmap string string) (table : list (containerMetric S)) (s : S) : list sfxDatapoint :=
  flat_map (λ cm, map (pointOf now dims cm) (cm_getValues cm s)) table.

Lemma mapM_outcome_pure {A B} (f : A → outcome B) (g : A → B) l : (∀ x, x ∈ l → f x = Done (g x)) → mapM_outcome f l = Done (map g l).
Proof. induction l as [|x l IH]; intros Hf; [done|]. cbn [mapM_outcome map]. rewrite (Hf x) by (by left). rewrite IH; [done|]. intros y Hy. apply Hf. by right. Qed.

Lemma tablePoints_done {S} now dims (table : list (containerMetric S)) s : Forall enough_labels table → tablePoints now dims table s = Done (pointsOf now dims table s).
Proof.
  intros Ht. unfold tablePoints, pointsOf. rewrite (mapM_outcome_pure _ (λ cm, map (pointOf now dims cm) (cm_getValues cm s))).
  - cbn [mbind outcome_bind]. by rewrite flat_map_concat_map.
  - intros cm Hcm. rewrite Forall_forall in Ht. specialize (Ht cm Hcm s). rewrite Forall_forall in Ht.
    apply mapM_outcome_pure. intros v Hv. unfold valuePoint. by rewrite labelled_done by (by apply Ht).
Qed.

(** The points of a container. *)
Definition containerSpec (now : Z) (c : ContainerInfo) : list sfxDatapoint :=
  let dims := containerDimensions c in
  pointsOf now dims getContainerSpecMetrics c ++
  (if ci_HasCpu c then pointsOf now dims getContainerSpecCPUMetrics c else []) ++
  (if ci_HasMemory c then pointsOf now dims getContainerSpecMemMetrics c else []) ++
  match last (ci_Stats c) with Some s => pointsOf now dims (getContainerMetrics now) s | None => [] end.
Lemma containerPoints_done now c : containerPoints now c = Done (containerSpec now c).
Proof.
  pose proof spec_labels as Hs. rewrite !Forall_app in Hs. destruct Hs as (H1 & H2 & H3). pose proof (container_labels now) as H4.
  unfold containerPoints, containerSpec. rewrite tablePoints_done by done. cbn [mbind outcome_bind].
  destruct (ci_HasCpu c); [rewrite tablePoints_done by done|]; cbn [mbind outcome_bind];
    (destruct (ci_HasMemory c); [rewrite tablePoints_done by done|]; cbn [mbind outcome_bind];
       (destruct (last (ci_Stats c)); [rewrite tablePoints_done by done|]; done)).
Qed.

Definition okOr {A} (d : A) (r : res A) : A := match r with Ok a => a | Err _ => d end.
(** What is sent for the machine and the containers, and for pods with ephemeral storage. *)
Definition sentInfo (now : Z) (defaults : gmap string string) (p : InfoProvider) : list sfxDatapoint :=
  match okOr None (ip_machine p) with Some m => preprocess defaults (pointsOf now ∅ getMachineInfoMetrics m) | None => [] end ++
  preprocess defaults (flat_map (containerSpec now) (okOr [] (ip_containers p))).
Definition podSpec (now : Z) (po : PodStats) : list sfxDatapoint :=
  match po_EphemeralStorage po with Some es => pointsOf now (podDims po) getPodEphemeralStorageMetrics es | None => [] end.

Lemma collectInfo now defaults p :
  (machine ← collectMachineInfo now defaults p; containers ← collectContainersInfo now defaults p; Done (machine ++ containers)) = Done (sentInfo now defaults p).
Proof.
  unfold collectMachineInfo, collectContainersInfo, sentInfo. pose proof machine_labels as Hm.
  assert (Hc : match ip_containers p with Ok cs => l ← mapM_outcome (containerPoints now) cs; Done (preprocess defaults (concat l)) | Err _ => Done [] end
    = Done (preprocess defaults (flat_map (containerSpec now) (okOr [] (ip_containers p))))).
  { destruct (ip_containers p) as [cs|]; [|done]. rewrite (mapM_outcome_pure _ (containerSpec now)) by (intros; apply containerPoints_done).
    cbn [mbind outcome_bind okOr]. by rewrite flat_map_concat_map. }
  destruct (ip_machine p) as [[m|]|]; cbn [okOr]; [rewrite tablePoints_done by done|..]; cbn [mbind outcome_bind]; rewrite Hc; done.
Qed.

(** A collection sends the points of the machine, the containers and the pods, unless the storage of pods is collected and
    a pod has none in the kubelet's answer: then it panics. *)
Lemma Collect_collected now defaults (podStats : bool) p : let pods := if podStats then okOr [] (ip_pods p) else [] in
  Collect now defaults podStats p =
    if forallb (λ po, match po_EphemeralStorage po with Some _ => true | None => false end) pods
    then Done (sentInfo now defaults p ++ preprocess defaults (flat_map (podSpec now) pods)) else Panics.
Proof.
  intros pods. pose proof (collectInfo now defaults p) as Hi. unfold Collect. apply bind_done in Hi as (m & Hm & Hi). apply bind_done in Hi as (cs & Hcs & Hi). injection Hi as <-.
  rewrite Hm. cbn [mbind outcome_bind]. rewrite Hcs. cbn [mbind outcome_bind]. subst pods.
  assert (Hp : ∀ l, mapM_outcome (podPoints now) l = if forallb (λ po, match po_EphemeralStorage po with Some _ => true | None => false end) l then Done (map (podSpec now) l) else Panics).
  { induction l as [|po l IH]; [done|]. cbn [mapM_outcome forallb map]. unfold podPoints at 1, podSpec at 1. destruct (po_EphemeralStorage po) as [es|]; [|done].
    rewrite tablePoints_done by apply pod_labels. rewrite IH. by destruct (forallb _ l). }
  destruct podStats; cbn [mbind outcome_bind]; [|by rewrite <-app_assoc].
  unfold collectEphemeralStorageStatsFromPod. destruct (ip_pods p) as [l|]; cbn [okOr]; [|by rewrite <-app_assoc].
  rewrite Hp. destruct (forallb _ l); cbn [mbind outcome_bind]; [|done]. by rewrite <-flat_map_concat_map, <-app_assoc.
Qed.

(** ** Dimensions of what is sent *)

(** What every sent point has. *)
Definition sent_ok (defaults : gmap string string) (d : sfxDatapoint) : Prop :=
  let dims := sd_Dimensions d in
  dims !! "id" = None ∧ dims !! "name" = None ∧
  (∀ k v, defaults !! k = Some v → k ≠ "id" → k ≠ "name" → dims !! k = Some v) ∧
  (defaults !! "metric_source" = None → dims !! "metric_source" = Some "kubernetes") ∧
  (defaults !! "container_name" = None → dims !! "container_name" = Some "POD" → False).

Lemma preprocess_ok defaults l d : d ∈ preprocess defaults l → sent_ok defaults d.
Proof.
  intros (x & <- & Hx)%list_elem_of_In%in_map_iff. apply filter_In in Hx as [_ Hx]. unfold sent_ok. cbn [sd_Dimensions]. unfold preprocessDims.
  split_and!.
  - by rewrite lookup_delete_ne, lookup_delete_eq by done.
  - by rewrite lookup_delete_eq.
  - intros k v Hk H1 H2. rewrite !lookup_delete_ne by done. by apply lookup_union_Some_l.
  - intros Hn. rewrite !lookup_delete_ne by done. rewrite lookup_union_r by done. by rewrite lookup_insert_eq.
  - intros Hn. rewrite !lookup_delete_ne by done. rewrite lookup_union_r, lookup_insert_ne by done. destruct (isPod x) eqn:Ep; [by rewrite lookup_delete_eq|].
    unfold isPod in Ep. intros E. rewrite E in Ep. discriminate Ep.
Qed.

(** Every point that is sent carries the default dimensions and its source, none of the dimensions of high
    cardinality, and is not one of a pod's own container unless the defaults say so. *)
Theorem sent_dimensions now defaults podStats p l d : Collect now defaults podStats p = Done l → d ∈ l → sent_ok defaults d.
Proof.
  rewrite Collect_collected. destruct (forallb _ _); [|done]. intros [= <-]. unfold sentInfo. rewrite !elem_of_app.
  intros [[Hd|Hd]|Hd]; [|by apply preprocess_ok in Hd..].
  destruct (okOr None (ip_machine p)); [by apply preprocess_ok in Hd|by apply not_elem_of_nil in Hd].
Qed.

Lemma pointsOf_elem {S} now dims (table : list (containerMetric S)) s cm v : cm ∈ table → v ∈ cm_getValues cm s → pointOf now dims cm v ∈ pointsOf now dims table s.
Proof. intros Hc Hv. apply list_elem_of_In, in_flat_map. exists cm. split; [by apply list_elem_of_In|]. by apply in_map, list_elem_of_In. Qed.

Lemma valueDims_ne {S} dims (cm : containerMetric S) v k : k ∉ cm_extraLabels cm → valueDims dims cm v !! k = dims !! k.
Proof.
  unfold valueDims. generalize (mv_labels v), (cm_extraLabels cm). intros values labels. revert dims values. induction labels as [|x labels IH]; intros dims values Hk; [done|].
  destruct values as [|y values]; [done|]. cbn [zip zip_with foldl fst snd]. apply not_elem_of_cons in Hk as [Hx Hk]. change (zip_with pair labels values) with (zip labels values).
  rewrite IH by done. by rewrite lookup_insert_ne.
Qed.

Definition podKeys : list string := ["container_name"; "kubernetes_pod_uid"; "kubernetes_pod_name"; "kubernetes_namespace"; "container_id"].
Lemma labels_not_keys now : Forall (λ cm, Forall (λ k, k ∉ cm_extraLabels cm) podKeys) (getContainerMetrics now).
Proof. unfold getContainerMetrics. rewrite !Forall_app. split_and!; repeat first [apply Forall_cons_2 | apply Forall_nil_2]; cbn [cm_extraLabels]; intros Hk; repeat (apply elem_of_cons in Hk as [Hk|Hk]; [discriminate Hk|]); by apply not_elem_of_nil in Hk. Qed.

(** Every value of every container metric of the latest statistics is sent with the pod of its container, except for
    metrics of a pod's own container that are not about the network. *)
Theorem container_value_sent now defaults podStats p l cs c s cm v :
  Collect now defaults podStats p = Done l → ip_containers p = Ok cs → c ∈ cs → last (ci_Stats c) = Some s → cm ∈ getContainerMetrics now → v ∈ cm_getValues cm s →
  label c "io.kubernetes.container.name" ≠ "POD" ∨ HasPrefix (cm_name cm) "pod_network_" = true →
  defaults !! "kubernetes_pod_uid" = None →
  ∃ d, d ∈ l ∧ sd_Metric d = cm_name cm ∧ sd_Type d = cm_valueType cm ∧ sd_Value d = IntValue (mv_value v) ∧
    sd_Dimensions d !! "kubernetes_pod_uid" = Some (label c "io.kubernetes.pod.uid").
Proof.
  rewrite Collect_collected. destruct (forallb _ _); [|done]. intros [= <-] Hcs Hc Hs Hcm Hv Hpod Hdef.
  pose proof (labels_not_keys now) as Hk. rewrite Forall_forall in Hk. specialize (Hk cm Hcm). unfold podKeys in Hk. rewrite !Forall_cons in Hk. destruct Hk as (Hk1 & Hk2 & _).
  set (x := pointOf now (containerDimensions c) cm v).
  exists {| sd_Metric := sd_Metric x; sd_Type := sd_Type x; sd_Value := sd_Value x; sd_Time := sd_Time x; sd_Dimensions := preprocessDims defaults x; sd_Meta := sd_Meta x |}.
  assert (Hname : sd_Dimensions x !! "container_name" = Some (label c "io.kubernetes.container.name")).
  { cbn [x pointOf atNow sd_Dimensions]. rewrite valueDims_ne by done. unfold containerDimensions. by rewrite !lookup_insert_ne, lookup_insert_eq by done. }
  assert (Huid : sd_Dimensions x !! "kubernetes_pod_uid" = Some (label c "io.kubernetes.pod.uid")).
  { cbn [x pointOf atNow sd_Dimensions]. rewrite valueDims_ne by done. unfold containerDimensions. by rewrite !lookup_insert_ne, lookup_insert_eq by done. }
  split_and!; [|done..|].
  - unfold sentInfo. rewrite Hcs. cbn [okOr]. apply elem_of_app. left. apply elem_of_app. right. apply list_elem_of_In, in_map_iff. exists x. split; [done|].
    apply filter_In. split.
    + apply in_flat_map. exists c. split; [by apply list_elem_of_In|]. apply list_elem_of_In. unfold containerSpec. rewrite Hs, !elem_of_app. right. right. right. by apply pointsOf_elem.
    + unfold keptPoint, isPod. rewrite Hname. change (sd_Metric x) with (cm_name cm). cbn [from_option id]. destruct Hpod as [Hp| ->]; [|by rewrite orb_true_r]. destruct (String.eqb_spec (label c "io.kubernetes.container.name") "POD"); [done|]. done.
  - cbn [sd_Dimensions]. unfold preprocessDims. rewrite !lookup_delete_ne, lookup_union_r, lookup_insert_ne by done. destruct (isPod x); [rewrite lookup_delete_ne by done|]; done.
Qed.

(** ** Deviations *)

(** An unlimited container, or any limit of 2^63 and above, is reported with a negative limit. *)
Lemma huge_limit_negative c : 2 ^ 63 <= ci_MemoryLimit c < 2 ^ 64 → memoryLimit c = [plain (ci_MemoryLimit c - 2 ^ 64)] ∧ ci_MemoryLimit c - 2 ^ 64 < 0.
Proof.
  intros Hl. assert (Hw : wrap64 (ci_MemoryLimit c) = ci_MemoryLimit c - 2 ^ 64).
  { unfold wrap64. rewrite <-(Z.mod_unique (ci_MemoryLimit c + 2 ^ 63) (2 ^ 64) 1 (ci_MemoryLimit c + 2 ^ 63 - 2 ^ 64)); lia. }
  unfold memoryLimit. rewrite Hw. split; [|lia]. rewrite (proj2 (Z.leb_gt _ _)); [done|]. apply Z.lt_le_trans with 0; [lia|]. by vm_compute.
Qed.
(** The same core has another label while it is idle. *)
Lemma idle_core_label index usage : 0 < usage → mv_labels (coreValue index 0) = [pretty index] ∧ mv_labels (coreValue index usage) = ["cpu" +:+ pretty index].
Proof. intros Hu. unfold coreValue. by rewrite (proj2 (Z.ltb_lt _ _) Hu). Qed.
(** Containers that are in no pod pass the filter. *)
Lemma labelled_container_passes c m : ci_Labels c = Some m → m !! "io.kubernetes.pod.uid" = None → c ∈ filterPodContainers [c].
Proof. intros Hl _. unfold filterPodContainers, inPod. cbn [List.filter]. rewrite Hl. by left. Qed.

#[local] Instance valueType_eq_dec : EqDecision sfxMetricType.
Proof. solve_decision. Defined.
(** The metrics of all tables with their types. *)
Definition emittedTypes (now : Z) : list (string * sfxMetricType) :=
  map (λ cm, (cm_name cm, cm_valueType cm)) (getContainerMetrics now) ++
  map (λ cm, (cm_name cm, cm_valueType cm)) (getContainerSpecMetrics ++ getContainerSpecCPUMetrics ++ getContainerSpecMemMetrics) ++
  map (λ cm, (cm_name cm, cm_valueType cm)) getMachineInfoMetrics ++ map (λ cm, (cm_name cm, cm_valueType cm)) getPodEphemeralStorageMetrics.
Definition mistyped : list (string * (sfxMetricType * sfxMetricType)) :=
  [("container_last_seen", (Timestamp, Gauge)); ("container_fs_reads_total", (Gauge, Counter)); ("pod_ephemeral_storage_used_bytes", (Counter, Gauge))].
(** All emitted metrics are declared, three of them with another type. *)
Lemma emitted_declared now : Forall (λ nt, nt ∈ cadvisorMetrics ∨ Exists (λ m, m.1 = nt.1 ∧ m.2.1 = nt.2 ∧ (m.1, m.2.2) ∈ cadvisorMetrics) mistyped) (emittedTypes now).
Proof. apply (bool_decide_unpack _). vm_compute. exact I. Qed.

(** ** A small node *)

Definition demo_stats : ContainerStats := {|
  cs_User := 1; cs_System := 2; cs_Total := 30000000; cs_PerCpu := [30000000; 0]; cs_Periods := 0; cs_ThrottledPeriods := 0; cs_ThrottledTime := 0;
  cs_RSS := 4; cs_Failcnt := 0; cs_MemoryUsage := 5; cs_WorkingSet := 6; cs_Pgfault := 0; cs_Pgmajfault := 0; cs_HierarchicalPgfault := 0; cs_HierarchicalPgmajfault := 0;
  cs_Filesystem := []; cs_Interfaces := []; cs_Sleeping := 0; cs_Running := 1; cs_Stopped := 0; cs_Uninterruptible := 0; cs_IoWait := 0;
|}.
Definition demo_info : ContainerInfo := {|
  ci_Id := "c1"; ci_Image := "web"; ci_Labels := Some {["io.kubernetes.pod.uid" := "u1"]}; ci_Creation := 7;
  ci_HasCpu := false; ci_CpuLimit := 0; ci_CpuQuota := 0; ci_CpuPeriod := 0; ci_HasMemory := false; ci_MemoryLimit := 0; ci_SwapLimit := 0; ci_Stats := [demo_stats];
|}.
Definition demo_provider : InfoProvider := {| ip_containers := Ok [demo_info]; ip_machine := Ok None; ip_pods := Ok [] |}.
Definition demo_rss : containerMetric ContainerStats :=
  {| cm_name := "container_memory_rss"; cm_help := "RSS memory used by the container"; cm_valueType := Gauge; cm_extraLabels := [];
     cm_getValues := λ s, [plain (wrap64 (cs_RSS s))] |}.
Lemma demo_rss_listed : demo_rss ∈ getContainerMetrics 9.
Proof. apply elem_of_app. right. apply elem_of_app. left. by left. Qed.
Lemma demo_collects : ∃ l, Collect 9 ∅ true demo_provider = Done l.
Proof. rewrite Collect_collected. by eexists. Qed.

Lemma sent_dimensions_witness : ∃ l, Collect 9 ∅ true demo_provider = Done l ∧ ∀ d, d ∈ l → sent_ok ∅ d.
Proof. destruct demo_collects as [l Hl]. exists l. split; [exact Hl|]. intros d. exact (sent_dimensions 9 ∅ true demo_provider l d Hl). Defined.
Lemma container_value_sent_witness : ∃ l d, Collect 9 ∅ true demo_provider = Done l ∧ d ∈ l ∧ sd_Metric d = "container_memory_rss" ∧ sd_Value d = IntValue 4.
Proof.
  destruct demo_collects as [l Hl]. exists l.
  destruct (container_value_sent 9 ∅ true demo_provider l [demo_info] demo_info demo_stats demo_rss (plain 4) Hl eq_refl) as (d & Hd & Hm & _ & Hv & _);
    [by left|done|exact demo_rss_listed|by left|left; discriminate|done|]. by exists d.
Defined.
