(* ===== verification/VSphere.v ===== *)
(** * The vSphere monitor

    [src/internal/signalfx-agent/pkg/monitors/vsphere]: the walk over the inventory
    ([service/inventory.go], [inv_filter.go], [model/model.go]), the names and units of
    metrics ([service/metrics.go]), the pages in which performance data is fetched
    ([inv_iterator.go] and the fetchers), the points made from it
    ([service/points.go]) and the monitor's periodic run ([vsphere_monitor.go],
    [runner.go]).

    The vCenter is a parameter: its inventory is a tree in which the retrieval of an
    object may fail, and the answers to queries are functions.  Times are seconds. *)

From S2P Require Import Prelude GoStrings GoValue Settings Telemetry SmartAgent Outcome.
From Stdlib Require Import Ascii.
#[local] Open Scope Z_scope.

(** ** model.go *)

Definition RealtimeMetricsInterval : Z := 20.
Inductive VMHostDim := GuestIP | GuestHostName | Disable | OtherHostDim (s : string).
Definition vsphere_Validate (d : VMHostDim) : option error :=
  match d with OtherHostDim s => Some (Errorf "hostDimensionValue '%s' is invalid" [s]) | _ => None end.

Record objectRef := { rf_Type : string; rf_Value : string }.
(** [ob_MetricIds]: the metrics available for the object. *)
Record InventoryObject := { ob_Ref : objectRef; ob_MetricIds : list Z; ob_dimensions : gmap string string }.
Definition NewInventoryObject (ref : objectRef) (extra : gmap string string) : InventoryObject :=
  {| ob_Ref := ref; ob_MetricIds := []; ob_dimensions := extra ∪ {["ref_id" := rf_Value ref; "object_type" := rf_Type ref]} |}.
Record Inventory := { inv_Objects : list InventoryObject; inv_DimensionMap : gmap string (gmap string string) }.
Definition NewInventory : Inventory := {| inv_Objects := []; inv_DimensionMap := ∅ |}.
Definition AddObject (obj : InventoryObject) (inv : Inventory) : Inventory :=
  {| inv_Objects := inv_Objects inv ++ [obj]; inv_DimensionMap := <[rf_Value (ob_Ref obj) := ob_dimensions obj]> (inv_DimensionMap inv) |}.

(** ** The vCenter's inventory *)

Record GuestInfo := { gu_IpAddress : string; gu_Family : string; gu_FullName : string; gu_HostName : string }.
(** [Config] and [Guest] are optional; [None] is the nil pointer. *)
Record virtualMachine := {
  vm_Self : objectRef; vm_Name : string; vm_PoweredOff : bool; vm_GuestId : option string; vm_Guest : option GuestInfo;
}.
Record hostSystem := { ho_Self : objectRef; ho_Name : string; ho_PoweredOff : bool; ho_VMs : list (res virtualMachine) }.
Inductive entity :=
| Folder (children : list entity)
| Datacenter (name : string) (hostFolder : entity)
| ClusterCompute (name : string) (hosts : list (res hostSystem))
| Compute (hosts : list (res hostSystem))
| OtherEntity
(** An object whose properties cannot be retrieved. *)
| Unretrievable (e : error).

(** ** inv_filter.go *)

(** The dimensions of the parents, in order. *)
Notation pairs := (list (string * string)).
Record filterEnv := { fe_Datacenter : string; fe_Cluster : string }.
Definition envOf (dims : pairs) : filterEnv :=
  foldl (λ e kv, if String.eqb kv.1 "datacenter" then {| fe_Datacenter := kv.2; fe_Cluster := fe_Cluster e |}
                 else if String.eqb kv.1 "cluster" then {| fe_Datacenter := fe_Datacenter e; fe_Cluster := kv.2 |} else e)
    {| fe_Datacenter := ""; fe_Cluster := "" |} dims.
(** The result of an expression: a boolean, another value, or an error. *)
Inductive exprResult := ExprBool (b : bool) | ExprOther | ExprError.
(** The result of [keep]; its error is only logged.  A result that is not a boolean
    panics in the type assertion. *)
Definition keep (f : option (filterEnv → exprResult)) (dims : pairs) : outcome bool :=
  match f with
  | None => Done true
  | Some run => match run (envOf dims) with ExprBool b => Done b | ExprError => Done true | ExprOther => Panics end
  end.

(** ** inventory.go *)

Definition amendDims (dims : gmap string string) (ps : pairs) : gmap string string := foldl (λ d kv, <[kv.1 := kv.2]> d) dims ps.

Section inventory.
Context (f : option (filterEnv → exprResult)) (hostDim : VMHostDim).

Definition vmDimensions (vm : virtualMachine) (guestId : string) (g : GuestInfo) : gmap string string :=
  let base := {["vm_name" := vm_Name vm; "guest_id" := guestId; "vm_ip" := gu_IpAddress g; "guest_family" := gu_Family g; "guest_fullname" := gu_FullName g]} in
  match hostDim with
  | GuestIP => <["host" := gu_IpAddress g]> base
  | GuestHostName => <["host" := gu_HostName g]> base
  | _ => base
  end.
Definition followVM (inv : Inventory) (r : res virtualMachine) (dims : pairs) : outcome Inventory :=
  match r with
  | Err e => Failed e
  | Ok vm =>
      if vm_PoweredOff vm then Done inv
      else match vm_GuestId vm, vm_Guest vm with
           | Some guestId, Some g => Done (AddObject (NewInventoryObject (vm_Self vm) (amendDims (vmDimensions vm guestId g) dims)) inv)
           | _, _ => Panics
           end
  end.
Fixpoint followVMs (inv : Inventory) (l : list (res virtualMachine)) (dims : pairs) : outcome Inventory :=
  match l with [] => Done inv | r :: l => inv ← followVM inv r dims; followVMs inv l dims end.
Definition followHost (inv : Inventory) (r : res hostSystem) (dims : pairs) : outcome Inventory :=
  match r with
  | Err e => Failed e
  | Ok host =>
      if ho_PoweredOff host then Done inv
      else
        kept ← keep f dims;
        if kept : bool then
          let dims := dims ++ [("esx_ip", ho_Name host)] in
          followVMs (AddObject (NewInventoryObject (ho_Self host) (amendDims ∅ dims)) inv) (ho_VMs host) dims
        else Done inv
  end.
Fixpoint followHosts (inv : Inventory) (l : list (res hostSystem)) (dims : pairs) : outcome Inventory :=
  match l with [] => Done inv | r :: l => inv ← followHost inv r dims; followHosts inv l dims end.
Definition followCluster (inv : Inventory) (name : string) (hosts : list (res hostSystem)) (dims : pairs) : outcome Inventory :=
  let dims := dims ++ [("cluster", name)] in
  kept ← keep f dims;
  if kept : bool then followHosts inv hosts dims else Done inv.

(** The walk from an object that a folder lists or a data centre has as its host folder;
    what is not a folder, data centre or compute resource is skipped. *)
Fixpoint follow (inv : Inventory) (e : entity) (dims : pairs) {struct e} : outcome Inventory :=
  match e with
  | Folder children =>
      (fix loop (inv : Inventory) (l : list entity) : outcome Inventory :=
         match l with [] => Done inv | e :: l => inv ← follow inv e dims; loop inv l end) inv children
  | Datacenter name hostFolder => follow inv hostFolder (dims ++ [("datacenter", name)])
  | ClusterCompute name hosts => followCluster inv name hosts dims
  | Compute hosts => followHosts inv hosts dims
  | OtherEntity => Done inv
  | Unretrievable e => Failed e
  end.
Definition RetrieveInventory (top : entity) : outcome Inventory := follow NewInventory top [].
End inventory.

(** ** metrics.go *)

Definition upper_char (c : ascii) : bool := in_range "A" "Z" c.
(** A run of upper case letters becomes an underscore and the letters in lower case. *)
Fixpoint camelLoop (inRun : bool) (s : string) : string :=
  match s with
  | EmptyString => EmptyString
  | String c s =>
      if upper_char c then (if inRun then String (lower_byte c) (camelLoop true s) else String "_" (String (lower_byte c) (camelLoop true s)))
      else String c (camelLoop false s)
  end.
Definition camelToSnakeCase : string → string := camelLoop false.
Definition dotsToUnderscores (s : string) : string := ReplaceByte s "."%char "_".
Definition fixupMetricName (s : string) : string := "vsphere." +:+ dotsToUnderscores (camelToSnakeCase s).

Definition cpuUnits : list (string * string) :=
  [("coreUtilization", "percent"); ("costop", "ms"); ("demand", "mhz"); ("demandEntitlementRatio", "percent"); ("entitlement", "mhz"); ("idle", "ms");
   ("latency", "percent"); ("maxlimited", "ms"); ("overlap", "ms"); ("readiness", "percent"); ("ready", "ms"); ("reservedCapacity", "mhz");
   ("run", "ms"); ("swapwait", "ms"); ("system", "ms"); ("totalCapacity", "mhz"); ("usage", "percent"); ("used", "ms"); ("utilization", "percent");
   ("wait", "ms")].
Definition datastoreUnits : list (string * string) :=
  [("datastoreVMObservedLatency", "ms"); ("maxTotalLatency", "ms"); ("read", "kbs"); ("sizeNormalizedDatastoreLatency", "ms");
   ("totalReadLatency", "ms"); ("totalWriteLatency", "ms"); ("write", "kbs")].
Definition diskUnits : list (string * string) :=
  [("deviceLatency", "ms"); ("deviceReadLatency", "ms"); ("deviceWriteLatency", "ms"); ("kernelLatency", "ms"); ("kernelReadLatency", "ms");
   ("kernelWriteLatency", "ms"); ("maxTotalLatency", "ms"); ("queueLatency", "ms"); ("queueReadLatency", "ms"); ("queueWriteLatency", "ms");
   ("read", "kbs"); ("totalReadLatency", "ms"); ("totalWriteLatency", "ms"); ("usage", "kbs"); ("write", "kbs")].
Definition hbrUnits : list (string * string) :=
  [("hbrNetRx", "kbs"); ("hbrNetTx", "kbs")].
Definition memUnits : list (string * string) :=
  [("active", "kb"); ("activewrite", "kb"); ("compressed", "kb"); ("compressionRate", "kbs"); ("consumed", "kb"); ("decompressionRate", "kbs");
   ("entitlement", "kb"); ("granted", "kb"); ("heap", "kb"); ("heapfree", "kb"); ("latency", "percent"); ("llSwapIn", "kb"); ("llSwapInRate", "kbs");
   ("llSwapOut", "kb"); ("llSwapOutRate", "kbs"); ("llSwapUsed", "kb"); ("lowfreethreshold", "kb"); ("overhead", "kb"); ("overheadMax", "kb");
   ("overheadTouched", "kb"); ("reservedCapacity", "mb"); ("shared", "kb"); ("sharedcommon", "kb"); ("swapin", "kb"); ("swapinRate", "kbs");
   ("swapout", "kb"); ("swapoutRate", "kbs"); ("swapped", "kb"); ("swaptarget", "kb"); ("swapused", "kb"); ("sysUsage", "kb");
   ("totalCapacity", "mb"); ("unreserved", "kb"); ("usage", "percent"); ("vmfs.pbc.capMissRatio", "percent"); ("vmfs.pbc.overhead", "kb");
   ("vmfs.pbc.size", "mb"); ("vmfs.pbc.sizeMax", "mb"); ("vmfs.pbc.workingSet", "tb"); ("vmfs.pbc.workingSetMax", "tb"); ("vmmemctl", "kb");
   ("vmmemctltarget", "kb"); ("zero", "kb"); ("zipSaved", "kb"); ("zipped", "kb")].
Definition netUnits : list (string * string) :=
  [("bytesRx", "kbs"); ("bytesTx", "kbs"); ("received", "kbs"); ("transmitted", "kbs"); ("usage", "kbs")].
Definition powerUnits : list (string * string) :=
  [("energy", "joules"); ("power", "watts"); ("powerCap", "watts")].
Definition rescpuUnits : list (string * string) :=
  [("actav15", "percent"); ("actav5", "percent"); ("actpk1", "percent"); ("actpk15", "percent"); ("actpk5", "percent"); ("maxLimited1", "percent");
   ("maxLimited15", "percent"); ("maxLimited5", "percent"); ("runav1", "percent"); ("runav15", "percent"); ("runav5", "percent");
   ("runpk1", "percent"); ("runpk15", "percent"); ("runpk5", "percent"); ("samplePeriod", "ms")].
Definition storageAdapterUnits : list (string * string) :=
  [("maxTotalLatency", "ms"); ("read", "kbs"); ("totalReadLatency", "ms"); ("totalWriteLatency", "ms"); ("write", "kbs")].
Definition storagePathUnits : list (string * string) :=
  [("maxTotalLatency", "ms"); ("read", "kbs"); ("totalReadLatency", "ms"); ("totalWriteLatency", "ms"); ("write", "kbs")].
Definition sysUnits : list (string * string) :=
  [("osUptime", "seconds"); ("resourceCpuAct1", "percent"); ("resourceCpuAct5", "percent"); ("resourceCpuAllocMax", "mhz");
   ("resourceCpuMaxLimited1", "percent"); ("resourceCpuMaxLimited5", "percent"); ("resourceCpuRun1", "percent"); ("resourceCpuRun5", "percent");
   ("resourceCpuUsage", "mhz"); ("resourceMemAllocMax", "kb"); ("resourceMemAllocMin", "kb"); ("resourceMemConsumed", "kb"); ("resourceMemCow", "kb");
   ("resourceMemMapped", "kb"); ("resourceMemOverhead", "kb"); ("resourceMemShared", "kb"); ("resourceMemSwapped", "kb");
   ("resourceMemTouched", "kb"); ("resourceMemZero", "kb"); ("uptime", "seconds")].
Definition virtualDiskUnits : list (string * string) :=
  [("read", "kbs"); ("totalReadLatency", "ms"); ("totalWriteLatency", "ms"); ("write", "kbs")].
Definition metricUnits : list (string * list (string * string)) :=
  [("cpu", cpuUnits); ("datastore", datastoreUnits); ("disk", diskUnits); ("hbr", hbrUnits); ("mem", memUnits); ("net", netUnits);
   ("power", powerUnits); ("rescpu", rescpuUnits); ("storageAdapter", storageAdapterUnits); ("storagePath", storagePathUnits); ("sys", sysUnits);
   ("virtualDisk", virtualDiskUnits)].
Definition getMetricUnits (group name : string) : string :=
  match List.find (λ kv, String.eqb kv.1 group) metricUnits with
  | None => ""
  | Some (_, units) => match List.find (λ kv, String.eqb kv.1 name) units with Some (_, u) => "_" +:+ u | None => "" end
  end.
Definition getMetricName (group name : string) : string := fixupMetricName (group +:+ "_" +:+ name) +:+ getMetricUnits group name.

Inductive statsType := StatsDelta | StatsOther.
Record perfCounter := { pc_Key : Z; pc_Group : string; pc_Name : string; pc_Stats : statsType }.
Record metricInfo := { mi_MetricName : string; mi_Stats : statsType }.
Definition indexPerfCountersByKey (l : list perfCounter) : gmap Z metricInfo :=
  foldl (λ m c, <[pc_Key c := {| mi_MetricName := getMetricName (pc_Group c) (pc_Name c); mi_Stats := pc_Stats c |}]> m) ∅ l.
(** An object whose metrics cannot be queried keeps those it had. *)
Definition PopulateInvMetrics (available : objectRef → res (list Z)) (inv : Inventory) : Inventory :=
  {| inv_Objects := map (λ o, match available (ob_Ref o) with
                              | Ok ids => {| ob_Ref := ob_Ref o; ob_MetricIds := ids; ob_dimensions := ob_dimensions o |}
                              | Err _ => o end) (inv_Objects inv);
     inv_DimensionMap := inv_DimensionMap inv |}.

(** ** Pages *)

Record invIterator := { it_inv : list InventoryObject; it_pageSize : Z; it_numPages : Z; it_pageNum : Z }.
Definition numPages (pageSize numObjs : Z) : Z := Z.quot (numObjs + pageSize - 1) pageSize.
Definition newIterator (batchSize : Z) (inv : list InventoryObject) : invIterator :=
  let n := Z.of_nat (length inv) in
  if batchSize =? 0 then {| it_inv := inv; it_pageSize := n; it_numPages := 1; it_pageNum := 0 |}
  else {| it_inv := inv; it_pageSize := batchSize; it_numPages := numPages batchSize n; it_pageNum := 0 |}.
(** The objects of the next page; a slice with bounds out of order panics. *)
Definition pageSlice (it : invIterator) : outcome (list InventoryObject) :=
  let n := Z.of_nat (length (it_inv it)) in
  let startIdx := it_pageNum it * it_pageSize it in
  let endIdx := Z.min (startIdx + it_pageSize it) n in
  if (0 <=? startIdx) && (startIdx <=? endIdx) then Done (take (Z.to_nat (endIdx - startIdx)) (drop (Z.to_nat startIdx) (it_inv it))) else Panics.
Definition nextPage (it : invIterator) : invIterator :=
  {| it_inv := it_inv it; it_pageSize := it_pageSize it; it_numPages := it_numPages it; it_pageNum := it_pageNum it + 1 |}.
Definition hasNext (it : invIterator) : bool := it_pageNum it <? it_numPages it.

(** ** points.go *)

Record intSeries := { se_CounterId : Z; se_Instance : string; se_Value : list Z }.
(** A metric of an entity, or something of another type, which is skipped. *)
Record perfEntityMetric := { em_Entity : string; em_SampleTimes : list Z; em_Series : list (option intSeries) }.
Record VsphereInfo := { vi_Inv : Inventory; vi_Counters : gmap Z metricInfo }.

Definition statsTypeToMetricType (t : statsType) : sfxMetricType := match t with StatsDelta => Count | StatsOther => Gauge end.
Definition notHostSpecific : string := "sfx-not-host-specific".

Section points.
Context (vcenter : string) (info : VsphereInfo).

Definition seriesDims (m : perfEntityMetric) (s : intSeries) : gmap string string :=
  let cached := default ∅ (inv_DimensionMap (vi_Inv info) !! em_Entity m) in
  <["vcenter" := vcenter]> (if String.eqb (se_Instance s) "" then cached else <["object" := se_Instance s]> cached).
(** A counter that is not indexed is the zero value. *)
Definition counterInfo (s : intSeries) : metricInfo := default {| mi_MetricName := ""; mi_Stats := StatsOther |} (vi_Counters info !! se_CounterId s).
Definition pointValue (name : string) (v : Z) : sfxValue :=
  if HasSuffix name "_percent" then FloatValue (SFdiv 53 1024 (float_of_Z v) (float_of_Z 100)) else IntValue v.
Definition samplePoint (m : perfEntityMetric) (s : intSeries) (t v : Z) : sfxDatapoint :=
  let dims := seriesDims m s in
  let mi := counterInfo s in
  {| sd_Metric := mi_MetricName mi; sd_Type := statsTypeToMetricType (mi_Stats mi); sd_Value := pointValue (mi_MetricName mi) v; sd_Time := Some t;
     sd_Dimensions := dims; sd_Meta := match dims !! "host" with Some _ => {[notHostSpecific := ABool true]} | None => ∅ end |}.
(** The points sent for a series, and whether a value without a sample time stopped it
    by a panic. *)
Fixpoint seriesPoints (m : perfEntityMetric) (s : intSeries) (times values : list Z) : list sfxDatapoint * bool :=
  match values, times with
  | [], _ => ([], false)
  | _ :: _, [] => ([], true)
  | v :: values, t :: times => let '(ps, p) := seriesPoints m s times values in (samplePoint m s t v :: ps, p)
  end.
Fixpoint allSeries (m : perfEntityMetric) (l : list (option intSeries)) : list sfxDatapoint * bool :=
  match l with
  | [] => ([], false)
  | None :: l => allSeries m l
  | Some s :: l =>
      match seriesPoints m s (em_SampleTimes m) (se_Value s) with
      | (ps, true) => (ps, true)
      | (ps, false) => let '(ps', p) := allSeries m l in (ps ++ ps', p)
      end
  end.
(** The zero time is [None]. *)
Definition later (latest : option Z) (t : Z) : option Z := match latest with Some l => if l <? t then Some t else latest | None => Some t end.
Fixpoint entityMetrics (latest : option Z) (l : list (option perfEntityMetric)) : list sfxDatapoint * outcome (option Z) :=
  match l with
  | [] => ([], Done latest)
  | None :: l => entityMetrics latest l
  | Some m :: l =>
      match last (em_SampleTimes m) with
      | None => ([], Panics)
      | Some t =>
          match allSeries m (em_Series m) with
          | (ps, true) => (ps, Panics)
          | (ps, false) => let '(ps', o) := entityMetrics (later latest t) l in (ps ++ ps', o)
          end
      end
  end.
(** The points sent and the time of the latest sample, [None] when a query fails; fuel for
    the number of pages. *)
Fixpoint fetchLoop (fuel : nat) (query : list InventoryObject → res (list (option perfEntityMetric))) (it : invIterator) (latest : option Z) :
    list sfxDatapoint * option (outcome (option Z)) :=
  match fuel with
  | O => ([], None)
  | S fuel =>
      match pageSlice it with
      | Panics => ([], Some Panics)
      | Failed e => ([], Some (Failed e))
      | Done objs =>
          match query objs with
          | Err _ => ([], Some (Done None))
          | Ok metrics =>
              match entityMetrics latest metrics with
              | (ps, Done latest) =>
                  if hasNext (nextPage it) then let '(ps', o) := fetchLoop fuel query (nextPage it) latest in (ps ++ ps', o) else (ps, Some (Done latest))
              | (ps, o) => (ps, Some o)
              end
          end
      end
  end.
Definition FetchPoints (fuel : nat) (query : list InventoryObject → res (list (option perfEntityMetric))) (batchSize : Z) :
    list sfxDatapoint * option (outcome (option Z)) := fetchLoop fuel query (newIterator batchSize (inv_Objects (vi_Inv info))) None.
End points.

(** ** vsphere_monitor.go and runner.go *)

(** The state of the monitor; [None] for a nil pointer and a zero time. *)
Record vSphereMonitor := { vs_info : option VsphereInfo; vs_lastLoad : option Z; vs_lastPoints : option Z }.
(** What the vCenter answers in one run: the login, the tree of the inventory, the metrics
    available for an object, the performance counters, the current time, performance data
    for a number of samples, and the local clock. *)
Record vcenterRun := {
  vr_login : res unit; vr_top : entity; vr_available : objectRef → res (list Z); vr_counters : res (list perfCounter); vr_time : res Z;
  vr_query : Z → list InventoryObject → res (list (option perfEntityMetric)); vr_now : Z;
}.
(** The configuration, with the filter compiled from its expression. *)
Record vsphereConfig := { vc_filter : option (filterEnv → exprResult); vc_hostDim : VMHostDim; vc_batchSize : Z; vc_reloadInterval : Z; vc_vcenter : string }.

Section run.
Context (conf : vsphereConfig) (fuel : nat).

Definition RetrieveVSphereInfo (r : vcenterRun) : outcome VsphereInfo :=
  inv ← RetrieveInventory (vc_filter conf) (vc_hostDim conf) (vr_top r);
  match vr_counters r with
  | Err e => Failed e
  | Ok counters => Done {| vi_Inv := PopulateInvMetrics (vr_available r) inv; vi_Counters := indexPerfCountersByKey counters |}
  end.

(** Load the information and its time; a failed load leaves none. *)
Definition load (r : vcenterRun) (vs : vSphereMonitor) : vSphereMonitor * outcome unit :=
  match RetrieveVSphereInfo r with
  | Panics => (vs, Panics)
  | Failed e => ({| vs_info := None; vs_lastLoad := vs_lastLoad vs; vs_lastPoints := vs_lastPoints vs |}, Failed e)
  | Done i =>
      match vr_time r with
      | Err e => ({| vs_info := Some i; vs_lastLoad := vs_lastLoad vs; vs_lastPoints := vs_lastPoints vs |}, Failed e)
      | Ok t => ({| vs_info := Some i; vs_lastLoad := Some t; vs_lastPoints := vs_lastPoints vs |}, Done tt)
      end
  end.
Definition firstTimeSetup (r : vcenterRun) (vs : vSphereMonitor) : vSphereMonitor * outcome unit :=
  match vs_lastLoad vs with
  | Some _ => (vs, Done tt)
  | None => match vr_login r with Err e => (vs, Failed e) | Ok _ => load r vs end
  end.
(** The seconds since the latest sample, below the bound of their conversion to 32 bits. *)
Definition getNumSamplesReqd (r : vcenterRun) (vs : vSphereMonitor) : res Z :=
  match vs_lastPoints vs with
  | None => Ok 1
  | Some t => match vr_time r with Err e => Err e | Ok now => Ok (Z.quot (now - t) RealtimeMetricsInterval) end
  end.
(** [FetchPoints] of a nil pointer panics. *)
Definition generateDatapoints (r : vcenterRun) (vs : vSphereMonitor) : vSphereMonitor * list sfxDatapoint * option (outcome unit) :=
  match getNumSamplesReqd r vs with
  | Err _ => (vs, [], Some (Done tt))
  | Ok n =>
      if n =? 0 then (vs, [], Some (Done tt))
      else match vs_info vs with
           | None => (vs, [], Some Panics)
           | Some info =>
               let '(ps, o) := FetchPoints (vc_vcenter conf) info fuel (vr_query r n) (vc_batchSize conf) in
               match o with
               | None => (vs, ps, None)
               | Some (Done (Some t)) => ({| vs_info := vs_info vs; vs_lastLoad := vs_lastLoad vs; vs_lastPoints := Some t |}, ps, Some (Done tt))
               | Some (Done None) => (vs, ps, Some (Done tt))
               | Some (Failed e) => (vs, ps, Some (Failed e))
               | Some Panics => (vs, ps, Some Panics)
               end
           end
  end.
Definition isTimeForVSphereInfoReload (r : vcenterRun) (vs : vSphereMonitor) : bool :=
  match vs_lastLoad vs with Some t => vc_reloadInterval conf <? vr_now r - t | None => true end.
(** One run: the monitor, the points sent and how it ended. *)
Definition run (r : vcenterRun) (vs : vSphereMonitor) : vSphereMonitor * list sfxDatapoint * option (outcome unit) :=
  match firstTimeSetup r vs with
  | (vs, Panics) => (vs, [], Some Panics)
  | (vs, Failed _) => (vs, [], Some (Done tt))
  | (vs, Done _) =>
      match generateDatapoints r vs with
      | (vs, ps, Some (Done _)) =>
          if isTimeForVSphereInfoReload r vs
          then match load r vs with (vs, Panics) => (vs, ps, Some Panics) | (vs, _) => (vs, ps, Some (Done tt)) end
          else (vs, ps, Some (Done tt))
      | x => x
      end
  end.
End run.

(** ** genmetadata.go *)

Definition vsphereMetrics : list string :=
  ["vsphere.cpu_core_utilization_percent"; "vsphere.cpu_costop_ms"; "vsphere.cpu_demand_entitlement_ratio_percent"; "vsphere.cpu_demand_mhz";
   "vsphere.cpu_entitlement_mhz"; "vsphere.cpu_idle_ms"; "vsphere.cpu_latency_percent"; "vsphere.cpu_maxlimited_ms"; "vsphere.cpu_overlap_ms";
   "vsphere.cpu_readiness_percent"; "vsphere.cpu_ready_ms"; "vsphere.cpu_reservedCapacity_mhz"; "vsphere.cpu_run_ms"; "vsphere.cpu_swapwait_ms";
   "vsphere.cpu_system_ms"; "vsphere.cpu_totalCapacity_mhz"; "vsphere.cpu_usage_percent"; "vsphere.cpu_usagemhz"; "vsphere.cpu_used_percent";
   "vsphere.cpu_utilization_percent"; "vsphere.cpu_wait_ms"; "vsphere.datastore_datastore_iops"; "vsphere.datastore_max_total_latency_ms";
   "vsphere.datastore_read_kbs"; "vsphere.datastore_read_load_metric"; "vsphere.datastore_size_normalized_datastore_latency_ms";
   "vsphere.datastore_total_read_latency_ms"; "vsphere.datastore_total_write_latency_ms"; "vsphere.datastore_vmobserved_latency_ms";
   "vsphere.datastore_write_kbs"; "vsphere.datastore_write_load_metric"; "vsphere.disk_bus_resets"; "vsphere.disk_commands";
   "vsphere.disk_commands_aborted"; "vsphere.disk_commands_averaged"; "vsphere.disk_device_latency_ms"; "vsphere.disk_device_read_latency_ms";
   "vsphere.disk_device_write_latency_ms"; "vsphere.disk_kernel_latency_ms"; "vsphere.disk_kernel_read_latency_ms";
   "vsphere.disk_kernel_write_latency_ms"; "vsphere.disk_max_queue_depth"; "vsphere.disk_max_total_latency_ms"; "vsphere.disk_number_read";
   "vsphere.disk_number_read_averaged"; "vsphere.disk_number_write"; "vsphere.disk_number_write_averaged"; "vsphere.disk_queue_latency_ms";
   "vsphere.disk_queue_read_latency_ms"; "vsphere.disk_queue_write_latency_ms"; "vsphere.disk_read_kbs"; "vsphere.disk_total_latency_ms";
   "vsphere.disk_total_read_latency_ms"; "vsphere.disk_total_write_latency_ms"; "vsphere.disk_usage_kbs"; "vsphere.disk_write_kbs";
   "vsphere.hbr_net_rx_kbs"; "vsphere.hbr_net_tx_kbs"; "vsphere.hbr_num_vms"; "vsphere.mem_active_kb"; "vsphere.mem_activewrite_kb";
   "vsphere.mem_compressed_kb"; "vsphere.mem_compression_rate_kbs"; "vsphere.mem_consumed_kb"; "vsphere.mem_decompression_rate_kbs";
   "vsphere.mem_entitlement_kb"; "vsphere.mem_granted_kb"; "vsphere.mem_heap_kb"; "vsphere.mem_heapfree_kb"; "vsphere.mem_latency_percent";
   "vsphere.mem_ll_swap_in_kb"; "vsphere.mem_ll_swap_in_rate_kbs"; "vsphere.mem_ll_swap_out_kb"; "vsphere.mem_ll_swap_out_rate_kbs";
   "vsphere.mem_ll_swap_used_kb"; "vsphere.mem_lowfreethreshold_kb"; "vsphere.mem_overhead_kb"; "vsphere.mem_overhead_max_kb";
   "vsphere.mem_overhead_touched_kb"; "vsphere.mem_reserved_capacity_mb"; "vsphere.mem_shared_kb"; "vsphere.mem_sharedcommon_kb"; "vsphere.mem_state";
   "vsphere.mem_swapin_kb"; "vsphere.mem_swapin_rate_kbs"; "vsphere.mem_swapout_kb"; "vsphere.mem_swapout_rate_kbs"; "vsphere.mem_swapped_kb";
   "vsphere.mem_swaptarget_kb"; "vsphere.mem_swapused_kb"; "vsphere.mem_sys_usage_kb"; "vsphere.mem_total_capacity_mb"; "vsphere.mem_unreserved_kb";
   "vsphere.mem_usage_percent"; "vsphere.mem_vmfs_pbc_cap_miss_ratio_percent"; "vsphere.mem_vmfs_pbc_overhead_kb"; "vsphere.mem_vmfs_pbc_size_max_mb";
   "vsphere.mem_vmfs_pbc_size_mb"; "vsphere.mem_vmfs_pbc_working_set_max_tb"; "vsphere.mem_vmfs_pbc_working_set_tb"; "vsphere.mem_vmmemctl_kb";
   "vsphere.mem_vmmemctltarget_kb"; "vsphere.mem_zero_kb"; "vsphere.mem_zip_saved_kb"; "vsphere.mem_zipped_kb"; "vsphere.net_broadcast_rx";
   "vsphere.net_broadcast_tx"; "vsphere.net_bytes_rx_kbs"; "vsphere.net_bytes_tx_kbs"; "vsphere.net_dropped_rx"; "vsphere.net_dropped_tx";
   "vsphere.net_errors_rx"; "vsphere.net_errors_tx"; "vsphere.net_multicast_rx"; "vsphere.net_multicast_tx"; "vsphere.net_packets_rx";
   "vsphere.net_packets_tx"; "vsphere.net_received_kbs"; "vsphere.net_transmitted_kbs"; "vsphere.net_unknown_protos"; "vsphere.net_usage_kbs";
   "vsphere.power_cap_watts"; "vsphere.power_energy_joules"; "vsphere.power_watts"; "vsphere.rescpu_actav1"; "vsphere.rescpu_actav15_percent";
   "vsphere.rescpu_actav5_percent"; "vsphere.rescpu_actpk15_percent"; "vsphere.rescpu_actpk1_percent"; "vsphere.rescpu_actpk5_percent";
   "vsphere.rescpu_max_limited15_percent"; "vsphere.rescpu_max_limited1_percent"; "vsphere.rescpu_max_limited5_percent";
   "vsphere.rescpu_runav15_percent"; "vsphere.rescpu_runav1_percent"; "vsphere.rescpu_runav5_percent"; "vsphere.rescpu_runpk15_percent";
   "vsphere.rescpu_runpk1_percent"; "vsphere.rescpu_runpk5_percent"; "vsphere.rescpu_sample_count"; "vsphere.rescpu_sample_period_ms";
   "vsphere.storage_adapter_commands_averaged"; "vsphere.storage_adapter_max_total_latency_ms"; "vsphere.storage_adapter_number_read_averaged";
   "vsphere.storage_adapter_number_write_averaged"; "vsphere.storage_adapter_read_kbs"; "vsphere.storage_adapter_total_read_latency_ms";
   "vsphere.storage_adapter_total_write_latency_ms"; "vsphere.storage_adapter_write_kbs"; "vsphere.storage_path_commands_averaged";
   "vsphere.storage_path_max_total_latency_ms"; "vsphere.storage_path_number_read_averaged"; "vsphere.storage_path_number_write_averaged";
   "vsphere.storage_path_read_kbs"; "vsphere.storage_path_total_read_latency_ms"; "vsphere.storage_path_total_write_latency_ms";
   "vsphere.storage_path_write_kbs"; "vsphere.sys_heartbeat"; "vsphere.sys_os_uptime_seconds"; "vsphere.sys_resource_cpu_act1_percent";
   "vsphere.sys_resource_cpu_act5"; "vsphere.sys_resource_cpu_alloc_min_mhz"; "vsphere.sys_resource_cpu_alloc_shares";
   "vsphere.sys_resource_cpu_max_limited1_percent"; "vsphere.sys_resource_cpu_max_limited5_percent"; "vsphere.sys_resource_cpu_run1_percent";
   "vsphere.sys_resource_cpu_run5_percent"; "vsphere.sys_resource_cpu_usage_mhz"; "vsphere.sys_resource_fd_usage";
   "vsphere.sys_resource_mem_alloc_max_kb"; "vsphere.sys_resource_mem_alloc_min_kb"; "vsphere.sys_resource_mem_alloc_shares";
   "vsphere.sys_resource_mem_consumed_kb"; "vsphere.sys_resource_mem_cow_kb"; "vsphere.sys_resource_mem_mapped_kb";
   "vsphere.sys_resource_mem_overhead_kb"; "vsphere.sys_resource_mem_shared_kb"; "vsphere.sys_resource_mem_swapped_kb";
   "vsphere.sys_resource_mem_touched_kb"; "vsphere.sys_resource_mem_zero_kb"; "vsphere.sys_uptime_seconds"; "vsphere.virtual_disk_large_seeks";
   "vsphere.virtual_disk_medium_seeks"; "vsphere.virtual_disk_number_read_averaged"; "vsphere.virtual_disk_number_write_averaged";
   "vsphere.virtual_disk_read_iosize"; "vsphere.virtual_disk_read_kbs"; "vsphere.virtual_disk_read_latency_us";
   "vsphere.virtual_disk_read_load_metric"; "vsphere.virtual_disk_read_oio"; "vsphere.virtual_disk_small_seeks";
   "vsphere.virtual_disk_total_read_latency_ms"; "vsphere.virtual_disk_total_write_latency_ms"; "vsphere.virtual_disk_write_iosize";
   "vsphere.virtual_disk_write_kbs"; "vsphere.virtual_disk_write_latency_us"; "vsphere.virtual_disk_write_load_metric";
   "vsphere.virtual_disk_write_oio"].

(** ** The pages of an inventory *)

Section pages.
Context (vcenter : string) (info : VsphereInfo) (query : list InventoryObject → res (list (option perfEntityMetric))).

(** What fetching a list of pages sends, and the time of the latest sample. *)
Fixpoint fetchPages (pages : list (list InventoryObject)) (latest : option Z) : list sfxDatapoint * outcome (option Z) :=
  match pages with
  | [] => ([], Done latest)
  | objs :: pages =>
      match query objs with
      | Err _ => ([], Done None)
      | Ok metrics =>
          match entityMetrics vcenter info latest metrics with
          | (ps, Done latest) => let '(ps', o) := fetchPages pages latest in (ps ++ ps', o)
          | (ps, o) => (ps, o)
          end
      end
  end.

(** The iterator after [k] of its [n] pages, of which there is always one. *)
Definition iterator_at (it : invIterator) (n k : Z) : Prop :=
  n = Z.max 1 (it_numPages it) ∧ it_pageNum it = k ∧ 0 ≤ k < n ∧ 0 ≤ it_pageSize it ∧
  (n - 1) * it_pageSize it ≤ Z.of_nat (length (it_inv it)) ≤ n * it_pageSize it.

Lemma newIterator_at batchSize inv : 0 ≤ batchSize → iterator_at (newIterator batchSize inv) (Z.max 1 (it_numPages (newIterator batchSize inv))) 0.
Proof.
  intros Hb. unfold iterator_at, newIterator. destruct (Z.eqb_spec batchSize 0) as [->|Hne]; cbn [it_numPages it_pageNum it_pageSize it_inv]; [lia|].
  unfold numPages. rewrite Z.quot_div_nonneg by lia. set (n := Z.of_nat (length inv)). pose proof (Z.div_mod (n + batchSize - 1) batchSize) as Hd.
  pose proof (Z.mod_pos_bound (n + batchSize - 1) batchSize) as Hm. set (q := (n + batchSize - 1) / batchSize) in *. assert (0 ≤ n) by (subst n; lia).
  assert (0 ≤ q) by (apply Z.div_pos; lia). split_and!; [lia..|nia|nia].
Qed.

Lemma page_is it n k : iterator_at it n k → ∃ objs, pageSlice it = Done objs ∧ (length objs ≤ Z.to_nat (it_pageSize it))%nat ∧
  drop (Z.to_nat (k * it_pageSize it)) (it_inv it) = objs ++ (if hasNext (nextPage it) then drop (Z.to_nat ((k + 1) * it_pageSize it)) (it_inv it) else []).
Proof.
  intros (Hn & <- & Hk & Hs & Hl). unfold pageSlice. set (s := it_pageSize it) in *. set (k := it_pageNum it) in *. set (l := it_inv it) in *. set (len := Z.of_nat (length l)) in *.
  assert (k * s ≤ len) by nia. rewrite (proj2 (Z.leb_le 0 (k * s))) by nia. rewrite (proj2 (Z.leb_le (k * s) _)) by lia. cbn [andb]. eexists. split; [done|].
  split; [rewrite length_take; lia|]. unfold hasNext, nextPage. cbn [it_pageNum it_numPages].
  destruct (Z.ltb_spec (it_pageNum it + 1) (it_numPages it)) as [Hlt|Hge]; fold k in Hlt || fold k in Hge.
  - assert (k * s + s ≤ len) by nia. rewrite Z.min_l by lia. replace (Z.to_nat (k * s + s - k * s)) with (Z.to_nat s) by lia.
    replace (Z.to_nat ((k + 1) * s)) with (Z.to_nat (k * s) + Z.to_nat s)%nat by nia. by rewrite <-drop_drop, take_drop.
  - assert (n * s ≤ k * s + s) by nia. rewrite Z.min_r by lia. rewrite app_nil_r, take_ge; [done|]. rewrite length_drop. lia.
Qed.

Lemma fetchLoop_pages fuel it n k latest : iterator_at it n k → n - k ≤ Z.of_nat fuel →
  ∃ pages, concat pages = drop (Z.to_nat (k * it_pageSize it)) (it_inv it) ∧ Forall (λ p, length p ≤ Z.to_nat (it_pageSize it))%nat pages ∧
    fetchLoop vcenter info fuel query it latest = prod_map id Some (fetchPages pages latest).
Proof.
  revert it k latest. induction fuel as [|fuel IH]; intros it k latest Hat Hf; [destruct Hat; lia|]. cbn [fetchLoop].
  destruct (page_is it n k Hat) as (objs & -> & Hlen & ->). destruct (hasNext (nextPage it)) eqn:Hnx.
  - assert (Hat' : iterator_at (nextPage it) n (k + 1)).
    { destruct Hat as (Hn & Hk & ? & ? & ?). unfold hasNext in Hnx. cbn in Hnx. unfold iterator_at. cbn. split_and!; lia. }
    destruct (query objs) as [metrics|e] eqn:Hq; [destruct (entityMetrics vcenter info latest metrics) as [ps o] eqn:Hm; destruct o as [latest'| |]|].
    1: destruct (IH (nextPage it) (k + 1) latest') as (pages & Hc & Hp & Hr); [done|lia|]; exists (objs :: pages);
      split_and!; [cbn [concat]; by rewrite Hc | by constructor|]; rewrite Hr; cbn [fetchPages]; rewrite Hq, Hm; by destruct (fetchPages pages latest').
    all: destruct (IH (nextPage it) (k + 1) latest) as (pages & Hc & Hp & _); [done|lia|]; exists (objs :: pages);
      (split_and!; [cbn [concat]; by rewrite Hc | by constructor|]); cbn [fetchPages]; rewrite Hq, ?Hm; done.
  - exists [objs]. split_and!; [done | by repeat constructor|]. cbn [fetchPages]. destruct (query objs) as [metrics|e]; [|done].
    destruct (entityMetrics vcenter info latest metrics) as [ps [latest'| |]]; [|done..]. cbn. by rewrite app_nil_r.
Qed.

Lemma pages_at_most batchSize (inv : list InventoryObject) : 0 ≤ batchSize →
  Z.max 1 (it_numPages (newIterator batchSize inv)) ≤ Z.of_nat (S (length inv)).
Proof.
  intros Hb. unfold newIterator. destruct (Z.eqb_spec batchSize 0); cbn [it_numPages]; [lia|]. unfold numPages. rewrite Z.quot_div_nonneg by lia.
  apply Z.max_lub; [lia|]. apply Z.div_le_upper_bound; [lia|]. nia.
Qed.
End pages.

(** Fetching terminates, with fuel for one page more than the objects of the inventory,
    and asks for the objects in pages of at most the batch size (all at once when it is 0)
    that together are the inventory in order, each object once; what is sent is what those
    pages give. *)
Theorem FetchPoints_pages vcenter info fuel query batchSize :
  0 ≤ batchSize → (length (inv_Objects (vi_Inv info)) < fuel)%nat →
  ∃ pages, concat pages = inv_Objects (vi_Inv info) ∧ (batchSize ≠ 0 → Forall (λ p, Z.of_nat (length p) ≤ batchSize) pages) ∧
    FetchPoints vcenter info fuel query batchSize = prod_map id Some (fetchPages vcenter info query pages None).
Proof.
  intros Hb Hf. unfold FetchPoints. set (objs := inv_Objects (vi_Inv info)) in *. pose proof (newIterator_at batchSize objs Hb) as Hat.
  destruct (fetchLoop_pages vcenter info query fuel _ _ _ None Hat) as (pages & Hc & Hp & ->); [pose proof (pages_at_most batchSize objs Hb); lia|].
  exists pages. unfold newIterator in Hc, Hp. destruct (Z.eqb_spec batchSize 0) as [->|Hne]; cbn [it_inv it_pageSize] in Hc, Hp.
  - by split_and!.
  - split_and!; [done| |done]. intros _. eapply Forall_impl; [exact Hp|]. cbn. lia.
Qed.

(** ** The inventory as the tree has it *)

Section listing.
Context (kept : filterEnv → bool) (hostDim : VMHostDim).

(** The objects that are powered on and that the filter keeps, each with the dimensions
    of what contains it, in the order of the tree. *)
Definition vmObjects (dims : pairs) (r : res virtualMachine) : list InventoryObject :=
  match r with
  | Ok vm => match vm_PoweredOff vm, vm_GuestId vm, vm_Guest vm with
             | false, Some guestId, Some g => [NewInventoryObject (vm_Self vm) (amendDims (vmDimensions hostDim vm guestId g) dims)]
             | _, _, _ => []
             end
  | Err _ => []
  end.
Definition hostObjects (dims : pairs) (r : res hostSystem) : list InventoryObject :=
  match r with
  | Ok host => if negb (ho_PoweredOff host) && kept (envOf dims)
               then let dims := dims ++ [("esx_ip", ho_Name host)] in
                    NewInventoryObject (ho_Self host) (amendDims ∅ dims) :: flat_map (vmObjects dims) (ho_VMs host)
               else []
  | Err _ => []
  end.
Fixpoint objectsOf (dims : pairs) (e : entity) : list InventoryObject :=
  match e with
  | Folder children => flat_map (objectsOf dims) children
  | Datacenter name hostFolder => objectsOf (dims ++ [("datacenter", name)]) hostFolder
  | ClusterCompute name hosts => let dims := dims ++ [("cluster", name)] in if kept (envOf dims) then flat_map (hostObjects dims) hosts else []
  | Compute hosts => flat_map (hostObjects dims) hosts
  | _ => []
  end.

(** A tree in which everything can be retrieved and running machines have a
    configuration and a guest. *)
Definition vm_healthy (r : res virtualMachine) : bool :=
  match r with Ok vm => vm_PoweredOff vm || (bool_decide (is_Some (vm_GuestId vm)) && bool_decide (is_Some (vm_Guest vm))) | Err _ => false end.
Definition host_healthy (r : res hostSystem) : bool := match r with Ok host => forallb vm_healthy (ho_VMs host) | Err _ => false end.
Fixpoint healthy (e : entity) : bool :=
  match e with
  | Folder children => forallb healthy children
  | Datacenter _ e => healthy e
  | ClusterCompute _ hosts | Compute hosts => forallb host_healthy hosts
  | OtherEntity => true
  | Unretrievable _ => false
  end.

Definition addAll (inv : Inventory) (l : list InventoryObject) : Inventory := foldl (λ inv o, AddObject o inv) inv l.
Lemma addAll_app inv l1 l2 : addAll inv (l1 ++ l2) = addAll (addAll inv l1) l2.
Proof. apply foldl_app. Qed.
Lemma addAll_objects inv l : inv_Objects (addAll inv l) = inv_Objects inv ++ l.
Proof. revert inv. induction l as [|o l IH]; intros inv; cbn [addAll foldl]; [by rewrite app_nil_r|]. fold (addAll (AddObject o inv) l). rewrite IH. cbn. by rewrite <-app_assoc. Qed.
Lemma addAll_dimension inv l o : NoDup (rf_Value ∘ ob_Ref <$> l) → o ∈ l → inv_DimensionMap (addAll inv l) !! rf_Value (ob_Ref o) = Some (ob_dimensions o).
Proof.
  induction l as [|o' l IH] using rev_ind; [by intros _ ?%elem_of_nil|]. rewrite fmap_app, NoDup_app. intros (Hl & Hd & _) [Ho| ->%list_elem_of_singleton]%elem_of_app.
  - rewrite addAll_app. cbn. rewrite lookup_insert_ne; [by apply IH|]. intros Heq. apply (Hd (rf_Value (ob_Ref o))); [by apply (list_elem_of_fmap_2 (rf_Value ∘ ob_Ref))|]. cbn. rewrite Heq. by left.
  - rewrite addAll_app. cbn. by rewrite lookup_insert_eq.
Qed.

(** Loops that add what each element has. *)
Lemma loop_adds {A} (body : Inventory → A → outcome Inventory) (loop : Inventory → list A → outcome Inventory) (objs : A → list InventoryObject) (ok : A → bool) :
  (∀ inv, loop inv [] = Done inv) → (∀ inv x l, loop inv (x :: l) = body inv x ≫= λ inv, loop inv l) →
  ∀ l, Forall (λ x, ok x = true → ∀ inv, body inv x = Done (addAll inv (objs x))) l →
  forallb ok l = true → ∀ inv, loop inv l = Done (addAll inv (flat_map objs l)).
Proof.
  intros Hnil Hcons l Hl. induction Hl as [|x l Hx Hl IH]; cbn [forallb flat_map]; intros Hok inv; [by rewrite Hnil|].
  apply andb_true_iff in Hok as [Hox Hol]. rewrite Hcons, (Hx Hox). cbn. by rewrite (IH Hol), addAll_app.
Qed.

Let f := Some (λ env, ExprBool (kept env)).

Lemma followVM_adds inv r dims : vm_healthy r = true → followVM hostDim inv r dims = Done (addAll inv (vmObjects dims r)).
Proof.
  destruct r as [vm|e]; [|done]. unfold vm_healthy, followVM, vmObjects. destruct (vm_PoweredOff vm); [done|]. cbn [orb].
  destruct (vm_GuestId vm); [|done]. by destruct (vm_Guest vm).
Qed.
Lemma followVMs_adds inv l dims : forallb vm_healthy l = true → followVMs hostDim inv l dims = Done (addAll inv (flat_map (vmObjects dims) l)).
Proof. intros Hl. apply (loop_adds (λ inv r, followVM hostDim inv r dims) (λ inv l, followVMs hostDim inv l dims) (vmObjects dims) vm_healthy); [done..| |done]. apply Forall_true. intros r Hr inv'. by apply followVM_adds. Qed.
Lemma followHost_adds inv r dims : host_healthy r = true → followHost f hostDim inv r dims = Done (addAll inv (hostObjects dims r)).
Proof.
  destruct r as [host|e]; [|done]. cbn [host_healthy followHost hostObjects]. intros Hvms. destruct (ho_PoweredOff host); [done|]. cbn. destruct (kept (envOf dims)); [|done].
  rewrite followVMs_adds by done. done.
Qed.
Lemma followHosts_adds inv l dims : forallb host_healthy l = true → followHosts f hostDim inv l dims = Done (addAll inv (flat_map (hostObjects dims) l)).
Proof. intros Hl. apply (loop_adds (λ inv r, followHost f hostDim inv r dims) (λ inv l, followHosts f hostDim inv l dims) (hostObjects dims) host_healthy); [done..| |done]. apply Forall_true. intros r Hr inv'. by apply followHost_adds. Qed.

(** Induction over the tree, through the lists of folders. *)
Fixpoint entity_tree_ind (P : entity → Prop) (Hf : ∀ l, Forall P l → P (Folder l)) (Hd : ∀ n e, P e → P (Datacenter n e)) (Hc : ∀ n hs, P (ClusterCompute n hs))
    (Hh : ∀ hs, P (Compute hs)) (Ho : P OtherEntity) (Hu : ∀ e, P (Unretrievable e)) (e : entity) : P e :=
  match e with
  | Folder l => Hf l ((fix go (l : list entity) : Forall P l :=
                         match l with [] => List.Forall_nil P | e :: l => @List.Forall_cons _ P e l (entity_tree_ind P Hf Hd Hc Hh Ho Hu e) (go l) end) l)
  | Datacenter n e => Hd n e (entity_tree_ind P Hf Hd Hc Hh Ho Hu e)
  | ClusterCompute n hs => Hc n hs
  | Compute hs => Hh hs
  | OtherEntity => Ho
  | Unretrievable e => Hu e
  end.

Lemma follow_adds e : ∀ inv dims, healthy e = true → follow f hostDim inv e dims = Done (addAll inv (objectsOf dims e)).
Proof.
  induction e as [l IH|n e IH|n hs|hs| |e] using entity_tree_ind; intros inv dims He; cbn [healthy follow objectsOf] in *; [| by apply IH | | by apply followHosts_adds | done | done].
  - apply (loop_adds (λ inv e, follow f hostDim inv e dims) _ (objectsOf dims) healthy); [done..| |done]. eapply Forall_impl; [exact IH|]. cbn. eauto.
  - unfold followCluster. cbn [keep f mbind outcome_bind]. destruct (kept _); [by apply followHosts_adds | done].
Qed.
End listing.

(** C27: When everything can be retrieved and the filter gives a boolean, the inventory is the
    powered-on hosts and virtual machines of the compute resources and hosts that the
    filter keeps, in the order of the tree, each with the dimensions of its data centre,
    cluster and host; and the dimensions found for an object's reference are its own. *)
Theorem RetrieveInventory_correct kept hostDim top :
  healthy top = true → NoDup (rf_Value ∘ ob_Ref <$> objectsOf kept hostDim [] top) →
  ∃ inv, RetrieveInventory (Some (λ env, ExprBool (kept env))) hostDim top = Done inv ∧ inv_Objects inv = objectsOf kept hostDim [] top ∧
    ∀ o, o ∈ inv_Objects inv → inv_DimensionMap inv !! rf_Value (ob_Ref o) = Some (ob_dimensions o).
Proof.
  intros Hh Hd. eexists. split; [by apply follow_adds|]. assert (Ho : inv_Objects (addAll NewInventory (objectsOf kept hostDim [] top)) = objectsOf kept hostDim [] top) by apply addAll_objects.
  split; [done|]. rewrite Ho. intros o Hin. by apply addAll_dimension.
Qed.

(** ** The periodic run *)

Section periodic.
Context (conf : vsphereConfig) (fuel : nat).

(** The samples asked for are the whole intervals since the latest one known. *)
Lemma samples_bounds r vs t now : vs_lastPoints vs = Some t → vr_time r = Ok now → t ≤ now →
  ∃ n, getNumSamplesReqd r vs = Ok n ∧ 0 ≤ n ∧ n * RealtimeMetricsInterval ≤ now - t < (n + 1) * RealtimeMetricsInterval.
Proof.
  intros Ht Hn Hle. unfold getNumSamplesReqd, RealtimeMetricsInterval. rewrite Ht, Hn. eexists. split; [done|]. rewrite Z.quot_div_nonneg by lia.
  pose proof (Z.div_mod (now - t) 20). pose proof (Z.mod_pos_bound (now - t) 20). lia.
Qed.

Lemma generateDatapoints_state r vs vs' ps o : generateDatapoints conf fuel r vs = (vs', ps, o) → vs_info vs' = vs_info vs ∧ vs_lastLoad vs' = vs_lastLoad vs.
Proof.
  unfold generateDatapoints. destruct (getNumSamplesReqd r vs) as [n|e]; [|by intros [= <- <- <-]]. destruct (n =? 0); [by intros [= <- <- <-]|].
  destruct (vs_info vs) as [info|] eqn:Hi; [|by intros [= <- <- <-]]. destruct (FetchPoints _ _ _ _ _) as [ps' o']. destruct o' as [[[t|]| |]|]; by intros [= <- <- <-].
Qed.

Lemma reload_fails r vs vs' ps t e : vs_lastLoad vs = Some t → vc_reloadInterval conf < vr_now r - t → RetrieveVSphereInfo conf r = Failed e →
  run conf fuel r vs = (vs', ps, Some (Done tt)) → vs_info vs' = None ∧ vs_lastLoad vs' = Some t.
Proof.
  intros Hl Hnow He. unfold run, firstTimeSetup. rewrite Hl. destruct (generateDatapoints _ _ r vs) as [[vs1 ps1] o1] eqn:Hg. apply generateDatapoints_state in Hg as [_ Hl1].
  destruct o1 as [[u| |]|]; [|by intros [=]..]. unfold isTimeForVSphereInfoReload. rewrite Hl1, Hl, (proj2 (Z.ltb_lt _ _) Hnow). unfold load. rewrite He.
  intros [= <- <-]. cbn. by rewrite Hl1, Hl.
Qed.
End periodic.

(** When the reload of the inventory fails, the monitor keeps no inventory but takes itself
    as set up: the next run that needs samples panics. *)
Theorem failed_reload_panics conf fuel r r' vs vs' ps t e n :
  vs_lastLoad vs = Some t → vc_reloadInterval conf < vr_now r - t → RetrieveVSphereInfo conf r = Failed e → run conf fuel r vs = (vs', ps, Some (Done tt)) →
  getNumSamplesReqd r' vs' = Ok n → n ≠ 0 → run conf fuel r' vs' = (vs', [], Some Panics).
Proof.
  intros Hl Hnow He Hr Hn Hn0. destruct (reload_fails _ _ _ _ _ _ _ _ Hl Hnow He Hr) as [Hi Hl']. unfold run, firstTimeSetup. rewrite Hl'.
  unfold generateDatapoints. by rewrite Hn, (proj2 (Z.eqb_neq _ _) Hn0), Hi.
Qed.

Lemma two_pages (p q : list InventoryObject) : (0 < length q ≤ length p)%nat → let it := newIterator (Z.of_nat (length p)) (p ++ q) in
  pageSlice it = Done p ∧ hasNext (nextPage it) = true ∧ pageSlice (nextPage it) = Done q ∧ hasNext (nextPage (nextPage it)) = false.
Proof.
  intros Hq. unfold newIterator, pageSlice, hasNext, nextPage. rewrite (proj2 (Z.eqb_neq _ 0)) by lia. cbn [it_inv it_pageSize it_pageNum it_numPages]. unfold numPages.
  rewrite length_app, Z.quot_div_nonneg by lia. set (b := Z.of_nat (length p)). assert (Hn : (Z.of_nat (length p + length q) + b - 1) / b = 2).
  { symmetry. apply (Z.div_unique _ _ _ (Z.of_nat (length q) - 1)); lia. }
  rewrite Hn, Z.add_0_l, Z.mul_1_l, Z.mul_0_l, Z.add_0_l, (Z.min_l b), (Z.min_r (b + b)) by lia. rewrite !(proj2 (Z.leb_le _ _)) by lia. cbn [andb]. rewrite drop_0, Z.sub_0_r.
  replace (Z.to_nat b) with (length p) by lia. replace (Z.to_nat _) with (length q) by lia. by rewrite take_app_length, drop_app_length, take_ge.
Qed.

(** A query that fails on the second page ends the fetch after the points of the first were
    sent, and the monitor does not move its latest sample time: the next run asks for
    those samples again. *)
Theorem failed_page_repeats conf fuel r vs info n p q ms pts latest e :
  vs_info vs = Some info → getNumSamplesReqd r vs = Ok n → n ≠ 0 → inv_Objects (vi_Inv info) = p ++ q → vc_batchSize conf = Z.of_nat (length p) → (0 < length q ≤ length p)%nat → (1 < fuel)%nat →
  vr_query r n p = Ok ms → entityMetrics (vc_vcenter conf) info None ms = (pts, Done latest) → vr_query r n q = Err e →
  generateDatapoints conf fuel r vs = (vs, pts, Some (Done tt)).
Proof.
  intros Hi Hn Hn0 Hobj Hb Hlen Hf Hqp Hm Hqq. unfold generateDatapoints. rewrite Hn, (proj2 (Z.eqb_neq _ _) Hn0), Hi. unfold FetchPoints. rewrite Hobj, Hb.
  destruct fuel as [|[|fuel]]; [lia..|]. destruct (two_pages p q Hlen) as (H1 & H2 & H3 & H4). cbn [fetchLoop]. rewrite H1, Hqp, Hm, H2, H3, Hqq. by rewrite app_nil_r.
Qed.

(** The names of the unit table that the metadata does not declare. *)
Lemma undeclared_names : filter (λ n, n ∉ vsphereMetrics) (flat_map (λ g, map (λ kv, getMetricName g.1 kv.1) g.2) metricUnits) =
  ["vsphere.cpu_reserved_capacity_mhz"; "vsphere.cpu_total_capacity_mhz"; "vsphere.cpu_used_ms"; "vsphere.datastore_datastore_vmobserved_latency_ms";
   "vsphere.hbr_hbr_net_rx_kbs"; "vsphere.hbr_hbr_net_tx_kbs"; "vsphere.power_power_watts"; "vsphere.power_power_cap_watts";
   "vsphere.sys_resource_cpu_act5_percent"; "vsphere.sys_resource_cpu_alloc_max_mhz"].
Proof. vm_compute. reflexivity. Qed.

(** ** Witnesses *)

(** A data centre with a cluster of one running host, a running and a stopped machine, and a
    cluster that the filter drops. *)
Definition demo_vm (id : string) (off : bool) : virtualMachine :=
  {| vm_Self := {| rf_Type := "VirtualMachine"; rf_Value := id |}; vm_Name := id; vm_PoweredOff := off; vm_GuestId := Some "g";
     vm_Guest := Some {| gu_IpAddress := "10.0.0.1"; gu_Family := "linux"; gu_FullName := "Linux"; gu_HostName := "h" |} |}.
Definition demo_host (id : string) (vms : list (res virtualMachine)) : hostSystem :=
  {| ho_Self := {| rf_Type := "HostSystem"; rf_Value := id |}; ho_Name := id; ho_PoweredOff := false; ho_VMs := vms |}.
Definition demo_tree : entity :=
  Folder [Datacenter "dc" (Folder [ClusterCompute "c1" [Ok (demo_host "host-1" [Ok (demo_vm "vm-1" false); Ok (demo_vm "vm-2" true)])];
                                   ClusterCompute "c2" [Ok (demo_host "host-2" [])]; OtherEntity])].
Definition demo_kept (env : filterEnv) : bool := String.eqb (fe_Cluster env) "c1".
Definition demo_objects : list InventoryObject := objectsOf demo_kept GuestIP [] demo_tree.
Definition demo_inventory : Inventory := addAll NewInventory demo_objects.
Definition demo_info : VsphereInfo := {| vi_Inv := demo_inventory; vi_Counters := indexPerfCountersByKey [{| pc_Key := 1; pc_Group := "cpu"; pc_Name := "idle"; pc_Stats := StatsDelta |}] |}.

Lemma RetrieveInventory_correct_witness : map (λ o, rf_Value (ob_Ref o)) demo_objects = ["host-1"; "vm-1"] ∧
  ∃ inv, RetrieveInventory (Some (λ env, ExprBool (demo_kept env))) GuestIP demo_tree = Done inv ∧ inv_Objects inv = demo_objects ∧
    ∀ o, o ∈ inv_Objects inv → inv_DimensionMap inv !! rf_Value (ob_Ref o) = Some (ob_dimensions o).
Proof. split; [vm_compute; reflexivity|]. apply (RetrieveInventory_correct demo_kept GuestIP demo_tree); [vm_compute; reflexivity|]. apply (bool_decide_unpack _). vm_compute. exact I. Defined.

Definition demo_query (n : Z) (objs : list InventoryObject) : res (list (option perfEntityMetric)) :=
  match objs with
  | o :: _ => if String.eqb (rf_Value (ob_Ref o)) "host-1"
              then Ok [Some {| em_Entity := "host-1"; em_SampleTimes := [20]; em_Series := [Some {| se_CounterId := 1; se_Instance := ""; se_Value := [7] |}] |}] else Err (Errorf "timeout" [])
  | [] => Ok []
  end.
Definition demo_point : sfxDatapoint :=
  samplePoint "vc" demo_info {| em_Entity := "host-1"; em_SampleTimes := [20]; em_Series := [] |} {| se_CounterId := 1; se_Instance := ""; se_Value := [7] |} 20 7.
Lemma FetchPoints_pages_witness :
  FetchPoints "vc" demo_info 3 (demo_query 1) 1 = ([demo_point], Some (Done None)) ∧
  ∃ pages, concat pages = inv_Objects (vi_Inv demo_info) ∧ (1 ≠ 0 → Forall (λ p, Z.of_nat (length p) ≤ 1) pages) ∧
    FetchPoints "vc" demo_info 3 (demo_query 1) 1 = prod_map id Some (fetchPages "vc" demo_info (demo_query 1) pages None).
Proof. split; [vm_compute; reflexivity|]. apply (FetchPoints_pages "vc" demo_info 3 (demo_query 1) 1); [lia|]. vm_compute. lia. Defined.

Definition demo_state : vSphereMonitor := {| vs_info := Some demo_info; vs_lastLoad := Some 0; vs_lastPoints := None |}.
Definition demo_conf (size : Z) : vsphereConfig := {| vc_filter := None; vc_hostDim := GuestIP; vc_batchSize := size; vc_reloadInterval := 60; vc_vcenter := "vc" |}.
Definition demo_run : vcenterRun := {| vr_login := Ok (); vr_top := Unretrievable (Errorf "no session" []); vr_available := λ _, Ok []; vr_counters := Ok []; vr_time := Ok 90; vr_query := λ _ _, Ok []; vr_now := 90 |}.
Definition demo_failed : vSphereMonitor := {| vs_info := None; vs_lastLoad := Some 0; vs_lastPoints := None |}.
Lemma failed_reload_panics_witness : run (demo_conf 0) 5 demo_run demo_state = (demo_failed, [], Some (Done tt)) ∧ run (demo_conf 0) 5 demo_run demo_failed = (demo_failed, [], Some Panics).
Proof.
  split; [vm_compute; reflexivity|]. apply (failed_reload_panics (demo_conf 0) 5 demo_run demo_run demo_state demo_failed [] 0 (Errorf "no session" []) 1); [reflexivity | cbn; lia | reflexivity | vm_compute; reflexivity | reflexivity | lia].
Defined.

Definition demo_run2 : vcenterRun := {| vr_login := Ok (); vr_top := demo_tree; vr_available := λ _, Ok []; vr_counters := Ok []; vr_time := Ok 20; vr_query := demo_query; vr_now := 20 |}.
Lemma failed_page_repeats_witness : generateDatapoints (demo_conf 1) 5 demo_run2 demo_state = (demo_state, [demo_point], Some (Done tt)).
Proof.
  apply (failed_page_repeats (demo_conf 1) 5 demo_run2 demo_state demo_info 1 (take 1 demo_objects) (drop 1 demo_objects)
    [Some {| em_Entity := "host-1"; em_SampleTimes := [20]; em_Series := [Some {| se_CounterId := 1; se_Instance := ""; se_Value := [7] |}] |}] [demo_point] (Some 20) (Errorf "timeout" []));
    [reflexivity | reflexivity | lia | vm_compute; reflexivity | vm_compute; reflexivity | vm_compute; lia | lia | vm_compute; reflexivity..].
Defined.
