(* ===== verification/EsStats.v ===== *)
(** * The elasticsearch monitor

    [src/internal/signalfx-agent/pkg/monitors/elasticsearch/stats]: the statistics of
    nodes, the cluster and indices that become data points, the metadata that the
    fetchers share, and the schedule of the fetchers.

    A decoded group of statistics is the map from the JSON path of an integer to its value:
    a path without a value is a nil pointer.  The answers of Elasticsearch are
    parameters. *)

From S2P Require Import Prelude GoStrings GoValue Settings Telemetry Filters DPFilters SmartAgent HostMonitors.
#[local] Open Scope Z_scope.

(** ** Statistics *)

Notation stats := (gmap (list string) Z).
Record statMetric := { sm_name : string; sm_type : sfxMetricType; sm_path : list string }.
Definition st (name : string) (t : sfxMetricType) (path : list string) : statMetric := {| sm_name := name; sm_type := t; sm_path := path |}.
(** The metrics of a group: those collected when it is enhanced, and those collected always. *)
Record statTable := { tb_enhanced : list statMetric; tb_always : list statMetric }.

(** [PrepareGaugeHelper] and [PrepareCumulativeHelper]: no point for a nil pointer. *)
Definition prepare (name : string) (t : sfxMetricType) (dims : gmap string string) (v : option Z) : option sfxDatapoint :=
  (λ v, mkDatapoint name t (IntValue v) dims) <$> v.
Definition tableMetrics (enhanced : bool) (t : statTable) : list statMetric := (if enhanced then tb_enhanced t else []) ++ tb_always t.
Definition groupStats (t : statTable) (s : stats) (enhanced : bool) (dims : gmap string string) : list (option sfxDatapoint) :=
  map (λ m, prepare (sm_name m) (sm_type m) dims (s !! sm_path m)) (tableMetrics enhanced t).

Definition getJVMStatsTable : statTable := {|
  tb_enhanced := [
    st "elasticsearch.jvm.threads.count" Gauge ["threads"; "count"]; st "elasticsearch.jvm.threads.peak" Gauge ["threads"; "peak_count"];
    st "elasticsearch.jvm.mem.heap-used-percent" Gauge ["mem"; "heap_used_percent"];
    st "elasticsearch.jvm.mem.heap-max" Gauge ["mem"; "heap_max_in_bytes"];
    st "elasticsearch.jvm.mem.non-heap-committed" Gauge ["mem"; "non_heap_committed_in_bytes"];
    st "elasticsearch.jvm.mem.non-heap-used" Gauge ["mem"; "non_heap_used_in_bytes"];
    st "elasticsearch.jvm.mem.pools.young.max_in_bytes" Gauge ["mem"; "pools"; "young"; "max_in_bytes"];
    st "elasticsearch.jvm.mem.pools.young.used_in_bytes" Gauge ["mem"; "pools"; "young"; "used_in_bytes"];
    st "elasticsearch.jvm.mem.pools.young.peak_used_in_bytes" Gauge ["mem"; "pools"; "young"; "peak_used_in_bytes"];
    st "elasticsearch.jvm.mem.pools.young.peak_max_in_bytes" Gauge ["mem"; "pools"; "young"; "peak_max_in_bytes"];
    st "elasticsearch.jvm.mem.pools.old.max_in_bytes" Gauge ["mem"; "pools"; "old"; "max_in_bytes"];
    st "elasticsearch.jvm.mem.pools.old.used_in_bytes" Gauge ["mem"; "pools"; "old"; "used_in_bytes"];
    st "elasticsearch.jvm.mem.pools.old.peak_used_in_bytes" Gauge ["mem"; "pools"; "old"; "peak_used_in_bytes"];
    st "elasticsearch.jvm.mem.pools.old.peak_max_in_bytes" Gauge ["mem"; "pools"; "old"; "peak_max_in_bytes"];
    st "elasticsearch.jvm.mem.pools.survivor.max_in_bytes" Gauge ["mem"; "pools"; "survivor"; "max_in_bytes"];
    st "elasticsearch.jvm.mem.pools.survivor.used_in_bytes" Gauge ["mem"; "pools"; "survivor"; "used_in_bytes"];
    st "elasticsearch.jvm.mem.pools.survivor.peak_used_in_bytes" Gauge ["mem"; "pools"; "survivor"; "peak_used_in_bytes"];
    st "elasticsearch.jvm.mem.pools.survivor.peak_max_in_bytes" Gauge ["mem"; "pools"; "survivor"; "peak_max_in_bytes"];
    st "elasticsearch.jvm.mem.buffer_pools.mapped.count" Gauge ["buffer_pools"; "mapped"; "count"];
    st "elasticsearch.jvm.mem.buffer_pools.mapped.used_in_bytes" Gauge ["buffer_pools"; "mapped"; "used_in_bytes"];
    st "elasticsearch.jvm.mem.buffer_pools.mapped.total_capacity_in_bytes" Gauge ["buffer_pools"; "mapped"; "total_capacity_in_bytes"];
    st "elasticsearch.jvm.mem.buffer_pools.direct.count" Gauge ["buffer_pools"; "direct"; "count"];
    st "elasticsearch.jvm.mem.buffer_pools.direct.used_in_bytes" Gauge ["buffer_pools"; "direct"; "used_in_bytes"];
    st "elasticsearch.jvm.mem.buffer_pools.direct.total_capacity_in_bytes" Gauge ["buffer_pools"; "direct"; "total_capacity_in_bytes"];
    st "elasticsearch.jvm.classes.current-loaded-count" Gauge ["classes"; "current_loaded_count"];
    st "elasticsearch.jvm.gc.count" Counter ["gc"; "collectors"; "young"; "collection_count"];
    st "elasticsearch.jvm.gc.old-count" Counter ["gc"; "collectors"; "old"; "collection_count"];
    st "elasticsearch.jvm.gc.old-time" Counter ["gc"; "collectors"; "old"; "collection_time_in_millis"];
    st "elasticsearch.jvm.classes.total-loaded-count" Counter ["classes"; "total_loaded_count"];
    st "elasticsearch.jvm.classes.total-unloaded-count" Counter ["classes"; "total_unloaded_count"]
  ];
  tb_always := [
    st "elasticsearch.jvm.mem.heap-used" Gauge ["mem"; "heap_used_in_bytes"];
    st "elasticsearch.jvm.mem.heap-committed" Gauge ["mem"; "heap_committed_in_bytes"]; st "elasticsearch.jvm.uptime" Counter ["uptime_in_millis"];
    st "elasticsearch.jvm.gc.time" Counter ["gc"; "collectors"; "young"; "collection_time_in_millis"]
  ]
|}.
Definition getProcessStatsTable : statTable := {|
  tb_enhanced := [
    st "elasticsearch.process.max_file_descriptors" Gauge ["max_file_descriptors"]; st "elasticsearch.process.cpu.percent" Gauge ["cpu"; "percent"];
    st "elasticsearch.process.cpu.time" Counter ["cpu"; "total_in_millis"];
    st "elasticsearch.process.mem.total-virtual-size" Counter ["mem"; "total_virtual_in_bytes"]
  ];
  tb_always := [
    st "elasticsearch.process.open_file_descriptors" Gauge ["open_file_descriptors"]
  ]
|}.
Definition threadPoolDatapointsTable : statTable := {|
  tb_enhanced := [
    st "elasticsearch.thread_pool.threads" Gauge ["threads"]; st "elasticsearch.thread_pool.queue" Gauge ["queue"];
    st "elasticsearch.thread_pool.active" Gauge ["active"]; st "elasticsearch.thread_pool.largest" Gauge ["largest"];
    st "elasticsearch.thread_pool.completed" Counter ["completed"]
  ];
  tb_always := [
    st "elasticsearch.thread_pool.rejected" Counter ["rejected"]
  ]
|}.
Definition getTransportStatsTable : statTable := {|
  tb_enhanced := [
    st "elasticsearch.transport.server_open" Gauge ["server_open"]; st "elasticsearch.transport.rx.count" Counter ["rx_count"];
    st "elasticsearch.transport.rx.size" Counter ["rx_size_in_bytes"]; st "elasticsearch.transport.tx.count" Counter ["tx_count"];
    st "elasticsearch.transport.tx.size" Counter ["tx_size_in_bytes"]
  ];
  tb_always := []
|}.
Definition getHTTPStatsTable : statTable := {|
  tb_enhanced := [
    st "elasticsearch.http.current_open" Gauge ["current_open"]; st "elasticsearch.http.total_open" Counter ["total_opened"]
  ];
  tb_always := []
|}.
Definition getDocsStatsTable : statTable := {|
  tb_enhanced := [];
  tb_always := [
    st "elasticsearch.indices.docs.count" Gauge ["count"]; st "elasticsearch.indices.docs.deleted" Gauge ["deleted"]
  ]
|}.
Definition getStoreStatsTable : statTable := {|
  tb_enhanced := [
    st "elasticsearch.indices.store.throttle-time" Counter ["throttle_time_in_millis"]
  ];
  tb_always := [
    st "elasticsearch.indices.store.size" Gauge ["size_in_bytes"]
  ]
|}.
Definition getIndexingStatsTable : statTable := {|
  tb_enhanced := [
    st "elasticsearch.indices.indexing.index-current" Gauge ["index_current"];
    st "elasticsearch.indices.indexing.index-failed" Gauge ["index_failed"];
    st "elasticsearch.indices.indexing.delete-current" Gauge ["delete_current"];
    st "elasticsearch.indices.indexing.delete-total" Counter ["delete_total"];
    st "elasticsearch.indices.indexing.delete-time" Counter ["delete_time_in_millis"];
    st "elasticsearch.indices.indexing.noop-update-total" Counter ["noop_update_total"];
    st "elasticsearch.indices.indexing.throttle-time" Counter ["throttle_time_in_millis"]
  ];
  tb_always := [
    st "elasticsearch.indices.indexing.index-total" Counter ["index_total"];
    st "elasticsearch.indices.indexing.index-time" Counter ["index_time_in_millis"]
  ]
|}.
Definition getGetStatsTable : statTable := {|
  tb_enhanced := [
    st "elasticsearch.indices.get.current" Gauge ["current"]; st "elasticsearch.indices.get.time" Counter ["time_in_millis"];
    st "elasticsearch.indices.get.exists-total" Counter ["exists_total"];
    st "elasticsearch.indices.get.exists-time" Counter ["exists_time_in_millis"];
    st "elasticsearch.indices.get.missing-total" Counter ["missing_total"];
    st "elasticsearch.indices.get.missing-time" Counter ["missing_time_in_millis"]
  ];
  tb_always := [
    st "elasticsearch.indices.get.total" Counter ["total"]
  ]
|}.
Definition getSearchStatsTable : statTable := {|
  tb_enhanced := [
    st "elasticsearch.indices.search.query-current" Gauge ["query_current"]; st "elasticsearch.indices.search.fetch-current" Gauge ["fetch_current"];
    st "elasticsearch.indices.search.scroll-current" Gauge ["scroll_current"];
    st "elasticsearch.indices.search.suggest-current" Gauge ["suggest_current"];
    st "elasticsearch.indices.search.open-contexts" Gauge ["suggest_current"];
    st "elasticsearch.indices.search.fetch-time" Counter ["fetch_time_in_millis"];
    st "elasticsearch.indices.search.fetch-total" Counter ["fetch_total"];
    st "elasticsearch.indices.search.scroll-time" Counter ["scroll_time_in_millis"];
    st "elasticsearch.indices.search.scroll-total" Counter ["scroll_total"];
    st "elasticsearch.indices.search.suggest-time" Counter ["suggest_time_in_millis"];
    st "elasticsearch.indices.search.suggest-total" Counter ["suggest_total"]
  ];
  tb_always := [
    st "elasticsearch.indices.search.query-time" Counter ["query_time_in_millis"];
    st "elasticsearch.indices.search.query-total" Counter ["query_total"]
  ]
|}.
Definition getMergesStatsTable : statTable := {|
  tb_enhanced := [
    st "elasticsearch.indices.merges.current-docs" Gauge ["current_docs"];
    st "elasticsearch.indices.merges.current-size" Gauge ["current_size_in_bytes"];
    st "elasticsearch.indices.merges.total-docs" Counter ["total_docs"]; st "elasticsearch.indices.merges.total-size" Counter ["total_size_in_bytes"];
    st "elasticsearch.indices.merges.stopped-time" Counter ["total_stopped_time_in_millis"];
    st "elasticsearch.indices.merges.throttle-time" Counter ["total_throttled_time_in_millis"];
    st "elasticsearch.indices.merges.auto-throttle-size" Counter ["total_auto_throttle_in_bytes"]
  ];
  tb_always := [
    st "elasticsearch.indices.merges.current" Gauge ["current"]; st "elasticsearch.indices.merges.total" Counter ["total"];
    st "elasticsearch.indices.merges.total-time" Counter ["total_time_in_millis"]
  ]
|}.
Definition getRefreshStatsTable : statTable := {|
  tb_enhanced := [
    st "elasticsearch.indices.refresh.listeners" Gauge ["listeners"]; st "elasticsearch.indices.refresh.total" Counter ["total"];
    st "elasticsearch.indices.refresh.total-time" Counter ["total_time_in_millis"]
  ];
  tb_always := []
|}.
Definition getFlushStatsTable : statTable := {|
  tb_enhanced := [
    st "elasticsearch.indices.flush.periodic" Gauge ["periodic"]; st "elasticsearch.indices.flush.total" Counter ["total"];
    st "elasticsearch.indices.flush.total-time" Counter ["total_time_in_millis"]
  ];
  tb_always := []
|}.
Definition getWarmerStatsTable : statTable := {|
  tb_enhanced := [
    st "elasticsearch.indices.warmer.current" Gauge ["current"]; st "elasticsearch.indices.warmer.total" Counter ["total"];
    st "elasticsearch.indices.warmer.total-time" Counter ["total_time_in_millis"]
  ];
  tb_always := []
|}.
Definition getQueryCacheStatsTable : statTable := {|
  tb_enhanced := [
    st "elasticsearch.indices.query-cache.cache-size" Gauge ["cache_size"]; st "elasticsearch.indices.query-cache.cache-count" Gauge ["cache_count"];
    st "elasticsearch.indices.query-cache.evictions" Counter ["evictions"]; st "elasticsearch.indices.query-cache.hit-count" Counter ["hit_count"];
    st "elasticsearch.indices.query-cache.miss-count" Counter ["miss_count"];
    st "elasticsearch.indices.query-cache.total-count" Counter ["total_count"]
  ];
  tb_always := [
    st "elasticsearch.indices.query-cache.memory-size" Gauge ["memory_size_in_bytes"]
  ]
|}.
Definition getFilterCacheStatsTable : statTable := {|
  tb_enhanced := [
    st "elasticsearch.indices.filter-cache.evictions" Counter ["evictions"];
    st "elasticsearch.indices.filter-cache.memory-size" Gauge ["memory_size_in_bytes"]
  ];
  tb_always := []
|}.
Definition getFielddataStatsTable : statTable := {|
  tb_enhanced := [
    st "elasticsearch.indices.fielddata.evictions" Counter ["evictions"]
  ];
  tb_always := [
    st "elasticsearch.indices.fielddata.memory-size" Gauge ["memory_size_in_bytes"]
  ]
|}.
Definition getCompletionStatsTable : statTable := {|
  tb_enhanced := [
    st "elasticsearch.indices.completion.size" Gauge ["size_in_bytes"]
  ];
  tb_always := []
|}.
Definition getSegmentsStatsTable : statTable := {|
  tb_enhanced := [
    st "elasticsearch.indices.segments.memory-size" Gauge ["memory_in_bytes"];
    st "elasticsearch.indices.segments.index-writer-memory-size" Gauge ["index_writer_memory_in_bytes"];
    st "elasticsearch.indices.segments.index-writer-max-memory-size" Gauge ["index_writer_max_memory_in_bytes"];
    st "elasticsearch.indices.segments.version-map-memory-size" Gauge ["version_map_memory_in_bytes"];
    st "elasticsearch.indices.segments.terms-memory-size" Gauge ["terms_memory_in_bytes"];
    st "elasticsearch.indices.segments.stored-field-memory-size" Gauge ["stored_fields_memory_in_bytes"];
    st "elasticsearch.indices.segments.term-vectors-memory-size" Gauge ["term_vectors_memory_in_bytes"];
    st "elasticsearch.indices.segments.norms-memory-size" Gauge ["norms_memory_in_bytes"];
    st "elasticsearch.indices.segments.points-memory-size" Gauge ["points_memory_in_bytes"];
    st "elasticsearch.indices.segments.doc-values-memory-size" Gauge ["doc_values_memory_in_bytes"];
    st "elasticsearch.indices.segments.fixed-bit-set-memory-size" Gauge ["fixed_bit_set_memory_in_bytes"]
  ];
  tb_always := [
    st "elasticsearch.indices.segments.count" Gauge ["count"]
  ]
|}.
Definition getTranslogStatsTable : statTable := {|
  tb_enhanced := [
    st "elasticsearch.indices.translog.uncommitted_operations" Gauge ["uncommitted_operations"];
    st "elasticsearch.indices.translog.uncommitted_size_in_bytes" Gauge ["uncommitted_size_in_bytes"];
    st "elasticsearch.indices.translog.earliest_last_modified_age" Gauge ["earliest_last_modified_age"];
    st "elasticsearch.indices.translog.operations" Gauge ["operations"]; st "elasticsearch.indices.translog.size" Gauge ["size_in_bytes"]
  ];
  tb_always := []
|}.
Definition getRequestCacheStatsTable : statTable := {|
  tb_enhanced := [
    st "elasticsearch.indices.request-cache.evictions" Counter ["evictions"];
    st "elasticsearch.indices.request-cache.hit-count" Counter ["hit_count"];
    st "elasticsearch.indices.request-cache.miss-count" Counter ["miss_count"]
  ];
  tb_always := [
    st "elasticsearch.indices.request-cache.memory-size" Gauge ["memory_size_in_bytes"]
  ]
|}.
Definition getRecoveryStatsTable : statTable := {|
  tb_enhanced := [
    st "elasticsearch.indices.recovery.current-as-source" Gauge ["current_as_source"];
    st "elasticsearch.indices.recovery.current-as-target" Gauge ["current_as_target"];
    st "elasticsearch.indices.recovery.throttle-time" Counter ["throttle_time_in_millis"]
  ];
  tb_always := []
|}.
Definition getIDCacheStatsTable : statTable := {|
  tb_enhanced := [
    st "elasticsearch.indices.id-cache.memory-size" Gauge ["memory_size_in_bytes"]
  ];
  tb_always := []
|}.
Definition getSuggestStatsTable : statTable := {|
  tb_enhanced := [
    st "elasticsearch.indices.suggest.current" Gauge ["current"]; st "elasticsearch.indices.suggest.time" Counter ["time_in_millis"];
    st "elasticsearch.indices.suggest.total" Counter ["total"]
  ];
  tb_always := []
|}.
Definition getPercolateStatsTable : statTable := {|
  tb_enhanced := [
    st "elasticsearch.indices.percolate.current" Gauge ["current"]; st "elasticsearch.indices.percolate.total" Counter ["total"];
    st "elasticsearch.indices.percolate.queries" Counter ["queries"]; st "elasticsearch.indices.percolate.time" Counter ["time_in_millis"]
  ];
  tb_always := []
|}.

(** The groups of statistics of an index, by their JSON names, in the order of
    [getIndexGroupStats]. *)
Definition indexGroupTables : list (string * statTable) :=
  [("docs", getDocsStatsTable);
   ("store", getStoreStatsTable);
   ("indexing", getIndexingStatsTable);
   ("get", getGetStatsTable);
   ("search", getSearchStatsTable);
   ("merges", getMergesStatsTable);
   ("refresh", getRefreshStatsTable);
   ("flush", getFlushStatsTable);
   ("warmer", getWarmerStatsTable);
   ("query_cache", getQueryCacheStatsTable);
   ("filter_cache", getFilterCacheStatsTable);
   ("fielddata", getFielddataStatsTable);
   ("completion", getCompletionStatsTable);
   ("segments", getSegmentsStatsTable);
   ("translog", getTranslogStatsTable);
   ("request_cache", getRequestCacheStatsTable);
   ("recovery", getRecoveryStatsTable);
   ("id_cache", getIDCacheStatsTable);
   ("suggest", getSuggestStatsTable);
   ("percolate", getPercolateStatsTable)].

(** ** Nodes, the cluster and indices *)

Notation indexGroups := (gmap string stats).
Definition groupOf (g : indexGroups) (k : string) : stats := default ∅ (g !! k).
Definition getIndexGroupStats (enhanced : gset string) (g : indexGroups) (dims : gmap string string) : list (option sfxDatapoint) :=
  flat_map (λ kt, groupStats kt.2 (groupOf g kt.1) (bool_decide (kt.1 ∈ enhanced)) dims) indexGroupTables.

Record NodeStats := {
  ns_JVM : stats; ns_Process : stats; ns_Transport : stats; ns_HTTP : stats; ns_ThreadPool : gmap string stats; ns_Indices : indexGroups;
}.
Record ClusterStatsOutput := { cl_Status : option string; cl_Ints : gmap string Z; cl_ActiveShardsPercent : option float64 }.
Record IndexStats := { ix_Primaries : indexGroups; ix_Total : indexGroups }.

Record esConfig := {
  ec_Cluster : string; ec_EnableIndexStats : bool; ec_Indexes : list string; ec_IndexSummaryOnly : bool; ec_IndexStatsMasterOnly : bool;
  ec_ClusterHealthStatsMasterOnly : bool; ec_HTTP : bool; ec_JVM : bool; ec_Process : bool; ec_ThreadPool : bool; ec_Transport : bool;
  ec_NodeIndexGroups : list string; ec_ThreadPools : list string; ec_ClusterHealth : bool; ec_IndexGroups : list string; ec_Primaries : bool;
}.

Section fetchers.
Context `{MapRange}.

Definition threadPoolDatapoints (enhanced : bool) (pool : string) (s : stats) (dims : gmap string string) : list (option sfxDatapoint) :=
  groupStats threadPoolDatapointsTable s enhanced (MergeStringMaps dims {["thread_pool" := pool]}).
Definition fetchThreadPoolStats (enhanced : bool) (pools : gmap string stats) (dims : gmap string string) (selected : gset string) : list (option sfxDatapoint) :=
  flat_map (λ ks, if bool_decide (ks.1 ∈ selected) then threadPoolDatapoints enhanced ks.1 ks.2 dims else []) (range pools).
Definition getNodeStatsDatapointsHelper (conf : esConfig) (n : NodeStats) (dims : gmap string string) : list (option sfxDatapoint) :=
  groupStats getJVMStatsTable (ns_JVM n) (ec_JVM conf) dims ++ groupStats getProcessStatsTable (ns_Process n) (ec_Process conf) dims ++
  groupStats getTransportStatsTable (ns_Transport n) (ec_Transport conf) dims ++ groupStats getHTTPStatsTable (ns_HTTP n) (ec_HTTP conf) dims ++
  fetchThreadPoolStats (ec_ThreadPool conf) (ns_ThreadPool n) dims (list_to_set (ec_ThreadPools conf)) ++
  getIndexGroupStats (list_to_set (ec_NodeIndexGroups conf)) (ns_Indices n) dims.
Definition GetNodeStatsDatapoints (conf : esConfig) (nodes : gmap string NodeStats) (dims : gmap string string) : list (option sfxDatapoint) :=
  flat_map (λ kn, getNodeStatsDatapointsHelper conf kn.2 dims) (range nodes).

(** A status that is none of the three is 0 too, like green. *)
Definition getMetricValueFromClusterStatus (s : option string) : option Z :=
  match s with None => None | Some s => Some (if String.eqb s "green" then 0 else if String.eqb s "yellow" then 1 else if String.eqb s "red" then 2 else 0) end.
Definition clusterGauge (c : ClusterStatsOutput) (dims : gmap string string) (name field : string) : option sfxDatapoint := prepare name Gauge dims (cl_Ints c !! field).
Definition GetClusterStatsDatapoints (c : ClusterStatsOutput) (dims : gmap string string) (enhanced : bool) : list (option sfxDatapoint) :=
  (if enhanced then
     [clusterGauge c dims "elasticsearch.cluster.initializing-shards" "initializing_shards";
      clusterGauge c dims "elasticsearch.cluster.delayed-unassigned-shards" "delayed_unassigned_shards";
      clusterGauge c dims "elasticsearch.cluster.pending-tasks" "number_of_pending_tasks";
      clusterGauge c dims "elasticsearch.cluster.in-flight-fetches" "number_of_in_flight_fetch";
      clusterGauge c dims "elasticsearch.cluster.task-max-wait-time" "task_max_waiting_in_queue_millis";
      (λ f, mkDatapoint "elasticsearch.cluster.active-shards-percent" Gauge (FloatValue f) dims) <$> cl_ActiveShardsPercent c;
      prepare "elasticsearch.cluster.status" Gauge dims (getMetricValueFromClusterStatus (cl_Status c))]
   else []) ++
  [clusterGauge c dims "elasticsearch.cluster.active-primary-shards" "active_primary_shards";
   clusterGauge c dims "elasticsearch.cluster.active-shards" "active_shards";
   clusterGauge c dims "elasticsearch.cluster.number-of-data_nodes" "number_of_data_nodes";
   clusterGauge c dims "elasticsearch.cluster.number-of-nodes" "number_of_nodes";
   clusterGauge c dims "elasticsearch.cluster.relocating-shards" "relocating_shards";
   clusterGauge c dims "elasticsearch.cluster.unassigned-shards" "unassigned_shards"].

Definition getIndexStatsHelper (conf : esConfig) (ix : IndexStats) (dims : gmap string string) : list (option sfxDatapoint) :=
  (if ec_Primaries conf then getIndexGroupStats (list_to_set (ec_IndexGroups conf)) (ix_Primaries ix) (MergeStringMaps dims {["aggregation" := "primaries"]}) else []) ++
  getIndexGroupStats (list_to_set (ec_IndexGroups conf)) (ix_Total ix) (MergeStringMaps dims {["aggregation" := "total"]}).
Definition indexSelected (conf : esConfig) (name : string) : bool := match ec_Indexes conf with [] => true | l => bool_decide (name ∈ l) end.
Definition GetIndexStatsDatapoints (conf : esConfig) (indices : gmap string IndexStats) (dims : gmap string string) : list (option sfxDatapoint) :=
  flat_map (λ ki, if indexSelected conf ki.1 then getIndexStatsHelper conf ki.2 (MergeStringMaps dims {["index" := ki.1]}) else []) (range indices).

(** [sendDatapoints]: points are moved to the front of the slice, over nil pointers. *)
Fixpoint compactLoop (todo i n : nat) (dps : list (option sfxDatapoint)) : list (option sfxDatapoint) :=
  match todo with
  | O => take n dps
  | S todo =>
      match dps !! i with
      | Some (Some d) => compactLoop todo (S i) (S n) (<[n := Some d]> dps)
      | _ => compactLoop todo (S i) n dps
      end
  end.
Definition sendDatapoints (dps : list (option sfxDatapoint)) : list (option sfxDatapoint) := compactLoop (length dps) 0 0 dps.

(** ** Metadata *)

Record NodeInfoOutput := { ni_ClusterName : option string; ni_Nodes : gmap string (option string) }.
Definition prepareDefaultDimensions (configured : string) (queried : option string) : res (gmap string string) :=
  let dims name := {["plugin_instance" := name; "cluster" := name; "plugin" := "elasticsearch"]} in
  if String.eqb configured "" then match queried with None => Err (Errorf "failed to GET cluster name from Elasticsearch API" []) | Some name => Ok (dims name) end
  else Ok (dims configured).
Definition isCurrentMaster (nodeID : string) (master : option string) : res bool :=
  match master with None => Err (Errorf "unable to identify Elasticsearch cluster master node" []) | Some m => Ok (String.eqb nodeID m) end.
Definition prepareNodeMetricsDimensions (nodes : gmap string (option string)) : res (gmap string string) :=
  match range nodes with
  | [(nodeID, nodeName)] =>
      if String.eqb nodeID "" then Err (Errorf "failed to obtain Elasticsearch node id" [])
      else Ok (match nodeName with Some n => <["node_name" := n]> | None => id end {["node_id" := nodeID]})
  | l => Err (Errorf "expected info about exactly one node, received a map with %d entries" [pretty (length l)])
  end.

(** A nil map is the empty one. *)
Record sharedInfo := { si_master : bool; si_default : gmap string string; si_node : gmap string string }.
(** The update happens under the lock; an error in the middle leaves what was assigned. *)
Definition fetchNodeAndClusterMetadata (configured : string) (master : res (option string)) (node : res NodeInfoOutput) (si : sharedInfo) : sharedInfo * option error :=
  match master with
  | Err e => (si, Some (Wrapf "failed to GET master node info: %v" [] e))
  | Ok master =>
      match node with
      | Err e => (si, Some (Wrapf "failed to GET node info: %v" [] e))
      | Ok node =>
          match prepareNodeMetricsDimensions (ni_Nodes node) with
          | Err e => (si, Some (Wrapf "failed to prepare node dimensions: %v" [] e))
          | Ok nodeDims =>
              let isMaster := match isCurrentMaster (default "" (nodeDims !! "node_id")) master with Ok b => b | Err _ => false end in
              match prepareDefaultDimensions configured (ni_ClusterName node) with
              | Err e => ({| si_master := isMaster; si_default := ∅; si_node := si_node si |}, Some (Wrapf "failed to prepare plugin_instance dimension: %v" [] e))
              | Ok dims => ({| si_master := isMaster; si_default := dims; si_node := MergeStringMaps dims nodeDims |}, None)
              end
          end
      end
  end.

(** ** The schedule *)

Definition fetchNodeStats (conf : esConfig) (answer : res (gmap string NodeStats)) (dims : gmap string string) : list (option sfxDatapoint) :=
  match answer with Err _ => [] | Ok nodes => sendDatapoints (GetNodeStatsDatapoints conf nodes dims) end.
Definition fetchClusterStats (conf : esConfig) (answer : res ClusterStatsOutput) (dims : gmap string string) : list (option sfxDatapoint) :=
  match answer with Err _ => [] | Ok c => sendDatapoints (GetClusterStatsDatapoints c dims (ec_ClusterHealth conf)) end.
Record IndexStatsOutput := { io_All : IndexStats; io_Indices : gmap string IndexStats }.
Definition fetchIndexStats (conf : esConfig) (answer : res IndexStatsOutput) (dims : gmap string string) : list (option sfxDatapoint) :=
  match answer with
  | Err _ => []
  | Ok io => sendDatapoints (if ec_IndexSummaryOnly conf then getIndexStatsHelper conf (io_All io) dims else GetIndexStatsDatapoints conf (io_Indices io) dims)
  end.

(** A tick of one of the four intervals with what Elasticsearch answers; the three fetchers
    are scheduled by the first refresh of the metadata that succeeds. *)
Inductive tick :=
| RefreshTick (master : res (option string)) (node : res NodeInfoOutput)
| NodeTick (answer : res (gmap string NodeStats))
| ClusterTick (answer : res ClusterStatsOutput)
| IndexTick (answer : res IndexStatsOutput).
Record esMonitor := { em_shared : sharedInfo; em_isInitialized : bool }.
Definition newESMonitor : esMonitor := {| em_shared := {| si_master := false; si_default := ∅; si_node := ∅ |}; em_isInitialized := false |}.
Definition onTick (conf : esConfig) (t : tick) (m : esMonitor) : esMonitor * list (option sfxDatapoint) :=
  let si := em_shared m in
  match t with
  | RefreshTick master node =>
      let '(si, e) := fetchNodeAndClusterMetadata (ec_Cluster conf) master node si in
      ({| em_shared := si; em_isInitialized := em_isInitialized m || bool_decide (e = None) |}, [])
  | NodeTick a => (m, if em_isInitialized m then fetchNodeStats conf a (si_node si) else [])
  | ClusterTick a => (m, if em_isInitialized m && (negb (ec_ClusterHealthStatsMasterOnly conf) || si_master si) then fetchClusterStats conf a (si_default si) else [])
  | IndexTick a => (m, if em_isInitialized m && ec_EnableIndexStats conf && (negb (ec_IndexStatsMasterOnly conf) || si_master si) then fetchIndexStats conf a (si_default si) else [])
  end.
Fixpoint onTicks (conf : esConfig) (ts : list tick) (m : esMonitor) : esMonitor * list (option sfxDatapoint) :=
  match ts with
  | [] => (m, [])
  | t :: ts => let '(m, ps) := onTick conf t m in let '(m, ps') := onTicks conf ts m in (m, ps ++ ps')
  end.
End fetchers.

(** [Configure]: the groups with an enabled metric are enhanced, in a copy of the
    configuration. *)
Definition configureES `{MapRange} (mf : monitorFiltering) (c : esConfig) : esConfig := {|
  ec_Cluster := ec_Cluster c; ec_EnableIndexStats := ec_EnableIndexStats c; ec_Indexes := ec_Indexes c; ec_IndexSummaryOnly := ec_IndexSummaryOnly c;
  ec_IndexStatsMasterOnly := ec_IndexStatsMasterOnly c; ec_ClusterHealthStatsMasterOnly := ec_ClusterHealthStatsMasterOnly c;
  ec_HTTP := HasEnabledMetricInGroup mf "node/http" || ec_HTTP c; ec_JVM := HasEnabledMetricInGroup mf "node/jvm" || ec_JVM c;
  ec_Process := HasEnabledMetricInGroup mf "node/process" || ec_Process c; ec_ThreadPool := HasEnabledMetricInGroup mf "node/thread-pool" || ec_ThreadPool c;
  ec_Transport := HasEnabledMetricInGroup mf "node/transport" || ec_Transport c; ec_NodeIndexGroups := ec_NodeIndexGroups c; ec_ThreadPools := ec_ThreadPools c;
  ec_ClusterHealth := HasEnabledMetricInGroup mf "cluster" || ec_ClusterHealth c; ec_IndexGroups := ec_IndexGroups c; ec_Primaries := ec_Primaries c |}.

(** ** Extra metrics *)

Definition extraGroup (groups : gset string) (p : string * string) : list string := if bool_decide (p.1 ∈ groups) then [p.2] else [].
(** The groups of metrics that each group of index statistics lets through. *)
Definition indexExtraGroups : list (string * string) :=
  [("store", "indices/store"); ("indexing", "indices/indexing"); ("get", "indices/get"); ("search", "indices/search"); ("merges", "indices/merges");
   ("refresh", "indices/refresh"); ("flush", "indices/flush"); ("warmer", "indices/warmer"); ("query_cache", "indices/query-cache");
   ("filter_cache", "indices/filter-cache"); ("fielddata", "indices/fielddata"); ("completion", "indices/completion"); ("translog", "indices/translog");
   ("request_cache", "indices/request-cache"); ("recovery", "indices/recovery"); ("id_cache", "indices/id-cache"); ("suggest", "indices/suggest");
   ("percolate", "indices/percolate"); ("segments", "indices/segments")].
(** genmetadata.go *)

Definition elasticsearchMetrics : list (string * (sfxMetricType * string)) :=
  [("elasticsearch.cluster.active-primary-shards", (Gauge, "cluster")); ("elasticsearch.cluster.active-shards", (Gauge, "cluster"));
   ("elasticsearch.cluster.active-shards-percent", (Gauge, "cluster")); ("elasticsearch.cluster.delayed-unassigned-shards", (Gauge, "cluster"));
   ("elasticsearch.cluster.in-flight-fetches", (Gauge, "cluster")); ("elasticsearch.cluster.initializing-shards", (Gauge, "cluster"));
   ("elasticsearch.cluster.number-of-data_nodes", (Gauge, "cluster")); ("elasticsearch.cluster.number-of-nodes", (Gauge, "cluster"));
   ("elasticsearch.cluster.pending-tasks", (Gauge, "cluster")); ("elasticsearch.cluster.relocating-shards", (Gauge, "cluster"));
   ("elasticsearch.cluster.status", (Gauge, "cluster")); ("elasticsearch.cluster.task-max-wait-time", (Gauge, "cluster"));
   ("elasticsearch.cluster.unassigned-shards", (Gauge, "cluster")); ("elasticsearch.http.current_open", (Gauge, "node/http"));
   ("elasticsearch.http.total_open", (Counter, "node/http")); ("elasticsearch.indices.completion.size", (Gauge, "indices/completion"));
   ("elasticsearch.indices.docs.count", (Gauge, "indices/docs")); ("elasticsearch.indices.docs.deleted", (Gauge, "indices/docs"));
   ("elasticsearch.indices.fielddata.evictions", (Counter, "indices/fielddata"));
   ("elasticsearch.indices.fielddata.memory-size", (Gauge, "indices/fielddata"));
   ("elasticsearch.indices.filter-cache.evictions", (Counter, "indices/filter-cache"));
   ("elasticsearch.indices.filter-cache.memory-size", (Gauge, "indices/filter-cache"));
   ("elasticsearch.indices.flush.periodic", (Gauge, "indices/flush")); ("elasticsearch.indices.flush.total", (Counter, "indices/flush"));
   ("elasticsearch.indices.flush.total-time", (Counter, "indices/flush")); ("elasticsearch.indices.get.current", (Gauge, "indices/get"));
   ("elasticsearch.indices.get.exists-time", (Counter, "indices/get")); ("elasticsearch.indices.get.exists-total", (Counter, "indices/get"));
   ("elasticsearch.indices.get.missing-time", (Counter, "indices/get")); ("elasticsearch.indices.get.missing-total", (Counter, "indices/get"));
   ("elasticsearch.indices.get.time", (Counter, "indices/get")); ("elasticsearch.indices.get.total", (Counter, "indices/get"));
   ("elasticsearch.indices.id-cache.memory-size", (Gauge, "indices/id-cache"));
   ("elasticsearch.indices.indexing.delete-current", (Gauge, "indices/indexing"));
   ("elasticsearch.indices.indexing.delete-time", (Counter, "indices/indexing"));
   ("elasticsearch.indices.indexing.delete-total", (Counter, "indices/indexing"));
   ("elasticsearch.indices.indexing.index-current", (Gauge, "indices/indexing"));
   ("elasticsearch.indices.indexing.index-failed", (Gauge, "indices/indexing"));
   ("elasticsearch.indices.indexing.index-time", (Counter, "indices/indexing"));
   ("elasticsearch.indices.indexing.index-total", (Counter, "indices/indexing"));
   ("elasticsearch.indices.indexing.noop-update-total", (Counter, "indices/indexing"));
   ("elasticsearch.indices.indexing.throttle-time", (Counter, "indices/indexing"));
   ("elasticsearch.indices.merges.auto-throttle-size", (Counter, "indices/merges"));
   ("elasticsearch.indices.merges.current", (Gauge, "indices/merges")); ("elasticsearch.indices.merges.current-docs", (Gauge, "indices/merges"));
   ("elasticsearch.indices.merges.current-size", (Gauge, "indices/merges"));
   ("elasticsearch.indices.merges.stopped-time", (Counter, "indices/merges"));
   ("elasticsearch.indices.merges.throttle-time", (Counter, "indices/merges")); ("elasticsearch.indices.merges.total", (Counter, "indices/merges"));
   ("elasticsearch.indices.merges.total-docs", (Counter, "indices/merges")); ("elasticsearch.indices.merges.total-size", (Counter, "indices/merges"));
   ("elasticsearch.indices.merges.total-time", (Counter, "indices/merges"));
   ("elasticsearch.indices.percolate.current", (Gauge, "indices/percolate"));
   ("elasticsearch.indices.percolate.queries", (Counter, "indices/percolate"));
   ("elasticsearch.indices.percolate.time", (Counter, "indices/percolate"));
   ("elasticsearch.indices.percolate.total", (Counter, "indices/percolate"));
   ("elasticsearch.indices.query-cache.cache-count", (Gauge, "indices/query-cache"));
   ("elasticsearch.indices.query-cache.cache-size", (Gauge, "indices/query-cache"));
   ("elasticsearch.indices.query-cache.evictions", (Counter, "indices/query-cache"));
   ("elasticsearch.indices.query-cache.hit-count", (Counter, "indices/query-cache"));
   ("elasticsearch.indices.query-cache.memory-size", (Gauge, "indices/query-cache"));
   ("elasticsearch.indices.query-cache.miss-count", (Counter, "indices/request-cache"));
   ("elasticsearch.indices.query-cache.total-count", (Counter, "indices/query-cache"));
   ("elasticsearch.indices.recovery.current-as-source", (Gauge, "indices/recovery"));
   ("elasticsearch.indices.recovery.current-as-target", (Gauge, "indices/recovery"));
   ("elasticsearch.indices.recovery.throttle-time", (Counter, "indices/recovery"));
   ("elasticsearch.indices.refresh.listeners", (Gauge, "indices/refresh")); ("elasticsearch.indices.refresh.total", (Counter, "indices/refresh"));
   ("elasticsearch.indices.refresh.total-time", (Counter, "indices/refresh"));
   ("elasticsearch.indices.request-cache.evictions", (Counter, "indices/request-cache"));
   ("elasticsearch.indices.request-cache.hit-count", (Counter, "indices/request-cache"));
   ("elasticsearch.indices.request-cache.memory-size", (Gauge, "indices/request-cache"));
   ("elasticsearch.indices.request-cache.miss-count", (Counter, "indices/request-cache"));
   ("elasticsearch.indices.search.fetch-current", (Gauge, "indices/search"));
   ("elasticsearch.indices.search.fetch-time", (Counter, "indices/search"));
   ("elasticsearch.indices.search.fetch-total", (Counter, "indices/search"));
   ("elasticsearch.indices.search.open-contexts", (Gauge, "indices/search"));
   ("elasticsearch.indices.search.query-current", (Gauge, "indices/search"));
   ("elasticsearch.indices.search.query-time", (Counter, "indices/search"));
   ("elasticsearch.indices.search.query-total", (Counter, "indices/search"));
   ("elasticsearch.indices.search.scroll-current", (Gauge, "indices/search"));
   ("elasticsearch.indices.search.scroll-time", (Counter, "indices/search"));
   ("elasticsearch.indices.search.scroll-total", (Counter, "indices/search"));
   ("elasticsearch.indices.search.suggest-current", (Gauge, "indices/search"));
   ("elasticsearch.indices.search.suggest-time", (Counter, "indices/search"));
   ("elasticsearch.indices.search.suggest-total", (Counter, "indices/search")); ("elasticsearch.indices.segments.count", (Gauge, "indices/segments"));
   ("elasticsearch.indices.segments.doc-values-memory-size", (Gauge, "indices/segments"));
   ("elasticsearch.indices.segments.fixed-bit-set-memory-size", (Gauge, "indices/segments"));
   ("elasticsearch.indices.segments.index-writer-max-memory-size", (Gauge, "indices/segments"));
   ("elasticsearch.indices.segments.index-writer-memory-size", (Gauge, "indices/segments"));
   ("elasticsearch.indices.segments.memory-size", (Gauge, "indices/segments"));
   ("elasticsearch.indices.segments.norms-memory-size", (Gauge, "indices/segments"));
   ("elasticsearch.indices.segments.points-memory-size", (Gauge, "indices/segments"));
   ("elasticsearch.indices.segments.stored-field-memory-size", (Gauge, "indices/segments"));
   ("elasticsearch.indices.segments.term-vectors-memory-size", (Gauge, "indices/segments"));
   ("elasticsearch.indices.segments.terms-memory-size", (Gauge, "indices/segments"));
   ("elasticsearch.indices.segments.version-map-memory-size", (Gauge, "indices/segments"));
   ("elasticsearch.indices.store.size", (Gauge, "indices/store")); ("elasticsearch.indices.store.throttle-time", (Counter, "indices/store"));
   ("elasticsearch.indices.suggest.current", (Gauge, "indices/suggest")); ("elasticsearch.indices.suggest.time", (Counter, "indices/suggest"));
   ("elasticsearch.indices.suggest.total", (Counter, "indices/suggest"));
   ("elasticsearch.indices.translog.earliest_last_modified_age", (Gauge, "indices/translog"));
   ("elasticsearch.indices.translog.operations", (Gauge, "indices/translog")); ("elasticsearch.indices.translog.size", (Gauge, "indices/translog"));
   ("elasticsearch.indices.translog.uncommitted_operations", (Gauge, "indices/translog"));
   ("elasticsearch.indices.translog.uncommitted_size_in_bytes", (Gauge, "indices/translog"));
   ("elasticsearch.indices.warmer.current", (Gauge, "indices/warmer")); ("elasticsearch.indices.warmer.total", (Counter, "indices/warmer"));
   ("elasticsearch.indices.warmer.total-time", (Counter, "indices/warmer")); ("elasticsearch.jvm.classes.current-loaded-count", (Gauge, "node/jvm"));
   ("elasticsearch.jvm.classes.total-loaded-count", (Counter, "node/jvm")); ("elasticsearch.jvm.classes.total-unloaded-count", (Counter, "node/jvm"));
   ("elasticsearch.jvm.gc.count", (Counter, "node/jvm")); ("elasticsearch.jvm.gc.old-count", (Counter, "node/jvm"));
   ("elasticsearch.jvm.gc.old-time", (Counter, "node/jvm")); ("elasticsearch.jvm.gc.time", (Counter, "node/jvm"));
   ("elasticsearch.jvm.mem.buffer_pools.direct.count", (Gauge, "node/jvm"));
   ("elasticsearch.jvm.mem.buffer_pools.direct.total_capacity_in_bytes", (Gauge, "node/jvm"));
   ("elasticsearch.jvm.mem.buffer_pools.direct.used_in_bytes", (Gauge, "node/jvm"));
   ("elasticsearch.jvm.mem.buffer_pools.mapped.count", (Gauge, "node/jvm"));
   ("elasticsearch.jvm.mem.buffer_pools.mapped.total_capacity_in_bytes", (Gauge, "node/jvm"));
   ("elasticsearch.jvm.mem.buffer_pools.mapped.used_in_bytes", (Gauge, "node/jvm")); ("elasticsearch.jvm.mem.heap-committed", (Gauge, "node/jvm"));
   ("elasticsearch.jvm.mem.heap-max", (Gauge, "node/jvm")); ("elasticsearch.jvm.mem.heap-used", (Gauge, "node/jvm"));
   ("elasticsearch.jvm.mem.heap-used-percent", (Gauge, "node/jvm")); ("elasticsearch.jvm.mem.non-heap-committed", (Gauge, "node/jvm"));
   ("elasticsearch.jvm.mem.non-heap-used", (Gauge, "node/jvm")); ("elasticsearch.jvm.mem.pools.old.max_in_bytes", (Gauge, "node/jvm"));
   ("elasticsearch.jvm.mem.pools.old.peak_max_in_bytes", (Gauge, "node/jvm"));
   ("elasticsearch.jvm.mem.pools.old.peak_used_in_bytes", (Gauge, "node/jvm"));
   ("elasticsearch.jvm.mem.pools.old.used_in_bytes", (Gauge, "node/jvm")); ("elasticsearch.jvm.mem.pools.survivor.max_in_bytes", (Gauge, "node/jvm"));
   ("elasticsearch.jvm.mem.pools.survivor.peak_max_in_bytes", (Gauge, "node/jvm"));
   ("elasticsearch.jvm.mem.pools.survivor.peak_used_in_bytes", (Gauge, "node/jvm"));
   ("elasticsearch.jvm.mem.pools.survivor.used_in_bytes", (Gauge, "node/jvm"));
   ("elasticsearch.jvm.mem.pools.young.max_in_bytes", (Gauge, "node/jvm"));
   ("elasticsearch.jvm.mem.pools.young.peak_max_in_bytes", (Gauge, "node/jvm"));
   ("elasticsearch.jvm.mem.pools.young.peak_used_in_bytes", (Gauge, "node/jvm"));
   ("elasticsearch.jvm.mem.pools.young.used_in_bytes", (Gauge, "node/jvm")); ("elasticsearch.jvm.threads.count", (Gauge, "node/jvm"));
   ("elasticsearch.jvm.threads.peak", (Gauge, "node/jvm")); ("elasticsearch.jvm.uptime", (Counter, "node/jvm"));
   ("elasticsearch.process.cpu.percent", (Gauge, "node/process")); ("elasticsearch.process.cpu.time", (Counter, "node/process"));
   ("elasticsearch.process.max_file_descriptors", (Gauge, "node/process"));
   ("elasticsearch.process.mem.total-virtual-size", (Counter, "node/process"));
   ("elasticsearch.process.open_file_descriptors", (Gauge, "node/process")); ("elasticsearch.thread_pool.active", (Gauge, "node/thread-pool"));
   ("elasticsearch.thread_pool.completed", (Counter, "node/thread-pool")); ("elasticsearch.thread_pool.largest", (Gauge, "node/thread-pool"));
   ("elasticsearch.thread_pool.queue", (Gauge, "node/thread-pool")); ("elasticsearch.thread_pool.rejected", (Counter, "node/thread-pool"));
   ("elasticsearch.thread_pool.threads", (Counter, "node/thread-pool")); ("elasticsearch.transport.rx.count", (Counter, "node/transport"));
   ("elasticsearch.transport.rx.size", (Counter, "node/transport")); ("elasticsearch.transport.server_open", (Gauge, "node/transport"));
   ("elasticsearch.transport.tx.count", (Counter, "node/transport")); ("elasticsearch.transport.tx.size", (Counter, "node/transport"))].
Definition esDefaultMetrics : list string :=
  ["elasticsearch.cluster.active-primary-shards"; "elasticsearch.cluster.active-shards"; "elasticsearch.cluster.number-of-data_nodes";
   "elasticsearch.cluster.number-of-nodes"; "elasticsearch.cluster.relocating-shards"; "elasticsearch.cluster.unassigned-shards";
   "elasticsearch.indices.docs.count"; "elasticsearch.indices.docs.deleted"; "elasticsearch.indices.get.total";
   "elasticsearch.indices.indexing.index-total"; "elasticsearch.indices.merges.current"; "elasticsearch.indices.merges.total";
   "elasticsearch.indices.search.query-time"; "elasticsearch.indices.search.query-total"; "elasticsearch.indices.segments.count";
   "elasticsearch.jvm.gc.time"; "elasticsearch.jvm.mem.heap-committed"; "elasticsearch.jvm.mem.heap-used";
   "elasticsearch.process.open_file_descriptors"; "elasticsearch.thread_pool.rejected"].
Definition esGroupMetrics : list (string * list string) :=
  [("cluster", ["elasticsearch.cluster.active-primary-shards"; "elasticsearch.cluster.active-shards"; "elasticsearch.cluster.active-shards-percent";
     "elasticsearch.cluster.delayed-unassigned-shards"; "elasticsearch.cluster.in-flight-fetches"; "elasticsearch.cluster.initializing-shards";
     "elasticsearch.cluster.number-of-data_nodes"; "elasticsearch.cluster.number-of-nodes"; "elasticsearch.cluster.pending-tasks";
     "elasticsearch.cluster.relocating-shards"; "elasticsearch.cluster.status"; "elasticsearch.cluster.task-max-wait-time";
     "elasticsearch.cluster.unassigned-shards"]);
   ("indices/completion", ["elasticsearch.indices.completion.size"]);
   ("indices/docs", ["elasticsearch.indices.docs.count"; "elasticsearch.indices.docs.deleted"]);
   ("indices/fielddata", ["elasticsearch.indices.fielddata.evictions"; "elasticsearch.indices.fielddata.memory-size"]);
   ("indices/filter-cache", ["elasticsearch.indices.filter-cache.evictions"; "elasticsearch.indices.filter-cache.memory-size"]);
   ("indices/flush", ["elasticsearch.indices.flush.periodic"; "elasticsearch.indices.flush.total"; "elasticsearch.indices.flush.total-time"]);
   ("indices/get", ["elasticsearch.indices.get.current"; "elasticsearch.indices.get.exists-time"; "elasticsearch.indices.get.exists-total";
     "elasticsearch.indices.get.missing-time"; "elasticsearch.indices.get.missing-total"; "elasticsearch.indices.get.time";
     "elasticsearch.indices.get.total"]);
   ("indices/id-cache", ["elasticsearch.indices.id-cache.memory-size"]);
   ("indices/indexing", ["elasticsearch.indices.indexing.delete-current"; "elasticsearch.indices.indexing.delete-time"; "elasticsearch.indices.indexing.delete-total";
     "elasticsearch.indices.indexing.index-current"; "elasticsearch.indices.indexing.index-failed"; "elasticsearch.indices.indexing.index-time";
     "elasticsearch.indices.indexing.index-total"; "elasticsearch.indices.indexing.noop-update-total"; "elasticsearch.indices.indexing.throttle-time"]);
   ("indices/merges", ["elasticsearch.indices.merges.auto-throttle-size"; "elasticsearch.indices.merges.current"; "elasticsearch.indices.merges.current-docs";
     "elasticsearch.indices.merges.current-size"; "elasticsearch.indices.merges.stopped-time"; "elasticsearch.indices.merges.throttle-time";
     "elasticsearch.indices.merges.total"; "elasticsearch.indices.merges.total-docs"; "elasticsearch.indices.merges.total-size";
     "elasticsearch.indices.merges.total-time"]);
   ("indices/percolate", ["elasticsearch.indices.percolate.current"; "elasticsearch.indices.percolate.queries"; "elasticsearch.indices.percolate.time";
     "elasticsearch.indices.percolate.total"]);
   ("indices/query-cache", ["elasticsearch.indices.query-cache.cache-count"; "elasticsearch.indices.query-cache.cache-size"; "elasticsearch.indices.query-cache.evictions";
     "elasticsearch.indices.query-cache.hit-count"; "elasticsearch.indices.query-cache.memory-size"; "elasticsearch.indices.query-cache.total-count"]);
   ("indices/recovery", ["elasticsearch.indices.recovery.current-as-source"; "elasticsearch.indices.recovery.current-as-target";
     "elasticsearch.indices.recovery.throttle-time"]);
   ("indices/refresh", ["elasticsearch.indices.refresh.listeners"; "elasticsearch.indices.refresh.total"; "elasticsearch.indices.refresh.total-time"]);
   ("indices/request-cache", ["elasticsearch.indices.query-cache.miss-count"; "elasticsearch.indices.request-cache.evictions"; "elasticsearch.indices.request-cache.hit-count";
     "elasticsearch.indices.request-cache.memory-size"; "elasticsearch.indices.request-cache.miss-count"]);
   ("indices/search", ["elasticsearch.indices.search.fetch-current"; "elasticsearch.indices.search.fetch-time"; "elasticsearch.indices.search.fetch-total";
     "elasticsearch.indices.search.open-contexts"; "elasticsearch.indices.search.query-current"; "elasticsearch.indices.search.query-time";
     "elasticsearch.indices.search.query-total"; "elasticsearch.indices.search.scroll-current"; "elasticsearch.indices.search.scroll-time";
     "elasticsearch.indices.search.scroll-total"; "elasticsearch.indices.search.suggest-current"; "elasticsearch.indices.search.suggest-time";
     "elasticsearch.indices.search.suggest-total"]);
   ("indices/segments", ["elasticsearch.indices.segments.count"; "elasticsearch.indices.segments.doc-values-memory-size";
     "elasticsearch.indices.segments.fixed-bit-set-memory-size"; "elasticsearch.indices.segments.index-writer-max-memory-size";
     "elasticsearch.indices.segments.index-writer-memory-size"; "elasticsearch.indices.segments.memory-size";
     "elasticsearch.indices.segments.norms-memory-size"; "elasticsearch.indices.segments.points-memory-size";
     "elasticsearch.indices.segments.stored-field-memory-size"; "elasticsearch.indices.segments.term-vectors-memory-size";
     "elasticsearch.indices.segments.terms-memory-size"; "elasticsearch.indices.segments.version-map-memory-size"]);
   ("indices/store", ["elasticsearch.indices.store.size"; "elasticsearch.indices.store.throttle-time"]);
   ("indices/suggest", ["elasticsearch.indices.suggest.current"; "elasticsearch.indices.suggest.time"; "elasticsearch.indices.suggest.total"]);
   ("indices/translog", ["elasticsearch.indices.translog.earliest_last_modified_age"; "elasticsearch.indices.translog.operations"; "elasticsearch.indices.translog.size";
     "elasticsearch.indices.translog.uncommitted_operations"; "elasticsearch.indices.translog.uncommitted_size_in_bytes"]);
   ("indices/warmer", ["elasticsearch.indices.warmer.current"; "elasticsearch.indices.warmer.total"; "elasticsearch.indices.warmer.total-time"]);
   ("node/http", ["elasticsearch.http.current_open"; "elasticsearch.http.total_open"]);
   ("node/jvm", ["elasticsearch.jvm.classes.current-loaded-count"; "elasticsearch.jvm.classes.total-loaded-count";
     "elasticsearch.jvm.classes.total-unloaded-count"; "elasticsearch.jvm.gc.count"; "elasticsearch.jvm.gc.old-count";
     "elasticsearch.jvm.gc.old-time"; "elasticsearch.jvm.gc.time"; "elasticsearch.jvm.mem.buffer_pools.direct.count";
     "elasticsearch.jvm.mem.buffer_pools.direct.total_capacity_in_bytes"; "elasticsearch.jvm.mem.buffer_pools.direct.used_in_bytes";
     "elasticsearch.jvm.mem.buffer_pools.mapped.count"; "elasticsearch.jvm.mem.buffer_pools.mapped.total_capacity_in_bytes";
     "elasticsearch.jvm.mem.buffer_pools.mapped.used_in_bytes"; "elasticsearch.jvm.mem.heap-committed"; "elasticsearch.jvm.mem.heap-max";
     "elasticsearch.jvm.mem.heap-used"; "elasticsearch.jvm.mem.heap-used-percent"; "elasticsearch.jvm.mem.non-heap-committed";
     "elasticsearch.jvm.mem.non-heap-used"; "elasticsearch.jvm.mem.pools.old.max_in_bytes"; "elasticsearch.jvm.mem.pools.old.peak_max_in_bytes";
     "elasticsearch.jvm.mem.pools.old.peak_used_in_bytes"; "elasticsearch.jvm.mem.pools.old.used_in_bytes";
     "elasticsearch.jvm.mem.pools.survivor.max_in_bytes"; "elasticsearch.jvm.mem.pools.survivor.peak_max_in_bytes";
     "elasticsearch.jvm.mem.pools.survivor.peak_used_in_bytes"; "elasticsearch.jvm.mem.pools.survivor.used_in_bytes";
     "elasticsearch.jvm.mem.pools.young.max_in_bytes"; "elasticsearch.jvm.mem.pools.young.peak_max_in_bytes";
     "elasticsearch.jvm.mem.pools.young.peak_used_in_bytes"; "elasticsearch.jvm.mem.pools.young.used_in_bytes"; "elasticsearch.jvm.threads.count";
     "elasticsearch.jvm.threads.peak"; "elasticsearch.jvm.uptime"]);
   ("node/process", ["elasticsearch.process.cpu.percent"; "elasticsearch.process.cpu.time"; "elasticsearch.process.max_file_descriptors";
     "elasticsearch.process.mem.total-virtual-size"; "elasticsearch.process.open_file_descriptors"]);
   ("node/thread-pool", ["elasticsearch.thread_pool.active"; "elasticsearch.thread_pool.completed"; "elasticsearch.thread_pool.largest";
     "elasticsearch.thread_pool.queue"; "elasticsearch.thread_pool.rejected"; "elasticsearch.thread_pool.threads"]);
   ("node/transport", ["elasticsearch.transport.rx.count"; "elasticsearch.transport.rx.size"; "elasticsearch.transport.server_open"; "elasticsearch.transport.tx.count";
     "elasticsearch.transport.tx.size"])].

Definition es_GetExtraMetrics (conf : esConfig) : list string :=
  let groups : gset string := list_to_set (ec_NodeIndexGroups conf ++ ec_IndexGroups conf) in
  flat_map (λ g, default [] (snd <$> List.find (λ kv, String.eqb kv.1 g) esGroupMetrics))
    ((if ec_ClusterHealth conf then ["cluster"] else []) ++ (if ec_HTTP conf then ["node/http"] else []) ++ (if ec_JVM conf then ["node/jvm"] else []) ++
     (if ec_Process conf then ["node/process"] else []) ++ (if ec_ThreadPool conf then ["node/thread-pool"] else []) ++
     (if ec_Transport conf then ["node/transport"] else []) ++ flat_map (extraGroup groups) indexExtraGroups).

(** ** Sending *)

Lemma compactLoop_spec todo i n dps : (n ≤ i)%nat → (i + todo = length dps)%nat → compactLoop todo i n dps = take n dps ++ (Some <$> omap id (drop i dps)).
Proof.
  revert i n dps. induction todo as [|todo IH]; intros i n dps Hn Hl; cbn [compactLoop].
  - rewrite drop_ge by lia. by rewrite app_nil_r.
  - destruct (lookup_lt_is_Some_2 dps i) as [x Hx]; [lia|]. rewrite Hx, (drop_S dps x i Hx). destruct x as [d|]; [|rewrite IH by lia; done].
    rewrite IH by (rewrite ?length_insert; lia). rewrite drop_insert_lt by lia. erewrite take_S_r by (apply list_lookup_insert_eq; lia). rewrite take_insert_ge by lia. by rewrite <-app_assoc.
Qed.
(** The points are sent once each and in order; nil pointers are dropped. *)
Lemma sendDatapoints_spec dps : sendDatapoints dps = Some <$> omap id dps.
Proof. unfold sendDatapoints. by rewrite compactLoop_spec by lia. Qed.
Lemma sent_iff dps p : p ∈ sendDatapoints dps ↔ ∃ d, p = Some d ∧ Some d ∈ dps.
Proof. rewrite sendDatapoints_spec, list_elem_of_fmap. setoid_rewrite list_elem_of_omap. naive_solver. Qed.

(** ** Points of statistics *)

Lemma groupStats_iff t s enhanced dims d : Some d ∈ groupStats t s enhanced dims ↔
  ∃ m v, m ∈ tableMetrics enhanced t ∧ s !! sm_path m = Some v ∧ d = mkDatapoint (sm_name m) (sm_type m) (IntValue v) dims.
Proof.
  unfold groupStats. rewrite list_elem_of_fmap. split.
  - intros (m & Hd & Hm). unfold prepare in Hd. destruct (s !! sm_path m) as [v|] eqn:Hv; [|done]. injection Hd as ->. by exists m, v.
  - intros (m & v & Hm & Hv & ->). exists m. unfold prepare. by rewrite Hv.
Qed.
Lemma tableMetrics_iff enhanced t m : m ∈ tableMetrics enhanced t ↔ m ∈ tb_always t ∨ enhanced = true ∧ m ∈ tb_enhanced t.
Proof. unfold tableMetrics. destruct enhanced; rewrite elem_of_app, ?elem_of_nil; intuition congruence. Qed.

(** A metric of a group of index statistics that is collected, with the group it is in. *)
Definition collected (enhanced : gset string) (g : indexGroups) (m : statMetric) (v : Z) : Prop :=
  ∃ k t, (k, t) ∈ indexGroupTables ∧ (m ∈ tb_always t ∨ k ∈ enhanced ∧ m ∈ tb_enhanced t) ∧ groupOf g k !! sm_path m = Some v.
Lemma getIndexGroupStats_iff enhanced g dims d : Some d ∈ getIndexGroupStats enhanced g dims ↔
  ∃ m v, collected enhanced g m v ∧ d = mkDatapoint (sm_name m) (sm_type m) (IntValue v) dims.
Proof.
  unfold getIndexGroupStats, collected. rewrite elem_of_flat_map. setoid_rewrite groupStats_iff. setoid_rewrite tableMetrics_iff. setoid_rewrite bool_decide_eq_true. split.
  - intros ([k t] & Hkt & m & v & Hm & Hv & ->). exists m, v. split; [|done]. by exists k, t.
  - intros (m & v & (k & t & Hkt & Hm & Hv) & ->). exists (k, t). split; [done|]. by exists m, v.
Qed.

Section points.
Context `{MapRange}.

Lemma getIndexStatsHelper_iff conf ix dims d : Some d ∈ getIndexStatsHelper conf ix dims ↔
  ∃ agg g m v, (agg = "total" ∧ g = ix_Total ix ∨ ec_Primaries conf = true ∧ agg = "primaries" ∧ g = ix_Primaries ix) ∧
    collected (list_to_set (ec_IndexGroups conf)) g m v ∧ d = mkDatapoint (sm_name m) (sm_type m) (IntValue v) (MergeStringMaps dims {["aggregation" := agg]}).
Proof.
  unfold getIndexStatsHelper. rewrite elem_of_app, getIndexGroupStats_iff. split.
  - intros [Hd|(m & v & Hm & ->)]; [|exists "total", (ix_Total ix), m, v; naive_solver]. destruct (ec_Primaries conf); [|by apply elem_of_nil in Hd].
    apply getIndexGroupStats_iff in Hd as (m & v & Hm & ->). exists "primaries", (ix_Primaries ix), m, v. naive_solver.
  - intros (agg & g & m & v & [[-> ->]|(Hp & -> & ->)] & Hm & ->); [right; by exists m, v|]. left. rewrite Hp. apply getIndexGroupStats_iff. by exists m, v.
Qed.
End points.

(** The points of index statistics are exactly those of the selected indices: for each
    metric that is always collected or whose group is enhanced, and that has a value, one
    from all shards and, when asked for, one from the primaries, with the dimensions of its
    index and aggregation. *)
Theorem index_points_correct `{MapRange} conf indices dims d :
  Some d ∈ sendDatapoints (GetIndexStatsDatapoints conf indices dims) ↔
  ∃ name ix agg g m v, indices !! name = Some ix ∧ (ec_Indexes conf = [] ∨ name ∈ ec_Indexes conf) ∧
    (agg = "total" ∧ g = ix_Total ix ∨ ec_Primaries conf = true ∧ agg = "primaries" ∧ g = ix_Primaries ix) ∧ collected (list_to_set (ec_IndexGroups conf)) g m v ∧
    d = mkDatapoint (sm_name m) (sm_type m) (IntValue v) (MergeStringMaps (MergeStringMaps dims {["index" := name]}) {["aggregation" := agg]}).
Proof.
  assert (Hsel : ∀ name, indexSelected conf name = true ↔ ec_Indexes conf = [] ∨ name ∈ ec_Indexes conf).
  { intros name. unfold indexSelected. destruct (ec_Indexes conf); [naive_solver|]. rewrite bool_decide_eq_true. naive_solver. }
  rewrite sent_iff. split.
  - intros (d' & [= <-] & Hd). unfold GetIndexStatsDatapoints in Hd. apply elem_of_flat_map in Hd as ([name ix] & Hi & Hd). apply elem_of_range in Hi. cbn [fst snd] in Hd.
    destruct (indexSelected conf name) eqn:Hs; [|by apply elem_of_nil in Hd]. apply getIndexStatsHelper_iff in Hd as (agg & g & m & v & ? & ? & ->).
    exists name, ix, agg, g, m, v. split_and!; [done| |done..]. by apply Hsel.
  - intros (name & ix & agg & g & m & v & Hi & Hs & Hg & Hm & ->). eexists. split; [done|]. apply elem_of_flat_map. exists (name, ix). split; [by apply elem_of_range|].
    cbn [fst snd]. apply Hsel in Hs as ->. apply getIndexStatsHelper_iff. by exists agg, g, m, v.
Qed.

(** ** The dimensions of everything sent *)

Section carry.
Context `{MapRange} (conf : esConfig).

(** The dimensions that every point of the monitor is to have. *)
Definition named (dims : gmap string string) : Prop := dims !! "cluster" = Some (ec_Cluster conf) ∧ dims !! "plugin" = Some "elasticsearch".
Definition all_named (l : list (option sfxDatapoint)) : Prop := ∀ d, Some d ∈ l → named (sd_Dimensions d).

Lemma named_merge dims k v : k ≠ "cluster" → k ≠ "plugin" → named dims → named (MergeStringMaps dims {[k := v]}).
Proof. intros Hc Hp [H1 H2]. unfold named, MergeStringMaps. by rewrite !lookup_union_r by (by rewrite lookup_singleton_ne). Qed.
Lemma groupStats_named t s enhanced dims : named dims → all_named (groupStats t s enhanced dims).
Proof. by intros Hd d (m & v & _ & _ & ->)%groupStats_iff. Qed.
Lemma indexGroup_named enhanced g dims : named dims → all_named (getIndexGroupStats enhanced g dims).
Proof. by intros Hd d (m & v & _ & ->)%getIndexGroupStats_iff. Qed.
Lemma all_named_app l1 l2 : all_named l1 → all_named l2 → all_named (l1 ++ l2).
Proof. intros H1 H2 d [?|?]%elem_of_app; auto. Qed.
Lemma all_named_flat {A} (f : A → list (option sfxDatapoint)) l : (∀ x, all_named (f x)) → all_named (flat_map f l).
Proof. intros Hf d (x & _ & Hx)%elem_of_flat_map. by apply (Hf x). Qed.
Lemma all_named_nil : all_named [].
Proof. by intros d ?%elem_of_nil. Qed.
Lemma indexHelper_named ix dims : named dims → all_named (getIndexStatsHelper conf ix dims).
Proof. intros Hd d (agg & g & m & v & _ & _ & ->)%getIndexStatsHelper_iff. by apply named_merge. Qed.

Hint Resolve groupStats_named indexGroup_named all_named_app all_named_nil indexHelper_named : es.

Lemma node_named nodes dims : named dims → all_named (GetNodeStatsDatapoints conf nodes dims).
Proof.
  intros Hd. apply all_named_flat. intros [k n]. unfold getNodeStatsDatapointsHelper, fetchThreadPoolStats. cbn [snd].
  repeat apply all_named_app; eauto with es. apply all_named_flat. intros [pool s]. cbn [fst snd]. destruct (bool_decide _); [|eauto with es]. by apply groupStats_named, named_merge.
Qed.
Lemma prepare_named name t dims v : named dims → all_named [prepare name t dims v].
Proof. intros Hd d Hin%list_elem_of_singleton. unfold prepare in Hin. destruct v; [|done]. by injection Hin as ->. Qed.
Lemma all_named_cons p l : all_named [p] → all_named l → all_named (p :: l).
Proof. intros Hp Hl d [<-|?]%elem_of_cons; [apply Hp; by left | by apply Hl]. Qed.
Lemma cluster_named c dims enhanced : named dims → all_named (GetClusterStatsDatapoints c dims enhanced).
Proof.
  intros Hd. unfold GetClusterStatsDatapoints, clusterGauge. apply all_named_app; [destruct enhanced; [|apply all_named_nil]|].
  all: repeat (apply all_named_cons; [by apply prepare_named || (intros d Hin%list_elem_of_singleton; destruct (cl_ActiveShardsPercent c); [by injection Hin as ->|done])|]); apply all_named_nil.
Qed.
Lemma index_named indices dims : named dims → all_named (GetIndexStatsDatapoints conf indices dims).
Proof. intros Hd. apply all_named_flat. intros [k ix]. cbn [fst snd]. destruct (indexSelected conf k); [|eauto with es]. by apply indexHelper_named, named_merge. Qed.
Lemma send_named l : all_named l → all_named (sendDatapoints l).
Proof. intros Hl d (d' & [= <-] & Hd)%sent_iff. by apply Hl. Qed.

Definition es_inv (m : esMonitor) : Prop := em_isInitialized m = true → named (si_default (em_shared m)) ∧ named (si_node (em_shared m)).

Lemma node_dimensions nodes nd : prepareNodeMetricsDimensions nodes = Ok nd → nd !! "cluster" = None ∧ nd !! "plugin" = None.
Proof.
  unfold prepareNodeMetricsDimensions. destruct (range nodes) as [|[id name] [|? ?]]; [done| |done]. destruct (String.eqb id ""); [done|]. intros [= <-].
  destruct name; cbn; by rewrite ?lookup_insert_ne, ?lookup_singleton_ne by done.
Qed.
Lemma refresh_inv master node si si' e : ec_Cluster conf ≠ "" → fetchNodeAndClusterMetadata (ec_Cluster conf) master node si = (si', e) →
  (named (si_default si) ∧ named (si_node si) ∨ e = None) → named (si_default si') ∧ named (si_node si').
Proof.
  intros Hc. unfold fetchNodeAndClusterMetadata. destruct master as [master|]; [|by intros [= <- <-] [?|?]]. destruct node as [node|]; [|by intros [= <- <-] [?|?]].
  destruct (prepareNodeMetricsDimensions (ni_Nodes node)) as [nd|] eqn:Hnd; [|by intros [= <- <-] [?|?]]. apply node_dimensions in Hnd as [Hn1 Hn2].
  unfold prepareDefaultDimensions. rewrite (proj2 (String.eqb_neq _ _) Hc). intros [= <- <-] _. cbn [si_default si_node]. unfold named, MergeStringMaps.
  rewrite !lookup_union_r by done. by vm_compute.
Qed.

Lemma onTick_inv t m m' ps : ec_Cluster conf ≠ "" → es_inv m → onTick conf t m = (m', ps) → es_inv m' ∧ all_named ps.
Proof.
  intros Hc Hm. unfold es_inv in *. destruct t as [master node|a|a|a]; cbn [onTick].
  - destruct (fetchNodeAndClusterMetadata _ _ _ _) as [si e] eqn:Hf. intros [= <- <-]. split; [|apply all_named_nil]. cbn [em_isInitialized em_shared].
    intros Hi. apply (refresh_inv master node (em_shared m) si e Hc Hf). destruct (em_isInitialized m); [left; by apply Hm|]. right. by apply bool_decide_eq_true in Hi.
  - intros [= <- <-]. split; [done|]. destruct (em_isInitialized m); [|apply all_named_nil]. destruct a; cbn [fetchNodeStats]; [|apply all_named_nil]. by apply send_named, node_named, Hm.
  - intros [= <- <-]. split; [done|]. destruct (em_isInitialized m); cbn [andb]; [|apply all_named_nil]. destruct (_ || _); [|apply all_named_nil].
    destruct a; cbn [fetchClusterStats]; [|apply all_named_nil]. by apply send_named, cluster_named, Hm.
  - intros [= <- <-]. split; [done|]. destruct (em_isInitialized m); cbn [andb]; [|apply all_named_nil]. destruct (_ && _); [|apply all_named_nil].
    destruct a as [io|]; cbn [fetchIndexStats]; [|apply all_named_nil]. apply send_named. destruct (ec_IndexSummaryOnly conf); [apply indexHelper_named | apply index_named]; by apply Hm.
Qed.
Lemma onTicks_inv ts m m' ps : ec_Cluster conf ≠ "" → es_inv m → onTicks conf ts m = (m', ps) → es_inv m' ∧ all_named ps.
Proof.
  intros Hc. revert m m' ps. induction ts as [|t ts IH]; intros m m' ps Hm; cbn [onTicks]; [intros [= <- <-]; split; [done|apply all_named_nil]|].
  destruct (onTick conf t m) as [m1 ps1] eqn:H1. destruct (onTick_inv _ _ _ _ Hc Hm H1) as [Hm1 Hp1]. destruct (onTicks conf ts m1) as [m2 ps2] eqn:H2.
  destruct (IH _ _ _ Hm1 H2) as [Hm2 Hp2]. intros [= <- <-]. split; [done|]. by apply all_named_app.
Qed.

Lemma onTick_some t m p : p ∈ (onTick conf t m).2 → ∃ d, p = Some d.
Proof.
  assert (Hs : ∀ l, p ∈ sendDatapoints l → ∃ d, p = Some d) by (intros l (d & -> & _)%sent_iff; by exists d).
  destruct t as [master node|a|a|a]; cbn [onTick snd].
  - destruct (fetchNodeAndClusterMetadata _ _ _ _). by intros ?%elem_of_nil.
  - destruct (em_isInitialized m); [|by intros ?%elem_of_nil]. destruct a; [apply Hs | by intros ?%elem_of_nil].
  - destruct (_ && _); [|by intros ?%elem_of_nil]. destruct a; [apply Hs | by intros ?%elem_of_nil].
  - destruct (_ && _); [|by intros ?%elem_of_nil]. destruct a; [apply Hs | by intros ?%elem_of_nil].
Qed.
Lemma onTicks_some ts m p : p ∈ (onTicks conf ts m).2 → ∃ d, p = Some d.
Proof.
  revert m. induction ts as [|t ts IH]; intros m; cbn [onTicks]; [by intros ?%elem_of_nil|]. pose proof (onTick_some t m p) as Ht. destruct (onTick conf t m) as [m1 ps1].
  specialize (IH m1). destruct (onTicks conf ts m1) as [m2 ps2]. cbn [snd] in *. intros [?|?]%elem_of_app; auto.
Qed.
End carry.

(** C28: With a configured cluster name, whatever Elasticsearch answers and in whatever order
    the intervals tick, every point sent carries that cluster and the plugin as dimensions,
    and none is a nil pointer. *)
Theorem sent_points_named `{MapRange} conf ts p : ec_Cluster conf ≠ "" → p ∈ (onTicks conf ts newESMonitor).2 →
  ∃ d, p = Some d ∧ sd_Dimensions d !! "cluster" = Some (ec_Cluster conf) ∧ sd_Dimensions d !! "plugin" = Some "elasticsearch".
Proof.
  intros Hc Hp. destruct (onTicks conf ts newESMonitor) as [m ps] eqn:Ht. assert (Hinv : es_inv conf newESMonitor) by (intros [=]).
  destruct (onTicks_inv conf ts _ _ _ Hc Hinv Ht) as [_ Hn]. pose proof (onTicks_some conf ts newESMonitor p) as Hs. rewrite Ht in Hs. destruct (Hs Hp) as [d ->].
  exists d. split; [done|]. by apply Hn.
Qed.

(** Without a configured name, a refresh that finds no cluster name fails but leaves the
    shared dimensions empty: what the cluster fetcher sends next has no dimensions. *)
Theorem failed_refresh_drops_dimensions `{MapRange} conf m master node nd c :
  em_isInitialized m = true → ec_Cluster conf = "" → ec_ClusterHealthStatsMasterOnly conf = false →
  prepareNodeMetricsDimensions (ni_Nodes node) = Ok nd → ni_ClusterName node = None →
  (onTicks conf [RefreshTick (Ok master) (Ok node); ClusterTick (Ok c)] m).2 = Some <$> omap id (GetClusterStatsDatapoints c ∅ (ec_ClusterHealth conf)).
Proof.
  intros Hi Hc Hmo Hnd Hn. cbn [onTicks onTick]. unfold fetchNodeAndClusterMetadata. rewrite Hnd, Hc, Hn. cbn. rewrite Hi, Hmo. cbn.
  by rewrite sendDatapoints_spec, app_nil_r.
Qed.

(** An extra metric of index statistics does not enhance its group: the metric is let through
    but, unless the group is configured, not collected. *)
Lemma index_groups_not_enhanced `{MapRange} mf conf :
  ec_NodeIndexGroups (configureES mf conf) = ec_NodeIndexGroups conf ∧ ec_IndexGroups (configureES mf conf) = ec_IndexGroups conf.
Proof. done. Qed.

(** ** Metrics and the metadata *)

#[local] Instance sfxMetricType_eq_dec : EqDecision sfxMetricType.
Proof. solve_decision. Defined.
Definition allTables : list statTable :=
  [getJVMStatsTable; getProcessStatsTable; threadPoolDatapointsTable; getTransportStatsTable; getHTTPStatsTable] ++ map snd indexGroupTables.
(** Every metric of the tables is declared, with its type except for one. *)
Lemma declared_types : flat_map (λ t, List.filter (λ m, negb (bool_decide (fst <$> (snd <$> List.find (λ kv, String.eqb kv.1 (sm_name m)) elasticsearchMetrics) = Some (sm_type m)))) (tableMetrics true t)) allTables =
  [st "elasticsearch.thread_pool.threads" Gauge ["threads"]].
Proof. vm_compute. reflexivity. Qed.
(** No two metrics have the same name. *)
Lemma names_unique : NoDup (flat_map (λ t, map sm_name (tableMetrics true t)) allTables).
Proof. apply (bool_decide_unpack _). vm_compute. exact I. Qed.

Definition groupNames (g : string) : list string := default [] (snd <$> List.find (λ kv, String.eqb kv.1 g) esGroupMetrics).
(** The metrics that a group of index statistics collects and lets through. *)
Definition passes (k : string) (m : statMetric) : bool :=
  bool_decide (sm_name m ∈ esDefaultMetrics) || bool_decide (sm_name m ∈ flat_map (λ p, groupNames p.2) (List.filter (λ p, String.eqb p.1 k) indexExtraGroups)).
Definition missCount : string := "elasticsearch.indices.query-cache.miss-count".
Lemma collected_pass : forallb (λ kt, forallb (λ m, passes kt.1 m || String.eqb (sm_name m) missCount) (tableMetrics true kt.2)) indexGroupTables = true.
Proof. vm_compute. reflexivity. Qed.

(** Every metric that an enhanced group of index statistics collects is a default metric
    or one that the configuration lets through as extra, save the miss count of the query
    cache, which is declared in another group. *)
Theorem enhanced_group_passes conf k t m :
  k ∈ ec_NodeIndexGroups conf ++ ec_IndexGroups conf → (k, t) ∈ indexGroupTables → m ∈ tableMetrics true t → sm_name m ≠ missCount →
  sm_name m ∈ esDefaultMetrics ∨ sm_name m ∈ es_GetExtraMetrics conf.
Proof.
  intros Hk Ht Hm Hne. pose proof collected_pass as Hall. rewrite forallb_forall in Hall. apply list_elem_of_In in Ht. specialize (Hall (k, t) Ht). cbn [fst snd] in Hall.
  rewrite forallb_forall in Hall. apply list_elem_of_In in Hm. specialize (Hall m Hm). apply orb_true_iff in Hall as [Hp|Hp]; [|by apply String.eqb_eq in Hp].
  apply orb_true_iff in Hp as [Hp%bool_decide_eq_true|Hp%bool_decide_eq_true]; [by left|]. right. apply elem_of_flat_map in Hp as ([k' g] & Hg & Hp).
  apply list_elem_of_In, filter_In in Hg as [Hg Hkk]. apply String.eqb_eq in Hkk. cbn [fst] in Hkk. subst k'. unfold es_GetExtraMetrics. apply elem_of_flat_map. exists g. split; [|exact Hp].
  rewrite !elem_of_app. do 6 right. apply elem_of_flat_map. exists (k, g). split; [by apply list_elem_of_In|]. unfold extraGroup. cbn [fst snd].
  rewrite bool_decide_true by by apply elem_of_list_to_set. by left.
Qed.
(** The exception is collected and always filtered out, unless the request cache is
    enhanced too. *)
Lemma miss_count_dropped : passes "query_cache" (st missCount Counter ["miss_count"]) = false.
Proof. vm_compute. reflexivity. Qed.
(** The open search contexts are read from the running suggestions. *)
Lemma open_contexts_wrong : st "elasticsearch.indices.search.open-contexts" Gauge ["suggest_current"] ∈ tb_enhanced getSearchStatsTable.
Proof. vm_compute. repeat constructor. Qed.
Lemma unknown_status_green s : s ≠ "yellow" → s ≠ "red" → getMetricValueFromClusterStatus (Some s) = getMetricValueFromClusterStatus (Some "green").
Proof. intros Hy Hr. unfold getMetricValueFromClusterStatus. rewrite (proj2 (String.eqb_neq _ _) Hy), (proj2 (String.eqb_neq _ _) Hr). by destruct (String.eqb s "green"). Qed.

(** ** Witnesses *)


Definition demo_conf (cluster : string) : esConfig := {|
  ec_Cluster := cluster; ec_EnableIndexStats := true; ec_Indexes := []; ec_IndexSummaryOnly := false; ec_IndexStatsMasterOnly := true;
  ec_ClusterHealthStatsMasterOnly := false; ec_HTTP := false; ec_JVM := false; ec_Process := false; ec_ThreadPool := false; ec_Transport := false;
  ec_NodeIndexGroups := ["get"]; ec_ThreadPools := []; ec_ClusterHealth := false; ec_IndexGroups := []; ec_Primaries := false |}.
Definition demo_node (name : option string) : NodeInfoOutput := {| ni_ClusterName := name; ni_Nodes := {["n1" := Some "node"]} |}.
Definition demo_cluster : ClusterStatsOutput := {| cl_Status := Some "green"; cl_Ints := {["active_shards" := 4]}; cl_ActiveShardsPercent := None |}.
Definition demo_shards (dims : gmap string string) : sfxDatapoint := mkDatapoint "elasticsearch.cluster.active-shards" Gauge (IntValue 4) dims.
Definition demo_dims : gmap string string := {["plugin_instance" := "prod"; "cluster" := "prod"; "plugin" := "elasticsearch"]}.

Lemma sent_points_named_witness :
  ∃ d, Some (demo_shards demo_dims) = Some d ∧ sd_Dimensions d !! "cluster" = Some (ec_Cluster (demo_conf "prod")) ∧ sd_Dimensions d !! "plugin" = Some "elasticsearch".
Proof.
  apply (@sent_points_named forward_range (demo_conf "prod") [RefreshTick (Ok None) (Ok (demo_node None)); ClusterTick (Ok demo_cluster)]); [vm_compute; discriminate|].
  vm_compute. left.
Defined.
Definition demo_running : esMonitor := {| em_shared := {| si_master := true; si_default := demo_dims; si_node := demo_dims |}; em_isInitialized := true |}.
Lemma failed_refresh_drops_dimensions_witness :
  (@onTicks forward_range (demo_conf "") [RefreshTick (Ok None) (Ok (demo_node None)); ClusterTick (Ok demo_cluster)] demo_running).2 = [Some (demo_shards ∅)].
Proof.
  apply (@failed_refresh_drops_dimensions forward_range (demo_conf "") demo_running None (demo_node None) {["node_id" := "n1"; "node_name" := "node"]} demo_cluster);
    vm_compute; reflexivity.
Defined.
Lemma enhanced_group_passes_witness : "elasticsearch.indices.get.time" ∈ esDefaultMetrics ∨ "elasticsearch.indices.get.time" ∈ es_GetExtraMetrics (demo_conf "").
Proof.
  apply (enhanced_group_passes (demo_conf "") "get" getGetStatsTable (st "elasticsearch.indices.get.time" Counter ["time_in_millis"])).
  - left.
  - do 3 right. left.
  - right. left.
  - vm_compute. discriminate.
Defined.
