(* ===== verification/GoText.v ===== *)
(** * Text of files

    What the monitors and tools use of [bufio], [strings], [strconv] and
    [encoding/base64] to read and write files: the lines of a scanner, the fields of a
    line, hexadecimal numbers and standard base64.  Lines are shorter than the 64 KiB
    of a scanner. *)

From S2P Require Import Prelude GoStrings GoNumbers.
From Stdlib Require Import Ascii.
#[local] Open Scope Z_scope.

(** [bufio.Scanner] over a whole text: the lines before the first that its buffer
    cannot hold, and whether there is such a line, which ends the scan with
    [ErrTooLong]. *)
Definition dropCR (s : string) : string := TrimSuffix s (String "013"%char "").
Definition rawLines (s : string) : list string :=
  let parts := SplitByte s "010"%char in
  match last parts with Some "" => take (length parts - 1) parts | _ => parts end.
Definition MaxScanTokenSize : Z := 64 * 1024.
Definition fits (line : string) : bool := Z.of_nat (slen line) <? MaxScanTokenSize.
Fixpoint takeWhile {A} (f : A → bool) (l : list A) : list A :=
  match l with [] => [] | x :: l => if f x then x :: takeWhile f l else [] end.
Definition scanLines (s : string) : list string := map dropCR (takeWhile fits (rawLines s)).
Definition scanTooLong (s : string) : bool := negb (forallb fits (rawLines s)).

Lemma takeWhile_all {A} (f : A → bool) l : forallb f l = true → takeWhile f l = l.
Proof. induction l as [|x l IH]; [done|]. cbn. intros [-> Hl]%andb_true_iff. by rewrite IH. Qed.

(** [strings.Fields] *)
Fixpoint fieldsFrom (word : string) (s : string) : list string :=
  match s with
  | EmptyString => if String.eqb word "" then [] else [word]
  | String c s => if is_space c then (if String.eqb word "" then fieldsFrom "" s else word :: fieldsFrom "" s) else fieldsFrom (word +:+ String c "") s
  end.
Definition Fields : string → list string := fieldsFrom "".

(** [strconv.ParseInt(s, 16, 64)], [None] for a syntax or range error. *)
Definition isHexDigit (c : ascii) : bool := in_range "0" "9" c || isHexLetter c.
Fixpoint hex_value (acc : Z) (s : string) : option Z :=
  match s with
  | EmptyString => Some acc
  | String c s => if isHexDigit c then hex_value (16 * acc + hexDigitVal c) s else None
  end.
Definition ParseHex64 (s : string) : option Z :=
  let '(neg, ds) := match s with String "-" ds => (true, ds) | String "+" ds => (false, ds) | ds => (false, ds) end%char in
  if String.eqb ds "" then None
  else match hex_value 0 ds with
       | None => None
       | Some n => let z := if neg : bool then - n else n in if bool_decide (- 2 ^ 63 ≤ z < 2 ^ 63) then Some z else None
       end.

(** ** Base64 *)

Definition base64Alphabet : string := "ABCDEFGHIJKLMNOPQRSTUVWXYZabcdefghijklmnopqrstuvwxyz0123456789+/".
Definition base64Char (n : Z) : ascii := default "="%char (String.get (Z.to_nat n) base64Alphabet).
Definition base64Value (c : ascii) : option Z := Z.of_nat <$> IndexByte base64Alphabet c.
Notation byteZ c := (Z.of_N (N_of_ascii c)).
Notation byteOf z := (ascii_of_N (Z.to_N z)).
(** [base64.StdEncoding] *)
Fixpoint base64Encode (s : string) : string :=
  match s with
  | EmptyString => ""
  | String a EmptyString =>
      let n := byteZ a * 65536 in
      String (base64Char (n / 262144)) (String (base64Char (n / 4096 mod 64)) "==")
  | String a (String b EmptyString) =>
      let n := byteZ a * 65536 + byteZ b * 256 in
      String (base64Char (n / 262144)) (String (base64Char (n / 4096 mod 64)) (String (base64Char (n / 64 mod 64)) "="))
  | String a (String b (String c s)) =>
      let n := byteZ a * 65536 + byteZ b * 256 + byteZ c in
      String (base64Char (n / 262144)) (String (base64Char (n / 4096 mod 64)) (String (base64Char (n / 64 mod 64)) (String (base64Char (n mod 64)) (base64Encode s))))
  end.
Fixpoint base64Decode (s : string) : option string :=
  match s with
  | EmptyString => Some ""
  | String w (String x (String y (String z s))) =>
      a ← base64Value w; b ← base64Value x;
      if Ascii.eqb y "=" then (if Ascii.eqb z "=" && String.eqb s "" then Some (String (byteOf (a * 4 + b / 16)) "") else None)
      else
        c ← base64Value y;
        if Ascii.eqb z "=" then (if String.eqb s "" then Some (String (byteOf (a * 4 + b / 16)) (String (byteOf (b mod 16 * 16 + c / 4)) "")) else None)
        else
          d ← base64Value z; rest ← base64Decode s;
          Some (String (byteOf (a * 4 + b / 16)) (String (byteOf (b mod 16 * 16 + c / 4)) (String (byteOf (c mod 4 * 64 + d)) rest)))
  | _ => None
  end.

Lemma byteZ_bound c : 0 ≤ byteZ c < 256.
Proof. pose proof (N_ascii_bounded c). lia. Qed.
Lemma byteOf_byteZ c z : z = byteZ c → byteOf z = c.
Proof. intros ->. rewrite N2Z.id. apply ascii_N_embedding. Qed.

Definition sextets : list Z := map Z.of_nat (seq 0 64).
Lemma base64_table : Forall (λ n, base64Value (base64Char n) = Some n ∧ Ascii.eqb (base64Char n) "=" = false) sextets.
Proof. apply (bool_decide_unpack _). vm_compute. exact I. Qed.
Lemma base64Value_char n : 0 ≤ n < 64 → base64Value (base64Char n) = Some n.
Proof.
  intros Hn. pose proof base64_table as Ht. rewrite Forall_forall in Ht. apply Ht. unfold sextets. apply list_elem_of_fmap. exists (Z.to_nat n). split; [lia|]. apply elem_of_seq. lia.
Qed.
Lemma base64Char_pad n : 0 ≤ n < 64 → Ascii.eqb (base64Char n) "=" = false.
Proof.
  intros Hn. pose proof base64_table as Ht. rewrite Forall_forall in Ht. apply Ht. unfold sextets. apply list_elem_of_fmap. exists (Z.to_nat n). split; [lia|]. apply elem_of_seq. lia.
Qed.

Lemma base64_group (a b c : Z) : 0 ≤ a < 256 → 0 ≤ b < 256 → 0 ≤ c < 256 → let n := a * 65536 + b * 256 + c in
  (0 ≤ n / 262144 < 64 ∧ 0 ≤ n / 4096 mod 64 < 64 ∧ 0 ≤ n / 64 mod 64 < 64 ∧ 0 ≤ n mod 64 < 64) ∧
  n / 262144 * 4 + n / 4096 mod 64 / 16 = a ∧ n / 4096 mod 64 mod 16 * 16 + n / 64 mod 64 / 4 = b ∧ n / 64 mod 64 mod 4 * 64 + n mod 64 = c.
Proof. intros Ha Hb Hc n. subst n. Z.to_euclidean_division_equations. lia. Qed.

(** Decoding what was encoded. *)
Lemma base64_roundtrip s : base64Decode (base64Encode s) = Some s.
Proof.
  assert (Hind : ∀ n s, (slen s ≤ n)%nat → base64Decode (base64Encode s) = Some s); [|by eapply Hind].
  clear s. induction n as [|n IH]; intros [|a [|b [|c s]]] Hlen; cbn [slen] in Hlen; try lia; [done| | | |].
  - done.
  - destruct (base64_group (byteZ a) 0 0) as [(H1 & H2 & H3 & H4) (Ea & Eb & Ec)]; [apply byteZ_bound | lia..|].
    cbn [base64Encode base64Decode]. replace (byteZ a * 65536) with (byteZ a * 65536 + 0 * 256 + 0) by lia. rewrite !base64Value_char by done. cbn.
    by rewrite (byteOf_byteZ a).
  - destruct (base64_group (byteZ a) (byteZ b) 0) as [(H1 & H2 & H3 & H4) (Ea & Eb & Ec)]; [apply byteZ_bound.. | lia|].
    cbn [base64Encode base64Decode]. replace (byteZ a * 65536 + byteZ b * 256) with (byteZ a * 65536 + byteZ b * 256 + 0) by lia.
    rewrite !base64Value_char by done. cbn [mbind option_bind]. rewrite (base64Char_pad _ H3). by rewrite (byteOf_byteZ a), (byteOf_byteZ b).
  - destruct (base64_group (byteZ a) (byteZ b) (byteZ c)) as [(H1 & H2 & H3 & H4) (Ea & Eb & Ec)]; [apply byteZ_bound..|].
    cbn [base64Encode base64Decode]. rewrite !base64Value_char by done. cbn [mbind option_bind]. rewrite (base64Char_pad _ H3), (base64Char_pad _ H4), IH by lia.
    cbn [mbind option_bind]. by rewrite (byteOf_byteZ a), (byteOf_byteZ b), (byteOf_byteZ c).
Qed.
