(* ===== verification/Cgroups.v ===== *)
(** * The cgroups monitor

    [src/internal/signalfx-agent/pkg/monitors/cgroups]: the walk over the hierarchy of a
    controller ([util.go]), the files of the cpu, cpuacct and memory controllers and their
    parsers ([cpu.go], [cpuacct.go], [memory.go]), and the choice of the mounts
    ([monitor.go]).

    A directory is the list of its entries in the order [Readdir] gives them, [None]
    when it cannot be read; a file is its content or the error of opening it, and
    reading an open file succeeds. *)

From S2P Require Import Prelude GoStrings GoText GoValue Settings Telemetry Filters DPFilters SmartAgent HostMonitors.
From Stdlib Require Import Ascii.
#[local] Open Scope Z_scope.

(** ** util.go *)

Inductive fsNode := FsFile (content : res string) | FsDir (contents : option (list (string * fsNode))).
Notation dirContents := (option (list (string * fsNode))).
Notation path := (list string).

Definition dotName (name : string) : bool := String.eqb name "." || String.eqb name "..".
Definition dirEntries (p : path) (l : list (string * fsNode)) : list (path * dirContents) :=
  omap (λ ne, match ne.2 with FsDir c => if dotName ne.1 then None else Some (p ++ [ne.1], c) | FsFile _ => None end) l.
Definition fileEntries (l : list (string * fsNode)) : list (string * res string) :=
  omap (λ ne, match ne.2 with FsFile c => if dotName ne.1 then None else Some (ne.1, c) | FsDir _ => None end) l.
(** The directories for which the callback is called with their files; fuel for the number
    of directories. *)
Fixpoint walkLoop (fuel : nat) (dirs : list (path * dirContents)) : option (list (path * list (string * res string))) :=
  match dirs with
  | [] => Some []
  | (p, contents) :: dirs =>
      match fuel with
      | O => None
      | S fuel =>
          match contents with
          | None => walkLoop fuel dirs
          | Some l => rest ← walkLoop fuel (dirs ++ dirEntries p l); Some ((p, fileEntries l) :: rest)
          end
      end
  end.
Definition walkControllerHierarchy (fuel : nat) (root : dirContents) : option (list (path * list (string * res string))) := walkLoop fuel [([], root)].
(** [filepath.Rel(root, dir)] of a directory below the root. *)
Definition relPath (p : path) : string := match p with [] => "." | _ => Join p "/" end.
Definition cgroupName (p : path) : string := "/" +:+ TrimPrefix (TrimPrefix (relPath p) ".") "/".

Definition parseSingleInt (content : string) : option Z := ParseInt64 (TrimSpace content).

(** ** The files of the controllers *)

Definition cumulative (name : string) (v : Z) : sfxDatapoint := mkDatapoint name Counter (IntValue v) ∅.
Definition gauge (name : string) (v : Z) : sfxDatapoint := mkDatapoint name Gauge (IntValue v) ∅.

(** A line of two words: a key and its value. *)
Definition statLine (file line : string) : res (string * Z) :=
  match SplitByte line " " with
  | [key; text] => match ParseInt64 text with Some v => Ok (key, v) | None => Err (Errorf "could not parse %s value %s" [file; text]) end
  | _ => Err (Errorf "malformed line in %s file: %v" [file; line])
  end.
Fixpoint statLines (file : string) (point : string → Z → sfxDatapoint) (lines : list string) : res (list sfxDatapoint) :=
  match lines with
  | [] => Ok []
  | line :: lines => match statLine file line with
                     | Err e => Err e
                     | Ok (key, v) => match statLines file point lines with Err e => Err e | Ok dps => Ok (point key v :: dps) end
                     end
  end.
Definition singleFile (point : Z → sfxDatapoint) (content : string) : res (list sfxDatapoint) :=
  match parseSingleInt content with Some v => Ok [point v] | None => Err (Errorf "strconv.ParseInt: %s" [content]) end.

Definition parseCPUStatFile (content : string) : res (list sfxDatapoint) :=
  statLines "cpu.stat" (λ key, cumulative ("cgroup.cpu_stat_" +:+ key)) (scanLines content).
Definition parseCPUSharesFile : string → res (list sfxDatapoint) := singleFile (gauge "cgroup.cpu_shares").
Definition parseCPUCFSPeriodUSFile : string → res (list sfxDatapoint) := singleFile (gauge "cgroup.cpu_cfs_period_us").
Definition parseCPUCFSQuotaUSFile : string → res (list sfxDatapoint) := singleFile (gauge "cgroup.cpu_cfs_quota_us").

Definition knownCumulatives : list string :=
  ["pgpgin"; "pgpgout"; "pgfault"; "pgmajfault"; "total_pgpgin"; "total_pgpgout"; "total_pgfault"; "total_pgmajfault"].
Definition memoryStatPoint (key : string) (v : Z) : sfxDatapoint :=
  mkDatapoint ("cgroup.memory_stat_" +:+ key) (if bool_decide (key ∈ knownCumulatives) then Counter else Gauge) (IntValue v) ∅.
Definition parseMemoryStatFile (content : string) : res (list sfxDatapoint) := statLines "memory.stat" memoryStatPoint (scanLines content).
Definition parseMemoryLimitInBytesFile : string → res (list sfxDatapoint) := singleFile (gauge "cgroup.memory_limit_in_bytes").
Definition parseMemoryFailcntFile : string → res (list sfxDatapoint) := singleFile (cumulative "cgroup.memory_failcnt").
Definition parseMemoryMaxUsageInBytesFile : string → res (list sfxDatapoint) := singleFile (gauge "cgroup.memory_max_usage_in_bytes").

Record CPUUsage := { us_User : option Z; us_System : option Z; us_Total : option Z }.
Definition usagePoints (u : CPUUsage) : list sfxDatapoint :=
  option_list (cumulative "cgroup.cpuacct_usage_ns" <$> us_Total u) ++ option_list (cumulative "cgroup.cpuacct_usage_user_ns" <$> us_User u) ++
  option_list (cumulative "cgroup.cpuacct_usage_system_ns" <$> us_System u).
Record PerCPUUsage := { pu_Usage : CPUUsage; pu_CPU : Z }.
Definition perCPUPoints (u : PerCPUUsage) : list sfxDatapoint :=
  map (λ d, {| sd_Metric := sd_Metric d +:+ "_per_cpu"; sd_Type := sd_Type d; sd_Value := sd_Value d; sd_Time := sd_Time d;
               sd_Dimensions := <["cpu" := pretty (pu_CPU u)]> (sd_Dimensions d); sd_Meta := sd_Meta d |}) (usagePoints (pu_Usage u)).
Definition singleUsage (usage : Z → CPUUsage) (content : string) : res (list sfxDatapoint) :=
  match parseSingleInt content with Some v => Ok (usagePoints (usage v)) | None => Err (Errorf "strconv.ParseInt: %s" [content]) end.
Definition parseCPUAcctUsageFile : string → res (list sfxDatapoint) := singleUsage (λ v, {| us_User := None; us_System := None; us_Total := Some v |}).
Definition parseCPUAcctUsageUserFile : string → res (list sfxDatapoint) := singleUsage (λ v, {| us_User := Some v; us_System := None; us_Total := None |}).
Definition parseCPUAcctUsageSystemFile : string → res (list sfxDatapoint) := singleUsage (λ v, {| us_User := None; us_System := Some v; us_Total := None |}).
(** The position of a word is its cpu, also when a word before it is not a number. *)
Definition perCPUWord (i : nat) (word : string) : option PerCPUUsage :=
  (λ v, {| pu_Usage := {| us_User := None; us_System := None; us_Total := Some v |}; pu_CPU := Z.of_nat i |}) <$> ParseInt64 (TrimSpace word).
Definition parseCPUAcctUsagePerCPUFile (content : string) : res (list sfxDatapoint) :=
  Ok (flat_map perCPUPoints (omap id (imap perCPUWord (SplitByte content " ")))).

(** [ParseInt] when its error is ignored: 0 for a text that is no number, the nearest bound for
    one out of range. *)
Definition looseInt (s : string) : Z :=
  match ParseInt64 s with
  | Some v => v
  | None =>
      let '(neg, ds) := match s with String "-" ds => (true, ds) | String "+" ds => (false, ds) | ds => (false, ds) end%char in
      if String.eqb ds "" then 0 else match digits_value 0 ds with None => 0 | Some _ => if neg : bool then - 2 ^ 63 else 2 ^ 63 - 1 end
  end.
Fixpoint usageAllLines (lines : list string) : res (list PerCPUUsage) :=
  match lines with
  | [] => Ok []
  | line :: lines =>
      match SplitByte line " " with
      | [cpu; user; system] =>
          if String.eqb cpu "cpu" then usageAllLines lines
          else match ParseInt64 cpu with
               | None => Err (Errorf "strconv.ParseInt: %s" [cpu])
               | Some n => match usageAllLines lines with
                           | Err e => Err e
                           | Ok us => Ok ({| pu_Usage := {| us_User := Some (looseInt user); us_System := Some (looseInt system); us_Total := None |}; pu_CPU := n |} :: us)
                           end
               end
      | _ => Err (Errorf "unexpected line in cpuacct.usage_all: %v" [line])
      end
  end.
Definition parseCPUAcctUsageAllFile (content : string) : res (list sfxDatapoint) :=
  match usageAllLines (scanLines content) with Err e => Err e | Ok us => Ok (flat_map perCPUPoints us) end.

(** ** Collection *)

Notation fileParser := (string → res (list sfxDatapoint)).
Definition cpuParser (base : string) : option fileParser :=
  match base with
  | "cpu.stat" => Some parseCPUStatFile | "cpu.shares" => Some parseCPUSharesFile
  | "cpu.cfs_period_us" => Some parseCPUCFSPeriodUSFile | "cpu.cfs_quota_us" => Some parseCPUCFSQuotaUSFile | _ => None
  end.
Definition cpuacctParser (perCPU : bool) (base : string) : option fileParser :=
  match base with
  | "cpuacct.usage" => Some parseCPUAcctUsageFile | "cpuacct.usage_user" => Some parseCPUAcctUsageUserFile
  | "cpuacct.usage_sys" => Some parseCPUAcctUsageSystemFile
  | "cpuacct.usage_percpu" => if perCPU then Some parseCPUAcctUsagePerCPUFile else None
  | "cpuacct.usage_all" => if perCPU then Some parseCPUAcctUsageAllFile else None | _ => None
  end.
Definition memoryParser (base : string) : option fileParser :=
  match base with
  | "memory.stat" => Some parseMemoryStatFile | "memory.limit_in_bytes" => Some parseMemoryLimitInBytesFile
  | "memory.failcnt" => Some parseMemoryFailcntFile | "memory.max_usage_in_bytes" => Some parseMemoryMaxUsageInBytesFile | _ => None
  end.
Definition withCgroup (name : string) (d : sfxDatapoint) : sfxDatapoint :=
  {| sd_Metric := sd_Metric d; sd_Type := sd_Type d; sd_Value := sd_Value d; sd_Time := sd_Time d; sd_Dimensions := <["cgroup" := name]> (sd_Dimensions d); sd_Meta := sd_Meta d |}.
(** The points of one file, none when it cannot be opened or parsed. *)
Definition filePoints (parser : string → option fileParser) (name : string) (f : string * res string) : list sfxDatapoint :=
  match parser f.1, f.2 with
  | Some parse, Ok content => match parse content with Ok dps => map (withCgroup name) dps | Err _ => [] end
  | _, _ => []
  end.

Section collect.
Context `{MapRange} (mf : monitorFiltering) (pathFilter : BasicStringFilter).

Definition cgroupPoints (parser : string → option fileParser) (call : path * list (string * res string)) : list sfxDatapoint :=
  let name := cgroupName call.1 in
  if OverridableStringFilter_Matches pathFilter name then flat_map (filePoints parser name) call.2 else [].
Definition controllerPoints (parser : string → option fileParser) (fuel : nat) (root : dirContents) : option (list sfxDatapoint) :=
  flat_map (cgroupPoints parser) <$> walkControllerHierarchy fuel root.
Definition getCPUMetrics (fuel : nat) (root : dirContents) : option (list sfxDatapoint) :=
  if HasEnabledMetricInGroup mf "cpu" then controllerPoints cpuParser fuel root else Some [].
Definition getCPUAcctMetrics (fuel : nat) (root : dirContents) : option (list sfxDatapoint) :=
  if HasEnabledMetricInGroup mf "cpuacct" || HasEnabledMetricInGroup mf "cpuacct-per-cpu"
  then controllerPoints (cpuacctParser (HasEnabledMetricInGroup mf "cpuacct-per-cpu")) fuel root else Some [].
Definition getMemoryMetrics (fuel : nat) (root : dirContents) : option (list sfxDatapoint) :=
  if HasEnabledMetricInGroup mf "memory" then controllerPoints memoryParser fuel root else Some [].

(** ** monitor.go *)

Record mountInfo := { mo_FSType : string; mo_MountPoint : string; mo_SuperOptions : gset string }.
Record CgroupControllerPaths := { cp_CPU : string; cp_CPUAcct : string; cp_Memory : string }.
Definition addMount (ps : CgroupControllerPaths) (m : mountInfo) : CgroupControllerPaths :=
  if String.eqb (mo_FSType m) "cgroup" then
    let choose opt old := if bool_decide (opt ∈ mo_SuperOptions m) then mo_MountPoint m else old in
    {| cp_CPU := choose "cpu" (cp_CPU ps); cp_CPUAcct := choose "cpuacct" (cp_CPUAcct ps); cp_Memory := choose "memory" (cp_Memory ps) |}
  else ps.
Definition getCgroupControllerPaths (mounts : list mountInfo) : CgroupControllerPaths := foldl addMount {| cp_CPU := ""; cp_CPUAcct := ""; cp_Memory := "" |} mounts.
(** One collection; [open] is what is found at a path. *)
Definition collect (open : string → dirContents) (fuel : nat) (mounts : list mountInfo) : option (list sfxDatapoint) :=
  let ps := getCgroupControllerPaths mounts in
  if String.eqb (cp_CPUAcct ps) "" then Some []
  else
    cpu ← getCPUMetrics fuel (open (cp_CPU ps));
    acct ← getCPUAcctMetrics fuel (open (cp_CPUAcct ps));
    mem ← getMemoryMetrics fuel (open (cp_Memory ps));
    Some (cpu ++ acct ++ mem).
End collect.

(** ** genmetadata.go *)

Definition cgroupMetrics : list (string * sfxMetricType) :=
  [("cgroup.cpu_cfs_period_us", Gauge); ("cgroup.cpu_cfs_quota_us", Gauge); ("cgroup.cpu_shares", Gauge); ("cgroup.cpu_stat_nr_periods", Counter);
   ("cgroup.cpu_stat_nr_throttled", Counter); ("cgroup.cpu_stat_throttled_time", Counter); ("cgroup.cpuacct_usage_ns", Counter);
   ("cgroup.cpuacct_usage_ns_per_cpu", Counter); ("cgroup.cpuacct_usage_system_ns", Counter); ("cgroup.cpuacct_usage_system_ns_per_cpu", Counter);
   ("cgroup.cpuacct_usage_user_ns", Counter); ("cgroup.cpuacct_usage_user_ns_per_cpu", Counter); ("cgroup.memory_failcnt", Counter);
   ("cgroup.memory_limit_in_bytes", Gauge); ("cgroup.memory_max_usage_in_bytes", Gauge); ("cgroup.memory_stat_active_anon", Gauge);
   ("cgroup.memory_stat_active_file", Gauge); ("cgroup.memory_stat_cache", Gauge); ("cgroup.memory_stat_dirty", Gauge);
   ("cgroup.memory_stat_hierarchical_memory_limit", Gauge); ("cgroup.memory_stat_hierarchical_memsw_limit", Gauge);
   ("cgroup.memory_stat_inactive_anon", Gauge); ("cgroup.memory_stat_inactive_file", Gauge); ("cgroup.memory_stat_mapped_file", Gauge);
   ("cgroup.memory_stat_pgfault", Counter); ("cgroup.memory_stat_pgmajfault", Counter); ("cgroup.memory_stat_pgpgin", Counter);
   ("cgroup.memory_stat_pgpgout", Counter); ("cgroup.memory_stat_rss", Gauge); ("cgroup.memory_stat_rss_huge", Gauge);
   ("cgroup.memory_stat_shmem", Gauge); ("cgroup.memory_stat_swap", Gauge); ("cgroup.memory_stat_total_active_anon", Gauge);
   ("cgroup.memory_stat_total_active_file", Gauge); ("cgroup.memory_stat_total_cache", Gauge); ("cgroup.memory_stat_total_dirty", Gauge);
   ("cgroup.memory_stat_total_inactive_anon", Gauge); ("cgroup.memory_stat_total_inactive_file", Gauge);
   ("cgroup.memory_stat_total_mapped_file", Gauge); ("cgroup.memory_stat_total_pgfault", Counter); ("cgroup.memory_stat_total_pgmajfault", Counter);
   ("cgroup.memory_stat_total_pgpgin", Counter); ("cgroup.memory_stat_total_pgpgout", Counter); ("cgroup.memory_stat_total_rss", Gauge);
   ("cgroup.memory_stat_total_rss_huge", Gauge); ("cgroup.memory_stat_total_shmem", Gauge); ("cgroup.memory_stat_total_swap", Gauge);
   ("cgroup.memory_stat_total_unevictable", Gauge); ("cgroup.memory_stat_total_writeback", Gauge); ("cgroup.memory_stat_unevictable", Gauge);
   ("cgroup.memory_stat_writeback", Gauge)].

(** ** The walk *)

(** The directories below a node in depth first order, with their files. *)
Fixpoint dirsOf (p : path) (n : fsNode) : list (path * list (string * res string)) :=
  match n with
  | FsFile _ | FsDir None => []
  | FsDir (Some l) => (p, fileEntries l) :: flat_map (λ ne, if dotName ne.1 then [] else dirsOf (p ++ [ne.1]) ne.2) l
  end.
Fixpoint dirCount (n : fsNode) : nat :=
  match n with
  | FsFile _ => 0
  | FsDir None => 1
  | FsDir (Some l) => S (sum_list_with (λ ne, if dotName ne.1 then 0 else dirCount ne.2) l)
  end%nat.
Notation queued := (λ pc : path * dirContents, dirsOf pc.1 (FsDir pc.2)).
Notation queuedCount := (λ pc : path * dirContents, dirCount (FsDir pc.2)).

Lemma dirEntries_dirs p l : flat_map queued (dirEntries p l) = flat_map (λ ne, if dotName ne.1 then [] else dirsOf (p ++ [ne.1]) ne.2) l.
Proof.
  unfold dirEntries. induction l as [|[name n] l IH]; [done|]. cbn [omap list_omap fst snd]. destruct n as [c|c]; cbn [flat_map fst snd].
  - destruct (dotName name); exact IH.
  - destruct (dotName name); [exact IH|]. cbn [flat_map fst snd]. f_equal. exact IH.
Qed.
Lemma dirEntries_count p l : sum_list_with queuedCount (dirEntries p l) = sum_list_with (λ ne, if dotName ne.1 then 0 else dirCount ne.2)%nat l.
Proof.
  unfold dirEntries. induction l as [|[name n] l IH]; [done|]. cbn [omap list_omap fst snd]. destruct n as [c|c]; cbn [sum_list_with fst snd].
  - destruct (dotName name); exact IH.
  - destruct (dotName name); [exact IH|]. cbn [sum_list_with fst snd]. f_equal. exact IH.
Qed.
Lemma dirCount_dir l : dirCount (FsDir (Some l)) = S (sum_list_with (λ ne, if dotName ne.1 then 0 else dirCount ne.2)%nat l).
Proof. done. Qed.
Lemma dirCount_pos c : (0 < dirCount (FsDir c))%nat.
Proof. destruct c; cbn; lia. Qed.

Lemma walkLoop_perm fuel dirs : (sum_list_with queuedCount dirs ≤ fuel)%nat → ∃ calls, walkLoop fuel dirs = Some calls ∧ calls ≡ₚ flat_map queued dirs.
Proof.
  revert dirs. induction fuel as [|fuel IH]; intros [|[p c] dirs] Hf; cbn [walkLoop]; [by exists []| |by exists []|].
  - cbn [sum_list_with snd] in Hf. pose proof (dirCount_pos c). lia.
  - cbn [sum_list_with snd] in Hf. destruct c as [l|].
    + destruct (IH (dirs ++ dirEntries p l)) as (calls & -> & Hp).
      { rewrite sum_list_with_app, dirEntries_count. rewrite dirCount_dir in Hf. lia. }
      eexists. split; [done|]. cbn [flat_map fst snd dirsOf app]. rewrite Hp, flat_map_app, dirEntries_dirs. by rewrite Permutation_app_comm.
    + destruct (IH dirs) as (calls & -> & Hp); [change (dirCount (FsDir None)) with 1%nat in Hf; lia|]. by exists calls.
Qed.

(** The walk ends, with fuel for the directories of the hierarchy, and calls back exactly
    once for each directory that can be read, with its files. *)
Theorem walk_visits_once fuel root : (dirCount (FsDir root) ≤ fuel)%nat →
  ∃ calls, walkControllerHierarchy fuel root = Some calls ∧ calls ≡ₚ dirsOf [] (FsDir root).
Proof.
  intros Hf. destruct (walkLoop_perm fuel [([], root)]) as (calls & Hc & Hp); [cbn [sum_list_with snd]; lia|]. exists calls. split; [exact Hc|].
  rewrite Hp. cbn [flat_map fst snd]. by rewrite app_nil_r.
Qed.

(** ** Parsing *)

(** A line of a statistics file: its key, the text of its value and the value. *)
Record statEntry := { en_key : string; en_text : string; en_value : Z }.
Definition plainByte (c : ascii) : bool := negb (Ascii.eqb c " " || Ascii.eqb c "010" || Ascii.eqb c "013")%char.
Fixpoint plainText (s : string) : bool := match s with EmptyString => true | String c s => plainByte c && plainText s end.
Definition entryLine (e : statEntry) : string := en_key e +:+ String " " (en_text e).
Definition entry_ok (e : statEntry) : bool :=
  plainText (en_key e) && plainText (en_text e) && bool_decide (ParseInt64 (en_text e) = Some (en_value e)) && fits (entryLine e).
Definition newline : string := String "010"%char "".
Fixpoint statFile (l : list statEntry) : string := match l with [] => "" | e :: l => entryLine e +:+ newline +:+ statFile l end.

Lemma plainText_no s c : plainText s = true → plainByte c = false → ContainsByte s c = false.
Proof.
  induction s as [|d s IH]; [done|]. cbn [plainText]. intros [Hd Hs]%andb_true_iff Hc. rewrite ContainsByte_cons, IH by done. rewrite orb_false_r.
  destruct (Ascii.eqb_spec d c) as [->|]; [congruence|done].
Qed.
Lemma dropCR_plain s : ContainsByte s "013"%char = false → dropCR s = s.
Proof.
  intros Hs. unfold dropCR, TrimSuffix. destruct (HasSuffix s _) eqn:Hp; [|done]. apply HasSuffix_spec in Hp as [t ->]. rewrite ContainsByte_append in Hs.
  apply orb_false_iff in Hs as [_ Hs]. by vm_compute in Hs.
Qed.
Lemma entry_ok_parts e : entry_ok e = true → plainText (en_key e) = true ∧ plainText (en_text e) = true ∧ ParseInt64 (en_text e) = Some (en_value e) ∧ fits (entryLine e) = true.
Proof. unfold entry_ok. rewrite !andb_true_iff, bool_decide_eq_true. tauto. Qed.
Lemma entryLine_no e c : entry_ok e = true → plainByte c = false → c ≠ " "%char → ContainsByte (entryLine e) c = false.
Proof.
  intros (Hk & Ht & _)%entry_ok_parts Hc Hs. unfold entryLine. rewrite ContainsByte_append, ContainsByte_cons, !plainText_no by done. cbn [orb].
  rewrite orb_false_r. by destruct (Ascii.eqb_spec " " c) as [<-|].
Qed.
Lemma statFile_parts l : forallb entry_ok l = true → SplitByte (statFile l) "010"%char = map entryLine l ++ [""].
Proof.
  induction l as [|e l IH]; [done|]. cbn [forallb statFile map app]. intros [He Hl]%andb_true_iff. change (newline +:+ statFile l) with (String "010"%char (statFile l)).
  rewrite SplitByte_app by by apply entryLine_no. by rewrite IH.
Qed.
Lemma scanLines_file l : forallb entry_ok l = true → scanLines (statFile l) = map entryLine l.
Proof.
  intros Hl. unfold scanLines, rawLines. rewrite (statFile_parts l Hl), last_snoc, length_app, length_map. cbn [length]. replace (length l + 1 - 1)%nat with (length l) by lia.
  rewrite take_app_le, take_ge by (rewrite length_map; lia).
  rewrite takeWhile_all by (apply forallb_forall; intros x (e & <- & He)%in_map_iff; rewrite forallb_forall in Hl; by apply entry_ok_parts, Hl).
  rewrite map_map. apply map_ext_in. intros e He. rewrite forallb_forall in Hl. specialize (Hl e He).
  apply dropCR_plain. by apply entryLine_no.
Qed.
Lemma statLine_entry file e : entry_ok e = true → statLine file (entryLine e) = Ok (en_key e, en_value e).
Proof.
  intros (Hk & Ht & Hv & _)%entry_ok_parts. unfold statLine, entryLine. rewrite SplitByte_app by by apply plainText_no. rewrite SplitByte_plain by by apply plainText_no. by rewrite Hv.
Qed.
Lemma statLines_file file point l : forallb entry_ok l = true → statLines file point (scanLines (statFile l)) = Ok (map (λ e, point (en_key e) (en_value e)) l).
Proof.
  intros Hl. rewrite (scanLines_file l Hl). induction l as [|e l IH]; [done|]. cbn [forallb] in Hl. apply andb_true_iff in Hl as [He Hl]. cbn [map statLines].
  by rewrite (statLine_entry file e He), (IH Hl).
Qed.

(** A memory statistics file, a line with a key and a number per entry, is parsed to one point
    per line, in order, with the number as its value; the counters of page events are
    cumulative and the others gauges. *)
Theorem parseMemoryStatFile_roundtrip l : forallb entry_ok l = true →
  parseMemoryStatFile (statFile l) = Ok (map (λ e, memoryStatPoint (en_key e) (en_value e)) l).
Proof. apply statLines_file. Qed.
Lemma parseCPUStatFile_roundtrip l : forallb entry_ok l = true →
  parseCPUStatFile (statFile l) = Ok (map (λ e, cumulative ("cgroup.cpu_stat_" +:+ en_key e) (en_value e)) l).
Proof. apply statLines_file. Qed.

(** ** Collection *)

Section collected.
Context `{MapRange} (mf : monitorFiltering) (pathFilter : BasicStringFilter).

(** The points of a controller are those of the parsed files of the directories that the
    filter keeps. *)
Lemma controllerPoints_iff parser fuel root : (dirCount (FsDir root) ≤ fuel)%nat → ∃ dps, controllerPoints pathFilter parser fuel root = Some dps ∧
  ∀ d, d ∈ dps ↔ ∃ p files f content parse points d0, (p, files) ∈ dirsOf [] (FsDir root) ∧ OverridableStringFilter_Matches pathFilter (cgroupName p) = true ∧
    (f, Ok content) ∈ files ∧ parser f = Some parse ∧ parse content = Ok points ∧ d0 ∈ points ∧ d = withCgroup (cgroupName p) d0.
Proof.
  intros Hf. destruct (walkLoop_perm fuel [([], root)]) as (calls & Hc & Hp); [cbn [sum_list_with snd]; lia|]. cbn [flat_map fst snd] in Hp. rewrite app_nil_r in Hp.
  unfold controllerPoints, walkControllerHierarchy. rewrite Hc. eexists. split; [done|]. intros d. rewrite list_elem_of_In, in_flat_map. split.
  - intros ([p files] & Hin & Hd). apply list_elem_of_In in Hin. rewrite Hp in Hin. unfold cgroupPoints in Hd. cbn [fst snd] in Hd.
    destruct (OverridableStringFilter_Matches pathFilter (cgroupName p)) eqn:Hm; [|done]. apply in_flat_map in Hd as ([f c] & Hff & Hd). unfold filePoints in Hd. cbn [fst snd] in Hd.
    destruct (parser f) as [parse|] eqn:Hpf; [|done]. destruct c as [content|]; [|done]. destruct (parse content) as [points|] eqn:Hpc; [|done].
    apply in_map_iff in Hd as (d0 & <- & Hd0). exists p, files, f, content, parse, points, d0. rewrite !list_elem_of_In. rewrite list_elem_of_In in Hin. done.
  - intros (p & files & f & content & parse & points & d0 & Hin & Hm & Hff & Hpf & Hpc & Hd0 & ->). exists (p, files). rewrite <-list_elem_of_In. split; [by rewrite Hp|].
    unfold cgroupPoints. cbn [fst snd]. rewrite Hm. apply in_flat_map. exists (f, Ok content). split; [by apply list_elem_of_In|]. unfold filePoints. cbn [fst snd].
    rewrite Hpf, Hpc. apply in_map. by apply list_elem_of_In.
Qed.
End collected.

(** When memory metrics are enabled, collection ends and gives exactly the points parsed from
    the memory files of every readable cgroup that the filter keeps, with the cgroup's name
    as a dimension. *)
Theorem getMemoryMetrics_correct `{MapRange} mf pathFilter fuel root : HasEnabledMetricInGroup mf "memory" = true → (dirCount (FsDir root) ≤ fuel)%nat →
  ∃ dps, getMemoryMetrics mf pathFilter fuel root = Some dps ∧
  ∀ d, d ∈ dps ↔ ∃ p files f content parse points d0, (p, files) ∈ dirsOf [] (FsDir root) ∧ OverridableStringFilter_Matches pathFilter (cgroupName p) = true ∧
    (f, Ok content) ∈ files ∧ memoryParser f = Some parse ∧ parse content = Ok points ∧ d0 ∈ points ∧ d = withCgroup (cgroupName p) d0.
Proof. intros He Hf. unfold getMemoryMetrics. rewrite He. by apply controllerPoints_iff. Qed.

(** Without a mount of the cpuacct controller nothing is collected, whatever else is
    mounted. *)
Lemma no_cpuacct_nothing `{MapRange} mf pathFilter open fuel mounts : Forall (λ m, "cpuacct" ∉ mo_SuperOptions m) mounts → collect mf pathFilter open fuel mounts = Some [].
Proof.
  intros Hm. unfold collect. assert (Hc : cp_CPUAcct (getCgroupControllerPaths mounts) = ""); [|by rewrite Hc].
  unfold getCgroupControllerPaths. assert (Hgen : ∀ ps, cp_CPUAcct ps = "" → cp_CPUAcct (foldl addMount ps mounts) = ""); [|by apply Hgen].
  induction Hm as [|m mounts Hmm Hms IH]; intros ps Hps; [done|]. cbn [foldl]. apply IH. unfold addMount. destruct (String.eqb _ _); [|done]. cbn. by rewrite bool_decide_false.
Qed.
(** A cgroup whose name starts with a dot is reported without it. *)
Lemma dot_cgroup : cgroupName [".hidden"] = "/hidden" ∧ cgroupName ["hidden"] = "/hidden" ∧ cgroupName [] = "/".
Proof. by vm_compute. Qed.
(** The memory statistics have the declared types. *)
#[local] Instance cg_type_eq_dec : EqDecision sfxMetricType.
Proof. solve_decision. Defined.
Lemma memory_types : forallb (λ nt, if HasPrefix nt.1 "cgroup.memory_stat_"
  then bool_decide (sd_Type (memoryStatPoint (TrimPrefix nt.1 "cgroup.memory_stat_") 0) = nt.2) else true) cgroupMetrics = true.
Proof. vm_compute. reflexivity. Qed.

(** ** Witnesses *)

(** A root with one readable and one unreadable cgroup. *)
Definition demo_entries : list statEntry := [{| en_key := "cache"; en_text := "12"; en_value := 12 |}; {| en_key := "pgfault"; en_text := "7"; en_value := 7 |}].
Definition demo_root : dirContents :=
  Some [("docker", FsDir (Some [("memory.stat", FsFile (Ok (statFile demo_entries))); ("tasks", FsFile (Ok "1"))])); ("locked", FsDir None); ("memory.failcnt", FsFile (Err (Errorf "gone" [])))].
Lemma walk_visits_once_witness : ∃ calls, walkControllerHierarchy 3 demo_root = Some calls ∧ calls ≡ₚ dirsOf [] (FsDir demo_root).
Proof. apply (walk_visits_once 3 demo_root). vm_compute. lia. Defined.
Lemma parseMemoryStatFile_roundtrip_witness :
  statFile demo_entries = "cache 12
pgfault 7
" ∧ parseMemoryStatFile (statFile demo_entries) = Ok (map (λ e, memoryStatPoint (en_key e) (en_value e)) demo_entries).
Proof. split; [reflexivity|]. apply (parseMemoryStatFile_roundtrip demo_entries). vm_compute. reflexivity. Defined.
Definition demo_filtering : monitorFiltering := {|
  mf_filterSet := {| ExcludeFilters := []; IncludeFilters := [] |};
  mf_metadata := Some {| MonitorType := "cgroups"; SendAll := false; SendUnknown := false; DefaultMetrics := ∅;
                         MetricGroups := {["cgroup.memory_stat_cache" := "memory"]}; GroupMetricsMap := ∅ |};
  mf_hasExtraMetrics := false |}.
Definition demo_filter : BasicStringFilter := {| staticSet := {["/docker" := false]}; regexps := []; globs := []; anyStaticNegated := false |}.
Lemma getMemoryMetrics_correct_witness :
  @getMemoryMetrics forward_range demo_filtering demo_filter 3 demo_root = Some (map (withCgroup "/docker") [memoryStatPoint "cache" 12; memoryStatPoint "pgfault" 7]) ∧
  ∃ dps, @getMemoryMetrics forward_range demo_filtering demo_filter 3 demo_root = Some dps ∧
  ∀ d, d ∈ dps ↔ ∃ p files f content parse points d0, (p, files) ∈ dirsOf [] (FsDir demo_root) ∧ OverridableStringFilter_Matches demo_filter (cgroupName p) = true ∧
    (f, Ok content) ∈ files ∧ memoryParser f = Some parse ∧ parse content = Ok points ∧ d0 ∈ points ∧ d = withCgroup (cgroupName p) d0.
Proof.
  split; [vm_compute; reflexivity|]. apply (@getMemoryMetrics_correct forward_range demo_filtering demo_filter 3 demo_root); [vm_compute; reflexivity|]. vm_compute. lia.
Defined.
