(* ===== verification/K8sEvents.v ===== *)
(** * The Kubernetes events and volumes monitors

    [src/internal/signalfx-agent/pkg/monitors/kubernetes/events/events.go]: the loop that
    follows the leadership of the agent, the choice of events and their conversion;
    [kubernetes/volumes]: the metrics of volumes ([volumes.go]) and the cache of their
    dimensions ([pvdim.go]).  The Kubernetes API's answers are parameters; times are
    seconds. *)

From S2P Require Import Prelude GoStrings GoValue Outcome Settings Telemetry SmartAgent HostMonitors Leadership.
From Stdlib Require Import Ascii.
#[local] Open Scope Z_scope.

(** ** The loop of the events monitor *)

(** [syncStopper], the informers that run, and the number of those started. *)
Record eventSync := { ev_stopper : option nat; ev_running : gset nat; ev_next : nat }.
Definition runSync (s : eventSync) : eventSync := {| ev_stopper := Some (ev_next s); ev_running := {[ev_next s]} ∪ ev_running s; ev_next := S (ev_next s) |}.
(** Closing a nil channel panics. *)
Definition onLeader (isLeader : bool) (s : eventSync) : outcome eventSync :=
  if isLeader then Done (runSync s)
  else match ev_stopper s with
       | None => Panics
       | Some n => Done {| ev_stopper := None; ev_running := ev_running s ∖ {[n]}; ev_next := ev_next s |}
       end.
Fixpoint leaderLoop (received : list bool) (s : eventSync) : outcome eventSync :=
  match received with [] => Done s | b :: received => s ← onLeader b s; leaderLoop received s end.
Definition onStop (s : eventSync) : eventSync :=
  match ev_stopper s with Some n => {| ev_stopper := Some n; ev_running := ev_running s ∖ {[n]}; ev_next := ev_next s |} | None => s end.
Definition startEvents (alwaysReport : bool) : eventSync :=
  let s := {| ev_stopper := None; ev_running := ∅; ev_next := 0 |} in if alwaysReport then runSync s else s.

(** ** Events *)

Record EventInclusionSpec := { sp_Reason : string; sp_InvolvedObjectKind : string }.
#[global] Instance EventInclusionSpec_eq_dec : EqDecision EventInclusionSpec.
Proof. solve_decision. Defined.
Record k8sEvent := {
  ke_Reason : string; ke_Kind : string; ke_Namespace : string; ke_FieldPath : string; ke_Name : string; ke_UID : string; ke_ResourceVersion : string;
  ke_Message : string; ke_Component : string; ke_Host : string; ke_Type : string; ke_LastTimestamp : Z;
}.
Record eventsMonitor := { em_sendAllEvents : bool; em_whitelist : list EventInclusionSpec }.
Definition lowerSpec (s : EventInclusionSpec) : EventInclusionSpec := {| sp_Reason := ToLower (sp_Reason s); sp_InvolvedObjectKind := ToLower (sp_InvolvedObjectKind s) |}.
Definition configureEvents (sendAll : bool) (specs : list EventInclusionSpec) : eventsMonitor := {| em_sendAllEvents := sendAll; em_whitelist := map lowerSpec specs |}.
Definition shouldSendEvent (m : eventsMonitor) (now : Z) (ev : k8sEvent) : bool :=
  if ke_LastTimestamp ev <? now - 60 then false
  else if em_sendAllEvents m then true
  else bool_decide ({| sp_Reason := ToLower (ke_Reason ev); sp_InvolvedObjectKind := ToLower (ke_Kind ev) |} ∈ em_whitelist m).

Definition RemoveEmptyMapValues (m : gmap string string) : gmap string string := filter (λ kv : string * string, kv.2 ≠ "") m.
Definition StringMapToInterfaceMap (m : gmap string string) : gmap string any := AString <$> m.
Definition eventDims (ev : k8sEvent) : gmap string string :=
  let dims := {["kubernetes_kind" := ke_Kind ev; "kubernetes_namespace" := ke_Namespace ev; "obj_field_path" := ke_FieldPath ev]} in
  if String.eqb (ke_Kind ev) "Pod" then <["kubernetes_pod_uid" := ke_UID ev]> (<["kubernetes_pod_name" := ke_Name ev]> dims)
  else if String.eqb (ke_Kind ev) "Node" then <["kubernetes_node_uid" := ke_UID ev]> (<["kubernetes_node" := ke_Name ev]> dims)
  else <["kubernetes_uid" := ke_UID ev]> (<["kubernetes_name" := ke_Name ev]> dims).

Section conversion.
(** [event.AGENT] *)
Context (AGENT : Z).

Definition k8sEventToSignalFxEvent (ev : k8sEvent) : sfxEvent :=
  {| se_Time := Some (ke_LastTimestamp ev); se_Type := if String.eqb (ke_Reason ev) "" then "unknown_reason" else ke_Reason ev; se_Category := AGENT;
     se_Dimensions := RemoveEmptyMapValues (eventDims ev);
     se_Properties := StringMapToInterfaceMap (RemoveEmptyMapValues
       {["message" := ke_Message ev; "source_component" := ke_Component ev; "source_host" := ke_Host ev; "kubernetes_event_type" := ke_Type ev;
         "kubernetes_resource_version" := ke_ResourceVersion ev]}) |}.
Definition handleNewEvent (m : eventsMonitor) (now : Z) (ev : k8sEvent) : list sfxEvent :=
  if shouldSendEvent m now ev
  then let e := k8sEventToSignalFxEvent ev in
       [{| se_Time := se_Time e; se_Type := se_Type e; se_Category := se_Category e; se_Dimensions := se_Dimensions e;
           se_Properties := <["sfx-not-host-specific" := ABool true]> (se_Properties e) |}]
  else [].
End conversion.

(** ** pvdim.go *)

(** The source of a volume, of which exactly one is set. *)
Inductive volumeSource :=
| PersistentVolumeClaim (claimName : string)
| AWSElasticBlockStore (volumeID fsType : string) (partition : Z)
| GCEPersistentDisk (pdName fsType : string) (partition : Z)
| Glusterfs (endpoints glusterPath : string)
| ConfigMapVolume | DownwardAPIVolume | EmptyDirVolume | SecretVolume | OtherVolume.
(** The API: the volumes of a pod by namespace and name, the volume name of a claim by
    namespace and name, and the source of a persistent volume. *)
Record kubeAPI := {
  ka_pod : string → string → res (list (string * volumeSource)); ka_claim : string → string → res string; ka_volume : string → res volumeSource;
}.
Definition awsElasticBlockStoreDims (id fs : string) (partition : Z) : gmap string string :=
  {["volume_type" := "awsElasticBlockStore"; "VolumeId" := id; "fs_type" := fs; "partition" := pretty partition]}.
Definition gcePersistentDiskDims (name fs : string) (partition : Z) : gmap string string :=
  {["volume_type" := "gcePersistentDisk"; "pd_name" := name; "fs_type" := fs; "partition" := pretty partition]}.
Definition glusterfsDims (endpoints p : string) : gmap string string := {["volume_type" := "glusterfs"; "endpoints_name" := endpoints; "glusterfs_path" := p]}.
(** A nil map is the empty one. *)
Definition dimsForPersistentVolumeSource (v : volumeSource) : gmap string string :=
  match v with
  | AWSElasticBlockStore id fs n => awsElasticBlockStoreDims id fs n
  | GCEPersistentDisk name fs n => gcePersistentDiskDims name fs n
  | Glusterfs e p => glusterfsDims e p
  | _ => ∅
  end.
Definition dimsForPersistentVolumeClaim (api : kubeAPI) (claim namespace : string) : res (gmap string string) :=
  match ka_claim api namespace claim with
  | Err e => Err e
  | Ok volName =>
      if String.eqb volName "" then Err (Errorf "PersistentVolumeClaim %s does not have a volume name" [claim])
      else match ka_volume api volName with Err e => Err e | Ok v => Ok (dimsForPersistentVolumeSource v) end
  end.
Definition dimsForVolumeSource (api : kubeAPI) (v : volumeSource) (namespace : string) : res (gmap string string) :=
  match v with
  | PersistentVolumeClaim claim => dimsForPersistentVolumeClaim api claim namespace
  | AWSElasticBlockStore id fs n => Ok (awsElasticBlockStoreDims id fs n)
  | GCEPersistentDisk name fs n => Ok (gcePersistentDiskDims name fs n)
  | Glusterfs e p => Ok (glusterfsDims e p)
  | ConfigMapVolume => Ok {["volume_type" := "configMap"]}
  | DownwardAPIVolume => Ok {["volume_type" := "downwardAPI"]}
  | EmptyDirVolume => Ok {["volume_type" := "emptyDir"]}
  | SecretVolume => Ok {["volume_type" := "secret"]}
  | OtherVolume => Ok ∅
  end.
Definition findVolumeInPod (volumes : list (string * volumeSource)) (volName : string) : option volumeSource := snd <$> List.find (λ nv, String.eqb nv.1 volName) volumes.
Notation dimCache := (gmap string (gmap string string)).
Definition cacheKey (uid volName : string) : string := uid +:+ ":" +:+ volName.
(** What the API says about a volume of a pod. *)
Definition lookupDims (api : kubeAPI) (podName namespace volName : string) : res (gmap string string) :=
  match ka_pod api namespace podName with
  | Err e => Err e
  | Ok volumes => match findVolumeInPod volumes volName with
                  | None => Err (Errorf "could not find volume in pod spec" [])
                  | Some v => dimsForVolumeSource api v namespace
                  end
  end.
Definition volumeIDDimsForPod (api : kubeAPI) (podName namespace uid volName : string) (c : dimCache) : res (gmap string string) * dimCache :=
  match c !! cacheKey uid volName with
  | Some dims => (Ok dims, c)
  | None => match lookupDims api podName namespace volName with Err e => (Err e, c) | Ok dims => (Ok dims, <[cacheKey uid volName := dims]> c) end
  end.

(** ** volumes.go *)

Record VolumeStats := { vs_Name : string; vs_AvailableBytes : option Z; vs_CapacityBytes : option Z; vs_Inodes : option Z; vs_InodesFree : option Z; vs_InodesUsed : option Z }.
Record podSummary := { ps_Name : string; ps_Namespace : string; ps_UID : string; ps_Volumes : list VolumeStats }.
Definition volumeGauge (dims : gmap string string) (name : string) (v : option Z) : list sfxDatapoint := option_list ((λ v, mkDatapoint name Gauge (IntValue (wrap64 v)) dims) <$> v).
Definition baseDims (p : podSummary) (v : VolumeStats) : gmap string string :=
  {["volume" := vs_Name v; "kubernetes_pod_uid" := ps_UID p; "kubernetes_pod_name" := ps_Name p; "kubernetes_namespace" := ps_Namespace p]}.
Definition volumePoints (dims : gmap string string) (v : VolumeStats) : list sfxDatapoint :=
  volumeGauge dims "kubernetes.volume_available_bytes" (vs_AvailableBytes v) ++ volumeGauge dims "kubernetes.volume_capacity_bytes" (vs_CapacityBytes v) ++
  volumeGauge dims "kubernetes.volume_inodes" (vs_Inodes v) ++ volumeGauge dims "kubernetes.volume_inodes_free" (vs_InodesFree v) ++
  volumeGauge dims "kubernetes.volume_inodes_used" (vs_InodesUsed v).
(** The dimensions of the volume's source come over those of the pod. *)
Definition withSource (r : res (gmap string string)) (dims : gmap string string) : gmap string string := match r with Ok d => d ∪ dims | Err _ => dims end.
Fixpoint podVolumes (api : kubeAPI) (p : podSummary) (l : list VolumeStats) (c : dimCache) : list sfxDatapoint * dimCache :=
  match l with
  | [] => ([], c)
  | v :: l =>
      let '(r, c) := volumeIDDimsForPod api (ps_Name p) (ps_Namespace p) (ps_UID p) (vs_Name v) c in
      let '(dps, c) := podVolumes api p l c in
      (volumePoints (withSource r (baseDims p v)) v ++ dps, c)
  end.
Fixpoint summaryVolumes (api : kubeAPI) (l : list podSummary) (c : dimCache) : list sfxDatapoint * dimCache :=
  match l with
  | [] => ([], c)
  | p :: l => let '(dps, c) := podVolumes api p (ps_Volumes p) c in let '(dps', c) := summaryVolumes api l c in (dps ++ dps', c)
  end.
Definition getVolumeMetrics (api : kubeAPI) (summary : res (list podSummary)) (c : dimCache) : res (list sfxDatapoint) * dimCache :=
  match summary with Err e => (Err e, c) | Ok pods => let '(dps, c) := summaryVolumes api pods c in (Ok dps, c) end.

(** ** Leadership and the events monitor *)

(** What a channel was sent, by the state of the election: nothing before the agent's first
    term, true in it and from then on only false. *)
Definition term_ok (s : leadership) (c : notice) : Prop :=
  match cb s with
  | Sending true ids => nc_sent c = if bool_decide (nc_id c ∈ ids) then [] else [true]
  | _ => if isLeader s then ∃ n, nc_sent c = true :: repeat false n else nc_sent c = []
  end.
Record term_inv (s : leadership) : Prop := {
  te_chans : Forall (term_ok s) (noticeChans s);
  te_cb : match cb s with CallbackIdle => True | Sending true ids => NoDup ids ∧ isLeader s = false | Sending false _ => isLeader s = true end;
}.

Lemma step_term_inv nodeName s s' : step nodeName s s' → lead_inv s → term_inv s → term_inv s'.
Proof.
  intros Hs Hlead [H1 H2]. destruct Hs as [s e Hc|s id Hc|s identity Hc Hst|s v id ids c Hc Hin Hid Hbuf|s v Hc|s id].
  - unfold RequestLeaderNotification. destruct (if started s then None else e); [by constructor|]. constructor; [|cbn; by rewrite Hc].
    apply Forall_app. split; [exact H1|]. repeat constructor. unfold term_ok, newNotice. cbn. rewrite Hc. destruct (isLeader s); [by exists 0%nat | done].
  - constructor; [by apply Forall_removeNotice | cbn; by rewrite Hc].
  - unfold term_ok in H1. rewrite Hc in H1. unfold OnNewLeader. destruct (isLeader s) eqn:Hl, (String.eqb identity nodeName); cbn; constructor; unfold term_ok; cbn; try done.
    + rewrite Forall_forall in H1. apply Forall_forall. intros c Hin. rewrite bool_decide_true; [by apply H1|]. by apply (list_elem_of_fmap_2 nc_id).
    + split; [apply (li_unique s Hlead) | done].
  - unfold term_ok in H1. rewrite Hc in H1, H2. destruct v.
    + destruct H2 as [Hnd Hl]. apply NoDup_cons in Hnd as [Hni Hnd]. constructor; [|done]. unfold term_ok. cbn. eapply Forall_onNotice; [| |exact H1]; cbn.
      * intros d Hd Hdi. rewrite bool_decide_true in Hd by (rewrite Hdi; by left). rewrite Hd, bool_decide_false by by rewrite Hdi. done.
      * intros d Hd Hdi. rewrite Hd. by rewrite (bool_decide_ext (nc_id d ∈ id :: ids) (nc_id d ∈ ids)) by (rewrite elem_of_cons; tauto).
    + constructor; [|done]. unfold term_ok. cbn. rewrite H2 in *. eapply Forall_onNotice; [| |exact H1]; cbn; [|done].
      intros d [n ->] _. exists (S n). rewrite <-app_comm_cons. f_equal. symmetry. apply repeat_cons.
  - unfold term_ok in H1. rewrite Hc in H1, H2. constructor; [|done]. unfold term_ok. destruct v; cbn.
    + eapply Forall_impl; [exact H1|]. intros d Hd. cbn in Hd. rewrite bool_decide_false in Hd by apply not_elem_of_nil. by exists 0%nat.
    + done.
  - constructor; [|done]. unfold term_ok in *. cbn. eapply Forall_onNotice; [| |exact H1]; done.
Qed.
Lemma reachable_one_term nodeName s c : reachable nodeName s → c ∈ noticeChans s → nc_sent c = [] ∨ ∃ n, nc_sent c = true :: repeat false n.
Proof.
  intros Hr Hc. assert (Hinv : lead_inv s ∧ term_inv s).
  { revert Hr. refine (rtc_ind_r (λ s, lead_inv s ∧ term_inv s) _ _ _ s).
    - split; constructor; cbn; try done; constructor.
    - intros a b _ Hab [IH1 IH2]. split; [by eapply step_lead_inv | by eapply step_term_inv]. }
  destruct Hinv as [_ [Hall _]]. rewrite Forall_forall in Hall. specialize (Hall c Hc). unfold term_ok in Hall.
  destruct (cb s) as [|[] ids]; [destruct (isLeader s); auto| |destruct (isLeader s); auto]. rewrite Hall. case_bool_decide; [by left|]. right. by exists 0%nat.
Qed.

Lemma leaderLoop_app l1 l2 s : leaderLoop (l1 ++ l2) s = leaderLoop l1 s ≫= leaderLoop l2.
Proof. revert s. induction l1 as [|b l1 IH]; intros s; [done|]. cbn [leaderLoop app]. destruct (onLeader b s); cbn; [apply IH | done..]. Qed.
Lemma two_falses_panic s n : leaderLoop (repeat false (2 + n)) s = Panics.
Proof. cbn [repeat Nat.add leaderLoop]. cbn [onLeader]. by destruct (ev_stopper s). Qed.
Lemma leaderLoop_no_fail l s e : leaderLoop l s ≠ Failed e.
Proof. revert s. induction l as [|b l IH]; intros s; [done|]. cbn [leaderLoop]. destruct b; cbn [onLeader]; [apply IH|]. destruct (ev_stopper s); [apply IH | done]. Qed.

Lemma repeat_prefix {A} (x : A) n l r : repeat x n = l ++ r → l = repeat x (length l).
Proof. revert n. induction l as [|y l IH]; intros [|n] Heq; [done..|]. injection Heq as <- Heq. cbn. f_equal. by eapply IH. Qed.

(** C29: Whatever the order of elections and subscriptions, the events monitor runs at most one
    informer; and when another agent and then a third become leader after it, receiving the
    second notice panics, because the lost leadership is announced each time. *)
Theorem events_monitor_leadership nodeName s c received rest :
  reachable nodeName s → c ∈ noticeChans s → nc_sent c = received ++ rest →
  (∀ st, leaderLoop received (startEvents false) = Done st → (size (ev_running st) ≤ 1)%nat) ∧
  ((3 ≤ length received)%nat ↔ leaderLoop received (startEvents false) = Panics).
Proof.
  intros Hr Hc Hsent. destruct received as [|b received]; [split; [intros st [= <-]; vm_compute; lia | by cbn; split; [lia|]]|].
  destruct (reachable_one_term nodeName s c Hr Hc) as [Hs|[n Hs]]; rewrite Hs in Hsent; [done|]. injection Hsent as <- Hf.
  apply repeat_prefix in Hf. rewrite Hf. generalize (length received) as k. intros k. rewrite length_cons, repeat_length. destruct k as [|[|k]]; [| |split].
  - split; [intros st [= <-]; vm_compute; lia | split; [cbn; lia|done]].
  - split; [intros st [= <-]; vm_compute; lia | split; [cbn; lia|done]].
  - intros st Hst. change (leaderLoop (repeat false (2 + k)) (runSync (startEvents false)) = Done st) in Hst. by rewrite two_falses_panic in Hst.
  - split; [intros _ | cbn; lia]. exact (two_falses_panic (runSync (startEvents false)) k).
Qed.

(** An event is sent when it is less than a minute old and all events are wanted, or its reason
    and kind are those of a configured one in any case of letters. *)
Lemma event_sent_iff AGENT sendAll specs now ev : handleNewEvent AGENT (configureEvents sendAll specs) now ev ≠ [] ↔
  now - 60 ≤ ke_LastTimestamp ev ∧ (sendAll = true ∨ ∃ sp, sp ∈ specs ∧ ToLower (sp_Reason sp) = ToLower (ke_Reason ev) ∧ ToLower (sp_InvolvedObjectKind sp) = ToLower (ke_Kind ev)).
Proof.
  unfold handleNewEvent, shouldSendEvent. cbn [em_sendAllEvents em_whitelist configureEvents]. destruct (Z.ltb_spec (ke_LastTimestamp ev) (now - 60)); [split; [done|lia]|].
  destruct sendAll; [split; [by auto|done]|]. case_bool_decide as Hin; split; try done.
  - intros _. split; [lia|]. right. apply list_elem_of_fmap in Hin as (sp & [= H1 H2] & Hin). by exists sp.
  - intros (_ & [?|(sp & Hsp & H1 & H2)]); [done|]. destruct Hin. apply list_elem_of_fmap. exists sp. split; [|done]. unfold lowerSpec. by rewrite H1, H2.
Qed.
(** The dimensions and properties of an event have no empty value. *)
Lemma event_values AGENT ev k v : se_Dimensions (k8sEventToSignalFxEvent AGENT ev) !! k = Some v → v ≠ "".
Proof. cbn. by intros [_ ?]%map_lookup_filter_Some. Qed.

(** ** The cache of volume dimensions *)

Definition plainID (s : string) : Prop := ContainsByte s ":"%char = false.
Lemma cacheKey_inj uid vol uid' vol' : plainID uid → plainID uid' → cacheKey uid vol = cacheKey uid' vol' → uid = uid' ∧ vol = vol'.
Proof.
  intros Hu Hu' Heq. unfold cacheKey in Heq. change (":" +:+ vol) with (String ":"%char vol) in Heq. change (":" +:+ vol') with (String ":"%char vol') in Heq.
  assert (Hs : uid :: SplitByte vol ":"%char = uid' :: SplitByte vol' ":"%char) by (by rewrite <-!SplitByte_app, Heq). injection Hs as -> Hs. split; [done|].
  by rewrite <-(Join_SplitByte vol ":"%char), Hs, Join_SplitByte.
Qed.

(** *** What the volumes should be sent with *)

(** A volume of a pod that was met, with the API as it was then. *)
Record meeting := { mt_api : kubeAPI; mt_pod : podSummary; mt_volume : VolumeStats }.
(** The answer of the API for it. *)
Definition freshDims (m : meeting) : res (gmap string string) := lookupDims (mt_api m) (ps_Name (mt_pod m)) (ps_Namespace (mt_pod m)) (vs_Name (mt_volume m)).
(** The answer for it as an answer about the volume [vol] of the pod with identifier [uid]. *)
Definition answerFor (uid vol : string) (m : meeting) : option (gmap string string) :=
  if bool_decide (ps_UID (mt_pod m) = uid ∧ vs_Name (mt_volume m) = vol) then match freshDims m with Ok d => Some d | Err _ => None end else None.
(** The first answer about a volume among the meetings. *)
Definition firstAnswer (ms : list meeting) (uid vol : string) : option (gmap string string) := head (omap (answerFor uid vol) ms).
(** The points of a meeting after others: with the first answer that there was about the volume, else with the answer of now. *)
Definition meetingPoints (before : list meeting) (m : meeting) : list sfxDatapoint :=
  volumePoints (withSource (match firstAnswer before (ps_UID (mt_pod m)) (vs_Name (mt_volume m)) with Some d => Ok d | None => freshDims m end) (baseDims (mt_pod m) (mt_volume m))) (mt_volume m).
Fixpoint meetingsPoints (before ms : list meeting) : list sfxDatapoint :=
  match ms with [] => [] | m :: ms => meetingPoints before m ++ meetingsPoints (before ++ [m]) ms end.
(** The meetings of one collection, and what collections send. *)
Definition meetings (api : kubeAPI) (pods : list podSummary) : list meeting :=
  flat_map (λ p, map (λ v, {| mt_api := api; mt_pod := p; mt_volume := v |}) (ps_Volumes p)) pods.
Fixpoint collectionsSpec (before : list meeting) (l : list (kubeAPI * res (list podSummary))) : list (res (list sfxDatapoint)) :=
  match l with
  | [] => []
  | (_, Err e) :: l => Err e :: collectionsSpec before l
  | (api, Ok pods) :: l => Ok (meetingsPoints before (meetings api pods)) :: collectionsSpec (before ++ meetings api pods) l
  end.

(** *** What the code does *)

(** Collections one after the other, each with the API's answers of its time. *)
Fixpoint collections (l : list (kubeAPI * res (list podSummary))) (c : dimCache) : list (res (list sfxDatapoint)) :=
  match l with [] => [] | (api, r) :: l => let '(o, c) := getVolumeMetrics api r c in o :: collections l c end.
(** The cache holds the first answers. *)
Definition cache_ok (before : list meeting) (c : dimCache) : Prop := ∀ uid vol, plainID uid → c !! cacheKey uid vol = firstAnswer before uid vol.

Lemma firstAnswer_snoc before m uid vol : firstAnswer (before ++ [m]) uid vol = match firstAnswer before uid vol with Some d => Some d | None => answerFor uid vol m end.
Proof. unfold firstAnswer. rewrite omap_app. destruct (omap _ before); [|done]. cbn. by destruct (answerFor uid vol m). Qed.
Lemma meetingsPoints_app before ms ms' : meetingsPoints before (ms ++ ms') = meetingsPoints before ms ++ meetingsPoints (before ++ ms) ms'.
Proof.
  revert before. induction ms as [|m ms IH]; intros before; [by rewrite app_nil_r|]. cbn [app meetingsPoints]. by rewrite IH, <-!app_assoc.
Qed.

Lemma volumeIDDims_first before c api p v r c' : plainID (ps_UID p) → cache_ok before c →
  volumeIDDimsForPod api (ps_Name p) (ps_Namespace p) (ps_UID p) (vs_Name v) c = (r, c') →
  let m := {| mt_api := api; mt_pod := p; mt_volume := v |} in
  r = match firstAnswer before (ps_UID p) (vs_Name v) with Some d => Ok d | None => freshDims m end ∧ cache_ok (before ++ [m]) c'.
Proof.
  intros Hu Hc Hv m. unfold volumeIDDimsForPod in Hv. rewrite (Hc _ _ Hu) in Hv.
  assert (Hno : ∀ uid vol, (uid, vol) ≠ (ps_UID p, vs_Name v) → answerFor uid vol m = None).
  { intros uid vol Hne. unfold answerFor. cbn. rewrite bool_decide_eq_false_2; [done|]. intros [<- <-]. done. }
  assert (Hyes : answerFor (ps_UID p) (vs_Name v) m = match freshDims m with Ok d => Some d | Err _ => None end).
  { unfold answerFor. cbn. by rewrite bool_decide_eq_true_2. }
  unfold cache_ok. setoid_rewrite firstAnswer_snoc. destruct (firstAnswer before (ps_UID p) (vs_Name v)) as [d|] eqn:Hf.
  - injection Hv as <- <-. split; [done|]. intros uid vol Hu'. rewrite (Hc _ _ Hu'). destruct (decide ((uid, vol) = (ps_UID p, vs_Name v))) as [[= -> ->]|Hne]; [by rewrite Hf|].
    rewrite Hno by done. by destruct (firstAnswer before uid vol).
  - change (lookupDims api (ps_Name p) (ps_Namespace p) (vs_Name v)) with (freshDims m) in Hv. destruct (freshDims m) as [d|e]; injection Hv as <- <-; (split; [done|]); intros uid vol Hu';
      (destruct (decide ((uid, vol) = (ps_UID p, vs_Name v))) as [[= -> ->]|Hne]; [rewrite Hf, Hyes|rewrite Hno by done]).
    + apply lookup_insert_eq.
    + rewrite lookup_insert_ne, (Hc _ _ Hu'); [by destruct (firstAnswer before uid vol)|]. intros [<- <-]%cacheKey_inj; done.
    + by rewrite (Hc _ _ Hu), Hf.
    + rewrite (Hc _ _ Hu'). by destruct (firstAnswer before uid vol).
Qed.
Lemma podVolumes_first api p l before c dps c' : plainID (ps_UID p) → cache_ok before c → podVolumes api p l c = (dps, c') →
  let ms := map (λ v, {| mt_api := api; mt_pod := p; mt_volume := v |}) l in dps = meetingsPoints before ms ∧ cache_ok (before ++ ms) c'.
Proof.
  intros Hu. revert before c dps c'. induction l as [|v l IH]; intros before c dps c' Hc; cbn [podVolumes]; [intros [= <- <-]; by rewrite app_nil_r|].
  destruct (volumeIDDimsForPod _ _ _ _ _ c) as [r c1] eqn:H1. destruct (volumeIDDims_first _ _ _ _ _ _ _ Hu Hc H1) as [-> Hc1].
  destruct (podVolumes api p l c1) as [dps1 c2] eqn:H2. destruct (IH _ _ _ _ Hc1 H2) as [-> Hc2]. intros [= <- <-].
  rewrite <-app_assoc in Hc2. done.
Qed.
Lemma summaryVolumes_first api l before c dps c' : Forall (λ p, plainID (ps_UID p)) l → cache_ok before c → summaryVolumes api l c = (dps, c') →
  dps = meetingsPoints before (meetings api l) ∧ cache_ok (before ++ meetings api l) c'.
Proof.
  intros Hl. revert before c dps c'. induction Hl as [|p l Hp Hl IH]; intros before c dps c' Hc; cbn [summaryVolumes]; [intros [= <- <-]; by rewrite app_nil_r|].
  destruct (podVolumes api p (ps_Volumes p) c) as [dps1 c1] eqn:H1. destruct (podVolumes_first _ _ _ _ _ _ _ Hp Hc H1) as [-> Hc1].
  destruct (summaryVolumes api l c1) as [dps2 c2] eqn:H2. destruct (IH _ _ _ _ Hc1 H2) as [-> Hc2]. intros [= <- <-].
  cbn [meetings flat_map]. by rewrite meetingsPoints_app, app_assoc.
Qed.
Lemma collections_first l before c : cache_ok before c → Forall (λ r, ∀ pods, r.2 = Ok pods → Forall (λ p, plainID (ps_UID p)) pods) l →
  collections l c = collectionsSpec before l.
Proof.
  intros Hc Hl. revert before c Hc. induction Hl as [|[api r] l Hr Hl IH]; intros before c Hc; [done|]. cbn [collections collectionsSpec].
  destruct r as [pods|e]; cbn [getVolumeMetrics]; [|f_equal; by apply IH].
  destruct (summaryVolumes api pods c) as [dps c1] eqn:H1. destruct (summaryVolumes_first _ _ _ _ _ _ (Hr pods eq_refl) Hc H1) as [-> Hc1]. f_equal. by apply IH.
Qed.

(** C30: Over any sequence of collections, with the API's answers as they are at each of them, a volume is sent with the
    dimensions of the first answer that the API ever gave about it (the volume's name in the pod with this UID), whatever it
    answers later; until there is one, a failed lookup costs the dimensions of the source and is repeated at every meeting.  The
    UIDs of pods have no colon. *)
Theorem volume_dimensions_of_first_answer (l : list (kubeAPI * res (list podSummary))) :
  Forall (λ r, ∀ pods, r.2 = Ok pods → Forall (λ p, plainID (ps_UID p)) pods) l → collections l ∅ = collectionsSpec [] l.
Proof. intros Hl. apply collections_first; [|done]. intros uid vol _. apply lookup_empty. Qed.
(** Entries are never removed, so the cache grows with every pod ever seen. *)
Lemma cache_only_grows api p ns uid vol c r c' : volumeIDDimsForPod api p ns uid vol c = (r, c') → dom c ⊆ dom c'.
Proof.
  unfold volumeIDDimsForPod. destruct (c !! _); [by intros [= <- <-]|]. destruct (lookupDims api p ns vol); intros [= <- <-]; [rewrite dom_insert; set_solver | done].
Qed.

(** ** Witnesses *)

(** Elected, then replaced by a second and by a third agent. *)
Definition demo_third : leadership := demo_state None [true; false; false] true "third" CallbackIdle.
Lemma demo_third_reachable : reachable "node" demo_third.
Proof.
  unfold reachable; etrans; [exact demo_lost_reachable|]. eapply rtc_l; [by apply (step_receive _ _ 0)|]. eapply rtc_l; [by apply (step_new_leader _ _ "third")|].
  eapply rtc_l; [by eapply (step_send _ _ false 0 []); [|left|..]|]. eapply rtc_l; [by eapply (step_sent _ _ false)|]. eapply rtc_l; [by apply (step_receive _ _ 0)|]. apply rtc_refl.
Qed.
Lemma events_monitor_leadership_witness :
  (∀ st, leaderLoop [true; false; false] (startEvents false) = Done st → (size (ev_running st) ≤ 1)%nat) ∧
  ((3 ≤ length [true; false; false])%nat ↔ leaderLoop [true; false; false] (startEvents false) = Panics).
Proof.
  apply (events_monitor_leadership "node" demo_third {| nc_id := 0; nc_buf := None; nc_sent := [true; false; false] |} [true; false; false] []);
    [exact demo_third_reachable | left | reflexivity].
Defined.

Definition demo_api : kubeAPI := {|
  ka_pod := λ ns name, if String.eqb name "web" then Ok [("data", PersistentVolumeClaim "claim"); ("tmp", EmptyDirVolume)] else Err (Errorf "not found" []);
  ka_claim := λ ns name, Ok "pv-1"; ka_volume := λ name, Ok (AWSElasticBlockStore "vol-1" "ext4" 0) |}.
Definition demo_pod : podSummary := {| ps_Name := "web"; ps_Namespace := "ns"; ps_UID := "uid-1"; ps_Volumes := [
  {| vs_Name := "data"; vs_AvailableBytes := Some 5; vs_CapacityBytes := None; vs_Inodes := None; vs_InodesFree := None; vs_InodesUsed := None |}] |}.
(** The API is not reachable, then answers, then the volume was replaced. *)
Definition demo_unreachable : kubeAPI := {| ka_pod := λ _ _, Err (Errorf "refused" []); ka_claim := ka_claim demo_api; ka_volume := ka_volume demo_api |}.
Definition demo_replaced : kubeAPI := {| ka_pod := ka_pod demo_api; ka_claim := λ ns name, Ok "pv-2"; ka_volume := λ name, Ok (AWSElasticBlockStore "vol-2" "ext4" 0) |}.
Definition demo_collections : list (kubeAPI * res (list podSummary)) :=
  [(demo_unreachable, Ok [demo_pod]); (demo_api, Ok [demo_pod]); (demo_api, Err (Errorf "timeout" [])); (demo_replaced, Ok [demo_pod])].
Definition volumeIDs (r : res (list sfxDatapoint)) : list (option string) := match r with Ok dps => map (λ dp, sd_Dimensions dp !! "VolumeId") dps | Err _ => [] end.
Lemma volume_dimensions_of_first_answer_witness :
  collections demo_collections ∅ = collectionsSpec [] demo_collections ∧ map volumeIDs (collections demo_collections ∅) = [[None]; [Some "vol-1"]; []; [Some "vol-1"]].
Proof.
  split; [|vm_compute; reflexivity]. apply volume_dimensions_of_first_answer. repeat constructor; intros pods [= <-]; repeat constructor.
Defined.
