(* ===== verification/MigrateCheckpoint.v ===== *)
(** * The migration of checkpoints from fluentd

    [src/cmd/migratecheckpoint]: the positions that fluentd keeps in files are converted to the
    checkpoints of the collector's file and journald receivers ([main.go],
    [log_library.go]) and stored in databases ([filestorage.go]).

    The file system is the content of files and the databases by path, the latter created when
    they are opened; writing to an open database is taken to succeed (the code logs
    a failure and goes on).  The globs, the regular expressions (as the first group they capture)
    and the decoding of a journald position are parameters. *)

From S2P Require Import Prelude GoStrings GoText GoValue Outcome.
From Stdlib Require Import Ascii.
#[local] Open Scope Z_scope.

(** ** log_library.go *)

Record Reader := { rd_FirstBytes : string; rd_Offset : Z }.
Definition getFingerPrint (file : res string) : res string := match file with Ok content => Ok (stake 1000 content) | Err e => Err e end.
(** A reader as JSON, without file attributes. *)
Definition quote (s : string) : string := String "034"%char (s +:+ String "034"%char "").
Definition encodeReader (r : Reader) : string :=
  "{" +:+ quote "Fingerprint" +:+ ":{" +:+ quote "FirstBytes" +:+ ":" +:+ quote (base64Encode (rd_FirstBytes r)) +:+ "}," +:+
  quote "FileAttributes" +:+ ":{}," +:+ quote "Offset" +:+ ":" +:+ pretty (rd_Offset r) +:+ "}".
(** Each value the encoder writes ends with a line feed. *)
Definition encodeLine (s : string) : string := s +:+ String "010"%char "".
Fixpoint encodeReaders (l : list Reader) : string := match l with [] => "" | r :: l => encodeLine (encodeReader r) +:+ encodeReaders l end.
Definition syncLastPollFiles (readers : list Reader) : string := encodeLine (pretty (length readers)) +:+ encodeReaders readers.

(** ** main.go: positions *)

Notation files := (string → res string).
Definition convertToOtel (fs : files) (path hexPos : string) : res Reader :=
  match getFingerPrint (fs path) with
  | Err e => Err e
  | Ok fp => match ParseHex64 hexPos with None => Err (Errorf "strconv.ParseInt: %s" [hexPos]) | Some n => Ok {| rd_FirstBytes := fp; rd_Offset := n |} end
  end.
(** A line with fewer than two fields panics; a file that cannot be read or a position that
    cannot be parsed is skipped. *)
Fixpoint convertLines (fs : files) (lines : list string) : outcome (list Reader) :=
  match lines with
  | [] => Done []
  | line :: lines =>
      match Fields line with
      | path :: hexPos :: _ => rest ← convertLines fs lines; Done (match convertToOtel fs path hexPos with Ok r => r :: rest | Err _ => rest end)
      | _ => Panics
      end
  end.
Definition ConvertFilePos (fs : files) (lines : list string) : outcome (list Reader * string) :=
  readers ← convertLines fs lines; Done (readers, syncLastPollFiles readers).

(** The lines of a file; the scanner fails on a line of 64 KiB or more. *)
Definition readLines (fs : files) (path : string) : res (list string) :=
  match fs path with
  | Err e => Err e
  | Ok content => if scanTooLong content then Err (Errorf "bufio.Scanner: token too long" []) else Ok (scanLines content)
  end.

(** ** filestorage.go *)

Notation databases := (gmap string (gmap string string)).
(** Opening a database creates it; [None] when it cannot be opened. *)
Definition newClient (openable : string → bool) (path : string) (dbs : databases) : option databases :=
  if openable path then Some (<[path := default ∅ (dbs !! path)]> dbs) else None.
Definition setKey (path key value : string) (dbs : databases) : databases := <[path := <[key := value]> (default ∅ (dbs !! path))]> dbs.

(** ** main.go: the migration *)

Record Migrator := {
  mg_ContainerLogPathFluentd : string; mg_ContainerLogPathOtel : string; mg_CustomLogPathFluentd : string; mg_CustomLogPathOtel : string;
  mg_JournaldLogPathFluentd : string; mg_JournaldLogPathOtel : string;
}.

Section migration.
Context (fs : files) (openable : string → bool) (Glob : string → list string) (captureCustom captureJournald : string → option string)
  (cursorOf : string → option string) (m : Migrator).

Definition knownFiles : string := "file_input.knownFiles".
(** [log.Fatalf] ends the process. *)
Definition MigrateContainerPos (lines : list string) (dbs : databases) : databases * outcome unit :=
  match newClient openable (mg_ContainerLogPathOtel m) dbs with
  | None => (dbs, Failed (Errorf "error creating a new DB client for container checkpoints" []))
  | Some dbs =>
      match ConvertFilePos fs lines with
      | Done (_, buf) => (setKey (mg_ContainerLogPathOtel m) knownFiles buf dbs, Done tt)
      | Failed e => (dbs, Failed e)
      | Panics => (dbs, Panics)
      end
  end.
(** A database that cannot be opened is logged and then used: a nil pointer. *)
Definition migrateCustom (match_ : string) (dbs : databases) : databases * outcome unit :=
  match captureCustom match_ with
  | None => (dbs, Done tt)
  | Some name =>
      match readLines fs match_ with
      | Err _ => (dbs, Panics)
      | Ok lines =>
          match ConvertFilePos fs lines with
          | Done ([], _) => (dbs, Done tt)
          | Done (_, buf) => match newClient openable (mg_CustomLogPathOtel m +:+ name) dbs with
                             | None => (dbs, Panics)
                             | Some dbs => (setKey (mg_CustomLogPathOtel m +:+ name) knownFiles buf dbs, Done tt)
                             end
          | Failed e => (dbs, Failed e)
          | Panics => (dbs, Panics)
          end
      end
  end.
Definition migrateJournald (match_ : string) (dbs : databases) : databases * outcome unit :=
  match captureJournald match_ with
  | None => (dbs, Done tt)
  | Some name =>
      match fs match_ with
      | Err _ => (dbs, Done tt)
      | Ok content =>
          match cursorOf content with
          | None => (dbs, Done tt)
          | Some cursor => match newClient openable (mg_JournaldLogPathOtel m +:+ name) dbs with
                           | None => (dbs, Panics)
                           | Some dbs => (setKey (mg_JournaldLogPathOtel m +:+ name) "journald_input.lastReadCursor" cursor dbs, Done tt)
                           end
          end
      end
  end.
Fixpoint migrateAll (one : string → databases → databases * outcome unit) (l : list string) (dbs : databases) : databases * outcome unit :=
  match l with
  | [] => (dbs, Done tt)
  | x :: l => match one x dbs with (dbs, Done _) => migrateAll one l dbs | r => r end
  end.
Definition MigrateCustomPos : list string → databases → databases * outcome unit := migrateAll migrateCustom.
Definition MigrateJournaldPos : list string → databases → databases * outcome unit := migrateAll migrateJournald.

Definition Run (dbs : databases) : databases * outcome unit :=
  match readLines fs (mg_ContainerLogPathFluentd m) with
  | Err _ => (dbs, Panics)
  | Ok lines =>
      match MigrateContainerPos lines dbs with
      | (dbs, Done _) =>
          match MigrateCustomPos (Glob (mg_CustomLogPathFluentd m)) dbs with
          | (dbs, Done _) => MigrateJournaldPos (Glob (mg_JournaldLogPathFluentd m)) dbs
          | r => r
          end
      | r => r
      end
  end.
(** [main]: nothing is done when the database of container checkpoints exists, or fluentd has no
    position file. *)
Definition main (exists_ : string → bool) (dbs : databases) : databases * outcome unit :=
  if bool_decide (is_Some (dbs !! mg_ContainerLogPathOtel m)) then (dbs, Done tt)
  else if exists_ (mg_ContainerLogPathFluentd m) then Run dbs else (dbs, Done tt).
End migration.

Definition getEnv (env : gmap string string) (key fallback : string) : string := default fallback (env !! key).
Definition migratorOf (env : gmap string string) : Migrator := {|
  mg_ContainerLogPathFluentd := getEnv env "CONTAINER_LOG_PATH_FLUENTD" "/var/log/splunk-fluentd-containers.log.pos";
  mg_ContainerLogPathOtel := getEnv env "CONTAINER_LOG_PATH_OTEL" "/var/lib/otel_pos/receiver_filelog_";
  mg_CustomLogPathFluentd := getEnv env "CUSTOM_LOG_PATH_FLUENTD" "/var/log/splunk-fluentd-*.pos";
  mg_CustomLogPathOtel := getEnv env "CUSTOM_LOG_PATH_OTEL" "/var/lib/otel_pos/receiver_filelog_";
  mg_JournaldLogPathFluentd := getEnv env "JOURNALD_LOG_PATH_FLUENTD" "splunkd-fluentd-journald-*.pos.json";
  mg_JournaldLogPathOtel := getEnv env "JOURNALD_LOG_PATH_OTEL" "/var/lib/otel_pos/receiver_journald_" |}.

(** ** Positions *)

(** A line of a position file: the path, the position in hexadecimal and the inode. *)
Record posEntry := { pe_path : string; pe_hex : string; pe_inode : string }.
Definition nonSpace (c : ascii) : bool := negb (is_space c).
Fixpoint word (s : string) : bool := match s with EmptyString => true | String c s => nonSpace c && word s end.
Definition isWord (s : string) : bool := negb (String.eqb s "") && word s.
Definition entry_words (e : posEntry) : bool := isWord (pe_path e) && isWord (pe_hex e) && isWord (pe_inode e).
Definition tab : ascii := "009"%char.
Definition posLine (e : posEntry) : string := pe_path e +:+ String tab (pe_hex e +:+ String tab (pe_inode e)).

Lemma fieldsFrom_word w s t : word s = true → fieldsFrom w (s +:+ t) = fieldsFrom (w +:+ s) t.
Proof.
  revert w. induction s as [|c s IH]; intros w Hs; [by rewrite append_nil_r|]. cbn [word] in Hs. apply andb_true_iff in Hs as [Hc Hs]. rewrite append_cons. cbn [fieldsFrom].
  unfold nonSpace in Hc. destruct (is_space c); [done|]. rewrite IH by done. by rewrite append_assoc.
Qed.
Lemma isWord_parts s : isWord s = true → word s = true ∧ String.eqb s "" = false.
Proof. unfold isWord. rewrite andb_true_iff, negb_true_iff. tauto. Qed.
Lemma fields_cons s t : isWord s = true → Fields (s +:+ String tab t) = s :: Fields t.
Proof. intros [Hw Hne]%isWord_parts. unfold Fields. rewrite fieldsFrom_word, append_nil_l by done. cbn [fieldsFrom]. rewrite Hne. done. Qed.
Lemma fields_last s : isWord s = true → Fields s = [s].
Proof. intros [Hw Hne]%isWord_parts. unfold Fields. rewrite <-(append_nil_r s) at 1. rewrite fieldsFrom_word, append_nil_l by done. cbn [fieldsFrom]. by rewrite Hne. Qed.
Lemma posLine_fields e : entry_words e = true → Fields (posLine e) = [pe_path e; pe_hex e; pe_inode e].
Proof. unfold entry_words. rewrite !andb_true_iff. intros [[Hp Hh] Hi]. unfold posLine. by rewrite !fields_cons, fields_last. Qed.

Lemma convertLines_entries fs l : forallb entry_words l = true →
  convertLines fs (map posLine l) = Done (omap (λ e, match convertToOtel fs (pe_path e) (pe_hex e) with Ok r => Some r | Err _ => None end) l).
Proof.
  induction l as [|e l IH]; [done|]. cbn [forallb map convertLines]. intros [He Hl]%andb_true_iff. rewrite (posLine_fields e He), (IH Hl). cbn.
  by destruct (convertToOtel fs (pe_path e) (pe_hex e)).
Qed.

(** ** The stored text *)

Lemma append_inj_l p s t : p +:+ s = p +:+ t → s = t.
Proof. induction p as [|c p IH]; [done|]. rewrite !append_cons. intros [= Heq]. by apply IH. Qed.
Lemma append_quote_inj s t u v : ContainsByte s "034"%char = false → ContainsByte t "034"%char = false →
  s +:+ String "034"%char u = t +:+ String "034"%char v → s = t ∧ u = v.
Proof.
  intros Hs Ht Heq. assert (Hsp : s :: SplitByte u "034"%char = t :: SplitByte v "034"%char) by (by rewrite <-!SplitByte_app, Heq).
  injection Hsp as -> Hsp. split; [done|]. by rewrite <-(Join_SplitByte u "034"%char), Hsp, Join_SplitByte.
Qed.
Lemma base64Char_plain n : 0 ≤ n < 64 → Ascii.eqb (base64Char n) "034"%char = false.
Proof.
  intros Hn. pose proof (base64Value_char n Hn) as Hv. destruct (Ascii.eqb_spec (base64Char n) "034"%char) as [Heq|]; [|done]. rewrite Heq in Hv. by vm_compute in Hv.
Qed.
Lemma base64_plain s : ContainsByte (base64Encode s) "034"%char = false.
Proof.
  assert (Hind : ∀ n s, (slen s ≤ n)%nat → ContainsByte (base64Encode s) "034"%char = false); [|by eapply Hind].
  clear s. induction n as [|n IH]; intros [|a [|b [|c s]]] Hlen; cbn [slen] in Hlen; try lia; [done..| | |]; cbn [base64Encode].
  - destruct (base64_group (byteZ a) 0 0) as [(H1 & H2 & H3 & H4) _]; [apply byteZ_bound | lia..|]. replace (byteZ a * 65536) with (byteZ a * 65536 + 0 * 256 + 0) by lia.
    by rewrite !ContainsByte_cons, !base64Char_plain.
  - destruct (base64_group (byteZ a) (byteZ b) 0) as [(H1 & H2 & H3 & H4) _]; [apply byteZ_bound.. | lia|].
    replace (byteZ a * 65536 + byteZ b * 256) with (byteZ a * 65536 + byteZ b * 256 + 0) by lia. by rewrite !ContainsByte_cons, !base64Char_plain.
  - destruct (base64_group (byteZ a) (byteZ b) (byteZ c)) as [(H1 & H2 & H3 & H4) _]; [apply byteZ_bound..|]. rewrite !ContainsByte_cons, !base64Char_plain by done. apply IH. lia.
Qed.
Lemma append_last_inj s t c : s +:+ String c "" = t +:+ String c "" → s = t.
Proof.
  revert t. induction s as [|a s IH]; intros [|b t]; rewrite ?append_nil_l, ?append_cons; [done| | |]; intros [= -> Heq].
  - by destruct t.
  - by destruct s.
  - f_equal. by apply IH.
Qed.
(** The JSON of a reader determines it. *)
Lemma encodeReader_inj r r' : encodeReader r = encodeReader r' → r = r'.
Proof.
  unfold encodeReader. rewrite <-!append_assoc. set (pre := ((("{" +:+ quote "Fingerprint") +:+ ":{") +:+ quote "FirstBytes") +:+ ":"). rewrite !(append_assoc pre).
  rewrite !append_assoc. intros Heq%append_inj_l. unfold quote in Heq at 1 4. rewrite !append_cons, !append_assoc in Heq. injection Heq as Heq.
  rewrite !append_cons, !append_nil_l in Heq. apply append_quote_inj in Heq as [Hb Heq]; [|apply base64_plain..].
  assert (Hfb : rd_FirstBytes r = rd_FirstBytes r') by (apply (f_equal base64Decode) in Hb; rewrite !base64_roundtrip in Hb; congruence).
  injection Heq as Heq. apply append_last_inj in Heq. apply (inj pretty) in Heq. destruct r, r'. cbn in *. congruence.
Qed.

(** The lines of a fluentd position file are converted in order: a file that can be read gives a
    reader with its first 1000 bytes and the hexadecimal position, any other is skipped; and
    the stored text of a reader determines it. *)
Theorem ConvertFilePos_correct fs l : forallb entry_words l = true →
  (∃ readers, ConvertFilePos fs (map posLine l) = Done (readers, syncLastPollFiles readers) ∧
    readers = omap (λ e, match fs (pe_path e), ParseHex64 (pe_hex e) with Ok content, Some n => Some {| rd_FirstBytes := stake 1000 content; rd_Offset := n |} | _, _ => None end) l) ∧
  ∀ r r', encodeReader r = encodeReader r' → r = r'.
Proof.
  intros Hl. split; [|apply encodeReader_inj]. eexists. unfold ConvertFilePos. rewrite (convertLines_entries fs l Hl). split; [done|].
  apply list_omap_ext. apply Forall_Forall2_diag, Forall_true. intros e. unfold convertToOtel, getFingerPrint. destruct (fs (pe_path e)); [|done]. by destruct (ParseHex64 (pe_hex e)).
Qed.
(** The position of a file that fluentd no longer watches is skipped. *)
Lemma unwatched_skipped fs path : ∃ e, convertToOtel fs path "ffffffffffffffff" = Err e.
Proof. unfold convertToOtel. destruct (getFingerPrint (fs path)); [|by eexists]. by eexists. Qed.

(** ** Whole runs *)

Lemma convertLines_never_fails fs l : never_fails (convertLines fs l).
Proof. intros e. induction l as [|x l IH]; [done|]. cbn [convertLines]. destruct (Fields x) as [|? [|? ?]]; [done..|]. by destruct (convertLines fs l). Qed.
Lemma short_line_panics fs l1 line l2 : (length (Fields line) < 2)%nat → convertLines fs (l1 ++ line :: l2) = Panics.
Proof.
  intros Hf. induction l1 as [|x l1 IH]; cbn [app convertLines].
  - destruct (Fields line) as [|a [|b w]]; [done..|cbn in Hf; lia].
  - destruct (Fields x) as [|path [|hexPos w]]; [done..|]. by rewrite IH.
Qed.

(** C31: A line with fewer than two fields, such as an empty one, in a position file
    whose lines all fit the scanner's buffer aborts the migration after the
    database was created, so that every later run takes the migration as done. *)
Theorem aborted_migration_not_retried fs openable Glob cc cj cursorOf m exists_ dbs content l1 line l2 :
  dbs !! mg_ContainerLogPathOtel m = None → exists_ (mg_ContainerLogPathFluentd m) = true → fs (mg_ContainerLogPathFluentd m) = Ok content →
  openable (mg_ContainerLogPathOtel m) = true → scanTooLong content = false → scanLines content = l1 ++ line :: l2 → (length (Fields line) < 2)%nat →
  let dbs' := <[mg_ContainerLogPathOtel m := ∅]> dbs in
  main fs openable Glob cc cj cursorOf m exists_ dbs = (dbs', Panics) ∧
  ∀ fs' openable' Glob' exists_', main fs' openable' Glob' cc cj cursorOf m exists_' dbs' = (dbs', Done tt).
Proof.
  intros Hdb Hex Hfs Hop Hlong Hl Hline dbs'. split.
  - unfold main. rewrite bool_decide_false by (rewrite Hdb; by intros [? ?]). rewrite Hex. unfold Run, readLines. rewrite Hfs, Hlong, Hl. unfold MigrateContainerPos, newClient. rewrite Hop, Hdb.
    unfold ConvertFilePos. by rewrite short_line_panics.
  - intros. unfold main. rewrite bool_decide_true; [done|]. unfold dbs'. rewrite lookup_insert_eq. by eexists.
Qed.

(** A line that the scanner's buffer cannot hold aborts the migration before, and
    the next run tries again. *)
Lemma overlong_line_retried fs openable Glob cc cj cursorOf m exists_ dbs content :
  dbs !! mg_ContainerLogPathOtel m = None → exists_ (mg_ContainerLogPathFluentd m) = true → fs (mg_ContainerLogPathFluentd m) = Ok content →
  scanTooLong content = true → main fs openable Glob cc cj cursorOf m exists_ dbs = (dbs, Panics).
Proof.
  intros Hdb Hex Hfs Hlong. unfold main. rewrite bool_decide_false by (rewrite Hdb; by intros [? ?]). rewrite Hex. unfold Run, readLines. by rewrite Hfs, Hlong.
Qed.

Section kept.
Context (fs : files) (openable : string → bool) (captureCustom captureJournald : string → option string) (cursorOf : string → option string) (m : Migrator).
Hypothesis custom_elsewhere : ∀ x name, captureCustom x = Some name → mg_CustomLogPathOtel m +:+ name ≠ mg_ContainerLogPathOtel m.
Hypothesis journald_elsewhere : ∀ x name, captureJournald x = Some name → mg_JournaldLogPathOtel m +:+ name ≠ mg_ContainerLogPathOtel m.

Lemma setKey_elsewhere p key v dbs dbs' q : newClient openable p dbs = Some dbs' → p ≠ q → setKey p key v dbs' !! q = dbs !! q.
Proof. unfold newClient. destruct (openable p); [|done]. intros [= <-] Hpq. unfold setKey. by rewrite !lookup_insert_ne. Qed.
Lemma custom_keeps x dbs : (migrateCustom fs openable captureCustom m x dbs).1 !! mg_ContainerLogPathOtel m = dbs !! mg_ContainerLogPathOtel m.
Proof.
  unfold migrateCustom. destruct (captureCustom x) as [name|] eqn:Hc; [|done]. destruct (readLines fs x); [|done]. destruct (ConvertFilePos fs _) as [[[|r rs] buf]| |]; [done| |done..].
  destruct (newClient _ _ dbs) eqn:Hn; [|done]. eapply setKey_elsewhere; [exact Hn|]. by eapply custom_elsewhere.
Qed.
Lemma journald_keeps x dbs : (migrateJournald fs openable captureJournald cursorOf m x dbs).1 !! mg_ContainerLogPathOtel m = dbs !! mg_ContainerLogPathOtel m.
Proof.
  unfold migrateJournald. destruct (captureJournald x) as [name|] eqn:Hc; [|done]. destruct (fs x); [|done]. destruct (cursorOf _); [|done].
  destruct (newClient _ _ dbs) eqn:Hn; [|done]. eapply setKey_elsewhere; [exact Hn|]. by eapply journald_elsewhere.
Qed.
Lemma migrateAll_keeps one l dbs k : (∀ x dbs, (one x dbs).1 !! k = dbs !! k) → (migrateAll one l dbs).1 !! k = dbs !! k.
Proof.
  intros Hone. revert dbs. induction l as [|x l IH]; intros dbs; [done|]. cbn [migrateAll]. specialize (Hone x dbs). destruct (one x dbs) as [dbs' [u| |]]; cbn in Hone; [|done..].
  by rewrite IH, Hone.
Qed.
End kept.

(** A migration that completes has stored the converted container positions in their database,
    and no custom or journald file changes them afterwards. *)
Theorem migration_stores_positions fs openable Glob cc cj cursorOf m exists_ dbs content dbs' :
  (∀ x name, cc x = Some name → mg_CustomLogPathOtel m +:+ name ≠ mg_ContainerLogPathOtel m) →
  (∀ x name, cj x = Some name → mg_JournaldLogPathOtel m +:+ name ≠ mg_ContainerLogPathOtel m) →
  dbs !! mg_ContainerLogPathOtel m = None → exists_ (mg_ContainerLogPathFluentd m) = true → fs (mg_ContainerLogPathFluentd m) = Ok content →
  main fs openable Glob cc cj cursorOf m exists_ dbs = (dbs', Done tt) →
  ∃ readers, scanTooLong content = false ∧ convertLines fs (scanLines content) = Done readers ∧ dbs' !! mg_ContainerLogPathOtel m = Some {[knownFiles := syncLastPollFiles readers]}.
Proof.
  intros Hcc Hcj Hdb Hex Hfs. unfold main. rewrite bool_decide_false by (rewrite Hdb; by intros [? ?]). rewrite Hex. unfold Run, readLines. rewrite Hfs. destruct (scanTooLong content); [done|]. unfold MigrateContainerPos, newClient.
  destruct (openable (mg_ContainerLogPathOtel m)); [|done]. rewrite Hdb. unfold ConvertFilePos. destruct (convertLines fs (scanLines content)) as [readers| |]; [|done..]. cbn [mbind outcome_bind].
  set (dbs1 := setKey _ _ _ _). assert (H1 : dbs1 !! mg_ContainerLogPathOtel m = Some {[knownFiles := syncLastPollFiles readers]}).
  { unfold dbs1, setKey. by rewrite !lookup_insert_eq. }
  pose proof (migrateAll_keeps (migrateCustom fs openable cc m) (Glob (mg_CustomLogPathFluentd m)) dbs1 (mg_ContainerLogPathOtel m) (custom_keeps fs openable cc m Hcc)) as H2.
  unfold MigrateCustomPos. destruct (migrateAll (migrateCustom fs openable cc m) _ dbs1) as [dbs2 [u| |]]; [|done..]. cbn in H2. unfold MigrateJournaldPos.
  pose proof (migrateAll_keeps (migrateJournald fs openable cj cursorOf m) (Glob (mg_JournaldLogPathFluentd m)) dbs2 (mg_ContainerLogPathOtel m) (journald_keeps fs openable cj cursorOf m Hcj)) as H3.
  intros Heq. rewrite Heq in H3. cbn in H3. exists readers. split_and!; [done..|]. by rewrite H3, H2, H1.
Qed.

(** The default pattern for journald positions has no directory, and the expression that captures their name
    needs a slash: none is migrated. *)
Lemma journald_default_never_migrated fs openable (Glob : string → list string) cj cursorOf dbs :
  (∀ p x, ContainsByte p "/" = false → x ∈ Glob p → ContainsByte x "/" = false) → (∀ x name, cj x = Some name → ContainsByte x "/" = true) →
  MigrateJournaldPos fs openable cj cursorOf (migratorOf ∅) (Glob (mg_JournaldLogPathFluentd (migratorOf ∅))) dbs = (dbs, Done tt).
Proof.
  intros Hg Hc. unfold MigrateJournaldPos. assert (Hall : ∀ x, x ∈ Glob (mg_JournaldLogPathFluentd (migratorOf ∅)) → cj x = None).
  { intros x Hx. destruct (cj x) eqn:Hx'; [|done]. apply Hc in Hx'. by rewrite (Hg (mg_JournaldLogPathFluentd (migratorOf ∅)) x) in Hx'. }
  induction (Glob _) as [|x l IH]; [done|]. cbn [migrateAll]. unfold migrateJournald at 1. rewrite Hall by by left. apply IH. intros y Hy. apply Hall. by right.
Qed.

(** ** Witnesses *)

Definition demo_entry (p h : string) : posEntry := {| pe_path := p; pe_hex := h; pe_inode := "00000000000808f7" |}.
Definition demo_files (x : string) : res string := if String.eqb x "/a.log" then Ok "hello" else Err (Errorf "no such file" []).
Lemma ConvertFilePos_correct_witness :
  (∃ readers, ConvertFilePos demo_files (map posLine [demo_entry "/a.log" "00000000000057af"; demo_entry "/b.log" "0"]) = Done (readers, syncLastPollFiles readers) ∧
    readers = [{| rd_FirstBytes := "hello"; rd_Offset := 22447 |}]) ∧ ∀ r r', encodeReader r = encodeReader r' → r = r'.
Proof. apply (ConvertFilePos_correct demo_files [demo_entry "/a.log" "00000000000057af"; demo_entry "/b.log" "0"]). reflexivity. Defined.
Definition demo_migrator : Migrator := migratorOf ∅.
Definition demo_pos (content x : string) : res string := if String.eqb x (mg_ContainerLogPathFluentd demo_migrator) then Ok content else demo_files x.
Definition demo_broken : string := posLine (demo_entry "/a.log" "57af") +:+ "
".
Lemma aborted_migration_not_retried_witness :
  let dbs' := <[mg_ContainerLogPathOtel demo_migrator := ∅]> ∅ in
  main (demo_pos ("
" +:+ demo_broken)) (λ _, true) (λ _, []) (λ _, None) (λ _, None) (λ _, None) demo_migrator (λ _, true) ∅ = (dbs', Panics) ∧
  ∀ fs' openable' Glob' exists_', main fs' openable' Glob' (λ _, None) (λ _, None) (λ _, None) demo_migrator exists_' dbs' = (dbs', Done tt).
Proof.
  apply (aborted_migration_not_retried (demo_pos ("
" +:+ demo_broken)) (λ _, true) (λ _, []) (λ _, None) (λ _, None) (λ _, None) demo_migrator (λ _, true) ∅ ("
" +:+ demo_broken) [] "" [posLine (demo_entry "/a.log" "57af")]); [vm_compute; reflexivity..|]. vm_compute. lia.
Defined.
Definition demo_stored : databases := {[mg_ContainerLogPathOtel demo_migrator := {[knownFiles := syncLastPollFiles [{| rd_FirstBytes := "hello"; rd_Offset := 22447 |}]]}]}.
Lemma migration_stores_positions_witness :
  ∃ readers, scanTooLong demo_broken = false ∧ convertLines (demo_pos demo_broken) (scanLines demo_broken) = Done readers ∧
    demo_stored !! mg_ContainerLogPathOtel demo_migrator = Some {[knownFiles := syncLastPollFiles readers]}.
Proof.
  apply (migration_stores_positions (demo_pos demo_broken) (λ _, true) (λ _, []) (λ _, None) (λ _, None) (λ _, None) demo_migrator (λ _, true) ∅ demo_broken demo_stored);
    [discriminate | discriminate | vm_compute; reflexivity..].
Defined.
