(* ===== verification/Expvar.v ===== *)
(** * The expvar monitor

    [src/internal/signalfx-agent/pkg/monitors/expvar]: the configured and built-in metrics
    ([config.go]), the names made from JSON keys ([common.go]), the values found on a path of
    regular expressions and the points of a collection ([expvar.go]).

    A decoded JSON object is an [any]; the compiled expressions are those of the class
    [PatternEngine], and the conversion of a value and its text, which a library does, are
    parameters. *)

From S2P Require Import Prelude GoStrings GoValue Outcome Settings Telemetry Filters SmartAgent HostMonitors.
From Stdlib Require Import Ascii.
#[local] Open Scope Z_scope.

(** ** common.go *)

Definition isUpper (c : ascii) : bool := in_range "A" "Z" c.
Fixpoint spanWhile (p : ascii → bool) (s : string) : string * string :=
  match s with
  | EmptyString => ("", "")
  | String c t => if p c then let '(a, b) := spanWhile p t in (String c a, b) else ("", s)
  end.
(** The words that the source's regular expression captures from an upper case letter on: a
    run of upper case letters but its last, and that one with what follows it.  Fuel for
    the length. *)
Fixpoint capWords (fuel : nat) (s : string) : list string :=
  match fuel with
  | O => []
  | S fuel =>
      match s with
      | EmptyString => []
      | _ => let '(caps, rest) := spanWhile isUpper s in
             let '(tail, rest) := spanWhile (λ c, negb (isUpper c)) rest in
             match tail with
             | EmptyString => [caps]
             | _ => [stake (slen caps - 1) caps; sdrop (slen caps - 1) caps +:+ tail] ++ capWords fuel rest
             end
      end
  end.
Lemma spanWhile_length p s : (slen (spanWhile p s).1 + slen (spanWhile p s).2 = slen s)%nat.
Proof. induction s as [|c s IH]; [done|]. cbn [spanWhile]. destruct (p c); [|done]. destruct (spanWhile p s) as [a b]. cbn in *. lia. Qed.
(** Every round takes a byte at least, so the length is enough fuel. *)
Lemma capWords_fuel fuel : ∀ fuel' s, (slen s ≤ fuel)%nat → (slen s ≤ fuel')%nat → capWords fuel s = capWords fuel' s.
Proof.
  induction fuel as [|fuel IH]; intros fuel' s Hf Hf'.
  - destruct s; [by destruct fuel' | cbn in Hf; lia].
  - destruct fuel' as [|fuel']; [destruct s; [done | cbn in Hf'; lia]|]. cbn [capWords]. destruct s as [|c s]; [done|].
    pose proof (spanWhile_length isUpper (String c s)) as H1. destruct (spanWhile isUpper (String c s)) as [caps rest]. cbn [fst snd] in H1.
    pose proof (spanWhile_length (λ c, negb (isUpper c)) rest) as H2. destruct (spanWhile (λ c, negb (isUpper c)) rest) as [tail rest']. cbn [fst snd] in H2.
    destruct tail as [|d tail]; [done|]. cbn in H2. rewrite (IH fuel' rest'); [done | lia..].
Qed.
(** Lower case letters at the start are captured when they are the whole text, or when one upper
    case letter follows and it is followed by others; otherwise the expression matches only
    after them. *)
Definition snakeWords (s : string) : list string :=
  let '(prefix, rest) := spanWhile (λ c, negb (isUpper c)) s in
  match rest with
  | EmptyString => [prefix]
  | _ => let '(caps, tail) := spanWhile isUpper rest in
         (if (slen caps =? 1)%nat && negb (String.eqb tail "") then [prefix] else []) ++ capWords (slen rest) rest
  end.
Definition snakeCase (s : string) : string := ToLower (Join (List.filter (λ w, negb (String.eqb w "")) (map TrimSpace (snakeWords s))) "_").
Definition snakeCaseSlice (l : list string) : list string := map snakeCase l.
Definition isLetter (c : ascii) : bool := in_range "a" "z" c || in_range "A" "Z" c.
Fixpoint hasLetter (s : string) : bool := match s with EmptyString => false | String c s => isLetter c || hasLetter s end.
Definition joinWords (l : list string) (sep : string) : string := Join (List.filter hasLetter l) sep.
(** The text after the last slash. *)
Definition afterSlash (s : string) : string := default "" (last (SplitByte s "/"%char)).
Definition getApplicationName (obj : gmap string any) : res string :=
  let undefined := Err (Errorf "cmdline map not defined" []) in
  match obj !! "cmdline" with
  | Some (ASlice (AString name :: _)) => let app := TrimSpace (afterSlash name) in if String.eqb app "" then undefined else Ok app
  | Some (ASlice (_ :: _)) => Err (Errorf "unable to obtain app name" [])
  | _ => undefined
  end.

(** [utils.SplitString] with the backslash as the escape; the tokens are [None] after a final
    escape. *)
Fixpoint splitEscaped (sep : ascii) (word s : string) : option (list string) :=
  match s with
  | EmptyString => Some [word]
  | String c s =>
      if Ascii.eqb c "092"%char then match s with EmptyString => None | String d s => splitEscaped sep (word +:+ String d "") s end
      else if Ascii.eqb c sep then cons word <$> splitEscaped sep "" s
      else splitEscaped sep (word +:+ String c "") s
  end.
Definition SplitString (s : string) (sep : ascii) : option (list string) := splitEscaped sep "" s.

(** ** config.go *)

Record DimensionConfig := { dc_Name : string; dc_JSONPath : string; dc_Value : string }.
Record MetricConfig := { mc_Name : string; mc_JSONPath : string; mc_Type : string; mc_Dimensions : list DimensionConfig; mc_PathSeparator : string }.
Definition metricType (m : MetricConfig) : sfxMetricType := if String.eqb (mc_Type m) "cumulative" then Counter else Gauge.

Definition validateDimension (m : MetricConfig) (d : DimensionConfig) : option error :=
  let hasPath := negb (String.eqb (dc_JSONPath d) "") in
  if Bool.eqb hasPath (negb (String.eqb (dc_Value d) "")) then Some (Errorf "exactly one of dimension path %s and dimension value %s should be set" [dc_JSONPath d; dc_Value d])
  else if hasPath && negb (HasPrefix (mc_JSONPath m) (dc_JSONPath d))
       then Some (Errorf "dimension path %s must be shorter than metric path %s and start from the same root" [dc_JSONPath d; mc_JSONPath m]) else None.
Fixpoint firstError {A} (f : A → option error) (l : list A) : option error := match l with [] => None | x :: l => match f x with Some e => Some e | None => firstError f l end end.
(** The metric with its separator set, by the validation. *)
Definition withSeparator (m : MetricConfig) : MetricConfig :=
  let sep := TrimSpace (mc_PathSeparator m) in
  {| mc_Name := mc_Name m; mc_JSONPath := mc_JSONPath m; mc_Type := mc_Type m; mc_Dimensions := mc_Dimensions m; mc_PathSeparator := if String.eqb sep "" then "." else sep |}.
Fixpoint validateMetrics (ValidateStruct : MetricConfig → option error) (l : list MetricConfig) : res (list MetricConfig) :=
  match l with
  | [] => Ok []
  | m :: l =>
      match ValidateStruct m with
      | Some e => Err e
      | None =>
          let m := withSeparator m in
          if negb (slen (mc_PathSeparator m) =? 1)%nat then Err (Errorf "only single characters allowed for metric value path separator. The configured value is %s" [mc_PathSeparator m])
          else match firstError (validateDimension m) (mc_Dimensions m) with
               | Some e => Err e
               | None => match validateMetrics ValidateStruct l with Err e => Err e | Ok l => Ok (m :: l) end
               end
      end
  end.

Definition pauseNsPath : string := "memstats.PauseNs.\.*".
Definition pauseEndPath : string := "memstats.PauseEnd.\.*".
Definition numGCPath : string := "memstats.NumGC".
Definition bySizePaths : list string := ["memstats.BySize.\.*.Size"; "memstats.BySize.\.*.Mallocs"; "memstats.BySize.\.*.Frees"].
Definition memstatsGauges : list string :=
  ["memstats.HeapAlloc"; "memstats.HeapIdle"; "memstats.HeapInuse"; "memstats.HeapReleased"; "memstats.HeapObjects"; "memstats.StackInuse"; "memstats.StackSys";
   "memstats.MSpanInuse"; "memstats.MSpanSys"; "memstats.MCacheInuse"; "memstats.MCacheSys"; "memstats.BuckHashSys"; "memstats.GCSys"; "memstats.OtherSys";
   "memstats.Sys"; "memstats.NextGC"; "memstats.LastGC"; "memstats.GCCPUFraction"; "memstats.EnableGC"; "memstats.HeapSys"; pauseNsPath; pauseEndPath].
Definition memstatsCumulatives : list string :=
  ["memstats.TotalAlloc"; "memstats.Lookups"; "memstats.Mallocs"; "memstats.Frees"; "memstats.PauseTotalNs"; numGCPath; "memstats.NumForcedGC"].
Definition builtinMetric (type path : string) : MetricConfig :=
  {| mc_Name := joinWords (snakeCaseSlice (default [] (SplitString path "."%char))) "."; mc_JSONPath := path; mc_Type := type;
     mc_Dimensions := [{| dc_Name := ""; dc_JSONPath := ""; dc_Value := "" |}]; mc_PathSeparator := "." |}.
Definition getAllMetricConfigs (configured : list MetricConfig) (enhanced : bool) : list MetricConfig :=
  configured ++ map (builtinMetric "gauge") (memstatsGauges ++ if enhanced then ["memstats.DebugGC"; "memstats.Alloc"] else []) ++
  map (builtinMetric "cumulative") (memstatsCumulatives ++ if enhanced then bySizePaths else []).

(** ** expvar.go *)

Record metricVal := { mv_metric : string; mv_keys : list string; mv_value : option sfxValue; mv_indexDims : gmap string string }.

Section values.
Context `{MapRange} `{PatternEngine} (castValue : any → option sfxValue) (valueText : sfxValue → string).

(** What an enclosing object adds to a value: its key, in front of the names of the array
    indices too. *)
Definition underKey (key : string) (v : metricVal) : metricVal :=
  {| mv_metric := mv_metric v; mv_keys := key :: mv_keys v; mv_value := mv_value v;
     mv_indexDims := kmap (λ k, joinWords (snakeCaseSlice [key] ++ [k]) "_") (mv_indexDims v) |}.
(** An array replaces the indices found below it. *)
Definition underIndex (i : nat) (v : metricVal) : metricVal :=
  {| mv_metric := mv_metric v; mv_keys := mv_keys v; mv_value := mv_value v; mv_indexDims := {["array_index" := pretty i]} |}.
Definition entryValues (matches : string → bool) (name : string) (under : metricVal → metricVal) (o : outcome (list metricVal)) : outcome (list metricVal) :=
  if matches name then vals ← o; Done (map under vals) else Done [].
(** An array where the path has ended indexes the empty list of components. *)
Fixpoint getValuesInPathHelper (obj : any) : list string → outcome (list metricVal) :=
  match obj with
  | AMap m =>
      let inner := getValuesInPathHelper <$> m in
      λ comps, match comps with
               | [] => Done []
               | c :: rest => match regexp_Compile c with
                              | Err _ => Done []
                              | Ok matches => @concat metricVal <$> mapM_outcome (λ ke, entryValues matches ke.1 (underKey ke.1) (ke.2 rest)) (range inner)
                              end
               end
  | ASlice l =>
      let inner := map getValuesInPathHelper l in
      λ comps, match comps with
               | [] => Panics
               | c :: rest => match regexp_Compile c with
                              | Err _ => Done []
                              | Ok matches => @concat metricVal <$> mapM_outcome (λ ie, entryValues matches (pretty ie.1) (underIndex ie.1) (ie.2 rest)) (imap pair inner)
                              end
               end
  | v => λ _, Done [{| mv_metric := ""; mv_keys := []; mv_value := castValue v; mv_indexDims := ∅ |}]
  end.
Definition getValuesInPath (obj : gmap string any) (path sep : string) : outcome (list metricVal) :=
  match sep with
  | String c _ => match SplitString path c with None => Done [] | Some comps => getValuesInPathHelper (AMap obj) comps end
  | EmptyString => Panics
  end.

(** The index of the latest pause in the ring of 256. *)
Definition pauseIndex (vals : list metricVal) (current : Z) : Z :=
  match vals with
  | {| mv_value := Some v |} :: _ => match ParseInt64 (valueText v) with Some n => Z.rem (wrap64 (n + 255)) 256 | None => current end
  | _ => current
  end.
Fixpoint collectValues (obj : gmap string any) (confs : list MetricConfig) (vals : gmap string (list metricVal)) (pause : Z) : outcome (gmap string (list metricVal) * Z) :=
  match confs with
  | [] => Done (vals, pause)
  | c :: confs =>
      vs ← getValuesInPath obj (mc_JSONPath c) (mc_PathSeparator c);
      collectValues obj confs (<[mc_JSONPath c := vs]> vals) (if String.eqb (mc_JSONPath c) numGCPath then pauseIndex vs pause else pause)
  end.
Definition latestPause (name : string) (pause : Z) (v : metricVal) : option metricVal :=
  match ParseInt64 (default "" (mv_indexDims v !! joinWords (snakeCaseSlice (mv_keys v) ++ ["array_index"]) "_")) with
  | Some i => if i =? pause then Some {| mv_metric := name; mv_keys := mv_keys v; mv_value := mv_value v; mv_indexDims := mv_indexDims v |} else None
  | None => None
  end.
Definition keepPauses (pause : Z) (vals : gmap string (list metricVal)) : gmap string (list metricVal) :=
  alter (omap (latestPause "memstats.most_recent_gc_pause_end" pause)) pauseEndPath (alter (omap (latestPause "memstats.most_recent_gc_pause_ns" pause)) pauseNsPath vals).

(** A value that could not be converted is nil in the point. *)
Record expvarPoint := { xp_Metric : string; xp_Type : sfxMetricType; xp_Value : option sfxValue; xp_Dimensions : gmap string string }.
Definition classDim (path : string) (dims : gmap string string) : gmap string string :=
  if bool_decide (path ∈ bySizePaths) then delete "memstats_by_size_index" (<["class" := default "" (dims !! "memstats_by_size_index")]> dims) else dims.
Definition newDp (v : metricVal) (c : MetricConfig) : expvarPoint :=
  let metric := TrimSpace (mv_metric v) in
  {| xp_Metric := if String.eqb metric "" then (if String.eqb (TrimSpace (mc_Name c)) "" then joinWords (snakeCaseSlice (mv_keys v)) "." else mc_Name c) else metric;
     xp_Type := metricType c; xp_Value := mv_value v; xp_Dimensions := classDim (mc_JSONPath c) (mv_indexDims v) |}.
Definition addConfDimension (dims : gmap string string) (d : DimensionConfig) : gmap string string :=
  if negb (String.eqb (TrimSpace (dc_Name d)) "") && negb (String.eqb (TrimSpace (dc_Value d)) "") then <[dc_Name d := dc_Value d]> dims else dims.
Definition finishDp (app : string) (c : MetricConfig) (p : expvarPoint) : expvarPoint :=
  {| xp_Metric := xp_Metric p; xp_Type := xp_Type p; xp_Value := xp_Value p;
     xp_Dimensions := foldl addConfDimension (if String.eqb app "" then xp_Dimensions p else <["application_name" := app]> (xp_Dimensions p)) (mc_Dimensions c) |}.
Definition expvarPoints (app : string) (confs : list MetricConfig) (vals : gmap string (list metricVal)) : list expvarPoint :=
  flat_map (λ c, map (λ v, finishDp app c (newDp v c)) (default [] (vals !! mc_JSONPath c))) confs.
Definition expvarCollect (confs : list MetricConfig) (obj : gmap string any) : outcome (list expvarPoint) :=
  let app := match getApplicationName obj with Ok a => a | Err _ => "" end in
  '(vals, pause) ← collectValues obj confs ∅ (-1);
  Done (expvarPoints app confs (keepPauses pause vals)).
End values.

(** ** genmetadata.go *)

Definition expvarMetrics : list (string * sfxMetricType) :=
  [("memstats.alloc", Gauge); ("memstats.buck_hash_sys", Gauge); ("memstats.by_size.frees", Count); ("memstats.by_size.mallocs", Count);
   ("memstats.by_size.size", Count); ("memstats.debug_gc", Gauge); ("memstats.enable_gc", Gauge); ("memstats.frees", Count);
   ("memstats.gc_sys", Gauge); ("memstats.gccpu_fraction", Gauge); ("memstats.heap_alloc", Gauge); ("memstats.heap_idle", Gauge);
   ("memstats.heap_inuse", Gauge); ("memstats.heap_objects", Gauge); ("memstats.heap_released", Gauge); ("memstats.heap_sys", Gauge);
   ("memstats.last_gc", Gauge); ("memstats.lookups", Count); ("memstats.m_cache_inuse", Gauge); ("memstats.m_cache_sys", Gauge);
   ("memstats.m_span_inuse", Gauge); ("memstats.m_span_sys", Gauge); ("memstats.mallocs", Count); ("memstats.most_recent_gc_pause_end", Gauge);
   ("memstats.most_recent_gc_pause_ns", Gauge); ("memstats.next_gc", Gauge); ("memstats.num_forced_gc", Count); ("memstats.num_gc", Count);
   ("memstats.other_sys", Gauge); ("memstats.pause_total_ns", Count); ("memstats.stack_inuse", Gauge); ("memstats.stack_sys", Gauge);
   ("memstats.sys", Gauge); ("memstats.total_alloc", Count)].

(** ** Values on a path *)

Section paths.
Context `{MapRange} `{PatternEngine} (castValue : any → option sfxValue).

Definition isLeaf (v : any) : bool := match v with AMap _ | ASlice _ => false | _ => true end.
Definition leafValue (v : any) : metricVal := {| mv_metric := ""; mv_keys := []; mv_value := castValue v; mv_indexDims := ∅ |}.
(** The values that a path selects: each component is matched with a key or an index. *)
Inductive valueAt : any → list string → metricVal → Prop :=
| at_leaf v comps : isLeaf v = true → valueAt v comps (leafValue v)
| at_key m c rest matches key v mv : regexp_Compile c = Ok matches → m !! key = Some v → matches key = true → valueAt v rest mv → valueAt (AMap m) (c :: rest) (underKey key mv)
| at_index l c rest matches i v mv : regexp_Compile c = Ok matches → l !! i = Some v → matches (pretty i) = true → valueAt v rest mv → valueAt (ASlice l) (c :: rest) (underIndex i mv).
(** The path ends at an array. *)
Inductive endsAtArray : any → list string → Prop :=
| end_here l : endsAtArray (ASlice l) []
| end_key m c rest matches key v : regexp_Compile c = Ok matches → m !! key = Some v → matches key = true → endsAtArray v rest → endsAtArray (AMap m) (c :: rest)
| end_index l c rest matches i v : regexp_Compile c = Ok matches → l !! i = Some v → matches (pretty i) = true → endsAtArray v rest → endsAtArray (ASlice l) (c :: rest).

Notation values := (getValuesInPathHelper castValue).

Lemma entryValues_spec matches name under o : entryValues matches name under o = if matches name then map under <$> o else Done [].
Proof. unfold entryValues. destruct (matches name); [|done]. by destruct o. Qed.
Lemma values_map m c rest : values (AMap m) (c :: rest) =
  match regexp_Compile c with
  | Err _ => Done []
  | Ok matches => @concat metricVal <$> mapM_outcome (λ ke, entryValues matches ke.1 (underKey ke.1) (ke.2 rest)) (range (values <$> m))
  end.
Proof. done. Qed.
Lemma values_slice l c rest : values (ASlice l) (c :: rest) =
  match regexp_Compile c with
  | Err _ => Done []
  | Ok matches => @concat metricVal <$> mapM_outcome (λ ie, entryValues matches (pretty ie.1) (underIndex ie.1) (ie.2 rest)) (imap pair (map values l))
  end.
Proof. done. Qed.
Lemma values_leaf v comps : isLeaf v = true → values v comps = Done [leafValue v].
Proof. by destruct v. Qed.

(** Loops over entries that never fail: the result, or the panic of one of them. *)
Lemma concat_loop {A} (f : A → outcome (list metricVal)) l vals : @concat metricVal <$> mapM_outcome f l = Done vals →
  (∀ x, x ∈ l → ∃ vs, f x = Done vs) ∧ ∀ mv, mv ∈ vals ↔ ∃ x vs, x ∈ l ∧ f x = Done vs ∧ mv ∈ vs.
Proof.
  destruct (mapM_outcome f l) as [vss| |] eqn:Hl; [|done..]. intros [= <-]. apply mapM_outcome_done in Hl. split.
  - intros x Hx. apply list_elem_of_lookup in Hx as [i Hi]. destruct (Forall2_lookup_l _ _ _ _ _ Hl Hi) as (vs & _ & ?). by exists vs.
  - intros mv. rewrite list_elem_of_In, in_concat. split.
    + intros (vs & Hvs & Hmv). apply list_elem_of_In, list_elem_of_lookup in Hvs as [i Hi]. destruct (Forall2_lookup_r _ _ _ _ _ Hl Hi) as (x & Hx & ?).
      exists x, vs. split_and!; [by eapply list_elem_of_lookup_2 | done | by apply list_elem_of_In].
    + intros (x & vs & Hx & Hf & Hmv). apply list_elem_of_lookup in Hx as [i Hi]. destruct (Forall2_lookup_l _ _ _ _ _ Hl Hi) as (vs' & Hi' & Hf').
      assert (vs' = vs) as -> by congruence. exists vs. split; [by eapply list_elem_of_In, list_elem_of_lookup_2 | by apply list_elem_of_In].
Qed.
Lemma range_values m key g : (key, g) ∈ range (values <$> m) ↔ ∃ v, m !! key = Some v ∧ g = values v.
Proof. rewrite elem_of_range, lookup_fmap, fmap_Some. naive_solver. Qed.
Lemma imap_values l i g : (i, g) ∈ imap pair (map values l) ↔ ∃ v, l !! i = Some v ∧ g = values v.
Proof.
  rewrite elem_of_lookup_imap. setoid_rewrite list_lookup_fmap_Some. split.
  - intros (j & y & Heq & v & ? & ?). injection Heq as <- <-. by exists v.
  - intros (v & Hv & ->). exists i, (values v). split; [done|]. by exists v.
Qed.

Lemma values_never_fail obj : ∀ comps, never_fails (values obj comps).
Proof.
  induction obj as [obj IH] using any_size_ind. intros comps. destruct (isLeaf obj) eqn:Hleaf; [rewrite values_leaf by done; by intros ?|].
  assert (Hc : ∀ {A} (f : A → outcome (list metricVal)) l, (∀ x, x ∈ l → never_fails (f x)) → never_fails (@concat metricVal <$> mapM_outcome f l)).
  { intros A f l Hf e Heq. pose proof (mapM_outcome_never_fails f l Hf) as Hn. destruct (mapM_outcome f l) as [?|e'|]; [done| by destruct (Hn e') | done]. }
  destruct obj as [| | | | | |l| |m| |]; try done; (destruct comps as [|c rest]; [by intros ?|]).
  - rewrite values_slice. destruct (regexp_Compile c) as [matches|]; [|by intros ?]. apply Hc. intros [i g] (v & Hv & ->)%imap_values. cbn [fst snd]. rewrite entryValues_spec.
    destruct (matches _); [|by intros ?]. intros e Heq. pose proof (IH v (any_size_slice v l (list_elem_of_lookup_2 _ _ _ Hv)) rest) as Hn. destruct (values v rest) as [?|e'|]; [done|by destruct (Hn e')|done].
  - rewrite values_map. destruct (regexp_Compile c) as [matches|]; [|by intros ?]. apply Hc. intros [key g] (v & Hv & ->)%range_values. cbn [fst snd]. rewrite entryValues_spec.
    destruct (matches _); [|by intros ?]. intros e Heq. pose proof (IH v (any_size_map key v m Hv) rest) as Hn. destruct (values v rest) as [?|e'|]; [done|by destruct (Hn e')|done].
Qed.
Lemma fmap_under_done (under : metricVal → metricVal) o vs : map under <$> o = Done vs ↔ ∃ vs0, o = Done vs0 ∧ vs = map under vs0.
Proof. destruct o as [vs0| |]; cbn; [|split; [done|by intros (? & ? & _)]..]. split; [intros [= <-]; by exists vs0 | by intros (? & [= ->] & ->)]. Qed.
Lemma loop_panics {A} (f : A → outcome (list metricVal)) l : (∀ x, x ∈ l → never_fails (f x)) → @concat metricVal <$> mapM_outcome f l = Panics ↔ ∃ x, x ∈ l ∧ f x = Panics.
Proof.
  intros Hf. split.
  - intros Hp. assert (Hm : mapM_outcome f l = Panics) by (by destruct (mapM_outcome f l)). clear Hp Hf. induction l as [|x l IH]; [done|]. cbn [mapM_outcome] in Hm.
    destruct (f x) eqn:Hx; [|done|exists x; split; [by left|done]]. destruct IH as (y & Hy & ?); [by destruct (mapM_outcome f l)|]. exists y. split; [by right|done].
  - intros (x & Hx & Hp). by rewrite (mapM_outcome_some_panics f l x).
Qed.
Lemma entry_never_fails matches name under v rest : never_fails (entryValues matches name under (values v rest)).
Proof.
  rewrite entryValues_spec. destruct (matches name); [|by intros ?]. intros e Heq. pose proof (values_never_fail v rest) as Hn. destruct (values v rest) as [?|e'|]; [done|by destruct (Hn e')|done].
Qed.
Lemma entry_panics matches name under o : entryValues matches name under o = Panics ↔ matches name = true ∧ o = Panics.
Proof. rewrite entryValues_spec. destruct (matches name); [|naive_solver]. destruct o; naive_solver. Qed.

Lemma values_panic obj : ∀ comps, values obj comps = Panics ↔ endsAtArray obj comps.
Proof.
  induction obj as [obj IH] using any_size_ind. intros comps. destruct (isLeaf obj) eqn:Hleaf; [rewrite values_leaf by done; split; [done|by destruct 1]|].
  destruct obj as [| | | | | |l| |m| |]; try done.
  - destruct comps as [|c rest]; [split; [constructor|done]|]. rewrite values_slice. destruct (regexp_Compile c) as [matches|] eqn:Hc; [|split; [done|inversion 1; congruence]].
    rewrite loop_panics by (intros [i g] (v & _ & ->)%imap_values; apply entry_never_fails). split.
    + intros ([i g] & (v & Hv & ->)%imap_values & [Hm Hp]%entry_panics). cbn [fst snd] in *. apply (end_index l c rest matches i v); [done..|].
      apply (IH v); [|done]. eapply any_size_slice, list_elem_of_lookup_2, Hv.
    + inversion 1 as [| |? ? ? matches' i v Hc' Hv Hm Hend]; subst. assert (matches' = matches) as -> by congruence. exists (i, values v). split; [apply imap_values; by exists v|].
      apply entry_panics. split; [done|]. apply (IH v); [|done]. eapply any_size_slice, list_elem_of_lookup_2, Hv.
  - destruct comps as [|c rest]; [split; [done|inversion 1]|]. rewrite values_map. destruct (regexp_Compile c) as [matches|] eqn:Hc; [|split; [done|inversion 1; congruence]].
    rewrite loop_panics by (intros [i g] (v & _ & ->)%range_values; apply entry_never_fails). split.
    + intros ([key g] & (v & Hv & ->)%range_values & [Hm Hp]%entry_panics). cbn [fst snd] in *. apply (end_key m c rest matches key v); [done..|].
      apply (IH v); [|done]. by eapply any_size_map.
    + inversion 1 as [|? ? ? matches' key v Hc' Hv Hm Hend|]; subst. assert (matches' = matches) as -> by congruence. exists (key, values v). split; [apply range_values; by exists v|].
      apply entry_panics. split; [done|]. apply (IH v); [|done]. by eapply any_size_map.
Qed.

Lemma values_done obj : ∀ comps vals, values obj comps = Done vals → ∀ mv, mv ∈ vals ↔ valueAt obj comps mv.
Proof.
  induction obj as [obj IH] using any_size_ind. intros comps vals Hv mv. destruct (isLeaf obj) eqn:Hleaf.
  { rewrite values_leaf in Hv by done. injection Hv as <-. rewrite list_elem_of_singleton. split; [intros ->; by constructor | by inversion 1; subst]. }
  destruct obj as [| | | | | |l| |m| |]; try done.
  - destruct comps as [|c rest]; [done|]. rewrite values_slice in Hv. destruct (regexp_Compile c) as [matches|] eqn:Hc; [|injection Hv as <-; split; [by intros ?%elem_of_nil|inversion 1; [done|congruence]]].
    apply concat_loop in Hv as [Hall Hin]. rewrite Hin. split.
    + intros ([i g] & vs & (v & Hv & ->)%imap_values & Hf & Hmv). cbn [fst snd] in Hf. rewrite entryValues_spec in Hf. destruct (matches (pretty i)) eqn:Hm; [|injection Hf as <-; by apply elem_of_nil in Hmv].
      apply fmap_under_done in Hf as (vs0 & Hf & ->). apply list_elem_of_fmap in Hmv as (mv0 & -> & Hmv). apply (at_index l c rest matches i v); [done..|].
      apply (IH v) with vs0; [|done..]. eapply any_size_slice, list_elem_of_lookup_2, Hv.
    + inversion 1 as [| |? ? ? matches' i v mv0 Hc' Hv Hm Hat]; subst; [done|]. assert (matches' = matches) as -> by congruence. destruct (Hall (i, values v)) as [vs Hvs]; [apply imap_values; by exists v|].
      exists (i, values v), vs. split_and!; [apply imap_values; by exists v | done|]. cbn [fst snd] in Hvs. rewrite entryValues_spec, Hm in Hvs. apply fmap_under_done in Hvs as (vs0 & Hvs & ->).
      apply list_elem_of_fmap. exists mv0. split; [done|]. apply (IH v) with rest; [|done..]. eapply any_size_slice, list_elem_of_lookup_2, Hv.
  - destruct comps as [|c rest]; [injection Hv as <-; split; [by intros ?%elem_of_nil|by inversion 1]|]. rewrite values_map in Hv.
    destruct (regexp_Compile c) as [matches|] eqn:Hc; [|injection Hv as <-; split; [by intros ?%elem_of_nil|inversion 1; [done|congruence]]].
    apply concat_loop in Hv as [Hall Hin]. rewrite Hin. split.
    + intros ([key g] & vs & (v & Hv & ->)%range_values & Hf & Hmv). cbn [fst snd] in Hf. rewrite entryValues_spec in Hf. destruct (matches key) eqn:Hm; [|injection Hf as <-; by apply elem_of_nil in Hmv].
      apply fmap_under_done in Hf as (vs0 & Hf & ->). apply list_elem_of_fmap in Hmv as (mv0 & -> & Hmv). apply (at_key m c rest matches key v); [done..|].
      apply (IH v) with vs0; [|done..]. by eapply any_size_map.
    + inversion 1 as [|? ? ? matches' key v mv0 Hc' Hv Hm Hat|]; subst; [done|]. assert (matches' = matches) as -> by congruence. destruct (Hall (key, values v)) as [vs Hvs]; [apply range_values; by exists v|].
      exists (key, values v), vs. split_and!; [apply range_values; by exists v | done|]. cbn [fst snd] in Hvs. rewrite entryValues_spec, Hm in Hvs. apply fmap_under_done in Hvs as (vs0 & Hvs & ->).
      apply list_elem_of_fmap. exists mv0. split; [done|]. apply (IH v) with rest; [|done..]. by eapply any_size_map.
Qed.
End paths.

(** The values that a path selects are exactly those whose keys and indices its components match,
    each with its keys; the walk panics exactly when some matching path ends at an array. *)
Lemma getValuesInPath_correct `{MapRange} `{PatternEngine} castValue obj comps :
  (getValuesInPathHelper castValue obj comps = Panics ↔ endsAtArray obj comps) ∧
  (¬ endsAtArray obj comps → ∃ vals, getValuesInPathHelper castValue obj comps = Done vals ∧ ∀ mv, mv ∈ vals ↔ valueAt castValue obj comps mv).
Proof.
  split; [apply values_panic|]. intros Hend. destruct (getValuesInPathHelper castValue obj comps) as [vals|e|] eqn:Hv.
  - exists vals. split; [done|]. by apply values_done.
  - by destruct (values_never_fail castValue obj comps e).
  - destruct Hend. by apply (values_panic castValue).
Qed.

(** ** The built-in metrics *)

#[local] Instance ex_type_eq_dec : EqDecision sfxMetricType.
Proof. solve_decision. Defined.
(** The names of the built-in metrics are declared, save the two from which the latest pauses
    are taken. *)
Lemma builtin_names : List.filter (λ n, negb (bool_decide (n ∈ expvarMetrics.*1))) (map mc_Name (getAllMetricConfigs [] true)) = ["memstats.pause_ns"; "memstats.pause_end"].
Proof. vm_compute. reflexivity. Qed.
(** Those declared as counts are sent as cumulative counters. *)
Lemma builtin_types : length (List.filter (λ c, bool_decide ((mc_Name c, Count) ∈ expvarMetrics) && bool_decide (metricType c = Counter)) (getAllMetricConfigs [] true)) = 10%nat.
Proof. vm_compute. reflexivity. Qed.
(** A lower case prefix before more than one upper case letter is lost. *)
Lemma snake_prefix_lost : snakeCase "numGC" = "gc" ∧ snakeCase "NumGC" = "num_gc" ∧ snakeCase "CacheGCCPUFraction" = "cache_gccpu_fraction".
Proof. vm_compute. done. Qed.

(** ** Witnesses and executions *)

(** Expressions without special characters match the texts that contain them, and [.*] all. *)
Definition literal_engine : PatternEngine := {|
  regexp_Compile := λ p, Ok (λ s, String.eqb p ".*" || match Index s p with Some _ => true | None => false end); glob_Compile := λ p, Ok (String.eqb p) |}.
Definition demo_cast (v : any) : option sfxValue := match v with AInt z => Some (IntValue z) | _ => None end.
Definition demo_memstats : gmap string any := {["memstats" := AMap {["Sys" := AInt 70; "HeapSys" := AInt 40; "PauseNs" := ASlice [AInt 1]]}]}.
(** The expressions are not anchored: the metric of all memory has the value of every key that
    contains its name. *)
Lemma sys_has_two_values :
  (λ vs, map (λ v, (mv_keys v, mv_value v)) vs) <$> @getValuesInPath forward_range literal_engine demo_cast demo_memstats "memstats.Sys" "." =
  Done [(["memstats"; "Sys"], Some (IntValue 70)); (["memstats"; "HeapSys"], Some (IntValue 40))] ∨
  (λ vs, map (λ v, (mv_keys v, mv_value v)) vs) <$> @getValuesInPath forward_range literal_engine demo_cast demo_memstats "memstats.Sys" "." =
  Done [(["memstats"; "HeapSys"], Some (IntValue 40)); (["memstats"; "Sys"], Some (IntValue 70))].
Proof. vm_compute. by (left; reflexivity) || (right; reflexivity). Qed.
(** The index of a size class is under another name than the one that is renamed to its
    dimension. *)
Lemma class_is_empty :
  map (λ p, (xp_Dimensions p !! "class", xp_Dimensions p !! "memstats_by_size_array_index"))
    (map (λ v, newDp v (builtinMetric "cumulative" "memstats.BySize.\.*.Size"))
      (match @getValuesInPath forward_range literal_engine demo_cast {["memstats" := AMap {["BySize" := ASlice [AMap {["Size" := AInt 8]}]]}]} "memstats.BySize.\.*.Size" "." with Done vs => vs | _ => [] end)) =
  [(Some "", Some "0")].
Proof. vm_compute. reflexivity. Qed.
(** A configured path that ends at an array panics. *)
Lemma array_path_panics : @getValuesInPath forward_range literal_engine demo_cast demo_memstats "memstats.PauseNs" "." = Panics.
Proof. vm_compute. reflexivity. Qed.
Lemma getValuesInPath_correct_witness :
  ∃ vals, @getValuesInPathHelper forward_range literal_engine demo_cast (AMap demo_memstats) ["memstats"; "HeapSys"] = Done vals ∧
    ∀ mv, mv ∈ vals ↔ @valueAt literal_engine demo_cast (AMap demo_memstats) ["memstats"; "HeapSys"] mv.
Proof.
  apply (@getValuesInPath_correct forward_range literal_engine demo_cast (AMap demo_memstats) ["memstats"; "HeapSys"]).
  intros Hend. apply (proj2 (proj1 (@getValuesInPath_correct forward_range literal_engine demo_cast (AMap demo_memstats) ["memstats"; "HeapSys"]))) in Hend. vm_compute in Hend. discriminate.
Defined.
