(* ===== verification/SQLQueries.v ===== *)
(** * The queries of the postgresql and hana monitors

    The tables of [src/internal/signalfx-agent/pkg/monitors/postgresql/queries.go] and
    [hana/queries.go], which the SQL monitor runs, the generated metadata of both monitors
    ([genmetadata.go]), and how they agree. *)

From S2P Require Import Prelude GoStrings GoValue Outcome Settings Telemetry SmartAgent HostMonitors SQLMonitor.
From Stdlib Require Import Ascii.

#[local] Abbreviation query text params metrics := {| qy_Query := text; qy_Params := params; qy_Metrics := metrics; qy_Expressions := [] |} (only parsing).
#[local] Abbreviation metric name value dims cumulative props :=
  {| sm_MetricName := name; sm_ValueColumn := value; sm_DimensionColumns := dims; sm_IsCumulative := cumulative; sm_DimensionPropertyColumns := props |} (only parsing).

(** ** postgresql/queries.go *)

Definition defaultServerQueries (totalTimeColumn : string) : list Query :=
  [query ("SELECT COUNT(*) as count, state, datname as database FROM pg_stat_activity WHERE state IS NOT NULL GROUP BY pg_stat_activity.state, pg_stat_activity.datname;")
     []
     [metric "postgres_sessions" "count" ["state"; "database"] false ∅];
   query ("SELECT datname as database, (blks_hit*1.0 / GREATEST(blks_read + blks_hit, 1)) as blks_hit_ratio, deadlocks FROM pg_stat_database WHERE blks_read > 0;")
     []
     [metric "postgres_block_hit_ratio" "blks_hit_ratio" ["database"] false ∅;
      metric "postgres_deadlocks" "deadlocks" ["database"] true ∅];
   query ("SELECT datname as database, usename as user, SUM(calls) as total_calls, SUM(" +:+ totalTimeColumn +:+ ") as total_time FROM pg_stat_statements INNER JOIN pg_stat_database ON pg_stat_statements.dbid = pg_stat_database.datid INNER JOIN pg_user ON pg_stat_statements.userid = pg_user.usesysid GROUP BY pg_stat_database.datname, pg_user.usename;")
     []
     [metric "postgres_query_count" "total_calls" ["database"; "user"] true ∅;
      metric "postgres_query_time" "total_time" ["database"; "user"] true ∅];
   query ("WITH max_con AS (SELECT setting::float FROM pg_settings WHERE name = 'max_connections') SELECT COUNT(*)/MAX(setting) AS pct_connections FROM pg_stat_activity, max_con;")
     []
     [metric "postgres_pct_connections" "pct_connections" [] false ∅];
   query ("SELECT COUNT(*) AS locks FROM pg_locks WHERE NOT granted;")
     []
     [metric "postgres_locks" "locks" [] false ∅];
   query ("SELECT datname AS database, xact_commit, xact_rollback, conflicts FROM pg_stat_database;")
     []
     [metric "postgres_conflicts" "conflicts" ["database"] true ∅;
      metric "postgres_xact_commits" "xact_commit" ["database"] true ∅;
      metric "postgres_xact_rollbacks" "xact_rollback" ["database"] true ∅]].
Definition makeDefaultDBQueries (dbname : string) : list Query :=
  [query ("SELECT tablespace, relname as table, pg_stat_user_tables.schemaname, n_live_tup, n_tup_ins, n_tup_upd, n_tup_del, seq_scan, COALESCE(idx_scan, 0) as idx_scan, pg_relation_size(relid) as size, 'user' as type from pg_stat_user_tables INNER JOIN pg_tables ON (pg_stat_user_tables.relname = pg_tables.tablename AND pg_stat_user_tables.schemaname = pg_tables.schemaname) WHERE idx_scan IS NOT NULL AND pg_relation_size(relid) IS NOT NULL;")
     []
     [metric "postgres_rows_inserted" "n_tup_ins" ["schemaname"; "table"; "type"; "tablespace"] true ∅;
      metric "postgres_rows_updated" "n_tup_upd" ["schemaname"; "table"; "type"; "tablespace"] true ∅;
      metric "postgres_rows_deleted" "n_tup_del" ["schemaname"; "table"; "type"; "tablespace"] true ∅;
      metric "postgres_sequential_scans" "seq_scan" ["table"; "schemaname"; "type"; "tablespace"] true ∅;
      metric "postgres_index_scans" "idx_scan" ["table"; "schemaname"; "type"; "tablespace"] true ∅;
      metric "postgres_table_size" "size" ["table"; "schemaname"; "type"; "tablespace"] false ∅;
      metric "postgres_live_rows" "n_live_tup" ["table"; "schemaname"; "type"; "tablespace"] false ∅];
   query ("SELECT pg_database_size($1) as size;")
     [AString dbname]
     [metric "postgres_database_size" "size" [] false ∅];
   query ("SELECT schemaname, relname as table, (heap_blks_hit*1.0 / GREATEST(heap_blks_read+heap_blks_hit, 1)) as block_hit_ratio, 'user' as type from pg_statio_user_tables;")
     []
     [metric "postgres_block_hit_ratio" "block_hit_ratio" ["table"; "schemaname"; "type"] false ∅];
   query ("SELECT schemaname, relname as table, indexrelname as index, (idx_blks_hit*1.0 / GREATEST(idx_blks_hit + idx_blks_read, 1)) as hit_ratio, 'user' as type FROM pg_statio_user_indexes;")
     []
     [metric "postgres_block_hit_ratio" "hit_ratio" ["index"; "table"; "schemaname"; "type"] false ∅]].
Definition makeDefaultStatementsQueries (limit : Z) (totalTimeColumn : string) : list Query :=
  [query ("SELECT datname as database, usename as user, queryid, query, calls FROM (SELECT * FROM (SELECT ROW_NUMBER() OVER (PARTITION BY dbid ORDER BY calls DESC) AS r, s.* FROM pg_stat_statements s) q WHERE q.r <= $1) p, pg_stat_database d, pg_user u WHERE p.dbid = d.datid AND p.userid = u.usesysid;")
     [AInt limit]
     [metric "postgres_queries_calls" "calls" ["database"; "user"; "queryid"] true {["queryid" := ["query"]]}];
   query ("SELECT datname as database, usename as user, queryid, query, " +:+ totalTimeColumn +:+ " as total_time FROM (SELECT * FROM (SELECT ROW_NUMBER() OVER (PARTITION BY dbid ORDER BY " +:+ totalTimeColumn +:+ " DESC) AS r, s.* FROM pg_stat_statements s) q WHERE q.r <= $1) p, pg_stat_database d, pg_user u WHERE p.dbid = d.datid AND p.userid = u.usesysid;")
     [AInt limit]
     [metric "postgres_queries_total_time" "total_time" ["database"; "user"; "queryid"] true {["queryid" := ["query"]]}];
   query ("SELECT datname as database, usename as user, queryid, query, (" +:+ totalTimeColumn +:+ " / calls) AS average_time FROM (SELECT * FROM (SELECT ROW_NUMBER() OVER (PARTITION BY dbid ORDER BY " +:+ totalTimeColumn +:+ " / calls DESC) AS r, s.* FROM pg_stat_statements s) q WHERE q.r <= $1) p, pg_stat_database d, pg_user u WHERE p.dbid = d.datid AND p.userid = u.usesysid;")
     [AInt limit]
     [metric "postgres_queries_average_time" "average_time" ["database"; "user"; "queryid"] true {["queryid" := ["query"]]}]].
Definition defaultReplicationQueries : list Query :=
  [query ("SELECT GREATEST (0, (EXTRACT (EPOCH FROM now() - pg_last_xact_replay_timestamp()))) AS lag, CASE WHEN pg_is_in_recovery() THEN 'standby' ELSE 'master' END AS replication_role;")
     []
     [metric "postgres_replication_lag" "lag" ["replication_role"] false ∅];
   query ("SELECT slot_name, slot_type, database, case when active then 1 else 0 end AS active FROM pg_replication_slots;")
     []
     [metric "postgres_replication_state" "active" ["slot_name"; "slot_type"; "database"] false ∅]].

(** ** hana/queries.go *)

Definition hanaHostQueries : list Query :=
  [query ("SELECT host AS hana_host, usage_type, used_size FROM m_disk_usage WHERE used_size >= 0;")
     []
     [metric "sap.hana.disk.used_size" "used_size" ["hana_host"; "usage_type"] false ∅];
   query ("SELECT host AS hana_host, SUM(total_device_size) AS total_size FROM (SELECT device_id, host, MAX(total_device_size) AS total_device_size FROM m_disks GROUP BY device_id, host) GROUP BY host;")
     []
     [metric "sap.hana.disk.total_size" "total_size" ["hana_host"] false ∅];
   query ("SELECT host AS hana_host, service_name, process_cpu, open_file_count FROM m_service_statistics;")
     []
     [metric "sap.hana.service.cpu.utilization" "process_cpu" ["hana_host"; "service_name"] false ∅;
      metric "sap.hana.service.file.open" "open_file_count" ["hana_host"; "service_name"] false ∅];
   query ("SELECT host AS hana_host, free_physical_memory, used_physical_memory, free_swap_space, used_swap_space, allocation_limit, instance_total_memory_used_size, instance_total_memory_allocated_size, instance_code_size, instance_shared_memory_allocated_size, open_file_count, total_cpu_user_time, total_cpu_system_time, total_cpu_wio_time, total_cpu_idle_time FROM m_host_resource_utilization;")
     []
     [metric "sap.hana.host.memory.physical.free" "free_physical_memory" ["hana_host"] false ∅;
      metric "sap.hana.host.memory.physical.used" "used_physical_memory" ["hana_host"] false ∅;
      metric "sap.hana.host.memory.swap.free" "free_swap_space" ["hana_host"] false ∅;
      metric "sap.hana.host.memory.swap.used" "used_swap_space" ["hana_host"] false ∅;
      metric "sap.hana.host.memory.allocation_limit" "allocation_limit" ["hana_host"] false ∅;
      metric "sap.hana.host.memory.total_used" "instance_total_memory_used_size" ["hana_host"] false ∅;
      metric "sap.hana.host.memory.total_allocated" "instance_total_memory_allocated_size" ["hana_host"] false ∅;
      metric "sap.hana.host.memory.code" "instance_code_size" ["hana_host"] false ∅;
      metric "sap.hana.host.memory.shared" "instance_shared_memory_allocated_size" ["hana_host"] false ∅;
      metric "sap.hana.host.file.open" "open_file_count" ["hana_host"] false ∅;
      metric "sap.hana.host.cpu.user" "total_cpu_user_time" ["hana_host"] true ∅;
      metric "sap.hana.host.cpu.system" "total_cpu_system_time" ["hana_host"] true ∅;
      metric "sap.hana.host.cpu.wio" "total_cpu_wio_time" ["hana_host"] true ∅;
      metric "sap.hana.host.cpu.idle" "total_cpu_idle_time" ["hana_host"] true ∅]].
Definition hanaServiceQueries : list Query :=
  [query ("SELECT host AS hana_host, service_name, logical_memory_size, physical_memory_size, code_size, stack_size, heap_memory_allocated_size, heap_memory_used_size, shared_memory_allocated_size, shared_memory_used_size, allocation_limit, effective_allocation_limit, total_memory_used_size FROM m_service_memory;")
     []
     [metric "sap.hana.service.memory.logical" "logical_memory_size" ["hana_host"; "service_name"] false ∅;
      metric "sap.hana.service.memory.physical" "physical_memory_size" ["hana_host"; "service_name"] false ∅;
      metric "sap.hana.service.memory.code" "code_size" ["hana_host"; "service_name"] false ∅;
      metric "sap.hana.service.memory.stack" "stack_size" ["hana_host"; "service_name"] false ∅;
      metric "sap.hana.service.memory.heap.allocated" "heap_memory_allocated_size" ["hana_host"; "service_name"] false ∅;
      metric "sap.hana.service.memory.heap.used" "heap_memory_used_size" ["hana_host"; "service_name"] false ∅;
      metric "sap.hana.service.memory.shared.allocated" "shared_memory_allocated_size" ["hana_host"; "service_name"] false ∅;
      metric "sap.hana.service.memory.shared.used" "shared_memory_used_size" ["hana_host"; "service_name"] false ∅;
      metric "sap.hana.service.memory.allocation_limit" "allocation_limit" ["hana_host"; "service_name"] false ∅;
      metric "sap.hana.service.memory.allocation_limit_effective" "effective_allocation_limit" ["hana_host"; "service_name"] false ∅;
      metric "sap.hana.service.memory.total_used" "total_memory_used_size" ["hana_host"; "service_name"] false ∅];
   query ("SELECT services.host AS hana_host, services.service_name AS service_name, memory.component AS component_name, memory.used_memory_size AS used_memory_size FROM m_service_component_memory AS memory JOIN m_services AS services ON memory.host = services.host AND memory.port = services.port;")
     []
     [metric "sap.hana.service.component.memory.used" "used_memory_size" ["hana_host"; "service_name"; "component_name"] false ∅]].
Definition hanaStatementQueries (max : Z) : list Query :=
  [query ("SELECT host AS hana_host, COUNT(*) AS statement_count, TO_DOUBLE(AVG(avg_execution_time)) AS avg_execution_time, MAX(max_execution_time) AS max_execution_time, SUM(total_execution_time) AS total_execution_time, TO_DOUBLE(AVG(avg_execution_memory_size)) AS avg_execution_memory_size, MAX(max_execution_memory_size) AS max_execution_memory_size, SUM(total_execution_memory_size) AS total_execution_memory_size FROM m_active_statements GROUP BY host;")
     []
     [metric "sap.hana.statement.active.count" "statement_count" ["hana_host"] false ∅;
      metric "sap.hana.statement.active.execution.time.mean" "avg_execution_time" ["hana_host"] false ∅;
      metric "sap.hana.statement.active.execution.time.sum" "total_execution_time" ["hana_host"] false ∅;
      metric "sap.hana.statement.active.execution.time.max" "max_execution_time" ["hana_host"] false ∅;
      metric "sap.hana.statement.active.execution.memory.mean" "avg_execution_memory_size" ["hana_host"] false ∅;
      metric "sap.hana.statement.active.execution.memory.max" "max_execution_memory_size" ["hana_host"] false ∅;
      metric "sap.hana.statement.active.execution.memory.sum" "total_execution_memory_size" ["hana_host"] false ∅];
   query ("SELECT host AS hana_host,statement_hash,db_user,schema_name,app_user,operation,SUM(duration_microsec) AS total_duration_microsec,SUM(records) AS total_records,SUM(cpu_time) AS total_cpu_time,SUM(lock_wait_duration) AS total_lock_wait_duration,COUNT(*) AS count FROM m_expensive_statements WHERE start_time > ADD_DAYS(CURRENT_TIMESTAMP , -1) AND (host , schema_name , statement_hash) IN ( SELECT host , schema_name , statement_hash FROM (SELECT * , rank() OVER (PARTITION BY host , schema_name ORDER BY duration_microsec DESC) AS rank FROM (SELECT host , schema_name , statement_hash , MAX (duration_microsec) AS duration_microsec FROM m_expensive_statements WHERE start_time > ADD_DAYS(CURRENT_TIMESTAMP , -1) GROUP BY host , schema_name , statement_hash)) WHERE rank < " +:+ pretty max +:+ " )GROUP BY host, statement_hash, db_user, schema_name, app_user, operation;")
     []
     [metric "sap.hana.statement.expensive.count" "count" ["hana_host"; "statement_hash"; "db_user"; "schema_name"; "app_user"; "operation"] true ∅;
      metric "sap.hana.statement.expensive.duration" "total_duration_microsec" ["hana_host"; "statement_hash"; "db_user"; "schema_name"; "app_user"; "operation"] false ∅;
      metric "sap.hana.statement.expensive.records" "total_records" ["hana_host"; "statement_hash"; "db_user"; "schema_name"; "app_user"; "operation"] true ∅;
      metric "sap.hana.statement.expensive.cpu_time" "total_cpu_time" ["hana_host"; "statement_hash"; "db_user"; "schema_name"; "app_user"; "operation"] true ∅;
      metric "sap.hana.statement.expensive.lock_wait_duration" "total_lock_wait_duration" ["hana_host"; "statement_hash"; "db_user"; "schema_name"; "app_user"; "operation"] true ∅];
   query ("SELECT host AS hana_host, statement_hash, db_user, schema_name, app_user, operation, COUNT(*) AS errors FROM m_expensive_statements WHERE error_code <> 0 GROUP BY host, statement_hash, db_user, schema_name, app_user, operation;")
     []
     [metric "sap.hana.statement.expensive.errors" "errors" ["hana_host"; "statement_hash"; "db_user"; "schema_name"; "app_user"; "operation"] true ∅]].
Definition hanaConnectionQueries : list Query :=
  [query ("SELECT host AS hana_host, connection_status, COUNT(*) AS count, SUM(fetched_record_count) AS fetched_record_count, SUM(affected_record_count) AS affected_record_count, SUM(sent_message_size) AS sent_message_size, SUM(sent_message_count) AS sent_message_count, SUM(received_message_size) AS received_message_size, SUM(received_message_count) AS received_message_count FROM m_connections GROUP BY host, connection_status HAVING connection_status != '';")
     []
     [metric "sap.hana.connection.count" "count" ["hana_host"; "connection_status"] false ∅;
      metric "sap.hana.connection.record.fetched" "fetched_record_count" ["hana_host"; "connection_status"] false ∅;
      metric "sap.hana.connection.record.affected" "affected_record_count" ["hana_host"; "connection_status"] false ∅;
      metric "sap.hana.connection.message.sent.size" "sent_message_size" ["hana_host"; "connection_status"] false ∅;
      metric "sap.hana.connection.message.sent.count" "sent_message_count" ["hana_host"; "connection_status"] false ∅;
      metric "sap.hana.connection.message.received.size" "received_message_size" ["hana_host"; "connection_status"] false ∅;
      metric "sap.hana.connection.message.received.count" "received_message_count" ["hana_host"; "connection_status"] false ∅];
   query ("SELECT host AS hana_host, type, SUM(total_reads) AS total_reads, SUM(total_trigger_async_reads) AS total_trigger_async_reads, SUM(total_failed_reads) AS total_failed_reads, SUM(total_read_size) AS total_read_size, SUM(total_read_time) AS total_read_time, SUM(total_appends) AS total_appends, SUM(total_writes) AS total_writes, SUM(total_trigger_async_writes) AS total_trigger_async_writes, SUM(total_failed_writes) AS total_failed_writes, SUM(total_write_size) AS total_write_size, SUM(total_write_time) AS total_write_time, SUM(total_io_time) AS total_io_time FROM m_volume_io_total_statistics GROUP BY host, type;")
     []
     [metric "sap.hana.io.read.count" "total_reads" ["hana_host"; "type"] true ∅;
      metric "sap.hana.io.read.async.count" "total_trigger_async_reads" ["hana_host"; "type"] true ∅;
      metric "sap.hana.io.read.failed" "total_failed_reads" ["hana_host"; "type"] true ∅;
      metric "sap.hana.io.read.size" "total_read_size" ["hana_host"; "type"] true ∅;
      metric "sap.hana.io.read.time" "total_read_time" ["hana_host"; "type"] true ∅;
      metric "sap.hana.io.append.count" "total_appends" ["hana_host"; "type"] true ∅;
      metric "sap.hana.io.write.count" "total_writes" ["hana_host"; "type"] true ∅;
      metric "sap.hana.io.write.async.count" "total_trigger_async_writes" ["hana_host"; "type"] true ∅;
      metric "sap.hana.io.write.failed" "total_failed_writes" ["hana_host"; "type"] true ∅;
      metric "sap.hana.io.write.size" "total_write_size" ["hana_host"; "type"] true ∅;
      metric "sap.hana.io.write.time" "total_write_time" ["hana_host"; "type"] true ∅;
      metric "sap.hana.io.total.time" "total_io_time" ["hana_host"; "type"] true ∅];
   query ("SELECT schema_name, table_name, table_type,	record_count, table_size FROM m_tables WHERE schema_name NOT IN ('SYS', 'SAP_PA_APL', 'BROKER_PO_USER') AND schema_name NOT LIKE '_SYS_%';")
     []
     [metric "sap.hana.table.record.count" "record_count" ["schema_name"; "table_name"; "table_type"] false ∅;
      metric "sap.hana.table.size" "table_size" ["schema_name"; "table_name"; "table_type"] false ∅]].
(** Zero asks for the default. *)
Definition hanaQueries (maxExpensiveQueries : Z) : list Query :=
  let max := if (maxExpensiveQueries =? 0)%Z then 10%Z else maxExpensiveQueries in
  hanaHostQueries ++ hanaServiceQueries ++ hanaStatementQueries max ++ hanaConnectionQueries.

(** ** Generated metadata *)

Definition postgresMetrics : list (string * sfxMetricType * string) :=
  [("postgres_block_hit_ratio", Gauge, ""); ("postgres_conflicts", Counter, ""); ("postgres_database_size", Gauge, "");
   ("postgres_deadlocks", Counter, ""); ("postgres_index_scans", Counter, ""); ("postgres_live_rows", Gauge, ""); ("postgres_locks", Gauge, "");
   ("postgres_pct_connections", Gauge, ""); ("postgres_queries_average_time", Counter, "queries"); ("postgres_queries_calls", Counter, "queries");
   ("postgres_queries_total_time", Counter, "queries"); ("postgres_query_count", Counter, ""); ("postgres_query_time", Counter, "");
   ("postgres_replication_lag", Gauge, "replication"); ("postgres_replication_state", Gauge, "replication"); ("postgres_rows_deleted", Counter, "");
   ("postgres_rows_inserted", Counter, ""); ("postgres_rows_updated", Counter, ""); ("postgres_sequential_scans", Counter, "");
   ("postgres_sessions", Gauge, ""); ("postgres_table_size", Gauge, ""); ("postgres_xact_commits", Counter, "");
   ("postgres_xact_rollbacks", Counter, "")].
Definition postgresDefaultMetrics : list string :=
  ["postgres_block_hit_ratio"; "postgres_database_size"; "postgres_deadlocks"; "postgres_index_scans"; "postgres_live_rows"; "postgres_query_count";
   "postgres_query_time"; "postgres_rows_deleted"; "postgres_rows_inserted"; "postgres_rows_updated"; "postgres_sequential_scans";
   "postgres_sessions"; "postgres_table_size"].
Definition postgresGroupMetrics : gmap string (list string) :=
  {["queries" := ["postgres_queries_average_time"; "postgres_queries_calls"; "postgres_queries_total_time"];
    "replication" := ["postgres_replication_lag"; "postgres_replication_state"]]}.
Definition hanaMetrics : list (string * sfxMetricType) :=
  [("sap.hana.connection.count", Gauge); ("sap.hana.connection.message.received.count", Gauge); ("sap.hana.connection.message.received.size", Gauge);
   ("sap.hana.connection.message.sent.count", Gauge); ("sap.hana.connection.message.sent.size", Gauge);
   ("sap.hana.connection.record.affected", Gauge); ("sap.hana.connection.record.fetched", Gauge); ("sap.hana.disk.total_size", Gauge);
   ("sap.hana.disk.used_size", Gauge); ("sap.hana.host.cpu.idle", Count); ("sap.hana.host.cpu.system", Count); ("sap.hana.host.cpu.user", Count);
   ("sap.hana.host.cpu.wio", Count); ("sap.hana.host.file.open", Gauge); ("sap.hana.host.memory.allocation_limit", Gauge);
   ("sap.hana.host.memory.code", Gauge); ("sap.hana.host.memory.physical.free", Gauge); ("sap.hana.host.memory.physical.used", Gauge);
   ("sap.hana.host.memory.shared", Gauge); ("sap.hana.host.memory.swap.free", Gauge); ("sap.hana.host.memory.swap.used", Gauge);
   ("sap.hana.host.memory.total_allocated", Gauge); ("sap.hana.host.memory.total_used", Gauge); ("sap.hana.io.append.count", Count);
   ("sap.hana.io.read.async.count", Count); ("sap.hana.io.read.count", Count); ("sap.hana.io.read.failed", Count); ("sap.hana.io.read.size", Count);
   ("sap.hana.io.read.time", Count); ("sap.hana.io.total.time", Count); ("sap.hana.io.write.async.count", Count); ("sap.hana.io.write.count", Count);
   ("sap.hana.io.write.failed", Count); ("sap.hana.io.write.size", Count); ("sap.hana.io.write.time", Count);
   ("sap.hana.service.component.memory.used", Gauge); ("sap.hana.service.cpu.utilization", Gauge); ("sap.hana.service.file.open", Gauge);
   ("sap.hana.service.memory.allocation_limit", Gauge); ("sap.hana.service.memory.allocation_limit_effective", Gauge);
   ("sap.hana.service.memory.code", Gauge); ("sap.hana.service.memory.heap.allocated", Gauge); ("sap.hana.service.memory.heap.used", Gauge);
   ("sap.hana.service.memory.logical", Gauge); ("sap.hana.service.memory.physical", Gauge); ("sap.hana.service.memory.shared.allocated", Gauge);
   ("sap.hana.service.memory.shared.used", Gauge); ("sap.hana.service.memory.stack", Gauge); ("sap.hana.service.memory.total_used", Gauge);
   ("sap.hana.statement.active.count", Gauge); ("sap.hana.statement.active.execution.memory.max", Gauge);
   ("sap.hana.statement.active.execution.memory.mean", Gauge); ("sap.hana.statement.active.execution.memory.sum", Gauge);
   ("sap.hana.statement.active.execution.sum", Gauge); ("sap.hana.statement.active.execution.time.max", Gauge);
   ("sap.hana.statement.active.execution.time.mean", Gauge); ("sap.hana.statement.expensive.count", Count);
   ("sap.hana.statement.expensive.cpu_time", Count); ("sap.hana.statement.expensive.duration", Count); ("sap.hana.statement.expensive.errors", Count);
   ("sap.hana.statement.expensive.lock_wait_duration", Count); ("sap.hana.statement.expensive.records", Count);
   ("sap.hana.table.record.count", Gauge); ("sap.hana.table.size", Gauge)].
Definition hanaDefaultMetrics : list string :=
  ["sap.hana.connection.count"; "sap.hana.connection.message.received.count"; "sap.hana.connection.message.received.size";
   "sap.hana.connection.message.sent.count"; "sap.hana.connection.message.sent.size"; "sap.hana.connection.record.affected";
   "sap.hana.connection.record.fetched"; "sap.hana.disk.total_size"; "sap.hana.disk.used_size"; "sap.hana.host.cpu.idle"; "sap.hana.host.cpu.system";
   "sap.hana.host.cpu.user"; "sap.hana.host.cpu.wio"; "sap.hana.host.file.open"; "sap.hana.host.memory.allocation_limit"; "sap.hana.host.memory.code";
   "sap.hana.host.memory.physical.free"; "sap.hana.host.memory.physical.used"; "sap.hana.host.memory.shared"; "sap.hana.host.memory.swap.free";
   "sap.hana.host.memory.swap.used"; "sap.hana.host.memory.total_allocated"; "sap.hana.host.memory.total_used"; "sap.hana.io.append.count";
   "sap.hana.io.read.async.count"; "sap.hana.io.read.count"; "sap.hana.io.read.failed"; "sap.hana.io.read.size"; "sap.hana.io.read.time";
   "sap.hana.io.total.time"; "sap.hana.io.write.async.count"; "sap.hana.io.write.count"; "sap.hana.io.write.failed"; "sap.hana.io.write.size";
   "sap.hana.io.write.time"; "sap.hana.service.component.memory.used"; "sap.hana.service.cpu.utilization"; "sap.hana.service.file.open";
   "sap.hana.service.memory.allocation_limit"; "sap.hana.service.memory.allocation_limit_effective"; "sap.hana.service.memory.code";
   "sap.hana.service.memory.heap.allocated"; "sap.hana.service.memory.heap.used"; "sap.hana.service.memory.logical";
   "sap.hana.service.memory.physical"; "sap.hana.service.memory.shared.allocated"; "sap.hana.service.memory.shared.used";
   "sap.hana.service.memory.stack"; "sap.hana.service.memory.total_used"; "sap.hana.statement.active.count";
   "sap.hana.statement.active.execution.memory.max"; "sap.hana.statement.active.execution.memory.mean";
   "sap.hana.statement.active.execution.time.max"; "sap.hana.statement.active.execution.time.mean"; "sap.hana.statement.expensive.count";
   "sap.hana.statement.expensive.cpu_time"; "sap.hana.statement.expensive.duration"; "sap.hana.statement.expensive.errors";
   "sap.hana.statement.expensive.lock_wait_duration"; "sap.hana.statement.expensive.records"; "sap.hana.table.record.count"; "sap.hana.table.size"].

(** ** How the tables agree *)

#[local] Instance declared_type_eq_dec : EqDecision sfxMetricType.
Proof. solve_decision. Defined.

Definition postgresQueries (limit : Z) (column dbname : string) : list Query :=
  defaultServerQueries column ++ makeDefaultDBQueries dbname ++ makeDefaultStatementsQueries limit column ++ defaultReplicationQueries.
Definition metricsOf (qs : list Query) : list sqlMetric := flat_map qy_Metrics qs.
Definition sentType (m : sqlMetric) : sfxMetricType := if sm_IsCumulative m then Counter else Gauge.
Definition distinctColumns (q : Query) : bool := bool_decide (NoDup (map (λ m, ToLower (sm_ValueColumn m)) (qy_Metrics q))).
(** The columns that a query's metrics name occur in its text. *)
Definition columnsOccur (q : Query) : bool :=
  forallb (λ m, forallb (λ c, match Index (qy_Query q) c with Some _ => true | None => false end)
    (sm_ValueColumn m :: sm_DimensionColumns m ++ concat (map_to_list (sm_DimensionPropertyColumns m)).*2)) (qy_Metrics q).

Lemma postgres_columns_occur limit column dbname : column ∈ ["total_time"; "total_exec_time"] → forallb columnsOccur (postgresQueries limit column dbname) = true.
Proof. rewrite !elem_of_cons. intros [->|[->|[]%not_elem_of_nil]]; vm_compute; reflexivity. Qed.
Lemma postgres_distinct limit column dbname : forallb distinctColumns (postgresQueries limit column dbname) = true.
Proof. vm_compute. reflexivity. Qed.
Lemma postgres_declared limit column dbname :
  forallb (λ m, bool_decide ((sm_MetricName m, sentType m) ∈ postgresMetrics.*1)) (metricsOf (postgresQueries limit column dbname)) = true ∧
  forallb (λ n, bool_decide (n ∈ map sm_MetricName (metricsOf (postgresQueries limit column dbname)))) postgresMetrics.*1.*1 = true.
Proof. split; vm_compute; reflexivity. Qed.
Lemma postgres_structured limit column dbname : forallb (λ q, (length (qy_Expressions q) =? 0)%nat) (postgresQueries limit column dbname) = true.
Proof. vm_compute. reflexivity. Qed.
(** The queries are valid for the SQL monitor. *)
Lemma postgres_valid limit column dbname : sql_Validate {| sc_DBDriver := "postgres"; sc_Queries := postgresQueries limit column dbname |} = Ok tt.
Proof. vm_compute. reflexivity. Qed.

(** A row of any of the postgresql monitor's queries, over whatever database, gives the points that
    the query's metrics describe, one for each value column of the row, and each under a name and type
    that the monitor declares; and running the query never panics. *)
Lemma postgres_rows_correct `{MapRange} (compiles : string → bool) (run : string → gmap string any → exprResult) (limit : Z) (column dbname : string) (query : Query) (q : querier) :
  query ∈ postgresQueries limit column dbname → newQuerier compiles query = Ok q →
  (∀ row, row_ok (qy_Metrics query) row →
     ∃ dims, convertCurrentRowStructured row q = Done (omap (expectedPoint row) (qy_Metrics query), dims) ∧
             ∀ p, p ∈ omap (expectedPoint row) (qy_Metrics query) → (sd_Metric p, sd_Type p) ∈ postgresMetrics.*1) ∧
  (∀ cts rows, (∀ cells, Some cells ∈ rows → Forall2 (λ d c, conforms d c = true) (columnsLoop cts.*1 (qy_Metrics query) ∅ ∅).1.1 cells) →
     (doQuery run (Ok (cts, rows)) q).2 ≠ Panics).
Proof.
  intros Hin Hq. split.
  - intros row Hrow. pose proof (postgres_distinct limit column dbname) as Hd. rewrite forallb_forall in Hd. specialize (Hd query ltac:(by apply list_elem_of_In)).
    apply bool_decide_eq_true in Hd. destruct (structured_row_points compiles query q row Hq Hd Hrow) as [dims Hr]. exists dims. split; [done|].
    intros p Hp. apply list_elem_of_omap in Hp as (m & Hm & Hp). unfold expectedPoint in Hp. destruct (valueOf row m); [|discriminate]. injection Hp as <-. cbn [sd_Metric sd_Type mkDatapoint].
    pose proof (proj1 (postgres_declared limit column dbname)) as Hdec. rewrite forallb_forall in Hdec.
    specialize (Hdec m). apply bool_decide_eq_true in Hdec; [done|]. apply in_flat_map. exists query. by split; apply list_elem_of_In.
  - intros cts rows. apply (structured_doQuery_no_panic compiles); [done|].
    pose proof (postgres_structured limit column dbname) as Hs. rewrite forallb_forall in Hs. specialize (Hs query ltac:(by apply list_elem_of_In)).
    apply Nat.eqb_eq in Hs. by apply nil_length_inv.
Qed.

(** The hana queries' columns occur in their texts and their value columns are distinct. *)
Lemma hana_tables : forallb (λ q, columnsOccur q && distinctColumns q) (hanaQueries 0) = true.
Proof. vm_compute. reflexivity. Qed.
(** One hana metric is sent under a name that is not declared, and so filtered out, and the declared
    one is never sent; one that is declared a count is sent as a gauge. *)
Lemma hana_undeclared n :
  map sm_MetricName (List.filter (λ m, negb (bool_decide (sm_MetricName m ∈ hanaMetrics.*1))) (metricsOf (hanaQueries n))) = ["sap.hana.statement.active.execution.time.sum"] ∧
  List.filter (λ n', negb (bool_decide (n' ∈ map sm_MetricName (metricsOf (hanaQueries n))))) hanaMetrics.*1 = ["sap.hana.statement.active.execution.sum"] ∧
  map sm_MetricName (List.filter (λ m, bool_decide ((sm_MetricName m, Count) ∈ hanaMetrics) && negb (sm_IsCumulative m)) (metricsOf (hanaQueries n))) = ["sap.hana.statement.expensive.duration"].
Proof. split_and!; vm_compute; reflexivity. Qed.

(** ** Witnesses *)

Definition demo_locks : Query := query "SELECT COUNT(*) AS locks FROM pg_locks WHERE NOT granted;" [] [metric "postgres_locks" "locks" [] false ∅].
Definition demo_locks_querier : querier :=
  {| qr_query := demo_locks; valueColumnNamesToMetrics := valueColumns (qy_Metrics demo_locks); dimensionColumnSets := [∅]; qr_dimensions := [[]]; rowSliceCached := None |}.
Lemma postgres_rows_correct_witness :
  ∃ dims, convertCurrentRowStructured [("locks", CFloat (Some (S754_zero false)))] demo_locks_querier = Done ([mkDatapoint "postgres_locks" Gauge (FloatValue (S754_zero false)) ∅], dims).
Proof.
  destruct (@postgres_rows_correct forward_range (λ _, true) no_expr 10 "total_time" "db" demo_locks demo_locks_querier) as [Hrow _].
  - apply (list_elem_of_lookup_2 _ 4). vm_compute. reflexivity.
  - vm_compute. reflexivity.
  - destruct (Hrow [("locks", CFloat (Some (S754_zero false)))]) as (dims & Hr & _).
    + intros col v Hin. apply list_elem_of_singleton in Hin. injection Hin as -> ->. split; [eauto|]. exists (metric "postgres_locks" "locks" [] false ∅). split; [left | reflexivity].
    + exists dims. exact Hr.
Defined.
