(* ===== verification/Postgres.v ===== *)
(** * The postgresql monitor

    [src/internal/signalfx-agent/pkg/monitors/postgresql/monitor.go]: the SQL monitors that it
    starts for the server, its statements, its replication and every database it finds, and
    stops when a database disappears; [hana/monitor.go], which runs one.

    The collection function and [Shutdown] hold the monitor's lock, so that a run is a sequence
    of them.  What the server and the drivers answer during one collection is a [tickEnv]; the
    rendering of templates is a parameter. *)

From S2P Require Import Prelude GoStrings GoValue Outcome Settings Telemetry Filters SmartAgent HostMonitors SQLMonitor SQLQueries.

(** ** Configuration *)

Record pgConfig := {
  pc_Host : string; pc_Port : Z; pc_MasterDBName : string; pc_ConnectionString : string; pc_Databases : list string;
  pc_IntervalSeconds : Z; pc_DatabasePollIntervalSeconds : Z; pc_TopQueryLimit : Z;
}.
(** The connection string, rendered, and the port for the dimension. *)
Definition connStr (render : string → res string) (c : pgConfig) : res (string * string) :=
  let host := if String.eqb (pc_Host c) "" then "" else " host=" +:+ pc_Host c in
  let port := if (pc_Port c =? 0)%Z then "" else " port=" +:+ pretty (pc_Port c) in
  s ← render (pc_ConnectionString c +:+ host +:+ port);
  Ok (s, if (pc_Port c =? 0)%Z then "5432" else pretty (pc_Port c)).
Definition dbNamePrefix : string := " dbname=".
Definition pollSeconds (c : pgConfig) : Z := if (pc_DatabasePollIntervalSeconds c =? 0)%Z then pc_IntervalSeconds c else pc_DatabasePollIntervalSeconds c.

(** ** State *)

(** A [sql.Monitor] with what it was configured with; [mon_Database] is the extra dimension. *)
Record sqlMon := { mon_Database : option string; mon_Connection : string; mon_Queries : list Query }.
(** The SQL monitors created so far are numbered; [pg_running] are those that were configured
    without an error and not shut down.  [pg_database] is the connection to the server and
    whether it is open. *)
Record pgMonitor := {
  pg_cancelled : bool; pg_database : option bool;
  pg_monitored : gmap string nat; pg_server : option nat; pg_statements : option nat; pg_replication : option nat;
  pg_column : string; pg_replicationStarted : bool;
  pg_created : list sqlMon; pg_running : gset nat;
}.
Definition setDatabase (d : option bool) (m : pgMonitor) : pgMonitor :=
  {| pg_cancelled := pg_cancelled m; pg_database := d; pg_monitored := pg_monitored m; pg_server := pg_server m; pg_statements := pg_statements m;
     pg_replication := pg_replication m; pg_column := pg_column m; pg_replicationStarted := pg_replicationStarted m; pg_created := pg_created m; pg_running := pg_running m |}.
Definition setMonitored (ms : gmap string nat) (m : pgMonitor) : pgMonitor :=
  {| pg_cancelled := pg_cancelled m; pg_database := pg_database m; pg_monitored := ms; pg_server := pg_server m; pg_statements := pg_statements m;
     pg_replication := pg_replication m; pg_column := pg_column m; pg_replicationStarted := pg_replicationStarted m; pg_created := pg_created m; pg_running := pg_running m |}.
Definition setServer (s : option nat) (m : pgMonitor) : pgMonitor :=
  {| pg_cancelled := pg_cancelled m; pg_database := pg_database m; pg_monitored := pg_monitored m; pg_server := s; pg_statements := pg_statements m;
     pg_replication := pg_replication m; pg_column := pg_column m; pg_replicationStarted := pg_replicationStarted m; pg_created := pg_created m; pg_running := pg_running m |}.
Definition setStatements (s : option nat) (m : pgMonitor) : pgMonitor :=
  {| pg_cancelled := pg_cancelled m; pg_database := pg_database m; pg_monitored := pg_monitored m; pg_server := pg_server m; pg_statements := s;
     pg_replication := pg_replication m; pg_column := pg_column m; pg_replicationStarted := pg_replicationStarted m; pg_created := pg_created m; pg_running := pg_running m |}.
Definition setReplication (s : option nat) (m : pgMonitor) : pgMonitor :=
  {| pg_cancelled := pg_cancelled m; pg_database := pg_database m; pg_monitored := pg_monitored m; pg_server := pg_server m; pg_statements := pg_statements m;
     pg_replication := s; pg_column := pg_column m; pg_replicationStarted := true; pg_created := pg_created m; pg_running := pg_running m |}.
Definition setColumn (c : string) (m : pgMonitor) : pgMonitor :=
  {| pg_cancelled := pg_cancelled m; pg_database := pg_database m; pg_monitored := pg_monitored m; pg_server := pg_server m; pg_statements := pg_statements m;
     pg_replication := pg_replication m; pg_column := c; pg_replicationStarted := pg_replicationStarted m; pg_created := pg_created m; pg_running := pg_running m |}.
Definition addCreated (ok : bool) (s : sqlMon) (m : pgMonitor) : pgMonitor :=
  {| pg_cancelled := pg_cancelled m; pg_database := pg_database m; pg_monitored := pg_monitored m; pg_server := pg_server m; pg_statements := pg_statements m;
     pg_replication := pg_replication m; pg_column := pg_column m; pg_replicationStarted := pg_replicationStarted m; pg_created := pg_created m ++ [s];
     pg_running := if ok then {[length (pg_created m)]} ∪ pg_running m else pg_running m |}.
Definition stop (ids : gset nat) (m : pgMonitor) : pgMonitor :=
  {| pg_cancelled := pg_cancelled m; pg_database := pg_database m; pg_monitored := pg_monitored m; pg_server := pg_server m; pg_statements := pg_statements m;
     pg_replication := pg_replication m; pg_column := pg_column m; pg_replicationStarted := pg_replicationStarted m; pg_created := pg_created m; pg_running := pg_running m ∖ ids |}.

(** ** What the server answers *)

(** The rows of a query: each scanned or not. *)
Abbreviation rows := (list (res string)).
Record tickEnv := {
  te_open : res unit;                              (* sql.Open for the master database *)
  te_column : nat → res unit * res rows;           (* opening and querying for the name of the time column, first and second time *)
  te_aurora : bool;                                (* AURORA_VERSION() answers *)
  te_databases : res (rows * option error);        (* the databases, and the error the iteration ends with *)
  te_render : string → res string;                 (* of sql.Monitor's connection string *)
  te_sqlOpen : string → res unit;                  (* sql.Open in a sql.Monitor *)
}.
Definition determineDatabases (answer : res (rows * option error)) : list string * option error :=
  match answer with
  | Err e => ([], Some e)
  | Ok (rs, e) => match mapM_res id rs with Err e => ([], Some e) | Ok names => (names, e) end
  end.
Definition determineTotalTimeColumn (known : string) (answer : res unit * res rows) : res string :=
  if negb (String.eqb known "") then Ok known
  else match answer.1 with
       | Err e => Err (Wrapf "could not handle postgres database config: %w" [] e)
       | Ok _ => rs ← answer.2; foldM_res (λ _ r, r) "" rs
       end.

Section postgres.
Context `{MapRange} (c : pgConfig) (connection : string) (queriesGroup replicationGroup : bool) (dbFilter : option BasicStringFilter) (compiles : string → bool).

(** [sql.Monitor.Configure]: rendering, opening and the queriers. *)
Definition sqlConfigure (e : tickEnv) (s : sqlMon) : res unit :=
  ds ← te_render e (mon_Connection s);
  _ ← te_sqlOpen e (TrimSpace ds);
  _ ← mapM_res (newQuerier compiles) (mon_Queries s); Ok tt.
Definition startSQL (e : tickEnv) (s : sqlMon) (m : pgMonitor) : nat * bool * pgMonitor :=
  let ok := is_ok (sqlConfigure e s) in (length (pg_created m), ok, addCreated ok s m).
Definition masterConnection : string := connection +:+ dbNamePrefix +:+ pc_MasterDBName c.

(** A monitor that could not be configured is kept all the same. *)
Definition withTimeColumn (e : tickEnv) (n : nat) (queries : string → list Query) (m : pgMonitor) : option nat * pgMonitor :=
  match determineTotalTimeColumn (pg_column m) (te_column e n) with
  | Err _ | Ok "" => (None, setColumn "" m)
  | Ok column => let '(i, _, m) := startSQL e {| mon_Database := None; mon_Connection := masterConnection; mon_Queries := queries column |} (setColumn column m) in (Some i, m)
  end.
Definition startServer (e : tickEnv) (m : pgMonitor) : pgMonitor :=
  match pg_server m with
  | Some _ => m
  | None => let '(i, m) := withTimeColumn e 0 defaultServerQueries m in setServer i m
  end.
Definition startStatements (e : tickEnv) (m : pgMonitor) : pgMonitor :=
  if queriesGroup then
    match pg_statements m with
    | Some _ => m
    | None => let '(i, m) := withTimeColumn e 1 (makeDefaultStatementsQueries (pc_TopQueryLimit c)) m in setStatements i m
    end
  else m.
Definition startReplication (e : tickEnv) (m : pgMonitor) : pgMonitor :=
  if replicationGroup && negb (pg_replicationStarted m) then
    if te_aurora e then setReplication (pg_replication m) m
    else let '(i, _, m) := startSQL e {| mon_Database := None; mon_Connection := masterConnection; mon_Queries := defaultReplicationQueries |} m in setReplication (Some i) m
  else m.

Definition dbSelected (db : string) : bool := match dbFilter with None => true | Some f => OverridableStringFilter_Matches f db end.
Definition databaseMon (db : string) : sqlMon := {| mon_Database := Some db; mon_Connection := connection +:+ dbNamePrefix +:+ db; mon_Queries := makeDefaultDBQueries db |}.
(** One turn of the loop over the databases; a monitor that could not be configured is dropped. *)
Definition startDatabase (e : tickEnv) (m : pgMonitor) (db : string) : pgMonitor :=
  if negb (dbSelected db) then m
  else match pg_monitored m !! db with
       | Some _ => m
       | None => let '(i, ok, m) := startSQL e (databaseMon db) m in if ok then setMonitored (<[db := i]> (pg_monitored m)) m else m
       end.
Definition dbSet (dbs : list string) : gset string := list_to_set (List.filter dbSelected dbs).
Definition stopDatabase (keep : gset string) (m : pgMonitor) (e : string * nat) : pgMonitor :=
  if bool_decide (e.1 ∈ keep) then m else setMonitored (delete e.1 (pg_monitored m)) (stop {[e.2]} m).
Definition syncDatabases (e : tickEnv) (m : pgMonitor) : pgMonitor :=
  let dbs := (determineDatabases (te_databases e)).1 in
  let m := foldl (startDatabase e) m dbs in
  foldl (stopDatabase (dbSet dbs)) m (range (pg_monitored m)).

(** The function that [Configure] runs on an interval. *)
Definition pgTick (e : tickEnv) (m : pgMonitor) : pgMonitor :=
  if pg_cancelled m then m
  else match pg_database m, te_open e with
       | None, Err _ => m
       | _, _ =>
           let m := match pg_database m with None => setDatabase (Some true) m | Some _ => m end in
           syncDatabases e (startReplication e (startStatements e (startServer e m)))
       end.
Definition heldIDs (m : pgMonitor) : gset nat :=
  list_to_set (map_to_list (pg_monitored m)).*2 ∪ list_to_set (omap id [pg_server m; pg_statements m; pg_replication m]).
Definition pgShutdown (m : pgMonitor) : pgMonitor :=
  let m := stop (heldIDs m) m in
  {| pg_cancelled := true; pg_database := (λ _, false) <$> pg_database m; pg_monitored := pg_monitored m; pg_server := pg_server m; pg_statements := pg_statements m;
     pg_replication := pg_replication m; pg_column := pg_column m; pg_replicationStarted := pg_replicationStarted m; pg_created := pg_created m; pg_running := pg_running m |}.

Inductive pgEvent := Tick (e : tickEnv) | Stop.
Definition pgStep (m : pgMonitor) (ev : pgEvent) : pgMonitor := match ev with Tick e => pgTick e m | Stop => pgShutdown m end.
End postgres.

Definition newPg : pgMonitor :=
  {| pg_cancelled := false; pg_database := None; pg_monitored := ∅; pg_server := None; pg_statements := None; pg_replication := None;
     pg_column := ""; pg_replicationStarted := false; pg_created := []; pg_running := ∅ |}.
(** [Configure] up to the first collection: the connection string, the port's dimension, the filter of
    databases and the datapoint filter whose negation excludes points. *)
Definition pgConfigure `{MapRange} `{PatternEngine} (render : string → res string) (c : pgConfig) : res (string * string * option BasicStringFilter * overridableDatapointFilter) :=
  match connStr render c with
  | Err e => Err (Wrapf "could not render connectionString template: %v" [] e)
  | Ok (conn, port) =>
      match (match pc_Databases c with [] => Ok None | dbs => Some <$> NewOverridableStringFilter dbs end) with
      | Err e => Err (Wrapf "problem with databases filter: %v" [] e)
      | Ok f => dpf ← NewOverridable [] {["database?" := pc_Databases c]}; Ok (conn, port, f, dpf)
      end
  end.

(** ** What runs *)

Section invariant.
Context `{MapRange} (c : pgConfig) (connection : string) (queriesGroup replicationGroup : bool) (dbFilter : option BasicStringFilter) (compiles : string → bool).

Definition slotIDs (m : pgMonitor) : gset nat := list_to_set (omap id [pg_server m; pg_statements m; pg_replication m]).
Record pg_inv (m : pgMonitor) : Prop := {
  inv_held : ∀ i, i ∈ pg_running m → i ∈ slotIDs m ∨ ∃ db, pg_monitored m !! db = Some i;
  inv_slots : ∀ i, i ∈ slotIDs m → ∃ s, pg_created m !! i = Some s ∧ mon_Database s = None;
  inv_dbs : ∀ db i, pg_monitored m !! db = Some i → dbSelected dbFilter db = true ∧ pg_created m !! i = Some (databaseMon connection db) ∧ (i ∈ pg_running m ∨ pg_cancelled m = true);
  inv_down : pg_cancelled m = true → pg_running m = ∅;
  inv_repl : pg_replicationStarted m = false → pg_replication m = None;
}.

Lemma elem_of_slotIDs m i : i ∈ slotIDs m ↔ pg_server m = Some i ∨ pg_statements m = Some i ∨ pg_replication m = Some i.
Proof.
  unfold slotIDs. rewrite elem_of_list_to_set, list_elem_of_omap. split.
  - intros (o & Ho & Hi). cbn in Hi. subst o. rewrite !elem_of_cons in Ho. destruct Ho as [<-|[<-|[<-|[]%not_elem_of_nil]]]; auto.
  - intros [Hs|[Hs|Hs]]; exists (Some i); (split; [rewrite <- Hs | done]); [left | right; left | right; right; left].
Qed.
Lemma pg_inv_new : pg_inv newPg.
Proof. split; [done | intros i Hi; by rewrite elem_of_slotIDs in Hi; destruct_or! Hi | done..]. Qed.

(** A step that starts a monitor of the server in a free slot, or none. *)
Lemma pg_inv_slot m m' s (ok : bool) : pg_inv m → pg_cancelled m = false → pg_cancelled m' = false → mon_Database s = None →
  pg_monitored m' = pg_monitored m → pg_created m' = pg_created m ++ [s] →
  pg_running m' = (if ok then {[length (pg_created m)]} ∪ pg_running m else pg_running m) →
  (∀ i, i ∈ slotIDs m' ↔ i = length (pg_created m) ∨ i ∈ slotIDs m) → (pg_replicationStarted m' = false → pg_replication m' = None) → pg_inv m'.
Proof.
  intros Hinv Hc Hc' Hs Hmon Hcr Hrun Hslots Hrepl. destruct Hinv as [Hheld Hsl Hdb _ _].
  assert (Hsub : ∀ i, i ∈ pg_running m → i ∈ pg_running m') by (rewrite Hrun; destruct ok; intros i; rewrite ?elem_of_union; auto).
  split.
  - intros i. rewrite Hrun, Hslots, Hmon. destruct ok; rewrite ?elem_of_union, ?elem_of_singleton; intros Hi; [destruct Hi as [->|Hi]; [auto|]|]; destruct (Hheld i Hi); auto.
  - intros i. rewrite Hslots, Hcr. intros [->|Hi]; [exists s; by rewrite lookup_app_r, Nat.sub_diag by done|].
    destruct (Hsl i Hi) as (s' & Hs' & Hn). exists s'. by rewrite (lookup_app_l_Some _ _ _ _ Hs').
  - intros db i. rewrite Hmon, Hcr, Hc'. intros Hi. destruct (Hdb db i Hi) as (? & Hcr' & [Hr|Hr]); [|by rewrite Hc in Hr].
    rewrite (lookup_app_l_Some _ _ _ _ Hcr'). auto.
  - by rewrite Hc'.
  - done.
Qed.
(** One that changes neither the monitors nor what holds them. *)
Lemma pg_inv_same m m' : pg_inv m → pg_cancelled m' = pg_cancelled m → pg_monitored m' = pg_monitored m → pg_created m' = pg_created m → pg_running m' = pg_running m →
  pg_server m' = pg_server m → pg_statements m' = pg_statements m → pg_replication m' = pg_replication m →
  (pg_replicationStarted m' = false → pg_replicationStarted m = false) → pg_inv m'.
Proof.
  intros [? ? ? ? ?] Hc Hm Hcr Hr H1 H2 H3 Hst.
  assert (Hsl : ∀ i, i ∈ slotIDs m' ↔ i ∈ slotIDs m) by (intros i; by rewrite !elem_of_slotIDs, H1, H2, H3).
  split; [intros i | intros i | intros db i | | ]; rewrite ?Hsl, ?Hm, ?Hcr, ?Hr, ?Hc, ?H3; auto.
Qed.

Lemma withTimeColumn_cases e n qs m : pg_cancelled m = false → ∃ o m',
  withTimeColumn c connection compiles e n qs m = (o, m') ∧ pg_cancelled m' = false ∧ pg_monitored m' = pg_monitored m ∧ pg_server m' = pg_server m ∧ pg_statements m' = pg_statements m ∧
  pg_replication m' = pg_replication m ∧ pg_replicationStarted m' = pg_replicationStarted m ∧
  ((o = None ∧ pg_created m' = pg_created m ∧ pg_running m' = pg_running m) ∨
   (o = Some (length (pg_created m)) ∧ ∃ (ok : bool) s, mon_Database s = None ∧ pg_created m' = pg_created m ++ [s] ∧ pg_running m' = if ok then {[length (pg_created m)]} ∪ pg_running m else pg_running m)).
Proof.
  intros Hc. unfold withTimeColumn. destruct (determineTotalTimeColumn (pg_column m) (te_column e n)) as [[|x col]|err].
  - exists None, (setColumn "" m). split_and!; [done..|]. by left.
  - unfold startSQL. do 2 eexists. split_and!; [reflexivity | done..|]. right. split; [done|]. eexists _, _. split_and!; [|reflexivity..]. done.
  - exists None, (setColumn "" m). split_and!; [done..|]. by left.
Qed.

Lemma pg_inv_startServer e m : pg_cancelled m = false → pg_inv m → pg_inv (startServer c connection compiles e m) ∧ pg_cancelled (startServer c connection compiles e m) = false.
Proof.
  intros Hc Hinv. unfold startServer. destruct (pg_server m) as [i|] eqn:Hs; [done|].
  destruct (withTimeColumn_cases e 0 defaultServerQueries m Hc) as (o & m' & -> & Hc' & Hm & Hs1 & Hs2 & Hs3 & Hst & [(-> & Hcr & Hr)|(-> & ok & s & Hn & Hcr & Hr)]); (split; [|done]).
  - apply (pg_inv_same m); cbn; congruence.
  - apply (pg_inv_slot m _ s ok); try (cbn; congruence).
    + intros i. rewrite !elem_of_slotIDs. cbn. rewrite Hs, Hs2, Hs3. naive_solver.
    + cbn. rewrite Hst, Hs3. apply Hinv.
Qed.
Lemma pg_inv_startStatements e m : pg_cancelled m = false → pg_inv m → pg_inv (startStatements c connection queriesGroup compiles e m) ∧ pg_cancelled (startStatements c connection queriesGroup compiles e m) = false.
Proof.
  intros Hc Hinv. unfold startStatements. destruct queriesGroup; [|done]. destruct (pg_statements m) as [i|] eqn:Hs; [done|].
  destruct (withTimeColumn_cases e 1 (makeDefaultStatementsQueries (pc_TopQueryLimit c)) m Hc) as (o & m' & -> & Hc' & Hm & Hs1 & Hs2 & Hs3 & Hst & [(-> & Hcr & Hr)|(-> & ok & s & Hn & Hcr & Hr)]); (split; [|done]).
  - apply (pg_inv_same m); cbn; congruence.
  - apply (pg_inv_slot m _ s ok); try (cbn; congruence).
    + intros i. rewrite !elem_of_slotIDs. cbn. rewrite Hs, Hs1, Hs3. naive_solver.
    + cbn. rewrite Hst, Hs3. apply Hinv.
Qed.
Lemma pg_inv_startReplication e m : pg_cancelled m = false → pg_inv m → pg_inv (startReplication c connection replicationGroup compiles e m) ∧ pg_cancelled (startReplication c connection replicationGroup compiles e m) = false.
Proof.
  intros Hc Hinv. unfold startReplication. destruct replicationGroup; [|done]. destruct (pg_replicationStarted m) eqn:Hst; [done|]. cbn [andb negb].
  pose proof (inv_repl m Hinv Hst) as Hrep. destruct (te_aurora e); (split; [|done]).
  - by apply (pg_inv_same m).
  - unfold startSQL. eapply (pg_inv_slot m); [done | done | done | | reflexivity | reflexivity | reflexivity | | done]; [done|].
    intros i. rewrite !elem_of_slotIDs. cbn. rewrite Hrep. naive_solver.
Qed.
Lemma pg_inv_startDatabase e m db : pg_cancelled m = false → pg_inv m → pg_inv (startDatabase connection dbFilter compiles e m db) ∧ pg_cancelled (startDatabase connection dbFilter compiles e m db) = false.
Proof.
  intros Hc Hinv. unfold startDatabase. destruct (dbSelected dbFilter db) eqn:Hsel; [|done]. cbn [negb]. destruct (pg_monitored m !! db) eqn:Hdb; [done|].
  unfold startSQL. destruct Hinv as [Hheld Hsl Hdbs Hdown Hrep]. destruct (is_ok (sqlConfigure compiles e (databaseMon connection db))); (split; [|done]).
  - split; cbn.
    + intros i. rewrite elem_of_union, elem_of_singleton. intros [->|Hi]; [right; exists db; by rewrite lookup_insert_eq|].
      destruct (Hheld i Hi) as [|[db' Hd]]; [auto|]. right. exists db'. rewrite lookup_insert_ne; [done|]. intros ->. by rewrite Hdb in Hd.
    + intros i Hi. destruct (Hsl i Hi) as (s & Hs & Hn). exists s. by rewrite (lookup_app_l_Some _ _ _ _ Hs).
    + intros db' i. destruct (decide (db = db')) as [<-|Hne].
      * rewrite lookup_insert_eq. intros [= <-]. split; [done|]. rewrite lookup_app_r, Nat.sub_diag by done. split; [done|]. left. rewrite elem_of_union, elem_of_singleton. auto.
      * rewrite lookup_insert_ne by done. intros Hi. destruct (Hdbs db' i Hi) as (? & Hcr & [Hr|Hr]); [|by rewrite Hc in Hr].
        rewrite (lookup_app_l_Some _ _ _ _ Hcr), elem_of_union. auto.
    + congruence.
    + done.
  - split; cbn; try done.
    + intros i Hi. destruct (Hsl i Hi) as (s & Hs & Hn). exists s. by rewrite (lookup_app_l_Some _ _ _ _ Hs).
    + intros db' i Hi. destruct (Hdbs db' i Hi) as (? & Hcr & ?). by rewrite (lookup_app_l_Some _ _ _ _ Hcr).
Qed.
Lemma pg_inv_stopDatabase keep m db i : pg_cancelled m = false → pg_inv m → pg_monitored m !! db = Some i → pg_inv (stopDatabase keep m (db, i)) ∧ pg_cancelled (stopDatabase keep m (db, i)) = false.
Proof.
  intros Hc [Hheld Hsl Hdbs Hdown Hrep] Hdb. unfold stopDatabase. case_bool_decide; [done|]. split; [|done]. split; cbn.
  - intros j. rewrite elem_of_difference, elem_of_singleton. intros [Hj Hne]. destruct (Hheld j Hj) as [|[db' Hd]]; [auto|]. right. exists db'.
    rewrite lookup_delete_ne; [done|]. congruence.
  - done.
  - intros db' j. rewrite lookup_delete_Some. intros [Hne Hj]. destruct (Hdbs db' j Hj) as (? & Hcr & Hr). split; [done|]. split; [done|].
    destruct Hr as [Hr|Hr]; [|auto]. left. rewrite elem_of_difference, elem_of_singleton. split; [done|]. intros ->.
    destruct (Hdbs db i Hdb) as (_ & Hcr' & _). rewrite Hcr in Hcr'. injection Hcr' as Heq _. congruence.
  - congruence.
  - done.
Qed.

(** The loop that starts monitors keeps those that run and adds those that can be configured. *)
Lemma start_loop e dbs : ∀ m, pg_cancelled m = false → pg_inv m →
  let m' := foldl (startDatabase connection dbFilter compiles e) m dbs in
  pg_inv m' ∧ pg_cancelled m' = false ∧ (∀ db i, pg_monitored m !! db = Some i → pg_monitored m' !! db = Some i) ∧
  ∀ db, is_Some (pg_monitored m' !! db) ↔
        is_Some (pg_monitored m !! db) ∨ (db ∈ dbs ∧ dbSelected dbFilter db = true ∧ is_ok (sqlConfigure compiles e (databaseMon connection db)) = true).
Proof.
  induction dbs as [|d dbs IH]; intros m Hc Hinv; cbn [foldl]; [split_and!; [done..|]; intros db; rewrite elem_of_nil; tauto|].
  destruct (pg_inv_startDatabase e m d Hc Hinv) as [Hinv' Hc']. destruct (IH _ Hc' Hinv') as (? & ? & Hkeep & Hdom).
  assert (Hd : ∀ db, pg_monitored (startDatabase connection dbFilter compiles e m d) !! db =
    match pg_monitored m !! db with Some i => Some i | None => if decide (db = d ∧ dbSelected dbFilter db = true ∧ is_ok (sqlConfigure compiles e (databaseMon connection db)) = true) then Some (length (pg_created m)) else None end).
  { intros db. unfold startDatabase, startSQL. destruct (dbSelected dbFilter d) eqn:Hsel; cbn [negb].
    - destruct (pg_monitored m !! d) eqn:Hm.
      + destruct (pg_monitored m !! db) eqn:Hdb; [done|]. rewrite decide_False; [done|]. intros [-> _]. congruence.
      + destruct (is_ok (sqlConfigure compiles e (databaseMon connection d))) eqn:Hok; cbn.
        * destruct (decide (d = db)) as [<-|Hne]; [rewrite lookup_insert_eq, Hm; by rewrite decide_True|]. rewrite lookup_insert_ne by done.
          destruct (pg_monitored m !! db); [done|]. rewrite decide_False; [done|]. intros (-> & ? & ?); congruence.
        * destruct (pg_monitored m !! db); [done|]. rewrite decide_False; [done|]. intros (-> & ? & ?); congruence.
    - destruct (pg_monitored m !! db); [done|]. rewrite decide_False; [done|]. intros (-> & ? & ?); congruence. }
  split_and!; [done | done | intros db i Hi; apply Hkeep; by rewrite Hd, Hi |].
  intros db. rewrite Hdom, Hd, elem_of_cons. destruct (pg_monitored m !! db) as [i|]; [split; left; by eexists|].
  assert (¬ is_Some (@None nat)) by by intros [? ?]. case_decide as Hdd; split.
  - intros _. right. tauto.
  - intros _. left. by eexists.
  - intros [?|?]; [done|]. right. tauto.
  - intros [?|([->|?] & ? & ?)]; [done| |]; [by destruct Hdd | auto].
Qed.
Lemma stop_loop keep l : ∀ m, pg_cancelled m = false → pg_inv m → NoDup l.*1 → (∀ db i, (db, i) ∈ l → pg_monitored m !! db = Some i) →
  let m' := foldl (stopDatabase keep) m l in
  pg_inv m' ∧ pg_cancelled m' = false ∧ (∀ db i, pg_monitored m' !! db = Some i ↔ pg_monitored m !! db = Some i ∧ (db ∈ keep ∨ (db, i) ∉ l)) ∧
  (∀ i, i ∈ pg_running m' ↔ i ∈ pg_running m ∧ ∀ db, (db, i) ∈ l → db ∈ keep).
Proof.
  induction l as [|[d j] l IH]; intros m Hc Hinv Hnd Hl; cbn [foldl].
  { split_and!; [done | done | intros; rewrite elem_of_nil; tauto | intros; setoid_rewrite elem_of_nil; tauto]. }
  destruct (pg_inv_stopDatabase keep m d j Hc Hinv) as [Hinv' Hc']; [apply Hl; by left|]. apply NoDup_cons in Hnd as [Hd Hnd].
  assert (Hdl : ∀ i, (d, i) ∉ l) by (intros i Hi; apply Hd, list_elem_of_fmap; by exists (d, i)).
  destruct (IH _ Hc' Hinv' Hnd) as (? & ? & Hm & Hr).
  { intros db i Hi. unfold stopDatabase. case_bool_decide; [apply Hl; by right|]. cbn. rewrite lookup_delete_ne; [apply Hl; by right|]. intros ->. by destruct (Hdl i). }
  split_and!; [done | done | |].
  - intros db i. rewrite Hm, elem_of_cons. unfold stopDatabase. case_bool_decide as Hk; cbn in *; rewrite ?lookup_delete_Some.
    + split; intros [Hi [?|Hn]]; (split; [done|]); [by left | | by left | right; auto].
      destruct (decide (db = d)) as [->|]; [by left|]. right. intros [[= ? ?]|?]; auto.
    + split.
      * intros [[Hne Hi] Hor]. split; [done|]. destruct Hor as [?|?]; [by left|]. right. intros [[= ? ?]|?]; auto.
      * intros [Hi Hor]. assert (d ≠ db).
        { intros <-. destruct Hor as [?|Hn]; [done|]. apply Hn. left. pose proof (Hl d j ltac:(by left)). congruence. }
        split; [done|]. destruct Hor as [?|?]; [by left | right; auto].
  - intros i. rewrite Hr. unfold stopDatabase. setoid_rewrite elem_of_cons. case_bool_decide as Hk; cbn in *; rewrite ?elem_of_difference, ?elem_of_singleton.
    + split; intros [Hi Hall]; (split; [done|]); intros db; [intros [[= -> ->]|?]; [done|auto] | auto].
    + split; [intros [[Hi Hne] Hall]; split; [done|]; intros db [[= -> ->]|?]; [done|auto]|].
      intros [Hi Hall]. split_and!; [done | intros ->; apply Hk, Hall; by left | auto].
Qed.
Lemma list_elem_of_selected db dbs : db ∈ dbSet dbFilter dbs ↔ db ∈ dbs ∧ dbSelected dbFilter db = true.
Proof. unfold dbSet. rewrite elem_of_list_to_set, !list_elem_of_In, filter_In. done. Qed.

Abbreviation listed e := (determineDatabases (te_databases e)).1.
Lemma syncDatabases_correct e m : pg_cancelled m = false → pg_inv m →
  let m' := syncDatabases connection dbFilter compiles e m in
  pg_inv m' ∧ pg_cancelled m' = false ∧
  (∀ db, is_Some (pg_monitored m' !! db) ↔
     db ∈ listed e ∧ dbSelected dbFilter db = true ∧ (is_Some (pg_monitored m !! db) ∨ is_ok (sqlConfigure compiles e (databaseMon connection db)) = true)) ∧
  (∀ db i, pg_monitored m !! db = Some i → if decide (db ∈ listed e) then pg_monitored m' !! db = Some i else i ∉ pg_running m').
Proof.
  intros Hc Hinv. unfold syncDatabases. destruct (start_loop e (listed e) m Hc Hinv) as (Hinv1 & Hc1 & Hkeep & Hdom). set (m1 := foldl _ m _) in *.
  destruct (stop_loop (dbSet dbFilter (listed e)) (range (pg_monitored m1)) m1 Hc1 Hinv1) as (Hinv2 & Hc2 & Hm & Hr).
  { apply NoDup_range. } { intros db i. by rewrite elem_of_range. }
  assert (Hm' : ∀ db i, pg_monitored (foldl (stopDatabase (dbSet dbFilter (listed e))) m1 (range (pg_monitored m1))) !! db = Some i ↔ pg_monitored m1 !! db = Some i ∧ db ∈ listed e).
  { intros db i. rewrite Hm, elem_of_range, list_elem_of_selected. pose proof (inv_dbs m1 Hinv1 db i) as Hx. split; [intros [? [[? _]|?]]; [done|done] | intros [Hi ?]; destruct (Hx Hi) as [? _]; auto]. }
  split_and!; [done | done | |].
  - intros db. specialize (Hdom db). split.
    + intros [i [Hi Hin]%Hm']. destruct (inv_dbs m1 Hinv1 db i Hi) as (Hsel & _). split_and!; [done..|]. assert (Hs : is_Some (pg_monitored m1 !! db)) by by exists i. apply Hdom in Hs. tauto.
    + intros (Hin & Hsel & Hor). assert (is_Some (pg_monitored m1 !! db)) as [i Hi] by (apply Hdom; tauto). exists i. by apply Hm'.
  - intros db i Hi. pose proof (Hkeep db i Hi) as Hi1. case_decide as Hin; [by apply Hm'|]. rewrite Hr. intros [_ Hall].
    specialize (Hall db ltac:(by apply elem_of_range)). by apply list_elem_of_selected in Hall as [? _].
Qed.

(** The steps before the databases touch none of them. *)
Lemma startServer_monitored e m : pg_cancelled m = false → pg_monitored (startServer c connection compiles e m) = pg_monitored m.
Proof.
  intros Hc. unfold startServer. destruct (pg_server m); [done|]. by destruct (withTimeColumn_cases e 0 defaultServerQueries m Hc) as (o & m' & -> & _ & Hm & _).
Qed.
Lemma startStatements_monitored e m : pg_cancelled m = false → pg_monitored (startStatements c connection queriesGroup compiles e m) = pg_monitored m.
Proof.
  intros Hc. unfold startStatements. destruct queriesGroup; [|done]. destruct (pg_statements m); [done|].
  by destruct (withTimeColumn_cases e 1 (makeDefaultStatementsQueries (pc_TopQueryLimit c)) m Hc) as (o & m' & -> & _ & Hm & _).
Qed.
Lemma startReplication_monitored e m : pg_monitored (startReplication c connection replicationGroup compiles e m) = pg_monitored m.
Proof. unfold startReplication. destruct replicationGroup; [|done]. by destruct (pg_replicationStarted m), (te_aurora e). Qed.

Abbreviation tickOf := (pgTick c connection queriesGroup replicationGroup dbFilter compiles).
Lemma pgTick_correct e m : pg_cancelled m = false → pg_inv m → is_Some (pg_database m) ∨ is_ok (te_open e) = true →
  pg_inv (tickOf e m) ∧ pg_cancelled (tickOf e m) = false ∧
  (∀ db, is_Some (pg_monitored (tickOf e m) !! db) ↔
     db ∈ listed e ∧ dbSelected dbFilter db = true ∧ (is_Some (pg_monitored m !! db) ∨ is_ok (sqlConfigure compiles e (databaseMon connection db)) = true)) ∧
  (∀ db i, pg_monitored m !! db = Some i → if decide (db ∈ listed e) then pg_monitored (tickOf e m) !! db = Some i else i ∉ pg_running (tickOf e m)).
Proof.
  intros Hc Hinv Hopen. unfold pgTick. rewrite Hc.
  set (m0 := match pg_database m with Some _ => m | None => setDatabase (Some true) m end).
  assert (H0 : pg_inv m0 ∧ pg_cancelled m0 = false ∧ pg_monitored m0 = pg_monitored m).
  { unfold m0. destruct (pg_database m); [done|]. split_and!; [by apply (pg_inv_same m) | done..]. }
  destruct H0 as (H0 & Hc0 & Hm0). destruct (pg_inv_startServer e m0 Hc0 H0) as [H1 Hc1]. destruct (pg_inv_startStatements e _ Hc1 H1) as [H2 Hc2].
  destruct (pg_inv_startReplication e _ Hc2 H2) as [H3 Hc3].
  assert (Hm3 : pg_monitored (startReplication c connection replicationGroup compiles e (startStatements c connection queriesGroup compiles e (startServer c connection compiles e m0))) = pg_monitored m)
    by by rewrite startReplication_monitored, startStatements_monitored, startServer_monitored.
  pose proof (syncDatabases_correct e _ Hc3 H3) as Hs. rewrite Hm3 in Hs.
  destruct (pg_database m) eqn:Hdb; [exact Hs|]. destruct (te_open e) as [|err]; [exact Hs|]. destruct Hopen as [[? ?]|?]; done.
Qed.

Lemma pg_inv_shutdown m : pg_inv m → pg_inv (pgShutdown m) ∧ pg_running (pgShutdown m) = ∅.
Proof.
  intros Hinv. assert (Hr : pg_running (pgShutdown m) = ∅).
  { apply leibniz_equiv. intros i. cbn. rewrite elem_of_difference, elem_of_empty. split; [|done]. intros [Hi Hn]. apply Hn. unfold heldIDs. rewrite elem_of_union.
    destruct (inv_held m Hinv i Hi) as [Hs|[db Hdb]]; [by right|]. left. apply elem_of_list_to_set, list_elem_of_fmap. exists (db, i). split; [done|]. by apply elem_of_map_to_list. }
  split; [|done]. destruct Hinv as [Hheld Hsl Hdbs Hdown Hrep]. split; [by rewrite Hr | done | | done | done].
  intros db i Hi. destruct (Hdbs db i Hi) as (? & ? & _). cbn. auto.
Qed.
Lemma pg_inv_step m ev : pg_inv m → pg_inv (pgStep c connection queriesGroup replicationGroup dbFilter compiles m ev).
Proof.
  intros Hinv. destruct ev as [e|]; [|by apply pg_inv_shutdown]. cbn [pgStep]. destruct (pg_cancelled m) eqn:Hc; [unfold pgTick; by rewrite Hc|].
  destruct (pg_database m) eqn:Hdb; [apply pgTick_correct; [done..|left; by eexists]|].
  destruct (te_open e) eqn:Ho; [apply pgTick_correct; [done..|right; by rewrite Ho]|]. unfold pgTick. by rewrite Hc, Hdb, Ho.
Qed.
Lemma pg_inv_run evs : ∀ m, pg_inv m → pg_inv (foldl (pgStep c connection queriesGroup replicationGroup dbFilter compiles) m evs).
Proof. induction evs as [|ev evs IH]; intros m Hinv; [done|]. apply IH. by apply pg_inv_step. Qed.
Lemma pg_cancelled_run evs : ∀ m, pg_cancelled m = true → pg_cancelled (foldl (pgStep c connection queriesGroup replicationGroup dbFilter compiles) m evs) = true.
Proof. induction evs as [|ev evs IH]; intros m Hc; [done|]. apply IH. destruct ev; cbn; [|done]. unfold pgTick. by rewrite Hc. Qed.
Lemma pg_stopped_run evs : ∀ m, Stop ∈ evs → pg_cancelled (foldl (pgStep c connection queriesGroup replicationGroup dbFilter compiles) m evs) = true.
Proof.
  induction evs as [|ev evs IH]; intros m Hin; [by apply not_elem_of_nil in Hin|]. cbn [foldl].
  apply elem_of_cons in Hin as [<-|Hin]; [by apply pg_cancelled_run | by apply IH].
Qed.
Lemma pgTick_cancelled e m : pg_cancelled m = false → pg_inv m → pg_cancelled (tickOf e m) = false.
Proof.
  intros Hc Hinv. destruct (pg_database m) eqn:Hdb; [apply pgTick_correct; [done..|left; by eexists]|].
  destruct (te_open e) eqn:Ho; [apply pgTick_correct; [done..|right; by rewrite Ho]|]. unfold pgTick. by rewrite Hc, Hdb, Ho.
Qed.
Lemma pg_cancelled_false_run evs : ∀ m, Stop ∉ evs → pg_inv m → pg_cancelled m = false → pg_cancelled (foldl (pgStep c connection queriesGroup replicationGroup dbFilter compiles) m evs) = false.
Proof.
  induction evs as [|ev evs IH]; intros m Hns Hinv Hc; [done|]. cbn [foldl]. apply not_elem_of_cons in Hns as [Hev Hns].
  apply IH; [done | by apply pg_inv_step |]. destruct ev as [e|]; [|done]. by apply pgTick_cancelled.
Qed.
Lemma pg_running_unless_stopped evs : Stop ∉ evs → pg_cancelled (foldl (pgStep c connection queriesGroup replicationGroup dbFilter compiles) newPg evs) = false.
Proof. intros Hns. by apply pg_cancelled_false_run; [| apply pg_inv_new |]. Qed.
End invariant.

Section runs.
Context `{MapRange} (c : pgConfig) (connection : string) (queriesGroup replicationGroup : bool) (dbFilter : option BasicStringFilter) (compiles : string → bool).
(** The monitor after a sequence of collections and shutdowns. *)
Definition pgRun (evs : list pgEvent) : pgMonitor := foldl (pgStep c connection queriesGroup replicationGroup dbFilter compiles) newPg evs.
End runs.

(** C32: Whatever the server and the drivers answer, every database is watched by at most one running SQL
    monitor, the one that the monitor holds for it, configured with the database's connection and
    queries and selected by the filter; it runs until the monitor is shut down, and after that no SQL
    monitor runs, whatever collections follow. *)
Theorem pg_runs_what_it_holds `{MapRange} c connection queriesGroup replicationGroup dbFilter compiles evs :
  let m := pgRun c connection queriesGroup replicationGroup dbFilter compiles evs in
  (∀ i s db, i ∈ pg_running m → pg_created m !! i = Some s → mon_Database s = Some db → pg_monitored m !! db = Some i) ∧
  (∀ db i, pg_monitored m !! db = Some i →
     dbSelected dbFilter db = true ∧ pg_created m !! i = Some (databaseMon connection db) ∧ (Stop ∉ evs → i ∈ pg_running m)) ∧
  (∀ i, i ∈ pg_running m → i ∈ heldIDs m) ∧
  (Stop ∈ evs → pg_running m = ∅).
Proof.
  intros m. assert (Hinv : pg_inv connection dbFilter m) by apply pg_inv_run, pg_inv_new. split_and!.
  - intros i s db Hi Hs Hdb. destruct (inv_held _ _ _ Hinv i Hi) as [Hsl|[db' Hd]].
    + destruct (inv_slots _ _ _ Hinv i Hsl) as (s' & Hs' & Hn). congruence.
    + destruct (inv_dbs _ _ _ Hinv db' i Hd) as (_ & Hcr & _). rewrite Hs in Hcr. injection Hcr as ->. cbn in Hdb. by injection Hdb as ->.
  - intros db i Hi. destruct (inv_dbs _ _ _ Hinv db i Hi) as (? & ? & Hr). split_and!; [done..|]. intros Hns. destruct Hr as [Hr|Hr]; [done|].
    unfold m, pgRun in Hr. by rewrite pg_running_unless_stopped in Hr.
  - intros i Hi. unfold heldIDs. rewrite elem_of_union. destruct (inv_held _ _ _ Hinv i Hi) as [|[db Hd]]; [by right|]. left.
    apply elem_of_list_to_set, list_elem_of_fmap. exists (db, i). split; [done|]. by apply elem_of_map_to_list.
  - intros Hs. apply (inv_down _ _ _ Hinv). by apply pg_stopped_run.
Qed.

(** A collection with a connection to the server leaves exactly the databases watched that the server
    lists and the filter selects, save those whose monitor cannot be configured; a database that is
    watched and still listed keeps its monitor, and the monitor of one that is not listed any more
    is stopped. *)
Theorem pg_follows_listing `{MapRange} c connection queriesGroup replicationGroup dbFilter compiles evs e :
  let m := pgRun c connection queriesGroup replicationGroup dbFilter compiles evs in
  let m' := pgRun c connection queriesGroup replicationGroup dbFilter compiles (evs ++ [Tick e]) in
  Stop ∉ evs → is_ok (te_open e) = true →
  (∀ db, is_Some (pg_monitored m' !! db) ↔
     db ∈ (determineDatabases (te_databases e)).1 ∧ dbSelected dbFilter db = true ∧
     (is_Some (pg_monitored m !! db) ∨ is_ok (sqlConfigure compiles e (databaseMon connection db)) = true)) ∧
  (∀ db i, pg_monitored m !! db = Some i →
     if decide (db ∈ (determineDatabases (te_databases e)).1) then pg_monitored m' !! db = Some i else i ∉ pg_running m').
Proof.
  intros m m' Hns Hok. unfold m', pgRun. rewrite foldl_app. cbn [foldl pgStep]. fold (pgRun c connection queriesGroup replicationGroup dbFilter compiles evs). fold m.
  apply (pgTick_correct c connection queriesGroup replicationGroup dbFilter compiles e m); [by apply pg_running_unless_stopped | | by right].
  apply pg_inv_run, pg_inv_new.
Qed.

(** When the databases cannot be listed every one of them stops being watched. *)
Lemma failed_listing_stops_all `{MapRange} c connection queriesGroup replicationGroup dbFilter compiles evs e err :
  Stop ∉ evs → is_ok (te_open e) = true → te_databases e = Err err →
  pg_monitored (pgRun c connection queriesGroup replicationGroup dbFilter compiles (evs ++ [Tick e])) = ∅.
Proof.
  intros Hns Hok Herr. unfold pgRun. rewrite foldl_app. cbn [foldl pgStep]. fold (pgRun c connection queriesGroup replicationGroup dbFilter compiles evs).
  destruct (pgTick_correct c connection queriesGroup replicationGroup dbFilter compiles e (pgRun c connection queriesGroup replicationGroup dbFilter compiles evs)) as (_ & _ & Hdom & _);
    [by apply pg_running_unless_stopped | apply pg_inv_run, pg_inv_new | by right |].
  apply map_empty. intros db. apply eq_None_not_Some. rewrite Hdom, Herr. by intros (?%not_elem_of_nil & _).
Qed.

(** An empty list of databases, for which [Configure] has a case without a filter, is refused by the filter of
    data points. *)
Lemma empty_databases_refused `{MapRange} `{PatternEngine} render c : pc_Databases c = [] → is_ok (pgConfigure render c) = false.
Proof.
  intros Hd. unfold pgConfigure. destruct (connStr render c) as [[conn port]|]; [|done]. rewrite Hd. unfold NewOverridable, NewStringMapFilter. rewrite map_size_singleton.
  assert (Hr : range ({["database?" := []]} : gmap string (list string)) = [("database?", [])]).
  { apply Permutation_length_1_inv. rewrite (range_perm _), map_to_list_singleton. done. }
  rewrite Hr. done.
Qed.

(** ** hana/monitor.go *)

Record hanaConfig := {
  hc_ConnectionString : string; hc_Host : string; hc_Username : string; hc_Password : string; hc_TLSServerName : string; hc_InsecureSkipVerify : bool;
  hc_RootCAFiles : list string; hc_Port : Z; hc_MaxExpensiveQueries : Z;
}.
(** The parts of the URL that [createDSN] assembles; the names and encoding of its parameters are the libraries'. *)
Inductive dsnKey := DSNTLSServerName | DSNTLSInsecureSkipVerify | DSNTLSRootCAFile.
Record hanaDSN := { dsn_User : string * string; dsn_Host : string; dsn_Query : list (dsnKey * string) }.
Definition createDSN (host username password tlsServerName : string) (port : Z) (skip : bool) (rootCAFiles : list string) : hanaDSN :=
  {| dsn_User := (username, password); dsn_Host := host +:+ ":" +:+ pretty port;
     dsn_Query := [(DSNTLSServerName, tlsServerName); (DSNTLSInsecureSkipVerify, if skip then "true" else "false")] ++ map (pair DSNTLSRootCAFile) rootCAFiles |}.
Definition cfgToConnString (URLString : hanaDSN → string) (c : hanaConfig) : string :=
  if negb (String.eqb (hc_ConnectionString c) "") then hc_ConnectionString c
  else
    let host := if String.eqb (hc_Host c) "" then "localhost" else hc_Host c in
    let port := if (hc_Port c =? 0)%Z then 443%Z else hc_Port c in
    URLString (createDSN host (hc_Username c) (hc_Password c) (if String.eqb (hc_TLSServerName c) "" then host else hc_TLSServerName c) port (hc_InsecureSkipVerify c) (hc_RootCAFiles c)).
Definition hanaMon (URLString : hanaDSN → string) (c : hanaConfig) : sqlMon :=
  {| mon_Database := None; mon_Connection := cfgToConnString URLString c; mon_Queries := hanaQueries (hc_MaxExpensiveQueries c) |}.
(** The driver is not one that a validation of the SQL configuration would accept. *)
Lemma hana_driver_not_valid URLString c : is_ok (sql_Validate {| sc_DBDriver := "hdb"; sc_Queries := mon_Queries (hanaMon URLString c) |}) = false.
Proof. reflexivity. Qed.

(** ** Witnesses and executions *)

Definition demo_pg : pgConfig :=
  {| pc_Host := "db"; pc_Port := 5433; pc_MasterDBName := "postgres"; pc_ConnectionString := "user=u"; pc_Databases := ["*"]; pc_IntervalSeconds := 10;
     pc_DatabasePollIntervalSeconds := 0; pc_TopQueryLimit := 10 |}.
Definition demo_env (dbs : res (rows * option error)) : tickEnv :=
  {| te_open := Ok tt; te_column := λ _, (Ok tt, Ok [Ok "total_time"]); te_aurora := false; te_databases := dbs; te_render := Ok; te_sqlOpen := λ _, Ok tt |}.
Definition demo_run : list pgEvent → pgMonitor := @pgRun forward_range demo_pg "user=u host=db port=5433" true true None (λ _, true).
(** Two databases, one of which disappears; the listing fails; the shutdown. *)
Lemma demo_pg_runs :
  map_to_list (pg_monitored (demo_run [Tick (demo_env (Ok ([Ok "a"; Ok "b"], None)))])) = [("a", 3%nat); ("b", 4%nat)] ∧
  map_to_list (pg_monitored (demo_run [Tick (demo_env (Ok ([Ok "a"; Ok "b"], None))); Tick (demo_env (Ok ([Ok "b"], None)))])) = [("b", 4%nat)] ∧
  elements (pg_running (demo_run [Tick (demo_env (Ok ([Ok "a"; Ok "b"], None))); Tick (demo_env (Err (Errorf "refused" [])))])) = [2; 1; 0]%nat ∧
  elements (pg_running (demo_run [Tick (demo_env (Ok ([Ok "a"; Ok "b"], None))); Stop; Tick (demo_env (Ok ([Ok "a"], None)))])) = [].
Proof. vm_compute. done. Qed.
(** A monitor of the server that could not be configured is kept and not configured again. *)
Lemma failed_server_kept :
  pg_running (demo_run [Tick {| te_open := Ok tt; te_column := λ _, (Ok tt, Ok [Ok "total_time"]); te_aurora := false; te_databases := Ok ([], None); te_render := λ _, Err (Errorf "bad template" []);
                                te_sqlOpen := λ _, Ok tt |}; Tick (demo_env (Ok ([], None)))]) = ∅.
Proof. vm_compute. reflexivity. Qed.

Lemma pg_follows_listing_witness :
  is_Some (pg_monitored (demo_run ([Tick (demo_env (Ok ([Ok "a"], None)))] ++ [Tick (demo_env (Ok ([Ok "b"], None)))])) !! "b").
Proof.
  apply (proj1 (@pg_follows_listing forward_range demo_pg "user=u host=db port=5433" true true None (λ _, true) [Tick (demo_env (Ok ([Ok "a"], None)))] (demo_env (Ok ([Ok "b"], None)))
    ltac:(intros Hin; apply list_elem_of_singleton in Hin; discriminate) eq_refl)).
  split_and!; [left | reflexivity | right; vm_compute; reflexivity].
Defined.
Lemma pg_runs_what_it_holds_witness : pg_running (demo_run [Tick (demo_env (Ok ([Ok "a"], None))); Stop]) = ∅.
Proof.
  apply (@pg_runs_what_it_holds forward_range demo_pg "user=u host=db port=5433" true true None (λ _, true) [Tick (demo_env (Ok ([Ok "a"], None))); Stop]).
  right. left.
Defined.
