(* ===== verification/SmartAgentReceiver.v ===== *)
(** * The Smart Agent receiver: loggers, reflection, factory and extension

    The parts of [src/pkg/receiver/smartagentreceiver] around the data path of [SmartAgent]: the
    redirection of the monitors' logrus messages ([log.go]), the setting of struct fields by
    name and type ([reflect.go]) with the endpoint of a configuration ([config.go]), the receivers
    shared by the pipelines of one configuration ([factory.go]), the creation of a monitor
    ([receiver.go]) and the other methods of its output ([output.go]); and the extension with
    the agent's global configuration ([src/pkg/extension/smartagentextension]).

    Zap cores, YAML, the defaults library and the registered monitors are parameters. *)

From S2P Require Import Prelude GoStrings GoValue Settings Telemetry Filters ConfigProvider DiscoveryReceiver SmartAgent.
From Stdlib Require Import Ascii.

(** ** log.go *)

Inductive zapcoreLevel := ZDebug | ZInfo | ZWarn | ZError | ZDPanic | ZPanic | ZFatal.
Inductive logrusLevel := LPanic | LFatal | LError | LWarn | LInfo | LDebug | LTrace.
#[global] Instance logrusLevel_eq_dec : EqDecision logrusLevel.
Proof. solve_decision. Defined.
(** [logrus.AllLevels]; a logger logs the levels up to its own in this order. *)
Definition AllLevels : list logrusLevel := [LPanic; LFatal; LError; LWarn; LInfo; LDebug; LTrace].
Definition rank (l : logrusLevel) : nat := match l with LPanic => 0 | LFatal => 1 | LError => 2 | LWarn => 3 | LInfo => 4 | LDebug => 5 | LTrace => 6 end.

Definition logrusToZapLevel (l : logrusLevel) : zapcoreLevel :=
  match l with LDebug | LTrace => ZDebug | LError => ZError | LFatal => ZFatal | LInfo => ZInfo | LPanic => ZPanic | LWarn => ZWarn end.
Definition zapToLogrusLevel (l : zapcoreLevel) : option logrusLevel :=
  match l with ZDebug => Some LDebug | ZError => Some LError | ZFatal => Some LFatal | ZInfo => Some LInfo | ZPanic => Some LPanic | ZWarn => Some LWarn | ZDPanic => None end.
Definition zapLevels : list zapcoreLevel := [ZDebug; ZInfo; ZWarn; ZError; ZDPanic; ZPanic; ZFatal].

(** A zap logger and what its core enables. *)
Record zapLogger := { zl_Name : string; zl_Enabled : zapcoreLevel → bool }.
Definition getLevelFromCore (enabled : zapcoreLevel → bool) : zapcoreLevel := default ZInfo (find enabled zapLevels).

(** The logrus logger of a monitor is the standard one: its level, whether it reports callers, and its hooks
    by level, [true] for the redirection and [false] for one of someone else. *)
Record logrusLogger := { lg_Level : logrusLevel; lg_ReportCaller : bool; lg_Hooks : logrusLevel → list bool }.
(** The standard logger and the redirection's map, by the type and identifier of a monitor. *)
Record logrusState := { ls_Logger : logrusLogger; ls_loggerMap : gmap (string * string) zapLogger }.

Definition initialize (l : logrusLogger) : logrusLogger := {| lg_Level := lg_Level l; lg_ReportCaller := true; lg_Hooks := lg_Hooks l |}.
Definition addLogrusToZapHook (l : logrusLogger) : logrusLogger :=
  if existsb (λ lv, existsb id (lg_Hooks l lv)) AllLevels then l
  else {| lg_Level := lg_Level l; lg_ReportCaller := lg_ReportCaller l; lg_Hooks := λ lv, lg_Hooks l lv ++ [true] |}.
Definition SetLevel (lv : logrusLevel) (l : logrusLogger) : logrusLogger := {| lg_Level := lv; lg_ReportCaller := lg_ReportCaller l; lg_Hooks := lg_Hooks l |}.
Definition redirect (s : logrusState) (r : string * string * zapLogger) : logrusState :=
  let l := match zapToLogrusLevel (getLevelFromCore (zl_Enabled r.2)) with Some lv => SetLevel lv (ls_Logger s) | None => ls_Logger s end in
  {| ls_Logger := addLogrusToZapHook (initialize l);
     ls_loggerMap := match ls_loggerMap s !! r.1 with Some _ => ls_loggerMap s | None => <[r.1 := r.2]> (ls_loggerMap s) end |}.
(** The logger that an entry belongs to: the standard one, or the one of the redirection that discards. *)
Inductive entryLogger := StandardLogger | NoopLogger.
(** Redirections are registered for the standard logger only. *)
Definition getZapLogger (defaultLogger : zapLogger) (s : logrusState) (src : entryLogger * (string * string)) : zapLogger :=
  match src.1 with StandardLogger => default defaultLogger (ls_loggerMap s !! src.2) | NoopLogger => defaultLogger end.

Record logEntry := { le_Logger : entryLogger; le_Level : logrusLevel; le_Message : string; le_Data : gmap string any }.
Definition keyOf `{FloatText} (e : logEntry) : string * string :=
  let text k := match le_Data e !! k with Some v => TrimSpace (Sprint v) | None => "" end in (text "monitorType", text "monitorID").
Record zapEntry := { ze_Logger : string; ze_Level : zapcoreLevel; ze_Message : string; ze_Fields : list (string * any) }.
Definition sortedFields (data : gmap string any) : list (string * any) := omap (λ k, pair k <$> data !! k) (sorted_keys data).
(** The zap entry that a hook writes, [Check] being the zap logger's decision, and the entry that is processed
    further. *)
Definition Fire `{FloatText} (Check : zapLogger → zapcoreLevel → bool) (defaultLogger : zapLogger) (s : logrusState) (e : logEntry) : list zapEntry * logEntry :=
  let z := getZapLogger defaultLogger s (le_Logger e, keyOf e) in
  let lv := logrusToZapLevel (le_Level e) in
  (if Check z lv then [{| ze_Logger := zl_Name z; ze_Level := lv; ze_Message := le_Message e; ze_Fields := sortedFields (le_Data e) |}] else [],
   {| le_Logger := NoopLogger; le_Level := le_Level e; le_Message := le_Message e; le_Data := le_Data e |}).

(** What logrus does with an entry on a level that its logger logs: the hooks of the level fire in order on the
    same entry (those of others are taken to leave it alone), then the entry is written to the output of the
    logger that it belongs to by then. *)
Definition fireHooks `{FloatText} (Check : zapLogger → zapcoreLevel → bool) (defaultLogger : zapLogger) (s : logrusState)
    (hooks : list bool) (e : logEntry) : list zapEntry * logEntry :=
  foldl (λ acc (h : bool), if h then let '(zs, e) := Fire Check defaultLogger s acc.2 in (acc.1 ++ zs, e) else acc) ([], e) hooks.
Inductive logOutput := ToZap (e : zapEntry) | ToStandard (level : logrusLevel) (message : string).
Definition logged `{FloatText} (Check : zapLogger → zapcoreLevel → bool) (defaultLogger : zapLogger) (s : logrusState) (e : logEntry) : list logOutput :=
  if (rank (le_Level e) <=? rank (lg_Level (ls_Logger s)))%nat then
    let '(zs, e) := fireHooks Check defaultLogger s (lg_Hooks (ls_Logger s) (le_Level e)) e in
    map ToZap zs ++ match le_Logger e with StandardLogger => [ToStandard (le_Level e) (le_Message e)] | NoopLogger => [] end
  else [].

(** ** factory.go *)

Record nextConsumers := { nc_Metrics : option nat; nc_Logs : option nat; nc_Traces : option nat }.
Inductive pipelineKind := MetricsPipeline | LogsPipeline | TracesPipeline.
(** Configurations are pointers, receivers are numbered by their creation. *)
Record receiverStore := { st_Store : gmap nat nat; st_Receivers : list (nat * nextConsumers) }.
Definition getOrCreateReceiver (validate : nat → option error) (cfg : nat) (s : receiverStore) : res nat * receiverStore :=
  match validate cfg with
  | Some e => (Err e, s)
  | None =>
      match st_Store s !! cfg with
      | Some r => (Ok r, s)
      | None =>
          let r := length (st_Receivers s) in
          (Ok r, {| st_Store := <[cfg := r]> (st_Store s); st_Receivers := st_Receivers s ++ [(cfg, {| nc_Metrics := None; nc_Logs := None; nc_Traces := None |})] |})
      end
  end.
Definition registerConsumer (k : pipelineKind) (c : nat) (n : nextConsumers) : nextConsumers :=
  match k with
  | MetricsPipeline => {| nc_Metrics := Some c; nc_Logs := nc_Logs n; nc_Traces := nc_Traces n |}
  | LogsPipeline => {| nc_Metrics := nc_Metrics n; nc_Logs := Some c; nc_Traces := nc_Traces n |}
  | TracesPipeline => {| nc_Metrics := nc_Metrics n; nc_Logs := nc_Logs n; nc_Traces := Some c |}
  end.
(** [createMetricsReceiver], [createLogsReceiver] and [createTracesReceiver]. *)
Definition createReceiver (validate : nat → option error) (k : pipelineKind) (cfg consumer : nat) (s : receiverStore) : res nat * receiverStore :=
  match getOrCreateReceiver validate cfg s with
  | (Err e, s) => (Err e, s)
  | (Ok r, s) => (Ok r, {| st_Store := st_Store s; st_Receivers := alter (λ cn, (cn.1, registerConsumer k consumer cn.2)) r (st_Receivers s) |})
  end.

(** ** Where a monitor's messages go *)

Definition firstFor (key : string * string) (rs : list (string * string * zapLogger)) : option zapLogger := snd <$> find (λ r, bool_decide (r.1 = key)) rs.
Lemma redirect_map rs : ∀ s key, ls_loggerMap (foldl redirect s rs) !! key = match ls_loggerMap s !! key with Some z => Some z | None => firstFor key rs end.
Proof.
  induction rs as [|r rs IH]; intros s key; [cbn; by destruct (ls_loggerMap s !! key)|]. cbn [foldl]. rewrite IH. cbn [redirect ls_loggerMap]. unfold firstFor. cbn [find].
  destruct (ls_loggerMap s !! r.1) eqn:Hr.
  - destruct (ls_loggerMap s !! key) eqn:Hk; [done|]. rewrite bool_decide_eq_false_2; [done|]. intros Heq. congruence.
  - destruct (decide (r.1 = key)) as [<-|Hne].
    + rewrite lookup_insert_eq, Hr. by rewrite bool_decide_eq_true_2.
    + rewrite lookup_insert_ne by done. by rewrite bool_decide_eq_false_2.
Qed.
(** Either no level has the redirection's hook, or every level has it once. *)
Definition hooked (l : logrusLogger) : Prop := ∀ lv, length (List.filter id (lg_Hooks l lv)) = 1%nat.
Definition unhooked (l : logrusLogger) : Prop := ∀ lv, List.filter id (lg_Hooks l lv) = [].
Lemma AllLevels_all lv : lv ∈ AllLevels.
Proof. unfold AllLevels. rewrite !elem_of_cons. destruct lv; tauto. Qed.
Lemma existsb_id l : existsb id l = negb (length (List.filter id l) =? 0)%nat.
Proof. induction l as [|[] l IH]; cbn; [done..|]. exact IH. Qed.
Lemma addHook_hooked l : hooked l ∨ unhooked l → hooked (addLogrusToZapHook l).
Proof.
  intros Hl. unfold addLogrusToZapHook. destruct (existsb _ AllLevels) eqn:He.
  - apply existsb_exists in He as (lv & _ & Hlv). rewrite existsb_id in Hlv. destruct Hl as [|Hu]; [done|]. by rewrite Hu in Hlv.
  - destruct Hl as [Hh|Hu].
    + exfalso. apply not_true_iff_false in He. apply He, existsb_exists. exists LInfo. split; [apply list_elem_of_In, AllLevels_all|]. rewrite existsb_id. by rewrite Hh.
    + intros lv. cbn. rewrite List.filter_app, Hu. done.
Qed.
Lemma redirect_hooked s r : hooked (ls_Logger s) ∨ unhooked (ls_Logger s) → hooked (ls_Logger (redirect s r)).
Proof. intros Hs. cbn [redirect ls_Logger]. apply addHook_hooked. destruct (zapToLogrusLevel (getLevelFromCore (zl_Enabled r.2))); exact Hs. Qed.
Lemma redirects_hooked rs : ∀ s, hooked (ls_Logger s) → hooked (ls_Logger (foldl redirect s rs)).
Proof. induction rs as [|r rs IH]; intros s Hs; [done|]. apply IH, redirect_hooked. by left. Qed.
Lemma fireHooks_none `{FloatText} Check d s hooks acc : List.filter id hooks = [] →
  foldl (λ acc (h : bool), if h then let '(zs, e) := Fire Check d s acc.2 in (acc.1 ++ zs, e) else acc) acc hooks = acc.
Proof. induction hooks as [|[] hooks IH]; done. Qed.
Lemma fireHooks_once `{FloatText} Check d s hooks e : length (List.filter id hooks) = 1%nat → fireHooks Check d s hooks e = Fire Check d s e.
Proof.
  unfold fireHooks. induction hooks as [|[] hooks IH]; [done| |done]. intros [= Hl]. apply nil_length_inv in Hl. cbn [foldl]. by rewrite fireHooks_none.
Qed.

(** C35: Once monitors are redirected, a message of the standard logger on a level that it logs is written exactly
    once if the receiver's logger takes it: to the logger of the first redirection for the type and identifier
    that its fields name, or to the default one, with its fields in the order of their keys; and it is not written
    to the output of the standard logger itself. *)
Theorem messages_routed `{FloatText} Check defaultLogger (logger : logrusLogger) (r : string * string * zapLogger) (rs : list (string * string * zapLogger)) (e : logEntry) :
  unhooked logger → le_Logger e = StandardLogger →
  let s := foldl redirect {| ls_Logger := logger; ls_loggerMap := ∅ |} (r :: rs) in
  let z := default defaultLogger (firstFor (keyOf e) (r :: rs)) in
  logged Check defaultLogger s e =
  if (rank (le_Level e) <=? rank (lg_Level (ls_Logger s)))%nat && Check z (logrusToZapLevel (le_Level e))
  then [ToZap {| ze_Logger := zl_Name z; ze_Level := logrusToZapLevel (le_Level e); ze_Message := le_Message e; ze_Fields := sortedFields (le_Data e) |}] else [].
Proof.
  intros Hu He s z. unfold logged. destruct (rank (le_Level e) <=? rank (lg_Level (ls_Logger s)))%nat; [|done]. cbn [andb].
  assert (Hh : hooked (ls_Logger s)) by (unfold s; cbn [foldl]; apply redirects_hooked; apply redirect_hooked; right; exact Hu).
  rewrite fireHooks_once by apply Hh. unfold Fire, getZapLogger. rewrite He. cbn [fst snd].
  assert (Hz : default defaultLogger (ls_loggerMap s !! keyOf e) = z) by (unfold s, z; by rewrite redirect_map).
  rewrite Hz. by destruct (Check z (logrusToZapLevel (le_Level e))).
Qed.
(** The level of the standard logger is that of the last redirection: one with a higher level silences
    the monitors redirected before it. *)
Lemma last_redirection_sets_level s rs r lv : zapToLogrusLevel (getLevelFromCore (zl_Enabled r.2)) = Some lv → lg_Level (ls_Logger (foldl redirect s (rs ++ [r]))) = lv.
Proof.
  intros Hl. rewrite foldl_app. cbn [foldl redirect ls_Logger]. rewrite Hl. unfold addLogrusToZapHook. by destruct (existsb _ AllLevels).
Qed.

(** ** One receiver for the pipelines of a configuration *)

Section store.
Context (validate : nat → option error).
Abbreviation call := (pipelineKind * nat * nat)%type.
Definition created (s : receiverStore) (c : call) : receiverStore := (createReceiver validate c.1.1 c.1.2 c.2 s).2.
Definition noConsumers : nextConsumers := {| nc_Metrics := None; nc_Logs := None; nc_Traces := None |}.
(** What the calls for a configuration register, in order. *)
Definition consumersOf (cfg : nat) (cs : list call) : nextConsumers :=
  foldl (λ n c, if decide (c.1.2 = cfg) then registerConsumer c.1.1 c.2 n else n) noConsumers cs.
Definition asked (cs : list call) (cfg : nat) : Prop := ∃ k x, (k, cfg, x) ∈ cs ∧ validate cfg = None.
Record store_ok (cs : list call) (s : receiverStore) : Prop := {
  ok_store : ∀ cfg r, st_Store s !! cfg = Some r ↔ ∃ n, st_Receivers s !! r = Some (cfg, n);
  ok_consumers : ∀ r cfg n, st_Receivers s !! r = Some (cfg, n) → n = consumersOf cfg cs;
  ok_asked : ∀ cfg, is_Some (st_Store s !! cfg) ↔ asked cs cfg;
}.
Lemma consumersOf_app cfg cs c : consumersOf cfg (cs ++ [c]) = if decide (c.1.2 = cfg) then registerConsumer c.1.1 c.2 (consumersOf cfg cs) else consumersOf cfg cs.
Proof. unfold consumersOf. by rewrite foldl_app. Qed.
Lemma asked_app cs k cfg x cfg' : asked (cs ++ [(k, cfg, x)]) cfg' ↔ asked cs cfg' ∨ (cfg' = cfg ∧ validate cfg = None).
Proof.
  unfold asked. split.
  - intros (k' & x' & Hin & Hv). apply elem_of_app in Hin as [Hin|Hin%list_elem_of_singleton]; [left; by exists k', x'|]. injection Hin as -> -> ->. auto.
  - intros [(k' & x' & Hin & Hv)|[-> Hv]]; [exists k', x' | exists k, x]; (split; [|done]); apply elem_of_app; [by left | right; by apply list_elem_of_singleton].
Qed.
Lemma consumersOf_unasked cs cfg : ¬ asked cs cfg → validate cfg = None → consumersOf cfg cs = noConsumers.
Proof.
  intros Hn Hv. unfold consumersOf. induction cs as [|c cs IH] using rev_ind; [done|]. destruct c as [[k cfg'] x]. rewrite foldl_app. cbn [foldl fst snd].
  rewrite asked_app in Hn. rewrite decide_False by (intros ->; auto). apply IH. auto.
Qed.
Lemma store_ok_invalid cs k cfg x s e : validate cfg = Some e → store_ok cs s → store_ok (cs ++ [(k, cfg, x)]) s.
Proof.
  intros Hv [Hs Hc Ha]. split; [done | |].
  - intros r cfg' n Hr. rewrite consumersOf_app. cbn [fst snd]. rewrite decide_False; [by apply (Hc r)|]. intros ->.
    assert (Hx : is_Some (st_Store s !! cfg')) by (exists r; apply Hs; by exists n). apply Ha in Hx as (? & ? & _ & ?). congruence.
  - intros cfg'. rewrite Ha, asked_app. rewrite Hv. intuition discriminate.
Qed.
Lemma store_ok_registered cs k cfg x s r : validate cfg = None → st_Store s !! cfg = Some r → store_ok cs s →
  store_ok (cs ++ [(k, cfg, x)]) {| st_Store := st_Store s; st_Receivers := alter (λ cn, (cn.1, registerConsumer k x cn.2)) r (st_Receivers s) |}.
Proof.
  intros Hv Hr [Hs Hc Ha]. destruct (proj1 (Hs cfg r) Hr) as [n Hn]. split; cbn.
  - intros cfg' r'. rewrite Hs. destruct (decide (r = r')) as [<-|Hne].
    + rewrite list_lookup_alter_eq, Hn. cbn. split; intros [n' [= <- <-]]; by eexists.
    + by rewrite list_lookup_alter_ne.
  - intros r' cfg' n'. rewrite consumersOf_app. cbn [fst snd]. destruct (decide (r = r')) as [<-|Hne].
    + rewrite list_lookup_alter_eq, Hn. cbn. intros [= <- <-]. rewrite decide_True by done. by rewrite <- (Hc r cfg n Hn).
    + rewrite list_lookup_alter_ne by done. intros Hr'. rewrite decide_False; [by apply (Hc r')|]. intros <-.
      assert (st_Store s !! cfg = Some r') by (apply Hs; by exists n'). congruence.
  - intros cfg'. rewrite Ha, asked_app. split; [by left|]. intros [?|[-> _]]; [done|]. apply Ha. by exists r.
Qed.
Lemma store_ok_step cs s c : store_ok cs s → store_ok (cs ++ [c]) (created s c).
Proof.
  intros Hok. destruct c as [[k cfg] x]. unfold created, createReceiver, getOrCreateReceiver. cbn [fst snd].
  destruct (validate cfg) as [e|] eqn:Hv; [by apply (store_ok_invalid _ _ _ _ _ e)|].
  destruct (st_Store s !! cfg) as [r|] eqn:Hr; cbn [snd]; [by apply store_ok_registered|].
  set (s1 := {| st_Store := <[cfg := length (st_Receivers s)]> (st_Store s); st_Receivers := st_Receivers s ++ [(cfg, noConsumers)] |}).
  change (st_Receivers s ++ [(cfg, _)]) with (st_Receivers s1). change (<[cfg := length (st_Receivers s)]> (st_Store s)) with (st_Store s1).
  destruct Hok as [Hs Hc Ha]. assert (Hna : ¬ asked cs cfg) by (intros Hx; apply Ha in Hx as [? ?]; congruence).
  assert (Hnr : ∀ r n, st_Receivers s !! r ≠ Some (cfg, n)) by (intros r n Hx; assert (st_Store s !! cfg = Some r) by (apply Hs; by exists n); congruence).
  split; cbn.
  - intros cfg' r. destruct (decide (cfg = cfg')) as [<-|Hne].
    + rewrite lookup_insert_eq. split.
      * intros [= <-]. rewrite list_lookup_alter_eq, lookup_app_r, Nat.sub_diag by done. by eexists.
      * intros [n Hn]. destruct (decide (length (st_Receivers s) = r)) as [<-|Hne]; [done|]. rewrite list_lookup_alter_ne in Hn by done.
        apply lookup_snoc_Some in Hn as [[_ Hn]|[Hl _]]; [by apply Hnr in Hn | done].
    + rewrite lookup_insert_ne by done. rewrite Hs. destruct (decide (length (st_Receivers s) = r)) as [<-|Hne'].
      * rewrite list_lookup_alter_eq, lookup_app_r, Nat.sub_diag by done. rewrite (lookup_ge_None_2 (st_Receivers s)) by done. split; intros [n [=]]; done.
      * rewrite list_lookup_alter_ne by done. split; intros [n Hn]; exists n; [by rewrite (lookup_app_l_Some _ _ _ _ Hn)|].
        apply lookup_snoc_Some in Hn as [[_ Hn]|[Hl [= ? ?]]]; done.
  - intros r cfg' n. rewrite consumersOf_app. cbn [fst snd]. destruct (decide (length (st_Receivers s) = r)) as [<-|Hne].
    + rewrite list_lookup_alter_eq, lookup_app_r, Nat.sub_diag by done. cbn. intros [= <- <-]. rewrite decide_True by done. by rewrite consumersOf_unasked.
    + rewrite list_lookup_alter_ne by done. intros Hn. apply lookup_snoc_Some in Hn as [[_ Hn]|[Hl _]]; [|done].
      rewrite decide_False; [by apply (Hc r)|]. intros <-. by apply Hnr in Hn.
  - intros cfg'. rewrite asked_app, <- Ha. destruct (decide (cfg = cfg')) as [<-|Hne]; [rewrite lookup_insert_eq | rewrite lookup_insert_ne by done].
    + split; [auto|]. intros _. by eexists.
    + split; [by left|]. intros [?|[-> _]]; done.
Qed.
Definition noReceivers : receiverStore := {| st_Store := ∅; st_Receivers := [] |}.
Lemma store_ok_run cs : store_ok cs (foldl created noReceivers cs).
Proof.
  induction cs as [|c cs IH] using rev_ind; [|rewrite foldl_app; by apply store_ok_step].
  split; cbn; [intros cfg r; rewrite lookup_empty; split; [done | by intros [? ?]] | done | intros cfg; rewrite lookup_empty; split; [by intros [? ?] | by intros (? & ? & ?%not_elem_of_nil & _)]].
Qed.
End store.

(** C34: Whatever pipelines are built in whatever order, every valid configuration that is used has exactly one
    receiver, which holds the consumers that were last given for its metrics, logs and traces; no other
    receivers exist. *)
Theorem pipelines_share_receiver (validate : nat → option error) (cs : list (pipelineKind * nat * nat)) :
  let s := foldl (created validate) noReceivers cs in
  (∀ cfg, asked validate cs cfg → ∃ r, st_Receivers s !! r = Some (cfg, consumersOf cfg cs) ∧ ∀ r' n, st_Receivers s !! r' = Some (cfg, n) → r' = r) ∧
  (∀ r cfg n, st_Receivers s !! r = Some (cfg, n) → asked validate cs cfg).
Proof.
  intros s. destruct (store_ok_run validate cs) as [Hs Hc Ha]. fold s in Hs, Hc, Ha. split.
  - intros cfg Hcfg. apply Ha in Hcfg as [r Hr]. destruct (proj1 (Hs cfg r) Hr) as [n Hn]. exists r. split; [by rewrite <- (Hc r cfg n Hn)|].
    intros r' n' Hn'. assert (Hr' : st_Store s !! cfg = Some r') by (apply Hs; by exists n'). congruence.
  - intros r cfg n Hn. apply Ha. exists r. apply Hs. by exists n.
Qed.

(** ** reflect.go *)

(** A struct type: for each field its name, whether it is exported and whether it is embedded.  Fields that are
    embedded by pointer are leaves. *)
Inductive gtype := TLeaf (name : string) | TStruct (name : string) (fields : list (string * bool * bool * gtype)).
Abbreviation gfield := (string * bool * bool * gtype)%type.
Abbreviation gpath := (list nat).
Definition typeName (t : gtype) : string := match t with TLeaf n | TStruct n _ => n end.
Definition fieldName (f : gfield) : string := f.1.1.1.
Definition isExported (f : gfield) : bool := f.1.1.2.
Definition isEmbedded (f : gfield) : bool := f.1.2.
Definition isStruct (t : gtype) : bool := match t with TStruct _ _ => true | TLeaf _ => false end.

(** [FieldByName] of package reflect: the fields of the name, by their depth under the embedded structs; the one at
    the least depth, if it is the only one there. *)
Definition zipLevels {A} (l1 l2 : list (list A)) : list (list A) :=
  zip_with app l1 l2 ++ drop (length l2) l1 ++ drop (length l1) l2.
Definition fieldsHere (name : string) (fields : list gfield) : list (gpath * gfield) :=
  omap (λ jf : nat * gfield, if String.eqb (fieldName jf.2) name then Some ([jf.1], jf.2) else None) (imap pair fields).
Definition below (i : nat) (l : list (list (gpath * gfield))) : list (list (gpath * gfield)) := map (map (λ pf, (i :: pf.1, pf.2))) l.
Fixpoint levels (name : string) (t : gtype) : list (list (gpath * gfield)) :=
  match t with
  | TLeaf _ => []
  | TStruct _ fields =>
      let embedded := map (λ f, if isEmbedded f then levels name f.2 else []) fields in
      fieldsHere name fields :: foldr zipLevels [] (imap below embedded)
  end.
Fixpoint firstLevel {A} (l : list (list A)) : option A :=
  match l with
  | [] => None
  | [] :: l => firstLevel l
  | [x] :: _ => Some x
  | _ :: _ => None
  end.
Definition FieldByName (t : gtype) (name : string) : option (gpath * gfield) := firstLevel (levels name t).

(** The search in the embedded structs is done on copies, which are not addressable. *)
Fixpoint getSettableStructFieldValue (t : gtype) (addressable : bool) (name type : string) : res (option gpath) :=
  match t with
  | TLeaf _ => Err (Errorf "invalid struct instance: %#v (CanAddr(): %t)" [])
  | TStruct _ fields =>
      let inCopies := map (λ f, if isStruct f.2 && isEmbedded f && (addressable && isExported f) then getSettableStructFieldValue f.2 false name type else Ok None) fields in
      let candidates := omap (λ jr : nat * res (option gpath), match jr.2 with Ok (Some p) => Some (jr.1 :: p) | _ => None end) (imap pair inCopies) in
      match FieldByName t name with
      | Some (p, f) => if addressable && isExported f && String.eqb (typeName f.2) type then Ok (Some p) else Ok (head candidates)
      | None => Ok (head candidates)
      end
  end.

(** A struct that a pointer refers to: its type and the values of its fields, by their kind. *)
Record gstruct := { gs_Type : gtype; gs_Strings : gmap gpath string; gs_Uints : gmap gpath Z; gs_Outputs : gmap gpath nat }.
Inductive gvalue := VString (s : string) | VUint (n : Z) | VOutput (o : nat).
Definition fieldIsZero (v : gvalue) (p : gpath) (s : gstruct) : bool :=
  match v with
  | VString _ => String.eqb (default "" (gs_Strings s !! p)) ""
  | VUint _ => (default 0 (gs_Uints s !! p) =? 0)%Z
  | VOutput _ => bool_decide (gs_Outputs s !! p = None)
  end.
Definition setValueAt (v : gvalue) (p : gpath) (s : gstruct) : gstruct :=
  {| gs_Type := gs_Type s; gs_Strings := match v with VString x => <[p := x]> (gs_Strings s) | _ => gs_Strings s end;
     gs_Uints := match v with VUint x => <[p := x]> (gs_Uints s) | _ => gs_Uints s end;
     gs_Outputs := match v with VOutput x => <[p := x]> (gs_Outputs s) | _ => gs_Outputs s end |}.
Definition setStructField (s : gstruct) (name : string) (v : gvalue) (type : string) (onlyIfZero : bool) : res (bool * gstruct) :=
  match getSettableStructFieldValue (gs_Type s) true name type with
  | Err e => Err e
  | Ok None => Err (Errorf "no field %s of type %s detected" [name; type])
  | Ok (Some p) => if onlyIfZero && negb (fieldIsZero v p s) then Ok (false, s) else Ok (true, setValueAt v p s)
  end.
(** The types are tried in turn; the error is that of the last. *)
Fixpoint setStructFieldWithExplicitType (s : gstruct) (name : string) (v : gvalue) (types : list string) : res gstruct :=
  match types with
  | [] => Err (Errorf "unable to set output field of monitor" [])
  | type :: types =>
      match setStructField s name v type false with
      | Ok (_, s') => Ok s'
      | Err e => match types with [] => Err e | _ => setStructFieldWithExplicitType s name v types end
      end
  end.

(** [setHostAndPortViaEndpoint] of config.go, on the struct of a monitor's configuration. *)
Definition setIfField (name type : string) (v : gvalue) (s : gstruct) : res (option gstruct) :=
  match getSettableStructFieldValue (gs_Type s) true name type with
  | Ok (Some _) => match setStructField s name v type true with Ok (_, s') => Ok (Some s') | Err e => Err e end
  | _ => Ok None
  end.
Definition setHostAndPortOfStruct (endpoint : string) (s : gstruct) : res gstruct :=
  if String.eqb endpoint "" then Ok s
  else
    let '(host, portStr) := match SplitHostPort endpoint with Some hp => hp | None => (endpoint, "") end in
    match (if String.eqb portStr "" then Some 0%Z else ParseUint16 portStr) with
    | None => Err (Errorf "cannot determine port via Endpoint: %w" [])
    | Some port =>
        s ← (if String.eqb host "" then Ok s else s' ← setIfField "Host" "string" (VString host) s; Ok (default s s'));
        if (port =? 0)%Z then Ok s
        else s1 ← setIfField "Port" "uint16" (VUint port) s;
             match s1 with
             | Some s' => Ok s'
             | None => s2 ← setIfField "Port" "string" (VString portStr) s; Ok (default s s2)
             end
    end.

(** *** Which fields are found *)

(** The structure at the end of a path. *)
Fixpoint fieldAt (t : gtype) (p : gpath) : option gfield :=
  match p, t with
  | [i], TStruct _ fields => fields !! i
  | i :: p, TStruct _ fields => match fields !! i with Some f => fieldAt f.2 p | None => None end
  | _, _ => None
  end.
Definition good (name : string) (t : gtype) (pf : gpath * gfield) : Prop := pf.1 ≠ [] ∧ fieldAt t pf.1 = Some pf.2 ∧ fieldName pf.2 = name.
Lemma zipLevels_forall {A} (P : A → Prop) l1 l2 : Forall (Forall P) l1 → Forall (Forall P) l2 → Forall (Forall P) (zipLevels l1 l2).
Proof.
  intros H1 H2. unfold zipLevels. apply Forall_app. split; [|apply Forall_app; split; by apply Forall_drop].
  revert l2 H2. induction H1 as [|x l1 Hx H1 IH]; intros l2 H2; [constructor|]. destruct H2 as [|y l2 Hy H2]; [constructor|]. cbn. constructor; [by apply Forall_app | by apply IH].
Qed.
Lemma gtype_ind' (P : gtype → Prop) : (∀ n, P (TLeaf n)) → (∀ n fields, Forall (λ f : gfield, P f.2) fields → P (TStruct n fields)) → ∀ t, P t.
Proof. intros Hl Hs. fix IH 1. intros [n|n fields]; [apply Hl|]. apply Hs. induction fields as [|f fields IHf]; constructor; [apply IH | apply IHf]. Qed.
Lemma levels_good name t : Forall (Forall (good name t)) (levels name t).
Proof.
  induction t as [n|n fields IH] using gtype_ind'; [constructor|]. cbn [levels]. constructor.
  - apply Forall_forall. intros [p f] Hin. unfold fieldsHere in Hin. apply list_elem_of_omap in Hin as ([j g] & Hj & Hg). cbn in Hg.
    destruct (String.eqb (fieldName g) name) eqn:Hn; [|done]. injection Hg as <- <-. apply list_elem_of_lookup in Hj as [k Hk].
    rewrite list_lookup_imap in Hk. destruct (fields !! k) eqn:Hf; [|done]. injection Hk as <- <-. split_and!; [done..|]. by apply String.eqb_eq.
  - assert (Hall : Forall (Forall (Forall (good name (TStruct n fields)))) (imap below (map (λ f : gfield, if isEmbedded f then levels name f.2 else []) fields))).
    { apply Forall_lookup. intros i l Hl. rewrite list_lookup_imap in Hl. change (map ?f fields) with (f <$> fields) in Hl. rewrite list_lookup_fmap in Hl.
      destruct (fields !! i) as [f|] eqn:Hf; [|done]. injection Hl as <-. destruct (isEmbedded f); [|constructor]. rewrite Forall_lookup in IH. specialize (IH i f Hf).
      unfold below. apply Forall_map. eapply Forall_impl; [exact IH|]. intros lv Hlv. apply Forall_map. eapply Forall_impl; [exact Hlv|].
      intros [p g] (Hp & Hat & Hn). split_and!; [done| |done]. cbn. destruct p; [done|]. cbn in *. by rewrite Hf. }
    induction Hall; [constructor|]. by apply zipLevels_forall.
Qed.
Lemma firstLevel_elem {A} (l : list (list A)) x : firstLevel l = Some x → ∃ lv, lv ∈ l ∧ x ∈ lv.
Proof.
  induction l as [|lv l IH]; [done|]. cbn. destruct lv as [|y [|]]; [|intros [= ->]; exists [x]; split; by left|done].
  intros (lv' & ? & ?)%IH. exists lv'. split; [by right|done].
Qed.
Lemma FieldByName_good t name p f : FieldByName t name = Some (p, f) → fieldAt t p = Some f ∧ fieldName f = name.
Proof.
  intros (lv & Hlv & Hin)%firstLevel_elem. pose proof (levels_good name t) as Hall. rewrite Forall_forall in Hall. specialize (Hall lv Hlv). rewrite Forall_forall in Hall.
  by destruct (Hall _ Hin) as (_ & ? & ?).
Qed.
Lemma no_candidates (l : list (res (option gpath))) : (∀ r, r ∈ l → r = Ok None) →
  omap (λ jr : nat * res (option gpath), match jr.2 with Ok (Some p) => Some (jr.1 :: p) | _ => None end) (imap pair l) = [].
Proof.
  intros Hl. apply elem_of_nil_inv. intros p Hp. apply list_elem_of_omap in Hp as ([j r] & Hj & Hr). apply list_elem_of_lookup in Hj as [k Hk].
  rewrite list_lookup_imap in Hk. destruct (l !! k) eqn:Hlk; [|done]. injection Hk as <- <-. cbn in Hr. by rewrite (Hl _ (list_elem_of_lookup_2 _ _ _ Hlk)) in Hr.
Qed.
Lemma copies_find_nothing t name type : isStruct t = true → getSettableStructFieldValue t false name type = Ok None.
Proof.
  destruct t as [|n fields]; [done|]. intros _. cbn [getSettableStructFieldValue]. rewrite no_candidates; [by destruct (FieldByName _ name) as [[]|]|].
  intros r (f & -> & _)%list_elem_of_fmap. by rewrite andb_false_r.
Qed.
(** Only a field that the language itself selects is found: one of another type at a lesser depth hides the field that
    is looked for, although the embedded structs are searched. *)
Lemma settable_is_selected t name type : getSettableStructFieldValue t true name type =
  match t with
  | TLeaf _ => Err (Errorf "invalid struct instance: %#v (CanAddr(): %t)" [])
  | TStruct _ _ => Ok (match FieldByName t name with Some (p, f) => if isExported f && String.eqb (typeName f.2) type then Some p else None | None => None end)
  end.
Proof.
  destruct t as [|n fields]; [done|]. cbn [getSettableStructFieldValue]. rewrite no_candidates; [destruct (FieldByName _ name) as [[p f]|]; [|done]; cbn [andb]; by destruct (isExported f && _)|].
  intros r (f & -> & _)%list_elem_of_fmap. destruct (isStruct f.2) eqn:Hs; [|done]. cbn. destruct (isEmbedded f && isExported f); [by apply copies_find_nothing | done].
Qed.

(** *** The endpoint of a configuration *)

Definition settablePath (s : gstruct) (name type : string) : option gpath := match getSettableStructFieldValue (gs_Type s) true name type with Ok o => o | Err _ => None end.
(** The fields that the endpoint concerns. *)
Definition hostPortOf (s : gstruct) : hostPort :=
  {| hp_Host := (λ p, default "" (gs_Strings s !! p)) <$> settablePath s "Host" "string";
     hp_Port := match settablePath s "Port" "uint16" with
                | Some p => PortUint (default 0%Z (gs_Uints s !! p))
                | None => match settablePath s "Port" "string" with Some p => PortString (default "" (gs_Strings s !! p)) | None => NoPort end
                end |}.
Lemma setIfField_path name type v s : setIfField name type v s =
  Ok (match settablePath s name type with None => None | Some p => Some (if fieldIsZero v p s then setValueAt v p s else s) end).
Proof.
  unfold setIfField, setStructField, settablePath. destruct (getSettableStructFieldValue (gs_Type s) true name type) as [[p|]|]; [|done..].
  by destruct (fieldIsZero v p s).
Qed.
Lemma settablePath_inj s name1 name2 type1 type2 p : settablePath s name1 type1 = Some p → settablePath s name2 type2 = Some p → name1 = name2.
Proof.
  unfold settablePath. rewrite !settable_is_selected. destruct (gs_Type s) as [|n fields] eqn:Ht; [done|].
  destruct (FieldByName (TStruct n fields) name1) as [[p1 f1]|] eqn:H1; [|done]. destruct (FieldByName (TStruct n fields) name2) as [[p2 f2]|] eqn:H2; [|done].
  apply FieldByName_good in H1 as [Hat1 <-], H2 as [Hat2 <-]. destruct (isExported f1 && _); [|done]. destruct (isExported f2 && _); [|done].
  intros [= ->] [= ->]. rewrite Hat1 in Hat2. by injection Hat2 as ->.
Qed.
Lemma settablePath_set v p s name type : settablePath (setValueAt v p s) name type = settablePath s name type.
Proof. done. Qed.

Definition afterHost (host : string) (s : gstruct) : gstruct :=
  if String.eqb host "" then s
  else match settablePath s "Host" "string" with None => s | Some p => if fieldIsZero (VString host) p s then setValueAt (VString host) p s else s end.
Definition afterPort (port : Z) (portStr : string) (s : gstruct) : gstruct :=
  if (port =? 0)%Z then s
  else match settablePath s "Port" "uint16" with
       | Some p => if fieldIsZero (VUint port) p s then setValueAt (VUint port) p s else s
       | None => match settablePath s "Port" "string" with
                 | Some p => if fieldIsZero (VString portStr) p s then setValueAt (VString portStr) p s else s
                 | None => s
                 end
       end.
Lemma afterHost_refines host s : hostPortOf (afterHost host s) = setHost host (hostPortOf s).
Proof.
  unfold afterHost, setHost. destruct (String.eqb host "") eqn:He; [done|]. destruct (settablePath s "Host" "string") as [p|] eqn:Hp; [|unfold hostPortOf; by rewrite Hp].
  unfold fieldIsZero. destruct (String.eqb (default "" (gs_Strings s !! p)) "") eqn:Hz.
  - apply String.eqb_eq in Hz. unfold hostPortOf. rewrite !settablePath_set, Hp. cbn. rewrite lookup_insert_eq, Hz. f_equal.
    destruct (settablePath s "Port" "uint16"); [done|]. destruct (settablePath s "Port" "string") as [q|] eqn:Hq; [|done]. rewrite lookup_insert_ne; [done|].
    intros ->. by pose proof (settablePath_inj _ _ _ _ _ _ Hp Hq).
  - unfold hostPortOf. rewrite Hp. cbn. destruct (default "" (gs_Strings s !! p)); [discriminate|done].
Qed.
Lemma afterPort_refines port portStr s : hostPortOf (afterPort port portStr s) = setPort port portStr (hostPortOf s).
Proof.
  unfold afterPort, setPort. destruct (port =? 0)%Z; [done|]. destruct (settablePath s "Port" "uint16") as [p|] eqn:Hp.
  - unfold fieldIsZero. destruct (default 0 (gs_Uints s !! p) =? 0)%Z eqn:Hz; unfold hostPortOf; rewrite ?settablePath_set, ?Hp; cbn; [by rewrite lookup_insert_eq, Hz | by rewrite Hz].
  - destruct (settablePath s "Port" "string") as [p|] eqn:Hq; [|unfold hostPortOf; by rewrite Hp, Hq].
    unfold fieldIsZero. destruct (String.eqb (default "" (gs_Strings s !! p)) "") eqn:Hz; unfold hostPortOf; rewrite ?settablePath_set, ?Hp, ?Hq; cbn; [|by rewrite Hz].
    rewrite lookup_insert_eq, Hz. f_equal. destruct (settablePath s "Host" "string") as [q|] eqn:Hh; [|done]. cbn. rewrite lookup_insert_ne; [done|].
    intros ->. by pose proof (settablePath_inj _ _ _ _ _ _ Hq Hh).
Qed.
Lemma setHostAndPortOfStruct_eq endpoint s : setHostAndPortOfStruct endpoint s =
  if String.eqb endpoint "" then Ok s
  else let '(host, portStr) := match SplitHostPort endpoint with Some hp => hp | None => (endpoint, "") end in
       match (if String.eqb portStr "" then Some 0%Z else ParseUint16 portStr) with
       | None => Err (Errorf "cannot determine port via Endpoint: %w" [])
       | Some port => Ok (afterPort port portStr (afterHost host s))
       end.
Proof.
  unfold setHostAndPortOfStruct. destruct (String.eqb endpoint ""); [done|]. destruct (match SplitHostPort endpoint with Some hp => hp | None => _ end) as [host portStr].
  destruct (if String.eqb portStr "" then _ else _) as [port|]; [|done].
  assert (Hh : (if String.eqb host "" then Ok s else s' ← setIfField "Host" "string" (VString host) s; Ok (default s s')) = Ok (afterHost host s)).
  { unfold afterHost. destruct (String.eqb host ""); [done|]. rewrite setIfField_path. by destruct (settablePath s "Host" "string"). }
  rewrite Hh. cbn [mbind res_bind]. unfold afterPort. destruct (port =? 0)%Z; [done|]. rewrite !setIfField_path. cbn [mbind res_bind].
  destruct (settablePath (afterHost host s) "Port" "uint16"); [done|]. by destruct (settablePath (afterHost host s) "Port" "string").
Qed.

Lemma endpoint_refines (endpoint : string) (s : gstruct) :
  hostPortOf <$> setHostAndPortOfStruct endpoint s = setHostAndPortViaEndpoint endpoint (hostPortOf s).
Proof.
  rewrite setHostAndPortOfStruct_eq. unfold setHostAndPortViaEndpoint. destruct (String.eqb endpoint ""); [done|].
  destruct (match SplitHostPort endpoint with Some hp => hp | None => _ end) as [host portStr]. destruct (String.eqb portStr "").
  - cbn. unfold afterPort. cbn. by rewrite afterHost_refines.
  - destruct (ParseUint16 portStr) as [port|]; [|done]. cbn. by rewrite afterPort_refines, afterHost_refines.
Qed.
(** *** The selector rule of the language *)

(** The fields of a struct and those promoted from its embedded structs, with their paths. *)
Inductive promoted : gtype → gpath → gfield → Prop :=
| promoted_here n fields i f : fields !! i = Some f → promoted (TStruct n fields) [i] f
| promoted_below n fields i g p f : fields !! i = Some g → isEmbedded g = true → promoted g.2 p f → promoted (TStruct n fields) (i :: p) f.
(** A name selects the field at the shallowest depth, if it is the only one of the name there. *)
Definition selects (t : gtype) (name : string) (p : gpath) (f : gfield) : Prop :=
  promoted t p f ∧ fieldName f = name ∧
  ∀ p' f', promoted t p' f' → fieldName f' = name → p' = p ∨ length p < length p'.

Definition levelAt (name : string) (t : gtype) (d : nat) : list (gpath * gfield) := default [] (levels name t !! d).
Lemma zipLevels_lookup {A} (l1 l2 : list (list A)) d :
  default [] (zipLevels l1 l2 !! d) = default [] (l1 !! d) ++ default [] (l2 !! d).
Proof.
  revert l2 d. induction l1 as [|x l1 IH]; intros l2 d; [unfold zipLevels; cbn; by rewrite drop_nil|].
  destruct l2 as [|y l2]; [unfold zipLevels; cbn; by rewrite app_nil_r, app_nil_r|].
  change (zipLevels (x :: l1) (y :: l2)) with ((x ++ y) :: zipLevels l1 l2). destruct d as [|d]; [done|]. exact (IH l2 d).
Qed.
Lemma foldr_zipLevels_lookup {A} (ls : list (list (list A))) d :
  default [] (foldr zipLevels [] ls !! d) = concat (map (λ l, default [] (l !! d)) ls).
Proof. induction ls as [|l ls IH]; [done|]. cbn [foldr map concat]. by rewrite zipLevels_lookup, IH. Qed.
Lemma levelAt_S name n fields d : levelAt name (TStruct n fields) (S d) =
  concat (map (λ l, default [] (l !! d)) (imap below (map (λ f : gfield, if isEmbedded f then levels name f.2 else []) fields))).
Proof. apply foldr_zipLevels_lookup. Qed.
Lemma levelAt_below name n fields d p f :
  (p, f) ∈ levelAt name (TStruct n fields) (S d) ↔
  ∃ i g q, p = i :: q ∧ fields !! i = Some g ∧ isEmbedded g = true ∧ (q, f) ∈ levelAt name g.2 d.
Proof.
  rewrite levelAt_S, list_elem_of_In, in_concat. setoid_rewrite in_map_iff.
  setoid_rewrite <-list_elem_of_In. split.
  - intros (x & (l & <- & Hl) & Hx). apply list_elem_of_lookup in Hl as [i Hi]. rewrite list_lookup_imap in Hi.
    change (map ?h fields) with (h <$> fields) in Hi. rewrite list_lookup_fmap in Hi. destruct (fields !! i) as [g|] eqn:Hg; [|done]. injection Hi as <-.
    unfold below in Hx. change (map ?h ?l) with (h <$> l) in Hx. rewrite list_lookup_fmap in Hx.
    destruct (isEmbedded g) eqn:He; [|by apply not_elem_of_nil in Hx]. destruct (levels name g.2 !! d) as [lv|] eqn:Hlv; [|by apply not_elem_of_nil in Hx].
    apply list_elem_of_fmap in Hx as ([q f'] & [= -> ->] & Hq). exists i, g, q. unfold levelAt. by rewrite Hlv.
  - intros (i & g & q & -> & Hg & He & Hq). eexists. split; [exists (below i (levels name g.2)); split; [reflexivity|]|].
    + apply list_elem_of_lookup. exists i. rewrite list_lookup_imap. change (map ?h fields) with (h <$> fields). rewrite list_lookup_fmap, Hg. cbn. by rewrite He.
    + unfold below. change (map ?h ?l) with (h <$> l). rewrite list_lookup_fmap. unfold levelAt in Hq. destruct (levels name g.2 !! d) as [lv|]; [|by apply not_elem_of_nil in Hq].
      apply list_elem_of_fmap. by exists (q, f).
Qed.
Lemma levelAt_here name n fields p f :
  (p, f) ∈ levelAt name (TStruct n fields) 0 ↔ ∃ i, p = [i] ∧ fields !! i = Some f ∧ fieldName f = name.
Proof.
  change (levelAt name (TStruct n fields) 0) with (fieldsHere name fields). unfold fieldsHere. rewrite list_elem_of_omap. split.
  - intros ([j g] & Hj & Hg). apply list_elem_of_lookup in Hj as [k Hk]. rewrite list_lookup_imap in Hk. destruct (fields !! k) as [g'|] eqn:Hf; [|done].
    injection Hk as <- <-. cbn in Hg. destruct (String.eqb_spec (fieldName g') name); [|done]. injection Hg as <- <-. by exists k.
  - intros (i & -> & Hf & Hn). exists (i, f). split; [apply list_elem_of_lookup; exists i; rewrite list_lookup_imap, Hf; done|]. cbn. by rewrite (proj2 (String.eqb_eq _ _) Hn).
Qed.
Lemma levelAt_promoted name t d p f : (p, f) ∈ levelAt name t d ↔ promoted t p f ∧ fieldName f = name ∧ length p = S d.
Proof.
  revert d p f. induction t as [n|n fields IH] using gtype_ind'; intros d p f.
  { split; [by intros ?%not_elem_of_nil|]. intros [H _]. inversion H. }
  rewrite Forall_lookup in IH. destruct d as [|d].
  - rewrite levelAt_here. split.
    + intros (i & -> & Hf & Hn). split; [by constructor | done].
    + intros (Hp & Hn & Hl). inversion Hp; subst; [eauto|]. match goal with H : promoted _ ?q _ |- _ => destruct q; [by inversion H | done] end.
  - rewrite levelAt_below. split.
    + intros (i & g & q & -> & Hg & He & Hq). apply (IH i g Hg) in Hq as (Hq & Hn & Hl). split; [by econstructor | split; [done|cbn; lia]].
    + intros (Hp & Hn & Hl). inversion Hp; subst; [done|]. cbn in Hl. do 3 eexists. split_and!; [done..|]. eapply IH; [done|]. split_and!; [done..|lia].
Qed.
Lemma NoDup_concat_imap {A} (h : nat → A → list gpath) (e : nat → nat) (l : list A) :
  (∀ i j, e i = e j → i = j) → (∀ i x, x ∈ l → NoDup (h i x)) → (∀ i x p, p ∈ h i x → head p = Some (e i)) → NoDup (concat (imap h l)).
Proof.
  intros He Hn Hh. revert h e He Hn Hh. induction l as [|x l IH]; intros h e He Hn Hh; [constructor|]. cbn [imap concat]. apply NoDup_app. split_and!; [apply Hn; by left| |].
  - intros p Hp Hin. apply list_elem_of_In, in_concat in Hin as (y & Hy & Hpy). apply list_elem_of_In, list_elem_of_lookup in Hy as [j Hj].
    rewrite list_lookup_imap in Hj. destruct (l !! j) as [z|]; [|done]. injection Hj as <-. apply list_elem_of_In, Hh in Hpy. apply Hh in Hp.
    rewrite Hp in Hpy. injection Hpy as Heq. by apply He in Heq.
  - apply (IH _ (e ∘ S)); [intros i j Hij; apply He in Hij; lia | intros; apply Hn; by right | intros i y p; apply Hh].
Qed.
Lemma levelAt_NoDup name t d : NoDup (map fst (levelAt name t d)).
Proof.
  revert d. induction t as [n|n fields IH] using gtype_ind'; intros d; [constructor|]. destruct d as [|d].
  - change (levelAt name (TStruct n fields) 0) with (fieldsHere name fields). unfold fieldsHere. assert (Hgen : ∀ k, NoDup (map fst (omap (λ jf : nat * gfield, if String.eqb (fieldName jf.2) name then Some ([jf.1], jf.2) else None) (imap (λ i, pair (k + i)) fields))) ∧
      ∀ p, p ∈ map fst (omap (λ jf : nat * gfield, if String.eqb (fieldName jf.2) name then Some ([jf.1], jf.2) else None) (imap (λ i, pair (k + i)) fields)) → ∃ i, p = [i] ∧ k ≤ i).
    { clear IH. induction fields as [|f fields IHf]; intros k; [split; [constructor | by intros p ?%not_elem_of_nil]|]. cbn [imap].
      replace (imap ((λ i, pair (k + i)) ∘ S) fields) with (imap (λ i, pair (S k + i)) fields) by (apply imap_ext; intros; cbn; f_equal; lia).
      destruct (IHf (S k)) as [IH1 IH2]. cbn. destruct (String.eqb (fieldName f) name); cbn; [|split; [done|intros p (i & -> & ?)%IH2; exists i; split; [done|lia]]].
      split; [constructor; [|done]; intros (i & [= Hi] & ?)%IH2; lia|]. intros p [->|(i & -> & ?)%IH2]%elem_of_cons; [exists (k + 0) | exists i]; (split; [done|lia]). }
    exact (proj1 (Hgen 0)).
  - rewrite levelAt_S, concat_map, map_map.
    set (h := λ (i : nat) (f : gfield), map (cons i) (if isEmbedded f then map fst (levelAt name f.2 d) else [])).
    assert (Heq : map (λ l, map fst (default [] (l !! d))) (imap below (map (λ f, if isEmbedded f then levels name f.2 else []) fields)) =
                  imap h fields).
    { apply list_eq. intros i. change (map ?a ?b) with (a <$> b) at 1. rewrite list_lookup_fmap, !list_lookup_imap. change (map ?a fields) with (a <$> fields). rewrite list_lookup_fmap.
      destruct (fields !! i) as [f|]; [|done]. cbn. f_equal. unfold h, below, levelAt. destruct (isEmbedded f); [|done].
      change (map ?a ?b) with (a <$> b) at 2. rewrite list_lookup_fmap. destruct (levels name f.2 !! d); [|done]. cbn. by rewrite !map_map. }
    rewrite Heq. clear Heq.
    assert (Hfun : ∀ i f, f ∈ fields → NoDup (h i f)).
    { intros i f Hf. unfold h. apply list_elem_of_lookup in Hf as [j Hj]. rewrite Forall_lookup in IH. destruct (isEmbedded f); [|constructor].
      apply NoDup_fmap_2; [by intros ?? [= ->]|]. by eapply IH. }
    apply (NoDup_concat_imap _ id); [done|done|]. intros i f p. unfold h. by intros (q & -> & _)%list_elem_of_fmap.
Qed.
Lemma firstLevel_spec {A} (l : list (list A)) x : firstLevel l = Some x ↔ ∃ d, l !! d = Some [x] ∧ ∀ d', d' < d → l !! d' = Some [].
Proof.
  induction l as [|lv l IH]; [split; [done|by intros (d & ? & _)]|]. destruct lv as [|y [|z lv]]; cbn [firstLevel].
  - rewrite IH. split.
    + intros (d & Hd & Hlt). exists (S d). split; [done|]. intros [|d'] Hd'; [done|]. cbn. apply Hlt. lia.
    + intros ([|d] & Hd & Hlt); [done|]. exists d. split; [done|]. intros d' Hd'. apply (Hlt (S d')). lia.
  - split; [intros [= ->]; exists 0; split; [done|lia]|]. intros ([|d] & Hd & Hlt); [cbn in Hd; congruence|]. by specialize (Hlt 0 ltac:(lia)).
  - split; [done|]. intros ([|d] & Hd & Hlt); [done|]. by specialize (Hlt 0 ltac:(lia)).
Qed.
(** [FieldByName] implements the selector rule. *)
Lemma FieldByName_selects t name p f : FieldByName t name = Some (p, f) ↔ selects t name p f.
Proof.
  unfold FieldByName. rewrite firstLevel_spec.
  assert (Hat : ∀ d lv, levels name t !! d = Some lv → levelAt name t d = lv) by (intros d lv Hd; unfold levelAt; by rewrite Hd).
  split.
  - intros (d & Hd & Hlt). pose proof (proj1 (levelAt_promoted name t d p f)) as Hp. rewrite (Hat _ _ Hd) in Hp. specialize (Hp (list_elem_of_here _ _)) as (Hp & Hn & Hl).
    split_and!; [done..|]. intros p' f' Hp' Hn'. destruct (decide (length p < length p')) as [|Hge]; [by right|left].
    assert (Hne : length p' ≠ 0) by (by destruct Hp'). destruct (length p') as [|d'] eqn:Hl'; [done|].
    pose proof (proj2 (levelAt_promoted name t d' p' f') (conj Hp' (conj Hn' Hl'))) as Hin.
    destruct (decide (d' = d)) as [->|]; [rewrite (Hat _ _ Hd) in Hin; by apply list_elem_of_singleton in Hin as [= ->]|].
    rewrite (Hat _ _ (Hlt d' ltac:(lia))) in Hin. by apply not_elem_of_nil in Hin.
  - intros (Hp & Hn & Hmin). assert (Hne : length p ≠ 0) by (by destruct Hp). destruct (length p) as [|d] eqn:Hl; [done|]. exists d.
    pose proof (proj2 (levelAt_promoted name t d p f) (conj Hp (conj Hn Hl))) as Hin. pose proof (levelAt_NoDup name t d) as Hnd.
    destruct (levels name t !! d) as [lv|] eqn:Hd; cycle 1. { unfold levelAt in Hin. rewrite Hd in Hin. by apply not_elem_of_nil in Hin. }
    rewrite (Hat _ _ Hd) in Hin, Hnd. split.
    + assert (Hall : ∀ x, x ∈ lv → x.1 = p).
      { intros [p' f'] Hx. rewrite <-(Hat _ _ Hd) in Hx. apply levelAt_promoted in Hx as (Hp' & Hn' & Hl'). destruct (Hmin p' f' Hp' Hn'); [done|lia]. }
      destruct lv as [|x [|y lv]]; [by apply not_elem_of_nil in Hin | by apply list_elem_of_singleton in Hin as <-|]. exfalso. cbn in Hnd. apply NoDup_cons in Hnd as [Hnd _]. apply Hnd.
      rewrite (Hall x), (Hall y); [by left | by right; left | by left].
    + intros d' Hd'. assert (Hlen : d < length (levels name t)) by (by eapply lookup_lt_Some). destruct (levels name t !! d') as [lv'|] eqn:Hlv'; [|apply lookup_ge_None in Hlv'; lia].
      destruct lv' as [|[p' f'] lv']; [done|]. exfalso. assert (Hin' : (p', f') ∈ levelAt name t d') by (rewrite (Hat _ _ Hlv'); by left).
      apply levelAt_promoted in Hin' as (Hp' & Hn' & Hl'). destruct (Hmin p' f' Hp' Hn') as [->|]; lia.
Qed.

(** The field that a name selects, exported and of a type. *)
Definition settableField (s : gstruct) (name type : string) (p : gpath) : Prop :=
  ∃ f, selects (gs_Type s) name p f ∧ isExported f = true ∧ typeName f.2 = type.
Lemma settablePath_field s name type p : settablePath s name type = Some p ↔ settableField s name type p.
Proof.
  unfold settablePath, settableField. rewrite settable_is_selected. setoid_rewrite <-FieldByName_selects. destruct (gs_Type s) as [n|n fields].
  { split; [done|]. by intros (f & ? & _). }
  destruct (FieldByName (TStruct n fields) name) as [[q g]|]; [|split; [done|by intros (? & ? & _)]].
  destruct (isExported g && String.eqb (typeName g.2) type) eqn:Hg.
  - apply andb_true_iff in Hg as [He Ht%String.eqb_eq]. split; [intros [= ->]; by exists g | by intros (f & [= -> ->] & _)].
  - split; [done|]. intros (f & [= -> ->] & He & Ht). by rewrite He, (proj2 (String.eqb_eq _ _) Ht) in Hg.
Qed.
Lemma settablePort_one_type s p q : settablePath s "Port" "uint16" = Some p → settablePath s "Port" "string" = Some q → False.
Proof.
  unfold settablePath. rewrite !settable_is_selected. destruct (gs_Type s) as [n|n fields]; [done|]. destruct (FieldByName _ "Port") as [[r g]|]; [|done].
  destruct (isExported g); [|done]. cbn. destruct (String.eqb_spec (typeName g.2) "uint16") as [->|]; [done|]. done.
Qed.

Definition stringAt (s : gstruct) (p : gpath) : string := default "" (gs_Strings s !! p).
Definition uintAt (s : gstruct) (p : gpath) : Z := default 0%Z (gs_Uints s !! p).
(** What an endpoint says: a host and a port, empty and 0 for none; [None] if the port is no port. *)
Definition endpointParts (endpoint : string) : option (string * Z * string) :=
  match SplitHostPort endpoint with
  | Some (host, "") => Some (host, 0%Z, "")
  | Some (host, portStr) => (λ port, (host, port, portStr)) <$> ParseUint16 portStr
  | None => Some (endpoint, 0%Z, "")
  end.
Definition orElse (old new : string) : string := if String.eqb old "" then new else old.

Lemma afterHost_spec host s : let s' := afterHost host s in
  gs_Type s' = gs_Type s ∧ gs_Uints s' = gs_Uints s ∧ gs_Outputs s' = gs_Outputs s ∧
  (∀ p, settableField s "Host" "string" p → stringAt s' p = orElse (stringAt s p) host) ∧
  (∀ p, ¬ settableField s "Host" "string" p → gs_Strings s' !! p = gs_Strings s !! p).
Proof.
  cbv zeta. unfold afterHost. assert (Hid : ∀ x, orElse x "" = x) by (intros x; unfold orElse; by destruct x).
  destruct (String.eqb_spec host "") as [->|Hh]; [split_and!; try done; intros; by rewrite Hid|].
  setoid_rewrite <-settablePath_field. destruct (settablePath s "Host" "string") as [q|]; [|by split_and!].
  unfold fieldIsZero, stringAt, orElse. destruct (String.eqb (default "" (gs_Strings s !! q)) "") eqn:Hz; cbn; split_and!; try done.
  - intros p [= <-]. by rewrite lookup_insert_eq, Hz.
  - intros p Hp. rewrite lookup_insert_ne; [done|]. congruence.
  - intros p [= <-]. by rewrite Hz.
Qed.
Lemma afterPort_spec port portStr s : port ≠ 0%Z ∨ portStr = "" → let s' := afterPort port portStr s in
  gs_Type s' = gs_Type s ∧ gs_Outputs s' = gs_Outputs s ∧
  (∀ p, settableField s "Port" "uint16" p → uintAt s' p = if (uintAt s p =? 0)%Z then port else uintAt s p) ∧
  (∀ p, ¬ settableField s "Port" "uint16" p → gs_Uints s' !! p = gs_Uints s !! p) ∧
  (∀ p, settableField s "Port" "string" p → stringAt s' p = orElse (stringAt s p) portStr) ∧
  (∀ p, ¬ settableField s "Port" "string" p → gs_Strings s' !! p = gs_Strings s !! p).
Proof.
  intros Hpp. cbv zeta. unfold afterPort. assert (Hid : ∀ x, orElse x "" = x) by (intros x; unfold orElse; by destruct x).
  destruct (Z.eqb_spec port 0) as [->|Hp0].
  { destruct Hpp as [| ->]; [done|]. split_and!; try done; intros p _; first [by destruct (Z.eqb_spec (uintAt s p) 0) | by rewrite Hid]. }
  setoid_rewrite <-settablePath_field. destruct (settablePath s "Port" "uint16") as [q|] eqn:Hq.
  - assert (Hno : settablePath s "Port" "string" = None) by (destruct (settablePath s "Port" "string") eqn:H; [by destruct (settablePort_one_type _ _ _ Hq H)|done]).
    rewrite Hno. unfold fieldIsZero, uintAt. destruct (default 0 (gs_Uints s !! q) =? 0)%Z eqn:Hz; cbn; split_and!; try done.
    + intros p [= <-]. by rewrite lookup_insert_eq, Hz.
    + intros p Hp. rewrite lookup_insert_ne; [done|congruence].
    + intros p [= <-]. by rewrite Hz.
  - destruct (settablePath s "Port" "string") as [r|]; [|by split_and!].
    unfold fieldIsZero, stringAt, orElse. destruct (String.eqb (default "" (gs_Strings s !! r)) "") eqn:Hz; cbn; split_and!; try done.
    + intros p [= <-]. by rewrite lookup_insert_eq, Hz.
    + intros p Hp. rewrite lookup_insert_ne; [done|congruence].
    + intros p [= <-]. by rewrite Hz.
Qed.

(** C33: On every configuration struct, with whatever embedded structs, a non-empty endpoint whose port cannot be parsed
    is an error, and any other changes exactly the fields that the language's selectors [Host] and [Port] denote: a
    [Host] of type string gets the endpoint's host and a [Port] of type uint16 or string its port, where they are
    zero and the endpoint has them; every other field of the struct keeps its value. *)
Theorem endpoint_set_by_reflection (endpoint : string) (s : gstruct) : endpoint ≠ "" →
  match endpointParts endpoint with
  | None => ∃ e, setHostAndPortOfStruct endpoint s = Err e
  | Some (host, port, portStr) => ∃ s', setHostAndPortOfStruct endpoint s = Ok s' ∧
      gs_Type s' = gs_Type s ∧ gs_Outputs s' = gs_Outputs s ∧
      (∀ p, settableField s "Host" "string" p → stringAt s' p = orElse (stringAt s p) host) ∧
      (∀ p, settableField s "Port" "string" p → stringAt s' p = orElse (stringAt s p) (if (port =? 0)%Z then "" else portStr)) ∧
      (∀ p, settableField s "Port" "uint16" p → uintAt s' p = if (uintAt s p =? 0)%Z then port else uintAt s p) ∧
      (∀ p, ¬ settableField s "Host" "string" p → ¬ settableField s "Port" "string" p → gs_Strings s' !! p = gs_Strings s !! p) ∧
      (∀ p, ¬ settableField s "Port" "uint16" p → gs_Uints s' !! p = gs_Uints s !! p)
  end.
Proof.
  intros He. rewrite setHostAndPortOfStruct_eq, (proj2 (String.eqb_neq _ _) He).
  assert (Hparts : match endpointParts endpoint with
    | None => ∃ host portStr, match SplitHostPort endpoint with Some hp => hp | None => (endpoint, "") end = (host, portStr) ∧
        (if String.eqb portStr "" then Some 0%Z else ParseUint16 portStr) = None
    | Some (host, port, portStr) => match SplitHostPort endpoint with Some hp => hp | None => (endpoint, "") end = (host, portStr) ∧
        (if String.eqb portStr "" then Some 0%Z else ParseUint16 portStr) = Some port
    end).
  { unfold endpointParts. destruct (SplitHostPort endpoint) as [[host [|c portStr]]|]; [done| |done].
    destruct (ParseUint16 (String c portStr)) eqn:Hp; cbn [fmap option_fmap option_map]; [by rewrite Hp|]. do 2 eexists. split; [done|]. exact Hp. }
  destruct (endpointParts endpoint) as [[[host port] portStr]|]; cycle 1.
  { destruct Hparts as (host & portStr & -> & ->). by eexists. }
  destruct Hparts as [-> Hport]. rewrite Hport. eexists. split; [reflexivity|].
  assert (Hs' : afterPort port portStr (afterHost host s) = afterPort port (if (port =? 0)%Z then "" else portStr) (afterHost host s)).
  { unfold afterPort. by destruct (port =? 0)%Z. }
  rewrite Hs'. set (ps := if (port =? 0)%Z then "" else portStr). destruct (afterHost_spec host s) as (T1 & U1 & O1 & H1 & F1).
  assert (Hset : ∀ name type p, settableField (afterHost host s) name type p ↔ settableField s name type p) by (intros; unfold settableField; by rewrite T1).
  destruct (afterPort_spec port ps (afterHost host s)) as (T2 & O2 & P2 & G2 & Q2 & F2).
  { unfold ps. destruct (Z.eqb_spec port 0); [by right | by left]. }
  setoid_rewrite Hset in P2. setoid_rewrite Hset in G2. setoid_rewrite Hset in Q2. setoid_rewrite Hset in F2.
  assert (Hdis : ∀ p, settableField s "Host" "string" p → settableField s "Port" "string" p → False).
  { intros p Hh%settablePath_field Hp%settablePath_field. by pose proof (settablePath_inj _ _ _ _ _ _ Hh Hp). }
  split_and!; [congruence|congruence| | | | |].
  - intros p Hp. unfold stringAt at 1. rewrite F2 by (intros ?; by eapply Hdis). by apply H1.
  - intros p Hp. rewrite Q2 by done. unfold stringAt at 1. rewrite F1; [done|]. intros ?. by eapply Hdis.
  - intros p Hp. rewrite P2 by done. unfold uintAt. by rewrite U1.
  - intros p Hh Hp. by rewrite F2, F1.
  - intros p Hp. by rewrite G2, U1.
Qed.

(** ** The other methods of an output: output.go *)

Section sends.
Context `{FloatText} `{MapRange} {sfxSpan zipkinSpan : Type} (sourceIP : sfxSpan → string) (sfxToZipkin : sfxSpan → option zipkinSpan) (ToTraces : list zipkinSpan → res (list resourceSpans)).
Definition SendEvent (hasConsumer : bool) (e : sfxEvent) : option (list resourceLogs) := if hasConsumer then Some (sfxEventToPDataLogs e) else None.
(** What could be translated is sent also after an error. *)
Definition SendSpans (hasConsumer : bool) (spans : list (option sfxSpan)) : option (list resourceSpans) :=
  if hasConsumer then Some (sfxSpansToPDataTraces sourceIP sfxToZipkin ToTraces spans).1 else None.
(** Each client is given the same update, whatever the others answer. *)
Definition SendDimensionUpdate (clients : list (option ID)) (d : saDimension) : list (option ID * MetadataUpdate) :=
  map (λ c, (c, dimensionToMetadataUpdate d)) clients.
End sends.

(** ** The agent's global configuration: smartagentextension *)

Record collectdConf := { cd_BundleDir : string; cd_ConfigDir : string; cd_IntervalSeconds : Z }.
Record saConf := { sa_BundleDir : string; sa_ProcPath : string; sa_EtcPath : string; sa_VarPath : string; sa_RunPath : string; sa_SysPath : string; sa_Collectd : collectdConf }.
Definition withCollectd (c : collectdConf) (s : saConf) : saConf :=
  {| sa_BundleDir := sa_BundleDir s; sa_ProcPath := sa_ProcPath s; sa_EtcPath := sa_EtcPath s; sa_VarPath := sa_VarPath s; sa_RunPath := sa_RunPath s; sa_SysPath := sa_SysPath s; sa_Collectd := c |}.
Definition withBundle (b : string) (s : saConf) : saConf :=
  {| sa_BundleDir := b; sa_ProcPath := sa_ProcPath s; sa_EtcPath := sa_EtcPath s; sa_VarPath := sa_VarPath s; sa_RunPath := sa_RunPath s; sa_SysPath := sa_SysPath s; sa_Collectd := sa_Collectd s |}.
Definition collectdBundle (b : string) (c : collectdConf) : collectdConf := {| cd_BundleDir := b; cd_ConfigDir := cd_ConfigDir c; cd_IntervalSeconds := cd_IntervalSeconds c |}.
Definition collectdDir (d : string) (c : collectdConf) : collectdConf := {| cd_BundleDir := cd_BundleDir c; cd_ConfigDir := d; cd_IntervalSeconds := cd_IntervalSeconds c |}.
Definition collectdInterval (n : Z) (c : collectdConf) : collectdConf := {| cd_BundleDir := cd_BundleDir c; cd_ConfigDir := cd_ConfigDir c; cd_IntervalSeconds := n |}.

Section extension.
(** [decode] is the YAML round trip into the struct with its defaults; [pathJoin] is [filepath.Join]. *)
Context (decode : gmap string any → res saConf) (pathJoin : list string → string).
Definition smartAgentConfigFromSettingsMap (settings : gmap string any) : res saConf :=
  let collectd := match settings !! "collectd" with Some (AMap m) => m | _ => ∅ end in
  config ← decode (<["collectd" := AMap collectd]> settings);
  let c := sa_Collectd config in
  let c := if (cd_IntervalSeconds c =? 0)%Z then collectdInterval 10 c else c in
  Ok (withCollectd (collectdBundle (sa_BundleDir config) c) config).
Definition configDirSet (settings : gmap string any) : bool :=
  match settings !! "collectd" with Some (AMap m) => bool_decide (is_Some (m !! "configDir")) | _ => false end.
(** [Unmarshal] onto the configuration [cfg] that has the defaults. *)
Definition extension_Unmarshal (cfg : saConf) (settings : gmap string any) : res saConf :=
  config ← smartAgentConfigFromSettingsMap settings;
  let bundle := if String.eqb (sa_BundleDir config) "" then sa_BundleDir cfg else sa_BundleDir config in
  let c := collectdBundle bundle (sa_Collectd config) in
  let c := if configDirSet settings then c else collectdDir (pathJoin [bundle; "run"; "collectd"]) c in
  Ok (withCollectd c (withBundle bundle config)).
Definition defaultBundleDir (getenv : string → string) (windows : bool) (colocated : option string) : string :=
  let dir := getenv "SIGNALFX_BUNDLE_DIR" in
  if negb (String.eqb dir "") then dir
  else if windows then
    let pf := if String.eqb (getenv "programfiles") "" then "C:\Program Files" else getenv "programfiles" in
    default (pathJoin [pf; "Splunk"; "OpenTelemetry Collector"; "agent-bundle"]) colocated
  else "/usr/lib/splunk-otel-collector/agent-bundle".
Definition emptySaConf : saConf :=
  {| sa_BundleDir := ""; sa_ProcPath := ""; sa_EtcPath := ""; sa_VarPath := ""; sa_RunPath := ""; sa_SysPath := "";
     sa_Collectd := {| cd_BundleDir := ""; cd_ConfigDir := ""; cd_IntervalSeconds := 0 |} |}.
Definition extension_createDefaultConfig (bundleDir : string) : saConf :=
  let cfg := match smartAgentConfigFromSettingsMap ∅ with Ok c => c | Err _ => emptySaConf end in
  withCollectd (collectdDir (pathJoin [bundleDir; "run"; "collectd"]) (collectdBundle bundleDir (sa_Collectd cfg))) (withBundle bundleDir cfg).

(** Collectd is always given the bundle that the agent uses, which is the default one when none is configured, and an
    interval; its directory is the bundle's unless one is configured. *)
Lemma extension_Unmarshal_correct bundleDir settings c : extension_Unmarshal (extension_createDefaultConfig bundleDir) settings = Ok c →
  ∃ decoded, decode (<["collectd" := match settings !! "collectd" with Some (AMap m) => AMap m | _ => AMap ∅ end]> settings) = Ok decoded ∧
    sa_BundleDir c = (if String.eqb (sa_BundleDir decoded) "" then bundleDir else sa_BundleDir decoded) ∧ cd_BundleDir (sa_Collectd c) = sa_BundleDir c ∧
    cd_ConfigDir (sa_Collectd c) = (if configDirSet settings then cd_ConfigDir (sa_Collectd decoded) else pathJoin [sa_BundleDir c; "run"; "collectd"]) ∧
    cd_IntervalSeconds (sa_Collectd c) ≠ 0%Z.
Proof.
  unfold extension_Unmarshal, smartAgentConfigFromSettingsMap.
  replace (match settings !! "collectd" with Some (AMap m) => AMap m | _ => AMap ∅ end) with (AMap (match settings !! "collectd" with Some (AMap m) => m | _ => ∅ end)) by (destruct (settings !! "collectd") as [[]|]; done).
  destruct (decode _) as [decoded|e]; [|done]. cbn [mbind res_bind]. intros [= <-]. exists decoded.
  destruct (cd_IntervalSeconds (sa_Collectd decoded) =? 0)%Z eqn:Hi, (configDirSet settings); cbn; split_and!; try done; by apply Z.eqb_neq.
Qed.
End extension.

(** ** Creating a monitor: receiver.go *)

Definition systemTypeKey : string := "system.type".
(** What the receivers of the process share: the agent's configuration and what is done once. *)
Record saGlobals := { gl_saConfig : option saConf; gl_environmentDone : bool; gl_collectdDone : bool; gl_env : gmap string string; gl_hostfs : gmap string string }.

Section monitors.
Context `{PatternEngine} `{FloatText} `{MapRange} `{IDRange} (windows : bool) (pathJoin : list string → string) (defaultConfig : saConf).

(** The extensions of the host; one that does not provide a configuration is [None]. *)
Fixpoint chooseProvider (found : bool) (chosen : saConf) (l : list (ID * option saConf)) : saConf :=
  match l with
  | [] => chosen
  | (id, ext) :: l =>
      if negb (String.eqb (ID_Type id) "smartagent") || found then chooseProvider found chosen l
      else match ext with Some c => chooseProvider true c l | None => chooseProvider false chosen l end
  end.
Definition setUpSmartAgentConfigProvider (extensions : gmap ID (option saConf)) : saConf := chooseProvider false defaultConfig (rangeID extensions).
Definition setUpEnvironment (c : saConf) (g : saGlobals) : saGlobals :=
  {| gl_saConfig := Some c; gl_environmentDone := true; gl_collectdDone := gl_collectdDone g;
     gl_env := if windows then gl_env g else match gl_env g !! "JAVA_HOME" with Some _ => gl_env g | None => <["JAVA_HOME" := pathJoin [sa_BundleDir c; "jre"]]> (gl_env g) end;
     gl_hostfs := {["HOST_PROC" := sa_ProcPath c; "HOST_ETC" := sa_EtcPath c; "HOST_VAR" := sa_VarPath c; "HOST_RUN" := sa_RunPath c; "HOST_SYS" := sa_SysPath c]} |}.
Definition setCollectdDone (g : saGlobals) : saGlobals :=
  {| gl_saConfig := gl_saConfig g; gl_environmentDone := gl_environmentDone g; gl_collectdDone := true; gl_env := gl_env g; gl_hostfs := gl_hostfs g |}.

(** A monitor with the output it was given. *)
Record createdMonitor := { cm_Struct : gstruct; cm_Outputs : outputs }.
Definition outputTypes : list string := ["types.Output"; "types.FilteringOutput"].
Definition addExtras (extra : gmap string string) (monitorType : string) (os : outputs) : outputs :=
  AddExtraDimension (foldl (λ os kv, AddExtraDimension os 0 kv.1 kv.2) os (range extra)) 0 systemTypeKey (stripMonitorTypePrefix monitorType).
(** [outputErr] is the error of [newOutput], [collectdErr] that of configuring collectd, which the first receiver that needs
    it does: the others get none. *)
Definition createMonitor (factories : gmap string gstruct) (metadatas : gmap string (option Metadata)) (monitorType : string) (conf : monitorConfig)
    (extra : gmap string string) (collectdBased : bool) (outputErr collectdErr : option error) (extensions : gmap ID (option saConf)) (g : saGlobals)
    : option createdMonitor * option error * saGlobals :=
  match factories !! monitorType with
  | None => (None, Some (Errorf "unable to find MonitorFactory for %q" [monitorType]), g)
  | Some monitor =>
      match metadatas !! monitorType with
      | None | Some None => (None, Some (Errorf "could not find monitor metadata of type %s" [monitorType]), g)
      | Some (Some md) =>
          match newMonitorFiltering conf (Some md), outputErr with
          | Err e, _ => (None, Some e, g)
          | _, Some e => (None, Some e, g)
          | Ok mf, None =>
              match setStructFieldWithExplicitType monitor "Output" (VOutput 0) outputTypes with
              | Err e => (None, Some (Wrapf "%s: %w" ["unable to set output field of monitor"] e), g)
              | Ok s =>
                  let m := {| cm_Struct := s; cm_Outputs := addExtras extra monitorType (newOutput mf) |} in
                  let g := if gl_environmentDone g then g else setUpEnvironment (setUpSmartAgentConfigProvider extensions) g in
                  if collectdBased && negb (gl_collectdDone g) then (Some m, collectdErr, setCollectdDone g) else (Some m, None, g)
              end
          end
      end
  end.

(** The configuration comes from an extension of the type if one provides it. *)
Lemma chooseProvider_from l : ∀ found chosen, chooseProvider found chosen l = chosen ∨ ∃ id, (id, Some (chooseProvider found chosen l)) ∈ l ∧ ID_Type id = "smartagent".
Proof.
  induction l as [|[id ext] l IH]; intros found chosen; [by left|]. cbn [chooseProvider].
  assert (Hlift : ∀ f c, (∃ i, (i, Some (chooseProvider f c l)) ∈ l ∧ ID_Type i = "smartagent") → ∃ i, (i, Some (chooseProvider f c l)) ∈ (id, ext) :: l ∧ ID_Type i = "smartagent").
  { intros f c (i & Hi & Ht). exists i. split; [by right|done]. }
  destruct (negb (String.eqb (ID_Type id) "smartagent") || found) eqn:Hskip; [destruct (IH found chosen); auto|].
  destruct ext as [c|]; [|destruct (IH false chosen); auto]. destruct (IH true c) as [->|]; [|auto]. right. exists id. split; [by left|].
  apply orb_false_iff in Hskip as [Ht _]. apply negb_false_iff, String.eqb_eq in Ht. done.
Qed.
Lemma addExtras_dims extra monitorType mf :
  out_extra (addExtras extra monitorType (newOutput mf)) = [<[systemTypeKey := stripMonitorTypePrefix monitorType]> extra].
Proof.
  unfold addExtras. assert (Hf : ∀ (l : list (string * string)) m, foldl (λ os kv, AddExtraDimension os 0 kv.1 kv.2) {| out_filtering := mf; out_extra := [m] |} l =
    {| out_filtering := mf; out_extra := [foldl (λ m kv, <[kv.1 := kv.2]> m) m l] |}).
  { induction l as [|kv l IH]; intros m; [done|]. cbn [foldl]. rewrite <- IH. done. }
  unfold newOutput. rewrite Hf. cbn. f_equal. f_equal.
  assert (Hi : ∀ (l : list (string * string)) (m : gmap string string), NoDup l.*1 → foldl (λ m kv, <[kv.1 := kv.2]> m) m l = list_to_map l ∪ m).
  { induction l as [|kv l IH]; intros m Hnd; [symmetry; apply (left_id_L (∅ : gmap string string) (∪))|]. apply NoDup_cons in Hnd as [Hk Hnd]. cbn [foldl]. rewrite (IH _ Hnd). destruct kv as [k v]. cbn.
    rewrite <- insert_union_l. rewrite insert_union_r; [done|]. by apply not_elem_of_list_to_map_1. }
  rewrite Hi by apply NoDup_range. rewrite (right_id_L ∅ (∪)), (list_to_map_proper _ (map_to_list extra)), list_to_map_to_list; [done | apply NoDup_range | apply range_perm].
Qed.
Lemma addExtras_filtering extra monitorType mf : out_filtering (addExtras extra monitorType (newOutput mf)) = mf.
Proof.
  unfold addExtras. cbn. assert (Hf : ∀ (l : list (string * string)) os, out_filtering (foldl (λ os kv, AddExtraDimension os 0 kv.1 kv.2) os l) = out_filtering os).
  { induction l as [|kv l IH]; intros os; [done|]. cbn [foldl]. by rewrite IH. }
  by rewrite Hf.
Qed.
Lemma setExplicit_path monitor name v types s : setStructFieldWithExplicitType monitor name v types = Ok s → ∃ p, s = setValueAt v p monitor.
Proof.
  induction types as [|type types IH]; [done|]. cbn. unfold setStructField. destruct (getSettableStructFieldValue (gs_Type monitor) true name type) as [[p|]|]; cbn.
  - intros [= <-]. by exists p.
  - by destruct types.
  - by destruct types.
Qed.
(** A monitor that is created has its output set and its metrics filtered by its configuration, and everything it sends carries
    the configured dimensions and the type of the system, which wins over a configured dimension of that name. *)
Lemma createMonitor_correct factories metadatas monitorType conf extra cb oe ce exts g m err g' :
  createMonitor factories metadatas monitorType conf extra cb oe ce exts g = (Some m, err, g') →
  ∃ monitor md mf p, factories !! monitorType = Some monitor ∧ metadatas !! monitorType = Some (Some md) ∧ newMonitorFiltering conf (Some md) = Ok mf ∧
    cm_Struct m = setValueAt (VOutput 0) p monitor ∧ out_filtering (cm_Outputs m) = mf ∧
    out_extra (cm_Outputs m) = [<[systemTypeKey := stripMonitorTypePrefix monitorType]> extra] ∧ gl_environmentDone g' = true.
Proof.
  unfold createMonitor. destruct (factories !! monitorType) as [monitor|]; [|done]. destruct (metadatas !! monitorType) as [[md|]|]; [|done..].
  destruct (newMonitorFiltering conf (Some md)) as [mf|] eqn:Hmf; [|done]. destruct oe; [done|].
  destruct (setStructFieldWithExplicitType monitor "Output" (VOutput 0) outputTypes) as [s|] eqn:Hs; [|done]. apply setExplicit_path in Hs as [p ->].
  set (g0 := if gl_environmentDone g then g else _). assert (Hg0 : gl_environmentDone g0 = true) by (unfold g0; by destruct (gl_environmentDone g) eqn:He).
  intros Hc. exists monitor, md, mf, p. destruct (cb && negb (gl_collectdDone g0)); injection Hc as <- _ <-; cbn [cm_Struct cm_Outputs]; (split_and!; [done..| |apply addExtras_dims|done]); apply addExtras_filtering.
Qed.
(** An error of configuring collectd is reported to the first receiver only: the next one starts without it. *)
Lemma collectd_error_once factories metadatas monitorType conf extra ce exts g m g' : gl_collectdDone g = false →
  createMonitor factories metadatas monitorType conf extra true None (Some ce) exts g = (Some m, Some ce, g') →
  ∃ m', createMonitor factories metadatas monitorType conf extra true None (Some ce) exts g' = (Some m', None, g').
Proof.
  intros Hd. unfold createMonitor. destruct (factories !! monitorType) as [monitor|]; [|done]. destruct (metadatas !! monitorType) as [[md|]|]; [|done..].
  destruct (newMonitorFiltering conf (Some md)) as [mf|]; [|done]. destruct (setStructFieldWithExplicitType monitor "Output" (VOutput 0) outputTypes) as [s|]; [|done].
  set (g0 := if gl_environmentDone g then g else _). assert (Hg0 : gl_environmentDone g0 = true ∧ gl_collectdDone g0 = false) by (unfold g0; by destruct (gl_environmentDone g) eqn:He).
  destruct Hg0 as [He Hc]. rewrite Hc. cbn. intros [= <- <-]. eexists. cbn. by rewrite He.
Qed.
End monitors.

(** ** Unmarshalling a receiver's configuration: config.go *)

Definition nonWindowsMonitors : list string :=
  ["collectd/activemq"; "collectd/apache"; "collectd/cassandra"; "collectd/chrony"; "collectd/cpu"; "collectd/cpufreq"; "collectd/custom"; "collectd/genericjmx";
   "collectd/hadoopjmx"; "collectd/kafka"; "collectd/kafka_consumer"; "collectd/kafka_producer"; "collectd/memcached"; "collectd/memory"; "collectd/mysql";
   "collectd/nginx"; "collectd/php-fpm"; "collectd/processes"; "collectd/protocols"; "collectd/signalfx-metadata"; "collectd/statsd"; "collectd/uptime"].
Record saReceiverConfig := { rc_monitorConfig : option gstruct; rc_Endpoint : string; rc_DimensionClients : option (list string); rc_acceptsEndpoints : bool }.

Section unmarshal.
(** The registered templates: the type of a monitor's configuration and the tag of its embedded [MonitorConfig], if it has
    that field.  [marshal] and [unmarshalStrict] are the YAML library's, [setDefaults] the defaults library's, [Sprintf_s] is
    [fmt.Sprintf] with [%s]. *)
Context (templates : gmap string (gtype * option string)) (windows : bool) (Sprintf_s : any → string)
  (marshal : gmap string any → res string) (unmarshalStrict : string → gtype → res gstruct) (setDefaults : gstruct → res gstruct).

Definition monitorAcceptsEndpoints (tag : option string) : res bool :=
  match tag with
  | None => Err (Errorf "could not reflect monitor config, top level MonitorConfig does not exist" [])
  | Some t => Ok (String.eqb t "true")
  end.
(** The monitor's own configuration, from the settings that are left for it. *)
Definition monitorConfigOf (settings : gmap string any) (endpoint : string) (template : gtype * option string) : res (gstruct * bool) :=
  bytes ← match marshal settings with Ok b => Ok b | Err e => Err (Wrapf "failed constructing raw Smart Agent Monitor config block: %w" [] e) end;
  c ← match unmarshalStrict bytes template.1 with Ok c => Ok c | Err e => Err (Wrapf "failed creating Smart Agent Monitor custom config: %w" [] e) end;
  c ← match setDefaults c with Ok c => Ok c | Err e => Err (Wrapf "failed setting Smart Agent Monitor config defaults: %w" [] e) end;
  accepts ← monitorAcceptsEndpoints template.2;
  c ← (if accepts : bool then setHostAndPortOfStruct endpoint c else Ok c);
  Ok (c, accepts).
Definition receiver_Unmarshal (allSettings : gmap string any) : res saReceiverConfig :=
  match allSettings !! "type" with
  | Some (AString (String c t)) =>
      let monitorType := String c t in
      let endpoint := match allSettings !! "endpoint" with Some e => Sprintf_s e | None => "" end in
      '(clients, settings) ← getStringSliceFromAllSettings (delete "endpoint" allSettings) "dimensionClients";
      match templates !! monitorType with
      | None =>
          if windows && existsb (String.eqb monitorType) nonWindowsMonitors
          then Err (Errorf "smart agent monitor type %q is not supported on windows platforms" [monitorType])
          else Err (Errorf "no known monitor type %q" [monitorType])
      | Some template =>
          '(c, accepts) ← monitorConfigOf settings endpoint template;
          Ok {| rc_monitorConfig := Some c; rc_Endpoint := endpoint; rc_DimensionClients := clients; rc_acceptsEndpoints := accepts |}
      end
  | _ => Err (Errorf "you must specify a %q for a smartagent receiver" ["type"])
  end.
(** [validate]: the interval is set in the configuration; [validateStruct] and [validateCustom] are the agent's. *)
Definition receiver_validate (validateStruct validateCustom : option error) (intervalSeconds : option Z) : res Z :=
  match intervalSeconds with
  | None => Err (Errorf "you must supply a valid Smart Agent Monitor config" [])
  | Some n => n ← validateInterval n; match validateStruct with Some e => Err e | None => match validateCustom with Some e => Err e | None => Ok n end end
  end.

(** A configuration that is accepted names a registered monitor; neither the endpoint nor the clients of dimensions reach the
    monitor's own configuration, whose host and port are those of the endpoint where they were left open. *)
Lemma receiver_Unmarshal_correct allSettings cfg : receiver_Unmarshal allSettings = Ok cfg →
  ∃ monitorType template settings bytes decoded c, allSettings !! "type" = Some (AString monitorType) ∧ templates !! monitorType = Some template ∧
    settings !! "endpoint" = None ∧ settings !! "dimensionClients" = None ∧ (∀ k, k ≠ "endpoint" → k ≠ "dimensionClients" → settings !! k = allSettings !! k) ∧
    marshal settings = Ok bytes ∧ unmarshalStrict bytes template.1 = Ok decoded ∧ setDefaults decoded = Ok c ∧
    ∃ c', rc_monitorConfig cfg = Some c' ∧ rc_acceptsEndpoints cfg = bool_decide (template.2 = Some "true") ∧
      if rc_acceptsEndpoints cfg then setHostAndPortViaEndpoint (rc_Endpoint cfg) (hostPortOf c) = Ok (hostPortOf c') else c' = c.
Proof.
  unfold receiver_Unmarshal. destruct (allSettings !! "type") as [[| | | |[|a t]| | | | | |]|] eqn:Ht; try done.
  set (endpoint := match allSettings !! "endpoint" with Some e => Sprintf_s e | None => "" end).
  destruct (getStringSliceFromAllSettings (delete "endpoint" allSettings) "dimensionClients") as [[clients settings]|] eqn:Hs; [|done]. cbn [mbind res_bind].
  assert (Hset : settings = delete "dimensionClients" (delete "endpoint" allSettings)).
  { unfold getStringSliceFromAllSettings in Hs. destruct (delete "endpoint" allSettings !! "dimensionClients") as [[]|] eqn:Hd; try done; [destruct (mapM as_string l); [|done]; by injection Hs as _ <-|].
    injection Hs as _ <-. symmetry. by apply delete_id. }
  destruct (templates !! String a t) as [template|] eqn:Htm; [|destruct (windows && _); discriminate].
  unfold monitorConfigOf. destruct (marshal settings) as [bytes|] eqn:Hm; [|done]. cbn [mbind res_bind]. destruct (unmarshalStrict bytes template.1) as [decoded|] eqn:Hu; [|done].
  cbn [mbind res_bind]. destruct (setDefaults decoded) as [c|] eqn:Hd; [|done]. cbn [mbind res_bind]. destruct template.2 as [tag|] eqn:Htag; [|done]. cbn [monitorAcceptsEndpoints mbind res_bind].
  assert (He1 : settings !! "endpoint" = None) by (rewrite Hset, lookup_delete_ne by done; apply lookup_delete_eq).
  assert (He2 : settings !! "dimensionClients" = None) by (rewrite Hset; apply lookup_delete_eq).
  assert (He3 : ∀ k, k ≠ "endpoint" → k ≠ "dimensionClients" → settings !! k = allSettings !! k) by (intros k Hk1 Hk2; rewrite Hset; by rewrite !lookup_delete_ne).
  intros Hok. exists (String a t), template, settings, bytes, decoded, c. split_and!; [done..|].
  destruct (String.eqb_spec tag "true") as [->|Hne].
  - pose proof (endpoint_refines endpoint c) as Hr. destruct (setHostAndPortOfStruct endpoint c) as [c'|]; [|done]. cbn in Hok. injection Hok as <-. exists c'. cbn. split_and!; [done | symmetry; by apply bool_decide_eq_true | exact (eq_sym Hr)].
  - cbn in Hok. injection Hok as <-. exists c. cbn. split_and!; [done | | done]. symmetry. apply bool_decide_eq_false. congruence.
Qed.
End unmarshal.

(** ** Witnesses and executions *)

Definition stringField (name : string) : gfield := (name, true, false, TLeaf "string").
(** A configuration whose host is in an embedded struct. *)
Definition demo_confType : gtype := TStruct "Config" [("MonitorConfig", true, true, TStruct "MonitorConfig" [stringField "Type"]); ("HTTPConfig", true, true, TStruct "HTTPConfig" [stringField "Host"; ("Port", true, false, TLeaf "uint16")])].
Definition emptyStruct (t : gtype) : gstruct := {| gs_Type := t; gs_Strings := ∅; gs_Uints := ∅; gs_Outputs := ∅ |}.
Lemma demo_endpoint : (λ s, (hp_Host (hostPortOf s), hp_Port (hostPortOf s))) <$> setHostAndPortOfStruct "db:5432" (emptyStruct demo_confType) = Ok (Some "db", PortUint 5432).
Proof. vm_compute. reflexivity. Qed.
(** A port of another type at the top hides the embedded one, although the search looks into the embedded structs. *)
Lemma hidden_field_not_found :
  getSettableStructFieldValue (TStruct "Config" [("Port", true, false, TLeaf "int"); ("HTTPConfig", true, true, TStruct "HTTPConfig" [("Port", true, false, TLeaf "uint16")])]) true "Port" "uint16" = Ok None.
Proof. vm_compute. reflexivity. Qed.

Definition demo_zap (name : string) (least : zapcoreLevel) : zapLogger :=
  {| zl_Name := name; zl_Enabled := λ l, match least, l with ZDebug, _ => true | _, (ZDebug | ZInfo) => false | _, _ => true end |}.
Definition demo_std : logrusLogger := {| lg_Level := LInfo; lg_ReportCaller := false; lg_Hooks := λ _, [] |}.
Definition outputName (o : logOutput) : string := match o with ToZap e => ze_Logger e | ToStandard _ _ => "standard" end.
Definition demo_entry (lv : logrusLevel) : logEntry := {| le_Logger := StandardLogger; le_Level := lv; le_Message := "m"; le_Data := {["monitorType" := AString "cpu"; "monitorID" := AString "smartagentcpu"]} |}.
Definition no_floats : FloatText := λ _, "".
Definition takes (z : zapLogger) (lv : zapcoreLevel) : bool := zl_Enabled z lv.
(** Two receivers: the second one's logger takes only warnings, so that the first one's debug messages are lost. *)
Lemma later_receiver_silences :
  let cpu := ("cpu", "smartagentcpu", demo_zap "cpu" ZDebug) in let mem := ("memory", "smartagentmemory", demo_zap "memory" ZWarn) in
  let st := {| ls_Logger := demo_std; ls_loggerMap := ∅ |} in
  map outputName (@logged no_floats takes (demo_zap "default" ZDebug) (foldl redirect st [cpu]) (demo_entry LDebug)) = ["cpu"] ∧
  @logged no_floats takes (demo_zap "default" ZDebug) (foldl redirect st [cpu; mem]) (demo_entry LDebug) = [].
Proof. vm_compute. done. Qed.
Lemma messages_routed_witness :
  map outputName (@logged no_floats takes (demo_zap "default" ZDebug) (foldl redirect {| ls_Logger := demo_std; ls_loggerMap := ∅ |} [("cpu", "smartagentcpu", demo_zap "cpu" ZDebug)]) (demo_entry LWarn)) = ["cpu"].
Proof.
  rewrite (@messages_routed no_floats takes (demo_zap "default" ZDebug) demo_std ("cpu", "smartagentcpu", demo_zap "cpu" ZDebug) [] (demo_entry LWarn) (λ _, eq_refl) eq_refl).
  vm_compute. reflexivity.
Defined.
Lemma pipelines_share_receiver_witness :
  ∃ r, st_Receivers (foldl (created (λ _, None)) noReceivers [(MetricsPipeline, 7, 1); (LogsPipeline, 7, 2)]%nat) !! r = Some (7%nat, {| nc_Metrics := Some 1%nat; nc_Logs := Some 2%nat; nc_Traces := None |}).
Proof.
  destruct (proj1 (pipelines_share_receiver (λ _, None) [(MetricsPipeline, 7, 1); (LogsPipeline, 7, 2)]%nat) 7%nat) as (r & Hr & _).
  - exists MetricsPipeline, 1%nat. split; [left | reflexivity].
  - exists r. exact Hr.
Defined.

(** The promoted host and port of an embedded struct are set, the monitor's type is kept. *)
Lemma endpoint_set_by_reflection_witness :
  ∃ s', setHostAndPortOfStruct "db:5432" (emptyStruct demo_confType) = Ok s' ∧
    stringAt s' [1; 0]%nat = "db" ∧ uintAt s' [1; 1]%nat = 5432%Z ∧ gs_Strings s' !! [0; 0]%nat = None.
Proof.
  destruct (endpoint_set_by_reflection "db:5432" (emptyStruct demo_confType) ltac:(discriminate)) as (s' & Hs & _ & _ & Hh & _ & Hp & Hf & _).
  exists s'. split; [exact Hs|]. split_and!.
  - apply Hh, settablePath_field. reflexivity.
  - apply Hp, settablePath_field. reflexivity.
  - apply Hf; intros H%settablePath_field; vm_compute in H; discriminate.
Defined.
