(* ===== verification/DiscoveryBundle.v ===== *)
(** * The discovery bundle and the distribution's components

    [src/internal/confmapprovider/discovery/bundle]: the components of the bundle
    ([components.go]), the functions of its templates ([templatefunctions.go]), the generator
    ([cmd/discoverybundler/main.go]) and what it generated ([bundledfs_others.go],
    [bundledfs_windows.go], [bundle_gen.go]); [src/internal/components/components.go], the
    factories of the distribution; and the wiring of [src/cmd/otelcol/main.go].

    Parsing a template is the library's: a template is the list of its texts and function calls.
    The types of third-party factories, quoting and the parsing of identifiers are parameters. *)

From S2P Require Import Prelude GoStrings GoValue Confmap ConfigProvider DiscoveryReceiver StatusSources DiscoveryProperties.
From Stdlib Require Import Ascii.

(** ** components.go of the bundle *)

Definition bundle_extensions : list string := ["docker-observer"; "host-observer"; "k8s-observer"].
Definition bundle_receivers : list string :=
  ["mysql"; "oracledb"; "postgresql"; "redis"; "smartagent-collectd-mysql"; "smartagent-collectd-nginx"; "smartagent-postgresql"].
Record DiscoComponents := { Linux : gset string; Windows : gset string; dcExtensions : list string; dcReceivers : list string }.
Definition bundle_Components : DiscoComponents :=
  {| dcExtensions := merge_sort String.le bundle_extensions; dcReceivers := merge_sort String.le bundle_receivers;
     Linux := list_to_set (bundle_extensions ++ bundle_receivers);
     Windows := list_to_set (["mysql"; "oracledb"; "postgresql"; "redis"; "smartagent-postgresql"] ++ bundle_extensions) |}.

(** ** The generator: bundledfs.tmpl, bundle_gen.tmpl and genBundledFS *)

Definition embedLine (dir name : string) : string := "bundle.d/" +:+ dir +:+ "/" +:+ name +:+ ".discovery.yaml".
(** The files that the template embeds, with its [included]. *)
Definition embedded (c : DiscoComponents) (included : gset string) : list string :=
  map (embedLine "extensions") (List.filter (λ n, bool_decide (n ∈ included)) (dcExtensions c)) ++
  map (embedLine "receivers") (List.filter (λ n, bool_decide (n ∈ included)) (dcReceivers c)).
Definition genBundledFS (c : DiscoComponents) : list (string * list string) := [("windows", embedded c (Windows c)); ("!windows", embedded c (Linux c))].
(** The commands that bundle_gen.go runs: rendering into the bundle, and commented out for Linux. *)
Inductive bundlerCall := Render (template : string) | RenderCommented (dir template : string).
Definition generateFor (c : DiscoComponents) (dir name : string) : list bundlerCall :=
  Render (embedLine dir name +:+ ".tmpl") ::
  if bool_decide (name ∈ Linux c) then [RenderCommented ("../../../../cmd/otelcol/config/collector/config.d.linux/" +:+ dir) (embedLine dir name +:+ ".tmpl")] else [].
Definition bootstrap (c : DiscoComponents) : list bundlerCall :=
  flat_map (generateFor c "extensions") (dcExtensions c) ++ flat_map (generateFor c "receivers") (dcReceivers c).

(** What the generated files hold. *)
Definition BundledFS_others : list string :=
  ["bundle.d/extensions/docker-observer.discovery.yaml"; "bundle.d/extensions/host-observer.discovery.yaml"; "bundle.d/extensions/k8s-observer.discovery.yaml";
   "bundle.d/receivers/mysql.discovery.yaml"; "bundle.d/receivers/oracledb.discovery.yaml"; "bundle.d/receivers/postgresql.discovery.yaml"; "bundle.d/receivers/redis.discovery.yaml";
   "bundle.d/receivers/smartagent-collectd-mysql.discovery.yaml"; "bundle.d/receivers/smartagent-collectd-nginx.discovery.yaml"; "bundle.d/receivers/smartagent-postgresql.discovery.yaml"].
Definition BundledFS_windows : list string :=
  ["bundle.d/extensions/docker-observer.discovery.yaml"; "bundle.d/extensions/host-observer.discovery.yaml"; "bundle.d/extensions/k8s-observer.discovery.yaml";
   "bundle.d/receivers/mysql.discovery.yaml"; "bundle.d/receivers/oracledb.discovery.yaml"; "bundle.d/receivers/postgresql.discovery.yaml"; "bundle.d/receivers/redis.discovery.yaml";
   "bundle.d/receivers/smartagent-postgresql.discovery.yaml"].
Definition bundle_gen : list bundlerCall :=
  let both dir name :=
    [Render ("bundle.d/" +:+ dir +:+ "/" +:+ name +:+ ".discovery.yaml.tmpl");
     RenderCommented ("../../../../cmd/otelcol/config/collector/config.d.linux/" +:+ dir) ("bundle.d/" +:+ dir +:+ "/" +:+ name +:+ ".discovery.yaml.tmpl")] in
  both "extensions" "docker-observer" ++ both "extensions" "host-observer" ++ both "extensions" "k8s-observer" ++
  both "receivers" "mysql" ++ both "receivers" "oracledb" ++ both "receivers" "postgresql" ++ both "receivers" "redis" ++
  both "receivers" "smartagent-collectd-mysql" ++ both "receivers" "smartagent-collectd-nginx" ++ both "receivers" "smartagent-postgresql".

(** The generated files are those that the generator gives for the current components. *)
Lemma generated_files_current : genBundledFS bundle_Components = [("windows", BundledFS_windows); ("!windows", BundledFS_others)] ∧ bootstrap bundle_Components = bundle_gen.
Proof. split; vm_compute; reflexivity. Qed.

(** [commentedTemplate]: a byte loop. *)
Definition newline : ascii := "010"%char.
Fixpoint commentLoop (s : string) : string :=
  match s with
  | EmptyString => ""
  | String c s => if Ascii.eqb c newline && negb (String.eqb s "") then String c ("# " +:+ commentLoop s) else String c (commentLoop s)
  end.
Definition commentedTemplate (tmpl : string) : string := "# " +:+ commentLoop tmpl.

(** ** templatefunctions.go *)

Inductive componentKind := KindUnset | KindExtension | KindReceiver.
Record bundle_discoveryConfig := { dc_componentID : ID; dc_componentKind : componentKind }.
Inductive templateCall := CallExtension (id : string) | CallReceiver (id : string) | CallConfigProperty (args : list string) | CallConfigPropertyEnvVar (args : list string) | CallDefaultValue.
Inductive templatePart := Text (s : string) | Call (c : templateCall).

Section functions.
Context `{C : Confmap} `{Pdata} `{PropertyParsers} (IDUnmarshalText : string → res ID) (Quote : string → string) (extensionTypes receiverTypes : gset string).

Definition setComponentType (id : string) (kind : componentKind) (dc : bundle_discoveryConfig) : res string * bundle_discoveryConfig :=
  match IDUnmarshalText id with
  | Err e => (Err e, dc)
  | Ok cid =>
      let dc := {| dc_componentID := cid; dc_componentKind := kind |} in
      let r := match kind with
               | KindExtension => if bool_decide (ID_Type cid ∈ extensionTypes) then Ok (cid_String cid) else Err (Errorf "no extension %q available in this distribution" [ID_Type cid])
               | KindReceiver => if bool_decide (ID_Type cid ∈ receiverTypes) then Ok (cid_String cid) else Err (Errorf "no receiver %q available in this distribution" [ID_Type cid])
               | KindUnset => Err (Errorf "unsupported discovery config component kind %#v" [])
               end in (r, dc)
  end.
Definition configPropertyPrefix (methodName : string) (args : list string) (dc : bundle_discoveryConfig) : res string :=
  if (length args <? 2)%nat then Err (Errorf "%s takes key+ and value{1} arguments (minimum 2)" [methodName])
  else match dc_componentKind dc with
       | KindReceiver => Ok ("splunk.discovery.receivers." +:+ cid_String (dc_componentID dc) +:+ ".config")
       | KindExtension => Ok ("splunk.discovery.extensions." +:+ cid_String (dc_componentID dc) +:+ ".config")
       | KindUnset => Err (Errorf "invalid discovery config component type %d" [])
       end.
Definition configProperty (methodName prefix : string) (args : list string) : res Property :=
  match last args with
  | None => Err (Errorf "%s requires at least a value" [methodName])
  | Some value =>
      let keys := removelast args in
      let key := match keys with [] => "" | _ => "." +:+ Join keys "::" end in
      NewProperty (decodeUTF8 (prefix +:+ key)) value
  end.
Definition configPropertyWithStringer (args : list string) (methodName : string) (stringer : Property → string) (dc : bundle_discoveryConfig) : res string :=
  prefix ← configPropertyPrefix methodName args dc; p ← configProperty methodName prefix args; Ok (stringer p).
Definition setForm (p : Property) : string := utf8 (Input p) +:+ "=" +:+ Quote (Val p).
Definition envForm (p : Property) : string := utf8 (ToEnvVar p) +:+ "=" +:+ Quote (Val p).
Definition callFunction (c : templateCall) (dc : bundle_discoveryConfig) : res string * bundle_discoveryConfig :=
  match c with
  | CallExtension id => setComponentType id KindExtension dc
  | CallReceiver id => setComponentType id KindReceiver dc
  | CallConfigProperty args => (configPropertyWithStringer args "configProperty" setForm dc, dc)
  | CallConfigPropertyEnvVar args => (configPropertyWithStringer args "configPropertyEnvVar" envForm dc, dc)
  | CallDefaultValue => (Ok "splunk.discovery.default", dc)
  end.
(** [Execute]: the texts and the results of the calls, up to the first error. *)
Fixpoint executeTemplate (parts : list templatePart) (dc : bundle_discoveryConfig) : res string :=
  match parts with
  | [] => Ok ""
  | Text s :: parts => rest ← executeTemplate parts dc; Ok (s +:+ rest)
  | Call c :: parts => let '(r, dc) := callFunction c dc in s ← r; rest ← executeTemplate parts dc; Ok (s +:+ rest)
  end.
Definition emptyDiscoveryConfig : bundle_discoveryConfig := {| dc_componentID := {| ID_Type := ""; ID_Name := "" |}; dc_componentKind := KindUnset |}.

Record bundlerSettings := { bs_templateFile : string; bs_dir : string; bs_render : bool; bs_commented : bool }.
Inductive bundlerResult := WriteFile (name content : string) | Stdout (content : string).
(** [main] of the bundler after its flags, up to the write that it asks for; an [Err] is a panic.  [isYAML] is the check of the result. *)
Definition bundler_main (ReadFile : string → res string) (Parse : string → res (list templatePart)) (isYAML : string → option error) (Abs : string → res string) (Base : string → string)
    (pathJoin : list string → string) (bundledHeader commentedHeader : string) (s : bundlerSettings) : res bundlerResult :=
  if String.eqb (bs_templateFile s) "" then Err (Errorf "empty templateFile" [])
  else if negb (HasSuffix (bs_templateFile s) ".tmpl") then Err (Errorf "%q must end in .tmpl" [bs_templateFile s])
  else
    tmpl ← ReadFile (bs_templateFile s);
    parts ← Parse (if bs_commented s then commentedTemplate tmpl else tmpl);
    body ← executeTemplate parts emptyDiscoveryConfig;
    let out := (if bs_commented s then commentedHeader else bundledHeader) +:+ body in
    match isYAML out with
    | Some e => Err (Wrapf "failed unmarshaling %s: %w" [bs_templateFile s] e)
    | None =>
        let outFilename := TrimSuffix (bs_templateFile s) ".tmpl" in
        if bs_render s then
          if String.eqb (bs_dir s) "" then Ok (WriteFile outFilename out)
          else match Abs (bs_dir s) with
               | Err e => Err (Wrapf "failed determining target directory: %w" [] e)
               | Ok absPath => Ok (WriteFile (pathJoin [absPath; Base outFilename]) out)
               end
        else Ok (Stdout out)
    end.
End functions.

(** ** internal/components/components.go *)

Definition extensionPackages : list string :=
  ["ballastextension"; "basicauthextension"; "ecsobserver"; "ecstaskobserver"; "dockerobserver"; "filestorage"; "healthcheckextension"; "hostobserver"; "httpforwarder"; "k8sobserver";
   "pprofextension"; "smartagentextension"; "zpagesextension"].
Definition receiverPackages : list string :=
  ["azureeventhubreceiver"; "carbonreceiver"; "cloudfoundryreceiver"; "collectdreceiver"; "databricksreceiver"; "lightprometheusreceiver"; "discoveryreceiver"; "fluentforwardreceiver";
   "filelogreceiver"; "hostmetricsreceiver"; "jaegerreceiver"; "jmxreceiver"; "journaldreceiver"; "k8sclusterreceiver"; "k8seventsreceiver"; "k8sobjectsreceiver"; "kafkametricsreceiver";
   "kafkareceiver"; "kubeletstatsreceiver"; "mongodbatlasreceiver"; "mongodbreceiver"; "mysqlreceiver"; "oracledbreceiver"; "otlpreceiver"; "postgresqlreceiver"; "prometheusreceiver";
   "receivercreator"; "redisreceiver"; "sapmreceiver"; "scriptedinputsreceiver"; "signalfxreceiver"; "signalfxgatewayprometheusremotewritereceiver"; "simpleprometheusreceiver";
   "smartagentreceiver"; "solacereceiver"; "splunkhecreceiver"; "sqlqueryreceiver"; "sshcheckreceiver"; "statsdreceiver"; "syslogreceiver"; "tcplogreceiver"; "udplogreceiver";
   "vcenterreceiver"; "wavefrontreceiver"; "windowsperfcountersreceiver"; "windowseventlogreceiver"; "zipkinreceiver"].
Definition exporterPackages : list string :=
  ["awss3exporter"; "debugexporter"; "fileexporter"; "kafkaexporter"; "loadbalancingexporter"; "loggingexporter"; "otlpexporter"; "otlphttpexporter"; "sapmexporter"; "signalfxexporter";
   "splunkhecexporter"; "httpsinkexporter"; "pulsarexporter"].
Definition processorPackages : list string :=
  ["attributesprocessor"; "batchprocessor"; "filterprocessor"; "groupbyattrsprocessor"; "k8sattributesprocessor"; "logstransformprocessor"; "memorylimiterprocessor";
   "metricstransformprocessor"; "probabilisticsamplerprocessor"; "resourcedetectionprocessor"; "resourceprocessor"; "routingprocessor"; "spanmetricsprocessor"; "spanprocessor";
   "tailsamplingprocessor"; "timestampprocessor"; "transformprocessor"].
Definition connectorPackages : list string := ["countconnector"; "forwardconnector"; "routingconnector"; "spanmetricsconnector"].
Record otelcol_Factories := { fc_Extensions : gset string; fc_Receivers : gset string; fc_Processors : gset string; fc_Exporters : gset string; fc_Connectors : gset string }.
(** [components_Get] with the library's [MakeFactoryMap], here on the types of the factories: every map is taken as it is returned, and the
    errors are combined. *)
Definition components_Get (MakeFactoryMap : list string → gset string * option error) (factoryType : string → string) : otelcol_Factories * list error :=
  let make l := MakeFactoryMap (map factoryType l) in
  let e := make extensionPackages in let r := make receiverPackages in let x := make exporterPackages in let p := make processorPackages in let c := make connectorPackages in
  ({| fc_Extensions := e.1; fc_Receivers := r.1; fc_Processors := p.1; fc_Exporters := x.1; fc_Connectors := c.1 |}, omap snd [e; r; x; p; c]).

(** [newDiscoveryConfig] of the templates: the factories of the distribution, an [Err] being its panic. *)
Definition newDiscoveryConfig (MakeFactoryMap : list string → gset string * option error) (factoryType : string → string) : res (gset string * gset string) :=
  match components_Get MakeFactoryMap factoryType with
  | (f, []) => Ok (fc_Extensions f, fc_Receivers f)
  | (_, e :: _) => Err (Wrapf "failed accessing distribution components: %w" [] e)
  end.

(** ** cmd/otelcol/main.go *)

Definition runInteractive (Execute : option error) : option error :=
  match Execute with Some e => Some (Wrapf "application run finished with error: %w" [] e) | None => None end.

Inductive mainOutcome := ExitHelp | FatalSettings | FatalProvider | FatalRun | ExitOk.
(** The converters of the settings, then the dry run and the configuration server; the hooks of the config source provider are
    the configuration server and the dry run; every provider is wrapped. *)
Inductive wiredConverter := SettingsConverter (i : nat) | DryRunConverter | ConfigServerConverter.
Inductive wiredHook := ConfigServerHook | DryRunHook.
Record wiring := { w_converters : list wiredConverter; w_hooks : list wiredHook; w_wrapped : gset string; w_URIs : list string; w_args : list string }.
Definition wire (program : string) (converters : nat) (schemes : gset string) (uris coreArgs : list string) : wiring :=
  {| w_converters := map SettingsConverter (seq 0 converters) ++ [DryRunConverter; ConfigServerConverter]; w_hooks := [ConfigServerHook; DryRunHook];
     w_wrapped := schemes; w_URIs := uris; w_args := program :: coreArgs |}.
Definition main_otelcol {settings : Type} (New : res settings) (isHelp : error → bool) (wireOf : settings → wiring) (provider run : wiring → option error) : mainOutcome * option wiring :=
  match New with
  | Err e => (if isHelp e then ExitHelp else FatalSettings, None)
  | Ok s =>
      let w := wireOf s in
      match provider w with
      | Some _ => (FatalProvider, None)
      | None => (match run w with Some _ => FatalRun | None => ExitOk end, Some w)
      end
  end.

(** ** Commenting out a template *)

(** The lines with their newlines. *)
Fixpoint linesAfter (s : string) : list string :=
  match s with
  | EmptyString => []
  | String c s => if Ascii.eqb c newline then String c "" :: linesAfter s else match linesAfter s with [] => [String c ""] | l :: ls => String c l :: ls end
  end.
Definition concatLines (l : list string) : string := foldr String.append "" l.
Definition uncomment (l : string) : string := sdrop 2 l.
Lemma linesAfter_nil s : linesAfter s = [] → s = "".
Proof. destruct s as [|c s]; [done|]. cbn. destruct (Ascii.eqb c newline); [done|]. by destruct (linesAfter s). Qed.
Lemma linesAfter_concat s : concatLines (linesAfter s) = s.
Proof.
  induction s as [|c s IH]; [done|]. unfold concatLines in *. cbn [linesAfter]. destruct (Ascii.eqb c newline); [cbn [foldr String.append]; by rewrite IH|].
  destruct (linesAfter s) as [|l ls] eqn:Hl; [apply linesAfter_nil in Hl as ->; done|]. change (String c (foldr String.append "" (l :: ls)) = String c s). by rewrite IH.
Qed.
Lemma commentLoop_lines s : "# " +:+ commentLoop s = match linesAfter s with [] => "# " | l => concatLines (map (String.append "# ") l) end.
Proof.
  assert (Hgen : ∀ s, commentLoop s = match linesAfter s with [] => "" | l :: ls => l +:+ concatLines (map (String.append "# ") ls) end).
  { clear s. induction s as [|c s IH]; [done|]. cbn [commentLoop linesAfter]. destruct (Ascii.eqb c newline).
    - destruct s as [|c' s]; [done|]. cbn [String.eqb negb andb]. destruct (linesAfter (String c' s)) as [|l ls] eqn:Hl; [by apply linesAfter_nil in Hl|]. cbn [map concatLines foldr]. rewrite IH.
      cbn. done.
    - cbn [andb]. rewrite IH. destruct (linesAfter s) as [|l ls]; [done|]. done. }
  rewrite Hgen. destruct (linesAfter s); [done|]. done.
Qed.

(** Commenting out a template puts the comment sign before each of its lines and changes nothing else: removing it from
    the lines of the result gives the template back. *)
Theorem commentedTemplate_correct (tmpl : string) :
  commentedTemplate tmpl = match linesAfter tmpl with [] => "# " | l => concatLines (map (String.append "# ") l) end ∧
  concatLines (map uncomment (map (String.append "# ") (linesAfter tmpl))) = tmpl.
Proof.
  split; [apply commentLoop_lines|]. rewrite map_map. transitivity (concatLines (linesAfter tmpl)); [|apply linesAfter_concat]. f_equal.
  rewrite <- (map_id (linesAfter tmpl)) at 2. done.
Qed.

(** ** The two printed forms of a property *)

(** C40: The two ways of setting a property that a bundled template documents mean the same: when the option can be printed and its
    property is portable (valid characters, no elided white space, no word [CONFIG] or [ENABLED] in the encoded identifier, a key
    for a configuration), the option and the environment variable printed for the same arguments carry the same value and are both
    read back as the property that the template's arguments describe.  The parsers follow the two grammars. *)
Theorem documented_forms_agree `{C : Confmap} `{Pdata} `{PropertyParsers} `{!GrammarLaws} (Quote : string → string) (args : list string) (dc : bundle_discoveryConfig) (s : string) :
  configPropertyWithStringer args "configProperty" (setForm Quote) dc = Ok s →
  (∀ prefix p, configPropertyPrefix "configProperty" args dc = Ok prefix → configProperty "configProperty" prefix args = Ok p → portable p) →
  ∃ p, s = utf8 (Input p) +:+ "=" +:+ Quote (Val p) ∧
    configPropertyWithStringer args "configPropertyEnvVar" (envForm Quote) dc = Ok (utf8 (ToEnvVar p) +:+ "=" +:+ Quote (Val p)) ∧
    NewProperty (Input p) (Val p) = Ok p ∧ NewPropertyFromEnvVar (ToEnvVar p) (Val p) = Some (Ok p).
Proof.
  unfold configPropertyWithStringer. intros Hs Hg. destruct (configPropertyPrefix "configProperty" args dc) as [prefix|] eqn:Hp; [|done]. cbn [mbind res_bind] in Hs.
  destruct (configProperty "configProperty" prefix args) as [p|] eqn:Hc; [|done]. cbn [mbind res_bind] in Hs. injection Hs as <-. exists p.
  assert (Hp' : configPropertyPrefix "configPropertyEnvVar" args dc = Ok prefix) by (unfold configPropertyPrefix in *; destruct (length args <? 2)%nat; [done|]; by destruct (dc_componentKind dc)).
  assert (Hc' : configProperty "configPropertyEnvVar" prefix args = Ok p) by (unfold configProperty in *; by destruct (last args)).
  rewrite Hp'. cbn [mbind res_bind]. rewrite Hc'. cbn [mbind res_bind]. specialize (Hg prefix p eq_refl Hc).
  assert (Hn : ∃ property val, NewProperty property val = Ok p) by (unfold configProperty in Hc; destruct (last args); [|done]; by eexists _, _).
  destruct Hn as (property & val & Hn). destruct (NewProperty_fixed _ _ _ Hn) as (Hf & Hi & _). split_and!; [done | done | by rewrite Hi | by apply (ToEnvVar_roundtrip property val)].
Qed.

(** A template that names no component, or one that the distribution does not have, cannot be rendered. *)
Lemma unknown_receiver_refused `{C : Confmap} `{Pdata} `{PropertyParsers} IDUnmarshalText Quote extensionTypes receiverTypes id cid parts dc : IDUnmarshalText id = Ok cid → ID_Type cid ∉ receiverTypes →
  executeTemplate IDUnmarshalText Quote extensionTypes receiverTypes (Call (CallReceiver id) :: parts) dc = Err (Errorf "no receiver %q available in this distribution" [ID_Type cid]).
Proof. intros Hid Hn. cbn. unfold setComponentType. rewrite Hid. cbn. by rewrite bool_decide_eq_false_2. Qed.

(** ** The factories *)

(** What the library documents: the map has the types as its keys, and there is an error when two are the same. *)
Definition factory_map_documented (MakeFactoryMap : list string → gset string * option error) : Prop :=
  ∀ types, NoDup types → MakeFactoryMap types = (list_to_set types, None).
(** The distribution's factories are all there when no two packages have the same type. *)
Lemma components_Get_complete MakeFactoryMap factoryType : factory_map_documented MakeFactoryMap → (∀ a b, factoryType a = factoryType b → a = b) →
  components_Get MakeFactoryMap factoryType = ({| fc_Extensions := list_to_set (map factoryType extensionPackages); fc_Receivers := list_to_set (map factoryType receiverPackages);
    fc_Processors := list_to_set (map factoryType processorPackages); fc_Exporters := list_to_set (map factoryType exporterPackages);
    fc_Connectors := list_to_set (map factoryType connectorPackages) |}, []).
Proof.
  intros Hdoc Hinj. assert (Hmake : ∀ l, NoDup l → MakeFactoryMap (map factoryType l) = (list_to_set (map factoryType l), None)).
  { intros l Hl. apply Hdoc. by apply NoDup_fmap_2. }
  unfold components_Get. rewrite !Hmake by (apply (bool_decide_unpack _); vm_compute; exact I). done.
Qed.

(** ** Witnesses *)

Definition demo_dc : bundle_discoveryConfig := {| dc_componentID := {| ID_Type := "smartagent"; ID_Name := "a-b_c" |}; dc_componentKind := KindReceiver |}.
Definition demo_args : list string := ["extra"; "field"; "x"].
Definition demo_configProperty (prefix : string) : res Property := @configProperty flat_confmap demo_pdata demo_parsers "configProperty" prefix demo_args.
Lemma demo_described : demo_configProperty "splunk.discovery.receivers.smartagent/a-b_c.config" = Ok demo_prop_value.
Proof. vm_compute. reflexivity. Qed.
Lemma Ok_inj {A} (a b : A) : Ok a = Ok b → a = b.
Proof. congruence. Qed.
Lemma documented_forms_agree_witness :
  ∃ p : Property, utf8 demo_property +:+ "=x" = utf8 (Input p) +:+ "=" +:+ Val p ∧
    @configPropertyWithStringer flat_confmap demo_pdata demo_parsers demo_args "configPropertyEnvVar" (envForm id) demo_dc = Ok (utf8 (ToEnvVar p) +:+ "=" +:+ Val p) ∧
    @NewProperty flat_confmap demo_pdata demo_parsers (Input p) (Val p) = Ok p ∧ @NewPropertyFromEnvVar flat_confmap demo_pdata demo_parsers (ToEnvVar p) (Val p) = Some (Ok p).
Proof.
  apply (@documented_forms_agree flat_confmap demo_pdata demo_parsers demo_grammars id demo_args demo_dc).
  - vm_compute. reflexivity.
  - intros prefix p Hpre Hp. assert (prefix = "splunk.discovery.receivers.smartagent/a-b_c.config") as -> by (symmetry; exact (Ok_inj _ _ Hpre)).
    assert (p = demo_prop_value) as -> by exact (Ok_inj _ _ (eq_trans (eq_sym Hp) demo_described)).
    exact demo_portable.
Defined.
Lemma commented_example : commentedTemplate ("a: 1" +:+ String newline ("b: 2" +:+ String newline "")) = "# a: 1" +:+ String newline ("# b: 2" +:+ String newline "").
Proof. reflexivity. Qed.
