(* ===== verification/DiscoveryStart.v ===== *)
(** * Starting and stopping the discovery receiver

    [Start], [Shutdown] and [createAndSetReceiverCreator] of [receiver.go], [start] and [stop] of
    [endpoint_tracker.go], [receiverCreatorFactoryAndConfig] of [config.go], the constructors of
    the evaluators and [factory.go], under [src/internal/receiver/discoveryreceiver].  What a call
    does (the goroutines it spawns for subscriptions and their cancellation, the reaping loop of
    the correlations, the consumer loop, the receiver creator) is recorded in order; a spawned
    goroutine has not done anything yet when it is recorded.  The receiver creator, the host's
    extensions and zap are parameters; the channels are modelled with their buffers and their
    closing, and whether a goroutine is sending logs when their channel is closed is a parameter
    of [Shutdown].  The next consumer and the receiver creator are taken to return. *)

From S2P Require Import Prelude GoStrings GoValue Regexp Confmap ConfigProvider DiscoveryReceiver StatusSources Correlations DiscoveryEvaluator EndpointTracker.

(** ** factory.go *)

Definition minute : Z := 60 * 10 ^ 9.
Definition discovery_createDefaultConfig : Config :=
  {| Receivers := ∅; WatchObservers := []; LogEndpoints := false; EmbedReceiverConfig := false; CorrelationTTL := 10 * minute |}.

(** ** State *)

Record notify := { n_observerID : ID; n_id : string }.
Record endpointTracker := { et_logEndpoints : bool; et_observables : gset ID; et_notifies : list notify; et_correlations : store }.
(** The environment of the expressions of each evaluator: the name of a metric, or the fields of a statement. *)
Inductive exprEnvKind := MetricEnv | StatementEnv.
Record evaluator := { ev_env : exprEnvKind; ev_alreadyLogged : gset string }.
Definition newEvaluator (env : exprEnvKind) : evaluator := {| ev_env := env; ev_alreadyLogged := ∅ |}.
Definition newMetricEvaluator : evaluator := newEvaluator MetricEnv.
Record zapConf := { zc_debug : bool; zc_samplingInitial : Z; zc_samplingThereafter : Z }.
(** A statement evaluator is the core of the logger it hands out; its encoder holds the fields added by [With]. *)
Record statementEvaluator := { se_evaluator : evaluator; se_id : ID; se_encoder : list (string * any) }.
Definition newStatementEvaluator (Build : zapConf → option error) (id : ID) : res statementEvaluator :=
  match Build {| zc_debug := true; zc_samplingInitial := 1; zc_samplingThereafter := 1 |} with
  | Some e => Err e
  | None => Ok {| se_evaluator := newEvaluator StatementEnv; se_id := id; se_encoder := [] |}
  end.
Definition se_With (fields : list (string * any)) (se : statementEvaluator) : statementEvaluator :=
  {| se_evaluator := se_evaluator se; se_id := se_id se; se_encoder := se_encoder se ++ fields |}.

(** [go ListAndWatch(n)] and [go Unsubscribe(n)] are spawned; the reaping loop is spawned by
    [StoreStart] and told to end by the token of [StoreStopSent], which its buffer of one takes. *)
Inductive lifeEffect := SpawnListAndWatch (n : notify) | SpawnUnsubscribe (n : notify) | StoreStart | StoreStopSent | LoopStarted | LoopHalted | CreatorStarted | CreatorShutdown.

(** What the receiver creator is created with. *)
Record creatorSettings {conf} := { cs_ID : ID; cs_Logger : statementEvaluator; cs_Config : conf }.
Arguments creatorSettings : clear implicits.

Section receiver.
Context `{C : Confmap} `{Engines} `{MapRange} `{IDRange} {Observable : Type}.
(** The settings of this receiver and the host: the extensions, those that are observers as such; the results of the third-party
    calls; [ptr] is the printed address of the tracker. *)
Context (cfg : Config) (settingsID : ID) (ptr : string) (extensions : gmap ID (option Observable)).
Context (zapBuild : zapConf → option error) (creatorType : string) (coerced : bool) (creatorUnmarshal : list ID → conf → res conf).
Context (CreateMetricsReceiver : creatorSettings conf → option error) (creatorStart creatorShutdown : option error).

Record discoveryReceiver := {
  d_observables : gset ID;
  d_endpointTracker : option endpointTracker;
  d_metricEvaluator : option evaluator;
  d_statementEvaluator : option statementEvaluator;
  d_receiverCreator : option (creatorSettings conf);
  d_sentinel : nat;
  d_sentinelClosed : bool;
  d_pLogsClosed : bool;
  d_loopFinished : nat;
  d_effects : list lifeEffect;
}.
Definition newDiscoveryReceiver : discoveryReceiver :=
  {| d_observables := ∅; d_endpointTracker := None; d_metricEvaluator := None; d_statementEvaluator := None; d_receiverCreator := None; d_sentinel := 0;
     d_sentinelClosed := false; d_pLogsClosed := false; d_loopFinished := 0; d_effects := [] |}.
Definition createLogsReceiver (obsReport : option error) : res discoveryReceiver + list cfgError :=
  match Config_Validate cfg with
  | [] => inl match obsReport with Some e => Err e | None => Ok newDiscoveryReceiver end
  | es => inr es
  end.

Definition set_observables o d : discoveryReceiver :=
  {| d_observables := o; d_endpointTracker := d_endpointTracker d; d_metricEvaluator := d_metricEvaluator d; d_statementEvaluator := d_statementEvaluator d; d_receiverCreator := d_receiverCreator d;
     d_sentinel := d_sentinel d; d_sentinelClosed := d_sentinelClosed d; d_pLogsClosed := d_pLogsClosed d; d_loopFinished := d_loopFinished d; d_effects := d_effects d |}.
Definition set_tracker t d : discoveryReceiver :=
  {| d_observables := d_observables d; d_endpointTracker := t; d_metricEvaluator := d_metricEvaluator d; d_statementEvaluator := d_statementEvaluator d; d_receiverCreator := d_receiverCreator d;
     d_sentinel := d_sentinel d; d_sentinelClosed := d_sentinelClosed d; d_pLogsClosed := d_pLogsClosed d; d_loopFinished := d_loopFinished d; d_effects := d_effects d |}.
Definition set_evaluators m s d : discoveryReceiver :=
  {| d_observables := d_observables d; d_endpointTracker := d_endpointTracker d; d_metricEvaluator := m; d_statementEvaluator := s; d_receiverCreator := d_receiverCreator d;
     d_sentinel := d_sentinel d; d_sentinelClosed := d_sentinelClosed d; d_pLogsClosed := d_pLogsClosed d; d_loopFinished := d_loopFinished d; d_effects := d_effects d |}.
Definition set_creator c d : discoveryReceiver :=
  {| d_observables := d_observables d; d_endpointTracker := d_endpointTracker d; d_metricEvaluator := d_metricEvaluator d; d_statementEvaluator := d_statementEvaluator d; d_receiverCreator := c;
     d_sentinel := d_sentinel d; d_sentinelClosed := d_sentinelClosed d; d_pLogsClosed := d_pLogsClosed d; d_loopFinished := d_loopFinished d; d_effects := d_effects d |}.
Definition set_channels sen senClosed closed loops d : discoveryReceiver :=
  {| d_observables := d_observables d; d_endpointTracker := d_endpointTracker d; d_metricEvaluator := d_metricEvaluator d; d_statementEvaluator := d_statementEvaluator d; d_receiverCreator := d_receiverCreator d;
     d_sentinel := sen; d_sentinelClosed := senClosed; d_pLogsClosed := closed; d_loopFinished := loops; d_effects := d_effects d |}.
Definition did (es : list lifeEffect) d : discoveryReceiver :=
  {| d_observables := d_observables d; d_endpointTracker := d_endpointTracker d; d_metricEvaluator := d_metricEvaluator d; d_statementEvaluator := d_statementEvaluator d; d_receiverCreator := d_receiverCreator d;
     d_sentinel := d_sentinel d; d_sentinelClosed := d_sentinelClosed d; d_pLogsClosed := d_pLogsClosed d; d_loopFinished := d_loopFinished d; d_effects := d_effects d ++ es |}.

(** ** endpoint_tracker.go *)

Definition newEndpointTracker (observables : gset ID) (correlations : store) : endpointTracker :=
  {| et_logEndpoints := LogEndpoints cfg; et_observables := observables; et_notifies := []; et_correlations := correlations |}.
Definition newNotify (obs : ID) : notify := {| n_observerID := obs; n_id := ptr +:+ "::endpoint_tracker::" +:+ cid_String obs |}.
Definition newNotifies (observables : gmap ID Observable) : list notify := map (λ kv, newNotify kv.1) (rangeID observables).
(** [start]: a goroutine that subscribes to each observable, in the order of the range over the map, then the reaping loop. *)
Definition et_start (observables : gmap ID Observable) (et : endpointTracker) : endpointTracker * list lifeEffect :=
  let ns := newNotifies observables in
  ({| et_logEndpoints := et_logEndpoints et; et_observables := et_observables et; et_notifies := et_notifies et ++ ns; et_correlations := et_correlations et |}, map SpawnListAndWatch ns ++ [StoreStart]).
Definition et_stop (et : endpointTracker) : list lifeEffect := map SpawnUnsubscribe (et_notifies et) ++ [StoreStopSent].

(** ** The receiver creator *)

Definition receiverCreatorFactoryAndConfig (s : store) : res (conf * store) :=
  if negb coerced then Err (Errorf "failed to coerce to receivercreator.Config" [])
  else
    '(receiversConfig, s) ← wrap_err "failed to produce receiver creator receivers config: %w" [] (receiverCreatorReceiversConfig cfg s);
    c ← wrap_err "failed unmarshaling discoveryreceiver receiverTemplates into receiver_creator config: %w" []
      (creatorUnmarshal (WatchObservers cfg) (NewFromStringMap {["receivers" := AMap receiversConfig]}));
    Ok (c, s).
Definition creatorID : ID := {| ID_Type := creatorType; ID_Name := cid_String settingsID |}.
Definition creatorLogger (se : statementEvaluator) : statementEvaluator := se_With [("kind", AString "receiver"); ("name", AString (cid_String creatorID))] se.
(** [createAndSetReceiverCreator], whose tracker and statement evaluator were set before; after an error of the configuration
    the attributes that were stored before it are left out. *)
Definition createAndSetReceiverCreator (et : endpointTracker) (se : statementEvaluator) (d : discoveryReceiver) : option error * discoveryReceiver :=
  match receiverCreatorFactoryAndConfig (et_correlations et) with
  | Err e => (Some e, d)
  | Ok (c, s) =>
      let et := {| et_logEndpoints := et_logEndpoints et; et_observables := et_observables et; et_notifies := et_notifies et; et_correlations := s |} in
      let d := set_tracker (Some et) d in
      let settings := {| cs_ID := creatorID; cs_Logger := creatorLogger se; cs_Config := c |} in
      match CreateMetricsReceiver settings with
      | Some e => (Some e, d)
      | None => (None, set_creator (Some settings) d)
      end
  end.

(** ** Start and Shutdown *)

Definition discovery_Start (d : discoveryReceiver) : option error * discoveryReceiver :=
  match observablesFromHost extensions (WatchObservers cfg) with
  | Err e => (Some (Wrapf "failed obtaining observables from host: %w" [] e), set_observables ∅ d)
  | Ok observables =>
      let d := set_observables (dom observables) d in
      let '(et, es) := et_start observables (newEndpointTracker (dom observables) (newCorrelationStore (CorrelationTTL cfg))) in
      let d := did es (set_tracker (Some et) d) in
      let d := set_evaluators (Some newMetricEvaluator) None d in
      match newStatementEvaluator zapBuild settingsID with
      | Err e => (Some (Wrapf "failed creating statement evaluator: %w" [] e), d)
      | Ok se =>
          let d := set_evaluators (Some newMetricEvaluator) (Some se) d in
          match createAndSetReceiverCreator et se d with
          | (Some e, d) => (Some (Wrapf "failed creating internal receiver_creator: %w" [] e), d)
          | (None, d) =>
              let d := did [LoopStarted] (set_channels (d_sentinel d) (d_sentinelClosed d) (d_pLogsClosed d) (S (d_loopFinished d)) d) in
              let d := did [CreatorStarted] d in
              (match creatorStart with Some e => Some (Wrapf "failed starting internal receiver_creator: %w" [] e) | None => None end, d)
          end
      end
  end.

(** How a call ends: it returns, panics or waits for ever; or it closes the channel of the logs under a goroutine
    that is sending on it, which panics. *)
Inductive ended := Returned (e : option error) | Panicked | Blocked | SenderPanics.
(** The deferred end of [Shutdown]: the token for the consumer loop, the wait for the loop, and the closing of both channels.  A loop
    that runs takes the token; without one it stays in the buffer of size 1. *)
Definition haltAndClose (d : discoveryReceiver) : option discoveryReceiver * bool :=
  if d_sentinelClosed d then (None, true)
  else if (0 <? d_sentinel d)%nat && (d_loopFinished d =? 0)%nat then (None, false)
  else
    let d := match d_loopFinished d with
             | O => set_channels (S (d_sentinel d)) false (d_pLogsClosed d) O d
             | S n => did [LoopHalted] (set_channels (d_sentinel d) false (d_pLogsClosed d) n d)
             end in
    if negb (d_loopFinished d =? 0)%nat then (None, false)
    else if d_pLogsClosed d then (None, true)
    else (Some (set_channels (d_sentinel d) true true O d), false).
(** [sending]: a notification, or an evaluator, is sending on [pLogs] when the channel is closed.  The goroutines of the
    observers are not waited for, so this can be. *)
Definition discovery_Shutdown (sending : bool) (d : discoveryReceiver) : ended * discoveryReceiver :=
  let d1 := match d_endpointTracker d with Some et => did (et_stop et) d | None => d end in
  let '(err, d2) := match d_receiverCreator d1 with
                    | Some _ => (match creatorShutdown with Some e => Some (Wrapf "failed shutting down internal receiver_creator: %w" [] e) | None => None end, did [CreatorShutdown] d1)
                    | None => (None, d1)
                    end in
  match d_endpointTracker d with
  | None => (Returned err, d2)
  | Some _ =>
      match haltAndClose d2 with
      | (Some d3, _) => (if sending then SenderPanics else Returned err, d3)
      | (None, true) => (Panicked, d2)
      | (None, false) => (Blocked, d2)
      end
  end.
End receiver.

(** ** What starting and stopping does *)


Section lifecycle.
Context `{C : Confmap} `{Engines} `{MapRange} `{IDRange} {Observable : Type}.
Context (cfg : Config) (settingsID : ID) (ptr : string) (extensions : gmap ID (option Observable)).
Context (zapBuild : zapConf → option error) (creatorType : string) (coerced : bool) (creatorUnmarshal : list ID → conf → res conf).
Context (CreateMetricsReceiver : creatorSettings conf → option error) (creatorStart creatorShutdown : option error).
Notation start := (discovery_Start cfg settingsID ptr extensions zapBuild creatorType coerced creatorUnmarshal CreateMetricsReceiver creatorStart).
Notation watched := (@newNotifies _ Observable ptr).



End lifecycle.


(** A start whose receiver creator cannot be created, and its shutdown. *)
Definition demo_start_cfg : Config := {| Receivers := ∅; WatchObservers := [demo_obs]; LogEndpoints := true; EmbedReceiverConfig := false; CorrelationTTL := 0 |}.
Example failed_start_shut_down :
  let n := newNotify "0x1" demo_obs in
  let '(r, d) := @discovery_Start flat_confmap demo_engines forward_rangeID nat demo_start_cfg demo_rid "0x1" {[demo_obs := Some 0%nat]} (λ _, None) "receiver_creator" true (λ _ c, Ok c)
    (λ _, Some (Errorf "unavailable" [])) None newDiscoveryReceiver in
  r = Some (Wrapf "failed creating internal receiver_creator: %w" [] (Errorf "unavailable" [])) ∧
  (discovery_Shutdown None false d).1 = Returned None ∧ d_effects (discovery_Shutdown None false d).2 = [SpawnListAndWatch n; StoreStart; SpawnUnsubscribe n; StoreStopSent].
Proof. vm_compute. done. Qed.
