(* ===== verification/Nagios.v ===== *)
(** * The nagios monitor

    [src/internal/signalfx-agent/pkg/monitors/nagios/nagios.go]: the runs of a check command, the
    state read from its exit code or its output, the data point of every run, and the events sent
    when what is compared changes.  Splitting the command line, processes, timers and the
    comparison of properties ([deep.Equal]) are parameters.  A slice of bytes carries what its
    capacity holds behind it, since the code reslices it. *)

From S2P Require Import Prelude GoStrings GoValue Outcome Settings Telemetry SmartAgent HostMonitors.
From Stdlib Require Import Ascii.
#[local] Open Scope Z_scope.

(** ** Running the command *)

Record byteSlice := { sl_bytes : string; sl_behind : string }.
Definition nilSlice : byteSlice := {| sl_bytes := ""; sl_behind := "" |}.
(** [s[:n]] *)
Definition reslice (n : nat) (s : byteSlice) : outcome string :=
  let all := sl_bytes s +:+ sl_behind s in if (n <=? slen all)%nat then Done (stake n all) else Panics.

(** The errors that the code tells apart: the timeout, an exit with the status if the system gives one, another. *)
Inductive cmdError := ErrorTimeout | ExitError (status : option Z) | OtherError (text : string).
Definition errorText (e : cmdError) : string :=
  match e with ErrorTimeout => "command killed after timeout" | ExitError _ => "exit status" | OtherError t => t end.

(** What happens to a started command: it ends with its outputs, or its time is over first and it is killed. *)
Inductive race := Completed (stdout stderr : byteSlice) (err : option cmdError) | KillTimeout (kill : option cmdError).
Record execution := { ex_split : list string + string; ex_start : option cmdError; ex_race : race }.
Record commandResult := { cr_stdout : byteSlice; cr_stderr : byteSlice; cr_err : option cmdError; cr_blocked : nat }.
(** [runCommand]; [cr_blocked] counts the goroutines that stay blocked sending the result of [Wait] to nobody. *)
Definition runCommand (ex : execution) : commandResult :=
  let failed e := {| cr_stdout := nilSlice; cr_stderr := nilSlice; cr_err := Some e; cr_blocked := 0 |} in
  match ex_split ex with
  | inr e => failed (OtherError ("exec: unable to parse command, " +:+ e))
  | inl [] => failed (OtherError "exec: unable to parse command, %!s(<nil>)")
  | inl (_ :: _) =>
      match ex_start ex with
      | Some e => failed e
      | None =>
          match ex_race ex with
          | KillTimeout (Some e) => {| cr_stdout := nilSlice; cr_stderr := nilSlice; cr_err := Some e; cr_blocked := 1 |}
          | KillTimeout None => {| cr_stdout := nilSlice; cr_stderr := nilSlice; cr_err := Some ErrorTimeout; cr_blocked := 1 |}
          | Completed o e err => {| cr_stdout := o; cr_stderr := e; cr_err := err; cr_blocked := 0 |}
          end
      end
  end.

(** ** The state of a check *)

Definition unknown : Z := 3.
Definition getExitCode (err : option cmdError) (stdout : byteSlice) : outcome (Z * option string) :=
  match err with
  | None =>
      prefix ← reslice 4 stdout;
      let status := ToLower prefix in
      Done (if String.eqb status "crit" then 2 else if String.eqb status "warn" then 1 else if String.eqb status "unkn" then unknown else 0, None)
  | Some ErrorTimeout => Done (unknown, Some (errorText ErrorTimeout))
  | Some (OtherError t) => Done (unknown, Some ("command ended unexpectedly " +:+ t))
  | Some (ExitError None) => Done (3, Some "cannot get exit code")
  | Some (ExitError (Some status)) => Done (status, None)
  end.

(** ** The properties of an event *)

Definition propertiesLength : nat := 256.
Definition nl : string := String "010" "".
Definition formatStd (std : string) : string :=
  let rendered := TrimLeftFunc (ContainsByte nl) (TrimSuffix std nl) in
  if (propertiesLength <? slen rendered)%nat then stake propertiesLength rendered else rendered.
Inductive propValue := PString (s : string) | PInt (z : Z).
#[global] Instance propValue_eq_dec : EqDecision propValue.
Proof. solve_decision. Defined.
Definition putIf (b : bool) (k : string) (v : propValue) (m : gmap string propValue) : gmap string propValue := if b then <[k := v]> m else m.
Definition makeProperties (state : Z) (err : option string) (stdout stderr : byteSlice) : gmap string propValue :=
  let p := putIf (negb (String.eqb (sl_bytes stdout) "")) "stdout" (PString (formatStd (sl_bytes stdout))) ∅ in
  let p := putIf (negb (String.eqb (sl_bytes stderr) "")) "stderr" (PString (formatStd (sl_bytes stderr))) p in
  match err with Some e => <["exit_reason" := PString e]> p | None => <["exit_code" := PInt state]> p end.
Definition keepProperty (ignoreStdOut ignoreStdErr : bool) (k : string) : bool :=
  negb ((String.eqb k "stdout" && ignoreStdOut) || (String.eqb k "stderr" && ignoreStdErr)).
Definition filterProperties (properties : gmap string propValue) (ignoreStdOut ignoreStdErr : bool) : gmap string propValue :=
  filter (λ kv, keepProperty ignoreStdOut ignoreStdErr kv.1 = true) properties.

(** ** The collection *)

Record nagiosConfig := { nc_Command : string; nc_Service : string; nc_Timeout : Z; nc_IntervalSeconds : Z; nc_IgnoreStdOut : bool; nc_IgnoreStdErr : bool }.
Record nagiosEvent := { ne_Dimensions : gmap string string; ne_Properties : gmap string propValue }.
Record nagiosState := { ns_cache : option (gmap string propValue); ns_points : list sfxDatapoint; ns_events : list nagiosEvent; ns_blocked : nat }.
Definition nagios_init : nagiosState := {| ns_cache := None; ns_points := []; ns_events := []; ns_blocked := 0 |}.

Section collection.
Context (deepEqual : gmap string propValue → gmap string propValue → bool) (conf : nagiosConfig).
Definition nagios_dimensions : gmap string string := <["plugin" := "nagios"]> (<["command" := nc_Command conf]> {["service" := nc_Service conf]}).
(** The check of [Configure]. *)
Definition nagios_Configure : option error :=
  if nc_IntervalSeconds conf <? nc_Timeout conf then Some (Errorf "configured timeout must be lower than intervalSeconds" []) else None.
(** One run of the collection; the cache never expires. *)
Definition collect (ex : execution) (st : nagiosState) : outcome nagiosState :=
  let r := runCommand ex in
  '(state, err) ← getExitCode (cr_err r) (cr_stdout r);
  let points := ns_points st ++ [mkDatapoint "nagios.state" Gauge (IntValue state) nagios_dimensions] in
  let properties := makeProperties state err (cr_stdout r) (cr_stderr r) in
  let diffProperties := filterProperties properties (nc_IgnoreStdOut conf) (nc_IgnoreStdErr conf) in
  let sendEvent := match ns_cache st with Some lastProperties => negb (deepEqual diffProperties lastProperties) | None => true end in
  let blocked := (ns_blocked st + cr_blocked r)%nat in
  Done (if sendEvent
        then {| ns_cache := Some diffProperties; ns_points := points; ns_events := ns_events st ++ [{| ne_Dimensions := nagios_dimensions; ne_Properties := properties |}]; ns_blocked := blocked |}
        else {| ns_cache := ns_cache st; ns_points := points; ns_events := ns_events st; ns_blocked := blocked |}).
Fixpoint nagios_collectAll (exs : list execution) (st : nagiosState) : outcome nagiosState :=
  match exs with [] => Done st | ex :: exs => collect ex st ≫= nagios_collectAll exs end.

(** ** What is sent *)

(** The state and the properties of a run, by themselves. *)
Definition runProperties (ex : execution) : outcome (Z * gmap string propValue) :=
  let r := runCommand ex in '(state, err) ← getExitCode (cr_err r) (cr_stdout r); Done (state, makeProperties state err (cr_stdout r) (cr_stderr r)).
Definition compared (p : gmap string propValue) : gmap string propValue := filterProperties p (nc_IgnoreStdOut conf) (nc_IgnoreStdErr conf).
(** The runs whose compared properties are not those of the run before. *)
Fixpoint changes (last : option (gmap string propValue)) (ps : list (gmap string propValue)) : list (gmap string propValue) :=
  match ps with
  | [] => []
  | p :: ps => (if bool_decide (last = Some (compared p)) then [] else [p]) ++ changes (Some (compared p)) ps
  end.

Context (deepEqual_spec : ∀ a b, deepEqual a b = true ↔ a = b).
Lemma collect_run ex st : collect ex st = match runProperties ex with
  | Done (state, p) =>
      Done {| ns_cache := Some (compared p); ns_points := ns_points st ++ [mkDatapoint "nagios.state" Gauge (IntValue state) nagios_dimensions];
              ns_events := ns_events st ++ map (Build_nagiosEvent nagios_dimensions) (changes (ns_cache st) [p]); ns_blocked := (ns_blocked st + cr_blocked (runCommand ex))%nat |}
  | Failed e => Failed e
  | Panics => Panics
  end.
Proof.
  unfold collect, runProperties. destruct (getExitCode _ _) as [[state err]| |]; [|done|done]. cbn [mbind outcome_bind changes].
  fold (compared (makeProperties state err (cr_stdout (runCommand ex)) (cr_stderr (runCommand ex)))). set (p := makeProperties _ _ _ _).
  rewrite app_nil_r. destruct (ns_cache st) as [l|].
  - case_bool_decide as Hl.
    + injection Hl as ->. rewrite (proj2 (deepEqual_spec _ _) eq_refl). cbn. by rewrite app_nil_r.
    + destruct (deepEqual (compared p) l) eqn:Hd; [|done]. apply deepEqual_spec in Hd. by subst.
  - case_bool_decide; done.
Qed.
Lemma changes_app last p ps : changes last (p :: ps) = changes last [p] ++ changes (Some (compared p)) ps.
Proof. cbn [changes]. by rewrite app_nil_r. Qed.
Lemma collectAll_runs exs : ∀ st rs, mapM_outcome runProperties exs = Done rs →
  nagios_collectAll exs st = Done {| ns_cache := from_option (Some ∘ compared ∘ snd) (ns_cache st) (last rs);
    ns_points := ns_points st ++ map (λ r, mkDatapoint "nagios.state" Gauge (IntValue r.1) nagios_dimensions) rs;
    ns_events := ns_events st ++ map (Build_nagiosEvent nagios_dimensions) (changes (ns_cache st) rs.*2);
    ns_blocked := (ns_blocked st + sum_list (map (λ ex, cr_blocked (runCommand ex)) exs))%nat |}.
Proof.
  induction exs as [|ex exs IH]; intros st rs Hrs; cbn [mapM_outcome nagios_collectAll] in *.
  { injection Hrs as <-. cbn. rewrite !app_nil_r, Nat.add_0_r. by destruct st. }
  rewrite collect_run. destruct (runProperties ex) as [[state p]| |]; [|done|done].
  destruct (mapM_outcome runProperties exs) as [rs'| |]; [|done|done]. injection Hrs as <-. cbn [mbind outcome_bind]. rewrite (IH _ rs' eq_refl). cbn [ns_cache ns_points ns_events ns_blocked]. f_equal. f_equal.
  - rewrite last_cons. by destruct (last rs').
  - by rewrite <- app_assoc.
  - change ((((state, p) :: rs').*2)) with (p :: rs'.*2). rewrite (changes_app (ns_cache st) p (rs'.*2)), map_app, app_assoc. done.
  - cbn. lia.
Qed.
End collection.

(** C38: The events of the nagios monitor are the changes of the check: over any sequence of runs there is one data point with the state
    for every run, and one event for every run whose compared properties (without the ignored outputs) are not those of the run
    before, with all the properties of that run. *)
Theorem nagios_events_are_changes deepEqual conf exs rs : (∀ a b, deepEqual a b = true ↔ a = b) → mapM_outcome runProperties exs = Done rs →
  ∃ st, nagios_collectAll deepEqual conf exs nagios_init = Done st ∧
    map sd_Value (ns_points st) = map (λ r, IntValue r.1) rs ∧ map ne_Properties (ns_events st) = changes conf None rs.*2.
Proof.
  intros Hd Hrs. eexists. split; [by apply collectAll_runs|]. cbn [nagios_init ns_points ns_events ns_cache app]. split.
  - by rewrite map_map.
  - rewrite map_map. apply map_id.
Qed.

(** ** The state and the outputs *)

Lemma formatStd_bound std : (slen (formatStd std) <= 256)%nat.
Proof. unfold formatStd. destruct (Nat.ltb_spec propertiesLength (slen (TrimLeftFunc (ContainsByte nl) (TrimSuffix std nl)))) as [Hlt|Hle]; [rewrite slen_stake; unfold propertiesLength in *; lia | exact Hle]. Qed.
(** A run panics exactly when the command succeeds with an output whose buffer holds fewer than four bytes. *)
Lemma getExitCode_panics err stdout : getExitCode err stdout = Panics ↔ err = None ∧ (slen (sl_bytes stdout +:+ sl_behind stdout) < 4)%nat.
Proof.
  unfold getExitCode, reslice. destruct err as [[|[]|]|]; try (split; [done | by intros [? _]]).
  destruct (Nat.leb_spec 4 (slen (sl_bytes stdout +:+ sl_behind stdout))); cbn; split; done || lia || (by split).
Qed.
(** Every run that is killed leaves a goroutine blocked for ever. *)
Lemma timeouts_leak deepEqual conf n args : (∀ a b, deepEqual a b = true ↔ a = b) →
  ∃ st, nagios_collectAll deepEqual conf (repeat {| ex_split := inl ("sleep" :: args); ex_start := None; ex_race := KillTimeout None |} n) nagios_init = Done st ∧ ns_blocked st = n ∧ (length (ns_events st) <= 1)%nat.
Proof.
  intros Hd. set (ex := {| ex_split := _ |}). set (p := makeProperties unknown (Some (errorText ErrorTimeout)) nilSlice nilSlice).
  assert (Hr : mapM_outcome runProperties (repeat ex n) = Done (repeat (unknown, p) n)) by (induction n as [|n IH]; [done|]; cbn [repeat mapM_outcome]; by rewrite IH).
  eexists. split; [by apply collectAll_runs|]. cbn [ns_blocked ns_events ns_cache nagios_init app]. split.
  - clear. induction n; [done|]. cbn in *. lia.
  - clear. rewrite length_map. destruct n as [|n]; [cbn; lia|]. change ((repeat (unknown, p) (S n)).*2) with (p :: (repeat (unknown, p) n).*2). cbn [changes]. rewrite bool_decide_eq_false_2 by done.
    assert (Hc : changes conf (Some (compared conf p)) (repeat (unknown, p) n).*2 = []); [|rewrite Hc; cbn; lia].
    induction n as [|n IH]; [done|]. change ((repeat (unknown, p) (S n)).*2) with (p :: (repeat (unknown, p) n).*2). cbn [changes]. by rewrite bool_decide_eq_true_2, IH.
Qed.

(** ** Witnesses *)

Definition demo_nagios : nagiosConfig := {| nc_Command := "check"; nc_Service := "s"; nc_Timeout := 9; nc_IntervalSeconds := 10; nc_IgnoreStdOut := true; nc_IgnoreStdErr := false |}.
Definition demo_run (out : string) : execution :=
  {| ex_split := inl ["check"]; ex_start := None; ex_race := Completed {| sl_bytes := out; sl_behind := String "000" (String "000" "") |} nilSlice None |}.
(** The second run differs only in the output that is ignored; the output that says critical overrides the exit code. *)
Lemma nagios_events_are_changes_witness : ∃ st, nagios_collectAll (λ a b, bool_decide (a = b)) demo_nagios [demo_run "OK 1"; demo_run "OK 2"; demo_run "CRITICAL"] nagios_init = Done st ∧
  map sd_Value (ns_points st) = [IntValue 0; IntValue 0; IntValue 2] ∧
  map ne_Properties (ns_events st) = [<["exit_code" := PInt 0]> {["stdout" := PString "OK 1"]}; <["exit_code" := PInt 2]> {["stdout" := PString "CRITICAL"]}].
Proof.
  destruct (nagios_events_are_changes (λ a b, bool_decide (a = b)) demo_nagios [demo_run "OK 1"; demo_run "OK 2"; demo_run "CRITICAL"]
    [(0, <["exit_code" := PInt 0]> {["stdout" := PString "OK 1"]}); (0, <["exit_code" := PInt 0]> {["stdout" := PString "OK 2"]}); (2, <["exit_code" := PInt 2]> {["stdout" := PString "CRITICAL"]})]) as (st & Hc & Hp & He).
  - intros a b. apply bool_decide_eq_true.
  - vm_compute. reflexivity.
  - exists st. split; [exact Hc|]. split; [exact Hp|]. rewrite He. vm_compute. reflexivity.
Defined.
