(* ===== verification/HTTPCheck.v ===== *)
(** * The http monitor

    [src/internal/signalfx-agent/pkg/monitors/http/http.go] with the parts of
    [core/common/httpclient/http.go] it uses: the URLs that are checked, the statistics of a
    response and of a certificate, and the dimensions of the points.  Parsing a URL, requests,
    connections and regular expressions are parameters; [Hostname] and [Port] are those of Go's
    [net/url].  A dereference of a nil pointer is [Panics]. *)

From S2P Require Import Prelude GoStrings GoValue Outcome Settings Telemetry SmartAgent HostMonitors.
From Stdlib Require Import Ascii.
#[local] Open Scope Z_scope.

(** ** net/url *)

Record netURL := { u_Scheme : string; u_Host : string; u_Path : string; u_RawQuery : string }.
#[global] Instance netURL_eq_dec : EqDecision netURL.
Proof. solve_decision. Defined.
Definition colon : ascii := ":".
Fixpoint allDigits (s : string) : bool := match s with EmptyString => true | String c s => in_range "0" "9" c && allDigits s end.
Fixpoint LastIndexByte (s : string) (c : ascii) : option nat :=
  match s with
  | EmptyString => None
  | String d s => match LastIndexByte s c with Some n => Some (S n) | None => if Ascii.eqb d c then Some O else None end
  end.
Definition unbracket (host : string) : string :=
  if HasPrefix host "[" && HasSuffix host "]" then slice host 1 (slen host - 1) else host.
Definition splitHostPort (hostPort : string) : string * string :=
  match LastIndexByte hostPort colon with
  | Some n => if allDigits (sdrop (S n) hostPort) then (unbracket (stake n hostPort), sdrop (S n) hostPort) else (unbracket hostPort, "")
  | None => (unbracket hostPort, "")
  end.
Definition Hostname (u : netURL) : string := (splitHostPort (u_Host u)).1.
Definition Port (u : netURL) : string := (splitHostPort (u_Host u)).2.

(** ** Configuration *)

Record HTTPConfig := { hc_UseHTTPS : bool; hc_SNIServerName : string; hc_HTTPHeaders : gmap string string }.
Definition hc_Scheme (h : HTTPConfig) : string := if hc_UseHTTPS h then "https" else "http".
Definition hc_DefaultPort (h : HTTPConfig) : Z := if hc_UseHTTPS h then 443 else 80.
Record httpConfig := { hm_Host : string; hm_Port : Z; hm_Path : string; hm_HTTP : HTTPConfig; hm_RequestBody : string; hm_NoRedirects : bool; hm_Method : string; hm_URLs : list string; hm_Regex : string;
  hm_DesiredCode : Z; hm_AddRedirectURL : bool }.

Definition queryText (q : string) : string := if String.eqb q "" then "" else "?" +:+ q.

Section monitor.
Context (Parse : string → res netURL) (urlString : netURL → string) (Itoa : Z → string).

Definition normalizeURL (site : string) : res netURL :=
  stringURL ← Parse site;
  let host := Hostname stringURL in
  let port := if String.eqb host (u_Host stringURL) then "80" else Port stringURL in
  let host := if negb (String.eqb port "80") && negb (String.eqb port "443") then host +:+ ":" +:+ port else host in
  let path := if String.eqb (u_Path stringURL) "" then "/" else u_Path stringURL in
  Parse (u_Scheme stringURL +:+ "://" +:+ host +:+ path +:+ queryText (u_RawQuery stringURL)).

(** The URLs of [Configure]: that of the host, and those of the list; one that does not parse is left out. *)
Definition clientURL (conf : httpConfig) : string :=
  let port := if hm_Port conf =? 0 then hc_DefaultPort (hm_HTTP conf) else hm_Port conf in
  hc_Scheme (hm_HTTP conf) +:+ "://" +:+ hm_Host conf +:+ ":" +:+ Itoa port +:+ hm_Path conf.
Definition withScheme (site : string) : string := if HasPrefix site "http" then site else "http://" +:+ site.
Definition parsedURLs (sites : list string) : list netURL := omap (λ site, match normalizeURL site with Ok u => Some u | Err _ => None end) sites.
Definition configureURLs (conf : httpConfig) : list netURL :=
  (if String.eqb (hm_Host conf) "" then [] else parsedURLs [clientURL conf]) ++ parsedURLs (map withScheme (hm_URLs conf)).
Definition configuredHTTP (conf : httpConfig) : HTTPConfig :=
  if String.eqb (hm_Host conf) "" then {| hc_UseHTTPS := true; hc_SNIServerName := hc_SNIServerName (hm_HTTP conf); hc_HTTPHeaders := hc_HTTPHeaders (hm_HTTP conf) |} else hm_HTTP conf.
(** The compiled expression: none, after an error too, which is only logged. *)
Definition configureRegex (Compile : string → res (string → bool)) (conf : httpConfig) : option (string → bool) :=
  if String.eqb (hm_Regex conf) "" then None else match Compile (hm_Regex conf) with Ok r => Some r | Err _ => None end.

(** ** The response *)

Record checkedResponse := { rs_URL : netURL; rs_StatusCode : Z; rs_Time : float64; rs_Body : res string }.
(** The result of building the client, the request with its host, and the exchange. *)
Record exchange := { xc_client : option error; xc_request : res string; xc_response : res checkedResponse }.
Definition equalFold (a b : string) : bool := String.eqb (ToLower a) (ToLower b).
(** The host that a header sets; with several spellings the last one of the range decides. *)
Definition requestHost (headers : list (string * string)) (reqHost : string) : string :=
  foldl (λ h kv, if equalFold kv.1 "host" then kv.2 else h) reqHost headers.

Record httpStats := { st_dps : list sfxDatapoint; st_redirect : option netURL; st_err : option error }.
Definition getHTTPStats (conf : httpConfig) (regex : option (string → bool)) (headers : list (string * string)) (x : exchange) : outcome httpStats :=
  let failed e := Done {| st_dps := []; st_redirect := None; st_err := Some e |} in
  match xc_client x with
  | Some e => failed e
  | None =>
      match xc_request x with
      | Err e => failed e
      | Ok reqHost =>
          match xc_response x with
          | Err e => failed e
          | Ok r =>
              let dims := <["method" := hm_Method conf]> {["req_host" := requestHost headers reqHost]} in
              let dps := [gauge dims "http.response_time" (FloatValue (rs_Time r)); gauge dims "http.status_code" (IntValue (rs_StatusCode r));
                          gauge dims "http.code_matched" (IntValue (if rs_StatusCode r =? hm_DesiredCode conf then 1 else 0))] in
              match rs_Body r with
              | Err e => Done {| st_dps := dps; st_redirect := Some (rs_URL r); st_err := Some e |}
              | Ok body =>
                  let dps := dps ++ [gauge dims "http.content_length" (IntValue (Z.of_nat (slen body)))] in
                  if String.eqb (hm_Regex conf) "" then Done {| st_dps := dps; st_redirect := Some (rs_URL r); st_err := None |}
                  else match regex with
                       | None => Panics
                       | Some re => Done {| st_dps := dps ++ [gauge dims "http.regex_matched" (IntValue (if re body then 1 else 0))]; st_redirect := Some (rs_URL r); st_err := None |}
                       end
              end
          end
      end
  end.

(** ** The certificate *)

(** The connection, the TLS configuration, and the handshake with the seconds left of the certificate. *)
Record tlsExchange := { tx_dial : option error; tx_config : option error; tx_handshake : res float64 }.
Definition tlsAddress (site : netURL) : string := Hostname site +:+ ":" +:+ (if String.eqb (Port site) "" then "443" else Port site).
Definition getTLSStats (zero : float64) (conf : HTTPConfig) (site : netURL) (x : tlsExchange) : res (list sfxDatapoint) :=
  let serverName := if String.eqb (hc_SNIServerName conf) "" then Hostname site else hc_SNIServerName conf in
  let dims := <["server_name" := Hostname site]> {["sni_server_name" := serverName]} in
  match tx_dial x with
  | Some e => Err e
  | None =>
      match tx_config x with
      | Some e => Err e
      | None =>
          let '(valid, secondsLeft) := match tx_handshake x with Ok s => (1, s) | Err _ => (0, zero) end in
          Ok [gauge dims "http.cert_expiry" (FloatValue secondsLeft); gauge dims "http.cert_valid" (IntValue valid)]
      end
  end.

(** ** The check of one URL *)

Definition withDimension (k v : string) (dp : sfxDatapoint) : sfxDatapoint :=
  {| sd_Metric := sd_Metric dp; sd_Type := sd_Type dp; sd_Value := sd_Value dp; sd_Time := sd_Time dp; sd_Dimensions := <[k := v]> (sd_Dimensions dp); sd_Meta := sd_Meta dp |}.
Definition redirectText (u : netURL) : string := u_Scheme u +:+ "://" +:+ Hostname u +:+ ":" +:+ Port u +:+ u_Path u +:+ queryText (u_RawQuery u).
(** The redirect dimension: a nil URL panics, and so does one that cannot be normalised. *)
Definition addRedirect (conf : httpConfig) (site : netURL) (redirect : option netURL) (dps : list sfxDatapoint) : outcome (list sfxDatapoint) :=
  if hm_AddRedirectURL conf && negb (hm_NoRedirects conf) then
    match redirect with
    | None => Panics
    | Some u =>
        match normalizeURL (redirectText u) with
        | Err _ => Panics
        | Ok n => Done (if String.eqb (urlString site) (urlString n) then dps else map (withDimension "redirect_url" (urlString n)) dps)
        end
    end
  else Done dps.
Definition checkSite (zero : float64) (conf : httpConfig) (regex : option (string → bool)) (headers : list (string * string)) (site : netURL) (x : exchange) (tx : tlsExchange) : outcome (list sfxDatapoint) :=
  s ← getHTTPStats conf regex headers x;
  let dps := match st_err s, st_redirect s with
             | None, Some u => if String.eqb (u_Scheme u) "https" then st_dps s ++ match getTLSStats zero (configuredHTTP conf) u tx with Ok l => l | Err _ => [] end else st_dps s
             | _, _ => st_dps s
             end in
  addRedirect conf site (st_redirect s) (map (withDimension "url" (urlString site)) dps).
End monitor.

(** ** Hosts and ports *)

Lemma LastIndexByte_none s c : ContainsByte s c = false → LastIndexByte s c = None.
Proof.
  unfold ContainsByte. induction s as [|d s IH]; [done|]. cbn [IndexByte LastIndexByte]. destruct (Ascii.eqb d c) eqn:Hd; [done|].
  destruct (IndexByte s c); [done|]. intros _. by rewrite IH.
Qed.
Lemma LastIndexByte_app s c t : ContainsByte t c = false → LastIndexByte (s +:+ String c t) c = Some (slen s).
Proof.
  intros Ht. induction s as [|d s IH].
  - change (LastIndexByte (String c t) c = Some O). cbn [LastIndexByte]. by rewrite (LastIndexByte_none t c Ht), Ascii.eqb_refl.
  - change (LastIndexByte (String d (s +:+ String c t)) c = Some (S (slen s))). cbn [LastIndexByte]. by rewrite IH.
Qed.
Lemma allDigits_colon s : allDigits s = true → ContainsByte s colon = false.
Proof.
  unfold ContainsByte. induction s as [|c s IH]; [done|]. cbn [allDigits IndexByte]. intros [Hc Hs]%andb_prop. destruct (Ascii.eqb_spec c colon) as [->|]; [done|]. specialize (IH Hs). by destruct (IndexByte s colon).
Qed.
(** A host name without colons and brackets. *)
Definition plain (host : string) : bool := negb (ContainsByte host colon) && negb (HasPrefix host "[").
Lemma plain_spec host : plain host = true → ContainsByte host colon = false ∧ unbracket host = host.
Proof. unfold plain, unbracket. intros [Hc Hb]%andb_prop. apply negb_true_iff in Hc, Hb. by rewrite Hb. Qed.
Lemma splitHostPort_plain host : plain host = true → splitHostPort host = (host, "").
Proof. intros [Hc Hb]%plain_spec. unfold splitHostPort. by rewrite (LastIndexByte_none _ _ Hc), Hb. Qed.
Lemma splitHostPort_port host port : plain host = true → allDigits port = true → splitHostPort (host +:+ ":" +:+ port) = (host, port).
Proof.
  intros [_ Hb]%plain_spec Hp. unfold splitHostPort. change (":" +:+ port) with (String colon port). rewrite (LastIndexByte_app _ _ _ (allDigits_colon _ Hp)).
  rewrite stake_app, <- (Nat.add_1_r (slen host)), sdrop_app_add.
  change (sdrop 1 (String colon port)) with port. by rewrite Hp, Hb.
Qed.

(** ** Normalised URLs *)

Definition render (u : netURL) : string := u_Scheme u +:+ "://" +:+ u_Host u +:+ u_Path u +:+ queryText (u_RawQuery u).
(** A URL of a host, a port or none, a path and a query. *)
Record siteParts := { sp_scheme : string; sp_host : string; sp_port : option string; sp_path : string; sp_query : string }.
Definition siteOf (p : siteParts) : netURL :=
  {| u_Scheme := sp_scheme p; u_Host := match sp_port p with Some port => sp_host p +:+ ":" +:+ port | None => sp_host p end; u_Path := sp_path p; u_RawQuery := sp_query p |}.
Definition defaultPort (port : option string) : bool := match port with None => true | Some p => String.eqb p "80" || String.eqb p "443" end.
Definition normalizedParts (p : siteParts) : siteParts :=
  {| sp_scheme := sp_scheme p; sp_host := sp_host p; sp_port := if defaultPort (sp_port p) then None else sp_port p; sp_path := if String.eqb (sp_path p) "" then "/" else sp_path p; sp_query := sp_query p |}.
Definition plainParts (p : siteParts) : bool := plain (sp_host p) && match sp_port p with Some port => allDigits port | None => true end.

Section urls.
Context (Parse : string → res netURL).
(** What is used of the parser: the sites of these parts, written out, are read back. *)
Definition parses (p : siteParts) : Prop := Parse (render (siteOf p)) = Ok (siteOf p).
Lemma hostOf_parts p : plainParts p = true → Hostname (siteOf p) = sp_host p ∧ Port (siteOf p) = default "" (sp_port p).
Proof.
  unfold Hostname, Port, siteOf. intros [Hh Hp]%andb_prop. destruct (sp_port p) as [port|]; cbn [u_Host]; [by rewrite splitHostPort_port | by rewrite splitHostPort_plain].
Qed.
Lemma host_differs host t : (host +:+ String colon t) ≠ host.
Proof. intros He. apply (f_equal slen) in He. rewrite slen_append in He. cbn in He. lia. Qed.
Lemma normalizeURL_parts p : plainParts p = true → parses p → parses (normalizedParts p) → normalizeURL Parse (render (siteOf p)) = Ok (siteOf (normalizedParts p)).
Proof.
  intros Hpl Hp Hn. destruct (hostOf_parts p Hpl) as [Hh Hpo]. unfold normalizeURL. rewrite Hp. cbn [mbind res_bind]. rewrite Hh, Hpo, <- Hn. f_equal.
  unfold render, siteOf, normalizedParts. cbn [u_Scheme u_Host u_Path u_RawQuery sp_scheme sp_host sp_port sp_path sp_query]. destruct (sp_port p) as [port|]; cbn [default defaultPort].
  - rewrite (proj2 (String.eqb_neq (sp_host p) (sp_host p +:+ ":" +:+ port))) by (intros He; symmetry in He; by apply host_differs in He). cbn [id]. destruct (String.eqb port "80"), (String.eqb port "443"); cbn [orb andb negb]; by rewrite ?append_assoc.
  - by rewrite String.eqb_refl.
Qed.
Definition redirectParts (p : siteParts) : siteParts :=
  {| sp_scheme := sp_scheme p; sp_host := sp_host p; sp_port := Some (default "" (sp_port p)); sp_path := sp_path p; sp_query := sp_query p |}.
Lemma redirectText_parts p : plainParts p = true → redirectText (siteOf p) = render (siteOf (redirectParts p)).
Proof. intros Hpl. unfold redirectText. destruct (hostOf_parts p Hpl) as [-> ->]. unfold render, siteOf, redirectParts. cbn. by rewrite !append_assoc. Qed.
Lemma redirectParts_plain p : plainParts p = true → plainParts (redirectParts p) = true.
Proof. unfold plainParts, redirectParts. cbn [sp_host sp_port]. intros [-> Hp]%andb_prop. by destruct (sp_port p). Qed.
End urls.

(** Whether a URL is redirected is decided on normalised URLs, but the normalised form of a URL with a default port ends its host in a colon:
    for a site without a port a response from the site itself is taken for a redirection, and only there. *)
Lemma unredirected_dimension Parse conf p dps : plainParts p = true → normalizedParts p = p → parses Parse (redirectParts p) → parses Parse (normalizedParts (redirectParts p)) →
  hm_AddRedirectURL conf = true → hm_NoRedirects conf = false →
  addRedirect Parse render conf (siteOf p) (Some (siteOf p)) dps = Done match sp_port p with
    | Some _ => dps
    | None => map (withDimension "redirect_url" (sp_scheme p +:+ "://" +:+ sp_host p +:+ ":" +:+ sp_path p +:+ queryText (sp_query p))) dps
    end.
Proof.
  intros Hpl Hnp Hr Hrn Ha Hno. unfold addRedirect. rewrite Ha, Hno. cbn [andb negb]. rewrite (redirectText_parts p Hpl), (normalizeURL_parts Parse _ (redirectParts_plain p Hpl) Hr Hrn).
  destruct p as [sch host port path q]. unfold normalizedParts in *. cbn [sp_scheme sp_host sp_port sp_path sp_query redirectParts] in *. injection Hnp as Hport Hpath. rewrite Hpath.
  destruct port as [port|]; cbn [default defaultPort] in *.
  - destruct (String.eqb port "80" || String.eqb port "443") eqn:Hd; [done|]. cbn [id]. rewrite Hd, String.eqb_refl. done.
  - cbn [String.eqb orb id]. rewrite (proj2 (String.eqb_neq _ _)).
    + unfold render, siteOf. cbn. by rewrite !append_assoc.
    + unfold render, siteOf. cbn. intros He. apply (f_equal slen) in He. rewrite !append_assoc, !slen_append in He. cbn in He. rewrite ?slen_append in He. cbn in He. lia.
Qed.

(** Normalising a site is stable: a normalised site is normalised to itself, a default port is dropped, another one and everything
    else is kept. *)
Theorem normalizeURL_stable Parse p : plainParts p = true → parses Parse p → parses Parse (normalizedParts p) →
  normalizeURL Parse (render (siteOf p)) = Ok (siteOf (normalizedParts p)) ∧ normalizeURL Parse (render (siteOf (normalizedParts p))) = Ok (siteOf (normalizedParts p)).
Proof.
  intros Hpl Hp Hn. split; [by apply normalizeURL_parts|].
  assert (Hnn : normalizedParts (normalizedParts p) = normalizedParts p).
  { unfold normalizedParts. cbn. f_equal; [|by destruct (String.eqb (sp_path p) "") eqn:Hpa; rewrite ?Hpa]. destruct (defaultPort (sp_port p)) eqn:Hd; [done|]. by rewrite Hd. }
  rewrite <- Hnn at 2. apply normalizeURL_parts; [|done|by rewrite Hnn]. unfold plainParts in *. cbn. destruct (defaultPort (sp_port p)); [by apply andb_prop in Hpl as [-> _] | done].
Qed.

(** ** Panics *)

(** A check panics in two cases only: a body is matched with an expression that did not compile, or the dimension of the redirection
    is wanted and there is no response, or the URL that answered cannot be normalised. *)
Lemma checkSite_panics Parse urlString zero conf regex headers site x tx :
  checkSite Parse urlString zero conf regex headers site x tx = Panics ↔
  getHTTPStats conf regex headers x = Panics ∨
  hm_AddRedirectURL conf = true ∧ hm_NoRedirects conf = false ∧
    ∃ s, getHTTPStats conf regex headers x = Done s ∧ match st_redirect s with None => True | Some u => is_ok (normalizeURL Parse (redirectText u)) = false end.
Proof.
  unfold checkSite. destruct (getHTTPStats conf regex headers x) as [s| |] eqn:Hg; cbn [mbind outcome_bind].
  - unfold addRedirect. destruct (hm_AddRedirectURL conf); cbn [andb].
    2: { split; [done|]. intros [?|(? & _)]; done. }
    destruct (hm_NoRedirects conf); cbn [negb]. { split; [done|]. intros [?|(_ & ? & _)]; done. }
    destruct (st_redirect s) as [u|] eqn:Hu.
    + destruct (normalizeURL Parse (redirectText u)) eqn:Hn; split; try done.
      * intros [?|(_ & _ & s' & [= <-] & Hs)]; [done|]. rewrite Hu, Hn in Hs. done.
      * intros _. right. split_and!; [done..|]. exists s. rewrite Hu, Hn. done.
    + split; [|done]. intros _. right. split_and!; [done..|]. exists s. by rewrite Hu.
  - split; [done|]. intros [?|(_ & _ & s & ? & _)]; done.
  - split; [by left | done].
Qed.
Lemma getHTTPStats_panics conf regex headers x : getHTTPStats conf regex headers x = Panics ↔
  hm_Regex conf ≠ "" ∧ regex = None ∧ xc_client x = None ∧ is_ok (xc_request x) = true ∧ ∃ r, xc_response x = Ok r ∧ is_ok (rs_Body r) = true.
Proof.
  unfold getHTTPStats. destruct (xc_client x); [split; [done | by intros (_ & _ & ? & _)]|]. destruct (xc_request x); [|split; [done | by intros (_ & _ & _ & ? & _)]].
  destruct (xc_response x) as [r|]; [|split; [done | by intros (_ & _ & _ & _ & r & ? & _)]]. destruct (rs_Body r) eqn:Hb.
  - destruct (String.eqb_spec (hm_Regex conf) ""); [split; [done | by intros (? & _)]|]. destruct regex; split; try done; [by intros (_ & ? & _) | intros _; split_and!; try done; exists r; by rewrite Hb].
  - split; [done|]. intros (_ & _ & _ & _ & r' & [= <-] & Hs). by rewrite Hb in Hs.
Qed.
(** So an expression that does not compile stops the whole agent at the first response. *)
Lemma bad_regex_panics Compile conf headers x e : hm_Regex conf ≠ "" → Compile (hm_Regex conf) = Err e → xc_client x = None → is_ok (xc_request x) = true →
  (∃ r, xc_response x = Ok r ∧ is_ok (rs_Body r) = true) → getHTTPStats conf (configureRegex Compile conf) headers x = Panics.
Proof. intros Hr Hc Hcl Hq Hx. apply getHTTPStats_panics. unfold configureRegex. rewrite (proj2 (String.eqb_neq _ _) Hr), Hc. done. Qed.
(** And a site that cannot be reached does, when the dimension of redirections is wanted. *)
Lemma unreachable_panics Parse urlString zero conf regex headers site x tx e : hm_AddRedirectURL conf = true → hm_NoRedirects conf = false → xc_client x = None → is_ok (xc_request x) = true →
  xc_response x = Err e → checkSite Parse urlString zero conf regex headers site x tx = Panics.
Proof.
  intros Ha Hn Hc Hq Hx. apply checkSite_panics. right. split_and!; [done..|]. unfold getHTTPStats. rewrite Hc, Hx. destruct (xc_request x); [|done]. by eexists.
Qed.

(** ** Witnesses *)

(** A parser of the plain URLs: up to the separators. *)
Definition cut (s sep : string) : string * string := match Index s sep with Some n => (stake n s, sdrop (n + slen sep) s) | None => (s, "") end.
Definition cutBefore (s sep : string) : string * string := match Index s sep with Some n => (stake n s, sdrop n s) | None => (s, "") end.
Definition plainParse (s : string) : res netURL :=
  let '(scheme, rest) := cut s "://" in let '(rest, query) := cut rest "?" in let '(host, path) := cutBefore rest "/" in
  Ok {| u_Scheme := scheme; u_Host := host; u_Path := path; u_RawQuery := query |}.
Definition demo_site : siteParts := {| sp_scheme := "https"; sp_host := "example.com"; sp_port := Some "443"; sp_path := ""; sp_query := "q=1" |}.
Lemma normalizeURL_stable_witness :
  normalizeURL plainParse "https://example.com:443?q=1" = Ok (siteOf (normalizedParts demo_site)) ∧
  normalizeURL plainParse "https://example.com/?q=1" = Ok (siteOf (normalizedParts demo_site)).
Proof. apply (normalizeURL_stable plainParse demo_site); reflexivity. Defined.
(** With http a port 443 is dropped as well: another server is checked. *)
Example http_443_loses_port : normalizeURL plainParse "http://example.com:443/" = plainParse "http://example.com/".
Proof. reflexivity. Qed.
Example ipv6_loses_brackets : (splitHostPort "[::1]:8080").1 = "::1".
Proof. reflexivity. Qed.
