(* ===== verification/JaegerGRPC.v ===== *)
(** * The jaeger gRPC monitor

    [src/internal/signalfx-agent/pkg/monitors/jaegergrpc]: the conversion of Jaeger batches to
    SignalFx spans ([jaegerprotobuf/trace_jaeger.go]) and the monitor's handler and listener
    ([monitor.go]).  The names of the OpenTracing tags, IP addresses, the text of floats, JSON and
    the parent of a span (a method of the Jaeger model) are parameters.  [Panics] is a run-time
    panic: an index out of range or a nil process. *)

From S2P Require Import Prelude GoStrings GoValue Outcome.
From Stdlib Require Import Ascii.
#[local] Open Scope Z_scope.

(** ** Identifiers *)

Definition hexChar (d : Z) : ascii := ascii_of_N (Z.to_N (if d <? 10 then 48 + d else 87 + d)).
(** [strconv.FormatUint(n, 16)]; 16 digits are enough for 64 bits. *)
Fixpoint hexDigits (fuel : nat) (n : Z) : string :=
  match fuel with
  | O => ""
  | S fuel => if n <? 16 then String (hexChar n) "" else hexDigits fuel (n / 16) +:+ String (hexChar (n mod 16)) ""
  end.
Definition FormatHex (n : Z) : string := hexDigits 16 n.
Definition pads : list string :=
  [""; "0"; "00"; "000"; "0000"; "00000"; "000000"; "0000000"; "00000000"; "000000000"; "0000000000"; "00000000000"; "000000000000"; "0000000000000"; "00000000000000"; "000000000000000"].
Definition padTo (expectedLen : nat) (id : string) : outcome string :=
  match pads !! (expectedLen - slen id)%nat with Some pad => Done (pad +:+ id) | None => Panics end.
Definition padID (id : string) : outcome string :=
  if (slen id <? 16)%nat then padTo 16 id
  else if ((16 <? slen id) && (slen id <? 32))%nat then padTo 32 id
  else Done id.

(** ** Tags *)

Inductive valueType := VString | VBool | VInt64 | VFloat64 | VBinary.
Record KeyValue := { kv_Key : string; kv_VType : valueType; kv_VStr : string; kv_VBool : bool; kv_VInt64 : Z; kv_VFloat64 : float64 }.
Record Endpoint := { e_ServiceName : option string; e_Ipv4 : option string; e_Ipv6 : option string; e_Port : option Z }.
Definition emptyEndpoint : Endpoint := {| e_ServiceName := None; e_Ipv4 := None; e_Ipv6 := None; e_Port := None |}.
Record Annotation := { an_Timestamp : Z; an_Value : option string }.
Record jaegerLog := { jl_UnixNano : Z; jl_Fields : list KeyValue }.
Record jaegerSpan := { js_TraceHigh : Z; js_TraceLow : Z; js_SpanID : Z; js_ParentSpanID : Z; js_Flags : Z; js_OperationName : string; js_UnixNano : Z; js_DurationNanos : Z;
  js_Tags : list KeyValue; js_Logs : list jaegerLog }.
Record jaegerProcess := { jp_ServiceName : string; jp_Tags : list KeyValue }.
Record Span := { s_TraceID : string; s_ID : string; s_ParentID : option string; s_Debug : option bool; s_Name : string; s_Timestamp : Z; s_Duration : Z; s_Kind : option string;
  s_LocalEndpoint : Endpoint; s_RemoteEndpoint : option Endpoint; s_Annotations : list Annotation; s_Tags : gmap string string }.

(** The names of the [ext] package. *)
Record extNames := { x_PeerHostIPv4 : string; x_PeerHostIPv6 : string; x_PeerPort : string; x_PeerService : string; x_SpanKind : string;
  x_Client : string; x_Server : string; x_Producer : string; x_Consumer : string }.

Section conversion.
(** [ParseIP] gives the text of [To4] of an address that parses: none for an IPv6 address. *)
Context (ext : extNames) (ParseIP : string → option (option string)) (FormatFloat : float64 → string) (Marshal : gmap string string → res string).

Definition convertKind (tag : KeyValue) : option string :=
  if String.eqb (kv_VStr tag) (x_Client ext) then Some "CLIENT" else if String.eqb (kv_VStr tag) (x_Server ext) then Some "SERVER"
  else if String.eqb (kv_VStr tag) (x_Producer ext) then Some "PRODUCER" else if String.eqb (kv_VStr tag) (x_Consumer ext) then Some "CONSUMER" else None.
Definition ipv4Text (z : Z) : string :=
  let u := z mod 2 ^ 32 in pretty (u / 2 ^ 24) +:+ "." +:+ pretty (u / 2 ^ 16 mod 256) +:+ "." +:+ pretty (u / 2 ^ 8 mod 256) +:+ "." +:+ pretty (u mod 256).
Definition convertPeerIPv4 (tag : KeyValue) : string :=
  match kv_VType tag with
  | VString => match ParseIP (kv_VStr tag) with Some (Some ip4) => ip4 | Some None => "<nil>" | None => "" end
  | VInt64 => ipv4Text (kv_VInt64 tag)
  | _ => ""
  end.
Definition int32 (z : Z) : Z := (z + 2 ^ 31) mod 2 ^ 32 - 2 ^ 31.
Definition parsePort16 (s : string) : option Z :=
  if String.eqb s "" then None else match digits_value 0 s with Some n => if n <? 2 ^ 16 then Some n else None | None => None end.
Definition convertPeerPort (tag : KeyValue) : Z :=
  match kv_VType tag with
  | VString => default 0 (parsePort16 (kv_VStr tag))
  | VInt64 => int32 (kv_VInt64 tag)
  | _ => 0
  end.
Definition tagValueToString (tag : KeyValue) : string :=
  match kv_VType tag with
  | VString => kv_VStr tag
  | VFloat64 => FormatFloat (kv_VFloat64 tag)
  | VBool => if kv_VBool tag then "true" else "false"
  | VInt64 => pretty (kv_VInt64 tag)
  | VBinary => ""
  end.

Record tagState := { ts_kind : option string; ts_remote : option Endpoint; ts_tags : gmap string string }.
Definition onRemote (f : Endpoint → Endpoint) (st : tagState) : tagState :=
  {| ts_kind := ts_kind st; ts_remote := Some (f (default emptyEndpoint (ts_remote st))); ts_tags := ts_tags st |}.
Definition processTag (st : tagState) (tag : KeyValue) : tagState :=
  let k := kv_Key tag in
  if String.eqb k (x_PeerHostIPv4 ext) then
    let ip := convertPeerIPv4 tag in
    if String.eqb ip "" then st else onRemote (λ e, {| e_ServiceName := e_ServiceName e; e_Ipv4 := Some ip; e_Ipv6 := e_Ipv6 e; e_Port := e_Port e |}) st
  else if String.eqb k (x_PeerHostIPv6 ext) then
    if String.eqb (kv_VStr tag) "" then st else onRemote (λ e, {| e_ServiceName := e_ServiceName e; e_Ipv4 := e_Ipv4 e; e_Ipv6 := Some (kv_VStr tag); e_Port := e_Port e |}) st
  else if String.eqb k (x_PeerPort ext) then
    let port := convertPeerPort tag in
    if port =? 0 then st else onRemote (λ e, {| e_ServiceName := e_ServiceName e; e_Ipv4 := e_Ipv4 e; e_Ipv6 := e_Ipv6 e; e_Port := Some port |}) st
  else if String.eqb k (x_PeerService ext) then
    onRemote (λ e, {| e_ServiceName := Some (kv_VStr tag); e_Ipv4 := e_Ipv4 e; e_Ipv6 := e_Ipv6 e; e_Port := e_Port e |}) st
  else if String.eqb k (x_SpanKind ext) then {| ts_kind := convertKind tag; ts_remote := ts_remote st; ts_tags := ts_tags st |}
  else
    let val := tagValueToString tag in
    if String.eqb val "" then st else {| ts_kind := ts_kind st; ts_remote := ts_remote st; ts_tags := <[k := val]> (ts_tags st) |}.
Definition processJaegerTags (s : jaegerSpan) : tagState := foldl processTag {| ts_kind := None; ts_remote := None; ts_tags := ∅ |} (js_Tags s).

Definition materializeWithJSON (logFields : list KeyValue) : res string :=
  let fields := foldl (λ m f, <[kv_Key f := tagValueToString f]> m) ∅ logFields in
  match fields !! "event" with
  | Some event => if (size fields =? 1)%nat then Ok event else Marshal fields
  | None => Marshal fields
  end.
Definition convertJaegerLogs (logs : list jaegerLog) : list Annotation :=
  map (λ l, {| an_Timestamp := Z.quot (jl_UnixNano l) 1000; an_Value := match materializeWithJSON (jl_Fields l) with Ok c => Some c | Err _ => None end |}) logs.

(** The tags of the process: its address, and the others over those of the span. *)
Definition processProcessTag (st : Endpoint * gmap string string) (t : KeyValue) : Endpoint * gmap string string :=
  if String.eqb (kv_Key t) "ip" && negb (String.eqb (kv_VStr t) "")
  then ({| e_ServiceName := e_ServiceName st.1; e_Ipv4 := Some (kv_VStr t); e_Ipv6 := e_Ipv6 st.1; e_Port := e_Port st.1 |}, st.2)
  else (st.1, <[kv_Key t := tagValueToString t]> st.2).
Definition jaegerProtoSpanToSFX (process : option jaegerProcess) (s : jaegerSpan) : outcome Span :=
  parent ← (if js_ParentSpanID s =? 0 then Done None else p ← padID (FormatHex (js_ParentSpanID s)); Done (Some p));
  match process with
  | None => Panics
  | Some p =>
      let st := processJaegerTags s in
      let '(local, tags) := foldl processProcessTag ({| e_ServiceName := Some (jp_ServiceName p); e_Ipv4 := None; e_Ipv6 := None; e_Port := None |}, ts_tags st) (jp_Tags p) in
      low ← padID (FormatHex (js_TraceLow s));
      traceID ← (if js_TraceHigh s =? 0 then Done low else padID (FormatHex (js_TraceHigh s) +:+ low));
      id ← padID (FormatHex (js_SpanID s));
      Done {| s_TraceID := traceID; s_ID := id; s_ParentID := parent; s_Debug := if Z.testbit (js_Flags s) 1 then Some true else None; s_Name := js_OperationName s;
              s_Timestamp := Z.quot (js_UnixNano s) 1000; s_Duration := Z.quot (js_DurationNanos s) 1000; s_Kind := ts_kind st; s_LocalEndpoint := local;
              s_RemoteEndpoint := ts_remote st; s_Annotations := convertJaegerLogs (js_Logs s); s_Tags := tags |}
  end.
Definition JaegerProtoBatchToSFX (process : option jaegerProcess) (spans : list jaegerSpan) : outcome (list Span) := mapM_outcome (jaegerProtoSpanToSFX process) spans.

(** ** monitor.go *)

(** The address of the peer, if its text splits and parses. *)
Definition extractRemoteAddressToContext {IP} (SplitHostPort : string → res (string * string)) (parse : string → option IP) (peer : option string) : option IP :=
  addr ← peer; if String.eqb addr "" then None else match SplitHostPort addr with Err _ => None | Ok (host, _) => parse host end.
(** [PostSpans]: the spans sent, with the address as their source. *)
Definition PostSpans {IP} (source : option IP) (request : option (option jaegerProcess * list jaegerSpan)) : outcome (option (list (Span * option IP))) :=
  match request with
  | None => Done None
  | Some (process, spans) => l ← JaegerProtoBatchToSFX process spans; Done (Some (map (λ s, (s, source)) l))
  end.
End conversion.

(** [setupListener]: tried at every interval until it listens or the context is cancelled; each element is the result of a try and
    whether the context is cancelled while waiting after it. *)
Fixpoint setupListener {L} (tries : list (res L * bool)) : option L :=
  match tries with
  | [] => None
  | (Ok ln, _) :: _ => Some ln
  | (Err _, cancelled) :: tries => if cancelled then None else setupListener tries
  end.

(** ** Identifiers are kept *)

Definition hexVal (c : ascii) : Z := let n := Z.of_N (N_of_ascii c) in if n <? 58 then n - 48 else n - 87.
Definition isHex (c : ascii) : bool := in_range "0" "9" c || in_range "a" "f" c.
Fixpoint allHex (s : string) : bool := match s with EmptyString => true | String c s => isHex c && allHex s end.
(** The number that a hexadecimal text means. *)
Fixpoint hexNumber (acc : Z) (s : string) : Z := match s with EmptyString => acc | String c s => hexNumber (16 * acc + hexVal c) s end.
Lemma hexChar_spec d : 0 ≤ d < 16 → hexVal (hexChar d) = d ∧ isHex (hexChar d) = true.
Proof.
  intros Hd. assert (Hall : forallb (λ n, let d := Z.of_nat n in (hexVal (hexChar d) =? d) && isHex (hexChar d)) (seq 0 16) = true) by (vm_compute; reflexivity).
  rewrite forallb_forall in Hall. specialize (Hall (Z.to_nat d) ltac:(apply in_seq; lia)). cbv zeta in Hall. rewrite Z2Nat.id in Hall by lia. apply andb_prop in Hall as [Hv Hh]. split; [by apply Z.eqb_eq | done].
Qed.
Lemma hexNumber_app s t : ∀ acc, hexNumber acc (s +:+ t) = hexNumber (hexNumber acc s) t.
Proof. induction s as [|c s IH]; intros acc; [done|]. apply IH. Qed.
Lemma allHex_app s t : allHex (s +:+ t) = allHex s && allHex t.
Proof. induction s as [|c s IH]; [done|]. change (isHex c && allHex (s +:+ t) = isHex c && allHex s && allHex t). by rewrite IH, andb_assoc. Qed.
Lemma hexNumber_acc s : ∀ acc, hexNumber acc s = acc * 16 ^ Z.of_nat (slen s) + hexNumber 0 s.
Proof.
  induction s as [|c s IH]; intros acc; cbn [hexNumber]; [change (slen "") with O; lia|]. rewrite IH, (IH (16 * 0 + _)). change (slen (String c s)) with (S (slen s)). rewrite Nat2Z.inj_succ, Z.pow_succ_r by lia. ring.
Qed.
Lemma hexDigits_spec fuel : ∀ n, 0 ≤ n < 16 ^ Z.of_nat (S fuel) →
  let s := hexDigits (S fuel) n in hexNumber 0 s = n ∧ allHex s = true ∧ (1 ≤ slen s ≤ S fuel)%nat.
Proof.
  induction fuel as [|fuel IH]; intros n Hn; cbn zeta.
  - change (16 ^ Z.of_nat 1) with 16 in Hn. cbn [hexDigits]. rewrite (proj2 (Z.ltb_lt n 16)) by lia. destruct (hexChar_spec n) as [Hv Hh]; [lia|]. cbn [hexNumber allHex]. rewrite Hv, Hh. split_and!; [lia | done | cbn; lia..].
  - remember (S fuel) as f. cbn [hexDigits]. destruct (Z.ltb_spec n 16).
    + destruct (hexChar_spec n) as [Hv Hh]; [lia|]. cbn [hexNumber allHex]. rewrite Hv, Hh. split_and!; [lia | done | cbn; lia..].
    + assert (Hq : 0 ≤ n / 16 < 16 ^ Z.of_nat f).
      { rewrite (Nat2Z.inj_succ f), Z.pow_succ_r in Hn by lia. split; [apply Z.div_pos; lia | apply Z.div_lt_upper_bound; lia]. }
      destruct (IH (n / 16) Hq) as (Hnum & Hhex & Hlen). pose proof (Z.mod_pos_bound n 16 ltac:(lia)). destruct (hexChar_spec (n mod 16)) as [Hv Hh]; [lia|].
      rewrite hexNumber_app, allHex_app, Hhex, Hnum, slen_append. cbn [hexNumber allHex]. rewrite Hv, Hh. split_and!; [pose proof (Z.div_mod n 16); lia | done | cbn; lia..].
Qed.
Lemma FormatHex_spec n : 0 ≤ n < 2 ^ 64 → hexNumber 0 (FormatHex n) = n ∧ allHex (FormatHex n) = true ∧ (1 ≤ slen (FormatHex n) ≤ 16)%nat.
Proof. intros Hn. apply (hexDigits_spec 15). exact Hn. Qed.
Lemma pads_spec i : (i < 16)%nat → ∃ pad, pads !! i = Some pad ∧ slen pad = i ∧ hexNumber 0 pad = 0 ∧ allHex pad = true.
Proof. intros Hi. do 16 (destruct i as [|i]; [by eexists|]). lia. Qed.
(** An identifier of 64 or 128 bits. *)
Definition identifies (id : string) (n : Z) : Prop := hexNumber 0 id = n ∧ allHex id = true.
Lemma padTo_spec len id n : identifies id n → (slen id ≤ len)%nat → (len - slen id < 16)%nat → ∃ id', padTo len id = Done id' ∧ identifies id' n ∧ slen id' = len.
Proof.
  intros [Hn Hh] Hle Hlt. unfold padTo. destruct (pads_spec _ Hlt) as (pad & -> & Hl & Hz & Hp). eexists. split; [done|]. unfold identifies. rewrite hexNumber_app, allHex_app, slen_append, Hz, Hp, Hn, Hh, Hl. split; [done | lia].
Qed.
Lemma padID_spec id n : identifies id n → (1 ≤ slen id ≤ 32)%nat → ∃ id', padID id = Done id' ∧ identifies id' n ∧ slen id' = (if slen id <=? 16 then 16 else 32)%nat.
Proof.
  intros Hid Hl. unfold padID. destruct (Nat.ltb_spec (slen id) 16); [destruct (padTo_spec 16 id n Hid) as (id' & -> & ? & ?); [lia..|]; exists id'; rewrite (proj2 (Nat.leb_le (slen id) 16)) by lia; done|].
  destruct (Nat.ltb_spec 16 (slen id)) as [Hgt|Hle]; cbn [andb].
  - rewrite (proj2 (Nat.leb_gt (slen id) 16)) by lia. destruct (Nat.ltb_spec (slen id) 32); [destruct (padTo_spec 32 id n Hid) as (id' & -> & ? & ?); [lia..|]; by exists id'|].
    exists id. split_and!; [done | done | lia].
  - exists id. rewrite (proj2 (Nat.leb_le (slen id) 16)) by lia. split_and!; [done | done | lia].
Qed.
Lemma padHex n : 0 ≤ n < 2 ^ 64 → ∃ id, padID (FormatHex n) = Done id ∧ identifies id n ∧ slen id = 16%nat.
Proof.
  intros Hn. destruct (FormatHex_spec n Hn) as (Hv & Hh & Hl). destruct (padID_spec (FormatHex n) n) as (id & Hp & Hi & Hlen); [done | lia|]. exists id. by rewrite (proj2 (Nat.leb_le _ 16)) in Hlen by lia.
Qed.

(** The identifiers of a Jaeger span fit in their widths. *)
Definition span_in_range (s : jaegerSpan) : Prop :=
  0 ≤ js_TraceHigh s < 2 ^ 64 ∧ 0 ≤ js_TraceLow s < 2 ^ 64 ∧ 0 ≤ js_SpanID s < 2 ^ 64 ∧ 0 ≤ js_ParentSpanID s < 2 ^ 64.
Lemma traceID_spec high low : 0 ≤ high < 2 ^ 64 → 0 ≤ low < 2 ^ 64 → ∃ l id, padID (FormatHex low) = Done l ∧
  (if high =? 0 then Done l else padID (FormatHex high +:+ l)) = Done id ∧ identifies id (high * 2 ^ 64 + low) ∧ slen id = (if (high =? 0)%Z then 16 else 32)%nat.
Proof.
  intros Hh Hl. destruct (padHex low Hl) as (l & Hp & [Hv Hx] & Hlen). exists l. destruct (Z.eqb_spec high 0) as [->|Hne]; [by exists l|].
  destruct (FormatHex_spec high Hh) as (Hvh & Hxh & Hlh). destruct (padID_spec (FormatHex high +:+ l) (high * 2 ^ 64 + low)) as (id & Hpi & Hi & Hli).
  - split; [|by rewrite allHex_app, Hxh]. rewrite hexNumber_app, hexNumber_acc, Hvh, Hv, Hlen. done.
  - rewrite slen_append, Hlen. lia.
  - exists id. rewrite slen_append, Hlen, (proj2 (Nat.leb_gt _ 16)) in Hli by lia. done.
Qed.

(** C37: Converting a Jaeger span that has a process never fails and keeps its identity: the identifiers are 16 lower-case hexadecimal
    digits, 32 for a trace of 128 bits, that denote the numbers of the Jaeger span, leading zeros included; there is a parent
    exactly when there was one. *)
Theorem span_ids_kept ext ParseIP FormatFloat Marshal p s : span_in_range s →
  ∃ sp, jaegerProtoSpanToSFX ext ParseIP FormatFloat Marshal (Some p) s = Done sp ∧
    identifies (s_TraceID sp) (js_TraceHigh s * 2 ^ 64 + js_TraceLow s) ∧ slen (s_TraceID sp) = (if (js_TraceHigh s =? 0)%Z then 16 else 32)%nat ∧
    identifies (s_ID sp) (js_SpanID s) ∧ slen (s_ID sp) = 16%nat ∧
    match s_ParentID sp with None => js_ParentSpanID s = 0 | Some id => js_ParentSpanID s ≠ 0 ∧ identifies id (js_ParentSpanID s) ∧ slen id = 16%nat end.
Proof.
  intros (Hh & Hl & Hi & Hp). unfold jaegerProtoSpanToSFX. destruct (traceID_spec _ _ Hh Hl) as (l & tid & Hpl & Htid & Ht & Htl). destruct (padHex _ Hi) as (id & Hpi & Hid & Hil).
  destruct (foldl (processProcessTag FormatFloat) _ _) as [local tags]. rewrite Hpl. cbn [mbind outcome_bind]. rewrite Htid. cbn [mbind outcome_bind]. rewrite Hpi. cbn [mbind outcome_bind].
  destruct (Z.eqb_spec (js_ParentSpanID s) 0) as [Hz|Hz]; cbn [mbind outcome_bind].
  - eexists. split; [done|]. done.
  - destruct (padHex _ Hp) as (pid & -> & Hpid & Hpll). cbn [mbind outcome_bind]. eexists. split; [done|]. done.
Qed.
(** So two spans with the same identifiers after the conversion had the same before. *)
Lemma identifies_inj id n m : identifies id n → identifies id m → n = m.
Proof. intros [<- _] [<- _]. done. Qed.

(** ** Tags *)

Section tags.
Context (ext : extNames) (ParseIP : string → option (option string)) (FormatFloat : float64 → string) (Marshal : gmap string string → res string).
Definition special (k : string) : bool :=
  String.eqb k (x_PeerHostIPv4 ext) || String.eqb k (x_PeerHostIPv6 ext) || String.eqb k (x_PeerPort ext) || String.eqb k (x_PeerService ext) || String.eqb k (x_SpanKind ext).
(** The last of the tags with this key whose value is not empty. *)
Definition lastTag (k : string) (tags : list KeyValue) : option string :=
  last (omap (λ t, if String.eqb (kv_Key t) k && negb (String.eqb (tagValueToString FormatFloat t) "") then Some (tagValueToString FormatFloat t) else None) tags).
Lemma processTag_tags st t : ts_tags (processTag ext ParseIP FormatFloat st t) =
  if special (kv_Key t) || String.eqb (tagValueToString FormatFloat t) "" then ts_tags st else <[kv_Key t := tagValueToString FormatFloat t]> (ts_tags st).
Proof. unfold processTag, special, onRemote. repeat (case_match; cbn [ts_tags orb]; try done). Qed.
Lemma processTags_lookup tags k : ∀ st, ts_tags (foldl (processTag ext ParseIP FormatFloat) st tags) !! k =
  if special k then ts_tags st !! k else match lastTag k tags with Some v => Some v | None => ts_tags st !! k end.
Proof.
  induction tags as [|t tags IH]; intros st; cbn [foldl]. { unfold lastTag. cbn. by destruct (special k). }
  rewrite IH, processTag_tags. unfold lastTag. cbn [omap list_omap]. destruct (String.eqb_spec (kv_Key t) k) as [->|Hne]; cbn [andb].
  - destruct (special k) eqn:Hs; cbn [orb]; [done|]. destruct (String.eqb (tagValueToString FormatFloat t) "") eqn:He; cbn [negb]; [done|]. rewrite last_cons. destruct (last _); [done|]. by rewrite lookup_insert_eq.
  - destruct (special k); [|destruct (last _); [done|]]; destruct (special (kv_Key t) || _); [done | by rewrite lookup_insert_ne | done | by rewrite lookup_insert_ne].
Qed.
(** A tag that has no meaning of its own is kept: with its last value that is not empty. *)
Lemma ordinary_tags_kept s k : special k = false → ts_tags (processJaegerTags ext ParseIP FormatFloat s) !! k = lastTag k (js_Tags s).
Proof. intros Hk. unfold processJaegerTags. rewrite processTags_lookup, Hk. cbn. rewrite lookup_empty. by destruct (lastTag k (js_Tags s)). Qed.
(** A batch with spans and no process stops the process that serves it. *)
Lemma batch_without_process_panics {IP} (source : option IP) s spans : span_in_range s → PostSpans ext ParseIP FormatFloat Marshal source (Some (None, s :: spans)) = Panics.
Proof.
  intros (_ & _ & _ & Hp). unfold PostSpans, JaegerProtoBatchToSFX, jaegerProtoSpanToSFX. cbn [mapM_outcome]. destruct (js_ParentSpanID s =? 0); [done|]. by destruct (padHex _ Hp) as (id & -> & _).
Qed.
(** An IPv6 address in the tag of an IPv4 address is sent as the text of a nil address. *)
Lemma ipv6_in_ipv4_tag tag : kv_VType tag = VString → ParseIP (kv_VStr tag) = Some None → convertPeerIPv4 ParseIP tag = "<nil>".
Proof. intros Ht Hp. unfold convertPeerIPv4. by rewrite Ht, Hp. Qed.
End tags.

(** ** Witnesses *)

Definition demo_ext : extNames := {| x_PeerHostIPv4 := "peer.ipv4"; x_PeerHostIPv6 := "peer.ipv6"; x_PeerPort := "peer.port"; x_PeerService := "peer.service"; x_SpanKind := "span.kind";
  x_Client := "client"; x_Server := "server"; x_Producer := "producer"; x_Consumer := "consumer" |}.
Definition demo_jspan : jaegerSpan := {| js_TraceHigh := 1; js_TraceLow := 2748; js_SpanID := 255; js_ParentSpanID := 0; js_Flags := 3; js_OperationName := "get"; js_UnixNano := 1500; js_DurationNanos := 2500;
  js_Tags := [{| kv_Key := "peer.ipv4"; kv_VType := VInt64; kv_VStr := ""; kv_VBool := false; kv_VInt64 := 2130706433; kv_VFloat64 := S754_nan |};
              {| kv_Key := "span.kind"; kv_VType := VString; kv_VStr := "client"; kv_VBool := false; kv_VInt64 := 0; kv_VFloat64 := S754_nan |}]; js_Logs := [] |}.
Definition demo_process : jaegerProcess := {| jp_ServiceName := "svc"; jp_Tags := [] |}.
Lemma span_ids_kept_witness : ∃ sp, jaegerProtoSpanToSFX demo_ext (λ _, None) (λ _, "") (λ _, Ok "") (Some demo_process) demo_jspan = Done sp ∧ identifies (s_TraceID sp) (2 ^ 64 + 2748) ∧ slen (s_TraceID sp) = 32%nat.
Proof.
  destruct (span_ids_kept demo_ext (λ _, None) (λ _, "") (λ _, Ok "") demo_process demo_jspan) as (sp & Hs & Ht & Hl & _).
  - split_and!; vm_compute; done.
  - exists sp. split; [exact Hs|]. split; [exact Ht | exact Hl].
Defined.
Example converted_span : match jaegerProtoSpanToSFX demo_ext (λ _, None) (λ _, "") (λ _, Ok "") (Some demo_process) demo_jspan with
  | Done sp => s_TraceID sp = "00000000000000010000000000000abc" ∧ s_ID sp = "00000000000000ff" ∧ s_Kind sp = Some "CLIENT" ∧ (s_RemoteEndpoint sp ≫= e_Ipv4) = Some "127.0.0.1" ∧ s_Debug sp = Some true
  | _ => False end.
Proof. vm_compute. done. Qed.
