(* ===== verification/PrometheusExporter.v ===== *)
(** * The prometheus exporter monitor

    [src/internal/signalfx-agent/pkg/monitors/prometheusexporter]: the conversion of metric families
    to data points ([conversion.go]) and the scrape ([prometheus.go]).  The decoder of the
    exposition format is a parameter: a scrape gives the families it decodes up to its end or an
    error.  Optional protobuf fields are options; their getters give zero. *)

From S2P Require Import Prelude GoStrings GoValue Settings Telemetry SmartAgent HostMonitors.
From Stdlib Require Import Ascii.
#[local] Open Scope Z_scope.

Inductive peType := DtoGauge | DtoCounter | DtoUntyped | DtoSummary | DtoHistogram | DtoOther.
Record dtoQuantile := { q_Quantile : float64; q_Value : float64 }.
Record dtoBucket := { bk_UpperBound : float64; bk_CumulativeCount : Z }.
Record peSummary := { sm_SampleCount : option Z; sm_SampleSum : option float64; sm_Quantile : list dtoQuantile }.
Record peHistogram := { hg_SampleCount : option Z; hg_SampleSum : option float64; hg_Bucket : list dtoBucket }.
Record peMetric := { dm_Label : list (string * string); dm_Gauge : option float64; dm_Counter : option float64; dm_Untyped : option float64; dm_Summary : option peSummary; dm_Histogram : option peHistogram }.
Record MetricFamily := { mf_Name : option string; mf_Type : option peType; mf_Metric : list peMetric }.

Section conversion.
Context (zero : float64) (FormatFloat6 : float64 → string).
Definition gaugeExtractor (m : peMetric) : float64 := default zero (dm_Gauge m).
Definition untypedExtractor (m : peMetric) : float64 := default zero (dm_Untyped m).
Definition counterExtractor (m : peMetric) : float64 := default zero (dm_Counter m).
Definition labelsToDims (labels : list (string * string)) : gmap string string := foldl (λ dims l, <[l.1 := l.2]> dims) ∅ labels.
Definition makeSimpleDatapoints (name : string) (ms : list peMetric) (t : sfxMetricType) (e : peMetric → float64) : list sfxDatapoint :=
  map (λ m, mkDatapoint name t (FloatValue (e m)) (labelsToDims (dm_Label m))) ms.
(** [int64] of an unsigned count. *)
Definition cumulative (name : string) (dims : gmap string string) (n : Z) : sfxDatapoint := mkDatapoint name Counter (IntValue (wrap64 n)) dims.
Definition countAndSum (name : string) (dims : gmap string string) (count : option Z) (sum : option float64) : list sfxDatapoint :=
  match count with Some n => [cumulative (name +:+ "_count") dims n] | None => [] end ++
  match sum with Some f => [mkDatapoint name Counter (FloatValue f) dims] | None => [] end.
Definition summaryDatapoints (name : string) (m : peMetric) : list sfxDatapoint :=
  let dims := labelsToDims (dm_Label m) in
  match dm_Summary m with
  | None => []
  | Some s => countAndSum name dims (sm_SampleCount s) (sm_SampleSum s) ++
      map (λ q, mkDatapoint (name +:+ "_quantile") Gauge (FloatValue (q_Value q)) (<["quantile" := FormatFloat6 (q_Quantile q)]> dims)) (sm_Quantile s)
  end.
Definition makeSummaryDatapoints (name : string) (ms : list peMetric) : list sfxDatapoint := flat_map (summaryDatapoints name) ms.
Definition histogramDatapoints (name : string) (m : peMetric) : list sfxDatapoint :=
  let dims := labelsToDims (dm_Label m) in
  match dm_Histogram m with
  | None => []
  | Some h => countAndSum name dims (hg_SampleCount h) (hg_SampleSum h) ++
      map (λ b, cumulative (name +:+ "_bucket") (<["upper_bound" := FormatFloat6 (bk_UpperBound b)]> dims) (bk_CumulativeCount b)) (hg_Bucket h)
  end.
Definition makeHistogramDatapoints (name : string) (ms : list peMetric) : list sfxDatapoint := flat_map (histogramDatapoints name) ms.
Definition convertMetricFamily (mf : MetricFamily) : list sfxDatapoint :=
  match mf_Type mf, mf_Name mf with
  | Some t, Some name =>
      match t with
      | DtoGauge => makeSimpleDatapoints name (mf_Metric mf) Gauge gaugeExtractor
      | DtoCounter => makeSimpleDatapoints name (mf_Metric mf) Counter counterExtractor
      | DtoUntyped => makeSimpleDatapoints name (mf_Metric mf) Gauge untypedExtractor
      | DtoSummary => makeSummaryDatapoints name (mf_Metric mf)
      | DtoHistogram => makeHistogramDatapoints name (mf_Metric mf)
      | DtoOther => []
      end
  | _, _ => []
  end.

(** ** The scrape *)

Record exporterConfig := { ec_UseHTTPS : bool; ec_Host : string; ec_Port : Z; ec_MetricPath : string; ec_UseServiceAccount : bool; ec_SendAllMetrics : bool }.
Definition exporterURL (c : exporterConfig) : string :=
  (if ec_UseHTTPS c then "https" else "http") +:+ "://" +:+ ec_Host c +:+ ":" +:+ pretty (ec_Port c) +:+ ec_MetricPath c.
Definition exporter_GetExtraMetrics (c : exporterConfig) : list string := if ec_SendAllMetrics c then ["*"] else [].
(** The token of the service account, an error if there is none. *)
Definition bearerToken (inCluster : res string) (c : exporterConfig) : res string :=
  if ec_UseServiceAccount c then token ← inCluster; if String.eqb token "" then Err (Errorf "bearer token was empty" []) else Ok token else Ok "".
Inductive bodyFormat := FmtProtoDelim | FmtText.
Record peScrape := { sc_request : option error; sc_response : res Z; sc_body : string; sc_format : bodyFormat }.
Definition pe_fetch (c : exporterConfig) (x : peScrape) : res (string * bodyFormat) :=
  match sc_request x with
  | Some e => Err e
  | None =>
      status ← sc_response x;
      if status =? 200 then Ok (sc_body x, sc_format x)
      else Err (Errorf "prometheus exporter at %s returned status %d: %s" [exporterURL c; pretty status; sc_body x])
  end.
(** The decoder's calls: families until the end, or an error. *)
Context (decode : bodyFormat → string → list MetricFamily * option error).
Definition pe_doFetch (r : res (string * bodyFormat)) : res (list MetricFamily) :=
  '(body, format) ← r;
  let text := match format with FmtProtoDelim => body | FmtText => body +:+ String "010"%char "" end in
  match decode format text with (mfs, None) => Ok mfs | (_, Some e) => Err e end.
Definition fetchPrometheusMetrics (r : res (string * bodyFormat)) : res (list sfxDatapoint) := mfs ← pe_doFetch r; Ok (flat_map convertMetricFamily mfs).
(** One interval: the points sent. *)
Definition exporter_collect (c : exporterConfig) (x : peScrape) : list sfxDatapoint := match fetchPrometheusMetrics (pe_fetch c x) with Ok dps => dps | Err _ => [] end.

(** ** What is sent *)

Lemma labelsToDims_lookup labels k : labelsToDims labels !! k = last (omap (λ l, if String.eqb l.1 k then Some l.2 else None) labels).
Proof.
  assert (Hgen : ∀ m : gmap string string, foldl (λ dims (l : string * string), <[l.1 := l.2]> dims) m labels !! k =
    match last (omap (λ l, if String.eqb l.1 k then Some l.2 else None) labels) with Some v => Some v | None => m !! k end).
  { induction labels as [|l labels IH]; intros m; [done|]. cbn [foldl omap list_omap]. rewrite IH. destruct (String.eqb_spec l.1 k) as [->|Hne].
    - rewrite last_cons. destruct (last _); [done|]. by rewrite lookup_insert_eq.
    - destruct (last _); [done|]. by rewrite lookup_insert_ne. }
  unfold labelsToDims. rewrite Hgen, lookup_empty. by destruct (last _).
Qed.
(** The number of points of a metric: one of a simple metric; the count, the sum and the parts of the others. *)
Definition pointsOf (t : peType) (m : peMetric) : nat :=
  match t with
  | DtoGauge | DtoCounter | DtoUntyped => 1
  | DtoSummary => match dm_Summary m with None => 0 | Some s => length (option_list (sm_SampleCount s)) + length (option_list (sm_SampleSum s)) + length (sm_Quantile s) end
  | DtoHistogram => match dm_Histogram m with None => 0 | Some h => length (option_list (hg_SampleCount h)) + length (option_list (hg_SampleSum h)) + length (hg_Bucket h) end
  | DtoOther => 0
  end.
Lemma countAndSum_length name dims c s : length (countAndSum name dims c s) = (length (option_list c) + length (option_list s))%nat.
Proof. by destruct c, s. Qed.
Lemma flat_map_length_sum {A B} (f : A → list B) l : length (flat_map f l) = sum_list (map (length ∘ f) l).
Proof. induction l as [|x l IH]; [done|]. cbn. by rewrite length_app, IH. Qed.
Lemma convertMetricFamily_length mf t name : mf_Type mf = Some t → mf_Name mf = Some name → length (convertMetricFamily mf) = sum_list (map (pointsOf t) (mf_Metric mf)).
Proof.
  intros Ht Hn. unfold convertMetricFamily. rewrite Ht, Hn. destruct t; unfold makeSimpleDatapoints, makeSummaryDatapoints, makeHistogramDatapoints; rewrite ?length_map, ?flat_map_length_sum.
  1,2,3: induction (mf_Metric mf) as [|m ms IH]; [done|]; cbn in *; lia.
  - f_equal. apply map_ext. intros m. cbn. unfold summaryDatapoints. destruct (dm_Summary m); [|done]. by rewrite length_app, countAndSum_length, length_map.
  - f_equal. apply map_ext. intros m. cbn. unfold histogramDatapoints. destruct (dm_Histogram m); [|done]. by rewrite length_app, countAndSum_length, length_map.
  - induction (mf_Metric mf); done.
Qed.
(** A page that fails to decode gives nothing, even if families were decoded before the error. *)
Lemma broken_page_sends_nothing c x body f mfs e : pe_fetch c x = Ok (body, f) → decode f (match f with FmtProtoDelim => body | FmtText => body +:+ String "010"%char "" end) = (mfs, Some e) →
  exporter_collect c x = [].
Proof. intros Hf Hd. unfold exporter_collect, fetchPrometheusMetrics, pe_doFetch. rewrite Hf. cbn [mbind res_bind]. by rewrite Hd. Qed.
End conversion.
