(* ===== verification/ProcessList.v ===== *)
(** * The process list monitor

    [src/internal/signalfx-agent/pkg/monitors/processlist/processlist.go]: the cache of CPU times, the
    rows of the processes and the message of an event.  The list of processes of the operating
    system, compression and base64, the formatting of numbers with decimals and the clock are
    parameters; durations are nanoseconds. *)

From S2P Require Import Prelude GoStrings GoValue Settings Telemetry HostMonitors.
From Stdlib Require Import Ascii.
#[local] Open Scope Z_scope.

Definition dquote : ascii := "034".
Definition backslash : ascii := "092".
Definition dq : string := String dquote "".

(** ** Processes and the cache *)

Record TopProcess := { tp_ProcessID : Z; tp_CreatedTime : Z; tp_Username : string; tp_Priority : Z; tp_Nice : option Z; tp_VirtualMemoryBytes : Z; tp_WorkingSetSizeBytes : Z; tp_SharedMemBytes : Z;
  tp_Status : string; tp_MemPercent : float64; tp_TotalCPUTime : Z; tp_Command : string }.
Definition tp_key (p : TopProcess) : string := pretty (tp_ProcessID p) +:+ "|" +:+ tp_Command p.
Record plMonitor := { pl_lastCPUCounts : gmap string Z; pl_nextPurge : Z }.
Definition purgeInterval : Z := 3 * 60 * 10 ^ 9.
Definition pl_Configure (now : Z) : plMonitor := {| pl_lastCPUCounts := ∅; pl_nextPurge := now + purgeInterval |}.

Section list.
Context (format2 : float64 → string) (toTime : Z → string) (compress : string → res string) (base64 : string → string) (version : string).

(** The CPU time since the last sample and the time it is divided by: since the creation of a process that is not in the cache. *)
Definition cpuSince (now sampleInterval : Z) (p : TopProcess) (counts : gmap string Z) : Z * Z :=
  match counts !! tp_key p with
  | Some lastCPUCount => (tp_TotalCPUTime p - lastCPUCount, sampleInterval)
  | None => (tp_TotalCPUTime p, now - tp_CreatedTime p)
  end.
Definition cpuPercent (d : Z * Z) : float64 := fdiv (fmul (float_of_Z d.1) hundred) (float_of_Z d.2).
Definition quoted (s : string) : string := dq +:+ s +:+ dq.
Definition processRow (p : TopProcess) (percent : float64) : string :=
  quoted (pretty (tp_ProcessID p)) +:+ ":[" +:+
  Join [quoted (ReplaceByte (tp_Username p) dquote "'"); pretty (tp_Priority p); quoted (match tp_Nice p with None => "unknown" | Some n => pretty n end);
        pretty (tp_VirtualMemoryBytes p / 1024); pretty (tp_WorkingSetSizeBytes p / 1024); pretty (tp_SharedMemBytes p / 1024); quoted (tp_Status p); format2 percent;
        format2 (tp_MemPercent p); quoted (toTime (tp_TotalCPUTime p)); quoted (ReplaceByte (tp_Command p) dquote "'")] "," +:+ "]".
Definition encodeProcess (now sampleInterval : Z) (p : TopProcess) (counts : gmap string Z) : string * gmap string Z :=
  (processRow p (cpuPercent (cpuSince now sampleInterval p counts)), <[tp_key p := tp_TotalCPUTime p]> counts).
(** The rows with a comma after each, in the order of the list. *)
Fixpoint encodeRows (now sampleInterval : Z) (procs : list TopProcess) (counts : gmap string Z) : string * gmap string Z :=
  match procs with
  | [] => ("", counts)
  | p :: procs =>
      let '(row, counts) := encodeProcess now sampleInterval p counts in
      let '(rows, counts) := encodeRows now sampleInterval procs counts in (row +:+ "," +:+ rows, counts)
  end.
(** The last comma becomes the closing brace; backslashes are doubled. *)
Definition encodedList (rows : string) : string := let all := "{" +:+ rows in stake (slen all - 1) all +:+ "}".
Definition escaped (s : string) : string := ReplaceByte s backslash (String backslash (String backslash "")).
Definition encodeEventMessage (now sampleInterval : Z) (procs : list TopProcess) (m : plMonitor) : res string * plMonitor :=
  match procs with
  | [] => (Err (Errorf "no processes to encode" []), m)
  | _ =>
      let '(rows, counts) := encodeRows now sampleInterval procs (pl_lastCPUCounts m) in
      let m := {| pl_lastCPUCounts := counts; pl_nextPurge := pl_nextPurge m |} in
      (match compress (escaped (encodedList rows)) with
       | Err e => Err (Wrapf "couldn't compress process list: %v" [] e)
       | Ok c => Ok ("{" +:+ quoted "t" +:+ ":" +:+ quoted (base64 c) +:+ "," +:+ quoted "v" +:+ ":" +:+ quoted version +:+ "}")
       end, m)
  end.
Definition purgeCPUCache (procs : list TopProcess) (counts : gmap string Z) : gmap string Z :=
  filter (λ kv, kv.1 ∈ map tp_key procs) counts.
(** One interval: the message of the event, none when the processes cannot be listed; after an error of the encoding an event
    with an empty message is sent. *)
Definition pl_collect (now sampleInterval : Z) (list : res (list TopProcess)) (m : plMonitor) : option string * plMonitor :=
  match list with
  | Err _ => (None, m)
  | Ok procs =>
      let '(r, m) := encodeEventMessage now sampleInterval procs m in
      let message := match r with Ok s => s | Err _ => "" end in
      if pl_nextPurge m <? now then (Some message, {| pl_lastCPUCounts := purgeCPUCache procs (pl_lastCPUCounts m); pl_nextPurge := now + purgeInterval |}) else (Some message, m)
  end.

(** ** The cache *)

Definition listed (procs : list TopProcess) (k : string) : option Z := last (omap (λ p, if String.eqb (tp_key p) k then Some (tp_TotalCPUTime p) else None) procs).
Lemma encodeRows_cache now si procs k : ∀ counts, (encodeRows now si procs counts).2 !! k = match listed procs k with Some t => Some t | None => counts !! k end.
Proof.
  induction procs as [|p procs IH]; intros counts; [done|]. cbn [encodeRows encodeProcess]. specialize (IH (<[tp_key p := tp_TotalCPUTime p]> counts)).
  destruct (encodeRows now si procs _) as [rows counts']. cbn [snd] in *. rewrite IH. unfold listed. cbn [omap list_omap]. destruct (String.eqb_spec (tp_key p) k) as [->|Hne].
  - rewrite last_cons. destruct (last _); [done|]. by rewrite lookup_insert_eq.
  - destruct (last _); [done|]. by rewrite lookup_insert_ne.
Qed.
Lemma listed_in procs k : is_Some (listed procs k) ↔ k ∈ map tp_key procs.
Proof.
  unfold listed. induction procs as [|p procs IH]; cbn [omap list_omap map]; [split; [by intros [] | by intros ?%not_elem_of_nil]|]. rewrite elem_of_cons. destruct (String.eqb_spec (tp_key p) k) as [->|Hne].
  - rewrite last_cons. split; [by left|]. intros _. by destruct (last _).
  - rewrite IH. split; [by right | by intros [->|]].
Qed.
(** What the cache of a monitor holds after a list of processes was sent. *)
Definition remembers (procs : list TopProcess) (old new : gmap string Z) : Prop :=
  (∀ k t, listed procs k = Some t → new !! k = Some t) ∧ (∀ k t, new !! k = Some t → listed procs k = Some t ∨ listed procs k = None ∧ old !! k = Some t).
End list.

(** After an interval the cache has the CPU time of every listed process, and nothing else but what it had; when the purge is due, every
    three minutes, only the listed processes are left, so that the percentages are computed from the last sample of the same
    process and the cache does not grow with the processes that ended. *)
Theorem process_cache_correct format2 toTime compress base64 version now si procs m : procs ≠ [] →
  let m' := (pl_collect format2 toTime compress base64 version now si (Ok procs) m).2 in
  remembers procs (pl_lastCPUCounts m) (pl_lastCPUCounts m') ∧
  (pl_nextPurge m < now → (∀ k, is_Some (pl_lastCPUCounts m' !! k) ↔ k ∈ map tp_key procs) ∧ pl_nextPurge m' = now + purgeInterval) ∧
  (now ≤ pl_nextPurge m → pl_nextPurge m' = pl_nextPurge m ∧ dom (pl_lastCPUCounts m) ⊆ dom (pl_lastCPUCounts m')).
Proof.
  intros Hne. unfold pl_collect, encodeEventMessage. destruct procs as [|p procs]; [done|]. clear Hne. remember (p :: procs) as l eqn:Hl.
  pose proof (λ k, encodeRows_cache format2 toTime now si l k (pl_lastCPUCounts m)) as Hc. destruct (encodeRows format2 toTime now si l (pl_lastCPUCounts m)) as [rows counts]. cbn [snd] in Hc.
  assert (Hcounts : remembers l (pl_lastCPUCounts m) counts).
  { split; intros k t; rewrite Hc; [by intros ->|]. destruct (listed l k); [by left | by right]. }
  subst l. cbn zeta. cbn [pl_nextPurge pl_lastCPUCounts]. destruct (Z.ltb_spec (pl_nextPurge m) now) as [Hlt|Hle]; cbn [snd pl_nextPurge pl_lastCPUCounts].
  - assert (Hp : ∀ k, purgeCPUCache (p :: procs) counts !! k = listed (p :: procs) k).
    { intros k. unfold purgeCPUCache. destruct (listed (p :: procs) k) as [t|] eqn:Hk.
      - apply map_lookup_filter_Some. rewrite Hc, Hk. split; [done|]. apply (listed_in (p :: procs) k). by rewrite Hk.
      - apply map_lookup_filter_None. right. intros t _ Hin. apply (listed_in (p :: procs) k) in Hin. rewrite Hk in Hin. by destruct Hin. }
    split_and!; [|intros _; split; [intros k; rewrite Hp; apply listed_in | done] | lia]. split; intros k t; rewrite Hp; [done | by left].
  - split_and!; [done | lia|]. intros _. split; [done|]. intros k [t Ht]%elem_of_dom. apply elem_of_dom. rewrite Hc, Ht. by destruct (listed (p :: procs) k).
Qed.

(** A process that takes the number of another with the same command is taken for it: its CPU time since the last sample is negative. *)
Lemma reused_pid_negative now si p q counts : tp_key p = tp_key q → tp_TotalCPUTime p < tp_TotalCPUTime q → counts !! tp_key q = Some (tp_TotalCPUTime q) → (cpuSince now si p counts).1 < 0.
Proof. intros Hk Ht Hc. unfold cpuSince. rewrite Hk, Hc. cbn. lia. Qed.
(** Without processes an event with an empty message is sent. *)
Lemma empty_list_sends_empty_event format2 toTime compress base64 version now si m : (pl_collect format2 toTime compress base64 version now si (Ok []) m).1 = Some "".
Proof. unfold pl_collect. cbn. by destruct (pl_nextPurge m <? now). Qed.

(** ** Witnesses *)

Definition demo_proc (pid cpu : Z) : TopProcess := {| tp_ProcessID := pid; tp_CreatedTime := 0; tp_Username := "root"; tp_Priority := 20; tp_Nice := None; tp_VirtualMemoryBytes := 2048; tp_WorkingSetSizeBytes := 1024;
  tp_SharedMemBytes := 0; tp_Status := "S"; tp_MemPercent := fzero; tp_TotalCPUTime := cpu; tp_Command := "sh" |}.
Lemma process_cache_correct_witness :
  let m := {| pl_lastCPUCounts := {["7|sh" := 1; "8|sh" := 2]}; pl_nextPurge := 0 |} in
  let m' := (pl_collect (λ _, "") (λ _, "") (λ s, Ok s) id "0" 1 10 (Ok [demo_proc 7 5]) m).2 in pl_lastCPUCounts m' !! "7|sh" = Some 5 ∧ (is_Some (pl_lastCPUCounts m' !! "8|sh") ↔ "8|sh" ∈ ["7|sh"]).
Proof.
  destruct (process_cache_correct (λ _, "") (λ _, "") (λ s, Ok s) id "0" 1 10 [demo_proc 7 5] {| pl_lastCPUCounts := {["7|sh" := 1; "8|sh" := 2]}; pl_nextPurge := 0 |}) as ((Hl & _) & Hp & _); [done|].
  split; [apply Hl; reflexivity|]. apply Hp. reflexivity.
Defined.
