(* ===== verification/Logstash.v ===== *)
(** * The logstash monitors

    [src/internal/signalfx-agent/pkg/monitors/logstash]: the monitor of the node's API
    ([logstash/monitor.go], [logstash/config.go]) and that of the events of the tcp output
    ([tcp/monitor.go]).  A JSON object is the list of its entries in the order in which ranging
    over the decoded map gives them.  Requests, JSON decoding, the casts of the datapoint library
    and the text of values are parameters. *)

From S2P Require Import Prelude GoStrings GoValue Settings Telemetry SmartAgent HostMonitors.
From Stdlib Require Import Ascii.
#[local] Open Scope Z_scope.

Inductive json := JNull | JBool (b : bool) | JNumber (f : float64) | JString (s : string) | JArray (l : list json) | JObject (l : list (string * json)).
Definition assoc (k : string) (l : list (string * json)) : option json := snd <$> List.find (λ kv, String.eqb kv.1 k) l.
(** [s, _ := v.(string)] *)
Definition asString (v : json) : string := match v with JString s => s | _ => "" end.
Definition asFloat (v : option json) : option float64 := match v with Some (JNumber f) => Some f | _ => None end.

(** ** The node's API *)

Definition nodePath : string := "/_node/".
Definition prefixPathMap : list (string * string) :=
  [("node.os", nodePath +:+ "os"); ("node.jvm", nodePath +:+ "jvm"); ("node.hot_threads", nodePath +:+ "hot_threads"); ("node.stats.jvm", nodePath +:+ "stats/jvm"); ("node.stats.process", nodePath +:+ "stats/process");
   ("node.stats.events", nodePath +:+ "stats/events"); ("node.stats.reloads", nodePath +:+ "stats/reloads"); ("node.stats.os", nodePath +:+ "stats/os")].
Definition dimensionKeyMap (k : string) : string :=
  if String.eqb k "threads" then "thread" else if String.eqb k "outputs" then "output" else if String.eqb k "inputs" then "input"
  else if String.eqb k "codecs" then "codec" else if String.eqb k "filters" then "filter" else k.
(** [getMetricTypeMap]: the default metrics and those of the extra groups. *)
Definition getMetricTypeMap (typeOf : string → sfxMetricType) (defaultMetrics : list string) (groupMetricsMap : gmap string (list string)) (extraGroups : list string) : gmap string sfxMetricType :=
  list_to_map (map (λ n, (n, typeOf n)) (defaultMetrics ++ flat_map (λ g, default [] (groupMetricsMap !! g)) extraGroups)).

Record logstashPoint := { lp_Metric : string; lp_Type : sfxMetricType; lp_Value : sfxValue; lp_Dimensions : gmap string string }.
Section node.
Context (metricTypeMap : gmap string sfxMetricType) (CastMetricValueWithBool : json → option sfxValue).

(** The value [v] of the key [k] at its path: an object is walked, so are the named objects of an array, with a dimension for
    the name; another value is a metric if its path is one. *)
Fixpoint walkValue (v : json) (childPath k : string) (dims : gmap string string) : list logstashPoint :=
  match v with
  | JObject entries => flat_map (λ kv, let '(k, v) := kv in walkValue v (childPath +:+ "." +:+ k) k dims) entries
  | JArray items =>
      flat_map (λ item, match item with
                        | JObject entries =>
                            match assoc "name" entries with
                            | None => []
                            | Some objectName => flat_map (λ kv, let '(k', v) := kv in walkValue v (childPath +:+ "." +:+ k') k' (<[dimensionKeyMap k := asString objectName]> dims)) entries
                            end
                        | _ => []
                        end) items
  | _ =>
      match metricTypeMap !! childPath with
      | None => []
      | Some metricType => match CastMetricValueWithBool v with None => [] | Some value => [{| lp_Metric := childPath; lp_Type := metricType; lp_Value := value; lp_Dimensions := dims |}] end
      end
  end.
Definition extractDatapoints (metricPath : string) (metricsJSON : list (string * json)) (dims : gmap string string) : list logstashPoint :=
  flat_map (λ kv, let '(k, v) := kv in walkValue v (metricPath +:+ "." +:+ k) k dims) metricsJSON.

Context (getJSON : string → res (list (string * json))).
Definition fetchNodeInfo (endpoint : string) : res (gmap string string) :=
  nodeJSON ← getJSON endpoint;
  let put k d (m : gmap string string) := match assoc k nodeJSON with Some v => <[d := asString v]> m | None => m end in
  Ok (put "name" "node_name" (put "id" "node_id" ∅)).
Definition fetchMetrics (endpoint prefix : string) (dims : gmap string string) : res (list logstashPoint) :=
  metricsJSON ← getJSON endpoint; Ok (extractDatapoints prefix metricsJSON dims).
Definition fetchPipelineMetrics (endpoint prefix : string) (dims : gmap string string) : res (list logstashPoint) :=
  metricsJSON ← getJSON endpoint;
  match assoc "pipelines" metricsJSON with
  | None => Err (Errorf "`pipelines` object doesn't exist in response from %s" [endpoint])
  | Some (JObject pipelines) =>
      Ok (flat_map (λ kv, match kv.2 with JObject pipeline => extractDatapoints prefix pipeline (<["pipeline" := kv.1]> dims) | _ => [] end) pipelines)
  | Some _ => Err (Errorf "`pipelines` is not an object in response from %s" [endpoint])
  end.
Definition fetchPluginMetrics (endpoint prefix : string) (dims : gmap string string) : res (list logstashPoint) :=
  metricsJSON ← getJSON endpoint;
  match assoc "total" metricsJSON with
  | None => Err (Errorf "`total` object doesn't exist in response from %s" [endpoint])
  | Some total =>
      let metricName := prefix +:+ ".total" in
      match metricTypeMap !! metricName with
      | None => Ok []
      | Some metricType =>
          match CastMetricValueWithBool total with
          | None => Err (Errorf "Couldn't cast `total` metric value: %w" [])
          | Some value => Ok [{| lp_Metric := metricName; lp_Type := metricType; lp_Value := value; lp_Dimensions := dims |}]
          end
      end
  end.
Definition pointsOrNone (r : res (list logstashPoint)) : list logstashPoint := match r with Ok dps => dps | Err _ => [] end.
(** One interval, with the dimensions found when the monitor was configured (none after an error). *)
Definition logstash_collect (url : string → string) (dims : gmap string string) : list logstashPoint :=
  flat_map (λ pp, pointsOrNone (fetchMetrics (url pp.2) pp.1 dims)) prefixPathMap ++
  pointsOrNone (fetchPipelineMetrics (url (nodePath +:+ "pipelines")) "node.pipelines" dims) ++
  pointsOrNone (fetchPipelineMetrics (url (nodePath +:+ "stats/pipelines")) "node.stats.pipelines" dims) ++
  pointsOrNone (fetchPluginMetrics (url (nodePath +:+ "plugins")) "node.plugins" dims).

(** ** What the walk finds *)

Definition isLeaf (v : json) : bool := match v with JArray _ | JObject _ => false | _ => true end.
(** From the value [v] of the key [k] at [path] with [dims], the leaf [l] is at [p] with the dimensions [d]. *)
Inductive finds : json → string → string → gmap string string → string → gmap string string → json → Prop :=
| FindsLeaf v path k dims : isLeaf v = true → finds v path k dims path dims v
| FindsObject entries path k dims k' v p d l : (k', v) ∈ entries → finds v (path +:+ "." +:+ k') k' dims p d l → finds (JObject entries) path k dims p d l
| FindsArray items entries name path k dims k' v p d l : JObject entries ∈ items → assoc "name" entries = Some name → (k', v) ∈ entries →
    finds v (path +:+ "." +:+ k') k' (<[dimensionKeyMap k := asString name]> dims) p d l → finds (JArray items) path k dims p d l.
(** The point of a leaf, when its path is a metric and its value can be cast. *)
Definition pointOf (p : string) (d : gmap string string) (l : json) (dp : logstashPoint) : Prop :=
  ∃ t v, metricTypeMap !! p = Some t ∧ CastMetricValueWithBool l = Some v ∧ dp = {| lp_Metric := p; lp_Type := t; lp_Value := v; lp_Dimensions := d |}.

Fixpoint jsize (v : json) : nat :=
  match v with
  | JArray l => S (sum_list (map jsize l))
  | JObject l => S (sum_list (map (λ kv, let '(_, v) := kv in jsize v) l))
  | _ => 1
  end.
Lemma sum_list_elem {A} (f : A → nat) l x : x ∈ l → (f x ≤ sum_list (map f l))%nat.
Proof. induction l as [|y l IH]; [by intros ?%not_elem_of_nil|]. intros [->|Hx]%elem_of_cons; cbn; [lia|]. specialize (IH Hx). lia. Qed.
Lemma walkValue_leaf v path k dims dp : isLeaf v = true → dp ∈ walkValue v path k dims ↔ pointOf path dims v dp.
Proof.
  intros Hl. assert (Hw : walkValue v path k dims = match metricTypeMap !! path with None => [] | Some t => match CastMetricValueWithBool v with None => [] | Some x => [{| lp_Metric := path; lp_Type := t; lp_Value := x; lp_Dimensions := dims |}] end end) by (by destruct v).
  rewrite Hw. unfold pointOf. destruct (metricTypeMap !! path) as [t|]; [|split; [by intros ?%not_elem_of_nil | by intros (? & ? & ? & _)]].
  destruct (CastMetricValueWithBool v) as [x|]; [|split; [by intros ?%not_elem_of_nil | by intros (? & ? & _ & ? & _)]]. rewrite list_elem_of_singleton. split; [intros ->; by eexists _, _ | by intros (? & ? & [= <-] & [= <-] & ->)].
Qed.
Lemma walkValue_finds n : ∀ v path k dims dp, (jsize v ≤ n)%nat → dp ∈ walkValue v path k dims → ∃ p d l, finds v path k dims p d l ∧ pointOf p d l dp.
Proof.
  induction n as [|n IH]; intros v path k dims dp Hn Hin; [destruct v; cbn in Hn; lia|].
  destruct (isLeaf v) eqn:Hl; [apply walkValue_leaf in Hin; [|done]; exists path, dims, v; split; [by constructor | done]|].
  assert (Hentries : ∀ entries path dims, (sum_list (map (λ kv, let '(_, v) := kv in jsize v) entries) ≤ n)%nat →
    dp ∈ flat_map (λ kv, let '(k, v) := kv in walkValue v (path +:+ "." +:+ k) k dims) entries → ∃ k' v p d l, (k', v) ∈ entries ∧ finds v (path +:+ "." +:+ k') k' dims p d l ∧ pointOf p d l dp).
  { intros entries path' dims' Hs ([k' v'] & Hkv & Hw)%elem_of_flat_map. pose proof (sum_list_elem (λ kv : string * json, let '(_, v) := kv in jsize v) entries (k', v') Hkv) as Hle. cbn beta iota in Hle.
    destruct (IH v' _ _ _ _ ltac:(lia) Hw) as (p & d & l & Hf & Hp). by exists k', v', p, d, l. }
  destruct v as [| | | |items|entries]; try done; cbn [walkValue jsize] in *.
  - apply elem_of_flat_map in Hin as (item & Hitem & Hin). pose proof (sum_list_elem jsize items item Hitem). destruct item as [| | | | |entries]; try by apply not_elem_of_nil in Hin.
    destruct (assoc "name" entries) as [name|] eqn:Hname; [|by apply not_elem_of_nil in Hin]. cbn [jsize] in *.
    destruct (Hentries entries path (<[dimensionKeyMap k := asString name]> dims)) as (k' & v & p & d & l & Hkv & Hf & Hp); [lia | exact Hin|]. exists p, d, l. split; [by eapply FindsArray | done].
  - destruct (Hentries entries path dims) as (k' & v & p & d & l & Hkv & Hf & Hp); [lia | exact Hin|]. exists p, d, l. split; [by eapply FindsObject | done].
Qed.
Lemma finds_walkValue v path k dims p d l dp : finds v path k dims p d l → pointOf p d l dp → dp ∈ walkValue v path k dims.
Proof.
  intros Hf Hp. induction Hf as [v path k dims Hl | entries path k dims k' v p d l Hkv Hf IH | items entries name path k dims k' v p d l Hi Hname Hkv Hf IH].
  - by apply walkValue_leaf.
  - cbn [walkValue]. apply elem_of_flat_map. exists (k', v). split; [done | by apply IH].
  - cbn [walkValue]. apply elem_of_flat_map. exists (JObject entries). split; [done|]. rewrite Hname. apply elem_of_flat_map. exists (k', v). split; [done | by apply IH].
Qed.
End node.

(** C36: The points extracted from an answer of the logstash API are exactly those of the leaves whose path is an enabled metric and whose
    value can be cast: the path is that of the keys, and every named object of an array on the way adds its name as a dimension;
    objects without a name hide what is below them. *)
Theorem extractDatapoints_correct metricTypeMap cast metricPath entries dims dp :
  dp ∈ extractDatapoints metricTypeMap cast metricPath entries dims ↔
  ∃ k v p d l, (k, v) ∈ entries ∧ finds v (metricPath +:+ "." +:+ k) k dims p d l ∧ pointOf metricTypeMap cast p d l dp.
Proof.
  unfold extractDatapoints. rewrite elem_of_flat_map. split.
  - intros ([k v] & Hkv & Hin). apply (walkValue_finds metricTypeMap cast (jsize v)) in Hin as (p & d & l & Hf & Hp); [|done]. by exists k, v, p, d, l.
  - intros (k & v & p & d & l & Hkv & Hf & Hp). exists (k, v). split; [done | by eapply finds_walkValue].
Qed.

(** ** The events of the tcp output *)

Section tcp.
Context (ParseTime : string → res Z) (text : json → string) (DesiredTimerFields : list string).
Record tcpPoint := { tq_Metric : string; tq_Type : sfxMetricType; tq_Value : float64; tq_Dimensions : gmap string string; tq_Time : option Z }.
Definition parseMapAsMeter (key : string) (count : float64) : tcpPoint := {| tq_Metric := key +:+ ".count"; tq_Type := Counter; tq_Value := count; tq_Dimensions := ∅; tq_Time := None |}.
(** A field that is missing is sent as zero; the fields are a set, here in the order of its range. *)
Definition parseMapAsTimer (key : string) (metricMap : list (string * json)) (desiredFields : list string) : list tcpPoint :=
  map (λ f, {| tq_Metric := key +:+ "." +:+ f; tq_Type := if String.eqb f "count" then Counter else Gauge; tq_Value := default fzero (asFloat (assoc f metricMap)); tq_Dimensions := ∅; tq_Time := None |}) desiredFields.
Definition DesiredTimerFieldSet : list string := remove_dups DesiredTimerFields.
Definition withoutAt (k : string) : string := ReplaceByte k "@" "".
(** One entry of an event: a common dimension, or the points of a timer or a meter. *)
Definition convertEntry (st : gmap string string * list tcpPoint) (kv : string * json) : gmap string string * list tcpPoint :=
  let '(commonDims, dps) := st in
  match kv.2 with
  | JObject metricMap =>
      match asFloat (assoc "count" metricMap) with
      | None => st
      | Some count =>
          match asFloat (assoc "mean" metricMap) with
          | Some _ => (commonDims, dps ++ parseMapAsTimer kv.1 metricMap DesiredTimerFieldSet)
          | None => (commonDims, dps ++ [parseMapAsMeter kv.1 count])
          end
      end
  | v => (<[withoutAt kv.1 := text v]> commonDims, dps)
  end.
Definition eventTime (ev : list (string * json)) : option Z :=
  match assoc "@timestamp" ev with Some (JString s) => match ParseTime s with Ok t => Some t | Err _ => None end | _ => None end.
Definition finishTcpPoint (commonDims : gmap string string) (timestamp : option Z) (p : tcpPoint) : tcpPoint :=
  {| tq_Metric := tq_Metric p; tq_Type := tq_Type p; tq_Value := tq_Value p; tq_Dimensions := tq_Dimensions p ∪ commonDims; tq_Time := timestamp |}.
Definition convertEventToDatapoints (ev : list (string * json)) : res (list tcpPoint) :=
  let timestamp := eventTime ev in
  let ev := List.filter (λ kv, negb (String.eqb kv.1 "@timestamp")) ev in
  let '(commonDims, dps) := foldl convertEntry (∅, []) ev in
  match dps with
  | [] => Err (Errorf "no timer/meter metrics found in Logstash event (are you using metrics filter?)" [])
  | _ => Ok (map (finishTcpPoint commonDims timestamp) dps)
  end.

(** [handleConnection]: the events until the connection ends or one cannot be decoded; an event that cannot be converted is
    skipped. *)
Inductive decoded := Event (ev : list (string * json)) | DecodeError (e : error).
Fixpoint handleConnection (stream : list decoded) : list (list tcpPoint) * option error :=
  match stream with
  | [] => ([], None)
  | DecodeError e :: _ => ([], Some (Wrapf "failed to parse logstash event: %v" [] e))
  | Event ev :: stream =>
      let '(sent, r) := handleConnection stream in
      (match convertEventToDatapoints ev with Ok dps => dps :: sent | Err _ => sent end, r)
  end.

(** The client's loop while the context is not cancelled: what it does for a sequence of dials.  A connection leaves a goroutine
    that waits for the context. *)
Inductive tcpAction := Dialled | Sent (dps : list tcpPoint) | Slept.
Fixpoint keepReadingFromServer (dials : list (res (list decoded))) : list tcpAction :=
  match dials with
  | [] => []
  | Err _ :: dials => Dialled :: Slept :: keepReadingFromServer dials
  | Ok stream :: dials =>
      let '(sent, r) := handleConnection stream in
      Dialled :: map Sent sent ++ (match r with Some _ => [Slept] | None => [] end) ++ keepReadingFromServer dials
  end.
(** The goroutines left by the connections. *)
Definition waitingGoroutines (dials : list (res (list decoded))) : nat := length (List.filter (λ d, match d with Ok _ => true | Err _ => false end) dials).

(** ** What is sent *)

(** The points of an entry by itself. *)
Definition entryPoints (kv : string * json) : list tcpPoint := (convertEntry (∅, []) kv).2.
Lemma convertEntry_points st kv : (convertEntry st kv).2 = st.2 ++ entryPoints kv.
Proof. destruct st as [dims dps]. unfold entryPoints, convertEntry. destruct kv.2 as [| | | | |m]; cbn; try by rewrite app_nil_r. destruct (asFloat (assoc "count" m)); cbn; [destruct (asFloat (assoc "mean" m)); done | by rewrite app_nil_r]. Qed.
Lemma convertEntries_points ev : ∀ st, (foldl convertEntry st ev).2 = st.2 ++ flat_map entryPoints ev.
Proof. induction ev as [|kv ev IH]; intros st; cbn [foldl flat_map]; [by rewrite app_nil_r|]. by rewrite IH, convertEntry_points, app_assoc. Qed.
Lemma timer_points kv m count mean : kv.2 = JObject m → asFloat (assoc "count" m) = Some count → asFloat (assoc "mean" m) = Some mean → map tq_Metric (entryPoints kv) = map (λ f, kv.1 +:+ "." +:+ f) DesiredTimerFieldSet.
Proof. intros Hv Hc Hm. unfold entryPoints, convertEntry. rewrite Hv, Hc, Hm. cbn. unfold parseMapAsTimer. by rewrite map_map. Qed.
Definition dropTimestamp (ev : list (string * json)) : list (string * json) := List.filter (λ kv, negb (String.eqb kv.1 "@timestamp")) ev.
(** An event gives the points of its timers and meters, in order, all with its time; it is refused exactly if it has none. *)
Lemma convertEvent_points ev : match convertEventToDatapoints ev with
  | Ok dps => flat_map entryPoints (dropTimestamp ev) ≠ [] ∧ map (λ p, (tq_Metric p, tq_Type p, tq_Value p)) dps = map (λ p, (tq_Metric p, tq_Type p, tq_Value p)) (flat_map entryPoints (dropTimestamp ev)) ∧
      Forall (λ p, tq_Time p = eventTime ev) dps
  | Err _ => flat_map entryPoints (dropTimestamp ev) = []
  end.
Proof.
  unfold convertEventToDatapoints. fold (dropTimestamp ev). pose proof (convertEntries_points (dropTimestamp ev) (∅, [])) as Hp. destruct (foldl convertEntry (∅, []) (dropTimestamp ev)) as [dims dps]. cbn [snd app] in Hp. subst dps.
  destruct (flat_map entryPoints (dropTimestamp ev)) as [|p ps]; [done|]. split_and!; [done | by rewrite map_map|]. apply Forall_forall. intros q Hq. apply list_elem_of_In, in_map_iff in Hq as (r & <- & _). done.
Qed.
(** A connection that the server closes is dialled again at once. *)
Lemma broken_connection_no_wait stream dials : (handleConnection stream).2 = None →
  ∃ sent, keepReadingFromServer (Ok stream :: Ok stream :: dials) = Dialled :: map Sent sent ++ Dialled :: map Sent sent ++ keepReadingFromServer dials.
Proof. intros Hr. exists (handleConnection stream).1. cbn [keepReadingFromServer]. destruct (handleConnection stream) as [sent r]. cbn in Hr. subst r. done. Qed.
(** A desired field that the timer does not have is sent as zero. *)
Lemma missing_field_sent kv m count mean f : kv.2 = JObject m → asFloat (assoc "count" m) = Some count → asFloat (assoc "mean" m) = Some mean → f ∈ DesiredTimerFields → assoc f m = None →
  ∃ p, p ∈ entryPoints kv ∧ tq_Metric p = kv.1 +:+ "." +:+ f ∧ tq_Value p = fzero.
Proof.
  intros Hv Hc Hm Hf Hn. unfold entryPoints, convertEntry. rewrite Hv, Hc, Hm. cbn. unfold parseMapAsTimer. eexists. split; [apply list_elem_of_In, in_map_iff; exists f; split; [done|]; by apply list_elem_of_In, elem_of_remove_dups|].
  cbn. by rewrite Hn.
Qed.
End tcp.

Example threads_named : extractDatapoints {["node.hot_threads.threads.percent_of_cpu_time" := Gauge]} (λ v, match v with JNumber f => Some (FloatValue f) | _ => None end) "node.hot_threads"
  [("threads", JArray [JObject [("name", JString "main"); ("percent_of_cpu_time", JNumber fzero)]; JObject [("percent_of_cpu_time", JNumber fzero)]])] ∅ =
  [{| lp_Metric := "node.hot_threads.threads.percent_of_cpu_time"; lp_Type := Gauge; lp_Value := FloatValue fzero; lp_Dimensions := {["thread" := "main"]} |}].
Proof. vm_compute. reflexivity. Qed.
