(* ===== verification/ECS.v ===== *)
(** * The ECS monitor

    [src/internal/signalfx-agent/pkg/monitors/ecs/ecs.go] and [core/common/ecs/ecs.go]: the task's
    metadata and its dimensions, the containers that are monitored or ignored, and the
    statistics, converted as those of docker ([Docker.ConvertStatsToMetrics]).  The answers of the
    metadata endpoints, decoded, and the image filter are parameters.  An index out of range is
    [Panics]. *)

From S2P Require Import Prelude GoStrings GoValue Outcome Settings Telemetry SmartAgent HostMonitors Docker.
From Stdlib Require Import Ascii.
#[local] Open Scope Z_scope.

(** ** core/common/ecs *)

Record ecsContainer := { ecs_DockerID : string; ecs_Name : string; ecs_Image : string; ecs_KnownStatus : string; ecs_Type : string; ecs_Labels : gmap string string; ecs_LimitsCPU : Z; ecs_Networks : list (list string) }.
Record TaskMetadata := { tm_ClusterName : string; tm_TaskARN : string; tm_Family : string; tm_Revision : string; tm_Containers : list ecsContainer }.
Definition clusterName (s : string) : string := match Index s "/" with Some idx => if (idx + 1 <? slen s)%nat then sdrop (idx + 1) s else s | None => s end.
Definition GetDimensions (task : TaskMetadata) : outcome (gmap string string) :=
  match Index (tm_TaskARN task) ":task/" with
  | None => Panics
  | Some arnBaseIdx =>
      let arnBase := stake arnBaseIdx (tm_TaskARN task) in
      Done (<["ClusterName" := clusterName (tm_ClusterName task)]> (<["ecs_cluster_arn" := tm_ClusterName task]> (<["ecs_task_arn" := tm_TaskARN task]>
        (<["ecs_task_definition_arn" := arnBase +:+ ":task-definition/" +:+ tm_Family task +:+ ":" +:+ tm_Revision task]> (<["ecs_task_group" := tm_Family task]> {["ecs_task_version" := tm_Revision task]})))))
  end.

(** ** The monitor *)

Record ecsState := { es_registered : bool; es_taskDimensions : gmap string string; es_containers : gmap string ecsContainer; es_shouldIgnore : gmap string bool }.
Definition ecs_init : ecsState := {| es_registered := false; es_taskDimensions := ∅; es_containers := ∅; es_shouldIgnore := ∅ |}.
Inductive ecsAction := SendPoints (container : ecsContainer) (dps : list sfxDatapoint) | SendDimension (name value knownStatus : string).
Definition ctrNameDim : string := "container_name".
Definition ctrIDDim : string := "container_id".
Definition getURI (endpoint resourceID : string) : string :=
  match Index endpoint "?" with
  | None => endpoint +:+ "/" +:+ resourceID
  | Some queryIdx => stake queryIdx endpoint +:+ "/" +:+ resourceID +:+ "?" +:+ sdrop (queryIdx + 1) endpoint
  end.
(** The dimension whose properties are updated; another name is refused. *)
Definition dimensionToUpdate (dim : string) (c : ecsContainer) : res (string * string) :=
  if String.eqb dim ctrNameDim then Ok (ctrNameDim, ecs_Name c) else if String.eqb dim ctrIDDim then Ok (ctrIDDim, ecs_DockerID c)
  else Err (Errorf "unsupported `dimensionToUpdate` %q. Must be one of %q or %q" [dim; ctrNameDim; ctrIDDim]).

Section monitor.
Context `{MapRange} (excludes : string → bool) (dimension : string) (LabelsToDimensions : gmap string string) (enhanced : EnhancedMetricsConfig).

Definition accepted (c : ecsContainer) : bool := negb (excludes (ecs_Image c)) && String.eqb (ecs_Type c) "NORMAL".
Definition parseContainer (st : gmap string ecsContainer * gmap string bool) (c : ecsContainer) : gmap string ecsContainer * gmap string bool :=
  if accepted c then (<[ecs_DockerID c := c]> st.1, <[ecs_DockerID c := false]> st.2) else (st.1, <[ecs_DockerID c := true]> st.2).
Definition parseContainers (task : TaskMetadata) : gmap string ecsContainer * gmap string bool := foldl parseContainer (∅, ∅) (tm_Containers task).
(** [fetchContainer] with the decoded answer. *)
Definition fetchContainer (answer : res ecsContainer) : res ecsContainer :=
  c ← answer; if negb (accepted c) then Err (Errorf "The container has been excluded by image filter" []) else Ok c.
(** [Networks[0].IPAddresses[0]] *)
Definition firstAddress (c : ecsContainer) : outcome string := match ecs_Networks c with (ip :: _) :: _ => Done ip | _ => Panics end.
Definition getTaskLimitMetrics (c : ecsContainer) : outcome (list sfxDatapoint) :=
  if extraCPU enhanced then
    ip ← firstAddress c;
    let name := TrimPrefix (ecs_Name c) "/" in
    Done [mkDatapoint "cpu.limit" Gauge (IntValue (ecs_LimitsCPU c))
            (<["container_hostname" := ip]> (<[ctrNameDim := ecs_DockerID c]> (<["container_image" := ecs_Image c]> (<["plugin_instance" := name]> (<[ctrNameDim := name]> {["plugin" := "ecs"]})))))]
  else Done [].
Definition ecsPoints (taskDims : gmap string string) (dockerID : string) (c : ecsContainer) (stats : StatsJSON) : outcome (list sfxDatapoint) :=
  ip ← firstAddress c;
  let cj := {| cj_ID := dockerID; cj_Name := ecs_Name c; cj_Image := ecs_Image c; cj_Hostname := ip; cj_Running := false; cj_Paused := false; cj_Env := []; cj_Labels := ∅ |} in
  limits ← getTaskLimitMetrics c;
  Done (map (withDims (range taskDims ++ mappedDims LabelsToDimensions (ecs_Labels c))) (ConvertStatsToMetrics cj stats enhanced ++ limits)).
(** The container of an identifier, with the state after it was looked up. *)
Definition lookupContainer (fetch : string → res ecsContainer) (st : ecsState) (dockerID : string) : option ecsContainer * ecsState :=
  if default false (es_shouldIgnore st !! dockerID) then (None, st)
  else match es_containers st !! dockerID with
       | Some c => (Some c, st)
       | None =>
           match fetchContainer (fetch dockerID) with
           | Err _ => (None, {| es_registered := es_registered st; es_taskDimensions := es_taskDimensions st; es_containers := es_containers st; es_shouldIgnore := <[dockerID := true]> (es_shouldIgnore st) |})
           | Ok c => (Some c, {| es_registered := es_registered st; es_taskDimensions := es_taskDimensions st; es_containers := <[dockerID := c]> (es_containers st); es_shouldIgnore := es_shouldIgnore st |})
           end
       end.
(** [fetchStatsForAll] over the statistics in the order of the range. *)
Fixpoint fetchStatsForAll (fetch : string → res ecsContainer) (stats : list (string * StatsJSON)) (st : ecsState) : outcome (list ecsAction * ecsState) :=
  match stats with
  | [] => Done ([], st)
  | (dockerID, s) :: stats =>
      let '(c, st) := lookupContainer fetch st dockerID in
      match c with
      | None => fetchStatsForAll fetch stats st
      | Some c =>
          dps ← ecsPoints (es_taskDimensions st) dockerID c s;
          let update := match dimensionToUpdate dimension c with Ok (n, v) => [SendDimension n v (ecs_KnownStatus c)] | Err _ => [] end in
          '(actions, st) ← fetchStatsForAll fetch stats st; Done (SendPoints c dps :: update ++ actions, st)
      end
  end.
(** What the endpoints answer in one interval. *)
Record ecsAnswers := { ea_task : res TaskMetadata; ea_stats : res (list (string * StatsJSON)); ea_container : string → res ecsContainer }.
Definition ecs_register (a : ecsAnswers) (st : ecsState) : outcome ecsState :=
  if es_registered st then Done st
  else match ea_task a with
       | Err e => Failed e
       | Ok task =>
           dims ← GetDimensions task; let '(containers, ignore) := parseContainers task in
           Done {| es_registered := true; es_taskDimensions := dims; es_containers := containers; es_shouldIgnore := ignore |}
       end.
Definition ecs_collect (a : ecsAnswers) (st : ecsState) : outcome (list ecsAction * ecsState) :=
  match ecs_register a st with
  | Failed _ => Done ([], st)
  | Panics => Panics
  | Done st => match ea_stats a with Err _ => Done ([], st) | Ok stats => fetchStatsForAll (ea_container a) stats st end
  end.
Fixpoint ecs_run (l : list ecsAnswers) (st : ecsState) : outcome (list ecsAction * ecsState) :=
  match l with [] => Done ([], st) | a :: l => '(x, st) ← ecs_collect a st; '(y, st) ← ecs_run l st; Done (x ++ y, st) end.

(** ** What is reported *)

Definition ecs_wf (st : ecsState) : Prop := ∀ id c, es_containers st !! id = Some c → accepted c = true.
Definition reports_accepted (actions : list ecsAction) : Prop := ∀ c dps, SendPoints c dps ∈ actions → accepted c = true.
Lemma parseContainers_wf task id c : (parseContainers task).1 !! id = Some c → accepted c = true.
Proof.
  unfold parseContainers. assert (Hgen : ∀ l st, (∀ id c, st.1 !! id = Some c → accepted c = true) → ∀ id c, (foldl parseContainer st l).1 !! id = Some c → accepted c = true).
  { induction l as [|x l IH]; intros st Hst; [done|]. cbn [foldl]. apply IH. unfold parseContainer. destruct (accepted x) eqn:Hx; [|done]. cbn [fst]. intros i y [[_ <-]|[_ Hy]]%lookup_insert_Some; [done | by eapply Hst]. }
  apply Hgen. intros ? ?. cbn. by rewrite lookup_empty.
Qed.
Lemma lookupContainer_wf fetch st id c st' : ecs_wf st → lookupContainer fetch st id = (c, st') → ecs_wf st' ∧ (∀ x, c = Some x → accepted x = true).
Proof.
  intros Hwf. unfold lookupContainer. destruct (default false (es_shouldIgnore st !! id)); [by intros [= <- <-]|]. destruct (es_containers st !! id) as [x|] eqn:Hx.
  { intros [= <- <-]. split; [done|]. intros y [= <-]. by eapply Hwf. }
  unfold fetchContainer. destruct (fetch id) as [x|e]; cbn [mbind res_bind]; [|by intros [= <- <-]]. destruct (accepted x) eqn:Ha; cbn [negb]; intros [= <- <-]; [|done].
  split; [|by intros ? [= <-]]. intros i y Hi. cbn [es_containers] in Hi. apply lookup_insert_Some in Hi as [[_ <-]|[_ Hy]]; [done | by eapply Hwf].
Qed.
Lemma fetchStats_wf fetch stats : ∀ st actions st', ecs_wf st → fetchStatsForAll fetch stats st = Done (actions, st') → ecs_wf st' ∧ reports_accepted actions.
Proof.
  induction stats as [|[id s] stats IH]; intros st actions st' Hwf Hf; cbn [fetchStatsForAll] in Hf.
  { injection Hf as <- <-. split; [done|]. by intros ? ? ?%not_elem_of_nil. }
  destruct (lookupContainer fetch st id) as [c st1] eqn:Hl. destruct (lookupContainer_wf _ _ _ _ _ Hwf Hl) as [Hwf1 Hc]. destruct c as [c|]; [|by eapply IH].
  apply bind_done in Hf as (dps & _ & Hf). apply bind_done in Hf as ([more st2] & Hmore & Hf). injection Hf as <- <-. destruct (IH _ _ _ Hwf1 Hmore) as [Hwf2 Hr]. split; [done|].
  intros x d Hin. apply elem_of_cons in Hin as [[= -> ->]|Hin]; [by apply Hc|]. apply elem_of_app in Hin as [Hin|Hin]; [|by eapply Hr].
  destruct (dimensionToUpdate dimension c) as [[n v]|]; [by apply list_elem_of_singleton in Hin | by apply not_elem_of_nil in Hin].
Qed.
Lemma collect_wf a st actions st' : ecs_wf st → ecs_collect a st = Done (actions, st') → ecs_wf st' ∧ reports_accepted actions.
Proof.
  intros Hwf. unfold ecs_collect, ecs_register. assert (Hnone : reports_accepted []) by (by intros ? ? ?%not_elem_of_nil).
  assert (Hgo : ∀ s, ecs_wf s → match ea_stats a with Err _ => Done ([], s) | Ok stats => fetchStatsForAll (ea_container a) stats s end = Done (actions, st') → ecs_wf st' ∧ reports_accepted actions).
  { intros s Hs. destruct (ea_stats a); [by apply fetchStats_wf | by intros [= <- <-]]. }
  destruct (es_registered st); [by apply Hgo|]. destruct (ea_task a) as [task|e]; [|by intros [= <- <-]]. destruct (GetDimensions task) as [dims| |]; cbn [mbind outcome_bind]; [|by intros [= <- <-] | done].
  destruct (parseContainers task) as [cs ig] eqn:Hp. apply Hgo. intros id c Hc. eapply (parseContainers_wf task). by rewrite Hp.
Qed.
End monitor.

(** Whatever the metadata endpoints answer, in any sequence of intervals, the ECS monitor reports only containers that the task
    definition names and whose image is not excluded. *)
Theorem ecs_reports_accepted `{MapRange} excludes dimension labels enhanced answers actions st :
  ecs_run excludes dimension labels enhanced answers ecs_init = Done (actions, st) → reports_accepted excludes actions ∧ ecs_wf excludes st.
Proof.
  assert (Hgen : ∀ l s x s', ecs_wf excludes s → ecs_run excludes dimension labels enhanced l s = Done (x, s') → reports_accepted excludes x ∧ ecs_wf excludes s').
  { induction l as [|a l IH]; intros s x s' Hs Hr; cbn [ecs_run] in Hr.
    - injection Hr as <- <-. split; [by intros ? ? ?%not_elem_of_nil | done].
    - apply bind_done in Hr as ([y s1] & Hy & Hr). apply bind_done in Hr as ([z s2] & Hz & Hr). injection Hr as <- <-. destruct (collect_wf _ _ _ _ _ _ _ _ Hs Hy) as [Hs1 Hry]. destruct (IH _ _ _ Hs1 Hz) as [Hrz Hs2].
      split; [|done]. intros c d [Hin|Hin]%elem_of_app; [by eapply Hry | by eapply Hrz]. }
  apply Hgen. intros ? ?. cbn. by rewrite lookup_empty.
Qed.

(** ** Defects *)

(** A container whose metadata could not be fetched once is never reported again. *)
Lemma failed_fetch_ignored_forever excludes fetch st id e : es_shouldIgnore st !! id ≠ Some true → es_containers st !! id = None → fetch id = Err e →
  ∀ fetch', (lookupContainer excludes fetch' (lookupContainer excludes fetch st id).2 id).1 = None.
Proof.
  intros Hi Hc Hf fetch'. assert (Hd : default false (es_shouldIgnore st !! id) = false) by (destruct (es_shouldIgnore st !! id) as [[]|]; done).
  unfold lookupContainer at 2. rewrite Hd, Hc. unfold fetchContainer. rewrite Hf. cbn [mbind res_bind snd]. unfold lookupContainer. cbn [es_shouldIgnore]. by rewrite lookup_insert_eq.
Qed.
(** The limit of a container has the identifier as its name and no identifier. *)
Lemma limit_without_id enhanced c ip rest nets : extraCPU enhanced = true → ecs_Networks c = (ip :: rest) :: nets →
  ∃ dp, getTaskLimitMetrics enhanced c = Done [dp] ∧ sd_Dimensions dp !! "container_name" = Some (ecs_DockerID c) ∧ sd_Dimensions dp !! "container_id" = None.
Proof. intros He Hn. unfold getTaskLimitMetrics, firstAddress. rewrite He, Hn. eexists. split; [done|]. done. Qed.
(** A container without an address, or a task identifier of another form, stops the process. *)
Lemma no_address_panics `{MapRange} labels enhanced taskDims id c s : ecs_Networks c = [] → ecsPoints labels enhanced taskDims id c s = Panics.
Proof. intros Hn. unfold ecsPoints, firstAddress. by rewrite Hn. Qed.
Lemma unknown_arn_panics task : Index (tm_TaskARN task) ":task/" = None → GetDimensions task = Panics.
Proof. intros Hi. unfold GetDimensions. by rewrite Hi. Qed.
(** The status of a container is the one it had when it was first seen: what the endpoint answers later is not read. *)
Lemma known_container_not_fetched excludes fetch fetch' st id c : es_containers st !! id = Some c → lookupContainer excludes fetch st id = lookupContainer excludes fetch' st id.
Proof. intros Hc. unfold lookupContainer. destruct (default false (es_shouldIgnore st !! id)); [done|]. by rewrite Hc. Qed.

(** ** Witness *)

Definition demo_ecs (id image type : string) : ecsContainer := {| ecs_DockerID := id; ecs_Name := "/" +:+ id; ecs_Image := image; ecs_KnownStatus := "RUNNING"; ecs_Type := type; ecs_Labels := ∅; ecs_LimitsCPU := 2; ecs_Networks := [["10.0.0.1"]] |}.
Definition demo_task : TaskMetadata := {| tm_ClusterName := "arn:aws:ecs:cluster/c"; tm_TaskARN := "arn:aws:ecs:task/1"; tm_Family := "f"; tm_Revision := "1"; tm_Containers := [demo_ecs "a" "app" "NORMAL"; demo_ecs "b" "pause" "CNI_PAUSE"] |}.
Definition demo_answers : ecsAnswers := {| ea_task := Ok demo_task; ea_stats := Ok []; ea_container := λ id, Ok (demo_ecs id "app" "NORMAL") |}.
Lemma ecs_reports_accepted_witness : ∃ actions st, @ecs_run forward_range (String.eqb "x") "container_id" ∅ {| extraBlockIO := false; extraCPU := true; extraMemory := false; extraNetwork := false |} [demo_answers] ecs_init = Done (actions, st) ∧
  reports_accepted (String.eqb "x") actions ∧ ecs_wf (String.eqb "x") st.
Proof.
  eexists _, _. split; [reflexivity|].
  apply (@ecs_reports_accepted forward_range (String.eqb "x") "container_id" ∅ {| extraBlockIO := false; extraCPU := true; extraMemory := false; extraNetwork := false |} [demo_answers]). reflexivity.
Defined.
