(* ===== verification/MongoAtlas.v ===== *)
(** * The MongoDB Atlas monitor

    [src/internal/signalfx-agent/pkg/monitors/mongodb/atlas]: the pages of processes, partitions and
    measurements with the caches of the getters ([measurements]) and the data points made from
    them ([monitor.go]).  The answers of the Atlas API are parameters: a page is an error, or its
    content and the number of the next page.  Requests of one round run concurrently; what they
    store is given in the order in which they store it. *)

From S2P Require Import Prelude GoStrings GoValue Settings Telemetry SmartAgent HostMonitors.
#[local] Open Scope Z_scope.

Record Process := { pr_ID : string; pr_ProjectID : string; pr_Host : string; pr_Port : Z; pr_ShardName : string; pr_ReplicaSetName : string; pr_TypeName : string }.
#[global] Instance Process_eq_dec : EqDecision Process.
Proof. solve_decision. Defined.
#[global] Instance Process_countable : Countable Process.
Proof.
  apply (inj_countable' (λ p, (pr_ID p, pr_ProjectID p, pr_Host p, pr_Port p, pr_ShardName p, pr_ReplicaSetName p, pr_TypeName p))
    (λ x, let '(a, b, c, d, e, f, g) := x in {| pr_ID := a; pr_ProjectID := b; pr_Host := c; pr_Port := d; pr_ShardName := e; pr_ReplicaSetName := f; pr_TypeName := g |})). by intros [].
Defined.
Record dataPoint := { ap_Timestamp : string; ap_Value : option float64 }.
Record Measurement := { me_Name : string; me_DataPoints : list dataPoint }.

(** ** Pages *)

(** An answer: an error ([errorMsg]), or the content and the next page ([nextPage]: none on the last page or without links). *)
Inductive page (A : Type) := PageError | Page (content : A) (next : option nat).
Arguments PageError {A}.
Arguments Page {A} content next.
(** [getProcessesHelper] and [getPartitionNames]: the later pages come first, and an error ends the list there.  Fuel for the pages. *)
Fixpoint listPages {A} (fuel : nat) (answers : nat → page (list A)) (n : nat) : list A :=
  match fuel with
  | O => []
  | S fuel =>
      match answers n with
      | PageError => []
      | Page content next => match next with Some m => listPages fuel answers m | None => [] end ++ content
      end
  end.
(** [setMeasurements]: the pages after this one are stored first; then this one, under the same key. *)
Fixpoint setMeasurements {K A} `{Countable K} (fuel : nat) (answers : nat → page A) (n : nat) (key : K) (m : gmap K A) : gmap K A :=
  match fuel with
  | O => m
  | S fuel =>
      match answers n with
      | PageError => m
      | Page content next => <[key := content]> (match next with Some k => setMeasurements fuel answers k key m | None => m end)
      end
  end.

(** ** The getters *)

Section getters.
Context (fuel : nat).
Definition processMeasurements (answers : Process → nat → page (list Measurement)) (processes : list Process) : gmap Process (list Measurement) :=
  foldl (λ m p, setMeasurements fuel (answers p) 1 p m) ∅ processes.
Definition getPartitions (answers : Process → nat → page (list string)) (processes : list Process) : list (Process * list string) :=
  map (λ p, (p, listPages fuel (answers p) 1)) processes.
(** The measurements of the disks are stored under their process, with the name of the partition. *)
Definition withPartition (name : string) (pg : page (list Measurement)) : page (string * list Measurement) :=
  match pg with PageError => PageError | Page c n => Page (name, c) n end.
Definition diskMeasurements (answers : Process → string → nat → page (list Measurement)) (partitions : list (Process * list string)) : gmap Process (string * list Measurement) :=
  foldl (λ m pp, foldl (λ m name, setMeasurements fuel (λ n, withPartition name (answers pp.1 name n)) 1 pp.1 m) m pp.2) ∅ partitions.
(** What a getter returns with its cache: the cached value as long as there is one, [early] when the round had ended before it was
    read; the value of the round is stored in any case, before the next round starts. *)
Definition cached {A} (enableCache early : bool) (cache : option A) (fresh : A) : A * option A :=
  if enableCache then (if early then fresh else default fresh cache, Some fresh) else (fresh, cache).
End getters.

(** ** The data points *)

Definition after (a b : string) : bool := negb (bool_decide (String.le a b)).
Definition newFloatValue (dataPoints : list dataPoint) : option float64 :=
  match dataPoints with
  | [] => None
  | d :: ds => (foldl (λ (st : string * option float64) x, if after (ap_Timestamp x) st.1 && bool_decide (is_Some (ap_Value x)) then (ap_Timestamp x, ap_Value x) else st) (ap_Timestamp d, ap_Value d) ds).2
  end.
Definition putNonEmpty (k v : string) (m : gmap string string) : gmap string string := if String.eqb v "" then m else <[k := v]> m.
Definition newDimensions (p : Process) (partitionName : string) : gmap string string :=
  putNonEmpty "partition_name" partitionName (putNonEmpty "shard_name" (pr_ShardName p) (putNonEmpty "replica_set_name" (pr_ReplicaSetName p)
    (<["process_id" := pr_ID p]> (<["project_id" := pr_ProjectID p]> (<["host" := pr_Host p]> (<["port" := pretty (pr_Port p)]> {["type_name" := pr_TypeName p]})))))).
Definition newDps (metricsMap : gmap string string) (p : Process) (ms : list Measurement) (partitionName : string) : list sfxDatapoint :=
  flat_map (λ m, match newFloatValue (me_DataPoints m), metricsMap !! me_Name m with
                 | Some v, Some name => if String.eqb name "" then [] else [mkDatapoint name Gauge (FloatValue v) (newDimensions p partitionName)]
                 | _, _ => []
                 end) ms.
Definition atlas_collect (metricsMap : gmap string string) (ps : list (Process * list Measurement)) (ds : list (Process * (string * list Measurement))) : list sfxDatapoint :=
  flat_map (λ kv, newDps metricsMap kv.1 kv.2 "") ps ++ flat_map (λ kv, newDps metricsMap kv.1 kv.2.2 kv.2.1) ds.

(** ** Pages are complete *)

(** Pages [1 .. length l] with the contents of [l]. *)
Definition paged {A} (l : list (list A)) (n : nat) : page (list A) :=
  match l !! (n - 1)%nat with None => PageError | Some c => Page c (if (n <? length l)%nat then Some (S n) else None) end.
Lemma listPages_from {A} (l : list (list A)) fuel : ∀ n, (1 ≤ n ≤ length l)%nat → (length l < fuel + n)%nat → listPages fuel (paged l) n ≡ₚ concat (drop (n - 1) l).
Proof.
  induction fuel as [|fuel IH]; intros n Hn Hf; [lia|]. cbn [listPages]. unfold paged at 1. destruct (lookup_lt_is_Some_2 l (n - 1)) as [c Hc]; [lia|]. rewrite Hc, (drop_S _ _ _ Hc). cbn [concat].
  destruct (Nat.ltb_spec n (length l)).
  - rewrite IH by lia. replace (S n - 1)%nat with (S (n - 1)) by lia. by rewrite Permutation_app_comm.
  - rewrite drop_ge by lia. cbn. by rewrite app_nil_r.
Qed.
(** All processes and partitions of all pages are listed, with as much fuel as there are pages. *)
Lemma listPages_complete {A} (l : list (list A)) : l ≠ [] → listPages (length l) (paged l) 1 ≡ₚ concat l.
Proof. intros Hl. destruct l as [|c l]; [done|]. rewrite listPages_from; [done | cbn; lia..]. Qed.

(** ** What is measured *)

(** Measurements are different: only the first page is kept, the others are overwritten by it. *)
Lemma setMeasurements_first_page {K A} `{Countable K} fuel (answers : nat → page A) (key : K) m content next : answers 1%nat = Page content next →
  setMeasurements (S fuel) answers 1 key m !! key = Some content.
Proof. intros Ha. cbn [setMeasurements]. by rewrite Ha, lookup_insert_eq. Qed.
(** And of the partitions of a process only the one stored last is kept. *)
Lemma one_partition_per_process fuel answers p names last c next : answers p last 1%nat = Page c next →
  diskMeasurements (S fuel) answers [(p, names ++ [last])] !! p = Some (last, c).
Proof.
  intros Ha. unfold diskMeasurements. cbn [foldl fst snd]. rewrite foldl_app. cbn [foldl]. apply (setMeasurements_first_page fuel _ p _ (last, c) next). by rewrite Ha.
Qed.

(** The value that is sent is the latest one, if the first data point has a value. *)
Lemma newFloatValue_latest d ds : is_Some (ap_Value d) → ∃ x, x ∈ d :: ds ∧ newFloatValue (d :: ds) = ap_Value x ∧ is_Some (ap_Value x) ∧
  ∀ y, y ∈ d :: ds → is_Some (ap_Value y) → String.le (ap_Timestamp y) (ap_Timestamp x).
Proof.
  cbn [newFloatValue]. intros Hd. assert (Hgen : ∀ l (seen : list dataPoint) x, x ∈ seen → is_Some (ap_Value x) → (∀ y, y ∈ seen → is_Some (ap_Value y) → String.le (ap_Timestamp y) (ap_Timestamp x)) →
    ∃ z, z ∈ seen ++ l ∧ foldl (λ (st : string * option float64) x, if after (ap_Timestamp x) st.1 && bool_decide (is_Some (ap_Value x)) then (ap_Timestamp x, ap_Value x) else st) (ap_Timestamp x, ap_Value x) l = (ap_Timestamp z, ap_Value z) ∧
      is_Some (ap_Value z) ∧ ∀ y, y ∈ seen ++ l → is_Some (ap_Value y) → String.le (ap_Timestamp y) (ap_Timestamp z)).
  { induction l as [|a l IH]; intros seen x Hx Hv Hmax; [exists x; rewrite app_nil_r; done|]. cbn [foldl fst]. replace (seen ++ a :: l) with ((seen ++ [a]) ++ l) by (by rewrite <- app_assoc).
    unfold after at 2. destruct (bool_decide_reflect (String.le (ap_Timestamp a) (ap_Timestamp x))) as [Hle|Hgt]; cbn [negb andb].
    - apply IH; [set_solver | done|]. intros y [Hy| ->%list_elem_of_singleton]%elem_of_app ?; [by apply Hmax | done].
    - destruct (bool_decide_reflect (is_Some (ap_Value a))) as [Ha|Ha].
      + apply IH; [set_solver | done|]. assert (Hxa : String.le (ap_Timestamp x) (ap_Timestamp a)) by (by destruct (total String.le (ap_Timestamp x) (ap_Timestamp a))).
        intros y [Hy| ->%list_elem_of_singleton]%elem_of_app Hys; [by etrans; [apply Hmax|] | done].
      + apply IH; [set_solver | done|]. intros y [Hy| ->%list_elem_of_singleton]%elem_of_app ?; [by apply Hmax | done]. }
  destruct (Hgen ds [d] d) as (z & Hz & He & Hs & Hm); [set_solver | done | by intros y ->%list_elem_of_singleton|]. exists z. rewrite He. by split_and!.
Qed.
(** With a latest data point first that has no value, nothing is sent, whatever the others have. *)
Lemma empty_first_point_hides t ds : Forall (λ x, String.le (ap_Timestamp x) t) ds → newFloatValue ({| ap_Timestamp := t; ap_Value := None |} :: ds) = None.
Proof.
  intros Hf. cbn [newFloatValue ap_Timestamp ap_Value]. induction Hf as [|x ds Hx Hf IH]; [done|]. cbn [foldl fst]. unfold after at 2. rewrite bool_decide_eq_true_2 by done. cbn [negb andb]. exact IH.
Qed.

(** ** The caches *)

(** With the cache every round returns what some round before it, or itself, has measured: never anything else. *)
Fixpoint rounds {A} (enableCache : bool) (cache : option A) (l : list (A * bool)) : list A :=
  match l with [] => [] | (fresh, early) :: l => let '(r, cache) := cached enableCache early cache fresh in r :: rounds enableCache cache l end.
Lemma rounds_measured {A} enableCache (l : list (A * bool)) i r : rounds enableCache None l !! i = Some r → ∃ j, (j ≤ i)%nat ∧ (i ≤ S j)%nat ∧ l.*1 !! j = Some r.
Proof.
  assert (Hgen : ∀ (l : list (A * bool)) cache i r, rounds enableCache cache l !! i = Some r → (i = O ∧ cache = Some r ∧ enableCache = true) ∨ ∃ j, (j ≤ i)%nat ∧ (i ≤ S j)%nat ∧ l.*1 !! j = Some r).
  { clear. induction l as [|[fresh early] l IH]; intros cache i r Hr; [done|]. cbn [rounds] in Hr. unfold cached in Hr. destruct enableCache.
    - destruct i as [|i]; cbn in Hr.
      + injection Hr as <-. destruct early; [right; exists O; cbn; split_and!; [lia | lia | done]|]. destruct cache as [c|]; [by left | right; exists O; cbn; split_and!; [lia | lia | done]].
      + destruct (IH _ _ _ Hr) as [(-> & [= ->] & _)|(j & H1 & H2 & Hj)]; right; [exists O; cbn; split_and!; [lia | lia | done] | exists (S j); split_and!; [lia | lia | done]].
    - destruct i as [|i]; cbn in Hr; [injection Hr as <-; right; exists O; cbn; split_and!; [lia | lia | done]|].
      destruct (IH _ _ _ Hr) as [(_ & _ & ?)|(j & H1 & H2 & Hj)]; [done|]. right. exists (S j). split_and!; [lia | lia | done]. }
  intros Hr. destruct (Hgen l None i r Hr) as [(_ & ? & _)|?]; done.
Qed.
